(* ===== verification/_CoqProject ===== *)
-Q . S2P
Prelude.v
Mmio.v
Can.v
CanTiming.v
CanProps.v
CanFrame.v
CanTransfer.v
Gdma.v
GdmaProps.v
Pcie.v
PcieRegion.v
PcieTrace.v
PcieSim.v
PcieSafety.v
PcieBar.v
PcieBridge.v
PcieTotal.v
PcieTermination.v
PcieWindows.v
PcieProps.v
Bitmap.v
BdRing.v
BdRingProps.v
NandBbm.v
NandBbmProps.v
NandEcc.v
Sema.v
SemaProps.v
GdbPacket.v
GdbPacketProps.v
GdbLink.v
GdbArch.v
GdbArchProps.v
GdbSession.v
GdbSpec.v
GdbServe.v
GdbSessionProps.v
GdbRoundtrip.v
GdbProtocol.v
GdbProtocolProps.v
Uart.v
UartProps.v
UartConfig.v
Mmu.v
MmuTables.v
MmuMap.v
MmuMapping.v
MmuProps.v
Printk.v
PrintkSpec.v
PrintkProps.v
PrintfProps.v
Trace.v
TraceSpec.v
TraceProps.v
TraceMmu.v
