(* ===== verification/Prelude.v ===== *)
(** * Verification of the Phytium standalone SDK

    The repository is the FreeRTOS SDK of the Phytium E2000 and D2000 boards.
    Its own logic is the standalone SDK under src/standalone: drivers over
    memory-mapped registers, and architecture code (page tables, exceptions,
    a GDB stub).  The FreeRTOS kernel, lwIP, file systems and newlib are
    vendored.  This development follows the components of the SDK that keep
    state of their own, function by function, for the AArch64 port.

    ** The parts

    Each part is a file with the data and the operations as in the C code,
    under the names of the C code, and files of properties beside it.

    - Prelude: results of C code, machine integers, single bits, lists; Mmio:
      common/fio.h, registers as a class.
    - Can: drivers/can/fcan (fcan.c, fcan_intr.c), the CAN controller; CanTiming:
      the search for a bit timing; CanFrame, CanTransfer: headers, frames sent and
      received; CanProps: what the driver relies on, setting the rate, interrupts.
    - Gdma: drivers/dma/fgdma, the DMA controller; GdmaProps: programming a channel,
      descriptors, stopping all channels.
    - Pcie: drivers/pcie/fpcie_ecam (fpcie_ecam.c, fpcie_ecam_caps.c,
      fpcie_ecam_intx.c), the enumeration of a PCI Express bus, capabilities and
      legacy interrupts; PcieRegion: the allocator of addresses; PcieTrace: the log of
      a run on any bus, and PcieSim a small bus; PcieSafety, PcieBar, PcieBridge,
      PcieWindows: the addresses assigned, BARs read back, bridges and their windows;
      PcieTotal, PcieTermination: the enumeration ends; PcieProps: the whole.
    - Bitmap: common/fbitmap.c, bitmaps over machine words.
    - BdRing, BdRingProps: drivers/eth/fxmac/fxmac_bdring.c and its copy
      fxmac_v2_0/fxmac_msg_bdring.c, the rings of DMA descriptors of the
      Ethernet controller.
    - NandBbm, NandBbmProps: drivers/nand/fnand/fnand_bbm.c, the bad block
      table, with the page operations of fnand.c below it;
      NandEcc: fnand_ecc.c, the correction of wrong bits.
    - Sema, SemaProps: drivers/ipc/fsemaphore, hardware semaphores.
    - Uart, UartProps, UartConfig: drivers/serial/fpl011, the PL011 UART
      (transfers and interrupts; baud rate, format, options, mode).
    - GdbPacket, GdbPacketProps: arch/armv8/common/gdb/fgdb_packet.c and
      fgdb_def.h, packets of the remote protocol.  GdbLink is the view its
      callers have of it: reading is parsing a list, composing appends to one.
    - GdbArch, GdbArchProps: aarch64/gdb/fgdb_arch.c, break- and watchpoints.
    - GdbSession: fgdb.c, fgdb_main.c and fgdb_thread.c, the request loop over
      both; GdbSpec: every request as a function of its text; GdbServe,
      GdbSessionProps, GdbRoundtrip: the former behaves as the latter.  GdbProtocol:
      the remote protocol on an abstract machine, without the code; GdbProtocolProps:
      the session serves a debugger that speaks it.
    - Mmu: aarch64/fmmu.c and fmmu.h, page tables for the 4K, 16K and 64K
      granules; MmuTables: the walk of the hardware and well-formed tables;
      MmuMap, MmuMapping: the operations and the loop of SetMapping; MmuProps.
    - Printk: common/fprintk.c and common/fprintf.c, the two formatters;
      PrintkSpec: what the C standard says [printf] prints; PrintkProps,
      PrintfProps: where they agree, and where they do not.
    - Trace: common/ftrace_printk.c, messages in a ring in shared memory;
      TraceSpec: a bounded queue of lines; TraceProps: the former implements the
      latter; TraceMmu: the same over the page tables, and concrete runs.

    Parts that call each other: the session of the stub calls the packet layer
    and the debug registers (GdbLink and GdbArchProps are the interfaces it is
    verified against); the bad block table calls the page operations, and these
    the controller (class [NandDev]); the trace buffer prints with [f_printf] and
    maps its memory with [FMmuMap] (class [MemoryMap], whose law [MemoryMapOk] the
    page tables discharge).  The other parts are independent.

    ** How the code is modelled

    A C function is a Rocq function from the state it reads to the state it
    leaves and its value.  A function that can fail to return is in the result
    type [res]: [AssertFailed] for a failed FASSERT, which loops for ever;
    [Undefined] for what C leaves undefined (shifts out of range, overflow of
    signed integers, accesses outside an object); [OutOfFuel] for a loop whose
    bound is not in the code.  Integers are [Z] with the wrap-around of their
    type written out ([u8], [u16], [u32], [u64]).  Pointers are indices or
    addresses in the object or memory they point into.

    Hardware is a class: its operations are the register accesses of the code
    ([SemaHw], [NandDev], [MmioHw]), and what the code relies on is a second
    class of laws ([SemaLaws], [FlashLaws], [UartLaws], [CanLaws], [PcieTopology], [GdmaLaws], [GdmaRun]),
    taken from the comments on the register map and the bus.  Callbacks of the
    application are classes too ([PcieClient], [PcieIntx]), and [MmioNarrow] has the
    accesses of 8 and 16 bits.  Each class of laws has an instance, a small simulated
    device, on which the witnesses evaluate.

    Loops over a counter in the code run on that counter.  Fuel is needed only
    where the code waits: transmissions and attempts of the GDB packet layer and
    the number of requests of a session, polls of the UART transmitter, and
    the waiting of FXmacBdRingFromHwTx.  The theorems say how much is enough
    or that none is.  The enumeration of a bus takes as much as the bridges are deep,
    the walk of a capability list as much as it is long; the digits of a number take 64
    turns, one for each bit; the loops over the trace buffer take as many turns as it has
    characters.  The loop of SetMapping runs on [passes], the number of
    pages in the request, which always suffices (part of [FMmuMap_correct]).

    ** What is shown

    - Descriptor rings: every call refines operations on four FIFO lists
      (free, being prepared, owned by the hardware, done), errors included, or
      does what is said of it: FXmacBdRingFromHwTx waits for ever for a
      descriptor the hardware does not finish, and FXmacBdRingFromHwRx counts
      descriptors the hardware does not own when its limit is larger than the
      group.  In every ring reached by calls other than the latter no descriptor
      is lost or duplicated and the hardware returns them in order; creation and
      cloning establish the invariant.
    - Page tables: mapping and unmapping change the translation of exactly
      the addresses asked for, release the tables that become empty, and fail only
      for the reasons stated; a mapping over an existing one may keep a block that
      has the attributes and the offset asked for, but another address.  In every
      state reached by starting the driver and by requests to map, to unmap and to
      set attributes no linked table is shared and use counts are exact.  Mappings
      for which the architecture has no block, 512G and more with 4K pages and 64G
      with 16K, are not covered: there the code writes reserved descriptors.
    - GDB stub: the session serves a debugger that speaks the remote protocol,
      as GdbProtocol.v has it (which says what requests are left out); packets
      survive damage and retransmission; encodings are inverse; memory and registers
      written are read back; the debug registers agree with the table of points, and
      the hardware with its shadow.
    - UART: bytes are sent and stored in order, each once, under any
      interrupts, and every interrupt makes progress; the baud rate divisors
      are the nearest, as far as the fields of the registers hold them; what
      configuration changes.
    - NAND: marking a block changes its type only, in RAM and in flash, and a
      restart finds it again; reported bit errors are repaired.
    - Semaphores: one holder at a time, whatever cores do; bitmaps: setting,
      clearing and searching bits, within the bitmap.
    - CAN: a frame sent is received as the same frame, and never overruns the FIFO
      unless it is a classic frame that is too long; the bit timing is as good as that of an exhaustive search; each interrupt
      calls the handlers of its events.  Lengths without a code, classic frames that
      are too long, and a reception that coincides with a transmission, are what goes
      wrong.
    - DMA: a channel is programmed with the transfer asked for, and no other channel is
      touched; descriptors read back; stopping all channels stops short at the first one
      that is not in use.
    - PCI Express: whatever is on the bus, the address blocks assigned are aligned,
      inside the windows of the controller and disjoint, a bridge passes on what lies
      behind it (with a 32-bit window for prefetchable memory, what of it lies below
      4G), and the enumeration ends; blocks are the lowest that fit; reading a
      BAR leaves it as it was.
    - Printing: both formatters print what the C standard prescribes, outside a list
      of cases that is part of the theorem, and digits read back as the number; a format that ends inside a
      directive stops the one and is overrun by the other.
    - Trace buffer: under calls with names of less than 128 characters it is a queue of
      lines that drops the oldest ones, or all of them when a message fills it exactly;
      messages come out as they went in.

    Where the code does something else than it promises, a theorem states
    what it does (a negative result is proved, not left out); where a
    specification excludes a case, its file says which and why.

    ** Not modelled

    - Register programming without state of its own: SPI, I2C, SD, SATA,
      the other DMA controller, audio, display, pins, timers, other Ethernet controllers, caches.
    - Calls into firmware and the interrupt controller: PSCI, SMC, SCMI, GIC,
      ITS; the interrupt framework above it; the AArch32 port.
    - PCI Express: message signalled interrupts, the filter of functions of the
      PD1904 board (FPCIE_NEED_SKIP_TYPE0).
    - The dump of the page tables and the traces of drivers; [char] is a number of 8
      bits, and an argument of a formatter has the type it is passed with.  What the
      processor at the other end of the trace buffer writes.
    - Memory barriers, cache maintenance and concurrency within a function:
      functions are atomic against the hardware but for the steps of the
      step relations (semaphores between cores, UART interrupts between calls).
    - The FreeRTOS glue under src/drivers, the examples, the build tools and
      everything vendored. *)
From Stdlib Require Export ZArith Lia Btauto.
From stdpp Require Export base numbers list option.

#[global] Open Scope Z_scope.

(** ** Results of C code

    A C function of the SDK either returns, or stops in a failed [FASSERT]
    (which loops forever, see [FAssert] of common/fassert.c), or does
    something C leaves undefined (an out-of-range shift, an access outside
    an object), or is still running when the fuel of the model is used up. *)
Inductive fault : Set :=
| AssertFailed
| Undefined
| OutOfFuel.

Inductive res (A : Type) : Type :=
| Ok (a : A)
| Fault (f : fault).
Arguments Ok {A} a.
Arguments Fault {A} f.

#[export] Instance fault_eq_dec : EqDecision fault.
Proof. solve_decision. Defined.

Definition rbind {A B} (x : res A) (f : A -> res B) : res B :=
  match x with
  | Ok a => f a
  | Fault e => Fault e
  end.

Declare Scope sdk_scope.
Delimit Scope sdk_scope with sdk.
#[global] Open Scope sdk_scope.

Notation "'let!' x ':=' c1 'in' c2" := (rbind c1 (fun x => c2))
  (at level 10, x pattern, c2 at level 200) : sdk_scope.
Notation "'check!' b 'in' c" := (if b then c else Fault AssertFailed)
  (at level 10, b at level 100, c at level 200) : sdk_scope.

(** [of_option f o] is the value of [o], or the fault [f]. *)
Definition of_option {A} (f : fault) (o : option A) : res A :=
  match o with
  | Some a => Ok a
  | None => Fault f
  end.

(** ** Fixed-width integers

    An unsigned [w]-bit C integer is a [Z] in [0, 2^w); every operation that
    can leave the range is followed by [wrap w]. *)
Definition wrap (w z : Z) : Z := z mod 2 ^ w.

Abbreviation u8 := (wrap 8).
Abbreviation u16 := (wrap 16).
Abbreviation u32 := (wrap 32).
Abbreviation u64 := (wrap 64).

(** The value of a [w]-bit pattern read as a two's complement integer. *)
Definition to_signed (w z : Z) : Z :=
  if wrap w z <? 2 ^ (w - 1) then wrap w z else wrap w z - 2 ^ w.
Abbreviation s32 := (to_signed 32).

(** [BIT(nr)] of common/fkernel.h. *)
Definition BIT (nr : Z) : Z := Z.shiftl 1 nr.

(** [~x] on a [w]-bit unsigned integer. *)
Definition lnotw (w x : Z) : Z := wrap w (Z.lnot x).

(** A C truth value. *)
Definition truth (z : Z) : bool := negb (z =? 0).

(** [FT_MAKE_ERRCODE] of common/ferror_code.h. *)
Definition FT_MAKE_ERRCODE (sys_mode sub_mode tail : Z) : Z :=
  Z.lor
    (Z.lor (Z.land (u32 (Z.shiftl sys_mode 24)) (u32 (Z.shiftl 255 24)))
           (Z.land (u32 (Z.shiftl sub_mode 16)) (u32 (Z.shiftl 255 16))))
    (Z.land (u32 tail) 65535).

Definition FT_SUCCESS : Z := 0.
Definition FT_COMPONENT_IS_READY : Z := 0x11111111.
Definition FT_COMPONENT_IS_STARTED : Z := 0x22222222.
Definition ErrModBsp : Z := 1.

(** ** Lemmas on wrapping *)
Section Wrap.
Context (w : Z) (Hw : 0 <= w).

Lemma pow2_pos : 0 < 2 ^ w.
Proof. by apply Z.pow_pos_nonneg. Qed.

Lemma wrap_range z : 0 <= wrap w z < 2 ^ w.
Proof. apply Z.mod_pos_bound, pow2_pos. Qed.

Lemma wrap_small z : 0 <= z < 2 ^ w -> wrap w z = z.
Proof. apply Z.mod_small. Qed.

Lemma wrap_wrap z : wrap w (wrap w z) = wrap w z.
Proof. apply wrap_small, wrap_range. Qed.

Lemma wrap_add_l a b : wrap w (wrap w a + b) = wrap w (a + b).
Proof. apply Zplus_mod_idemp_l. Qed.

Lemma wrap_add_r a b : wrap w (a + wrap w b) = wrap w (a + b).
Proof. apply Zplus_mod_idemp_r. Qed.

Lemma wrap_sub_l a b : wrap w (wrap w a - b) = wrap w (a - b).
Proof. apply Zminus_mod_idemp_l. Qed.

Lemma wrap_sub_r a b : wrap w (a - wrap w b) = wrap w (a - b).
Proof. apply Zminus_mod_idemp_r. Qed.

Lemma to_signed_small z : 0 <= z < 2 ^ (w - 1) -> to_signed w z = z.
Proof.
  intros Hz. unfold to_signed.
  assert (2 ^ (w - 1) <= 2 ^ w) by (apply Z.pow_le_mono_r; lia).
  rewrite wrap_small by lia. destruct (Z.ltb_spec z (2 ^ (w - 1))); [done|lia].
Qed.

(** One period too high or too low. *)
Lemma wrap_above z : 2 ^ w <= z < 2 * 2 ^ w -> wrap w z = z - 2 ^ w.
Proof.
  intros H. unfold wrap. symmetry. apply Zmod_unique with 1; lia.
Qed.

Lemma wrap_below z : - 2 ^ w <= z < 0 -> wrap w z = z + 2 ^ w.
Proof.
  intros H. unfold wrap. symmetry. apply Zmod_unique with (-1); lia.
Qed.

Lemma wrap_testbit z i :
  Z.testbit (wrap w z) i = (i <? w) && Z.testbit z i.
Proof.
  unfold wrap. destruct (Z.ltb_spec i w).
  - destruct (Z.leb_spec 0 i).
    + by rewrite Z.mod_pow2_bits_low.
    + by rewrite !Z.testbit_neg_r by lia.
  - rewrite Z.mod_pow2_bits_high; [done|lia].
Qed.
End Wrap.

(** ** Bits *)
Lemma testbit_high w z i : 0 <= z < 2 ^ w -> w <= i -> Z.testbit z i = false.
Proof.
  intros Hz Hi. destruct (Z.leb_spec 0 w).
  - rewrite <-(Z.mod_small z (2 ^ w)) by done.
    apply Z.mod_pow2_bits_high. lia.
  - rewrite Z.pow_neg_r in Hz by lia. lia.
Qed.

Lemma BIT_testbit n i : 0 <= n -> Z.testbit (BIT n) i = (i =? n).
Proof.
  intros Hn. unfold BIT. rewrite Z.shiftl_1_l, Z.pow2_bits_eqb by done.
  apply Z.eqb_sym.
Qed.

Lemma testbit_if (b : bool) x y i :
  Z.testbit (if b then x else y) i = if b then Z.testbit x i else Z.testbit y i.
Proof. by destruct b. Qed.

Lemma ones_testbit n i :
  0 <= n -> Z.testbit (Z.ones n) i = (0 <=? i) && (i <? n).
Proof.
  intros Hn. destruct (Z.leb_spec 0 i); [|by rewrite Z.testbit_neg_r by lia].
  destruct (Z.ltb_spec i n).
  - by apply Z.ones_spec_low.
  - apply Z.ones_spec_high. lia.
Qed.

Lemma lnot_testbit z i : 0 <= i -> Z.testbit (Z.lnot z) i = negb (Z.testbit z i).
Proof. apply Z.lnot_spec. Qed.

Lemma lnotw_testbit w z i :
  0 <= w -> 0 <= i ->
  Z.testbit (lnotw w z) i = (i <? w) && negb (Z.testbit z i).
Proof. intros. unfold lnotw. by rewrite wrap_testbit, lnot_testbit. Qed.

(** A number all of whose bits from [w] up are 0 is below [2^w]. *)
Lemma bits_range w z :
  0 <= w -> 0 <= z -> (forall i, w <= i -> Z.testbit z i = false) -> z < 2 ^ w.
Proof.
  intros Hw Hz Hb.
  replace z with (wrap w z); [by apply wrap_range|].
  apply Z.bits_inj'. intros i Hi. rewrite wrap_testbit by done.
  destruct (Z.ltb_spec i w); [done|]. by rewrite Hb.
Qed.

Lemma lor_range w a b :
  0 <= w -> 0 <= a < 2 ^ w -> 0 <= b < 2 ^ w -> 0 <= Z.lor a b < 2 ^ w.
Proof.
  intros Hw Ha Hb. split; [apply Z.lor_nonneg; lia|].
  apply bits_range; [done|apply Z.lor_nonneg; lia|].
  intros i Hi. rewrite Z.lor_spec.
  by rewrite (testbit_high w a), (testbit_high w b).
Qed.

Lemma land_range w a b :
  0 <= w -> 0 <= a < 2 ^ w -> 0 <= b -> 0 <= Z.land a b < 2 ^ w.
Proof.
  intros Hw Ha Hb. split; [apply Z.land_nonneg; lia|].
  apply bits_range; [done|apply Z.land_nonneg; lia|].
  intros i Hi. rewrite Z.land_spec. by rewrite (testbit_high w a).
Qed.

(** Where no bit is set in both, [Z.lor] adds. *)
Lemma lor_disjoint a b :
  (forall i, 0 <= i -> Z.testbit a i && Z.testbit b i = false) -> Z.lor a b = a + b.
Proof.
  intros H. rewrite <-Z.lxor_lor, <-Z.add_nocarry_lxor; try done.
  all: apply Z.bits_inj'; intros i Hi; rewrite Z.land_spec, Z.testbit_0_l; by apply H.
Qed.

Lemma lor_shiftl w a b :
  0 <= w -> 0 <= b < 2 ^ w -> Z.lor (Z.shiftl a w) b = Z.shiftl a w + b.
Proof.
  intros Hw Hb. apply lor_disjoint. intros i Hi. rewrite Z.shiftl_spec by done.
  destruct (Z.ltb_spec i w).
  - by rewrite Z.testbit_neg_r by lia.
  - by rewrite (testbit_high w b), andb_false_r.
Qed.

Create Rewrite HintDb cbits.
#[export] Hint Rewrite Z.lor_spec Z.land_spec Z.lxor_spec Z.testbit_0_l
  Z.shiftl_0_l Z.shiftr_0_l Z.land_0_r Z.lor_0_r testbit_if : cbits.
#[export] Hint Rewrite Z.shiftl_spec Z.shiftr_spec Z.ldiff_spec BIT_testbit ones_testbit
  lnot_testbit lnotw_testbit wrap_testbit using lia : cbits.

(** Splits every comparison of integers left in the goal. *)
Ltac split_cmp :=
  repeat match goal with
  | |- context [?a <? ?b] => destruct (Z.ltb_spec a b)
  | |- context [?a <=? ?b] => destruct (Z.leb_spec a b)
  | |- context [?a =? ?b] => destruct (Z.eqb_spec a b)
  end.

(** Decides the comparisons of the goal that follow from the context. *)
Ltac decide_cmp :=
  repeat match goal with
  | |- context [?a <? ?b] =>
      first [rewrite (proj2 (Z.ltb_lt a b)) by lia | rewrite (proj2 (Z.ltb_ge a b)) by lia]
  | |- context [?a <=? ?b] =>
      first [rewrite (proj2 (Z.leb_le a b)) by lia | rewrite (proj2 (Z.leb_gt a b)) by lia]
  | |- context [?a =? ?b] =>
      first [rewrite (proj2 (Z.eqb_eq a b)) by lia | rewrite (proj2 (Z.eqb_neq a b)) by lia]
  end.

(** Equality of two integers bit by bit. *)
Ltac bitwise i Hi :=
  apply Z.bits_inj'; intros i Hi; autorewrite with cbits.

(** Decides a closed goal built from comparisons of integers by computation. *)
Ltac zdec :=
  repeat match goal with
  | |- _ /\ _ => split
  | |- Forall _ _ => constructor
  | |- _ <= _ < _ => split
  | |- _ <= _ => apply Z.leb_le; vm_compute; reflexivity
  | |- _ < _ => apply Z.ltb_lt; vm_compute; reflexivity
  | |- _ = _ => vm_compute; reflexivity
  | |- _ <> _ => vm_compute; discriminate
  end.

(** Closes a goal on ranges of results. *)
Create HintDb ranges.
#[export] Hint Resolve wrap_range lor_range land_range : ranges.

(** ** Arrays

    A C array is a list; an access outside it is undefined behaviour. *)
Definition aget {A} (l : list A) (i : Z) : res A :=
  if i <? 0 then Fault Undefined else of_option Undefined (l !! Z.to_nat i).

Definition aset {A} (l : list A) (i : Z) (x : A) : res (list A) :=
  if (0 <=? i) && (i <? Z.of_nat (length l)) then Ok (<[Z.to_nat i := x]> l)
  else Fault Undefined.

Lemma aget_Some {A} (l : list A) i x :
  0 <= i -> l !! Z.to_nat i = Some x -> aget l i = Ok x.
Proof.
  intros Hi Hx. unfold aget. destruct (Z.ltb_spec i 0); [lia|]. by rewrite Hx.
Qed.

Lemma aget_Ok {A} (l : list A) i x :
  aget l i = Ok x -> 0 <= i < Z.of_nat (length l) /\ l !! Z.to_nat i = Some x.
Proof.
  unfold aget. destruct (Z.ltb_spec i 0); [done|].
  destruct (l !! Z.to_nat i) eqn:E; simpl; intros; simplify_eq.
  apply lookup_lt_Some in E as HE. split; [lia|done].
Qed.

Lemma aget_in_range {A} (l : list A) i :
  0 <= i < Z.of_nat (length l) -> exists x, aget l i = Ok x.
Proof.
  intros Hi. destruct (lookup_lt_is_Some_2 l (Z.to_nat i)) as [x Hx]; [lia|].
  exists x. apply aget_Some; [lia|done].
Qed.

Lemma aset_in_range {A} (l : list A) i (x : A) :
  0 <= i < Z.of_nat (length l) -> aset l i x = Ok (<[Z.to_nat i := x]> l).
Proof.
  intros Hi. unfold aset.
  destruct (Z.leb_spec 0 i), (Z.ltb_spec i (Z.of_nat (length l))); (done || lia).
Qed.
