(* ===== verification/Mmio.v ===== *)
(** Memory-mapped registers: src/standalone/common/fio.h.

    A controller is a state that reads and writes change; its registers are named by
    the base address of the controller and an offset.  What a driver relies on of a
    controller is a class of laws over this one, beside the driver's properties. *)
From S2P Require Import Prelude.

Class MmioHw := {
  hw : Type;
  FtIn32 : hw -> Z -> Z -> Z * hw;
  FtOut32 : hw -> Z -> Z -> Z -> hw
}.

Definition FtSetBit32 `{MmioHw} (h : hw) (base off value : Z) : hw :=
  let '(last_value, h) := FtIn32 h base off in
  FtOut32 h base off (Z.lor last_value value).

Definition FtClearBit32 `{MmioHw} (h : hw) (base off value : Z) : hw :=
  let '(last_value, h) := FtIn32 h base off in
  FtOut32 h base off (Z.land last_value (lnotw 32 value)).

(** The accesses of 8 and 16 bits. *)
Class MmioNarrow `{MmioHw} := {
  FtIn8 : hw -> Z -> Z -> Z * hw;
  FtIn16 : hw -> Z -> Z -> Z * hw;
  FtOut8 : hw -> Z -> Z -> Z -> hw;
  FtOut16 : hw -> Z -> Z -> Z -> hw
}.
