(* ===== verification/Can.v ===== *)
(** The CAN driver: src/standalone/drivers/can/fcan/ (fcan.c, fcan_intr.c and their
    headers).

    The bit timing is computed for the five boards the SDK supports ([soc_target]).
    The handlers of the application are addresses; [calls] logs the calls they get,
    what they do is outside the model.  The type punning of the driver between bytes
    and words is the byte order of the processor, little endian. *)
From S2P Require Import Prelude Mmio.

Module Can.

(** ** fkernel.h and fswap.h *)
Definition GENMASK (h l : Z) : Z :=
  Z.land (u32 (u32 (0xffffffff - BIT l) + 1)) (Z.shiftr 0xffffffff (31 - h)).
Definition GET_REG32_BITS (x a b : Z) : Z := Z.shiftr (Z.land (u32 x) (GENMASK a b)) b.
Definition SET_REG32_BITS (x a b : Z) : Z := Z.land (u32 (Z.shiftl (u32 x) b)) (GENMASK a b).
Definition clamp (val lo hi : Z) : Z := Z.min (Z.max val lo) hi.
Definition __swab32 (x : Z) : Z :=
  Z.lor (Z.shiftl (Z.land x 0xff) 24)
    (Z.lor (Z.shiftl (Z.land (Z.shiftr x 8) 0xff) 16)
       (Z.lor (Z.shiftl (Z.land (Z.shiftr x 16) 0xff) 8) (Z.land (Z.shiftr x 24) 0xff))).
Definition be32_to_cpu (x : Z) : Z := __swab32 x.

(** Division and [abs] of the C library, where they are defined. *)
Definition udiv (a b : Z) : res Z := if b =? 0 then Fault Undefined else Ok (a / b).
Definition abs (x : Z) : res Z := if s32 x =? - 2 ^ 31 then Fault Undefined else Ok (Z.abs (s32 x)).

Definition TRUE : Z := 1.
Definition FALSE : Z := 0.

(** ** fcan.h *)
Definition ErrBspCan : Z := 9.
Definition FCAN_SUCCESS : Z := FT_SUCCESS.
Definition FCAN_FAILURE : Z := FT_MAKE_ERRCODE ErrModBsp ErrBspCan 2.
Definition FCAN_INVAL_PARAM : Z := FT_MAKE_ERRCODE ErrModBsp ErrBspCan 3.
Definition FCAN_TX_FIFO_FULL_ERR : Z := FT_MAKE_ERRCODE ErrModBsp ErrBspCan 4.
Definition FCAN_RX_FIFO_EMPTY_ERR : Z := FT_MAKE_ERRCODE ErrModBsp ErrBspCan 5.
Definition FCAN_DATA_LENGTH : Z := 64.
Definition CAN_SFF_ID_BITS : Z := 11.
Definition CAN_EFF_ID_BITS : Z := 29.
Definition CAN_EFF_FLAG : Z := 0x80000000.
Definition CAN_RTR_FLAG : Z := 0x40000000.
Definition CAN_SFF_MASK : Z := 0x7ff.
Definition CAN_EFF_MASK : Z := 0x1fffffff.
Definition CAN_CALC_MAX_ERROR : Z := 50.
Definition CAN_CALC_SYNC_SEG : Z := 1.
Definition FCAN_PROBE_MONITOR_MODE : Z := 0.
Definition FCAN_PROBE_NORMAL_MODE : Z := 1.
Definition FCAN_STANDARD_FRAME : Z := 0.
Definition FCAN_FD_CAPACITY : Z := 1.
Definition FCAN_BAUDRATE_10K : Z := 10000.
Definition FCAN_BAUDRATE_50K : Z := 50000.
Definition FCAN_BAUDRATE_1000K : Z := 1000000.
Definition FCAN_BAUDRATE_5000K : Z := 5000000.
Definition CANFD_BRS : Z := 2.
Definition CANFD_ESI : Z := 4.

(** [FCanIntrEventType]. *)
Definition FCAN_INTR_EVENT_SEND : Z := 0.
Definition FCAN_INTR_EVENT_RECV : Z := 1.
Definition FCAN_INTR_EVENT_ERROR : Z := 2.
Definition FCAN_INTR_EVENT_BUSOFF : Z := 3.
Definition FCAN_INTR_EVENT_PERROE : Z := 4.
Definition FCAN_INTR_EVENT_PWARN : Z := 5.
Definition FCAN_INTR_EVENT_FIFOFULL : Z := 6.
Definition FCAN_INTR_EVENT_FIFOEMPTY : Z := 7.
Definition FCAN_INTR_EVENT_NUM : Z := 8.

(** [FCanSegmentType]. *)
Definition FCAN_ARB_SEGMENT : Z := 0.
Definition FCAN_DATA_SEGMENT : Z := 1.
Definition FCAN_SEGMENT_TYPE_NUM : Z := 2.

Record FCanIntrEventConfig := mkEvent { type : Z; handler : Z; param : Z }.
Record FCanIdMaskConfig := mkIdMask {
  filter_index : Z;
  id : Z;
  mask : Z;
  frame_type : Z (* the member [type] *)
}.
Record FCanFrame := mkFrame { canid : Z; candlc : Z; flags : Z; data : list Z }.
Record FCanConfig := mkConfig {
  instance_id : Z;
  base_address : Z;
  irq_num : Z;
  irq_prority : Z;
  caps : Z
}.
Record FCanBaudrateConfig := mkBaudrate {
  segment : Z;
  auto_calc : Z;
  baudrate : Z;
  sample_point : Z;
  prop_seg : Z;
  phase_seg1 : Z;
  phase_seg2 : Z;
  sjw : Z;
  brp : Z
}.
Record FCanXferStatus := mkXfer { xfers : Z; rs : Z; ts : Z; fies : Z; fras : Z }.
Record FCanStatus := mkStatus {
  xfer_status : FCanXferStatus;
  tx_err_cnt : Z;
  rx_err_cnt : Z;
  tx_fifo_cnt : Z;
  rx_fifo_cnt : Z
}.
Record FCanCtrl := mkCtrl {
  config : FCanConfig;
  is_ready : Z;
  use_canfd : Z;
  intr_event : Z -> FCanIntrEventConfig
}.

(** ** fcan_hw.h *)
Definition FCAN_CTRL_OFFSET : Z := 0x00.
Definition FCAN_INTR_OFFSET : Z := 0x04.
Definition FCAN_ARB_RATE_CTRL_OFFSET : Z := 0x08.
Definition FCAN_DAT_RATE_CTRL_OFFSET : Z := 0x0C.
Definition FCAN_ACC_ID0_OFFSET : Z := 0x10.
Definition FCAN_ACC_ID1_OFFSET : Z := 0x14.
Definition FCAN_ACC_ID2_OFFSET : Z := 0x18.
Definition FCAN_ACC_ID3_OFFSET : Z := 0x1C.
Definition FCAN_ACC_ID0_MASK_OFFSET : Z := 0x20.
Definition FCAN_ACC_ID1_MASK_OFFSET : Z := 0x24.
Definition FCAN_ACC_ID2_MASK_OFFSET : Z := 0x28.
Definition FCAN_ACC_ID3_MASK_OFFSET : Z := 0x2C.
Definition FCAN_XFER_STS_OFFSET : Z := 0x30.
Definition FCAN_ERR_CNT_OFFSET : Z := 0x34.
Definition FCAN_FIFO_CNT_OFFSET : Z := 0x38.
Definition FCAN_DMA_CTRL_OFFSET : Z := 0x3C.
Definition FCAN_TX_FIFO_OFFSET : Z := 0x100.
Definition FCAN_RX_FIFO_OFFSET : Z := 0x200.

Definition FCAN_CTRL_XFER_MASK : Z := BIT 0.
Definition FCAN_CTRL_TXREQ_MASK : Z := BIT 1.
Definition FCAN_CTRL_AIME_MASK : Z := BIT 2.
Definition FCAN_CTRL_RST_MASK : Z := BIT 7.
Definition FCAN_CTRL_IOF_MASK : Z := BIT 10.
Definition FCAN_CTRL_FDCRC_MASK : Z := BIT 11.

Definition FCAN_INTR_BOIS_MASK : Z := BIT 0.
Definition FCAN_INTR_PWIS_MASK : Z := BIT 1.
Definition FCAN_INTR_PEIS_MASK : Z := BIT 2.
Definition FCAN_INTR_RFIS_MASK : Z := BIT 3.
Definition FCAN_INTR_TFIS_MASK : Z := BIT 4.
Definition FCAN_INTR_REIS_MASK : Z := BIT 5.
Definition FCAN_INTR_TEIS_MASK : Z := BIT 6.
Definition FCAN_INTR_EIS_MASK : Z := BIT 7.
Definition FCAN_INTR_BOIE_MASK : Z := BIT 8.
Definition FCAN_INTR_PWIE_MASK : Z := BIT 9.
Definition FCAN_INTR_PEIE_MASK : Z := BIT 10.
Definition FCAN_INTR_RFIE_MASK : Z := BIT 11.
Definition FCAN_INTR_TFIE_MASK : Z := BIT 12.
Definition FCAN_INTR_REIE_MASK : Z := BIT 13.
Definition FCAN_INTR_TEIE_MASK : Z := BIT 14.
Definition FCAN_INTR_EIE_MASK : Z := BIT 15.
Definition FCAN_INTR_BOIC_MASK : Z := BIT 16.
Definition FCAN_INTR_PWIC_MASK : Z := BIT 17.
Definition FCAN_INTR_PEIC_MASK : Z := BIT 18.
Definition FCAN_INTR_RFIC_MASK : Z := BIT 19.
Definition FCAN_INTR_TFIC_MASK : Z := BIT 20.
Definition FCAN_INTR_REIC_MASK : Z := BIT 21.
Definition FCAN_INTR_TEIC_MASK : Z := BIT 22.
Definition FCAN_INTR_EIC_MASK : Z := BIT 23.

Definition FCAN_ACC_ID_REG_NUM : Z := 4.
Definition FCAN_XFER_STS_XFERS_GET (x : Z) : Z := GET_REG32_BITS x 10 10.
Definition FCAN_XFER_STS_RS_GET (x : Z) : Z := GET_REG32_BITS x 9 9.
Definition FCAN_XFER_STS_TS_GET (x : Z) : Z := GET_REG32_BITS x 8 8.
Definition FCAN_XFER_STS_FIES_GET (x : Z) : Z := GET_REG32_BITS x 7 3.
Definition FCAN_XFER_STS_FRAS_GET (x : Z) : Z := GET_REG32_BITS x 2 0.
Definition FCAN_ERR_CNT_RFN_GET (x : Z) : Z := GET_REG32_BITS x 8 0.
Definition FCAN_ERR_CNT_TFN_GET (x : Z) : Z := GET_REG32_BITS x 24 16.
Definition FCAN_FIFO_CNT_RFN_GET (x : Z) : Z := GET_REG32_BITS x 6 0.
Definition FCAN_FIFO_CNT_TFN_GET (x : Z) : Z := GET_REG32_BITS x 22 16.

Definition FCAN_IDR_SDLC_SHIFT : Z := 14.
Definition FCANFD_IDR_EDLC_SHIFT : Z := 24.
Definition FCAN_IDR_EDLC_SHIFT : Z := 26.
Definition FCAN_ACC_IDN_SHIFT : Z := 18.
Definition FCANFD_IDR1_SDLC_SHIFT : Z := 11.

Definition FCAN_IDR_ID2_GET (x : Z) : Z := GET_REG32_BITS x 18 1.
Definition FCAN_IDR_ID2_SET (x : Z) : Z := SET_REG32_BITS x 18 1.
Definition FCAN_IDR_ID1_GET (x : Z) : Z := GET_REG32_BITS x 31 21.
Definition FCAN_IDR_ID1_SET (x : Z) : Z := SET_REG32_BITS x 31 21.
Definition FCAN_IDR_IDE_MASK : Z := BIT 19.
Definition FCAN_IDR_SRR_MASK : Z := BIT 20.
Definition FCAN_IDR_RTR_MASK : Z := BIT 0.
Definition FCAN_IDR_PAD_MASK : Z := GENMASK 13 0.
Definition FCAN_IDR_DLC_GET (x : Z) : Z := GET_REG32_BITS x 17 14.
Definition FCAN_IDR_EDLC_GET (x : Z) : Z := GET_REG32_BITS x 29 26.

Definition FTCANFD_ID1_FDL_MASK : Z := BIT 18.
Definition FTCANFD_ID1_BRS_MASK : Z := BIT 16.
Definition FTCANFD_ID1_ESI_MASK : Z := BIT 15.
Definition FTCANFD_ID1_SDLC_GET (x : Z) : Z := GET_REG32_BITS x 14 11.
Definition FTCANFD_IDR_PAD_MASK : Z := GENMASK 10 0.
Definition FTCANFD_ID2_FDL_MASK : Z := BIT 31.
Definition FTCANFD_ID2_BRS_MASK : Z := BIT 29.
Definition FTCANFD_ID2_ESI_MASK : Z := BIT 28.
Definition FTCANFD_ID2_EDLC_GET (x : Z) : Z := GET_REG32_BITS x 27 24.

Definition FCAN_FIFO_DEPTH : Z := 64.
Definition CAN_FIFO_BYTE_LEN : Z := FCAN_FIFO_DEPTH * 4.
Definition KEEP_CAN_FIFO_MIN_LEN : Z := 16.
Definition KEEP_CANFD_FIFO_MIN_LEN : Z := 128.

(** ** Bit timing (fcan.c) *)

(** What the build selects for a board: the clock of the controller (fparameters.h)
    and the limits of the prescaler (fcan_hw.h). *)
Inductive soc_target : Set :=
| SOC_TARGET_PD1904 | SOC_TARGET_PD2008 | SOC_TARGET_PE2202 | SOC_TARGET_PE2204
| SOC_TARGET_PD2308.

Definition FCAN_CLK_FREQ_HZ (soc : soc_target) : Z :=
  match soc with
  | SOC_TARGET_PD1904 | SOC_TARGET_PD2008 => 600000000
  | SOC_TARGET_PE2202 | SOC_TARGET_PE2204 => 200000000
  | SOC_TARGET_PD2308 => 300000000
  end.

Record FCanBittimingConst := mkBtc {
  tseg1_min : Z;
  tseg1_max : Z;
  tseg2_min : Z;
  tseg2_max : Z;
  sjw_max : Z;
  brp_min : Z;
  brp_max : Z;
  brp_inc : Z
}.

Definition FCAN_ARB_BRP_MAX (soc : soc_target) : Z :=
  match soc with
  | SOC_TARGET_PD1904 | SOC_TARGET_PD2008 => 512
  | _ => 8192
  end.
Definition FCAN_DATA_BRP_MAX (soc : soc_target) : Z :=
  match soc with
  | SOC_TARGET_PD1904 | SOC_TARGET_PD2008 => 512
  | _ => 8192
  end.
Definition FCanArbBitConst (soc : soc_target) : FCanBittimingConst :=
  mkBtc 1 16 1 8 4 1 (FCAN_ARB_BRP_MAX soc) 1.
Definition FCanDataBitConst (soc : soc_target) : FCanBittimingConst :=
  mkBtc 1 16 1 8 4 1 (FCAN_DATA_BRP_MAX soc) 1.

Definition UINT_MAX : Z := 0xffffffff.

(** One turn of the loop of [FCanUpdateSamplePoint]: the best sample point so far,
    its error, and what the two output parameters point to. *)
Definition sample_turn (btc : FCanBittimingConst) (sample_point_nominal tseg i : Z)
    (best : Z * Z * Z * Z) : res (Z * Z * Z * Z) :=
  let '(best_sample_point, best_sample_point_error, _, _) := best in
  let! part := udiv (u32 (sample_point_nominal * u32 (tseg + CAN_CALC_SYNC_SEG))) 1000 in
  let tseg2 := u32 (tseg + CAN_CALC_SYNC_SEG - part - i) in
  let tseg2 := clamp tseg2 btc.(tseg2_min) btc.(tseg2_max) in
  let tseg1 := u32 (tseg - tseg2) in
  let '(tseg1, tseg2) :=
    if btc.(tseg1_max) <? tseg1 then (btc.(tseg1_max), u32 (tseg - btc.(tseg1_max)))
    else (tseg1, tseg2) in
  let! sample_point :=
    udiv (u32 (1000 * u32 (tseg + CAN_CALC_SYNC_SEG - tseg2))) (u32 (tseg + CAN_CALC_SYNC_SEG)) in
  let! sample_point_error := abs (sample_point_nominal - sample_point) in
  if (sample_point <=? sample_point_nominal) && (sample_point_error <? best_sample_point_error)
  then Ok (sample_point, sample_point_error, tseg1, tseg2)
  else Ok best.

(** The sample point, its error and the two segments, which keep their values
    ([tseg1], [tseg2]) when no sample point is acceptable. *)
Definition FCanUpdateSamplePoint (btc : FCanBittimingConst)
    (sample_point_nominal tseg tseg1 tseg2 : Z) : res (Z * Z * Z * Z) :=
  let! best := sample_turn btc sample_point_nominal tseg 0 (0, UINT_MAX, tseg1, tseg2) in
  sample_turn btc sample_point_nominal tseg 1 best.

(** The local variables of [FCanCalcBittiming] that outlive a turn of its loop. *)
Record search := mkSearch {
  best_baudrate_error : Z;
  best_sample_point_error : Z;
  best_tseg : Z;
  best_brp : Z;
  cur_tseg1 : Z;
  cur_tseg2 : Z
}.

(** One turn of its loop; the boolean is [true] at the [break]. *)
Definition calc_turn (soc : soc_target) (btc : FCanBittimingConst)
    (target_baudrate sample_point_nominal tseg : Z) (c : search) : res (bool * search) :=
  let tsegall := u32 (CAN_CALC_SYNC_SEG + tseg / 2) in
  let! quotient := udiv (FCAN_CLK_FREQ_HZ soc) (u32 (tsegall * target_baudrate)) in
  let brp := u32 (quotient + tseg mod 2) in
  let! steps := udiv brp btc.(brp_inc) in
  let brp := u32 (steps * btc.(brp_inc)) in
  if (brp <? btc.(brp_min)) || (btc.(brp_max) <? brp) then Ok (false, c)
  else
    let! baudrate := udiv (FCAN_CLK_FREQ_HZ soc) (u32 (brp * tsegall)) in
    let! baudrate_error := abs (target_baudrate - baudrate) in
    if c.(best_baudrate_error) <? baudrate_error then Ok (false, c)
    else
      let best_sp :=
        if baudrate_error <? c.(best_baudrate_error) then UINT_MAX
        else c.(best_sample_point_error) in
      let! (_, sample_point_error, tseg1, tseg2) :=
        FCanUpdateSamplePoint btc sample_point_nominal (tseg / 2) c.(cur_tseg1) c.(cur_tseg2) in
      if best_sp <? sample_point_error then
        Ok (false, mkSearch c.(best_baudrate_error) best_sp c.(best_tseg) c.(best_brp) tseg1 tseg2)
      else
        Ok ((baudrate_error =? 0) && (sample_point_error =? 0),
            mkSearch baudrate_error sample_point_error (tseg / 2) brp tseg1 tseg2).

(** The loop, for [n] turns from [tseg] down. *)
Fixpoint calc_loop (soc : soc_target) (btc : FCanBittimingConst)
    (target_baudrate sample_point_nominal : Z) (n : nat) (tseg : Z) (c : search) : res search :=
  match n with
  | O => Ok c
  | S n =>
      let! (stop, c) := calc_turn soc btc target_baudrate sample_point_nominal tseg c in
      if stop then Ok c
      else calc_loop soc btc target_baudrate sample_point_nominal n (u32 (tseg - 1)) c
  end.

(** The sample point used when the caller gives none. *)
Definition default_sample_point (soc : soc_target) (target_baudrate : Z) : Z :=
  match soc with
  | SOC_TARGET_PD2308 =>
      if 4000000 <? target_baudrate then 650
      else if 2000000 <? target_baudrate then 680
      else if 1000000 <? target_baudrate then 830
      else if 800000 <? target_baudrate then 830
      else if 500000 <? target_baudrate then 850
      else 875
  | _ =>
      if 4000000 <? target_baudrate then 650
      else if 2000000 <? target_baudrate then 680
      else if 1000000 <? target_baudrate then 725
      else if 800000 <? target_baudrate then 750
      else if 500000 <? target_baudrate then 800
      else 875
  end.

Definition set_timing (prop_seg phase_seg1 phase_seg2 sjw brp : Z) (b : FCanBaudrateConfig)
    : FCanBaudrateConfig :=
  mkBaudrate b.(segment) b.(auto_calc) b.(baudrate) b.(sample_point)
    prop_seg phase_seg1 phase_seg2 sjw brp.

(** The jump width, from what the caller asked for. *)
Definition sanitize_sjw (btc : FCanBittimingConst) (tseg2 sjw : Z) : Z :=
  if (sjw =? 0) || (btc.(sjw_max) =? 0) then 1
  else
    let sjw := if btc.(sjw_max) <? sjw then btc.(sjw_max) else sjw in
    if tseg2 <? sjw then tseg2 else sjw.

Definition FCanCalcBittiming (soc : soc_target) (bt : FCanBaudrateConfig)
    (target_baudrate target_sample_point target_segment : Z) : res (Z * FCanBaudrateConfig) :=
  check! target_segment <? FCAN_SEGMENT_TYPE_NUM in
  let btc :=
    if target_segment =? FCAN_DATA_SEGMENT then FCanDataBitConst soc else FCanArbBitConst soc in
  let sample_point_nominal :=
    if truth target_sample_point then target_sample_point
    else default_sample_point soc target_baudrate in
  let tseg := (btc.(tseg1_max) + btc.(tseg2_max)) * 2 + 1 in
  let turns := tseg - (btc.(tseg1_min) + btc.(tseg2_min)) * 2 + 1 in
  let! c := calc_loop soc btc target_baudrate sample_point_nominal (Z.to_nat turns) tseg
              (mkSearch UINT_MAX UINT_MAX 0 0 0 0) in
  let! v64 :=
    if truth c.(best_baudrate_error) then udiv (u64 (c.(best_baudrate_error) * 1000)) target_baudrate
    else Ok 0 in
  if CAN_CALC_MAX_ERROR <? u32 v64 then Ok (FCAN_FAILURE, bt)
  else
    let! (_, _, tseg1, tseg2) :=
      FCanUpdateSamplePoint btc sample_point_nominal c.(best_tseg) c.(cur_tseg1) c.(cur_tseg2) in
    let prop_seg := tseg1 / 2 in
    let bt := set_timing prop_seg (u32 (tseg1 - prop_seg)) tseg2
                (sanitize_sjw btc tseg2 bt.(sjw)) c.(best_brp) bt in
    let! real := udiv (FCAN_CLK_FREQ_HZ soc)
                   (u32 (bt.(brp) * u32 (CAN_CALC_SYNC_SEG + tseg1 + tseg2))) in
    if negb (target_baudrate =? real) then Ok (FCAN_FAILURE, bt) else Ok (FCAN_SUCCESS, bt).

(** ** Data length codes (fcan.c) *)
Definition FCanGetDlcLen (dlc : Z) : Z :=
  if (1 <=? dlc) && (dlc <=? 8) then dlc
  else
    match dlc with
    | 9 => 12
    | 10 => 16
    | 11 => 20
    | 12 => 24
    | 13 => 32
    | 14 => 48
    | 15 => 64
    | _ => 0
    end.

Definition FCanSetDlcLen (dlc_len : Z) : Z :=
  if (1 <=? dlc_len) && (dlc_len <=? 8) then dlc_len
  else
    match dlc_len with
    | 12 => 9
    | 16 => 10
    | 20 => 11
    | 24 => 12
    | 32 => 13
    | 48 => 14
    | 64 => 15
    | _ => 0
    end.

(** ** Frames (fcan.c) *)

(** The word at offset [j] of the data bytes: [*(u32 * )(data + j)]. *)
Definition load_word (data : list Z) (j : Z) : res Z :=
  let! b0 := aget data j in
  let! b1 := aget data (j + 1) in
  let! b2 := aget data (j + 2) in
  let! b3 := aget data (j + 3) in
  Ok (Z.lor b0 (Z.lor (Z.shiftl b1 8) (Z.lor (Z.shiftl b2 16) (Z.shiftl b3 24)))).

Definition byte_of (w i : Z) : Z := Z.land (Z.shiftr w (8 * i)) 0xff.

Definition store_word (data : list Z) (j w : Z) : res (list Z) :=
  let! data := aset data j (byte_of w 0) in
  let! data := aset data (j + 1) (byte_of w 1) in
  let! data := aset data (j + 2) (byte_of w 2) in
  aset data (j + 3) (byte_of w 3).

Definition set_flags (g : Z) (f : FCanFrame) : FCanFrame := mkFrame f.(canid) f.(candlc) g f.(data).

(** [buf[len++] = w]. *)
Definition push (w : Z) (b : list Z * Z) : res (list Z * Z) :=
  let '(buf, len) := b in
  let! buf := aset buf len w in Ok (buf, u32 (len + 1)).

(** The loop that copies the data; [n] bounds its turns. *)
Fixpoint frame_data_loop (n : nat) (data : list Z) (i j : Z) (b : list Z * Z)
    : res (Z * Z * (list Z * Z)) :=
  if 0 <? i then
    match n with
    | O => Fault OutOfFuel
    | S n =>
        let! w := load_word data j in
        let! b := push w b in
        frame_data_loop n data (i - 4) (j + 4) b
    end
  else Ok (i, j, b).

(** The words of the header of an extended frame, and the flags it leaves. *)
Definition extended_header (canfd : bool) (can_send_dlc : Z) (f : FCanFrame) : Z * Z * FCanFrame :=
  let id := FCAN_IDR_ID2_SET (Z.land f.(canid) CAN_EFF_MASK) in
  let id :=
    Z.lor id (FCAN_IDR_ID1_SET
      (Z.shiftr (Z.land f.(canid) CAN_EFF_MASK) (CAN_EFF_ID_BITS - CAN_SFF_ID_BITS))) in
  let id := Z.lor id (Z.lor FCAN_IDR_IDE_MASK FCAN_IDR_SRR_MASK) in
  let id := if truth (Z.land f.(canid) CAN_RTR_FLAG) then Z.lor id FCAN_IDR_RTR_MASK else id in
  if canfd then
    let dlc := u32 (Z.shiftl can_send_dlc FCANFD_IDR_EDLC_SHIFT) in
    let dlc := Z.lor dlc FTCANFD_ID2_FDL_MASK in
    let f := set_flags (Z.lor f.(flags) CANFD_BRS) f in
    let dlc := if truth (Z.land f.(flags) CANFD_BRS) then Z.lor dlc FTCANFD_ID2_BRS_MASK else dlc in
    let dlc := if truth (Z.land f.(flags) CANFD_ESI) then Z.lor dlc FTCANFD_ID2_ESI_MASK else dlc in
    (id, dlc, f)
  else (id, u32 (Z.shiftl can_send_dlc FCAN_IDR_EDLC_SHIFT), f).

(** The word of the header of a standard frame, and the flags it leaves. *)
Definition standard_header (canfd : bool) (can_send_dlc : Z) (f : FCanFrame) : Z * FCanFrame :=
  let id := FCAN_IDR_ID1_SET (Z.land f.(canid) CAN_SFF_MASK) in
  let id := if truth (Z.land f.(canid) CAN_RTR_FLAG) then Z.lor id FCAN_IDR_SRR_MASK else id in
  let '(dlc, f) :=
    if canfd then
      let dlc := Z.lor (u32 (Z.shiftl can_send_dlc FCANFD_IDR1_SDLC_SHIFT)) FTCANFD_IDR_PAD_MASK in
      let dlc := Z.lor dlc FTCANFD_ID1_FDL_MASK in
      let f := set_flags (Z.lor f.(flags) CANFD_BRS) f in
      let dlc := if truth (Z.land f.(flags) CANFD_BRS) then Z.lor dlc FTCANFD_ID1_BRS_MASK else dlc in
      let dlc := if truth (Z.land f.(flags) CANFD_ESI) then Z.lor dlc FTCANFD_ID1_ESI_MASK else dlc in
      (dlc, f)
    else (Z.lor (u32 (Z.shiftl can_send_dlc FCAN_IDR_SDLC_SHIFT)) FCAN_IDR_PAD_MASK, f) in
  (Z.lor id dlc, f).

Definition FCanFrameToBuf (c : FCanCtrl) (f : FCanFrame) (buf : list Z)
    : res (Z * FCanFrame * list Z) :=
  check! c.(is_ready) =? FT_COMPONENT_IS_READY in
  let can_send_dlc := FCanSetDlcLen f.(candlc) in
  check! if c.(use_canfd) =? FALSE then
           if can_send_dlc <=? 8 then can_send_dlc <=? 8 else true
         else c.(use_canfd) =? TRUE in
  let canfd := c.(use_canfd) =? TRUE in
  let! (b, f) :=
    if truth (Z.land f.(canid) CAN_EFF_FLAG) then
      let '(id, dlc, f) := extended_header canfd can_send_dlc f in
      let! b := push (be32_to_cpu id) (buf, 0) in
      let! b := push (be32_to_cpu dlc) b in
      Ok (b, f)
    else
      let '(id, f) := standard_header canfd can_send_dlc f in
      let! b := push (be32_to_cpu id) (buf, 0) in
      Ok (b, f) in
  let! b :=
    if truth (Z.land f.(canid) CAN_RTR_FLAG) then Ok b
    else
      let! (i, j, b) := frame_data_loop 64 f.(data) f.(candlc) 0 b in
      if 0 <? i then
        let! w := load_word f.(data) j in push w b
      else Ok b in
  let '(buf, len) := b in
  Ok (len, f, buf).

(** ** The driver *)
Section Driver.
Context `{H : MmioHw}.

(** A controller and its instance; the calls of handlers so far, with their
    arguments. *)
Record state := mkState {
  regs : hw;
  can : FCanCtrl;
  calls : list (Z * Z)
}.

Definition set_regs (h : hw) (s : state) : state := mkState h s.(can) s.(calls).
Definition set_can (c : FCanCtrl) (s : state) : state := mkState s.(regs) c s.(calls).
Definition base (s : state) : Z := s.(can).(config).(base_address).
Definition ready (s : state) : bool := s.(can).(is_ready) =? FT_COMPONENT_IS_READY.

Definition FCAN_READ_REG32 (reg_offset : Z) (s : state) : Z * state :=
  let '(v, h) := FtIn32 s.(regs) (base s) reg_offset in (v, set_regs h s).
Definition FCAN_WRITE_REG32 (reg_offset reg_value : Z) (s : state) : state :=
  set_regs (FtOut32 s.(regs) (base s) reg_offset (u32 reg_value)) s.
Definition FCAN_SETBIT (reg_offset data : Z) (s : state) : state :=
  set_regs (FtSetBit32 s.(regs) (base s) reg_offset (u32 data)) s.
Definition FCAN_CLEARBIT (reg_offset data : Z) (s : state) : state :=
  set_regs (FtClearBit32 s.(regs) (base s) reg_offset (u32 data)) s.

Definition fifo_full (keep : Z) (s : state) : bool * state :=
  let '(v, s) := FCAN_READ_REG32 FCAN_FIFO_CNT_OFFSET s in
  (u32 (CAN_FIFO_BYTE_LEN - u32 (4 * FCAN_FIFO_CNT_TFN_GET v)) <? keep, s).
Definition FCAN_TX_FIFO_FULL (s : state) : bool * state := fifo_full KEEP_CAN_FIFO_MIN_LEN s.
Definition FCANFD_TX_FIFO_FULL (s : state) : bool * state := fifo_full KEEP_CANFD_FIFO_MIN_LEN s.
Definition FCAN_RX_FIFO_EMPTY (s : state) : bool * state :=
  let '(v, s) := FCAN_READ_REG32 FCAN_FIFO_CNT_OFFSET s in
  (0 =? FCAN_FIFO_CNT_RFN_GET v, s).

(** ** Life cycle (fcan.c) *)
Definition FCanReset (s : state) : res state :=
  check! ready s in
  let s := FCAN_WRITE_REG32 FCAN_CTRL_OFFSET 0 s in
  let '(reg_value, s) := FCAN_READ_REG32 FCAN_CTRL_OFFSET s in
  if truth (Z.land reg_value FCAN_CTRL_XFER_MASK) then Ok s
  else Ok (FCAN_WRITE_REG32 FCAN_CTRL_OFFSET FCAN_CTRL_RST_MASK s).

Definition FCanDeInitialize (s : state) : state :=
  set_can (mkCtrl (mkConfig 0 0 0 0 0) 0 0 (fun _ => mkEvent 0 0 0)) s.

Definition FCanCfgInitialize (input_config : FCanConfig) (s : state) : res (Z * state) :=
  let c := (FCanDeInitialize s).(can) in
  let! s := FCanReset
              (set_can (mkCtrl input_config FT_COMPONENT_IS_READY c.(use_canfd) c.(intr_event)) s) in
  Ok (FCAN_SUCCESS, s).

Definition FCanStatusGet (s : state) : res (FCanStatus * state) :=
  check! ready s in
  let '(v, s) := FCAN_READ_REG32 FCAN_XFER_STS_OFFSET s in
  let x := mkXfer (u8 (FCAN_XFER_STS_XFERS_GET v)) (u8 (FCAN_XFER_STS_RS_GET v))
             (u8 (FCAN_XFER_STS_TS_GET v)) (u8 (FCAN_XFER_STS_FIES_GET v))
             (u8 (FCAN_XFER_STS_FRAS_GET v)) in
  let '(e, s) := FCAN_READ_REG32 FCAN_ERR_CNT_OFFSET s in
  let '(f, s) := FCAN_READ_REG32 FCAN_FIFO_CNT_OFFSET s in
  Ok (mkStatus x (FCAN_ERR_CNT_TFN_GET e) (FCAN_ERR_CNT_RFN_GET e)
        (FCAN_FIFO_CNT_TFN_GET f) (FCAN_FIFO_CNT_RFN_GET f), s).

(** ** Transfers (fcan.c) *)

(** The loop that reads the data of a frame; [n] bounds its turns. *)
Fixpoint recv_data_loop (n : nat) (data : list Z) (i j : Z) (s : state)
    : res (Z * Z * list Z * state) :=
  if 0 <? i then
    match n with
    | O => Fault OutOfFuel
    | S n =>
        let '(w, s) := FCAN_READ_REG32 FCAN_RX_FIFO_OFFSET s in
        let! data := store_word data j w in
        recv_data_loop n data (i - 4) (j + 4) s
    end
  else Ok (i, j, data, s).

(** Flags and data length code of an extended frame, from its second word. *)
Definition extended_dlc (dlc : Z) : Z * Z :=
  if truth (Z.land dlc FTCANFD_ID2_FDL_MASK) then
    let flags := 0 in
    let flags := if truth (Z.land dlc FTCANFD_ID2_BRS_MASK) then Z.lor flags CANFD_BRS else flags in
    let flags := if truth (Z.land dlc FTCANFD_ID2_ESI_MASK) then Z.lor flags CANFD_ESI else flags in
    (flags, FTCANFD_ID2_EDLC_GET dlc)
  else (0, FCAN_IDR_EDLC_GET dlc).

(** Flags and data length code of a standard frame, from its word. *)
Definition standard_dlc (canid : Z) : Z * Z :=
  if truth (Z.land canid FTCANFD_ID1_FDL_MASK) then
    let flags := 0 in
    let flags := if truth (Z.land canid FTCANFD_ID1_BRS_MASK) then Z.lor flags CANFD_BRS else flags in
    let flags := if truth (Z.land canid FTCANFD_ID1_ESI_MASK) then Z.lor flags CANFD_ESI else flags in
    (flags, FTCANFD_ID1_SDLC_GET canid)
  else (0, FCAN_IDR_DLC_GET canid).

Definition FCanRecv (frame : FCanFrame) (s : state) : res (Z * FCanFrame * state) :=
  check! ready s in
  let '(empty, s) := FCAN_RX_FIFO_EMPTY s in
  if empty then
    let '(_, s) := FCAN_READ_REG32 FCAN_FIFO_CNT_OFFSET s in
    Ok (FCAN_RX_FIFO_EMPTY_ERR, frame, s)
  else
    let '(word, s) := FCAN_READ_REG32 FCAN_RX_FIFO_OFFSET s in
    let word := be32_to_cpu word in
    let '(flags, dlc, canid, s) :=
      if truth (Z.land word FCAN_IDR_IDE_MASK) then
        let '(second, s) := FCAN_READ_REG32 FCAN_RX_FIFO_OFFSET s in
        let '(flags, dlc) := extended_dlc (be32_to_cpu second) in
        let canid := u32 (Z.shiftl (FCAN_IDR_ID1_GET word) FCAN_ACC_IDN_SHIFT) in
        let canid := Z.lor canid (FCAN_IDR_ID2_GET word) in
        let canid := Z.lor canid CAN_EFF_FLAG in
        (flags, dlc,
         if truth (Z.land word FCAN_IDR_RTR_MASK) then Z.lor canid CAN_RTR_FLAG else canid, s)
      else
        let '(flags, dlc) := standard_dlc word in
        let canid := FCAN_IDR_ID1_GET word in
        (flags, dlc,
         if truth (Z.land word FCAN_IDR_SRR_MASK) then Z.lor canid CAN_RTR_FLAG else canid, s) in
    let candlc := u8 (FCanGetDlcLen dlc) in
    let zeros := replicate (Z.to_nat FCAN_DATA_LENGTH) 0 in
    let! (data, s) :=
      if truth (Z.land canid CAN_RTR_FLAG) then Ok (zeros, s)
      else
        let! (i, j, data, s) := recv_data_loop 64 zeros candlc 0 s in
        if 0 <? i then
          let '(w, s) := FCAN_READ_REG32 FCAN_RX_FIFO_OFFSET s in
          let! data := store_word data j w in Ok (data, s)
        else Ok (data, s) in
    Ok (FCAN_SUCCESS, mkFrame canid candlc flags data, s).

(** The loop that fills the transmit FIFO with [buf[i]], ..., [buf[len - 1]]. *)
Fixpoint send_loop (n : nat) (buf : list Z) (i : Z) (s : state) : res state :=
  match n with
  | O => Ok s
  | S n =>
      let! w := aget buf i in
      send_loop n buf (i + 1) (FCAN_WRITE_REG32 FCAN_TX_FIFO_OFFSET w s)
  end.

Definition FCanSend (frame : FCanFrame) (s : state) : res (Z * FCanFrame * state) :=
  check! ready s in
  let '(full, s) :=
    if s.(can).(use_canfd) =? FALSE then FCAN_TX_FIFO_FULL s else FCANFD_TX_FIFO_FULL s in
  if full then
    let '(_, s) := FCAN_READ_REG32 FCAN_FIFO_CNT_OFFSET s in
    Ok (FCAN_TX_FIFO_FULL_ERR, frame, s)
  else
    let! (len, frame, buf) :=
      FCanFrameToBuf s.(can) frame (replicate (Z.to_nat (FCAN_DATA_LENGTH / 4 + 2)) 0) in
    let! s := send_loop (Z.to_nat len) buf 0 s in
    Ok (FCAN_SUCCESS, frame, s).

(** ** Configuration (fcan.c) *)
Definition timing_word (b : FCanBaudrateConfig) : Z :=
  let reg_val := u32 (Z.shiftl (u32 (b.(brp) - 1)) 16) in
  let reg_val := Z.lor reg_val (u32 (Z.shiftl (u32 (b.(prop_seg) - 1)) 2)) in
  let reg_val := Z.lor reg_val (u32 (Z.shiftl (u32 (b.(phase_seg1) - 1)) 5)) in
  let reg_val := Z.lor reg_val (u32 (Z.shiftl (u32 (b.(phase_seg2) - 1)) 8)) in
  Z.lor reg_val (u32 (b.(sjw) - 1)).

Definition FCanSetTiming (b : FCanBaudrateConfig) (target_segment : Z) (s : state)
    : res (Z * state) :=
  check! ready s in
  check! target_segment <? FCAN_SEGMENT_TYPE_NUM in
  check! negb (b.(brp) =? 0) in
  check! negb (b.(prop_seg) =? 0) in
  check! negb (b.(phase_seg1) =? 0) in
  check! negb (b.(phase_seg2) =? 0) in
  let reg_val := timing_word b in
  let '(ctrl, s) := FCAN_READ_REG32 FCAN_CTRL_OFFSET s in
  let s :=
    if truth (Z.land ctrl FCAN_CTRL_XFER_MASK) then
      FCAN_CLEARBIT FCAN_CTRL_OFFSET FCAN_CTRL_XFER_MASK s
    else s in
  if truth reg_val then
    Ok (FCAN_SUCCESS,
        if target_segment =? FCAN_DATA_SEGMENT then
          FCAN_WRITE_REG32 FCAN_DAT_RATE_CTRL_OFFSET reg_val s
        else FCAN_WRITE_REG32 FCAN_ARB_RATE_CTRL_OFFSET reg_val s)
  else Ok (FCAN_FAILURE, s).

(** The rates [FCanBaudrateSet] refuses. *)
Definition rate_invalid (caps segment baudrate : Z) : bool :=
  if truth (Z.land caps FCAN_FD_CAPACITY) then
    (segment =? FCAN_ARB_SEGMENT) &&
      ((FCAN_BAUDRATE_1000K <? baudrate) || (baudrate <? FCAN_BAUDRATE_10K)) ||
    (segment =? FCAN_DATA_SEGMENT) &&
      ((FCAN_BAUDRATE_5000K <? baudrate) || (baudrate <? FCAN_BAUDRATE_10K))
  else
    (segment =? FCAN_ARB_SEGMENT) &&
      ((FCAN_BAUDRATE_1000K <? baudrate) || (baudrate <? FCAN_BAUDRATE_50K)) ||
    (segment =? FCAN_DATA_SEGMENT) &&
      ((FCAN_BAUDRATE_1000K <? baudrate) || (baudrate <? FCAN_BAUDRATE_50K)).

Definition FCanBaudrateSet (soc : soc_target) (b : FCanBaudrateConfig) (s : state)
    : res (Z * state) :=
  check! ready s in
  check! b.(segment) <? FCAN_SEGMENT_TYPE_NUM in
  if (b.(auto_calc) =? TRUE) && rate_invalid s.(can).(config).(caps) b.(segment) b.(baudrate)
  then Ok (FCAN_INVAL_PARAM, s)
  else if b.(auto_calc) =? TRUE then
    let! (ret, timing_config) :=
      FCanCalcBittiming soc (mkBaudrate 0 0 0 0 0 0 0 0 0) b.(baudrate) b.(sample_point)
        b.(segment) in
    if negb (ret =? FCAN_SUCCESS) then Ok (FCAN_FAILURE, s)
    else
      let! (ret, s) := FCanSetTiming timing_config b.(segment) s in
      if negb (ret =? FCAN_SUCCESS) then Ok (FCAN_FAILURE, s) else Ok (ret, s)
  else
    let! (ret, s) := FCanSetTiming b b.(segment) s in
    if negb (ret =? FCAN_SUCCESS) then Ok (FCAN_FAILURE, s) else Ok (ret, s).

Definition FCanEnable (enable : Z) (s : state) : res (Z * state) :=
  check! ready s in
  Ok (FCAN_SUCCESS,
      if enable =? TRUE then FCAN_SETBIT FCAN_CTRL_OFFSET FCAN_CTRL_XFER_MASK s
      else FCAN_CLEARBIT FCAN_CTRL_OFFSET FCAN_CTRL_XFER_MASK s).

Definition FCanIdMaskFilterSet (c : FCanIdMaskConfig) (s : state) : res (Z * state) :=
  check! ready s in
  check! c.(filter_index) <? FCAN_ACC_ID_REG_NUM in
  match
    match c.(filter_index) with
    | 0 => Some (FCAN_ACC_ID0_OFFSET, FCAN_ACC_ID0_MASK_OFFSET)
    | 1 => Some (FCAN_ACC_ID1_OFFSET, FCAN_ACC_ID1_MASK_OFFSET)
    | 2 => Some (FCAN_ACC_ID2_OFFSET, FCAN_ACC_ID2_MASK_OFFSET)
    | 3 => Some (FCAN_ACC_ID3_OFFSET, FCAN_ACC_ID3_MASK_OFFSET)
    | _ => None
    end
  with
  | None => Ok (FCAN_FAILURE, s)
  | Some (id_reg_offset, mask_reg_offset) =>
      let '(id, mask) :=
        if c.(frame_type) =? FCAN_STANDARD_FRAME then
          (u32 (Z.shiftl c.(id) FCAN_ACC_IDN_SHIFT), u32 (Z.shiftl c.(mask) FCAN_ACC_IDN_SHIFT))
        else (c.(id), c.(mask)) in
      Ok (FCAN_SUCCESS,
          FCAN_WRITE_REG32 mask_reg_offset mask (FCAN_WRITE_REG32 id_reg_offset id s))
  end.

Definition FCanIdMaskFilterEnable (s : state) : res state :=
  check! ready s in Ok (FCAN_SETBIT FCAN_CTRL_OFFSET FCAN_CTRL_AIME_MASK s).
Definition FCanDmaEnable (enable_mode : Z) (s : state) : res state :=
  check! ready s in Ok (FCAN_SETBIT FCAN_DMA_CTRL_OFFSET enable_mode s).
Definition FCanIdMaskFilterDisable (s : state) : res state :=
  check! ready s in Ok (FCAN_CLEARBIT FCAN_CTRL_OFFSET FCAN_CTRL_AIME_MASK s).

Definition FCanInterruptEnable (event_type : Z) (s : state) : res (Z * state) :=
  check! ready s in
  let '(reg_val, s) := FCAN_READ_REG32 FCAN_INTR_OFFSET s in
  let reg_val :=
    match event_type with
    | 0 => Z.lor reg_val FCAN_INTR_TEIE_MASK
    | 1 => Z.lor reg_val FCAN_INTR_REIE_MASK
    | 2 => Z.lor reg_val FCAN_INTR_EIE_MASK
    | 3 => Z.lor reg_val FCAN_INTR_BOIE_MASK
    | 4 => Z.lor reg_val FCAN_INTR_PEIE_MASK
    | 5 => Z.lor reg_val FCAN_INTR_PWIE_MASK
    | 6 => Z.lor reg_val FCAN_INTR_RFIE_MASK
    | 7 => Z.lor reg_val FCAN_INTR_TFIE_MASK
    | _ => reg_val
    end in
  Ok (FCAN_SUCCESS, FCAN_WRITE_REG32 FCAN_INTR_OFFSET reg_val s).

Definition set_canfd (b : Z) (s : state) : state :=
  let c := s.(can) in set_can (mkCtrl c.(config) c.(is_ready) b c.(intr_event)) s.

Definition FCanFdEnable (enable : Z) (s : state) : res (Z * state) :=
  check! ready s in
  Ok (FCAN_SUCCESS,
      if enable =? TRUE then
        FCAN_SETBIT FCAN_CTRL_OFFSET (Z.lor FCAN_CTRL_FDCRC_MASK FCAN_CTRL_IOF_MASK)
          (set_canfd TRUE s)
      else
        FCAN_CLEARBIT FCAN_CTRL_OFFSET FCAN_CTRL_FDCRC_MASK
          (FCAN_SETBIT FCAN_CTRL_OFFSET FCAN_CTRL_IOF_MASK (set_canfd FALSE s))).

Definition FCanSetMode (tran_mode : Z) (s : state) : res (Z * state) :=
  check! ready s in
  let s :=
    if tran_mode =? FCAN_PROBE_MONITOR_MODE then
      FCAN_CLEARBIT FCAN_CTRL_OFFSET FCAN_CTRL_TXREQ_MASK s
    else s in
  let s :=
    if tran_mode =? FCAN_PROBE_NORMAL_MODE then
      FCAN_SETBIT FCAN_CTRL_OFFSET FCAN_CTRL_TXREQ_MASK s
    else s in
  Ok (FCAN_SUCCESS, s).

(** ** fcan_intr.c *)
Definition FCanRegisterInterruptHandler (e : FCanIntrEventConfig) (s : state) : res state :=
  check! e.(type) <? FCAN_INTR_EVENT_NUM in
  let c := s.(can) in
  let events := fun k => if k =? e.(type) then e else c.(intr_event) k in
  Ok (set_can (mkCtrl c.(config) c.(is_ready) c.(use_canfd) events) s).

Definition FCAN_CALL_INTR_EVENT_HANDLDER (event : Z) (s : state) : state :=
  let e := s.(can).(intr_event) event in
  if truth e.(handler) then mkState s.(regs) s.(can) (s.(calls) ++ [(e.(handler), e.(param))]) else s.

(** [if (irq_status & bit) { ... }]. *)
Definition when_set (irq_status bit : Z) (f : state -> state) (s : state) : state :=
  if truth (Z.land irq_status bit) then f s else s.

(** The branch for the errors. *)
Definition intr_errors (irq_status : Z) (s : state) : state :=
  let s := FCAN_CLEARBIT FCAN_INTR_OFFSET
             (Z.lor FCAN_INTR_BOIE_MASK
                (Z.lor FCAN_INTR_EIE_MASK (Z.lor FCAN_INTR_PEIE_MASK FCAN_INTR_PWIE_MASK))) s in
  let s := when_set irq_status FCAN_INTR_BOIS_MASK
             (FCAN_CALL_INTR_EVENT_HANDLDER FCAN_INTR_EVENT_BUSOFF) s in
  let s := when_set irq_status FCAN_INTR_EIS_MASK
             (FCAN_CALL_INTR_EVENT_HANDLDER FCAN_INTR_EVENT_ERROR) s in
  let s := when_set irq_status FCAN_INTR_PEIS_MASK
             (FCAN_CALL_INTR_EVENT_HANDLDER FCAN_INTR_EVENT_PERROE) s in
  let s := when_set irq_status FCAN_INTR_PWIS_MASK
             (FCAN_CALL_INTR_EVENT_HANDLDER FCAN_INTR_EVENT_PWARN) s in
  FCAN_SETBIT FCAN_INTR_OFFSET
    (Z.lor FCAN_INTR_BOIC_MASK
       (Z.lor FCAN_INTR_EIC_MASK (Z.lor FCAN_INTR_PEIC_MASK FCAN_INTR_PWIC_MASK))) s.

Definition FCanIntrHandler (s : state) : res state :=
  check! ready s in
  let '(irq_status, s) := FCAN_READ_REG32 FCAN_INTR_OFFSET s in
  if 0 =? irq_status then Ok s
  else
    let s := when_set irq_status FCAN_INTR_RFIS_MASK (fun s =>
      let s := FCAN_CLEARBIT FCAN_INTR_OFFSET FCAN_INTR_RFIE_MASK s in
      let s := FCAN_SETBIT FCAN_INTR_OFFSET FCAN_INTR_RFIC_MASK s in
      FCAN_CALL_INTR_EVENT_HANDLDER FCAN_INTR_EVENT_FIFOFULL s) s in
    let s := when_set irq_status FCAN_INTR_TFIS_MASK (fun s =>
      let s := FCAN_CLEARBIT FCAN_INTR_OFFSET FCAN_INTR_TFIE_MASK s in
      let s := FCAN_SETBIT FCAN_INTR_OFFSET FCAN_INTR_TFIC_MASK s in
      FCAN_CALL_INTR_EVENT_HANDLDER FCAN_INTR_EVENT_FIFOEMPTY s) s in
    let s := when_set irq_status
               (Z.lor FCAN_INTR_BOIS_MASK
                  (Z.lor FCAN_INTR_EIS_MASK (Z.lor FCAN_INTR_PEIS_MASK FCAN_INTR_PWIS_MASK)))
               (intr_errors irq_status) s in
    let '(irq_status, s) :=
      if truth (Z.land irq_status FCAN_INTR_TEIS_MASK) then
        let s := FCAN_SETBIT FCAN_INTR_OFFSET (Z.lor FCAN_INTR_TEIC_MASK FCAN_INTR_REIC_MASK) s in
        (Z.land irq_status (lnotw 32 FCAN_INTR_REIS_MASK),
         FCAN_CALL_INTR_EVENT_HANDLDER FCAN_INTR_EVENT_SEND s)
      else (irq_status, s) in
    Ok (when_set irq_status FCAN_INTR_REIS_MASK (fun s =>
      let s := FCAN_SETBIT FCAN_INTR_OFFSET FCAN_INTR_REIE_MASK s in
      let s := FCAN_SETBIT FCAN_INTR_OFFSET FCAN_INTR_REIC_MASK s in
      FCAN_CALL_INTR_EVENT_HANDLDER FCAN_INTR_EVENT_RECV s) s).
End Driver.

End Can.
