(* ===== verification/CanTiming.v ===== *)
(** The bit timing of the CAN driver (Can.v): the search of [FCanCalcBittiming] finds
    a setting of the controller for every rate there is one for, with the best sample
    point, and [FCanBaudrateSet] programs it. *)
From S2P Require Import Prelude Mmio Can.
Import Can.

(** ** Settings of the controller

    A bit is [1 + ts1 + ts2] quanta of [brp] clock cycles, sampled after
    [1 + ts1] of them. *)
Definition setting (soc : soc_target) (ts1 ts2 brp : Z) : Prop :=
  1 <= ts1 <= 16 /\ 1 <= ts2 <= 8 /\ 1 <= brp <= FCAN_ARB_BRP_MAX soc.
Definition rate_of (soc : soc_target) (ts1 ts2 brp : Z) : Z :=
  FCAN_CLK_FREQ_HZ soc / (brp * (1 + ts1 + ts2)).
Definition point_of (ts1 ts2 : Z) : Z := 1000 * (1 + ts1) / (1 + ts1 + ts2).

(** The settings that give the rate [target]. *)
Definition exact (soc : soc_target) (target ts1 ts2 brp : Z) : Prop :=
  setting soc ts1 ts2 brp /\ rate_of soc ts1 ts2 brp = target.

Lemma soc_bounds soc :
  200000000 <= FCAN_CLK_FREQ_HZ soc <= 600000000 /\ 512 <= FCAN_ARB_BRP_MAX soc <= 8192 /\
  FCAN_DATA_BRP_MAX soc = FCAN_ARB_BRP_MAX soc.
Proof. destruct soc; cbn; lia. Qed.

Lemma udiv_Ok a b : b <> 0 -> udiv a b = Ok (a / b).
Proof. intros Hb. unfold udiv. by rewrite (proj2 (Z.eqb_neq b 0) Hb). Qed.

Lemma abs_Ok x : - 2 ^ 31 < x < 2 ^ 31 -> abs x = Ok (Z.abs x).
Proof.
  intros Hx. unfold abs. assert (Hs : s32 x = x).
  { unfold to_signed. destruct (Z.leb_spec 0 x).
    - rewrite (wrap_small 32 x) by lia. destruct (Z.ltb_spec x (2 ^ (32 - 1))); lia.
    - rewrite (wrap_below 32 x) by lia. destruct (Z.ltb_spec (x + 2 ^ 32) (2 ^ (32 - 1))); lia. }
  rewrite Hs. by rewrite (proj2 (Z.eqb_neq x (- 2 ^ 31))) by lia.
Qed.

(** ** The sample point *)

(** The candidate of a turn of [FCanUpdateSamplePoint]. *)
Definition candidate (btc : FCanBittimingConst) (n tseg i : Z) : res (Z * Z * Z * Z) :=
  sample_turn btc n tseg i (0, UINT_MAX, 0, 0).

(** A turn ignores the segments it is given, but when it keeps them. *)
Lemma sample_turn_prev btc n t i p e a b q e' t1 t2 :
  sample_turn btc n t i (p, e, 0, 0) = Ok (q, e', t1, t2) ->
  sample_turn btc n t i (p, e, a, b) = Ok (q, e', t1, t2) \/
  (q, e', t1, t2) = (p, e, 0, 0) /\ sample_turn btc n t i (p, e, a, b) = Ok (p, e, a, b).
Proof.
  unfold sample_turn, rbind.
  destruct (udiv (u32 (n * _)) 1000) as [part|]; [|done]. cbv zeta.
  destruct (_ <? _).
  all: destruct (udiv _ _) as [sp|]; [|done]; destruct (abs _) as [se|]; [|done].
  all: destruct ((sp <=? n) && (se <? e)); intros Hq; [by left|right].
  all: injection Hq as <- <- <- <-; done.
Qed.

(** Neither does [FCanUpdateSamplePoint], when there is an acceptable sample point. *)
Lemma update_prev btc n t a b q e t1 t2 :
  FCanUpdateSamplePoint btc n t 0 0 = Ok (q, e, t1, t2) -> e <> UINT_MAX ->
  FCanUpdateSamplePoint btc n t a b = Ok (q, e, t1, t2).
Proof.
  unfold FCanUpdateSamplePoint, rbind. intros E He.
  destruct (sample_turn btc n t 0 (0, UINT_MAX, 0, 0)) as [[[[q0 e0] x0] y0]|] eqn:E0; [|done].
  destruct (sample_turn_prev _ _ _ _ _ _ a b _ _ _ _ E0) as [->|[Hk ->]]; [done|].
  simplify_eq. destruct (sample_turn_prev _ _ _ _ _ _ a b _ _ _ _ E) as [|[Hk _]]; [done|].
  by simplify_eq.
Qed.

(** The limits of the segments, the same for all boards. *)
Definition segment_limits : FCanBittimingConst := mkBtc 1 16 1 8 4 1 1 1.

(** What the search needs of the sample point for [t] quanta after the first: it is
    at most the nominal one and no split of the [t] quanta has a better one. *)
Definition sample_ok (n t : Z) : bool :=
  match FCanUpdateSamplePoint segment_limits n t 0 0 with
  | Ok (p, e, t1, t2) =>
      (t1 + t2 =? t) && (1 <=? t1) && (t1 <=? 16) && (1 <=? t2) && (t2 <=? 8) &&
      (p =? point_of t1 t2) && (p <=? n) && (e =? n - p) &&
      forallb (fun t2' =>
        negb (point_of (t - t2') t2' <=? n) || (t - t2' <? 1) || (16 <? t - t2') ||
        (point_of (t - t2') t2' <=? p)) (seqZ 1 8)
  | Fault _ => false
  end.

Lemma sample_ok_all :
  forallb (fun n => forallb (sample_ok n) (seqZ 2 23)) (seqZ 680 321) = true.
Proof. vm_compute. reflexivity. Qed.

Lemma forallb_seqZ (f : Z -> bool) a k x :
  forallb f (seqZ a k) = true -> a <= x < a + k -> f x = true.
Proof.
  intros Hf Hx. rewrite List.forallb_forall in Hf. apply Hf, list_elem_of_In, elem_of_seqZ. lia.
Qed.

Section Sample.
Context (n : Z) (Hn : 680 <= n <= 1000).

(** The best split of [t] quanta: its sample point and the two segments. *)
Definition best_split (t : Z) : Z * Z * Z :=
  match FCanUpdateSamplePoint segment_limits n t 0 0 with
  | Ok (p, _, t1, t2) => (p, t1, t2)
  | Fault _ => (0, 0, 0)
  end.
Definition best_point (t : Z) : Z := (best_split t).1.1.

Lemma best_split_spec t : 2 <= t <= 24 ->
  let '(p, t1, t2) := best_split t in
  FCanUpdateSamplePoint segment_limits n t 0 0 = Ok (p, n - p, t1, t2) /\
  t1 + t2 = t /\ 1 <= t1 <= 16 /\ 1 <= t2 <= 8 /\ p = point_of t1 t2 /\ p <= n /\
  forall t1' t2', t1' + t2' = t -> 1 <= t1' <= 16 -> 1 <= t2' <= 8 ->
    point_of t1' t2' <= n -> point_of t1' t2' <= p.
Proof.
  intros Ht. assert (Hs : sample_ok n t = true).
  { apply (forallb_seqZ _ 2 23); [|lia].
    exact (forallb_seqZ (fun n => forallb (sample_ok n) (seqZ 2 23)) 680 321 n sample_ok_all
             ltac:(lia)). }
  unfold best_split, sample_ok in *.
  destruct (FCanUpdateSamplePoint segment_limits n t 0 0) as [[[[p e] t1] t2]|]; [|done].
  rewrite !andb_true_iff, !Z.leb_le, !Z.eqb_eq in Hs.
  destruct Hs as ((((((((H1 & H2) & H3) & H4) & H5) & H6) & H7) & ->) & Hb).
  repeat split; try done.
  intros t1' t2' <- Ht1 Ht2 Hp. apply (forallb_seqZ _ 1 8 t2') in Hb; [|lia].
  cbv beta in Hb. replace (t1' + t2' - t2') with t1' in Hb by lia.
  rewrite !orb_true_iff, negb_true_iff, !Z.ltb_lt, Z.leb_le, Z.leb_gt in Hb. lia.
Qed.

Lemma point_of_nonneg t1 t2 : 0 <= t1 -> 0 <= t2 -> 0 <= point_of t1 t2.
Proof. intros. apply Z.div_pos; lia. Qed.

Lemma update_best btc t a b :
  2 <= t <= 24 -> btc.(tseg1_max) = 16 -> btc.(tseg2_min) = 1 -> btc.(tseg2_max) = 8 ->
  let '(p, t1, t2) := best_split t in
  FCanUpdateSamplePoint btc n t a b = Ok (p, n - p, t1, t2).
Proof.
  intros Ht H1 H2 H3. pose proof (best_split_spec t Ht) as Hs.
  destruct (best_split t) as [[p t1] t2]. destruct Hs as (Hu & _ & Ht1 & Ht2 & Hp & _).
  pose proof (point_of_nonneg t1 t2 ltac:(lia) ltac:(lia)) as Hp0.
  replace (FCanUpdateSamplePoint btc n t a b) with (FCanUpdateSamplePoint segment_limits n t a b).
  - apply update_prev; [done|]. unfold UINT_MAX. lia.
  - unfold FCanUpdateSamplePoint, sample_turn. by rewrite H1, H2, H3.
Qed.
End Sample.

(** ** The search *)
Section Search.
Context (soc : soc_target) (btc : FCanBittimingConst) (target n : Z).
Hypothesis btc_ok : btc = FCanArbBitConst soc \/ btc = FCanDataBitConst soc.
Hypothesis target_ok : FCAN_BAUDRATE_10K <= target <= FCAN_BAUDRATE_5000K.
Hypothesis n_ok : 680 <= n <= 1000.

(** What turn [s] of the search tries: the prescaler, whether it is one, the error of
    the rate and that of the sample point. *)
Definition try_brp (s : Z) : Z := FCAN_CLK_FREQ_HZ soc / ((1 + s / 2) * target) + s mod 2.
Definition valid (s : Z) : Prop := 1 <= try_brp s <= FCAN_ARB_BRP_MAX soc.
Definition try_error (s : Z) : Z :=
  Z.abs (target - FCAN_CLK_FREQ_HZ soc / (try_brp s * (1 + s / 2))).
Definition try_point (s : Z) : Z := n - best_point n (s / 2).

Definition turn (s : Z) : Prop := 4 <= s <= 49.

Lemma turn_half s : turn s -> 2 <= s / 2 <= 24.
Proof. unfold turn. Z.div_mod_to_equations. lia. Qed.

Lemma quotient_range s : turn s ->
  0 <= FCAN_CLK_FREQ_HZ soc / ((1 + s / 2) * target) <= 20000.
Proof.
  intros Hs. pose proof (turn_half s Hs). destruct (soc_bounds soc) as [Hc _].
  unfold FCAN_BAUDRATE_10K, FCAN_BAUDRATE_5000K in *. split; [apply Z.div_pos; nia|].
  apply Z.div_le_upper_bound; nia.
Qed.

Lemma rate_range s : turn s -> valid s ->
  0 <= FCAN_CLK_FREQ_HZ soc / (try_brp s * (1 + s / 2)) <= 600000000.
Proof.
  intros Hs Hv. pose proof (turn_half s Hs). destruct (soc_bounds soc) as [Hc _].
  unfold valid in Hv. split; [apply Z.div_pos; nia|]. apply Z.div_le_upper_bound; nia.
Qed.

Lemma try_error_range s : turn s -> valid s -> 0 <= try_error s < UINT_MAX.
Proof.
  intros Hs Hv. pose proof (rate_range s Hs Hv). unfold try_error, UINT_MAX.
  unfold FCAN_BAUDRATE_10K, FCAN_BAUDRATE_5000K in *. lia.
Qed.

Lemma try_point_range s : turn s -> 0 <= try_point s < UINT_MAX.
Proof.
  intros Hs. pose proof (best_split_spec n n_ok (s / 2) (turn_half s Hs)) as Hb.
  unfold try_point, best_point. destruct (best_split n (s / 2)) as [[p t1] t2].
  destruct Hb as (_ & _ & Ht1 & Ht2 & -> & Hp & _). cbn.
  pose proof (point_of_nonneg t1 t2 ltac:(lia) ltac:(lia)). unfold UINT_MAX. lia.
Qed.

Lemma btc_fields :
  btc.(tseg1_max) = 16 /\ btc.(tseg2_min) = 1 /\ btc.(tseg2_max) = 8 /\ btc.(tseg1_min) = 1 /\
  btc.(brp_min) = 1 /\ btc.(brp_max) = FCAN_ARB_BRP_MAX soc /\ btc.(brp_inc) = 1 /\
  btc.(sjw_max) = 4.
Proof. destruct (soc_bounds soc) as (_ & _ & Hd). by destruct btc_ok as [-> | ->]. Qed.

(** A turn of the search in terms of the errors. *)
Lemma calc_turn_eq s c : turn s ->
  calc_turn soc btc target n s c =
    Ok (if negb (bool_decide (valid s)) then (false, c)
        else if c.(best_baudrate_error) <? try_error s then (false, c)
        else
          let best_sp :=
            if try_error s <? c.(best_baudrate_error) then UINT_MAX
            else c.(best_sample_point_error) in
          let '(_, t1, t2) := best_split n (s / 2) in
          if best_sp <? try_point s then
            (false, mkSearch c.(best_baudrate_error) best_sp c.(best_tseg) c.(best_brp) t1 t2)
          else
            ((try_error s =? 0) && (try_point s =? 0),
             mkSearch (try_error s) (try_point s) (s / 2) (try_brp s) t1 t2)).
Proof using btc_ok target_ok n_ok.
  intros Hs. pose proof (turn_half s Hs) as Ht. pose proof (quotient_range s Hs) as Hq.
  pose proof (Z.mod_pos_bound s 2 ltac:(lia)) as Hm.
  destruct btc_fields as (F1 & F2 & F3 & _ & F4 & F5 & F6 & _).
  destruct (soc_bounds soc) as (Hc & Hb & _).
  unfold FCAN_BAUDRATE_10K, FCAN_BAUDRATE_5000K in *.
  unfold calc_turn, CAN_CALC_SYNC_SEG.
  rewrite (wrap_small 32 (1 + s / 2)), (wrap_small 32 (_ * target)) by nia.
  rewrite udiv_Ok by nia. cbn [rbind]. rewrite F4, F5, F6.
  rewrite (wrap_small 32 (_ + s mod 2)) by lia. fold (try_brp s).
  rewrite udiv_Ok by lia. cbn [rbind]. rewrite Z.div_1_r, Z.mul_1_r.
  assert (Hbrp : 0 <= try_brp s < 2 ^ 32) by (unfold try_brp; lia).
  rewrite (wrap_small 32 (try_brp s)) by done.
  replace ((try_brp s <? 1) || (FCAN_ARB_BRP_MAX soc <? try_brp s)) with (negb (bool_decide (valid s))).
  2:{ unfold valid. destruct (Z.ltb_spec (try_brp s) 1), (Z.ltb_spec (FCAN_ARB_BRP_MAX soc) (try_brp s));
      case_bool_decide; try done; lia. }
  case_bool_decide as Hv; [|done]. cbn [negb].
  pose proof (rate_range s Hs Hv) as Hr. pose proof Hv as Hv'. unfold valid in Hv'.
  rewrite (wrap_small 32 (try_brp s * _)) by nia.
  rewrite udiv_Ok by nia. cbn [rbind].
  rewrite abs_Ok by lia. cbn [rbind]. fold (try_error s).
  destruct (best_baudrate_error c <? try_error s); [done|].
  pose proof (update_best n n_ok btc (s / 2) c.(cur_tseg1) c.(cur_tseg2) Ht F1 F2 F3) as Hu.
  unfold try_point, best_point.
  destruct (best_split n (s / 2)) as [[p t1] t2]. rewrite Hu. cbn [rbind fst].
  by destruct (_ <? n - p).
Qed.

(** The better of two turns: first the rate counts, then the sample point. *)
Definition no_worse (s s' : Z) : Prop :=
  try_error s < try_error s' \/ try_error s = try_error s' /\ try_point s <= try_point s'.

(** [c] holds the best turn down to [lo]. *)
Definition best_from (lo : Z) (c : search) : Prop :=
  (exists s, lo <= s <= 49 /\ 4 <= s /\ valid s /\
     c.(best_baudrate_error) = try_error s /\ c.(best_sample_point_error) = try_point s /\
     c.(best_tseg) = s / 2 /\ c.(best_brp) = try_brp s /\
     forall s', 4 <= s' -> lo <= s' <= 49 -> valid s' -> no_worse s s') \/
  (c.(best_baudrate_error) = UINT_MAX /\ c.(best_sample_point_error) = UINT_MAX /\
   forall s', 4 <= s' -> lo <= s' <= 49 -> ~ valid s').

Lemma best_from_skip s c : 4 <= s ->
  best_from (s + 1) c ->
  (valid s -> c.(best_baudrate_error) < try_error s \/
     c.(best_baudrate_error) = try_error s /\ c.(best_sample_point_error) < try_point s) ->
  best_from s c.
Proof using target_ok n_ok.
  intros H4 Hc Hv. destruct Hc as [(x & Hx & Hx4 & Vx & E1 & E2 & E3 & E4 & Hb)|(E1 & E2 & Hb)].
  - left. exists x. repeat (split; [done || lia|]). intros s' H4' Hs' V'.
    destruct (decide (s' = s)) as [->|]; [|apply Hb; try done; lia].
    unfold no_worse. rewrite <-E1, <-E2. destruct (Hv V'); [by left|right; lia].
  - right. split; [done|]. split; [done|]. intros s' H4' Hs' V'.
    destruct (decide (s' = s)) as [->|]; [|eapply Hb; try done; lia].
    assert (Ht : turn s) by (unfold turn; lia).
    pose proof (try_error_range s Ht V'). pose proof (try_point_range s Ht).
    destruct (Hv V'); lia.
Qed.

Lemma best_from_take s c t1 t2 : 4 <= s <= 49 -> valid s ->
  best_from (s + 1) c ->
  (try_error s < c.(best_baudrate_error) \/
     try_error s = c.(best_baudrate_error) /\ try_point s <= c.(best_sample_point_error)) ->
  best_from s (mkSearch (try_error s) (try_point s) (s / 2) (try_brp s) t1 t2).
Proof using.
  intros Hs Vs Hc Hv. left. exists s. repeat (split; [done || lia|]). intros s' H4' Hs' V'.
  destruct (decide (s' = s)) as [->|]; [right; lia|].
  destruct Hc as [(x & Hx & Hx4 & Vx & E1 & E2 & E3 & E4 & Hb)|(E1 & E2 & Hb)].
  - pose proof (Hb s' H4' ltac:(lia) V') as Hw. unfold no_worse in *. lia.
  - by destruct (Hb s' H4' ltac:(lia)).
Qed.

(** The [break]: nothing is better than no error. *)
Lemma best_from_break s c : 4 <= s <= 49 -> valid s ->
  c.(best_baudrate_error) = 0 -> c.(best_sample_point_error) = 0 ->
  c.(best_tseg) = s / 2 -> c.(best_brp) = try_brp s -> try_error s = 0 -> try_point s = 0 ->
  best_from 4 c.
Proof using target_ok n_ok.
  intros Hs Vs E1 E2 E3 E4 E5 E6. left. exists s.
  repeat (split; [done || lia|]). intros s' H4' Hs' V'.
  assert (Ht : turn s') by (unfold turn; lia).
  pose proof (try_error_range s' Ht V'). pose proof (try_point_range s' Ht).
  unfold no_worse. lia.
Qed.

(** One turn keeps [best_from]. *)
Lemma calc_turn_best s c : 4 <= s <= 49 -> best_from (s + 1) c ->
  exists stop c', calc_turn soc btc target n s c = Ok (stop, c') /\
    best_from s c' /\ (stop = true -> best_from 4 c').
Proof using btc_ok target_ok n_ok.
  intros Hs Hc. rewrite calc_turn_eq by done. case_bool_decide as Hv; cbn [negb].
  2:{ exists false, c. split; [done|]. split; [|done]. apply best_from_skip; [lia|done|by intros]. }
  destruct (Z.ltb_spec c.(best_baudrate_error) (try_error s)) as [He|He].
  { exists false, c. split; [done|]. split; [|done]. apply best_from_skip; [lia|done|].
    intros _. by left. }
  cbv zeta. destruct (best_split n (s / 2)) as [[p t1] t2].
  pose proof (try_point_range s Hs) as Hp.
  destruct (Z.ltb_spec (try_error s) c.(best_baudrate_error)) as [He'|He'].
  - destruct (Z.ltb_spec UINT_MAX (try_point s)) as [|Hp']; [lia|].
    eexists _, _. split; [done|]. split; [apply (best_from_take s c); [done|done|done|by left]|].
    rewrite andb_true_iff, !Z.eqb_eq. intros [Z1 Z2]. by eapply best_from_break.
  - destruct (Z.ltb_spec c.(best_sample_point_error) (try_point s)) as [Hp'|Hp'].
    + eexists _, _. split; [done|]. split; [|done].
      apply (best_from_skip s (mkSearch _ _ _ _ t1 t2)); [lia|exact Hc|].
      intros _. right. cbn. lia.
    + eexists _, _. split; [done|]. split; [apply (best_from_take s c); [done|done|done|right; lia]|].
      rewrite andb_true_iff, !Z.eqb_eq. intros [Z1 Z2]. by eapply best_from_break.
Qed.

Lemma calc_loop_best (k : nat) s c : s = Z.of_nat k + 3 -> s <= 49 -> best_from (s + 1) c ->
  exists c', calc_loop soc btc target n k s c = Ok c' /\ best_from 4 c'.
Proof using btc_ok target_ok n_ok.
  revert s c. induction k as [|k IH]; intros s c Hk Hs Hc; cbn [calc_loop].
  { exists c. split; [done|]. by replace 4 with (s + 1) by lia. }
  destruct (calc_turn_best s c ltac:(lia) Hc) as (stop & c' & -> & Hb & Hstop). cbn [rbind].
  destruct stop; [by eauto|]. rewrite (wrap_small 32 (s - 1)) by lia.
  apply IH; [lia|lia|]. by replace (s - 1 + 1) with s by lia.
Qed.
End Search.

(** ** Settings found *)
Section Found.
Context (soc : soc_target) (target n : Z).
Hypothesis target_ok : FCAN_BAUDRATE_10K <= target <= FCAN_BAUDRATE_5000K.
Hypothesis n_ok : 680 <= n <= 1000.

(** A prescaler that gives the rate is the quotient the search computes. *)
Lemma exact_quotient ts1 ts2 brp : exact soc target ts1 ts2 brp ->
  FCAN_CLK_FREQ_HZ soc / ((1 + ts1 + ts2) * target) = brp.
Proof using target_ok.
  intros ((H1 & H2 & H3) & Hr). destruct (soc_bounds soc) as (Hc & Hb & _).
  unfold rate_of, FCAN_BAUDRATE_10K in *. set (q := 1 + ts1 + ts2) in *.
  symmetry. apply Z.div_unique with (r := FCAN_CLK_FREQ_HZ soc - q * target * brp); [left|lia].
  assert (Hd := Z.div_mod (FCAN_CLK_FREQ_HZ soc) (brp * q) ltac:(nia)).
  pose proof (Z.mod_pos_bound (FCAN_CLK_FREQ_HZ soc) (brp * q) ltac:(nia)). rewrite Hr in Hd.
  split; [nia|]. nia.
Qed.

(** So an exact setting is a turn of the search. *)
Lemma exact_turn ts1 ts2 brp : exact soc target ts1 ts2 brp ->
  let s := 2 * (ts1 + ts2) in
  turn s /\ s / 2 = ts1 + ts2 /\ valid soc target s /\ try_error soc target s = 0.
Proof using target_ok.
  intros Hx s. pose proof (exact_quotient _ _ _ Hx) as Hq. destruct Hx as ((H1 & H2 & H3) & Hr).
  assert (Hs : s / 2 = ts1 + ts2) by (unfold s; rewrite Z.mul_comm; by apply Z.div_mul).
  assert (Hm : s mod 2 = 0) by (unfold s; rewrite Z.mul_comm; by apply Z.mod_mul).
  assert (Hb : try_brp soc target s = brp).
  { unfold try_brp. rewrite Hs, Hm, Z.add_assoc, Hq. lia. }
  split; [unfold turn, s; lia|]. split; [done|]. split; [unfold valid; by rewrite Hb|].
  unfold try_error. rewrite Hb, Hs, Z.add_assoc. unfold rate_of in Hr. rewrite Hr. lia.
Qed.

(** A turn without error is an exact setting, with the best split. *)
Lemma turn_exact s : turn s -> valid soc target s -> try_error soc target s = 0 ->
  let '(p, t1, t2) := best_split n (s / 2) in exact soc target t1 t2 (try_brp soc target s).
Proof using n_ok.
  intros Hs Hv He. pose proof (best_split_spec n n_ok (s / 2) (turn_half s Hs)) as Hb.
  destruct (best_split n (s / 2)) as [[p t1] t2]. destruct Hb as (_ & Ht & H1 & H2 & _).
  split; [done|]. unfold rate_of, try_error in *. rewrite <-Z.add_assoc, Ht. lia.
Qed.
End Found.

(** The sample point aimed at, in tenths of a percent. *)
Definition nominal_point (soc : soc_target) (target sample_point : Z) : Z :=
  if truth sample_point then sample_point else default_sample_point soc target.

(** A setting for [target] whose sample point is at most [n] and the best of those. *)
Definition optimal (soc : soc_target) (target n ts1 ts2 brp : Z) : Prop :=
  exact soc target ts1 ts2 brp /\ point_of ts1 ts2 <= n /\
  forall ts1' ts2' brp', exact soc target ts1' ts2' brp' ->
    point_of ts1' ts2' <= n -> point_of ts1' ts2' <= point_of ts1 ts2.

(** The best turn of the search, without error, is an optimal setting. *)
Lemma best_optimal soc target n c :
  FCAN_BAUDRATE_10K <= target <= FCAN_BAUDRATE_5000K -> 680 <= n <= 1000 ->
  best_from soc target n 4 c -> c.(best_baudrate_error) = 0 ->
  2 <= c.(best_tseg) <= 24 /\
  let '(p, t1, t2) := best_split n c.(best_tseg) in optimal soc target n t1 t2 c.(best_brp).
Proof.
  intros Ht Hn [(s & Hs & H4 & Hv & E1 & E2 & E3 & E4 & Hb)|(E1 & _)] E0; [|by rewrite E0 in E1].
  assert (Hturn : turn s) by (unfold turn; lia).
  pose proof (turn_half s Hturn) as Hhalf. rewrite E3, E4. split; [done|].
  pose proof (best_split_spec n Hn (s / 2) Hhalf) as Hsp.
  pose proof (turn_exact soc target n Hn s Hturn Hv ltac:(lia)) as Hx.
  assert (Hpt : try_point n s = n - (best_split n (s / 2)).1.1) by done.
  destruct (best_split n (s / 2)) as [[p t1] t2].
  destruct Hsp as (_ & _ & _ & _ & Hp & Hpn & _). cbn [fst] in Hpt.
  split; [done|]. split; [lia|]. intros ts1 ts2 brp Hx' Hle.
  destruct (exact_turn soc target Ht _ _ _ Hx') as (Hturn' & Hhalf' & Hv' & He').
  set (s' := 2 * (ts1 + ts2)) in *.
  destruct (Hb s' ltac:(unfold turn in *; lia) ltac:(unfold turn in *; lia) Hv') as [?|[_ Hw]];
    [lia|].
  pose proof (best_split_spec n Hn (s' / 2) (turn_half s' Hturn')) as Hsp'.
  assert (Hpt' : try_point n s' = n - (best_split n (s' / 2)).1.1) by done.
  destruct (best_split n (s' / 2)) as [[p' t1'] t2'].
  destruct Hsp' as (_ & _ & _ & _ & _ & _ & Hmax). cbn [fst] in Hpt'.
  destruct Hx' as ((H1 & H2 & H3) & _). pose proof (Hmax ts1 ts2 ltac:(lia) H1 H2 Hle). lia.
Qed.

(** When there is a setting, the search ends without error. *)
Lemma search_complete soc target n c :
  FCAN_BAUDRATE_10K <= target <= FCAN_BAUDRATE_5000K -> 680 <= n <= 1000 ->
  best_from soc target n 4 c -> (exists ts1 ts2 brp, exact soc target ts1 ts2 brp) ->
  c.(best_baudrate_error) = 0.
Proof.
  intros Ht Hn Hc (ts1 & ts2 & brp & Hx).
  destruct (exact_turn soc target Ht _ _ _ Hx) as (Hturn & Hhalf & Hv & He).
  set (s := 2 * (ts1 + ts2)) in *. unfold turn in Hturn.
  destruct Hc as [(s' & Hs & H4 & Hv' & E1 & E2 & E3 & E4 & Hb)|(_ & _ & Hb)].
  2: by destruct (Hb s ltac:(lia) ltac:(lia)).
  assert (Hturn' : turn s') by (unfold turn; lia).
  pose proof (try_error_range soc target Ht s' Hturn' Hv').
  pose proof (Hb s ltac:(lia) ltac:(lia) Hv) as Hw. unfold no_worse in Hw. lia.
Qed.

Lemma sanitize_sjw_range btc tseg2 w : 1 <= tseg2 -> 0 <= w -> 1 <= btc.(sjw_max) ->
  1 <= sanitize_sjw btc tseg2 w <= Z.min tseg2 (Z.max 1 btc.(sjw_max)).
Proof.
  intros H1 H2 H3. unfold sanitize_sjw. destruct (Z.eqb_spec w 0), (Z.eqb_spec (sjw_max btc) 0);
    cbn [orb]; try lia.
  destruct (Z.ltb_spec (sjw_max btc) w); [destruct (Z.ltb_spec tseg2 (sjw_max btc)); lia|].
  destruct (Z.ltb_spec tseg2 w); lia.
Qed.

(** What the search leaves to the rest of [FCanCalcBittiming]. *)
Lemma search_result soc btc target n :
  btc = FCanArbBitConst soc \/ btc = FCanDataBitConst soc ->
  FCAN_BAUDRATE_10K <= target <= FCAN_BAUDRATE_5000K -> 680 <= n <= 1000 ->
  exists c, calc_loop soc btc target n 46 49 (mkSearch UINT_MAX UINT_MAX 0 0 0 0) = Ok c /\
    best_from soc target n 4 c.
Proof.
  intros Hbtc Ht Hn. apply calc_loop_best; try done. right. repeat split. lia.
Qed.

(** The error that makes [FCanCalcBittiming] give up at once. *)
Lemma v64_Ok soc target n c :
  FCAN_BAUDRATE_10K <= target <= FCAN_BAUDRATE_5000K -> best_from soc target n 4 c ->
  exists v, ((if truth c.(best_baudrate_error)
              then udiv (u64 (c.(best_baudrate_error) * 1000)) target else Ok 0) = Ok v) /\
    (c.(best_baudrate_error) = 0 -> v = 0) /\
    ((CAN_CALC_MAX_ERROR <? u32 v) = false -> c.(best_baudrate_error) < UINT_MAX).
Proof.
  intros Ht Hc. unfold truth. destruct (Z.eqb_spec c.(best_baudrate_error) 0) as [E|E]; cbn [negb].
  { exists 0. split; [done|]. split; [done|]. intros _. by rewrite E. }
  assert (Hpos : target <> 0) by (unfold FCAN_BAUDRATE_10K in *; lia).
  rewrite udiv_Ok by done. eexists. split; [done|]. split; [done|]. intros Hv.
  destruct Hc as [(s & Hs & H4 & Hv' & E1 & _)|(E1 & _)].
  { rewrite E1. apply (try_error_range soc target Ht s ltac:(unfold turn; lia) Hv'). }
  exfalso. rewrite E1 in Hv. change (u64 (UINT_MAX * 1000)) with 4294967295000 in Hv.
  unfold CAN_CALC_MAX_ERROR, FCAN_BAUDRATE_10K, FCAN_BAUDRATE_5000K in *.
  assert (850000 <= 4294967295000 / target) by (apply Z.div_le_lower_bound; lia).
  assert (4294967295000 / target <= 429496730) by (apply Z.div_le_upper_bound; lia).
  rewrite (wrap_small 32 (_ / target)) in Hv by lia. apply Z.ltb_ge in Hv. lia.
Qed.

(** ** The search against all settings

    The reference: the points of all settings for the rate, the best of them. *)
Definition gives_rate (soc : soc_target) (target ts1 ts2 : Z) : bool :=
  existsb (fun brp => rate_of soc ts1 ts2 brp =? target) (seqZ 1 (FCAN_ARB_BRP_MAX soc)).
Definition exact_points (soc : soc_target) (target n : Z) : list Z :=
  List.map (fun '(ts1, ts2) => point_of ts1 ts2)
    (List.filter (fun '(ts1, ts2) => (point_of ts1 ts2 <=? n) && gives_rate soc target ts1 ts2)
       (list_prod (seqZ 1 16) (seqZ 1 8))).
Definition exhaustive (soc : soc_target) (target n : Z) : option Z :=
  match exact_points soc target n with
  | [] => None
  | p :: ps => Some (foldr Z.max p ps)
  end.

Lemma gives_rate_exact soc target ts1 ts2 : 1 <= ts1 <= 16 -> 1 <= ts2 <= 8 ->
  gives_rate soc target ts1 ts2 = true <-> exists brp, exact soc target ts1 ts2 brp.
Proof.
  intros H1 H2. unfold gives_rate. rewrite existsb_exists. split.
  - intros (brp & Hin & Hr). apply list_elem_of_In, elem_of_seqZ in Hin. apply Z.eqb_eq in Hr.
    exists brp. repeat split; (done || lia).
  - intros (brp & (_ & _ & Hb) & Hr). exists brp. split; [|by apply Z.eqb_eq].
    apply list_elem_of_In, elem_of_seqZ. lia.
Qed.

Lemma exact_points_spec soc target n p :
  In p (exact_points soc target n) <->
  exists ts1 ts2 brp, exact soc target ts1 ts2 brp /\ point_of ts1 ts2 <= n /\ p = point_of ts1 ts2.
Proof.
  unfold exact_points. rewrite in_map_iff. split.
  - intros ([ts1 ts2] & <- & Hin). apply filter_In in Hin as [Hin Hf].
    apply in_prod_iff in Hin as [Hi1 Hi2]. apply list_elem_of_In, elem_of_seqZ in Hi1, Hi2.
    apply andb_true_iff in Hf as [Hle Hg]. apply Z.leb_le in Hle.
    apply gives_rate_exact in Hg as [brp Hx]; [|lia..]. by exists ts1, ts2, brp.
  - intros (ts1 & ts2 & brp & Hx & Hle & ->). exists (ts1, ts2). split; [done|].
    pose proof Hx as ((H1 & H2 & _) & _). apply filter_In. split.
    + apply in_prod_iff. split; apply list_elem_of_In, elem_of_seqZ; lia.
    + apply andb_true_iff. split; [by apply Z.leb_le|]. apply gives_rate_exact; [done..|by exists brp].
Qed.

Lemma foldr_max_spec p ps :
  In (foldr Z.max p ps) (p :: ps) /\ forall q, In q (p :: ps) -> q <= foldr Z.max p ps.
Proof.
  induction ps as [|x ps [IHi IHm]]; cbn [foldr].
  - split; [by left|]. intros q [->|[]]. lia.
  - split.
    + destruct (Z.max_spec x (foldr Z.max p ps)) as [[_ ->]|[_ ->]]; [|right; by left].
      destruct IHi as [Hi|Hi]; [by left|right; by right].
    + intros q [<-|[<-|Hq]]; [|lia|].
      * pose proof (IHm p (or_introl eq_refl)). lia.
      * pose proof (IHm q (or_intror Hq)). lia.
Qed.

Lemma exhaustive_optimal soc target n ts1 ts2 brp :
  optimal soc target n ts1 ts2 brp -> exhaustive soc target n = Some (point_of ts1 ts2).
Proof.
  intros (Hx & Hle & Hmax). unfold exhaustive.
  assert (Hin : In (point_of ts1 ts2) (exact_points soc target n)).
  { apply exact_points_spec. by exists ts1, ts2, brp. }
  pose proof (exact_points_spec soc target n) as Hspec.
  destruct (exact_points soc target n) as [|p ps]; [done|].
  destruct (foldr_max_spec p ps) as [Hi Hm]. apply Hspec in Hi as (a & b & c & Hx' & Hle' & Hp).
  pose proof (Hmax a b c Hx' Hle'). pose proof (Hm _ Hin). f_equal. lia.
Qed.

Lemma exhaustive_None soc target n :
  ~ (exists ts1 ts2 brp, exact soc target ts1 ts2 brp) -> exhaustive soc target n = None.
Proof.
  intros Hno. unfold exhaustive. pose proof (exact_points_spec soc target n) as Hspec.
  destruct (exact_points soc target n) as [|p ps]; [done|]. exfalso.
  destruct (proj1 (Hspec p) (or_introl eq_refl)) as (a & b & c & Hx & _). by eauto.
Qed.

(** The last step of [FCanCalcBittiming], for a search without error. *)
Definition timing_found (soc : soc_target) (target n : Z) (bt bt' : FCanBaudrateConfig) : Prop :=
  optimal soc target n (bt'.(prop_seg) + bt'.(phase_seg1)) bt'.(phase_seg2) bt'.(brp) /\
  bt'.(prop_seg) = (bt'.(prop_seg) + bt'.(phase_seg1)) / 2 /\
  1 <= bt'.(sjw) <= Z.min 4 bt'.(phase_seg2) /\
  bt' = set_timing bt'.(prop_seg) bt'.(phase_seg1) bt'.(phase_seg2) bt'.(sjw) bt'.(brp) bt.

Lemma calc_finish soc btc target n c bt :
  btc = FCanArbBitConst soc \/ btc = FCanDataBitConst soc ->
  FCAN_BAUDRATE_10K <= target <= FCAN_BAUDRATE_5000K -> 680 <= n <= 1000 ->
  best_from soc target n 4 c -> 0 <= bt.(sjw) -> c.(best_baudrate_error) < UINT_MAX ->
  let r :=
    let! (_, _, tseg1, tseg2) :=
      FCanUpdateSamplePoint btc n c.(best_tseg) c.(cur_tseg1) c.(cur_tseg2) in
    let prop_seg := tseg1 / 2 in
    let bt := set_timing prop_seg (u32 (tseg1 - prop_seg)) tseg2
                (sanitize_sjw btc tseg2 bt.(sjw)) c.(best_brp) bt in
    let! real := udiv (FCAN_CLK_FREQ_HZ soc)
                   (u32 (bt.(brp) * u32 (CAN_CALC_SYNC_SEG + tseg1 + tseg2))) in
    if negb (target =? real) then Ok (FCAN_FAILURE, bt) else Ok (FCAN_SUCCESS, bt) in
  if c.(best_baudrate_error) =? 0
  then exists bt', r = Ok (FCAN_SUCCESS, bt') /\ timing_found soc target n bt bt'
  else exists bt', r = Ok (FCAN_FAILURE, bt').
Proof.
  intros Hbtc Ht Hn Hc Hw Hlt r.
  assert (Hopt := best_optimal soc target n c Ht Hn Hc).
  destruct Hc as [(s & Hs & H4 & Hv & E1 & _ & E3 & E4 & _)|(E1 & _)]; [|lia].
  assert (Hturn : turn s) by (unfold turn; lia). pose proof (turn_half s Hturn) as Hhalf.
  destruct (btc_fields soc btc Hbtc) as (F1 & F2 & F3 & _ & _ & _ & _ & F8).
  destruct (soc_bounds soc) as (Hclk & Hmax & _).
  pose proof (update_best n Hn btc (s / 2) c.(cur_tseg1) c.(cur_tseg2) Hhalf F1 F2 F3) as Hu.
  pose proof (best_split_spec n Hn (s / 2) Hhalf) as Hsp.
  unfold r. rewrite E3, E4 in *. destruct (best_split n (s / 2)) as [[p t1] t2].
  destruct Hsp as (_ & Hsum & H1 & H2 & _). rewrite Hu. cbn [rbind brp set_timing].
  unfold valid in Hv. unfold CAN_CALC_SYNC_SEG.
  rewrite (wrap_small 32 (1 + t1 + t2)), (wrap_small 32 (try_brp soc target s * _)) by nia.
  rewrite udiv_Ok by nia. cbn [rbind]. rewrite <-Z.add_assoc, Hsum.
  assert (Hh : 0 <= t1 / 2 <= t1) by (Z.div_mod_to_equations; lia).
  rewrite (wrap_small 32 (t1 - t1 / 2)) by lia.
  pose proof (sanitize_sjw_range btc t2 bt.(sjw) ltac:(lia) Hw ltac:(lia)) as Hj.
  unfold try_error in E1.
  destruct (Z.eqb_spec c.(best_baudrate_error) 0) as [E|E].
  - rewrite (proj2 (Z.eqb_eq target _)) by lia. eexists. split; [done|].
    unfold timing_found. cbn. replace (t1 / 2 + (t1 - t1 / 2)) with t1 by lia.
    split; [by apply Hopt|]. split; [done|]. split; [lia|done].
  - rewrite (proj2 (Z.eqb_neq target _)) by lia. by eexists.
Qed.

Lemma FCanCalcBittiming_cases soc bt target sp seg :
  FCAN_BAUDRATE_10K <= target <= FCAN_BAUDRATE_5000K ->
  seg = FCAN_ARB_SEGMENT \/ seg = FCAN_DATA_SEGMENT -> 0 <= bt.(sjw) ->
  680 <= nominal_point soc target sp <= 1000 ->
  (exists bt', FCanCalcBittiming soc bt target sp seg = Ok (FCAN_SUCCESS, bt') /\
     timing_found soc target (nominal_point soc target sp) bt bt') \/
  ~ (exists ts1 ts2 brp, exact soc target ts1 ts2 brp) /\
    exists bt', FCanCalcBittiming soc bt target sp seg = Ok (FCAN_FAILURE, bt').
Proof.
  intros Ht Hseg Hw Hn. unfold FCanCalcBittiming. fold (nominal_point soc target sp).
  set (n := nominal_point soc target sp) in *.
  replace (seg <? FCAN_SEGMENT_TYPE_NUM) with true by (by destruct Hseg as [-> | ->]).
  set (btc := if seg =? FCAN_DATA_SEGMENT then _ else _).
  assert (Hbtc : btc = FCanArbBitConst soc \/ btc = FCanDataBitConst soc).
  { unfold btc. destruct (_ =? _); [by right|by left]. }
  destruct (btc_fields soc btc Hbtc) as (F1 & F2 & F3 & F4 & _ & _ & _ & F8).
  rewrite F1, F2, F3, F4. change (Z.to_nat _) with 46%nat. change ((16 + 8) * 2 + 1) with 49.
  destruct (search_result soc btc target n Hbtc Ht Hn) as (c & -> & Hc). cbn [rbind].
  destruct (v64_Ok soc target n c Ht Hc) as (v & -> & Hv0 & Hv). cbn [rbind].
  destruct (CAN_CALC_MAX_ERROR <? u32 v) eqn:Ev.
  - right. split; [|by eexists]. intros Hx.
    pose proof (search_complete soc target n c Ht Hn Hc Hx) as E0. by rewrite (Hv0 E0) in Ev.
  - pose proof (calc_finish soc btc target n c bt Hbtc Ht Hn Hc Hw (Hv eq_refl)) as Hf.
    destruct (Z.eqb_spec c.(best_baudrate_error) 0) as [E|E].
    + left. exact Hf.
    + right. split; [|exact Hf]. intros Hx. by pose proof (search_complete soc target n c Ht Hn Hc Hx).
Qed.

(** C16: [FCanCalcBittiming] is equivalent to trying all settings of the controller, for
    the rates [FCanBaudrateSet] accepts and sample points from 68 to 100 percent: it
    always returns; it fails exactly when no prescaler and segments give the rate; else
    it returns a setting with this rate whose sample point is the best, not above the
    nominal one, of all settings with this rate.  The jump width fits the setting. *)
Theorem FCanCalcBittiming_exhaustive soc bt target sp seg :
  FCAN_BAUDRATE_10K <= target <= FCAN_BAUDRATE_5000K ->
  seg = FCAN_ARB_SEGMENT \/ seg = FCAN_DATA_SEGMENT -> 0 <= bt.(sjw) ->
  680 <= nominal_point soc target sp <= 1000 ->
  exists ret bt', FCanCalcBittiming soc bt target sp seg = Ok (ret, bt') /\
    match exhaustive soc target (nominal_point soc target sp) with
    | None => ret = FCAN_FAILURE
    | Some p =>
        let ts1 := bt'.(prop_seg) + bt'.(phase_seg1) in
        ret = FCAN_SUCCESS /\ exact soc target ts1 bt'.(phase_seg2) bt'.(brp) /\
        point_of ts1 bt'.(phase_seg2) = p /\ p <= nominal_point soc target sp /\
        bt'.(prop_seg) = ts1 / 2 /\ 1 <= bt'.(sjw) <= Z.min 4 bt'.(phase_seg2)
    end.
Proof.
  intros Ht Hseg Hw Hn.
  destruct (FCanCalcBittiming_cases soc bt target sp seg Ht Hseg Hw Hn)
    as [(bt' & -> & Hopt & Hp & Hj & _)|(Hno & bt' & ->)]; eexists _, _; (split; [done|]).
  - rewrite (exhaustive_optimal _ _ _ _ _ _ Hopt). destruct Hopt as (Hx & Hle & _).
    cbv zeta. repeat (split; [done|]). exact Hj.
  - by rewrite exhaustive_None.
Qed.

Lemma FCanCalcBittiming_exhaustive_witness :
  exists ret bt',
    FCanCalcBittiming SOC_TARGET_PD2008 (mkBaudrate 0 0 0 0 0 0 0 0 0) 500000 0 1 = Ok (ret, bt') /\
    ret = FCAN_SUCCESS.
Proof.
  destruct (FCanCalcBittiming_exhaustive SOC_TARGET_PD2008 (mkBaudrate 0 0 0 0 0 0 0 0 0) 500000 0 1)
    as (ret & bt' & E & Hr).
  - zdec.
  - by right.
  - done.
  - zdec.
  - exists ret, bt'. split; [exact E|].
    replace (exhaustive SOC_TARGET_PD2008 500000 _) with (Some 875) in Hr
      by (vm_compute; reflexivity).
    apply Hr.
Defined.
