(* ===== verification/CanProps.v ===== *)
(** Properties of the CAN driver (Can.v): what it relies on of the controller, the
    programming of the bit rate, frames sent and received, and the calls of the
    interrupt handler. *)
From S2P Require Import Prelude Mmio Can CanTiming.
Import Can.

#[local] Ltac Zify.zify_post_hook ::= Z.to_euclidean_division_equations.

(** ** The controller

    For the controller at [base]: [written] is the last value written to a register,
    [tx] the words put into the transmit FIFO so far and [level] how many of them it
    still holds, [rx] the words of the receive FIFO.  Frames can arrive and leave at
    any access. *)
Class CanLaws {H : MmioHw} (base : Z) := {
  written : hw -> Z -> Z;
  tx : hw -> list Z;
  rx : hw -> list Z;
  level : hw -> Z;
  evolves (h h' : hw) : Prop :=
    tx h' = tx h /\ level h' <= level h /\ (exists arrived, rx h' = rx h ++ arrived) /\
    forall off, written h' off = written h off;
  law_read h off v h' :
    FtIn32 h base off = (v, h') -> off <> FCAN_RX_FIFO_OFFSET -> evolves h h';
  law_ctrl h v h' :
    FtIn32 h base FCAN_CTRL_OFFSET = (v, h') ->
    v = Z.land (written h FCAN_CTRL_OFFSET) (lnotw 32 FCAN_CTRL_RST_MASK);
  law_count h v h' :
    FtIn32 h base FCAN_FIFO_CNT_OFFSET = (v, h') ->
    FCAN_FIFO_CNT_TFN_GET v = level h' /\ (FCAN_FIFO_CNT_RFN_GET v = 0 <-> rx h' = []);
  law_level h : 0 <= level h <= FCAN_FIFO_DEPTH;
  law_take h w l :
    rx h = w :: l -> exists h' arrived, FtIn32 h base FCAN_RX_FIFO_OFFSET = (w, h') /\
      rx h' = l ++ arrived /\ tx h' = tx h /\ forall off, written h' off = written h off;
  law_put h v : level h < FCAN_FIFO_DEPTH ->
    let h' := FtOut32 h base FCAN_TX_FIFO_OFFSET v in
    tx h' = tx h ++ [v] /\ level h' <= level h + 1 /\ exists arrived, rx h' = rx h ++ arrived;
  law_written h off : 0 <= written h off < 2 ^ 32;
  law_write h off v : off <> FCAN_TX_FIFO_OFFSET -> 0 <= v < 2 ^ 32 ->
    (off = FCAN_CTRL_OFFSET -> Z.land v FCAN_CTRL_RST_MASK = 0) ->
    let h' := FtOut32 h base off v in
    tx h' = tx h /\ level h' <= level h /\ (exists arrived, rx h' = rx h ++ arrived) /\
    forall off', written h' off' = if off' =? off then v else written h off'
}.

(** ** Timing registers *)
Definition reg_brp (w : Z) : Z := Z.shiftr w 16 + 1.
Definition reg_prop_seg (w : Z) : Z := Z.land (Z.shiftr w 2) 7 + 1.
Definition reg_phase_seg1 (w : Z) : Z := Z.land (Z.shiftr w 5) 7 + 1.
Definition reg_phase_seg2 (w : Z) : Z := Z.land (Z.shiftr w 8) 7 + 1.
Definition reg_sjw (w : Z) : Z := Z.land w 3 + 1.

(** The fields below the prescaler, by trying all of them. *)
Definition low_word (p p1 p2 j : Z) : Z :=
  Z.lor (Z.lor (Z.lor (Z.shiftl p 2) (Z.shiftl p1 5)) (Z.shiftl p2 8)) j.

Lemma low_word_all :
  forallb (fun p => forallb (fun p1 => forallb (fun p2 => forallb (fun j =>
    let w := low_word p p1 p2 j in
    (w <? 2 ^ 16) && (0 <=? w) && (Z.land (Z.shiftr w 2) 7 =? p) &&
    (Z.land (Z.shiftr w 5) 7 =? p1) && (Z.land (Z.shiftr w 8) 7 =? p2) && (Z.land w 3 =? j))
  (seqZ 0 4)) (seqZ 0 8)) (seqZ 0 8)) (seqZ 0 8) = true.
Proof. vm_compute. reflexivity. Qed.

Lemma low_word_spec p p1 p2 j :
  0 <= p < 8 -> 0 <= p1 < 8 -> 0 <= p2 < 8 -> 0 <= j < 4 ->
  let w := low_word p p1 p2 j in
  0 <= w < 2 ^ 16 /\ Z.land (Z.shiftr w 2) 7 = p /\ Z.land (Z.shiftr w 5) 7 = p1 /\
  Z.land (Z.shiftr w 8) 7 = p2 /\ Z.land w 3 = j.
Proof.
  intros Hp Hp1 Hp2 Hj. pose proof low_word_all as Ha.
  apply (forallb_seqZ _ 0 8 p) in Ha; [|lia]. apply (forallb_seqZ _ 0 8 p1) in Ha; [|lia].
  apply (forallb_seqZ _ 0 8 p2) in Ha; [|lia]. apply (forallb_seqZ _ 0 4 j) in Ha; [|lia].
  cbv beta zeta in Ha.
  rewrite !andb_true_iff, Z.ltb_lt, Z.leb_le, !Z.eqb_eq in Ha. cbv zeta. tauto.
Qed.

(** A field below bit 16 does not see the prescaler. *)
Lemma field_low b w k m :
  0 <= w < 2 ^ 16 -> 0 <= k -> 0 <= m -> k + m <= 16 ->
  Z.land (Z.shiftr (Z.lor (Z.shiftl b 16) w) k) (Z.ones m) = Z.land (Z.shiftr w k) (Z.ones m).
Proof.
  intros Hw Hk Hm Hkm. bitwise i Hi. destruct (Z.leb_spec 0 i), (Z.ltb_spec i m); cbn [andb];
    rewrite ?andb_false_r, ?andb_true_r; try done.
  by rewrite (Z.testbit_neg_r b) by lia.
Qed.

Definition timing_in_range (b : FCanBaudrateConfig) : Prop :=
  1 <= b.(prop_seg) <= 8 /\ 1 <= b.(phase_seg1) <= 8 /\ 1 <= b.(phase_seg2) <= 8 /\
  1 <= b.(sjw) <= 4 /\ 1 <= b.(brp) <= 8192.

(** Settings in range do not overlap in the register. *)
Lemma timing_word_fields b : timing_in_range b ->
  let w := timing_word b in
  reg_brp w = b.(brp) /\ reg_prop_seg w = b.(prop_seg) /\ reg_phase_seg1 w = b.(phase_seg1) /\
  reg_phase_seg2 w = b.(phase_seg2) /\ reg_sjw w = b.(sjw) /\ 0 <= w < 2 ^ 32.
Proof.
  intros (Hp & H1 & H2 & Hj & Hb) w.
  destruct (low_word_spec (b.(prop_seg) - 1) (b.(phase_seg1) - 1) (b.(phase_seg2) - 1)
              (b.(sjw) - 1)) as (Hw & E1 & E2 & E3 & E4); [lia..|].
  set (l := low_word _ _ _ _) in *.
  assert (Hl : w = Z.lor (Z.shiftl (b.(brp) - 1) 16) l).
  { unfold w, timing_word.
    rewrite !(wrap_small 32 (_ - 1)) by lia.
    rewrite !(wrap_small 32 (Z.shiftl _ _)) by (rewrite Z.shiftl_mul_pow2; lia).
    unfold l, low_word. by rewrite !Z.lor_assoc. }
  pose proof (field_low (b.(brp) - 1) l 2 3 Hw ltac:(lia) ltac:(lia) ltac:(lia)) as F1.
  pose proof (field_low (b.(brp) - 1) l 5 3 Hw ltac:(lia) ltac:(lia) ltac:(lia)) as F2.
  pose proof (field_low (b.(brp) - 1) l 8 3 Hw ltac:(lia) ltac:(lia) ltac:(lia)) as F3.
  pose proof (field_low (b.(brp) - 1) l 0 2 Hw ltac:(lia) ltac:(lia) ltac:(lia)) as F4.
  change (Z.ones 3) with 7 in F1, F2, F3. change (Z.ones 2) with 3 in F4.
  rewrite !Z.shiftr_0_r in F4. rewrite <-Hl in *.
  assert (Hs : w = (b.(brp) - 1) * 2 ^ 16 + l).
  { by rewrite Hl, lor_shiftl, Z.shiftl_mul_pow2. }
  unfold reg_brp, reg_prop_seg, reg_phase_seg1, reg_phase_seg2, reg_sjw.
  rewrite F1, F2, F3, F4, Z.shiftr_div_pow2 by lia. repeat split; lia.
Qed.

Section Props.
Context `{H : MmioHw} (base : Z) {L : CanLaws base}.

#[local] Instance evolves_preorder : PreOrder evolves.
Proof.
  split.
  - intros h. split; [done|]. split; [done|]. split; [exists []; by rewrite app_nil_r|done].
  - intros h1 h2 h3 (T1 & L1 & (a1 & R1) & W1) (T2 & L2 & (a2 & R2) & W2).
    split; [congruence|]. split; [lia|].
    split; [exists (a1 ++ a2); by rewrite R2, R1, app_assoc|]. intros off. by rewrite W2.
Qed.

(** A state of the driver of this controller that is ready. *)
Definition at_base (s : state) : Prop :=
  s.(can).(config).(base_address) = base /\ s.(can).(is_ready) = FT_COMPONENT_IS_READY.

Lemma at_base_ready s : at_base s -> ready s = true.
Proof. intros [_ Hr]. unfold ready. by rewrite Hr. Qed.

(** Reading a register only lets time pass. *)
Lemma read_reg off s v s' :
  at_base s -> off <> FCAN_RX_FIFO_OFFSET -> FCAN_READ_REG32 off s = (v, s') ->
  FtIn32 s.(regs) base off = (v, s'.(regs)) /\ evolves s.(regs) s'.(regs) /\
  s' = set_regs s'.(regs) s.
Proof.
  intros [Hb _] Ho. unfold FCAN_READ_REG32, Can.base. rewrite Hb.
  destruct (FtIn32 (regs s) base off) as [x h] eqn:E. intros [= <- <-]. cbn.
  repeat (split; [first [done|by eapply law_read]|]). done.
Qed.

(** What a write to a register changes. *)
Definition wrote (h h' : hw) (off v : Z) : Prop :=
  tx h' = tx h /\ level h' <= level h /\ (exists arrived, rx h' = rx h ++ arrived) /\
  forall off', written h' off' = if off' =? off then v else written h off'.

Lemma wrote_after h h' h'' off v : evolves h h' -> wrote h' h'' off v -> wrote h h'' off v.
Proof.
  intros (T1 & L1 & (a1 & R1) & W1) (T2 & L2 & (a2 & R2) & W2).
  split; [congruence|]. split; [lia|].
  split; [exists (a1 ++ a2); by rewrite R2, R1, app_assoc|]. intros off'. by rewrite W2, W1.
Qed.

Lemma write_reg off v s : at_base s -> 0 <= v < 2 ^ 32 ->
  off <> FCAN_TX_FIFO_OFFSET ->
  (off = FCAN_CTRL_OFFSET -> Z.land v FCAN_CTRL_RST_MASK = 0) ->
  exists h, FCAN_WRITE_REG32 off v s = set_regs h s /\ wrote s.(regs) h off v.
Proof.
  intros [Hb _] Hv Ho Hc. unfold FCAN_WRITE_REG32, Can.base. rewrite Hb, wrap_small by done.
  eexists. split; [done|]. by apply law_write.
Qed.

(** The value a bit of the control register is cleared in. *)
Definition cleared (c k : Z) : Z := Z.land (Z.land c (lnotw 32 FCAN_CTRL_RST_MASK)) (lnotw 32 (BIT k)).

Lemma cleared_testbit c k i : 0 <= c < 2 ^ 32 -> 0 <= k -> 0 <= i ->
  Z.testbit (cleared c k) i = Z.testbit c i && negb (i =? 7) && negb (i =? k).
Proof.
  intros Hc Hk Hi. unfold cleared, FCAN_CTRL_RST_MASK. autorewrite with cbits.
  destruct (Z.ltb_spec i 32); [btauto|]. rewrite (testbit_high 32 c i) by lia. btauto.
Qed.

Lemma cleared_range c k : 0 <= c < 2 ^ 32 -> 0 <= cleared c k < 2 ^ 32.
Proof.
  intros Hc. unfold cleared. apply land_range; [lia| |apply wrap_range; lia].
  apply land_range; [lia|done|apply wrap_range; lia].
Qed.

(** Clearing a bit of the control register. *)
Lemma clear_ctrl k s : at_base s -> 0 <= k < 32 ->
  exists h, FCAN_CLEARBIT FCAN_CTRL_OFFSET (BIT k) s = set_regs h s /\
    wrote s.(regs) h FCAN_CTRL_OFFSET (cleared (written s.(regs) FCAN_CTRL_OFFSET) k).
Proof.
  intros [Hb _] Hk. unfold FCAN_CLEARBIT, FtClearBit32, Can.base. rewrite Hb.
  assert (Hr : u32 (BIT k) = BIT k).
  { apply wrap_small. unfold BIT. rewrite Z.shiftl_1_l.
    split; [apply Z.pow_nonneg; lia|apply Z.pow_lt_mono_r; lia]. }
  rewrite Hr. destruct (FtIn32 (regs s) base FCAN_CTRL_OFFSET) as [v h] eqn:E.
  eexists. split; [done|]. eapply wrote_after; [by eapply law_read|].
  rewrite (law_ctrl _ _ _ E). fold (cleared (written (regs s) FCAN_CTRL_OFFSET) k).
  pose proof (law_written (regs s) FCAN_CTRL_OFFSET) as Hw.
  apply law_write; [done|by apply cleared_range|]. intros _.
  bitwise i Hi. rewrite cleared_testbit by (done || lia). unfold FCAN_CTRL_RST_MASK.
  autorewrite with cbits. destruct (i =? 7); btauto.
Qed.

(** ** The bit rate *)
Definition rate_register (seg : Z) : Z :=
  if seg =? FCAN_DATA_SEGMENT then FCAN_DAT_RATE_CTRL_OFFSET else FCAN_ARB_RATE_CTRL_OFFSET.

(** The transfers are stopped; the registers but [off] are otherwise as they were. *)
Definition stopped (h h' : hw) (off : Z) : Prop :=
  tx h' = tx h /\ (exists arrived, rx h' = rx h ++ arrived) /\
  Z.testbit (written h' FCAN_CTRL_OFFSET) 0 = false /\
  (forall i, i <> 0 -> i <> 7 -> Z.testbit (written h' FCAN_CTRL_OFFSET) i =
     Z.testbit (written h FCAN_CTRL_OFFSET) i) /\
  forall off', off' <> FCAN_CTRL_OFFSET -> off' <> off -> written h' off' = written h off'.

Lemma stop_transfers s off : at_base s ->
  let '(c, s1) := FCAN_READ_REG32 FCAN_CTRL_OFFSET s in
  exists h, (if truth (Z.land c FCAN_CTRL_XFER_MASK) then
               FCAN_CLEARBIT FCAN_CTRL_OFFSET FCAN_CTRL_XFER_MASK s1 else s1) = set_regs h s /\
    stopped s.(regs) h off.
Proof.
  intros Hs. destruct (FCAN_READ_REG32 FCAN_CTRL_OFFSET s) as [c s1] eqn:Ec.
  apply read_reg in Ec as (Hin & Hev & E1); [|done..]. pose proof (law_ctrl _ _ _ Hin) as Hc.
  assert (Hs1 : at_base s1) by (rewrite E1; exact Hs).
  pose proof Hev as (T1 & _ & A1 & W1). pose proof (law_written s.(regs) FCAN_CTRL_OFFSET) as Hw.
  destruct (truth (Z.land c FCAN_CTRL_XFER_MASK)) eqn:Et.
  - destruct (clear_ctrl 0 s1 Hs1) as (h & Ech & Hwr); [lia|].
    change FCAN_CTRL_XFER_MASK with (BIT 0). rewrite Ech. exists h. split; [by rewrite E1|].
    destruct (wrote_after _ _ _ _ _ Hev Hwr) as (T & _ & A & W).
    split; [done|]. split; [done|]. rewrite W. cbn [Z.eqb FCAN_CTRL_OFFSET]. rewrite W1.
    split; [rewrite cleared_testbit, Z.eqb_refl by (done || lia); apply andb_false_r|]. split.
    + intros i H0 H7. destruct (Z.leb_spec 0 i); [|by rewrite !Z.testbit_neg_r by lia].
      rewrite cleared_testbit by (done || lia).
      rewrite !(proj2 (Z.eqb_neq i _)) by done. btauto.
    + intros off' Ho _. rewrite W. by rewrite (proj2 (Z.eqb_neq off' _)).
  - exists s1.(regs). split; [done|]. split; [done|]. split; [done|]. rewrite W1. split.
    + assert (Hb : Z.testbit (Z.land c FCAN_CTRL_XFER_MASK) 0 = false).
      { unfold truth in Et. apply negb_false_iff, Z.eqb_eq in Et. by rewrite Et. }
      rewrite Hc in Hb. unfold FCAN_CTRL_XFER_MASK, FCAN_CTRL_RST_MASK in Hb.
      autorewrite with cbits in Hb. cbn in Hb. by rewrite !andb_true_r in Hb.
    + by split; [|intros off' _ _; rewrite W1].
Qed.

(** The controller has got the timing word [w] for the segment [seg] and its transfers
    are stopped; nothing else has changed. *)
Definition programmed (s s' : state) (seg w : Z) : Prop :=
  s'.(can) = s.(can) /\ s'.(calls) = s.(calls) /\
  written s'.(regs) (rate_register seg) = w /\ stopped s.(regs) s'.(regs) (rate_register seg).

Lemma FCanSetTiming_programs b seg s :
  at_base s -> timing_in_range b -> timing_word b <> 0 ->
  seg = FCAN_ARB_SEGMENT \/ seg = FCAN_DATA_SEGMENT ->
  exists s', FCanSetTiming b seg s = Ok (FCAN_SUCCESS, s') /\ programmed s s' seg (timing_word b).
Proof.
  intros Hs Hb Hw Hseg. pose proof Hb as (Hp & H1 & H2 & Hj & Hbrp).
  destruct (timing_word_fields b Hb) as (_ & _ & _ & _ & _ & Hr).
  unfold FCanSetTiming. rewrite (at_base_ready s Hs).
  replace (seg <? FCAN_SEGMENT_TYPE_NUM) with true by (by destruct Hseg as [-> | ->]).
  rewrite !(proj2 (Z.eqb_neq _ 0)) by lia. cbn [negb]. cbv zeta.
  pose proof (stop_transfers s (rate_register seg) Hs) as Hst.
  destruct (FCAN_READ_REG32 FCAN_CTRL_OFFSET s) as [c s1]. destruct Hst as (h & -> & Hst).
  unfold truth. rewrite (proj2 (Z.eqb_neq _ 0)) by done. cbn [negb].
  assert (Hrate : rate_register seg <> FCAN_CTRL_OFFSET /\ rate_register seg <> FCAN_TX_FIFO_OFFSET).
  { unfold rate_register. by destruct (_ =? _). }
  destruct (write_reg (rate_register seg) (timing_word b) (set_regs h s)) as (h' & Eh & T & _ & A & W);
    [done|done|by apply Hrate|by intros; destruct Hrate|].
  exists (set_regs h' s). split.
  { unfold rate_register in Eh. by destruct (seg =? FCAN_DATA_SEGMENT); rewrite Eh. }
  split; [done|]. split; [done|]. split; [rewrite W; by rewrite Z.eqb_refl|].
  destruct Hst as (T0 & (a0 & A0) & B0 & B1 & W0). destruct A as (a1 & A1).
  cbn [regs set_regs] in *.
  assert (Hcw : written h' FCAN_CTRL_OFFSET = written h FCAN_CTRL_OFFSET).
  { rewrite W. rewrite (proj2 (Z.eqb_neq _ _)); [done|]. intros E. by destruct Hrate. }
  split; [congruence|]. split; [exists (a0 ++ a1); by rewrite A1, A0, app_assoc|].
  rewrite Hcw. split; [done|]. split; [done|]. intros off' Hc Ho.
  rewrite W, (proj2 (Z.eqb_neq _ _)) by done. by apply W0.
Qed.

Lemma rate_valid_range caps seg rate :
  seg = FCAN_ARB_SEGMENT \/ seg = FCAN_DATA_SEGMENT -> rate_invalid caps seg rate = false ->
  FCAN_BAUDRATE_10K <= rate <= FCAN_BAUDRATE_5000K.
Proof.
  unfold rate_invalid, FCAN_BAUDRATE_10K, FCAN_BAUDRATE_50K, FCAN_BAUDRATE_1000K, FCAN_BAUDRATE_5000K.
  intros Hs Hi. destruct (truth _), Hs as [-> | ->]; cbn in Hi;
    rewrite ?orb_false_r, orb_false_iff, !Z.ltb_ge in Hi; lia.
Qed.

(** A setting found that can be programmed. *)
Lemma timing_found_range soc target n bt bt' :
  FCAN_BAUDRATE_10K <= target <= FCAN_BAUDRATE_5000K ->
  timing_found soc target n bt bt' -> bt'.(prop_seg) <> 0 ->
  timing_in_range bt' /\ timing_word bt' <> 0.
Proof.
  intros Ht ((((Hp & H2 & Hb) & Hr) & _) & Hh & Hj & _) H0.
  destruct (soc_bounds soc) as (Hc & Hm & _). unfold FCAN_BAUDRATE_10K, FCAN_BAUDRATE_5000K in *.
  assert (Hin : timing_in_range bt') by (unfold timing_in_range; lia). split; [done|].
  destruct (timing_word_fields bt' Hin) as (E & _). intros Hw. rewrite Hw in E.
  change (reg_brp 0) with 1 in E. unfold rate_of in Hr. rewrite <-E in Hr.
  assert (8000000 <= FCAN_CLK_FREQ_HZ soc / (1 * (1 + (bt'.(prop_seg) + bt'.(phase_seg1)) + bt'.(phase_seg2)))); [|lia].
  apply Z.div_le_lower_bound; lia.
Qed.

(** C17: setting a bit rate automatically, for the rates that are not refused and
    nominal sample points from 68 percent: when no setting of the controller has the
    rate, the call fails and changes nothing.  Else it stops the transfers and
    programs, for the segment asked for, a timing word whose fields give this rate
    with the best sample point; or, when the setting found has a single quantum before
    the sample point, so that the propagation segment comes out empty, it stops in the
    assertion of [FCanSetTiming]. *)
Theorem FCanBaudrateSet_correct soc b s :
  at_base s -> b.(auto_calc) = TRUE ->
  b.(segment) = FCAN_ARB_SEGMENT \/ b.(segment) = FCAN_DATA_SEGMENT ->
  rate_invalid s.(can).(config).(caps) b.(segment) b.(baudrate) = false ->
  680 <= nominal_point soc b.(baudrate) b.(sample_point) <= 1000 ->
  match exhaustive soc b.(baudrate) (nominal_point soc b.(baudrate) b.(sample_point)) with
  | None => FCanBaudrateSet soc b s = Ok (FCAN_FAILURE, s)
  | Some p =>
      (exists s' w, FCanBaudrateSet soc b s = Ok (FCAN_SUCCESS, s') /\
         programmed s s' b.(segment) w /\
         exact soc b.(baudrate) (reg_prop_seg w + reg_phase_seg1 w) (reg_phase_seg2 w) (reg_brp w) /\
         point_of (reg_prop_seg w + reg_phase_seg1 w) (reg_phase_seg2 w) = p) \/
      (FCanBaudrateSet soc b s = Fault AssertFailed /\
       exists ts2 brp, exact soc b.(baudrate) 1 ts2 brp /\ point_of 1 ts2 = p)
  end.
Proof using L.
  intros Hs Ha Hseg Hi Hn. pose proof (rate_valid_range _ _ _ Hseg Hi) as Ht.
  unfold FCanBaudrateSet. rewrite (at_base_ready s Hs), Ha, Hi.
  replace (b.(segment) <? FCAN_SEGMENT_TYPE_NUM) with true by (by destruct Hseg as [-> | ->]).
  cbn [Z.eqb TRUE andb].
  destruct (FCanCalcBittiming_cases soc (mkBaudrate 0 0 0 0 0 0 0 0 0) b.(baudrate)
              b.(sample_point) b.(segment) Ht Hseg ltac:(done) Hn)
    as [(bt' & -> & Hf)|(Hno & bt' & ->)]; cbn [rbind].
  2:{ by rewrite exhaustive_None. }
  pose proof Hf as (Hopt & Hh & _). rewrite (exhaustive_optimal _ _ _ _ _ _ Hopt).
  destruct Hopt as (Hx & _). change (negb (FCAN_SUCCESS =? FCAN_SUCCESS)) with false. cbn iota.
  destruct (Z.eq_dec bt'.(prop_seg) 0) as [H0|H0].
  - right. rewrite H0 in *. pose proof Hx as ((H1 & _ & Hb) & _). split.
    + unfold FCanSetTiming. rewrite (at_base_ready s Hs), H0.
      rewrite (proj2 (Z.eqb_neq bt'.(brp) 0)) by lia.
      by destruct Hseg as [-> | ->].
    + assert (E1 : 0 + bt'.(phase_seg1) = 1) by lia. rewrite E1 in *. by eauto.
  - left. destruct (timing_found_range _ _ _ _ _ Ht Hf H0) as [Hin Hw].
    destruct (FCanSetTiming_programs bt' b.(segment) s Hs Hin Hw Hseg) as (s' & -> & Hp).
    exists s', (timing_word bt'). cbn [rbind]. split; [done|]. split; [done|].
    destruct (timing_word_fields bt' Hin) as (-> & -> & -> & -> & _). done.
Qed.

End Props.

(** ** The interrupt handler *)
Section Interrupts.
Context `{H : MmioHw}.

Definition bit_set (v k : Z) : bool := truth (Z.land v (BIT k)).
Definition event_if (b : bool) (e : Z) : list Z := if b then [e] else [].

(** The events a value of the interrupt register stands for, in the order they are
    dealt with. *)
Definition intr_events (v : Z) : list Z :=
  event_if (bit_set v 3) FCAN_INTR_EVENT_FIFOFULL ++
  event_if (bit_set v 4) FCAN_INTR_EVENT_FIFOEMPTY ++
  event_if (bit_set v 0) FCAN_INTR_EVENT_BUSOFF ++
  event_if (bit_set v 7) FCAN_INTR_EVENT_ERROR ++
  event_if (bit_set v 2) FCAN_INTR_EVENT_PERROE ++
  event_if (bit_set v 1) FCAN_INTR_EVENT_PWARN ++
  event_if (bit_set v 6) FCAN_INTR_EVENT_SEND ++
  event_if (bit_set v 5 && negb (bit_set v 6)) FCAN_INTR_EVENT_RECV.

(** The calls for the events that have a handler. *)
Definition event_calls (c : FCanCtrl) (events : list Z) : list (Z * Z) :=
  map (fun e => ((c.(intr_event) e).(handler), (c.(intr_event) e).(param)))
    (List.filter (fun e => truth (c.(intr_event) e).(handler)) events).

Lemma event_calls_app c l1 l2 : event_calls c (l1 ++ l2) = event_calls c l1 ++ event_calls c l2.
Proof. unfold event_calls. by rewrite List.filter_app, map_app. Qed.

(** [s'] is [s] with other registers and the calls for [events] made. *)
Definition called (events : list Z) (s s' : state) : Prop :=
  s'.(can) = s.(can) /\ s'.(calls) = s.(calls) ++ event_calls s.(can) events.

Lemma called_trans e1 e2 s1 s2 s3 : called e1 s1 s2 -> called e2 s2 s3 -> called (e1 ++ e2) s1 s3.
Proof.
  intros [C1 L1] [C2 L2]. split; [congruence|].
  by rewrite L2, L1, C1, event_calls_app, app_assoc.
Qed.

Lemma called_refl s : called [] s s.
Proof. split; [done|]. unfold event_calls. cbn. by rewrite app_nil_r. Qed.

(** One more step after [s]: registers, a handler, a branch. *)
Lemma called_set events s0 s off v :
  called events s0 s -> called events s0 (FCAN_SETBIT off v s).
Proof. done. Qed.

Lemma called_clear events s0 s off v :
  called events s0 s -> called events s0 (FCAN_CLEARBIT off v s).
Proof. done. Qed.

Lemma called_event e s : called [e] s (FCAN_CALL_INTR_EVENT_HANDLDER e s).
Proof.
  unfold FCAN_CALL_INTR_EVENT_HANDLDER, called, event_calls. cbn.
  destruct (truth (handler (intr_event (can s) e))); [done|]. by rewrite app_nil_r.
Qed.

Lemma called_when events s0 s v k e f :
  (forall s, called [e] s (f s)) -> called events s0 s ->
  called (events ++ event_if (bit_set v k) e) s0 (when_set v (BIT k) f s).
Proof.
  intros Hf Hs. unfold when_set. fold (bit_set v k). destruct (bit_set v k); cbn [event_if].
  - by eapply called_trans.
  - by rewrite app_nil_r.
Qed.

Lemma called_handler events e s0 s : called events s0 s ->
  called (events ++ [e]) s0 (FCAN_CALL_INTR_EVENT_HANDLDER e s).
Proof. intros Hs. eapply called_trans; [done|apply called_event]. Qed.

Lemma land_any v a b : truth (Z.land v (Z.lor a b)) = truth (Z.land v a) || truth (Z.land v b).
Proof.
  unfold truth. rewrite Z.land_lor_distr_r.
  destruct (Z.eqb_spec (Z.lor (Z.land v a) (Z.land v b)) 0) as [E|E].
  - apply Z.lor_eq_0_iff in E as [-> ->]. done.
  - destruct (Z.eqb_spec (Z.land v a) 0) as [Ea|], (Z.eqb_spec (Z.land v b) 0) as [Eb|]; try done.
    exfalso. apply E. by rewrite Ea, Eb.
Qed.

Lemma called_spec events s s' : called events s s' ->
  s'.(can) = s.(can) /\ s'.(calls) = s.(calls) ++ event_calls s.(can) events.
Proof. done. Qed.

#[local] Opaque called.

Definition error_events (v : Z) : list Z :=
  event_if (bit_set v 0) FCAN_INTR_EVENT_BUSOFF ++ event_if (bit_set v 7) FCAN_INTR_EVENT_ERROR ++
  event_if (bit_set v 2) FCAN_INTR_EVENT_PERROE ++ event_if (bit_set v 1) FCAN_INTR_EVENT_PWARN.

Lemma called_errors events v s0 s : called events s0 s ->
  called (events ++ error_events v) s0
    (when_set v (Z.lor FCAN_INTR_BOIS_MASK (Z.lor FCAN_INTR_EIS_MASK
       (Z.lor FCAN_INTR_PEIS_MASK FCAN_INTR_PWIS_MASK))) (intr_errors v) s).
Proof.
  intros Hs. change FCAN_INTR_BOIS_MASK with (BIT 0). change FCAN_INTR_EIS_MASK with (BIT 7).
  change FCAN_INTR_PEIS_MASK with (BIT 2). change FCAN_INTR_PWIS_MASK with (BIT 1).
  unfold when_set at 1. rewrite !land_any.
  fold (bit_set v 0) (bit_set v 7) (bit_set v 2) (bit_set v 1).
  destruct (bit_set v 0 || (bit_set v 7 || (bit_set v 2 || bit_set v 1))) eqn:E.
  - unfold intr_errors, error_events. rewrite !app_assoc.
    apply called_set.
    do 4 (apply called_when; [apply called_event|]).
    by apply called_clear.
  - rewrite !orb_false_iff in E. destruct E as (E0 & E7 & E2 & E1).
    unfold error_events. rewrite E0, E7, E2, E1. cbn. by rewrite app_nil_r.
Qed.

Lemma masked_clear w k : 0 <= k < 32 -> bit_set (Z.land w (lnotw 32 (BIT k))) k = false.
Proof.
  intros Hk. unfold bit_set, truth. apply negb_false_iff, Z.eqb_eq. bitwise i Hi.
  destruct (i =? k); cbn; btauto.
Qed.

(** an interrupt calls the handlers registered for the events its status bits stand
    for, each once, with the arguments they were registered with, in the order: receive
    FIFO full, transmit FIFO empty, bus off, error, passive error, warning, frame sent,
    frame received.  The last one is not called when a frame has been sent, although
    its status bit is then acknowledged too. *)
Theorem FCanIntrHandler_calls s :
  s.(can).(is_ready) = FT_COMPONENT_IS_READY ->
  let v := (FtIn32 s.(regs) (base s) FCAN_INTR_OFFSET).1 in
  exists s', FCanIntrHandler s = Ok s' /\ s'.(can) = s.(can) /\
    s'.(calls) = s.(calls) ++ event_calls s.(can) (intr_events v).
Proof.
  intros Hr v. unfold FCanIntrHandler, ready. rewrite Hr, Z.eqb_refl.
  unfold FCAN_READ_REG32. unfold v.
  destruct (FtIn32 (regs s) (base s) FCAN_INTR_OFFSET) as [w h]. cbn [fst]. clear v.
  destruct (Z.eqb_spec 0 w) as [<-|Hw].
  { eexists. split; [done|]. cbn. split; [done|]. unfold event_calls. cbn. by rewrite app_nil_r. }
  cbv zeta. change FCAN_INTR_TEIS_MASK with (BIT 6). fold (bit_set w 6).
  match goal with
  | |- context [when_set w (Z.lor ?b ?c) (intr_errors w) ?x] =>
      set (s1 := when_set w (Z.lor b c) (intr_errors w) x)
  end.
  assert (H1 : called (event_if (bit_set w 3) FCAN_INTR_EVENT_FIFOFULL ++
    event_if (bit_set w 4) FCAN_INTR_EVENT_FIFOEMPTY ++ error_events w) s s1).
  { rewrite app_assoc. apply called_errors. apply (called_when (event_if _ _)).
    { intros s'. apply (called_handler []), called_set, called_clear, called_refl. }
    apply (called_when []).
    { intros s'. apply (called_handler []), called_set, called_clear, called_refl. }
    exact (called_refl s). }
  assert (Hev : intr_events w = (event_if (bit_set w 3) FCAN_INTR_EVENT_FIFOFULL ++
    event_if (bit_set w 4) FCAN_INTR_EVENT_FIFOEMPTY ++ error_events w) ++
    event_if (bit_set w 6) FCAN_INTR_EVENT_SEND ++
    event_if (bit_set w 5 && negb (bit_set w 6)) FCAN_INTR_EVENT_RECV).
  { unfold intr_events, error_events. by rewrite <-!app_assoc. }
  change FCAN_INTR_REIS_MASK with (BIT 5).
  assert (Hdone : forall s', called (intr_events w) s s' -> exists s'0, Ok s' = Ok s'0 /\
    can s'0 = can s /\ calls s'0 = calls s ++ event_calls (can s) (intr_events w)).
  { intros s' Hc. exists s'. split; [done|by apply called_spec]. }
  destruct (bit_set w 6).
  - apply Hdone. rewrite Hev. unfold when_set. fold (bit_set (Z.land w (lnotw 32 (BIT 5))) 5).
    rewrite masked_clear by lia. cbn [event_if]. rewrite andb_false_r, app_nil_r.
    by apply called_handler, called_set.
  - apply Hdone. rewrite Hev, andb_true_r. cbn [event_if app]. apply called_when; [|done].
    intros s'. apply (called_handler []), called_set, called_set, called_refl.
Qed.
End Interrupts.

(** ** A simulated controller *)
Record sim := mkSim { sim_regs : Z -> Z; sim_tx : list Z; sim_rx : list Z }.

Definition sim_in (h : sim) (base off : Z) : Z * sim :=
  if off =? FCAN_RX_FIFO_OFFSET then
    match h.(sim_rx) with
    | [] => (0, h)
    | w :: l => (w, mkSim h.(sim_regs) h.(sim_tx) l)
    end
  else if off =? FCAN_FIFO_CNT_OFFSET then
    (match h.(sim_rx) with [] => 0 | _ => 1 end, h)
  else if off =? FCAN_CTRL_OFFSET then
    (Z.land (u32 (h.(sim_regs) off)) (lnotw 32 FCAN_CTRL_RST_MASK), h)
  else (u32 (h.(sim_regs) off), h).

Definition sim_out (h : sim) (base off v : Z) : sim :=
  if off =? FCAN_TX_FIFO_OFFSET then mkSim h.(sim_regs) (h.(sim_tx) ++ [v]) h.(sim_rx)
  else mkSim (fun o => if o =? off then v else h.(sim_regs) o) h.(sim_tx) h.(sim_rx).

#[export] Instance sim_hw : MmioHw := {| hw := sim; FtIn32 := sim_in; FtOut32 := sim_out |}.

#[export] Instance sim_laws base : CanLaws base.
Proof.
  refine {| written := fun (h : hw) off => u32 (h.(sim_regs) off); tx := sim_tx; rx := sim_rx;
            level := fun _ : hw => 0 |}.
  - intros h off v h' E Ho. assert (h' = h) as ->.
    { revert E. cbn. unfold sim_in. rewrite (proj2 (Z.eqb_neq off _)) by done.
      by destruct (off =? _); [|destruct (off =? _)]; intros [= _ <-]. }
    split; [done|]. split; [done|]. split; [exists []; by rewrite app_nil_r|done].
  - by intros h v h' [= <- _].
  - intros h v h' E. assert (v = match h.(sim_rx) with [] => 0 | _ => 1 end /\ h' = h) as [-> ->].
    { by injection E. }
    split; [by destruct h.(sim_rx)|]. by destruct h.(sim_rx).
  - done.
  - intros h w l Hr. eexists _, []. split; [cbn; unfold sim_in; cbn; by rewrite Hr|].
    by rewrite app_nil_r.
  - intros h v _. cbn. split; [done|]. split; [lia|]. exists []. by rewrite app_nil_r.
  - intros h off. apply wrap_range. lia.
  - intros h off v Ho Hv _. cbn. unfold sim_out. rewrite (proj2 (Z.eqb_neq off _)) by done. cbn.
    split; [done|]. split; [lia|]. split; [exists []; by rewrite app_nil_r|].
    intros off'. destruct (off' =? off); [by rewrite wrap_small|done].
Defined.

(** An instance that is ready, with CAN FD on or off, and its simulated controller. *)
Definition sim_can (canfd : Z) : FCanCtrl :=
  mkCtrl (mkConfig 0 0x2800a000 0 0 FCAN_FD_CAPACITY) FT_COMPONENT_IS_READY canfd
    (fun _ => mkEvent 0 0 0).
Definition sim_state (canfd : Z) (words : list Z) : state :=
  mkState (mkSim (fun _ => 0) [] words) (sim_can canfd) [].

Lemma FCanBaudrateSet_correct_witness :
  let b := mkBaudrate FCAN_DATA_SEGMENT TRUE 2000000 0 0 0 0 0 0 in
  exhaustive SOC_TARGET_PD2008 2000000 725 <> None /\
  exists s', FCanBaudrateSet SOC_TARGET_PD2008 b (sim_state 1 []) = Ok (FCAN_SUCCESS, s').
Proof.
  intros b. assert (He : exhaustive SOC_TARGET_PD2008 2000000 725 = Some 700)
    by (vm_compute; reflexivity).
  split; [by rewrite He|].
  pose proof (FCanBaudrateSet_correct 0x2800a000 SOC_TARGET_PD2008 b (sim_state 1 [])) as Hb.
  change (nominal_point _ _ _) with 725 in Hb. change (baudrate b) with 2000000 in Hb.
  rewrite He in Hb. destruct Hb as [(s' & w & E & _)|[_ (ts2 & brp & ((_ & Ht & _) & _) & Hp)]].
  - split; reflexivity.
  - reflexivity.
  - right. reflexivity.
  - vm_compute. reflexivity.
  - lia.
  - exists s'. exact E.
  - exfalso. unfold point_of in Hp. lia.
Defined.

(** Handlers for all events but the full FIFO; a frame has been sent, one received and
    the FIFO is full. *)
Lemma FCanIntrHandler_calls_witness :
  let c := mkCtrl (mkConfig 0 0x2800a000 0 0 0) FT_COMPONENT_IS_READY 0
             (fun e => mkEvent e (if e =? FCAN_INTR_EVENT_FIFOFULL then 0 else 0x1000 + e) e) in
  let s := mkState (mkSim (fun _ => 0x68) [] []) c [] in
  exists s', FCanIntrHandler s = Ok s' /\ s'.(calls) = [(0x1000, 0)].
Proof.
  intros c s. destruct (FCanIntrHandler_calls s) as (s' & E & _ & Hc).
  - reflexivity.
  - exists s'. split; [exact E|]. rewrite Hc. reflexivity.
Defined.
