(* ===== verification/CanFrame.v ===== *)
(** The header words of CAN frames (Can.v): fields of a word, and that both kinds of
    header decode to what was encoded. *)
From S2P Require Import Prelude Can CanTiming.
Import Can.

(** Simplifies a boolean equation. *)
#[local] Ltac bools :=
  cbn [andb orb negb]; rewrite ?andb_false_r, ?andb_true_r, ?orb_false_r, ?orb_true_r; try done.

(** ** Words *)
Lemma GENMASK_all :
  forallb (fun h => forallb (fun l => GENMASK h l =? Z.shiftl (Z.ones (h - l + 1)) l)
    (seqZ 0 (h + 1))) (seqZ 0 32) = true.
Proof. vm_compute. reflexivity. Qed.

Lemma GENMASK_eq h l : 0 <= l <= h -> h < 32 -> GENMASK h l = Z.shiftl (Z.ones (h - l + 1)) l.
Proof.
  intros Hl Hh. pose proof GENMASK_all as Ha. apply (forallb_seqZ _ 0 32 h) in Ha; [|lia].
  cbv beta in Ha. apply (forallb_seqZ _ 0 (h + 1) l) in Ha; [|lia]. by apply Z.eqb_eq in Ha.
Qed.

(** A field of a register, as a slice. *)
Lemma GET_slice x a b : 0 <= x < 2 ^ 32 -> 0 <= b <= a -> a < 32 ->
  GET_REG32_BITS x a b = Z.land (Z.shiftr x b) (Z.ones (a - b + 1)).
Proof.
  intros Hx Hb Ha. unfold GET_REG32_BITS. rewrite GENMASK_eq, (wrap_small 32 x) by done.
  bitwise i Hi. replace (i + b - b) with i by lia. done.
Qed.

Lemma SET_slice x a b : 0 <= x < 2 ^ (a - b + 1) -> 0 <= b <= a -> a < 32 ->
  SET_REG32_BITS x a b = Z.shiftl x b.
Proof.
  intros Hx Hb Ha. unfold SET_REG32_BITS.
  assert (Hx32 : 0 <= x < 2 ^ 32) by (split; [lia|]; eapply Z.lt_le_trans; [apply Hx|apply Z.pow_le_mono_r; lia]).
  rewrite GENMASK_eq, (wrap_small 32 x) by done. bitwise i Hi.
  destruct (Z.ltb_spec i b).
  { rewrite (Z.testbit_neg_r x) by lia. btauto. }
  destruct (Z.ltb_spec (i - b) (a - b + 1)).
  - rewrite (proj2 (Z.ltb_lt i 32)), (proj2 (Z.leb_le 0 (i - b))) by lia. by rewrite andb_true_r.
  - rewrite (testbit_high (a - b + 1) x) by lia. btauto.
Qed.

(** Swapping the bytes of a word twice gives it back. *)
Lemma swab_swab x : 0 <= x < 2 ^ 32 -> be32_to_cpu (be32_to_cpu x) = x.
Proof.
  intros Hx. unfold be32_to_cpu, __swab32. change 255 with (Z.ones 8). bitwise i Hi.
  split_cmp; cbn [andb orb]; rewrite ?andb_false_r, ?andb_true_r, ?orb_false_r; try lia.
  all: autorewrite with cbits; split_cmp;
    cbn [andb orb]; rewrite ?andb_false_r, ?andb_true_r, ?orb_false_r; try lia.
  all: cbn [orb]; rewrite ?Z.shiftr_spec by lia.
  all: first [by rewrite (testbit_high 32 x i) by lia|f_equal; lia].
Qed.

Lemma byte_field_range x k : 0 <= k -> 0 <= Z.land (Z.shiftr x k) 255 < 2 ^ 8.
Proof. intros Hk. change 255 with (Z.ones 8). rewrite Z.land_ones by lia. by apply Z.mod_pos_bound. Qed.

Lemma shiftl_range x a b : 0 <= a -> 0 <= b -> 0 <= x < 2 ^ a -> 0 <= Z.shiftl x b < 2 ^ (a + b).
Proof. intros Ha Hb Hx. rewrite Z.shiftl_mul_pow2, Z.pow_add_r by done. nia. Qed.

Lemma swab_range x : 0 <= be32_to_cpu x < 2 ^ 32.
Proof.
  unfold be32_to_cpu, __swab32. pose proof (byte_field_range x 0 ltac:(lia)) as H0.
  rewrite Z.shiftr_0_r in H0.
  pose proof (byte_field_range x 8 ltac:(lia)). pose proof (byte_field_range x 16 ltac:(lia)).
  pose proof (byte_field_range x 24 ltac:(lia)).
  pose proof (shiftl_range _ 8 24 ltac:(lia) ltac:(lia) H0).
  pose proof (shiftl_range _ 8 16 ltac:(lia) ltac:(lia) H).
  pose proof (shiftl_range _ 8 8 ltac:(lia) ltac:(lia) H1).
  repeat apply lor_range; lia.
Qed.

(** ** Headers *)
Definition rtr (f : FCanFrame) : bool := truth (Z.land f.(canid) CAN_RTR_FLAG).
Definition eff (f : FCanFrame) : bool := truth (Z.land f.(canid) CAN_EFF_FLAG).
Definition esi (f : FCanFrame) : bool := truth (Z.land f.(flags) CANFD_ESI).
Definition when (b : bool) (x : Z) : Z := if b then x else 0.

(** The flags a frame arrives with: the driver always switches the bit rate. *)
Definition sent_flags (canfd e : bool) : Z :=
  if canfd then Z.lor CANFD_BRS (when e CANFD_ESI) else 0.

Lemma brs_set g : truth (Z.land (Z.lor g CANFD_BRS) CANFD_BRS) = true.
Proof.
  unfold truth. apply negb_true_iff, Z.eqb_neq. intros E.
  assert (Hb : Z.testbit (Z.land (Z.lor g CANFD_BRS) CANFD_BRS) 1 = true).
  { rewrite Z.land_spec, Z.lor_spec. apply andb_true_iff. by rewrite orb_true_r. }
  by rewrite E in Hb.
Qed.

Lemma esi_kept g : Z.land (Z.lor g CANFD_BRS) CANFD_ESI = Z.land g CANFD_ESI.
Proof.
  change CANFD_BRS with (BIT 1). change CANFD_ESI with (BIT 2). bitwise i Hi.
  destruct (Z.eqb_spec i 1) as [->|]; [by rewrite !andb_false_r|by rewrite orb_false_r].
Qed.

(** The bits of a standard header below the identifier. *)
Definition standard_low (canfd r e : bool) (dlc : Z) : Z :=
  Z.lor (when r FCAN_IDR_SRR_MASK)
    (if canfd then
       Z.lor (Z.lor (Z.lor (Z.lor (u32 (Z.shiftl dlc FCANFD_IDR1_SDLC_SHIFT)) FTCANFD_IDR_PAD_MASK)
                FTCANFD_ID1_FDL_MASK) FTCANFD_ID1_BRS_MASK) (when e FTCANFD_ID1_ESI_MASK)
     else Z.lor (u32 (Z.shiftl dlc FCAN_IDR_SDLC_SHIFT)) FCAN_IDR_PAD_MASK).

(** The second word of an extended header. *)
Definition extended_low (canfd e : bool) (dlc : Z) : Z :=
  if canfd then
    Z.lor (Z.lor (Z.lor (u32 (Z.shiftl dlc FCANFD_IDR_EDLC_SHIFT)) FTCANFD_ID2_FDL_MASK)
             FTCANFD_ID2_BRS_MASK) (when e FTCANFD_ID2_ESI_MASK)
  else u32 (Z.shiftl dlc FCAN_IDR_EDLC_SHIFT).

Definition all_bools (p : bool -> bool) : bool := p false && p true.

Lemma all_bools_spec p b : all_bools p = true -> p b = true.
Proof. unfold all_bools. rewrite andb_true_iff. by destruct b; intros []. Qed.

(** Both decode to the flags and the length code, for all of them. *)
Lemma standard_low_all :
  all_bools (fun canfd => all_bools (fun r => all_bools (fun e => forallb (fun dlc =>
    let w := standard_low canfd r e dlc in
    (0 <=? w) && (w <? 2 ^ 21) && negb (truth (Z.land w FCAN_IDR_IDE_MASK)) &&
    eqb (truth (Z.land w FCAN_IDR_SRR_MASK)) r &&
    ((standard_dlc w).1 =? sent_flags canfd e) && ((standard_dlc w).2 =? dlc)) (seqZ 0 16)))) = true.
Proof. vm_compute. reflexivity. Qed.

Lemma extended_low_all :
  all_bools (fun canfd => all_bools (fun e => forallb (fun dlc =>
    let w := extended_low canfd e dlc in
    (0 <=? w) && (w <? 2 ^ 32) &&
    ((extended_dlc w).1 =? sent_flags canfd e) && ((extended_dlc w).2 =? dlc)) (seqZ 0 16))) = true.
Proof. vm_compute. reflexivity. Qed.

Lemma standard_low_spec canfd r e dlc : 0 <= dlc < 16 ->
  let w := standard_low canfd r e dlc in
  0 <= w < 2 ^ 21 /\ truth (Z.land w FCAN_IDR_IDE_MASK) = false /\
  truth (Z.land w FCAN_IDR_SRR_MASK) = r /\ standard_dlc w = (sent_flags canfd e, dlc).
Proof.
  intros Hd w. pose proof standard_low_all as Ha.
  apply (all_bools_spec _ canfd), (all_bools_spec _ r), (all_bools_spec _ e) in Ha.
  apply (forallb_seqZ _ 0 16 dlc) in Ha; [|lia]. cbv beta zeta in Ha. fold w in Ha.
  rewrite !andb_true_iff, Z.leb_le, Z.ltb_lt, negb_true_iff, eqb_true_iff, !Z.eqb_eq in Ha.
  destruct Ha as (((((H1 & H2) & H3) & H4) & H5) & H6). split; [done|]. split; [done|].
  split; [done|]. by rewrite (surjective_pairing (standard_dlc w)), H5, H6.
Qed.

Lemma extended_low_spec canfd e dlc : 0 <= dlc < 16 ->
  let w := extended_low canfd e dlc in
  0 <= w < 2 ^ 32 /\ extended_dlc w = (sent_flags canfd e, dlc).
Proof.
  intros Hd w. pose proof extended_low_all as Ha.
  apply (all_bools_spec _ canfd), (all_bools_spec _ e) in Ha.
  apply (forallb_seqZ _ 0 16 dlc) in Ha; [|lia]. cbv beta zeta in Ha. fold w in Ha.
  rewrite !andb_true_iff, Z.leb_le, Z.ltb_lt, !Z.eqb_eq in Ha.
  destruct Ha as (((H1 & H2) & H3) & H4). split; [done|].
  by rewrite (surjective_pairing (extended_dlc w)), H3, H4.
Qed.

(** The identifier of a standard frame does not disturb the bits below it. *)
Definition standard_word (id low : Z) : Z := Z.lor (Z.shiftl id 21) low.

Lemma standard_word_range id low :
  0 <= id < 2 ^ 11 -> 0 <= low < 2 ^ 21 -> 0 <= standard_word id low < 2 ^ 32.
Proof.
  intros Hi Hl. apply lor_range; [lia| |lia]. by apply (shiftl_range id 11 21).
Qed.

Lemma standard_word_land id low m : 0 <= low < 2 ^ 21 -> 0 <= m < 2 ^ 21 ->
  Z.land (standard_word id low) m = Z.land low m.
Proof.
  intros Hl Hm. unfold standard_word. bitwise i Hi. destruct (Z.ltb_spec i 21).
  - by rewrite (Z.testbit_neg_r id) by lia.
  - by rewrite (testbit_high 21 m i), !andb_false_r by lia.
Qed.

Lemma standard_word_get id low a b :
  0 <= id < 2 ^ 11 -> 0 <= low < 2 ^ 21 -> 0 <= b <= a -> a < 21 ->
  GET_REG32_BITS (standard_word id low) a b = GET_REG32_BITS low a b.
Proof.
  intros Hi Hl Hb Ha. unfold GET_REG32_BITS.
  pose proof (standard_word_range id low Hi Hl).
  rewrite (wrap_small 32 (standard_word id low)), (wrap_small 32 low) by lia.
  rewrite standard_word_land; [done|done|]. rewrite GENMASK_eq by lia.
  pose proof (shiftl_range (Z.ones (a - b + 1)) (a - b + 1) b ltac:(lia) ltac:(lia)) as Hs.
  rewrite Z.ones_equiv in Hs. pose proof (pow2_pos (a - b + 1) ltac:(lia)).
  rewrite Z.ones_equiv. split; [apply Hs; lia|].
  eapply Z.lt_le_trans; [apply Hs; lia|]. apply Z.pow_le_mono_r; lia.
Qed.

Lemma standard_word_id id low : 0 <= id < 2 ^ 11 -> 0 <= low < 2 ^ 21 ->
  FCAN_IDR_ID1_GET (standard_word id low) = id.
Proof.
  intros Hi Hl. unfold FCAN_IDR_ID1_GET. rewrite GET_slice by (by apply standard_word_range || lia).
  unfold standard_word. bitwise i H0. rewrite (testbit_high 21 low) by lia.
  replace (i + 21 - 21) with i by lia. rewrite orb_false_r, (proj2 (Z.leb_le 0 i)) by done.
  destruct (Z.ltb_spec i (31 - 21 + 1)); [by rewrite andb_true_r|].
  by rewrite (testbit_high 11 id) by lia.
Qed.

Lemma standard_word_dlc id low : 0 <= id < 2 ^ 11 -> 0 <= low < 2 ^ 21 ->
  standard_dlc (standard_word id low) = standard_dlc low.
Proof.
  intros Hi Hl. unfold standard_dlc, FTCANFD_ID1_SDLC_GET, FCAN_IDR_DLC_GET.
  rewrite !standard_word_get by lia. by rewrite !standard_word_land.
Qed.

(** The first word of an extended frame. *)
Definition extended_word (x : Z) (r : bool) : Z :=
  Z.lor (Z.lor (Z.lor (FCAN_IDR_ID2_SET x) (FCAN_IDR_ID1_SET (Z.shiftr x 18)))
           (Z.lor FCAN_IDR_IDE_MASK FCAN_IDR_SRR_MASK)) (when r FCAN_IDR_RTR_MASK).

Lemma extended_word_testbit x r i : 0 <= x < 2 ^ 29 -> 0 <= i ->
  Z.testbit (extended_word x r) i =
    (1 <=? i) && (i <=? 18) && Z.testbit x (i - 1) ||
    (21 <=? i) && (i <=? 31) && Z.testbit x (i - 3) || (i =? 19) || (i =? 20) || r && (i =? 0).
Proof.
  intros Hx Hi. unfold extended_word, FCAN_IDR_ID2_SET, FCAN_IDR_ID1_SET, SET_REG32_BITS.
  assert (Hs : 0 <= Z.shiftr x 18 < 2 ^ 32).
  { rewrite Z.shiftr_div_pow2 by lia. split; [apply Z.div_pos; lia|apply Z.div_lt_upper_bound; lia]. }
  rewrite !GENMASK_eq, (wrap_small 32 x), (wrap_small 32 (Z.shiftr x 18)) by lia.
  change (18 - 1 + 1) with 18. change (31 - 21 + 1) with 11.
  unfold FCAN_IDR_IDE_MASK, FCAN_IDR_SRR_MASK, FCAN_IDR_RTR_MASK, when.
  autorewrite with cbits.
  destruct (Z.leb_spec 21 i).
  - rewrite Z.shiftr_spec by lia. replace (i - 21 + 18) with (i - 3) by lia.
    split_cmp; try lia; destruct r; bools.
  - rewrite (Z.testbit_neg_r _ (i - 21)) by lia.
    split_cmp; try lia; destruct r; bools.
Qed.

Lemma extended_word_range x r : 0 <= x < 2 ^ 29 -> 0 <= extended_word x r < 2 ^ 32.
Proof.
  intros Hx. assert (H0 : 0 <= extended_word x r).
  { unfold extended_word. rewrite !Z.lor_nonneg. split_and!; [..|by destruct r].
    - apply Z.land_nonneg. left. apply wrap_range. lia.
    - apply Z.land_nonneg. left. apply wrap_range. lia.
    - done.
    - done. }
  split; [done|]. apply bits_range; [lia|done|]. intros i Hi.
  rewrite extended_word_testbit by lia. split_cmp; try lia; destruct r; bools.
Qed.

Lemma extended_word_bit x r k : 0 <= x < 2 ^ 29 -> 0 <= k ->
  truth (Z.land (extended_word x r) (BIT k)) = Z.testbit (extended_word x r) k.
Proof.
  intros Hx Hk. unfold truth.
  assert (E : Z.land (extended_word x r) (BIT k) = when (Z.testbit (extended_word x r) k) (BIT k)).
  { unfold when. bitwise i Hi.
    destruct (Z.eqb_spec i k) as [->|]; destruct (Z.testbit (extended_word x r) k); bools. }
  rewrite E. destruct (Z.testbit _ k); cbn [when]; [|done].
  apply negb_true_iff, Z.eqb_neq. unfold BIT. rewrite Z.shiftl_1_l.
  pose proof (pow2_pos k Hk). lia.
Qed.

Lemma extended_word_id x r : 0 <= x < 2 ^ 29 ->
  let w := extended_word x r in
  Z.lor (u32 (Z.shiftl (FCAN_IDR_ID1_GET w) FCAN_ACC_IDN_SHIFT)) (FCAN_IDR_ID2_GET w) = x.
Proof.
  intros Hx w. pose proof (extended_word_range x r Hx) as Hw. fold w in Hw.
  unfold FCAN_IDR_ID1_GET, FCAN_IDR_ID2_GET, FCAN_ACC_IDN_SHIFT.
  rewrite !GET_slice by lia. change (31 - 21 + 1) with 11. change (18 - 1 + 1) with 18.
  bitwise i Hi. destruct (Z.ltb_spec i 18).
  - rewrite (Z.testbit_neg_r (Z.shiftr _ _)) by lia. unfold w.
    rewrite Z.shiftr_spec, extended_word_testbit by lia. replace (i + 1 - 1) with i by lia.
    decide_cmp. destruct r; bools.
  - rewrite !Z.shiftr_spec by lia. bools. destruct (Z.leb_spec 29 i).
    + rewrite (testbit_high 29 x i) by lia. decide_cmp. bools.
    + unfold w. rewrite !extended_word_testbit by lia. replace (i - 18 + 21 - 3) with i by lia.
      decide_cmp. destruct r; bools.
Qed.
