(* ===== verification/CanTransfer.v ===== *)
(** Transfers of the CAN driver (Can.v): the words a frame becomes in the transmit FIFO,
    and the frame the receiver makes of them. *)
From S2P Require Import Prelude Mmio Can CanTiming CanProps CanFrame.
Import Can.

(** ** What the driver makes of a frame *)
Definition standard_id (f : FCanFrame) : Z := Z.land f.(canid) CAN_SFF_MASK.
Definition extended_id (f : FCanFrame) : Z := Z.land f.(canid) CAN_EFF_MASK.
Definition after_send (canfd : bool) (f : FCanFrame) : FCanFrame :=
  if canfd then set_flags (Z.lor f.(flags) CANFD_BRS) f else f.

Lemma mask_range x n : 0 <= n -> 0 <= Z.land x (Z.ones n) < 2 ^ n.
Proof. intros Hn. rewrite Z.land_ones by done. apply Z.mod_pos_bound, pow2_pos. done. Qed.

Lemma standard_header_eq canfd dlc f :
  standard_header canfd dlc f =
    (standard_word (standard_id f) (standard_low canfd (rtr f) (esi f) dlc), after_send canfd f).
Proof.
  unfold standard_header, standard_word, standard_low, after_send, rtr, esi, FCAN_IDR_ID1_SET.
  pose proof (mask_range f.(canid) 11 ltac:(lia)) as Hid. fold (standard_id f).
  change (Z.land (canid f) (Z.ones 11)) with (standard_id f) in Hid.
  rewrite SET_slice by (done || lia).
  destruct canfd; cbn [flags set_flags]; rewrite ?brs_set, ?esi_kept.
  - destruct (truth (Z.land (canid f) CAN_RTR_FLAG)), (truth (Z.land (flags f) CANFD_ESI));
      cbn [when]; by rewrite ?Z.lor_0_r, ?Z.lor_0_l, ?Z.lor_assoc.
  - destruct (truth (Z.land (canid f) CAN_RTR_FLAG)); cbn [when];
      by rewrite ?Z.lor_0_l, ?Z.lor_assoc.
Qed.

Lemma extended_header_eq canfd dlc f :
  extended_header canfd dlc f =
    (extended_word (extended_id f) (rtr f), extended_low canfd (esi f) dlc, after_send canfd f).
Proof.
  unfold extended_header, extended_word, extended_low, after_send, rtr, esi.
  change (CAN_EFF_ID_BITS - CAN_SFF_ID_BITS) with 18. fold (extended_id f).
  destruct canfd; cbn [flags set_flags]; rewrite ?brs_set, ?esi_kept.
  - destruct (truth (Z.land (canid f) CAN_RTR_FLAG)), (truth (Z.land (flags f) CANFD_ESI));
      cbn [when]; by rewrite ?Z.lor_0_r.
  - destruct (truth (Z.land (canid f) CAN_RTR_FLAG)); cbn [when]; by rewrite ?Z.lor_0_r.
Qed.

(** The words of a frame: the header, then the data in words, the last one filled up
    with the bytes that follow. *)
Definition word_at (data : list Z) (k : nat) : Z :=
  let b i := default 0 (data !! (4 * k + i)%nat) in
  Z.lor (b 0%nat) (Z.lor (Z.shiftl (b 1%nat) 8) (Z.lor (Z.shiftl (b 2%nat) 16) (Z.shiftl (b 3%nat) 24))).
Definition word_count (n : Z) : nat := Z.to_nat ((n + 3) / 4).
Definition header_words (canfd : bool) (dlc : Z) (f : FCanFrame) : list Z :=
  if eff f then
    [be32_to_cpu (extended_word (extended_id f) (rtr f));
     be32_to_cpu (extended_low canfd (esi f) dlc)]
  else
    [be32_to_cpu (standard_word (standard_id f) (standard_low canfd (rtr f) (esi f) dlc))].
Definition data_words (f : FCanFrame) : list Z :=
  if rtr f then [] else map (word_at f.(data)) (seq 0 (word_count f.(candlc))).
Definition frame_words (canfd : bool) (f : FCanFrame) : list Z :=
  header_words canfd (FCanSetDlcLen f.(candlc)) f ++ data_words f.

Lemma frame_words_length canfd f : 0 <= f.(candlc) <= 64 ->
  (length (frame_words canfd f) <= 2 + word_count f.(candlc) <= 18)%nat.
Proof.
  intros Hn. unfold frame_words, header_words, data_words, word_count. rewrite length_app.
  assert ((f.(candlc) + 3) / 4 <= 16) by (apply Z.lt_succ_r, Z.div_lt_upper_bound; lia).
  assert (0 <= (f.(candlc) + 3) / 4) by (apply Z.div_pos; lia).
  destruct (eff f), (rtr f); rewrite ?length_map, ?length_seq; cbn [length]; lia.
Qed.

(** ** Filling the buffer *)

(** The buffer of [FCanSend] holds the words [out]. *)
Definition filled (out : list Z) (b : list Z * Z) : Prop :=
  length b.1 = 18%nat /\ b.2 = Z.of_nat (length out) /\ take (length out) b.1 = out.

Lemma push_filled w out b : filled out b -> (length out < 18)%nat ->
  exists b', push w b = Ok b' /\ filled (out ++ [w]) b'.
Proof.
  destruct b as [buf len]. intros (Hb & Hl & Ht) Ho. cbn [fst snd] in *. unfold push.
  rewrite aset_in_range by lia. cbn [rbind]. eexists. split; [done|].
  rewrite wrap_small by lia. unfold filled. cbn [fst snd]. rewrite length_insert, length_app.
  split; [done|]. split; [cbn; lia|]. subst len. rewrite Nat2Z.id. cbn [length].
  rewrite Nat.add_1_r, (take_S_r _ _ w) by (apply list_lookup_insert_eq; lia).
  by rewrite take_insert_ge, Ht by lia.
Qed.

Lemma load_word_at data k : length data = 64%nat -> (k < 16)%nat ->
  load_word data (4 * Z.of_nat k) = Ok (word_at data k).
Proof.
  intros Hd Hk. unfold load_word, word_at.
  assert (Hg : forall i, (i < 4)%nat ->
    aget data (4 * Z.of_nat k + Z.of_nat i) = Ok (default 0 (data !! (4 * k + i)%nat))).
  { intros i Hi. destruct (lookup_lt_is_Some_2 data (4 * k + i)) as [x Hx]; [lia|].
    rewrite Hx. apply (aget_Some data _ x); [lia|]. rewrite <-Hx. f_equal. lia. }
  pose proof (Hg 0%nat ltac:(lia)) as G0. rewrite Z.add_0_r in G0.
  pose proof (Hg 1%nat ltac:(lia)) as G1. pose proof (Hg 2%nat ltac:(lia)) as G2.
  pose proof (Hg 3%nat ltac:(lia)) as G3. 
  change (Z.of_nat 1) with 1 in G1. change (Z.of_nat 2) with 2 in G2. change (Z.of_nat 3) with 3 in G3.
  by rewrite G0, G1, G2, G3.
Qed.

(** The copy loop from word [k] on pushes the words of the data. *)
Lemma data_loop_words data r : forall n k i out b,
  length data = 64%nat -> (k + r <= 16)%nat -> (r <= n)%nat ->
  4 * Z.of_nat r - 4 < i <= 4 * Z.of_nat r -> filled out b -> (length out + r <= 18)%nat ->
  exists i' j' b', frame_data_loop n data i (4 * Z.of_nat k) b = Ok (i', j', b') /\ i' <= 0 /\
    filled (out ++ map (word_at data) (seq k r)) b'.
Proof.
  induction r as [|r IH]; intros n k i out b Hd Hk Hn Hi Hf Ho.
  - exists i, (4 * Z.of_nat k), b. split; [|split; [lia|by rewrite app_nil_r]].
    destruct n; cbn [frame_data_loop]; by rewrite (proj2 (Z.ltb_ge 0 i)) by lia.
  - destruct n as [|n]; [lia|]. cbn [frame_data_loop]. rewrite (proj2 (Z.ltb_lt 0 i)) by lia.
    rewrite load_word_at by lia. cbn [rbind].
    destruct (push_filled (word_at data k) out b Hf) as (b1 & -> & Hf1); [lia|]. cbn [rbind].
    replace (4 * Z.of_nat k + 4) with (4 * Z.of_nat (S k)) by lia.
    destruct (IH n (S k) (i - 4) (out ++ [word_at data k]) b1) as (i' & j' & b' & -> & Hi' & Hb');
      try done; try lia; [rewrite length_app; cbn; lia|].
    exists i', j', b'. split; [done|]. split; [done|]. cbn [seq map].
    by rewrite <-app_assoc in Hb'.
Qed.

Definition use_fd (c : FCanCtrl) : bool := c.(use_canfd) =? TRUE.
Definition canfd_known (c : FCanCtrl) : Prop := c.(use_canfd) = TRUE \/ c.(use_canfd) = FALSE.

(** The two parts of [FCanFrameToBuf]. *)
Definition put_header (canfd : bool) (dlc : Z) (f : FCanFrame) (buf : list Z)
    : res (list Z * Z * FCanFrame) :=
  if truth (Z.land f.(canid) CAN_EFF_FLAG) then
    let '(id, dlc, f) := extended_header canfd dlc f in
    let! b := push (be32_to_cpu id) (buf, 0) in
    let! b := push (be32_to_cpu dlc) b in
    Ok (b, f)
  else
    let '(id, f) := standard_header canfd dlc f in
    let! b := push (be32_to_cpu id) (buf, 0) in
    Ok (b, f).
Definition put_data (f : FCanFrame) (b : list Z * Z) : res (list Z * Z) :=
  if truth (Z.land f.(canid) CAN_RTR_FLAG) then Ok b
  else
    let! (i, j, b) := frame_data_loop 64 f.(data) f.(candlc) 0 b in
    if 0 <? i then
      let! w := load_word f.(data) j in push w b
    else Ok b.

Lemma put_header_words canfd dlc f buf : length buf = 18%nat ->
  exists b, put_header canfd dlc f buf = Ok (b, after_send canfd f) /\
    filled (header_words canfd dlc f) b.
Proof.
  intros Hb. assert (H0 : filled [] (buf, 0)) by done.
  unfold put_header, header_words, eff. rewrite standard_header_eq, extended_header_eq.
  destruct (truth (Z.land (canid f) CAN_EFF_FLAG)).
  - destruct (push_filled (be32_to_cpu (extended_word (extended_id f) (rtr f))) [] _ H0)
      as (b1 & -> & H1); [cbn; lia|]. cbn [rbind].
    destruct (push_filled (be32_to_cpu (extended_low canfd (esi f) dlc)) _ _ H1)
      as (b2 & -> & H2); [cbn; lia|]. exists b2. split; [done|exact H2].
  - destruct (push_filled (be32_to_cpu (standard_word (standard_id f)
                (standard_low canfd (rtr f) (esi f) dlc))) [] _ H0)
      as (b1 & -> & H1); [cbn; lia|]. exists b1. split; [done|exact H1].
Qed.

Lemma word_count_bounds n : 4 * ((n + 3) / 4) - 4 < n <= 4 * ((n + 3) / 4).
Proof.
  pose proof (Z.div_mod (n + 3) 4 ltac:(lia)). pose proof (Z.mod_pos_bound (n + 3) 4 ltac:(lia)). lia.
Qed.

Lemma put_data_words f out b :
  0 <= f.(candlc) <= 64 -> length f.(data) = 64%nat -> (length out <= 2)%nat -> filled out b ->
  exists b', put_data f b = Ok b' /\ filled (out ++ data_words f) b'.
Proof.
  intros Hn Hd Ho Hb. unfold put_data, data_words, rtr.
  destruct (truth (Z.land (canid f) CAN_RTR_FLAG)); [exists b; by rewrite app_nil_r|].
  pose proof (word_count_bounds f.(candlc)).
  destruct (data_loop_words f.(data) (word_count f.(candlc)) 64 0 f.(candlc) out b Hd)
    as (i & j & b' & Hl & Hi & Hf); unfold word_count; try done; try lia.
  change (4 * Z.of_nat 0) with 0 in Hl. rewrite Hl. cbn [rbind].
  rewrite (proj2 (Z.ltb_ge 0 i)) by lia. by exists b'.
Qed.

Lemma header_words_length canfd dlc f : (length (header_words canfd dlc f) <= 2)%nat.
Proof. unfold header_words. destruct (eff f); cbn; lia. Qed.

Lemma after_send_fields canfd f :
  (after_send canfd f).(canid) = f.(canid) /\ (after_send canfd f).(candlc) = f.(candlc) /\
  (after_send canfd f).(data) = f.(data).
Proof. unfold after_send. by destruct canfd. Qed.

Lemma FCanFrameToBuf_eq c f buf :
  c.(is_ready) = FT_COMPONENT_IS_READY -> canfd_known c ->
  FCanFrameToBuf c f buf =
    let! (b, f) := put_header (use_fd c) (FCanSetDlcLen f.(candlc)) f buf in
    let! b := put_data f b in
    let '(buf, len) := b in Ok (len, f, buf).
Proof.
  intros Hr Hc. unfold FCanFrameToBuf. rewrite Hr, Z.eqb_refl. fold (use_fd c).
  set (dlc := FCanSetDlcLen f.(candlc)).
  assert (Hok : (if c.(use_canfd) =? FALSE then if dlc <=? 8 then dlc <=? 8 else true
                 else use_fd c) = true).
  { unfold use_fd. destruct Hc as [-> | ->]; cbn; [done|]. by destruct (dlc <=? 8). }
  by rewrite Hok.
Qed.

Lemma FCanFrameToBuf_words c f :
  c.(is_ready) = FT_COMPONENT_IS_READY -> canfd_known c ->
  0 <= f.(candlc) <= 64 -> length f.(data) = 64%nat ->
  let ws := frame_words (use_fd c) f in
  exists buf,
    FCanFrameToBuf c f (replicate 18 0) =
      Ok (Z.of_nat (length ws), after_send (use_fd c) f, buf) /\
    length buf = 18%nat /\ take (length ws) buf = ws.
Proof.
  intros Hr Hc Hn Hd ws. rewrite FCanFrameToBuf_eq by done.
  set (dlc := FCanSetDlcLen f.(candlc)).
  destruct (put_header_words (use_fd c) dlc f (replicate 18 0) eq_refl) as (b & -> & Hb).
  cbn [rbind]. destruct (after_send_fields (use_fd c) f) as (E1 & E2 & E3).
  destruct (put_data_words (after_send (use_fd c) f) _ b ltac:(lia) ltac:(congruence)
    (header_words_length (use_fd c) dlc f) Hb) as ([buf len] & -> & Hl & Hlen & Ht).
  cbn [rbind fst snd] in *.
  assert (Hws : header_words (use_fd c) dlc f ++ data_words (after_send (use_fd c) f) = ws).
  { unfold ws, frame_words, data_words, rtr. by rewrite E1, E2, E3. }
  rewrite Hws in *. exists buf. by rewrite Hlen.
Qed.

(** A frame as the driver's client should pass it: all members of their types; the
    classic format has room for 8 bytes. *)
Definition byte_list (l : list Z) : Prop := Forall (fun b => 0 <= b < 2 ^ 8) l.
Definition well_typed (f : FCanFrame) : Prop :=
  0 <= f.(canid) < 2 ^ 32 /\ 0 <= f.(candlc) < 2 ^ 8 /\ 0 <= f.(flags) < 2 ^ 8 /\
  length f.(data) = 64%nat /\ byte_list f.(data).
Definition lengths : list Z := seqZ 0 9 ++ [12; 16; 20; 24; 32; 48; 64].
Definition sendable (canfd : bool) (f : FCanFrame) : Prop :=
  well_typed f /\ f.(candlc) ∈ lengths /\ (canfd = false -> f.(candlc) <= 8).

Lemma sendable_length canfd f : sendable canfd f -> 0 <= f.(candlc) <= 64.
Proof.
  intros (_ & Hl & _). unfold lengths in Hl. apply elem_of_app in Hl as [Hl|Hl].
  - apply elem_of_seqZ in Hl. lia.
  - repeat (apply elem_of_cons in Hl as [->|Hl]; [lia|]). by apply not_elem_of_nil in Hl.
Qed.

Lemma word_at_byte data k i : byte_list data -> 0 <= default 0 (data !! (4 * k + i)%nat) < 2 ^ 8.
Proof.
  intros Hd. destruct (data !! (4 * k + i)%nat) eqn:E; cbn; [|lia].
  eapply (Forall_lookup_1 _ _ _ _ Hd E).
Qed.

Lemma word_at_range data k : byte_list data -> 0 <= word_at data k < 2 ^ 32.
Proof.
  intros Hd. unfold word_at. pose proof (word_at_byte data k) as Hb.
  pose proof (shiftl_range _ 8 8 ltac:(lia) ltac:(lia) (Hb 1%nat Hd)).
  pose proof (shiftl_range _ 8 16 ltac:(lia) ltac:(lia) (Hb 2%nat Hd)).
  pose proof (shiftl_range _ 8 24 ltac:(lia) ltac:(lia) (Hb 3%nat Hd)).
  pose proof (Hb 0%nat Hd). repeat apply lor_range; lia.
Qed.

Lemma frame_words_range canfd f : byte_list f.(data) ->
  Forall (fun w => 0 <= w < 2 ^ 32) (frame_words canfd f).
Proof.
  intros Hd. unfold frame_words, header_words, data_words. apply Forall_app. split.
  - destruct (eff f); repeat constructor; apply swab_range.
  - destruct (rtr f); [done|]. apply Forall_forall. intros w Hw.
    apply in_map_iff in Hw as (k & <- & _). by apply word_at_range.
Qed.

(** ** What the receiver makes of the words *)
Lemma byte_of_word b0 b1 b2 b3 :
  0 <= b0 < 2 ^ 8 -> 0 <= b1 < 2 ^ 8 -> 0 <= b2 < 2 ^ 8 -> 0 <= b3 < 2 ^ 8 ->
  let w := Z.lor b0 (Z.lor (Z.shiftl b1 8) (Z.lor (Z.shiftl b2 16) (Z.shiftl b3 24))) in
  byte_of w 0 = b0 /\ byte_of w 1 = b1 /\ byte_of w 2 = b2 /\ byte_of w 3 = b3.
Proof.
  intros H0 H1 H2 H3 w. assert (E : w = b0 + 256 * (b1 + 256 * (b2 + 256 * b3))).
  { unfold w. rewrite !(Z.lor_comm _ (Z.lor _ _)), (Z.lor_comm (Z.shiftl b2 16)), <-!Z.lor_assoc.
    replace (Z.shiftl b3 24) with (Z.shiftl (Z.shiftl (Z.shiftl b3 8) 8) 8)
      by (rewrite !Z.shiftl_shiftl by lia; done).
    replace (Z.shiftl b2 16) with (Z.shiftl (Z.shiftl b2 8) 8) by (rewrite !Z.shiftl_shiftl by lia; done).
    rewrite !Z.lor_assoc, <-!Z.shiftl_lor. rewrite !lor_shiftl by lia. 
    rewrite !Z.shiftl_mul_pow2 by lia. lia. }
  unfold byte_of. change 255 with (Z.ones 8). rewrite !Z.land_ones, !Z.shiftr_div_pow2 by lia.
  rewrite E. change (2 ^ (8 * 0)) with 1. change (2 ^ (8 * 1)) with 256.
  change (2 ^ (8 * 2)) with 65536. change (2 ^ (8 * 3)) with 16777216. change (2 ^ 8) with 256 in *.
  Z.div_mod_to_equations. lia.
Qed.

Lemma aset_middle {A} (l1 l2 : list A) x y k :
  k = Z.of_nat (length l1) -> aset (l1 ++ x :: l2) k y = Ok (l1 ++ y :: l2).
Proof.
  intros ->. rewrite aset_in_range by (rewrite length_app; cbn; lia). rewrite Nat2Z.id.
  f_equal. rewrite <-(Nat.add_0_r (length l1)) at 1. by rewrite insert_app_r.
Qed.

(** The data of the receiver after [k] words. *)
Definition partial (src : list Z) (k : nat) : list Z := take (4 * k) src ++ replicate (64 - 4 * k) 0.

Lemma store_word_partial src k : length src = 64%nat -> byte_list src -> (k < 16)%nat ->
  store_word (partial src k) (4 * Z.of_nat k) (word_at src k) = Ok (partial src (S k)).
Proof.
  intros Hl Hb Hk. unfold partial, word_at.
  pose proof (word_at_byte src k) as Hbyte.
  destruct (byte_of_word _ _ _ _ (Hbyte 0%nat Hb) (Hbyte 1%nat Hb) (Hbyte 2%nat Hb) (Hbyte 3%nat Hb))
    as (E0 & E1 & E2 & E3).
  set (w := Z.lor _ _) in *. unfold store_word. rewrite E0, E1, E2, E3.
  assert (Hg : forall i, (i < 4)%nat -> src !! (4 * k + i)%nat = Some (default 0 (src !! (4 * k + i)%nat))).
  { intros i Hi. destruct (lookup_lt_is_Some_2 src (4 * k + i)) as [x ->]; [lia|done]. }
  set (b0 := default 0 (src !! (4 * k + 0)%nat)) in *. set (b1 := default 0 (src !! (4 * k + 1)%nat)) in *.
  set (b2 := default 0 (src !! (4 * k + 2)%nat)) in *. set (b3 := default 0 (src !! (4 * k + 3)%nat)) in *.
  replace (64 - 4 * k)%nat with (4 + (64 - 4 * S k))%nat by lia. cbn [replicate Nat.add].
  set (l2 := replicate (64 - 4 * S k) 0).
  assert (Ht : length (take (4 * k) src) = (4 * k)%nat) by (rewrite length_take; lia).
  assert (Hn : take (4 * S k) src = take (4 * k) src ++ [b0; b1; b2; b3]).
  { replace (4 * S k)%nat with (S (S (S (S (4 * k)))))%nat by lia.
    rewrite (take_S_r src (S (S (S (4 * k)))) b3), (take_S_r src (S (S (4 * k))) b2),
      (take_S_r src (S (4 * k)) b1), (take_S_r src (4 * k) b0), <-!app_assoc; [done|..].
    - replace (4 * k)%nat with (4 * k + 0)%nat by lia. apply (Hg 0%nat). lia.
    - replace (S (4 * k))%nat with (4 * k + 1)%nat by lia. apply (Hg 1%nat). lia.
    - replace (S (S (4 * k)))%nat with (4 * k + 2)%nat by lia. apply (Hg 2%nat). lia.
    - replace (S (S (S (4 * k))))%nat with (4 * k + 3)%nat by lia. apply (Hg 3%nat). lia. }
  rewrite Hn. set (l1 := take (4 * k) src) in *.
  rewrite (aset_middle l1) by lia. cbn [rbind].
  change (l1 ++ b0 :: 0 :: 0 :: 0 :: l2) with (l1 ++ [b0] ++ 0 :: 0 :: 0 :: l2). rewrite app_assoc.
  rewrite (aset_middle (l1 ++ [b0])) by (rewrite !length_app, Ht; cbn [length]; lia). cbn [rbind].
  change (b1 :: 0 :: 0 :: l2) with ([b1] ++ 0 :: 0 :: l2). rewrite app_assoc.
  rewrite (aset_middle ((l1 ++ [b0]) ++ [b1])) by (rewrite !length_app, Ht; cbn [length]; lia). cbn [rbind].
  change (b2 :: 0 :: l2) with ([b2] ++ 0 :: l2). rewrite app_assoc.
  rewrite (aset_middle (((l1 ++ [b0]) ++ [b1]) ++ [b2])) by (rewrite !length_app, Ht; cbn [length]; lia).
  by rewrite <-!app_assoc.
Qed.

Section Transfer.
Context `{H : MmioHw} (base : Z) {L : CanLaws base}.

(** Words put into the transmit FIFO, while it has room for them. *)
Lemma send_loop_words ws : forall i s buf,
  at_base base s -> Forall (fun w => 0 <= w < 2 ^ 32) ws ->
  level s.(regs) + Z.of_nat (length ws) <= FCAN_FIFO_DEPTH ->
  0 <= i -> take (length ws) (drop (Z.to_nat i) buf) = ws ->
  exists h, send_loop (length ws) buf i s = Ok (set_regs h s) /\
    tx h = tx s.(regs) ++ ws /\ exists arrived, rx h = rx s.(regs) ++ arrived.
Proof.
  induction ws as [|w ws IH]; intros i s buf Hs Hw Hl Hi Ht.
  - exists s.(regs). split; [by destruct s|]. split; [by rewrite app_nil_r|].
    exists []. by rewrite app_nil_r.
  - cbn [length send_loop] in *. apply Forall_cons_1 in Hw as [Hw Hws].
    destruct (drop (Z.to_nat i) buf) as [|y l] eqn:Ed; [done|]. injection Ht as -> Ht.
    assert (Hg : buf !! Z.to_nat i = Some w).
    { by rewrite <-(Nat.add_0_r (Z.to_nat i)), <-lookup_drop, Ed. }
    rewrite (aget_Some buf i w) by done. cbn [rbind].
    unfold FCAN_WRITE_REG32, Can.base at 1. rewrite (proj1 Hs), (wrap_small 32 w) by done.
    destruct (law_put (CanLaws := L) s.(regs) w ltac:(lia)) as (T & Lv & (a & R)).
    set (h := FtOut32 _ _ _ _) in *.
    destruct (IH (i + 1) (set_regs h s) buf) as (h' & E & T' & (a' & R')); try done.
    + cbn [regs set_regs]. lia.
    + lia.
    + rewrite Z2Nat.inj_add by lia. by rewrite <-drop_drop, Ed.
    + cbn [regs set_regs] in *. exists h'. split; [exact E|].
      split; [by rewrite T', T, <-app_assoc|]. exists (a ++ a'). by rewrite R', R, app_assoc.
Qed.

(** How full the transmit FIFO may be for a frame to be taken. *)
Definition limit (canfd : bool) : Z := if canfd then 32 else 60.

(** A frame fits when the room the test keeps free is enough for its words. *)
Definition fits (canfd : bool) (f : FCanFrame) : Prop :=
  limit canfd + Z.of_nat (length (frame_words canfd f)) <= FCAN_FIFO_DEPTH.

Lemma fits_iff canfd f : 0 <= f.(candlc) <= 64 ->
  fits canfd f <-> canfd = true \/ rtr f = true \/ f.(candlc) <= (if eff f then 8 else 12).
Proof.
  intros Hn. pose proof (word_count_bounds f.(candlc)) as Hw.
  assert (Hq : Z.of_nat (word_count f.(candlc)) = (f.(candlc) + 3) / 4)
    by (unfold word_count; lia).
  assert (Hl : Z.of_nat (length (frame_words canfd f)) =
    (if eff f then 2 else 1) + (if rtr f then 0 else Z.of_nat (word_count f.(candlc)))).
  { unfold frame_words, header_words, data_words. rewrite length_app.
    destruct (eff f), (rtr f); rewrite ?length_map, ?length_seq; cbn [length]; lia. }
  unfold fits. rewrite Hl, Hq. unfold limit, FCAN_FIFO_DEPTH.
  destruct canfd, (eff f), (rtr f); split; intros Hx;
    first [lia | by left | by (right; left) | (right; right; lia)
          | destruct Hx as [?|[?|?]]; (done || lia)].
Qed.

Lemma limit_room canfd f : sendable canfd f -> fits canfd f.
Proof.
  intros Hf. pose proof (sendable_length _ _ Hf) as Hn. apply fits_iff; [done|].
  destruct canfd; [by left|]. right; right. destruct Hf as (_ & _ & H8).
  specialize (H8 eq_refl). destruct (eff f); lia.
Qed.

Lemma can_full_read s : at_base base s -> canfd_known s.(can) ->
  exists h, (if s.(can).(use_canfd) =? FALSE then FCAN_TX_FIFO_FULL s else FCANFD_TX_FIFO_FULL s) =
      (limit (use_fd s.(can)) <? level h, set_regs h s) /\ evolves s.(regs) h.
Proof.
  intros Hs Hc. unfold FCAN_TX_FIFO_FULL, FCANFD_TX_FIFO_FULL, fifo_full.
  destruct (FCAN_READ_REG32 FCAN_FIFO_CNT_OFFSET s) as [v s1] eqn:E.
  apply (read_reg base) in E as (Hin & Hev & E1); [|done..].
  pose proof (law_count (CanLaws := L) _ _ _ Hin) as [Hc1 _].
  pose proof (law_level (CanLaws := L) s1.(regs)) as Hlv. unfold FCAN_FIFO_DEPTH in Hlv.
  exists s1.(regs). split; [|done]. rewrite <-E1, Hc1.
  rewrite (wrap_small 32 (4 * level _)) by lia.
  change CAN_FIFO_BYTE_LEN with 256. rewrite (wrap_small 32 (256 - _)) by lia.
  unfold use_fd, limit, KEEP_CAN_FIFO_MIN_LEN, KEEP_CANFD_FIFO_MIN_LEN.
  destruct Hc as [-> | ->]; cbn [Z.eqb TRUE FALSE]; f_equal; cbn.
  all: destruct (Z.ltb_spec (256 - 4 * level (regs s1)) 16), (Z.ltb_spec (256 - 4 * level (regs s1)) 128),
    (Z.ltb_spec 32 (level (regs s1))), (Z.ltb_spec 60 (level (regs s1))); (done || lia).
Qed.

(** What [FCanSend] does with a frame that fits. *)
Lemma FCanSend_cases f s :
  at_base base s -> canfd_known s.(can) -> well_typed f -> f.(candlc) <= 64 ->
  fits (use_fd s.(can)) f ->
  exists h, (exists arrived, rx h = rx s.(regs) ++ arrived) /\
    ((FCanSend f s = Ok (FCAN_SUCCESS, after_send (use_fd s.(can)) f, set_regs h s) /\
      tx h = tx s.(regs) ++ frame_words (use_fd s.(can)) f) \/
     (FCanSend f s = Ok (FCAN_TX_FIFO_FULL_ERR, f, set_regs h s) /\
      tx h = tx s.(regs) /\ limit (use_fd s.(can)) < level s.(regs))).
Proof.
  intros Hs Hc Hf H64 Hlim. unfold FCanSend. rewrite (at_base_ready base s Hs).
  destruct (can_full_read s Hs Hc) as (h1 & -> & (T1 & L1 & (a1 & R1) & W1)).
  destruct (Z.ltb_spec (limit (use_fd s.(can))) (level h1)) as [Hfull|Hroom].
  - destruct (FCAN_READ_REG32 FCAN_FIFO_CNT_OFFSET (set_regs h1 s)) as [v s2] eqn:E.
    apply (read_reg base) in E as (_ & (T2 & L2 & (a2 & R2) & _) & E2); [|done..].
    cbn [regs set_regs] in *. exists s2.(regs). split.
    + exists (a1 ++ a2). by rewrite R2, R1, app_assoc.
    + right. split; [by rewrite E2|]. split; [congruence|lia].
  - destruct Hf as (_ & Hn0 & _ & Hd & Hb). unfold fits in Hlim.
    assert (Hn : 0 <= f.(candlc) <= 64) by lia.
    destruct (FCanFrameToBuf_words s.(can) f (proj2 Hs) Hc Hn Hd) as (buf & Eb & Hlen & Ht).
    change (Z.to_nat (FCAN_DATA_LENGTH / 4 + 2)) with 18%nat. cbn [can set_regs].
    rewrite Eb. cbn [rbind]. rewrite Nat2Z.id.
    destruct (send_loop_words (frame_words (use_fd s.(can)) f) 0 (set_regs h1 s) buf)
      as (h & E & T & (a & R)); try done.
    + by apply frame_words_range.
    + cbn [regs set_regs]. lia.
    + rewrite E. cbn [rbind]. cbn [regs set_regs] in *. exists h. split.
      * exists (a1 ++ a). by rewrite R, R1, app_assoc.
      * left. split; [done|]. by rewrite T, T1.
Qed.

(** Taking words from the receive FIFO. *)
Definition took (s s' : state) (left : list Z) : Prop :=
  s' = set_regs s'.(regs) s /\ tx s'.(regs) = tx s.(regs) /\
  exists arrived, rx s'.(regs) = left ++ arrived.

Lemma read_word s w l : at_base base s -> rx s.(regs) = w :: l ->
  exists s', FCAN_READ_REG32 FCAN_RX_FIFO_OFFSET s = (w, s') /\ took s s' l.
Proof.
  intros Hs Hr. unfold FCAN_READ_REG32, Can.base. rewrite (proj1 Hs).
  destruct (law_take (CanLaws := L) _ _ _ Hr) as (h & a & -> & R & T & _).
  exists (set_regs h s). split; [done|]. split; [done|]. split; [done|]. by exists a.
Qed.

Lemma took_trans s1 s2 s3 left : took s1 s2 (rx s2.(regs)) -> took s2 s3 left -> took s1 s3 left.
Proof.
  intros (E1 & T1 & _) (E2 & T2 & A). split; [by rewrite E2, E1|]. split; [congruence|done].
Qed.

Lemma took_self s s' left : took s s' left -> took s s' (rx s'.(regs)).
Proof. intros (E & T & _). split; [done|]. split; [done|]. exists []. by rewrite app_nil_r. Qed.

Lemma took_base s s' left : took s s' left -> at_base base s -> at_base base s'.
Proof. by intros (-> & _). Qed.

(** The loop that reads the data, from word [k] on. *)
Lemma recv_loop_words src r : forall n k i s rest,
  length src = 64%nat -> byte_list src -> (k + r <= 16)%nat -> (r <= n)%nat ->
  4 * Z.of_nat r - 4 < i <= 4 * Z.of_nat r -> at_base base s ->
  rx s.(regs) = map (word_at src) (seq k r) ++ rest ->
  exists i' j' s', recv_data_loop n (partial src k) i (4 * Z.of_nat k) s =
      Ok (i', j', partial src (k + r), s') /\ i' <= 0 /\ took s s' rest.
Proof.
  induction r as [|r IH]; intros n k i s rest Hl Hb Hk Hn Hi Hs Hr.
  - exists i, (4 * Z.of_nat k), s. rewrite Nat.add_0_r. split.
    { destruct n; cbn [recv_data_loop]; by rewrite (proj2 (Z.ltb_ge 0 i)) by lia. }
    split; [lia|]. split; [by destruct s|]. split; [done|]. exists []. by rewrite app_nil_r, Hr.
  - destruct n as [|n]; [lia|]. cbn [recv_data_loop]. rewrite (proj2 (Z.ltb_lt 0 i)) by lia.
    cbn [seq map app] in Hr. destruct (read_word s _ _ Hs Hr) as (s1 & -> & Hk1).
    rewrite store_word_partial by (done || lia). cbn [rbind].
    replace (4 * Z.of_nat k + 4) with (4 * Z.of_nat (S k)) by lia.
    pose proof Hk1 as (_ & _ & (a & Ha)). rewrite <-app_assoc in Ha.
    destruct (IH n (S k) (i - 4) s1 (rest ++ a)) as (i' & j' & s' & E & Hi' & Hk'); try done; try lia.
    { by eapply took_base. }
    exists i', j', s'. replace (k + S r)%nat with (S k + r)%nat by lia. split; [done|].
    split; [done|]. destruct (took_trans _ _ _ _ (took_self _ _ _ Hk1) Hk') as (E1 & T1 & (a' & A')).
    split; [done|]. split; [done|]. exists (a ++ a'). by rewrite A', app_assoc.
Qed.
End Transfer.

(** ** Frames received *)
Definition received_id (f : FCanFrame) : Z :=
  Z.lor (if eff f then Z.lor (extended_id f) CAN_EFF_FLAG else standard_id f)
    (when (rtr f) CAN_RTR_FLAG).
Definition received_data (f : FCanFrame) (n : Z) : list Z :=
  if rtr f then replicate 64 0 else partial f.(data) (word_count n).

(** The frame that arrives for [f], when the header announces the length code [dlc]. *)
Definition received (canfd : bool) (dlc : Z) (f : FCanFrame) : FCanFrame :=
  mkFrame (received_id f) (FCanGetDlcLen dlc) (sent_flags canfd (esi f))
    (received_data f (FCanGetDlcLen dlc)).

Lemma received_id_rtr f : truth (Z.land (received_id f) CAN_RTR_FLAG) = rtr f.
Proof.
  unfold received_id. set (x := if eff f then _ else _).
  assert (Hx : Z.testbit x 30 = false).
  { unfold x. destruct (eff f).
    - rewrite Z.lor_spec. pose proof (mask_range f.(canid) 29 ltac:(lia)) as Hm.
      rewrite (testbit_high 29 (extended_id f)) by (done || lia). done.
    - pose proof (mask_range f.(canid) 11 ltac:(lia)) as Hm.
      by rewrite (testbit_high 11 (standard_id f)) by (done || lia). }
  assert (E : Z.land (Z.lor x (when (rtr f) CAN_RTR_FLAG)) CAN_RTR_FLAG = when (rtr f) CAN_RTR_FLAG).
  { change CAN_RTR_FLAG with (BIT 30). unfold when. bitwise i Hi.
    destruct (Z.eqb_spec i 30) as [->|]; [rewrite Hx|]; by destruct (rtr f); rewrite ?andb_false_r. }
  rewrite E. by destruct (rtr f).
Qed.

Lemma dlc_length_range dlc : 0 <= dlc < 16 -> 0 <= FCanGetDlcLen dlc <= 64.
Proof.
  intros Hd. assert (Ha : forallb (fun d => (0 <=? FCanGetDlcLen d) && (FCanGetDlcLen d <=? 64))
    (seqZ 0 16) = true) by (vm_compute; reflexivity).
  apply (forallb_seqZ _ 0 16 dlc) in Ha; [|lia]. apply andb_true_iff in Ha. lia.
Qed.

Section Receive.
Context `{H : MmioHw} (base : Z) {L : CanLaws base}.

(** The header of a frame, as [FCanRecv] reads it. *)
Definition read_header (s : state) : Z * Z * Z * state :=
  let '(word, s) := FCAN_READ_REG32 FCAN_RX_FIFO_OFFSET s in
  let word := be32_to_cpu word in
  if truth (Z.land word FCAN_IDR_IDE_MASK) then
    let '(second, s) := FCAN_READ_REG32 FCAN_RX_FIFO_OFFSET s in
    let '(flags, dlc) := extended_dlc (be32_to_cpu second) in
    let canid := u32 (Z.shiftl (FCAN_IDR_ID1_GET word) FCAN_ACC_IDN_SHIFT) in
    let canid := Z.lor canid (FCAN_IDR_ID2_GET word) in
    let canid := Z.lor canid CAN_EFF_FLAG in
    (flags, dlc, if truth (Z.land word FCAN_IDR_RTR_MASK) then Z.lor canid CAN_RTR_FLAG else canid, s)
  else
    let '(flags, dlc) := standard_dlc word in
    let canid := FCAN_IDR_ID1_GET word in
    (flags, dlc, if truth (Z.land word FCAN_IDR_SRR_MASK) then Z.lor canid CAN_RTR_FLAG else canid, s).

Lemma read_header_words canfd dlc f s rest :
  at_base base s -> 0 <= dlc < 16 -> rx s.(regs) = header_words canfd dlc f ++ rest ->
  exists s', read_header s = (sent_flags canfd (esi f), dlc, received_id f, s') /\
    took base s s' rest.
Proof.
  intros Hs Hd Hr. unfold read_header, header_words, received_id in *.
  pose proof (mask_range f.(canid) 29 ltac:(lia)) as Hext. fold (extended_id f) in Hext.
  pose proof (mask_range f.(canid) 11 ltac:(lia)) as Hstd. fold (standard_id f) in Hstd.
  destruct (eff f); cbn [app] in Hr; destruct (read_word base s _ _ Hs Hr) as (s1 & -> & Hk1).
  - change (Z.land (canid f) (Z.ones 29)) with (extended_id f) in Hext.
    pose proof (extended_word_range (extended_id f) (rtr f) Hext) as Hw.
    rewrite (swab_swab _ Hw), (extended_word_id (extended_id f) (rtr f) Hext).
    change FCAN_IDR_IDE_MASK with (BIT 19). change FCAN_IDR_RTR_MASK with (BIT 0).
    rewrite !extended_word_bit, !extended_word_testbit by (done || lia).
    destruct (extended_low_spec canfd (esi f) dlc Hd) as [Hlow Hdec].
    pose proof Hk1 as (_ & _ & (a & Ha)). cbn [app] in Ha.
    destruct (read_word base s1 _ _ (took_base base _ _ _ Hk1 Hs) Ha) as (s2 & -> & Hk2).
    rewrite (swab_swab _ Hlow), Hdec. exists s2. split.
    + cbn. unfold when. by destruct (rtr f); rewrite ?Z.lor_0_r.
    + destruct (took_trans base _ _ _ _ (took_self base _ _ _ Hk1) Hk2) as (E1 & T1 & (a' & A')).
      split; [done|]. split; [done|]. exists (a ++ a'). by rewrite A', app_assoc.
  - change (Z.land (canid f) (Z.ones 11)) with (standard_id f) in Hstd.
    destruct (standard_low_spec canfd (rtr f) (esi f) dlc Hd) as (Hlow & Hide & Hsrr & Hdec).
    rewrite swab_swab by (by apply standard_word_range).
    rewrite !standard_word_land by (done || zdec). rewrite Hide, Hsrr.
    rewrite standard_word_dlc, Hdec, standard_word_id by done.
    exists s1. split; [|done]. unfold when. by destruct (rtr f); rewrite ?Z.lor_0_r.
Qed.

Lemma can_empty_read s w l : at_base base s -> rx s.(regs) = w :: l ->
  exists s', FCAN_RX_FIFO_EMPTY s = (false, s') /\ took base s s' (w :: l).
Proof.
  intros Hs Hr. unfold FCAN_RX_FIFO_EMPTY.
  destruct (FCAN_READ_REG32 FCAN_FIFO_CNT_OFFSET s) as [v s1] eqn:E.
  apply (read_reg base) in E as (Hin & (T & _ & (a & R) & _) & E1); [|done..].
  destruct (law_count (CanLaws := L) _ _ _ Hin) as [_ Hc]. rewrite Hr in R.
  exists s1. split; [|by repeat split; [..|exists a]].
  f_equal. apply Z.eqb_neq. intros E0. symmetry in E0. apply Hc in E0. by rewrite R in E0.
Qed.

(** The words of a frame with any header: the receiver takes the data words the length
    code announces. *)
Lemma FCanRecv_words canfd dlc f g s rest :
  at_base base s -> 0 <= dlc < 16 -> length f.(data) = 64%nat -> byte_list f.(data) ->
  let n := FCanGetDlcLen dlc in
  rx s.(regs) = header_words canfd dlc f ++
    (if rtr f then [] else map (word_at f.(data)) (seq 0 (word_count n))) ++ rest ->
  exists s', FCanRecv g s = Ok (FCAN_SUCCESS, received canfd dlc f, s') /\ took base s s' rest.
Proof.
  intros Hs Hd Hl Hb n Hr. pose proof (dlc_length_range dlc Hd) as Hn. fold n in Hn.
  unfold FCanRecv. rewrite (at_base_ready base s Hs).
  assert (Hne : exists w l, rx s.(regs) = w :: l).
  { rewrite Hr. unfold header_words. destruct (eff f); by eexists _, _. }
  destruct Hne as (w & l & Hwl). destruct (can_empty_read s w l Hs Hwl) as (s1 & -> & Hk1).
  rewrite <-Hwl, Hr in Hk1. pose proof Hk1 as (E1 & T1 & (a & R1)). rewrite <-!app_assoc in R1.
  pose proof (took_base base _ _ _ Hk1 Hs) as Hs1.
  destruct (read_header_words canfd dlc f s1 _ Hs1 Hd R1) as (s2 & Eh & Hk2).
  unfold read_header in Eh. destruct (FCAN_READ_REG32 FCAN_RX_FIFO_OFFSET s1) as [word s1'].
  cbv zeta in Eh |- *. rewrite Eh. rewrite received_id_rtr.
  change (Z.to_nat FCAN_DATA_LENGTH) with 64%nat. fold n. rewrite (wrap_small 8 n) by lia.
  pose proof (took_trans base _ _ _ _ (took_self base _ _ _ Hk1) Hk2) as Hk.
  unfold received, received_data. fold n. destruct (rtr f).
  { exists s2. split; [done|]. destruct Hk as (E & T & (a' & A)). rewrite app_nil_l in A.
    split; [done|]. split; [done|]. exists (a ++ a'). by rewrite A, app_assoc. }
  destruct Hk2 as (E2 & T2 & (a2 & R2)). rewrite <-!app_assoc in R2.
  pose proof (word_count_bounds n).
  assert (Hs2 : at_base base s2) by (by rewrite E2).
  destruct (recv_loop_words base f.(data) (word_count n) 64 0 n s2 (rest ++ a ++ a2) Hl Hb)
    as (i & j & s3 & E3 & Hi & Hk3); unfold word_count; try done; try lia.
  change (partial (data f) 0) with (replicate 64 0) in E3. change (4 * Z.of_nat 0) with 0 in E3.
  rewrite E3. cbn [rbind Nat.add]. rewrite (proj2 (Z.ltb_ge 0 i)) by lia.
  exists s3. split; [done|].
  destruct (took_trans base _ _ _ _ (took_self base _ _ _ Hk) Hk3) as (E & T & (a' & A)).
  split; [done|]. split; [done|]. exists ((a ++ a2) ++ a'). by rewrite A, !app_assoc.
Qed.
End Receive.

Lemma dlc_roundtrip n : n ∈ lengths -> 0 <= FCanSetDlcLen n < 16 /\ FCanGetDlcLen (FCanSetDlcLen n) = n.
Proof.
  intros Hn. assert (Ha : forallb (fun n => (0 <=? FCanSetDlcLen n) && (FCanSetDlcLen n <? 16) &&
    (FCanGetDlcLen (FCanSetDlcLen n) =? n)) lengths = true) by (vm_compute; reflexivity).
  rewrite List.forallb_forall in Ha. apply list_elem_of_In in Hn. specialize (Ha n Hn).
  rewrite !andb_true_iff, Z.leb_le, Z.ltb_lt, Z.eqb_eq in Ha. lia.
Qed.

(** C15: [FCanSend] on a frame of up to 64 bytes, whether its length is legal or not.
    The test for a full FIFO lets a classic frame in when 60 of the 64 words are taken,
    and a CAN FD frame when 32 are.  That room is enough exactly for CAN FD frames,
    remote frames and classic data frames of up to 8 bytes (12 with an 11-bit
    identifier); longer classic frames, which the driver does not refuse, have more
    words than the test keeps free, and nothing is claimed for them.  A frame that fits
    never overruns the FIFO: its header and data words go into it in order and after all
    words sent before, or the call answers that the FIFO is full and sends nothing; the
    latter only when more than 60 words (32 with CAN FD) were waiting.  Nothing that has
    arrived is lost. *)
Theorem FCanSend_correct `{H : MmioHw} base {L : CanLaws base} f s :
  at_base base s -> canfd_known s.(can) -> well_typed f -> f.(candlc) <= 64 ->
  let fd := use_fd s.(can) in
  (fits fd f <-> fd = true \/ rtr f = true \/ f.(candlc) <= (if eff f then 8 else 12)) /\
  (fits fd f ->
   exists ret f' h, FCanSend f s = Ok (ret, f', set_regs h s) /\
     (exists arrived, rx h = rx s.(regs) ++ arrived) /\
     (ret = FCAN_SUCCESS /\ tx h = tx s.(regs) ++ frame_words fd f \/
      ret = FCAN_TX_FIFO_FULL_ERR /\ f' = f /\ tx h = tx s.(regs) /\
      limit fd < level s.(regs))).
Proof.
  intros Hs Hc Hf H64 fd. split; [apply fits_iff; destruct Hf; lia|]. intros Hfit.
  destruct (FCanSend_cases base f s Hs Hc Hf H64 Hfit) as (h & Hrx & [[E T]|(E & T & Hl)]);
    eexists _, _, h; (split; [exact E|]); (split; [done|]); [by left|by right].
Qed.

(** C14: round trip: the words a controller is given for a frame, when another one has
    them in its receive FIFO, are received as the frame that was sent: with its
    identifier (11 or 29 bits) and kind, its length, its data up to the next word
    boundary followed by zeros (all zeros for remote frames), and, with CAN FD, its
    error state and the rate switch, which the driver always asks for.  What follows
    in the FIFO stays there. *)
Theorem can_frame_roundtrip `{H : MmioHw} base1 base2 {L1 : CanLaws base1} {L2 : CanLaws base2}
    f s1 :
  at_base base1 s1 -> canfd_known s1.(can) -> sendable (use_fd s1.(can)) f ->
  level (CanLaws := L1) s1.(regs) <= limit (use_fd s1.(can)) ->
  exists ws f' h1, FCanSend f s1 = Ok (FCAN_SUCCESS, f', set_regs h1 s1) /\
    tx (CanLaws := L1) h1 = tx (CanLaws := L1) s1.(regs) ++ ws /\
    forall g s2 rest, at_base base2 s2 -> rx (CanLaws := L2) s2.(regs) = ws ++ rest ->
      exists h2 arrived,
        FCanRecv g s2 =
          Ok (FCAN_SUCCESS,
              mkFrame (received_id f) f.(candlc) (sent_flags (use_fd s1.(can)) (esi f))
                (received_data f f.(candlc)),
              set_regs h2 s2) /\
        rx (CanLaws := L2) h2 = rest ++ arrived.
Proof.
  intros Hs Hc Hf Hl. pose proof Hf as ((_ & _ & _ & Hd & Hb) & Hn & _).
  destruct (FCanSend_cases base1 f s1 Hs Hc (proj1 Hf) (proj2 (sendable_length _ _ Hf))
    (limit_room _ _ Hf)) as (h & _ & [[E T]|(_ & _ & Hl')]); [|lia].
  exists (frame_words (use_fd s1.(can)) f), (after_send (use_fd s1.(can)) f), h.
  split; [done|]. split; [done|]. intros g s2 rest Hs2 Hr.
  destruct (dlc_roundtrip f.(candlc) Hn) as [Hdlc En].
  unfold frame_words, data_words in Hr. rewrite <-app_assoc in Hr. rewrite <-En in Hr at 2.
  destruct (FCanRecv_words base2 (use_fd s1.(can)) (FCanSetDlcLen f.(candlc)) f g s2 rest)
    as (s' & Er & (E' & _ & (a & A))); try done.
  unfold received in Er. rewrite En in Er. exists s'.(regs), a. rewrite <-E'. done.
Qed.

(** ** Frames of other lengths *)
Lemma dlc_other n : 0 <= n <= 64 -> n ∉ lengths -> FCanSetDlcLen n = 0.
Proof.
  intros Hn Hl. assert (Ha : forallb (fun n => bool_decide (n ∈ lengths) || (FCanSetDlcLen n =? 0))
    (seqZ 0 65) = true) by (vm_compute; reflexivity).
  apply (forallb_seqZ _ 0 65 n) in Ha; [|lia]. cbv beta in Ha.
  rewrite bool_decide_eq_false_2 in Ha by done. by apply Z.eqb_eq in Ha.
Qed.

Lemma data_loop_over data r : forall n k i out b,
  length data = 64%nat -> (k + r = 16)%nat -> (r < n)%nat -> 4 * Z.of_nat r < i ->
  filled out b -> (length out + r <= 18)%nat ->
  frame_data_loop n data i (4 * Z.of_nat k) b = Fault Undefined.
Proof.
  induction r as [|r IH]; intros n k i out b Hd Hk Hn Hi Hf Ho; (destruct n as [|n]; [lia|]);
    cbn [frame_data_loop]; rewrite (proj2 (Z.ltb_lt 0 i)) by lia.
  - replace k with 16%nat by lia. unfold load_word.
    replace (aget data (4 * Z.of_nat 16)) with (@Fault Z Undefined); [done|].
    unfold aget. cbn [Z.ltb]. change (4 * Z.of_nat 16 <? 0) with false.
    change (Z.to_nat (4 * Z.of_nat 16)) with 64%nat. by rewrite lookup_ge_None_2 by lia.
  - rewrite load_word_at by lia. cbn [rbind].
    destruct (push_filled (word_at data k) out b Hf) as (b1 & -> & Hf1); [lia|]. cbn [rbind].
    replace (4 * Z.of_nat k + 4) with (4 * Z.of_nat (S k)) by lia.
    apply (IH n (S k) (i - 4) (out ++ [word_at data k]) b1); try done; try lia.
    rewrite length_app. cbn. lia.
Qed.

(** C18: lengths CAN has no code for are not refused.  A data frame with such a length
    up to 64 is announced as empty but its data words go into the FIFO all the same;
    what the receiver takes for the next frame starts with them.  A length above 64
    makes [FCanFrameToBuf] read past the data of the frame. *)
Theorem FCanFrameToBuf_bad_length `{H : MmioHw} base {L : CanLaws base} c f :
  c.(is_ready) = FT_COMPONENT_IS_READY -> canfd_known c -> well_typed f -> rtr f = false ->
  f.(candlc) ∉ lengths ->
  (f.(candlc) <= 64 ->
     exists len f' buf, FCanFrameToBuf c f (replicate 18 0) = Ok (len, f', buf) /\
       data_words f <> [] /\
       take (Z.to_nat len) buf = header_words (use_fd c) 0 f ++ data_words f /\
       forall g s rest, at_base base s -> rx s.(regs) = take (Z.to_nat len) buf ++ rest ->
         exists h arrived g', FCanRecv g s = Ok (FCAN_SUCCESS, g', set_regs h s) /\
           g'.(candlc) = 0 /\ rx h = (data_words f ++ rest) ++ arrived) /\
  (64 < f.(candlc) -> FCanFrameToBuf c f (replicate 18 0) = Fault Undefined).
Proof.
  intros Hr Hc (_ & Hn & _ & Hd & Hb) Hrtr Hl. split; intros H64.
  - destruct (FCanFrameToBuf_words c f Hr Hc ltac:(lia) Hd) as (buf & E & _ & Ht).
    unfold frame_words in Ht. rewrite (dlc_other f.(candlc)) in Ht by (done || lia).
    eexists _, _, buf. split; [exact E|]. rewrite Nat2Z.id. split.
    { unfold data_words. rewrite Hrtr. pose proof (word_count_bounds f.(candlc)) as Hw.
      assert (f.(candlc) <> 0) by (intros E0; apply Hl; by rewrite E0; left).
      unfold word_count. destruct (Z.to_nat _) eqn:E0; [lia|done]. }
    unfold frame_words. rewrite (dlc_other f.(candlc)) by (done || lia). split; [exact Ht|].
    intros g s rest Hs Hrx. rewrite Ht, <-app_assoc in Hrx.
    destruct (FCanRecv_words base (use_fd c) 0 f g s (data_words f ++ rest))
      as (s' & Er & (E' & _ & (a & A))); try done.
    { by rewrite Hrtr. }
    exists s'.(regs), a, (received (use_fd c) 0 f). by rewrite <-E'.
  - rewrite FCanFrameToBuf_eq by done.
    destruct (put_header_words (use_fd c) (FCanSetDlcLen f.(candlc)) f (replicate 18 0) eq_refl)
      as (b & -> & Hf). cbn [rbind].
    destruct (after_send_fields (use_fd c) f) as (E1 & E2 & E3).
    unfold put_data. rewrite E1, E2, E3. fold (rtr f). rewrite Hrtr.
    pose proof (header_words_length (use_fd c) (FCanSetDlcLen f.(candlc)) f).
    pose proof (data_loop_over f.(data) 16 64 0 f.(candlc) _ b Hd eq_refl ltac:(lia) ltac:(lia) Hf
      ltac:(lia)) as Hover. change (4 * Z.of_nat 0) with 0 in Hover. by rewrite Hover.
Qed.

(** ** Examples *)

(** An extended frame with 6 bytes. *)
Definition sample_frame : FCanFrame :=
  mkFrame 0x92345678 6 0 ([1; 2; 3; 4; 5; 6] ++ replicate 58 9).

Lemma sample_well_typed n : 0 <= n < 256 -> well_typed (mkFrame 0x92345678 n 0 sample_frame.(data)).
Proof.
  intros Hn. unfold well_typed. cbn [canid candlc flags data]. split; [lia|]. split; [lia|].
  split; [lia|]. split; [done|]. unfold byte_list. rewrite Forall_forall. intros b Hb.
  assert (Ha : forallb (fun b => (0 <=? b) && (b <? 2 ^ 8)) sample_frame.(data) = true) by done.
  rewrite List.forallb_forall in Ha. specialize (Ha b Hb). apply andb_true_iff in Ha. lia.
Qed.

Lemma sample_sendable canfd : sendable canfd sample_frame.
Proof. split; [by apply (sample_well_typed 6)|]. split; [|done]. by do 6 right; left. Qed.

Lemma FCanSend_correct_witness :
  exists h, FCanSend sample_frame (sim_state 1 []) =
      Ok (FCAN_SUCCESS, after_send true sample_frame, set_regs h (sim_state 1 [])) /\
    length (sim_tx h) = 4%nat.
Proof.
  destruct (FCanSend_correct 0x2800a000 sample_frame (sim_state 1 [])) as [Hfit Hsend].
  { split; reflexivity. }
  { left. reflexivity. }
  { apply (sample_well_typed 6). lia. }
  { cbn. lia. }
  destruct Hsend as (ret & f' & h & E & _ & [[-> T]|(_ & _ & _ & Hl)]).
  - apply Hfit. left. reflexivity.
  - exists h. rewrite E. split; [|exact (f_equal length T)].
    assert (Ef : f' = after_send true sample_frame); [|by rewrite Ef].
    assert (Eg : forall r g s, FCanSend sample_frame (sim_state 1 []) = Ok (r, g, s) ->
      g = after_send true sample_frame) by (intros r g s [= _ <- _]; reflexivity).
    by apply Eg in E.
  - exfalso. cbn in Hl. lia.
Defined.

(** One controller sends the frame, a second one has its words and one more. *)
Lemma can_frame_roundtrip_witness :
  exists ws h arrived,
    FCanRecv (mkFrame 0 0 0 []) (sim_state 0 (ws ++ [7])) =
      Ok (FCAN_SUCCESS, mkFrame 0x92345678 6 CANFD_BRS ([1; 2; 3; 4; 5; 6; 9; 9] ++ replicate 56 0),
          set_regs h (sim_state 0 (ws ++ [7]))) /\
    sim_rx h = [7] ++ arrived.
Proof.
  destruct (can_frame_roundtrip 0x2800a000 0x2800a000 sample_frame (sim_state 1 []))
    as (ws & f' & h1 & _ & _ & Hr).
  - split; reflexivity.
  - left. reflexivity.
  - apply sample_sendable.
  - cbn. lia.
  - destruct (Hr (mkFrame 0 0 0 []) (sim_state 0 (ws ++ [7])) [7]) as (h2 & arrived & E & R).
    + split; reflexivity.
    + reflexivity.
    + exists ws, h2, arrived. split; [exact E|exact R].
Defined.

(** A frame of 9 bytes is received as an empty one; one of 65 is not read at all. *)
Lemma FCanFrameToBuf_bad_length_witness :
  (exists len f' buf,
     FCanFrameToBuf (sim_can 1) (mkFrame 0x92345678 9 0 sample_frame.(data)) (replicate 18 0) =
       Ok (len, f', buf)) /\
  FCanFrameToBuf (sim_can 1) (mkFrame 0x92345678 65 0 sample_frame.(data)) (replicate 18 0) =
    Fault Undefined.
Proof.
  assert (Hno : forall n, bool_decide (n ∈ lengths) = false -> n ∉ lengths)
    by (intros n; apply bool_decide_eq_false_1).
  split.
  - destruct (FCanFrameToBuf_bad_length 0x2800a000 (sim_can 1)
                (mkFrame 0x92345678 9 0 sample_frame.(data))) as [Hb _].
    + reflexivity.
    + left. reflexivity.
    + apply sample_well_typed. lia.
    + reflexivity.
    + apply Hno. reflexivity.
    + destruct (Hb ltac:(cbn; lia)) as (len & f' & buf & E & _). exists len, f', buf. exact E.
  - apply (FCanFrameToBuf_bad_length 0x2800a000 (sim_can 1)
                (mkFrame 0x92345678 65 0 sample_frame.(data))).
    + reflexivity.
    + left. reflexivity.
    + apply sample_well_typed. lia.
    + reflexivity.
    + apply Hno. reflexivity.
    + cbn. lia.
Defined.
