(* ===== verification/Gdma.v ===== *)
(** The DMA controller: src/standalone/drivers/dma/fgdma/ (fgdma.c, fgdma_intr.c,
    fgdma_hw.h and fgdma.h), as built for AArch64.

    The registers of the controller are the class [MmioHw] of Mmio.v; what the driver
    relies on of them is in GdmaProps.v.  A list of descriptors is a Rocq list at an
    address.  The handlers of the application are addresses; [calls] logs the calls they
    get, what they do is outside the model.  Delays, and the register reads of messages
    that are compiled out, are left out. *)
From S2P Require Import Prelude Mmio Can.

Module Gdma.
Import Can (GENMASK, GET_REG32_BITS, SET_REG32_BITS).

(** ** Constants *)
Definition ErrGdma : Z := 18.
Definition FGDMA_SUCCESS : Z := FT_SUCCESS.
Definition FGDMA_ERR_COMMON : Z := FT_MAKE_ERRCODE ErrModBsp ErrGdma 0.
Definition FGDMA_ERR_NOT_INIT : Z := FT_MAKE_ERRCODE ErrModBsp ErrGdma 1.
Definition FGDMA_ERR_WRONG_PARA : Z := FT_MAKE_ERRCODE ErrModBsp ErrGdma 2.
Definition FGDMA_ERR_INVALID_ADDR : Z := FT_MAKE_ERRCODE ErrModBsp ErrGdma 5.
Definition FGDMA_ERR_INVALID_SIZE : Z := FT_MAKE_ERRCODE ErrModBsp ErrGdma 6.

Definition FGDMA_TRANS_NEED_RESET_MASK : Z := BIT 2.
Definition FGDMA_OPER_NONE_PRIORITY_POLL : Z := -1.
Definition FGDMA_OPER_DIRECT : Z := 0.
Definition FGDMA_OPER_BDL : Z := 1.
Definition FGDMA_WAIT_INTR : Z := 0.
Definition FGDMA_GET_BURST_BYTE (burst_size : Z) : Z := u32 (Z.shiftl 1 burst_size).
Definition FGDMA_CHAN_EVT_FIFO_EMPTY : Z := 0.
Definition FGDMA_CHAN_EVT_FIFO_FULL : Z := 1.
Definition FGDMA_CHAN_EVT_BDL_END : Z := 2.
Definition FGDMA_CHAN_EVT_TRANS_END : Z := 3.
Definition FGDMA_CHAN_EVT_BUSY : Z := 4.
Definition FGDMA_CHAN_NUM_OF_EVT : Z := 5.
Definition FGDMA_BDL_DESC_ALIGMENT : Z := 128.

Definition FGDMA_CTL_OFFSET : Z := 0x0.
Definition FGDMA_INTR_STATE_OFFSET : Z := 0x4.
Definition FGDMA_INTR_CTRL_OFFSET : Z := 0x8.
Definition FGDMA_LP_OFFSET : Z := 0xC.
Definition FGDMA_QOS_CFG_OFFSET : Z := 0x10.
Definition FGDMA_CHX_OFFSET (x : Z) : Z := u32 (x * 0x60).
Definition FGDMA_CHX_CTL_OFFSET (x : Z) : Z := u32 (0x20 + FGDMA_CHX_OFFSET x).
Definition FGDMA_CHX_MODE_OFFSET (x : Z) : Z := u32 (0x24 + FGDMA_CHX_OFFSET x).
Definition FGDMA_CHX_INT_CTRL_OFFSET (x : Z) : Z := u32 (0x28 + FGDMA_CHX_OFFSET x).
Definition FGDMA_CHX_INT_STATE_OFFSET (x : Z) : Z := u32 (0x2C + FGDMA_CHX_OFFSET x).
Definition FGDMA_CHX_LVI_OFFSET (x : Z) : Z := u32 (0x30 + FGDMA_CHX_OFFSET x).
Definition FGDMA_CHX_TS_OFFSET (x : Z) : Z := u32 (0x34 + FGDMA_CHX_OFFSET x).
Definition FGDMA_CHX_UPSADDR_OFFSET (x : Z) : Z := u32 (0x38 + FGDMA_CHX_OFFSET x).
Definition FGDMA_CHX_LWSADDR_OFFSET (x : Z) : Z := u32 (0x3C + FGDMA_CHX_OFFSET x).
Definition FGDMA_CHX_UPDADDR_OFFSET (x : Z) : Z := u32 (0x40 + FGDMA_CHX_OFFSET x).
Definition FGDMA_CHX_LWDADDR_OFFSET (x : Z) : Z := u32 (0x44 + FGDMA_CHX_OFFSET x).
Definition FGDMA_CHX_XFER_CFG_OFFSET (x : Z) : Z := u32 (0x48 + FGDMA_CHX_OFFSET x).

Definition FGDMA_CTL_RD_ARB : Z := BIT 5.
Definition FGDMA_CTL_WR_ARB : Z := BIT 4.
Definition FGDMA_CTL_SOFT_RESET : Z := BIT 1.
Definition FGDMA_CTL_ENABLE : Z := BIT 0.
Definition FGDMA_CHX_INTR_STATE (x : Z) : Z := BIT x.
Definition FGDMA_CHX_INTR_MASK (x : Z) : Z := BIT x.
Definition FGDMA_CHX_INTR_GLOBAL_MASK : Z := BIT 31.
Definition FGDMA_CHX_LP_CTL (x : Z) : Z := BIT x.
Definition FGDMA_QOS_CFG_ARGOS_MASK : Z := GENMASK 7 4.
Definition FGDMA_QOS_CFG_ARGOS_SET (qos : Z) : Z := SET_REG32_BITS qos 7 4.
Definition FGDMA_QOS_CFG_AWQOS_MASK : Z := GENMASK 3 0.
Definition FGDMA_QOS_CFG_AWQOS_SET (qos : Z) : Z := SET_REG32_BITS qos 3 0.
Definition FGDMA_CHX_CTL_SOFT_RESET : Z := BIT 4.
Definition FGDMA_CHX_CTL_ENABLE : Z := BIT 0.
Definition FGDMA_CHX_MODE_RD_QOS_MASK : Z := GENMASK 23 20.
Definition FGDMA_CHX_MODE_RD_QOS_SET (qos : Z) : Z := SET_REG32_BITS qos 23 20.
Definition FGDMA_CHX_MODE_RD_QOS_EN : Z := BIT 16.
Definition FGDMA_CHX_MODE_WR_QOS_MASK : Z := GENMASK 15 12.
Definition FGDMA_CHX_MODE_WR_QOS_SET (qos : Z) : Z := SET_REG32_BITS qos 15 12.
Definition FGDMA_CHX_MODE_WR_QOS_EN : Z := BIT 8.
Definition FGDMA_CHX_MODE_BDL_ROLL_EN : Z := BIT 4.
Definition FGDMA_CHX_MODE_BDL_EN : Z := BIT 0.
Definition FGDMA_CHX_INT_CTRL_TRANS_END_ENABLE : Z := BIT 3.
Definition FGDMA_CHX_INT_CTRL_BDL_END_ENABLE : Z := BIT 2.
Definition FGDMA_CHX_INT_STATE_BUSY : Z := BIT 4.
Definition FGDMA_CHX_INT_STATE_TRANS_END : Z := BIT 3.
Definition FGDMA_CHX_INT_STATE_BDL_END : Z := BIT 2.
Definition FGDMA_CHX_INT_STATE_FIFO_FULL : Z := BIT 1.
Definition FGDMA_CHX_INT_STATE_FIFO_EMPTY : Z := BIT 0.
Definition FGDMA_CHX_INT_STATE_ALL : Z := GENMASK 4 0.
Definition FGDMA_CHX_LVI_SET (lvi : Z) : Z := SET_REG32_BITS (lvi - 1) 31 0.
Definition FGDMA_CHX_XFER_CFG_AR_LEN_SET (len : Z) : Z := SET_REG32_BITS len 31 24.
Definition FGDMA_CHX_XFER_CFG_AR_SIZE_SET (size : Z) : Z := SET_REG32_BITS size 22 20.
Definition FGDMA_CHX_XFER_CFG_AR_BRUST_SET (type : Z) : Z := SET_REG32_BITS type 17 16.
Definition FGDMA_CHX_XFER_CFG_AW_LEN_SET (len : Z) : Z := SET_REG32_BITS len 15 8.
Definition FGDMA_CHX_XFER_CFG_AW_SIZE_SET (size : Z) : Z := SET_REG32_BITS size 6 4.
Definition FGDMA_CHX_XFER_CFG_AW_BRUST_SET (type : Z) : Z := SET_REG32_BITS type 1 0.
Definition FGDMA_SRC_TC_BDL_BURST_SET (x : Z) : Z := SET_REG32_BITS x 1 0.
Definition FGDMA_SRC_TC_BDL_SIZE_SET (x : Z) : Z := SET_REG32_BITS x 6 4.
Definition FGDMA_SRC_TC_BDL_LEN_SET (x : Z) : Z := SET_REG32_BITS x 15 8.
Definition FGDMA_DST_TC_BDL_BURST_SET (x : Z) : Z := SET_REG32_BITS x 1 0.
Definition FGDMA_DST_TC_BDL_SIZE_SET (x : Z) : Z := SET_REG32_BITS x 6 4.
Definition FGDMA_DST_TC_BDL_LEN_SET (x : Z) : Z := SET_REG32_BITS x 15 8.

(** fkernel.h. *)
Definition UPPER_32_BITS (n : Z) : Z := u32 (Z.shiftr (Z.shiftr n 16) 16).
Definition LOWER_32_BITS (n : Z) : Z := u32 (Z.land n 0xffffffff).

(** ** Data *)
Record FGdmaConfig := mkConfig {
  instance_id : Z;
  irq_num : list Z;
  irq_prority : Z;
  caps : Z;
  base_addr : Z;
  rd_qos : Z;
  wr_qos : Z;
  wait_mode : Z
}.

Record FGdmaBdlDesc := mkDesc {
  src_addr_l : Z;
  src_addr_h : Z;
  dst_addr_l : Z;
  dst_addr_h : Z;
  src_tc : Z;
  dst_tc : Z;
  total_bytes : Z;
  ioc : Z
}.

Record FGdmaChanConfig := mkChan {
  trans_mode : Z;
  chan_wait_mode : Z;
  chan_rd_qos : Z;
  chan_wr_qos : Z;
  src_addr : Z;
  dst_addr : Z;
  trans_length : Z;
  rd_type : Z;
  wr_type : Z;
  rd_size : Z;
  wr_size : Z;
  rd_length : Z;
  wr_length : Z;
  first_desc_addr : Z;
  valid_desc_num : Z;
  roll_back : bool
}.

Record FGdmaBdlDescConfig := mkDescConfig {
  current_desc_num : Z;
  d_src_addr : Z;
  d_dst_addr : Z;
  d_trans_length : Z;
  d_rd_type : Z;
  d_wr_type : Z;
  d_rd_size : Z;
  d_wr_size : Z;
  d_rd_length : Z;
  d_wr_length : Z;
  d_ioc : bool
}.

(** [gdma_instance] points to the one instance, or nowhere. *)
Record FGdmaChanIrq := mkChanIrq {
  chan_id : Z;
  gdma_instance : bool;
  evt_handler_args : list Z;
  evt_handlers : list Z
}.

Record FGdma := mkGdma {
  config : FGdmaConfig;
  gdma_ready : Z;
  chan_ready_flag : Z;
  chan_irq_info : list FGdmaChanIrq
}.

Definition set_config (g : FGdma) (c : FGdmaConfig) : FGdma :=
  mkGdma c g.(gdma_ready) g.(chan_ready_flag) g.(chan_irq_info).
Definition set_ready (g : FGdma) (x : Z) : FGdma :=
  mkGdma g.(config) x g.(chan_ready_flag) g.(chan_irq_info).
Definition set_flag (g : FGdma) (x : Z) : FGdma :=
  mkGdma g.(config) g.(gdma_ready) x g.(chan_irq_info).
Definition set_irq (g : FGdma) (l : list FGdmaChanIrq) : FGdma :=
  mkGdma g.(config) g.(gdma_ready) g.(chan_ready_flag) l.

(** The number of channels of the controller of a board (fparameters.h). *)
Inductive soc_target : Set := PE220X | PD2308 | PD2408.
Definition FGDMA_NUM_OF_CHAN (soc : soc_target) : Z :=
  match soc with PE220X => 16 | PD2308 | PD2408 => 2 end.

(** The zeroes [memset] leaves. *)
Definition zero_config : FGdmaConfig := mkConfig 0 [] 0 0 0 0 0 0.
Definition zero_irq : FGdmaChanIrq := mkChanIrq 0 false (replicate 5 0) (replicate 5 0).
Definition zero_instance (soc : soc_target) : FGdma :=
  mkGdma zero_config 0 0 (replicate (Z.to_nat (FGDMA_NUM_OF_CHAN soc)) zero_irq).

(** ** Descriptors *)

(** What is wrong with the addresses, with the length of a transfer. *)
Definition bad_addresses (src dst rd wr : Z) : bool :=
  (src =? 0) || (dst =? 0) || truth (src mod FGDMA_GET_BURST_BYTE rd) ||
  truth (dst mod FGDMA_GET_BURST_BYTE wr).
Definition bad_length (n rd wr : Z) : bool :=
  (n =? 0) || truth (n mod FGDMA_GET_BURST_BYTE rd) || truth (n mod FGDMA_GET_BURST_BYTE wr).

Definition FGdmaBDLSetDesc (descs : list FGdmaBdlDesc) (c : FGdmaBdlDescConfig)
    : res (Z * list FGdmaBdlDesc) :=
  if bad_addresses c.(d_src_addr) c.(d_dst_addr) c.(d_rd_size) c.(d_wr_size)
  then Ok (FGDMA_ERR_INVALID_ADDR, descs)
  else if bad_length c.(d_trans_length) c.(d_rd_size) c.(d_wr_size)
  then Ok (FGDMA_ERR_INVALID_SIZE, descs)
  else
    let d := mkDesc (LOWER_32_BITS c.(d_src_addr)) (UPPER_32_BITS c.(d_src_addr))
      (LOWER_32_BITS c.(d_dst_addr)) (UPPER_32_BITS c.(d_dst_addr))
      (Z.lor (Z.lor (FGDMA_SRC_TC_BDL_BURST_SET c.(d_rd_type)) (FGDMA_SRC_TC_BDL_SIZE_SET c.(d_rd_size)))
         (FGDMA_SRC_TC_BDL_LEN_SET c.(d_rd_length)))
      (Z.lor (Z.lor (FGDMA_DST_TC_BDL_BURST_SET c.(d_wr_type)) (FGDMA_DST_TC_BDL_SIZE_SET c.(d_wr_size)))
         (FGDMA_DST_TC_BDL_LEN_SET c.(d_wr_length)))
      (u32 c.(d_trans_length)) (if c.(d_ioc) then 1 else 0) in
    let! descs := aset descs c.(current_desc_num) d in
    Ok (FGDMA_SUCCESS, descs).

Section Driver.
Context `{MmioHw} (soc : soc_target).

(** ** fgdma_hw.h *)
Definition update (base off : Z) (f : Z -> Z) (h : hw) : hw :=
  let '(reg_val, h) := FtIn32 h base off in FtOut32 h base off (f reg_val).
Definition set_bits (m : Z) (reg_val : Z) : Z := Z.lor reg_val (u32 m).
Definition clear_bits (m : Z) (reg_val : Z) : Z := Z.land reg_val (lnotw 32 m).

Definition FGdmaDisable (base : Z) (h : hw) : hw :=
  update base FGDMA_CTL_OFFSET (clear_bits FGDMA_CTL_ENABLE) h.
Definition FGdmaEnable (base : Z) (h : hw) : hw :=
  update base FGDMA_CTL_OFFSET (set_bits FGDMA_CTL_ENABLE) h.
Definition FGdmaSoftReset (base : Z) (h : hw) : hw :=
  let h := update base FGDMA_CTL_OFFSET (set_bits FGDMA_CTL_SOFT_RESET) h in
  update base FGDMA_CTL_OFFSET (clear_bits FGDMA_CTL_SOFT_RESET) h.
Definition FGdmaIrqEnable (base : Z) (h : hw) : hw :=
  update base FGDMA_INTR_CTRL_OFFSET (set_bits FGDMA_CHX_INTR_GLOBAL_MASK) h.
Definition FGdmaIrqDisable (base : Z) (h : hw) : hw :=
  update base FGDMA_INTR_CTRL_OFFSET (clear_bits FGDMA_CHX_INTR_GLOBAL_MASK) h.
Definition FGdmaChanDisable (base chan : Z) (h : hw) : hw :=
  update base (FGDMA_CHX_CTL_OFFSET chan) (clear_bits FGDMA_CHX_CTL_ENABLE) h.
Definition FGdmaChanEnable (base chan : Z) (h : hw) : hw :=
  update base (FGDMA_CHX_CTL_OFFSET chan) (set_bits FGDMA_CHX_CTL_ENABLE) h.
Definition FGdmaChanIrqDisable (base chan : Z) (h : hw) : hw :=
  let h := update base FGDMA_INTR_CTRL_OFFSET (clear_bits (FGDMA_CHX_INTR_MASK chan)) h in
  FtOut32 h base (FGDMA_CHX_INT_CTRL_OFFSET chan) 0.
Definition FGdmaChanIrqEnable (base chan umask : Z) (h : hw) : hw :=
  let h := update base FGDMA_INTR_CTRL_OFFSET (set_bits (FGDMA_CHX_INTR_MASK chan)) h in
  FtOut32 h base (FGDMA_CHX_INT_CTRL_OFFSET chan) umask.
Definition FGdmaChanSoftReset (base chan : Z) (h : hw) : hw :=
  let h := update base (FGDMA_CHX_CTL_OFFSET chan) (set_bits FGDMA_CHX_CTL_SOFT_RESET) h in
  update base (FGDMA_CHX_CTL_OFFSET chan) (clear_bits FGDMA_CHX_CTL_SOFT_RESET) h.
Definition FGdmaReadStatus (base : Z) (h : hw) : Z * hw := FtIn32 h base FGDMA_INTR_STATE_OFFSET.
Definition FGdmaReadChanStatus (base chan : Z) (h : hw) : Z * hw :=
  FtIn32 h base (FGDMA_CHX_INT_STATE_OFFSET chan).
Definition FGdmaClearChanStatus (base chan status : Z) (h : hw) : hw :=
  FtOut32 h base (FGDMA_CHX_INT_STATE_OFFSET chan) status.
Definition FGdmaSetChanClock (base chan : Z) (enable : bool) (h : hw) : hw :=
  update base FGDMA_LP_OFFSET
    (if enable then clear_bits (FGDMA_CHX_LP_CTL chan) else set_bits (FGDMA_CHX_LP_CTL chan)) h.

(** ** Stopping channels *)
Definition chan_ready (g : FGdma) (chan : Z) : bool :=
  truth (Z.land g.(chan_ready_flag) (BIT chan)).

(** The polls of [FGdmaChanAbort] and [FGdmaGlobalStop] with [timeout] of them left. *)
Fixpoint abort_loop (timeout : nat) (base chan : Z) (h : hw) : Z * hw :=
  let '(chan_status, h) := FGdmaReadChanStatus base chan h in
  if negb (truth (Z.land chan_status FGDMA_CHX_INT_STATE_BUSY)) then (FGDMA_SUCCESS, h)
  else
    let h := FGdmaChanDisable base chan h in
    match timeout with
    | O | S O => (FGDMA_ERR_COMMON, h)
    | S timeout => abort_loop timeout base chan h
    end.
Definition stop_chan (base chan : Z) (h : hw) : Z * hw :=
  abort_loop (Z.to_nat 10000) base chan (FGdmaChanDisable base chan h).

Definition FGdmaChanAbort (g : FGdma) (chan : Z) (h : hw) : res (Z * hw) :=
  check! (chan <? FGDMA_NUM_OF_CHAN soc) in
  if negb (chan_ready g chan) then Ok (FGDMA_SUCCESS, h)
  else Ok (stop_chan g.(config).(base_addr) chan h).

Fixpoint stop_loop (n : nat) (g : FGdma) (chan_id : Z) (h : hw) : Z * hw :=
  match n with
  | O => (FGDMA_SUCCESS, h)
  | S n =>
      if negb (chan_ready g chan_id) then (FGDMA_SUCCESS, h)
      else
        let '(ret, h) := stop_chan g.(config).(base_addr) chan_id h in
        if truth ret then (ret, h) else stop_loop n g (chan_id + 1) h
  end.
Definition FGdmaGlobalStop (g : FGdma) (h : hw) : Z * hw :=
  let '(ret, h) := stop_loop (Z.to_nat (FGDMA_NUM_OF_CHAN soc)) g 0 h in
  if truth ret then (ret, h) else (FGDMA_SUCCESS, FGdmaDisable g.(config).(base_addr) h).

(** ** The controller *)
Definition FGdmaSetQos (g : FGdma) (h : hw) : hw :=
  let base := g.(config).(base_addr) in
  let rd := g.(config).(rd_qos) in
  let wr := g.(config).(wr_qos) in
  let h := update base FGDMA_CTL_OFFSET (fun v =>
    let v := if FGDMA_OPER_NONE_PRIORITY_POLL =? rd then clear_bits FGDMA_CTL_RD_ARB v
             else set_bits FGDMA_CTL_RD_ARB v in
    if FGDMA_OPER_NONE_PRIORITY_POLL =? wr then clear_bits FGDMA_CTL_WR_ARB v
    else set_bits FGDMA_CTL_WR_ARB v) h in
  update base FGDMA_QOS_CFG_OFFSET (fun v =>
    let v := if FGDMA_OPER_NONE_PRIORITY_POLL =? rd then clear_bits FGDMA_QOS_CFG_ARGOS_MASK v
             else set_bits (FGDMA_QOS_CFG_ARGOS_SET rd) v in
    if FGDMA_OPER_NONE_PRIORITY_POLL =? wr then clear_bits FGDMA_QOS_CFG_AWQOS_MASK v
    else set_bits (FGDMA_QOS_CFG_AWQOS_SET wr) v) h.

Definition reset_chan (base chan : Z) (h : hw) : hw :=
  FGdmaChanSoftReset base chan
    (FGdmaClearChanStatus base chan FGDMA_CHX_INT_STATE_ALL (FGdmaChanIrqDisable base chan h)).

Fixpoint reset_loop (n : nat) (chan_id' : Z) (g : FGdma) (h : hw) : res (FGdma * hw) :=
  match n with
  | O => Ok (g, h)
  | S n =>
      let base := g.(config).(base_addr) in
      let! i := aget g.(chan_irq_info) chan_id' in
      let! l := aset g.(chan_irq_info) chan_id'
                  (mkChanIrq chan_id' true i.(evt_handler_args) i.(evt_handlers)) in
      let g := set_irq g l in
      if chan_ready g chan_id' then
        let! (_, h) := FGdmaChanAbort g chan_id' h in
        let h := FGdmaSetChanClock base chan_id' false (reset_chan base chan_id' h) in
        reset_loop n (chan_id' + 1)
          (set_flag g (Z.land g.(chan_ready_flag) (lnotw 32 (BIT chan_id')))) h
      else reset_loop n (chan_id' + 1) g h
  end.
Definition FGdmaReset (g : FGdma) (h : hw) : res (FGdma * hw) :=
  let base := g.(config).(base_addr) in
  let h := FGdmaSoftReset base (FGdmaIrqDisable base (FGdmaDisable base h)) in
  reset_loop (Z.to_nat (FGDMA_NUM_OF_CHAN soc)) 0 g h.

Definition FGdmaDeInitialize (g : FGdma) (h : hw) : res (FGdma * hw) :=
  let! (_, h) := FGdmaReset g h in Ok (zero_instance soc, h).

Definition FGdmaCfgInitialize (g : FGdma) (c : FGdmaConfig) (h : hw) : res (Z * FGdma * hw) :=
  let! (g, h) :=
    if g.(gdma_ready) =? FT_COMPONENT_IS_READY then FGdmaDeInitialize g h else Ok (g, h) in
  let g := set_config g c in
  let! (g, h) := FGdmaReset g h in
  let h := if g.(config).(wait_mode) =? FGDMA_WAIT_INTR then FGdmaIrqEnable g.(config).(base_addr) h
           else h in
  let h := FGdmaSetQos g h in
  Ok (FGDMA_SUCCESS, set_ready g FT_COMPONENT_IS_READY, h).

(** ** The channels *)
Definition wr (base off v : Z) (h : hw) : hw := FtOut32 h base off (u32 v).

Definition FGdmaChanSetQos (g : FGdma) (chan rd wr_ : Z) (h : hw) : res hw :=
  check! (chan <? FGDMA_NUM_OF_CHAN soc) in
  Ok (update g.(config).(base_addr) (FGDMA_CHX_MODE_OFFSET chan) (fun v =>
    let v :=
      if FGDMA_OPER_NONE_PRIORITY_POLL =? rd then clear_bits FGDMA_CHX_MODE_RD_QOS_EN v
      else set_bits (Z.lor FGDMA_CHX_MODE_RD_QOS_EN (FGDMA_CHX_MODE_RD_QOS_SET rd))
             (clear_bits FGDMA_CHX_MODE_RD_QOS_MASK v) in
    if FGDMA_OPER_NONE_PRIORITY_POLL =? wr_ then clear_bits FGDMA_CHX_MODE_WR_QOS_EN v
    else set_bits (Z.lor FGDMA_CHX_MODE_WR_QOS_EN (FGDMA_CHX_MODE_WR_QOS_SET wr_))
           (clear_bits FGDMA_CHX_MODE_WR_QOS_MASK v)) h).

Definition xfer_cfg (c : FGdmaChanConfig) : Z :=
  Z.lor
    (Z.lor (Z.lor (FGDMA_CHX_XFER_CFG_AR_LEN_SET c.(rd_length)) (FGDMA_CHX_XFER_CFG_AR_SIZE_SET c.(rd_size)))
       (FGDMA_CHX_XFER_CFG_AR_BRUST_SET c.(rd_type)))
    (Z.lor (Z.lor (FGDMA_CHX_XFER_CFG_AW_LEN_SET c.(wr_length)) (FGDMA_CHX_XFER_CFG_AW_SIZE_SET c.(wr_size)))
       (FGDMA_CHX_XFER_CFG_AW_BRUST_SET c.(wr_type))).

Definition FGdmaChanDirectSetBasic (g : FGdma) (chan : Z) (c : FGdmaChanConfig) (h : hw)
    : res (Z * hw) :=
  check! (chan <? FGDMA_NUM_OF_CHAN soc) in
  let base := g.(config).(base_addr) in
  let h := update base (FGDMA_CHX_MODE_OFFSET chan) (fun v =>
             clear_bits FGDMA_CHX_MODE_BDL_ROLL_EN (clear_bits FGDMA_CHX_MODE_BDL_EN v)) h in
  let! h := FGdmaChanSetQos g chan c.(chan_rd_qos) c.(chan_wr_qos) h in
  let h := wr base (FGDMA_CHX_XFER_CFG_OFFSET chan) (xfer_cfg c) h in
  let h := if c.(chan_wait_mode) =? FGDMA_WAIT_INTR
           then FGdmaChanIrqEnable base chan FGDMA_CHX_INT_CTRL_TRANS_END_ENABLE h else h in
  Ok (0, h).

Definition FGdmaChanDirectSetTrans (g : FGdma) (chan src dst data_len : Z) (h : hw)
    : res (Z * FGdma * hw) :=
  check! (chan <? FGDMA_NUM_OF_CHAN soc) in
  let base := g.(config).(base_addr) in
  let h := wr base (FGDMA_CHX_UPSADDR_OFFSET chan) (UPPER_32_BITS src) h in
  let h := wr base (FGDMA_CHX_LWSADDR_OFFSET chan) (LOWER_32_BITS src) h in
  let h := wr base (FGDMA_CHX_UPDADDR_OFFSET chan) (UPPER_32_BITS dst) h in
  let h := wr base (FGDMA_CHX_LWDADDR_OFFSET chan) (LOWER_32_BITS dst) h in
  let h := wr base (FGDMA_CHX_LVI_OFFSET chan) 0 h in
  let h := wr base (FGDMA_CHX_TS_OFFSET chan) data_len h in
  Ok (FGDMA_SUCCESS, set_flag g (Z.lor g.(chan_ready_flag) (BIT chan)), h).

Definition FGdmaChanDirectConfiguration (g : FGdma) (chan : Z) (c : FGdmaChanConfig) (h : hw)
    : res (Z * FGdma * hw) :=
  check! truth g.(gdma_ready) in
  check! (chan <? FGDMA_NUM_OF_CHAN soc) in
  if bad_addresses c.(src_addr) c.(dst_addr) c.(rd_size) c.(wr_size)
  then Ok (FGDMA_ERR_INVALID_ADDR, g, h)
  else if bad_length c.(trans_length) c.(wr_size) c.(rd_size)
  then Ok (FGDMA_ERR_INVALID_SIZE, g, h)
  else
    let! (ret, h) := FGdmaChanDirectSetBasic g chan c h in
    if truth ret then Ok (FGDMA_ERR_COMMON, g, h)
    else
      let! (ret, g, h) := FGdmaChanDirectSetTrans g chan c.(src_addr) c.(dst_addr) c.(trans_length) h in
      if truth ret then Ok (FGDMA_ERR_COMMON, g, h) else Ok (FGDMA_SUCCESS, g, h).

Definition FGdmaChanBDLSetBasic (g : FGdma) (chan : Z) (c : FGdmaChanConfig) (h : hw)
    : res (Z * hw) :=
  check! (chan <? FGDMA_NUM_OF_CHAN soc) in
  let base := g.(config).(base_addr) in
  let h := update base (FGDMA_CHX_MODE_OFFSET chan) (fun v =>
             let v := set_bits FGDMA_CHX_MODE_BDL_EN v in
             if c.(roll_back) then set_bits FGDMA_CHX_MODE_BDL_ROLL_EN v
             else clear_bits FGDMA_CHX_MODE_BDL_ROLL_EN v) h in
  let! h := FGdmaChanSetQos g chan c.(chan_rd_qos) c.(chan_wr_qos) h in
  let h := if c.(chan_wait_mode) =? FGDMA_WAIT_INTR
           then FGdmaChanIrqEnable base chan
                  (Z.lor FGDMA_CHX_INT_CTRL_TRANS_END_ENABLE FGDMA_CHX_INT_CTRL_BDL_END_ENABLE) h
           else h in
  Ok (0, h).

(** The check of [n] descriptors from [loop]: one without a source address has not been
    set. *)
Fixpoint check_descs (n : nat) (descs : list FGdmaBdlDesc) (loop : Z) : res bool :=
  match n with
  | O => Ok true
  | S n =>
      let! d := aget descs loop in
      if (d.(src_addr_l) =? 0) && (d.(src_addr_h) =? 0) then Ok false
      else check_descs n descs (loop + 1)
  end.

(** [descs] is the list at [first_desc_addr]. *)
Definition FGdmaChanBDLSetTrans (g : FGdma) (chan : Z) (c : FGdmaChanConfig)
    (descs : list FGdmaBdlDesc) (h : hw) : res (Z * FGdma * hw) :=
  check! (chan <? FGDMA_NUM_OF_CHAN soc) in
  check! (truth c.(first_desc_addr) && (0 <? c.(valid_desc_num))) in
  let! set := check_descs (Z.to_nat c.(valid_desc_num)) descs 0 in
  if negb set then Ok (FGDMA_ERR_COMMON, g, h)
  else
    let base := g.(config).(base_addr) in
    let h := wr base (FGDMA_CHX_UPSADDR_OFFSET chan) (UPPER_32_BITS c.(first_desc_addr)) h in
    let h := wr base (FGDMA_CHX_LWSADDR_OFFSET chan) (LOWER_32_BITS c.(first_desc_addr)) h in
    let h := wr base (FGDMA_CHX_UPDADDR_OFFSET chan) 0 h in
    let h := wr base (FGDMA_CHX_LWDADDR_OFFSET chan) 0 h in
    let h := wr base (FGDMA_CHX_TS_OFFSET chan) 0 h in
    let h := wr base (FGDMA_CHX_LVI_OFFSET chan) (FGDMA_CHX_LVI_SET c.(valid_desc_num)) h in
    Ok (FGDMA_SUCCESS, set_flag g (Z.lor g.(chan_ready_flag) (BIT chan)), h).

Definition FGdmaChanBDLConfiguration (g : FGdma) (chan : Z) (c : FGdmaChanConfig)
    (descs : list FGdmaBdlDesc) (h : hw) : res (Z * FGdma * hw) :=
  check! truth g.(gdma_ready) in
  check! (chan <? FGDMA_NUM_OF_CHAN soc) in
  let! (ret, h) := FGdmaChanBDLSetBasic g chan c h in
  if truth ret then Ok (FGDMA_ERR_COMMON, g, h)
  else if truth (c.(first_desc_addr) mod FGDMA_BDL_DESC_ALIGMENT)
  then Ok (FGDMA_ERR_INVALID_ADDR, g, h)
  else
    let! (ret, g, h) := FGdmaChanBDLSetTrans g chan c descs h in
    if truth ret then Ok (FGDMA_ERR_COMMON, g, h) else Ok (FGDMA_SUCCESS, g, h).

Definition FGdmaChanConfigure (g : FGdma) (chan : Z) (c : FGdmaChanConfig)
    (descs : list FGdmaBdlDesc) (h : hw) : res (Z * FGdma * hw) :=
  check! truth g.(gdma_ready) in
  check! (chan <? FGDMA_NUM_OF_CHAN soc) in
  let base := g.(config).(base_addr) in
  let! (_, h) := FGdmaChanAbort g chan h in
  let h := FGdmaSetChanClock base chan true (reset_chan base chan h) in
  if c.(trans_mode) =? FGDMA_OPER_DIRECT then
    let! (ret, g, h) := FGdmaChanDirectConfiguration g chan c h in
    Ok (if truth ret then FGDMA_ERR_COMMON else FGDMA_SUCCESS, g, h)
  else if c.(trans_mode) =? FGDMA_OPER_BDL then
    let! (ret, g, h) := FGdmaChanBDLConfiguration g chan c descs h in
    Ok (if truth ret then FGDMA_ERR_COMMON else FGDMA_SUCCESS, g, h)
  else Ok (FGDMA_ERR_WRONG_PARA, g, h).

Definition FGdmaChanDeconfigure (g : FGdma) (chan : Z) (h : hw) : res (Z * FGdma * hw) :=
  check! (chan <? FGDMA_NUM_OF_CHAN soc) in
  if negb (chan_ready g chan) then Ok (FGDMA_ERR_NOT_INIT, g, h)
  else
    let base := g.(config).(base_addr) in
    let h := FGdmaChanIrqDisable base chan h in
    let h := FGdmaClearChanStatus base chan FGDMA_CHX_INT_STATE_ALL h in
    let h := FGdmaChanSoftReset base chan (FGdmaChanDisable base chan h) in
    let h := FGdmaSetChanClock base chan false h in
    Ok (FGDMA_SUCCESS, set_flag g (Z.land g.(chan_ready_flag) (lnotw 32 (BIT chan))), h).

(** The controller is started behind the channels. *)
Definition start_controller (g : FGdma) (h : hw) : hw :=
  let base := g.(config).(base_addr) in
  let h := if truth (Z.land FGDMA_TRANS_NEED_RESET_MASK g.(config).(caps))
           then FGdmaSoftReset base h else h in
  FGdmaEnable base h.

Definition FGdmaChanStartTrans (g : FGdma) (chan : Z) (h : hw) : res hw :=
  check! truth g.(gdma_ready) in
  check! chan_ready g chan in
  Ok (start_controller g (FGdmaChanEnable g.(config).(base_addr) chan h)).

Fixpoint start_loop (n : nat) (g : FGdma) (chan_id : Z) (h : hw) : hw :=
  match n with
  | O => h
  | S n =>
      start_loop n g (chan_id + 1)
        (if chan_ready g chan_id then FGdmaChanEnable g.(config).(base_addr) chan_id h else h)
  end.
Definition FGdmaGlobalStartTrans (g : FGdma) (h : hw) : res hw :=
  check! truth g.(gdma_ready) in
  check! truth g.(chan_ready_flag) in
  Ok (start_controller g (start_loop (Z.to_nat (FGDMA_NUM_OF_CHAN soc)) g 0 h)).

(** ** Interrupts (fgdma_intr.c)

    [calls] is a list of handlers with the channel and the argument they get. *)
Definition FGDMA_CALL_EVT_HANDLER (i : FGdmaChanIrq) (evt : Z) (calls : list (Z * Z * Z))
    : res (list (Z * Z * Z)) :=
  let! f := aget i.(evt_handlers) evt in
  let! a := aget i.(evt_handler_args) evt in
  Ok (if f =? 0 then calls else calls ++ [(f, i.(chan_id), a)]).

Definition event (i : FGdmaChanIrq) (chan_status bit evt : Z) (calls : list (Z * Z * Z))
    : res (list (Z * Z * Z)) :=
  if truth (Z.land bit chan_status) then FGDMA_CALL_EVT_HANDLER i evt calls else Ok calls.

Definition FGdmaChanIrqHandler (g : FGdma) (i : FGdmaChanIrq) (calls : list (Z * Z * Z)) (h : hw)
    : res (list (Z * Z * Z) * hw) :=
  if negb i.(gdma_instance) then Fault Undefined
  else
    let chan := i.(chan_id) in
    let base := g.(config).(base_addr) in
    check! (chan <? FGDMA_NUM_OF_CHAN soc) in
    if negb (chan_ready g chan) then Ok (calls, h)
    else
      let '(chan_status, h) := FGdmaReadChanStatus base chan h in
      let! calls := event i chan_status FGDMA_CHX_INT_STATE_BUSY FGDMA_CHAN_EVT_BUSY calls in
      let! calls := event i chan_status FGDMA_CHX_INT_STATE_TRANS_END FGDMA_CHAN_EVT_TRANS_END calls in
      let! calls := event i chan_status FGDMA_CHX_INT_STATE_BDL_END FGDMA_CHAN_EVT_BDL_END calls in
      let! calls := event i chan_status FGDMA_CHX_INT_STATE_FIFO_FULL FGDMA_CHAN_EVT_FIFO_FULL calls in
      let! calls := event i chan_status FGDMA_CHX_INT_STATE_FIFO_EMPTY FGDMA_CHAN_EVT_FIFO_EMPTY calls in
      let h := FGdmaClearChanStatus base chan chan_status h in
      let '(_, h) := FGdmaReadChanStatus base chan h in
      Ok (calls, h).

Fixpoint irq_loop (n : nat) (g : FGdma) (status chan : Z) (calls : list (Z * Z * Z)) (h : hw)
    : res (list (Z * Z * Z) * hw) :=
  match n with
  | O => Ok (calls, h)
  | S n =>
      if negb (chan_ready g chan) || negb (truth (Z.land status (FGDMA_CHX_INTR_STATE chan)))
      then irq_loop n g status (chan + 1) calls h
      else
        let! i := aget g.(chan_irq_info) chan in
        let! (calls, h) := FGdmaChanIrqHandler g i calls h in
        irq_loop n g status (chan + 1) calls h
  end.
Definition FGdmaIrqHandler (g : FGdma) (calls : list (Z * Z * Z)) (h : hw)
    : res (list (Z * Z * Z) * hw) :=
  let base := g.(config).(base_addr) in
  let '(status, h) := FGdmaReadStatus base h in
  let h := FGdmaIrqDisable base h in
  let! (calls, h) := irq_loop (Z.to_nat (FGDMA_NUM_OF_CHAN soc)) g status 0 calls h in
  let h := FGdmaIrqEnable base h in
  let '(_, h) := FGdmaReadStatus base h in
  Ok (calls, h).

Definition FGdmaIrqHandlerPrivateChannel (g : FGdma) (i : FGdmaChanIrq) (calls : list (Z * Z * Z))
    (h : hw) : res (list (Z * Z * Z) * hw) :=
  if negb i.(gdma_instance) then Fault Undefined
  else
    check! (i.(chan_id) <? FGDMA_NUM_OF_CHAN soc) in
    if negb (chan_ready g i.(chan_id)) then Ok (calls, h)
    else
      let base := g.(config).(base_addr) in
      let '(_, h) := FGdmaReadStatus base h in
      let! (calls, h) := FGdmaChanIrqHandler g i calls h in
      let '(_, h) := FGdmaReadStatus base h in
      Ok (calls, h).

Definition FGdmaChanRegisterEvtHandler (g : FGdma) (chan evt handler handler_arg : Z) : res FGdma :=
  check! (chan <? FGDMA_NUM_OF_CHAN soc) in
  check! (evt <? FGDMA_CHAN_NUM_OF_EVT) in
  let! i := aget g.(chan_irq_info) chan in
  let! fs := aset i.(evt_handlers) evt handler in
  let! args := aset i.(evt_handler_args) evt handler_arg in
  let! l := aset g.(chan_irq_info) chan (mkChanIrq i.(chan_id) i.(gdma_instance) args fs) in
  Ok (set_irq g l).

End Driver.

End Gdma.
