(* ===== verification/GdmaProps.v ===== *)
(** The DMA controller (Gdma.v): what a channel is programmed to do, descriptors, and
    stopping all channels. *)
From S2P Require Import Prelude Mmio Can CanTiming CanFrame Gdma.
Import Can (GENMASK, GET_REG32_BITS, SET_REG32_BITS).
Import Gdma.

Arguments lnotw : simpl never.
Arguments Z.lor : simpl never.
Arguments Z.land : simpl never.
Arguments Z.shiftl : simpl never.

(** ** Registers

    What the driver relies on: the registers that configure the controller and its
    channels hold what is written to them and reads have no effect on them.  To write the
    control register of a channel may reset the other registers of that channel. *)
Definition chan_base (c : Z) : Z := 0x60 * c.
Definition in_chan (c off : Z) : Prop := chan_base c + 0x20 <= off < chan_base c + 0x80.
Definition plain (off : Z) : Prop :=
  off ∈ [FGDMA_INTR_CTRL_OFFSET; FGDMA_LP_OFFSET; FGDMA_QOS_CFG_OFFSET] \/
  exists c k, 0 <= c < 16 /\ off = chan_base c + k /\
    k ∈ [0x24; 0x28; 0x30; 0x34; 0x38; 0x3C; 0x40; 0x44; 0x48].

Class GdmaLaws {H : MmioHw} (base : Z) := {
  reg : hw -> Z -> Z;
  law_range h off : 0 <= reg h off < 2 ^ 32;
  law_read h off v h' : FtIn32 h base off = (v, h') ->
    (forall off', plain off' -> reg h' off' = reg h off') /\ (plain off -> v = reg h off);
  law_write h off v off' : plain off -> 0 <= v < 2 ^ 32 -> plain off' ->
    reg (FtOut32 h base off v) off' = if off' =? off then v else reg h off';
  law_ctl h c v off' : 0 <= c < 16 -> plain off' -> ~ in_chan c off' ->
    reg (FtOut32 h base (FGDMA_CHX_CTL_OFFSET c) v) off' = reg h off';
  law_state h c v off' : 0 <= c < 16 -> plain off' ->
    reg (FtOut32 h base (FGDMA_CHX_INT_STATE_OFFSET c) v) off' = reg h off'
}.

Lemma chan_offset k c : 0 <= c < 16 -> 0 <= k < 0x100 -> u32 (k + FGDMA_CHX_OFFSET c) = chan_base c + k.
Proof.
  intros Hc Hk. unfold FGDMA_CHX_OFFSET, chan_base. rewrite (wrap_small 32 (c * 96)) by lia.
  rewrite wrap_small by lia. lia.
Qed.

Ltac offsets :=
  unfold FGDMA_CHX_CTL_OFFSET, FGDMA_CHX_MODE_OFFSET, FGDMA_CHX_INT_CTRL_OFFSET, FGDMA_CHX_INT_STATE_OFFSET,
    FGDMA_CHX_LVI_OFFSET, FGDMA_CHX_TS_OFFSET, FGDMA_CHX_UPSADDR_OFFSET, FGDMA_CHX_LWSADDR_OFFSET,
    FGDMA_CHX_UPDADDR_OFFSET, FGDMA_CHX_LWDADDR_OFFSET, FGDMA_CHX_XFER_CFG_OFFSET in *;
  rewrite ?chan_offset in * by lia.

Lemma plain_chan c k : 0 <= c < 16 -> k ∈ [0x24; 0x28; 0x30; 0x34; 0x38; 0x3C; 0x40; 0x44; 0x48] ->
  plain (chan_base c + k).
Proof. intros Hc Hk. right. by exists c, k. Qed.

Lemma plain_global off : off ∈ [FGDMA_INTR_CTRL_OFFSET; FGDMA_LP_OFFSET; FGDMA_QOS_CFG_OFFSET] ->
  plain off /\ 8 <= off < 0x20.
Proof.
  intros Ho. split; [by left|]. rewrite !elem_of_cons, elem_of_nil in Ho.
  unfold FGDMA_INTR_CTRL_OFFSET, FGDMA_LP_OFFSET, FGDMA_QOS_CFG_OFFSET in Ho. intuition lia.
Qed.

(** Membership in a list of numbers. *)
Ltac listed := match goal with |- ?x ∈ ?l => exact (bool_decide_eq_true_1 (x ∈ l) eq_refl) end.

Section Channel.
Context {H : MmioHw} {base : Z} {GL : GdmaLaws base} (soc : soc_target).

Definition word (f : Z -> Z) : Prop := forall v, 0 <= v < 2 ^ 32 -> 0 <= f v < 2 ^ 32.

Lemma reg_update off f h off' : plain off -> word f -> plain off' ->
  reg (update base off f h) off' = if off' =? off then f (reg h off) else reg h off'.
Proof.
  intros Ho Hf Ho'. unfold update. destruct (FtIn32 h base off) as [v h'] eqn:E.
  destruct (law_read _ _ _ _ E) as [Hr Hv]. rewrite (Hv Ho). rewrite law_write by (done || apply Hf, law_range).
  destruct (off' =? off); [done|by apply Hr].
Qed.

Lemma reg_ctl c f h off' : 0 <= c < 16 -> plain off' -> ~ in_chan c off' ->
  reg (update base (FGDMA_CHX_CTL_OFFSET c) f h) off' = reg h off'.
Proof.
  intros Hc Ho Hn. unfold update. destruct (FtIn32 _ _ _) as [v h'] eqn:E.
  destruct (law_read _ _ _ _ E) as [Hr _]. rewrite law_ctl by done. by apply Hr.
Qed.

Lemma reg_wr off v h off' : plain off -> plain off' ->
  reg (wr base off v h) off' = if off' =? off then u32 v else reg h off'.
Proof. intros Ho Ho'. unfold wr. apply law_write; [done|by apply wrap_range|done]. Qed.

Lemma set_word m : word (set_bits m).
Proof. intros v Hv. unfold set_bits. apply lor_range; [lia|done|apply wrap_range; lia]. Qed.
Lemma clear_word m : word (clear_bits m).
Proof. intros v Hv. unfold clear_bits. apply land_range; [lia|done|apply wrap_range; lia]. Qed.

(** ** Stopping and resetting a channel *)
Definition outside (c : Z) (h h' : hw) : Prop :=
  forall off, plain off -> ~ in_chan c off -> reg h' off = reg h off.

Lemma abort_outside n c : 0 <= c < 16 -> forall h, outside c h (abort_loop n base c h).2.
Proof.
  intros Hc. induction n as [|n IH]; intros h off Ho Hn; cbn [abort_loop]; unfold FGdmaReadChanStatus, FGdmaChanDisable;
    destruct (FtIn32 h base _) as [v h1] eqn:E; destruct (law_read _ _ _ _ E) as [Hr _];
    destruct (negb _); cbn [snd]; try by apply Hr.
  - rewrite reg_ctl by done. by apply Hr.
  - destruct n as [|n]; cbn [snd]; [rewrite reg_ctl by done; by apply Hr|].
    rewrite IH, reg_ctl by done. by apply Hr.
Qed.

Lemma FGdmaChanAbort_outside g c h : 0 <= c < FGDMA_NUM_OF_CHAN soc -> c < 16 -> g.(config).(base_addr) = base ->
  exists ret h', FGdmaChanAbort soc g c h = Ok (ret, h') /\ outside c h h'.
Proof.
  intros Hc Hc' Hb. unfold FGdmaChanAbort. rewrite (proj2 (Z.ltb_lt c _)) by lia.
  destruct (negb _); [by exists FGDMA_SUCCESS, h|]. rewrite Hb. unfold stop_chan.
  destruct (abort_loop _ base c (FGdmaChanDisable base c h)) as [ret h'] eqn:E. exists ret, h'. split; [done|].
  intros off Ho Hn. pose proof (abort_outside (Z.to_nat 10000) c ltac:(lia) (FGdmaChanDisable base c h) off Ho Hn) as Ha.
  rewrite E in Ha. cbn [snd] in Ha. rewrite Ha. unfold FGdmaChanDisable. apply reg_ctl; [lia|done|done].
Qed.

(** The registers that are shared by the channels, behind the reset of channel [c]. *)
Definition shared_after (c off v : Z) : Z :=
  if off =? FGDMA_LP_OFFSET then clear_bits (BIT c) v
  else if off =? FGDMA_INTR_CTRL_OFFSET then clear_bits (BIT c) v else v.

Lemma plain_cases off c : 0 <= c < 16 -> plain off -> ~ in_chan c off ->
  forall k, 0x20 <= k < 0x80 -> (off =? chan_base c + k) = false.
Proof. intros Hc Ho Hn k Hk. apply Z.eqb_neq. intros ->. apply Hn. unfold in_chan. lia. Qed.

Lemma reset_outside c h off : 0 <= c < 16 -> plain off -> ~ in_chan c off ->
  reg (FGdmaSetChanClock base c true (reset_chan base c h)) off = shared_after c off (reg h off).
Proof.
  intros Hc Ho Hn. unfold FGdmaSetChanClock, reset_chan, FGdmaChanSoftReset, FGdmaClearChanStatus, FGdmaChanIrqDisable,
    shared_after, FGDMA_CHX_LP_CTL, FGDMA_CHX_INTR_MASK.
  assert (plain FGDMA_LP_OFFSET) as HLP by (apply plain_global; listed).
  assert (plain FGDMA_INTR_CTRL_OFFSET) as HI by (apply plain_global; listed).
  assert (plain (FGDMA_CHX_INT_CTRL_OFFSET c)) as HC by (offsets; apply plain_chan; [done|listed]).
  assert (~ in_chan c FGDMA_LP_OFFSET) as NL by (unfold in_chan, chan_base, FGDMA_LP_OFFSET; lia).
  assert (forall off', plain off' -> ~ in_chan c off' -> (off' =? FGDMA_CHX_INT_CTRL_OFFSET c) = false) as Hne.
  { intros off' H1 H2. offsets. by apply plain_cases. }
  rewrite reg_update by (done || apply clear_word).
  rewrite !(reg_ctl c), !law_state by done. rewrite !law_write by (done || lia).
  rewrite !Hne by done. rewrite !reg_update by (done || apply clear_word).
  destruct (Z.eqb_spec off FGDMA_LP_OFFSET) as [->|]; [done|].
  by destruct (Z.eqb_spec off FGDMA_INTR_CTRL_OFFSET) as [->|].
Qed.

(** ** What a channel is programmed to do *)
Record burst := mkBurst { b_type : Z; b_size : Z; b_length : Z }.
Record transfer := mkTransfer {
  t_src : Z;
  t_dst : Z;
  t_bytes : Z;
  t_read : burst;
  t_write : burst
}.

(** As the manual of the controller reads the registers of channel [c]: no list of
    descriptors, and the transfer. *)
Definition creg (h : hw) (c k : Z) : Z := reg h (chan_base c + k).
Definition direct (h : hw) (c : Z) : Prop :=
  Z.testbit (creg h c 0x24) 0 = false /\ Z.testbit (creg h c 0x24) 4 = false.
Definition programmed (h : hw) (c : Z) : transfer :=
  let cfg := creg h c 0x48 in
  mkTransfer (2 ^ 32 * creg h c 0x38 + creg h c 0x3C) (2 ^ 32 * creg h c 0x40 + creg h c 0x44) (creg h c 0x34)
    (mkBurst (GET_REG32_BITS cfg 17 16) (GET_REG32_BITS cfg 22 20) (GET_REG32_BITS cfg 31 24))
    (mkBurst (GET_REG32_BITS cfg 1 0) (GET_REG32_BITS cfg 6 4) (GET_REG32_BITS cfg 15 8)).

(** The values the driver's types allow. *)
Record good_burst (type size length : Z) : Prop := {
  good_type : 0 <= type < 2;
  good_size : 0 <= size < 5;
  good_length : 0 <= length < 8
}.
Record good_chan (c : FGdmaChanConfig) : Prop := {
  good_src : 0 <= c.(src_addr) < 2 ^ 64;
  good_dst : 0 <= c.(dst_addr) < 2 ^ 64;
  good_bytes : 0 <= c.(trans_length) < 2 ^ 64;
  good_rd : good_burst c.(rd_type) c.(rd_size) c.(rd_length);
  good_wr : good_burst c.(wr_type) c.(wr_size) c.(wr_length)
}.

(** The fields of the burst register, for every value. *)
Definition xfer (t1 s1 l1 t2 s2 l2 : Z) : Z :=
  Z.lor
    (Z.lor (Z.lor (FGDMA_CHX_XFER_CFG_AR_LEN_SET l1) (FGDMA_CHX_XFER_CFG_AR_SIZE_SET s1))
       (FGDMA_CHX_XFER_CFG_AR_BRUST_SET t1))
    (Z.lor (Z.lor (FGDMA_CHX_XFER_CFG_AW_LEN_SET l2) (FGDMA_CHX_XFER_CFG_AW_SIZE_SET s2))
       (FGDMA_CHX_XFER_CFG_AW_BRUST_SET t2)).
Definition xfer_ok (t1 s1 l1 t2 s2 l2 : Z) : bool :=
  let w := xfer t1 s1 l1 t2 s2 l2 in
  (u32 w =? w) &&
  ((GET_REG32_BITS w 17 16 =? t1) && (GET_REG32_BITS w 22 20 =? s1) && (GET_REG32_BITS w 31 24 =? l1)) &&
  ((GET_REG32_BITS w 1 0 =? t2) && (GET_REG32_BITS w 6 4 =? s2) && (GET_REG32_BITS w 15 8 =? l2)).
Lemma xfer_all :
  forallb (fun t1 => forallb (fun s1 => forallb (fun l1 => forallb (fun t2 => forallb (fun s2 => forallb (fun l2 =>
    xfer_ok t1 s1 l1 t2 s2 l2) (seqZ 0 8)) (seqZ 0 5)) (seqZ 0 2)) (seqZ 0 8)) (seqZ 0 5)) (seqZ 0 2) = true.
Proof. vm_compute. reflexivity. Qed.

Lemma xfer_fields t1 s1 l1 t2 s2 l2 : good_burst t1 s1 l1 -> good_burst t2 s2 l2 ->
  let w := xfer t1 s1 l1 t2 s2 l2 in
  u32 w = w /\
  mkBurst (GET_REG32_BITS w 17 16) (GET_REG32_BITS w 22 20) (GET_REG32_BITS w 31 24) = mkBurst t1 s1 l1 /\
  mkBurst (GET_REG32_BITS w 1 0) (GET_REG32_BITS w 6 4) (GET_REG32_BITS w 15 8) = mkBurst t2 s2 l2.
Proof.
  intros [T1 S1 L1] [T2 S2 L2] w. pose proof xfer_all as Ha.
  apply (forallb_seqZ _ 0 2 t1) in Ha; [|lia]. apply (forallb_seqZ _ 0 5 s1) in Ha; [|lia].
  apply (forallb_seqZ _ 0 8 l1) in Ha; [|lia]. apply (forallb_seqZ _ 0 2 t2) in Ha; [|lia].
  apply (forallb_seqZ _ 0 5 s2) in Ha; [|lia]. apply (forallb_seqZ _ 0 8 l2) in Ha; [|lia].
  unfold xfer_ok in Ha. fold w in Ha. rewrite !andb_true_iff, !Z.eqb_eq in Ha.
  destruct Ha as [[E ((-> & ->) & ->)] ((-> & ->) & ->)]. done.
Qed.

(** An address from its halves. *)
Lemma joined_halves a : 0 <= a < 2 ^ 64 -> 2 ^ 32 * u32 (UPPER_32_BITS a) + u32 (LOWER_32_BITS a) = a.
Proof.
  intros Ha. unfold UPPER_32_BITS, LOWER_32_BITS. rewrite !wrap_wrap by done.
  rewrite Z.shiftr_shiftr by done. change (16 + 16) with 32. rewrite Z.shiftr_div_pow2 by done.
  change 0xffffffff with (Z.ones 32). rewrite Z.land_ones by done.
  rewrite (wrap_small 32 (a / 2 ^ 32)).
  - unfold wrap. rewrite Z.mod_mod by done. pose proof (Z.div_mod a (2 ^ 32) ltac:(done)). lia.
  - split; [apply Z.div_pos; lia|]. apply Z.div_lt_upper_bound; [done|]. change (2 ^ 32 * 2 ^ 32) with (2 ^ 64). lia.
Qed.

Lemma base_eqb b x y : (b + x =? b + y) = (x =? y).
Proof. destruct (Z.eqb_spec x y) as [->|]; [apply Z.eqb_refl|]. apply Z.eqb_neq. lia. Qed.

(** The changes to the mode of a channel keep the bits they are not about. *)
Lemma qos_keeps rd wr_ v i : i = 0 \/ i = 4 ->
  Z.testbit
    (let v := if FGDMA_OPER_NONE_PRIORITY_POLL =? rd then clear_bits FGDMA_CHX_MODE_RD_QOS_EN v
     else set_bits (Z.lor FGDMA_CHX_MODE_RD_QOS_EN (FGDMA_CHX_MODE_RD_QOS_SET rd))
            (clear_bits FGDMA_CHX_MODE_RD_QOS_MASK v) in
     if FGDMA_OPER_NONE_PRIORITY_POLL =? wr_ then clear_bits FGDMA_CHX_MODE_WR_QOS_EN v
     else set_bits (Z.lor FGDMA_CHX_MODE_WR_QOS_EN (FGDMA_CHX_MODE_WR_QOS_SET wr_))
            (clear_bits FGDMA_CHX_MODE_WR_QOS_MASK v)) i = Z.testbit v i.
Proof.
  intros Hi. unfold set_bits, clear_bits, FGDMA_CHX_MODE_RD_QOS_EN, FGDMA_CHX_MODE_WR_QOS_EN,
    FGDMA_CHX_MODE_RD_QOS_SET, FGDMA_CHX_MODE_WR_QOS_SET, FGDMA_CHX_MODE_RD_QOS_MASK, FGDMA_CHX_MODE_WR_QOS_MASK,
    SET_REG32_BITS.
  assert (forall m, Z.land m (BIT 0 + BIT 4) = 0 -> Z.testbit m i = false) as Hm.
  { intros m E. assert (Z.testbit (Z.land m (BIT 0 + BIT 4)) i = false) as E0 by (rewrite E; apply Z.testbit_0_l).
    rewrite Z.land_spec in E0. by destruct Hi as [-> | ->]; rewrite andb_true_r in E0. }
  pose proof (Hm (GENMASK 23 20) eq_refl) as M1. pose proof (Hm (GENMASK 15 12) eq_refl) as M2.
  pose proof (Hm (BIT 16) eq_refl) as M3. pose proof (Hm (BIT 8) eq_refl) as M4.
  assert (0 <= i < 32) by lia.
  cbv zeta. destruct (_ =? rd), (_ =? wr_); autorewrite with cbits; rewrite ?M1, ?M2;
    repeat match goal with |- context [i =? ?n] => rewrite (proj2 (Z.eqb_neq i n)) by lia end;
    rewrite ?(proj2 (Z.ltb_lt i 32)) by lia; rewrite ?andb_false_r; cbn [negb andb orb];
    rewrite ?andb_true_r, ?orb_false_r; btauto.
Qed.

Lemma qos_word rd wr_ : word (fun v =>
    let v := if FGDMA_OPER_NONE_PRIORITY_POLL =? rd then clear_bits FGDMA_CHX_MODE_RD_QOS_EN v
     else set_bits (Z.lor FGDMA_CHX_MODE_RD_QOS_EN (FGDMA_CHX_MODE_RD_QOS_SET rd))
            (clear_bits FGDMA_CHX_MODE_RD_QOS_MASK v) in
    if FGDMA_OPER_NONE_PRIORITY_POLL =? wr_ then clear_bits FGDMA_CHX_MODE_WR_QOS_EN v
    else set_bits (Z.lor FGDMA_CHX_MODE_WR_QOS_EN (FGDMA_CHX_MODE_WR_QOS_SET wr_))
           (clear_bits FGDMA_CHX_MODE_WR_QOS_MASK v)).
Proof. intros v Hv. cbv zeta. destruct (_ =? rd), (_ =? wr_); repeat first [apply set_word|apply clear_word]; done. Qed.

Lemma irq_enable_reg c m h off : 0 <= c < 16 -> 0 <= m < 2 ^ 32 -> plain off ->
  reg (FGdmaChanIrqEnable base c m h) off =
    if off =? chan_base c + 0x28 then m
    else if off =? FGDMA_INTR_CTRL_OFFSET then set_bits (BIT c) (reg h off) else reg h off.
Proof.
  intros Hc Hm Ho. unfold FGdmaChanIrqEnable, FGDMA_CHX_INTR_MASK. offsets.
  rewrite law_write by (done || apply plain_chan; done || listed).
  destruct (off =? _); [done|]. rewrite reg_update; [|apply plain_global; listed|apply set_word|done].
  by destruct (Z.eqb_spec off FGDMA_INTR_CTRL_OFFSET) as [->|].
Qed.

(** The configuration of a channel for a direct transfer. *)
Lemma direct_configuration g c k h : truth g.(gdma_ready) = true -> g.(config).(base_addr) = base ->
  0 <= c < FGDMA_NUM_OF_CHAN soc -> c < 16 -> good_chan k ->
  bad_addresses k.(src_addr) k.(dst_addr) k.(rd_size) k.(wr_size) = false ->
  bad_length k.(trans_length) k.(wr_size) k.(rd_size) = false ->
  exists h', FGdmaChanDirectConfiguration soc g c k h =
      Ok (FGDMA_SUCCESS, set_flag g (Z.lor g.(chan_ready_flag) (BIT c)), h') /\
    direct h' c /\ programmed h' c = mkTransfer k.(src_addr) k.(dst_addr) (u32 k.(trans_length))
      (mkBurst k.(rd_type) k.(rd_size) k.(rd_length)) (mkBurst k.(wr_type) k.(wr_size) k.(wr_length)) /\
    (forall off, plain off -> ~ in_chan c off -> reg h' off =
      if (off =? FGDMA_INTR_CTRL_OFFSET) && (k.(chan_wait_mode) =? FGDMA_WAIT_INTR)
      then set_bits (BIT c) (reg h off) else reg h off).
Proof.
  intros Hg Hb Hc Hc' [Hs Hd Hn Hrd Hwr] Ha Hl.
  unfold FGdmaChanDirectConfiguration, FGdmaChanDirectSetBasic, FGdmaChanDirectSetTrans, FGdmaChanSetQos.
  rewrite Hg, (proj2 (Z.ltb_lt c _)), Ha, Hl, Hb by lia. cbn [rbind]. change (truth 0) with false. cbn [rbind].
  change (truth FGDMA_SUCCESS) with false. cbn iota. eexists. split; [reflexivity|].
  assert (forall x, x ∈ [0x24; 0x28; 0x30; 0x34; 0x38; 0x3C; 0x40; 0x44; 0x48] -> plain (chan_base c + x)) as Hp
    by (intros x Hx; apply plain_chan; [lia|done]).
  offsets. set (hm := update base (chan_base c + 36) _ _).
  assert (forall off, plain off -> reg (if chan_wait_mode k =? FGDMA_WAIT_INTR then
      FGdmaChanIrqEnable base c FGDMA_CHX_INT_CTRL_TRANS_END_ENABLE (wr base (chan_base c + 72) (xfer_cfg k) hm)
      else wr base (chan_base c + 72) (xfer_cfg k) hm) off =
    if (chan_wait_mode k =? FGDMA_WAIT_INTR) && (off =? chan_base c + 0x28) then FGDMA_CHX_INT_CTRL_TRANS_END_ENABLE
    else let v := if off =? chan_base c + 72 then u32 (xfer_cfg k) else reg hm off in
      if (chan_wait_mode k =? FGDMA_WAIT_INTR) && (off =? FGDMA_INTR_CTRL_OFFSET) then set_bits (BIT c) v else v) as Hirq.
  { intros off Ho. assert (0 <= FGDMA_CHX_INT_CTRL_TRANS_END_ENABLE < 2 ^ 32) by (vm_compute; intuition congruence).
    assert (plain (chan_base c + 72)) by (apply Hp; listed).
    destruct (chan_wait_mode k =? _); [rewrite irq_enable_reg by (done || lia)|]; rewrite reg_wr by done; reflexivity. }
  assert (forall off, plain off -> off <> chan_base c + 36 -> reg hm off = reg h off) as Hmode.
  { intros off Ho Hne. assert (plain (chan_base c + 36)) by (apply Hp; listed). unfold hm.
    rewrite reg_update, (proj2 (Z.eqb_neq _ _) Hne) by (done || apply qos_word).
    rewrite reg_update; [by rewrite (proj2 (Z.eqb_neq _ _) Hne)|done| |done].
    intros v Hv. by repeat apply clear_word. }
  set (hi := if chan_wait_mode k =? FGDMA_WAIT_INTR then _ else _) in *.
  set (h' := wr base (chan_base c + 52) _ _).
  assert (forall off, plain off -> reg h' off =
    if off =? chan_base c + 52 then u32 (trans_length k) else if off =? chan_base c + 48 then 0
    else if off =? chan_base c + 68 then u32 (LOWER_32_BITS (dst_addr k))
    else if off =? chan_base c + 64 then u32 (UPPER_32_BITS (dst_addr k))
    else if off =? chan_base c + 60 then u32 (LOWER_32_BITS (src_addr k))
    else if off =? chan_base c + 56 then u32 (UPPER_32_BITS (src_addr k)) else reg hi off) as Hall.
  { intros off Ho. unfold h'. rewrite !reg_wr by (done || apply Hp; listed). reflexivity. }
  assert (forall x, x ∈ [0x24; 0x28; 0x30; 0x34; 0x38; 0x3C; 0x40; 0x44; 0x48] ->
    creg h' c x = if x =? 52 then u32 (trans_length k) else if x =? 48 then 0
    else if x =? 68 then u32 (LOWER_32_BITS (dst_addr k)) else if x =? 64 then u32 (UPPER_32_BITS (dst_addr k))
    else if x =? 60 then u32 (LOWER_32_BITS (src_addr k)) else if x =? 56 then u32 (UPPER_32_BITS (src_addr k))
    else if (chan_wait_mode k =? FGDMA_WAIT_INTR) && (x =? 0x28) then FGDMA_CHX_INT_CTRL_TRANS_END_ENABLE
    else if x =? 72 then u32 (xfer_cfg k) else creg hm c x) as Hreg.
  { intros x Hx. unfold creg. rewrite Hall, Hirq, !base_eqb by (by apply Hp). cbv zeta.
    rewrite (proj2 (Z.eqb_neq (chan_base c + x) FGDMA_INTR_CTRL_OFFSET)), andb_false_r; [done|].
    rewrite !elem_of_cons, elem_of_nil in Hx. unfold chan_base, FGDMA_INTR_CTRL_OFFSET. intuition lia. }
  split; [|split].
  - assert (creg h' c 36 = creg hm c 36) as Em by (rewrite Hreg by listed; by rewrite andb_false_r).
    unfold direct. rewrite Em. unfold creg, hm.
    rewrite reg_update, Z.eqb_refl by (apply qos_word || apply Hp; listed).
    rewrite !qos_keeps by auto. rewrite reg_update, Z.eqb_refl;
      [|apply Hp; listed|intros v Hv; repeat apply clear_word; done|apply Hp; listed].
    unfold clear_bits, FGDMA_CHX_MODE_BDL_ROLL_EN, FGDMA_CHX_MODE_BDL_EN. autorewrite with cbits.
    change (0 <? 32) with true. change (4 <? 32) with true. change (0 =? 4) with false. change (4 =? 0) with false.
    rewrite !Z.eqb_refl. split; btauto.
  - unfold programmed. rewrite !Hreg by listed. cbn [Z.eqb Pos.eqb andb]. rewrite !andb_false_r.
    destruct (xfer_fields _ _ _ _ _ _ Hrd Hwr) as (E & E1 & E2).
    change (xfer (rd_type k) (rd_size k) (rd_length k) (wr_type k) (wr_size k) (wr_length k)) with (xfer_cfg k) in *.
    rewrite E, E1, E2, !joined_halves by done. done.
  - intros off Ho Hout. assert (forall x, 0x20 <= x < 0x80 -> (off =? chan_base c + x) = false) as Hne
      by (apply plain_cases; [lia|done|done]).
    rewrite Hall, Hirq, !Hne, andb_false_r by (done || lia). cbv zeta.
    rewrite Hmode by (done || (intros ->; apply Hout; unfold in_chan; lia)).
    by rewrite andb_comm.
Qed.

(** C24: Configuring a channel for a direct transfer: it fails exactly when an address is zero
    or not aligned to its bursts or the length is zero or not a multiple of both bursts;
    otherwise the channel is programmed with this transfer, source, destination, bursts and the
    length as far as 32 bits go, and counts as ready.  In both cases the registers of every other
    channel and the priorities are as before, of the clock and interrupt registers only the bit
    of the channel changes.  A channel that was ready still counts as ready when it fails. *)
Theorem FGdmaChanConfigure_direct g c k descs h :
  truth g.(gdma_ready) = true -> g.(config).(base_addr) = base -> 0 <= c < FGDMA_NUM_OF_CHAN soc ->
  k.(trans_mode) = FGDMA_OPER_DIRECT -> good_chan k ->
  let ok := negb (bad_addresses k.(src_addr) k.(dst_addr) k.(rd_size) k.(wr_size)) &&
            negb (bad_length k.(trans_length) k.(wr_size) k.(rd_size)) in
  exists h', FGdmaChanConfigure soc g c k descs h =
      Ok (if ok then FGDMA_SUCCESS else FGDMA_ERR_COMMON,
          if ok then set_flag g (Z.lor g.(chan_ready_flag) (BIT c)) else g, h') /\
    (ok = true -> direct h' c /\ programmed h' c = mkTransfer k.(src_addr) k.(dst_addr) (u32 k.(trans_length))
      (mkBurst k.(rd_type) k.(rd_size) k.(rd_length)) (mkBurst k.(wr_type) k.(wr_size) k.(wr_length))) /\
    (forall off, plain off -> ~ in_chan c off -> reg h' off =
      let v := shared_after c off (reg h off) in
      if ok && (off =? FGDMA_INTR_CTRL_OFFSET) && (k.(chan_wait_mode) =? FGDMA_WAIT_INTR)
      then set_bits (BIT c) v else v).
Proof.
  intros Hg Hb Hc Hm Hk ok. assert (c < 16) as Hc' by (destruct soc; simpl in Hc; lia).
  unfold FGdmaChanConfigure. rewrite Hg, (proj2 (Z.ltb_lt c _)) by lia.
  destruct (FGdmaChanAbort_outside g c h Hc Hc' Hb) as (ret & h1 & -> & Hout). cbn [rbind].
  rewrite Hb, Hm, Z.eqb_refl. set (h2 := FGdmaSetChanClock _ _ _ _).
  assert (forall off, plain off -> ~ in_chan c off -> reg h2 off = shared_after c off (reg h off)) as H2.
  { intros off Ho Hn. unfold h2. rewrite reset_outside by (done || lia). by rewrite Hout. }
  destruct ok eqn:Eok; unfold ok in Eok.
  - apply andb_true_iff in Eok as [Ea%negb_true_iff El%negb_true_iff].
    destruct (direct_configuration g c k h2 Hg Hb Hc Hc' Hk Ea El) as (h3 & -> & Hd & Hp & Hreg).
    exists h3. split; [done|]. split; [done|]. intros off Ho Hn. rewrite Hreg, H2 by done. done.
  - exists h2. assert (exists e, FGdmaChanDirectConfiguration soc g c k h2 = Ok (e, g, h2) /\ truth e = true) as (e & -> & He).
    { unfold FGdmaChanDirectConfiguration. rewrite Hg, (proj2 (Z.ltb_lt c _)) by lia.
      destruct (bad_addresses _ _ _ _); [by eexists|]. destruct (bad_length _ _ _); [by eexists|done]. }
    cbn [rbind]. rewrite He. split; [done|]. split; [done|]. intros off Ho Hn. by rewrite H2.
Qed.
End Channel.

(** ** Descriptors *)

(** As the manual of the controller reads a descriptor. *)
Definition transfer_of (d : FGdmaBdlDesc) : transfer :=
  mkTransfer (2 ^ 32 * d.(src_addr_h) + d.(src_addr_l)) (2 ^ 32 * d.(dst_addr_h) + d.(dst_addr_l)) d.(total_bytes)
    (mkBurst (GET_REG32_BITS d.(src_tc) 1 0) (GET_REG32_BITS d.(src_tc) 6 4) (GET_REG32_BITS d.(src_tc) 15 8))
    (mkBurst (GET_REG32_BITS d.(dst_tc) 1 0) (GET_REG32_BITS d.(dst_tc) 6 4) (GET_REG32_BITS d.(dst_tc) 15 8)).

Record good_desc (c : FGdmaBdlDescConfig) : Prop := {
  good_d_src : 0 <= c.(d_src_addr) < 2 ^ 64;
  good_d_dst : 0 <= c.(d_dst_addr) < 2 ^ 64;
  good_d_rd : good_burst c.(d_rd_type) c.(d_rd_size) c.(d_rd_length);
  good_d_wr : good_burst c.(d_wr_type) c.(d_wr_size) c.(d_wr_length)
}.

Definition tc (t s l : Z) : Z :=
  Z.lor (Z.lor (FGDMA_SRC_TC_BDL_BURST_SET t) (FGDMA_SRC_TC_BDL_SIZE_SET s)) (FGDMA_SRC_TC_BDL_LEN_SET l).
Lemma tc_all : forallb (fun t => forallb (fun s => forallb (fun l =>
    (GET_REG32_BITS (tc t s l) 1 0 =? t) && (GET_REG32_BITS (tc t s l) 6 4 =? s) &&
    (GET_REG32_BITS (tc t s l) 15 8 =? l)) (seqZ 0 8)) (seqZ 0 5)) (seqZ 0 2) = true.
Proof. vm_compute. reflexivity. Qed.

Lemma tc_fields t s l : good_burst t s l ->
  mkBurst (GET_REG32_BITS (tc t s l) 1 0) (GET_REG32_BITS (tc t s l) 6 4) (GET_REG32_BITS (tc t s l) 15 8) = mkBurst t s l.
Proof.
  intros [T S L]. pose proof tc_all as Ha. apply (forallb_seqZ _ 0 2 t) in Ha; [|lia].
  apply (forallb_seqZ _ 0 5 s) in Ha; [|lia]. apply (forallb_seqZ _ 0 8 l) in Ha; [|lia].
  rewrite !andb_true_iff, !Z.eqb_eq in Ha. by destruct Ha as [[-> ->] ->].
Qed.

(** C25: A descriptor reads back as the transfer it was set to: setting descriptor [n] of a list
    fails without effect exactly when an address is zero or not aligned to its bursts or the length
    is zero or not a multiple of both, and otherwise changes this descriptor only, which then holds
    the addresses, the bursts, whether to interrupt, and the length as far as 32 bits go. *)
Theorem FGdmaBDLSetDesc_roundtrip descs c : good_desc c ->
  0 <= c.(current_desc_num) < Z.of_nat (length descs) ->
  exists ret descs', FGdmaBDLSetDesc descs c = Ok (ret, descs') /\
    if bad_addresses c.(d_src_addr) c.(d_dst_addr) c.(d_rd_size) c.(d_wr_size)
    then ret = FGDMA_ERR_INVALID_ADDR /\ descs' = descs
    else if bad_length c.(d_trans_length) c.(d_rd_size) c.(d_wr_size)
    then ret = FGDMA_ERR_INVALID_SIZE /\ descs' = descs
    else ret = FGDMA_SUCCESS /\ length descs' = length descs /\
      (forall n, n <> Z.to_nat c.(current_desc_num) -> descs' !! n = descs !! n) /\
      exists d, descs' !! Z.to_nat c.(current_desc_num) = Some d /\
        d.(ioc) = (if c.(d_ioc) then 1 else 0) /\
        transfer_of d = mkTransfer c.(d_src_addr) c.(d_dst_addr) (u32 c.(d_trans_length))
          (mkBurst c.(d_rd_type) c.(d_rd_size) c.(d_rd_length))
          (mkBurst c.(d_wr_type) c.(d_wr_size) c.(d_wr_length)).
Proof.
  intros [Hs Hd Hrd Hwr] Hn. unfold FGdmaBDLSetDesc.
  destruct (bad_addresses _ _ _ _); [by eexists _, _|]. destruct (bad_length _ _ _); [by eexists _, _|].
  rewrite aset_in_range by done. cbn [rbind]. eexists _, _. split; [reflexivity|].
  split; [done|]. split; [by rewrite length_insert|]. split.
  - intros n Hne. by rewrite list_lookup_insert_ne.
  - eexists. split; [apply list_lookup_insert_eq; lia|]. split; [done|]. unfold transfer_of.
    cbn [src_addr_l src_addr_h dst_addr_l dst_addr_h src_tc dst_tc total_bytes].
    pose proof (tc_fields _ _ _ Hrd) as E1. pose proof (tc_fields _ _ _ Hwr) as E2. unfold tc in E1, E2.
    unfold FGDMA_DST_TC_BDL_BURST_SET, FGDMA_DST_TC_BDL_SIZE_SET, FGDMA_DST_TC_BDL_LEN_SET.
    rewrite E1. unfold FGDMA_SRC_TC_BDL_BURST_SET, FGDMA_SRC_TC_BDL_SIZE_SET, FGDMA_SRC_TC_BDL_LEN_SET in E2.
    rewrite E2. f_equal.
    + rewrite <-(joined_halves (d_src_addr c)) at 3 by done. unfold UPPER_32_BITS, LOWER_32_BITS. by rewrite !wrap_wrap.
    + rewrite <-(joined_halves (d_dst_addr c)) at 3 by done. unfold UPPER_32_BITS, LOWER_32_BITS. by rewrite !wrap_wrap.
Qed.

(** ** Stopping all channels

    Which channels are enabled: bit 0 of their control registers, which reads and the other
    registers that are written here leave alone. *)
Class GdmaRun {H : MmioHw} (base : Z) := {
  enabled : hw -> Z -> bool;
  run_read h off v h' c : FtIn32 h base off = (v, h') -> enabled h' c = enabled h c;
  run_enable h c v c' : 0 <= c < 16 -> 0 <= c' < 16 ->
    enabled (FtOut32 h base (FGDMA_CHX_CTL_OFFSET c) v) c' = if c' =? c then Z.testbit v 0 else enabled h c';
  run_global h v c : 0 <= c < 16 -> enabled (FtOut32 h base FGDMA_CTL_OFFSET v) c = enabled h c
}.

Section Stop.
Context {H : MmioHw} {base : Z} {GR : GdmaRun base} (soc : soc_target).

Lemma disable_enabled c c' h : 0 <= c < 16 -> 0 <= c' < 16 ->
  enabled (FGdmaChanDisable base c h) c' = if c' =? c then false else enabled h c'.
Proof.
  intros Hc Hc'. unfold FGdmaChanDisable, update. destruct (FtIn32 _ _ _) as [v h'] eqn:E.
  rewrite run_enable by done. destruct (c' =? c); [|by eapply run_read].
  unfold clear_bits, FGDMA_CHX_CTL_ENABLE. autorewrite with cbits. rewrite Z.eqb_refl. btauto.
Qed.

Lemma abort_enabled n c c' : 0 <= c < 16 -> 0 <= c' < 16 -> forall h,
  (c' = c -> enabled h c = false) -> enabled (abort_loop n base c h).2 c' = enabled h c'.
Proof.
  intros Hc Hc'. induction n as [|n IH]; intros h He; cbn [abort_loop]; unfold FGdmaReadChanStatus;
    destruct (FtIn32 h base _) as [v h1] eqn:E; pose proof (run_read _ _ _ _ c' E) as Er;
    pose proof (run_read _ _ _ _ c E) as Ec; destruct (negb _); cbn [snd]; try done.
  - rewrite disable_enabled by done. destruct (Z.eqb_spec c' c) as [->|]; [by rewrite He|done].
  - destruct n as [|n]; cbn [snd].
    + rewrite disable_enabled by done. destruct (Z.eqb_spec c' c) as [->|]; [by rewrite He|done].
    + rewrite IH, disable_enabled by (done || (intros _; rewrite disable_enabled, Z.eqb_refl by done; done)).
      destruct (Z.eqb_spec c' c) as [->|]; [by rewrite He|done].
Qed.

Lemma stop_chan_enabled c c' h : 0 <= c < 16 -> 0 <= c' < 16 ->
  enabled (stop_chan base c h).2 c' = if c' =? c then false else enabled h c'.
Proof.
  intros Hc Hc'. unfold stop_chan. rewrite abort_enabled by (done || (intros _; rewrite disable_enabled, Z.eqb_refl by done; done)).
  by apply disable_enabled.
Qed.

Lemma stop_loop_enabled g n : g.(config).(base_addr) = base -> forall c h c', 0 <= c -> c + Z.of_nat n <= 16 -> 0 <= c' < 16 ->
  let '(ret, h') := stop_loop n g c h in
  (c' < c \/ (exists k, c <= k <= c' /\ chan_ready g k = false) -> enabled h' c' = enabled h c') /\
  (ret = FGDMA_SUCCESS -> c <= c' < c + Z.of_nat n -> (forall k, c <= k <= c' -> chan_ready g k = true) ->
   enabled h' c' = false).
Proof.
  intros Hb. induction n as [|n IH]; intros c h c' Hc Hn Hc'; cbn [stop_loop]; [split; [done|lia]|].
  destruct (chan_ready g c) eqn:Er; cbn [negb].
  2: { split; [done|]. intros _ Hin Hall. rewrite Hall in Er by lia. done. }
  rewrite Hb. destruct (stop_chan base c h) as [ret h1] eqn:Es.
  pose proof (stop_chan_enabled c c' h ltac:(lia) Hc') as Ee. rewrite Es in Ee. cbn [snd] in Ee.
  assert (c' < c \/ (exists k, c <= k <= c' /\ chan_ready g k = false) -> c' <> c) as Hne.
  { intros [?|(k & Hk & Hf)]; [lia|]. intros ->. assert (k = c) as -> by lia. congruence. }
  destruct (truth ret) eqn:Et.
  - split; [|by intros ->]. intros Hg. rewrite Ee. by rewrite (proj2 (Z.eqb_neq _ _) (Hne Hg)).
  - specialize (IH (c + 1) h1 c' ltac:(lia) ltac:(lia) Hc'). destruct (stop_loop n g (c + 1) h1) as [r h2].
    destruct IH as [H1 H2]. split.
    + intros Hg. specialize (Hne Hg). rewrite H1, Ee, (proj2 (Z.eqb_neq _ _) Hne); [done|].
      destruct Hg as [?|(k & Hk & Hf)]; [left; lia|]. right. exists k. split; [|done].
      assert (k <> c) by congruence. lia.
    + intros Hr Hin Hall. destruct (Z.eq_dec c' c) as [->|Hd].
      * rewrite H1 by lia. by rewrite Ee, Z.eqb_refl.
      * apply H2; [done|lia|]. intros k Hk. apply Hall. lia.
Qed.

(** C26: Stopping the controller stops, when it succeeds, every channel up to the first one that
    is not ready, and no channel behind that one: channels in use behind a gap stay enabled, and the
    result does not tell. *)
Theorem FGdmaGlobalStop_gap g h c : g.(config).(base_addr) = base -> 0 <= c < FGDMA_NUM_OF_CHAN soc ->
  let '(ret, h') := FGdmaGlobalStop soc g h in
  ((exists k, 0 <= k <= c /\ chan_ready g k = false) -> enabled h' c = enabled h c) /\
  (ret = FGDMA_SUCCESS -> (forall k, 0 <= k <= c -> chan_ready g k = true) -> enabled h' c = false).
Proof.
  intros Hb Hc. assert (FGDMA_NUM_OF_CHAN soc <= 16) by (by destruct soc).
  pose proof (stop_loop_enabled g (Z.to_nat (FGDMA_NUM_OF_CHAN soc)) Hb 0 h c) as Hl.
  unfold FGdmaGlobalStop. destruct (stop_loop _ g 0 h) as [ret h1].
  destruct Hl as [H1 H2]; [lia|lia|lia|]. destruct (truth ret) eqn:Et.
  - split; [by intros Hg; apply H1; right|by intros ->].
  - assert (enabled (FGdmaDisable (base_addr (config g)) h1) c = enabled h1 c) as Ed.
    { rewrite Hb. unfold FGdmaDisable, update. destruct (FtIn32 _ _ _) as [v h2] eqn:E.
      rewrite run_global by lia. by eapply run_read. }
    rewrite Ed. split; [by intros Hg; apply H1; right|]. intros _ Hall. apply H2; [|lia|done].
    unfold truth in Et. apply negb_false_iff, Z.eqb_eq in Et. exact Et.
Qed.
End Stop.

(** ** A controller *)

(** Registers that hold what is written to them, at address 0; no channel is ever busy. *)
Definition sim : MmioHw := {|
  hw := Z -> Z;
  FtIn32 h base off := (u32 (h (base + off)), h);
  FtOut32 h base off v := fun a => if a =? base + off then v else h a
|}.
#[local] Existing Instance sim.

Lemma plain_not_ctl c off : 0 <= c < 16 -> plain off ->
  off <> FGDMA_CHX_CTL_OFFSET c /\ off <> FGDMA_CHX_INT_STATE_OFFSET c.
Proof.
  intros Hc Ho. offsets. unfold chan_base.
  assert (off < 0x20 \/ exists c' k, 0 <= c' < 16 /\ off = 0x60 * c' + k /\ 0x20 < k < 0x80 /\ k <> 0x2C) as Hcases.
  { destruct Ho as [Ho|(c' & k & Hc' & -> & Hk)]; [left; apply plain_global in Ho; lia|].
    right. exists c', k. unfold chan_base. split; [done|]. split; [done|].
    rewrite !elem_of_cons, elem_of_nil in Hk. intuition lia. }
  destruct Hcases as [?|(c' & k & Hc' & -> & Hk & Hne)]; [lia|].
  split; intros E; assert (c' = c) as -> by lia; lia.
Qed.

#[local] Instance sim_laws : GdmaLaws (H := sim) 0.
Proof.
  refine (@Build_GdmaLaws sim 0 (fun (h : Z -> Z) off => u32 (h off)) _ _ _ _ _).
  - intros h off. by apply wrap_range.
  - intros h off v h' E. injection E as <- <-. by rewrite ?Z.add_0_l.
  - intros h off v off' Ho Hv Ho'. cbn. rewrite ?Z.add_0_l. destruct (Z.eqb_spec off' off); [by apply wrap_small|done].
  - intros h c v off Hc Ho Hn. cbn. rewrite ?Z.add_0_l. by rewrite (proj2 (Z.eqb_neq _ _)) by (by apply plain_not_ctl).
  - intros h c v off Hc Ho. cbn. rewrite ?Z.add_0_l. by rewrite (proj2 (Z.eqb_neq _ _)) by (by apply plain_not_ctl).
Defined.

#[local] Instance sim_run : GdmaRun (H := sim) 0.
Proof.
  refine (@Build_GdmaRun sim 0 (fun (h : Z -> Z) c => Z.testbit (u32 (h (FGDMA_CHX_CTL_OFFSET c))) 0) _ _ _).
  - intros h off v h' c E. by injection E as <- <-.
  - intros h c v c' Hc Hc'. cbn [FtOut32 sim]. rewrite ?Z.add_0_l. offsets. unfold chan_base.
    destruct (Z.eqb_spec (0x60 * c' + 0x20) (0x60 * c + 0x20)), (Z.eqb_spec c' c); try lia; [|done].
    by rewrite wrap_testbit by lia.
  - intros h v c Hc. cbn. rewrite ?Z.add_0_l. offsets. by rewrite (proj2 (Z.eqb_neq _ _)) by (unfold chan_base, FGDMA_CTL_OFFSET; lia).
Defined.

(** An instance with channel 1 in use. *)
Definition example_config : FGdmaConfig := mkConfig 0 [] 0 1 0 (-1) (-1) FGDMA_WAIT_INTR.
Definition example_gdma : FGdma := mkGdma example_config FT_COMPONENT_IS_READY 2 [].
(** Channel 1 runs; old values are left in the registers. *)
Definition example_regs : Z -> Z := fun a => if a =? FGDMA_CHX_CTL_OFFSET 1 then 1 else a.
Definition example_chan : FGdmaChanConfig :=
  mkChan FGDMA_OPER_DIRECT FGDMA_WAIT_INTR (-1) 3 0x2080000010 0x90000000 0x4000 1 1 4 3 7 7 0 0 false.

Lemma FGdmaChanConfigure_direct_witness : exists h',
  FGdmaChanConfigure (H := sim) PE220X example_gdma 3 example_chan [] example_regs =
    Ok (FGDMA_SUCCESS, set_flag example_gdma 10, h') /\
  programmed (H := sim) (base := 0) h' 3 =
    mkTransfer 0x2080000010 0x90000000 0x4000 (mkBurst 1 4 7) (mkBurst 1 3 7) /\
  creg (H := sim) (base := 0) h' 1 0x48 = creg (H := sim) (base := 0) example_regs 1 0x48.
Proof.
  destruct (FGdmaChanConfigure_direct (H := sim) (base := 0) PE220X example_gdma 3 example_chan [] example_regs)
    as (h' & E & Hp & Hk).
  - reflexivity.
  - reflexivity.
  - vm_compute. intuition congruence.
  - reflexivity.
  - repeat split; vm_compute; congruence.
  - exists h'. split; [exact E|]. split; [apply Hp; reflexivity|]. unfold creg. rewrite Hk.
    + reflexivity.
    + right. exists 1, 0x48. split; [lia|]. split; [reflexivity|listed].
    + unfold in_chan, chan_base. lia.
Defined.

Lemma FGdmaBDLSetDesc_roundtrip_witness : exists d,
  FGdmaBDLSetDesc (replicate 4 (mkDesc 0 0 0 0 0 0 0 0)) (mkDescConfig 2 0x2080000010 0x90000000 0x800 1 1 4 4 7 7 true) =
    Ok (FGDMA_SUCCESS, [mkDesc 0 0 0 0 0 0 0 0; mkDesc 0 0 0 0 0 0 0 0; d; mkDesc 0 0 0 0 0 0 0 0]) /\
  transfer_of d = mkTransfer 0x2080000010 0x90000000 0x800 (mkBurst 1 4 7) (mkBurst 1 4 7).
Proof.
  destruct (FGdmaBDLSetDesc_roundtrip (replicate 4 (mkDesc 0 0 0 0 0 0 0 0))
    (mkDescConfig 2 0x2080000010 0x90000000 0x800 1 1 4 4 7 7 true)) as (ret & l & E & Hr).
  - repeat split; vm_compute; congruence.
  - vm_compute. intuition congruence.
  - cbv beta iota zeta delta [bad_addresses bad_length] in Hr.
    destruct Hr as (_ & _ & _ & d & Hd & _ & Ht). exists d. split; [|exact Ht].
    assert (Some d = Some (mkDesc 0x80000010 0x20 0x90000000 0 0x741 0x741 0x800 1)) as [= ->]; [|reflexivity].
    rewrite <-Hd. injection E as _ <-. reflexivity.
Defined.

Lemma FGdmaGlobalStop_gap_witness :
  chan_ready example_gdma 1 = true /\ enabled (H := sim) (base := 0) example_regs 1 = true /\
  (FGdmaGlobalStop (H := sim) PE220X example_gdma example_regs).1 = FGDMA_SUCCESS /\
  enabled (H := sim) (base := 0) (FGdmaGlobalStop (H := sim) PE220X example_gdma example_regs).2 1 = true.
Proof.
  split; [reflexivity|]. split; [reflexivity|].
  pose proof (FGdmaGlobalStop_gap (H := sim) (base := 0) PE220X example_gdma example_regs 1 eq_refl ltac:(simpl; lia)) as Hg.
  split; [reflexivity|]. destruct (FGdmaGlobalStop (H := sim) PE220X example_gdma example_regs) as [ret h'].
  destruct Hg as [Hg _]. cbn [snd]. rewrite Hg; [reflexivity|]. exists 0. split; [lia|reflexivity].
Defined.
