(* ===== verification/Pcie.v ===== *)
(** The PCI Express driver: src/standalone/drivers/pcie/fpcie_ecam/ (fpcie_ecam.c,
    fpcie_ecam_caps.c, fpcie_ecam_intx.c and their headers), as built for AArch64,
    where [CONFIG_SYS_PCI_64BIT] is defined.

    Configuration space is memory mapped ([MmioHw]): its registers are at offsets from
    the base of the ECAM window.  What the functions of the bus do with an access is up
    to the instance of the class.  The callback of the application that skips functions
    is a class of its own.  Printing is left out; the register reads it makes are not. *)
From S2P Require Import Prelude Mmio.

Module Pcie.

(** ** fpcie_ecam_common.h *)
Definition FPCIE_ECAM_BUS_SHIFT : Z := 20.
Definition FPCIE_ECAM_DEV_SHIFT : Z := 15.
Definition FPCIE_ECAM_FUN_SHIFT : Z := 12.
Definition FPCIE_ECAM_REG_SHIFT : Z := 2.

Definition FPCIE_CCR_ID_REG : Z := 0x0.
Definition FPCIE_CCR_CMD_STATUS_REGS : Z := 0x1.
Definition FPCIE_CCR_REV_CLASSID_REGS : Z := 0x2.
Definition FPCIE_CCR_CLS_LT_HT_REGS : Z := 0x3.
Definition FPCIE_CCR_BAR_ADDR0_REGS : Z := 0x4.
Definition FPCIE_CCR_BAR_ADDR5_REGS : Z := 0x9.
Definition FPCIE_CCR_TYPE0_EXPANSION_ROM_REGS : Z := 0xc.
Definition FPCIE_CCR_INTX_LAT_GNT_REGS : Z := 0xf.
Definition FPCIE_CCR_PB_SEC_SUB_SECL_REGS : Z := 0x6.
Definition FPCIE_CCR_IOB_IOL_SECS_REGS : Z := 0x7.
Definition FPCIE_CCR_MEMB_MEML_REGS : Z := 0x8.
Definition FPCIE_CCR_PMEMB_PMEML_REGS : Z := 0x9.
Definition FPCIE_CCR_PREBU32_REGS : Z := 0xa.
Definition FPCIE_CCR_PRELIMITU32_REGS : Z := 0xb.
Definition FPCIE_CCR_IOU16_IOL16_REGS : Z := 0xc.
Definition FPCIE_CCR_TYPE1_EXPANSION_ROM_REGS : Z := 0xe.
Definition FPCIE_CCR_CAPBILITIES_PONINTERS_REGS : Z := 0xd.

Definition FPCIE_CONF_BAR_IO (w : Z) : bool := Z.land w 0x1 =? 0x1.
Definition FPCIE_CONF_BAR_MEM (w : Z) : bool := negb (Z.land w 0x1 =? 0x1).
Definition FPCIE_CONF_BAR_64 (w : Z) : bool := Z.land w 0x6 =? 0x4.
Definition FPCIE_CONF_BAR_PREFETCH (w : Z) : bool := Z.land w 0x8 =? 0x8.
Definition FPCIE_CONF_BAR_INVAL_FLAGS (w : Z) : bool :=
  (Z.land w 0x6 =? 0x6) || (Z.land w 0x6 =? 0x2).
Definition FPCIE_CONF_BAR_ADDR (w : Z) : Z := Z.land w (lnotw 64 0xf).
Definition FPCIE_CONF_BAR_IO_ADDR (w : Z) : Z := Z.land w (lnotw 64 0x3).

Definition FPCIE_CCR_INVALID_DATA : Z := 0xffffffff.
Definition FPCIE_BAR_ADDR_MASK : Z := 0xffffffff.
Definition FPCIE_DEVICE_NOT_PRESENT : Z := 0xffff.

Definition FPCIE_CCR_VENDOR_ID_MASK (ccr_id : Z) : Z := u16 (Z.land ccr_id 0xffff).
Definition FPCIE_CCR_DEVICE_ID_MASK (ccr_id : Z) : Z := u16 (Z.land (Z.shiftr ccr_id 16) 0xffff).
Definition FPCIE_CCR_HEAD_TYPE_MASK (ccr_value : Z) : Z :=
  u8 (Z.land (Z.shiftr ccr_value 16) 0x7f).
Definition FPCIE_CCR_MULT_FUNTION_MASK (ccr_value : Z) : Z :=
  u8 (Z.land (Z.shiftr ccr_value 16) 0x80).
Definition FPCIE_CCR_HEAD_TYPE0 : Z := 0.
Definition FPCIE_CCR_HEAD_TYPE1 : Z := 1.
Definition FPCIE_CCR_HEAD_TYPE2 : Z := 2.
Definition FPCIE_CCR_CMD_IO_ACCESS_ENABLED : Z := Z.shiftl 1 0.
Definition FPCIE_CCR_CMD_MEMORY_ACCESS_ENABLED : Z := Z.shiftl 1 1.
Definition FPCIE_CCR_CMD_BUS_MASTER_ENABLED : Z := Z.shiftl 1 2.
Definition FPCIE_CCR_STATUS_INTERRUT : Z := Z.shiftl (Z.shiftl 1 3) 16.

Definition FPCIE_CCR_BAR_IO_MEM_TYPE_MASK : Z := lnotw 64 0x03.
Definition FPCIE_CCR_BAR_MEM_TYPE_MASK : Z := lnotw 64 0x0f.
Definition FPCIE_CCR_BAR_IO_REQ_MASK : Z := Z.shiftl 1 0.
Definition FPCIE_CCR_BAR_IO_SIZE (bar_data : Z) : Z :=
  u64 (Z.land (lnotw 64 (Z.land bar_data FPCIE_CCR_BAR_IO_MEM_TYPE_MASK)) 0xffff + 1).
Definition FPCIE_CCR_BAR_MEM_SIZE (bar_data : Z) : Z :=
  u64 (lnotw 64 (Z.land bar_data FPCIE_CCR_BAR_MEM_TYPE_MASK) + 1).
Definition FPCIE_CCR_BAR_MEM_64_MASK : Z := Z.shiftl 1 2.
Definition FPCIE_CCR_BAR_MEM_PREFETCH_MASK : Z := Z.shiftl 1 3.

Definition FPCIE_CCR_CACHELINE_MASK (data : Z) : Z := Z.land data 0xf.
Definition FPCIE_CCR_LATENCY_TIMER_MASK (data : Z) : Z := Z.land (Z.shiftl data 8) 0xf0.
Definition FPCIE_CCR_PRIMARY_NUM_MASK (data : Z) : Z := u32 (Z.land data 0xff).
Definition FPCIE_CCR_SECONDARY_NUM_MASK (data : Z) : Z :=
  Z.land (u32 (Z.shiftl (u32 data) 8)) 0xff00.
Definition FPCIE_CCR_SUB_NUM_MASK (data : Z) : Z :=
  Z.land (u32 (Z.shiftl (u32 data) 16)) 0xff0000.

(** The argument of the four macros for limits is a shift to the right, which the cast
    in front of it does not include. *)
Definition FPCIE_CCR_MEM_BASE_MASK (data : Z) : Z := u32 (Z.land data 0xffff).
Definition FPCIE_CCR_MEM_LIMIT_MASK (data shift : Z) : Z :=
  Z.land (u32 (Z.shiftl (Z.shiftr (u32 data) shift) 16)) 0xffff0000.
Definition FPCIE_CCR_PMEMB_64BIT_MASK : Z := 0x1.
Definition FPCIE_CCR_PMEM_BASE_MASK (data : Z) : Z := u32 (Z.land data 0xffff).
Definition FPCIE_CCR_PMEM_LIMIT_MASK (data shift : Z) : Z :=
  Z.land (u32 (Z.shiftl (Z.shiftr (u32 data) shift) 16)) 0xffff0000.
Definition FPCIE_CCR_IO_BASE_MASK (data : Z) : Z := u32 (Z.land data 0xff).
Definition FPCIE_CCR_IO_LIMIT_MASK (data : Z) : Z := u32 (Z.land (u64 (Z.shiftl data 8)) 0xff00).
Definition FPCIE_CCR_IOB_UP16_MASK (data : Z) : Z := u32 (Z.land data 0xffff).
Definition FPCIE_CCR_IOB_LIMIT16_MASK (data : Z) : Z :=
  u32 (Z.land (u64 (Z.shiftl data 16)) 0xffff0000).

Definition FPCIE_CCR_CLASS_CODE_MASK (ccr_value : Z) : Z :=
  u8 (Z.land (Z.shiftr ccr_value 24) 0xff).
Definition FPCIE_CCR_CAP_PONINTERS_MASK (cap_value : Z) : Z := u8 (Z.land cap_value 0xff).
Definition FPCIE_CCR_INTX_PIN_MASK (ccr_value : Z) : Z := u8 (Z.land (Z.shiftr ccr_value 8) 0xff).
Definition FPCIE_CCR_INTX_LINE_MASK (ccr_value : Z) : Z := u8 (Z.land ccr_value 0xff).
Definition FPCIE_CAP_ADDRESS_GET (cap_value : Z) : Z :=
  u16 (Z.land (Z.shiftr cap_value 2) 0xffff).
Definition FPCIE_CAP_ID_GET (cap_value : Z) : Z := u8 (Z.land cap_value 0xff).
Definition FPCIE_CAP_NEXT_POINTER_GET (cap_value : Z) : Z :=
  u32 (Z.land (Z.shiftr cap_value 8) 0xff).
Definition FPCI_EXT_REGS : Z := 0x40.
Definition FPCI_EXT_CAP_PONINTERS_MASK (cap_value : Z) : Z :=
  u32 (Z.shiftr (Z.land (Z.shiftr cap_value 20) 0xfff) 2).
Definition FPCIE_EXT_CAP_ID_GET (cap_value : Z) : Z := u16 (Z.land cap_value 0xffff).

(** ** fpcie_ecam.h *)
Definition ErrPcie : Z := 10.
Definition FPCIE_EXCEED_BUS : Z := FT_MAKE_ERRCODE ErrModBsp ErrPcie 1.
Definition FPCIE_READCONFIG_ERROR : Z := FT_MAKE_ERRCODE ErrModBsp ErrPcie 2.
Definition FPCIE_TYPE_NOT_FIT : Z := FT_MAKE_ERRCODE ErrModBsp ErrPcie 4.
Definition FPCIE_DEVICE_NOT_FOUND : Z := FT_MAKE_ERRCODE ErrModBsp ErrPcie 5.
Definition FPCIE_INTX_OVER_RANGE : Z := FT_MAKE_ERRCODE ErrModBsp ErrPcie 6.
Definition FPCIE_INVALID_OFFSET : Z := FT_MAKE_ERRCODE ErrModBsp ErrPcie 8.
Definition FPCIE_ACCESS_VIOLATION : Z := FT_MAKE_ERRCODE ErrModBsp ErrPcie 9.
Definition FPCIE_INVALID_ACCESS_SIZE : Z := FT_MAKE_ERRCODE ErrModBsp ErrPcie 10.
Definition FPCIE_INVALID_PARAM : Z := FT_MAKE_ERRCODE ErrModBsp ErrPcie 11.
Definition FPCIE_REGION_MEM : Z := 0x0.
Definition FPCIE_REGION_IO : Z := 0x1.
Definition PCI_REGION_PREFETCH : Z := 0x8.
Definition FPCIE_REGION_EXIST_FLG : Z := 1.
Definition PCI_SIZE_8 : Z := 1.
Definition PCI_SIZE_16 : Z := 2.
Definition PCI_SIZE_32 : Z := 4.
Definition MEM_TYPE_MEM : Z := 0.
Definition MEM_TYPE_IO : Z := 1.
Definition MEM_TYPE_PREFETCH : Z := 2.

(** fparameters.h, the same on every board. *)
Definition FPCIE_MAX_SCAN_NUMBER : Z := 128.

(** The members nothing reads are left out: [inta_num], [is_scaned], [last_bus], and the
    numbers of the other interrupt lines. *)
Record FPcieRegion := mkRegion {
  bus_start : Z;
  phys_start : Z;
  rsize : Z (* the member [size] *);
  rflags : Z (* the member [flags] *);
  bus_lower : Z;
  exist_flg : Z
}.
Record FPcieIntxFun := mkIntx {
  IntxCallBack : Z;
  iargs : Z (* the member [args] *);
  ibus : Z;
  idevice : Z;
  ifunction : Z
}.
Record FPcieEcamConfig := mkConfig {
  instance_id : Z;
  ecam : Z;
  io_base_addr : Z;
  io_size : Z;
  npmem_base_addr : Z;
  npmem_size : Z;
  pmem_base_addr : Z;
  pmem_size : Z;
  inta_irq_num : Z;
  max_bus_num : Z;
  max_dev_num : Z;
  max_fun_num : Z;
  control_intx_base : list Z;
  config_intx_base : list Z
}.
Record FPcieScanBdf := mkBdf { bus : Z; device : Z; function : Z }.
Record FPcieBarInfo := mkBarInfo { phys_addr : Z; size : Z; is_64bit : Z; mem_type : Z }.
Record FPcieEcam := mkEcam {
  is_ready : Z;
  config : FPcieEcamConfig;
  need_skip_fun : Z;
  mem : FPcieRegion;
  mem_prefetch : FPcieRegion;
  mem_io : FPcieRegion;
  bus_max : Z;
  inta_fun : list FPcieIntxFun;
  scans_bdf : list FPcieScanBdf;
  scans_bdf_count : Z
}.

(** fpcie_ecam_g.c and fpcie_ecam_sinit.c, with the numbers of the PE220x boards. *)
Definition FPcieEcamConfig0 : FPcieEcamConfig :=
  mkConfig 0 0x40000000 0x50000000 0x08000000 0x58000000 0x27ffffff 0x1000000000 0x1fffffffff
    36 256 32 8 [] [].
Definition FPcieEcamConfigTable : list FPcieEcamConfig := [FPcieEcamConfig0].
Definition FPcieEcamLookupConfig (id : Z) : option FPcieEcamConfig :=
  list_find (fun c => c.(instance_id) = id) FPcieEcamConfigTable ≫= fun x => Some x.2.

Definition set_lower (r : FPcieRegion) (x : Z) : FPcieRegion :=
  mkRegion r.(bus_start) r.(phys_start) r.(rsize) r.(rflags) x r.(exist_flg).
Definition set_mem (inst : FPcieEcam) (r : FPcieRegion) : FPcieEcam :=
  mkEcam inst.(is_ready) inst.(config) inst.(need_skip_fun)
    r inst.(mem_prefetch) inst.(mem_io) inst.(bus_max)
    inst.(inta_fun) inst.(scans_bdf) inst.(scans_bdf_count).
Definition set_prefetch (inst : FPcieEcam) (r : FPcieRegion) : FPcieEcam :=
  mkEcam inst.(is_ready) inst.(config) inst.(need_skip_fun)
    inst.(mem) r inst.(mem_io) inst.(bus_max)
    inst.(inta_fun) inst.(scans_bdf) inst.(scans_bdf_count).
Definition set_io (inst : FPcieEcam) (r : FPcieRegion) : FPcieEcam :=
  mkEcam inst.(is_ready) inst.(config) inst.(need_skip_fun)
    inst.(mem) inst.(mem_prefetch) r inst.(bus_max)
    inst.(inta_fun) inst.(scans_bdf) inst.(scans_bdf_count).
Definition set_bus_max (inst : FPcieEcam) (x : Z) : FPcieEcam :=
  mkEcam inst.(is_ready) inst.(config) inst.(need_skip_fun)
    inst.(mem) inst.(mem_prefetch) inst.(mem_io) x
    inst.(inta_fun) inst.(scans_bdf) inst.(scans_bdf_count).
Definition set_scans (inst : FPcieEcam) (l : list FPcieScanBdf) (n : Z) : FPcieEcam :=
  mkEcam inst.(is_ready) inst.(config) inst.(need_skip_fun)
    inst.(mem) inst.(mem_prefetch) inst.(mem_io) inst.(bus_max)
    inst.(inta_fun) l n.
Definition set_inta (inst : FPcieEcam) (l : list FPcieIntxFun) : FPcieEcam :=
  mkEcam inst.(is_ready) inst.(config) inst.(need_skip_fun)
    inst.(mem) inst.(mem_prefetch) inst.(mem_io) inst.(bus_max)
    l inst.(scans_bdf) inst.(scans_bdf_count).

(** ** Configuration space (fpcie_ecam.c)

    The parameters are the C values: the bus, the device and the function have 8 bits,
    the offset 16; a caller that has wider ones casts them. *)
Definition FPcieGetEcamConfigAddress (bus device function offset : Z) : Z :=
  let location := 0 in
  let location := Z.lor location (u32 (Z.shiftl bus FPCIE_ECAM_BUS_SHIFT)) in
  let location := Z.lor location (u32 (Z.shiftl device FPCIE_ECAM_DEV_SHIFT)) in
  let location := Z.lor location (u32 (Z.shiftl function FPCIE_ECAM_FUN_SHIFT)) in
  Z.lor location (u32 (Z.shiftl offset FPCIE_ECAM_REG_SHIFT)).

Definition FPcieGetEcamConfigAddressEx (bus device function offset : Z) : Z :=
  let location := 0 in
  let location := Z.lor location (u32 (Z.shiftl bus FPCIE_ECAM_BUS_SHIFT)) in
  let location := Z.lor location (u32 (Z.shiftl device FPCIE_ECAM_DEV_SHIFT)) in
  let location := Z.lor location (u32 (Z.shiftl function FPCIE_ECAM_FUN_SHIFT)) in
  Z.lor location offset.

Definition ready (inst : FPcieEcam) : bool := inst.(is_ready) =? FT_COMPONENT_IS_READY.

Section Access.
Context `{HW : MmioHw}.

(** The accesses return what a [u32] holds. *)
Definition FPCIE_READECAM_REG (h : hw) (base reg_offset : Z) : Z * hw :=
  let '(v, h) := FtIn32 h base reg_offset in (u32 v, h).
Definition FPCIE_WRITEECAM_REG (h : hw) (base reg_offset data : Z) : hw :=
  FtOut32 h base reg_offset (u32 data).

(** The error code and [*data]. *)
Definition FPcieEcamReadConfigSpace (inst : FPcieEcam) (h : hw) (bus device function offset : Z) :
    res (Z * Z * hw) :=
  check! ready inst in
  if inst.(config).(max_bus_num) <? bus then Ok (FPCIE_EXCEED_BUS, FPCIE_CCR_INVALID_DATA, h)
  else
    let ecam_location := FPcieGetEcamConfigAddress bus device function offset in
    let '(data, h) := FPCIE_READECAM_REG h inst.(config).(ecam) ecam_location in
    Ok (FT_SUCCESS, data, h).

Definition FPcieEcamWriteConfigSpace (inst : FPcieEcam) (h : hw)
    (bus device function offset data : Z) : res (Z * hw) :=
  check! ready inst in
  if inst.(config).(max_bus_num) <? bus then Ok (FPCIE_EXCEED_BUS, h)
  else
    let ecam_location := FPcieGetEcamConfigAddress bus device function offset in
    Ok (FT_SUCCESS, FPCIE_WRITEECAM_REG h inst.(config).(ecam) ecam_location data).

Section Narrow.
Context `{!MmioNarrow}.

(** Narrow reads replace the low bytes of [*data]. *)
Definition FPcieEcamReadConfigSpaceEx (inst : FPcieEcam) (h : hw)
    (bus device function offset data access_size : Z) : res (Z * Z * hw) :=
  check! ready inst in
  if inst.(config).(max_bus_num) <? bus then Ok (FPCIE_EXCEED_BUS, FPCIE_CCR_INVALID_DATA, h)
  else if 0xfff <? offset then Ok (FPCIE_INVALID_OFFSET, FPCIE_CCR_INVALID_DATA, h)
  else if ((2 <=? access_size) && truth (Z.land offset 0x1))
          || ((access_size =? 4) && truth (Z.land offset 0x3)) then
    Ok (FPCIE_INVALID_OFFSET, FPCIE_CCR_INVALID_DATA, h)
  else if 0x1000 <? u32 (offset + access_size) then
    Ok (FPCIE_ACCESS_VIOLATION, FPCIE_CCR_INVALID_DATA, h)
  else
    let ecam_location := FPcieGetEcamConfigAddressEx bus device function offset in
    if access_size =? PCI_SIZE_8 then
      let '(val, h) := FtIn8 h inst.(config).(ecam) ecam_location in
      Ok (FT_SUCCESS, Z.lor (Z.land data (lnotw 32 0xff)) (u8 val), h)
    else if access_size =? PCI_SIZE_16 then
      let '(val, h) := FtIn16 h inst.(config).(ecam) ecam_location in
      Ok (FT_SUCCESS, Z.lor (Z.land data (lnotw 32 0xffff)) (u16 val), h)
    else if access_size =? PCI_SIZE_32 then
      let '(data, h) := FPCIE_READECAM_REG h inst.(config).(ecam) ecam_location in
      Ok (FT_SUCCESS, data, h)
    else Ok (FPCIE_INVALID_ACCESS_SIZE, FPCIE_CCR_INVALID_DATA, h).

Definition FPcieEcamWriteConfigSpaceEx (inst : FPcieEcam) (h : hw)
    (bus device function offset data access_size : Z) : res (Z * hw) :=
  check! ready inst in
  if inst.(config).(max_bus_num) <? bus then Ok (FPCIE_EXCEED_BUS, h)
  else if 0xfff <? offset then Ok (FPCIE_INVALID_OFFSET, h)
  else if negb (access_size =? PCI_SIZE_8) && negb (access_size =? PCI_SIZE_16)
          && negb (access_size =? PCI_SIZE_32) then Ok (FPCIE_INVALID_ACCESS_SIZE, h)
  else if ((access_size =? PCI_SIZE_16) && truth (Z.land offset 0x1))
          || ((access_size =? PCI_SIZE_32) && truth (Z.land offset 0x3)) then
    Ok (FPCIE_INVALID_OFFSET, h)
  else if 0x1000 <? u32 (offset + access_size) then Ok (FPCIE_ACCESS_VIOLATION, h)
  else
    let ecam_location := FPcieGetEcamConfigAddressEx bus device function offset in
    if access_size =? PCI_SIZE_8 then
      Ok (FT_SUCCESS, FtOut8 h inst.(config).(ecam) ecam_location (u8 data))
    else if access_size =? PCI_SIZE_16 then
      Ok (FT_SUCCESS, FtOut16 h inst.(config).(ecam) ecam_location (u16 data))
    else if access_size =? PCI_SIZE_32 then
      Ok (FT_SUCCESS, FPCIE_WRITEECAM_REG h inst.(config).(ecam) ecam_location data)
    else Ok (FPCIE_INVALID_ACCESS_SIZE, h).

End Narrow.
End Access.

(** ** Regions (fpcie_ecam.c) *)

(** One turn of the loop of [FPcieRegionConfigInit] copies the first of [regs],
    whichever region it looks at. *)
Definition region_turn (first reg : FPcieRegion) (inst : FPcieEcam) : FPcieEcam :=
  let r :=
    mkRegion first.(bus_start) first.(phys_start) first.(rsize) first.(rflags)
      first.(phys_start) FPCIE_REGION_EXIST_FLG in
  if reg.(rflags) =? FPCIE_REGION_IO then set_io inst r
  else if reg.(rflags) =? FPCIE_REGION_MEM then set_mem inst r
  else if reg.(rflags) =? Z.lor PCI_REGION_PREFETCH FPCIE_REGION_MEM then set_prefetch inst r
  else inst.

Definition FPcieRegionConfigInit (inst : FPcieEcam) (regs : list FPcieRegion) : FPcieEcam :=
  match regs with
  | [] => inst
  | first :: _ => foldl (fun inst reg => region_turn first reg inst) inst regs
  end.

Definition align_up (lower size : Z) : Z := u64 (Z.lor (u64 (lower - 1)) (u64 (size - 1)) + 1).

Definition FPcieAutoRegionAlign (r : FPcieRegion) (size : Z) : FPcieRegion :=
  set_lower r (align_up r.(bus_lower) size).

(** The error code, [*bar_addr] and the region; the pointer to it may be null. *)
Definition FPcieRegionAllocate (r : option FPcieRegion) (size : Z) : Z * Z * option FPcieRegion :=
  match r with
  | None => (FPCIE_READCONFIG_ERROR, u64 (-1), None)
  | Some r =>
      let addr := align_up r.(bus_lower) size in
      if r.(rsize) <? u64 (addr - r.(bus_start) + size) then
        (FPCIE_READCONFIG_ERROR, u64 (-1), Some r)
      else (FT_SUCCESS, addr, Some (set_lower r (u64 (addr + size))))
  end.

(** The region a [bar_mem_region] points to. *)
Inductive region_ptr : Set := MemIo | MemPrefetch | Mem.

Definition get_region (inst : FPcieEcam) (p : region_ptr) : FPcieRegion :=
  match p with MemIo => inst.(mem_io) | MemPrefetch => inst.(mem_prefetch) | Mem => inst.(mem) end.
Definition set_region (inst : FPcieEcam) (p : region_ptr) (r : FPcieRegion) : FPcieEcam :=
  match p with
  | MemIo => set_io inst r
  | MemPrefetch => set_prefetch inst r
  | Mem => set_mem inst r
  end.

(** A call with a pointer into the instance. *)
Definition allocate (inst : FPcieEcam) (p : region_ptr) (size : Z) : Z * Z * FPcieEcam :=
  let '(ret, bar_addr, r) := FPcieRegionAllocate (Some (get_region inst p)) size in
  (ret, bar_addr, set_region inst p (default (get_region inst p) r)).

Definition exists_region (r : FPcieRegion) : bool :=
  truth (Z.land r.(exist_flg) FPCIE_REGION_EXIST_FLG).

Definition no_region : FPcieRegion := mkRegion 0 0 0 0 0 0.

Definition FPcieEcamCfgInitialize (config_p : FPcieEcamConfig) (need_skip : Z) :
    Z * FPcieEcam :=
  let mem_region :=
    mkRegion config_p.(npmem_base_addr) config_p.(npmem_base_addr) config_p.(npmem_size)
      FPCIE_REGION_MEM 0 0 in
  let io_region :=
    mkRegion config_p.(io_base_addr) config_p.(io_base_addr) config_p.(io_size)
      FPCIE_REGION_IO 0 0 in
  let inst :=
    mkEcam 0 config_p need_skip no_region no_region no_region 0
      (replicate (Z.to_nat FPCIE_MAX_SCAN_NUMBER) (mkIntx 0 0 0 0 0))
      (replicate (Z.to_nat FPCIE_MAX_SCAN_NUMBER) (mkBdf 0 0 0)) 0 in
  let inst := FPcieRegionConfigInit inst [mem_region] in
  let prefetch_region :=
    mkRegion config_p.(pmem_base_addr) config_p.(pmem_base_addr) config_p.(pmem_size)
      (Z.lor PCI_REGION_PREFETCH FPCIE_REGION_MEM) 0 0 in
  let inst := FPcieRegionConfigInit inst [prefetch_region] in
  let inst := FPcieRegionConfigInit inst [io_region] in
  (FT_SUCCESS,
   mkEcam FT_COMPONENT_IS_READY inst.(config) inst.(need_skip_fun) inst.(mem) inst.(mem_prefetch)
     inst.(mem_io) inst.(bus_max) inst.(inta_fun) inst.(scans_bdf) inst.(scans_bdf_count)).

Definition FPcieBdfInsert (inst : FPcieEcam) (bus device function : Z) : res FPcieEcam :=
  check! ready inst in
  let n :=
    if FPCIE_MAX_SCAN_NUMBER <=? inst.(scans_bdf_count) then FPCIE_MAX_SCAN_NUMBER - 1
    else inst.(scans_bdf_count) in
  let! l := aset inst.(scans_bdf) n (mkBdf bus device function) in
  Ok (set_scans inst l (u32 (n + 1))).

(** ** Base address registers *)
Section Bars.
Context `{HW : MmioHw}.

(** [mask_cmd]: the bits of a command word that enable accesses cleared. *)
Definition mask_cmd (cmdstat : Z) : Z :=
  Z.land cmdstat
    (lnotw 32 (Z.lor FPCIE_CCR_CMD_IO_ACCESS_ENABLED FPCIE_CCR_CMD_MEMORY_ACCESS_ENABLED)).

Definition is_io (bar_reg : Z) : bool := truth (Z.land bar_reg FPCIE_CCR_BAR_IO_REQ_MASK).
Definition is_mem64 (bar_reg : Z) : bool := truth (Z.land bar_reg FPCIE_CCR_BAR_MEM_64_MASK).
Definition is_prefetch (bar_reg : Z) : bool :=
  truth (Z.land bar_reg FPCIE_CCR_BAR_MEM_PREFETCH_MASK).

(** The region a memory BAR is allocated from. *)
Definition mem_region_of (inst : FPcieEcam) (bar_reg : Z) : region_ptr :=
  if exists_region inst.(mem_prefetch) && (is_prefetch bar_reg || is_mem64 bar_reg)
  then MemPrefetch else Mem.

(** The size of a memory BAR whose register reads [bar_reg] after it was written with
    ones; the register after it tells the upper half of a 64-bit one.  Returns the
    error code, the size and [mem64_flg]. *)
Definition mem_bar_size (inst : FPcieEcam) (h : hw) (bus device function bar_num bar_reg : Z) :
    res (Z * Z * bool * hw) :=
  if is_mem64 bar_reg then
    let bar_addr64 := FPCIE_CCR_BAR_ADDR0_REGS + bar_num + 1 in
    let! (_, h) :=
      FPcieEcamWriteConfigSpace inst h bus device function bar_addr64 FPCIE_BAR_ADDR_MASK in
    let! (ret, bar_reg_upper32, h) :=
      FPcieEcamReadConfigSpace inst h bus device function bar_addr64 in
    if negb (ret =? FT_SUCCESS) then Ok (FPCIE_READCONFIG_ERROR, 0, false, h)
    else
      let bar_reg_64 := Z.lor (Z.shiftl bar_reg_upper32 32) bar_reg in
      Ok (FT_SUCCESS, FPCIE_CCR_BAR_MEM_SIZE bar_reg_64, true, h)
  else Ok (FT_SUCCESS, u32 (FPCIE_CCR_BAR_MEM_SIZE bar_reg), false, h).

(** The allocation of one BAR of a known size; [bar_num] moves over the upper half of a
    64-bit one. *)
Definition assign_bar (inst : FPcieEcam) (h : hw) (bus device function bar_num : Z)
    (p : region_ptr) (bar_size : Z) (mem64_flg : bool) : res (Z * FPcieEcam * hw) :=
  let '(ret, bar_addr, inst) := allocate inst p bar_size in
  if ret =? FT_SUCCESS then
    let! (_, h) :=
      FPcieEcamWriteConfigSpace inst h bus device function (FPCIE_CCR_BAR_ADDR0_REGS + bar_num)
        (u32 bar_addr) in
    if mem64_flg then
      let! (_, h) :=
        FPcieEcamWriteConfigSpace inst h bus device function
          (FPCIE_CCR_BAR_ADDR0_REGS + bar_num + 1) (u32 (Z.shiftr bar_addr 32)) in
      Ok (u32 (bar_num + 1), inst, h)
    else Ok (bar_num, inst, h)
  else Ok (bar_num, inst, h).

(** One turn of the loop over the BARs: the error code, [cmdstat], [bar_num]. *)
Definition bar_turn (inst : FPcieEcam) (h : hw) (bus device function cmdstat bar_num : Z) :
    res (Z * Z * Z * FPcieEcam * hw) :=
  let! (_, h) :=
    FPcieEcamWriteConfigSpace inst h bus device function (FPCIE_CCR_BAR_ADDR0_REGS + bar_num)
      FPCIE_BAR_ADDR_MASK in
  let! (ret, bar_reg, h) :=
    FPcieEcamReadConfigSpace inst h bus device function (FPCIE_CCR_BAR_ADDR0_REGS + bar_num) in
  if negb (ret =? FT_SUCCESS) then Ok (FPCIE_READCONFIG_ERROR, cmdstat, bar_num, inst, h)
  else if bar_reg =? 0 then Ok (FT_SUCCESS, cmdstat, bar_num, inst, h)
  else if is_io bar_reg then
    let! (bar_num, inst, h) :=
      assign_bar inst h bus device function bar_num MemIo (FPCIE_CCR_BAR_IO_SIZE bar_reg) false in
    Ok (FT_SUCCESS, Z.lor cmdstat FPCIE_CCR_CMD_IO_ACCESS_ENABLED, bar_num, inst, h)
  else
    let! (ret, bar_size, mem64_flg, h) :=
      mem_bar_size inst h bus device function bar_num bar_reg in
    if negb (ret =? FT_SUCCESS) then Ok (FPCIE_READCONFIG_ERROR, cmdstat, bar_num, inst, h)
    else
      let! (bar_num, inst, h) :=
        assign_bar inst h bus device function bar_num (mem_region_of inst bar_reg) bar_size
          mem64_flg in
      Ok (FT_SUCCESS, Z.lor cmdstat FPCIE_CCR_CMD_MEMORY_ACCESS_ENABLED, bar_num, inst, h).

(** The loop, which [n] turns are enough for. *)
Fixpoint bar_loop (n : nat) (inst : FPcieEcam) (h : hw)
    (bus device function cmdstat max_bar bar_num : Z) : res (Z * Z * FPcieEcam * hw) :=
  if max_bar <=? bar_num then Ok (FT_SUCCESS, cmdstat, inst, h)
  else match n with
  | O => Fault OutOfFuel
  | S n =>
      let! (ret, cmdstat, bar_num, inst, h) :=
        bar_turn inst h bus device function cmdstat bar_num in
      if negb (ret =? FT_SUCCESS) then Ok (ret, cmdstat, inst, h)
      else bar_loop n inst h bus device function cmdstat max_bar (u32 (bar_num + 1))
  end.

(** The expansion ROM. *)
Definition alloc_rom (inst : FPcieEcam) (h : hw) (header_type bus device function cmdstat : Z) :
    res (Z * Z * FPcieEcam * hw) :=
  if header_type =? FPCIE_CCR_HEAD_TYPE2 then Ok (FT_SUCCESS, cmdstat, inst, h)
  else
    let rom_addr :=
      if header_type =? FPCIE_CCR_HEAD_TYPE0 then FPCIE_CCR_TYPE0_EXPANSION_ROM_REGS
      else FPCIE_CCR_TYPE1_EXPANSION_ROM_REGS in
    let! (_, h) := FPcieEcamWriteConfigSpace inst h bus device function rom_addr 0xfffffffe in
    let! (ret, bar_reg, h) := FPcieEcamReadConfigSpace inst h bus device function rom_addr in
    if negb (ret =? FT_SUCCESS) then Ok (FPCIE_READCONFIG_ERROR, cmdstat, inst, h)
    else if truth bar_reg then
      let bar_size := u32 (- Z.land bar_reg (lnotw 32 1)) in
      let '(ret, bar_addr, inst) := allocate inst Mem bar_size in
      let! h :=
        if ret =? FT_SUCCESS then
          let! (_, h) :=
            FPcieEcamWriteConfigSpace inst h bus device function rom_addr (u32 bar_addr) in Ok h
        else Ok h in
      Ok (FT_SUCCESS, Z.lor cmdstat FPCIE_CCR_CMD_MEMORY_ACCESS_ENABLED, inst, h)
    else Ok (FT_SUCCESS, cmdstat, inst, h).

Definition FPcieAllocBarSpace (inst : FPcieEcam) (h : hw) (header_type bus device function : Z) :
    res (Z * FPcieEcam * hw) :=
  let! (ret, cmdstat, h) :=
    FPcieEcamReadConfigSpace inst h bus device function FPCIE_CCR_CMD_STATUS_REGS in
  if negb (ret =? FT_SUCCESS) then Ok (FPCIE_READCONFIG_ERROR, inst, h)
  else
    let max_bar := if header_type =? FPCIE_CCR_HEAD_TYPE0 then 6 else 2 in
    let! (ret, cmdstat, inst, h) :=
      bar_loop (Z.to_nat max_bar) inst h bus device function (mask_cmd cmdstat) max_bar 0 in
    if negb (ret =? FT_SUCCESS) then Ok (ret, inst, h)
    else
      let! (ret, cmdstat, inst, h) := alloc_rom inst h header_type bus device function cmdstat in
      if negb (ret =? FT_SUCCESS) then Ok (ret, inst, h)
      else
        let! (_, h) :=
          FPcieEcamWriteConfigSpace inst h bus device function FPCIE_CCR_CMD_STATUS_REGS cmdstat in
        let! (ret, cmdstat, h) :=
          FPcieEcamReadConfigSpace inst h bus device function FPCIE_CCR_CLS_LT_HT_REGS in
        if negb (ret =? FT_SUCCESS) then Ok (FPCIE_READCONFIG_ERROR, inst, h)
        else
          let cmdstat :=
            Z.land cmdstat
              (lnotw 32
                 (Z.lor (FPCIE_CCR_CACHELINE_MASK 0xf) (FPCIE_CCR_LATENCY_TIMER_MASK 0xf))) in
          let! (_, h) :=
            FPcieEcamWriteConfigSpace inst h bus device function FPCIE_CCR_CLS_LT_HT_REGS
              (Z.lor (Z.lor (FPCIE_CCR_CACHELINE_MASK 8) (FPCIE_CCR_LATENCY_TIMER_MASK 0x8))
                 cmdstat) in
          Ok (FT_SUCCESS, inst, h).
End Bars.

(** ** Bridges (fpcie_ecam.c) *)
Section Bridges.
Context `{HW : MmioHw}.

(** Most of the two functions are updates of a register, after which they go on, or
    return when the register cannot be read. *)
Definition update_reg (inst : FPcieEcam) (h : hw) (bus device function reg clear set : Z)
    {A} (failed : hw -> res A) (next : hw -> res A) : res A :=
  let! (ret, bar_reg, h) := FPcieEcamReadConfigSpace inst h bus device function reg in
  if negb (ret =? FT_SUCCESS) then failed h
  else
    let! (_, h) :=
      FPcieEcamWriteConfigSpace inst h bus device function reg
        (Z.lor (Z.land bar_reg (lnotw 32 clear)) set) in
    next h.

(** [FPciePreScanSetupBridge], a part for each of the three windows. *)
Definition prescan_io (inst : FPcieEcam) (h : hw) (bus device function cmdstat : Z) :
    res (FPcieEcam * hw) :=
  let enable inst h cmdstat :=
    let! (_, h) :=
      FPcieEcamWriteConfigSpace inst h bus device function FPCIE_CCR_CMD_STATUS_REGS
        (Z.lor cmdstat FPCIE_CCR_CMD_BUS_MASTER_ENABLED) in
    Ok (inst, h) in
  if exists_region inst.(mem_io) then
    let inst := set_io inst (FPcieAutoRegionAlign inst.(mem_io) 0x1000) in
    let lower := inst.(mem_io).(bus_lower) in
    update_reg inst h bus device function FPCIE_CCR_IOB_IOL_SECS_REGS
      (FPCIE_CCR_IO_BASE_MASK 0xff)
      (FPCIE_CCR_IO_BASE_MASK (Z.shiftr (Z.land lower 0xf000) 8))
      (fun h => Ok (inst, h)) (fun h =>
    update_reg inst h bus device function FPCIE_CCR_IOU16_IOL16_REGS
      (FPCIE_CCR_IOB_UP16_MASK 0xffff)
      (FPCIE_CCR_IOB_UP16_MASK (Z.shiftr (Z.land lower 0xffff0000) 16))
      (fun h => Ok (inst, h)) (fun h =>
    enable inst h (Z.lor cmdstat FPCIE_CCR_CMD_IO_ACCESS_ENABLED)))
  else enable inst h cmdstat.

Definition prescan_prefetch (inst : FPcieEcam) (h : hw)
    (bus device function cmdstat prefechable_64 : Z) : res (FPcieEcam * hw) :=
  if exists_region inst.(mem_prefetch) then
    let inst := set_prefetch inst (FPcieAutoRegionAlign inst.(mem_prefetch) 0x100000) in
    let lower := inst.(mem_prefetch).(bus_lower) in
    update_reg inst h bus device function FPCIE_CCR_PMEMB_PMEML_REGS
      (FPCIE_CCR_PMEM_BASE_MASK 0xffff)
      (FPCIE_CCR_PMEM_BASE_MASK (Z.shiftr (Z.land lower 0xfff00000) 16))
      (fun h => Ok (inst, h)) (fun h =>
    let! h :=
      if truth prefechable_64 then
        let! (_, h) :=
          FPcieEcamWriteConfigSpace inst h bus device function FPCIE_CCR_PREBU32_REGS
            (u32 (Z.shiftr lower 32)) in
        Ok h
      else Ok h in
    prescan_io inst h bus device function (Z.lor cmdstat FPCIE_CCR_CMD_MEMORY_ACCESS_ENABLED))
  else
    let! (_, h) :=
      FPcieEcamWriteConfigSpace inst h bus device function FPCIE_CCR_PMEMB_PMEML_REGS
        (Z.lor (FPCIE_CCR_MEM_LIMIT_MASK 0 0) (FPCIE_CCR_MEM_BASE_MASK 0x1000)) in
    let! h :=
      if truth prefechable_64 then
        let! (_, h) :=
          FPcieEcamWriteConfigSpace inst h bus device function FPCIE_CCR_PREBU32_REGS 0 in
        let! (_, h) :=
          FPcieEcamWriteConfigSpace inst h bus device function FPCIE_CCR_PRELIMITU32_REGS 0 in
        Ok h
      else Ok h in
    prescan_io inst h bus device function cmdstat.

Definition prescan_mem (inst : FPcieEcam) (h : hw)
    (bus device function cmdstat prefechable_64 : Z) : res (FPcieEcam * hw) :=
  if exists_region inst.(mem) then
    let inst := set_mem inst (FPcieAutoRegionAlign inst.(mem) 0x100000) in
    update_reg inst h bus device function FPCIE_CCR_MEMB_MEML_REGS
      (FPCIE_CCR_MEM_BASE_MASK 0xffff)
      (FPCIE_CCR_MEM_BASE_MASK (Z.shiftr (Z.land inst.(mem).(bus_lower) 0xfff00000) 16))
      (fun h => Ok (inst, h)) (fun h =>
    prescan_prefetch inst h bus device function
      (Z.lor cmdstat FPCIE_CCR_CMD_MEMORY_ACCESS_ENABLED) prefechable_64)
  else prescan_prefetch inst h bus device function cmdstat prefechable_64.

Definition FPciePreScanSetupBridge (inst : FPcieEcam) (h : hw)
    (secondary_bus bus device function : Z) : res (FPcieEcam * hw) :=
  let! (ret, cmdstat, h) :=
    FPcieEcamReadConfigSpace inst h bus device function FPCIE_CCR_CMD_STATUS_REGS in
  if negb (ret =? FT_SUCCESS) then Ok (inst, h) else
  let! (ret, prefechable_64, h) :=
    FPcieEcamReadConfigSpace inst h bus device function FPCIE_CCR_PMEMB_PMEML_REGS in
  if negb (ret =? FT_SUCCESS) then Ok (inst, h) else
  let! (_, h) :=
    FPcieEcamWriteConfigSpace inst h bus device function FPCIE_CCR_PB_SEC_SUB_SECL_REGS
      (Z.lor (Z.lor (FPCIE_CCR_PRIMARY_NUM_MASK bus)
                (FPCIE_CCR_SECONDARY_NUM_MASK secondary_bus))
         (FPCIE_CCR_SUB_NUM_MASK 0xff)) in
  prescan_mem inst h bus device function cmdstat
    (Z.land prefechable_64 FPCIE_CCR_PMEMB_64BIT_MASK).

(** [FPciePostscanSetupBridge]. *)
Definition postscan_io (inst : FPcieEcam) (h : hw) (bus device function : Z) :
    res (FPcieEcam * hw) :=
  if exists_region inst.(mem_io) then
    let inst := set_io inst (FPcieAutoRegionAlign inst.(mem_io) 0x1000) in
    let last := u64 (inst.(mem_io).(bus_lower) - 1) in
    update_reg inst h bus device function FPCIE_CCR_IOB_IOL_SECS_REGS
      (FPCIE_CCR_IO_LIMIT_MASK 0xff)
      (FPCIE_CCR_IO_LIMIT_MASK (Z.shiftr (Z.land last 0xf000) 8))
      (fun h => Ok (inst, h)) (fun h =>
    update_reg inst h bus device function FPCIE_CCR_IOU16_IOL16_REGS
      (FPCIE_CCR_IOB_LIMIT16_MASK 0xffff)
      (FPCIE_CCR_IOB_LIMIT16_MASK (Z.shiftr (Z.land last 0xffff0000) 16))
      (fun h => Ok (inst, h)) (fun h => Ok (inst, h)))
  else Ok (inst, h).

Definition postscan_prefetch (inst : FPcieEcam) (h : hw)
    (bus device function prefechable_64 : Z) : res (FPcieEcam * hw) :=
  if exists_region inst.(mem_prefetch) then
    let inst := set_prefetch inst (FPcieAutoRegionAlign inst.(mem_prefetch) 0x100000) in
    let last := u64 (inst.(mem_prefetch).(bus_lower) - 1) in
    update_reg inst h bus device function FPCIE_CCR_PMEMB_PMEML_REGS
      (FPCIE_CCR_PMEM_LIMIT_MASK 0xffff 0) (FPCIE_CCR_PMEM_LIMIT_MASK last 16)
      (fun h => Ok (inst, h)) (fun h =>
    let! (_, h) :=
      FPcieEcamWriteConfigSpace inst h bus device function FPCIE_CCR_PRELIMITU32_REGS
        (if truth prefechable_64 then u32 (Z.shiftr last 32) else 0) in
    postscan_io inst h bus device function)
  else postscan_io inst h bus device function.

Definition postscan_mem (inst : FPcieEcam) (h : hw)
    (bus device function prefechable_64 : Z) : res (FPcieEcam * hw) :=
  if exists_region inst.(mem) then
    let inst := set_mem inst (FPcieAutoRegionAlign inst.(mem) 0x100000) in
    let last := u64 (inst.(mem).(bus_lower) - 1) in
    update_reg inst h bus device function FPCIE_CCR_MEMB_MEML_REGS
      (FPCIE_CCR_MEM_LIMIT_MASK 0xffff 0) (FPCIE_CCR_MEM_LIMIT_MASK last 16)
      (fun h => Ok (inst, h)) (fun h =>
    postscan_prefetch inst h bus device function prefechable_64)
  else postscan_prefetch inst h bus device function prefechable_64.

Definition FPciePostscanSetupBridge (inst : FPcieEcam) (h : hw) (sub_bus bus device function : Z) :
    res (FPcieEcam * hw) :=
  update_reg inst h bus device function FPCIE_CCR_PB_SEC_SUB_SECL_REGS
    (FPCIE_CCR_SUB_NUM_MASK 0xff) (FPCIE_CCR_SUB_NUM_MASK sub_bus)
    (fun h => Ok (inst, h)) (fun h =>
  let! (ret, prefechable_64, h) :=
    FPcieEcamReadConfigSpace inst h bus device function FPCIE_CCR_PMEMB_PMEML_REGS in
  if negb (ret =? FT_SUCCESS) then Ok (inst, h)
  else postscan_mem inst h bus device function
         (Z.land prefechable_64 FPCIE_CCR_PMEMB_64BIT_MASK)).
End Bridges.

(** ** Enumeration (fpcie_ecam.c)

    Without [FPCIE_NEED_SKIP_TYPE0], the filter of the PD1904. *)
Class PcieClient `{HW : MmioHw} := {
  (** A call of the callback at the address [fp] for a function of the bus. *)
  call_need_skip : Z -> hw -> Z -> Z -> Z -> Z * hw
}.

Section Enumerate.
Context `{HW : MmioHw} {CL : PcieClient}.

(** How a turn of the loop over the functions ends. *)
Inductive turn : Set := Continue | Break | Return (ret : Z).

Section Loops.
Context (probe : FPcieEcam -> hw -> Z -> Z -> Z -> res (Z * FPcieEcam * hw)).

(** What the header type of a function that is present asks for. *)
Definition visit (inst : FPcieEcam) (h : hw) (head_type bus device function : Z) :
    res (FPcieEcam * hw) :=
  if head_type =? FPCIE_CCR_HEAD_TYPE0 then
    let! inst := FPcieBdfInsert inst bus device function in
    let! (_, inst, h) := FPcieAllocBarSpace inst h FPCIE_CCR_HEAD_TYPE0 bus device function in
    Ok (inst, h)
  else if head_type =? FPCIE_CCR_HEAD_TYPE1 then
    let! inst := FPcieBdfInsert inst bus device function in
    let! (_, inst, h) := FPcieAllocBarSpace inst h FPCIE_CCR_HEAD_TYPE1 bus device function in
    let! (_, inst, h) := probe inst h bus device function in
    Ok (inst, h)
  else
    let! inst := FPcieBdfInsert inst bus device function in
    let! (_, inst, h) := FPcieAllocBarSpace inst h FPCIE_CCR_HEAD_TYPE0 bus device function in
    Ok (inst, h).

Definition skipped (inst : FPcieEcam) (h : hw) (bus device function : Z) : bool * hw :=
  if truth inst.(need_skip_fun) then
    let '(b, h) := call_need_skip inst.(need_skip_fun) h bus device function in (truth b, h)
  else (false, h).

Definition function_turn (inst : FPcieEcam) (h : hw) (bus pcie_dev_num pcie_func_num : Z) :
    res (turn * FPcieEcam * hw) :=
  let device := u8 pcie_dev_num in
  let function := u8 pcie_func_num in
  let '(skip, h) := skipped inst h bus device function in
  if skip : bool then Ok (Continue, inst, h)
  else
    let! (ret, config_data, h) :=
      FPcieEcamReadConfigSpace inst h bus device function FPCIE_CCR_ID_REG in
    if truth ret then Ok (Return FPCIE_READCONFIG_ERROR, inst, h)
    else if FPCIE_CCR_DEVICE_ID_MASK config_data =? FPCIE_DEVICE_NOT_PRESENT then
      Ok (Continue, inst, h)
    else
      let! (ret, config_data, h) :=
        FPcieEcamReadConfigSpace inst h bus device function FPCIE_CCR_CLS_LT_HT_REGS in
      if truth ret then Ok (Return FPCIE_READCONFIG_ERROR, inst, h)
      else
        let head_type := FPCIE_CCR_HEAD_TYPE_MASK config_data in
        let mult_func := FPCIE_CCR_MULT_FUNTION_MASK config_data in
        let! (inst, h) := visit inst h head_type bus device function in
        if (mult_func =? 0) && (pcie_func_num =? 0) then Ok (Break, inst, h)
        else Ok (Continue, inst, h).

(** The loops, which [n] turns are enough for. *)
Fixpoint function_loop (n : nat) (inst : FPcieEcam) (h : hw)
    (bus pcie_dev_num pcie_func_num : Z) : res (option Z * FPcieEcam * hw) :=
  if negb (pcie_func_num <? inst.(config).(max_fun_num)) then Ok (None, inst, h)
  else match n with
  | O => Fault OutOfFuel
  | S n =>
      let! (t, inst, h) := function_turn inst h bus pcie_dev_num pcie_func_num in
      match t with
      | Continue => function_loop n inst h bus pcie_dev_num (u32 (pcie_func_num + 1))
      | Break => Ok (None, inst, h)
      | Return ret => Ok (Some ret, inst, h)
      end
  end.

Fixpoint device_loop (n : nat) (inst : FPcieEcam) (h : hw) (bus pcie_dev_num : Z) :
    res (Z * FPcieEcam * hw) :=
  if negb (pcie_dev_num <? inst.(config).(max_dev_num)) then Ok (FT_SUCCESS, inst, h)
  else match n with
  | O => Fault OutOfFuel
  | S n =>
      let! (t, inst, h) :=
        function_loop (Z.to_nat inst.(config).(max_fun_num)) inst h bus pcie_dev_num 0 in
      match t with
      | Some ret => Ok (ret, inst, h)
      | None => device_loop n inst h bus (u32 (pcie_dev_num + 1))
      end
  end.
End Loops.

(** [enum] is the enumeration of the bus behind the bridge. *)
Definition FPcieBridgeProbeBus (enum : FPcieEcam -> hw -> Z -> res (Z * FPcieEcam * hw))
    (inst : FPcieEcam) (h : hw) (bus device function : Z) : res (Z * FPcieEcam * hw) :=
  let inst := set_bus_max inst (u32 (inst.(bus_max) + 1)) in
  let secondary_bus := inst.(bus_max) in
  let! (inst, h) := FPciePreScanSetupBridge inst h (u8 secondary_bus) bus device function in
  let! (_, inst, h) := enum inst h (u8 secondary_bus) in
  let subordinate_bus := inst.(bus_max) in
  let! (inst, h) := FPciePostscanSetupBridge inst h (u8 subordinate_bus) bus device function in
  Ok (subordinate_bus, inst, h).

(** [fuel] bounds how deep bridges are nested. *)
Fixpoint FPcieEcamEnumerateBusRecursion (fuel : nat) (inst : FPcieEcam) (h : hw) (bus : Z) :
    res (Z * FPcieEcam * hw) :=
  match fuel with
  | O => Fault OutOfFuel
  | S fuel =>
      check! ready inst in
      device_loop (FPcieBridgeProbeBus (FPcieEcamEnumerateBusRecursion fuel))
        (Z.to_nat inst.(config).(max_dev_num)) inst h bus 0
  end.

(** fpcie_ecam_debug.c, without the printing. *)
Fixpoint info_loop (inst : FPcieEcam) (h : hw) (l : list FPcieScanBdf) : res hw :=
  match l with
  | [] => Ok h
  | b :: l =>
      let! (ret, _, h) :=
        FPcieEcamReadConfigSpace inst h b.(bus) b.(device) b.(function) FPCIE_CCR_ID_REG in
      if negb (ret =? FT_SUCCESS) then Ok h else
      let! (ret, _, h) :=
        FPcieEcamReadConfigSpace inst h b.(bus) b.(device) b.(function)
          FPCIE_CCR_REV_CLASSID_REGS in
      if negb (ret =? FT_SUCCESS) then Ok h else info_loop inst h l
  end.
Definition FPcieEcamInfoPrint (inst : FPcieEcam) (h : hw) : res hw :=
  info_loop inst h (take (Z.to_nat inst.(scans_bdf_count)) inst.(scans_bdf)).

Definition FPcieEcamEnumerateBus (fuel : nat) (inst : FPcieEcam) (h : hw) (bus : Z) :
    res (Z * FPcieEcam * hw) :=
  let inst := set_bus_max inst bus in
  let inst := set_scans inst inst.(scans_bdf) 0 in
  let! (ret, inst, h) := FPcieEcamEnumerateBusRecursion fuel inst h bus in
  let! h := FPcieEcamInfoPrint inst h in
  Ok (ret, inst, h).
End Enumerate.

(** ** Reading back a BAR (fpcie_ecam.c) *)
Section GetBar.
Context `{HW : MmioHw}.

(** The code after [err_exit]. *)
Definition get_bar_exit (inst : FPcieEcam) (h : hw)
    (bus device function reg cmd_reg orig_bar_val orig_bar_high : Z)
    (is_64bit_bar bar_modified : bool) (err : Z) (bar : FPcieBarInfo) :
    res (Z * FPcieBarInfo * hw) :=
  let! (_, h) :=
    FPcieEcamWriteConfigSpace inst h bus device function FPCIE_CCR_CMD_STATUS_REGS cmd_reg in
  if bar_modified && negb (err =? FT_SUCCESS) then
    let! (_, h) := FPcieEcamWriteConfigSpace inst h bus device function reg orig_bar_val in
    if is_64bit_bar then
      let! (_, h) :=
        FPcieEcamWriteConfigSpace inst h bus device function (u32 (reg + 1)) orig_bar_high in
      Ok (err, bar, h)
    else Ok (err, bar, h)
  else Ok (err, bar, h).

(** The kind of the BAR and its size mask. *)
Definition bar_mask (is_64bit_bar : bool) (phys_addr size_high : Z) (bar : FPcieBarInfo) :
    Z * FPcieBarInfo :=
  let with_type ty := mkBarInfo bar.(Pcie.phys_addr) bar.(size) bar.(is_64bit) ty in
  if is_64bit_bar then
    (Z.lor (Z.shiftl size_high 32) (FPCIE_CONF_BAR_ADDR phys_addr),
     with_type (if FPCIE_CONF_BAR_PREFETCH phys_addr then MEM_TYPE_PREFETCH else MEM_TYPE_MEM))
  else if FPCIE_CONF_BAR_IO phys_addr then
    (FPCIE_CONF_BAR_IO_ADDR phys_addr, with_type MEM_TYPE_IO)
  else (FPCIE_CONF_BAR_ADDR phys_addr, with_type MEM_TYPE_MEM).

(** The size in 32 bits: the lowest bit of the mask that is set. *)
Definition bar_size_of (mask : Z) : Z :=
  let size := u64 (lnotw 64 mask + 1) in
  u32 (Z.land size (lnotw 64 (u64 (size - 1)))).

Definition bar_address (is_64bit_bar : bool) (orig_bar_val orig_bar_high : Z) : Z :=
  if is_64bit_bar then Z.lor (Z.shiftl orig_bar_high 32) (FPCIE_CONF_BAR_ADDR orig_bar_val)
  else if FPCIE_CONF_BAR_IO orig_bar_val then FPCIE_CONF_BAR_IO_ADDR orig_bar_val
  else FPCIE_CONF_BAR_ADDR orig_bar_val.

(** From the first write of the BAR to the last one. *)
Definition get_bar_probe (inst : FPcieEcam) (h : hw)
    (bus device function reg cmd_reg orig_bar_val orig_bar_high : Z) (is_64bit_bar : bool)
    (bar : FPcieBarInfo) : res (Z * FPcieBarInfo * hw) :=
  let exit := get_bar_exit inst in
  let write := fun h reg data => FPcieEcamWriteConfigSpace inst h bus device function reg data in
  let read := fun h reg => FPcieEcamReadConfigSpace inst h bus device function reg in
  let leave := fun h modified err bar =>
    exit h bus device function reg cmd_reg orig_bar_val orig_bar_high is_64bit_bar modified err
      bar in
  let! (err, h) := write h reg 0xffffffff in
  if negb (err =? FT_SUCCESS) then leave h false err bar else
  let! (err, h) :=
    if is_64bit_bar then write h (u32 (reg + 1)) 0xffffffff else Ok (FT_SUCCESS, h) in
  if negb (err =? FT_SUCCESS) then leave h true err bar else
  let! (err, phys_addr, h) := read h reg in
  if negb (err =? FT_SUCCESS) then leave h true err bar else
  let! (err, size_high, h) :=
    if is_64bit_bar then read h (u32 (reg + 1)) else Ok (FT_SUCCESS, 0, h) in
  let '(mask, bar) := bar_mask is_64bit_bar phys_addr size_high bar in
  if negb (err =? FT_SUCCESS) then leave h true err bar else
  let bar :=
    mkBarInfo bar.(Pcie.phys_addr) (bar_size_of mask) bar.(is_64bit) bar.(mem_type) in
  let! (err, h) := write h reg orig_bar_val in
  if negb (err =? FT_SUCCESS) then leave h true err bar else
  let! (err, h) :=
    if is_64bit_bar then write h (u32 (reg + 1)) orig_bar_high else Ok (FT_SUCCESS, h) in
  if negb (err =? FT_SUCCESS) then leave h true err bar else
  leave h true FT_SUCCESS
    (mkBarInfo (bar_address is_64bit_bar orig_bar_val orig_bar_high) bar.(size) bar.(is_64bit)
       bar.(mem_type)).

Definition FPcieEcamGetBar (inst : FPcieEcam) (h : hw) (bus device function bar_index : Z)
    (bar : FPcieBarInfo) : res (Z * FPcieBarInfo * hw) :=
  let reg := u32 (bar_index + FPCIE_CCR_BAR_ADDR0_REGS) in
  if FPCIE_CCR_BAR_ADDR5_REGS <? reg then Ok (FPCIE_INVALID_PARAM, bar, h) else
  let! (err, phys_addr, h) := FPcieEcamReadConfigSpace inst h bus device function reg in
  if negb (err =? FT_SUCCESS) then Ok (FPCIE_READCONFIG_ERROR, bar, h) else
  let orig_bar_val := phys_addr in
  let is_64bit_bar := FPCIE_CONF_BAR_MEM phys_addr && FPCIE_CONF_BAR_64 phys_addr in
  if is_64bit_bar && (FPCIE_CCR_BAR_ADDR5_REGS <=? reg) then Ok (FPCIE_TYPE_NOT_FIT, bar, h) else
  let bar :=
    if is_64bit_bar then mkBarInfo bar.(Pcie.phys_addr) bar.(size) 1 bar.(mem_type) else bar in
  let! (err, orig_bar_high, h) :=
    if is_64bit_bar then FPcieEcamReadConfigSpace inst h bus device function (u32 (reg + 1))
    else Ok (FT_SUCCESS, 0, h) in
  if negb (err =? FT_SUCCESS) then Ok (FPCIE_READCONFIG_ERROR, bar, h) else
  if FPCIE_CONF_BAR_INVAL_FLAGS phys_addr then Ok (FPCIE_TYPE_NOT_FIT, bar, h) else
  let! (err, cmd_reg, h) :=
    FPcieEcamReadConfigSpace inst h bus device function FPCIE_CCR_CMD_STATUS_REGS in
  if negb (err =? FT_SUCCESS) then Ok (FPCIE_READCONFIG_ERROR, bar, h) else
  let! (err, h) :=
    FPcieEcamWriteConfigSpace inst h bus device function FPCIE_CCR_CMD_STATUS_REGS
      (mask_cmd cmd_reg) in
  if negb (err =? FT_SUCCESS) then
    get_bar_exit inst h bus device function reg cmd_reg orig_bar_val orig_bar_high is_64bit_bar
      false err bar
  else
    get_bar_probe inst h bus device function reg cmd_reg orig_bar_val orig_bar_high is_64bit_bar
      bar.
End GetBar.

(** ** Capabilities (fpcie_ecam_caps.c)

    The lists are walked until they end, which a list with a cycle never does; [fuel]
    bounds the walk. *)
Section Caps.
Context `{HW : MmioHw}.

Definition FPcieEcamGetBaseCapability (inst : FPcieEcam) (h : hw) (bus device function : Z) :
    res (Z * hw) :=
  let! (ret, cap_value, h) :=
    FPcieEcamReadConfigSpace inst h bus device function FPCIE_CCR_CAPBILITIES_PONINTERS_REGS in
  if negb (ret =? FT_SUCCESS) then Ok (0, h)
  else Ok (FPCIE_CCR_CAP_PONINTERS_MASK cap_value, h).

Fixpoint has_cap_loop (fuel : nat) (inst : FPcieEcam) (h : hw)
    (bus device function capid CapBilityBase : Z) : res (Z * hw) :=
  match fuel with
  | O => Fault OutOfFuel
  | S fuel =>
      if CapBilityBase =? 0 then Ok (0, h)
      else
        let! (ret, CapBilityBase, h) :=
          FPcieEcamReadConfigSpace inst h bus device function
            (FPCIE_CAP_ADDRESS_GET CapBilityBase) in
        if negb (ret =? FT_SUCCESS) then Ok (0, h)
        else if FPCIE_CAP_ID_GET CapBilityBase =? capid then Ok (1, h)
        else has_cap_loop fuel inst h bus device function capid
               (FPCIE_CAP_NEXT_POINTER_GET CapBilityBase)
  end.

Definition FPcieEcamHasCapability (fuel : nat) (inst : FPcieEcam) (h : hw)
    (bus device function capid : Z) : res (Z * hw) :=
  let! (CapBilityBase, h) := FPcieEcamGetBaseCapability inst h bus device function in
  has_cap_loop fuel inst h bus device function capid CapBilityBase.

(** [capability_valid] and [base] after the loop. *)
Fixpoint get_cap_loop (fuel : nat) (inst : FPcieEcam) (h : hw)
    (bus device function capid base : Z) : res (Z * Z * hw) :=
  match fuel with
  | O => Fault OutOfFuel
  | S fuel =>
      if base =? 0 then Ok (0, base, h)
      else
        let! (ret, data, h) :=
          FPcieEcamReadConfigSpace inst h bus device function (FPCIE_CAP_ADDRESS_GET base) in
        if negb (ret =? FT_SUCCESS) then Ok (0, base, h)
        else if FPCIE_CAP_ID_GET data =? capid then Ok (1, base, h)
        else get_cap_loop fuel inst h bus device function capid (FPCIE_CAP_NEXT_POINTER_GET data)
  end.

Definition FPcieEcamGetCapability (fuel : nat) (inst : FPcieEcam) (h : hw)
    (bus device function capid : Z) : res (Z * hw) :=
  let! (base, h) := FPcieEcamGetBaseCapability inst h bus device function in
  let! (capability_valid, base, h) := get_cap_loop fuel inst h bus device function capid base in
  Ok (if truth capability_valid then FPCIE_CAP_ADDRESS_GET base else 0, h).

(** The loop the two functions on extended capabilities share: [capability_valid] and
    [capability_value] after it. *)
Fixpoint ext_cap_loop (fuel : nat) (inst : FPcieEcam) (h : hw)
    (bus device function capid capability_offset : Z) : res (Z * Z * hw) :=
  match fuel with
  | O => Fault OutOfFuel
  | S fuel =>
      let! (ret, capability_value, h) :=
        FPcieEcamReadConfigSpace inst h bus device function (u16 capability_offset) in
      if negb (ret =? FT_SUCCESS) then Ok (0, capability_value, h)
      else if capability_value =? 0 then Ok (0, capability_value, h)
      else if FPCIE_EXT_CAP_ID_GET capability_value =? capid then Ok (1, capability_value, h)
      else
        let capability_offset := FPCI_EXT_CAP_PONINTERS_MASK capability_value in
        if truth capability_offset then
          ext_cap_loop fuel inst h bus device function capid capability_offset
        else Ok (0, capability_value, h)
  end.

Definition FPcieEcamHasExtendCapability (fuel : nat) (inst : FPcieEcam) (h : hw)
    (bus device function capid : Z) : res (Z * hw) :=
  let! (capability_valid, _, h) :=
    ext_cap_loop fuel inst h bus device function capid FPCI_EXT_REGS in
  Ok (capability_valid, h).

Definition FPcieEcamGetExtendCapability (fuel : nat) (inst : FPcieEcam) (h : hw)
    (bus device function capid : Z) : res (Z * hw) :=
  let! (capability_valid, capability_value, h) :=
    ext_cap_loop fuel inst h bus device function capid FPCI_EXT_REGS in
  Ok (if truth capability_valid then FPCI_EXT_CAP_PONINTERS_MASK capability_value else 0, h).
End Caps.

(** ** Legacy interrupts (fpcie_ecam_intx.c) *)
Class PcieIntx `{HW : MmioHw} := {
  (** A call of the handler at an address with its argument. *)
  call_intx : Z -> Z -> hw -> hw
}.

Section Intx.
Context `{HW : MmioHw} {CL : PcieIntx}.

(** [FPCI_ECAM_INTX_NEED_EOI], which the PD2008 defines. *)
Context (need_eoi : bool).

(** The index the loop over [scans_bdf] stops at, of the first [n] entries. *)
Fixpoint find_bdf (l : list FPcieScanBdf) (n : nat) (bus device function i : Z) : Z :=
  match n, l with
  | S n, b :: l =>
      if (b.(Pcie.bus) =? bus) && (b.(Pcie.device) =? device)
         && (b.(Pcie.function) =? function) then i
      else find_bdf l n bus device function (i + 1)
  | _, _ => i
  end.

Definition FPcieEcamIntxRegister (inst : FPcieEcam) (h : hw) (bus device function : Z)
    (func_p : FPcieIntxFun) : res (Z * FPcieEcam * hw) :=
  check! ready inst in
  let! (ret, config_data, h) :=
    FPcieEcamReadConfigSpace inst h bus device function FPCIE_CCR_CLS_LT_HT_REGS in
  if negb (ret =? FT_SUCCESS) then Ok (FPCIE_READCONFIG_ERROR, inst, h) else
  let header_type := FPCIE_CCR_HEAD_TYPE_MASK config_data in
  if negb (header_type =? FPCIE_CCR_HEAD_TYPE0) then Ok (FPCIE_TYPE_NOT_FIT, inst, h) else
  let i := find_bdf inst.(scans_bdf) (Z.to_nat inst.(scans_bdf_count)) bus device function 0 in
  if i =? inst.(scans_bdf_count) then Ok (FPCIE_DEVICE_NOT_FOUND, inst, h) else
  let! (ret, config_data, h) :=
    FPcieEcamReadConfigSpace inst h bus device function FPCIE_CCR_INTX_LAT_GNT_REGS in
  if negb (ret =? FT_SUCCESS) then Ok (FPCIE_READCONFIG_ERROR, inst, h) else
  let interrupt_pin := FPCIE_CCR_INTX_PIN_MASK config_data in
  if negb (interrupt_pin =? 1) then Ok (FPCIE_INTX_OVER_RANGE, inst, h) else
  let interrupt_line := inst.(config).(inta_irq_num) in
  let! l :=
    aset inst.(inta_fun) i
      (mkIntx func_p.(IntxCallBack) func_p.(iargs) bus device function) in
  let inst := set_inta inst l in
  let config_data := Z.land config_data (lnotw 32 (FPCIE_CCR_INTX_LINE_MASK 0xff)) in
  let config_data := Z.lor config_data (FPCIE_CCR_INTX_LINE_MASK interrupt_line) in
  let! (_, h) :=
    FPcieEcamWriteConfigSpace inst h bus device function FPCIE_CCR_INTX_LAT_GNT_REGS
      config_data in
  let! h := FPcieEcamInfoPrint inst h in
  Ok (FT_SUCCESS, inst, h).

(** The loop over the status registers of the ports. *)
Fixpoint eoi_loop (h : hw) (bases : list Z) (status imask istatus : Z) : hw :=
  match bases with
  | [] => h
  | base :: bases =>
      let h := if truth (Z.land imask status) then FtOut32 h base 0 istatus else h in
      eoi_loop h bases (Z.shiftr status 4) imask istatus
  end.

Definition FPcieEcamIntxEoi (inst : FPcieEcam) (h : hw) (intx : Z) : res hw :=
  if need_eoi then
    let! control0 := aget inst.(config).(control_intx_base) 0 in
    let! control1 := aget inst.(config).(control_intx_base) 1 in
    let '(s0, h) := FtIn32 h control0 0 in
    let '(s1, h) := FtIn32 h control1 0 in
    let status := u32 (s0 + u32 (Z.shiftl s1 12)) in
    let imask := u32 (Z.shiftl 1 (3 - intx)) in
    let istatus := u32 (Z.shiftl (u32 (Z.shiftl 1 intx)) 24) in
    Ok (eoi_loop h inst.(config).(config_intx_base) status imask istatus)
  else Ok h.

(** The loop over the functions found, from the [i]th: whether it went through, and the
    handlers it called. *)
Fixpoint irq_loop (inst : FPcieEcam) (h : hw) (l : list FPcieScanBdf) (i : Z) :
    res (bool * list (Z * Z) * hw) :=
  match l with
  | [] => Ok (true, [], h)
  | b :: l =>
      let! (ret, config_data, h) :=
        FPcieEcamReadConfigSpace inst h b.(bus) b.(device) b.(function)
          FPCIE_CCR_CMD_STATUS_REGS in
      if negb (ret =? FT_SUCCESS) then Ok (false, [], h)
      else if truth (Z.land config_data FPCIE_CCR_STATUS_INTERRUT) then
        let! f := aget inst.(inta_fun) i in
        if f.(IntxCallBack) =? 0 then Fault Undefined
        else
          let h := call_intx f.(IntxCallBack) f.(iargs) h in
          let! (done, calls, h) := irq_loop inst h l (i + 1) in
          Ok (done, (f.(IntxCallBack), f.(iargs)) :: calls, h)
      else irq_loop inst h l (i + 1)
  end.

Definition FPcieEcamIntxIrqHandler (inst : FPcieEcam) (h : hw) (vector : Z) :
    res (list (Z * Z) * hw) :=
  if vector =? inst.(config).(inta_irq_num) then
    let! (done, calls, h) :=
      irq_loop inst h (take (Z.to_nat inst.(scans_bdf_count)) inst.(scans_bdf)) 0 in
    if done : bool then
      let! h := FPcieEcamIntxEoi inst h 0 in
      Ok (calls, h)
    else Ok (calls, h)
  else Ok ([], h).
End Intx.

End Pcie.
