(* ===== verification/PcieRegion.v ===== *)
(** The allocator of addresses (Pcie.v): its blocks are aligned, inside the region and
    above everything it has handed out, and it fails only when no such block is left. *)
From S2P Require Import Prelude Mmio Pcie.
Import Pcie.

Arguments lnotw : simpl never.
Arguments Z.lor : simpl never.
Arguments Z.land : simpl never.
Arguments Z.shiftl : simpl never.
Arguments Z.shiftr : simpl never.
Arguments Z.pow : simpl never.

(** The first multiple of [size] from [lower] up. *)
Definition round_up (lower size : Z) : Z := (lower + size - 1) / size * size.

Lemma lor_ones a k : 0 <= k -> Z.lor a (2 ^ k - 1) = a / 2 ^ k * 2 ^ k + (2 ^ k - 1).
Proof.
  intros Hk. rewrite <-Z.shiftr_div_pow2, <-Z.shiftl_mul_pow2 by done.
  replace (2 ^ k - 1) with (Z.ones k) by (rewrite Z.ones_equiv; lia).
  rewrite <-(lor_shiftl k (Z.shiftr a k) (Z.ones k) Hk)
    by (rewrite Z.ones_equiv; pose proof (pow2_pos k Hk); lia).
  bitwise i Hi. destruct (Z.leb_spec 0 i), (Z.ltb_spec i k); simpl; try lia.
  rewrite Z.shiftr_spec by lia. by replace (i - k + k) with i by lia.
Qed.

Lemma round_up_spec lower size : 0 < size ->
  lower <= round_up lower size < lower + size /\ (size | round_up lower size).
Proof.
  intros Hs. unfold round_up. split; [|by apply Z.divide_factor_r].
  pose proof (Z.div_mod (lower + size - 1) size ltac:(lia)).
  pose proof (Z.mod_pos_bound (lower + size - 1) size Hs). nia.
Qed.

Lemma round_up_least lower size a : 0 < size -> (size | a) -> lower <= a -> round_up lower size <= a.
Proof.
  intros Hs [q ->] Hl. unfold round_up. apply Z.mul_le_mono_nonneg_r; [lia|].
  apply Z.lt_succ_r, Z.div_lt_upper_bound; nia.
Qed.

Lemma align_up_spec lower k : 0 <= k <= 63 -> 0 < lower <= 2 ^ 63 ->
  align_up lower (2 ^ k) = round_up lower (2 ^ k) /\ round_up lower (2 ^ k) <= 2 ^ 63.
Proof.
  intros Hk Hl. pose proof (pow2_pos k ltac:(lia)) as Hp.
  assert (2 ^ k <= 2 ^ 63) as Hle by (apply Z.pow_le_mono_r; lia).
  assert (round_up lower (2 ^ k) <= 2 ^ 63) as Hr.
  { apply round_up_least; [done| |lia]. exists (2 ^ (63 - k)).
    rewrite <-Z.pow_add_r by lia. f_equal. lia. }
  split; [|done]. unfold align_up. change (2 ^ 63) with 9223372036854775808 in *.
  rewrite (wrap_small 64 (lower - 1)), (wrap_small 64 (2 ^ k - 1))
    by (change (2 ^ 64) with 18446744073709551616; lia).
  rewrite lor_ones by lia. rewrite wrap_small.
  - unfold round_up. rewrite <-Z.add_assoc. replace (2 ^ k - 1 + 1) with (1 * 2 ^ k) by lia.
    rewrite <-Z.mul_add_distr_r. f_equal.
    replace (lower + 2 ^ k - 1) with (lower - 1 + 1 * 2 ^ k) by lia.
    by rewrite Z.div_add by lia.
  - assert (((lower - 1) / 2 ^ k + 1) * 2 ^ k = round_up lower (2 ^ k)) as E.
    { unfold round_up. f_equal. replace (lower + 2 ^ k - 1) with (lower - 1 + 1 * 2 ^ k) by lia.
      by rewrite Z.div_add by lia. }
    pose proof (round_up_spec lower (2 ^ k) Hp).
    change (2 ^ 64) with 18446744073709551616. lia.
Qed.

(** ** Regions *)
Definition region_end (r : FPcieRegion) : Z := r.(bus_start) + r.(rsize).

(** Aligning for a bridge may take the address where allocation goes on past the end of
    the region, up to the next megabyte. *)
Definition region_cap (r : FPcieRegion) : Z := round_up (region_end r) (2 ^ 20).

Definition wf_region (r : FPcieRegion) : Prop :=
  0 < r.(bus_start) <= r.(bus_lower) /\ r.(bus_lower) <= region_cap r /\
  0 <= r.(rsize) /\ region_end r <= 2 ^ 63.

Lemma region_cap_spec r : region_end r <= region_cap r /\ (2 ^ 20 | region_cap r) /\
  (forall a, (2 ^ 20 | a) -> region_end r <= a -> region_cap r <= a).
Proof.
  destruct (round_up_spec (region_end r) (2 ^ 20)) as [H D]; [done|].
  split; [unfold region_cap; lia|]. split; [done|]. intros a. by apply round_up_least.
Qed.

Lemma wf_region_lower r : wf_region r -> r.(bus_lower) <= 2 ^ 63.
Proof.
  intros (_ & Hl & _ & He). destruct (region_cap_spec r) as (_ & _ & Hc).
  specialize (Hc (2 ^ 63) ltac:(by exists (2 ^ 43)) He). lia.
Qed.

(** Sizes a BAR can tell: powers of two, or nothing. *)
Definition bar_sizes (s : Z) : Prop := s = 0 \/ exists k, 0 <= k <= 63 /\ s = 2 ^ k.

Lemma allocate_zero r : wf_region r ->
  FPcieRegionAllocate (Some r) 0 = (FPCIE_READCONFIG_ERROR, u64 (-1), Some r).
Proof.
  intros Hw. pose proof (wf_region_lower r Hw) as Hl. revert Hw Hl.
  unfold wf_region, region_end. change (2 ^ 63) with 9223372036854775808. intros Hr Hl.
  assert (align_up r.(bus_lower) 0 = 0) as E.
  { unfold align_up. change (u64 (0 - 1)) with (Z.ones 64).
    rewrite Z.lor_ones_low; [done| |].
    - apply wrap_range. lia.
    - destruct (Z.eq_dec (u64 (r.(bus_lower) - 1)) 0) as [->|Hn]; [reflexivity|].
      apply Z.log2_lt_pow2; [|apply wrap_range; lia].
      pose proof (wrap_range 64 ltac:(lia) (r.(bus_lower) - 1)). lia. }
  simpl. rewrite E, (wrap_below 64) by (change (2 ^ 64) with 18446744073709551616; lia).
  destruct (Z.ltb_spec r.(rsize) (0 - r.(bus_start) + 0 + 2 ^ 64)) as [|H]; [done|].
  change (2 ^ 64) with 18446744073709551616 in H. lia.
Qed.

Lemma allocate_pow2 r k : wf_region r -> 0 <= k <= 63 ->
  let addr := round_up r.(bus_lower) (2 ^ k) in
  FPcieRegionAllocate (Some r) (2 ^ k) =
    if region_end r <? addr + 2 ^ k then (FPCIE_READCONFIG_ERROR, u64 (-1), Some r)
    else (FT_SUCCESS, addr, Some (set_lower r (addr + 2 ^ k))).
Proof.
  intros Hw Hk addr. pose proof (wf_region_lower r Hw) as Hl. destruct Hw as (Hs & _ & Hz & He).
  pose proof (pow2_pos k ltac:(lia)) as Hp.
  assert (2 ^ k <= 2 ^ 63) as Hle by (apply Z.pow_le_mono_r; lia).
  destruct (align_up_spec r.(bus_lower) k Hk ltac:(lia)) as [E Hr].
  pose proof (round_up_spec r.(bus_lower) (2 ^ k) Hp) as [Ha _]. fold addr in E, Hr, Ha.
  simpl. rewrite E. unfold region_end in *.
  change (2 ^ 63) with 9223372036854775808 in *.
  rewrite (wrap_small 64 (addr - _ + _)) by (change (2 ^ 64) with 18446744073709551616; lia).
  destruct (Z.ltb_spec r.(rsize) (addr - r.(bus_start) + 2 ^ k)),
    (Z.ltb_spec (r.(bus_start) + r.(rsize)) (addr + 2 ^ k)); try lia; [done|].
  rewrite (wrap_small 64 (addr + _)); [done|].
  change (2 ^ 64) with 18446744073709551616. lia.
Qed.

Lemma wf_set_lower r x : wf_region r -> r.(bus_lower) <= x <= region_cap r -> wf_region (set_lower r x).
Proof. unfold wf_region, region_cap, region_end. simpl. lia. Qed.

Lemma FPcieAutoRegionAlign_wf r k : wf_region r -> 0 <= k <= 20 ->
  FPcieAutoRegionAlign r (2 ^ k) = set_lower r (round_up r.(bus_lower) (2 ^ k)) /\
  wf_region (FPcieAutoRegionAlign r (2 ^ k)) /\
  r.(bus_lower) <= (FPcieAutoRegionAlign r (2 ^ k)).(bus_lower) /\
  (2 ^ k | (FPcieAutoRegionAlign r (2 ^ k)).(bus_lower)).
Proof.
  intros Hr Hk. pose proof Hr as (Hs & Hl & _). unfold FPcieAutoRegionAlign.
  pose proof (wf_region_lower r Hr). pose proof (pow2_pos k ltac:(lia)) as Hp.
  destruct (align_up_spec r.(bus_lower) k) as [-> _]; [lia..|].
  destruct (round_up_spec r.(bus_lower) (2 ^ k) Hp) as [Hb Hd].
  assert (round_up r.(bus_lower) (2 ^ k) <= region_cap r) as Hle.
  { apply round_up_least; [done| |done]. etransitivity; [|apply region_cap_spec].
    exists (2 ^ (20 - k)). rewrite <-Z.pow_add_r by lia. f_equal. lia. }
  split; [done|]. split; [apply wf_set_lower; [done|lia]|]. simpl. split; [lia|done].
Qed.

(** ** Properties *)

(** C22: For a BAR of any size the allocator takes the lowest aligned block above what it
    has handed out; it fails, and leaves the region alone, exactly when no aligned block
    above it ends inside the region. *)
Theorem FPcieRegionAllocate_least r k : wf_region r -> 0 <= k <= 63 ->
  let free a := (2 ^ k | a) /\ r.(bus_lower) <= a /\ a + 2 ^ k <= region_end r in
  match FPcieRegionAllocate (Some r) (2 ^ k) with
  | (ret, addr, r') =>
      if ret =? FT_SUCCESS then
        free addr /\ (forall a, free a -> addr <= a) /\
        r' = Some (set_lower r (addr + 2 ^ k)) /\ wf_region (set_lower r (addr + 2 ^ k))
      else r' = Some r /\ forall a, ~ free a
  end.
Proof.
  intros Hr Hk free. rewrite allocate_pow2 by done.
  destruct (round_up_spec r.(bus_lower) (2 ^ k) (pow2_pos k ltac:(lia))) as [Hb Hd].
  assert (forall a, free a -> round_up r.(bus_lower) (2 ^ k) <= a) as Hleast.
  { intros a (? & ? & _). apply round_up_least; [|done..]. apply pow2_pos. lia. }
  destruct (Z.ltb_spec (region_end r) (round_up r.(bus_lower) (2 ^ k) + 2 ^ k)) as [H|H].
  - change (FPCIE_READCONFIG_ERROR =? FT_SUCCESS) with false. split; [done|].
    intros a Ha. pose proof (Hleast a Ha). destruct Ha as (_ & _ & ?). lia.
  - change (FT_SUCCESS =? FT_SUCCESS) with true.
    pose proof Hr as (_ & _ & _ & He).
    destruct (region_cap_spec r) as (Hcap & _). pose proof (pow2_pos k ltac:(lia)).
    split; [split_and!; [done|lia..]|]. split; [done|]. split; [done|].
    apply wf_set_lower; [done|lia].
Qed.

Lemma FPcieRegionAllocate_least_witness :
  let r := mkRegion 0x58000000 0x58000000 0x27ffffff 0 0x58001000 1 in
  wf_region r /\
  FPcieRegionAllocate (Some r) (2 ^ 20) =
    (FT_SUCCESS, 0x58100000, Some (set_lower r 0x58200000)) /\
  forall a, (2 ^ 20 | a) /\ 0x58001000 <= a /\ a + 2 ^ 20 <= 0x7fffffff -> 0x58100000 <= a.
Proof.
  intros r.
  assert (wf_region r) as Hw by (unfold wf_region, region_end; simpl; zdec).
  assert (FPcieRegionAllocate (Some r) (2 ^ 20) =
            (FT_SUCCESS, 0x58100000, Some (set_lower r 0x58200000))) as E
    by (vm_compute; reflexivity).
  split; [exact Hw|]. split; [exact E|].
  pose proof (FPcieRegionAllocate_least r 20 Hw ltac:(lia)) as H. cbv zeta in H.
  rewrite E in H. exact (proj1 (proj2 H)).
Defined.
