(* ===== verification/PcieTrace.v ===== *)
(** What a run of the enumeration does on the bus (Pcie.v): the accesses it makes are
    logged, and the address blocks it assigns to base address registers are read off the
    log, without looking at the state of the driver. *)
From S2P Require Import Prelude Mmio Pcie PcieRegion.
Import Pcie.

(** ** The log *)
Inductive event : Set :=
| Rd (loc v : Z)
| Wr (loc v : Z).

(** A bus with a log of the accesses to configuration space, oldest first; its data
    lines are 32 bits wide. *)
Definition logged (HW : MmioHw) : MmioHw := {|
  hw := @hw HW * list event;
  FtIn32 s base off :=
    let '(h, t) := s in
    let '(v, h) := FtIn32 h base off in (u32 v, (h, t ++ [Rd off (u32 v)]));
  FtOut32 s base off v :=
    let '(h, t) := s in (FtOut32 h base off v, t ++ [Wr off v])
|}.

Definition logged_client (HW : MmioHw) (CL : PcieClient) : @PcieClient (logged HW) :=
  @Build_PcieClient (logged HW) (fun fp (s : @hw (logged HW)) b d f =>
    let '(h, t) := s in
    let '(r, h) := call_need_skip fp h b d f in (r, (h, t))).

(** ** The blocks assigned in a log *)
Inductive kind : Set := Io | Mem32 | Mem64 | Rom.
#[export] Instance kind_eq_dec : EqDecision kind.
Proof. solve_decision. Defined.

(** A block: the register it is assigned to, what the register is, and the addresses.
    The size is what the register tells when it is probed, where the address bits it
    implements are contiguous. *)
Record block := mkBlock {
  blk_reg : Z;
  blk_kind : kind;
  blk_prefetch : bool;
  blk_base : Z;
  blk_size : Z
}.

Definition reg_index (loc : Z) : Z := loc / 4 mod 1024.
Definition is_bar (loc : Z) : bool := (4 <=? reg_index loc) && (reg_index loc <=? 9).
Definition is_rom (loc : Z) : bool := (reg_index loc =? 0xc) || (reg_index loc =? 0xe).

(** A write that asks a register for its size. *)
Definition probes (loc v : Z) : bool :=
  (is_bar loc && (v =? 0xffffffff)) || (is_rom loc && (v =? 0xfffffffe)).

Definition io_bar (v : Z) : bool := Z.testbit v 0.
Definition wide_bar (v : Z) : bool := negb (io_bar v) && Z.testbit v 2.
Definition prefetch_bar (v : Z) : bool := Z.testbit v 3.

Definition narrow_block (loc v base : Z) : block :=
  if is_rom loc then mkBlock loc Rom false base (2 ^ 32 - Z.land v 0xfffffffe)
  else if io_bar v then mkBlock loc Io false base (2 ^ 16 - Z.land v 0xfffc)
  else mkBlock loc Mem32 (prefetch_bar v) base (2 ^ 32 - Z.land v 0xfffffff0).
Definition wide_block (loc v upper base : Z) : block :=
  mkBlock loc Mem64 (prefetch_bar v) base
    (2 ^ 64 - Z.land (upper * 2 ^ 32 + v) (2 ^ 64 - 16)).

(** What a reader of the log waits for. *)
Inductive pending : Set :=
| Idle
| Probing (loc : Z)
| Sized (loc v : Z)
| ProbingHi (loc v : Z)
| SizedHi (loc v upper : Z)
| Half (loc v upper base : Z).

Definition restart (loc v : Z) : pending := if probes loc v then Probing loc else Idle.

Definition observe_write (p : pending) (loc x : Z) : pending * list block :=
  match p with
  | Sized l v =>
      if loc =? l then (Idle, [narrow_block l v x])
      else if (loc =? l + 4) && (x =? 0xffffffff) && is_bar l && wide_bar v
      then (ProbingHi l v, [])
      else (restart loc x, [])
  | SizedHi l v upper =>
      if loc =? l then (Half l v upper x, []) else (restart loc x, [])
  | Half l v upper base =>
      if loc =? l + 4 then (Idle, [wide_block l v upper (x * 2 ^ 32 + base)])
      else (restart loc x, [])
  | _ => (restart loc x, [])
  end.

Definition observe_read (p : pending) (loc x : Z) : pending :=
  match p with
  | Probing l => if loc =? l then Sized l x else Idle
  | ProbingHi l v => if loc =? l + 4 then SizedHi l v x else Idle
  | _ => Idle
  end.

Definition observe_event (o : pending * list block) (e : event) : pending * list block :=
  let '(p, bs) := o in
  match e with
  | Rd loc v => (observe_read p loc v, bs)
  | Wr loc v => let '(p, new) := observe_write p loc v in (p, bs ++ new)
  end.
Definition observe (t : list event) : pending * list block := foldl observe_event (Idle, []) t.
Definition blocks (t : list event) : list block := (observe t).2.

Lemma observe_snoc t e : observe (t ++ [e]) = observe_event (observe t) e.
Proof. unfold observe. by rewrite foldl_app. Qed.

(** ** Configuration addresses *)
Definition fn_base (bus device function : Z) : Z := FPcieGetEcamConfigAddress bus device function 0.

Lemma ecam_address b d f o : 0 <= o < 1024 ->
  FPcieGetEcamConfigAddress b d f o = fn_base b d f + 4 * o.
Proof.
  intros Ho. unfold fn_base, FPcieGetEcamConfigAddress.
  change (u32 (Z.shiftl 0 FPCIE_ECAM_REG_SHIFT)) with 0. rewrite Z.lor_0_r.
  replace (u32 (Z.shiftl o FPCIE_ECAM_REG_SHIFT)) with (4 * o).
  2: { rewrite Z.shiftl_mul_pow2 by done. change (2 ^ FPCIE_ECAM_REG_SHIFT) with 4.
       rewrite wrap_small; lia. }
  apply lor_disjoint.
  intros i Hi. autorewrite with cbits. unfold FPCIE_ECAM_BUS_SHIFT,
    FPCIE_ECAM_DEV_SHIFT, FPCIE_ECAM_FUN_SHIFT.
  destruct (Z.ltb_spec i 12).
  - by rewrite !(Z.testbit_neg_r _ (i - _)), !andb_false_r by lia.
  - rewrite (testbit_high 12 (4 * o)) by lia. apply andb_false_r.
Qed.

Lemma fn_base_spec b d f : exists q, 0 <= q /\ fn_base b d f = q * 4096.
Proof.
  exists (fn_base b d f / 2 ^ 12). unfold fn_base, FPcieGetEcamConfigAddress.
  set (x := Z.lor _ _). assert (0 <= x) as Hx.
  { unfold x. rewrite !Z.lor_nonneg. repeat split; try apply wrap_range; lia. }
  split; [by apply Z.div_pos|].
  rewrite <-Z.shiftr_div_pow2 by done. change 4096 with (2 ^ 12).
  rewrite <-Z.shiftl_mul_pow2 by done. apply Z.bits_inj'. intros i Hi.
  destruct (Z.ltb_spec i 12).
  - rewrite Z.shiftl_spec, (Z.testbit_neg_r _ (i - 12)) by lia. unfold x.
    autorewrite with cbits. unfold FPCIE_ECAM_BUS_SHIFT,
    FPCIE_ECAM_DEV_SHIFT, FPCIE_ECAM_FUN_SHIFT.
    by rewrite !(Z.testbit_neg_r _ (i - _)), !andb_false_r by lia.
  - rewrite Z.shiftl_spec, Z.shiftr_spec by lia. f_equal. lia.
Qed.

Lemma reg_index_address b d f o : 0 <= o < 1024 ->
  reg_index (FPcieGetEcamConfigAddress b d f o) = o.
Proof.
  intros Ho. rewrite ecam_address by done. destruct (fn_base_spec b d f) as (q & Hq & ->).
  unfold reg_index. replace (q * 4096 + 4 * o) with (o * 4 + q * 1024 * 4) by lia.
  rewrite Z.div_add, Z.div_mul by lia. rewrite Z.mod_add by lia. by apply Z.mod_small.
Qed.

(** Two registers of one function, by number. *)
Lemma address_eqb b d f o o' : 0 <= o < 1024 -> 0 <= o' < 1024 ->
  (FPcieGetEcamConfigAddress b d f o =? FPcieGetEcamConfigAddress b d f o') = (o =? o').
Proof.
  intros. rewrite !ecam_address by done.
  destruct (Z.eqb_spec o o') as [->|]; [by rewrite Z.eqb_refl|]. apply Z.eqb_neq. lia.
Qed.
Lemma address_eqb_next b d f o o' : 0 <= o < 1024 -> 0 <= o' < 1023 ->
  (FPcieGetEcamConfigAddress b d f o =? FPcieGetEcamConfigAddress b d f o' + 4) = (o =? o' + 1).
Proof.
  intros. rewrite !ecam_address by lia.
  destruct (Z.eqb_spec o (o' + 1)) as [->|]; [apply Z.eqb_eq; lia|]. apply Z.eqb_neq. lia.
Qed.
