(* ===== verification/PcieSim.v ===== *)
(** A small bus for the PCI Express driver (Pcie.v): a bridge and a function with two
    BARs and a ROM on bus 0, and a function with a 64-bit BAR behind the bridge.  It
    shows that what the theorems ask of a bus can be had. *)
From stdpp Require Import gmap.
From S2P Require Import Prelude Mmio Pcie PcieTrace.
Import Pcie.

Arguments lnotw : simpl never.
Arguments Z.lor : simpl never.
Arguments Z.land : simpl never.
Arguments Z.shiftl : simpl never.
Arguments Z.shiftr : simpl never.
Arguments Z.pow : simpl never.
Arguments Z.mul : simpl never.
Arguments Z.add : simpl never.
Arguments Z.sub : simpl never.
Arguments Z.div : simpl never.
Arguments Z.modulo : simpl never.

(** The bits of a configuration address. *)
Lemma ecam_layout b d f o : 0 <= b < 256 -> 0 <= d < 32 -> 0 <= f < 8 -> 0 <= o < 1024 ->
  FPcieGetEcamConfigAddress b d f o = b * 2 ^ 20 + d * 2 ^ 15 + f * 2 ^ 12 + o * 4.
Proof.
  intros Hb Hd Hf Ho. unfold FPcieGetEcamConfigAddress, FPCIE_ECAM_BUS_SHIFT, FPCIE_ECAM_DEV_SHIFT,
    FPCIE_ECAM_FUN_SHIFT, FPCIE_ECAM_REG_SHIFT.
  rewrite !Z.shiftl_mul_pow2 by lia. rewrite !(wrap_small 32) by lia. rewrite Z.lor_0_l.
  rewrite <-!Z.shiftl_mul_pow2 by lia.
  replace (Z.lor (Z.lor (Z.lor (Z.shiftl b 20) (Z.shiftl d 15)) (Z.shiftl f 12)) (Z.shiftl o 2))
    with (Z.lor (Z.shiftl b 20) (Z.lor (Z.shiftl d 15) (Z.lor (Z.shiftl f 12) (Z.shiftl o 2))))
    by by rewrite !Z.lor_assoc.
  rewrite (lor_shiftl 12), (lor_shiftl 15), (lor_shiftl 20);
    rewrite ?(lor_shiftl 12), ?(lor_shiftl 15); rewrite ?Z.shiftl_mul_pow2 by lia; lia.
Qed.

(** ** The functions *)
Inductive unit_id : Set := Bridge | Near | Far.

(** The bits of a register that can be written and those that are fixed. *)
Definition reg_mask (u : unit_id) (r : Z) : Z :=
  match u with
  | Bridge =>
      if r =? 1 then 0x7 else if r =? 6 then 0xffffff else if r =? 7 then 0xf0f0
      else if r =? 8 then 0xfff0fff0 else if r =? 9 then 0xfff0fff0
      else if (r =? 0xa) || (r =? 0xb) || (r =? 0xc) then 0xffffffff else 0
  | Near =>
      if r =? 1 then 0x7 else if r =? 4 then 0xfff00000 else if r =? 5 then 0xffffffe0
      else if r =? 0xc then 0xffff0001 else 0
  | Far => if r =? 1 then 0x7 else if r =? 4 then 0xff000000 else if r =? 5 then 0xffffffff else 0
  end.
Definition reg_fixed (u : unit_id) (r : Z) : Z :=
  match u with
  | Bridge =>
      if r =? 0 then 0x1001d17 else if r =? 2 then 0x06040000 else if r =? 3 then 0x10000
      else if r =? 7 then 0x0101 else if r =? 9 then 0x10001 else 0
  | Near =>
      if r =? 0 then 0x2001d17 else if r =? 2 then 0x01060100 else if r =? 5 then 0x1 else 0
  | Far =>
      if r =? 0 then 0x3001d17 else if r =? 2 then 0x02000000 else if r =? 4 then 0xc else 0
  end.
Definition unit_key (u : unit_id) (r : Z) : Z :=
  match u with Bridge => r | Near => 0x1000 + r | Far => 0x2000 + r end.

(** What was last written to the registers. *)
Abbreviation sim := (gmap Z Z).
Definition reg_value (s : sim) (u : unit_id) (r : Z) : Z :=
  Z.lor (Z.land (default 0 (s !! unit_key u r)) (reg_mask u r)) (reg_fixed u r).

(** The bus behind the bridge, 0 before it has a number. *)
Definition far_bus (s : sim) : Z := Z.land (Z.shiftr (reg_value s Bridge 6) 8) 0xff.

(** The function that answers at an address. *)
Definition who (s : sim) (b d f : Z) : option unit_id :=
  if (b =? 0) && (d =? 0) && (f =? 0) then Some Bridge
  else if (b =? 0) && (d =? 1) && (f =? 0) then Some Near
  else if negb (b =? 0) && (b =? far_bus s) && (d =? 0) && (f =? 0) then Some Far
  else None.

Definition sim_read (s : sim) (off : Z) : Z :=
  match who s (off / 2 ^ 20) (off / 2 ^ 15 mod 32) (off / 2 ^ 12 mod 8) with
  | Some u => reg_value s u (off / 4 mod 1024)
  | None => 0xffffffff
  end.
Definition sim_write (s : sim) (off v : Z) : sim :=
  match who s (off / 2 ^ 20) (off / 2 ^ 15 mod 32) (off / 2 ^ 12 mod 8) with
  | Some u => <[unit_key u (off / 4 mod 1024) := v]> s
  | None => s
  end.

#[export] Instance sim_hw : MmioHw := {|
  hw := sim;
  FtIn32 s _ off := (sim_read s off, s);
  FtOut32 s _ off v := sim_write s off v
|}.
#[export] Instance sim_client : @PcieClient sim_hw :=
  @Build_PcieClient sim_hw (fun _ (s : @hw sim_hw) _ _ _ => (0, s)).

Definition sim_reset : sim := ∅.

(** The driver after [FPcieEcamCfgInitialize], without a callback. *)
Definition sim_instance : FPcieEcam :=
  (FPcieEcamCfgInitialize FPcieEcamConfig0 0).2.

Lemma address_fields b d f o : 0 <= b < 256 -> 0 <= d < 32 -> 0 <= f < 8 -> 0 <= o < 1024 ->
  let off := FPcieGetEcamConfigAddress b d f o in
  off / 2 ^ 20 = b /\ off / 2 ^ 15 mod 32 = d /\ off / 2 ^ 12 mod 8 = f /\ off / 4 mod 1024 = o.
Proof.
  intros Hb Hd Hf Ho off. unfold off. rewrite ecam_layout by done.
  repeat split; Z.div_mod_to_equations; lia.
Qed.

Lemma sim_read_at s b d f o : 0 <= b < 256 -> 0 <= d < 32 -> 0 <= f < 8 -> 0 <= o < 1024 ->
  sim_read s (FPcieGetEcamConfigAddress b d f o) =
    match who s b d f with Some u => reg_value s u o | None => 0xffffffff end.
Proof.
  intros Hb Hd Hf Ho. unfold sim_read.
  destruct (address_fields b d f o Hb Hd Hf Ho) as (-> & -> & -> & ->). done.
Qed.

Lemma sim_write_at s b d f o x : 0 <= b < 256 -> 0 <= d < 32 -> 0 <= f < 8 -> 0 <= o < 1024 ->
  sim_write s (FPcieGetEcamConfigAddress b d f o) x =
    match who s b d f with Some u => <[unit_key u o := x]> s | None => s end.
Proof.
  intros Hb Hd Hf Ho. unfold sim_write.
  destruct (address_fields b d f o Hb Hd Hf Ho) as (-> & -> & -> & ->). done.
Qed.
