(* ===== verification/PcieSafety.v ===== *)
(** Whatever the functions on the bus are, the address blocks the enumeration assigns
    are aligned, inside the windows of the controller and do not overlap. *)
From S2P Require Import Prelude Mmio Pcie PcieRegion PcieTrace.
Import Pcie.

Arguments lnotw : simpl never.
Arguments Z.lor : simpl never.
Arguments Z.land : simpl never.
Arguments Z.shiftl : simpl never.
Arguments Z.shiftr : simpl never.
Arguments Z.pow : simpl never.
Arguments Z.mul : simpl never.
Arguments Z.add : simpl never.
Arguments Z.sub : simpl never.
Arguments Z.testbit : simpl never.

(** ** Sizes *)
Lemma truth_land_bit v k : 0 <= k -> truth (Z.land v (Z.shiftl 1 k)) = Z.testbit v k.
Proof.
  intros Hk. unfold truth. destruct (Z.testbit v k) eqn:E.
  - destruct (Z.eqb_spec (Z.land v (Z.shiftl 1 k)) 0) as [H|H]; [|done].
    apply (f_equal (fun z => Z.testbit z k)) in H. fold (BIT k) in H.
    autorewrite with cbits in H. by rewrite E, Z.eqb_refl in H.
  - replace (Z.land v (Z.shiftl 1 k)) with 0; [done|]. fold (BIT k).
    bitwise i Hi. destruct (Z.eqb_spec i k) as [->|]; [by rewrite E|by rewrite andb_false_r].
Qed.

Lemma is_io_spec v : is_io v = io_bar v.
Proof. by apply truth_land_bit. Qed.
Lemma is_mem64_spec v : is_mem64 v = Z.testbit v 2.
Proof. by apply truth_land_bit. Qed.
Lemma is_prefetch_spec v : is_prefetch v = prefetch_bar v.
Proof. by apply truth_land_bit. Qed.

Lemma lnotw_opp w x : 0 <= w -> wrap w (lnotw w x + 1) = wrap w (2 ^ w - x).
Proof.
  intros Hw. unfold lnotw. rewrite wrap_add_l. unfold wrap.
  replace (Z.lnot x + 1) with (- x) by (unfold Z.lnot; lia).
  replace (2 ^ w - x) with (- x + 1 * 2 ^ w) by lia. by rewrite Z.mod_add by (pose proof (pow2_pos w Hw); lia).
Qed.

Lemma wrap_wrap_le w w' z : 0 <= w <= w' -> wrap w (wrap w' z) = wrap w z.
Proof.
  intros H. apply Z.bits_inj'. intros i Hi. rewrite !wrap_testbit by lia.
  destruct (Z.ltb_spec i w); [|done]. by rewrite (proj2 (Z.ltb_lt i w')) by lia.
Qed.

Lemma io_size v : FPCIE_CCR_BAR_IO_SIZE v = 2 ^ 16 - Z.land v 0xfffc.
Proof.
  unfold FPCIE_CCR_BAR_IO_SIZE. change 0xffff with (Z.ones 16).
  rewrite Z.land_ones by done. fold (u16 (lnotw 64 (Z.land v FPCIE_CCR_BAR_IO_MEM_TYPE_MASK))).
  unfold lnotw at 1. rewrite wrap_wrap_le by done.
  set (x := Z.land v _). replace (Z.lnot x) with (0 - x - 1) by (unfold Z.lnot; lia).
  replace (u16 (0 - x - 1)) with (2 ^ 16 - 1 - u16 x).
  2: { unfold wrap. apply Z.mod_unique with (- (x / 2 ^ 16) - 1).
       - left. pose proof (Z.mod_pos_bound x (2 ^ 16) ltac:(lia)). lia.
       - pose proof (Z.div_mod x (2 ^ 16) ltac:(lia)). lia. }
  replace (Z.land v 0xfffc) with (u16 x).
  - pose proof (wrap_range 16 ltac:(done) x) as H. rewrite wrap_small; [lia|].
    change (2 ^ 16) with 65536 in *. change (2 ^ 64) with 18446744073709551616. lia.
  - unfold x, wrap. rewrite <-Z.land_ones, <-Z.land_assoc by done. f_equal.
Qed.

Lemma mem64_size u v : 0 <= v < 2 ^ 32 ->
  FPCIE_CCR_BAR_MEM_SIZE (Z.lor (Z.shiftl u 32) v)
  = wrap 64 (2 ^ 64 - Z.land (u * 2 ^ 32 + v) (2 ^ 64 - 16)).
Proof.
  intros Hv. unfold FPCIE_CCR_BAR_MEM_SIZE. rewrite lnotw_opp by done.
  rewrite lor_shiftl, Z.shiftl_mul_pow2 by done. done.
Qed.

Lemma mem32_size v : 0 <= v < 2 ^ 32 ->
  u32 (FPCIE_CCR_BAR_MEM_SIZE v) = wrap 32 (2 ^ 32 - Z.land v 0xfffffff0).
Proof.
  intros Hv. unfold FPCIE_CCR_BAR_MEM_SIZE. rewrite lnotw_opp by done.
  rewrite wrap_wrap_le by done.
  replace (Z.land v FPCIE_CCR_BAR_MEM_TYPE_MASK) with (Z.land v 0xfffffff0).
  - unfold wrap. replace (2 ^ 64 - Z.land v 0xfffffff0)
      with (2 ^ 32 - Z.land v 0xfffffff0 + (2 ^ 32 - 1) * 2 ^ 32) by lia.
    by rewrite Z.mod_add.
  - rewrite <-(wrap_small 32 v) by done. unfold wrap.
    rewrite <-Z.land_ones, <-!Z.land_assoc by done. f_equal.
Qed.

Lemma rom_size v :
  u32 (- Z.land v (lnotw 32 1)) = wrap 32 (2 ^ 32 - Z.land v 0xfffffffe).
Proof.
  unfold wrap. change (lnotw 32 1) with 0xfffffffe.
  replace (2 ^ 32 - Z.land v 0xfffffffe) with (- Z.land v 0xfffffffe + 1 * 2 ^ 32) by lia.
  by rewrite Z.mod_add.
Qed.

(** ** The invariant *)
Definition same_region (r r' : FPcieRegion) : Prop :=
  r'.(bus_start) = r.(bus_start) /\ r'.(rsize) = r.(rsize) /\ r'.(exist_flg) = r.(exist_flg).

(** What a run does not change. *)
Definition same_shape (inst inst' : FPcieEcam) : Prop :=
  inst'.(is_ready) = inst.(is_ready) /\ inst'.(config) = inst.(config) /\
  inst'.(need_skip_fun) = inst.(need_skip_fun) /\
  same_region inst.(mem) inst'.(mem) /\ same_region inst.(mem_prefetch) inst'.(mem_prefetch) /\
  same_region inst.(mem_io) inst'.(mem_io).

(** The region for a block: the prefetchable one takes 64-bit and prefetchable BARs. *)
Definition ptr_of (inst : FPcieEcam) (b : block) : region_ptr :=
  match b.(blk_kind) with
  | Io => MemIo
  | Rom => Mem
  | Mem64 => if exists_region inst.(mem_prefetch) then MemPrefetch else Mem
  | Mem32 =>
      if exists_region inst.(mem_prefetch) && b.(blk_prefetch) then MemPrefetch else Mem
  end.
Definition region_of (inst : FPcieEcam) (b : block) : FPcieRegion :=
  get_region inst (ptr_of inst b).

Definition wf_inst (inst : FPcieEcam) : Prop :=
  wf_region inst.(mem) /\ wf_region inst.(mem_prefetch) /\ wf_region inst.(mem_io) /\
  (region_end inst.(mem) <= inst.(mem_prefetch).(bus_start) \/
   region_end inst.(mem_prefetch) <= inst.(mem).(bus_start)).

(** A register tells a power of two, and can hold the addresses of its region. *)
Definition sound_block (inst : FPcieEcam) (b : block) : Prop :=
  (exists k, 0 <= k <= 63 /\ b.(blk_size) = 2 ^ k) /\
  (b.(blk_kind) <> Mem64 -> region_end (region_of inst b) <= 2 ^ 32).

Definition placed (inst : FPcieEcam) (b : block) : Prop :=
  (b.(blk_size) | b.(blk_base)) /\ (region_of inst b).(bus_start) <= b.(blk_base) /\
  b.(blk_base) + b.(blk_size) <=
    Z.min (region_of inst b).(bus_lower) (region_end (region_of inst b)).

(** Two blocks of one address space. *)
Definition apart (b c : block) : Prop :=
  (b.(blk_kind) = Io <-> c.(blk_kind) = Io) ->
  b.(blk_base) + b.(blk_size) <= c.(blk_base) \/ c.(blk_base) + c.(blk_size) <= b.(blk_base).

Fixpoint pairwise {A} (R : A -> A -> Prop) (l : list A) : Prop :=
  match l with
  | [] => True
  | x :: l => Forall (R x) l /\ pairwise R l
  end.

Definition safe (inst : FPcieEcam) (bs : list block) : Prop :=
  wf_inst inst /\ Forall (placed inst) bs /\ pairwise apart bs.

Lemma pairwise_snoc {A} (R : A -> A -> Prop) l x :
  pairwise R l -> Forall (fun y => R y x) l -> pairwise R (l ++ [x]).
Proof.
  induction l as [|y l IH]; simpl; [by repeat constructor|].
  intros [Hy Hl] Hf. inversion_clear Hf. split; [|by apply IH].
  apply Forall_app. by repeat constructor.
Qed.

Lemma same_region_end r r' : same_region r r' -> region_end r' = region_end r.
Proof. unfold same_region, region_end. intros (-> & -> & _). done. Qed.

Lemma same_exists r r' : same_region r r' -> exists_region r' = exists_region r.
Proof. unfold same_region, exists_region. by intros (_ & _ & ->). Qed.

Lemma same_region_refl r : same_region r r.
Proof. done. Qed.
Lemma same_region_trans r1 r2 r3 : same_region r1 r2 -> same_region r2 r3 -> same_region r1 r3.
Proof. unfold same_region. intuition congruence. Qed.
Lemma same_shape_refl inst : same_shape inst inst.
Proof. done. Qed.
Lemma same_shape_trans i1 i2 i3 : same_shape i1 i2 -> same_shape i2 i3 -> same_shape i1 i3.
Proof. unfold same_shape, same_region. intuition congruence. Qed.

(** The state before and after, with more handed out. *)
Definition grown (inst inst' : FPcieEcam) : Prop :=
  inst.(mem).(bus_lower) <= inst'.(mem).(bus_lower) /\
  inst.(mem_prefetch).(bus_lower) <= inst'.(mem_prefetch).(bus_lower) /\
  inst.(mem_io).(bus_lower) <= inst'.(mem_io).(bus_lower).

Lemma ptr_of_same inst inst' b : same_shape inst inst' -> ptr_of inst' b = ptr_of inst b.
Proof. intros (_ & _ & _ & _ & Hp & _). unfold ptr_of. by rewrite (same_exists _ _ Hp). Qed.

Lemma region_of_same inst inst' b : same_shape inst inst' ->
  same_region (region_of inst b) (region_of inst' b).
Proof.
  intros Hs. unfold region_of. rewrite (ptr_of_same _ _ _ Hs).
  destruct Hs as (_ & _ & _ & Hm & Hp & Hi). by destruct (ptr_of inst b).
Qed.

Lemma region_of_grown inst inst' b : same_shape inst inst' -> grown inst inst' ->
  (region_of inst b).(bus_lower) <= (region_of inst' b).(bus_lower).
Proof.
  intros Hs (? & ? & ?). unfold region_of. rewrite (ptr_of_same _ _ _ Hs).
  by destruct (ptr_of inst b).
Qed.

Lemma ptr_of_io inst b : ptr_of inst b = MemIo <-> b.(blk_kind) = Io.
Proof. unfold ptr_of. split; [|by intros ->]. destruct (blk_kind b); try done; by case_match. Qed.

Lemma sound_block_same inst inst' b : same_shape inst inst' ->
  sound_block inst b <-> sound_block inst' b.
Proof.
  intros Hs. unfold sound_block. by rewrite (same_region_end _ _ (region_of_same _ _ b Hs)).
Qed.

Lemma placed_grown inst inst' b : same_shape inst inst' -> grown inst inst' ->
  placed inst b -> placed inst' b.
Proof.
  intros Hs Hg (Hd & Hb & He). unfold placed.
  pose proof (region_of_same inst inst' b Hs) as Hr.
  rewrite (same_region_end _ _ Hr). destruct Hr as (-> & _).
  pose proof (region_of_grown inst inst' b Hs Hg). repeat split; [done..|lia].
Qed.

Lemma safe_grown inst inst' bs : same_shape inst inst' -> grown inst inst' -> wf_inst inst' ->
  safe inst bs -> safe inst' bs.
Proof.
  intros Hs Hg Hw (_ & Hp & Hpw). split_and!; [done| |done].
  eapply Forall_impl; [|exact Hp]. intros b. by apply placed_grown.
Qed.

(** A region moved on. *)
Lemma set_region_same inst p x : same_shape inst (set_region inst p (set_lower (get_region inst p) x)).
Proof. by destruct p. Qed.

Lemma set_region_wf inst p x : wf_inst inst -> (get_region inst p).(bus_lower) <= x <= region_cap (get_region inst p) ->
  wf_inst (set_region inst p (set_lower (get_region inst p) x)) /\
  grown inst (set_region inst p (set_lower (get_region inst p) x)).
Proof.
  intros (Hm & Hp & Hi & Ha) Hx.
  destruct p; simpl in *; (split; [split_and!|unfold grown; simpl; lia]); simpl; try done;
    by apply wf_set_lower.
Qed.

(** ** Assigning a block *)
Lemma align_wf inst p k : wf_inst inst -> 0 <= k <= 20 ->
  let inst' := set_region inst p (FPcieAutoRegionAlign (get_region inst p) (2 ^ k)) in
  same_shape inst inst' /\ wf_inst inst' /\ grown inst inst'.
Proof.
  intros Hw Hk. assert (wf_region (get_region inst p)) as Hr by (destruct p; apply Hw).
  destruct (FPcieAutoRegionAlign_wf _ k Hr Hk) as (E & Hr' & Hl & _). rewrite E in *.
  simpl in *. split; [apply set_region_same|]. apply set_region_wf; [done|].
  split; [done|]. apply Hr'.
Qed.

(** [allocate] gives a block of the region, for every size a register can tell. *)
Lemma allocate_ok inst p s k w addr inst' : wf_inst inst -> 0 <= k <= 63 -> 0 <= w ->
  s = 2 ^ k \/ s = wrap w (2 ^ k) ->
  allocate inst p s = (FT_SUCCESS, addr, inst') ->
  s = 2 ^ k /\ (2 ^ k | addr) /\ (get_region inst p).(bus_lower) <= addr /\
  addr + 2 ^ k <= region_end (get_region inst p) /\
  inst' = set_region inst p (set_lower (get_region inst p) (addr + 2 ^ k)).
Proof.
  intros Hw Hk Hw0 Hs. assert (wf_region (get_region inst p)) as Hr by (destruct p; apply Hw).
  assert (s = 2 ^ k \/ s = 0) as [->| ->].
  { destruct Hs as [Hs|Hs]; [by left|]. destruct (Z.ltb_spec k w).
    - left. rewrite wrap_small in Hs; [done|]. split; [apply Z.pow_nonneg; lia|].
      apply Z.pow_lt_mono_r; lia.
    - right. rewrite Hs. unfold wrap. replace k with (k - w + w) by lia.
      rewrite Z.pow_add_r by lia. apply Z.mod_mul. pose proof (pow2_pos w Hw0). lia. }
  - unfold allocate. rewrite allocate_pow2 by done.
    destruct (round_up_spec (get_region inst p).(bus_lower) (2 ^ k) (pow2_pos k ltac:(lia))).
    destruct (Z.ltb_spec (region_end (get_region inst p))
                (round_up (get_region inst p).(bus_lower) (2 ^ k) + 2 ^ k)); [done|].
    intros [= <- <-]. repeat split; (done || lia).
  - unfold allocate. by rewrite allocate_zero.
Qed.

#[export] Instance region_ptr_eq_dec : EqDecision region_ptr.
Proof. solve_decision. Defined.

Lemma get_set_region inst p r q :
  get_region (set_region inst p r) q = if decide (p = q) then r else get_region inst q.
Proof. by destruct p, q. Qed.

(** A new block lies apart from what its region or another one holds. *)
Lemma placed_apart inst b c addr : wf_inst inst -> placed inst c ->
  b.(blk_base) = addr -> (region_of inst b).(bus_lower) <= addr ->
  addr + b.(blk_size) <= region_end (region_of inst b) -> apart c b.
Proof.
  intros ([Hm _] & [Hp _] & _ & Hrr) (_ & Hcs & Hce) Hb Hl He [H1 H2]. rewrite Hb.
  rewrite <-!(ptr_of_io inst) in H1, H2. unfold region_of in *.
  destruct (ptr_of inst b), (ptr_of inst c); simpl in *;
    first [lia | discriminate (H1 eq_refl) | discriminate (H2 eq_refl)].
Qed.

Lemma safe_emit inst p s k w addr inst' b bs :
  safe inst bs -> 0 <= k <= 63 -> 0 <= w -> s = 2 ^ k \/ s = wrap w (2 ^ k) ->
  allocate inst p s = (FT_SUCCESS, addr, inst') ->
  ptr_of inst b = p -> b.(blk_size) = 2 ^ k -> b.(blk_base) = addr ->
  safe inst' (bs ++ [b]).
Proof.
  intros (Hw & Hpl & Hpw) Hk Hw0 Hs Ha Hptr Hsize Hbase.
  destruct (allocate_ok _ _ _ _ _ _ _ Hw Hk Hw0 Hs Ha) as (_ & Hd & Hl & He & ->).
  pose proof (pow2_pos k ltac:(lia)) as Hpos.
  assert (wf_region (get_region inst p)) as (Hst & Hlo & _ & Hend) by (destruct p; apply Hw).
  destruct (region_cap_spec (get_region inst p)) as (Hcap & _).
  destruct (set_region_wf inst p (addr + 2 ^ k) Hw ltac:(lia)) as [Hw' Hg].
  pose proof (set_region_same inst p (addr + 2 ^ k)) as Hsame.
  set (inst' := set_region _ _ _) in *.
  assert (region_of inst' b = set_lower (get_region inst p) (addr + 2 ^ k)) as Hreg'.
  { unfold region_of. rewrite (ptr_of_same _ _ _ Hsame), Hptr. unfold inst'.
    rewrite get_set_region. by rewrite decide_True. }
  destruct (safe_grown inst inst' bs Hsame Hg Hw' ltac:(done)) as (_ & Hpl' & _).
  split_and!; [done| |].
  - apply Forall_app. split; [done|]. constructor; [|constructor].
    unfold placed. rewrite Hreg', Hsize, Hbase. unfold region_end. simpl.
    unfold region_end in *. repeat split; [done|lia..].
  - apply pairwise_snoc; [done|]. eapply Forall_impl; [|exact Hpl]. intros c Hc.
    eapply placed_apart; unfold region_of; rewrite ?Hptr, ?Hsize; done.
Qed.

(** ** Runs on a logged bus *)

(** The state of the driver and the log, before and after. *)
Definition evolves (inst : FPcieEcam) (t : list event) (inst' : FPcieEcam) (t' : list event) : Prop :=
  same_shape inst inst' /\
  exists new, blocks t' = blocks t ++ new /\
    (Forall (sound_block inst) new -> safe inst (blocks t) ->
     safe inst' (blocks t') /\ grown inst inst' /\
     Forall (fun b => (region_of inst b).(bus_lower) <= b.(blk_base)) new).

Lemma run_evolves_trans i1 t1 i2 t2 i3 t3 :
  evolves i1 t1 i2 t2 -> evolves i2 t2 i3 t3 -> evolves i1 t1 i3 t3.
Proof.
  intros [S1 (n1 & E1 & H1)] [S2 (n2 & E2 & H2)]. split; [by eapply same_shape_trans|].
  exists (n1 ++ n2). split; [by rewrite E2, E1, app_assoc|].
  rewrite Forall_app. intros [F1 F2] Hs. destruct (H1 F1 Hs) as (Hs1 & G1 & A1).
  destruct H2 as (Hs2 & G2 & A2); [|done|].
  { eapply Forall_impl; [|exact F2]. intros b. apply (sound_block_same i1 i2 b S1). }
  split_and!; [done|unfold grown in *; lia|]. apply Forall_app. split; [done|].
  eapply Forall_impl; [|exact A2]. intros b Hb. simpl in Hb.
  pose proof (region_of_grown i1 i2 b S1 G1). lia.
Qed.

Lemma evolves_quiet inst t t' : blocks t' = blocks t -> evolves inst t inst t'.
Proof.
  intros E. split; [apply same_shape_refl|]. exists []. rewrite app_nil_r.
  split; [done|]. rewrite E. intros _ Hs. split_and!; [done|unfold grown; lia|constructor].
Qed.

(** The region pointers and lists of functions found change nothing of this. *)
Lemma evolves_silent inst inst' t t' :
  same_shape inst inst' -> inst'.(mem) = inst.(mem) -> inst'.(mem_prefetch) = inst.(mem_prefetch) ->
  inst'.(mem_io) = inst.(mem_io) -> blocks t' = blocks t -> evolves inst t inst' t'.
Proof.
  intros Hs Em Ep Ei E. split; [done|]. exists []. rewrite app_nil_r. split; [done|].
  rewrite E. intros _ Hsafe. assert (grown inst inst') as Hg
    by (unfold grown; rewrite Em, Ep, Ei; lia).
  split_and!; [|done|constructor]. apply (safe_grown inst); [done..| |done].
  unfold wf_inst. rewrite Em, Ep, Ei. by destruct Hsafe.
Qed.

Lemma evolves_align inst p k t t' : 0 <= k <= 20 -> blocks t' = blocks t ->
  evolves inst t (set_region inst p (FPcieAutoRegionAlign (get_region inst p) (2 ^ k))) t'.
Proof.
  intros Hk E. split; [by destruct p|]. exists []. rewrite app_nil_r. split; [done|].
  rewrite E. intros _ Hs. destruct (align_wf inst p k (proj1 Hs) Hk) as (Hsame & Hw & Hg).
  split_and!; [by eapply safe_grown|done|constructor].
Qed.

Lemma set_get_region inst p : set_region inst p (get_region inst p) = inst.
Proof. by destruct inst, p. Qed.

Lemma allocate_cases inst p s :
  (exists addr x, allocate inst p s =
     (FT_SUCCESS, addr, set_region inst p (set_lower (get_region inst p) x))) \/
  (exists addr, allocate inst p s = (FPCIE_READCONFIG_ERROR, addr, inst)).
Proof.
  unfold allocate, FPcieRegionAllocate. destruct (_ <? _); simpl; [right|left; eauto].
  rewrite set_get_region. eauto.
Qed.

Lemma evolves_emit inst p s addr inst' b t t' :
  allocate inst p s = (FT_SUCCESS, addr, inst') -> ptr_of inst b = p ->
  (s = b.(blk_size) \/ exists w, 0 <= w /\ s = wrap w b.(blk_size)) ->
  (b.(blk_base) = u64 addr \/ b.(blk_kind) <> Mem64 /\ b.(blk_base) = u32 addr) ->
  blocks t' = blocks t ++ [b] -> evolves inst t inst' t'.
Proof.
  intros Ha Hptr Hs Hb E. split.
  { destruct (allocate_cases inst p s) as [(a & x & E')|(a & E')]; rewrite E' in Ha.
    - injection Ha as <- <-. apply set_region_same.
    - discriminate Ha. }
  exists [b]. split; [done|]. rewrite Forall_singleton, E. intros [(k & Hk & Hsize) H32] Hsafe.
  assert (exists w, 0 <= w /\ (s = 2 ^ k \/ s = wrap w (2 ^ k))) as (w & Hw & Hs').
  { rewrite Hsize in Hs. destruct Hs as [Hs|(w & ? & Hs)]; [exists 0|exists w]; (split; [lia|auto]). }
  destruct (allocate_ok _ _ _ _ _ _ _ (proj1 Hsafe) Hk Hw Hs' Ha) as (_ & _ & Hl & He & Hi).
  pose proof (pow2_pos k ltac:(lia)) as Hpos.
  assert (wf_region (get_region inst p)) as (Hst & _ & _ & Hend)
    by (destruct p; apply Hsafe).
  assert (b.(blk_base) = addr) as Hbase.
  { unfold region_of in H32. rewrite Hptr in H32. change (2 ^ 63) with 9223372036854775808 in Hend.
    destruct Hb as [->|[Hk' ->]]; apply wrap_small.
    - change (2 ^ 64) with 18446744073709551616. lia.
    - specialize (H32 Hk'). lia. }
  split_and!.
  - by eapply safe_emit.
  - rewrite Hi. apply set_region_wf; [by destruct Hsafe|].
    destruct (region_cap_spec (get_region inst p)) as (Hcap & _). lia.
  - constructor; [|constructor]. unfold region_of. by rewrite Hptr, Hbase.
Qed.

(** ** Base address registers *)
Definition usable (inst : FPcieEcam) (b : Z) : Prop :=
  ready inst = true /\ b <= inst.(config).(max_bus_num).

Lemma usable_same inst inst' b : same_shape inst inst' -> usable inst b -> usable inst' b.
Proof. unfold usable, ready. by intros (-> & -> & _). Qed.

Section Bars.
Context (H : MmioHw) (b d f : Z).
Abbreviation L := (logged H).
Abbreviation reg o := (FPcieGetEcamConfigAddress b d f o).

Lemma read_logged inst h t o : usable inst b ->
  exists v h', 0 <= v < 2 ^ 32 /\
    FPcieEcamReadConfigSpace (HW := L) inst (h, t) b d f o =
      Ok (FT_SUCCESS, v, (h', t ++ [Rd (reg o) v])).
Proof.
  intros [Hr Hb]. unfold FPcieEcamReadConfigSpace. rewrite Hr.
  rewrite (proj2 (Z.ltb_ge _ _) Hb). simpl.
  unfold FPCIE_READECAM_REG. simpl.
  destruct (FtIn32 h _ (reg o)) as [v h'].
  exists (u32 v), h'. split; [apply wrap_range; lia|]. by rewrite wrap_wrap.
Qed.

Lemma write_logged inst h t o x : usable inst b ->
  exists h', FPcieEcamWriteConfigSpace (HW := L) inst (h, t) b d f o x =
      Ok (FT_SUCCESS, (h', t ++ [Wr (reg o) (u32 x)])).
Proof.
  intros [Hr Hb]. unfold FPcieEcamWriteConfigSpace. rewrite Hr.
  rewrite (proj2 (Z.ltb_ge _ _) Hb). simpl. eauto.
Qed.

Lemma observe_rd t l v p bs : observe t = (p, bs) ->
  observe (t ++ [Rd l v]) = (observe_read p l v, bs).
Proof. intros E. by rewrite observe_snoc, E. Qed.

Lemma observe_wr t l v p bs p' new : observe t = (p, bs) -> observe_write p l v = (p', new) ->
  observe (t ++ [Wr l v]) = (p', bs ++ new).
Proof. intros E E'. rewrite observe_snoc, E. simpl. by rewrite E'. Qed.

Lemma observe_blocks t p bs : observe t = (p, bs) -> blocks t = bs.
Proof. unfold blocks. by intros ->. Qed.

(** The reader of the log waits for nothing at [next] or above. *)
Definition below (next : Z) (p : pending) : Prop :=
  match p with
  | Idle => True
  | Sized l v => l < next /\ (wide_bar v = false \/ is_bar l = false)
  | SizedHi l _ _ => l < next
  | _ => False
  end.

Lemma below_probe next p l x : below next p -> next <= l -> probes l x = true ->
  observe_write p l x = (Probing l, []).
Proof.
  intros Hp Hl Hx. assert (restart l x = Probing l) as Hr by (unfold restart; by rewrite Hx).
  destruct p as [|?|l0 v|?|l0 v u|?]; simpl in *; try done; try by rewrite Hr.
  - destruct Hp as [? Hw]. destruct (Z.eqb_spec l l0); [lia|].
    rewrite Hr. destruct Hw as [-> | ->]; by rewrite ?andb_false_r.
  - destruct (Z.eqb_spec l l0); [lia|]. by rewrite Hr.
Qed.

Lemma bar_reg_probes n : 0 <= n <= 5 ->
  is_bar (reg (FPCIE_CCR_BAR_ADDR0_REGS + n)) = true /\
  is_rom (reg (FPCIE_CCR_BAR_ADDR0_REGS + n)) = false /\
  probes (reg (FPCIE_CCR_BAR_ADDR0_REGS + n)) (u32 FPCIE_BAR_ADDR_MASK) = true.
Proof.
  intros Hn. unfold FPCIE_CCR_BAR_ADDR0_REGS, probes, is_bar, is_rom.
  rewrite !reg_index_address by lia.
  change (u32 FPCIE_BAR_ADDR_MASK) with 0xffffffff.
  replace (4 <=? 4 + n) with true by lia. replace (4 + n <=? 9) with true by lia.
  replace (4 + n =? 0xc) with false by lia. replace (4 + n =? 0xe) with false by lia. done.
Qed.

(** A BAR of less than 64 bits gets its address. *)
Lemma assign_narrow inst h t n p s v bs :
  usable inst b -> 0 <= n <= 5 ->
  observe t = (Sized (reg (FPCIE_CCR_BAR_ADDR0_REGS + n)) v, bs) -> wide_bar v = false ->
  (forall x, ptr_of inst (narrow_block (reg (FPCIE_CCR_BAR_ADDR0_REGS + n)) v x) = p) ->
  (forall x, let blk := narrow_block (reg (FPCIE_CCR_BAR_ADDR0_REGS + n)) v x in
     s = blk.(blk_size) \/ exists w, 0 <= w /\ s = wrap w blk.(blk_size)) ->
  exists inst' h' t', assign_bar (HW := L) inst (h, t) b d f n p s false = Ok (n, inst', (h', t')) /\
    evolves inst t inst' t' /\
    below (reg (FPCIE_CCR_BAR_ADDR0_REGS + n) + 4) (observe t').1.
Proof.
  intros Hu Hn Ho Hv Hp Hs. unfold assign_bar.
  destruct (allocate_cases inst p s) as [(addr & x & Ha)|(addr & Ha)]; rewrite Ha; simpl.
  - set (inst' := set_region _ _ _). pose proof (set_region_same inst p x : same_shape inst inst') as Hsame.
    destruct (write_logged inst' h t (FPCIE_CCR_BAR_ADDR0_REGS + n) (u32 addr)) as (h' & E);
      [by eapply usable_same|].
    rewrite E. simpl. eexists _, _, _. split; [done|].
    pose proof (observe_wr t (reg (FPCIE_CCR_BAR_ADDR0_REGS + n)) (u32 (u32 addr)) _ _ Idle
      [narrow_block (reg (FPCIE_CCR_BAR_ADDR0_REGS + n)) v (u32 (u32 addr))] Ho) as Ho'.
    rewrite Ho' by (simpl; by rewrite Z.eqb_refl). split; [|done].
    eapply (evolves_emit inst p s addr inst' (narrow_block _ v (u32 (u32 addr))));
      [exact Ha|apply Hp|apply Hs| |].
    + right. rewrite wrap_wrap by lia. unfold narrow_block. destruct (is_rom _), (io_bar v); done.
    + rewrite (observe_blocks _ _ _ Ho). apply observe_blocks with Idle. apply Ho'.
      simpl. by rewrite Z.eqb_refl.
  - eexists _, _, _. split; [done|]. split; [by apply evolves_quiet|].
    rewrite Ho. simpl. split; [lia|by left].
Qed.

Lemma halves a : u32 (Z.shiftr a 32) * 2 ^ 32 + u32 a = u64 a.
Proof.
  rewrite <-Z.shiftl_mul_pow2, <-lor_shiftl by (done || apply wrap_range; lia).
  bitwise i Hi. destruct (Z.leb_spec 32 i); simpl.
  - rewrite Z.shiftr_spec by lia. replace (i - 32 + 32) with i by lia.
    destruct (Z.ltb_spec i 32), (Z.ltb_spec (i - 32) 32), (Z.ltb_spec i 64); try lia; simpl;
      by rewrite ?orb_false_r.
  - rewrite (Z.testbit_neg_r _ (i - 32)) by lia. rewrite andb_false_r.
    by rewrite !(proj2 (Z.ltb_lt i _)) by lia.
Qed.

(** A BAR of 64 bits gets the two halves of its address. *)
Lemma assign_wide inst h t n p s v u bs :
  usable inst b -> 0 <= n <= 5 ->
  observe t = (SizedHi (reg (FPCIE_CCR_BAR_ADDR0_REGS + n)) v u, bs) ->
  (forall x, ptr_of inst (wide_block (reg (FPCIE_CCR_BAR_ADDR0_REGS + n)) v u x) = p) ->
  (forall x, s = wrap 64 (wide_block (reg (FPCIE_CCR_BAR_ADDR0_REGS + n)) v u x).(blk_size)) ->
  exists n' inst' h' t', assign_bar (HW := L) inst (h, t) b d f n p s true = Ok (n', inst', (h', t')) /\
    n <= n' <= n + 1 /\ evolves inst t inst' t' /\
    below (reg (FPCIE_CCR_BAR_ADDR0_REGS + n) + 4) (observe t').1.
Proof.
  intros Hu Hn Ho Hp Hs. unfold assign_bar.
  destruct (allocate_cases inst p s) as [(addr & x & Ha)|(addr & Ha)]; rewrite Ha; simpl.
  - set (inst' := set_region _ _ _). pose proof (set_region_same inst p x : same_shape inst inst') as Hsame.
    assert (usable inst' b) as Hu' by by eapply usable_same.
    destruct (write_logged inst' h t (FPCIE_CCR_BAR_ADDR0_REGS + n) (u32 addr) Hu') as (h' & E).
    rewrite E. simpl.
    set (t1 := t ++ _). destruct (write_logged inst' h' t1 (FPCIE_CCR_BAR_ADDR0_REGS + n + 1)
      (u32 (Z.shiftr addr 32)) Hu') as (h2 & ->). simpl.
    rewrite (wrap_small 32 (n + 1)) by lia.
    eexists _, _, _, _. split; [done|]. split; [lia|].
    pose proof (observe_wr t (reg (FPCIE_CCR_BAR_ADDR0_REGS + n)) (u32 (u32 addr)) _ _
      (Half (reg (FPCIE_CCR_BAR_ADDR0_REGS + n)) v u (u32 (u32 addr))) [] Ho) as Ho1.
    rewrite app_nil_r in Ho1. fold t1 in Ho1. specialize (Ho1 ltac:(simpl; by rewrite Z.eqb_refl)).
    set (blk := wide_block (reg (FPCIE_CCR_BAR_ADDR0_REGS + n)) v u (u64 addr)).
    assert (observe (t1 ++ [Wr (reg (FPCIE_CCR_BAR_ADDR0_REGS + n + 1))
      (u32 (u32 (Z.shiftr addr 32)))]) = (Idle, bs ++ [blk])) as Ho2.
    { apply (observe_wr _ _ _ _ _ _ _ Ho1). simpl.
      rewrite address_eqb_next by (unfold FPCIE_CCR_BAR_ADDR0_REGS; lia). rewrite Z.eqb_refl.
      rewrite !wrap_wrap by lia. unfold blk. by rewrite halves. }
    rewrite Ho2. split; [|done].
    eapply (evolves_emit inst p s addr inst' blk); [exact Ha|apply Hp| | |].
    + right. exists 64. split; [lia|]. apply Hs.
    + by left.
    + rewrite (observe_blocks _ _ _ Ho). by eapply observe_blocks.
  - eexists _, _, _, _. split; [done|]. split; [lia|]. split; [by apply evolves_quiet|].
    rewrite Ho. simpl. lia.
Qed.

Lemma narrow_io inst n v x : 0 <= n <= 5 -> io_bar v = true ->
  let blk := narrow_block (reg (FPCIE_CCR_BAR_ADDR0_REGS + n)) v x in
  ptr_of inst blk = MemIo /\ FPCIE_CCR_BAR_IO_SIZE v = blk.(blk_size).
Proof.
  intros Hn Hv. unfold narrow_block. destruct (bar_reg_probes n Hn) as (_ & -> & _).
  rewrite Hv. split; [done|]. apply io_size.
Qed.

Lemma narrow_mem inst n v x : 0 <= n <= 5 -> 0 <= v < 2 ^ 32 -> io_bar v = false -> wide_bar v = false ->
  let blk := narrow_block (reg (FPCIE_CCR_BAR_ADDR0_REGS + n)) v x in
  ptr_of inst blk = mem_region_of inst v /\
  u32 (FPCIE_CCR_BAR_MEM_SIZE v) = wrap 32 blk.(blk_size).
Proof.
  intros Hn Hv Hio Hw. unfold narrow_block. destruct (bar_reg_probes n Hn) as (_ & -> & _).
  rewrite Hio. split; [|by apply mem32_size].
  unfold ptr_of, mem_region_of. simpl. rewrite is_prefetch_spec, is_mem64_spec.
  unfold wide_bar in Hw. rewrite Hio in Hw. simpl in Hw. by rewrite Hw, orb_false_r.
Qed.

Lemma wide_mem inst n v u x : 0 <= v < 2 ^ 32 -> io_bar v = false -> wide_bar v = true ->
  let blk := wide_block (reg (FPCIE_CCR_BAR_ADDR0_REGS + n)) v u x in
  ptr_of inst blk = mem_region_of inst v /\
  FPCIE_CCR_BAR_MEM_SIZE (Z.lor (Z.shiftl u 32) v) = wrap 64 blk.(blk_size).
Proof.
  intros Hv Hio Hw. split; [|by apply mem64_size].
  unfold ptr_of, mem_region_of. simpl. rewrite is_prefetch_spec, is_mem64_spec.
  unfold wide_bar in Hw. rewrite Hio in Hw. simpl in Hw. by rewrite Hw, orb_true_r, andb_true_r.
Qed.

(** The probe of a BAR. *)
Lemma probe_bar inst h t n p bs : usable inst b -> 0 <= n <= 5 -> observe t = (p, bs) ->
  below (reg (FPCIE_CCR_BAR_ADDR0_REGS + n)) p ->
  exists h1 v h2 t2, 0 <= v < 2 ^ 32 /\
    FPcieEcamWriteConfigSpace (HW := L) inst (h, t) b d f (FPCIE_CCR_BAR_ADDR0_REGS + n)
      FPCIE_BAR_ADDR_MASK = Ok (FT_SUCCESS, h1) /\
    FPcieEcamReadConfigSpace (HW := L) inst h1 b d f (FPCIE_CCR_BAR_ADDR0_REGS + n) =
      Ok (FT_SUCCESS, v, (h2, t2)) /\
    observe t2 = (Sized (reg (FPCIE_CCR_BAR_ADDR0_REGS + n)) v, bs).
Proof.
  intros Hu Hn Ho Hp.
  destruct (write_logged inst h t (FPCIE_CCR_BAR_ADDR0_REGS + n) FPCIE_BAR_ADDR_MASK Hu)
    as (h1 & ->).
  set (t1 := t ++ _).
  destruct (read_logged inst h1 t1 (FPCIE_CCR_BAR_ADDR0_REGS + n) Hu) as (v & h2 & Hv & E).
  eexists _, v, h2, _. split; [done|]. split; [done|]. split; [exact E|].
  destruct (bar_reg_probes n Hn) as (_ & _ & Hpr).
  pose proof (observe_wr _ _ _ _ _ _ _ Ho (below_probe _ _ _ _ Hp (Z.le_refl _) Hpr)) as Ho1.
  rewrite app_nil_r in Ho1. fold t1 in Ho1. rewrite (observe_rd _ _ _ _ _ Ho1). simpl.
  by rewrite Z.eqb_refl.
Qed.

(** The probe of the upper half. *)
Lemma probe_upper inst h t n v bs : usable inst b -> 0 <= n <= 5 -> wide_bar v = true ->
  observe t = (Sized (reg (FPCIE_CCR_BAR_ADDR0_REGS + n)) v, bs) ->
  exists h1 u h2 t2, 0 <= u < 2 ^ 32 /\
    FPcieEcamWriteConfigSpace (HW := L) inst (h, t) b d f (FPCIE_CCR_BAR_ADDR0_REGS + n + 1)
      FPCIE_BAR_ADDR_MASK = Ok (FT_SUCCESS, h1) /\
    FPcieEcamReadConfigSpace (HW := L) inst h1 b d f (FPCIE_CCR_BAR_ADDR0_REGS + n + 1) =
      Ok (FT_SUCCESS, u, (h2, t2)) /\
    observe t2 = (SizedHi (reg (FPCIE_CCR_BAR_ADDR0_REGS + n)) v u, bs).
Proof.
  intros Hu Hn Hw Ho.
  destruct (write_logged inst h t (FPCIE_CCR_BAR_ADDR0_REGS + n + 1) FPCIE_BAR_ADDR_MASK Hu)
    as (h1 & ->).
  set (t1 := t ++ _).
  destruct (read_logged inst h1 t1 (FPCIE_CCR_BAR_ADDR0_REGS + n + 1) Hu) as (u & h2 & Hv & E).
  eexists _, u, h2, _. split; [done|]. split; [done|]. split; [exact E|].
  destruct (bar_reg_probes n Hn) as (Hbar & _ & _).
  assert (observe t1 = (ProbingHi (reg (FPCIE_CCR_BAR_ADDR0_REGS + n)) v, bs)) as Ho1.
  { rewrite <-(app_nil_r bs). apply (observe_wr _ _ _ _ _ _ _ Ho). simpl.
    unfold FPCIE_CCR_BAR_ADDR0_REGS in *.
    rewrite address_eqb, address_eqb_next, Z.eqb_refl by lia.
    replace (4 + n + 1 =? 4 + n) with false by lia. by rewrite Hbar, Hw. }
  rewrite (observe_rd _ _ _ _ _ Ho1). simpl.
  unfold FPCIE_CCR_BAR_ADDR0_REGS. rewrite address_eqb_next by lia. by rewrite Z.eqb_refl.
Qed.

Lemma evolves_quiet_trans inst t t1 inst' t' : blocks t1 = blocks t ->
  evolves inst t1 inst' t' -> evolves inst t inst' t'.
Proof. intros E. apply run_evolves_trans. by apply evolves_quiet. Qed.

Lemma bar_turn_ok inst h t n p bs cmd : usable inst b -> 0 <= n <= 5 -> observe t = (p, bs) ->
  below (reg (FPCIE_CCR_BAR_ADDR0_REGS + n)) p ->
  exists cmd' n' inst' h' t',
    bar_turn (HW := L) inst (h, t) b d f cmd n = Ok (FT_SUCCESS, cmd', n', inst', (h', t')) /\
    n <= n' <= n + 1 /\ evolves inst t inst' t' /\
    below (reg (FPCIE_CCR_BAR_ADDR0_REGS + n) + 4) (observe t').1.
Proof.
  intros Hu Hn Ho Hp. unfold bar_turn.
  destruct (probe_bar inst h t n p bs Hu Hn Ho Hp) as (h1 & v & h2 & t2 & Hv & -> & E & Ho2).
  simpl. rewrite E. simpl. change (FT_SUCCESS =? FT_SUCCESS) with true. cbn [negb].
  assert (blocks t2 = blocks t) as Eb
    by by rewrite (observe_blocks _ _ _ Ho), (observe_blocks _ _ _ Ho2).
  destruct (Z.eqb_spec v 0) as [->|Hv0].
  { eexists _, _, _, _, _. split; [done|]. split; [lia|]. split; [by apply evolves_quiet|].
    rewrite Ho2. simpl. split; [lia|by left]. }
  rewrite is_io_spec. destruct (io_bar v) eqn:Hio.
  - assert (wide_bar v = false) as Hw by (unfold wide_bar; by rewrite Hio).
    destruct (assign_narrow inst h2 t2 n MemIo (FPCIE_CCR_BAR_IO_SIZE v) v bs Hu Hn Ho2 Hw)
      as (inst' & h' & t' & -> & Hev & Hbel).
    { intros x. by apply narrow_io. }
    { intros x. left. by apply narrow_io. }
    simpl. eexists _, _, _, _, _. split; [done|]. split; [lia|].
    split; [by eapply evolves_quiet_trans|done].
  - unfold mem_bar_size. rewrite is_mem64_spec. destruct (Z.testbit v 2) eqn:H2.
    + assert (wide_bar v = true) as Hw by (unfold wide_bar; by rewrite Hio, H2).
      destruct (probe_upper inst h2 t2 n v bs Hu Hn Hw Ho2) as (h3 & u & h4 & t4 & Hu' & -> & E' & Ho4).
      simpl. rewrite E'. simpl.
      destruct (assign_wide inst h4 t4 n (mem_region_of inst v)
        (FPCIE_CCR_BAR_MEM_SIZE (Z.lor (Z.shiftl u 32) v)) v u bs Hu Hn Ho4)
        as (n' & inst' & h' & t' & -> & Hn' & Hev & Hbel).
      { intros x. by apply wide_mem. }
      { intros x. by apply (wide_mem inst). }
      simpl. eexists _, _, _, _, _. split; [done|]. split; [lia|]. split; [|done].
      eapply evolves_quiet_trans; [|done]. by rewrite (observe_blocks _ _ _ Ho4), <-Eb, (observe_blocks _ _ _ Ho2).
    + assert (wide_bar v = false) as Hw by (unfold wide_bar; by rewrite Hio, H2).
      simpl.
      destruct (assign_narrow inst h2 t2 n (mem_region_of inst v) (u32 (FPCIE_CCR_BAR_MEM_SIZE v)) v bs
        Hu Hn Ho2 Hw) as (inst' & h' & t' & -> & Hev & Hbel).
      { intros x. by apply narrow_mem. }
      { intros x. right. exists 32. split; [lia|]. by apply (narrow_mem inst). }
      simpl. eexists _, _, _, _, _. split; [done|]. split; [lia|].
      split; [by eapply evolves_quiet_trans|done].
Qed.

Lemma below_mono x y p : below x p -> x <= y -> below y p.
Proof. destruct p; simpl; try done; intros; try lia. split; [lia|tauto]. Qed.

Lemma reg_mono o o' : 0 <= o < 1024 -> 0 <= o' < 1024 -> o < o' -> reg o + 4 <= reg o'.
Proof. intros. rewrite !ecam_address by done. lia. Qed.

Lemma bar_loop_ok fuel : forall inst h t n cmd max, usable inst b -> 0 <= n <= 7 -> max <= 6 ->
  max - n <= Z.of_nat fuel -> below (reg (FPCIE_CCR_BAR_ADDR0_REGS + n)) (observe t).1 ->
  exists cmd' inst' h' t',
    bar_loop (HW := L) fuel inst (h, t) b d f cmd max n = Ok (FT_SUCCESS, cmd', inst', (h', t')) /\
    evolves inst t inst' t' /\ below (reg 0xb) (observe t').1.
Proof.
  induction fuel as [|fuel IH]; intros inst h t n cmd max Hu Hn Hmax Hf Hp; simpl;
    destruct (Z.leb_spec max n).
  1, 3: eexists _, _, _, _; split; [done|]; split; [by apply evolves_quiet|];
    eapply below_mono; [done|]; unfold FPCIE_CCR_BAR_ADDR0_REGS;
    destruct (Z.eq_dec n 7) as [->|]; [done|];
    pose proof (reg_mono (4 + n) 0xb ltac:(lia) ltac:(lia) ltac:(lia)); lia.
  { lia. }
  destruct (observe t) as [p bs] eqn:Ho.
  destruct (bar_turn_ok inst h t n p bs cmd Hu ltac:(lia) Ho Hp)
    as (cmd1 & n1 & inst1 & h1 & t1 & -> & Hn1 & Hev & Hb1). simpl.
  change (FT_SUCCESS =? FT_SUCCESS) with true. cbn [negb].
  rewrite (wrap_small 32 (n1 + 1)) by lia.
  destruct (IH inst1 h1 t1 (n1 + 1) cmd1 max) as (cmd2 & inst2 & h2 & t2 & -> & Hev2 & Hb2);
    [eapply usable_same; [apply Hev|done]|lia..| |].
  { eapply below_mono; [done|]. unfold FPCIE_CCR_BAR_ADDR0_REGS. apply reg_mono; lia. }
  eexists _, _, _, _. split; [done|]. split; [by eapply run_evolves_trans|done].
Qed.

(** The number of the register for the expansion ROM. *)
Definition rom_reg (header_type : Z) : Z :=
  if header_type =? FPCIE_CCR_HEAD_TYPE0 then FPCIE_CCR_TYPE0_EXPANSION_ROM_REGS
  else FPCIE_CCR_TYPE1_EXPANSION_ROM_REGS.

Lemma rom_reg_cases ht : rom_reg ht = 0xc \/ rom_reg ht = 0xe.
Proof. unfold rom_reg. case_match; [by left|by right]. Qed.

Lemma rom_reg_probes ht :
  is_bar (reg (rom_reg ht)) = false /\ is_rom (reg (rom_reg ht)) = true /\
  probes (reg (rom_reg ht)) (u32 0xfffffffe) = true.
Proof.
  unfold probes, is_bar, is_rom. destruct (rom_reg_cases ht) as [-> | ->];
    by rewrite !reg_index_address by lia.
Qed.

Lemma alloc_rom_ok inst h t ht cmd : usable inst b -> ht <> FPCIE_CCR_HEAD_TYPE2 ->
  below (reg 0xb) (observe t).1 ->
  exists cmd' inst' h' t',
    alloc_rom (HW := L) inst (h, t) ht b d f cmd = Ok (FT_SUCCESS, cmd', inst', (h', t')) /\
    evolves inst t inst' t' /\
    ((observe t').1 = Idle \/ exists v, (observe t').1 = Sized (reg (rom_reg ht)) v).
Proof.
  intros Hu Hht Hp. unfold alloc_rom. rewrite (proj2 (Z.eqb_neq _ _) Hht). fold (rom_reg ht).
  destruct (observe t) as [p bs] eqn:Ho.
  destruct (write_logged inst h t (rom_reg ht) 0xfffffffe Hu) as (h1 & ->). simpl.
  set (t1 := t ++ _).
  destruct (read_logged inst h1 t1 (rom_reg ht) Hu) as (v & h2 & Hv & ->). simpl.
  set (t2 := t1 ++ _). change (FT_SUCCESS =? FT_SUCCESS) with true. cbn [negb].
  destruct (rom_reg_probes ht) as (Hnb & Hrom & Hpr).
  assert (observe t2 = (Sized (reg (rom_reg ht)) v, bs)) as Ho2.
  { assert (reg 0xb <= reg (rom_reg ht)) as Hle.
    { destruct (rom_reg_cases ht) as [-> | ->];
        [pose proof (reg_mono 0xb 0xc)|pose proof (reg_mono 0xb 0xe)]; lia. }
    pose proof (observe_wr _ _ _ _ _ _ _ Ho (below_probe _ _ _ _ Hp Hle Hpr)) as Ho1.
    rewrite app_nil_r in Ho1. fold t1 in Ho1. unfold t2. rewrite (observe_rd _ _ _ _ _ Ho1). simpl.
    by rewrite Z.eqb_refl. }
  assert (blocks t2 = blocks t) as Eb
    by by rewrite (observe_blocks _ _ _ Ho), (observe_blocks _ _ _ Ho2).
  destruct (truth v).
  2: { eexists _, _, _, _. split; [done|]. split; [by apply evolves_quiet|]. right. exists v. by rewrite Ho2. }
  destruct (allocate_cases inst Mem (u32 (- Z.land v (lnotw 32 1)))) as [(addr & x & Ha)|(addr & Ha)];
    rewrite Ha; simpl.
  - set (inst' := set_mem _ _). pose proof (set_region_same inst Mem x : same_shape inst inst') as Hsame.
    destruct (write_logged inst' h2 t2 (rom_reg ht) (u32 addr)) as (h3 & ->);
      [by eapply usable_same|]. simpl.
    eexists _, _, _, _. split; [done|].
    set (blk := narrow_block (reg (rom_reg ht)) v (u32 (u32 addr))).
    assert (observe (t2 ++ [Wr (reg (rom_reg ht)) (u32 (u32 addr))]) = (Idle, bs ++ [blk])) as Ho3.
    { apply (observe_wr _ _ _ _ _ _ _ Ho2). simpl. by rewrite Z.eqb_refl. }
    rewrite Ho3. split; [|by left].
    eapply (evolves_quiet_trans _ _ t2); [done|].
    assert (blk = mkBlock (reg (rom_reg ht)) Rom false (u32 addr) (2 ^ 32 - Z.land v 0xfffffffe)) as Hblk.
    { unfold blk, narrow_block. by rewrite Hrom, wrap_wrap by lia. }
    eapply (evolves_emit inst Mem _ addr inst' blk); rewrite ?Hblk; [exact Ha|done| | |].
    + right. exists 32. split; [lia|]. apply rom_size.
    + right. done.
    + rewrite (observe_blocks _ _ _ Ho2), <-Hblk. by eapply observe_blocks.
  - eexists _, _, _, _. split; [done|]. split; [by apply evolves_quiet|]. right. exists v. by rewrite Ho2.
Qed.

(** Between the functions of the driver a reader of the log waits for nothing they do. *)
Definition settled (p : pending) : Prop :=
  p = Idle \/ exists l, p = Probing l /\ 6 < reg_index l.

Lemma settled_read p o v : settled p -> 0 <= o <= 6 -> observe_read p (reg o) v = Idle.
Proof.
  intros [->|(l & -> & Hl)] Ho; [done|]. simpl. destruct (Z.eqb_spec (reg o) l) as [<-|]; [|done].
  rewrite reg_index_address in Hl by lia. lia.
Qed.

Lemma idle_write o x : 0 <= o < 4 -> observe_write Idle (reg o) x = (Idle, []).
Proof.
  intros Ho. simpl. unfold restart, probes, is_bar, is_rom. rewrite reg_index_address by lia.
  replace (4 <=? o) with false by lia. replace (o =? 0xc) with false by lia.
  by replace (o =? 0xe) with false by lia.
Qed.

Lemma rom_pending_write ht p o x : (p = Idle \/ exists v, p = Sized (reg (rom_reg ht)) v) ->
  0 <= o < 4 -> observe_write p (reg o) x = (Idle, []).
Proof.
  intros [->|(v & ->)] Ho; [by apply idle_write|]. simpl.
  destruct (rom_reg_probes ht) as (-> & _). pose proof (rom_reg_cases ht).
  rewrite address_eqb by lia. replace (o =? rom_reg ht) with false by lia.
  rewrite andb_false_r. simpl. by apply (idle_write o x).
Qed.

(** On a bus the controller has not, no access is made. *)
Lemma read_exceed inst (s : @hw L) o : ready inst = true -> inst.(config).(max_bus_num) < b ->
  FPcieEcamReadConfigSpace (HW := L) inst s b d f o =
    Ok (FPCIE_EXCEED_BUS, FPCIE_CCR_INVALID_DATA, s).
Proof.
  intros Hr Hb. unfold FPcieEcamReadConfigSpace. rewrite Hr. by rewrite (proj2 (Z.ltb_lt _ _) Hb).
Qed.

Lemma alloc_ok inst h t ht : ready inst = true -> ht <> FPCIE_CCR_HEAD_TYPE2 ->
  settled (observe t).1 -> exists ret inst' h' t',
    FPcieAllocBarSpace (HW := L) inst (h, t) ht b d f = Ok (ret, inst', (h', t')) /\
    evolves inst t inst' t' /\ settled (observe t').1.
Proof.
  intros Hr Hht Hs. unfold FPcieAllocBarSpace.
  destruct (Z.ltb_spec inst.(config).(max_bus_num) b) as [Hb|Hb].
  { rewrite read_exceed by done. simpl. eexists _, _, _, _. split; [done|].
    split; [by apply evolves_quiet|done]. }
  assert (usable inst b) as Hu by done.
  destruct (read_logged inst h t FPCIE_CCR_CMD_STATUS_REGS Hu) as (cmd & h1 & _ & ->). simpl.
  destruct (observe t) as [p bs] eqn:Ho. set (t1 := t ++ _).
  assert (observe t1 = (Idle, bs)) as Ho1.
  { unfold t1. rewrite (observe_rd _ _ _ _ _ Ho). f_equal.
    by apply (settled_read p 1). }
  destruct (bar_loop_ok (Z.to_nat (if ht =? FPCIE_CCR_HEAD_TYPE0 then 6 else 2)) inst h1 t1 0
    (mask_cmd cmd) (if ht =? FPCIE_CCR_HEAD_TYPE0 then 6 else 2))
    as (cmd2 & inst2 & h2 & t2 & -> & Hev2 & Hb2); [done|lia|case_match; lia|case_match; lia| |].
  { by rewrite Ho1. }
  simpl. change (FT_SUCCESS =? FT_SUCCESS) with true. cbn [negb].
  assert (usable inst2 b) as Hu2 by (eapply usable_same; [apply Hev2|done]).
  destruct (alloc_rom_ok inst2 h2 t2 ht cmd2 Hu2 Hht Hb2)
    as (cmd3 & inst3 & h3 & t3 & -> & Hev3 & Hp3). simpl.
  change (FT_SUCCESS =? FT_SUCCESS) with true. cbn [negb].
  assert (usable inst3 b) as Hu3 by (eapply usable_same; [apply Hev3|done]).
  destruct (write_logged inst3 h3 t3 FPCIE_CCR_CMD_STATUS_REGS cmd3 Hu3) as (h4 & ->). simpl.
  set (t4 := t3 ++ _).
  destruct (read_logged inst3 h4 t4 FPCIE_CCR_CLS_LT_HT_REGS Hu3) as (cls & h5 & _ & ->). simpl.
  change (FT_SUCCESS =? FT_SUCCESS) with true. cbn [negb]. set (t5 := t4 ++ _).
  destruct (write_logged inst3 h5 t5 FPCIE_CCR_CLS_LT_HT_REGS
    (Z.lor (Z.lor (FPCIE_CCR_CACHELINE_MASK 8) (FPCIE_CCR_LATENCY_TIMER_MASK 0x8))
       (Z.land cls (lnotw 32 (Z.lor (FPCIE_CCR_CACHELINE_MASK 0xf)
          (FPCIE_CCR_LATENCY_TIMER_MASK 0xf)))))) as (h6 & E6); [done|].
  rewrite E6. simpl. eexists _, _, _, _. split; [done|].
  destruct (observe t3) as [p3 bs3] eqn:Ho3.
  assert (observe t4 = (Idle, bs3)) as Ho4.
  { unfold t4. rewrite <-(app_nil_r bs3). apply (observe_wr _ _ _ _ _ _ _ Ho3).
    by apply (rom_pending_write ht p3 1). }
  assert (observe t5 = (Idle, bs3)) as Ho5 by (unfold t5; by rewrite (observe_rd _ _ _ _ _ Ho4)).
  set (t6 := t5 ++ _).
  assert (observe t6 = (Idle, bs3)) as Ho6.
  { unfold t6. rewrite <-(app_nil_r bs3). apply (observe_wr _ _ _ _ _ _ _ Ho5).
    by apply (idle_write 3). }
  split; [|by left; rewrite Ho6].
  eapply evolves_quiet_trans; [|eapply run_evolves_trans; [exact Hev2|eapply run_evolves_trans; [exact Hev3|]]].
  - by rewrite (observe_blocks _ _ _ Ho), (observe_blocks _ _ _ Ho1).
  - apply evolves_quiet. by rewrite (observe_blocks _ _ _ Ho3), (observe_blocks _ _ _ Ho6).
Qed.
End Bars.
