(* ===== verification/PcieBar.v ===== *)
(** Reading back a base address register (Pcie.v): the registers it changes on the way
    have their old values afterwards, and what it reports. *)
From S2P Require Import Prelude Mmio Pcie PcieRegion PcieTrace PcieSim PcieSafety.
Import Pcie.

Arguments lnotw : simpl never.
Arguments Z.lor : simpl never.
Arguments Z.land : simpl never.
Arguments Z.shiftl : simpl never.
Arguments Z.shiftr : simpl never.
Arguments Z.pow : simpl never.
Arguments Z.mul : simpl never.
Arguments Z.add : simpl never.
Arguments Z.sub : simpl never.
Arguments Z.testbit : simpl never.

(** ** The first value read from a register and the last one written to it *)
Definition last_written (t : list event) (loc : Z) : option Z :=
  foldl (fun w e => match e with Wr l v => if l =? loc then Some v else w | Rd _ _ => w end) None t.
Fixpoint first_read (t : list event) (loc : Z) : option Z :=
  match t with
  | [] => None
  | Rd l v :: t => if l =? loc then Some v else first_read t loc
  | Wr _ _ :: t => first_read t loc
  end.

(** A log that leaves every register it writes with the value first read from it. *)
Definition restores (t : list event) : Prop :=
  forall loc, last_written t loc = None \/ last_written t loc = first_read t loc.

Section GetBar.
Context (H : MmioHw) (b d f : Z).
Abbreviation L := (logged H).
Abbreviation reg o := (FPcieGetEcamConfigAddress b d f o).

Ltac step_read Hu v h E :=
  lazymatch goal with
  | |- context [FPcieEcamReadConfigSpace (HW := L) ?i (?h0, ?t0) _ _ _ ?o] =>
      destruct (read_logged H b d f i h0 t0 o Hu) as (v & h & E & ->); simpl
  end.
Ltac step_write Hu h :=
  lazymatch goal with
  | |- context [FPcieEcamWriteConfigSpace (HW := L) ?i (?h0, ?t0) _ _ _ ?o ?x] =>
      destruct (write_logged H b d f i h0 t0 o x Hu) as (h & ->); simpl
  end.

(** The registers written are those of the BAR and the command register. *)
Ltac finish_restores o :=
  intros [= <- <- <- <-] loc; unfold last_written; simpl; repeat rewrite wrap_small by assumption;
  unfold FPCIE_CCR_CMD_STATUS_REGS in *;
  destruct (Z.eqb_spec (reg 1) loc) as [<-|];
    [right; rewrite !address_eqb by lia; by decide_cmp|];
  destruct (Z.eqb_spec (reg o) loc) as [<-|];
    [right; rewrite ?address_eqb by lia; by decide_cmp|];
  try (destruct (Z.eqb_spec (reg (o + 1)) loc) as [<-|];
    [right; rewrite ?address_eqb by lia; by decide_cmp|]); by left.

(** C23: However a look at a BAR ends, every register it has written has the value again
    that was first read from it. *)
Theorem FPcieEcamGetBar_restores inst h i bar ret bar' h' t' : usable inst b -> 0 <= i <= 5 ->
  FPcieEcamGetBar (HW := L) inst (h, []) b d f i bar = Ok (ret, bar', (h', t')) -> restores t'.
Proof.
  intros Hu Hi. unfold FPcieEcamGetBar, FPCIE_CCR_BAR_ADDR5_REGS, FPCIE_CCR_BAR_ADDR0_REGS.
  rewrite (wrap_small 32 (i + 4)) by lia. set (o := i + 4).
  assert (4 <= o <= 9) as Ho by lia. clearbody o.
  rewrite (proj2 (Z.ltb_ge 9 o)) by lia.
  step_read Hu v h1 Hv. change (FT_SUCCESS =? FT_SUCCESS) with true. cbn [negb].
  destruct (FPCIE_CONF_BAR_MEM v && FPCIE_CONF_BAR_64 v); cbn [andb].
  - destruct (Z.leb_spec 9 o); [by intros [= <- <- <- <-] loc; left|].
    rewrite (wrap_small 32 (o + 1)) by lia. step_read Hu u h2 Hu2.
    destruct (FPCIE_CONF_BAR_INVAL_FLAGS v); [by intros [= <- <- <- <-] loc; left|].
    step_read Hu c h3 Hc. step_write Hu h4. unfold get_bar_probe. step_write Hu h5.
    rewrite (wrap_small 32 (o + 1)) by lia. step_write Hu h6.
    step_read Hu v2 h7 Hv2. step_read Hu u2 h8 Hu2'. step_write Hu h9. step_write Hu h10.
    unfold get_bar_exit. step_write Hu h11. finish_restores o.
  - simpl. destruct (FPCIE_CONF_BAR_INVAL_FLAGS v); [by intros [= <- <- <- <-] loc; left|].
    step_read Hu c h3 Hc. step_write Hu h4. unfold get_bar_probe. step_write Hu h5.
    step_read Hu v2 h7 Hv2. destruct (FPCIE_CONF_BAR_IO v2); simpl; step_write Hu h9;
      unfold get_bar_exit; step_write Hu h11; finish_restores o.
Qed.
End GetBar.

(** The second BAR of the function on bus 0 of the simulated bus: 32 bytes for I/O. *)
Lemma FPcieEcamGetBar_restores_witness : exists bar h t,
  FPcieEcamGetBar (HW := logged sim_hw) sim_instance (sim_write sim_reset 0x8014 0x50000021, []) 0 1 0 1
    (mkBarInfo 0 0 0 0) = Ok (FT_SUCCESS, bar, (h, t)) /\
  bar = mkBarInfo 0x50000020 32 0 MEM_TYPE_IO /\ restores t.
Proof.
  destruct (FPcieEcamGetBar (HW := logged sim_hw) sim_instance
    (sim_write sim_reset 0x8014 0x50000021, []) 0 1 0 1 (mkBarInfo 0 0 0 0))
    as [[[ret bar] [h t]]|] eqn:E; [|exfalso; vm_compute in E; discriminate].
  assert (ret = FT_SUCCESS /\ bar = mkBarInfo 0x50000020 32 0 MEM_TYPE_IO) as [-> ->].
  { vm_compute in E. by injection E as <- <- _ _. }
  exists (mkBarInfo 0x50000020 32 0 MEM_TYPE_IO), h, t. split; [done|]. split; [done|].
  refine (FPcieEcamGetBar_restores sim_hw 0 1 0 sim_instance _ 1 _ _ _ _ _ _ _ E).
  - split; [reflexivity|vm_compute; discriminate].
  - lia.
Defined.
