(* ===== verification/PcieBridge.v ===== *)
(** Bridges and the enumeration on a logged bus (PcieTrace.v): what they do to the
    regions, and that the blocks assigned behind a bridge lie in its windows. *)
From S2P Require Import Prelude Mmio Pcie PcieRegion PcieTrace PcieSafety.
Import Pcie.

Arguments lnotw : simpl never.
Arguments Z.lor : simpl never.
Arguments Z.land : simpl never.
Arguments Z.shiftl : simpl never.
Arguments Z.shiftr : simpl never.
Arguments Z.pow : simpl never.
Arguments Z.mul : simpl never.
Arguments Z.add : simpl never.
Arguments Z.sub : simpl never.
Arguments Z.testbit : simpl never.

Section Bridge.
Context (H : MmioHw) (b d f : Z).
Abbreviation L := (logged H).
Abbreviation reg o := (FPcieGetEcamConfigAddress b d f o).

(** A reader of the log has seen [bs], and waits at most for an answer of a register
    numbered [r]. *)
Definition calm (r : Z) (t : list event) (bs : list block) : Prop :=
  exists p, observe t = (p, bs) /\ (p = Idle \/ exists l, p = Probing l /\ reg_index l = r).

Lemma calm_blocks r t bs : calm r t bs -> blocks t = bs.
Proof. intros (p & E & _). by eapply observe_blocks. Qed.

Lemma calm_settled r t bs : calm r t bs -> 6 < r -> settled (observe t).1.
Proof.
  intros (p & -> & Hp) Hr. destruct Hp as [->|(l & -> & Hl)]; [by left|].
  right. exists l. split; [done|]. lia.
Qed.

Lemma calm_read r t bs o v : calm r t bs -> r <> o -> 0 <= o < 1024 ->
  observe (t ++ [Rd (reg o) v]) = (Idle, bs).
Proof.
  intros (p & E & Hp) Hr Ho. rewrite (observe_rd _ _ _ _ _ E). f_equal.
  destruct Hp as [->|(l & -> & Hl)]; [done|]. simpl.
  destruct (Z.eqb_spec (reg o) l) as [<-|]; [|done]. by rewrite reg_index_address in Hl.
Qed.

Lemma idle_calm r t bs : observe t = (Idle, bs) -> calm r t bs.
Proof. intros E. exists Idle. split; [done|by left]. Qed.

Lemma calm_write inst h r t bs o x : usable inst b -> calm r t bs -> 0 <= o < 1024 ->
  exists h' t', FPcieEcamWriteConfigSpace (HW := L) inst (h, t) b d f o x = Ok (FT_SUCCESS, (h', t')) /\
    calm o t' bs /\ (o < 4 -> observe t' = (Idle, bs)).
Proof.
  intros Hu (p & E & Hp) Ho. destruct (write_logged H b d f inst h t o x Hu) as (h' & ->).
  eexists _, _. split; [done|].
  assert (observe_write p (reg o) (u32 x) = (restart (reg o) (u32 x), [])) as Hw
    by (destruct Hp as [->|(l & -> & _)]; done).
  pose proof (observe_wr _ _ _ _ _ _ _ E Hw) as E'. rewrite app_nil_r in E'. split.
  - exists (restart (reg o) (u32 x)). split; [done|]. unfold restart.
    case_match; [right|by left]. exists (reg o). split; [done|]. by apply reg_index_address.
  - intros Ho4. rewrite E'. f_equal.
    pose proof (idle_write b d f o (u32 x) ltac:(lia)) as Hi. simpl in Hi. congruence.
Qed.

(** An update of a register the reader of the log does not wait for. *)
Lemma quiet_update inst h t p bs o clear set : usable inst b -> 0 <= o < 1024 ->
  observe t = (p, bs) -> (forall v, observe_read p (reg o) v = Idle) ->
  exists h' t', calm o t' bs /\
    forall A (failed next : @hw L -> res A),
      update_reg (HW := L) inst (h, t) b d f o clear set failed next = next (h', t').
Proof.
  intros Hu Ho E Hp. unfold update_reg.
  destruct (read_logged H b d f inst h t o Hu) as (v & h1 & _ & ->). simpl.
  set (t1 := t ++ _).
  assert (observe t1 = (Idle, bs)) as E1 by (unfold t1; by rewrite (observe_rd _ _ _ _ _ E), Hp).
  change (FT_SUCCESS =? FT_SUCCESS) with true. cbn [negb].
  destruct (calm_write inst h1 o t1 bs o (Z.lor (Z.land v (lnotw 32 clear)) set) Hu)
    as (h2 & t2 & -> & Hc & _); [by apply idle_calm|done|]. eauto.
Qed.

Lemma calm_update inst h r t bs o clear set : usable inst b -> 0 <= o < 1024 -> calm r t bs ->
  r <> o -> exists h' t', calm o t' bs /\
    forall A (failed next : @hw L -> res A),
      update_reg (HW := L) inst (h, t) b d f o clear set failed next = next (h', t').
Proof.
  intros Hu Ho (p & E & Hp) Hr. eapply quiet_update; [done..|]. intros v.
  pose proof (calm_read r t bs o v) as Hc. rewrite (observe_rd _ _ _ _ _ E) in Hc.
  assert (calm r t bs) as Hcalm by by exists p.
  specialize (Hc Hcalm Hr Ho). congruence.
Qed.

(** One update or write of the driver. *)
Ltac do_update Hu Hc h t Hc' :=
  lazymatch goal with
  | |- context [update_reg (HW := L) ?i (?h0, ?t0) _ _ _ ?o ?c ?s _ _] =>
      destruct (calm_update i h0 _ t0 _ o c s Hu ltac:(done) Hc
                  ltac:(solve [done | assumption])) as (h & t & Hc' & ->)
  end.
Ltac do_write Hu Hc h t Hc' Ho :=
  lazymatch goal with
  | |- context [FPcieEcamWriteConfigSpace (HW := L) ?i (?h0, ?t0) _ _ _ ?o ?x] =>
      destruct (calm_write i h0 _ t0 _ o x Hu Hc ltac:(done)) as (h & t & -> & Hc' & Ho);
      simpl
  end.

(** The writes for a prefetchable window of 64 bits. *)
Ltac split_optional p64 bs h t r Hc Hr :=
  lazymatch goal with
  | |- context [rbind (if truth p64 then ?A else ?B) _] =>
      assert (exists h0 t0 r0, (if truth p64 then A else B) = Ok (h0, t0) /\
                calm r0 t0 bs /\ r0 <> 7) as (h & t & r & -> & Hc & Hr)
  end.

(** The three windows before the buses behind the bridge are enumerated. *)
Lemma prescan_io_ok inst h r t bs cmd : usable inst b -> calm r t bs -> r <> 7 ->
  exists inst' h' t', prescan_io (HW := L) inst (h, t) b d f cmd = Ok (inst', (h', t')) /\
    evolves inst t inst' t' /\ observe t' = (Idle, bs).
Proof.
  intros Hu Hc Hr. unfold prescan_io. destruct (exists_region _).
  - set (inst1 := set_io _ _). pose proof (usable_same inst inst1 b ltac:(done) Hu) as Hu1.
    do_update Hu1 Hc h2 t2 Hc2. do_update Hu1 Hc2 h3 t3 Hc3.
    do_write Hu1 Hc3 h4 t4 Hc4 Ho4. eexists _, _, _. split; [done|].
    specialize (Ho4 ltac:(done)). split; [|done]. apply (evolves_align inst MemIo 12); [lia|].
    by rewrite (calm_blocks _ _ _ Hc), (observe_blocks _ _ _ Ho4).
  - do_write Hu Hc h4 t4 Hc4 Ho4. eexists _, _, _. split; [done|].
    specialize (Ho4 ltac:(done)). split; [|done]. apply evolves_quiet.
    by rewrite (calm_blocks _ _ _ Hc), (observe_blocks _ _ _ Ho4).
Qed.

Lemma prescan_prefetch_ok inst h r t bs cmd p64 : usable inst b -> calm r t bs -> r <> 7 -> r <> 9 ->
  exists inst' h' t', prescan_prefetch (HW := L) inst (h, t) b d f cmd p64 = Ok (inst', (h', t')) /\
    evolves inst t inst' t' /\ observe t' = (Idle, bs).
Proof.
  intros Hu Hc Hr7 Hr9. unfold prescan_prefetch. destruct (exists_region _).
  - set (inst1 := set_prefetch _ _). pose proof (usable_same inst inst1 b ltac:(done) Hu) as Hu1.
    do_update Hu1 Hc h2 t2 Hc2.
    split_optional p64 bs h3 t3 r3 Hc3 Hr3.
    { destruct (truth p64); [|by eexists _, _, _].
      do_write Hu1 Hc2 h3 t3 Hc3 Ho3. by eexists _, _, _. }
    simpl. destruct (prescan_io_ok inst1 h3 r3 t3 bs
      (Z.lor cmd FPCIE_CCR_CMD_MEMORY_ACCESS_ENABLED) Hu1 Hc3 Hr3)
      as (inst' & h' & t' & -> & Hev & Ho). eexists _, _, _. split; [done|]. split; [|done].
    eapply run_evolves_trans; [|exact Hev]. apply (evolves_align inst MemPrefetch 20); [lia|].
    by rewrite (calm_blocks _ _ _ Hc), (calm_blocks _ _ _ Hc3).
  - do_write Hu Hc h2 t2 Hc2 Ho2.
    split_optional p64 bs h3 t3 r3 Hc3 Hr3.
    { destruct (truth p64); [|by eexists _, _, _].
      do_write Hu Hc2 h3 t3 Hc3 Ho3. do_write Hu Hc3 h4 t4 Hc4 Ho4. by eexists _, _, _. }
    simpl. destruct (prescan_io_ok inst h3 r3 t3 bs cmd Hu Hc3 Hr3)
      as (inst' & h' & t' & -> & Hev & Ho). eexists _, _, _. split; [done|]. split; [|done].
    eapply evolves_quiet_trans; [|exact Hev].
    by rewrite (calm_blocks _ _ _ Hc), (calm_blocks _ _ _ Hc3).
Qed.

Lemma prescan_mem_ok inst h r t bs cmd p64 : usable inst b -> calm r t bs -> r < 7 ->
  exists inst' h' t', prescan_mem (HW := L) inst (h, t) b d f cmd p64 = Ok (inst', (h', t')) /\
    evolves inst t inst' t' /\ observe t' = (Idle, bs).
Proof.
  intros Hu Hc Hr. unfold prescan_mem. assert (r <> 8) by lia. destruct (exists_region _).
  - set (inst1 := set_mem _ _). pose proof (usable_same inst inst1 b ltac:(done) Hu) as Hu1.
    do_update Hu1 Hc h2 t2 Hc2.
    destruct (prescan_prefetch_ok inst1 h2 _ t2 bs (Z.lor cmd FPCIE_CCR_CMD_MEMORY_ACCESS_ENABLED) p64
      Hu1 Hc2 ltac:(done) ltac:(done)) as (inst' & h' & t' & -> & Hev & Ho).
    eexists _, _, _. split; [done|]. split; [|done].
    eapply run_evolves_trans; [|exact Hev]. apply (evolves_align inst Mem 20); [lia|].
    by rewrite (calm_blocks _ _ _ Hc), (calm_blocks _ _ _ Hc2).
  - apply (prescan_prefetch_ok inst h r t bs cmd p64 Hu Hc); lia.
Qed.

Lemma prescan_ok inst h t sec : ready inst = true -> settled (observe t).1 ->
  exists inst' h' t', FPciePreScanSetupBridge (HW := L) inst (h, t) sec b d f = Ok (inst', (h', t')) /\
    evolves inst t inst' t' /\ settled (observe t').1 /\ blocks t' = blocks t.
Proof.
  intros Hr Hs. unfold FPciePreScanSetupBridge.
  destruct (Z.ltb_spec inst.(config).(max_bus_num) b) as [Hb|Hb].
  { rewrite read_exceed by done. simpl. eexists _, _, _. split; [done|].
    split; [by apply evolves_quiet|done]. }
  assert (usable inst b) as Hu by done. destruct (observe t) as [p bs] eqn:Ho.
  destruct (read_logged H b d f inst h t FPCIE_CCR_CMD_STATUS_REGS Hu) as (cmd & h1 & _ & ->). simpl.
  set (t1 := t ++ _).
  assert (observe t1 = (Idle, bs)) as Ho1.
  { unfold t1. rewrite (observe_rd _ _ _ _ _ Ho). f_equal. by apply (settled_read b d f p 1). }
  destruct (read_logged H b d f inst h1 t1 FPCIE_CCR_PMEMB_PMEML_REGS Hu) as (p64 & h2 & _ & ->). simpl.
  change (FT_SUCCESS =? FT_SUCCESS) with true. cbn [negb]. set (t2 := t1 ++ _).
  assert (observe t2 = (Idle, bs)) as Ho2 by (unfold t2; by rewrite (observe_rd _ _ _ _ _ Ho1)).
  pose proof (idle_calm 0 t2 bs Ho2) as Hc2. do_write Hu Hc2 h3 t3 Hc3 Ho3.
  destruct (prescan_mem_ok inst h3 6 t3 bs cmd (Z.land p64 FPCIE_CCR_PMEMB_64BIT_MASK) Hu Hc3 ltac:(done))
    as (inst' & h' & t' & E & Hev & Ho'). rewrite E. eexists _, _, _. split; [done|].
  rewrite (observe_blocks _ _ _ Ho'), (observe_blocks _ _ _ Ho), Ho'.
  split; [|split; [by left|done]]. eapply evolves_quiet_trans; [|exact Hev].
  by rewrite (observe_blocks _ _ _ Ho), (calm_blocks _ _ _ Hc3).
Qed.

(** The windows after them. *)
Lemma postscan_io_ok inst h r t bs : usable inst b -> calm r t bs -> 7 < r \/ observe t = (Idle, bs) ->
  exists inst' h' t', postscan_io (HW := L) inst (h, t) b d f = Ok (inst', (h', t')) /\
    evolves inst t inst' t' /\ settled (observe t').1 /\ blocks t' = blocks t.
Proof.
  intros Hu Hc Hr.
  assert (exists r', calm r' t bs /\ 7 < r') as (r' & Hc' & Hr').
  { destruct Hr as [Hr|Hr]; [by exists r|]. exists 8. split; [by apply idle_calm|done]. }
  assert (r' <> 7) by lia. unfold postscan_io. destruct (exists_region _).
  - set (inst1 := set_io _ _). pose proof (usable_same inst inst1 b ltac:(done) Hu) as Hu1.
    do_update Hu1 Hc' h2 t2 Hc2. do_update Hu1 Hc2 h3 t3 Hc3.
    assert (blocks t3 = blocks t) as Eb
      by by rewrite (calm_blocks _ _ _ Hc), (calm_blocks _ _ _ Hc3).
    eexists _, _, _. split; [done|]. split; [|split; [by eapply calm_settled|done]].
    apply (evolves_align inst MemIo 12); [lia|done].
  - eexists _, _, _. split; [done|]. split; [by apply evolves_quiet|]. split; [|done].
    eapply calm_settled; [done|lia].
Qed.

Lemma postscan_prefetch_ok inst h r t bs p64 : usable inst b -> calm r t bs ->
  r = 8 \/ observe t = (Idle, bs) ->
  exists inst' h' t', postscan_prefetch (HW := L) inst (h, t) b d f p64 = Ok (inst', (h', t')) /\
    evolves inst t inst' t' /\ settled (observe t').1 /\ blocks t' = blocks t.
Proof.
  intros Hu Hc Hr. unfold postscan_prefetch.
  assert (calm 8 t bs) as Hc8 by (destruct Hr as [->|Hr]; [done|by apply idle_calm]).
  destruct (exists_region _).
  - set (inst1 := set_prefetch _ _). pose proof (usable_same inst inst1 b ltac:(done) Hu) as Hu1.
    do_update Hu1 Hc8 h2 t2 Hc2. do_write Hu1 Hc2 h3 t3 Hc3 Ho3.
    destruct (postscan_io_ok inst1 h3 _ t3 bs Hu1 Hc3 (or_introl eq_refl))
      as (inst' & h' & t' & -> & Hev & Hs & Eb).
    eexists _, _, _. split; [done|].
    rewrite Eb, (calm_blocks _ _ _ Hc), (calm_blocks _ _ _ Hc3). split; [|done].
    eapply run_evolves_trans; [|exact Hev]. apply (evolves_align inst MemPrefetch 20); [lia|].
    by rewrite (calm_blocks _ _ _ Hc), (calm_blocks _ _ _ Hc3).
  - by apply (postscan_io_ok inst h 8 t bs Hu Hc8); left.
Qed.

Lemma postscan_mem_ok inst h t bs p64 : usable inst b -> observe t = (Idle, bs) ->
  exists inst' h' t', postscan_mem (HW := L) inst (h, t) b d f p64 = Ok (inst', (h', t')) /\
    evolves inst t inst' t' /\ settled (observe t').1 /\ blocks t' = blocks t.
Proof.
  intros Hu Ho. pose proof (idle_calm 0 t bs Ho) as Hc. unfold postscan_mem. destruct (exists_region _).
  - set (inst1 := set_mem _ _). pose proof (usable_same inst inst1 b ltac:(done) Hu) as Hu1.
    do_update Hu1 Hc h2 t2 Hc2.
    destruct (postscan_prefetch_ok inst1 h2 _ t2 bs p64 Hu1 Hc2 (or_introl eq_refl))
      as (inst' & h' & t' & -> & Hev & Hs & Eb).
    eexists _, _, _. split; [done|].
    rewrite Eb, (calm_blocks _ _ _ Hc), (calm_blocks _ _ _ Hc2). split; [|done].
    eapply run_evolves_trans; [|exact Hev]. apply (evolves_align inst Mem 20); [lia|].
    by rewrite (calm_blocks _ _ _ Hc), (calm_blocks _ _ _ Hc2).
  - apply (postscan_prefetch_ok inst h 0 t bs p64 Hu Hc). by right.
Qed.

Lemma postscan_ok inst h t sub : ready inst = true -> settled (observe t).1 ->
  exists inst' h' t', FPciePostscanSetupBridge (HW := L) inst (h, t) sub b d f = Ok (inst', (h', t')) /\
    evolves inst t inst' t' /\ settled (observe t').1 /\ blocks t' = blocks t.
Proof.
  intros Hr Hs. unfold FPciePostscanSetupBridge.
  destruct (Z.ltb_spec inst.(config).(max_bus_num) b) as [Hb|Hb].
  { unfold update_reg. rewrite read_exceed by done. simpl. eexists _, _, _. split; [done|].
    split; [by apply evolves_quiet|done]. }
  assert (usable inst b) as Hu by done. destruct (observe t) as [p bs] eqn:Ho.
  destruct (quiet_update inst h t p bs FPCIE_CCR_PB_SEC_SUB_SECL_REGS (FPCIE_CCR_SUB_NUM_MASK 0xff)
    (FPCIE_CCR_SUB_NUM_MASK sub) Hu ltac:(done) Ho) as (h1 & t1 & Hc1 & ->).
  { intros v. by apply (settled_read b d f p 6). }
  destruct (read_logged H b d f inst h1 t1 FPCIE_CCR_PMEMB_PMEML_REGS Hu) as (p64 & h2 & _ & ->). simpl.
  change (FT_SUCCESS =? FT_SUCCESS) with true. cbn [negb]. set (t2 := t1 ++ _).
  assert (observe t2 = (Idle, bs)) as Ho2 by by eapply calm_read.
  destruct (postscan_mem_ok inst h2 t2 bs (Z.land p64 FPCIE_CCR_PMEMB_64BIT_MASK) Hu Ho2)
    as (inst' & h' & t' & E & Hev & Hs' & Eb). rewrite E. eexists _, _, _. split; [done|].
  rewrite Eb, (observe_blocks _ _ _ Ho), (observe_blocks _ _ _ Ho2). split; [|done]. eapply evolves_quiet_trans; [|exact Hev].
  by rewrite (observe_blocks _ _ _ Ho), (observe_blocks _ _ _ Ho2).
Qed.
End Bridge.

(** ** The enumeration *)
Section Enum.
Context (H : MmioHw) (CL : PcieClient).
Abbreviation L := (logged H).
Abbreviation C := (logged_client H CL).

(** What a call does to the instance and to what a reader of the log sees. *)
Definition runs (inst : FPcieEcam) (t : list event) (inst' : FPcieEcam) (t' : list event) : Prop :=
  ready inst = true -> settled (observe t).1 -> evolves inst t inst' t' /\ settled (observe t').1.

Lemma runs_refl inst t : runs inst t inst t.
Proof. intros _ S. split; [by apply evolves_quiet|done]. Qed.

Lemma runs_trans i1 t1 i2 t2 i3 t3 : runs i1 t1 i2 t2 -> runs i2 t2 i3 t3 -> runs i1 t1 i3 t3.
Proof.
  intros R1 R2 Hr S. destruct (R1 Hr S) as [E1 S1]. destruct R2 as [E2 S2]; [|done|].
  - unfold ready in *. by destruct E1 as [(-> & _) _].
  - split; [by eapply run_evolves_trans|done].
Qed.

Lemma runs_ready i1 t1 i2 t2 : runs i1 t1 i2 t2 -> ready i1 = true -> settled (observe t1).1 ->
  ready i2 = true.
Proof. intros R Hr S. destruct (R Hr S) as [[(E & _) _] _]. unfold ready in *. by rewrite E. Qed.

Lemma read_runs inst h t b d f o x s : 0 <= o <= 6 ->
  FPcieEcamReadConfigSpace (HW := L) inst (h, t) b d f o = Ok (x, s) ->
  exists h' t', s = (h', t') /\ runs inst t inst t'.
Proof.
  intros Ho E. destruct (ready inst) eqn:Hr; [|unfold FPcieEcamReadConfigSpace in E; by rewrite Hr in E].
  destruct (Z.ltb_spec inst.(config).(max_bus_num) b) as [Hb|Hb].
  { rewrite read_exceed in E by done. injection E as <- <-. eexists _, _. split; [done|apply runs_refl]. }
  destruct (read_logged H b d f inst h t o) as (v & h' & _ & E'); [done|].
  rewrite E' in E. injection E as <- <-. eexists _, _. split; [done|].
  intros _ S. destruct (observe t) as [p bs] eqn:Ho'.
  pose proof (observe_rd _ (FPcieGetEcamConfigAddress b d f o) v _ _ Ho') as Ho2.
  rewrite (settled_read b d f p o v S Ho) in Ho2. rewrite Ho2. split; [|by left].
  apply evolves_quiet. by rewrite (observe_blocks _ _ _ Ho'), (observe_blocks _ _ _ Ho2).
Qed.

Lemma insert_runs inst b d f inst' t : FPcieBdfInsert inst b d f = Ok inst' -> runs inst t inst' t.
Proof.
  unfold FPcieBdfInsert. intros E Hr S. rewrite Hr in E.
  destruct (aset _ _ _); simpl in E; [|done]. injection E as <-.
  split; [by apply evolves_silent|done].
Qed.

Lemma alloc_runs inst h t b d f ht ret inst' s : ht <> FPCIE_CCR_HEAD_TYPE2 ->
  FPcieAllocBarSpace (HW := L) inst (h, t) ht b d f = Ok (ret, inst', s) ->
  exists h' t', s = (h', t') /\ runs inst t inst' t'.
Proof.
  intros Hht E. destruct (ready inst) eqn:Hr.
  2: { unfold FPcieAllocBarSpace, FPcieEcamReadConfigSpace in E. by rewrite Hr in E. }
  destruct s as [h' t']. eexists _, _. split; [done|]. intros _ S.
  destruct (alloc_ok H b d f inst h t ht Hr Hht S) as (ret1 & i1 & h1 & t1 & E1 & Hev).
  rewrite E1 in E. by injection E as <- <- <- <-.
Qed.

Lemma prescan_runs inst h t sec b d f inst' s :
  FPciePreScanSetupBridge (HW := L) inst (h, t) sec b d f = Ok (inst', s) ->
  exists h' t', s = (h', t') /\ runs inst t inst' t'.
Proof.
  intros E. destruct s as [h' t']. eexists _, _. split; [done|]. intros Hr S.
  destruct (prescan_ok H b d f inst h t sec Hr S) as (i1 & h1 & t1 & E1 & Hev & Hs & _).
  rewrite E1 in E. by injection E as <- <- <-.
Qed.

Lemma postscan_runs inst h t sub b d f inst' s :
  FPciePostscanSetupBridge (HW := L) inst (h, t) sub b d f = Ok (inst', s) ->
  exists h' t', s = (h', t') /\ runs inst t inst' t'.
Proof.
  intros E. destruct s as [h' t']. eexists _, _. split; [done|]. intros Hr S.
  destruct (postscan_ok H b d f inst h t sub Hr S) as (i1 & h1 & t1 & E1 & Hev & Hs & _).
  rewrite E1 in E. by injection E as <- <- <-.
Qed.

(** Takes a successful sequence of calls apart. *)
Lemma rbind_Ok {A B} (x : res A) (g : A -> res B) y : rbind x g = Ok y ->
  exists a, x = Ok a /\ g a = Ok y.
Proof. destruct x; simpl; [eauto|done]. Qed.

Section Loops.
Context (probe : FPcieEcam -> @hw L -> Z -> Z -> Z -> res (Z * FPcieEcam * @hw L)).
Context (Hprobe : forall inst h t b d f ret inst' s,
  probe inst (h, t) b d f = Ok (ret, inst', s) -> exists h' t', s = (h', t') /\ runs inst t inst' t').

Lemma visit_runs inst h t ht b d f inst' s :
  visit (HW := L) probe inst (h, t) ht b d f = Ok (inst', s) ->
  exists h' t', s = (h', t') /\ runs inst t inst' t'.
Proof.
  unfold visit. intros E. destruct (ht =? FPCIE_CCR_HEAD_TYPE0); [|destruct (ht =? FPCIE_CCR_HEAD_TYPE1)].
  all: apply rbind_Ok in E as (i1 & Ei & E); apply (insert_runs _ _ _ _ _ t) in Ei;
    apply rbind_Ok in E as ([[r2 i2] s2] & E2 & E);
    apply alloc_runs in E2 as (h2 & t2 & -> & R2); [|done].
  1, 3: injection E as <- <-; eexists _, _; split; [done|]; by eapply runs_trans.
  apply rbind_Ok in E as ([[r3 i3] s3] & E3 & E). apply Hprobe in E3 as (h3 & t3 & -> & R3).
  injection E as <- <-. eexists _, _. split; [done|].
  eapply runs_trans; [done|]. by eapply runs_trans.
Qed.

Lemma function_turn_runs inst h t b dn fn r inst' s :
  function_turn (HW := L) (CL := C) probe inst (h, t) b dn fn = Ok (r, inst', s) ->
  exists h' t', s = (h', t') /\ runs inst t inst' t'.
Proof.
  unfold function_turn. intros E.
  assert (exists sk h1, skipped (HW := L) (CL := C) inst (h, t) b (u8 dn) (u8 fn) = (sk, (h1, t)))
    as (sk & h1 & Hsk).
  { unfold skipped. destruct (truth _); [|eauto]. simpl.
    destruct (call_need_skip _ _ _ _ _). eauto. }
  rewrite Hsk in E. destruct sk.
  { injection E as <- <- <-. eexists _, _. split; [done|apply runs_refl]. }
  apply rbind_Ok in E as ([[r1 v1] s1] & E1 & E). apply read_runs in E1 as (h2 & t2 & -> & R1); [|done].
  destruct (truth r1); [injection E as <- <- <-; eauto|].
  destruct (_ =? FPCIE_DEVICE_NOT_PRESENT); [injection E as <- <- <-; eauto|].
  apply rbind_Ok in E as ([[r2 v2] s2] & E2 & E). apply read_runs in E2 as (h3 & t3 & -> & R2); [|done].
  pose proof (runs_trans _ _ _ _ _ _ R1 R2) as R12.
  destruct (truth r2); [injection E as <- <- <-; eauto|].
  apply rbind_Ok in E as ([i3 s3] & E3 & E). apply visit_runs in E3 as (h4 & t4 & -> & R3).
  pose proof (runs_trans _ _ _ _ _ _ R12 R3) as R.
  destruct (_ && _); injection E as <- <- <-; eauto.
Qed.

Lemma function_loop_runs n : forall inst h t b dn fn r inst' s,
  function_loop (HW := L) (CL := C) probe n inst (h, t) b dn fn = Ok (r, inst', s) ->
  exists h' t', s = (h', t') /\ runs inst t inst' t'.
Proof.
  induction n as [|n IH]; intros inst h t b dn fn r inst' s E; simpl in E;
    destruct (negb _); try (injection E as <- <- <-; eauto using runs_refl); try done.
  apply rbind_Ok in E as ([[r1 i1] s1] & E1 & E).
  apply function_turn_runs in E1 as (h1 & t1 & -> & R1).
  destruct r1; [|injection E as <- <- <-; eauto..].
  apply IH in E as (h2 & t2 & -> & R2). eexists _, _. split; [done|by eapply runs_trans].
Qed.

Lemma device_loop_runs n : forall inst h t b dn r inst' s,
  device_loop (HW := L) (CL := C) probe n inst (h, t) b dn = Ok (r, inst', s) ->
  exists h' t', s = (h', t') /\ runs inst t inst' t'.
Proof.
  induction n as [|n IH]; intros inst h t b dn r inst' s E; simpl in E;
    destruct (negb _); try (injection E as <- <- <-; eauto using runs_refl); try done.
  apply rbind_Ok in E as ([[r1 i1] s1] & E1 & E).
  apply function_loop_runs in E1 as (h1 & t1 & -> & R1).
  destruct r1; [injection E as <- <- <-; eauto|].
  apply IH in E as (h2 & t2 & -> & R2). eexists _, _. split; [done|by eapply runs_trans].
Qed.
End Loops.

Lemma set_bus_max_runs inst x t : runs inst t (set_bus_max inst x) t.
Proof. intros _ S. split; [by apply evolves_silent|done]. Qed.

Lemma probe_runs enum :
  (forall inst h t b ret inst' s, enum inst (h, t) b = Ok (ret, inst', s) ->
     exists h' t', s = (h', t') /\ runs inst t inst' t') ->
  forall inst h t b d f ret inst' s,
    FPcieBridgeProbeBus (HW := L) enum inst (h, t) b d f = Ok (ret, inst', s) ->
    exists h' t', s = (h', t') /\ runs inst t inst' t'.
Proof.
  intros He inst h t b d f ret inst' s E. unfold FPcieBridgeProbeBus in E.
  apply rbind_Ok in E as ([i1 s1] & E1 & E). apply prescan_runs in E1 as (h1 & t1 & -> & R1).
  apply rbind_Ok in E as ([[r2 i2] s2] & E2 & E). apply He in E2 as (h2 & t2 & -> & R2).
  apply rbind_Ok in E as ([i3 s3] & E3 & E). apply postscan_runs in E3 as (h3 & t3 & -> & R3).
  injection E as <- <- <-. eexists _, _. split; [done|].
  eapply runs_trans; [apply set_bus_max_runs|]. eapply runs_trans; [exact R1|].
  by eapply runs_trans.
Qed.

Lemma recursion_runs fuel : forall inst h t b ret inst' s,
  FPcieEcamEnumerateBusRecursion (HW := L) (CL := C) fuel inst (h, t) b = Ok (ret, inst', s) ->
  exists h' t', s = (h', t') /\ runs inst t inst' t'.
Proof.
  induction fuel as [|fuel IH]; intros inst h t b ret inst' s E; simpl in E; [done|].
  destruct (ready inst); [|done]. eapply device_loop_runs; [|exact E].
  intros i h' t' b' d f. by apply probe_runs.
Qed.

Lemma info_runs l : forall inst h t s,
  info_loop (HW := L) inst (h, t) l = Ok s -> exists h' t', s = (h', t') /\ runs inst t inst t'.
Proof.
  induction l as [|x l IH]; intros inst h t s E; simpl in E.
  { injection E as <-. eauto using runs_refl. }
  apply rbind_Ok in E as ([[r1 v1] s1] & E1 & E). apply read_runs in E1 as (h1 & t1 & -> & R1); [|done].
  destruct (negb _); [injection E as <-; eauto|].
  apply rbind_Ok in E as ([[r2 v2] s2] & E2 & E). apply read_runs in E2 as (h2 & t2 & -> & R2); [|done].
  pose proof (runs_trans _ _ _ _ _ _ R1 R2) as R12.
  destruct (negb _); [injection E as <-; eauto|].
  apply IH in E as (h3 & t3 & -> & R3). eexists _, _. split; [done|by eapply runs_trans].
Qed.

Lemma enumerate_runs fuel inst h t b ret inst' s :
  FPcieEcamEnumerateBus (HW := L) (CL := C) fuel inst (h, t) b = Ok (ret, inst', s) ->
  exists h' t', s = (h', t') /\ runs inst t inst' t'.
Proof.
  unfold FPcieEcamEnumerateBus. intros E.
  apply rbind_Ok in E as ([[r1 i1] s1] & E1 & E). apply recursion_runs in E1 as (h1 & t1 & -> & R1).
  apply rbind_Ok in E as (s2 & E2 & E). apply info_runs in E2 as (h2 & t2 & -> & R2).
  injection E as <- <- <-. eexists _, _. split; [done|].
  eapply runs_trans; [|eapply runs_trans; [exact R1|exact R2]].
  intros _ S. split; [by apply evolves_silent|done].
Qed.
End Enum.
