(* ===== verification/PcieTotal.v ===== *)
(** The enumeration of a bus (Pcie.v) comes to an end.  What it relies on of the bus is
    the class [PcieTopology]: behind a bridge is a hierarchy with fewer bridges, reached
    under the number the bridge was given, and numbering a bridge changes nothing on the
    buses above it. *)
From S2P Require Import Prelude Mmio Pcie PcieRegion PcieTrace PcieSafety.
Import Pcie.

Arguments lnotw : simpl never.
Arguments Z.lor : simpl never.
Arguments Z.land : simpl never.
Arguments Z.shiftl : simpl never.
Arguments Z.shiftr : simpl never.
Arguments Z.pow : simpl never.
Arguments Z.mul : simpl never.
Arguments Z.add : simpl never.
Arguments Z.sub : simpl never.
Arguments Z.testbit : simpl never.

(** ** The functions of the driver for one function of the bus

    They return, and keep what the accesses they make keep. *)
Section Function.
Context `{HW : MmioHw} (e b d f : Z).
Abbreviation reg o := (FPcieGetEcamConfigAddress b d f o).

(** [allowed]: the numbers of the registers that may be written. *)
Context (P : hw -> Prop) (allowed : Z -> Prop).
Context (Hread : forall h o v h', P h -> FtIn32 h e (reg o) = (v, h') -> P h').
Context (Hwrite : forall h o x, P h -> allowed o -> P (FtOut32 h e (reg o) x)).

(** The parts of the instance these functions leave alone. *)
Definition same_scans (inst inst' : FPcieEcam) : Prop :=
  inst'.(is_ready) = inst.(is_ready) /\ inst'.(config) = inst.(config) /\
  inst'.(need_skip_fun) = inst.(need_skip_fun) /\ inst'.(bus_max) = inst.(bus_max) /\
  inst'.(scans_bdf) = inst.(scans_bdf) /\ inst'.(scans_bdf_count) = inst.(scans_bdf_count).

Lemma same_scans_refl inst : same_scans inst inst.
Proof. done. Qed.
Lemma same_scans_trans i1 i2 i3 : same_scans i1 i2 -> same_scans i2 i3 -> same_scans i1 i3.
Proof. unfold same_scans. intuition congruence. Qed.
Lemma set_region_scans inst p r : same_scans inst (set_region inst p r).
Proof. by destruct p. Qed.

Definition on_bus (inst : FPcieEcam) : Prop := usable inst b /\ inst.(config).(ecam) = e.

Lemma on_bus_same inst inst' : same_scans inst inst' -> on_bus inst -> on_bus inst'.
Proof. unfold on_bus, usable, ready. by intros (-> & -> & _). Qed.

Lemma read_total inst h o : on_bus inst -> P h -> exists v h',
  FPcieEcamReadConfigSpace inst h b d f o = Ok (FT_SUCCESS, u32 v, h') /\ P h' /\
  FtIn32 h e (reg o) = (v, h').
Proof.
  intros [[Hr Hb] He] HP. unfold FPcieEcamReadConfigSpace, FPCIE_READECAM_REG. rewrite Hr, He.
  rewrite (proj2 (Z.ltb_ge _ _) Hb). simpl. destruct (FtIn32 h e (reg o)) as [v h'] eqn:E.
  exists v, h'. split; [done|]. split; [by eapply Hread|done].
Qed.

Lemma write_at inst h o x : on_bus inst ->
  FPcieEcamWriteConfigSpace inst h b d f o x = Ok (FT_SUCCESS, FtOut32 h e (reg o) (u32 x)).
Proof.
  intros [[Hr Hb] He]. unfold FPcieEcamWriteConfigSpace, FPCIE_WRITEECAM_REG.
  by rewrite Hr, He, (proj2 (Z.ltb_ge _ _) Hb).
Qed.

Lemma write_total inst h o x : on_bus inst -> P h -> allowed o -> exists h',
  FPcieEcamWriteConfigSpace inst h b d f o x = Ok (FT_SUCCESS, h') /\ P h'.
Proof.
  intros Hu HP Ho. rewrite write_at by done. eexists. split; [done|by apply Hwrite].
Qed.

Ltac do_read HP h v HP' :=
  lazymatch goal with
  | |- context [FPcieEcamReadConfigSpace ?i ?h0 _ _ _ ?o] =>
      destruct (read_total i h0 o ltac:(solve [done | eapply on_bus_same; eauto]) HP)
        as (v & h & -> & HP' & ?); simpl; rewrite ?Z.eqb_refl; cbn [negb]
  end.
Ltac do_write HP h HP' :=
  lazymatch goal with
  | |- context [FPcieEcamWriteConfigSpace ?i ?h0 _ _ _ ?o ?x] =>
      destruct (write_total i h0 o x ltac:(solve [done | eapply on_bus_same; eauto]) HP
        ltac:(solve [auto | eauto])) as (h & -> & HP'); simpl
  end.

Lemma allocate_total inst p s : exists ret addr inst',
  allocate inst p s = (ret, addr, inst') /\ same_scans inst inst'.
Proof.
  destruct (allocate_cases inst p s) as [(addr & x & ->)|(addr & ->)]; eexists _, _, _;
    (split; [done|]); [apply set_region_scans|apply same_scans_refl].
Qed.

Lemma assign_total inst h n p s wide : on_bus inst -> P h -> 0 <= n <= 5 ->
  allowed (FPCIE_CCR_BAR_ADDR0_REGS + n) ->
  (wide = true -> allowed (FPCIE_CCR_BAR_ADDR0_REGS + n + 1)) ->
  exists n' inst' h', assign_bar inst h b d f n p s wide = Ok (n', inst', h') /\
    n <= n' <= n + 1 /\ same_scans inst inst' /\ P h'.
Proof.
  intros Hu HP Hn Ha Hw. unfold assign_bar.
  destruct (allocate_total inst p s) as (ret & addr & inst' & -> & Hs).
  destruct (ret =? FT_SUCCESS).
  2: { eexists _, _, _. split; [done|]. split; [lia|done]. }
  do_write HP h1 HP1. destruct wide.
  - specialize (Hw eq_refl). do_write HP1 h2 HP2. rewrite (wrap_small 32) by lia.
    eexists _, _, _. split; [done|]. split; [lia|done].
  - eexists _, _, _. split; [done|]. split; [lia|done].
Qed.

(** A wide BAR takes two registers. *)
Lemma bar_turn_total inst h n cmd : on_bus inst -> P h -> 0 <= n <= 5 ->
  allowed (FPCIE_CCR_BAR_ADDR0_REGS + n) ->
  (forall h0 v h', P h0 -> FtIn32 h0 e (reg (FPCIE_CCR_BAR_ADDR0_REGS + n)) = (v, h') ->
     wide_bar (u32 v) = true -> allowed (FPCIE_CCR_BAR_ADDR0_REGS + n + 1)) ->
  exists cmd' n' inst' h',
    bar_turn inst h b d f cmd n = Ok (FT_SUCCESS, cmd', n', inst', h') /\
    n <= n' <= n + 1 /\ same_scans inst inst' /\ P h'.
Proof.
  intros Hu HP Hn Ha Hw. unfold bar_turn. do_write HP h1 HP1.
  destruct (read_total inst h1 (FPCIE_CCR_BAR_ADDR0_REGS + n) Hu HP1) as (v & h2 & -> & HP2 & Ev).
  simpl. rewrite ?Z.eqb_refl. cbn [negb]. destruct (u32 v =? 0).
  { eexists _, _, _, _. split; [done|]. split; [lia|]. split; [apply same_scans_refl|done]. }
  rewrite is_io_spec. destruct (io_bar (u32 v)) eqn:Hio.
  { destruct (assign_total inst h2 n MemIo (FPCIE_CCR_BAR_IO_SIZE (u32 v)) false Hu HP2 Hn Ha)
      as (n' & inst' & h' & -> & Hr); [done|]. simpl. by eexists _, _, _, _. }
  unfold mem_bar_size. rewrite is_mem64_spec. destruct (Z.testbit (u32 v) 2) eqn:H2.
  - assert (allowed (FPCIE_CCR_BAR_ADDR0_REGS + n + 1)) as Ha'.
    { eapply (Hw h1); [done..|]. unfold wide_bar. by rewrite Hio, H2. }
    do_write HP2 h3 HP3. do_read HP3 h4 u HP4.
    edestruct (assign_total inst h4 n (mem_region_of inst (u32 v)))
      as (n' & inst' & h' & E & Hr); [done..|]. rewrite E. simpl. by eexists _, _, _, _.
  - simpl.
    destruct (assign_total inst h2 n (mem_region_of inst (u32 v)) (u32 (FPCIE_CCR_BAR_MEM_SIZE (u32 v)))
      false Hu HP2 Hn Ha) as (n' & inst' & h' & -> & Hr); [done|]. simpl. by eexists _, _, _, _.
Qed.

Lemma bar_loop_total max : max <= 6 ->
  (forall n, 0 <= n < max -> allowed (FPCIE_CCR_BAR_ADDR0_REGS + n)) ->
  (forall n h0 v h', 0 <= n < max -> P h0 ->
     FtIn32 h0 e (reg (FPCIE_CCR_BAR_ADDR0_REGS + n)) = (v, h') ->
     wide_bar (u32 v) = true -> allowed (FPCIE_CCR_BAR_ADDR0_REGS + n + 1)) ->
  forall fuel inst h n cmd, on_bus inst -> P h -> 0 <= n <= 7 -> max - n <= Z.of_nat fuel ->
  exists cmd' inst' h',
    bar_loop fuel inst h b d f cmd max n = Ok (FT_SUCCESS, cmd', inst', h') /\
    same_scans inst inst' /\ P h'.
Proof.
  intros Hmax Ha Hw. induction fuel as [|fuel IH]; intros inst h n cmd Hu HP Hn Hf; simpl;
    destruct (Z.leb_spec max n).
  1, 3: eexists _, _, _; split; [done|]; split; [apply same_scans_refl|done].
  { lia. }
  destruct (bar_turn_total inst h n cmd Hu HP) as (cmd1 & n1 & inst1 & h1 & -> & Hn1 & Hs1 & HP1);
    [lia|apply Ha; lia|intros h0 v h'; apply Hw; lia|].
  simpl. rewrite ?Z.eqb_refl. cbn [negb]. rewrite (wrap_small 32) by lia.
  destruct (IH inst1 h1 (n1 + 1) cmd1) as (cmd2 & inst2 & h2 & -> & Hs2 & HP2);
    [by eapply on_bus_same|done|lia..|].
  eexists _, _, _. split; [done|]. split; [by eapply same_scans_trans|done].
Qed.

Lemma alloc_rom_total inst h ht cmd : on_bus inst -> P h -> ht <> FPCIE_CCR_HEAD_TYPE2 ->
  allowed (rom_reg ht) ->
  exists cmd' inst' h', alloc_rom inst h ht b d f cmd = Ok (FT_SUCCESS, cmd', inst', h') /\
    same_scans inst inst' /\ P h'.
Proof.
  intros Hu HP Hht Ha. unfold alloc_rom. rewrite (proj2 (Z.eqb_neq _ _) Hht). fold (rom_reg ht).
  do_write HP h1 HP1. do_read HP1 h2 v HP2. destruct (truth (u32 v)).
  2: { eexists _, _, _. split; [done|]. split; [apply same_scans_refl|done]. }
  destruct (allocate_total inst Mem (u32 (- Z.land (u32 v) (lnotw 32 1))))
    as (ret & addr & inst' & -> & Hs).
  destruct (ret =? FT_SUCCESS); simpl.
  - do_write HP2 h3 HP3. by eexists _, _, _.
  - by eexists _, _, _.
Qed.

Lemma read_exceeds inst h o : ready inst = true -> inst.(config).(max_bus_num) < b ->
  FPcieEcamReadConfigSpace inst h b d f o = Ok (FPCIE_EXCEED_BUS, FPCIE_CCR_INVALID_DATA, h).
Proof.
  intros Hr Hb. unfold FPcieEcamReadConfigSpace. rewrite Hr. by rewrite (proj2 (Z.ltb_lt _ _) Hb).
Qed.

Lemma alloc_total inst h ht : ready inst = true -> inst.(config).(ecam) = e -> P h ->
  ht <> FPCIE_CCR_HEAD_TYPE2 ->
  (forall o, 0 <= o <= 0xe -> ht = FPCIE_CCR_HEAD_TYPE0 \/ o <> 6 -> allowed o) ->
  (ht <> FPCIE_CCR_HEAD_TYPE0 -> forall h0 v h', P h0 -> FtIn32 h0 e (reg 5) = (v, h') ->
     wide_bar (u32 v) = false) ->
  exists ret inst' h', FPcieAllocBarSpace inst h ht b d f = Ok (ret, inst', h') /\
    same_scans inst inst' /\ P h'.
Proof.
  intros Hr He HP Hht Ha Hbar1. unfold FPcieAllocBarSpace.
  destruct (Z.ltb_spec inst.(config).(max_bus_num) b) as [Hb|Hb].
  { rewrite read_exceeds by done. simpl. eexists _, _, _. split; [done|].
    split; [apply same_scans_refl|done]. }
  assert (on_bus inst) as Hu by done. do_read HP h1 cmd HP1.
  destruct (bar_loop_total (if ht =? FPCIE_CCR_HEAD_TYPE0 then 6 else 2)) with
    (fuel := Z.to_nat (if ht =? FPCIE_CCR_HEAD_TYPE0 then 6 else 2)) (inst := inst) (h := h1) (n := 0)
    (cmd := mask_cmd (u32 cmd)) as (cmd2 & inst2 & h2 & -> & Hs2 & HP2).
  { case_match; lia. }
  { intros n Hn. unfold FPCIE_CCR_BAR_ADDR0_REGS.
    destruct (Z.eqb_spec ht FPCIE_CCR_HEAD_TYPE0); apply Ha; lia || auto; right; lia. }
  { intros n h0 v h' Hn HP0 E Hv. unfold FPCIE_CCR_BAR_ADDR0_REGS in *.
    destruct (Z.eqb_spec ht FPCIE_CCR_HEAD_TYPE0) as [|Hne]; [apply Ha; [lia|by left]|].
    destruct (Z.eq_dec n 1) as [->|]; [|apply Ha; [lia|right; lia]].
    by rewrite (Hbar1 Hne h0 v h') in Hv. }
  { done. }
  { done. }
  { lia. }
  { case_match; lia. }
  simpl. rewrite ?Z.eqb_refl. cbn [negb].
  destruct (alloc_rom_total inst2 h2 ht cmd2) as (cmd3 & inst3 & h3 & -> & Hs3 & HP3);
    [by eapply on_bus_same|done..| |].
  { pose proof (rom_reg_cases ht). apply Ha; lia. }
  simpl. rewrite ?Z.eqb_refl. cbn [negb].
  pose proof (same_scans_trans _ _ _ Hs2 Hs3) as Hs.
  assert (allowed FPCIE_CCR_CMD_STATUS_REGS) by (apply Ha; [done|by right]).
  assert (allowed FPCIE_CCR_CLS_LT_HT_REGS) by (apply Ha; [done|by right]).
  do_write HP3 h4 HP4. do_read HP4 h5 cls HP5. do_write HP5 h6 HP6.
  by eexists _, _, _.
Qed.

(** ** Bridges *)
Lemma update_total inst h o clear set : on_bus inst -> P h -> allowed o ->
  exists h', P h' /\ forall A (failed next : hw -> res A),
    update_reg inst h b d f o clear set failed next = next h'.
Proof.
  intros Hu HP Ha. unfold update_reg. do_read HP h1 v HP1. 
  destruct (write_total inst h1 o (Z.lor (Z.land (u32 v) (lnotw 32 clear)) set) Hu HP1 Ha)
    as (h2 & -> & HP2). eauto.
Qed.

Ltac do_update HP h HP' :=
  lazymatch goal with
  | |- context [update_reg ?i ?h0 _ _ _ ?o ?c ?s _ _] =>
      destruct (update_total i h0 o c s ltac:(solve [done | eapply on_bus_same; eauto]) HP
        ltac:(solve [auto | eauto])) as (h & HP' & ->)
  end.

Context (Hallowed : forall o, 0 <= o <= 0xe -> o <> 6 -> allowed o).

Lemma allowed_regs : allowed 7 /\ allowed 0xc /\ allowed 1 /\ allowed 8 /\ allowed 9 /\
  allowed 0xa /\ allowed 0xb.
Proof. by repeat split; apply Hallowed. Qed.

Lemma prescan_io_total inst h cmd : on_bus inst -> P h -> exists inst' h',
  prescan_io inst h b d f cmd = Ok (inst', h') /\ same_scans inst inst' /\ P h'.
Proof.
  intros Hu HP. destruct allowed_regs as (? & ? & ? & _). unfold prescan_io.
  destruct (exists_region _).
  - set (inst1 := set_io _ _). assert (same_scans inst inst1) as Hs by done.
    do_update HP h1 HP1. do_update HP1 h2 HP2. do_write HP2 h3 HP3. by eexists _, _.
  - do_write HP h3 HP3. eexists _, _. split; [done|]. split; [apply same_scans_refl|done].
Qed.

(** Goes on with an instance that has moved a region on. *)
Ltac continue lem Hs :=
  edestruct lem as (inst2 & h2' & E & Hs2 & HP');
    [eapply on_bus_same; [exact Hs|assumption]|eassumption|];
  rewrite E; eexists _, _; split; [done|]; split; [by eapply same_scans_trans|done].

Lemma prescan_prefetch_total inst h cmd p64 : on_bus inst -> P h -> exists inst' h',
  prescan_prefetch inst h b d f cmd p64 = Ok (inst', h') /\ same_scans inst inst' /\ P h'.
Proof.
  intros Hu HP. destruct allowed_regs as (_ & _ & _ & _ & ? & ? & ?). unfold prescan_prefetch.
  destruct (exists_region _).
  - set (inst1 := set_prefetch _ _). assert (same_scans inst inst1) as Hs by done.
    do_update HP h1 HP1. destruct (truth p64).
    + do_write HP1 h2 HP2. continue (prescan_io_total inst1 h2) Hs.
    + simpl. continue (prescan_io_total inst1 h1) Hs.
  - do_write HP h1 HP1. destruct (truth p64).
    + do_write HP1 h2 HP2. do_write HP2 h3 HP3. by apply prescan_io_total.
    + by apply prescan_io_total.
Qed.

Lemma prescan_mem_total inst h cmd p64 : on_bus inst -> P h -> exists inst' h',
  prescan_mem inst h b d f cmd p64 = Ok (inst', h') /\ same_scans inst inst' /\ P h'.
Proof.
  intros Hu HP. destruct allowed_regs as (_ & _ & _ & ? & _). unfold prescan_mem.
  destruct (exists_region _).
  - set (inst1 := set_mem _ _). assert (same_scans inst inst1) as Hs by done.
    do_update HP h1 HP1. continue (prescan_prefetch_total inst1 h1) Hs.
  - by apply prescan_prefetch_total.
Qed.

Lemma postscan_io_total inst h : on_bus inst -> P h -> exists inst' h',
  postscan_io inst h b d f = Ok (inst', h') /\ same_scans inst inst' /\ P h'.
Proof.
  intros Hu HP. destruct allowed_regs as (? & ? & _). unfold postscan_io.
  destruct (exists_region _).
  - set (inst1 := set_io _ _). assert (same_scans inst inst1) as Hs by done.
    do_update HP h1 HP1. do_update HP1 h2 HP2. by eexists _, _.
  - eexists _, _. split; [done|]. split; [apply same_scans_refl|done].
Qed.

Lemma postscan_prefetch_total inst h p64 : on_bus inst -> P h -> exists inst' h',
  postscan_prefetch inst h b d f p64 = Ok (inst', h') /\ same_scans inst inst' /\ P h'.
Proof.
  intros Hu HP. destruct allowed_regs as (_ & _ & _ & _ & ? & _ & ?). unfold postscan_prefetch.
  destruct (exists_region _).
  - set (inst1 := set_prefetch _ _). assert (same_scans inst inst1) as Hs by done.
    do_update HP h1 HP1. do_write HP1 h2 HP2. continue (postscan_io_total inst1 h2) Hs.
  - by apply postscan_io_total.
Qed.

Lemma postscan_mem_total inst h p64 : on_bus inst -> P h -> exists inst' h',
  postscan_mem inst h b d f p64 = Ok (inst', h') /\ same_scans inst inst' /\ P h'.
Proof.
  intros Hu HP. destruct allowed_regs as (_ & _ & _ & ? & _). unfold postscan_mem.
  destruct (exists_region _).
  - set (inst1 := set_mem _ _). assert (same_scans inst inst1) as Hs by done.
    do_update HP h1 HP1. continue (postscan_prefetch_total inst1 h1) Hs.
  - by apply postscan_prefetch_total.
Qed.
End Function.
