(* ===== verification/PcieTermination.v ===== *)
(** The enumeration of a bus (Pcie.v) comes to an end.  What it relies on of the bus is
    the class [PcieTopology]: behind a bridge is a hierarchy with fewer bridges, reached
    under the number the bridge is given, and numbering a bridge changes nothing on the
    buses above it. *)
From S2P Require Import Prelude Mmio Pcie PcieRegion PcieTrace PcieSafety PcieTotal.
Import Pcie.

Arguments lnotw : simpl never.
Arguments Z.lor : simpl never.
Arguments Z.land : simpl never.
Arguments Z.shiftl : simpl never.
Arguments Z.shiftr : simpl never.
Arguments Z.pow : simpl never.
Arguments Z.mul : simpl never.
Arguments Z.add : simpl never.
Arguments Z.sub : simpl never.
Arguments Z.testbit : simpl never.

(** A place on the bus. *)
Definition place (b d f : Z) : Prop := 0 <= b < 256 /\ 0 <= d < 32 /\ 0 <= f < 8.

(** The secondary bus number in the bus number register of a bridge. *)
Definition secondary (x : Z) : Z := Z.land (Z.shiftr x 8) 0xff.

(** The sum of [g] over [n] numbers from [i] up. *)
Fixpoint sum_from (n : nat) (i : Z) (g : Z -> nat) : nat :=
  match n with
  | O => 0
  | S n => g i + sum_from n (i + 1) g
  end.

Class PcieTopology `{HW : MmioHw} {CL : PcieClient} (e : Z) := {
  (** The header type of a function, the number of bridges at and below it, and, for a
      bridge, the number of the bus behind it. *)
  header : hw -> Z -> Z -> Z -> Z;
  bridges : hw -> Z -> Z -> Z -> nat;
  behind : hw -> Z -> Z -> Z -> Z;
  topo_read h off v h' b d f : FtIn32 h e off = (v, h') ->
    header h' b d f = header h b d f /\ bridges h' b d f = bridges h b d f /\
    behind h' b d f = behind h b d f;
  topo_skip fp h b0 d0 f0 v h' b d f : call_need_skip fp h b0 d0 f0 = (v, h') ->
    header h' b d f = header h b d f /\ bridges h' b d f = bridges h b d f /\
    behind h' b d f = behind h b d f;
  topo_header h b d f v h' : place b d f ->
    FtIn32 h e (FPcieGetEcamConfigAddress b d f FPCIE_CCR_CLS_LT_HT_REGS) = (v, h') ->
    FPCIE_CCR_HEAD_TYPE_MASK (u32 v) = header h b d f;
  topo_bridge h b d f : place b d f -> header h b d f = FPCIE_CCR_HEAD_TYPE1 ->
    (0 < bridges h b d f)%nat;
  (** The second BAR of a bridge is the last one. *)
  topo_bar1 h b d f v h' : place b d f -> header h b d f = FPCIE_CCR_HEAD_TYPE1 ->
    FtIn32 h e (FPcieGetEcamConfigAddress b d f 5) = (v, h') -> wide_bar (u32 v) = false;
  topo_behind h b d f v h' : place b d f -> header h b d f = FPCIE_CCR_HEAD_TYPE1 ->
    FtIn32 h e (FPcieGetEcamConfigAddress b d f FPCIE_CCR_PB_SEC_SUB_SECL_REGS) = (v, h') ->
    secondary (u32 v) = behind h b d f;
  (** Only the bus numbers of a bridge change which functions answer. *)
  topo_write h b0 d0 f0 o x b d f : place b0 d0 f0 -> 0 <= o <= 0xf ->
    o <> FPCIE_CCR_PB_SEC_SUB_SECL_REGS \/ header h b0 d0 f0 <> FPCIE_CCR_HEAD_TYPE1 ->
    let h' := FtOut32 h e (FPcieGetEcamConfigAddress b0 d0 f0 o) x in
    header h' b d f = header h b d f /\ bridges h' b d f = bridges h b d f /\
    behind h' b d f = behind h b d f;
  topo_number h b0 d0 f0 x : place b0 d0 f0 -> header h b0 d0 f0 = FPCIE_CCR_HEAD_TYPE1 ->
    b0 < secondary x ->
    let h' := FtOut32 h e (FPcieGetEcamConfigAddress b0 d0 f0 FPCIE_CCR_PB_SEC_SUB_SECL_REGS) x in
    (forall b d f, b <= b0 -> header h' b d f = header h b d f /\ bridges h' b d f = bridges h b d f) /\
    (forall b d f, b < b0 -> behind h' b d f = behind h b d f) /\
    behind h' b0 d0 f0 = secondary x /\
    (sum_from 32 0 (fun d => sum_from 8 0 (bridges h' (secondary x) d)) < bridges h b0 d0 f0)%nat
}.

(** The bus numbers the driver writes. *)
Lemma prescan_secondary b sec : 0 <= sec <= 255 ->
  secondary (u32 (Z.lor (Z.lor (FPCIE_CCR_PRIMARY_NUM_MASK b) (FPCIE_CCR_SECONDARY_NUM_MASK sec))
    (FPCIE_CCR_SUB_NUM_MASK 0xff))) = sec.
Proof.
  intros Hs. unfold secondary, FPCIE_CCR_PRIMARY_NUM_MASK, FPCIE_CCR_SECONDARY_NUM_MASK.
  change (FPCIE_CCR_SUB_NUM_MASK 0xff) with (Z.shiftl (Z.ones 8) 16).
  change 0xff00 with (Z.shiftl (Z.ones 8) 8). change 0xff with (Z.ones 8).
  bitwise i Hi. replace (i + 8 - 8) with i by lia. destruct (Z.ltb_spec i 8).
  - decide_cmp. simpl. by rewrite andb_false_r, !andb_true_r, orb_false_r.
  - rewrite !andb_false_r. symmetry. apply (testbit_high 8); lia.
Qed.

Lemma postscan_secondary v sub : 0 <= v < 2 ^ 32 ->
  secondary (u32 (Z.lor (Z.land v (lnotw 32 (FPCIE_CCR_SUB_NUM_MASK 0xff)))
    (FPCIE_CCR_SUB_NUM_MASK sub))) = secondary v.
Proof.
  intros Hv. unfold secondary, FPCIE_CCR_SUB_NUM_MASK at 2.
  change (FPCIE_CCR_SUB_NUM_MASK 0xff) with (Z.shiftl (Z.ones 8) 16).
  change 0xff0000 with (Z.shiftl (Z.ones 8) 16). change 0xff with (Z.ones 8).
  bitwise i Hi. replace (i + 8 - 8) with i by lia. destruct (Z.ltb_spec i 8).
  - decide_cmp. simpl. by rewrite !andb_true_r, !andb_false_r, !orb_false_r.
  - by rewrite !andb_false_r.
Qed.

Section Termination.
Context `{TP : PcieTopology}.

Definition functions (h : hw) (b d f : Z) : nat := sum_from (Z.to_nat (8 - f)) f (bridges h b d).
Definition devices (h : hw) (b d : Z) : nat :=
  sum_from (Z.to_nat (32 - d)) d (fun d => sum_from 8 0 (bridges h b d)).
(** The bridges on a bus and below it. *)
Definition bus_bridges (h : hw) (b : Z) : nat := devices h b 0.

(** What an access to one function keeps, and what the enumeration of bus [b] does. *)
Definition same_topology (h h' : hw) : Prop := forall b d f,
  header h' b d f = header h b d f /\ bridges h' b d f = bridges h b d f /\
  behind h' b d f = behind h b d f.
Definition same_above (n : Z) (h h' : hw) : Prop :=
  (forall b d f, b <= n -> header h' b d f = header h b d f /\ bridges h' b d f = bridges h b d f) /\
  (forall b d f, b < n -> behind h' b d f = behind h b d f).

Lemma same_topology_above n h h' : same_topology h h' -> same_above n h h'.
Proof. intros H. split; intros b d f _; by destruct (H b d f) as (? & ? & ?). Qed.

Lemma same_above_refl n h : same_above n h h.
Proof. done. Qed.

Lemma same_above_trans n h1 h2 h3 : same_above n h1 h2 -> same_above n h2 h3 -> same_above n h1 h3.
Proof.
  intros [A1 B1] [A2 B2]. split; intros b d f Hb.
  - destruct (A1 b d f Hb) as [<- <-]. by apply A2.
  - rewrite <-(B1 b d f Hb). by apply B2.
Qed.

Lemma same_above_le n m h h' : n <= m -> same_above m h h' -> same_above n h h'.
Proof. intros Hn [A B]. split; intros b d f Hb; [apply A|apply B]; lia. Qed.

Lemma sum_from_ext n : forall i g g', (forall j, g j = g' j) -> sum_from n i g = sum_from n i g'.
Proof. induction n as [|n IH]; intros i g g' E; simpl; [done|]. by rewrite E, (IH _ g g'). Qed.

Lemma functions_above n h h' d f : same_above n h h' -> functions h' n d f = functions h n d f.
Proof. intros [A _]. apply sum_from_ext. intros j. by apply A. Qed.

Lemma devices_above n h h' d : same_above n h h' -> devices h' n d = devices h n d.
Proof. intros [A _]. apply sum_from_ext. intros j. apply sum_from_ext. intros k. by apply A. Qed.

Lemma functions_step h b d f : f < 8 -> functions h b d f = (bridges h b d f + functions h b d (f + 1))%nat.
Proof. intros Hf. unfold functions. by replace (Z.to_nat (8 - f)) with (S (Z.to_nat (8 - (f + 1)))) by lia. Qed.

Lemma devices_step h b d : d < 32 -> devices h b d = (functions h b d 0 + devices h b (d + 1))%nat.
Proof. intros Hd. unfold devices. by replace (Z.to_nat (32 - d)) with (S (Z.to_nat (32 - (d + 1)))) by lia. Qed.

(** ** The instance *)
Definition fit (inst : FPcieEcam) : Prop :=
  ready inst = true /\ inst.(config).(ecam) = e /\
  length inst.(scans_bdf) = Z.to_nat FPCIE_MAX_SCAN_NUMBER /\
  0 <= inst.(scans_bdf_count) <= FPCIE_MAX_SCAN_NUMBER /\
  0 <= inst.(config).(max_dev_num) <= 32 /\ 0 <= inst.(config).(max_fun_num) <= 8.

Definition same_config (inst inst' : FPcieEcam) : Prop := inst'.(config) = inst.(config).

Lemma fit_same inst inst' : same_scans inst inst' -> fit inst -> fit inst'.
Proof. unfold fit, ready. by intros (-> & -> & _ & _ & -> & ->). Qed.

(** A call that returns: it keeps the instance fit, counts at most [n] more buses, and
    keeps the buses up to [b]. *)
Definition returns {A} (x : res (A * FPcieEcam * hw)) (inst : FPcieEcam) (h : hw) (b : Z) (n : nat) :
    Prop :=
  exists r inst' h', x = Ok (r, inst', h') /\ fit inst' /\ same_config inst inst' /\
    inst.(bus_max) <= inst'.(bus_max) <= inst.(bus_max) + Z.of_nat n /\ same_above b h h'.

Lemma insert_total inst b d f : fit inst -> exists inst',
  FPcieBdfInsert inst b d f = Ok inst' /\ fit inst' /\ same_config inst inst' /\
  inst'.(bus_max) = inst.(bus_max).
Proof.
  intros (Hr & He & Hl & Hc & Hd & Hf). unfold FPcieBdfInsert. rewrite Hr.
  set (n := if _ <=? _ then _ else _).
  assert (0 <= n <= 127) as Hn
    by (unfold n, FPCIE_MAX_SCAN_NUMBER in *; destruct (Z.leb_spec 128 inst.(scans_bdf_count)); lia).
  rewrite aset_in_range by (rewrite Hl; unfold FPCIE_MAX_SCAN_NUMBER; lia). simpl.
  eexists. split; [done|]. split; [|done]. unfold fit. simpl. rewrite length_insert.
  rewrite (wrap_small 32) by lia. unfold FPCIE_MAX_SCAN_NUMBER in *. repeat split; done || lia.
Qed.

Section Place.
Context (b d f : Z) (Hplace : place b d f).
Context (inst : FPcieEcam) (Hfit : fit inst).

(** The BARs of a function. *)
Lemma alloc_returns h ht : (ht = FPCIE_CCR_HEAD_TYPE1 <-> header h b d f = FPCIE_CCR_HEAD_TYPE1) ->
  ht = FPCIE_CCR_HEAD_TYPE0 \/ ht = FPCIE_CCR_HEAD_TYPE1 ->
  exists ret inst' h', FPcieAllocBarSpace inst h ht b d f = Ok (ret, inst', h') /\
    same_scans inst inst' /\ same_topology h h'.
Proof.
  intros Hht Hcase.
  apply (alloc_total e b d f (same_topology h) (fun o => 0 <= o <= 0xe /\
    (o <> FPCIE_CCR_PB_SEC_SUB_SECL_REGS \/ header h b d f <> FPCIE_CCR_HEAD_TYPE1))).
  - intros h1 o v h2 Hs E b' d' f'. destruct (topo_read _ _ _ _ b' d' f' E) as (-> & -> & ->). apply Hs.
  - intros h1 o x Hs [Ho Ha] b' d' f'.
    destruct (topo_write h1 b d f o x b' d' f' Hplace ltac:(lia)) as (-> & -> & ->); [|apply Hs].
    destruct (Hs b d f) as (-> & _). done.
  - apply Hfit.
  - apply Hfit.
  - done.
  - by destruct Hcase as [-> | ->].
  - intros o Ho [->|Hne]; (split; [done|]); [right|by left]. intros E.
    apply Hht in E. done.
  - intros Hne h0 v h' Hs E. destruct Hcase as [-> | ->]; [done|].
    eapply (topo_bar1 h0); [done| |exact E]. destruct (Hs b d f) as (-> & _). by apply Hht.
Qed.

(** The set-up of a bridge before the enumeration behind it: the bus gets its number. *)
Lemma prescan_returns h sec : b <= inst.(config).(max_bus_num) ->
  header h b d f = FPCIE_CCR_HEAD_TYPE1 -> b < sec <= 255 ->
  exists inst' h', FPciePreScanSetupBridge inst h sec b d f = Ok (inst', h') /\
    same_scans inst inst' /\ same_above b h h' /\ behind h' b d f = sec /\
    (bus_bridges h' sec < bridges h b d f)%nat.
Proof.
  intros Hb Hhd Hsec. pose proof Hfit as (Hr & He & _).
  assert (on_bus e b inst) as Hu by done. unfold FPciePreScanSetupBridge.
  assert (forall h1 o v h', same_topology h h1 ->
    FtIn32 h1 e (FPcieGetEcamConfigAddress b d f o) = (v, h') -> same_topology h h') as Hread.
  { intros h1 o v h2 Hs E b' d' f'. destruct (topo_read _ _ _ _ b' d' f' E) as (-> & -> & ->). apply Hs. }
  destruct (read_total e b d f (same_topology h) Hread inst h FPCIE_CCR_CMD_STATUS_REGS Hu)
    as (v1 & h1 & -> & HP1 & _); [done|]. simpl.
  destruct (read_total e b d f (same_topology h) Hread inst h1 FPCIE_CCR_PMEMB_PMEML_REGS Hu HP1)
    as (v2 & h2 & -> & HP2 & _). simpl.
  set (x := Z.lor _ _).
  assert (secondary (u32 x) = sec) as Hx by (apply prescan_secondary; unfold place in Hplace; lia).
  pose proof (HP2 b d f) as (Hh2 & Hb2 & _).
  destruct (topo_number h2 b d f (u32 x) Hplace) as (A & B & C & D); [congruence|lia|].
  rewrite Hx in C, D. rewrite (write_at e b d f inst h2 _ x Hu). simpl.
  set (h3 := FtOut32 _ _ _ _) in *.
  destruct (prescan_mem_total e b d f (same_topology h3) (fun o => 0 <= o <= 0xe /\
    o <> FPCIE_CCR_PB_SEC_SUB_SECL_REGS)) with (inst := inst) (h := h3) (cmd := u32 v1)
    (p64 := Z.land (u32 v2) FPCIE_CCR_PMEMB_64BIT_MASK) as (inst' & h' & E & Hs & HP'); try done.
  { intros h4 o v h5 Hs E b' d' f'. destruct (topo_read _ _ _ _ b' d' f' E) as (-> & -> & ->). apply Hs. }
  { intros h4 o y Hs [Ho Ha] b' d' f'.
    destruct (topo_write h4 b d f o y b' d' f' Hplace ltac:(lia)) as (-> & -> & ->); [by left|]. apply Hs. }
  rewrite E. eexists _, _. split; [done|]. split; [done|].
  assert (same_above b h h3) as H3.
  { split; intros b' d' f' Hb'.
    - destruct (A b' d' f' Hb') as [-> ->]. by destruct (HP2 b' d' f') as (-> & -> & _).
    - rewrite B by done. by destruct (HP2 b' d' f') as (_ & _ & ->). }
  split; [eapply same_above_trans; [exact H3|by apply same_topology_above]|].
  destruct (HP' b d f) as (_ & _ & ->). split; [done|].
  unfold bus_bridges. rewrite <-Hb2. eapply Nat.le_lt_trans; [|exact D].
  apply Nat.eq_le_incl. unfold devices. apply sum_from_ext. intros j. apply sum_from_ext.
  intros k. by destruct (HP' sec j k) as (_ & -> & _).
Qed.

Lemma postscan_returns h sub : b <= inst.(config).(max_bus_num) ->
  header h b d f = FPCIE_CCR_HEAD_TYPE1 -> b < behind h b d f ->
  exists inst' h', FPciePostscanSetupBridge inst h sub b d f = Ok (inst', h') /\
    same_scans inst inst' /\ same_above b h h'.
Proof.
  intros Hb Hhd Hbeh. pose proof Hfit as (Hr & He & _).
  assert (on_bus e b inst) as Hu by done. unfold FPciePostscanSetupBridge, update_reg.
  destruct (read_total e b d f (fun _ => True) ltac:(done) inst h FPCIE_CCR_PB_SEC_SUB_SECL_REGS Hu I)
    as (v1 & h1 & -> & _ & E1). simpl.
  assert (same_topology h h1) as H1.
  { intros b' d' f'. by destruct (topo_read _ _ _ _ b' d' f' E1) as (-> & -> & ->). }
  set (x := Z.lor _ _).
  assert (secondary (u32 x) = behind h b d f) as Hx.
  { unfold x. rewrite postscan_secondary by (apply wrap_range; lia). by eapply topo_behind. }
  destruct (topo_number h1 b d f (u32 x) Hplace) as (A & B & _).
  { by destruct (H1 b d f) as (-> & _). }
  { by rewrite Hx. }
  rewrite (write_at e b d f inst h1 _ x Hu). simpl. set (h2 := FtOut32 _ _ _ _) in *.
  assert (same_above b h h2) as H2.
  { eapply same_above_trans; [by apply same_topology_above|]. split; [exact A|exact B]. }
  assert (forall h1 o v h', same_topology h2 h1 ->
    FtIn32 h1 e (FPcieGetEcamConfigAddress b d f o) = (v, h') -> same_topology h2 h') as Hread.
  { intros h0 o v h3 Hs E b' d' f'. destruct (topo_read _ _ _ _ b' d' f' E) as (-> & -> & ->). apply Hs. }
  destruct (read_total e b d f (same_topology h2) Hread inst h2 FPCIE_CCR_PMEMB_PMEML_REGS Hu)
    as (v2 & h3 & -> & HP3 & _); [done|]. simpl.
  destruct (postscan_mem_total e b d f (same_topology h2) (fun o => 0 <= o <= 0xe /\
    o <> FPCIE_CCR_PB_SEC_SUB_SECL_REGS)) with (inst := inst) (h := h3)
    (p64 := Z.land (u32 v2) FPCIE_CCR_PMEMB_64BIT_MASK) as (inst' & h' & E & Hs & HP'); try done.
  { intros h4 o y Hs [Ho Ha] b' d' f'.
    destruct (topo_write h4 b d f o y b' d' f' Hplace ltac:(lia)) as (-> & -> & ->); [by left|]. apply Hs. }
  rewrite E. eexists _, _. split; [done|]. split; [done|].
  eapply same_above_trans; [exact H2|by apply same_topology_above].
Qed.
End Place.

(** ** The loops of a bus *)
Section Loops.
Context (b : Z) (Hb : 0 <= b < 256) (fuel : nat).
Context (probe : FPcieEcam -> hw -> Z -> Z -> Z -> res (Z * FPcieEcam * hw)).

(** The probe of a bridge returns where the numbers suffice. *)
Context (Hprobe : forall inst h d f, place b d f -> fit inst -> b <= inst.(config).(max_bus_num) ->
  header h b d f = FPCIE_CCR_HEAD_TYPE1 -> b <= inst.(bus_max) ->
  inst.(bus_max) + Z.of_nat (bridges h b d f) <= 255 -> (bridges h b d f <= fuel)%nat ->
  returns (probe inst h b d f) inst h b (bridges h b d f)).

Definition room (inst : FPcieEcam) (n : nat) : Prop :=
  fit inst /\ b <= inst.(bus_max) /\ inst.(bus_max) + Z.of_nat n <= 255 /\ (n <= fuel)%nat.

Lemma bus_room_le inst n m : room inst n -> (m <= n)%nat -> room inst m.
Proof. unfold room. intros (? & ? & ? & ?) Hm. do 2 (split; [done|]). lia. Qed.

Lemma visit_returns inst h ht d f : place b d f -> b <= inst.(config).(max_bus_num) ->
  room inst (bridges h b d f) ->
  (ht = FPCIE_CCR_HEAD_TYPE1 <-> header h b d f = FPCIE_CCR_HEAD_TYPE1) ->
  exists inst' h', visit probe inst h ht b d f = Ok (inst', h') /\ fit inst' /\
    same_config inst inst' /\
    inst.(bus_max) <= inst'.(bus_max) <= inst.(bus_max) + Z.of_nat (bridges h b d f) /\
    same_above b h h'.
Proof.
  intros Hp Hm (Hfit & Hle & H255 & Hfuel) Hht. unfold visit.
  destruct (insert_total inst b d f Hfit) as (i1 & E1 & Hfit1 & Hc1 & Hb1).
  destruct (Z.eqb_spec ht FPCIE_CCR_HEAD_TYPE0) as [H0|H0];
    [|destruct (Z.eqb_spec ht FPCIE_CCR_HEAD_TYPE1) as [H1|H1]]; rewrite E1; simpl.
  2: { destruct (alloc_returns b d f Hp i1 Hfit1 h FPCIE_CCR_HEAD_TYPE1)
         as (r2 & i2 & h2 & -> & Hs2 & Ht2); [|by right|].
       { by rewrite <-Hht. }
       simpl. pose proof (fit_same _ _ Hs2 Hfit1) as Hfit2.
       pose proof Hs2 as (_ & Ec & _ & Em & _). destruct (Ht2 b d f) as (Eh & Eb & _).
       unfold same_config in Hc1.
       destruct (Hprobe i2 h2 d f) as (r3 & i3 & h3 & -> & Hfit3 & Hc3 & Hm3 & Ha3);
         rewrite ?Eh, ?Eb, ?Em, ?Ec, ?Hb1, ?Hc1; try done; [by apply Hht|].
       simpl. eexists _, _. split; [done|]. split; [done|].
       split; [unfold same_config in *; congruence|]. split; [lia|].
       eapply same_above_trans; [by apply same_topology_above|done]. }
  all: destruct (alloc_returns b d f Hp i1 Hfit1 h FPCIE_CCR_HEAD_TYPE0)
         as (r2 & i2 & h2 & -> & Hs2 & Ht2); [|by left|];
       [split; [done|intros E; apply Hht in E; first [done | by rewrite H0 in E]]|].
  all: simpl; pose proof (fit_same _ _ Hs2 Hfit1) as Hfit2;
    pose proof Hs2 as (_ & Ec & _ & Em & _); unfold same_config in *;
    eexists _, _; split; [done|]; split; [done|]; split; [congruence|]; split; [lia|];
    by apply same_topology_above.
Qed.

Lemma same_topology_read h off v h' : FtIn32 h e off = (v, h') -> same_topology h h'.
Proof. intros E b' d' f'. by destruct (topo_read _ _ _ _ b' d' f' E) as (-> & -> & ->). Qed.

Lemma same_topology_trans h1 h2 h3 : same_topology h1 h2 -> same_topology h2 h3 -> same_topology h1 h3.
Proof. intros A B b' d' f'. destruct (A b' d' f') as (<- & <- & <-). apply B. Qed.

Lemma skipped_same inst h d f : exists sk h', skipped inst h b d f = (sk, h') /\ same_topology h h'.
Proof.
  unfold skipped. destruct (truth _); [|by eexists _, _].
  destruct (call_need_skip _ _ _ _ _) as [v h'] eqn:E. eexists _, _. split; [done|].
  intros b' d' f'. by destruct (topo_skip _ _ _ _ _ _ _ b' d' f' E) as (-> & -> & ->).
Qed.

Lemma stays {A} (x : res (A * FPcieEcam * hw)) r inst h h' n : x = Ok (r, inst, h') -> fit inst ->
  same_topology h h' -> returns x inst h b n.
Proof.
  intros -> Hf Hs. eexists _, _, _. split; [done|]. split; [done|]. split; [done|].
  split; [lia|by apply same_topology_above].
Qed.

Lemma function_turn_returns inst h d f : 0 <= d < 32 -> 0 <= f < 8 -> room inst (bridges h b d f) ->
  returns (function_turn probe inst h b d f) inst h b (bridges h b d f).
Proof.
  intros Hd Hf Hroom. assert (place b d f) as Hp by done. pose proof (proj1 Hroom) as Hfit.
  pose proof Hfit as (Hr & He & _). unfold function_turn. rewrite !(wrap_small 8) by lia.
  destruct (skipped_same inst h d f) as (sk & h1 & -> & Ht1). destruct sk; [by eapply stays|].
  destruct (Z.ltb_spec inst.(config).(max_bus_num) b) as [Hm|Hm].
  { rewrite read_exceeds by done. by eapply stays. }
  assert (on_bus e b inst) as Hu by done.
  destruct (read_total e b d f (fun _ => True) ltac:(done) inst h1 FPCIE_CCR_ID_REG Hu I)
    as (v1 & h2 & -> & _ & E2). apply same_topology_read in E2. simpl.
  pose proof (same_topology_trans _ _ _ Ht1 E2) as Ht2.
  destruct (_ =? FPCIE_DEVICE_NOT_PRESENT); [by eapply stays|].
  destruct (read_total e b d f (fun _ => True) ltac:(done) inst h2 FPCIE_CCR_CLS_LT_HT_REGS Hu I)
    as (v2 & h3 & -> & _ & E3). simpl. pose proof (topo_header _ _ _ _ _ _ Hp E3) as Hht.
  apply same_topology_read in E3. pose proof (same_topology_trans _ _ _ Ht2 E3) as Ht3.
  destruct (Ht3 b d f) as (Eh & Eb & _).
  destruct (visit_returns inst h3 (FPCIE_CCR_HEAD_TYPE_MASK (u32 v2)) d f Hp Hm)
    as (i4 & h4 & -> & Hfit4 & Hc4 & Hm4 & Ha4).
  { by rewrite Eb. }
  { rewrite Hht. by destruct (E3 b d f) as (-> & _). }
  simpl. assert (same_above b h h4) as Ha
    by (eapply same_above_trans; [by apply same_topology_above|done]). rewrite Eb in Hm4.
  destruct (_ && _); by eexists _, _, _.
Qed.

Lemma function_loop_returns n : forall inst h d f, 0 <= d < 32 -> 0 <= f <= 8 ->
  inst.(config).(max_fun_num) - f <= Z.of_nat n -> room inst (functions h b d f) ->
  returns (function_loop probe n inst h b d f) inst h b (functions h b d f).
Proof.
  induction n as [|n IH]; intros inst h d f Hd Hf Hn Hroom; simpl;
    destruct (Z.ltb_spec f inst.(config).(max_fun_num)); simpl.
  2, 4: by eapply stays; [done|apply Hroom|].
  { lia. }
  assert (f < 8) by (destruct Hroom as ((_ & _ & _ & _ & _ & ?) & _); lia).
  rewrite functions_step in * by done.
  destruct (function_turn_returns inst h d f Hd ltac:(lia)) as (r & i1 & h1 & -> & Hfit1 & Hc1 & Hm1 & Ha1).
  { eapply bus_room_le; [done|lia]. }
  simpl. destruct Hroom as (_ & Hle & H255 & Hfl).
  destruct r; [|eexists _, _, _; split; [done|]; split; [done|]; split; [done|]; split; [lia|done]..].
  rewrite (wrap_small 32) by lia.
  pose proof (functions_above b h h1 d (f + 1) Ha1) as Ef.
  destruct (IH i1 h1 d (f + 1)) as (r2 & i2 & h2 & -> & Hfit2 & Hc2 & Hm2 & Ha2);
    [done|lia|by rewrite Hc1; lia| |].
  { rewrite Ef. unfold room. split; [done|]. lia. }
  rewrite Ef in Hm2. eexists _, _, _. split; [done|]. split; [done|].
  split; [unfold same_config in *; congruence|]. split; [lia|by eapply same_above_trans].
Qed.

Lemma device_loop_returns n : forall inst h d, 0 <= d <= 32 ->
  inst.(config).(max_dev_num) - d <= Z.of_nat n -> room inst (devices h b d) ->
  returns (device_loop probe n inst h b d) inst h b (devices h b d).
Proof.
  induction n as [|n IH]; intros inst h d Hd Hn Hroom; simpl;
    destruct (Z.ltb_spec d inst.(config).(max_dev_num)); simpl.
  2, 4: by eapply stays; [done|apply Hroom|].
  { lia. }
  pose proof Hroom as ((_ & _ & _ & _ & ? & ?) & _). rewrite devices_step in * by lia.
  destruct (function_loop_returns (Z.to_nat inst.(config).(max_fun_num)) inst h d 0)
    as (r & i1 & h1 & -> & Hfit1 & Hc1 & Hm1 & Ha1); [lia..| |].
  { eapply bus_room_le; [done|lia]. }
  simpl. destruct Hroom as (_ & Hle & H255 & Hfl).
  destruct r; [eexists _, _, _; split; [done|]; split; [done|]; split; [done|]; split; [lia|done]|].
  rewrite (wrap_small 32) by lia.
  pose proof (devices_above b h h1 (d + 1) Ha1) as Ed.
  destruct (IH i1 h1 (d + 1)) as (r2 & i2 & h2 & -> & Hfit2 & Hc2 & Hm2 & Ha2);
    [lia|by rewrite Hc1; lia| |].
  { rewrite Ed. unfold room. split; [done|]. lia. }
  rewrite Ed in Hm2. eexists _, _, _. split; [done|]. split; [done|].
  split; [unfold same_config in *; congruence|]. split; [lia|by eapply same_above_trans].
Qed.
End Loops.

(** ** Bridges and the recursion *)
Lemma probe_returns fuel enum :
  (forall inst h b, 0 <= b < 256 -> fit inst -> b <= inst.(bus_max) ->
     inst.(bus_max) + Z.of_nat (bus_bridges h b) <= 255 -> (bus_bridges h b < fuel)%nat ->
     returns (enum inst h b) inst h b (bus_bridges h b)) ->
  forall inst h b d f, place b d f -> fit inst -> b <= inst.(config).(max_bus_num) ->
    header h b d f = FPCIE_CCR_HEAD_TYPE1 -> b <= inst.(bus_max) ->
    inst.(bus_max) + Z.of_nat (bridges h b d f) <= 255 -> (bridges h b d f <= fuel)%nat ->
    returns (FPcieBridgeProbeBus enum inst h b d f) inst h b (bridges h b d f).
Proof.
  intros Henum inst h b d f Hp Hfit Hm Hhd Hle H255 Hfuel. unfold FPcieBridgeProbeBus.
  pose proof (topo_bridge _ _ _ _ Hp Hhd) as Hpos. pose proof Hp as (Hb & _ & _).
  rewrite (wrap_small 32) by lia. set (i0 := set_bus_max inst (inst.(bus_max) + 1)).
  assert (fit i0) as Hfit0 by done. change (bus_max i0) with (inst.(bus_max) + 1).
  rewrite (wrap_small 8) by lia.
  destruct (prescan_returns b d f Hp i0 Hfit0 h (inst.(bus_max) + 1)) as
    (i1 & h1 & -> & Hs1 & Ha1 & Hbeh1 & Hlt); [done|done|lia|]. simpl.
  pose proof (fit_same _ _ Hs1 Hfit0) as Hfit1.
  pose proof Hs1 as (_ & Ec1 & _ & Em1 & _). simpl in Em1.
  destruct (Henum i1 h1 (inst.(bus_max) + 1)) as (r & i2 & h2 & -> & Hfit2 & Hc2 & Hm2 & Ha2);
    [lia|done|lia..|]. simpl. rewrite Em1 in Hm2.
  destruct Ha2 as [Ha2 Hb2].
  destruct (postscan_returns b d f Hp i2 Hfit2 h2 (u8 i2.(bus_max))) as (i3 & h3 & -> & Hs3 & Ha3).
  { rewrite Hc2, Ec1. done. }
  { destruct (Ha2 b d f ltac:(lia)) as [-> _], Ha1 as [Ha1 _]. by destruct (Ha1 b d f ltac:(lia)) as [-> _]. }
  { rewrite Hb2 by lia. lia. }
  simpl. pose proof Hs3 as (_ & Ec3 & _ & Em3 & _).
  eexists _, _, _. split; [done|]. split; [by eapply fit_same|].
  split; [unfold same_config in *; rewrite Ec3, Hc2, Ec1; done|]. split; [lia|].
  eapply same_above_trans; [exact Ha1|]. eapply same_above_trans; [|exact Ha3].
  apply (same_above_le b (inst.(bus_max) + 1)); [lia|done].
Qed.

Lemma recursion_returns fuel : forall inst h b, 0 <= b < 256 -> fit inst -> b <= inst.(bus_max) ->
  inst.(bus_max) + Z.of_nat (bus_bridges h b) <= 255 -> (bus_bridges h b < fuel)%nat ->
  returns (FPcieEcamEnumerateBusRecursion fuel inst h b) inst h b (bus_bridges h b).
Proof.
  induction fuel as [|fuel IH]; intros inst h b Hb Hfit Hle H255 Hfuel; [lia|]. simpl.
  rewrite (proj1 Hfit). pose proof Hfit as (_ & _ & _ & _ & ? & _).
  apply (device_loop_returns b Hb fuel); [|lia|lia|].
  - intros i h' d f. by apply probe_returns.
  - split; [done|]. unfold bus_bridges in *. lia.
Qed.

Lemma info_total l : forall inst h, ready inst = true ->
  exists h', info_loop inst h l = Ok h'.
Proof.
  induction l as [|x l IH]; intros inst h Hr; simpl; [by eexists|].
  assert (forall h b d f o, exists ret v h', FPcieEcamReadConfigSpace inst h b d f o = Ok (ret, v, h'))
    as Hread.
  { intros h0 b d f o. unfold FPcieEcamReadConfigSpace. rewrite Hr. case_match; [eauto|].
    destruct (FPCIE_READECAM_REG _ _ _). eauto. }
  edestruct Hread as (r1 & v1 & h1 & ->). simpl. destruct (negb _); [by eexists|].
  edestruct Hread as (r2 & v2 & h2 & ->). simpl. destruct (negb _); [by eexists|]. by apply IH.
Qed.

(** ** Properties *)

(** C21: Enumerating a bus comes to an end on every hierarchy of bridges whose bus numbers
    fit in 8 bits, and hands out at most as many as there are bridges; the recursion is no
    deeper than that. *)
Theorem FPcieEcamEnumerateBus_terminates fuel inst h b :
  0 <= b < 256 -> fit inst ->
  b + Z.of_nat (bus_bridges h b) <= 255 -> (bus_bridges h b < fuel)%nat ->
  exists ret inst' h', FPcieEcamEnumerateBus fuel inst h b = Ok (ret, inst', h') /\
    b <= inst'.(bus_max) <= b + Z.of_nat (bus_bridges h b) /\
    0 <= inst'.(scans_bdf_count) <= FPCIE_MAX_SCAN_NUMBER.
Proof.
  intros Hb Hfit H255 Hfuel. unfold FPcieEcamEnumerateBus. simpl.
  set (i0 := set_scans _ _ _).
  assert (fit i0) as Hfit0.
  { destruct Hfit as (Hr & He & Hl & _ & Hd & Hf). unfold fit. simpl.
    split_and!; done || lia. }
  destruct (recursion_returns fuel i0 h b Hb Hfit0) as (r & i1 & h1 & -> & Hfit1 & _ & Hm & _);
    [simpl; lia..|done|]. simpl.
  destruct (info_total (take (Z.to_nat i1.(scans_bdf_count)) i1.(scans_bdf)) i1 h1 (proj1 Hfit1))
    as (h2 & E). unfold FPcieEcamInfoPrint. rewrite E. simpl.
  eexists _, _, _. split; [done|]. split; [exact Hm|]. apply Hfit1.
Qed.
End Termination.
