(* ===== verification/PcieWindows.v ===== *)
(** The windows of a bridge (Pcie.v): the addresses the driver lets a bridge pass on hold
    every block it assigns behind the bridge. *)
From S2P Require Import Prelude Mmio Pcie PcieRegion PcieTrace PcieSafety PcieBridge.
Import Pcie.

Arguments lnotw : simpl never.
Arguments Z.lor : simpl never.
Arguments Z.land : simpl never.
Arguments Z.shiftl : simpl never.
Arguments Z.shiftr : simpl never.
Arguments Z.pow : simpl never.
Arguments Z.mul : simpl never.
Arguments Z.add : simpl never.
Arguments Z.sub : simpl never.
Arguments Z.testbit : simpl never.

(** ** What a bridge passes on *)

(** The word last written to a register, 0 if there is none. *)
Definition word_written (t : list event) (loc : Z) : Z :=
  foldl (fun w e => match e with Wr l v => if l =? loc then v else w | Rd _ _ => w end) 0 t.

(** The first and the last address of a window, from the registers [w] of the bridge, as
    the bridge decodes them: the one for I/O with 32 bits, the prefetchable window with 64
    or with 32, as bit 0 of its register 9 tells ([wide]). *)
Definition window_base (wide : bool) (w : Z -> Z) (p : region_ptr) : Z :=
  match p with
  | Mem => Z.shiftl (Z.land (w 8) 0xfff0) 16
  | MemPrefetch => (if wide then Z.shiftl (w 0xa) 32 else 0) + Z.shiftl (Z.land (w 9) 0xfff0) 16
  | MemIo => Z.shiftl (Z.land (w 0xc) 0xffff) 16 + Z.shiftl (Z.land (w 7) 0xf0) 8
  end.
Definition window_limit (wide : bool) (w : Z -> Z) (p : region_ptr) : Z :=
  match p with
  | Mem => Z.shiftl (Z.land (Z.shiftr (w 8) 16) 0xfff0) 16 + 0xfffff
  | MemPrefetch =>
      (if wide then Z.shiftl (w 0xb) 32 else 0) +
      Z.shiftl (Z.land (Z.shiftr (w 9) 16) 0xfff0) 16 + 0xfffff
  | MemIo => Z.shiftl (Z.shiftr (w 0xc) 16) 16 + Z.shiftl (Z.land (Z.shiftr (w 7) 8) 0xf0) 8 + 0xfff
  end.

(** The registers of a bridge after a log. *)
Definition bridge_words (t : list event) (b d f o : Z) : Z :=
  word_written t (FPcieGetEcamConfigAddress b d f o).

(** ** The fields *)
Lemma mul_testbit_low k q i : 0 <= k -> i < k -> Z.testbit (q * 2 ^ k) i = false.
Proof.
  intros Hk Hi. destruct (Z.ltb_spec i 0); [by apply Z.testbit_neg_r|].
  by apply Z.mul_pow2_bits_low.
Qed.

(** Decides the bits of registers made of fields, bit [i] of which lies on a known side of
    the bounds between the fields. *)
Ltac below k i := rewrite ?Z.lor_spec, ?(Z.shiftl_spec_low _ k) by lia.
Ltac fields :=
  autorewrite with cbits; decide_cmp; simpl; rewrite ?andb_true_r, ?andb_false_r, ?orb_false_r, ?orb_true_r;
  first [done | lia | by rewrite !Z.testbit_neg_r by lia | by rewrite ?orb_false_l; f_equal; lia].

Ltac io_bits i :=
  destruct (Z.ltb_spec i 8), (Z.ltb_spec i 12), (Z.ltb_spec i 16), (Z.ltb_spec i 32);
  below 16 i; below 8 i; autorewrite with cbits;
  replace (i - 16 + 16) with i by lia; replace (i - 8 + 8) with i by lia;
  rewrite ?(mul_testbit_low 12) by lia; fields.

Definition half_base (v lower : Z) : Z :=
  u32 (Z.lor (Z.land v (lnotw 32 (FPCIE_CCR_MEM_BASE_MASK 0xffff)))
         (FPCIE_CCR_MEM_BASE_MASK (Z.shiftr (Z.land lower 0xfff00000) 16))).
Definition half_limit (v last : Z) : Z :=
  u32 (Z.lor (Z.land v (lnotw 32 (FPCIE_CCR_MEM_LIMIT_MASK 0xffff 0)))
         (FPCIE_CCR_MEM_LIMIT_MASK last 16)).

Lemma half_base_spec v lower : (2 ^ 20 | lower) ->
  Z.shiftl (Z.land (half_base v lower) 0xfff0) 16 = u32 lower.
Proof.
  intros [q ->]. unfold half_base, FPCIE_CCR_MEM_BASE_MASK.
  change (Z.land 0xffff 0xffff) with (Z.ones 16). change 0xffff with (Z.ones 16).
  change 0xfff0 with (Z.shiftl (Z.ones 12) 4). change 0xfff00000 with (Z.shiftl (Z.ones 12) 20).
  apply Z.bits_inj'. intros i Hi. destruct (Z.ltb_spec i 16), (Z.ltb_spec i 20), (Z.ltb_spec i 32);
    below 16 i; autorewrite with cbits; replace (i - 16 + 16) with i by lia;
    rewrite ?(mul_testbit_low 20) by lia; fields.
Qed.

Lemma ones_below q k : 0 <= k -> q * 2 ^ k - 1 = Z.lor (Z.shiftl (q - 1) k) (Z.ones k).
Proof.
  intros Hk. pose proof (pow2_pos k Hk).
  rewrite lor_shiftl by (rewrite ?Z.ones_equiv; lia). rewrite Z.ones_equiv. rewrite Z.shiftl_mul_pow2 by done. lia.
Qed.

Lemma half_limit_spec v last : (2 ^ 20 | last + 1) ->
  Z.shiftl (Z.land (Z.shiftr (half_limit v last) 16) 0xfff0) 16 + 0xfffff = u32 last.
Proof.
  intros [q Hq]. replace last with (q * 2 ^ 20 - 1) by lia. rewrite ones_below by done.
  change 0xfffff with (Z.ones 20). rewrite <-lor_disjoint;
  unfold half_limit, FPCIE_CCR_MEM_LIMIT_MASK;
  change (Z.land (u32 (Z.shiftl (Z.shiftr (u32 0xffff) 0) 16)) 0xffff0000) with (Z.shiftl (Z.ones 16) 16);
  change 0xffff0000 with (Z.shiftl (Z.ones 16) 16);
  change 0xfff0 with (Z.shiftl (Z.ones 12) 4).
  - apply Z.bits_inj'. intros i Hi.
    destruct (Z.ltb_spec i 16), (Z.ltb_spec i 20), (Z.ltb_spec i 32); below 16 i;
      autorewrite with cbits; replace (i - 16 + 16) with i by lia; fields.
  - intros i Hi. destruct (Z.ltb_spec i 16), (Z.ltb_spec i 20); below 16 i; fields.
Qed.

(** The two registers of the window for I/O. *)
Definition io_base (v lower : Z) : Z :=
  u32 (Z.lor (Z.land v (lnotw 32 (FPCIE_CCR_IO_BASE_MASK 0xff)))
         (FPCIE_CCR_IO_BASE_MASK (Z.shiftr (Z.land lower 0xf000) 8))).
Definition io_base_upper (v lower : Z) : Z :=
  u32 (Z.lor (Z.land v (lnotw 32 (FPCIE_CCR_IOB_UP16_MASK 0xffff)))
         (FPCIE_CCR_IOB_UP16_MASK (Z.shiftr (Z.land lower 0xffff0000) 16))).
Definition io_limit (v last : Z) : Z :=
  u32 (Z.lor (Z.land v (lnotw 32 (FPCIE_CCR_IO_LIMIT_MASK 0xff)))
         (FPCIE_CCR_IO_LIMIT_MASK (Z.shiftr (Z.land last 0xf000) 8))).
Definition io_limit_upper (v last : Z) : Z :=
  u32 (Z.lor (Z.land v (lnotw 32 (FPCIE_CCR_IOB_LIMIT16_MASK 0xffff)))
         (FPCIE_CCR_IOB_LIMIT16_MASK (Z.shiftr (Z.land last 0xffff0000) 16))).

Lemma io_base_spec v w lower : (2 ^ 12 | lower) ->
  Z.shiftl (Z.land (io_base_upper w lower) 0xffff) 16 + Z.shiftl (Z.land (io_base v lower) 0xf0) 8 =
    u32 lower.
Proof.
  intros [q ->]. unfold io_base, io_base_upper, FPCIE_CCR_IO_BASE_MASK, FPCIE_CCR_IOB_UP16_MASK.
  change (Z.land 0xff 0xff) with (Z.ones 8). change (Z.land 0xffff 0xffff) with (Z.ones 16).
  change 0xffff0000 with (Z.shiftl (Z.ones 16) 16). change 0xf000 with (Z.shiftl (Z.ones 4) 12).
  change 0xf0 with (Z.shiftl (Z.ones 4) 4). change 0xffff with (Z.ones 16). change 0xff with (Z.ones 8).
  rewrite <-lor_disjoint; [apply Z.bits_inj'|]; intros i Hi; io_bits i.
Qed.

Lemma io_limit_spec v w last : (2 ^ 12 | last + 1) ->
  Z.shiftl (Z.shiftr (io_limit_upper w last) 16) 16 +
    Z.shiftl (Z.land (Z.shiftr (io_limit v last) 8) 0xf0) 8 + 0xfff = u32 last.
Proof.
  intros [q Hq]. replace last with (q * 2 ^ 12 - 1) by lia. rewrite ones_below by done.
  unfold io_limit, io_limit_upper, FPCIE_CCR_IO_LIMIT_MASK, FPCIE_CCR_IOB_LIMIT16_MASK.
  change (u32 (Z.land (u64 (Z.shiftl 0xff 8)) 0xff00)) with (Z.shiftl (Z.ones 8) 8).
  change (u32 (Z.land (u64 (Z.shiftl 0xffff 16)) 0xffff0000)) with (Z.shiftl (Z.ones 16) 16).
  change 0xffff0000 with (Z.shiftl (Z.ones 16) 16). change 0xf000 with (Z.shiftl (Z.ones 4) 12).
  change 0xff00 with (Z.shiftl (Z.ones 8) 8).
  change 0xf0 with (Z.shiftl (Z.ones 4) 4). change 0xfff with (Z.ones 12).
  set (A := Z.shiftl _ 16). set (B := Z.shiftl (Z.land _ _) 8).
  assert (A + B = Z.lor A B) as ->.
  { symmetry. apply lor_disjoint. unfold A, B. intros i Hi. io_bits i. }
  rewrite <-lor_disjoint; [apply Z.bits_inj'|]; unfold A, B; intros i Hi; io_bits i.
Qed.

(** ** The registers of a bridge *)
Section Registers.
Context (H : MmioHw) (b d f : Z).
Abbreviation L := (logged H).
Abbreviation reg o := (FPcieGetEcamConfigAddress b d f o).

(** The prefetchable window of the bridge has 64 bits or not, as every read of its register
    in the log tells. *)
Definition window_kind (wide : bool) (t : list event) : Prop :=
  forall v, Rd (reg 9) v ∈ t -> Z.testbit v 0 = wide.

Lemma kind_flag wide v t : window_kind wide t -> Rd (reg 9) v ∈ t ->
  truth (Z.land v FPCIE_CCR_PMEMB_64BIT_MASK) = wide.
Proof.
  intros Hw Hv. rewrite <-(Hw v Hv). unfold truth, FPCIE_CCR_PMEMB_64BIT_MASK.
  rewrite Z.bit0_odd. change (Z.land v 1) with (Z.land v (Z.ones 1)).
  rewrite Z.land_ones by done. change (2 ^ 1) with 2. rewrite Zmod_odd. by destruct (Z.odd v).
Qed.

Lemma words_rd t l v o : bridge_words (t ++ [Rd l v]) b d f o = bridge_words t b d f o.
Proof. unfold bridge_words, word_written. by rewrite foldl_app. Qed.

Lemma words_wr t o' v o : 0 <= o < 1024 -> 0 <= o' < 1024 ->
  bridge_words (t ++ [Wr (reg o') v]) b d f o = if o' =? o then v else bridge_words t b d f o.
Proof.
  intros Ho Ho'. unfold bridge_words, word_written. rewrite foldl_app. simpl.
  by rewrite address_eqb.
Qed.

Lemma words_upd t l u o' v o : 0 <= o < 1024 -> 0 <= o' < 1024 ->
  bridge_words (t ++ [Rd l u; Wr (reg o') v]) b d f o =
    if o' =? o then v else bridge_words t b d f o.
Proof.
  intros Ho Ho'. replace (t ++ [Rd l u; Wr (reg o') v]) with ((t ++ [Rd l u]) ++ [Wr (reg o') v])
    by by rewrite <-app_assoc.
  by rewrite words_wr, words_rd.
Qed.

Lemma update_logged inst h t o clear set : usable inst b ->
  exists v h', forall A (failed next : @hw L -> res A),
    update_reg (HW := L) inst (h, t) b d f o clear set failed next =
    next (h', t ++ [Rd (reg o) v] ++ [Wr (reg o) (u32 (Z.lor (Z.land v (lnotw 32 clear)) set))]).
Proof.
  intros Hu. destruct (read_logged H b d f inst h t o Hu) as (v & h1 & _ & E).
  destruct (write_logged H b d f inst h1 (t ++ [Rd (reg o) v]) o
    (Z.lor (Z.land v (lnotw 32 clear)) set) Hu) as (h2 & E').
  exists v, h2. intros A failed next. unfold update_reg. rewrite E. simpl. rewrite E'. simpl.
  by rewrite <-app_assoc.
Qed.

(** Where the three regions go on when a bridge is set up. *)
Definition aligned (inst : FPcieEcam) : FPcieEcam :=
  let inst := set_mem inst (FPcieAutoRegionAlign inst.(mem) 0x100000) in
  let inst := set_prefetch inst (FPcieAutoRegionAlign inst.(mem_prefetch) 0x100000) in
  set_io inst (FPcieAutoRegionAlign inst.(mem_io) 0x1000).

Definition all_regions (inst : FPcieEcam) : Prop :=
  exists_region inst.(mem) = true /\ exists_region inst.(mem_prefetch) = true /\
  exists_region inst.(mem_io) = true.

Ltac step_read Hu v h E :=
  lazymatch goal with
  | |- context [FPcieEcamReadConfigSpace (HW := L) ?i (?h0, ?t0) _ _ _ ?o] =>
      destruct (read_logged H b d f i h0 t0 o Hu) as (v & h & E & ->); simpl
  end.
Ltac step_write Hu h :=
  lazymatch goal with
  | |- context [FPcieEcamWriteConfigSpace (HW := L) ?i (?h0, ?t0) _ _ _ ?o ?x] =>
      destruct (write_logged H b d f i h0 t0 o x Hu) as (h & ->); simpl
  end.
Ltac step_update Hu v h :=
  lazymatch goal with
  | |- context [update_reg (HW := L) ?i (?h0, ?t0) _ _ _ ?o ?c ?s _ _] =>
      destruct (update_logged i h0 t0 o c s Hu) as (v & h & ->); simpl
  end.

Lemma prescan_words wide inst h t sec inst' h' t' : usable inst b -> all_regions inst ->
  FPciePreScanSetupBridge (HW := L) inst (h, t) sec b d f = Ok (inst', (h', t')) ->
  window_kind wide t' ->
  inst' = aligned inst /\
  exists v7 v8 v9 vc,
    let w := bridge_words t' b d f in
    w 8 = half_base v8 inst'.(mem).(bus_lower) /\
    w 9 = half_base v9 inst'.(mem_prefetch).(bus_lower) /\
    (wide = true -> w 0xa = u32 (Z.shiftr inst'.(mem_prefetch).(bus_lower) 32)) /\
    w 7 = io_base v7 inst'.(mem_io).(bus_lower) /\
    w 0xc = io_base_upper vc inst'.(mem_io).(bus_lower).
Proof.
  intros Hu (Hm & Hp & Hi) E. revert E. unfold FPciePreScanSetupBridge.
  step_read Hu cmd h1 Hc. step_read Hu p64 h2 Hp64.
  change (FT_SUCCESS =? FT_SUCCESS) with true. cbn [negb]. step_write Hu h3.
  unfold prescan_mem. rewrite Hm. step_update Hu v8 h4.
  unfold prescan_prefetch. simpl. rewrite Hp. simpl. step_update Hu v9 h5.
  destruct (truth _) eqn:Ht; [step_write Hu h6|]; unfold prescan_io; simpl; rewrite Hi; simpl;
    step_update Hu v7 h7; step_update Hu vc h8; step_write Hu h9; intros [= <- <- <-] Hw.
  all: assert (truth (Z.land p64 FPCIE_CCR_PMEMB_64BIT_MASK) = wide) as Ek
    by (eapply kind_flag; [exact Hw|]; rewrite !elem_of_app, !elem_of_cons; tauto).
  all: rewrite Ek in Ht; subst wide; split; [done|]; exists v7, v8, v9, vc; cbv zeta.
  all: rewrite !words_wr, !words_upd, ?words_wr, ?words_upd by done.
  all: split_and!; try done. intros _. simpl. by rewrite wrap_wrap_le by done.
Qed.

(** The address below the one where allocation goes on. *)
Definition last_of (r : FPcieRegion) : Z := u64 (r.(bus_lower) - 1).

Lemma postscan_words wide inst h t sub inst' h' t' : usable inst b -> all_regions inst ->
  FPciePostscanSetupBridge (HW := L) inst (h, t) sub b d f = Ok (inst', (h', t')) ->
  window_kind wide t' ->
  inst' = aligned inst /\
  exists v7 v8 v9 vc,
    let w := bridge_words t' b d f in
    w 8 = half_limit v8 (last_of inst'.(mem)) /\
    w 9 = half_limit v9 (last_of inst'.(mem_prefetch)) /\
    (wide = true -> w 0xb = u32 (Z.shiftr (last_of inst'.(mem_prefetch)) 32)) /\
    w 7 = io_limit v7 (last_of inst'.(mem_io)) /\
    w 0xc = io_limit_upper vc (last_of inst'.(mem_io)).
Proof.
  intros Hu (Hm & Hp & Hi) E. revert E. unfold FPciePostscanSetupBridge.
  step_update Hu v6 h1. step_read Hu p64 h2 Hp64.
  change (FT_SUCCESS =? FT_SUCCESS) with true. cbn [negb].
  unfold postscan_mem. rewrite Hm. step_update Hu v8 h4.
  unfold postscan_prefetch. simpl. rewrite Hp. simpl. step_update Hu v9 h5. step_write Hu h6.
  unfold postscan_io. simpl. rewrite Hi. simpl.
  step_update Hu v7 h7. step_update Hu vc h8. intros [= <- <- <-] Hw.
  assert (truth (Z.land p64 FPCIE_CCR_PMEMB_64BIT_MASK) = wide) as Ht.
  { eapply kind_flag; [exact Hw|]. rewrite !elem_of_app, !elem_of_cons. tauto. }
  split; [done|]. exists v7, v8, v9, vc. cbv zeta. rewrite !words_upd, !words_wr, !words_upd, Ht by done.
  split_and!; try done. intros ->. simpl. by rewrite wrap_wrap_le by done.
Qed.
End Registers.

(** ** What the registers mean *)
Lemma whole_halves x : 0 <= x < 2 ^ 64 -> Z.shiftl (u32 (Z.shiftr x 32)) 32 + u32 x = x.
Proof.
  intros Hx. rewrite Z.shiftl_mul_pow2, Z.shiftr_div_pow2 by done.
  assert (0 <= x / 2 ^ 32 < 2 ^ 32) by (split; [apply Z.div_pos|apply Z.div_lt_upper_bound]; lia).
  rewrite wrap_small by done. unfold wrap. pose proof (Z.div_mod x (2 ^ 32) ltac:(done)). lia.
Qed.

Lemma wrap_le x : 0 <= x -> u32 x <= x.
Proof. intros Hx. unfold wrap. apply Z.mod_le; lia. Qed.

Lemma aligned_spec inst : wf_inst inst ->
  wf_inst (aligned inst) /\ same_shape inst (aligned inst) /\ grown inst (aligned inst) /\
  (2 ^ 20 | (aligned inst).(mem).(bus_lower)) /\ (2 ^ 20 | (aligned inst).(mem_prefetch).(bus_lower)) /\
  (2 ^ 12 | (aligned inst).(mem_io).(bus_lower)).
Proof.
  intros (Hm & Hp & Hi & Ha).
  destruct (FPcieAutoRegionAlign_wf _ 20 Hm ltac:(done)) as (Em & Wm & Lm & Dm).
  destruct (FPcieAutoRegionAlign_wf _ 20 Hp ltac:(done)) as (Ep & Wp & Lp & Dp).
  destruct (FPcieAutoRegionAlign_wf _ 12 Hi ltac:(done)) as (Ei & Wi & Li & Di).
  split; [by split_and!|]. split; [done|]. split; [by split_and!|by split_and!].
Qed.

Lemma same_ready inst inst' : same_shape inst inst' -> ready inst = true -> ready inst' = true.
Proof. unfold ready. by intros (-> & _). Qed.

Lemma same_all_regions inst inst' : same_shape inst inst' -> all_regions inst -> all_regions inst'.
Proof.
  unfold all_regions. intros (_ & _ & _ & Hm & Hp & Hi).
  by rewrite (same_exists _ _ Hm), (same_exists _ _ Hp), (same_exists _ _ Hi).
Qed.

Section Windows.
Context (HW : MmioHw) (CL : PcieClient).
Abbreviation L := (logged HW).
Abbreviation C := (logged_client HW CL).

Lemma prescan_base wide b d f inst h t sec inst' h' t' p :
  wf_inst inst -> usable inst b -> all_regions inst ->
  FPciePreScanSetupBridge (HW := L) inst (h, t) sec b d f = Ok (inst', (h', t')) ->
  window_kind b d f wide t' ->
  window_base wide (bridge_words t' b d f) p <= (get_region inst' p).(bus_lower).
Proof.
  intros Hw Hu Hr E Hk.
  destruct (prescan_words HW b d f _ _ _ _ _ _ _ _ Hu Hr E Hk)
    as (-> & v7 & v8 & v9 & vc & E8 & E9 & Ea & E7 & Ec).
  destruct (aligned_spec inst Hw) as (Hw' & _ & _ & Dm & Dp & Di).
  assert (wf_region (get_region (aligned inst) p)) as Hp by (destruct p; apply Hw').
  pose proof (wf_region_lower _ Hp). pose proof Hp as (? & _).
  destruct p; simpl window_base.
  - rewrite E7, Ec, io_base_spec by done. apply wrap_le. simpl in *. lia.
  - rewrite E9, half_base_spec by done. destruct wide.
    + rewrite (Ea eq_refl), whole_halves; [done|]. simpl in *.
      change (2 ^ 64) with 18446744073709551616. change (2 ^ 63) with 9223372036854775808 in *. lia.
    + rewrite Z.add_0_l. apply wrap_le. simpl in *. lia.
  - rewrite E8, half_base_spec by done. apply wrap_le. simpl in *. lia.
Qed.

(** The prefetchable window can hold the whole region: it has 64 bits, or the region lies
    below 4G. *)
Definition reaches (wide : bool) (inst : FPcieEcam) (p : region_ptr) : Prop :=
  p = MemPrefetch -> wide = false -> region_end inst.(mem_prefetch) <= 2 ^ 32.

Lemma postscan_limit wide b d f inst h t sub inst' h' t' p : wf_inst inst -> usable inst b ->
  all_regions inst -> region_end inst.(mem) <= 2 ^ 32 -> region_end inst.(mem_io) <= 2 ^ 32 ->
  FPciePostscanSetupBridge (HW := L) inst (h, t) sub b d f = Ok (inst', (h', t')) ->
  window_kind b d f wide t' ->
  (reaches wide inst p ->
     (get_region inst p).(bus_lower) <= window_limit wide (bridge_words t' b d f) p + 1) /\
  (p = MemPrefetch -> wide = false -> window_limit wide (bridge_words t' b d f) p < 2 ^ 32).
Proof.
  intros Hw Hu Hr Hem Hei E Hk.
  destruct (postscan_words HW b d f _ _ _ _ _ _ _ _ Hu Hr E Hk)
    as (-> & v7 & v8 & v9 & vc & E8 & E9 & Eb & E7 & Ec).
  destruct (aligned_spec inst Hw) as (Hw' & _ & Hg & Dm & Dp & Di).
  assert (wf_region (get_region (aligned inst) p)) as Hp by (destruct p; apply Hw').
  pose proof (wf_region_lower _ Hp). pose proof Hp as (? & Hcap & _).
  assert (last_of (get_region (aligned inst) p) = (get_region (aligned inst) p).(bus_lower) - 1) as Hlast.
  { unfold last_of. apply wrap_small. change (2 ^ 64) with 18446744073709551616.
    change (2 ^ 63) with 9223372036854775808 in *. lia. }
  destruct (region_cap_spec (get_region (aligned inst) p)) as (_ & _ & Hc).
  specialize (Hc (2 ^ 32) ltac:(by exists (2 ^ 12))).
  destruct Hg as (? & ? & ?). destruct p; cbn [window_limit get_region] in *.
  - split; [intros _|done]. rewrite E7, Ec, io_limit_spec by (by rewrite Hlast, Z.sub_add).
    rewrite Hlast, wrap_small; [lia|]. specialize (Hc Hei). lia.
  - rewrite <-(Z.add_assoc _ _ 0xfffff), E9, half_limit_spec by (by rewrite Hlast, Z.sub_add).
    split; intros Hreach.
    + destruct wide.
      * rewrite (Eb eq_refl), Hlast, whole_halves; [lia|].
        change (2 ^ 64) with 18446744073709551616. change (2 ^ 63) with 9223372036854775808 in *. lia.
      * specialize (Hc (Hreach eq_refl eq_refl)). rewrite Hlast, wrap_small by lia. lia.
    + intros ->. rewrite Z.add_0_l. by apply wrap_range.
  - split; [intros _|done]. rewrite E8, half_limit_spec by (by rewrite Hlast, Z.sub_add).
    rewrite Hlast, wrap_small; [lia|]. specialize (Hc Hem). lia.
Qed.

(** The windows of a bridge hold every block of addresses assigned behind it: the base
    the driver writes before it enumerates the bus behind the bridge is not above the
    block, and the limit it writes afterwards is not below its last address.  The bridge
    has a prefetchable window of 64 bits or of 32 ([wide], what every read of the flag in
    its register tells).  It is assumed that the instance has all three regions, with the
    regions for memory and for I/O below 4G, that the blocks placed so far are in order
    ([safe]) and that each new block has a power of two as its size and, where its BAR has
    32 bits, comes from a region below 4G ([sound_block]).  For a window of 32 bits the claim needs the prefetchable region below 4G ([reaches]): the
    driver assigns prefetchable and 64-bit blocks from that region behind such a bridge
    too, and those at 4G and above lie behind the end of the window. *)
(** C20: The windows of a bridge hold every block of addresses assigned behind it: the base
    the driver writes before it enumerates the bus behind the bridge is not above the
    block, and the limit it writes afterwards is not below its last address. *)
Theorem FPcieBridgeProbeBus_windows wide fuel inst h t b d f inst1 h1 t1 ret inst' h' t' :
  safe inst (blocks t) -> settled (observe t).1 -> usable inst b -> all_regions inst ->
  region_end inst.(mem) <= 2 ^ 32 -> region_end inst.(mem_io) <= 2 ^ 32 ->
  let next := set_bus_max inst (u32 (inst.(bus_max) + 1)) in
  FPciePreScanSetupBridge (HW := L) next (h, t) (u8 next.(bus_max)) b d f = Ok (inst1, (h1, t1)) ->
  FPcieBridgeProbeBus (HW := L) (FPcieEcamEnumerateBusRecursion (HW := L) (CL := C) fuel)
    inst (h, t) b d f = Ok (ret, inst', (h', t')) ->
  window_kind b d f wide t1 -> window_kind b d f wide t' ->
  exists new, blocks t' = blocks t ++ new /\
    (Forall (sound_block inst) new ->
     Forall (fun k => let p := ptr_of inst k in
       window_base wide (bridge_words t1 b d f) p <= k.(blk_base) /\
       (reaches wide inst p ->
          k.(blk_base) + k.(blk_size) <= window_limit wide (bridge_words t' b d f) p + 1) /\
       (p = MemPrefetch -> wide = false -> 2 ^ 32 <= k.(blk_base) ->
          window_limit wide (bridge_words t' b d f) p < k.(blk_base))) new).
Proof.
  intros Hsafe Hset Hu Hreg Hem Hei next E1 E Hw1 Hw'.
  assert (safe next (blocks t)) as Hnext by done.
  destruct (prescan_ok HW b d f next h t (u8 next.(bus_max)) (proj1 Hu) Hset)
    as (i1 & h1' & t1' & E1' & [S1 (n1 & En1 & Hev1)] & Hset1 & Eb1).
  rewrite E1 in E1'. injection E1' as <- <- <-.
  unfold FPcieBridgeProbeBus in E. fold next in E. rewrite E1 in E. simpl in E.
  apply rbind_Ok in E as ([[r2 i2] s2] & E2 & E). apply recursion_runs in E2 as (h2 & t2 & -> & R2).
  apply rbind_Ok in E as ([i3 [h3 t3]] & E3 & E). injection E as <- <- <- <-.
  destruct R2 as [[S2 (new & En2 & Hev2)] Hset2];
    [by eapply same_ready; [exact S1|apply Hu]|done|].
  destruct (postscan_ok HW b d f i2 h2 t2 (u8 i2.(bus_max))) as (i3' & h3' & t3' & E3' & _ & _ & Eb3);
    [|done|].
  { eapply same_ready; [exact S2|]. eapply same_ready; [exact S1|apply Hu]. }
  rewrite E3 in E3'. injection E3' as <- <- <-.
  exists new. split; [by rewrite Eb3, En2, Eb1|]. intros Hsound.
  assert (n1 = []) as ->.
  { rewrite Eb1 in En1. apply (app_inv_head (blocks t)). by rewrite app_nil_r. }
  destruct (Hev1 ltac:(constructor) Hnext) as (Hsafe1 & _ & _).
  assert (same_shape inst i2) as S by (by eapply same_shape_trans; [exact S1|]).
  destruct Hev2 as (Hsafe2 & _ & Habove).
  { eapply Forall_impl; [|exact Hsound]. intros k. apply (sound_block_same next inst1 k S1). }
  { done. }
  destruct Hsafe2 as (Hw2 & Hpl2 & _). rewrite En2, Forall_app in Hpl2. destruct Hpl2 as [_ Hpl2].
  rewrite Forall_forall in Habove, Hpl2. apply Forall_forall. intros k Hk. cbv zeta.
  specialize (Habove k Hk). destruct (Hpl2 k Hk) as (_ & _ & Hend).
  unfold region_of in Habove, Hend. rewrite (ptr_of_same _ _ k S1) in Habove.
  rewrite (ptr_of_same _ _ k S) in Hend. change (ptr_of next k) with (ptr_of inst k) in Habove.
  assert (usable i2 b) as Hu2 by (by eapply usable_same).
  pose proof S as (_ & _ & _ & Sm & Sp & Si).
  pose proof (prescan_base wide b d f next h t _ _ _ _ (ptr_of inst k) (proj1 Hnext) Hu Hreg E1 Hw1).
  destruct (postscan_limit wide b d f i2 h2 t2 (u8 i2.(bus_max)) i3 h3 t3 (ptr_of inst k) Hw2 Hu2
    (same_all_regions _ _ S Hreg)) as [Hlim Hout]; [| |exact E3|exact Hw'|].
  1, 2: by rewrite ?(same_region_end _ _ Sm), ?(same_region_end _ _ Si).
  split; [lia|]. split.
  - intros Hreach. assert (reaches wide i2 (ptr_of inst k)) as Hr2.
    { intros Hp Hn. rewrite (same_region_end _ _ Sp). by apply Hreach. }
    specialize (Hlim Hr2). lia.
  - intros Hp Hn Hhigh. specialize (Hout Hp Hn). lia.
Qed.
End Windows.
