(* ===== verification/PcieProps.v ===== *)
(** The enumeration of a PCI Express bus as a whole (Pcie.v): the addresses it assigns,
    and that it ends. *)
From stdpp Require Import gmap.
From S2P Require Import Prelude Mmio Pcie PcieRegion PcieTrace PcieSim PcieSafety PcieBridge PcieTotal PcieTermination PcieWindows.
Import Pcie.

(** C19: Whatever the functions on the bus are, if the sizes their BARs tell are powers of
    two and a BAR of 32 bits is never given a region above 4 GiB, then every block of
    addresses an enumeration assigns is aligned to its size, lies in the region for its
    kind, and overlaps no other block of its address space.  The blocks are read off the
    log of the accesses. *)
Theorem FPcieEcamEnumerateBus_disjoint (HW : MmioHw) (CL : PcieClient) fuel inst h b ret inst' h' t :
  wf_inst inst -> ready inst = true ->
  FPcieEcamEnumerateBus (HW := logged HW) (CL := logged_client HW CL) fuel inst (h, []) b =
    Ok (ret, inst', (h', t)) ->
  Forall (sound_block inst) (blocks t) ->
  Forall (fun k => (k.(blk_size) | k.(blk_base)) /\
            (region_of inst k).(bus_start) <= k.(blk_base) /\
            k.(blk_base) + k.(blk_size) <= region_end (region_of inst k)) (blocks t) /\
  pairwise apart (blocks t).
Proof.
  intros Hw Hr E Hsound. apply enumerate_runs in E as (h1 & t1 & [= <- <-] & R).
  destruct R as [[Hsame (new & Eb & Hev)] _]; [done|by left|].
  change (blocks []) with (@nil block) in *. simpl in Eb. rewrite Eb in Hsound.
  destruct Hev as ((_ & Hpl & Hpw) & _); [done|by split_and!; [|constructor|]|].
  split; [|done]. eapply Forall_impl; [|exact Hpl]. intros k (Hd & Hs & He).
  pose proof (region_of_same inst inst' k Hsame) as Hk.
  rewrite (same_region_end _ _ Hk) in He. destruct Hk as (Hst & _). rewrite Hst in Hs.
  split; [done|]. split; [done|lia].
Qed.

(** A run on the bus of PcieSim.v. *)
Definition sim_log : list event :=
  match FPcieEcamEnumerateBus (HW := logged sim_hw) (CL := logged_client sim_hw sim_client) 3
          sim_instance (sim_reset, []) 0 with
  | Ok (_, _, (_, t)) => t
  | Fault _ => []
  end.
Definition sim_blocks : list block :=
  [mkBlock 0x100010 Mem64 true 0x1000000000 0x1000000; mkBlock 0x8010 Mem32 false 0x58000000 0x100000;
   mkBlock 0x8014 Io false 0x50000000 32; mkBlock 0x8030 Rom false 0x58100000 0x10000].

Lemma sim_wf : wf_inst sim_instance.
Proof. unfold wf_inst, wf_region, region_end. simpl. split_and!; try zdec. left. zdec. Qed.

Lemma FPcieEcamEnumerateBus_disjoint_witness :
  blocks sim_log = sim_blocks /\ pairwise apart sim_blocks.
Proof.
  assert (blocks sim_log = sim_blocks) as Eb by (vm_compute; reflexivity).
  split; [exact Eb|].
  assert (exists ret i h, FPcieEcamEnumerateBus (HW := logged sim_hw)
    (CL := logged_client sim_hw sim_client) 3 sim_instance (sim_reset, []) 0 =
      Ok (ret, i, (h, sim_log))) as (ret & i & h & E).
  { unfold sim_log. destruct (FPcieEcamEnumerateBus _ _ _ _) as [[[r i] [h t]]|] eqn:E; [eauto|].
    exfalso. revert E. vm_compute. discriminate. }
  rewrite <-Eb. refine (proj2 (FPcieEcamEnumerateBus_disjoint sim_hw sim_client 3 sim_instance
    sim_reset 0 ret i h sim_log sim_wf eq_refl E _)).
  rewrite Eb. repeat apply Forall_cons_2; [..|by apply Forall_nil].
  all: split; [|intros Hk; first [by destruct (Hk eq_refl)|zdec]].
  - exists 24. zdec.
  - exists 20. zdec.
  - exists 5. zdec.
  - exists 16. zdec.
Defined.

(** ** The simulated bus as a hierarchy *)
Definition sim_header (s : sim) (b d f : Z) : Z :=
  FPCIE_CCR_HEAD_TYPE_MASK (match who s b d f with Some u => reg_value s u 3 | None => 0xffffffff end).
Definition sim_bridge (b d f : Z) : bool := (b =? 0) && (d =? 0) && (f =? 0).
Definition sim_bridges (_ : sim) (b d f : Z) : nat := if sim_bridge b d f then 1 else 0.
Definition sim_behind (s : sim) (b d f : Z) : Z := if sim_bridge b d f then far_bus s else 0.

Lemma reg_value_wf s u : reg_value s u 3 = reg_fixed u 3.
Proof. unfold reg_value. destruct u; simpl; by rewrite Z.land_0_r. Qed.

Lemma sim_header_at s b d f : sim_header s b d f =
  FPCIE_CCR_HEAD_TYPE_MASK (match who s b d f with Some u => reg_fixed u 3 | None => 0xffffffff end).
Proof. unfold sim_header. destruct (who s b d f); [by rewrite reg_value_wf|done]. Qed.

Lemma sim_header_bridge s b d f : sim_header s b d f = FPCIE_CCR_HEAD_TYPE1 ->
  sim_bridge b d f = true /\ who s b d f = Some Bridge.
Proof.
  rewrite sim_header_at. unfold who, sim_bridge.
  destruct ((b =? 0) && (d =? 0) && (f =? 0)); [done|]. intros Hh. exfalso. revert Hh.
  destruct ((b =? 0) && (d =? 1) && (f =? 0)); [|destruct (negb _ && _ && _ && _)]; vm_compute; discriminate.
Qed.

(** Only a write of the bus numbers of the bridge changes which functions answer. *)
Lemma far_bus_kept s u o x : 0 <= o < 1024 -> u <> Bridge \/ o <> 6 ->
  far_bus (<[unit_key u o := x]> s) = far_bus s.
Proof.
  intros Ho H. unfold far_bus, reg_value. rewrite lookup_insert_ne; [done|].
  destruct u; simpl in *; [destruct H as [?|?]; [done|lia]|lia..].
Qed.

Lemma sim_kept s s' b d f : far_bus s' = far_bus s ->
  sim_header s' b d f = sim_header s b d f /\ sim_bridges s' b d f = sim_bridges s b d f /\
  sim_behind s' b d f = sim_behind s b d f.
Proof.
  intros E. rewrite !sim_header_at. unfold sim_behind, who. rewrite E.
  split_and!; [|done|]; by repeat case_match.
Qed.

Lemma far_bus_numbered s x : far_bus (<[unit_key Bridge 6 := x]> s) = secondary x.
Proof.
  unfold far_bus, reg_value, secondary. rewrite lookup_insert_eq. simpl.
  change 0xffffff with (Z.ones 24). change 0xff with (Z.ones 8).
  bitwise i Hi. destruct (Z.ltb_spec i 8); decide_cmp; by rewrite ?andb_true_r, ?andb_false_r, ?orb_false_r.
Qed.

Lemma secondary_wrap x : secondary (u32 x) = secondary x.
Proof.
  unfold secondary. change 0xff with (Z.ones 8). bitwise i Hi.
  destruct (Z.ltb_spec i 8); decide_cmp; by rewrite ?andb_true_r, ?andb_false_r.
Qed.

Lemma secondary_range x : 0 <= secondary x < 256.
Proof. unfold secondary. change 0xff with (Z.ones 8). rewrite Z.land_ones by lia. apply Z.mod_pos_bound. lia. Qed.

#[export] Instance sim_topology e : @PcieTopology sim_hw sim_client e.
Proof.
  refine {| header := sim_header : @hw sim_hw -> _; bridges := sim_bridges : @hw sim_hw -> _;
            behind := sim_behind : @hw sim_hw -> _ |}.
  - intros h off v h' b d f [= _ <-]. done.
  - intros fp h b0 d0 f0 v h' b d f [= _ <-]. done.
  - intros h b d f v h' (Hb & Hd & Hf) [= <- _]. rewrite sim_read_at by done.
    rewrite sim_header_at. destruct (who h b d f) as [u|]; [rewrite reg_value_wf; by destruct u|done].
  - intros h b d f _ Hh. apply sim_header_bridge in Hh as [Hh _]. unfold sim_bridges. rewrite Hh. lia.
  - intros h b d f v h' (Hb & Hd & Hf) Hh [= <- _]. apply sim_header_bridge in Hh as [_ Hw].
    rewrite sim_read_at, Hw by done. unfold reg_value. simpl. by rewrite Z.land_0_r.
  - intros h b d f v h' (Hb & Hd & Hf) Hh [= <- _]. apply sim_header_bridge in Hh as [Hh Hw].
    unfold FPCIE_CCR_PB_SEC_SUB_SECL_REGS. rewrite sim_read_at, Hw by done.
    unfold sim_behind. rewrite Hh. apply secondary_wrap.
  - intros h b0 d0 f0 o x b d f (Hb & Hd & Hf) Ho Hne h'. apply sim_kept. unfold h'. simpl.
    rewrite sim_write_at by lia. destruct (who h b0 d0 f0) as [u|] eqn:E; [|done].
    apply far_bus_kept; [lia|]. destruct Hne as [?|Hne]; [by right|left]. intros ->.
    apply Hne. rewrite sim_header_at, E. done.
  - intros h b0 d0 f0 x (Hb & Hd & Hf) Hh Hlt h'. apply sim_header_bridge in Hh as [Hs Hw].
    assert (h' = <[unit_key Bridge 6 := x]> h) as ->.
    { unfold h'. simpl. unfold FPCIE_CCR_PB_SEC_SUB_SECL_REGS. by rewrite sim_write_at, Hw by done. }
    unfold sim_bridges, sim_behind. rewrite Hs.
    apply andb_true_iff in Hs as [[->%Z.eqb_eq ->%Z.eqb_eq]%andb_true_iff ->%Z.eqb_eq].
    rewrite far_bus_numbered. split_and!; [|..|done|].
    + intros b d f Hb'. split; [|done]. rewrite !sim_header_at. unfold who.
      destruct (Z.eqb_spec b 0); [done|]. simpl.
      pose proof (secondary_range (reg_value h Bridge 6)) as Hr.
      rewrite far_bus_numbered. unfold far_bus. fold (secondary (reg_value h Bridge 6)).
      destruct (Z.eqb_spec b (secondary x)); [lia|].
      destruct (Z.eqb_spec b (secondary (reg_value h Bridge 6))); [lia|done].
    + intros b d f Hb'. unfold sim_bridge. destruct (Z.eqb_spec b 0); [lia|done].
    + unfold sim_bridge. simpl. destruct (Z.eqb_spec (secondary x) 0); [lia|]. simpl. lia.
Defined.

(** Two levels of recursion are enough for the one bridge. *)
Lemma FPcieEcamEnumerateBus_terminates_witness : exists ret inst' h',
  FPcieEcamEnumerateBus (HW := sim_hw) (CL := sim_client) 2 sim_instance sim_reset 0 =
    Ok (ret, inst', h') /\ 0 <= inst'.(bus_max) <= 1.
Proof.
  destruct (@FPcieEcamEnumerateBus_terminates sim_hw sim_client _
    (sim_topology sim_instance.(config).(ecam)) 2 sim_instance sim_reset 0) as (r & i & h & E & Hm & _).
  - lia.
  - unfold fit. repeat split; try reflexivity; vm_compute; discriminate.
  - vm_compute. discriminate.
  - vm_compute. lia.
  - exists r, i, h. split; [exact E|exact Hm].
Defined.

(** ** The bridge of the simulated bus *)
Definition sim_prescan : FPcieEcam * (sim * list event) :=
  match FPciePreScanSetupBridge (HW := logged sim_hw) (set_bus_max sim_instance 1) (sim_reset, []) 1 0 0 0 with
  | Ok r => r
  | Fault _ => (sim_instance, (sim_reset, []))
  end.
Definition sim_probe : Z * FPcieEcam * (sim * list event) :=
  match FPcieBridgeProbeBus (HW := logged sim_hw)
    (FPcieEcamEnumerateBusRecursion (HW := logged sim_hw) (CL := logged_client sim_hw sim_client) 2)
    sim_instance (sim_reset, []) 0 0 0 with
  | Ok r => r
  | Fault _ => (0, sim_instance, (sim_reset, []))
  end.

Definition window_kindb (wide : bool) (t : list event) (b d f : Z) : bool :=
  forallb (fun e => match e with
                    | Rd l v => negb (l =? FPcieGetEcamConfigAddress b d f 9) || eqb (Z.testbit v 0) wide
                    | Wr _ _ => true
                    end) t.

Lemma window_kindb_true wide t b d f :
  window_kindb wide t b d f = true -> window_kind b d f wide t.
Proof.
  intros E v Hv. unfold window_kindb in E. rewrite forallb_forall in E.
  specialize (E _ (proj1 (list_elem_of_In _ _) Hv)). simpl in E. rewrite Z.eqb_refl in E.
  by apply eqb_prop.
Qed.

Lemma FPcieBridgeProbeBus_windows_witness :
  blocks sim_probe.2.2 = [mkBlock 0x100010 Mem64 true 0x1000000000 0x1000000] /\
  window_base true (bridge_words sim_prescan.2.2 0 0 0) MemPrefetch <= 0x1000000000 /\
  0x1000000000 + 0x1000000 <= window_limit true (bridge_words sim_probe.2.2 0 0 0) MemPrefetch + 1.
Proof.
  assert (blocks sim_probe.2.2 = [mkBlock 0x100010 Mem64 true 0x1000000000 0x1000000]) as Eb
    by (vm_compute; reflexivity).
  split; [exact Eb|].
  destruct (FPcieBridgeProbeBus_windows sim_hw sim_client true 2 sim_instance sim_reset [] 0 0 0
    sim_prescan.1 sim_prescan.2.1 sim_prescan.2.2 sim_probe.1.1 sim_probe.1.2 sim_probe.2.1 sim_probe.2.2)
    as (new & En & Hnew).
  - split; [exact sim_wf|]. split; [constructor|exact I].
  - left. reflexivity.
  - split; [reflexivity|vm_compute; discriminate].
  - repeat split; reflexivity.
  - vm_compute. discriminate.
  - vm_compute. discriminate.
  - vm_compute. reflexivity.
  - vm_compute. reflexivity.
  - apply (window_kindb_true true). vm_compute. reflexivity.
  - apply (window_kindb_true true). vm_compute. reflexivity.
  - rewrite Eb in En. simpl in En. subst new.
    assert (Forall (sound_block sim_instance) [mkBlock 0x100010 Mem64 true 0x1000000000 0x1000000]) as Hs.
    { repeat constructor; [exists 24; zdec|]. intros Hk. by destruct (Hk eq_refl). }
    destruct (Forall_inv (Hnew Hs)) as (Hb & Hl & _). split; [exact Hb|].
    apply Hl. intros _ Hn. discriminate Hn.
Defined.
