(* ===== verification/Bitmap.v ===== *)
(** Bitmaps over arrays of machine words: src/standalone/common/fbitmap.c.

    A bitmap is an array of [FBitPerWordType] = [unsigned long], so the word
    width [W] is 64 on AArch64 and 32 on AArch32; the file is parametric in
    it.  Every operation is an executable function; the theorems describe the
    operations through [bm_bit], the value of a bit of the whole bitmap. *)
From S2P Require Import Prelude.

(** The two targets of the SDK. *)
Class WordSize := { W : Z; W_cases : W = 32 \/ W = 64 }.

#[export] Program Instance aarch64_word : WordSize := {| W := 64 |}.
Next Obligation. by right. Qed.

Definition aarch32_word : WordSize := {| W := 32; W_cases := or_introl eq_refl |}.

Section Bitmap.
Context `{WS : WordSize}.

(** ** Constants of fbitmap.c and fbitmap.h *)
Definition FBIT_MASK : Z := W - 1.
Definition FBIT_WORD_MASK : Z := Z.ones W.
Definition FBITMAP_FIRST_WORD_MASK (start : Z) : Z :=
  wrap W (Z.shiftl FBIT_WORD_MASK (start mod W)).
Definition FBITMAP_LAST_WORD_MASK (nbits : Z) : Z :=
  if truth (nbits mod W) then wrap W (Z.shiftl 1 (nbits mod W) - 1)
  else FBIT_WORD_MASK.
Definition FBITMAP_WORD (x : Z) : Z := x / W.
Definition FBITMAP_NUM_WORDS (x : Z) : Z := wrap W (x + W - 1) / W.
Definition DIV_ROUND_UP (n d : Z) : Z := wrap W (n + d - 1) / d.
(** [sizeof(FBitPerWordType)] *)
Definition FBIT_INVALID_BIT_INDEX : Z := W / 8.

(** [1U << n] is undefined when [n] is not below 32, the width of [1U]. *)
Definition one_shl_u (n : Z) : res Z :=
  if n <? 32 then Ok (u32 (Z.shiftl 1 n)) else Fault Undefined.

(** ** Compiler builtins *)

(** [__builtin_clzl], for a nonzero argument. *)
Definition CLZL (x : Z) : Z := W - 1 - Z.log2 x.

(** The position of the lowest set bit of a positive number. *)
Fixpoint ctz_pos (p : positive) : Z :=
  match p with
  | xO q => 1 + ctz_pos q
  | _ => 0
  end.

(** [__builtin_ctzl], for a nonzero argument. *)
Definition CTZL (x : Z) : Z :=
  match x with
  | Zpos p => ctz_pos p
  | _ => 0
  end.

(** [__builtin_ffs] takes an [int]: the argument is cut to 32 bits. *)
Definition builtin_ffs (x : Z) : Z :=
  if u32 x =? 0 then 0 else CTZL (u32 x) + 1.

(** ** Operations on one word; [None] is the null pointer *)
Definition FBitMapSet (bitmap : option Z) (pos : Z) : res (option Z) :=
  match bitmap with
  | None => Ok None
  | Some b =>
      let! m := one_shl_u (Z.land pos FBIT_MASK) in
      Ok (Some (Z.lor b m))
  end.

Definition FBitMapClear (bitmap : option Z) (pos : Z) : res (option Z) :=
  match bitmap with
  | None => Ok None
  | Some b =>
      let! m := one_shl_u (Z.land pos FBIT_MASK) in
      (* [~] acts on the 32-bit mask, which is then widened with zeros *)
      Ok (Some (Z.land b (lnotw 32 m)))
  end.

Definition FBitMapHighGet (bitmap : Z) : Z :=
  if bitmap =? 0 then FBIT_INVALID_BIT_INDEX else u16 (FBIT_MASK - CLZL bitmap).

Definition FBitMapLowGet (bitmap : Z) : Z :=
  if bitmap =? 0 then FBIT_INVALID_BIT_INDEX else u16 (CTZL bitmap).

(** ** Ranges of bits *)

(** [*p op= mask] for the word [p] of the array. *)
Definition upd_word (f : Z -> Z) (bm : list Z) (p : Z) : res (list Z) :=
  let! x := aget bm p in aset bm p (f x).

(** The [while] loop of [FBitMapSetNBits] and the statement after it. *)
Fixpoint set_loop (fuel : nat) (bm : list Z) (p size nums_set bits_toset mask : Z)
  : res (list Z) :=
  match fuel with
  | O => Fault OutOfFuel
  | S fuel =>
      if bits_toset <? nums_set then
        let! bm := upd_word (fun x => Z.lor x mask) bm p in
        set_loop fuel bm (p + 1) size (u32 (nums_set - bits_toset)) W FBIT_WORD_MASK
      else if truth nums_set then
        upd_word (fun x => Z.lor x (Z.land mask (FBITMAP_LAST_WORD_MASK size))) bm p
      else Ok bm
  end.

Definition FBitMapSetNBits (bm : list Z) (start nums_set : Z) : res (list Z) :=
  set_loop (S (Z.to_nat nums_set)) bm (FBITMAP_WORD start) (u32 (start + nums_set))
    nums_set (u16 (W - start mod W)) (FBITMAP_FIRST_WORD_MASK start).

(** The same for [FBitMapClrNBits], whose loop runs while [>=]. *)
Fixpoint clr_loop (fuel : nat) (bm : list Z) (p size nums_clear bits_toclear mask : Z)
  : res (list Z) :=
  match fuel with
  | O => Fault OutOfFuel
  | S fuel =>
      if bits_toclear <=? nums_clear then
        let! bm := upd_word (fun x => Z.land x (lnotw W mask)) bm p in
        clr_loop fuel bm (p + 1) size (u32 (nums_clear - bits_toclear)) W FBIT_WORD_MASK
      else if truth nums_clear then
        upd_word
          (fun x => Z.land x (lnotw W (Z.land mask (FBITMAP_LAST_WORD_MASK size)))) bm p
      else Ok bm
  end.

Definition FBitMapClrNBits (bm : list Z) (start nums_clear : Z) : res (list Z) :=
  clr_loop (S (Z.to_nat nums_clear)) bm (FBITMAP_WORD start) (u32 (start + nums_clear))
    nums_clear (u16 (W - start mod W)) (FBITMAP_FIRST_WORD_MASK start).

(** ** Search *)
Definition Ffz (x : Z) : Z := u16 (builtin_ffs (lnotw W x) - 1).

(** The loop over the words still to visit; [i] is the index of the first. *)
Fixpoint ffz_loop (n : nat) (bm : list Z) (i num_bits : Z) : res Z :=
  match n with
  | O => Ok (-1)
  | S n =>
      let! x := aget bm i in
      if x =? FBIT_WORD_MASK then ffz_loop n bm (i + 1) num_bits
      else
        let bit := s32 (i * W + Ffz x) in
        (* [bit < num_bits] compares as unsigned *)
        Ok (if u32 bit <? num_bits then bit else -1)
  end.

Definition FBitMapFfz (bm : list Z) (num_bits : Z) : res Z :=
  ffz_loop (Z.to_nat (FBITMAP_NUM_WORDS num_bits)) bm 0 num_bits.

(** ** Copies *)

(** [memcpy] of whole words. *)
Definition copy_words (dst src : list Z) (n : Z) : res (list Z) :=
  if (n <=? Z.of_nat (length src)) && (n <=? Z.of_nat (length dst))
  then Ok (take (Z.to_nat n) src ++ drop (Z.to_nat n) dst)
  else Fault Undefined.

Definition FBitMapCopy (dst src : list Z) (nbits : Z) : res (list Z) :=
  let len := u32 (DIV_ROUND_UP nbits W * (W / 8)) in
  copy_words dst src (len / (W / 8)).

Definition FBitMapCopyClearTail (dst src : list Z) (nbits : Z) : res (list Z) :=
  let! dst := FBitMapCopy dst src nbits in
  if truth (nbits mod W) then
    upd_word (fun x => Z.land x (FBITMAP_LAST_WORD_MASK nbits)) dst (nbits / W)
  else Ok dst.

(** ** Specification *)

(** Bit [i] of the whole bitmap. *)
Definition bm_bit (bm : list Z) (i : Z) : bool :=
  Z.testbit (nth (Z.to_nat (i / W)) bm 0) (i mod W).

(** Every word is a [W]-bit unsigned integer. *)
Definition bm_wf (bm : list Z) : Prop := Forall (fun x => 0 <= x < 2 ^ W) bm.

(** The number of bits of a bitmap. *)
Definition bm_size (bm : list Z) : Z := W * Z.of_nat (length bm).

(** ** Arithmetic of the word width *)
Lemma W_pos : 0 < W.
Proof. destruct W_cases as [-> | ->]; lia. Qed.

Lemma W_small : 0 <= W < 2 ^ 16.
Proof. destruct W_cases as [-> | ->]; lia. Qed.

Lemma mod_W_range i : 0 <= i mod W < W.
Proof. apply Z.mod_pos_bound, W_pos. Qed.

Lemma div_mod_W i : i = W * (i / W) + i mod W.
Proof. apply Z.div_mod. pose proof W_pos. lia. Qed.

Lemma W_pow_ge_32 : 2 ^ 32 <= 2 ^ W.
Proof. destruct W_cases as [-> | ->]; lia. Qed.

(** [lia] after naming every quotient and remainder by the word width. *)
Ltac name_divs :=
  repeat match goal with
  | H : context [?a / W] |- _ =>
      let q := fresh "q" in set (q := a / W) in *; clearbody q
  | |- context [?a / W] =>
      let q := fresh "q" in set (q := a / W) in *; clearbody q
  | H : context [?a mod W] |- _ =>
      let q := fresh "r" in set (q := a mod W) in *; clearbody q
  | |- context [?a mod W] =>
      let q := fresh "r" in set (q := a mod W) in *; clearbody q
  end.
Ltac divlia := name_divs; lia.
Ltac divsplit := name_divs; split_cmp; simpl; (done || lia).

(** ** Bits of the masks *)
Lemma word_mask_bit j : 0 <= j -> Z.testbit FBIT_WORD_MASK j = (j <? W).
Proof.
  intros Hj. unfold FBIT_WORD_MASK. pose proof W_pos.
  rewrite ones_testbit by lia. split_cmp; (done || lia).
Qed.

Lemma first_mask_bit s j :
  0 <= j < W -> Z.testbit (FBITMAP_FIRST_WORD_MASK s) j = (s mod W <=? j).
Proof.
  intros Hj. pose proof W_pos. unfold FBITMAP_FIRST_WORD_MASK, FBIT_WORD_MASK. pose proof (mod_W_range s).
  autorewrite with cbits. divsplit.
Qed.

Lemma last_mask_bit e j :
  0 <= j < W ->
  Z.testbit (FBITMAP_LAST_WORD_MASK e) j = (e mod W =? 0) || (j <? e mod W).
Proof.
  intros Hj. pose proof W_pos. unfold FBITMAP_LAST_WORD_MASK, truth. pose proof (mod_W_range e).
  destruct (Z.eqb_spec (e mod W) 0) as [->|]; simpl.
  - rewrite word_mask_bit by lia. by destruct (Z.ltb_spec j W); [|lia].
  - replace (Z.shiftl 1 (e mod W) - 1) with (Z.ones (e mod W))
      by (rewrite Z.ones_equiv, Z.shiftl_1_l; lia).
    autorewrite with cbits. divsplit.
Qed.

(** The end [e] of a range whose last bit lies in word [q]. *)
Lemma word_end q e : W * q < e <= W * q + W -> e mod W = 0 -> e = W * q + W.
Proof.
  intros He E. pose proof W_pos. pose proof (div_mod_W e) as Hd. rewrite E in Hd.
  assert (q < e / W < q + 2) by nia. replace (e / W) with (q + 1) in Hd by lia. lia.
Qed.

Lemma word_part q e : W * q < e <= W * q + W -> e mod W <> 0 -> e mod W = e - W * q.
Proof.
  intros He E. pose proof W_pos. symmetry. apply Z.mod_unique with q; [|lia]. left.
  assert (e - W * q <> W); [|lia]. intros Heq. apply E.
  replace e with ((q + 1) * W) by lia. apply Z.mod_mul. lia.
Qed.

(** The mask of the last word of a range [s, e) that ends in the word of [s]. *)
Lemma range_mask_bit s e j :
  0 <= s < e -> e - s <= W - s mod W -> 0 <= j < W ->
  Z.testbit (Z.land (FBITMAP_FIRST_WORD_MASK s) (FBITMAP_LAST_WORD_MASK e)) j =
  (s <=? W * (s / W) + j) && (W * (s / W) + j <? e).
Proof.
  intros Hs He Hj. rewrite Z.land_spec, first_mask_bit, last_mask_bit by done.
  pose proof (div_mod_W s) as Hd. pose proof (mod_W_range s) as Hm.
  assert (W * (s / W) < e <= W * (s / W) + W) as Hq.
  { divlia. }
  destruct (Z.eqb_spec (e mod W) 0) as [E|E]; simpl.
  - rewrite (word_end (s / W) e) by done. clear E. divsplit.
  - rewrite (word_part (s / W) e) by done. clear E. divsplit.
Qed.

(** ** Words of a bitmap *)
Lemma upd_word_in f bm p :
  0 <= p < Z.of_nat (length bm) ->
  upd_word f bm p = Ok (<[Z.to_nat p := f (nth (Z.to_nat p) bm 0)]> bm).
Proof.
  intros Hp. unfold upd_word.
  destruct (lookup_lt_is_Some_2 bm (Z.to_nat p)) as [x Hx]; [lia|].
  rewrite (aget_Some _ _ x) by (done || lia). simpl.
  rewrite aset_in_range by done.
  apply (nth_lookup_Some bm (Z.to_nat p) 0 x) in Hx as ->. done.
Qed.

Lemma bm_bit_insert bm p x i :
  0 <= i -> 0 <= p < Z.of_nat (length bm) ->
  bm_bit (<[Z.to_nat p := x]> bm) i =
  if i / W =? p then Z.testbit x (i mod W) else bm_bit bm i.
Proof.
  intros Hi Hp. unfold bm_bit. pose proof W_pos.
  assert (0 <= i / W) by (apply Z.div_pos; lia).
  rewrite !nth_lookup. destruct (Z.eqb_spec (i / W) p) as [->|Hne].
  - by rewrite list_lookup_insert_eq by lia.
  - by rewrite list_lookup_insert_ne by divlia.
Qed.

Lemma bm_wf_insert bm p x :
  bm_wf bm -> 0 <= x < 2 ^ W -> bm_wf (<[p := x]> bm).
Proof. intros. by apply Forall_insert. Qed.

Lemma bm_wf_nth bm p : bm_wf bm -> 0 <= nth p bm 0 < 2 ^ W.
Proof.
  intros Hwf. rewrite nth_lookup. destruct (bm !! p) eqn:E; simpl.
  - by eapply Forall_lookup_1 in Hwf.
  - pose proof W_pos. split; [done|apply pow2_pos; lia].
Qed.

Lemma word_mask_range : 0 <= FBIT_WORD_MASK < 2 ^ W.
Proof.
  pose proof W_pos. unfold FBIT_WORD_MASK. rewrite Z.ones_equiv.
  assert (0 < 2 ^ W) by (apply pow2_pos; lia). lia.
Qed.

Lemma first_mask_range s : 0 <= FBITMAP_FIRST_WORD_MASK s < 2 ^ W.
Proof. apply wrap_range. pose proof W_pos. lia. Qed.

Lemma first_mask_next s : FBITMAP_FIRST_WORD_MASK (W * s) = FBIT_WORD_MASK.
Proof.
  pose proof W_pos. unfold FBITMAP_FIRST_WORD_MASK.
  rewrite (Z.mul_comm W s), (Z.mod_mul s W), Z.shiftl_0_r by lia.
  apply wrap_small, word_mask_range. 
Qed.

Lemma word_in_range bm s e :
  0 <= s < e -> e <= bm_size bm -> 0 <= s / W < Z.of_nat (length bm).
Proof.
  unfold bm_size. intros. pose proof W_pos. split; [apply Z.div_pos; lia|].
  apply Z.div_lt_upper_bound; lia.
Qed.

(** What both range operations do to one word [p]: combine it with the mask
    [m], whose bits are given by [b] on the positions of that word. *)
Lemma set_word_spec bm p m (b : Z -> bool) :
  bm_wf bm -> 0 <= p < Z.of_nat (length bm) -> 0 <= m < 2 ^ W ->
  (forall j, 0 <= j < W -> Z.testbit m j = b (W * p + j)) ->
  exists bm', upd_word (fun x => Z.lor x m) bm p = Ok bm' /\
    length bm' = length bm /\ bm_wf bm' /\
    forall i, 0 <= i -> bm_bit bm' i = bm_bit bm i || ((i / W =? p) && b i).
Proof.
  intros Hwf Hp Hm Hb. pose proof W_pos. rewrite upd_word_in by done.
  eexists. split; [done|]. split; [apply length_insert|]. split.
  { apply bm_wf_insert; [done|]. apply lor_range; [lia|by apply bm_wf_nth|done]. }
  intros i Hi. rewrite bm_bit_insert by done.
  destruct (Z.eqb_spec (i / W) p) as [<-|]; simpl; [|by rewrite orb_false_r].
  pose proof (mod_W_range i). rewrite Z.lor_spec, (Hb (i mod W)) by lia.
  by rewrite <-div_mod_W.
Qed.

Lemma clr_word_spec bm p m (b : Z -> bool) :
  bm_wf bm -> 0 <= p < Z.of_nat (length bm) -> 0 <= m < 2 ^ W ->
  (forall j, 0 <= j < W -> Z.testbit m j = b (W * p + j)) ->
  exists bm', upd_word (fun x => Z.land x (lnotw W m)) bm p = Ok bm' /\
    length bm' = length bm /\ bm_wf bm' /\
    forall i, 0 <= i -> bm_bit bm' i = bm_bit bm i && negb ((i / W =? p) && b i).
Proof.
  intros Hwf Hp Hm Hb. pose proof W_pos. rewrite upd_word_in by done.
  eexists. split; [done|]. split; [apply length_insert|]. split.
  { apply bm_wf_insert; [done|]. apply land_range; [lia|by apply bm_wf_nth|].
    apply wrap_range; lia. }
  intros i Hi. rewrite bm_bit_insert by done.
  destruct (Z.eqb_spec (i / W) p) as [<-|]; simpl; [|by rewrite andb_true_r].
  pose proof (mod_W_range i). rewrite Z.land_spec, lnotw_testbit by lia.
  rewrite (Hb (i mod W)) by lia. rewrite <-div_mod_W.
  destruct (Z.ltb_spec (i mod W) W); [done|lia].
Qed.

(** ** The range loops

    Both loops keep the shape of their first iteration: [s] is the first bit
    still to do, and the word pointer, the bits left in its word and the mask
    are functions of [s]. *)
Lemma next_word s e :
  0 <= s -> W - s mod W <= e - s ->
  let s' := W * (s / W + 1) in
  s' <= e /\ s < s' /\ s / W + 1 = s' / W /\ s' mod W = 0 /\
  u32 (e - s - (W - s mod W)) = u32 (e - s').
Proof.
  intros Hs He s'. pose proof W_pos. pose proof (div_mod_W s).
  pose proof (mod_W_range s). repeat split.
  - subst s'. divlia.
  - subst s'. divlia.
  - subst s'. by rewrite Z.mul_comm, Z.div_mul by lia.
  - subst s'. rewrite Z.mul_comm. apply Z.mod_mul. lia.
  - f_equal. subst s'. divlia.
Qed.

Lemma whole_word_mask s j :
  0 <= s -> 0 <= j < W ->
  Z.testbit (FBITMAP_FIRST_WORD_MASK s) j = (s <=? W * (s / W) + j).
Proof.
  intros Hs Hj. rewrite first_mask_bit by done. pose proof (div_mod_W s). divsplit.
Qed.

Lemma in_range_split s e i :
  0 <= s -> 0 <= i -> W - s mod W <= e - s ->
  ((s <=? i) && (i <? e)) =
  ((i / W =? s / W) && (s <=? i)) ||
  ((W * (s / W + 1) <=? i) && (i <? e)).
Proof.
  intros Hs Hi He. pose proof W_pos. pose proof (div_mod_W s).
  pose proof (div_mod_W i). pose proof (mod_W_range s). pose proof (mod_W_range i).
  destruct (Z.eqb_spec (i / W) (s / W)) as [Heq|Hne]; simpl.
  - name_divs. subst. split_cmp; simpl; (done || lia).
  - assert (i / W < s / W \/ s / W < i / W) as [Hlt|Hlt] by divlia.
    + assert (W * (i / W) + W <= W * (s / W)) by (name_divs; nia). divsplit.
    + assert (W * (s / W) + W <= W * (i / W)) by (name_divs; nia). divsplit.
Qed.

Lemma in_word_range s e i :
  0 <= s < e -> 0 <= i -> e - s <= W - s mod W ->
  ((i / W =? s / W) && ((s <=? i) && (i <? e))) = ((s <=? i) && (i <? e)).
Proof.
  intros Hs Hi He. destruct (Z.leb_spec s i), (Z.ltb_spec i e); simpl;
    rewrite ?andb_false_r, ?andb_true_r; try done.
  apply Z.eqb_eq. pose proof W_pos. pose proof (div_mod_W s).
  pose proof (div_mod_W i). pose proof (mod_W_range s). pose proof (mod_W_range i).
  assert (i / W < s / W + 1 /\ s / W < i / W + 1); [|divlia].
  name_divs. nia.
Qed.

Lemma full_mask_word s : 0 <= s -> s mod W = 0 ->
  W - s mod W = W /\ FBITMAP_FIRST_WORD_MASK s = FBIT_WORD_MASK.
Proof.
  intros Hs E. rewrite E. split; [lia|].
  pose proof (div_mod_W s) as Hd. rewrite E, Z.add_0_r in Hd. rewrite Hd.
  apply first_mask_next.
Qed.

Lemma set_loop_spec fuel bm s e :
  0 <= s <= e -> e < 2 ^ 32 -> e <= bm_size bm -> bm_wf bm ->
  (Z.to_nat (e - s) < fuel)%nat ->
  exists bm',
    set_loop fuel bm (s / W) e (e - s) (W - s mod W) (FBITMAP_FIRST_WORD_MASK s)
      = Ok bm' /\ length bm' = length bm /\ bm_wf bm' /\
    forall i, 0 <= i -> bm_bit bm' i = bm_bit bm i || ((s <=? i) && (i <? e)).
Proof.
  revert bm s. induction fuel as [|fuel IH]; intros bm s Hs He Hsz Hwf Hf; [lia|].
  simpl. pose proof (mod_W_range s) as Hm. pose proof (first_mask_range s).
  destruct (Z.ltb_spec (W - s mod W) (e - s)) as [Hlt|Hge].
  - destruct (next_word s e) as (H1 & H2 & H3 & H4 & H5); [lia|lia|].
    destruct (set_word_spec bm (s / W) (FBITMAP_FIRST_WORD_MASK s) (fun i => s <=? i))
      as (bm1 & -> & Hl1 & Hwf1 & Hb1); [done| | done | |].
    { apply (word_in_range bm s e); [divlia|done]. }
    { intros j Hj. apply whole_word_mask; lia. }
    simpl. rewrite H5, wrap_small by lia.
    destruct (full_mask_word (W * (s / W + 1))) as [Ea Eb]; [lia|done|].
    destruct (IH bm1 (W * (s / W + 1))) as (bm2 & Hr & Hl2 & Hwf2 & Hb2);
      [lia|lia|unfold bm_size in *; lia|done|lia|].
    rewrite Ea, Eb, <-H3 in Hr. rewrite Hr.
    exists bm2. split; [done|]. split; [lia|]. split; [done|].
    intros i Hi. rewrite Hb2, Hb1 by done.
    rewrite (in_range_split s e i) by lia. by rewrite orb_assoc.
  - unfold truth. destruct (Z.eqb_spec (e - s) 0) as [E|E]; simpl.
    + exists bm. repeat split; try done. intros i Hi.
      replace ((s <=? i) && (i <? e)) with false by divsplit. by rewrite orb_false_r.
    + destruct (set_word_spec bm (s / W)
        (Z.land (FBITMAP_FIRST_WORD_MASK s) (FBITMAP_LAST_WORD_MASK e))
        (fun i => (s <=? i) && (i <? e))) as (bm1 & -> & Hl1 & Hwf1 & Hb1); [done| | | |].
      { apply (word_in_range bm s e); [divlia|done]. }
      { apply land_range; [pose proof W_pos; lia|done|].
        unfold FBITMAP_LAST_WORD_MASK. pose proof word_mask_range.
        case_match; [|lia]. apply wrap_range. pose proof W_pos; lia. }
      { intros j Hj. apply range_mask_bit; lia. }
      exists bm1. repeat split; try done. intros i Hi.
      rewrite Hb1, in_word_range by lia. done.
Qed.

Lemma clr_loop_spec fuel bm s e :
  0 <= s <= e -> e < 2 ^ 32 -> e <= bm_size bm -> bm_wf bm ->
  (Z.to_nat (e - s) < fuel)%nat ->
  exists bm',
    clr_loop fuel bm (s / W) e (e - s) (W - s mod W) (FBITMAP_FIRST_WORD_MASK s)
      = Ok bm' /\ length bm' = length bm /\ bm_wf bm' /\
    forall i, 0 <= i -> bm_bit bm' i = bm_bit bm i && negb ((s <=? i) && (i <? e)).
Proof.
  revert bm s. induction fuel as [|fuel IH]; intros bm s Hs He Hsz Hwf Hf; [lia|].
  simpl. pose proof (mod_W_range s) as Hm. pose proof (first_mask_range s).
  destruct (Z.leb_spec (W - s mod W) (e - s)) as [Hlt|Hge].
  - destruct (next_word s e) as (H1 & H2 & H3 & H4 & H5); [lia|lia|].
    destruct (clr_word_spec bm (s / W) (FBITMAP_FIRST_WORD_MASK s) (fun i => s <=? i))
      as (bm1 & -> & Hl1 & Hwf1 & Hb1); [done| | done | |].
    { apply (word_in_range bm s e); [divlia|done]. }
    { intros j Hj. apply whole_word_mask; lia. }
    simpl. rewrite H5, wrap_small by lia.
    destruct (full_mask_word (W * (s / W + 1))) as [Ea Eb]; [lia|done|].
    destruct (IH bm1 (W * (s / W + 1))) as (bm2 & Hr & Hl2 & Hwf2 & Hb2);
      [lia|lia|unfold bm_size in *; lia|done|lia|].
    rewrite Ea, Eb, <-H3 in Hr. rewrite Hr.
    exists bm2. split; [done|]. split; [lia|]. split; [done|].
    intros i Hi. rewrite Hb2, Hb1 by done.
    rewrite (in_range_split s e i) by lia. by rewrite negb_orb, andb_assoc.
  - unfold truth. destruct (Z.eqb_spec (e - s) 0) as [E|E]; simpl.
    + exists bm. repeat split; try done. intros i Hi.
      replace ((s <=? i) && (i <? e)) with false by divsplit. by rewrite andb_true_r.
    + destruct (clr_word_spec bm (s / W)
        (Z.land (FBITMAP_FIRST_WORD_MASK s) (FBITMAP_LAST_WORD_MASK e))
        (fun i => (s <=? i) && (i <? e))) as (bm1 & -> & Hl1 & Hwf1 & Hb1); [done| | | |].
      { apply (word_in_range bm s e); [divlia|done]. }
      { apply land_range; [pose proof W_pos; lia|done|].
        unfold FBITMAP_LAST_WORD_MASK. pose proof word_mask_range.
        case_match; [|lia]. apply wrap_range. pose proof W_pos; lia. }
      { intros j Hj. apply range_mask_bit; lia. }
      exists bm1. repeat split; try done. intros i Hi.
      rewrite Hb1, in_word_range by lia. done.
Qed.

(** The arguments both entry points give their loop. *)
Lemma loop_args start n :
  0 <= start -> 0 <= n -> start + n < 2 ^ 32 ->
  u32 (start + n) = start + n /\ u16 (W - start mod W) = W - start mod W.
Proof.
  intros. pose proof (mod_W_range start). pose proof W_small.
  split; apply wrap_small; divlia.
Qed.

(** For every range inside the bitmap, [FBitMapSetNBits] returns, touches no
    word outside the array, and sets exactly the bits of the range. *)
Theorem FBitMapSetNBits_correct bm start n :
  0 <= start -> 0 <= n -> start + n < 2 ^ 32 -> start + n <= bm_size bm -> bm_wf bm ->
  exists bm', FBitMapSetNBits bm start n = Ok bm' /\
    length bm' = length bm /\ bm_wf bm' /\
    forall i, 0 <= i ->
      bm_bit bm' i = bm_bit bm i || ((start <=? i) && (i <? start + n)).
Proof.
  intros. unfold FBitMapSetNBits. destruct (loop_args start n) as [-> ->]; [done..|].
  destruct (set_loop_spec (S (Z.to_nat n)) bm start (start + n)) as (bm' & Hr & ?);
    [lia..|done|lia|].
  replace (start + n - start) with n in Hr by lia. by exists bm'.
Qed.

(** The same for [FBitMapClrNBits], whose loop runs once more when the range
    ends at a word boundary. *)
Theorem FBitMapClrNBits_correct bm start n :
  0 <= start -> 0 <= n -> start + n < 2 ^ 32 -> start + n <= bm_size bm -> bm_wf bm ->
  exists bm', FBitMapClrNBits bm start n = Ok bm' /\
    length bm' = length bm /\ bm_wf bm' /\
    forall i, 0 <= i ->
      bm_bit bm' i = bm_bit bm i && negb ((start <=? i) && (i <? start + n)).
Proof.
  intros. unfold FBitMapClrNBits. destruct (loop_args start n) as [-> ->]; [done..|].
  destruct (clr_loop_spec (S (Z.to_nat n)) bm start (start + n)) as (bm' & Hr & ?);
    [lia..|done|lia|].
  replace (start + n - start) with n in Hr by lia. by exists bm'.
Qed.

(** ** The lowest zero bit *)
Lemma ctz_pos_spec p :
  0 <= ctz_pos p /\ Z.testbit (Zpos p) (ctz_pos p) = true /\
  forall i, 0 <= i < ctz_pos p -> Z.testbit (Zpos p) i = false.
Proof.
  induction p as [p IH|p IH|]; simpl; [split; [lia|split; [done|lia]]| |
    split; [lia|split; [done|lia]]].
  destruct IH as (H0 & H1 & H2). rewrite Pos2Z.inj_xO.
  split; [lia|]. split.
  - replace (1 + ctz_pos p) with (Z.succ (ctz_pos p)) by lia.
    by rewrite Z.double_bits_succ.
  - intros i Hi. destruct (Z.eqb_spec i 0) as [->|].
    + apply Z.testbit_even_0.
    + replace i with (Z.succ (i - 1)) by lia. rewrite Z.double_bits_succ.
      apply H2. lia.
Qed.

Lemma CTZL_spec x :
  0 < x -> 0 <= CTZL x /\ Z.testbit x (CTZL x) = true /\
  forall i, 0 <= i < CTZL x -> Z.testbit x i = false.
Proof. destruct x; [lia| |lia]. intros _. apply ctz_pos_spec. Qed.

Lemma CTZL_lt w x : 0 <= w -> 0 < x < 2 ^ w -> CTZL x < w.
Proof.
  intros Hw Hx. destruct (CTZL_spec x) as (H0 & H1 & _); [lia|].
  destruct (Z.ltb_spec (CTZL x) w); [done|].
  rewrite (testbit_high w x) in H1 by lia. done.
Qed.

(** The lowest 32 bits of a word that is not full contain a zero.  This is
    what [__builtin_ffs] needs; it always holds when words have 32 bits. *)
Definition ffs_visible (x : Z) : Prop :=
  x = FBIT_WORD_MASK \/ exists j, 0 <= j < 32 /\ Z.testbit x j = false.

Lemma ffs_visible_32 x : W = 32 -> 0 <= x < 2 ^ W -> ffs_visible x.
Proof.
  intros HW Hx. destruct (Z.eqb_spec x FBIT_WORD_MASK) as [->|Hne]; [by left|right].
  assert (x < 2 ^ 32 - 1) as Hlt.
  { revert Hne Hx. unfold FBIT_WORD_MASK. rewrite HW, Z.ones_equiv. lia. }
  destruct (CTZL_spec (2 ^ 32 - 1 - x)) as (H0 & H1 & _); [lia|].
  exists (CTZL (2 ^ 32 - 1 - x)).
  assert (CTZL (2 ^ 32 - 1 - x) < 32) by (apply (CTZL_lt 32); lia).
  split; [lia|]. assert (lnotw 32 x = 2 ^ 32 - 1 - x) as E.
  { unfold lnotw, wrap, Z.lnot. rewrite <-(Z.mod_add _ 1) by lia.
    rewrite Z.mod_small; lia. }
  rewrite <-E in H0, H1 |- *. rewrite lnotw_testbit in H1 by lia.
  apply andb_prop in H1 as [_ H1]. by apply negb_true_iff.
Qed.

Lemma Ffz_spec x :
  0 <= x < 2 ^ W -> ffs_visible x -> x <> FBIT_WORD_MASK ->
  0 <= Ffz x < 32 /\ Z.testbit x (Ffz x) = false /\
  forall j, 0 <= j < Ffz x -> Z.testbit x j = true.
Proof.
  intros Hx [->|(j & Hj & Hb)] Hne; [done|]. unfold Ffz, builtin_ffs.
  assert (32 <= W) as HW by (destruct W_cases as [-> | ->]; lia).
  assert (forall i, 0 <= i < 32 ->
    Z.testbit (u32 (lnotw W x)) i = negb (Z.testbit x i)) as Hbits.
  { intros i Hi. rewrite wrap_testbit, lnotw_testbit by lia. split_cmp; (done || lia). }
  destruct (Z.eqb_spec (u32 (lnotw W x)) 0) as [E|E].
  { specialize (Hbits j Hj). by rewrite E, Hb, Z.testbit_0_l in Hbits. }
  pose proof (wrap_range 32 ltac:(lia) (lnotw W x)) as Hr.
  destruct (CTZL_spec (u32 (lnotw W x))) as (H0 & H1 & H2); [lia|].
  assert (CTZL (u32 (lnotw W x)) < 32) as Hlt by (apply CTZL_lt; lia).
  rewrite Z.add_simpl_r, (wrap_small 16) by lia.
  split; [done|]. split.
  - rewrite Hbits in H1 by lia. by apply negb_true_iff.
  - intros i Hi. specialize (H2 i Hi). rewrite Hbits in H2 by lia.
    by apply negb_false_iff.
Qed.

Lemma bm_bit_word bm q x j :
  0 <= q -> 0 <= j < W -> bm !! Z.to_nat q = Some x ->
  bm_bit bm (W * q + j) = Z.testbit x j.
Proof.
  intros Hq Hj Hx. unfold bm_bit. pose proof W_pos.
  replace ((W * q + j) / W) with q by (apply Z.div_unique with j; lia).
  replace ((W * q + j) mod W) with j by (apply Z.mod_unique with q; lia).
  by rewrite (nth_lookup_Some _ _ _ _ Hx).
Qed.

(** The verdict of a search that has found every bit below [b] set. *)
Definition ffz_post (bm : list Z) (num : Z) (r : Z) : Prop :=
  (0 <= r < num /\ bm_bit bm r = false /\
   forall i, 0 <= i < r -> bm_bit bm i = true) \/
  (r = -1 /\ forall i, 0 <= i < num -> bm_bit bm i = true).

Lemma ffz_loop_spec n bm q num :
  bm_wf bm -> Forall ffs_visible bm -> 0 <= q -> 0 <= num -> num + W < 2 ^ 31 ->
  num <= W * (q + Z.of_nat n) < num + W -> W * (q + Z.of_nat n) <= bm_size bm ->
  (forall i, 0 <= i < W * q -> bm_bit bm i = true) ->
  exists r, ffz_loop n bm q num = Ok r /\ ffz_post bm num r.
Proof.
  intros Hwf Hv. revert q. induction n as [|n IH]; intros q Hq H0 Hn Hnum Hsz Hpre.
  { exists (-1). split; [done|]. right. split; [done|]. intros i Hi. apply Hpre. lia. }
  pose proof W_pos. simpl. unfold bm_size in *.
  replace (q + Z.of_nat (S n)) with (q + 1 + Z.of_nat n) in Hnum, Hsz by lia.
  destruct (lookup_lt_is_Some_2 bm (Z.to_nat q)) as [x Hx]; [nia|].
  rewrite (aget_Some _ _ x) by done. simpl.
  destruct (Z.eqb_spec x FBIT_WORD_MASK) as [->|Hne].
  { apply IH; [lia..|]. intros i Hi. destruct (Z.ltb_spec i (W * q)); [by apply Hpre; lia|].
    replace i with (W * q + (i - W * q)) by lia.
    rewrite (bm_bit_word _ _ FBIT_WORD_MASK), word_mask_bit by (done || lia). lia. }
  pose proof (Forall_lookup_1 _ _ _ _ Hwf Hx) as Hxr.
  destruct (Ffz_spec x Hxr (Forall_lookup_1 _ _ _ _ Hv Hx) Hne) as (Hf & Hz & Ho).
  assert (Ffz x < W) by (destruct W_cases as [E|E]; lia).
  assert (W * q < num) by (pose proof (Nat2Z.is_nonneg n); nia).
  assert (0 <= q * W + Ffz x < 2 ^ 31) by nia.
  eexists. split; [done|]. rewrite to_signed_small, wrap_small by lia.
  assert (forall i, 0 <= i < q * W + Ffz x -> bm_bit bm i = true) as Hall.
  { intros i Hi. destruct (Z.ltb_spec i (W * q)); [by apply Hpre; lia|].
    replace i with (W * q + (i - W * q)) by lia.
    rewrite (bm_bit_word _ _ x) by (done || lia). apply Ho. lia. }
  destruct (Z.ltb_spec (q * W + Ffz x) num); [left|right].
  - split; [lia|]. split; [|done]. rewrite Z.mul_comm.
    by rewrite (bm_bit_word _ _ x) by (done || lia).
  - split; [done|]. intros i Hi. apply Hall. lia.
Qed.

(** [FBitMapFfz] returns the least zero bit below [num_bits], or -1 when there
    is none, as long as every word that is not full has a zero among its lowest
    32 bits (always so on AArch32). *)
Theorem FBitMapFfz_correct bm num :
  bm_wf bm -> Forall ffs_visible bm -> 0 <= num -> num + W < 2 ^ 31 ->
  W * ((num + W - 1) / W) <= bm_size bm ->
  exists r, FBitMapFfz bm num = Ok r /\ ffz_post bm num r.
Proof.
  intros Hwf Hv H0 Hn Hsz. unfold FBitMapFfz, FBITMAP_NUM_WORDS.
  pose proof W_pos. pose proof W_pow_ge_32. rewrite wrap_small by lia.
  assert (0 <= (num + W - 1) / W) by (apply Z.div_pos; lia).
  pose proof (div_mod_W (num + W - 1)). pose proof (mod_W_range (num + W - 1)).
  apply ffz_loop_spec; try done; rewrite ?Z2Nat.id by done; try divlia.
Qed.

(** ** One word *)
Lemma one_shl_u_ok n : 0 <= n < 32 -> one_shl_u n = Ok (BIT n).
Proof.
  intros Hn. unfold one_shl_u. destruct (Z.ltb_spec n 32); [|lia].
  f_equal. apply wrap_small. rewrite Z.shiftl_1_l.
  split; [by apply Z.pow_nonneg|]. apply Z.pow_lt_mono_r; lia.
Qed.

Lemma pos_mask pos : 0 <= pos -> Z.land pos FBIT_MASK = pos mod W.
Proof.
  intros Hp. unfold FBIT_MASK. destruct W_cases as [-> | ->].
  - apply (Z.land_ones pos 5). lia.
  - apply (Z.land_ones pos 6). lia.
Qed.

(** With 32-bit words, [FBitMapSet] and [FBitMapClear] change exactly the bit
    [pos mod 32] of the word. *)
Theorem FBitMapSetClear_correct b pos :
  W = 32 -> 0 <= b < 2 ^ 32 -> 0 <= pos ->
  (exists b', FBitMapSet (Some b) pos = Ok (Some b') /\
     forall j, 0 <= j -> Z.testbit b' j = Z.testbit b j || (j =? pos mod 32)) /\
  (exists b', FBitMapClear (Some b) pos = Ok (Some b') /\
     forall j, 0 <= j -> Z.testbit b' j = Z.testbit b j && negb (j =? pos mod 32)).
Proof.
  intros HW Hb Hp. unfold FBitMapSet, FBitMapClear. rewrite pos_mask, HW by done.
  pose proof (Z.mod_pos_bound pos 32 ltac:(lia)). rewrite one_shl_u_ok by done. simpl.
  split; eexists; (split; [done|]); intros j Hj; autorewrite with cbits; [done|].
  destruct (Z.ltb_spec j 32); [done|].
  by rewrite (testbit_high 32 b).
Qed.

(** [FBitMapHighGet] and [FBitMapLowGet] return the highest and the lowest set
    bit of a nonzero word. *)
Theorem FBitMapHighLow_correct b :
  0 < b < 2 ^ W ->
  let h := FBitMapHighGet b in let l := FBitMapLowGet b in
  0 <= l <= h /\ h < W /\ Z.testbit b h = true /\ Z.testbit b l = true /\
  (forall j, h < j -> Z.testbit b j = false) /\
  (forall j, 0 <= j < l -> Z.testbit b j = false).
Proof.
  intros Hb h l. pose proof W_small.
  assert (h = Z.log2 b) as ->.
  { subst h. unfold FBitMapHighGet, CLZL, FBIT_MASK.
    destruct (Z.eqb_spec b 0); [lia|]. pose proof (Z.log2_nonneg b).
    assert (Z.log2 b < W) by (apply Z.log2_lt_pow2; lia).
    rewrite wrap_small; lia. }
  assert (l = CTZL b) as ->.
  { subst l. unfold FBitMapLowGet. destruct (Z.eqb_spec b 0); [lia|].
    destruct (CTZL_spec b) as [? _]; [lia|].
    assert (CTZL b < W) by (apply CTZL_lt; lia). rewrite wrap_small; lia. }
  destruct (CTZL_spec b) as (H0 & H1 & H2); [lia|].
  assert (Z.log2 b < W) by (apply Z.log2_lt_pow2; lia).
  repeat split; try done.
  - destruct (Z.leb_spec (CTZL b) (Z.log2 b)); [done|].
    rewrite Z.bits_above_log2 in H1 by lia. done.
  - apply Z.bit_log2. lia.
  - intros j Hj. apply Z.bits_above_log2; lia.
Qed.

(** ** Copies *)
Lemma round_up_words nbits :
  0 <= nbits < 2 ^ 31 ->
  let n := (nbits + W - 1) / W in
  FBITMAP_NUM_WORDS nbits = n /\
  u32 (DIV_ROUND_UP nbits W * (W / 8)) / (W / 8) = n /\
  0 <= n /\ nbits <= W * n < nbits + W.
Proof.
  intros Hn n. pose proof W_pos. pose proof W_pow_ge_32. pose proof W_small.
  assert (0 <= n) by (apply Z.div_pos; lia).
  pose proof (div_mod_W (nbits + W - 1)) as Hd. fold n in Hd.
  pose proof (mod_W_range (nbits + W - 1)) as Hm.
  assert (nbits <= W * n < nbits + W) by divlia.
  unfold FBITMAP_NUM_WORDS, DIV_ROUND_UP.
  assert (W < 2 ^ 7) by (destruct W_cases as [-> | ->]; lia).
  rewrite (wrap_small W) by lia. fold n. split; [done|].
  assert (0 < W / 8 <= W) by (destruct W_cases as [-> | ->]; done).
  rewrite wrap_small by nia. split; [|done]. apply Z.div_mul. lia.
Qed.

Lemma bm_bit_copied dst src n i :
  0 <= i -> 0 <= n -> n <= Z.of_nat (length src) ->
  bm_bit (take (Z.to_nat n) src ++ drop (Z.to_nat n) dst) i =
  if i <? W * n then bm_bit src i else bm_bit dst i.
Proof.
  intros Hi Hn Hs. unfold bm_bit. pose proof W_pos.
  assert (0 <= i / W) by (apply Z.div_pos; lia).
  pose proof (div_mod_W i). pose proof (mod_W_range i). rewrite !nth_lookup.
  destruct (Z.ltb_spec i (W * n)).
  - assert (i / W < n) by (name_divs; nia).
    rewrite lookup_app_l, lookup_take_lt by (rewrite ?length_take; divlia). done.
  - assert (n <= i / W) by (name_divs; nia).
    rewrite lookup_app_r by (rewrite length_take; divlia).
    rewrite lookup_drop, length_take.
    repeat f_equal. divlia.
Qed.

(** [FBitMapCopyClearTail] copies the first [nbits] bits, clears the rest of
    the last word it copies, and leaves the following words of [dst] alone. *)
Theorem FBitMapCopyClearTail_correct dst src nbits :
  bm_wf src -> bm_wf dst -> 0 <= nbits < 2 ^ 31 ->
  W * ((nbits + W - 1) / W) <= bm_size src -> W * ((nbits + W - 1) / W) <= bm_size dst ->
  exists dst', FBitMapCopyClearTail dst src nbits = Ok dst' /\
    length dst' = length dst /\
    forall i, 0 <= i -> bm_bit dst' i =
      if i <? nbits then bm_bit src i
      else if i <? W * ((nbits + W - 1) / W) then false else bm_bit dst i.
Proof.
  intros Hs Hd Hn Hss Hds. unfold FBitMapCopyClearTail, FBitMapCopy, copy_words.
  destruct (round_up_words nbits Hn) as (_ & -> & H0 & Hr).
  set (n := (nbits + W - 1) / W) in *. clearbody n. unfold bm_size in *. pose proof W_pos.
  assert (n <= Z.of_nat (length src) /\ n <= Z.of_nat (length dst)) as [H1 H2] by nia.
  rewrite (proj2 (Z.leb_le _ _) H1), (proj2 (Z.leb_le _ _) H2). simpl.
  set (d := take (Z.to_nat n) src ++ drop (Z.to_nat n) dst).
  assert (length d = length dst) as Hl.
  { subst d. rewrite length_app, length_take, length_drop. lia. }
  pose proof (div_mod_W nbits) as Hq. pose proof (mod_W_range nbits) as Hm.
  unfold truth. destruct (Z.eqb_spec (nbits mod W) 0) as [E|E]; simpl.
  - exists d. repeat split; try done. intros i Hi. subst d. rewrite bm_bit_copied by done.
    assert (W * n = nbits) as ->; [|by destruct (i <? nbits)].
    assert (nbits / W = n) by (rewrite E in Hq; name_divs; nia). divlia.
  - assert (nbits / W = n - 1) as Hp by (name_divs; nia).
    rewrite upd_word_in by (rewrite Hl; divlia). eexists. split; [done|].
    split; [by rewrite length_insert|]. intros i Hi.
    rewrite bm_bit_insert by (rewrite ?Hl; divlia).
    pose proof (div_mod_W i) as Hi2. pose proof (mod_W_range i).
    destruct (Z.eqb_spec (i / W) (nbits / W)) as [Heq|Hne].
    + rewrite Z.land_spec, last_mask_bit by done.
      replace (Z.testbit (nth (Z.to_nat (nbits / W)) d 0) (i mod W)) with (bm_bit d i)
        by (unfold bm_bit; by rewrite Heq).
      subst d. rewrite bm_bit_copied, (proj2 (Z.eqb_neq _ _) E) by done.
      replace (i mod W <? nbits mod W) with (i <? nbits) by divsplit.
      replace (i <? W * n) with true by (symmetry; apply Z.ltb_lt; name_divs; nia).
      destruct (i <? nbits); by rewrite ?andb_true_r, ?andb_false_r.
    + subst d. rewrite bm_bit_copied by done.
      destruct (Z.ltb_spec i nbits), (Z.ltb_spec i (W * n)); try done.
      all: exfalso; apply Hne; clear Hne; name_divs; nia.
Qed.
End Bitmap.

(** ** Witnesses, on the 64-bit and the 32-bit target *)
Example FBitMapSetNBits_run :
  FBitMapSetNBits [0; 0; 0] 60 72 = Ok [0xF000000000000000; 2 ^ 64 - 1; 0xF].
Proof. vm_compute. reflexivity. Qed.

Lemma FBitMapSetNBits_correct_witness :
  exists bm', FBitMapSetNBits [0; 0; 0] 60 72 = Ok bm' /\
    length bm' = 3%nat /\ bm_wf bm' /\
    forall i, 0 <= i ->
      bm_bit bm' i = bm_bit [0; 0; 0] i || ((60 <=? i) && (i <? 60 + 72)).
Proof.
  apply (FBitMapSetNBits_correct [0; 0; 0] 60 72); unfold bm_wf; zdec.
Defined.

Lemma FBitMapClrNBits_correct_witness :
  exists bm', FBitMapClrNBits [2 ^ 64 - 1; 2 ^ 64 - 1] 60 68 = Ok bm' /\
    length bm' = 2%nat /\ bm_wf bm' /\
    forall i, 0 <= i ->
      bm_bit bm' i =
      bm_bit [2 ^ 64 - 1; 2 ^ 64 - 1] i && negb ((60 <=? i) && (i <? 60 + 68)).
Proof.
  apply (FBitMapClrNBits_correct [2 ^ 64 - 1; 2 ^ 64 - 1] 60 68); unfold bm_wf; zdec.
Defined.

Lemma FBitMapFfz_correct_witness :
  exists r, @FBitMapFfz aarch32_word [2 ^ 32 - 1; 7] 64 = Ok r /\
    @ffz_post aarch32_word [2 ^ 32 - 1; 7] 64 r.
Proof.
  apply (@FBitMapFfz_correct aarch32_word); unfold bm_wf; [zdec| |zdec..].
  apply Forall_cons_2; [|apply Forall_cons_2; [|apply Forall_nil_2]];
    apply (@ffs_visible_32 aarch32_word); zdec.
Defined.

Lemma FBitMapSetClear_correct_witness :
  (exists b', @FBitMapSet aarch32_word (Some 6) 35 = Ok (Some b') /\
     forall j, 0 <= j -> Z.testbit b' j = Z.testbit 6 j || (j =? 35 mod 32)) /\
  (exists b', @FBitMapClear aarch32_word (Some 6) 35 = Ok (Some b') /\
     forall j, 0 <= j -> Z.testbit b' j = Z.testbit 6 j && negb (j =? 35 mod 32)).
Proof.
  apply (@FBitMapSetClear_correct aarch32_word); zdec.
Defined.

Lemma FBitMapHighLow_correct_witness :
  let h := FBitMapHighGet 80 in let l := FBitMapLowGet 80 in
  0 <= l <= h /\ h < 64 /\ Z.testbit 80 h = true /\ Z.testbit 80 l = true /\
  (forall j, h < j -> Z.testbit 80 j = false) /\
  (forall j, 0 <= j < l -> Z.testbit 80 j = false).
Proof. apply (@FBitMapHighLow_correct aarch64_word 80). zdec. Defined.

Lemma FBitMapCopyClearTail_correct_witness :
  exists dst', FBitMapCopyClearTail [1; 2; 3] [2 ^ 64 - 1; 2 ^ 64 - 1] 70 = Ok dst' /\
    length dst' = 3%nat /\
    forall i, 0 <= i -> bm_bit dst' i =
      if i <? 70 then bm_bit [2 ^ 64 - 1; 2 ^ 64 - 1] i
      else if i <? 64 * ((70 + 64 - 1) / 64) then false else bm_bit [1; 2; 3] i.
Proof.
  apply (@FBitMapCopyClearTail_correct aarch64_word [1; 2; 3] [2 ^ 64 - 1; 2 ^ 64 - 1] 70); unfold bm_wf; zdec.
Defined.

(** ** What the 64-bit build does outside those hypotheses

    On AArch64 [1U << n] has 32 bits: [FBitMapSet] is undefined for the upper
    half of a word, [FBitMapClear] of a low bit clears the whole upper half,
    and [FBitMapFfz] does not see a zero in the upper half of a word. *)
Theorem FBitMap_aarch64_upper_half :
  @FBitMapSet aarch64_word (Some 0) 32 = Fault Undefined /\
  @FBitMapClear aarch64_word (Some (2 ^ 40 + 3)) 0 = Ok (Some 2) /\
  @FBitMapFfz aarch64_word [2 ^ 32 - 1] 64 = Ok (-1) /\
  @bm_bit aarch64_word [2 ^ 32 - 1] 40 = false.
Proof. vm_compute. repeat split. Qed.

(** The value for "no bit" is [sizeof(FBitPerWordType)], a valid bit number:
    an empty word and a word with only that bit set look the same. *)
Theorem FBitMap_no_bit_ambiguous :
  @FBitMapHighGet aarch64_word 0 = @FBitMapHighGet aarch64_word (2 ^ 8) /\
  @FBitMapLowGet aarch32_word 0 = @FBitMapLowGet aarch32_word (2 ^ 4).
Proof. vm_compute. repeat split. Qed.
