(* ===== verification/BdRing.v ===== *)
(** Buffer-descriptor rings of the Ethernet MAC drivers:
    src/standalone/drivers/eth/fxmac/fxmac_bdring.c, and its copy for the
    message-based controller, fxmac_v2_0/fxmac_msg_bdring.c.

    A ring is a contiguous array of descriptors (BDs) cut into four groups in
    ring order: BDs done by the hardware and not yet given back (post), BDs
    owned by the hardware (hw), BDs being prepared (pre) and free BDs.  The C
    structure keeps the address of the first BD of each group and its length.
    [Module Ring] models every function on that structure and on the memory of
    the descriptors; [Module Spec] is what the comments of the file promise:
    four FIFO lists of BD numbers; the theorems relate the two. *)
From S2P Require Import Prelude.

(** The two targets: pointer width, [FXMAC_DMABD_MINIMUM_ALIGNMENT] and
    [sizeof(FXmacBd)] of fxmac_bd.h. *)
Class BdTarget := {
  ptr_w : Z;
  FXMAC_DMABD_MINIMUM_ALIGNMENT : Z;
  sizeof_FXmacBd : Z;
  target_cases :
    (ptr_w = 64 /\ FXMAC_DMABD_MINIMUM_ALIGNMENT = 64 /\ sizeof_FXmacBd = 16) \/
    (ptr_w = 32 /\ FXMAC_DMABD_MINIMUM_ALIGNMENT = 4 /\ sizeof_FXmacBd = 8)
}.

#[export] Instance aarch64_bd : BdTarget :=
  {| target_cases := or_introl (conj eq_refl (conj eq_refl eq_refl)) |}.
Definition aarch32_bd : BdTarget :=
  {| target_cases := or_intror (conj eq_refl (conj eq_refl eq_refl)) |}.

(** The 32-bit words of memory, by (word-aligned) address. *)
Definition mem := Z -> Z.

Definition mem_write (a v : Z) (m : mem) : mem := fun x => if x =? a then v else m x.

(** [memset(a, 0, len)] for a block of words. *)
Definition mem_zero (a len : Z) (m : mem) : mem :=
  fun x => if (a <=? x) && (x <? a + len) then 0 else m x.

(** [memcpy(dst, src, len)] from a template that lies outside the ring. *)
Definition mem_copy (dst len : Z) (src : Z -> Z) (m : mem) : mem :=
  fun x => if (dst <=? x) && (x <? dst + len) then src (x - dst) else m x.

(** [FXmacBdRing] of fxmac_bdring.h; pointers are addresses, 0 is [NULL]. *)
Record FXmacBdRing := mkRing {
  phys_base_addr : Z;
  base_bd_addr : Z;
  high_bd_addr : Z;
  ring_length : Z; (* length *)
  run_state : Z;
  separation : Z;
  free_head : Z;
  pre_head : Z;
  hw_head : Z;
  hw_tail : Z;
  post_head : Z;
  bda_restart : Z;
  hw_cnt : Z;
  pre_cnt : Z;
  free_cnt : Z;
  post_cnt : Z;
  all_cnt : Z
}.

(** The assignments [ring_ptr->f = v]. *)
Definition set_phys_base_addr (v : Z) (r : FXmacBdRing) : FXmacBdRing :=
  mkRing v (r.(base_bd_addr)) (r.(high_bd_addr)) (r.(ring_length)) (r.(run_state))
    (r.(separation)) (r.(free_head)) (r.(pre_head)) (r.(hw_head)) (r.(hw_tail))
    (r.(post_head)) (r.(bda_restart)) (r.(hw_cnt)) (r.(pre_cnt)) (r.(free_cnt))
    (r.(post_cnt)) (r.(all_cnt)).
Definition set_base_bd_addr (v : Z) (r : FXmacBdRing) : FXmacBdRing :=
  mkRing (r.(phys_base_addr)) v (r.(high_bd_addr)) (r.(ring_length)) (r.(run_state))
    (r.(separation)) (r.(free_head)) (r.(pre_head)) (r.(hw_head)) (r.(hw_tail))
    (r.(post_head)) (r.(bda_restart)) (r.(hw_cnt)) (r.(pre_cnt)) (r.(free_cnt))
    (r.(post_cnt)) (r.(all_cnt)).
Definition set_high_bd_addr (v : Z) (r : FXmacBdRing) : FXmacBdRing :=
  mkRing (r.(phys_base_addr)) (r.(base_bd_addr)) v (r.(ring_length)) (r.(run_state))
    (r.(separation)) (r.(free_head)) (r.(pre_head)) (r.(hw_head)) (r.(hw_tail))
    (r.(post_head)) (r.(bda_restart)) (r.(hw_cnt)) (r.(pre_cnt)) (r.(free_cnt))
    (r.(post_cnt)) (r.(all_cnt)).
Definition set_ring_length (v : Z) (r : FXmacBdRing) : FXmacBdRing :=
  mkRing (r.(phys_base_addr)) (r.(base_bd_addr)) (r.(high_bd_addr)) v (r.(run_state))
    (r.(separation)) (r.(free_head)) (r.(pre_head)) (r.(hw_head)) (r.(hw_tail))
    (r.(post_head)) (r.(bda_restart)) (r.(hw_cnt)) (r.(pre_cnt)) (r.(free_cnt))
    (r.(post_cnt)) (r.(all_cnt)).
Definition set_run_state (v : Z) (r : FXmacBdRing) : FXmacBdRing :=
  mkRing (r.(phys_base_addr)) (r.(base_bd_addr)) (r.(high_bd_addr)) (r.(ring_length)) v
    (r.(separation)) (r.(free_head)) (r.(pre_head)) (r.(hw_head)) (r.(hw_tail))
    (r.(post_head)) (r.(bda_restart)) (r.(hw_cnt)) (r.(pre_cnt)) (r.(free_cnt))
    (r.(post_cnt)) (r.(all_cnt)).
Definition set_separation (v : Z) (r : FXmacBdRing) : FXmacBdRing :=
  mkRing (r.(phys_base_addr)) (r.(base_bd_addr)) (r.(high_bd_addr)) (r.(ring_length))
    (r.(run_state)) v (r.(free_head)) (r.(pre_head)) (r.(hw_head)) (r.(hw_tail))
    (r.(post_head)) (r.(bda_restart)) (r.(hw_cnt)) (r.(pre_cnt)) (r.(free_cnt))
    (r.(post_cnt)) (r.(all_cnt)).
Definition set_free_head (v : Z) (r : FXmacBdRing) : FXmacBdRing :=
  mkRing (r.(phys_base_addr)) (r.(base_bd_addr)) (r.(high_bd_addr)) (r.(ring_length))
    (r.(run_state)) (r.(separation)) v (r.(pre_head)) (r.(hw_head)) (r.(hw_tail))
    (r.(post_head)) (r.(bda_restart)) (r.(hw_cnt)) (r.(pre_cnt)) (r.(free_cnt))
    (r.(post_cnt)) (r.(all_cnt)).
Definition set_pre_head (v : Z) (r : FXmacBdRing) : FXmacBdRing :=
  mkRing (r.(phys_base_addr)) (r.(base_bd_addr)) (r.(high_bd_addr)) (r.(ring_length))
    (r.(run_state)) (r.(separation)) (r.(free_head)) v (r.(hw_head)) (r.(hw_tail))
    (r.(post_head)) (r.(bda_restart)) (r.(hw_cnt)) (r.(pre_cnt)) (r.(free_cnt))
    (r.(post_cnt)) (r.(all_cnt)).
Definition set_hw_head (v : Z) (r : FXmacBdRing) : FXmacBdRing :=
  mkRing (r.(phys_base_addr)) (r.(base_bd_addr)) (r.(high_bd_addr)) (r.(ring_length))
    (r.(run_state)) (r.(separation)) (r.(free_head)) (r.(pre_head)) v (r.(hw_tail))
    (r.(post_head)) (r.(bda_restart)) (r.(hw_cnt)) (r.(pre_cnt)) (r.(free_cnt))
    (r.(post_cnt)) (r.(all_cnt)).
Definition set_hw_tail (v : Z) (r : FXmacBdRing) : FXmacBdRing :=
  mkRing (r.(phys_base_addr)) (r.(base_bd_addr)) (r.(high_bd_addr)) (r.(ring_length))
    (r.(run_state)) (r.(separation)) (r.(free_head)) (r.(pre_head)) (r.(hw_head)) v
    (r.(post_head)) (r.(bda_restart)) (r.(hw_cnt)) (r.(pre_cnt)) (r.(free_cnt))
    (r.(post_cnt)) (r.(all_cnt)).
Definition set_post_head (v : Z) (r : FXmacBdRing) : FXmacBdRing :=
  mkRing (r.(phys_base_addr)) (r.(base_bd_addr)) (r.(high_bd_addr)) (r.(ring_length))
    (r.(run_state)) (r.(separation)) (r.(free_head)) (r.(pre_head)) (r.(hw_head))
    (r.(hw_tail)) v (r.(bda_restart)) (r.(hw_cnt)) (r.(pre_cnt)) (r.(free_cnt))
    (r.(post_cnt)) (r.(all_cnt)).
Definition set_bda_restart (v : Z) (r : FXmacBdRing) : FXmacBdRing :=
  mkRing (r.(phys_base_addr)) (r.(base_bd_addr)) (r.(high_bd_addr)) (r.(ring_length))
    (r.(run_state)) (r.(separation)) (r.(free_head)) (r.(pre_head)) (r.(hw_head))
    (r.(hw_tail)) (r.(post_head)) v (r.(hw_cnt)) (r.(pre_cnt)) (r.(free_cnt))
    (r.(post_cnt)) (r.(all_cnt)).
Definition set_hw_cnt (v : Z) (r : FXmacBdRing) : FXmacBdRing :=
  mkRing (r.(phys_base_addr)) (r.(base_bd_addr)) (r.(high_bd_addr)) (r.(ring_length))
    (r.(run_state)) (r.(separation)) (r.(free_head)) (r.(pre_head)) (r.(hw_head))
    (r.(hw_tail)) (r.(post_head)) (r.(bda_restart)) v (r.(pre_cnt)) (r.(free_cnt))
    (r.(post_cnt)) (r.(all_cnt)).
Definition set_pre_cnt (v : Z) (r : FXmacBdRing) : FXmacBdRing :=
  mkRing (r.(phys_base_addr)) (r.(base_bd_addr)) (r.(high_bd_addr)) (r.(ring_length))
    (r.(run_state)) (r.(separation)) (r.(free_head)) (r.(pre_head)) (r.(hw_head))
    (r.(hw_tail)) (r.(post_head)) (r.(bda_restart)) (r.(hw_cnt)) v (r.(free_cnt))
    (r.(post_cnt)) (r.(all_cnt)).
Definition set_free_cnt (v : Z) (r : FXmacBdRing) : FXmacBdRing :=
  mkRing (r.(phys_base_addr)) (r.(base_bd_addr)) (r.(high_bd_addr)) (r.(ring_length))
    (r.(run_state)) (r.(separation)) (r.(free_head)) (r.(pre_head)) (r.(hw_head))
    (r.(hw_tail)) (r.(post_head)) (r.(bda_restart)) (r.(hw_cnt)) (r.(pre_cnt)) v
    (r.(post_cnt)) (r.(all_cnt)).
Definition set_post_cnt (v : Z) (r : FXmacBdRing) : FXmacBdRing :=
  mkRing (r.(phys_base_addr)) (r.(base_bd_addr)) (r.(high_bd_addr)) (r.(ring_length))
    (r.(run_state)) (r.(separation)) (r.(free_head)) (r.(pre_head)) (r.(hw_head))
    (r.(hw_tail)) (r.(post_head)) (r.(bda_restart)) (r.(hw_cnt)) (r.(pre_cnt))
    (r.(free_cnt)) v (r.(all_cnt)).
Definition set_all_cnt (v : Z) (r : FXmacBdRing) : FXmacBdRing :=
  mkRing (r.(phys_base_addr)) (r.(base_bd_addr)) (r.(high_bd_addr)) (r.(ring_length))
    (r.(run_state)) (r.(separation)) (r.(free_head)) (r.(pre_head)) (r.(hw_head))
    (r.(hw_tail)) (r.(post_head)) (r.(bda_restart)) (r.(hw_cnt)) (r.(pre_cnt))
    (r.(free_cnt)) (r.(post_cnt)) v.

Module Ring.
Section Ring.
Context `{T : BdTarget}.

Abbreviation uptr := (wrap ptr_w).

(** ** Constants of fxmac.h, fxmac_hw.h and fxmac_bd.h *)
Definition ErrBspEth : Z := 8.
Definition FXMAC_ERR_INVALID_PARAM : Z := FT_MAKE_ERRCODE ErrModBsp ErrBspEth 1.
Definition FXMAC_ERR_SG_LIST : Z := FT_MAKE_ERRCODE ErrModBsp ErrBspEth 2.
Definition FXMAC_ERR_GENERAL : Z := FT_MAKE_ERRCODE ErrModBsp ErrBspEth 4.
Definition FXMAC_ERR_SG_NO_LIST : Z := FT_MAKE_ERRCODE ErrModBsp ErrBspEth 5.
Definition FXMAC_DMA_SG_IS_STARTED : Z := 0.
Definition FXMAC_DMA_SG_IS_STOPED : Z := 1.
Definition FXMAC_SEND : Z := 1.
Definition FXMAC_RECV : Z := 2.
Definition FXMAC_BD_ADDR_OFFSET : Z := 0.
Definition FXMAC_BD_STAT_OFFSET : Z := 4.
Definition FXMAC_RXBUF_EOF_MASK : Z := BIT 15.
Definition FXMAC_RXBUF_WRAP_MASK : Z := BIT 1.
Definition FXMAC_RXBUF_NEW_MASK : Z := BIT 0.
Definition FXMAC_TXBUF_USED_MASK : Z := BIT 31.
Definition FXMAC_TXBUF_WRAP_MASK : Z := BIT 30.
Definition FXMAC_TXBUF_LAST_MASK : Z := BIT 15.

Definition FXMAC_BD_READ (m : mem) (bd_ptr offset : Z) : Z := m (uptr (bd_ptr + offset)).
Definition FXMAC_BD_WRITE (m : mem) (bd_ptr offset data : Z) : mem :=
  mem_write (uptr (bd_ptr + offset)) (u32 data) m.
Definition FXMAC_BD_IS_RX_NEW (m : mem) (bd_ptr : Z) : bool :=
  truth (Z.land (FXMAC_BD_READ m bd_ptr FXMAC_BD_ADDR_OFFSET) FXMAC_RXBUF_NEW_MASK).
Definition FXMAC_BD_IS_TX_WRAP (m : mem) (bd_ptr : Z) : bool :=
  truth (Z.land (FXMAC_BD_READ m bd_ptr FXMAC_BD_STAT_OFFSET) FXMAC_TXBUF_WRAP_MASK).
Definition FXMAC_BD_IS_RX_WRAP (m : mem) (bd_ptr : Z) : bool :=
  truth (Z.land (FXMAC_BD_READ m bd_ptr FXMAC_BD_ADDR_OFFSET) FXMAC_RXBUF_WRAP_MASK).

(** ** Moving around the ring *)
Definition FXMAC_BD_RING_NEXT (r : FXmacBdRing) (bd_ptr : Z) : Z :=
  if r.(high_bd_addr) <=? bd_ptr then r.(base_bd_addr)
  else uptr (bd_ptr + r.(separation)).

Definition FXMAC_RING_SEEKAHEAD (r : FXmacBdRing) (bdptr num_bd : Z) : Z :=
  let addr := uptr (bdptr + u32 (r.(separation) * num_bd)) in
  if (r.(high_bd_addr) <? addr) || (addr <? bdptr)
  then uptr (addr - r.(ring_length)) else addr.

Definition FXMAC_RING_SEEKBACK (r : FXmacBdRing) (bdptr num_bd : Z) : Z :=
  let addr := uptr (bdptr - u32 (r.(separation) * num_bd)) in
  if (addr <? r.(base_bd_addr)) || (bdptr <? addr)
  then uptr (addr + r.(ring_length)) else addr.

(** [p = NEXT(p)] repeated. *)
Fixpoint next_n (r : FXmacBdRing) (n : nat) (p : Z) : Z :=
  match n with
  | O => p
  | S n => next_n r n (FXMAC_BD_RING_NEXT r p)
  end.

(** [p += separation] repeated. *)
Fixpoint step_n (sep : Z) (n : nat) (p : Z) : Z :=
  match n with
  | O => p
  | S n => step_n sep n (uptr (p + sep))
  end.

(** ** Creation *)
Definition FXmacBdRingCreate (r : FXmacBdRing) (m : mem)
    (phys_addr virt_addr alignment bd_count : Z) : Z * FXmacBdRing * mem :=
  let r := set_post_cnt 0 (set_pre_cnt 0 (set_hw_cnt 0 (set_free_cnt 0
             (set_all_cnt 0 r)))) in
  if alignment <? FXMAC_DMABD_MINIMUM_ALIGNMENT then (FXMAC_ERR_INVALID_PARAM, r, m)
  else if truth (Z.land (u32 (alignment - 1)) alignment) then
    (FXMAC_ERR_INVALID_PARAM, r, m)
  else if truth (phys_addr mod alignment) || truth (virt_addr mod alignment) then
    (FXMAC_ERR_INVALID_PARAM, r, m)
  else if bd_count =? 0 then (FXMAC_ERR_INVALID_PARAM, r, m)
  else
    let r := set_separation sizeof_FXmacBd r in
    let span := u32 (r.(separation) * bd_count) in
    if uptr (uptr (virt_addr + span) - 1) <? virt_addr then (FXMAC_ERR_SG_LIST, r, m)
    else
      let m := mem_zero virt_addr span m in
      let bd_virt_addr := step_n r.(separation) (Z.to_nat (bd_count - 1)) virt_addr in
      let r := set_run_state FXMAC_DMA_SG_IS_STOPED r in
      let r := set_base_bd_addr virt_addr r in
      let r := set_phys_base_addr phys_addr r in
      let r := set_high_bd_addr bd_virt_addr r in
      let r := set_ring_length
        (u32 (uptr (uptr (r.(high_bd_addr) - r.(base_bd_addr)) + r.(separation)))) r in
      let r := set_all_cnt bd_count r in
      let r := set_free_cnt bd_count r in
      let r := set_free_head virt_addr r in
      let r := set_pre_head virt_addr r in
      let r := set_hw_head virt_addr r in
      let r := set_hw_tail virt_addr r in
      let r := set_post_head virt_addr r in
      let r := set_bda_restart phys_addr r in
      (FT_SUCCESS, r, m).

Definition FXmacBdSetRxWrap (m : mem) (bdptr : Z) : mem :=
  let p := uptr (bdptr + FXMAC_BD_ADDR_OFFSET) in
  if truth p then mem_write p (Z.lor (m p) FXMAC_RXBUF_WRAP_MASK) m else m.

Definition FXmacBdSetTxWrap (m : mem) (bdptr : Z) : mem :=
  let p := uptr (bdptr + FXMAC_BD_STAT_OFFSET) in
  if truth p then mem_write p (Z.lor (m p) FXMAC_TXBUF_WRAP_MASK) m else m.

(** The copy loop of [FXmacBdRingClone]; it returns [cur_bd] as well. *)
Fixpoint clone_loop (n : nat) (sep cur_bd : Z) (src : Z -> Z) (m : mem) : mem * Z :=
  match n with
  | O => (m, cur_bd)
  | S n => clone_loop n sep (uptr (cur_bd + sep)) src (mem_copy cur_bd sizeof_FXmacBd src m)
  end.

Definition FXmacBdRingClone (r : FXmacBdRing) (m : mem) (src : Z -> Z) (direction : Z)
    : Z * mem :=
  if r.(all_cnt) =? 0 then (FXMAC_ERR_SG_NO_LIST, m)
  else if r.(run_state) =? FXMAC_DMA_SG_IS_STARTED then (FT_COMPONENT_IS_STARTED, m)
  else if negb (r.(free_cnt) =? r.(all_cnt)) then (FXMAC_ERR_SG_LIST, m)
  else if negb (direction =? FXMAC_SEND) && negb (direction =? FXMAC_RECV) then
    (FXMAC_ERR_INVALID_PARAM, m)
  else
    let '(m, cur_bd) :=
      clone_loop (Z.to_nat r.(all_cnt)) r.(separation) r.(base_bd_addr) src m in
    let cur_bd := uptr (cur_bd - r.(separation)) in
    let m := if direction =? FXMAC_RECV then FXmacBdSetRxWrap m cur_bd
             else FXmacBdSetTxWrap m cur_bd in
    (FT_SUCCESS, m).

(** ** Moving BDs between the groups

    [bd_set_ptr] of the C functions is an output: [None] when it is left
    alone, [Some p] when [p] is stored. *)
Definition FXmacBdRingAlloc (r : FXmacBdRing) (num_bd : Z)
    : Z * option Z * FXmacBdRing :=
  if r.(free_cnt) <? num_bd then (FXMAC_ERR_GENERAL, None, r)
  else
    let bd_set := r.(free_head) in
    let r := set_free_head (FXMAC_RING_SEEKAHEAD r r.(free_head) num_bd) r in
    let r := set_free_cnt (u32 (r.(free_cnt) - num_bd)) r in
    let r := set_pre_cnt (u32 (r.(pre_cnt) + num_bd)) r in
    (FT_SUCCESS, Some bd_set, r).

Definition FXmacBdRingUnAlloc (r : FXmacBdRing) (num_bd bd_set_ptr : Z)
    : res (Z * FXmacBdRing) :=
  check! truth bd_set_ptr in
  if r.(pre_cnt) <? num_bd then Ok (FXMAC_ERR_GENERAL, r)
  else
    let r := set_free_head (FXMAC_RING_SEEKBACK r r.(free_head) num_bd) r in
    let r := set_free_cnt (u32 (r.(free_cnt) + num_bd)) r in
    let r := set_pre_cnt (u32 (r.(pre_cnt) - num_bd)) r in
    Ok (FT_SUCCESS, r).

Definition FXmacBdRingToHw (r : FXmacBdRing) (num_bd bd_set_ptr : Z) : Z * FXmacBdRing :=
  if 0 =? num_bd then (FT_SUCCESS, r)
  else if (r.(pre_cnt) <? num_bd) || negb (r.(pre_head) =? bd_set_ptr) then
    (FXMAC_ERR_SG_LIST, r)
  else
    let cur_bd_ptr := next_n r (Z.to_nat num_bd) bd_set_ptr in
    let r := set_pre_head (FXMAC_RING_SEEKAHEAD r r.(pre_head) num_bd) r in
    let r := set_pre_cnt (u32 (r.(pre_cnt) - num_bd)) r in
    let r := set_hw_tail cur_bd_ptr r in
    let r := set_hw_cnt (u32 (r.(hw_cnt) + num_bd)) r in
    (FT_SUCCESS, r).

(** What both [FXmacBdRingFromHw*] functions do with the BDs they counted:
    the status (the number of BDs), the output pointer and the ring. *)
Definition from_hw_finish (r : FXmacBdRing) (bd_count : Z) : Z * Z * FXmacBdRing :=
  if 0 <? bd_count then
    let bd_set := r.(hw_head) in
    let r := set_hw_cnt (u32 (r.(hw_cnt) - bd_count)) r in
    let r := set_post_cnt (u32 (r.(post_cnt) + bd_count)) r in
    let r := set_hw_head (FXMAC_RING_SEEKAHEAD r r.(hw_head) bd_count) r in
    (bd_count, bd_set, r)
  else (0, 0, r).

(** The search loop of [FXmacBdRingFromHwTx]; the result is [bd_count] and
    [bd_partial_count].  A BD that is still owned by the hardware does not
    stop it, so it takes fuel. *)
Fixpoint tx_loop (fuel : nat) (r : FXmacBdRing) (m : mem)
    (limit cur bd_str bd_count bd_partial : Z) : res (Z * Z) :=
  if bd_count <? limit then
    match fuel with
    | O => Fault OutOfFuel
    | S fuel =>
        let bd_str :=
          if truth cur then FXMAC_BD_READ m cur FXMAC_BD_STAT_OFFSET else bd_str in
        let used := truth (Z.land bd_str FXMAC_TXBUF_USED_MASK) in
        let bd_count := if used then u32 (bd_count + 1) else bd_count in
        let bd_partial := if used then u32 (bd_partial + 1) else bd_partial in
        let bd_partial :=
          if truth (Z.land bd_str FXMAC_TXBUF_LAST_MASK) then 0 else bd_partial in
        tx_loop fuel r m limit (FXMAC_BD_RING_NEXT r cur) bd_str bd_count bd_partial
    end
  else Ok (bd_count, bd_partial).

Definition FXmacBdRingFromHwTx (fuel : nat) (r : FXmacBdRing) (m : mem) (bd_limit : Z)
    : res (Z * Z * FXmacBdRing) :=
  if r.(hw_cnt) =? 0 then Ok (0, 0, r)
  else
    let limit := if r.(hw_cnt) <? bd_limit then r.(hw_cnt) else bd_limit in
    let! (bd_count, bd_partial) := tx_loop fuel r m limit r.(hw_head) 0 0 0 in
    Ok (from_hw_finish r (u32 (bd_count - bd_partial))).

(** The search loop of [FXmacBdRingFromHwRx], which runs at most [bd_limit]
    times; the first argument counts down the iterations left. *)
Fixpoint rx_loop (n : nat) (r : FXmacBdRing) (m : mem)
    (cur bd_str bd_count bd_partial : Z) : Z * Z :=
  match n with
  | O => (bd_count, bd_partial)
  | S n =>
      let bd_str :=
        if truth cur then FXMAC_BD_READ m cur FXMAC_BD_STAT_OFFSET else bd_str in
      if negb (FXMAC_BD_IS_RX_NEW m cur) then (bd_count, bd_partial)
      else
        let bd_count := u32 (bd_count + 1) in
        let bd_partial :=
          if truth (Z.land bd_str FXMAC_RXBUF_EOF_MASK) then 0
          else u32 (bd_partial + 1) in
        rx_loop n r m (FXMAC_BD_RING_NEXT r cur) bd_str bd_count bd_partial
  end.

Definition FXmacBdRingFromHwRx (r : FXmacBdRing) (m : mem) (bd_limit : Z)
    : Z * Z * FXmacBdRing :=
  if r.(hw_cnt) =? 0 then (0, 0, r)
  else
    let '(bd_count, bd_partial) := rx_loop (Z.to_nat bd_limit) r m r.(hw_head) 0 0 0 in
    from_hw_finish r (u32 (bd_count - bd_partial)).

Definition FXmacBdRingFree (r : FXmacBdRing) (num_bd bd_set_ptr : Z) : Z * FXmacBdRing :=
  if 0 =? num_bd then (FT_SUCCESS, r)
  else if (r.(post_cnt) <? num_bd) || negb (r.(post_head) =? bd_set_ptr) then
    (FXMAC_ERR_SG_LIST, r)
  else
    let r := set_free_cnt (u32 (r.(free_cnt) + num_bd)) r in
    let r := set_post_cnt (u32 (r.(post_cnt) - num_bd)) r in
    let r := set_post_head (FXMAC_RING_SEEKAHEAD r r.(post_head) num_bd) r in
    (FT_SUCCESS, r).

(** ** Self-check *)

(** A head pointer is rejected outside [base, high]. *)
Definition ptr_outside (r : FXmacBdRing) (p : Z) : bool :=
  (p <? r.(base_bd_addr)) || (r.(high_bd_addr) <? p).

(** The loop over the links; the result is the last [addr_v] or a bad link. *)
Fixpoint link_loop (n : nat) (r : FXmacBdRing) (m : mem) (addr_v addr_p : Z)
    : option Z :=
  match n with
  | O => Some addr_v
  | S n =>
      if negb (FXMAC_BD_READ m addr_v FXMAC_BD_ADDR_OFFSET =? addr_p) then None
      else link_loop n r m (uptr (addr_v + r.(separation))) (uptr (addr_p + r.(separation)))
  end.

Definition FXmacBdRingCheck (r : FXmacBdRing) (m : mem) (direction : Z) : Z :=
  if negb (direction =? FXMAC_SEND) && negb (direction =? FXMAC_RECV) then
    FXMAC_ERR_INVALID_PARAM
  else if r.(all_cnt) =? 0 then FXMAC_ERR_SG_NO_LIST
  else if r.(run_state) =? FXMAC_DMA_SG_IS_STARTED then FT_COMPONENT_IS_STARTED
  else if negb (r.(run_state) =? FXMAC_DMA_SG_IS_STOPED) then FXMAC_ERR_SG_LIST
  else if ptr_outside r r.(free_head) then FXMAC_ERR_SG_LIST
  else if ptr_outside r r.(pre_head) then FXMAC_ERR_SG_LIST
  else if ptr_outside r r.(hw_head) then FXMAC_ERR_SG_LIST
  else if ptr_outside r r.(hw_tail) then FXMAC_ERR_SG_LIST
  else if ptr_outside r r.(post_head) then FXMAC_ERR_SG_LIST
  else if negb (u32 (r.(hw_cnt) + r.(pre_cnt) + r.(free_cnt) + r.(post_cnt))
                =? r.(all_cnt)) then FXMAC_ERR_SG_LIST
  else
    match link_loop (Z.to_nat (r.(all_cnt) - 1)) r m r.(base_bd_addr)
            (uptr (r.(phys_base_addr) + r.(separation))) with
    | None => FXMAC_ERR_SG_LIST
    | Some addr_v =>
        if FXMAC_SEND =? direction then
          if negb (FXMAC_BD_IS_TX_WRAP m addr_v) then FXMAC_ERR_SG_LIST else FT_SUCCESS
        else
          if negb (FXMAC_BD_IS_RX_WRAP m addr_v) then FXMAC_ERR_SG_LIST else FT_SUCCESS
    end.

Definition FXmacBdringPtrReset (r : FXmacBdRing) (virtaddrloc : Z) : FXmacBdRing :=
  let r := set_free_head virtaddrloc r in
  let r := set_pre_head virtaddrloc r in
  let r := set_hw_head virtaddrloc r in
  let r := set_hw_tail virtaddrloc r in
  set_post_head virtaddrloc r.
End Ring.
End Ring.

(** ** The message-based controller

    fxmac_v2_0/fxmac_msg_bdring.c has the same functions under other names, on
    the same structure; its status codes, descriptor sizes and flag masks have
    the same values. *)
Module FXmacMsg.
Section FXmacMsg.
Import Ring.
Context `{T : BdTarget}.

Definition FXmacMsgBdRingCreate := FXmacBdRingCreate.
Definition FXmacMsgBdRingClone := FXmacBdRingClone.
Definition FXmacMsgBdRingAlloc := FXmacBdRingAlloc.
Definition FXmacMsgBdRingUnAlloc := FXmacBdRingUnAlloc.
Definition FXmacMsgBdRingToHw := FXmacBdRingToHw.
Definition FXmacMsgBdRingFromHwTx := FXmacBdRingFromHwTx.
Definition FXmacMsgBdRingFromHwRx := FXmacBdRingFromHwRx.
Definition FXmacMsgBdRingFree := FXmacBdRingFree.
Definition FXmacMsgBdRingCheck := FXmacBdRingCheck.
Definition FXmacMsgBdSetRxWrap := FXmacBdSetRxWrap.
Definition FXmacMsgBdSetTxWrap := FXmacBdSetTxWrap.
Definition FXmacMsgBdringPtrReset := FXmacBdringPtrReset.
End FXmacMsg.
End FXmacMsg.

(** ** The specification

    The four groups as lists of BD numbers in ring order.  Every operation
    takes BDs from the front of one list and adds them at the end of the next
    one; [unalloc] undoes the most recent [alloc]. *)
Module Spec.
Record groups := mkGroups { g_post : list Z; g_hw : list Z; g_pre : list Z; g_free : list Z }.

Definition alloc (k : nat) (g : groups) : groups :=
  mkGroups g.(g_post) g.(g_hw) (g.(g_pre) ++ take k g.(g_free)) (drop k g.(g_free)).
Definition unalloc (k : nat) (g : groups) : groups :=
  let keep := (length g.(g_pre) - k)%nat in
  mkGroups g.(g_post) g.(g_hw) (take keep g.(g_pre)) (drop keep g.(g_pre) ++ g.(g_free)).
Definition to_hw (k : nat) (g : groups) : groups :=
  mkGroups g.(g_post) (g.(g_hw) ++ take k g.(g_pre)) (drop k g.(g_pre)) g.(g_free).
Definition from_hw (k : nat) (g : groups) : groups :=
  mkGroups (g.(g_post) ++ take k g.(g_hw)) (drop k g.(g_hw)) g.(g_pre) g.(g_free).
Definition free (k : nat) (g : groups) : groups :=
  mkGroups (drop k g.(g_post)) g.(g_hw) g.(g_pre) (g.(g_free) ++ take k g.(g_post)).

(** All BDs, in the order of the groups. *)
Definition all_bds (g : groups) : list Z :=
  g.(g_post) ++ g.(g_hw) ++ g.(g_pre) ++ g.(g_free).

(** [len] consecutive BD numbers of a ring of [n], starting at [s]. *)
Definition seg (n s len : Z) : list Z := map (fun i => (s + i) mod n) (seqZ 0 len).

Lemma seg_length n s len : length (seg n s len) = Z.to_nat len.
Proof. unfold seg. by rewrite length_map, length_seqZ. Qed.

Lemma seg_app n s a b : 0 <= a -> 0 <= b -> seg n s (a + b) = seg n s a ++ seg n (s + a) b.
Proof.
  intros Ha Hb. unfold seg. rewrite seqZ_app, map_app by done. f_equal.
  rewrite <-(Z.add_0_l a) at 1. rewrite Z.add_comm, <-fmap_add_seqZ. 
  rewrite map_map. apply map_ext. intros i. f_equal. lia.
Qed.

Lemma seg_mod n s len : seg n (s mod n) len = seg n s len.
Proof. unfold seg. apply map_ext. intros i. apply Zplus_mod_idemp_l. Qed.

Lemma seg_take n s len k :
  0 <= k <= len -> take (Z.to_nat k) (seg n s len) = seg n s k.
Proof.
  intros Hk. replace len with (k + (len - k)) by lia. rewrite seg_app by lia.
  rewrite take_app_le, take_ge by (rewrite seg_length; lia). done.
Qed.

Lemma seg_drop n s len k :
  0 <= k <= len -> drop (Z.to_nat k) (seg n s len) = seg n (s + k) (len - k).
Proof.
  intros Hk. replace len with (k + (len - k)) at 1 by lia. rewrite seg_app by lia.
  rewrite drop_app_ge, seg_length by (rewrite seg_length; lia).
  by rewrite Nat.sub_diag.
Qed.

Lemma seg_period n s len : 0 < n -> seg n (s + n) len = seg n s len.
Proof.
  intros Hn. rewrite <-seg_mod, <-(seg_mod n s). f_equal.
  rewrite <-(Z.mul_1_l n) at 1. apply Z.mod_add. lia.
Qed.
End Spec.

Section RingFacts.
Import Ring Spec.
Context `{T : BdTarget}.
Abbreviation uptr := (wrap ptr_w).

(** ** Target arithmetic *)
Lemma target_facts :
  0 < sizeof_FXmacBd <= 16 /\ 32 <= ptr_w /\ 2 ^ 32 <= 2 ^ ptr_w /\ 0 < 2 ^ ptr_w.
Proof.
  destruct target_cases as [(-> & _ & ->)|(-> & _ & ->)]; repeat split; lia.
Qed.

(** The address of BD [i]. *)
Definition bd_addr (r : FXmacBdRing) (i : Z) : Z := r.(base_bd_addr) + sizeof_FXmacBd * i.

(** A ring of [n] BDs whose first completed BD has number [t]. *)
Record geometry (r : FXmacBdRing) : Prop := {
  geo_sep : r.(separation) = sizeof_FXmacBd;
  geo_cnt : 0 < r.(all_cnt);
  geo_span : sizeof_FXmacBd * r.(all_cnt) < 2 ^ 32;
  geo_base : 0 <= r.(base_bd_addr);
  geo_top : r.(base_bd_addr) + sizeof_FXmacBd * r.(all_cnt) <= 2 ^ ptr_w;
  geo_high : r.(high_bd_addr) = bd_addr r (r.(all_cnt) - 1);
  geo_len : r.(ring_length) = sizeof_FXmacBd * r.(all_cnt)
}.

Record ring_rep (r : FXmacBdRing) (t : Z) : Prop := {
  rep_geo : geometry r;
  rep_cnts : 0 <= r.(post_cnt) /\ 0 <= r.(hw_cnt) /\ 0 <= r.(pre_cnt) /\ 0 <= r.(free_cnt);
  rep_sum : r.(post_cnt) + r.(hw_cnt) + r.(pre_cnt) + r.(free_cnt) = r.(all_cnt);
  rep_t : 0 <= t < r.(all_cnt);
  rep_post : r.(post_head) = bd_addr r t;
  rep_hw : r.(hw_head) = bd_addr r ((t + r.(post_cnt)) mod r.(all_cnt));
  rep_pre : r.(pre_head) = bd_addr r ((t + r.(post_cnt) + r.(hw_cnt)) mod r.(all_cnt));
  rep_free : r.(free_head) =
    bd_addr r ((t + r.(post_cnt) + r.(hw_cnt) + r.(pre_cnt)) mod r.(all_cnt))
}.

(** The well-formedness invariant of a ring. *)
Definition ring_ok (r : FXmacBdRing) : Prop := exists t, ring_rep r t.

(** The abstraction function. *)
Definition groups_at (r : FXmacBdRing) (t : Z) : groups :=
  let n := r.(all_cnt) in
  mkGroups (seg n t r.(post_cnt)) (seg n (t + r.(post_cnt)) r.(hw_cnt))
    (seg n (t + r.(post_cnt) + r.(hw_cnt)) r.(pre_cnt))
    (seg n (t + r.(post_cnt) + r.(hw_cnt) + r.(pre_cnt)) r.(free_cnt)).

(** ** Address arithmetic *)
Lemma span_small r k :
  geometry r -> 0 <= k <= r.(all_cnt) ->
  u32 (r.(separation) * k) = sizeof_FXmacBd * k.
Proof.
  intros [] Hk. pose proof target_facts. rewrite geo_sep0. apply wrap_small. nia.
Qed.

Lemma seekahead_ok r i k :
  geometry r -> 0 <= i < r.(all_cnt) -> 0 <= k <= r.(all_cnt) ->
  FXMAC_RING_SEEKAHEAD r (bd_addr r i) k = bd_addr r ((i + k) mod r.(all_cnt)).
Proof.
  intros G Hi Hk. unfold FXMAC_RING_SEEKAHEAD. rewrite span_small by done.
  destruct G. pose proof target_facts as (Hs & Hw & Hp & Hq).
  rewrite geo_high0, geo_len0. unfold bd_addr in *.
  set (n := all_cnt r) in *. set (b := base_bd_addr r) in *. set (s := sizeof_FXmacBd) in *.
  set (P := 2 ^ ptr_w) in *.
  assert (0 <= s * i /\ 0 <= s * k /\ s * i <= s * n - s /\ s * k <= s * n) by nia.
  destruct (Z.ltb_spec (i + k) n) as [Hlt|Hge].
  - assert (s * (i + k) <= s * (n - 1)) by nia.
    rewrite (Z.mod_small (i + k)), wrap_small by (fold P; lia).
    split_cmp; simpl; lia.
  - assert ((i + k) mod n = i + k - n) as ->.
    { symmetry. apply Zmod_unique with 1; lia. }
    assert (s * n <= s * (i + k)) by nia.
    destruct (Z.ltb_spec (b + s * i + s * k) P).
    + rewrite (wrap_small ptr_w (b + s * i + s * k)) by (fold P; lia).
      rewrite (proj2 (Z.ltb_lt _ _)) by lia. simpl.
      rewrite wrap_small by (fold P; lia). lia.
    + rewrite (wrap_above ptr_w (b + s * i + s * k)) by (fold P; lia). fold P.
      rewrite (proj2 (Z.ltb_lt _ (b + s * i))), orb_true_r by lia.
      rewrite wrap_below by (fold P; lia). fold P. lia.
Qed.

Lemma seekback_ok r i k :
  geometry r -> 0 <= i < r.(all_cnt) -> 0 <= k <= r.(all_cnt) ->
  FXMAC_RING_SEEKBACK r (bd_addr r i) k = bd_addr r ((i - k) mod r.(all_cnt)).
Proof.
  intros G Hi Hk. unfold FXMAC_RING_SEEKBACK. rewrite span_small by done.
  destruct G. pose proof target_facts as (Hs & Hw & Hp & Hq).
  rewrite geo_len0. unfold bd_addr in *.
  set (n := all_cnt r) in *. set (b := base_bd_addr r) in *. set (s := sizeof_FXmacBd) in *.
  set (P := 2 ^ ptr_w) in *.
  assert (0 <= s * i /\ 0 <= s * k /\ s * i <= s * n - s /\ s * k <= s * n) by nia.
  destruct (Z.leb_spec k i) as [Hle|Hgt].
  - assert (s * k <= s * i) by nia.
    rewrite (Z.mod_small (i - k)), wrap_small by (fold P; lia).
    split_cmp; simpl; lia.
  - assert ((i - k) mod n = i - k + n) as ->.
    { symmetry. apply Zmod_unique with (-1); lia. }
    assert (s * i + s <= s * k) by nia.
    destruct (Z.leb_spec 0 (b + s * i - s * k)).
    + rewrite (wrap_small ptr_w (b + s * i - s * k)) by (fold P; lia).
      rewrite (proj2 (Z.ltb_lt _ b)) by lia. simpl.
      rewrite wrap_small by (fold P; lia). lia.
    + rewrite (wrap_below ptr_w (b + s * i - s * k)) by (fold P; lia). fold P.
      rewrite (proj2 (Z.ltb_lt (b + s * i) _)), orb_true_r by lia.
      rewrite wrap_above by (fold P; lia). fold P. lia.
Qed.

Lemma next_ok r i :
  geometry r -> 0 <= i < r.(all_cnt) ->
  FXMAC_BD_RING_NEXT r (bd_addr r i) = bd_addr r ((i + 1) mod r.(all_cnt)).
Proof.
  intros [] Hi. pose proof target_facts as (Hs & Hw & Hp & Hq).
  unfold FXMAC_BD_RING_NEXT. rewrite geo_high0, geo_sep0. unfold bd_addr in *.
  destruct (Z.eqb_spec i (all_cnt r - 1)) as [->|Hne].
  - rewrite (proj2 (Z.leb_le _ _)) by lia. rewrite Z.sub_add, Z.mod_same by lia. lia.
  - rewrite (proj2 (Z.leb_gt _ _)), Z.mod_small by nia.
    rewrite wrap_small by nia. lia.
Qed.

Lemma next_n_ok r n i :
  geometry r -> 0 <= i < r.(all_cnt) ->
  next_n r n (bd_addr r i) = bd_addr r ((i + Z.of_nat n) mod r.(all_cnt)).
Proof.
  intros G. pose proof (geo_cnt _ G). revert i. induction n as [|n IH]; intros i Hi; simpl.
  - by rewrite Z.add_0_r, Z.mod_small.
  - rewrite next_ok, IH by (done || by apply Z.mod_pos_bound).
    rewrite Zplus_mod_idemp_l. do 2 f_equal. lia.
Qed.

(** ** The operations that move BDs *)

(** The counters of a well-formed ring are 32-bit values. *)
Lemma cnts_small r t :
  ring_rep r t -> 0 <= r.(post_cnt) < 2 ^ 32 /\ 0 <= r.(hw_cnt) < 2 ^ 32 /\
  0 <= r.(pre_cnt) < 2 ^ 32 /\ 0 <= r.(free_cnt) < 2 ^ 32 /\ r.(all_cnt) < 2 ^ 32.
Proof. intros []. destruct rep_geo0. pose proof target_facts. nia. Qed.

(** Rebuilds [ring_rep] after assignments that keep the geometry. *)
Ltac solve_geo := lazymatch goal with G : geometry _ |- geometry _ =>
  destruct G; constructor; simpl in *; assumption end.

Lemma seekahead_mod r i k :
  geometry r -> 0 <= k <= r.(all_cnt) ->
  FXMAC_RING_SEEKAHEAD r (bd_addr r (i mod r.(all_cnt))) k =
  bd_addr r ((i + k) mod r.(all_cnt)).
Proof.
  intros G Hk. pose proof (geo_cnt _ G).
  rewrite seekahead_ok by (done || by apply Z.mod_pos_bound).
  by rewrite Zplus_mod_idemp_l.
Qed.

Lemma alloc_refines r t k :
  ring_rep r t -> 0 <= k <= r.(free_cnt) ->
  exists r', FXmacBdRingAlloc r k = (FT_SUCCESS, Some r.(free_head), r') /\
    ring_rep r' t /\ groups_at r' t = alloc (Z.to_nat k) (groups_at r t).
Proof.
  intros R Hk. pose proof (cnts_small _ _ R). destruct R. pose proof (geo_cnt _ rep_geo0).
  unfold FXmacBdRingAlloc. rewrite (proj2 (Z.ltb_ge _ _)) by lia.
  eexists. split; [done|]. simpl. rewrite !wrap_small by lia. split.
  - constructor; simpl; try done; [solve_geo|lia|lia|].
    rewrite rep_free0, seekahead_mod by (done || lia). unfold bd_addr; simpl.
    do 3 f_equal. lia.
  - unfold groups_at, alloc; simpl.
    rewrite seg_take, seg_drop by lia. f_equal; [rewrite <-seg_app by lia; done|].
    f_equal. lia.
Qed.

Lemma unalloc_refines r t k p :
  ring_rep r t -> 0 <= k <= r.(pre_cnt) -> p <> 0 ->
  exists r', FXmacBdRingUnAlloc r k p = Ok (FT_SUCCESS, r') /\
    ring_rep r' t /\ groups_at r' t = unalloc (Z.to_nat k) (groups_at r t).
Proof.
  intros R Hk Hp. pose proof (cnts_small _ _ R). destruct R. pose proof (geo_cnt _ rep_geo0).
  unfold FXmacBdRingUnAlloc, truth. rewrite (proj2 (Z.eqb_neq _ _)) by done. simpl.
  rewrite (proj2 (Z.ltb_ge _ _)) by lia.
  eexists. split; [done|]. simpl. rewrite !wrap_small by lia. split.
  - constructor; simpl; try done; [solve_geo|lia|lia|].
    rewrite rep_free0, seekback_ok by (done || lia || by apply Z.mod_pos_bound).
    rewrite Zminus_mod_idemp_l. unfold bd_addr; simpl. do 3 f_equal. lia.
  - unfold groups_at, unalloc; simpl. rewrite seg_length.
    replace (Z.to_nat (pre_cnt r) - Z.to_nat k)%nat with (Z.to_nat (pre_cnt r - k)) by lia.
    rewrite seg_take, seg_drop by lia. f_equal.
    rewrite (Z.add_comm (free_cnt r)), seg_app by lia. f_equal; f_equal; lia.
Qed.

Lemma to_hw_refines r t k :
  ring_rep r t -> 0 <= k <= r.(pre_cnt) ->
  exists r', FXmacBdRingToHw r k r.(pre_head) = (FT_SUCCESS, r') /\
    ring_rep r' t /\ groups_at r' t = to_hw (Z.to_nat k) (groups_at r t).
Proof.
  intros R Hk. pose proof (cnts_small _ _ R). destruct R. pose proof (geo_cnt _ rep_geo0).
  unfold FXmacBdRingToHw. destruct (Z.eqb_spec 0 k) as [<-|Hne].
  - exists r. split; [done|]. split; [by constructor|].
    unfold to_hw, groups_at; simpl. by rewrite app_nil_r.
  - rewrite (proj2 (Z.ltb_ge _ _)), Z.eqb_refl by lia. simpl.
    eexists. split; [done|]. simpl. rewrite !wrap_small by lia. split.
    + constructor; simpl; try done; [solve_geo|lia|lia| |].
      * rewrite rep_pre0, seekahead_mod by (done || lia). unfold bd_addr; simpl.
        do 3 f_equal. lia.
      * rewrite rep_free0. unfold bd_addr; simpl. do 3 f_equal. lia.
    + unfold groups_at, to_hw; simpl.
      rewrite seg_take, seg_drop by lia. f_equal; [rewrite <-seg_app by lia; done|..];
        f_equal; lia.
Qed.

Lemma from_hw_refines r t k :
  ring_rep r t -> 0 < k <= r.(hw_cnt) ->
  exists r', from_hw_finish r k = (k, r.(hw_head), r') /\
    ring_rep r' t /\ groups_at r' t = from_hw (Z.to_nat k) (groups_at r t).
Proof.
  intros R Hk. pose proof (cnts_small _ _ R). destruct R. pose proof (geo_cnt _ rep_geo0).
  unfold from_hw_finish. rewrite (proj2 (Z.ltb_lt _ _)) by lia.
  eexists. split; [done|]. simpl. rewrite !wrap_small by lia. split.
  - constructor; simpl; try done; [solve_geo|lia|lia| | |].
    + change (FXMAC_RING_SEEKAHEAD _ (hw_head r) k)
        with (FXMAC_RING_SEEKAHEAD r (hw_head r) k).
      rewrite rep_hw0, seekahead_mod by (done || lia). unfold bd_addr; simpl.
      do 3 f_equal. lia.
    + rewrite rep_pre0. unfold bd_addr; simpl. do 3 f_equal. lia.
    + rewrite rep_free0. unfold bd_addr; simpl. do 3 f_equal. lia.
  - unfold groups_at, from_hw; simpl.
    rewrite seg_take, seg_drop by lia. f_equal; [rewrite <-seg_app by lia; done|..];
      f_equal; lia.
Qed.

Lemma free_refines r t k :
  ring_rep r t -> 0 <= k <= r.(post_cnt) ->
  exists r' t', FXmacBdRingFree r k r.(post_head) = (FT_SUCCESS, r') /\
    ring_rep r' t' /\ groups_at r' t' = free (Z.to_nat k) (groups_at r t).
Proof.
  intros R Hk. pose proof (cnts_small _ _ R). destruct R. pose proof (geo_cnt _ rep_geo0).
  unfold FXmacBdRingFree. destruct (Z.eqb_spec 0 k) as [<-|Hne].
  - exists r, t. split; [done|]. split; [by constructor|].
    unfold free, groups_at; simpl. by rewrite app_nil_r.
  - rewrite (proj2 (Z.ltb_ge _ _)), Z.eqb_refl by lia. simpl.
    eexists. exists ((t + k) mod all_cnt r). split; [done|].
    simpl. rewrite !wrap_small by lia. split.
    + constructor; simpl; try done.
      * solve_geo.
      * lia.
      * lia.
      * by apply Z.mod_pos_bound.
      * change (FXMAC_RING_SEEKAHEAD _ (post_head r) k)
          with (FXMAC_RING_SEEKAHEAD r (post_head r) k).
        rewrite rep_post0, seekahead_ok by (done || lia). done.
      * rewrite rep_hw0, Zplus_mod_idemp_l. unfold bd_addr; simpl. do 3 f_equal. lia.
      * rewrite rep_pre0, <-!Z.add_assoc, Zplus_mod_idemp_l. unfold bd_addr; simpl.
        do 3 f_equal. lia.
      * rewrite rep_free0, <-!Z.add_assoc, Zplus_mod_idemp_l. unfold bd_addr; simpl.
        do 3 f_equal. lia.
    + unfold groups_at, free; simpl. rewrite <-!Z.add_assoc.
      rewrite <-!(seg_mod _ ((t + k) mod all_cnt r + _)), !Zplus_mod_idemp_l, !seg_mod.
      rewrite seg_take, seg_drop by lia. f_equal; [f_equal; lia..|].
      rewrite seg_app by lia. f_equal; [f_equal; lia|].
      rewrite <-(seg_period _ t) by done. f_equal. lia.
Qed.

(** ** Creation *)
Record create_args_ok (phys virt al n : Z) : Prop := {
  args_align : FXMAC_DMABD_MINIMUM_ALIGNMENT <= al < 2 ^ 32;
  args_pow2 : Z.land (al - 1) al = 0;
  args_phys : phys mod al = 0;
  args_virt : 0 <= virt /\ virt mod al = 0;
  args_cnt : 0 < n;
  args_span : sizeof_FXmacBd * n < 2 ^ 32;
  args_top : virt + sizeof_FXmacBd * n <= 2 ^ ptr_w
}.

Lemma step_n_ok sep n p :
  0 <= sep -> 0 <= p -> p + sep * Z.of_nat n < 2 ^ ptr_w ->
  step_n sep n p = p + sep * Z.of_nat n.
Proof.
  intros Hs. revert p. induction n as [|n IH]; intros p Hp Hlt; simpl; [lia|].
  rewrite Nat2Z.inj_succ in *. rewrite wrap_small by nia. rewrite IH; nia.
Qed.

Lemma min_align_pos : 0 < FXMAC_DMABD_MINIMUM_ALIGNMENT.
Proof. destruct target_cases as [(_ & -> & _)|(_ & -> & _)]; lia. Qed.

(** A successful [FXmacBdRingCreate] yields a well-formed, stopped ring with
    all BDs free, having zeroed exactly the memory of the ring. *)
Theorem FXmacBdRingCreate_correct r m phys virt al n :
  create_args_ok phys virt al n ->
  exists r' m', FXmacBdRingCreate r m phys virt al n = (FT_SUCCESS, r', m') /\
    ring_rep r' 0 /\ groups_at r' 0 = mkGroups [] [] [] (seqZ 0 n) /\
    r'.(all_cnt) = n /\ r'.(base_bd_addr) = virt /\ r'.(phys_base_addr) = phys /\
    r'.(run_state) = FXMAC_DMA_SG_IS_STOPED /\
    (forall a, m' a = if (virt <=? a) && (a <? virt + sizeof_FXmacBd * n) then 0 else m a).
Proof.
  intros [Hal Hpow Hphys [Hv Hvirt] Hcnt Hspan Htop].
  pose proof target_facts as (Hs & Hw & Hp & Hq). pose proof min_align_pos.
  unfold FXmacBdRingCreate. simpl.
  rewrite (proj2 (Z.ltb_ge _ _)) by lia.
  rewrite (wrap_small 32 (al - 1)), Hpow, Hphys, Hvirt by lia. simpl. rewrite (proj2 (Z.eqb_neq n 0)) by lia.
  rewrite (wrap_small 32 (sizeof_FXmacBd * n)) by nia.
  assert (uptr (uptr (virt + sizeof_FXmacBd * n) - 1) = virt + sizeof_FXmacBd * n - 1) as ->.
  { rewrite wrap_sub_l. apply wrap_small. nia. }
  rewrite (proj2 (Z.ltb_ge _ _)) by nia.
  rewrite step_n_ok by nia. rewrite Z2Nat.id by lia.
  eexists _, _. split; [done|]. repeat split; simpl; try lia; try done.
  1: rewrite (wrap_small ptr_w (_ - _)), (wrap_small ptr_w), wrap_small; nia.
  1-4: unfold bd_addr; simpl; rewrite ?Z.mod_small; lia.
  - unfold groups_at; simpl. f_equal. unfold seg.
    rewrite <-(map_id (seqZ 0 n)) at 2. apply map_ext_in. intros i Hi.
    apply list_elem_of_In, elem_of_seqZ in Hi. rewrite Z.mod_small; lia.
Qed.

(** When an argument is refused, the result names the error and the ring is
    left empty, so that no BD can be allocated from it. *)
Theorem FXmacBdRingCreate_refused r m phys virt al n k :
  0 <= al < 2 ^ 32 -> 0 < k ->
  al < FXMAC_DMABD_MINIMUM_ALIGNMENT \/ Z.land (u32 (al - 1)) al <> 0 \/
    phys mod al <> 0 \/ virt mod al <> 0 \/ n = 0 ->
  exists r', FXmacBdRingCreate r m phys virt al n = (FXMAC_ERR_INVALID_PARAM, r', m) /\
    r'.(all_cnt) = 0 /\ FXmacBdRingAlloc r' k = (FXMAC_ERR_GENERAL, None, r').
Proof.
  intros Hal Hk Hbad. unfold FXmacBdRingCreate. simpl.
  eexists. split; [|split].
  - destruct (Z.ltb_spec al FXMAC_DMABD_MINIMUM_ALIGNMENT); [done|].
    unfold truth. destruct (Z.eqb_spec (Z.land (u32 (al - 1)) al) 0); simpl; [|done].
    destruct (Z.eqb_spec (phys mod al) 0); simpl; [|done].
    destruct (Z.eqb_spec (virt mod al) 0); simpl; [|done].
    destruct (Z.eqb_spec n 0); [done|]. exfalso.
    destruct Hbad as [|[|[|[|]]]]; (done || lia).
  - done.
  - unfold FXmacBdRingAlloc; simpl. by rewrite (proj2 (Z.ltb_lt _ _)).
Qed.

(** ** What the hardware has finished

    [hw_bd r j] is the [j]-th BD from the head of the hardware group. *)
Definition hw_bd (r : FXmacBdRing) (j : Z) : Z := next_n r (Z.to_nat j) r.(hw_head).

(** [c] BDs make up whole packets: all of them are done, the last one ends a
    packet, and no longer prefix of the first [limit] BDs is like that. *)
Definition whole_packets (finished ends : Z -> bool) (limit c : Z) : Prop :=
  0 <= c <= limit /\
  (forall i, 0 <= i < c -> finished i = true) /\
  (c = 0 \/ ends (c - 1) = true) /\
  (forall j, c < j <= limit -> (forall i, 0 <= i < j -> finished i = true) ->
     ends (j - 1) = false).

(** Both search loops, on the flags of the BDs alone: [j] BDs are done, the
    last [part] of them belong to a packet that has not ended. *)
Fixpoint scan (finished ends : Z -> bool) (n : nat) (j part : Z) : Z * Z :=
  match n with
  | O => (j, part)
  | S n =>
      if finished j then scan finished ends n (j + 1) (if ends j then 0 else part + 1)
      else (j, part)
  end.

Lemma scan_spec fin ends n j part c p :
  scan fin ends n j part = (c, p) ->
  0 <= part <= j ->
  (forall i, 0 <= i < j -> fin i = true) ->
  (j - part = 0 \/ ends (j - part - 1) = true) ->
  (forall k, j - part < k <= j -> ends (k - 1) = false) ->
  0 <= p <= c /\ j <= c <= j + Z.of_nat n /\ whole_packets fin ends (j + Z.of_nat n) (c - p).
Proof.
  revert j part. induction n as [|n IH]; intros j part Hr Hp Hf He Hn; simpl in Hr.
  - simplify_eq. split; [lia|]. split; [lia|]. repeat split; try lia; try done.
    + intros i Hi. apply Hf. lia.
    + intros k Hk _. apply Hn. lia.
  - destruct (fin j) eqn:Ej.
    + apply IH in Hr as (H1 & H2 & H3).
      * split; [done|]. split; [lia|]. by replace (j + Z.of_nat (S n))
          with (j + 1 + Z.of_nat n) by lia.
      * destruct (ends j); lia.
      * intros i Hi. destruct (Z.eqb_spec i j) as [->|]; [done|]. apply Hf. lia.
      * destruct (ends j) eqn:Ee; [right|].
        -- by replace (j + 1 - 0 - 1) with j by lia.
        -- destruct He as [He|He]; [left; lia|right]. rewrite <-He. f_equal. lia.
      * intros k Hk. destruct (Z.eqb_spec (k - 1) j) as [->|].
        -- destruct (ends j); [lia|done].
        -- destruct (ends j); [lia|]. apply Hn. lia.
    + simplify_eq. split; [lia|]. split; [lia|]. repeat split; try lia; try done.
      * intros i Hi. apply Hf. lia.
      * intros k Hk Hall. destruct (Z.leb_spec k c); [apply Hn; lia|].
        rewrite Hall in Ej by lia. done.
Qed.

Lemma hw_bd_next r j :
  0 <= j -> FXMAC_BD_RING_NEXT r (hw_bd r j) = hw_bd r (j + 1).
Proof.
  intros Hj. unfold hw_bd. replace (Z.to_nat (j + 1)) with (S (Z.to_nat j)) by lia.
  generalize (Z.to_nat j), (hw_head r). intros n. induction n as [|n IH]; intros p; simpl; [done|].
  by rewrite IH.
Qed.

Lemma hw_bd_addr r t j :
  ring_rep r t -> 0 <= j ->
  hw_bd r j = bd_addr r ((t + r.(post_cnt) + j) mod r.(all_cnt)).
Proof.
  intros [] Hj. pose proof (geo_cnt _ rep_geo0). unfold hw_bd. rewrite rep_hw0.
  rewrite next_n_ok by (done || by apply Z.mod_pos_bound).
  rewrite Z2Nat.id, Zplus_mod_idemp_l by done. done.
Qed.

Lemma hw_bd_nonnull r j : ring_ok r -> 0 < r.(base_bd_addr) -> 0 <= j -> truth (hw_bd r j) = true.
Proof.
  intros [t R] Hb Hj. rewrite (hw_bd_addr r t j R Hj). destruct R.
  pose proof (Z.mod_pos_bound (t + post_cnt r + j) (all_cnt r) (geo_cnt _ rep_geo0)).
  pose proof target_facts. unfold truth, bd_addr. apply negb_true_iff, Z.eqb_neq. nia.
Qed.

(** The flags of the [j]-th BD of the hardware group. *)
Definition rx_new (r : FXmacBdRing) (m : mem) (j : Z) : bool :=
  FXMAC_BD_IS_RX_NEW m (hw_bd r j).
Definition rx_eof (r : FXmacBdRing) (m : mem) (j : Z) : bool :=
  truth (Z.land (FXMAC_BD_READ m (hw_bd r j) FXMAC_BD_STAT_OFFSET) FXMAC_RXBUF_EOF_MASK).
Definition tx_used (r : FXmacBdRing) (m : mem) (j : Z) : bool :=
  truth (Z.land (FXMAC_BD_READ m (hw_bd r j) FXMAC_BD_STAT_OFFSET) FXMAC_TXBUF_USED_MASK).
Definition tx_last (r : FXmacBdRing) (m : mem) (j : Z) : bool :=
  truth (Z.land (FXMAC_BD_READ m (hw_bd r j) FXMAC_BD_STAT_OFFSET) FXMAC_TXBUF_LAST_MASK).

Lemma rx_loop_scan n r m str j part :
  ring_ok r -> 0 < r.(base_bd_addr) -> 0 <= part <= j -> j + Z.of_nat n < 2 ^ 32 ->
  rx_loop n r m (hw_bd r j) str j part = scan (rx_new r m) (rx_eof r m) n j part.
Proof.
  intros Hok Hb. revert str j part. induction n as [|n IH]; intros str j part Hp Hn; [done|].
  simpl. rewrite hw_bd_nonnull by (done || lia). unfold rx_new at 1.
  destruct (FXMAC_BD_IS_RX_NEW m (hw_bd r j)); simpl; [|done].
  fold (rx_eof r m j). rewrite hw_bd_next, !wrap_small by lia.
  apply IH; destruct (rx_eof r m j); lia.
Qed.

End RingFacts.
