(* ===== verification/BdRingProps.v ===== *)
(** Properties of the buffer-descriptor rings of [BdRing]: every call of the
    driver refines the specification on four FIFO lists, no descriptor is lost
    or duplicated, descriptors come back from the hardware in the order they
    were given, and what the code does beyond its documented promises. *)
From S2P Require Import Prelude BdRing.

Module RingSpec.
Import Ring Spec.
Section Calls.
Context `{T : BdTarget}.

(** The calls a driver makes on a ring that has been created.  [m] is the
    contents of the descriptors when the hardware group is inspected. *)
Inductive call :=
| CAlloc (num_bd : Z)
| CUnAlloc (num_bd bd_set_ptr : Z)
| CToHw (num_bd bd_set_ptr : Z)
| CFromHwTx (m : mem) (bd_limit : Z)
| CFromHwRx (m : mem) (bd_limit : Z)
| CFree (num_bd bd_set_ptr : Z).

(** The result of a call: its status, the pointer it stores and the ring.  Only
    the search loop of [FXmacBdRingFromHwTx] needs the fuel. *)
Definition exec (fuel : nat) (r : FXmacBdRing) (c : call)
    : res (Z * option Z * FXmacBdRing) :=
  match c with
  | CAlloc k => Ok (FXmacBdRingAlloc r k)
  | CUnAlloc k p => let! (st, r') := FXmacBdRingUnAlloc r k p in Ok (st, None, r')
  | CToHw k p => let '(st, r') := FXmacBdRingToHw r k p in Ok (st, None, r')
  | CFromHwTx m l =>
      let! (st, p, r') := FXmacBdRingFromHwTx fuel r m l in Ok (st, Some p, r')
  | CFromHwRx m l => let '(st, p, r') := FXmacBdRingFromHwRx r m l in Ok (st, Some p, r')
  | CFree k p => let '(st, r') := FXmacBdRingFree r k p in Ok (st, None, r')
  end.

(** The flags of the [j]-th BD of a list of BDs. *)
Definition flag (addr : Z -> Z) (test : Z -> bool) (l : list Z) (j : Z) : bool :=
  match l !! Z.to_nat j with
  | Some b => test (addr b)
  | None => false
  end.
Definition stat_bit (m : mem) (mask bd : Z) : bool :=
  truth (Z.land (FXMAC_BD_READ m bd FXMAC_BD_STAT_OFFSET) mask).

Definition len (l : list Z) : Z := Z.of_nat (length l).
Definition first_is (addr : Z -> Z) (p : Z) (l : list Z) : Prop :=
  exists b, head l = Some b /\ addr b = p.

(** What the comments of fxmac_bdring.c promise for each call, on the four
    lists; [addr] gives the address of a BD.  [FromHwTx] promises whole packets
    only when all the BDs it may look at are finished: see [ring_call_refines]. *)
Inductive spec_step (addr : Z -> Z) (g : groups) : call -> Z -> option Z -> groups -> Prop :=
| SAlloc k p : k <= len g.(g_free) -> first_is addr p g.(g_free) ->
    spec_step addr g (CAlloc k) FT_SUCCESS (Some p) (alloc (Z.to_nat k) g)
| SAlloc0 p : g.(g_free) = [] ->
    spec_step addr g (CAlloc 0) FT_SUCCESS (Some p) g
| SAllocErr k : len g.(g_free) < k ->
    spec_step addr g (CAlloc k) FXMAC_ERR_GENERAL None g
| SUnAlloc k p : k <= len g.(g_pre) ->
    spec_step addr g (CUnAlloc k p) FT_SUCCESS None (unalloc (Z.to_nat k) g)
| SUnAllocErr k p : len g.(g_pre) < k ->
    spec_step addr g (CUnAlloc k p) FXMAC_ERR_GENERAL None g
| SToHw0 p : spec_step addr g (CToHw 0 p) FT_SUCCESS None g
| SToHw k p : 0 < k <= len g.(g_pre) -> first_is addr p g.(g_pre) ->
    spec_step addr g (CToHw k p) FT_SUCCESS None (to_hw (Z.to_nat k) g)
| SToHwErr k p : 0 < k -> len g.(g_pre) < k \/ ~ first_is addr p g.(g_pre) ->
    spec_step addr g (CToHw k p) FXMAC_ERR_SG_LIST None g
| SFromHwTx m l c p :
    0 <= c <= l `min` len g.(g_hw) ->
    ((forall j, 0 <= j < l `min` len g.(g_hw) ->
        flag addr (stat_bit m FXMAC_TXBUF_USED_MASK) g.(g_hw) j = true) ->
     whole_packets (flag addr (stat_bit m FXMAC_TXBUF_USED_MASK) g.(g_hw))
       (flag addr (stat_bit m FXMAC_TXBUF_LAST_MASK) g.(g_hw)) (l `min` len g.(g_hw)) c) ->
    (c = 0 /\ p = 0) \/ (0 < c /\ first_is addr p g.(g_hw)) ->
    spec_step addr g (CFromHwTx m l) c (Some p) (from_hw (Z.to_nat c) g)
| SFromHwRx m l c p :
    whole_packets (flag addr (FXMAC_BD_IS_RX_NEW m) g.(g_hw))
      (flag addr (stat_bit m FXMAC_RXBUF_EOF_MASK) g.(g_hw)) (l `min` len g.(g_hw)) c ->
    (c = 0 /\ p = 0) \/ (0 < c /\ first_is addr p g.(g_hw)) ->
    spec_step addr g (CFromHwRx m l) c (Some p) (from_hw (Z.to_nat c) g)
| SFree0 p : spec_step addr g (CFree 0 p) FT_SUCCESS None g
| SFree k p : 0 < k <= len g.(g_post) -> first_is addr p g.(g_post) ->
    spec_step addr g (CFree k p) FT_SUCCESS None (free (Z.to_nat k) g)
| SFreeErr k p : 0 < k -> len g.(g_post) < k \/ ~ first_is addr p g.(g_post) ->
    spec_step addr g (CFree k p) FXMAC_ERR_SG_LIST None g.

(** The counts of a call are [u32] values. *)
Definition args_u32 (c : call) : Prop :=
  match c with
  | CAlloc k | CUnAlloc k _ | CToHw k _ | CFromHwTx _ k | CFromHwRx _ k | CFree k _ =>
      0 <= k < 2 ^ 32
  end.

(** The three kinds of call for which the code does not do what the comments
    promise.  [UnAlloc] asserts that its pointer is not null. *)
Definition null_pointer (c : call) : Prop :=
  match c with CUnAlloc _ p => p = 0 | _ => False end.

(** [FromHwTx] spins while it has BDs to look for and no BD of the ring is
    marked as finished. *)
Definition waits (r : FXmacBdRing) (c : call) : Prop :=
  match c with
  | CFromHwTx m l =>
      0 < l `min` r.(hw_cnt) /\ forall i, 0 <= i < r.(all_cnt) -> tx_used r m i = false
  | _ => False
  end.

(** [FromHwRx] does not look at [hw_cnt] in its loop: with a larger limit, and
    marks of received BDs that go on behind the hardware group up to the end
    of a packet, it overruns the group. *)
Definition overruns (r : FXmacBdRing) (c : call) : Prop :=
  match c with
  | CFromHwRx m l =>
      0 < r.(hw_cnt) /\
      exists j, r.(hw_cnt) < j <= l /\ (forall i, 0 <= i < j -> rx_new r m i = true) /\
        rx_eof r m (j - 1) = true
  | _ => False
  end.

(** Fuel with which a [FromHwTx] that does not spin returns: it finds one
    finished BD each time around the ring. *)
Definition enough_fuel (r : FXmacBdRing) (c : call) : nat :=
  match c with CFromHwTx _ l => Z.to_nat (r.(all_cnt) * l) | _ => 0 end.

(** Rings reached from a successful creation at [virt] by calls that return,
    none of which overruns the hardware group. *)
Inductive reachable (virt n : Z) : FXmacBdRing -> Prop :=
| reach_create r0 m0 phys al r m :
    create_args_ok phys virt al n -> 0 < virt ->
    FXmacBdRingCreate r0 m0 phys virt al n = (FT_SUCCESS, r, m) ->
    reachable virt n r
| reach_call r c fuel st p r' :
    reachable virt n r -> args_u32 c -> ~ overruns r c ->
    exec fuel r c = Ok (st, p, r') -> reachable virt n r'.

(** The [k] BDs from [p] on, in ring order. *)
Definition bd_list (r : FXmacBdRing) (p k : Z) : list Z :=
  map (fun i => next_n r i p) (seq 0 (Z.to_nat k)).

(** The BDs a call hands to the hardware, and those it takes back. *)
Definition given (r : FXmacBdRing) (c : call) (st : Z) : list Z :=
  match c with
  | CToHw k p => if st =? FT_SUCCESS then bd_list r p k else []
  | _ => []
  end.
Definition taken (r : FXmacBdRing) (c : call) (st : Z) (p : option Z) : list Z :=
  match c with
  | CFromHwTx _ _ | CFromHwRx _ _ => bd_list r (default 0 p) st
  | _ => []
  end.

(** A run of calls that return and do not overrun the hardware group, with all
    BDs given to and taken back from the hardware. *)
Inductive run : FXmacBdRing -> list Z -> list Z -> FXmacBdRing -> Prop :=
| run_nil r : run r [] [] r
| run_cons r c fuel st p r1 gs ts r2 :
    args_u32 c -> ~ overruns r c -> exec fuel r c = Ok (st, p, r1) -> run r1 gs ts r2 ->
    run r (given r c st ++ gs) (taken r c st p ++ ts) r2.
End Calls.
End RingSpec.

Section Refinement.
Import Ring Spec RingSpec.
Context `{T : BdTarget}.
Abbreviation uptr := (wrap ptr_w).

Lemma seg_lookup n s l i :
  0 <= i < l -> seg n s l !! Z.to_nat i = Some ((s + i) mod n).
Proof.
  intros Hi. unfold seg. apply list_lookup_fmap_Some.
  exists i. split; [done|]. apply lookup_seqZ. lia.
Qed.

Lemma seg_head n s l : 0 < l -> head (seg n s l) = Some (s mod n).
Proof.
  intros Hl. pose proof (seg_lookup n s l 0 ltac:(lia)) as H. rewrite Z.add_0_r in H.
  by destruct (seg n s l).
Qed.

Lemma len_seg n s l : 0 <= l -> len (seg n s l) = l.
Proof. intros. unfold len. rewrite seg_length. lia. Qed.

Lemma bd_addr_inj r i j : bd_addr r i = bd_addr r j -> i = j.
Proof. unfold bd_addr. pose proof target_facts. nia. Qed.

(** A segment starts at BD [s]: the test of the code on the head pointer. *)
Lemma first_is_seg r s l p :
  0 < l -> first_is (bd_addr r) p (seg r.(all_cnt) s l) <->
           p = bd_addr r (s mod r.(all_cnt)).
Proof.
  intros Hl. unfold first_is. rewrite seg_head by done. split.
  - by intros (b & [= <-] & ?).
  - intros ->. by eexists.
Qed.

Lemma whole_packets_ext f e f' e' L c :
  (forall i, 0 <= i < L -> f i = f' i /\ e i = e' i) ->
  whole_packets f e L c -> whole_packets f' e' L c.
Proof.
  intros Heq (Hc & Hf & He & Hmax). repeat split; try lia.
  - intros i Hi. rewrite <-(proj1 (Heq i ltac:(lia))). auto.
  - destruct (Z.eqb_spec c 0); [by left|right].
    rewrite <-(proj2 (Heq (c - 1) ltac:(lia))). by destruct He.
  - intros j Hj Hall. rewrite <-(proj2 (Heq (j - 1) ltac:(lia))). apply Hmax; [done|].
    intros i Hi. rewrite (proj1 (Heq i ltac:(lia))). auto.
Qed.

(** A count of whole packets stays one for a smaller limit. *)
Lemma whole_packets_clamp f e L L' c :
  c <= L' -> whole_packets f e L c -> whole_packets f e (L `min` L') c.
Proof.
  intros HL (Hc & Hf & He & Hmax). repeat split; try done; try lia.
  intros j Hj. apply Hmax. lia.
Qed.

(** The flags of the [j]-th BD of the hardware group, on both levels. *)
Lemma hw_flag r t test j :
  ring_rep r t -> 0 <= j < r.(hw_cnt) ->
  flag (bd_addr r) test (g_hw (groups_at r t)) j = test (hw_bd r j).
Proof.
  intros R Hj. unfold flag, groups_at; simpl.
  rewrite seg_lookup by done. by rewrite (hw_bd_addr r t j R) by lia.
Qed.

Lemma scan_whole fin ends n c p :
  scan fin ends n 0 0 = (c, p) ->
  0 <= p <= c /\ c <= Z.of_nat n /\ whole_packets fin ends (Z.of_nat n) (c - p).
Proof.
  intros Hs. destruct (scan_spec _ _ _ _ _ _ _ Hs) as (? & ? & Hw); try (intros; lia).
  rewrite Z.add_0_l in Hw. split_and!; (done || lia).
Qed.

(** The common end of both retrieval functions. *)
Lemma from_hw_finish_ok r t c :
  ring_rep r t -> 0 <= c <= r.(hw_cnt) ->
  exists p r', from_hw_finish r c = (c, p, r') /\ ring_rep r' t /\
    r'.(base_bd_addr) = r.(base_bd_addr) /\
    groups_at r' t = from_hw (Z.to_nat c) (groups_at r t) /\
    ((c = 0 /\ p = 0) \/ (0 < c /\ first_is (bd_addr r) p (g_hw (groups_at r t)))).
Proof.
  intros R Hc. destruct (Z.eqb_spec c 0) as [->|].
  - exists 0, r. split; [done|]. split; [done|]. split; [done|]. split; [|by left].
    unfold from_hw, groups_at; simpl. by rewrite app_nil_r.
  - destruct (from_hw_refines r t c R) as (r' & Hf & R' & Hg); [lia|].
    exists r.(hw_head), r'. split; [done|]. split; [done|]. split.
    { unfold from_hw_finish in Hf. rewrite (proj2 (Z.ltb_lt _ _)) in Hf by lia.
      by injection Hf as <-. }
    split; [done|]. right. split; [lia|]. unfold groups_at; simpl.
    apply first_is_seg; [lia|]. by destruct R.
Qed.

(** The result of a call, with the invariant of the ring after it. *)
Definition refines (fuel : nat) (r : FXmacBdRing) (t : Z) (c : call) : Prop :=
  exists st p r' t', exec fuel r c = Ok (st, p, r') /\ ring_rep r' t' /\
    r'.(base_bd_addr) = r.(base_bd_addr) /\ r'.(all_cnt) = r.(all_cnt) /\
    spec_step (bd_addr r) (groups_at r t) c st p (groups_at r' t').

Lemma same_groups fuel r t c st p :
  ring_rep r t -> exec fuel r c = Ok (st, p, r) ->
  spec_step (bd_addr r) (groups_at r t) c st p (groups_at r t) -> refines fuel r t c.
Proof. intros. by exists st, p, r, t. Qed.

Lemma alloc_call fuel r t k : ring_rep r t -> 0 <= k -> refines fuel r t (CAlloc k).
Proof.
  intros R Hk. pose proof R as []. destruct (Z.ltb_spec (free_cnt r) k) as [Hlt|Hge].
  - eapply same_groups; [done|simpl; unfold FXmacBdRingAlloc|].
    + by rewrite (proj2 (Z.ltb_lt _ _)).
    + apply SAllocErr. simpl. by rewrite len_seg by lia.
  - destruct (alloc_refines r t k R) as (r' & He & R' & Hg); [lia|].
    pose proof He as Hr. unfold FXmacBdRingAlloc in Hr.
    rewrite (proj2 (Z.ltb_ge _ _)) in Hr by lia. injection Hr as Hr.
    exists FT_SUCCESS, (Some (free_head r)), r', t. simpl. rewrite He, Hg.
    split; [done|]. split; [done|]. split; [by rewrite <-Hr|]. split; [by rewrite <-Hr|].
    destruct (Z.eqb_spec (free_cnt r) 0) as [H0|].
    + assert (k = 0) as -> by lia. unfold alloc, groups_at at 2 3 4 5 6; simpl.
      rewrite app_nil_r. rewrite drop_0. apply SAlloc0. unfold groups_at; simpl.
      by rewrite H0.
    + apply SAlloc; simpl; [by rewrite len_seg by lia|]. apply first_is_seg; [lia|done].
Qed.

Lemma unalloc_call fuel r t k p :
  ring_rep r t -> 0 <= k -> p <> 0 -> refines fuel r t (CUnAlloc k p).
Proof.
  intros R Hk Hp. pose proof R as []. destruct (Z.ltb_spec (pre_cnt r) k) as [Hlt|Hge].
  - eapply same_groups; [done|simpl; unfold FXmacBdRingUnAlloc, truth|].
    + by rewrite (proj2 (Z.eqb_neq _ _)), (proj2 (Z.ltb_lt _ _)).
    + apply SUnAllocErr. simpl. by rewrite len_seg by lia.
  - destruct (unalloc_refines r t k p R) as (r' & He & R' & Hg); [lia|done|].
    pose proof He as Hr. unfold FXmacBdRingUnAlloc, truth in Hr.
    rewrite (proj2 (Z.eqb_neq _ _)), (proj2 (Z.ltb_ge _ _)) in Hr by lia.
    injection Hr as Hr. exists FT_SUCCESS, None, r', t. simpl. rewrite He, Hg.
    split; [done|]. split; [done|]. split; [by rewrite <-Hr|]. split; [by rewrite <-Hr|].
    apply SUnAlloc. simpl. by rewrite len_seg by lia.
Qed.

(** The test of [ToHw] and [Free] that the caller is in step with the ring. *)
Lemma out_of_step r s cnt k p :
  0 <= cnt -> 0 < k ->
  (cnt <? k) || negb (bd_addr r (s mod r.(all_cnt)) =? p) = true <->
  len (seg r.(all_cnt) s cnt) < k \/ ~ first_is (bd_addr r) p (seg r.(all_cnt) s cnt).
Proof.
  intros Hc Hk. rewrite len_seg by done.
  rewrite orb_true_iff, Z.ltb_lt, negb_true_iff, Z.eqb_neq.
  destruct (Z.eqb_spec cnt 0); [lia|]. rewrite first_is_seg by lia.
  split; intros [|H]; auto.
Qed.

Lemma to_hw_call fuel r t k p : ring_rep r t -> 0 <= k -> refines fuel r t (CToHw k p).
Proof.
  intros R Hk. pose proof R as []. destruct (Z.eqb_spec k 0) as [->|].
  { eapply same_groups; [done|done|apply SToHw0]. }
  pose proof (out_of_step r (t + post_cnt r + hw_cnt r) (pre_cnt r) k p) as Hs.
  destruct (_ || _) eqn:Hb in Hs.
  - eapply same_groups; [done| |].
    + simpl. unfold FXmacBdRingToHw. rewrite (proj2 (Z.eqb_neq 0 k)) by lia.
      by rewrite rep_pre, Hb.
    + apply SToHwErr; [lia|]. apply Hs; [lia|lia|done].
  - pose proof Hb as Hb'. apply orb_false_iff in Hb' as [Hge Heq].
    apply Z.ltb_ge in Hge. apply negb_false_iff, Z.eqb_eq in Heq. subst p.
    rewrite <-rep_pre in *.
    destruct (to_hw_refines r t k R) as (r' & He & R' & Hg); [lia|].
    pose proof He as Hr. unfold FXmacBdRingToHw in Hr.
    rewrite (proj2 (Z.eqb_neq 0 k)), Hb in Hr by lia.
    injection Hr as Hr. exists FT_SUCCESS, None, r', t. simpl. rewrite He, Hg.
    split; [done|]. split; [done|]. split; [by rewrite <-Hr|]. split; [by rewrite <-Hr|].
    apply SToHw; simpl; [rewrite len_seg; lia|]. apply first_is_seg; [lia|done].
Qed.

Lemma free_call fuel r t k p : ring_rep r t -> 0 <= k -> refines fuel r t (CFree k p).
Proof.
  intros R Hk. pose proof R as []. destruct (Z.eqb_spec k 0) as [->|].
  { eapply same_groups; [done|done|apply SFree0]. }
  assert (Hp : post_head r = bd_addr r (t mod all_cnt r)) by by rewrite Z.mod_small.
  pose proof (out_of_step r t (post_cnt r) k p) as Hs.
  destruct (_ || _) eqn:Hb in Hs.
  - eapply same_groups; [done| |].
    + simpl. unfold FXmacBdRingFree. rewrite (proj2 (Z.eqb_neq 0 k)) by lia.
      by rewrite Hp, Hb.
    + apply SFreeErr; [lia|]. apply Hs; [lia|lia|done].
  - pose proof Hb as Hb'. apply orb_false_iff in Hb' as [Hge Heq].
    apply Z.ltb_ge in Hge. apply negb_false_iff, Z.eqb_eq in Heq. subst p.
    rewrite <-Hp in *.
    destruct (free_refines r t k R) as (r' & t' & He & R' & Hg); [lia|].
    pose proof He as Hr. unfold FXmacBdRingFree in Hr.
    rewrite (proj2 (Z.eqb_neq 0 k)), Hb in Hr by lia.
    injection Hr as Hr. exists FT_SUCCESS, None, r', t'. simpl. rewrite He, Hg.
    split; [done|]. split; [done|]. split; [by rewrite <-Hr|]. split; [by rewrite <-Hr|].
    apply SFree; simpl; [rewrite len_seg; lia|]. apply first_is_seg; [lia|done].
Qed.

(** What both retrieval calls do with the BDs their loop has counted. *)
Lemma from_hw_call fuel r t c k :
  ring_rep r t -> 0 <= k <= r.(hw_cnt) ->
  exec fuel r c = Ok (let '(st, p, r') := from_hw_finish r k in (st, Some p, r')) ->
  (forall p g',
     (k = 0 /\ p = 0) \/ (0 < k /\ first_is (bd_addr r) p (g_hw (groups_at r t))) ->
     g' = from_hw (Z.to_nat k) (groups_at r t) ->
     spec_step (bd_addr r) (groups_at r t) c k (Some p) g') ->
  refines fuel r t c.
Proof.
  intros R Hk Hex Hspec.
  destruct (from_hw_finish_ok r t k R Hk) as (p & r' & Hf & R' & Hbase & Hg & Hp).
  rewrite Hf in Hex. exists k, (Some p), r', t.
  split; [done|]. split; [done|]. split; [done|]. split; [|by apply Hspec].
  unfold from_hw_finish in Hf. destruct (_ <? _); by simplify_eq.
Qed.

(** The BDs [FromHwRx] counts: the whole packets at the head of the hardware
    group, which may reach past its end. *)
Lemma from_hw_rx_count fuel r m l :
  ring_ok r -> 0 < r.(base_bd_addr) -> 0 <= l < 2 ^ 32 -> 0 < r.(hw_cnt) ->
  exists k, whole_packets (rx_new r m) (rx_eof r m) l k /\
    exec fuel r (CFromHwRx m l) =
    Ok (let '(st, p, r') := from_hw_finish r k in (st, Some p, r')).
Proof.
  intros R Hb Hl Hh. simpl. unfold FXmacBdRingFromHwRx.
  rewrite (proj2 (Z.eqb_neq _ _)) by lia. change (hw_head r) with (hw_bd r 0).
  rewrite rx_loop_scan by (done || lia).
  destruct (scan _ _ _ _ _) as [a b] eqn:Hs.
  apply scan_whole in Hs as (? & ? & Hw). rewrite Z2Nat.id in * by lia.
  exists (a - b). split; [done|]. rewrite wrap_small by lia.
  by destruct (from_hw_finish _ _) as [[]].
Qed.

Lemma overruns_count r m l k :
  0 < r.(hw_cnt) -> whole_packets (rx_new r m) (rx_eof r m) l k ->
  overruns r (CFromHwRx m l) <-> r.(hw_cnt) < k.
Proof.
  intros Hh (Hk & Hf & He & Hmax). split.
  - intros (_ & j & Hj & Hnew & Heof). destruct (Z.leb_spec j k); [lia|].
    rewrite Hmax in Heof by (done || lia). done.
  - intros Hlt. split; [done|]. exists k. split; [lia|]. split; [done|].
    by destruct He; [lia|].
Qed.

Lemma from_hw_rx_call fuel r t m l :
  ring_rep r t -> 0 < r.(base_bd_addr) -> 0 <= l < 2 ^ 32 ->
  ~ overruns r (CFromHwRx m l) -> refines fuel r t (CFromHwRx m l).
Proof.
  intros R Hb Hl Hno. pose proof R as []. destruct (Z.eqb_spec r.(hw_cnt) 0) as [H0|].
  - apply (from_hw_call fuel r t _ 0); [done|lia| |].
    + simpl. unfold FXmacBdRingFromHwRx. by rewrite H0.
    + intros p g' Hp ->. apply SFromHwRx; [|done]. simpl. rewrite len_seg by lia.
      repeat split; (lia || by left).
  - destruct (from_hw_rx_count fuel r m l) as (k & Hw & He); [by exists t|lia..|].
    rewrite (overruns_count _ _ _ k) in Hno by (done || lia).
    apply (from_hw_call fuel r t _ k); [done|destruct Hw; lia|done|].
    intros p g' Hp ->. apply SFromHwRx; [|done]. simpl. rewrite len_seg by lia.
    eapply whole_packets_ext; [|apply (whole_packets_clamp _ _ _ r.(hw_cnt)); [lia|exact Hw]].
    intros i Hi. simpl. change (seg _ _ (hw_cnt r)) with (g_hw (groups_at r t)).
    by rewrite !(hw_flag r t) by (done || lia).
Qed.

Lemma from_hw_rx_overruns fuel r t m l :
  ring_rep r t -> 0 < r.(base_bd_addr) -> 0 <= l < 2 ^ 32 -> overruns r (CFromHwRx m l) ->
  exists st p r', exec fuel r (CFromHwRx m l) = Ok (st, p, r') /\
    r.(hw_cnt) < st <= l /\ r'.(hw_cnt) = r.(hw_cnt) - st + 2 ^ 32.
Proof.
  intros R Hb Hl Hov. pose proof (cnts_small _ _ R). assert (0 < r.(hw_cnt)) by apply Hov.
  destruct (from_hw_rx_count fuel r m l) as (k & Hw & ->); [by exists t|lia..|].
  rewrite (overruns_count _ _ _ k) in Hov by done. pose proof (proj1 Hw).
  unfold from_hw_finish. rewrite (proj2 (Z.ltb_lt _ _)) by lia.
  eexists _, _, _. split; [done|]. split; [lia|]. simpl. apply wrap_below. lia.
Qed.

(** *** The transmit side *)

(** The marks repeat every time around the ring. *)
Lemma tx_used_mod r t m j :
  ring_rep r t -> 0 <= j -> tx_used r m (j mod r.(all_cnt)) = tx_used r m j.
Proof.
  intros R Hj. pose proof R as []. pose proof (geo_cnt _ rep_geo).
  unfold tx_used. rewrite !(hw_bd_addr r t)
    by (done || by apply Z.mod_pos_bound). by rewrite Zplus_mod_idemp_r.
Qed.

(** The loop up to and including the next finished BD, [d] BDs further on. *)
Lemma tx_loop_next r m limit d fuel j str a b :
  ring_ok r -> 0 < r.(base_bd_addr) -> 0 <= j -> 0 <= b <= a -> a < limit < 2 ^ 32 ->
  tx_used r m (j + Z.of_nat d) = true -> (d < fuel)%nat ->
  exists fuel' j' str' b', (fuel <= fuel' + S d)%nat /\ j <= j' /\ 0 <= b' <= a + 1 /\
    tx_loop fuel r m limit (hw_bd r j) str a b =
    tx_loop fuel' r m limit (hw_bd r j') str' (a + 1) b'.
Proof.
  intros R Hbase. revert fuel j str b.
  induction d as [|d IH]; intros [|fuel] j str b Hj Hb Hl Hu Hf; try lia; cbn [tx_loop].
  all: rewrite (proj2 (Z.ltb_lt _ _)), hw_bd_nonnull by (done || lia); fold (tx_used r m j).
  all: rewrite hw_bd_next by done.
  - rewrite Z.add_0_r in Hu. rewrite Hu, !wrap_small by lia.
    eexists fuel, (j + 1), _, _. split; [lia|]. split; [lia|]. split; [|reflexivity].
    destruct (truth _); lia.
  - destruct (tx_used r m j).
    + rewrite !wrap_small by lia. eexists fuel, (j + 1), _, _.
      split; [lia|]. split; [lia|]. split; [|reflexivity]. destruct (truth _); lia.
    + match goal with |- context [tx_loop fuel r m limit _ ?s a ?bb] =>
        destruct (IH fuel (j + 1) s bb) as (fuel' & j' & str' & b' & ? & ? & ? & Heq) end;
        [lia|destruct (truth _); lia|lia| |lia|].
      { by replace (j + 1 + Z.of_nat d) with (j + Z.of_nat (S d)) by lia. }
      exists fuel', j', str', b'. split; [lia|]. split; [lia|]. by split.
Qed.

(** As long as one BD of the ring is finished, the loop returns. *)
Lemma tx_loop_returns r t m i limit k fuel j str a b :
  ring_rep r t -> 0 < r.(base_bd_addr) -> 0 <= i < r.(all_cnt) -> tx_used r m i = true ->
  0 <= j -> 0 <= b <= a -> a + Z.of_nat k = limit -> limit < 2 ^ 32 ->
  (k * Z.to_nat r.(all_cnt) <= fuel)%nat ->
  exists x, tx_loop fuel r m limit (hw_bd r j) str a b = Ok x.
Proof.
  intros R Hbase Hi Hu. pose proof (geo_cnt _ (rep_geo _ _ R)) as Hn.
  revert fuel j str a b. induction k as [|k IH]; intros fuel j str a b Hj Hb Hk Hl Hf.
  { destruct fuel; simpl; rewrite (proj2 (Z.ltb_ge _ _)) by lia; by eexists. }
  set (d := (i - j) mod r.(all_cnt)).
  assert (0 <= d < r.(all_cnt)) by by apply Z.mod_pos_bound.
  destruct (tx_loop_next r m limit (Z.to_nat d) fuel j str a b)
    as (fuel' & j' & str' & b' & ? & ? & ? & ->); [by exists t|lia..| |lia|].
  - rewrite Z2Nat.id by lia. rewrite <-(tx_used_mod r t) by (done || lia).
    unfold d. rewrite Zplus_mod_idemp_r. replace (j + (i - j)) with i by lia.
    by rewrite Z.mod_small.
  - apply IH; (lia || nia).
Qed.

(** What the loop returns: it counts up to the limit; when every BD it looks
    at is finished, the partial count is that of the [scan]. *)
Lemma tx_loop_Ok fuel r m limit j str a b x y :
  ring_ok r -> 0 < r.(base_bd_addr) -> 0 <= j -> 0 <= b <= a -> a <= limit < 2 ^ 32 ->
  tx_loop fuel r m limit (hw_bd r j) str a b = Ok (x, y) ->
  x = limit /\ 0 <= y <= limit /\
  (j = a -> (forall i, 0 <= i < limit -> tx_used r m i = true) ->
   scan (tx_used r m) (tx_last r m) (Z.to_nat (limit - a)) a b = (x, y)).
Proof.
  intros R Hbase. revert j str a b.
  induction fuel as [|fuel IH]; intros j str a b Hj Hb Hl; cbn [tx_loop];
    destruct (Z.ltb_spec a limit); try done.
  1, 3: intros [= <- <-]; assert (a = limit) by lia; split_and!; try lia;
    by intros _ _; replace (Z.to_nat (limit - a)) with O by lia.
  rewrite hw_bd_nonnull by (done || lia). fold (tx_used r m j). fold (tx_last r m j).
  rewrite hw_bd_next by done. intros He.
  destruct (tx_used r m j) eqn:Hu; rewrite ?wrap_small in He by lia.
  - apply IH in He as (Hx & Hy & Hs); [|lia|destruct (tx_last r m j); lia|lia].
    split; [done|]. split; [done|]. intros Ej Hall.
    replace (Z.to_nat (limit - a)) with (S (Z.to_nat (limit - (a + 1)))) by lia.
    cbn [scan]. subst j. rewrite Hu. apply Hs; [done|exact Hall].
  - apply IH in He as (Hx & Hy & _); [|lia|destruct (tx_last r m j); lia|lia].
    split; [done|]. split; [done|]. intros Ej Hall. rewrite Hall in Hu by lia. done.
Qed.

Lemma tx_limit l h : (if h <? l then h else l) = l `min` h.
Proof. destruct (Z.ltb_spec h l); lia. Qed.

Lemma from_hw_tx_call fuel r t m l x :
  ring_rep r t -> 0 < r.(base_bd_addr) -> 0 <= l < 2 ^ 32 ->
  exec fuel r (CFromHwTx m l) = Ok x -> refines fuel r t (CFromHwTx m l).
Proof.
  intros R Hb Hl Hx. pose proof R as []. pose proof (cnts_small _ _ R).
  simpl in Hx. unfold FXmacBdRingFromHwTx in Hx. destruct (Z.eqb_spec r.(hw_cnt) 0) as [H0|].
  { apply (from_hw_call fuel r t _ 0); [done|lia| |].
    - simpl. unfold FXmacBdRingFromHwTx. by rewrite H0.
    - intros p g' Hp ->. apply SFromHwTx; [simpl; rewrite len_seg; lia| |done].
      simpl. rewrite len_seg by lia. intros _. repeat split; (lia || by left). }
  rewrite tx_limit in Hx. change (hw_head r) with (hw_bd r 0) in Hx.
  destruct (tx_loop _ _ _ _ _ _ _ _) as [[a b]|] eqn:Hloop; [|done]. clear Hx x.
  pose proof Hloop as Hr. apply tx_loop_Ok in Hr as (-> & Hy & Hs); [|by exists t|lia..].
  apply (from_hw_call fuel r t _ (l `min` hw_cnt r - b)); [done|lia| |].
  - simpl. unfold FXmacBdRingFromHwTx. rewrite (proj2 (Z.eqb_neq _ _)) by done.
    rewrite tx_limit. change (hw_head r) with (hw_bd r 0). rewrite Hloop. simpl.
    rewrite wrap_small by lia. by destruct (from_hw_finish _ _) as [[]].
  - intros p g' Hp ->. apply SFromHwTx; [simpl; rewrite len_seg; lia| |done].
    simpl. rewrite len_seg by lia. change (seg _ _ (hw_cnt r)) with (g_hw (groups_at r t)).
    intros Hall. specialize (Hs eq_refl). rewrite Z.sub_0_r in Hs.
    apply scan_whole in Hs as (_ & _ & Hw).
    + rewrite Z2Nat.id in Hw by lia. eapply whole_packets_ext; [|exact Hw].
      intros i Hi. by rewrite !(hw_flag r t) by (done || lia).
    + intros i Hi. specialize (Hall i Hi). by rewrite (hw_flag r t) in Hall by (done || lia).
Qed.

Lemma from_hw_tx_returns fuel r t m l :
  ring_rep r t -> 0 < r.(base_bd_addr) -> 0 <= l < 2 ^ 32 ->
  ~ waits r (CFromHwTx m l) -> (Z.to_nat (r.(all_cnt) * l) <= fuel)%nat ->
  exists x, exec fuel r (CFromHwTx m l) = Ok x.
Proof.
  intros R Hb Hl Hw Hf. pose proof R as []. pose proof (cnts_small _ _ R).
  pose proof (geo_cnt _ rep_geo). simpl. unfold FXmacBdRingFromHwTx.
  destruct (Z.eqb_spec r.(hw_cnt) 0); [by eexists|]. rewrite tx_limit.
  change (hw_head r) with (hw_bd r 0).
  assert (exists y, tx_loop fuel r m (l `min` hw_cnt r) (hw_bd r 0) 0 0 0 = Ok y)
    as [[a b] ->].
  { destruct (decide (l `min` hw_cnt r = 0)) as [->|].
    { destruct fuel; by eexists. }
    destruct (decide (Forall (fun i => tx_used r m i = false) (seqZ 0 r.(all_cnt))))
      as [Hall|Hex].
    { destruct Hw. split; [lia|]. intros i Hi. rewrite Forall_forall in Hall.
      apply Hall, list_elem_of_In, elem_of_seqZ. lia. }
    apply not_Forall_Exists in Hex; [|intros i; apply _].
    apply Exists_exists in Hex as (i & Hi%list_elem_of_In%elem_of_seqZ & Hu).
    apply not_false_iff_true in Hu.
    apply (tx_loop_returns r t m i _ (Z.to_nat (l `min` hw_cnt r))); (done || lia || nia). }
  simpl. destruct (from_hw_finish _ _) as [[p st] r']. by eexists.
Qed.

Lemma tx_loop_stuck fuel r t m limit j str :
  ring_rep r t -> 0 < r.(base_bd_addr) -> 0 <= j -> 0 < limit ->
  (forall i, 0 <= i < r.(all_cnt) -> tx_used r m i = false) ->
  tx_loop fuel r m limit (hw_bd r j) str 0 0 = Fault OutOfFuel.
Proof.
  intros R Hb Hj Hl Hu. revert j str Hj.
  induction fuel as [|fuel IH]; intros j str Hj; cbn [tx_loop];
    rewrite (proj2 (Z.ltb_lt _ _)) by lia; [done|].
  rewrite hw_bd_nonnull by (done || by exists t).
  fold (tx_used r m j). rewrite <-(tx_used_mod r t) by done.
  rewrite Hu by (apply Z.mod_pos_bound, (geo_cnt _ (rep_geo _ _ R))).
  rewrite hw_bd_next by done. destruct (truth _); apply IH; lia.
Qed.

Lemma from_hw_tx_waits fuel r t c :
  ring_rep r t -> 0 < r.(base_bd_addr) -> waits r c -> exec fuel r c = Fault OutOfFuel.
Proof.
  intros R Hb Hw. destruct c as [| | |m l| |]; try done. destruct Hw as [Hl Hu].
  pose proof R as []. simpl. unfold FXmacBdRingFromHwTx.
  rewrite (proj2 (Z.eqb_neq _ _)), tx_limit by lia. change (hw_head r) with (hw_bd r 0).
  by rewrite (tx_loop_stuck fuel r t) by done.
Qed.

(** *** Any call *)
Lemma call_refines fuel r t c x :
  ring_rep r t -> 0 < r.(base_bd_addr) -> args_u32 c -> ~ overruns r c ->
  exec fuel r c = Ok x -> refines fuel r t c.
Proof.
  intros R Hb Hc Hno Hx. destruct c as [k|k p|k p|m l|m l|k p]; simpl in Hc.
  - apply alloc_call; (done || lia).
  - apply unalloc_call; [done|lia|]. intros ->. done.
  - apply to_hw_call; (done || lia).
  - by eapply from_hw_tx_call.
  - by apply from_hw_rx_call.
  - apply free_call; (done || lia).
Qed.

Lemma call_returns fuel r t c :
  ring_rep r t -> 0 < r.(base_bd_addr) -> args_u32 c -> ~ null_pointer c -> ~ waits r c ->
  (enough_fuel r c <= fuel)%nat -> exists x, exec fuel r c = Ok x.
Proof.
  intros R Hb Hc Hp Hw Hf. destruct c as [k|k p|k p|m l|m l|k p]; simpl in *.
  - by eexists.
  - unfold FXmacBdRingUnAlloc, truth. rewrite (proj2 (Z.eqb_neq _ _)) by done. simpl.
    destruct (_ <? _); by eexists.
  - destruct (FXmacBdRingToHw _ _ _). by eexists.
  - by apply (from_hw_tx_returns fuel r t m l).
  - destruct (FXmacBdRingFromHwRx _ _ _) as [[]]. by eexists.
  - destruct (FXmacBdRingFree _ _ _). by eexists.
Qed.

Lemma bd_list_seg r s k :
  geometry r -> 0 <= k ->
  bd_list r (bd_addr r (s mod r.(all_cnt))) k = map (bd_addr r) (seg r.(all_cnt) s k).
Proof.
  intros G Hk. unfold bd_list, seg, seqZ. rewrite !map_map.
  apply map_ext. intros i. rewrite next_n_ok by
    (done || apply Z.mod_pos_bound, (geo_cnt _ G)).
  rewrite Zplus_mod_idemp_l. do 2 f_equal. lia.
Qed.

Lemma from_hw_split k g : g_hw g = take k (g_hw g) ++ g_hw (from_hw k g).
Proof. simpl. by rewrite take_drop. Qed.

(** The hardware group is a queue: one call. *)
Lemma hw_queue_step r t c st p g' :
  ring_rep r t -> spec_step (bd_addr r) (groups_at r t) c st p g' ->
  map (bd_addr r) (g_hw (groups_at r t)) ++ given r c st =
  taken r c st p ++ map (bd_addr r) (g_hw g').
Proof.
  intros R Hs. pose proof R as [].
  assert (Hfrom : forall k q, k <= len (g_hw (groups_at r t)) ->
    (k = 0 /\ q = 0) \/ (0 < k /\ first_is (bd_addr r) q (g_hw (groups_at r t))) ->
    map (bd_addr r) (g_hw (groups_at r t)) =
    bd_list r q k ++ map (bd_addr r) (g_hw (from_hw (Z.to_nat k) (groups_at r t)))).
  { intros k q Hk. simpl in *. rewrite len_seg in Hk by lia. intros [[-> ->]|[Hpos Hq]].
    - done.
    - apply first_is_seg in Hq as ->; [|lia]. rewrite bd_list_seg, <-map_app by (done || lia).
      by rewrite <-(seg_take _ _ r.(hw_cnt) k), take_drop by lia. }
  inversion Hs; subst; simpl given; simpl taken; rewrite ?app_nil_r; try done.
  - simpl in *. rewrite len_seg in * by lia. apply first_is_seg in H0 as ->; [|lia].
    by rewrite bd_list_seg, seg_take, map_app by (done || lia).
  - apply Hfrom; [lia|done].
  - apply Hfrom; [|done]. destruct H as [? _]. lia.
Qed.

Lemma bd_addr_same r r' :
  r'.(base_bd_addr) = r.(base_bd_addr) -> bd_addr r' = bd_addr r.
Proof. intros H. unfold bd_addr. by rewrite H. Qed.

Lemma hw_bd_list r t :
  ring_rep r t -> bd_list r r.(hw_head) r.(hw_cnt) = map (bd_addr r) (g_hw (groups_at r t)).
Proof. intros []. rewrite rep_hw. by rewrite bd_list_seg by (done || lia). Qed.

Lemma reachable_ok virt n r :
  reachable virt n r ->
  (exists t, ring_rep r t) /\ r.(base_bd_addr) = virt /\ r.(all_cnt) = n /\ 0 < virt.
Proof.
  induction 1 as [r0 m0 phys al r m Ha Hv Hc|r c fuel st p r' _ IH Hc Hno He].
  - destruct (FXmacBdRingCreate_correct r0 m0 phys virt al n Ha)
      as (r' & m' & Hc' & R & _ & Hn & Hb & _ & _).
    rewrite Hc' in Hc. simplify_eq. by repeat split; [exists 0|..].
  - destruct IH as ((t & R) & Hb & Hn & Hv).
    pose proof He as Hx.
    apply (call_refines fuel r t c) in Hx as (st' & p' & r'' & t' & He' & R' & Hb' & Hn' & _);
      [|done|lia|done|done]. rewrite He' in He. simplify_eq.
    split; [by exists t'|]. split; [congruence|]. split; [congruence|lia].
Qed.

Lemma seg_NoDup n s l : 0 <= l <= n -> NoDup (seg n s l).
Proof.
  intros Hl. apply NoDup_fmap_2_strong; [|apply NoDup_seqZ].
  intros i j Hi Hj Heq. apply elem_of_seqZ in Hi, Hj.
  pose proof (Z.div_mod (s + i) n ltac:(lia)). pose proof (Z.div_mod (s + j) n ltac:(lia)).
  assert (i - j = n * ((s + i) / n - (s + j) / n)) by lia.
  assert ((s + i) / n - (s + j) / n = 0) by nia. lia.
Qed.

Lemma seg_all n s : 0 < n -> Permutation (seg n s n) (seqZ 0 n).
Proof.
  intros Hn. apply submseteq_length_Permutation.
  - apply NoDup_submseteq; [apply seg_NoDup; lia|]. intros x.
    intros (i & <- & _)%list_elem_of_In%in_map_iff. apply elem_of_seqZ.
    by apply Z.mod_pos_bound.
  - by rewrite seg_length, length_seqZ.
Qed.

Lemma all_bds_seg r t : ring_rep r t -> all_bds (groups_at r t) = seg r.(all_cnt) t r.(all_cnt).
Proof.
  intros []. unfold all_bds, groups_at; simpl.
  by rewrite <-!seg_app, <-rep_sum, !Z.add_assoc by lia.
Qed.
End Refinement.

Section Main.
Import Ring Spec RingSpec.
Context `{T : BdTarget}.

(** C1: What every call on a well-formed ring does, for arguments that are [u32]
    counts.  [UnAlloc] of a null pointer fails its assertion.  [FromHwTx] never
    returns while it has BDs to look for and none of the ring is marked as
    finished.  [FromHwRx] with a limit above [hw_cnt], over a ring in which the
    marks of received BDs go on behind the hardware group to the end of a
    packet, returns more BDs than the group has and wraps [hw_cnt] around.
    Every other call returns and does what the comments of fxmac_bdring.c
    promise: it refines the specification step on the four FIFO lists, in the
    success and in the error cases, and leaves a well-formed ring over the same
    descriptors.  [FromHwTx] returns whole packets when all BDs it may look at
    are finished; when one of them is not, only the number of BDs is bounded
    (it goes on around the ring, and unfinished BDs are handed back). *)
Theorem ring_call_refines r t c fuel :
  ring_rep r t -> 0 < r.(base_bd_addr) -> args_u32 c ->
  (null_pointer c -> exec fuel r c = Fault AssertFailed) /\
  (waits r c -> exec fuel r c = Fault OutOfFuel) /\
  (overruns r c -> exists st p r', exec fuel r c = Ok (st, p, r') /\
     r.(hw_cnt) < st /\ r'.(hw_cnt) = r.(hw_cnt) - st + 2 ^ 32) /\
  (~ null_pointer c -> ~ waits r c -> ~ overruns r c -> (enough_fuel r c <= fuel)%nat ->
   exists st p r' t', exec fuel r c = Ok (st, p, r') /\ ring_rep r' t' /\
     r'.(base_bd_addr) = r.(base_bd_addr) /\ r'.(all_cnt) = r.(all_cnt) /\
     spec_step (bd_addr r) (groups_at r t) c st p (groups_at r' t')).
Proof.
  intros R Hb Hc. split_and!.
  - destruct c; try done. intros ->. done.
  - by apply (from_hw_tx_waits fuel r t).
  - intros Hov. destruct c as [| | | |m l|]; try done.
    destruct (from_hw_rx_overruns fuel r t m l R Hb Hc Hov) as (st & p & r' & ? & ? & ?).
    exists st, p, r'. split_and!; (done || lia).
  - intros Hp Hw Hno Hf. destruct (call_returns fuel r t c) as [x Hx]; try done.
    by apply (call_refines fuel r t c x).
Qed.

(** C2: No BD is ever lost or duplicated: in every ring reached from a successful
    creation by calls that return, finished or unfinished BDs in the hardware
    group alike, and that do not overrun the hardware group on the receive side
    ([overruns], see C1), the four groups are a permutation of the BDs 0 .. n-1, their
    lengths are the four counters, and each head pointer is the address of the
    first BD of its group. *)
Theorem ring_partition virt n r :
  reachable virt n r ->
  exists g, Permutation (all_bds g) (seqZ 0 n) /\
    len g.(g_post) = r.(post_cnt) /\ len g.(g_hw) = r.(hw_cnt) /\
    len g.(g_pre) = r.(pre_cnt) /\ len g.(g_free) = r.(free_cnt) /\
    map (fun b => virt + sizeof_FXmacBd * b) g.(g_post) = bd_list r r.(post_head) r.(post_cnt) /\
    map (fun b => virt + sizeof_FXmacBd * b) g.(g_hw) = bd_list r r.(hw_head) r.(hw_cnt) /\
    map (fun b => virt + sizeof_FXmacBd * b) g.(g_pre) = bd_list r r.(pre_head) r.(pre_cnt) /\
    map (fun b => virt + sizeof_FXmacBd * b) g.(g_free) = bd_list r r.(free_head) r.(free_cnt).
Proof.
  intros Hr. apply reachable_ok in Hr as ((t & R) & <- & <- & Hv).
  exists (groups_at r t). rewrite (all_bds_seg r t R). pose proof R as [].
  split; [apply seg_all, (geo_cnt _ rep_geo)|]. fold (bd_addr r).
  assert (post_head r = bd_addr r (t mod all_cnt r)) as -> by by rewrite Z.mod_small.
  rewrite rep_hw, rep_pre, rep_free.
  rewrite !bd_list_seg by (done || lia). unfold groups_at; simpl.
  rewrite !len_seg by lia. done.
Qed.

(** C3: The hardware group is a queue: along any run of calls that return and do
    not overrun the hardware group on the receive side ([overruns], see C1), the
    BDs given to the hardware come back in the order they were given, each
    exactly once; those not yet back are the hardware group. *)
Theorem ring_fifo virt n r gs ts r' :
  reachable virt n r -> run r gs ts r' ->
  bd_list r r.(hw_head) r.(hw_cnt) ++ gs = ts ++ bd_list r' r'.(hw_head) r'.(hw_cnt).
Proof.
  intros Hr Hrun. induction Hrun as [r|r c fuel st p r1 gs ts r2 Hc Hno He Hrun IH].
  { by rewrite app_nil_r. }
  specialize (IH (reach_call _ _ _ _ _ _ _ _ Hr Hc Hno He)).
  apply reachable_ok in Hr as ((t & R) & <- & <- & Hv).
  destruct (call_refines fuel r t c _ R Hv Hc Hno He)
    as (st' & p' & r'' & t' & He' & R' & Hb' & Hn' & Hs).
  rewrite He' in He. simplify_eq. apply hw_queue_step in Hs; [|done].
  rewrite <-(hw_bd_list r t R), <-(bd_addr_same _ _ Hb'), <-(hw_bd_list r1 t' R') in Hs.
  by rewrite app_assoc, Hs, <-app_assoc, IH, app_assoc.
Qed.
End Main.

Section Limits.
Import Ring Spec RingSpec.
Context `{T : BdTarget}.
Abbreviation uptr := (wrap ptr_w).

(** [FXmacBdRingFromHwTx] does not return while the hardware still owns every
    BD of the ring: the loop is left only when enough finished BDs have been
    counted, not at the first BD that is not finished. *)
Theorem FXmacBdRingFromHwTx_busy_waits fuel r t m limit :
  ring_rep r t -> 0 < r.(base_bd_addr) -> 0 < r.(hw_cnt) -> 0 < limit ->
  (forall i, 0 <= i < r.(all_cnt) -> tx_used r m i = false) ->
  FXmacBdRingFromHwTx fuel r m limit = Fault OutOfFuel.
Proof.
  intros R Hb Hh Hl Hu. pose proof (from_hw_tx_waits fuel r t (CFromHwTx m limit) R Hb) as H.
  assert (Hm : 0 < limit `min` r.(hw_cnt)) by lia. specialize (H (conj Hm Hu)). simpl in H.
  destruct (FXmacBdRingFromHwTx _ _ _ _) as [[[]]|]; simpl in H; congruence.
Qed.

(** [FXmacBdRingToHw] leaves [hw_tail] one BD behind the group it enqueued: at
    the new [pre_head]. *)
Theorem FXmacBdRingToHw_tail r t k :
  ring_rep r t -> 0 < k <= r.(pre_cnt) ->
  exists r', FXmacBdRingToHw r k r.(pre_head) = (FT_SUCCESS, r') /\
    r'.(hw_tail) = r'.(pre_head) /\ hw_bd r' r'.(hw_cnt) = r'.(hw_tail).
Proof.
  intros R Hk. pose proof (cnts_small _ _ R). pose proof R as [].
  destruct (to_hw_refines r t k R) as (r' & He & R' & _); [lia|].
  pose proof He as Hr. unfold FXmacBdRingToHw in Hr.
  rewrite (proj2 (Z.eqb_neq 0 k)), (proj2 (Z.ltb_ge _ _)), Z.eqb_refl in Hr by lia.
  injection Hr as Hr. exists r'. split; [done|].
  assert (Ht : hw_tail r' = pre_head r').
  { rewrite <-Hr. simpl. rewrite rep_pre, next_n_ok, seekahead_ok
      by (done || lia || apply Z.mod_pos_bound, (geo_cnt _ rep_geo)).
    by rewrite Z2Nat.id by lia. }
  split; [done|]. rewrite Ht. rewrite (hw_bd_addr r' t) by (done || (destruct R'; lia)).
  by destruct R'.
Qed.

(** The links [FXmacBdRingCheck] verifies are never written by
    [FXmacBdRingCreate], so a freshly created ring of two or more BDs never
    passes the check. *)
Theorem FXmacBdRingCheck_created r m phys virt al n dir :
  create_args_ok phys virt al n -> 2 <= n -> dir = FXMAC_SEND \/ dir = FXMAC_RECV ->
  uptr (phys + sizeof_FXmacBd) <> 0 ->
  exists r' m', FXmacBdRingCreate r m phys virt al n = (FT_SUCCESS, r', m') /\
    FXmacBdRingCheck r' m' dir = FXMAC_ERR_SG_LIST.
Proof.
  intros Ha Hn Hd Hp. pose proof target_facts as (Hs & Hw & Hpw & Hq).
  destruct (FXmacBdRingCreate_correct r m phys virt al n Ha)
    as (r' & m' & Hc & R & _ & Hall & Hbase & Hphys & Hrun & Hmem).
  exists r', m'. split; [done|]. pose proof R as []. unfold FXmacBdRingCheck.
  assert (Hsep : r'.(separation) = sizeof_FXmacBd) by by destruct rep_geo.
  assert (link_loop (Z.to_nat (n - 1)) r' m' virt (uptr (phys + sizeof_FXmacBd)) = None) as Hlink.
  { replace (Z.to_nat (n - 1)) with (S (Z.to_nat (n - 2))) by lia. cbn [link_loop].
    unfold FXMAC_BD_READ, FXMAC_BD_ADDR_OFFSET. destruct Ha.
    rewrite Z.add_0_r, (wrap_small ptr_w virt) by nia. rewrite Hmem.
    rewrite (proj2 (Z.leb_le _ _)), (proj2 (Z.ltb_lt _ _)) by nia. cbn [andb].
    by rewrite (proj2 (Z.eqb_neq _ _)). }
  destruct (negb _ && negb _) eqn:Hdir.
  { destruct Hd as [-> | ->]; done. }
  rewrite Hall, Hrun, Hbase, Hphys, Hsep, Hlink, (proj2 (Z.eqb_neq n 0)) by lia.
  simpl. by repeat case_match.
Qed.

Lemma clone_loop_ok n src cur m :
  0 <= cur -> cur + sizeof_FXmacBd * Z.of_nat n <= 2 ^ ptr_w ->
  exists m' cur', clone_loop n sizeof_FXmacBd cur src m = (m', cur') /\
    uptr cur' = uptr (cur + sizeof_FXmacBd * Z.of_nat n) /\
    forall a, m' a = if (cur <=? a) && (a <? cur + sizeof_FXmacBd * Z.of_nat n)
                     then src ((a - cur) mod sizeof_FXmacBd) else m a.
Proof.
  pose proof target_facts as (Hs & Hw & _ & Hq). revert cur m.
  induction n as [|n IH]; intros cur m Hc Ht.
  - exists m, cur. split; [done|]. change (Z.of_nat 0) with 0.
    rewrite Z.mul_0_r, Z.add_0_r. split; [done|]. intros a. split_cmp; (done || lia).
  - cbn [clone_loop]. destruct n as [|n].
    { eexists _, _. split; [done|]. rewrite Z.mul_1_r. split; [apply wrap_wrap; lia|].
      intros a. unfold mem_copy. split_cmp; simpl; try done.
      rewrite Z.mod_small by lia. done. }
    destruct (IH (uptr (cur + sizeof_FXmacBd)) (mem_copy cur sizeof_FXmacBd src m))
      as (m' & cur' & He & Hcur & Hm);
      rewrite (wrap_small ptr_w (cur + sizeof_FXmacBd)) in * by nia; [lia|lia|].
    exists m', cur'. split; [done|]. split; [rewrite Hcur; f_equal; nia|].
    intros a. rewrite Hm. unfold mem_copy.
    replace (cur + sizeof_FXmacBd * Z.of_nat (S (S n)))
      with (cur + sizeof_FXmacBd + sizeof_FXmacBd * Z.of_nat (S n)) by lia.
    split_cmp; simpl; try done; try nia.
    all: try (by rewrite (Z.mod_small (a - cur)) by lia).
    replace (a - cur) with (a - (cur + sizeof_FXmacBd) + 1 * sizeof_FXmacBd) by lia.
    by rewrite Z.mod_add by lia.
Qed.

(** The word of a BD in which the wrap bit of a direction lives, and the bit. *)
Definition wrap_word (dir : Z) : Z :=
  if dir =? FXMAC_RECV then FXMAC_BD_ADDR_OFFSET else FXMAC_BD_STAT_OFFSET.
Definition wrap_mask (dir : Z) : Z :=
  if dir =? FXMAC_RECV then FXMAC_RXBUF_WRAP_MASK else FXMAC_TXBUF_WRAP_MASK.

Lemma set_wrap_ok dir m p a :
  0 < p -> p + sizeof_FXmacBd <= 2 ^ ptr_w ->
  (if dir =? FXMAC_RECV then FXmacBdSetRxWrap m p else FXmacBdSetTxWrap m p) a =
  if a =? p + wrap_word dir then Z.lor (m a) (wrap_mask dir) else m a.
Proof.
  pose proof target_facts as (Hs & _ & _ & Hq).
  assert (8 <= sizeof_FXmacBd) by (destruct target_cases as [(_&_&->)|(_&_&->)]; lia).
  intros Hp Ht. unfold wrap_word, wrap_mask, FXmacBdSetRxWrap, FXmacBdSetTxWrap, truth, mem_write,
    FXMAC_BD_ADDR_OFFSET, FXMAC_BD_STAT_OFFSET.
  destruct (dir =? FXMAC_RECV).
  all: rewrite wrap_small by lia; rewrite (proj2 (Z.eqb_neq _ 0)) by lia; simpl.
  all: destruct (Z.eqb_spec a (p + 0)), (Z.eqb_spec a (p + 4)); subst; (done || lia).
Qed.

(** [FXmacBdRingClone] on a stopped ring with all BDs free copies the template
    into every BD, sets the wrap bit of the direction in the last BD only, and
    writes nothing outside the ring. *)
Theorem FXmacBdRingClone_correct r t m src dir :
  ring_rep r t -> 0 < r.(base_bd_addr) -> r.(free_cnt) = r.(all_cnt) ->
  r.(run_state) <> FXMAC_DMA_SG_IS_STARTED -> dir = FXMAC_SEND \/ dir = FXMAC_RECV ->
  exists m', FXmacBdRingClone r m src dir = (FT_SUCCESS, m') /\
    (forall i off, 0 <= i < r.(all_cnt) -> 0 <= off < sizeof_FXmacBd ->
       m' (bd_addr r i + off) =
       if (i =? r.(all_cnt) - 1) && (off =? wrap_word dir)
       then Z.lor (src off) (wrap_mask dir) else src off) /\
    (forall a, a < r.(base_bd_addr) \/ bd_addr r r.(all_cnt) <= a -> m' a = m a).
Proof.
  intros [] Hb Hfree Hrun Hd. destruct rep_geo.
  pose proof target_facts as (Hs & _ & _ & Hq).
  assert (8 <= sizeof_FXmacBd) by (destruct target_cases as [(_&_&->)|(_&_&->)]; lia).
  unfold FXmacBdRingClone. rewrite geo_sep.
  rewrite (proj2 (Z.eqb_neq (all_cnt r) 0)), (proj2 (Z.eqb_neq (run_state r) _)) by (done || lia).
  rewrite Hfree, Z.eqb_refl. cbn [negb].
  destruct (negb (dir =? _) && negb _) eqn:Hdir; [destruct Hd as [-> | ->]; done|].
  destruct (clone_loop_ok (Z.to_nat r.(all_cnt)) src r.(base_bd_addr) m)
    as (m1 & cur & -> & Hcur & Hm1); [lia|lia|]. rewrite Z2Nat.id in * by lia.
  assert (uptr (cur - sizeof_FXmacBd) = bd_addr r (all_cnt r - 1)) as ->.
  { rewrite <-wrap_sub_l, Hcur, wrap_sub_l. unfold bd_addr. rewrite wrap_small by nia. lia. }
  eexists. split; [done|].
  assert (0 < bd_addr r (all_cnt r - 1) /\
          bd_addr r (all_cnt r - 1) + sizeof_FXmacBd <= 2 ^ ptr_w) as [Hl1 Hl2]
    by (unfold bd_addr; nia).
  assert (0 <= wrap_word dir < 8) by (unfold wrap_word; case_match; zdec).
  split.
  - intros i off Hi Hoff. rewrite set_wrap_ok by done. rewrite Hm1. unfold bd_addr.
    rewrite (proj2 (Z.leb_le _ _)), (proj2 (Z.ltb_lt _ _)) by nia. cbn [andb].
    replace (base_bd_addr r + sizeof_FXmacBd * i + off - base_bd_addr r)
      with (off + i * sizeof_FXmacBd) by lia.
    rewrite Z.mod_add, Z.mod_small by lia.
    destruct (Z.eqb_spec i (all_cnt r - 1)) as [->|Hne]; cbn [andb].
    + split_cmp; (done || lia).
    + rewrite (proj2 (Z.eqb_neq _ _)) by nia. done.
  - intros a Ha. rewrite set_wrap_ok by done. rewrite Hm1. unfold bd_addr in *.
    split_cmp; simpl; (done || nia).
Qed.
End Limits.

(** ** A concrete ring

    Four BDs at 0x1000 on aarch64, two of them given to the hardware. *)
Module RingDemo.
Import Ring Spec RingSpec.

Definition zero_ring : FXmacBdRing := mkRing 0 0 0 0 0 0 0 0 0 0 0 0 0 0 0 0 0.
Definition zero_mem : mem := fun _ => 0.
Definition created : FXmacBdRing :=
  (FXmacBdRingCreate zero_ring zero_mem 4096 4096 64 4).1.2.
Definition allocated : FXmacBdRing := (FXmacBdRingAlloc created 2).2.
Definition enqueued : FXmacBdRing := (FXmacBdRingToHw allocated 2 4096).2.

(** Every received BD is marked as new and as the end of a packet. *)
Definition all_new : mem := fun a => if a mod 16 =? 0 then 1 else 32768.
(** The BD at 0x1000 is not finished, those behind it are. *)
Definition half_used : mem := fun a => if a <? 4112 then 0 else 2 ^ 31 + 32768.

Lemma demo_args : create_args_ok 4096 4096 64 4.
Proof. constructor; zdec. Qed.

Lemma demo_reachable : reachable 4096 4 created.
Proof.
  eapply (reach_create 4096 4 zero_ring zero_mem 4096 64); [exact demo_args|lia|reflexivity].
Qed.

Lemma demo_allocated : reachable 4096 4 allocated.
Proof.
  eapply (reach_call _ _ created (CAlloc 2) 0 FT_SUCCESS (Some 4096));
    [exact demo_reachable|simpl; lia|intros []|reflexivity].
Qed.

Lemma demo_enqueued : reachable 4096 4 enqueued.
Proof.
  eapply (reach_call _ _ allocated (CToHw 2 4096) 0 FT_SUCCESS None);
    [exact demo_allocated|simpl; lia|intros []|reflexivity].
Qed.

(** A limit of the size of the hardware group does not overrun it. *)
Lemma demo_rx_fits : ~ overruns enqueued (CFromHwRx all_new 2).
Proof.
  intros (_ & j & Hj & _). assert (enqueued.(hw_cnt) = 2) by reflexivity. lia.
Qed.

Lemma demo_rep r : reachable 4096 4 r -> r.(post_head) = 4096 -> ring_rep r 0.
Proof.
  intros Hr Hp. destruct (reachable_ok _ _ _ Hr) as ((t & R) & Hb & Hn & _).
  pose proof R as []. rewrite rep_post in Hp. unfold bd_addr in Hp. rewrite Hb in Hp.
  simpl in Hp. by replace t with 0 in R by lia.
Qed.
End RingDemo.

Section Witnesses.
Import Ring Spec RingSpec RingDemo.

Lemma ring_call_refines_witness :
  (exists st p r' t', exec 0 enqueued (CFromHwRx all_new 2) = Ok (st, p, r') /\
    ring_rep r' t' /\ r'.(base_bd_addr) = 4096 /\ r'.(all_cnt) = 4 /\
    spec_step (bd_addr enqueued) (groups_at enqueued 0) (CFromHwRx all_new 2) st p
      (groups_at r' t')) /\
  (exists st p r' t', exec 8 enqueued (CFromHwTx half_used 2) = Ok (st, p, r') /\
    ring_rep r' t' /\ r'.(base_bd_addr) = 4096 /\ r'.(all_cnt) = 4 /\
    spec_step (bd_addr enqueued) (groups_at enqueued 0) (CFromHwTx half_used 2) st p
      (groups_at r' t')) /\
  exec 1000 enqueued (CFromHwTx zero_mem 2) = Fault OutOfFuel /\
  exists st p r', exec 0 enqueued (CFromHwRx all_new 3) = Ok (st, p, r') /\
    2 < st /\ r'.(hw_cnt) = 2 - st + 2 ^ 32.
Proof.
  pose proof (demo_rep _ demo_enqueued eq_refl) as R.
  assert (Hb : 0 < enqueued.(base_bd_addr)) by reflexivity. split_and!.
  - apply (ring_call_refines enqueued 0 (CFromHwRx all_new 2) 0 R Hb);
      [simpl; lia|intros []|intros []|exact demo_rx_fits|simpl; lia].
  - apply (ring_call_refines enqueued 0 (CFromHwTx half_used 2) 8 R Hb);
      [simpl; lia|intros []| |intros []|vm_compute; lia].
    intros [_ Hu]. discriminate (Hu 1 ltac:(vm_compute; split; [discriminate|reflexivity])).
  - apply (ring_call_refines enqueued 0 (CFromHwTx zero_mem 2) 1000 R Hb); [simpl; lia|].
    split; [reflexivity|]. intros i _. reflexivity.
  - apply (ring_call_refines enqueued 0 (CFromHwRx all_new 3) 0 R Hb); [simpl; lia|].
    split; [reflexivity|]. exists 3. split; [vm_compute; split; [reflexivity|discriminate]|].
    split; [|reflexivity]. intros i Hi.
    assert (i = 0 \/ i = 1 \/ i = 2) as [->|[->| ->]] by lia; reflexivity.
Defined.

Lemma ring_partition_witness :
  exists g, Permutation (all_bds g) (seqZ 0 4) /\
    len g.(g_post) = 0 /\ len g.(g_hw) = 2 /\ len g.(g_pre) = 0 /\ len g.(g_free) = 2 /\
    map (fun b => 4096 + sizeof_FXmacBd * b) g.(g_post) = [] /\
    map (fun b => 4096 + sizeof_FXmacBd * b) g.(g_hw) = [4096; 4112] /\
    map (fun b => 4096 + sizeof_FXmacBd * b) g.(g_pre) = [] /\
    map (fun b => 4096 + sizeof_FXmacBd * b) g.(g_free) = [4128; 4144].
Proof. exact (ring_partition 4096 4 enqueued demo_enqueued). Defined.

Lemma ring_fifo_witness :
  exists r', run created [4096; 4112] [4096; 4112] r' /\
  [] ++ [4096; 4112] = [4096; 4112] ++ bd_list r' r'.(hw_head) r'.(hw_cnt).
Proof.
  exists (FXmacBdRingFromHwRx enqueued all_new 2).2.
  assert (H1 : args_u32 (CAlloc 2)) by (simpl; lia).
  assert (H2 : args_u32 (CToHw 2 4096)) by (simpl; lia).
  assert (H3 : args_u32 (CFromHwRx all_new 2)) by (simpl; lia).
  pose proof (run_cons enqueued (CFromHwRx all_new 2) 0 2 (Some 4096)
    (FXmacBdRingFromHwRx enqueued all_new 2).2 [] [] _ H3 demo_rx_fits eq_refl (run_nil _))
    as R3.
  pose proof (run_cons allocated (CToHw 2 4096) 0 FT_SUCCESS None enqueued _ _ _ H2
    (fun H => H) eq_refl R3) as R2.
  pose proof (run_cons created (CAlloc 2) 0 FT_SUCCESS (Some 4096) allocated _ _ _ H1
    (fun H => H) eq_refl R2) as R1.
  split; [exact R1|]. exact (ring_fifo 4096 4 created _ _ _ demo_reachable R1).
Defined.

Lemma FXmacBdRingCreate_correct_witness :
  exists r' m', FXmacBdRingCreate zero_ring zero_mem 4096 4096 64 4 = (FT_SUCCESS, r', m') /\
    ring_rep r' 0 /\ groups_at r' 0 = mkGroups [] [] [] (seqZ 0 4) /\
    r'.(all_cnt) = 4 /\ r'.(base_bd_addr) = 4096 /\ r'.(phys_base_addr) = 4096 /\
    r'.(run_state) = FXMAC_DMA_SG_IS_STOPED /\
    (forall a, m' a = if (4096 <=? a) && (a <? 4096 + sizeof_FXmacBd * 4) then 0 else zero_mem a).
Proof. exact (FXmacBdRingCreate_correct zero_ring zero_mem 4096 4096 64 4 demo_args). Defined.

Lemma FXmacBdRingCreate_refused_witness :
  exists r', FXmacBdRingCreate zero_ring zero_mem 4096 4097 64 4 =
      (FXMAC_ERR_INVALID_PARAM, r', zero_mem) /\
    r'.(all_cnt) = 0 /\ FXmacBdRingAlloc r' 1 = (FXMAC_ERR_GENERAL, None, r').
Proof.
  apply (FXmacBdRingCreate_refused zero_ring zero_mem 4096 4097 64 4 1); [lia|lia|].
  right; right; right; left. vm_compute. discriminate.
Defined.

Lemma FXmacBdRingFromHwTx_busy_waits_witness :
  FXmacBdRingFromHwTx 1000 enqueued zero_mem 2 = Fault OutOfFuel.
Proof.
  apply (FXmacBdRingFromHwTx_busy_waits 1000 enqueued 0 zero_mem 2);
    [exact (demo_rep _ demo_enqueued eq_refl)|reflexivity|reflexivity|lia|].
  intros i _. reflexivity.
Defined.

Lemma FXmacBdRingToHw_tail_witness :
  exists r', FXmacBdRingToHw allocated 2 allocated.(pre_head) = (FT_SUCCESS, r') /\
    r'.(hw_tail) = r'.(pre_head) /\ hw_bd r' r'.(hw_cnt) = r'.(hw_tail).
Proof.
  apply (FXmacBdRingToHw_tail allocated 0 2);
    [exact (demo_rep _ demo_allocated eq_refl)|vm_compute; split; [reflexivity|discriminate]].
Defined.

Lemma FXmacBdRingCheck_created_witness :
  exists r' m', FXmacBdRingCreate zero_ring zero_mem 4096 4096 64 4 = (FT_SUCCESS, r', m') /\
    FXmacBdRingCheck r' m' FXMAC_RECV = FXMAC_ERR_SG_LIST.
Proof.
  apply (FXmacBdRingCheck_created zero_ring zero_mem 4096 4096 64 4 FXMAC_RECV);
    [exact demo_args|lia|by right|vm_compute; discriminate].
Defined.

Lemma FXmacBdRingClone_correct_witness :
  exists m', FXmacBdRingClone created zero_mem (fun off => off + 1) FXMAC_RECV = (FT_SUCCESS, m') /\
    (forall i off, 0 <= i < 4 -> 0 <= off < sizeof_FXmacBd ->
       m' (bd_addr created i + off) =
       if (i =? 4 - 1) && (off =? wrap_word FXMAC_RECV)
       then Z.lor (off + 1) (wrap_mask FXMAC_RECV) else off + 1) /\
    (forall a, a < 4096 \/ bd_addr created 4 <= a -> m' a = 0).
Proof.
  apply (FXmacBdRingClone_correct created 0 zero_mem (fun off => off + 1) FXMAC_RECV);
    [exact (demo_rep _ demo_reachable eq_refl)|reflexivity|reflexivity|discriminate|by right].
Defined.

(** [FXmacBdRingFromHwRx] does not stop at [hw_cnt]: with two BDs in the
    hardware group and stale "new" marks behind it, it returns three BDs and
    the counter of the hardware group wraps around. *)
Theorem FXmacBdRingFromHwRx_overruns :
  exists r', FXmacBdRingFromHwRx enqueued all_new 3 = (3, 4096, r') /\
    enqueued.(hw_cnt) = 2 /\ r'.(hw_cnt) = 2 ^ 32 - 1.
Proof. eexists. split; [|split]; vm_compute; reflexivity. Qed.

(** [FXmacBdRingFromHwTx] returns a BD the hardware has not finished: with two
    BDs in the hardware group, the first one unfinished, it counts two finished
    BDs further on and hands back both BDs of the group. *)
Theorem FXmacBdRingFromHwTx_skips_unfinished :
  exists m r', tx_used enqueued m 0 = false /\
    FXmacBdRingFromHwTx 3 enqueued m 2 = Ok (2, 4096, r') /\ r'.(hw_cnt) = 0.
Proof.
  exists half_used. eexists.
  split; [|split]; vm_compute; reflexivity.
Qed.
End Witnesses.
