(* ===== verification/NandBbm.v ===== *)
(** Bad-block management of the NAND driver:
    src/standalone/drivers/nand/fnand/fnand_bbm.c, with the page operations of
    fnand.c it goes through.

    The bad block table (BBT) has two bits per block, in RAM and, inverted, in
    two blocks of the flash (primary and mirror) found by a signature in the
    spare area.  The transfer functions of the controller, which the driver
    calls through function pointers, are the class [NandDev]. *)
From S2P Require Import Prelude.

(** ** Data of fnand.h and fnand_bbm.h

    [FNAND_CONNECT_MAX_NUM] is 1: the arrays indexed by [chip_addr] have one
    entry, which the records below are. *)
Definition FNAND_MAX_BLOCKS : Z := 32768.
Definition FNAND_MAX_SPARE_SIZE : Z := 1024.
Definition ErrNand : Z := 19.
Definition FNAND_VALUE_ERROR : Z := FT_MAKE_ERRCODE ErrModBsp ErrNand 7.
Definition FNAND_VALUE_FAILURE : Z := FT_MAKE_ERRCODE ErrModBsp ErrNand 8.
Definition FNAND_BLOCK_GOOD : Z := 0.
Definition FNAND_BLOCK_BAD : Z := 1.
Definition FNAND_BLOCK_RESERVED : Z := 2.
Definition FNAND_BLOCK_FACTORY_BAD : Z := 3.
Definition FNAND_FLASH_BLOCK_BAD : Z := 2.
Definition FNAND_FLASH_BLOCK_RESERVED : Z := 1.
Definition FNAND_FLASH_BLOCK_FACTORY_BAD : Z := 0.
Definition FNAND_BBT_SCAN_2ND_PAGE : Z := 1.
Definition FNAND_BLOCK_TYPE_MASK : Z := 3.
Definition FNAND_BLOCK_SHIFT_MASK : Z := 6.
Definition FNAND_BBT_BLOCK_SHIFT : Z := 2.
Definition FNAND_BBT_ENTRY_NUM_BLOCKS : nat := 4.
Definition FNAND_BBTBLOCKSHIFT (block : Z) : Z :=
  Z.land (u32 (block * 2)) FNAND_BLOCK_SHIFT_MASK.

(** The fields of [FNandNandGeometry] that the code below reads. *)
Record FNandNandGeometry := mkGeometry {
  bytes_per_page : Z;
  spare_bytes_per_page : Z;
  pages_per_block : Z;
  num_blocks : Z
}.

Record FNandBbtDesc := mkDesc {
  page_offset : Z;
  sig_offset : Z;
  ver_offset : Z;
  sig_length : Z;
  max_blocks : Z;
  signature : list Z;
  version : Z;
  valid : Z
}.

Record FNandBadBlockPattern := mkPattern {
  pat_options : Z;
  pat_offset : Z;
  pat_length : Z;
  pat_pattern : list Z
}.

Record FNandBadBlockManager := mkManager {
  bbt : list Z;
  bbt_desc : FNandBbtDesc;
  bbt_mirror_desc : FNandBbtDesc;
  bb_pattern : FNandBadBlockPattern
}.

(** [FNandOpData]: a null buffer is [None]; the contents of a buffer that is
    read into are replaced by those the transfer returns. *)
Record FNandOpData := mkOp {
  op_page_addr : Z;
  op_page_buf : option (list Z);
  op_page_offset : Z;
  op_page_length : Z;
  op_obb_required : Z;
  op_oob_buf : option (list Z);
  op_oob_offset : Z;
  op_oob_length : Z
}.

(** The function pointers of [FNand]: each returns its status and the device;
    a read also returns the page buffer and the spare buffer. *)
Class NandDev := {
  dev : Type;
  erase_p : dev -> Z -> Z * dev;
  write_p : dev -> FNandOpData -> Z * dev;
  write_hw_ecc_p : dev -> FNandOpData -> Z * dev;
  write_oob_p : dev -> FNandOpData -> Z * dev;
  read_p : dev -> FNandOpData -> Z * list Z * list Z * dev;
  read_hw_ecc_p : dev -> FNandOpData -> Z * list Z * list Z * dev;
  read_oob_p : dev -> FNandOpData -> Z * list Z * list Z * dev
}.

(** ** Memory *)

(** [memcpy(dst + off, src, length src)] inside an object. *)
Definition blit (dst : list Z) (off : Z) (src : list Z) : res (list Z) :=
  if (0 <=? off) && (off + Z.of_nat (length src) <=? Z.of_nat (length dst)) then
    Ok (take (Z.to_nat off) dst ++ src ++ drop (Z.to_nat off + length src) dst)
  else Fault Undefined.

(** [memset(dst, c, n)]. *)
Definition memset (dst : list Z) (c n : Z) : res (list Z) := blit dst 0 (replicate (Z.to_nat n) c).

(** Which of the two descriptors a pointer points to. *)
Inductive which := Primary | Mirror.

Definition other (w : which) : which :=
  match w with Primary => Mirror | Mirror => Primary end.
Definition get_desc (w : which) (m : FNandBadBlockManager) : FNandBbtDesc :=
  match w with Primary => m.(bbt_desc) | Mirror => m.(bbt_mirror_desc) end.
Definition set_desc (w : which) (d : FNandBbtDesc) (m : FNandBadBlockManager) :=
  match w with
  | Primary => mkManager m.(bbt) d m.(bbt_mirror_desc) m.(bb_pattern)
  | Mirror => mkManager m.(bbt) m.(bbt_desc) d m.(bb_pattern)
  end.
Definition set_bbt (b : list Z) (m : FNandBadBlockManager) :=
  mkManager b m.(bbt_desc) m.(bbt_mirror_desc) m.(bb_pattern).
Definition set_version (v : Z) (d : FNandBbtDesc) :=
  mkDesc d.(page_offset) d.(sig_offset) d.(ver_offset) d.(sig_length) d.(max_blocks)
    d.(signature) v d.(valid).
Definition set_page_offset (p : Z) (d : FNandBbtDesc) :=
  mkDesc p d.(sig_offset) d.(ver_offset) d.(sig_length) d.(max_blocks)
    d.(signature) d.(version) d.(valid).
Definition set_valid (v : Z) (d : FNandBbtDesc) :=
  mkDesc d.(page_offset) d.(sig_offset) d.(ver_offset) d.(sig_length) d.(max_blocks)
    d.(signature) d.(version) v.
Definition set_pattern (p : FNandBadBlockPattern) (m : FNandBadBlockManager) :=
  mkManager m.(bbt) m.(bbt_desc) m.(bbt_mirror_desc) p.

(** ** Descriptors *)

(** "Bbt0" and "1tbB". *)
Definition sig_primary : list Z := [66; 98; 116; 48].
Definition sig_mirror : list Z := [49; 116; 98; 66].

Definition FNandInitBbtDesc (g : FNandNandGeometry) (m : FNandBadBlockManager)
    : FNandBadBlockManager :=
  let m := set_desc Primary (mkDesc 0 8 12 4 4 sig_primary 0 0) m in
  let m := set_desc Mirror (mkDesc 0 8 12 4 4 sig_mirror 0 0) m in
  if 512 <? g.(bytes_per_page)
  then set_pattern (mkPattern FNAND_BBT_SCAN_2ND_PAGE 0 2 [255; 255]) m
  else set_pattern (mkPattern FNAND_BBT_SCAN_2ND_PAGE 5 1 [255; 255]) m.

(** ** The two encodings of a table *)

(** One byte of the flash table turned into one byte of the RAM table. *)
Definition convert_entry (data : Z) (acc : Z) (block_index : Z) : Z :=
  let block_shift := FNAND_BBTBLOCKSHIFT block_index in
  let block_type := Z.land (Z.shiftr data block_shift) FNAND_BLOCK_TYPE_MASK in
  if block_type =? FNAND_FLASH_BLOCK_FACTORY_BAD then
    u8 (Z.lor acc (Z.shiftl FNAND_BLOCK_FACTORY_BAD block_shift))
  else if block_type =? FNAND_FLASH_BLOCK_RESERVED then
    u8 (Z.lor acc (Z.shiftl FNAND_BLOCK_RESERVED block_shift))
  else if block_type =? FNAND_FLASH_BLOCK_BAD then
    u8 (Z.lor acc (Z.shiftl FNAND_BLOCK_BAD block_shift))
  else acc.
Definition convert_byte (data : Z) : Z :=
  fold_left (convert_entry data) (seqZ 0 (Z.of_nat FNAND_BBT_ENTRY_NUM_BLOCKS)) 0.

(** One byte of the RAM table turned into one byte of the flash table; the
    loop state is the flash byte and what is left of the RAM byte. *)
Definition flash_entry (st : Z * Z) (block_index : Z) : Z * Z :=
  let '(b, data) := st in
  (Z.land b (lnotw 8 (Z.shiftl (Z.land data FNAND_BLOCK_TYPE_MASK)
                        (FNAND_BBTBLOCKSHIFT block_index))),
   Z.shiftr data FNAND_BBT_BLOCK_SHIFT).
Definition flash_byte (data : Z) : Z :=
  fst (fold_left flash_entry (seqZ 0 (Z.of_nat FNAND_BBT_ENTRY_NUM_BLOCKS)) (255, data)).

Definition bbtlen (g : FNandNandGeometry) : Z :=
  u32 (Z.shiftr g.(num_blocks) FNAND_BBT_BLOCK_SHIFT).

(** The loop of [FNandConvertBbt] from [off] on. *)
Fixpoint convert_loop (n : nat) (off : Z) (buf b : list Z) : res (list Z) :=
  match n with
  | O => Ok b
  | S n =>
      let! data := aget buf off in
      let! b := aset b off (convert_byte data) in
      convert_loop n (off + 1) buf b
  end.

Definition FNandConvertBbt (g : FNandNandGeometry) (buf : list Z) (m : FNandBadBlockManager)
    : res FNandBadBlockManager :=
  let! b := convert_loop (Z.to_nat (bbtlen g)) 0 buf m.(bbt) in
  Ok (set_bbt b m).

(** The loop of [FNandWriteBbt] that fills the flash table. *)
Fixpoint encode_loop (n : nat) (off : Z) (b buf : list Z) : res (list Z) :=
  match n with
  | O => Ok buf
  | S n =>
      let! data := aget b off in
      let! buf := aset buf off (flash_byte data) in
      encode_loop n (off + 1) b buf
  end.

(** ** Page operations of fnand.c *)
Section Driver.
Context `{N : NandDev}.

Definition op_data (page_addr : Z) : FNandOpData := mkOp page_addr None 0 0 0 None 0 0.
Definition with_page (buf : option (list Z)) (off len : Z) (o : FNandOpData) : FNandOpData :=
  if (match buf with Some _ => true | None => false end) && (0 <? len) then
    mkOp o.(op_page_addr) buf off len o.(op_obb_required) o.(op_oob_buf) o.(op_oob_offset)
      o.(op_oob_length)
  else o.
Definition with_oob (buf : option (list Z)) (off len : Z) (o : FNandOpData) : FNandOpData :=
  if (match buf with Some _ => true | None => false end) && (0 <? len) then
    mkOp o.(op_page_addr) o.(op_page_buf) o.(op_page_offset) o.(op_page_length) 1 buf off len
  else o.

Definition FNandWritePage (d : dev) (page_addr : Z) (buffer : option (list Z))
    (page_copy_offset len : Z) (oob_buffer : option (list Z)) (oob_copy_offset oob_len : Z)
    : Z * dev :=
  write_hw_ecc_p d (with_oob oob_buffer oob_copy_offset oob_len
    (with_page buffer page_copy_offset len (op_data page_addr))).

Definition FNandWritePageRaw (d : dev) (page_addr : Z) (buffer : option (list Z))
    (page_copy_offset len : Z) (oob_buffer : option (list Z)) (oob_copy_offset oob_len : Z)
    : Z * dev :=
  write_p d (with_oob oob_buffer oob_copy_offset oob_len
    (with_page buffer page_copy_offset len (op_data page_addr))).

Definition FNandReadPage (d : dev) (page_addr : Z) (buffer : option (list Z))
    (page_copy_offset len : Z) (oob_buffer : option (list Z)) (oob_copy_offset oob_len : Z)
    : Z * list Z * list Z * dev :=
  read_hw_ecc_p d (with_oob oob_buffer oob_copy_offset oob_len
    (with_page buffer page_copy_offset len (op_data page_addr))).

Definition FNandReadPageRaw (d : dev) (page_addr : Z) (buffer : option (list Z))
    (page_copy_offset len : Z) (oob_buffer : option (list Z)) (oob_copy_offset oob_len : Z)
    : Z * list Z * list Z * dev :=
  read_p d (with_oob oob_buffer oob_copy_offset oob_len
    (with_page buffer page_copy_offset len (op_data page_addr))).

Definition FNandEraseBlock (g : FNandNandGeometry) (d : dev) (block : Z) : Z * dev :=
  erase_p d (u32 (block * g.(pages_per_block))).

Definition FNandReadPageOOb (d : dev) (page_addr : Z) (oob_buffer : list Z)
    (oob_copy_offset oob_len : Z) : Z * list Z * dev :=
  let '(ret, _, oob, d) := read_oob_p d
    (mkOp page_addr None 0 0 1 (Some oob_buffer) oob_copy_offset oob_len) in
  (ret, oob, d).

Definition FNandWritePageOOb (d : dev) (page_addr : Z) (oob_buffer : list Z)
    (page_copy_offset oob_len : Z) : Z * dev :=
  write_oob_p d (mkOp page_addr None 0 0 1 (Some oob_buffer) page_copy_offset oob_len).

(** ** Writing a table

    [stack_buf] and [stack_spare] are what the uninitialised local arrays
    [buf] and [sparebuf] hold when a function is entered. *)
Context (stack_buf stack_spare : list Z).

(** The search for a block to write to; it stops with the block number, or
    with [None] after [max_blocks] steps.  The descriptor is updated. *)
Fixpoint find_block (n : nat) (index block : Z) (g : FNandNandGeometry) (b : list Z)
    (desc mirror : FNandBbtDesc) : res (option Z * FNandBbtDesc) :=
  match n with
  | O => Ok (None, desc)
  | S n =>
      let block := u32 (block - index) in
      let block_offset := Z.shiftr block FNAND_BBT_BLOCK_SHIFT in
      let block_shift := FNAND_BBTBLOCKSHIFT block in
      let! data := aget b block_offset in
      let block_type := Z.land (Z.shiftr data block_shift) FNAND_BLOCK_TYPE_MASK in
      if (block_type =? FNAND_BLOCK_BAD) || (block_type =? FNAND_BLOCK_FACTORY_BAD) then
        find_block n (index + 1) block g b desc mirror
      else
        let desc := set_page_offset (u32 (block * g.(pages_per_block))) desc in
        if negb (desc.(page_offset) =? mirror.(page_offset))
        then Ok (Some block, set_valid 1 desc)
        else find_block n (index + 1) block g b desc mirror
  end.

(** The spare area: signature and version over 0xff. *)
Definition fill_spare (g : FNandNandGeometry) (desc : FNandBbtDesc) : res (list Z) :=
  let! sparebuf := memset stack_spare 255 g.(spare_bytes_per_page) in
  let! sparebuf := blit sparebuf desc.(sig_offset)
                     (take (Z.to_nat desc.(sig_length)) desc.(signature)) in
  blit sparebuf desc.(ver_offset) [desc.(version)].

Definition FNandWriteBbt (g : FNandNandGeometry) (w : which)
    (m : FNandBadBlockManager) (d : dev) : res (Z * FNandBadBlockManager * dev) :=
  let desc := get_desc w m in
  let mirror := get_desc (other w) m in
  let! (found, desc) :=
    if desc.(valid) =? 0 then
      find_block (Z.to_nat desc.(max_blocks)) 0 (u32 (g.(num_blocks) - 1)) g m.(bbt) desc mirror
    else if g.(pages_per_block) =? 0 then Fault Undefined
    else Ok (Some (desc.(page_offset) / g.(pages_per_block)), desc) in
  let m := set_desc w desc m in
  match found with
  | None => Ok (FNAND_VALUE_FAILURE, m, d)
  | Some block =>
      let! buf := memset stack_buf 255 (bbtlen g) in
      let! buf := encode_loop (Z.to_nat (bbtlen g)) 0 m.(bbt) buf in
      let '(ret, d) := FNandEraseBlock g d block in
      if negb (ret =? FT_SUCCESS) then Ok (ret, m, d)
      else
        let! sparebuf := fill_spare g desc in
        (* the status of FNandWritePage is dropped *)
        let '(_, d) := FNandWritePage d desc.(page_offset) (Some buf) 0 (bbtlen g)
                         (Some sparebuf) 0 FNAND_MAX_SPARE_SIZE in
        if negb (ret =? FT_SUCCESS) then Ok (ret, m, d) else Ok (FT_SUCCESS, m, d)
  end.

Definition bump_version (w : which) (m : FNandBadBlockManager) : FNandBadBlockManager :=
  let desc := get_desc w m in
  set_desc w (set_version (u8 ((desc.(version) + 1) mod 256)) desc) m.

Definition FNandUpdateBbt (g : FNandNandGeometry) (m : FNandBadBlockManager) (d : dev)
    : res (Z * FNandBadBlockManager * dev) :=
  let m := bump_version Primary m in
  let m := bump_version Mirror m in
  let! (ret, m, d) := FNandWriteBbt g Primary m d in
  if negb (ret =? FT_SUCCESS) then Ok (ret, m, d)
  else
    let! (ret, m, d) := FNandWriteBbt g Mirror m d in
    if negb (ret =? FT_SUCCESS) then Ok (ret, m, d) else Ok (FT_SUCCESS, m, d).

(** The loop of [FNandMarkBbt]: the table and [updatebbt]. *)
Fixpoint mark_loop (n : nat) (block_index : Z) (b : list Z) (updatebbt : bool)
    : res (list Z * bool) :=
  match n with
  | O => Ok (b, updatebbt)
  | S n =>
      let block_offset := Z.shiftr block_index FNAND_BBT_BLOCK_SHIFT in
      let block_shift := FNAND_BBTBLOCKSHIFT block_index in
      let! old_val := aget b block_offset in
      let new_val := u8 (Z.lor old_val (Z.shiftl FNAND_BLOCK_RESERVED block_shift)) in
      let! b := aset b block_offset new_val in
      mark_loop n (u32 (block_index + 1)) b (updatebbt || negb (old_val =? new_val))
  end.

Definition FNandMarkBbt (g : FNandNandGeometry) (w : which) (m : FNandBadBlockManager) (d : dev)
    : res (Z * FNandBadBlockManager * dev) :=
  let desc := get_desc w m in
  let! (b, updatebbt) := mark_loop (Z.to_nat desc.(max_blocks))
    (u32 (g.(num_blocks) - desc.(max_blocks))) m.(bbt) false in
  let m := set_bbt b m in
  if updatebbt then
    let! (ret, m, d) := FNandUpdateBbt g m d in
    if negb (ret =? FT_SUCCESS) then Ok (ret, m, d) else Ok (FT_SUCCESS, m, d)
  else Ok (FT_SUCCESS, m, d).

(** ** Creating a table from the factory marks *)

(** Whether the spare bytes differ from the pattern; [n] bytes are left. *)
Fixpoint pattern_differs (n : nat) (i : Z) (p : FNandBadBlockPattern) (buf : list Z) : res bool :=
  match n with
  | O => Ok false
  | S n =>
      let! x := aget buf (u32 (p.(pat_offset) + i)) in
      let! y := aget p.(pat_pattern) i in
      if negb (x =? y) then Ok true else pattern_differs n (i + 1) p buf
  end.

(** The page loop for one block: the new table byte. *)
Fixpoint scan_pages (n : nat) (page : Z) (block_shift : Z) (p : FNandBadBlockPattern)
    (entry : Z) (d : dev) : res (Z * dev) :=
  match n with
  | O => Ok (entry, d)
  | S n =>
      let '(ret, buf, d) := FNandReadPageOOb d page stack_spare 0 FNAND_MAX_SPARE_SIZE in
      let marked := u8 (Z.lor entry (Z.shiftl FNAND_BLOCK_FACTORY_BAD block_shift)) in
      if negb (ret =? FT_SUCCESS) then Ok (marked, d)
      else
        let! bad := pattern_differs (Z.to_nat p.(pat_length)) 0 p buf in
        scan_pages n (u32 (page + 1)) block_shift p (if bad then marked else entry) d
  end.

Fixpoint create_loop (n : nat) (block_index : Z) (num_pages : nat) (g : FNandNandGeometry)
    (p : FNandBadBlockPattern) (b : list Z) (d : dev) : res (list Z * dev) :=
  match n with
  | O => Ok (b, d)
  | S n =>
      let block_offset := Z.shiftr block_index FNAND_BBT_BLOCK_SHIFT in
      let block_shift := FNAND_BBTBLOCKSHIFT block_index in
      let page := u32 (block_index * g.(pages_per_block)) in
      let! entry := aget b block_offset in
      let! (entry, d) := scan_pages num_pages page block_shift p entry d in
      let! b := aset b block_offset entry in
      create_loop n (block_index + 1) num_pages g p b d
  end.

Definition FNandCreateBbt (g : FNandNandGeometry) (m : FNandBadBlockManager) (d : dev)
    : res (FNandBadBlockManager * dev) :=
  let num_pages :=
    if truth (Z.land m.(bb_pattern).(pat_options) FNAND_BBT_SCAN_2ND_PAGE) then 2%nat else 1%nat in
  let! b := memset m.(bbt) 0 (bbtlen g) in
  let! (b, d) := create_loop (Z.to_nat g.(num_blocks)) 0 num_pages g m.(bb_pattern) b d in
  Ok (set_bbt b m, d).

(** ** Finding and reading a table *)

(** Whether [sig_length] bytes at [sig_offset] are the signature. *)
Fixpoint sig_matches (n : nat) (i : Z) (desc : FNandBbtDesc) (buf : list Z) : res bool :=
  match n with
  | O => Ok true
  | S n =>
      let! x := aget buf (u32 (i + desc.(sig_offset))) in
      let! y := aget desc.(signature) i in
      if negb (x =? y) then Ok false else sig_matches n (i + 1) desc buf
  end.

Fixpoint search_loop (n : nat) (block : Z) (g : FNandNandGeometry) (desc : FNandBbtDesc)
    (d : dev) : res (Z * FNandBbtDesc * dev) :=
  match n with
  | O => Ok (FNAND_VALUE_ERROR, desc, d)
  | S n =>
      let pageoff :=
        u32 (u32 (u32 (g.(num_blocks) - 1) - block) * g.(pages_per_block)) in
      let '(ret, buf, d) := FNandReadPageOOb d pageoff stack_spare 0 FNAND_MAX_SPARE_SIZE in
      if negb (ret =? FT_SUCCESS) then search_loop n (block + 1) g desc d
      else
        let! found := sig_matches (Z.to_nat desc.(sig_length)) 0 desc buf in
        if found then
          let! v := aget buf desc.(ver_offset) in
          Ok (FT_SUCCESS, set_valid 1 (set_version v (set_page_offset pageoff desc)), d)
        else search_loop n (block + 1) g desc d
  end.

Definition FNandSearchBbt (g : FNandNandGeometry) (w : which) (m : FNandBadBlockManager)
    (d : dev) : res (Z * FNandBadBlockManager * dev) :=
  let desc := get_desc w m in
  let! (ret, desc, d) := search_loop (Z.to_nat desc.(max_blocks)) 0 g desc d in
  Ok (ret, set_desc w desc m, d).

(** Reads the table of [w] into RAM. *)
Definition load_bbt (g : FNandNandGeometry) (w : which) (m : FNandBadBlockManager) (d : dev)
    : res (Z * FNandBadBlockManager * dev) :=
  let '(ret, buf, _, d) :=
    FNandReadPage d (get_desc w m).(page_offset) (Some stack_buf) 0 (bbtlen g) None 0 0 in
  if negb (ret =? FT_SUCCESS) then Ok (ret, m, d)
  else
    let! m := FNandConvertBbt g buf m in
    Ok (FT_SUCCESS, m, d).

(** [to->version = from->version]. *)
Definition copy_version (from to : which) (m : FNandBadBlockManager) : FNandBadBlockManager :=
  set_desc to (set_version (get_desc from m).(version) (get_desc to m)) m.

(** Loads the table of [src], copies the version [from] -> [to], and writes
    the table of [dst]. *)
Definition load_and_write (g : FNandNandGeometry) (src from to dst : which)
    (m : FNandBadBlockManager) (d : dev) : res (Z * FNandBadBlockManager * dev) :=
  let! (ret, m, d) := load_bbt g src m d in
  if negb (ret =? FT_SUCCESS) then Ok (ret, m, d)
  else
    let m := copy_version from to m in
    let! (ret, m, d) := FNandWriteBbt g dst m d in
    if negb (ret =? FT_SUCCESS) then Ok (ret, m, d) else Ok (FT_SUCCESS, m, d).

Definition FNandReadBbt (g : FNandNandGeometry) (m : FNandBadBlockManager) (d : dev)
    : res (Z * FNandBadBlockManager * dev) :=
  let! (status1, m, d) := FNandSearchBbt g Primary m d in
  let! (status2, m, d) := FNandSearchBbt g Mirror m d in
  if negb (status1 =? FT_SUCCESS) && negb (status2 =? FT_SUCCESS) then
    Ok (FNAND_VALUE_FAILURE, m, d)
  else
    let desc := m.(bbt_desc) in
    let mirror := m.(bbt_mirror_desc) in
    if truth desc.(valid) && truth mirror.(valid) then
      if mirror.(version) <? desc.(version) then
        load_and_write g Primary Primary Mirror Mirror m d
      else if desc.(version) <? mirror.(version) then
        load_and_write g Mirror Mirror Primary Primary m d
      else load_bbt g Primary m d
    else if truth desc.(valid) then
      load_and_write g Primary Mirror Primary Mirror m d
    else
      load_and_write g Mirror Mirror Primary Primary m d.

(** ** The interface of the component *)
Definition FNandScanBbt (g : FNandNandGeometry) (m : FNandBadBlockManager) (d : dev)
    : res (Z * FNandBadBlockManager * dev) :=
  let! (ret, m, d) := FNandReadBbt g m d in
  if negb (ret =? FT_SUCCESS) then
    let! (m, d) := FNandCreateBbt g m d in
    let! (ret, m, d) := FNandWriteBbt g Primary m d in
    if negb (ret =? FT_SUCCESS) then Ok (ret, m, d)
    else
      let! (ret, m, d) := FNandWriteBbt g Mirror m d in
      if negb (ret =? FT_SUCCESS) then Ok (ret, m, d)
      else
        let! (_, m, d) := FNandMarkBbt g Primary m d in
        let! (_, m, d) := FNandMarkBbt g Mirror m d in
        Ok (FT_SUCCESS, m, d)
  else Ok (FT_SUCCESS, m, d).

Definition FNandIsBlockBad (g : FNandNandGeometry) (m : FNandBadBlockManager) (block : Z)
    : res Z :=
  check! block <? g.(num_blocks) in
  let! data := aget m.(bbt) (Z.shiftr block FNAND_BBT_BLOCK_SHIFT) in
  let block_type := Z.land (Z.shiftr data (FNAND_BBTBLOCKSHIFT block)) FNAND_BLOCK_TYPE_MASK in
  Ok (if negb (block_type =? FNAND_BLOCK_GOOD) then FT_SUCCESS else FNAND_VALUE_FAILURE).

Definition FNandMarkBlockBad (g : FNandNandGeometry) (m : FNandBadBlockManager) (d : dev)
    (block : Z) : res (Z * FNandBadBlockManager * dev) :=
  check! block <? g.(num_blocks) in
  let block_offset := Z.shiftr block FNAND_BBT_BLOCK_SHIFT in
  let block_shift := FNAND_BBTBLOCKSHIFT block in
  let! oldval := aget m.(bbt) block_offset in
  let data := Z.land oldval (lnotw 8 (Z.shiftl FNAND_BLOCK_TYPE_MASK block_shift)) in
  let newval := Z.lor data (u8 (Z.shiftl FNAND_BLOCK_BAD block_shift)) in
  let! b := aset m.(bbt) block_offset newval in
  let m := set_bbt b m in
  if negb (oldval =? newval) then
    let! (ret, m, d) := FNandUpdateBbt g m d in
    if negb (ret =? FT_SUCCESS) then Ok (ret, m, d) else Ok (FT_SUCCESS, m, d)
  else Ok (FT_SUCCESS, m, d).
End Driver.
