(* ===== verification/NandBbmProps.v ===== *)
(** Properties of the bad-block management of [NandBbm]: the RAM and flash
    encodings of the table, marking and testing blocks, finding and writing a
    table, and the persistence of the table across a restart, for a flash that
    keeps what it is given ([FlashLaws]). *)
From S2P Require Import Prelude NandBbm.

#[local] Ltac Zify.zify_post_hook ::= Z.to_euclidean_division_equations.

(** ** Bytes of the table *)

Definition byte (x : Z) : Prop := 0 <= x < 256.

(** Checks a decidable property of all bytes by computation. *)
Lemma byte_check (P : Z -> bool) :
  forallb P (seqZ 0 256) = true -> forall x, byte x -> P x = true.
Proof.
  intros H x Hx. rewrite forallb_forall in H. apply H.
  apply list_elem_of_In, elem_of_seqZ. exact Hx.
Qed.

Lemma convert_flash_byte x : byte x -> convert_byte (flash_byte x) = x.
Proof.
  intros Hx. apply Z.eqb_eq.
  apply (byte_check (fun x => convert_byte (flash_byte x) =? x)); [|done].
  vm_compute. reflexivity.
Qed.

Lemma flash_byte_complement x : byte x -> flash_byte x = 255 - x.
Proof.
  intros Hx. apply Z.eqb_eq.
  apply (byte_check (fun x => flash_byte x =? 255 - x)); [|done].
  vm_compute. reflexivity.
Qed.

(** The type of block [k] in a table. *)
Definition block_type (b : list Z) (k : Z) : Z :=
  Z.land (Z.shiftr (nth (Z.to_nat (k / 4)) b 0) (2 * (k mod 4))) 3.

Lemma block_shift_ok k : 0 <= k < 2 ^ 31 -> FNAND_BBTBLOCKSHIFT k = 2 * (k mod 4).
Proof.
  intros Hk. unfold FNAND_BBTBLOCKSHIFT, FNAND_BLOCK_SHIFT_MASK.
  rewrite wrap_small by lia. change 6 with (Z.shiftl (Z.ones 2) 1).
  replace (k * 2) with (Z.shiftl k 1) by (rewrite Z.shiftl_mul_pow2; lia).
  rewrite <-Z.shiftl_land, Z.land_ones, Z.shiftl_mul_pow2 by lia.
  change (2 ^ 2) with 4. lia.
Qed.

Lemma block_offset_ok k : Z.shiftr k FNAND_BBT_BLOCK_SHIFT = k / 4.
Proof. unfold FNAND_BBT_BLOCK_SHIFT. by rewrite Z.shiftr_div_pow2 by lia. Qed.

(** [f] written over the [n] entries of [dst] from [off] on. *)
Fixpoint map_loop (f : Z -> Z) (n : nat) (off : Z) (src dst : list Z) : res (list Z) :=
  match n with
  | O => Ok dst
  | S n =>
      let! x := aget src off in
      let! dst := aset dst off (f x) in
      map_loop f n (off + 1) src dst
  end.

Lemma convert_loop_map n off buf b : convert_loop n off buf b = map_loop convert_byte n off buf b.
Proof.
  revert off b. induction n as [|n IH]; intros off b; simpl; [done|].
  destruct (aget buf off) as [x|e]; simpl; [|done].
  destruct (aset b off _) as [b'|e]; simpl; [apply IH|done].
Qed.

Lemma encode_loop_map n off b buf : encode_loop n off b buf = map_loop flash_byte n off b buf.
Proof.
  revert off buf. induction n as [|n IH]; intros off buf; simpl; [done|].
  destruct (aget b off) as [x|e]; simpl; [|done].
  destruct (aset buf off _) as [b'|e]; simpl; [apply IH|done].
Qed.

Lemma map_loop_ok f n off src dst :
  0 <= off -> off + Z.of_nat n <= Z.of_nat (length src) ->
  off + Z.of_nat n <= Z.of_nat (length dst) ->
  exists dst', map_loop f n off src dst = Ok dst' /\ length dst' = length dst /\
    forall i, dst' !! i =
      if (off <=? Z.of_nat i) && (Z.of_nat i <? off + Z.of_nat n) then f <$> src !! i
      else dst !! i.
Proof.
  revert off dst. induction n as [|n IH]; intros off dst Ho Hs Hd.
  - exists dst. split; [done|]. split; [done|]. intros i. split_cmp; (done || lia).
  - cbn [map_loop].
    destruct (lookup_lt_is_Some_2 src (Z.to_nat off)) as [x Hx]; [lia|].
    rewrite (aget_Some src off x) by done. cbn [rbind]. rewrite aset_in_range by lia. cbn [rbind].
    destruct (IH (off + 1) (<[Z.to_nat off:=f x]> dst)) as (dst' & He & Hl & Hi);
      [lia|lia|rewrite length_insert; lia|].
    exists dst'. split; [done|]. rewrite length_insert in Hl. split; [done|]. intros i. rewrite Hi.
    destruct (Z.eqb_spec (Z.of_nat i) off) as [Heq|Hne].
    + assert (i = Z.to_nat off) as -> by lia.
      rewrite list_lookup_insert_eq by lia. rewrite Hx. split_cmp; (done || lia).
    + rewrite list_lookup_insert_ne by lia. split_cmp; (done || lia).
Qed.

(** ** Well-formed instances *)
Record geometry_ok (g : FNandNandGeometry) : Prop := {
  geo_blocks : 16 <= g.(num_blocks) <= FNAND_MAX_BLOCKS;
  geo_four : g.(num_blocks) mod 4 = 0;
  geo_pages : 0 < g.(pages_per_block);
  geo_size : g.(num_blocks) * g.(pages_per_block) < 2 ^ 32;
  geo_spare : 13 <= g.(spare_bytes_per_page) <= FNAND_MAX_SPARE_SIZE
}.

(** A table in RAM: one byte for four blocks. *)
Definition bbt_ok (b : list Z) : Prop := Z.of_nat (length b) = 8192 /\ Forall byte b.

Lemma bbtlen_ok g : geometry_ok g -> bbtlen g = g.(num_blocks) / 4 /\ 4 <= bbtlen g <= 8192.
Proof.
  intros [Hb Hf _ _ _]. unfold bbtlen, FNAND_MAX_BLOCKS in *. rewrite block_offset_ok.
  rewrite wrap_small; lia.
Qed.

Lemma bbt_get b k :
  bbt_ok b -> 0 <= k < FNAND_MAX_BLOCKS ->
  exists x, aget b (k / 4) = Ok x /\ byte x /\ nth (Z.to_nat (k / 4)) b 0 = x /\
    b !! Z.to_nat (k / 4) = Some x.
Proof.
  intros [Hl Hb] Hk. unfold FNAND_MAX_BLOCKS in Hk.
  destruct (lookup_lt_is_Some_2 b (Z.to_nat (k / 4))) as [x Hx]; [lia|].
  exists x. split; [apply aget_Some; [lia|done]|]. split.
  - rewrite Forall_lookup in Hb. by apply (Hb _ _ Hx).
  - split; [|done]. by apply nth_lookup_Some.
Qed.

(** The type of a block depends on its byte of the table only. *)
Lemma block_type_ext b b' k :
  b !! Z.to_nat (k / 4) = b' !! Z.to_nat (k / 4) -> block_type b k = block_type b' k.
Proof. unfold block_type. by rewrite !nth_lookup; intros ->. Qed.

(** Changing one byte of the table. *)
Lemma block_type_insert b k x j :
  bbt_ok b -> 0 <= k < FNAND_MAX_BLOCKS -> 0 <= j ->
  block_type (<[Z.to_nat (k / 4) := x]> b) j =
  if j / 4 =? k / 4 then Z.land (Z.shiftr x (2 * (j mod 4))) 3 else block_type b j.
Proof.
  intros [Hl _] Hk Hj. unfold FNAND_MAX_BLOCKS in Hk. destruct (Z.eqb_spec (j / 4) (k / 4)) as [He|Hne].
  - unfold block_type. rewrite He, nth_lookup, list_lookup_insert_eq by lia. done.
  - apply block_type_ext. rewrite list_lookup_insert_ne by lia. done.
Qed.

Lemma bbt_ok_insert b i x : bbt_ok b -> byte x -> bbt_ok (<[i := x]> b).
Proof.
  intros [Hl Hb] Hx. split; [by rewrite length_insert|]. by apply Forall_insert.
Qed.

(** A property of a byte and of two of its four entries, by computation. *)
Lemma entry_check (P : Z -> Z -> Z -> bool) :
  forallb (fun x => forallb (fun s => forallb (P x s) (seqZ 0 4)) (seqZ 0 4)) (seqZ 0 256) = true ->
  forall x s j, byte x -> 0 <= s < 4 -> 0 <= j < 4 -> P x s j = true.
Proof.
  intros H x s j Hx Hs Hj. rewrite forallb_forall in H.
  specialize (H x). rewrite forallb_forall in H by (by apply list_elem_of_In, elem_of_seqZ).
  specialize (H ltac:(by apply list_elem_of_In, elem_of_seqZ) s).
  rewrite forallb_forall in H by (by apply list_elem_of_In, elem_of_seqZ).
  apply H; by apply list_elem_of_In, elem_of_seqZ.
Qed.

(** The table with one byte replaced by [f x s], where [f] acts on entry [s]. *)
Lemma entry_update (f : Z -> Z -> Z) (h : Z -> Z) b k x :
  (forall x s j, byte x -> 0 <= s < 4 -> 0 <= j < 4 -> byte (f x s) /\
     Z.land (Z.shiftr (f x s) (2 * j)) 3 =
     let t := Z.land (Z.shiftr x (2 * j)) 3 in if j =? s then h t else t) ->
  bbt_ok b -> 0 <= k < FNAND_MAX_BLOCKS -> b !! Z.to_nat (k / 4) = Some x ->
  bbt_ok (<[Z.to_nat (k / 4) := f x (k mod 4)]> b) /\
  forall j, 0 <= j ->
    block_type (<[Z.to_nat (k / 4) := f x (k mod 4)]> b) j =
    if j =? k then h (block_type b j) else block_type b j.
Proof.
  intros Hf Hb Hk Hl. assert (Hx : byte x).
  { destruct Hb as [_ Hb]. rewrite Forall_lookup in Hb. by apply (Hb _ _ Hl). }
  split; [apply bbt_ok_insert; [done|by apply (Hf x (k mod 4) 0 Hx); lia]|].
  intros j Hj. rewrite block_type_insert by done.
  destruct (Z.eqb_spec (j / 4) (k / 4)) as [Heq|Hne].
  - rewrite (proj2 (Hf x (k mod 4) (j mod 4) Hx ltac:(lia) ltac:(lia))). cbv zeta.
    assert (block_type b j = Z.land (Z.shiftr x (2 * (j mod 4))) 3) as ->.
    { unfold block_type. by rewrite Heq, nth_lookup, Hl. }
    destruct (Z.eqb_spec (j mod 4) (k mod 4)), (Z.eqb_spec j k); subst; (done || lia).
  - destruct (Z.eqb_spec j k); [subst; lia|done].
Qed.

Definition mark_byte (x s : Z) : Z :=
  Z.lor (Z.land x (lnotw 8 (Z.shiftl FNAND_BLOCK_TYPE_MASK (2 * s))))
        (u8 (Z.shiftl FNAND_BLOCK_BAD (2 * s))).

Lemma mark_byte_ok x s j :
  byte x -> 0 <= s < 4 -> 0 <= j < 4 ->
  byte (mark_byte x s) /\
  Z.land (Z.shiftr (mark_byte x s) (2 * j)) 3 =
  if j =? s then FNAND_BLOCK_BAD else Z.land (Z.shiftr x (2 * j)) 3.
Proof.
  intros Hx Hs Hj.
  assert (H : (0 <=? mark_byte x s) && (mark_byte x s <? 256) &&
    (Z.land (Z.shiftr (mark_byte x s) (2 * j)) 3 =?
     if j =? s then FNAND_BLOCK_BAD else Z.land (Z.shiftr x (2 * j)) 3) = true).
  { apply (entry_check (fun x s j => (0 <=? mark_byte x s) && (mark_byte x s <? 256) &&
      (Z.land (Z.shiftr (mark_byte x s) (2 * j)) 3 =?
       if j =? s then FNAND_BLOCK_BAD else Z.land (Z.shiftr x (2 * j)) 3)));
      [vm_compute; reflexivity|done..]. }
  unfold byte. lia.
Qed.

Definition reserve_byte (x s : Z) : Z := u8 (Z.lor x (Z.shiftl FNAND_BLOCK_RESERVED (2 * s))).

Lemma reserve_byte_ok x s j :
  byte x -> 0 <= s < 4 -> 0 <= j < 4 ->
  byte (reserve_byte x s) /\
  Z.land (Z.shiftr (reserve_byte x s) (2 * j)) 3 =
  let t := Z.land (Z.shiftr x (2 * j)) 3 in if j =? s then Z.lor t FNAND_BLOCK_RESERVED else t.
Proof.
  intros Hx Hs Hj.
  assert (H : (0 <=? reserve_byte x s) && (reserve_byte x s <? 256) &&
    (Z.land (Z.shiftr (reserve_byte x s) (2 * j)) 3 =?
     let t := Z.land (Z.shiftr x (2 * j)) 3 in
     if j =? s then Z.lor t FNAND_BLOCK_RESERVED else t) = true).
  { apply (entry_check (fun x s j => (0 <=? reserve_byte x s) && (reserve_byte x s <? 256) &&
      (Z.land (Z.shiftr (reserve_byte x s) (2 * j)) 3 =?
       let t := Z.land (Z.shiftr x (2 * j)) 3 in
       if j =? s then Z.lor t FNAND_BLOCK_RESERVED else t)));
      [vm_compute; reflexivity|done..]. }
  apply andb_true_iff in H as [H1 H2]. apply Z.eqb_eq in H2. unfold byte. split; [lia|exact H2].
Qed.

Definition factory_byte (x s : Z) : Z := u8 (Z.lor x (Z.shiftl FNAND_BLOCK_FACTORY_BAD (2 * s))).

Lemma factory_byte_ok x s j :
  byte x -> 0 <= s < 4 -> 0 <= j < 4 ->
  byte (factory_byte x s) /\
  Z.land (Z.shiftr (factory_byte x s) (2 * j)) 3 =
  (let t := Z.land (Z.shiftr x (2 * j)) 3 in if j =? s then FNAND_BLOCK_FACTORY_BAD else t) /\
  factory_byte (factory_byte x s) s = factory_byte x s.
Proof.
  intros Hx Hs Hj.
  assert (H : (0 <=? factory_byte x s) && (factory_byte x s <? 256) &&
    (Z.land (Z.shiftr (factory_byte x s) (2 * j)) 3 =?
     let t := Z.land (Z.shiftr x (2 * j)) 3 in
     if j =? s then FNAND_BLOCK_FACTORY_BAD else t) &&
    (factory_byte (factory_byte x s) s =? factory_byte x s) = true).
  { apply (entry_check (fun x s j => (0 <=? factory_byte x s) && (factory_byte x s <? 256) &&
      (Z.land (Z.shiftr (factory_byte x s) (2 * j)) 3 =?
       let t := Z.land (Z.shiftr x (2 * j)) 3 in
       if j =? s then FNAND_BLOCK_FACTORY_BAD else t) &&
      (factory_byte (factory_byte x s) s =? factory_byte x s)));
      [vm_compute; reflexivity|done..]. }
  apply andb_true_iff in H as [H H3]. apply andb_true_iff in H as [H1 H2].
  apply Z.eqb_eq in H2, H3. unfold byte. split; [lia|]. split; [exact H2|exact H3].
Qed.

Definition sig_of (w : which) : list Z :=
  match w with Primary => sig_primary | Mirror => sig_mirror end.

(** A descriptor as [FNandInitBbtDesc] sets it up, up to its position. *)
Record desc_ok (w : which) (d : FNandBbtDesc) : Prop := {
  desc_sig_offset : d.(sig_offset) = 8;
  desc_ver_offset : d.(ver_offset) = 12;
  desc_sig_length : d.(sig_length) = 4;
  desc_max_blocks : d.(max_blocks) = 4;
  desc_signature : d.(signature) = sig_of w;
  desc_version : byte d.(version)
}.

Definition manager_ok (m : FNandBadBlockManager) : Prop :=
  bbt_ok m.(bbt) /\ forall w, desc_ok w (get_desc w m).

Lemma get_set_desc w d m : get_desc w (set_desc w d m) = d.
Proof. by destruct w. Qed.
Lemma get_set_desc_other w d m : get_desc (other w) (set_desc w d m) = get_desc (other w) m.
Proof. by destruct w. Qed.
Lemma bbt_set_desc w d m : (set_desc w d m).(bbt) = m.(bbt).
Proof. by destruct w. Qed.
Lemma pattern_set_desc w d m : (set_desc w d m).(bb_pattern) = m.(bb_pattern).
Proof. by destruct w. Qed.
Lemma get_set_bbt w b m : get_desc w (set_bbt b m) = get_desc w m.
Proof. by destruct w. Qed.
Lemma other_other w : other (other w) = w.
Proof. by destruct w. Qed.
Lemma which_eq w w' : w' = w \/ w' = other w.
Proof. destruct w, w'; auto. Qed.

Create Rewrite HintDb nand.
#[export] Hint Rewrite get_set_desc get_set_desc_other bbt_set_desc pattern_set_desc
  get_set_bbt other_other : nand.

Lemma manager_ok_set_desc w d m :
  manager_ok m -> desc_ok w d -> manager_ok (set_desc w d m).
Proof.
  intros [Hb Hd] Hw. split; [by rewrite bbt_set_desc|]. intros w'.
  destruct (which_eq w w') as [-> | ->]; autorewrite with nand; auto.
Qed.

Lemma manager_ok_set_bbt b m : manager_ok m -> bbt_ok b -> manager_ok (set_bbt b m).
Proof. intros [Hb Hd] Hw. split; [done|]. intros w. rewrite get_set_bbt. auto. Qed.

Lemma blit_ok dst off src :
  0 <= off -> off + Z.of_nat (length src) <= Z.of_nat (length dst) ->
  exists dst', blit dst off src = Ok dst' /\ length dst' = length dst /\
    forall i, dst' !! i =
      if (off <=? Z.of_nat i) && (Z.of_nat i <? off + Z.of_nat (length src))
      then src !! (i - Z.to_nat off)%nat else dst !! i.
Proof.
  intros Ho Hl. unfold blit.
  rewrite (proj2 (Z.leb_le _ _)), (proj2 (Z.leb_le _ _)) by done. simpl.
  eexists. split; [done|]. split.
  { rewrite !length_app, length_take, length_drop. lia. }
  intros i. destruct (Nat.ltb_spec i (Z.to_nat off)).
  - rewrite lookup_app_l, lookup_take_lt by (rewrite ?length_take; lia).
    split_cmp; (done || lia).
  - rewrite lookup_app_r by (rewrite length_take; lia).
    rewrite length_take, Nat.min_l by lia.
    destruct (Nat.ltb_spec (i - Z.to_nat off) (length src)).
    + rewrite lookup_app_l by done. split_cmp; (done || lia).
    + rewrite lookup_app_r, lookup_drop by done.
      replace (Z.to_nat off + length src + (i - Z.to_nat off - length src))%nat with i by lia.
      split_cmp; (done || lia).
Qed.

Section GeometryFacts.
Context (g : FNandNandGeometry) (G : geometry_ok g).

(** The page at which block [k] starts. *)
Definition first_page (k : Z) : Z := k * g.(pages_per_block).

Lemma first_page_ok k :
  0 <= k < g.(num_blocks) -> u32 (k * g.(pages_per_block)) = first_page k.
Proof.
  destruct G as [_ _ Hp Hs _]. intros Hk. apply wrap_small. split; [by apply Z.mul_nonneg_nonneg; lia|].
  eapply Z.lt_trans; [|exact Hs]. apply Z.mul_lt_mono_pos_r; lia.
Qed.

Lemma first_page_inj j k : first_page j = first_page k -> j = k.
Proof. destruct G as [_ _ ? _ _]. unfold first_page. nia. Qed.

(** What a search for a block leaves in the descriptor. *)
Definition found_ok (b : list Z) (mirror : FNandBbtDesc) (found : option Z)
    (desc : FNandBbtDesc) : Prop :=
  match found with
  | None => desc.(valid) = 0
  | Some k => 0 <= k < g.(num_blocks) /\ desc.(valid) = 1 /\
      desc.(page_offset) = first_page k /\ desc.(page_offset) <> mirror.(page_offset) /\
      block_type b k <> FNAND_BLOCK_BAD /\ block_type b k <> FNAND_BLOCK_FACTORY_BAD
  end.

Lemma find_block_ok w n index block b desc mirror :
  bbt_ok b -> desc_ok w desc -> desc.(valid) = 0 ->
  0 <= index -> index + Z.of_nat n <= 4 -> 3 * Z.of_nat n <= block < g.(num_blocks) ->
  exists found desc', find_block n index block g b desc mirror = Ok (found, desc') /\
    desc_ok w desc' /\ desc'.(version) = desc.(version) /\ found_ok b mirror found desc'.
Proof.
  intros Hb. destruct G. unfold FNAND_MAX_BLOCKS in *.
  revert index block desc. induction n as [|n IH]; intros index block desc Hd Hv Hi Hn Hk.
  { by exists None, desc. }
  cbn [find_block]. rewrite wrap_small by lia.
  set (k := block - index) in *. assert (Hk' : 0 <= k < num_blocks g) by lia.
  rewrite block_offset_ok, block_shift_ok by lia.
  destruct (bbt_get b k Hb) as (x & -> & Hx & Hnth & _); [unfold FNAND_MAX_BLOCKS; lia|].
  cbn [rbind]. unfold FNAND_BLOCK_TYPE_MASK.
  assert (Ht : Z.land (Z.shiftr x (2 * (k mod 4))) 3 = block_type b k)
    by by (unfold block_type; rewrite Hnth).
  rewrite Ht. destruct (Z.eqb_spec (block_type b k) FNAND_BLOCK_BAD) as [|Hg1]; cbn [orb].
  { apply IH; (done || lia). }
  destruct (Z.eqb_spec (block_type b k) FNAND_BLOCK_FACTORY_BAD) as [|Hg2].
  { apply IH; (done || lia). }
  simpl page_offset. rewrite first_page_ok by done.
  destruct (Z.eqb_spec (first_page k) (page_offset mirror)); cbn [negb].
  - apply (IH (index + 1) k (set_page_offset (first_page k) desc)); try (done || lia).
    destruct Hd. by constructor.
  - eexists _, _. split; [done|]. split; [destruct Hd; by constructor|]. done.
Qed.

End GeometryFacts.

Section SpareFacts.
Context (stack_spare : list Z) (Hspare : Z.of_nat (length stack_spare) = FNAND_MAX_SPARE_SIZE).
Context (g : FNandNandGeometry) (G : geometry_ok g).

Lemma fill_spare_ok w desc :
  desc_ok w desc ->
  exists sp, fill_spare stack_spare g desc = Ok sp /\
    Z.of_nat (length sp) = FNAND_MAX_SPARE_SIZE /\
    (forall i, (i < 4)%nat -> sp !! (8 + i)%nat = sig_of w !! i) /\
    sp !! 12%nat = Some desc.(version).
Proof.
  intros []. destruct G. unfold FNAND_MAX_SPARE_SIZE, fill_spare, memset in *.
  rewrite desc_sig_offset0, desc_sig_length0, desc_ver_offset0, desc_signature0.
  edestruct (blit_ok stack_spare 0) as (s1 & -> & Hl1 & H1);
    [lia|rewrite length_replicate; lia|]. cbn [rbind].
  assert (Hsl : length (take (Z.to_nat 4) (sig_of w)) = 4%nat) by by destruct w.
  edestruct (blit_ok s1 8 (take (Z.to_nat 4) (sig_of w))) as (s2 & -> & Hl2 & H2);
    [lia|rewrite Hsl; lia|]. cbn [rbind].
  edestruct (blit_ok s2 12 [version desc]) as (s3 & -> & Hl3 & H3);
    [lia|simpl; lia|].
  exists s3. split; [done|]. split; [lia|]. split.
  - intros i Hi. rewrite H3, H2, Hsl. simpl length.
    repeat (rewrite (proj2 (Z.ltb_lt _ _)) || rewrite (proj2 (Z.leb_le _ _)) by lia).
    all: try lia.
    replace (12 <=? Z.of_nat (8 + i)) with false by (symmetry; apply Z.leb_gt; lia). simpl.
    replace (Z.of_nat (8 + i) <? 8 + Z.of_nat 4) with true by (symmetry; apply Z.ltb_lt; lia).
    destruct w; do 4 (destruct i as [|i]; [done|]); lia.
  - by rewrite H3.
Qed.
End SpareFacts.

Section BufFacts.
Context (stack_buf : list Z) (Hbuf : Z.of_nat (length stack_buf) = 8192).
Context (g : FNandNandGeometry) (G : geometry_ok g).

Lemma encode_ok b :
  bbt_ok b -> exists buf0 buf, memset stack_buf 255 (bbtlen g) = Ok buf0 /\
    encode_loop (Z.to_nat (bbtlen g)) 0 b buf0 = Ok buf /\ Z.of_nat (length buf) = 8192 /\
    forall i, Z.of_nat i < bbtlen g -> buf !! i = flash_byte <$> b !! i.
Proof.
  intros [Hl _]. pose proof (bbtlen_ok g G) as [_ Hbl]. unfold memset.
  destruct (blit_ok stack_buf 0 (replicate (Z.to_nat (bbtlen g)) 255)) as (b0 & He & Hl0 & _);
    [lia|rewrite length_replicate; lia|]. exists b0. rewrite encode_loop_map.
  destruct (map_loop_ok flash_byte (Z.to_nat (bbtlen g)) 0 b b0) as (b1 & He1 & Hl1 & H1); [lia..|].
  exists b1. split; [done|]. split; [done|]. split; [lia|]. intros i Hi. rewrite H1.
  split_cmp; (done || lia).
Qed.

(** Round trip: the flash table that [FNandWriteBbt] builds from a RAM table,
    read back by [FNandConvertBbt] over any other RAM table, gives the type of
    every block back. *)
Theorem bbt_flash_roundtrip m m0 :
  bbt_ok m.(bbt) -> bbt_ok m0.(bbt) ->
  exists buf0 buf m1, memset stack_buf 255 (bbtlen g) = Ok buf0 /\
    encode_loop (Z.to_nat (bbtlen g)) 0 m.(bbt) buf0 = Ok buf /\
    FNandConvertBbt g buf m0 = Ok m1 /\
    forall k, 0 <= k < g.(num_blocks) -> block_type m1.(bbt) k = block_type m.(bbt) k.
Proof.
  intros Hb [Hl0 _]. pose proof (bbtlen_ok g G) as [Hbl Hbl2]. pose proof (geo_four g G).
  destruct (encode_ok m.(bbt) Hb) as (buf0 & buf & He0 & He & Hlen & Hbuf').
  destruct (map_loop_ok convert_byte (Z.to_nat (bbtlen g)) 0 buf m0.(bbt)) as (b & Hc & _ & Hi);
    [lia..|].
  exists buf0, buf, (set_bbt b m0). split; [done|]. split; [done|]. split.
  { unfold FNandConvertBbt. by rewrite convert_loop_map, Hc. }
  intros k Hk. apply block_type_ext. simpl. rewrite Hi.
  rewrite (proj2 (Z.leb_le _ _)), (proj2 (Z.ltb_lt _ _)), Hbuf' by lia. cbn [andb].
  destruct (m.(bbt) !! Z.to_nat (k / 4)) as [x|] eqn:Hx; [|done]. simpl.
  destruct Hb as [_ Hb]. rewrite Forall_lookup in Hb. by rewrite convert_flash_byte by by apply (Hb _ _ Hx).
Qed.
End BufFacts.

Lemma set_get_desc w m : set_desc w (get_desc w m) m = m.
Proof. by destruct w, m. Qed.

Section DriverFacts.
Context `{N : NandDev} (stack_buf stack_spare : list Z).
Context (Hbuf : Z.of_nat (length stack_buf) = 8192).
Context (Hspare : Z.of_nat (length stack_spare) = FNAND_MAX_SPARE_SIZE).
Context (g : FNandNandGeometry) (G : geometry_ok g).

Abbreviation WriteBbt := (FNandWriteBbt stack_buf stack_spare g).

(** The manager after a table has been written for [w]. *)
Definition wrote (w : which) (m m' : FNandBadBlockManager) : Prop :=
  m'.(bbt) = m.(bbt) /\ m'.(bb_pattern) = m.(bb_pattern) /\
  get_desc (other w) m' = get_desc (other w) m /\
  (get_desc w m').(version) = (get_desc w m).(version) /\
  ((get_desc w m).(valid) <> 0 -> m' = m) /\ manager_ok m'.

(** Writing a table always comes to an end, and changes at most the position of
    the descriptor it is written for. *)
Lemma write_frame w m d :
  manager_ok m -> exists ret m' d', WriteBbt w m d = Ok (ret, m', d') /\ wrote w m m'.
Proof.
  intros M. pose proof M as [Hb Hd]. unfold FNandWriteBbt.
  destruct (encode_ok stack_buf Hbuf g G m.(bbt) Hb) as (buf0 & buf & He0 & He & _).
  assert (exists found desc', (if valid (get_desc w m) =? 0
     then find_block (Z.to_nat (max_blocks (get_desc w m))) 0 (u32 (num_blocks g - 1)) g (bbt m)
            (get_desc w m) (get_desc (other w) m)
     else if pages_per_block g =? 0 then Fault Undefined
     else Ok (Some (page_offset (get_desc w m) / pages_per_block g), get_desc w m))
    = Ok (found, desc') /\ desc_ok w desc' /\ version desc' = version (get_desc w m) /\
    (valid (get_desc w m) <> 0 -> desc' = get_desc w m)) as (found & desc' & -> & D & Hv & Hsame).
  { destruct (Z.eqb_spec (valid (get_desc w m)) 0) as [Hz|].
    - pose proof G as []. unfold FNAND_MAX_BLOCKS in *.
      rewrite (desc_max_blocks w _ (Hd w)), wrap_small by lia.
      destruct (find_block_ok g G w 4 0 (num_blocks g - 1) m.(bbt) (get_desc w m)
        (get_desc (other w) m)) as (found & desc' & He1 & D & Hv & _); try (apply Hd || done || lia).
      by exists found, desc'.
    - rewrite (proj2 (Z.eqb_neq _ _)) by (destruct G; lia).
      eexists _, _. split; [done|]. split; [apply Hd|done]. }
  cbn [rbind].
  assert (W : wrote w m (set_desc w desc' m)).
  { unfold wrote. autorewrite with nand. split_and!; try done.
    - intros Hz. rewrite Hsame by done. apply set_get_desc.
    - by apply manager_ok_set_desc. }
  destruct found as [k|]; [|by eexists _, _, _].
  rewrite bbt_set_desc, He0. cbn [rbind]. rewrite He. cbn [rbind].
  destruct (FNandEraseBlock g d k) as [ret d1].
  destruct (negb (ret =? FT_SUCCESS)); [by eexists _, _, _|].
  destruct (fill_spare_ok stack_spare Hspare g G w desc' D) as (sp & -> & _). cbn [rbind].
  destruct (FNandWritePage _ _ _ _ _ _ _ _) as [st d2]. by eexists _, _, _.
Qed.

Abbreviation UpdateBbt := (FNandUpdateBbt stack_buf stack_spare g).

Lemma bump_ok w m : manager_ok m -> manager_ok (bump_version w m).
Proof.
  intros M. pose proof M as [_ Hd]. unfold bump_version. apply manager_ok_set_desc; [done|].
  destruct (Hd w). constructor; try done. simpl.
  unfold byte. pose proof (wrap_range 8 ltac:(lia) ((version (get_desc w m) + 1) mod 256)). lia.
Qed.

Lemma bbt_bump w m : (bump_version w m).(bbt) = m.(bbt).
Proof. apply bbt_set_desc. Qed.

Lemma update_frame m d :
  manager_ok m -> exists ret m' d', UpdateBbt m d = Ok (ret, m', d') /\
    m'.(bbt) = m.(bbt) /\ manager_ok m'.
Proof.
  intros M. unfold FNandUpdateBbt.
  destruct (write_frame Primary _ d (bump_ok Mirror _ (bump_ok Primary m M)))
    as (ret & m1 & d1 & -> & W1 & _ & _ & _ & _ & M1). cbn [rbind].
  rewrite !bbt_bump in W1. destruct (negb _); [by eexists _, _, _|].
  destruct (write_frame Mirror m1 d1 M1) as (ret2 & m2 & d2 & -> & W2 & _ & _ & _ & _ & M2).
  cbn [rbind]. rewrite W1 in W2. destruct (negb _); by eexists _, _, _.
Qed.

Lemma is_bad_type m k :
  manager_ok m -> 0 <= k < g.(num_blocks) ->
  FNandIsBlockBad g m k =
  Ok (if block_type m.(bbt) k =? FNAND_BLOCK_GOOD then FNAND_VALUE_FAILURE else FT_SUCCESS).
Proof.
  intros [Hb _] Hk. pose proof (geo_blocks g G) as Hg. unfold FNAND_MAX_BLOCKS in Hg.
  unfold FNandIsBlockBad. rewrite (proj2 (Z.ltb_lt _ _)) by lia.
  rewrite block_offset_ok, block_shift_ok by lia.
  destruct (bbt_get m.(bbt) k Hb) as (x & -> & _ & Hn & _); [unfold FNAND_MAX_BLOCKS; lia|].
  cbn [rbind]. unfold block_type, FNAND_BLOCK_TYPE_MASK. rewrite Hn. by destruct (_ =? _).
Qed.

(** Marking a block bad always comes to an end; then exactly that block has
    type bad, and [FNandIsBlockBad] answers accordingly, whatever the update of
    the table in flash reports. *)
Theorem FNandMarkBlockBad_marks m d k :
  manager_ok m -> 0 <= k < g.(num_blocks) ->
  exists ret m' d', FNandMarkBlockBad stack_buf stack_spare g m d k = Ok (ret, m', d') /\
    manager_ok m' /\
    (forall j, 0 <= j < g.(num_blocks) ->
       block_type m'.(bbt) j = if j =? k then FNAND_BLOCK_BAD else block_type m.(bbt) j) /\
    (forall j, 0 <= j < g.(num_blocks) ->
       FNandIsBlockBad g m' j = if j =? k then Ok FT_SUCCESS else FNandIsBlockBad g m j).
Proof.
  intros M Hk. pose proof M as [Hb _]. pose proof (geo_blocks g G) as Hg.
  unfold FNAND_MAX_BLOCKS in Hg. unfold FNandMarkBlockBad.
  rewrite (proj2 (Z.ltb_lt _ _)) by lia. rewrite block_offset_ok, block_shift_ok by lia.
  destruct (bbt_get m.(bbt) k Hb) as (x & -> & Hx & _ & Hl); [unfold FNAND_MAX_BLOCKS; lia|].
  cbn [rbind]. fold (mark_byte x (k mod 4)). rewrite aset_in_range by (destruct Hb; lia).
  cbn [rbind]. set (b := <[Z.to_nat (k / 4) := mark_byte x (k mod 4)]> (bbt m)).
  destruct (entry_update mark_byte (fun _ => FNAND_BLOCK_BAD) (bbt m) k x mark_byte_ok Hb
    ltac:(unfold FNAND_MAX_BLOCKS; lia) Hl) as [Hb' Ht]. fold b in Hb', Ht.
  assert (Hm : manager_ok (set_bbt b m)) by by apply manager_ok_set_bbt.
  assert (exists ret m' d', (if negb (x =? mark_byte x (k mod 4)) then
      let! (ret, m, d) := UpdateBbt (set_bbt b m) d in
      if negb (ret =? FT_SUCCESS) then Ok (ret, m, d) else Ok (FT_SUCCESS, m, d)
    else Ok (FT_SUCCESS, set_bbt b m, d)) = Ok (ret, m', d') /\ bbt m' = b /\ manager_ok m')
    as (ret & m' & d' & -> & Hm1 & Hm2).
  { destruct (negb _); [|by eexists _, _, _].
    destruct (update_frame _ d Hm) as (ret & m' & d' & -> & Hm1 & Hm2). cbn [rbind].
    destruct (negb _); by eexists _, _, _. }
  exists ret, m', d'. split; [done|]. split; [done|]. rewrite Hm1.
  split; [intros j Hj; apply Ht; lia|].
  intros j Hj. rewrite !is_bad_type, Hm1, Ht by (done || lia). by destruct (j =? k).
Qed.

(** ** Reserving the blocks of the table *)
Lemma mark_loop_ok n k b u :
  bbt_ok b -> 0 <= k -> k + Z.of_nat n <= FNAND_MAX_BLOCKS ->
  exists b' u', mark_loop n k b u = Ok (b', u') /\ bbt_ok b' /\
    (forall j, 0 <= j -> block_type b' j =
       if (k <=? j) && (j <? k + Z.of_nat n)
       then Z.lor (block_type b j) FNAND_BLOCK_RESERVED else block_type b j).
Proof.
  revert k b u. induction n as [|n IH]; intros k b u Hb Hk Hn.
  { exists b, u. split; [done|]. split; [done|].
    intros j _. split_cmp; (done || lia). }
  unfold FNAND_MAX_BLOCKS in Hn. cbn [mark_loop]. rewrite block_offset_ok, block_shift_ok by lia.
  destruct (bbt_get b k Hb) as (x & -> & Hx & _ & Hl); [unfold FNAND_MAX_BLOCKS; lia|].
  cbn [rbind]. fold (reserve_byte x (k mod 4)). rewrite aset_in_range by (destruct Hb; lia).
  cbn [rbind]. rewrite (wrap_small 32 (k + 1)) by lia.
  destruct (entry_update reserve_byte (fun t => Z.lor t FNAND_BLOCK_RESERVED) b k x
    reserve_byte_ok Hb ltac:(unfold FNAND_MAX_BLOCKS; lia) Hl) as [Hb1 Ht1].
  edestruct (IH (k + 1)) as (b' & u' & -> & Hb' & Ht);
    [exact Hb1|lia|unfold FNAND_MAX_BLOCKS; lia|].
  eexists b', u'. split; [done|]. split; [done|].
  intros j Hj. rewrite Ht, Ht1 by done. split_cmp; simpl; (done || lia).
Qed.

(** [FNandMarkBbt] always comes to an end and reserves exactly the last four
    blocks; a block already marked as bad stays bad. *)
Theorem FNandMarkBbt_reserves w m d :
  manager_ok m ->
  exists ret m' d', FNandMarkBbt stack_buf stack_spare g w m d = Ok (ret, m', d') /\
    manager_ok m' /\
    forall j, 0 <= j < g.(num_blocks) ->
      block_type m'.(bbt) j =
      if g.(num_blocks) - 4 <=? j then Z.lor (block_type m.(bbt) j) FNAND_BLOCK_RESERVED
      else block_type m.(bbt) j.
Proof.
  intros M. pose proof M as [Hb Hd]. pose proof (geo_blocks g G) as Hg. unfold FNAND_MAX_BLOCKS in Hg.
  unfold FNandMarkBbt. rewrite (desc_max_blocks w _ (Hd w)). change (Z.to_nat 4) with 4%nat.
  rewrite wrap_small by lia.
  destruct (mark_loop_ok 4 (num_blocks g - 4) (bbt m) false Hb) as (b & u & -> & Hb' & Ht);
    [lia|unfold FNAND_MAX_BLOCKS; lia|]. cbn [rbind].
  assert (Hm : manager_ok (set_bbt b m)) by by apply manager_ok_set_bbt.
  assert (Ht' : forall j, 0 <= j < num_blocks g -> block_type b j =
    if num_blocks g - 4 <=? j then Z.lor (block_type m.(bbt) j) FNAND_BLOCK_RESERVED
    else block_type m.(bbt) j).
  { intros j Hj. rewrite Ht by lia. by rewrite (proj2 (Z.ltb_lt j _)), andb_true_r by lia. }
  destruct u; [|by exists FT_SUCCESS, (set_bbt b m), d].
  destruct (update_frame _ d Hm) as (ret & m' & d' & -> & Hm1 & Hm2). cbn [rbind].
  assert (Hend : exists ret', (if negb (ret =? FT_SUCCESS) then Ok (ret, m', d')
    else Ok (FT_SUCCESS, m', d')) = Ok (ret', m', d')) by by destruct (negb _); eexists.
  destruct Hend as (ret' & ->). exists ret', m', d'. split; [done|]. split; [done|].
  by rewrite Hm1.
Qed.
End DriverFacts.

(** ** A flash that keeps what it is given

    The documented behaviour of a NAND flash behind the transfer functions:
    erasing touches only the block of the page it is given; programming an
    erased page stores the bytes, of the spare area those below [ecc_from],
    where the controller puts its own check bytes; reading changes nothing, and
    succeeds for the pages that are [readable]. *)
Class FlashLaws `{N : NandDev} (g : FNandNandGeometry) := {
  page_byte : dev -> Z -> Z -> Z;
  spare_byte : dev -> Z -> Z -> Z;
  readable : Z -> bool;
  erased : dev -> Z -> Prop;
  ecc_from : Z;
  law_erase d a : exists d', erase_p d a = (FT_SUCCESS, d') /\
    (forall p, a <= p < a + g.(pages_per_block) -> erased d' p) /\
    (forall p, ~ a <= p < a + g.(pages_per_block) ->
       forall i, page_byte d' p i = page_byte d p i /\ spare_byte d' p i = spare_byte d p i);
  law_write d a buf n sp :
    erased d a -> 0 < n <= Z.of_nat (length buf) -> Z.of_nat (length sp) = FNAND_MAX_SPARE_SIZE ->
    exists d', write_hw_ecc_p d (mkOp a (Some buf) 0 n 1 (Some sp) 0 FNAND_MAX_SPARE_SIZE)
        = (FT_SUCCESS, d') /\
      (forall i x, Z.of_nat i < n -> buf !! i = Some x -> page_byte d' a (Z.of_nat i) = x) /\
      (forall i x, Z.of_nat i < ecc_from -> sp !! i = Some x -> spare_byte d' a (Z.of_nat i) = x) /\
      (forall p, p <> a ->
         forall i, page_byte d' p i = page_byte d p i /\ spare_byte d' p i = spare_byte d p i);
  law_read d a buf n :
    readable a = true -> 0 < n <= Z.of_nat (length buf) ->
    exists buf' sp, read_hw_ecc_p d (mkOp a (Some buf) 0 n 0 None 0 0) = (FT_SUCCESS, buf', sp, d) /\
      length buf' = length buf /\
      forall i, Z.of_nat i < n -> buf' !! i = Some (page_byte d a (Z.of_nat i));
  law_read_oob d a sp :
    Z.of_nat (length sp) = FNAND_MAX_SPARE_SIZE ->
    exists st buf sp', read_oob_p d (mkOp a None 0 0 1 (Some sp) 0 FNAND_MAX_SPARE_SIZE)
        = (st, buf, sp', d) /\
      (st = FT_SUCCESS <-> readable a = true) /\
      (st = FT_SUCCESS ->
       forall i, Z.of_nat i < FNAND_MAX_SPARE_SIZE -> sp' !! i = Some (spare_byte d a (Z.of_nat i)))
}.

Section FlashFacts.
Context `{N : NandDev} (stack_buf stack_spare : list Z).
Context (Hbuf : Z.of_nat (length stack_buf) = 8192).
Context (Hspare : Z.of_nat (length stack_spare) = FNAND_MAX_SPARE_SIZE).
Context (g : FNandNandGeometry) (G : geometry_ok g) `{F : !FlashLaws g}.

Lemma read_spare d a :
  exists st sp, FNandReadPageOOb d a stack_spare 0 FNAND_MAX_SPARE_SIZE = (st, sp, d) /\
    (st =? FT_SUCCESS) = readable a /\
    (readable a = true -> forall i, 0 <= i < FNAND_MAX_SPARE_SIZE ->
       aget sp i = Ok (spare_byte d a i)).
Proof.
  destruct (law_read_oob d a stack_spare Hspare) as (st & buf & sp & He & Hst & Hi).
  unfold FNandReadPageOOb. rewrite He. exists st, sp. split; [done|]. split.
  - destruct (Z.eqb_spec st FT_SUCCESS) as [Hs|Hs].
    + symmetry. by apply Hst.
    + destruct (readable a); [by destruct Hs; apply Hst|done].
  - intros Hr i Hi'. apply aget_Some; [lia|]. rewrite Hi by (try apply Hst; (done || lia)).
    by rewrite Z2Nat.id by lia.
Qed.

(** Whether the page carries the signature of [w]. *)
Definition has_sig (w : which) (d : dev) (a : Z) : bool :=
  forallb (fun i => spare_byte d a (8 + Z.of_nat i) =? nth i (sig_of w) 0) (seq 0 4).

Lemma sig_matches_ok w desc sp d a :
  desc_ok w desc -> (forall i, 0 <= i < FNAND_MAX_SPARE_SIZE -> aget sp i = Ok (spare_byte d a i)) ->
  sig_matches 4 0 desc sp = Ok (has_sig w d a).
Proof.
  intros [] Hsp. unfold FNAND_MAX_SPARE_SIZE in Hsp. unfold has_sig. simpl.
  rewrite desc_sig_offset0, desc_signature0.
  rewrite !Hsp by (vm_compute; by split).
  destruct w; simpl.
  all: change (u32 (0 + 8)) with 8; change (u32 (0 + 1 + 8)) with 9;
    change (u32 (0 + 1 + 1 + 8)) with 10; change (u32 (0 + 1 + 1 + 1 + 8)) with 11;
    repeat (destruct (spare_byte d a _ =? _); simpl; try done).
Qed.

(** The descriptor of a table found at block [k]. *)
Definition found_desc (d : dev) (k : Z) (desc : FNandBbtDesc) : FNandBbtDesc :=
  set_valid 1 (set_version (spare_byte d (first_page g k) 12) (set_page_offset (first_page g k) desc)).

(** The block where a table of [w] is found. *)
Definition carries (w : which) (d : dev) (k : Z) : bool :=
  readable (first_page g k) && has_sig w d (first_page g k).
Definition table_block (w : which) (d : dev) : option Z :=
  find (carries w d) (map (fun i => g.(num_blocks) - 1 - i) [0; 1; 2; 3]).

Lemma search_loop_ok w n i desc d :
  desc_ok w desc -> 0 <= i -> i + Z.of_nat n <= 4 ->
  search_loop stack_spare n i g desc d =
  Ok (match find (carries w d) (map (fun i => g.(num_blocks) - 1 - i) (seqZ i (Z.of_nat n))) with
      | Some k => (FT_SUCCESS, found_desc d k desc, d)
      | None => (FNAND_VALUE_ERROR, desc, d)
      end).
Proof.
  intros Hd. pose proof (geo_blocks g G) as Hg. unfold FNAND_MAX_BLOCKS in Hg.
  revert i. induction n as [|n IH]; intros i Hi Hn; [done|].
  rewrite (seqZ_cons i) by lia. rewrite Nat2Z.inj_succ, Z.pred_succ.
  cbn [search_loop map find]. rewrite (wrap_small 32 (num_blocks g - 1)) by lia.
  rewrite (wrap_small 32 (_ - i)) by lia. rewrite first_page_ok by (done || lia).
  set (k := num_blocks g - 1 - i). unfold carries at 1.
  destruct (read_spare d (first_page g k)) as (st & sp & -> & -> & Hsp).
  destruct (readable (first_page g k)); cbn [negb andb]; [|apply IH; lia].
  rewrite (desc_sig_length w _ Hd).
  change (Z.to_nat 4) with 4%nat. rewrite (sig_matches_ok w _ _ d (first_page g k)) by auto.
  cbn [rbind]. destruct (has_sig w d (first_page g k)); [|apply IH; lia].
  rewrite (desc_ver_offset w _ Hd), Hsp by (done || (vm_compute; by split)). done.
Qed.

(** [FNandSearchBbt] finds the table of [w] in the last four blocks: in the
    first one, counted from the end, whose first page can be read and carries
    the signature; it takes position and version from there. *)
Theorem FNandSearchBbt_finds w m d :
  manager_ok m ->
  FNandSearchBbt stack_spare g w m d =
  Ok (match table_block w d with
      | Some k => (FT_SUCCESS, set_desc w (found_desc d k (get_desc w m)) m, d)
      | None => (FNAND_VALUE_ERROR, m, d)
      end).
Proof.
  intros [_ Hd]. unfold FNandSearchBbt. rewrite (desc_max_blocks w _ (Hd w)).
  rewrite (search_loop_ok w (Z.to_nat 4) 0) by (done || lia). cbn [rbind].
  change (seqZ 0 (Z.of_nat (Z.to_nat 4))) with [0; 1; 2; 3]. fold (table_block w d).
  destruct (table_block w d); [done|]. by rewrite set_get_desc.
Qed.

(** ** Factory marks *)
Record pattern_ok (p : FNandBadBlockPattern) : Prop := {
  pat_second : p.(pat_options) = FNAND_BBT_SCAN_2ND_PAGE;
  pat_where : p.(pat_offset) = 0 /\ p.(pat_length) = 2 \/ p.(pat_offset) = 5 /\ p.(pat_length) = 1;
  pat_ff : p.(pat_pattern) = [255; 255]
}.

(** A page marks its block as bad: it cannot be read, or a byte of its mark is
    not 0xff. *)
Definition page_bad (p : FNandBadBlockPattern) (d : dev) (a : Z) : bool :=
  negb (readable a) ||
  existsb (fun i => negb (spare_byte d a (p.(pat_offset) + i) =? 255)) (seqZ 0 p.(pat_length)).
Definition factory_bad (p : FNandBadBlockPattern) (d : dev) (k : Z) : bool :=
  page_bad p d (first_page g k) || page_bad p d (first_page g k + 1).

Lemma page_bad_unreadable p d a : readable a = false -> page_bad p d a = true.
Proof. unfold page_bad. by intros ->. Qed.

Lemma pattern_differs_ok p sp d a :
  pattern_ok p -> readable a = true ->
  (forall i, 0 <= i < FNAND_MAX_SPARE_SIZE -> aget sp i = Ok (spare_byte d a i)) ->
  pattern_differs (Z.to_nat p.(pat_length)) 0 p sp = Ok (page_bad p d a).
Proof.
  intros [_ Hw Hp] Hr Hsp. unfold page_bad. rewrite Hr. cbn [negb orb].
  destruct Hw as [[Ho ->]|[Ho ->]].
  - change (Z.to_nat 2) with 2%nat. cbn [pattern_differs]. rewrite Hp, Ho.
    change (u32 (0 + 0)) with 0. change (u32 (0 + (0 + 1))) with 1.
    rewrite (Hsp 0), (Hsp 1) by (vm_compute; by split).
    change (aget [255; 255] 0) with (@Ok Z 255). change (aget [255; 255] (0 + 1)) with (@Ok Z 255).
    change (seqZ 0 2) with [0; 1]. cbn [rbind existsb]. change (0 + 1) with 1. rewrite !Z.add_0_r.
    by destruct (spare_byte d a 0 =? 255), (spare_byte d a 1 =? 255).
  - change (Z.to_nat 1) with 1%nat. cbn [pattern_differs]. rewrite Hp, Ho.
    change (u32 (5 + 0)) with 5. rewrite (Hsp 5) by (vm_compute; by split).
    change (aget [255; 255] 0) with (@Ok Z 255). change (seqZ 0 1) with [0].
    cbn [rbind existsb]. rewrite !Z.add_0_r. by destruct (spare_byte d a 5 =? 255).
Qed.

Lemma scan_pages_ok p k x d :
  pattern_ok p -> byte x -> 0 <= k < g.(num_blocks) ->
  scan_pages stack_spare 2 (first_page g k) (2 * (k mod 4)) p x d =
  Ok (if factory_bad p d k then factory_byte x (k mod 4) else x, d).
Proof.
  intros Hp Hx Hk. pose proof (geo_pages g G). pose proof (geo_size g G).
  assert (u32 (first_page g k + 1) = first_page g k + 1) as Hu.
  { apply wrap_small. unfold first_page. nia. }
  destruct (factory_byte_ok x (k mod 4) 0 Hx) as (_ & _ & Hid); [lia|lia|].
  unfold factory_byte in Hid |- *. cbn [scan_pages]. unfold factory_bad. rewrite Hu.
  destruct (read_spare d (first_page g k)) as (st & sp & -> & -> & Hsp).
  destruct (readable (first_page g k)) eqn:Hr1; cbn [negb].
  2: { by rewrite page_bad_unreadable. }
  rewrite (pattern_differs_ok p sp d (first_page g k)) by auto. cbn [rbind].
  destruct (read_spare d (first_page g k + 1)) as (st2 & sp2 & -> & -> & Hsp2).
  destruct (readable (first_page g k + 1)) eqn:Hr2; cbn [negb].
  2: { rewrite (page_bad_unreadable p d (first_page g k + 1)), orb_true_r by done.
       destruct (page_bad _ _ _); by rewrite ?Hid. }
  rewrite (pattern_differs_ok p sp2 d (first_page g k + 1)) by auto. cbn [rbind].
  destruct (page_bad p d (first_page g k)), (page_bad _ _ _); cbn [orb]; by rewrite ?Hid.
Qed.

Lemma create_loop_ok n k p b d :
  bbt_ok b -> pattern_ok p -> 0 <= k -> k + Z.of_nat n <= g.(num_blocks) ->
  exists b', create_loop stack_spare n k 2 g p b d = Ok (b', d) /\ bbt_ok b' /\
    forall j, 0 <= j -> block_type b' j =
      if (k <=? j) && (j <? k + Z.of_nat n) && factory_bad p d j
      then FNAND_BLOCK_FACTORY_BAD else block_type b j.
Proof.
  pose proof (geo_blocks g G) as Hg. unfold FNAND_MAX_BLOCKS in Hg. intros Hb Hp.
  revert k b Hb. induction n as [|n IH]; intros k b Hb Hk Hn.
  { exists b. split; [done|]. split; [done|]. intros j _. split_cmp; (done || lia). }
  cbn [create_loop]. rewrite block_offset_ok, block_shift_ok by lia.
  destruct (bbt_get b k Hb) as (x & -> & Hx & _ & Hl); [unfold FNAND_MAX_BLOCKS; lia|].
  cbn [rbind]. rewrite first_page_ok, scan_pages_ok by (done || lia). cbn [rbind].
  set (f := fun x s => if factory_bad p d k then factory_byte x s else x).
  set (h := fun t => if factory_bad p d k then FNAND_BLOCK_FACTORY_BAD else t).
  rewrite aset_in_range by (destruct Hb; lia). cbn [rbind].
  destruct (entry_update f h b k x) as [Hb1 Ht1]; [|done|unfold FNAND_MAX_BLOCKS; lia|done|].
  { intros y s j Hy Hs Hj. unfold f, h. destruct (factory_bad p d k).
    - destruct (factory_byte_ok y s j Hy Hs Hj) as (? & ? & _). done.
    - split; [done|]. cbv zeta. by destruct (j =? s). }
  change (if factory_bad p d k then factory_byte x (k mod 4) else x) with (f x (k mod 4)).
  destruct (IH (k + 1) _ Hb1) as (b' & -> & Hb' & Ht); [lia|lia|].
  exists b'. split; [done|]. split; [done|]. intros j Hj. rewrite Ht, Ht1 by done. unfold h.
  destruct (Z.eqb_spec j k) as [->|].
  - split_cmp; (done || lia).
  - split_cmp; (done || lia).
Qed.

(** On a flash without a table, [FNandCreateBbt] gives type "factory bad" to
    exactly the blocks whose first or second page is marked or unreadable, and
    type "good" to all others. *)
Theorem FNandCreateBbt_types m d :
  manager_ok m -> pattern_ok m.(bb_pattern) ->
  exists b, FNandCreateBbt stack_spare g m d = Ok (set_bbt b m, d) /\ bbt_ok b /\
    forall j, 0 <= j < g.(num_blocks) -> block_type b j =
      if factory_bad m.(bb_pattern) d j then FNAND_BLOCK_FACTORY_BAD else FNAND_BLOCK_GOOD.
Proof.
  intros [[Hl Hb] _] Hp. pose proof (bbtlen_ok g G) as [Hbl Hbl2].
  pose proof (geo_blocks g G) as Hg. pose proof (geo_four g G) as Hg4.
  unfold FNandCreateBbt, memset. rewrite (pat_second _ Hp).
  destruct (blit_ok (bbt m) 0 (replicate (Z.to_nat (bbtlen g)) 0)) as (b0 & -> & Hl0 & H0);
    [lia|rewrite length_replicate; lia|]. cbn [rbind].
  rewrite length_replicate in H0.
  assert (Hb0 : bbt_ok b0).
  { split; [lia|]. apply Forall_lookup. intros i x. rewrite H0. case_match.
    - intros [-> _]%lookup_replicate. done.
    - intros Hi. rewrite Forall_lookup in Hb. by apply (Hb i). }
  destruct (create_loop_ok (Z.to_nat g.(num_blocks)) 0 m.(bb_pattern) b0 d Hb0 Hp)
    as (b & He & Hb' & Ht); [lia|lia|].
  change (if truth (Z.land FNAND_BBT_SCAN_2ND_PAGE FNAND_BBT_SCAN_2ND_PAGE) then 2%nat else 1%nat)
    with 2%nat. rewrite He. exists b. split; [done|]. split; [done|].
  intros j Hj. rewrite Ht by lia.
  rewrite (proj2 (Z.leb_le _ _)), (proj2 (Z.ltb_lt _ _)) by lia. cbn [andb].
  destruct (factory_bad _ _ _); [done|]. unfold block_type. rewrite nth_lookup, H0.
  rewrite (proj2 (Z.leb_le _ _)), (proj2 (Z.ltb_lt _ _)) by lia. cbn [andb].
  rewrite lookup_replicate_2 by lia. cbn [default]. by rewrite Z.shiftr_0_l.
Qed.

(** ** The table in flash *)
Context (Hecc : 13 <= ecc_from).
Abbreviation WriteBbt := (FNandWriteBbt stack_buf stack_spare g).

(** The table of [m] is stored for [w] at block [k]. *)
Definition stored (w : which) (m : FNandBadBlockManager) (d : dev) (k : Z) : Prop :=
  (forall i x, Z.of_nat i < bbtlen g -> m.(bbt) !! i = Some x ->
     page_byte d (first_page g k) (Z.of_nat i) = flash_byte x) /\
  has_sig w d (first_page g k) = true /\
  spare_byte d (first_page g k) 12 = (get_desc w m).(version).

(** The first page of block [k] holds the same bytes. *)
Definition same_first_page (d d' : dev) (k : Z) : Prop :=
  forall i, page_byte d' (first_page g k) i = page_byte d (first_page g k) i /\
            spare_byte d' (first_page g k) i = spare_byte d (first_page g k) i.

Lemma has_sig_ext w d d' k :
  same_first_page d d' k -> has_sig w d' (first_page g k) = has_sig w d (first_page g k).
Proof.
  intros H. unfold has_sig. cbn [seq forallb]. by rewrite !(fun i => proj2 (H i)).
Qed.

Lemma has_sig_other w d a : has_sig w d a = true -> has_sig (other w) d a = false.
Proof.
  unfold has_sig. destruct w; simpl; intros H; repeat (apply andb_true_iff in H as [? H]);
    repeat match goal with E : (_ =? _) = true |- _ => apply Z.eqb_eq in E; rewrite E end; done.
Qed.

Lemma other_block j k :
  j <> k -> 0 <= j < g.(num_blocks) -> 0 <= k < g.(num_blocks) ->
  ~ first_page g k <= first_page g j < first_page g k + g.(pages_per_block).
Proof. destruct G as [_ _ Hp _ _]. unfold first_page. intros. nia. Qed.

Lemma write_located w m d k :
  manager_ok m -> (get_desc w m).(valid) = 1 -> (get_desc w m).(page_offset) = first_page g k ->
  0 <= k < g.(num_blocks) ->
  exists d', WriteBbt w m d = Ok (FT_SUCCESS, m, d') /\ stored w m d' k /\
    forall j, 0 <= j < g.(num_blocks) -> j <> k -> same_first_page d d' j.
Proof.
  intros M Hv Hp Hk. pose proof M as [Hb Hd]. pose proof (geo_pages g G) as Hpp.
  pose proof (bbtlen_ok g G) as [_ Hbl].
  unfold FNandWriteBbt. rewrite Hv, Hp. simpl. rewrite (proj2 (Z.eqb_neq (pages_per_block g) 0)) by lia.
  cbn [rbind]. rewrite set_get_desc. unfold first_page at 1. rewrite Z.div_mul by lia.
  destruct (encode_ok stack_buf Hbuf g G m.(bbt) Hb) as (buf0 & buf & -> & He & Hlb & Hbi).
  cbn [rbind]. rewrite He. cbn [rbind]. unfold FNandEraseBlock. rewrite first_page_ok by done.
  destruct (law_erase d (first_page g k)) as (d1 & -> & Her & Hsame1). cbn [negb].
  destruct (fill_spare_ok stack_spare Hspare g G w _ (Hd w)) as (sp & -> & Hlsp & Hsig & Hver).
  cbn [rbind]. unfold FNandWritePage, with_page, with_oob. simpl.
  rewrite (proj2 (Z.ltb_lt 0 (bbtlen g))), Hp by lia. simpl.
  destruct (law_write d1 (first_page g k) buf (bbtlen g) sp) as (d2 & -> & Hpg & Hsp & Hsame2);
    [apply Her; lia|lia|done|].
  exists d2. split; [done|]. split; [split; [|split]|].
  - intros i x Hi Hx. apply Hpg; [done|]. by rewrite Hbi, Hx.
  - unfold has_sig. apply forallb_forall. intros i Hi%list_elem_of_In%elem_of_seq.
    apply Z.eqb_eq. replace (8 + Z.of_nat i) with (Z.of_nat (8 + i)) by lia.
    apply Hsp; [lia|]. rewrite Hsig by lia. symmetry.
    destruct w; do 4 (destruct i as [|i]; [done|]); lia.
  - change 12 with (Z.of_nat 12). apply Hsp; [lia|done].
  - intros j Hj Hne i.
    destruct (Hsame2 (first_page g j)) with (i := i) as [-> ->].
    { intros Heq. by apply (first_page_inj g G) in Heq. }
    apply Hsame1. by apply other_block.
Qed.

(** [pos w] is the block of the table of [w]: one of the last four, which can be
    read, and not the block of the other table. *)
Definition located (m : FNandBadBlockManager) (pos : which -> Z) : Prop :=
  pos Primary <> pos Mirror /\
  forall w, (get_desc w m).(valid) = 1 /\ (get_desc w m).(page_offset) = first_page g (pos w) /\
    g.(num_blocks) - 4 <= pos w < g.(num_blocks) /\ readable (first_page g (pos w)) = true.

(** No other block of the last four looks like a table. *)
Definition no_strays (d : dev) (pos : which -> Z) : Prop :=
  forall w k, g.(num_blocks) - 4 <= k < g.(num_blocks) -> k <> pos Primary -> k <> pos Mirror ->
    has_sig w d (first_page g k) = false.

(** The tables in RAM and in flash agree. *)
Definition synced (m : FNandBadBlockManager) (d : dev) (pos : which -> Z) : Prop :=
  manager_ok m /\ located m pos /\ no_strays d pos /\
  (get_desc Primary m).(version) = (get_desc Mirror m).(version) /\
  forall w, stored w m d (pos w).

Lemma pos_other m pos w : located m pos -> pos (other w) <> pos w.
Proof. intros [H _]. destruct w; simpl; congruence. Qed.

Lemma stored_ext w m m' d d' k :
  same_first_page d d' k -> m'.(bbt) = m.(bbt) ->
  (get_desc w m').(version) = (get_desc w m).(version) ->
  stored w m d k -> stored w m' d' k.
Proof.
  intros Hs Hb Hv (H1 & H2 & H3). split; [|split].
  - intros i x. rewrite Hb, (proj1 (Hs _)). apply H1.
  - by rewrite (has_sig_ext w d d' k Hs).
  - by rewrite (proj2 (Hs _)), Hv.
Qed.

Lemma located_bump w m pos : located m pos -> located (bump_version w m) pos.
Proof.
  intros [Hne H]. split; [done|]. intros w'. specialize (H w').
  unfold bump_version. destruct (which_eq w w') as [-> | ->]; autorewrite with nand; done.
Qed.

(** Updating the tables in flash. *)
Lemma update_synced m d pos :
  manager_ok m -> located m pos -> no_strays d pos ->
  (get_desc Primary m).(version) = (get_desc Mirror m).(version) ->
  exists m' d', FNandUpdateBbt stack_buf stack_spare g m d = Ok (FT_SUCCESS, m', d') /\
    m'.(bbt) = m.(bbt) /\ m'.(bb_pattern) = m.(bb_pattern) /\ synced m' d' pos.
Proof.
  intros M L S Hver. unfold FNandUpdateBbt.
  set (m1 := bump_version Mirror (bump_version Primary m)).
  assert (M1 : manager_ok m1) by by apply bump_ok, bump_ok.
  assert (L1 : located m1 pos) by by apply located_bump, located_bump.
  assert (Hv1 : (get_desc Primary m1).(version) = (get_desc Mirror m1).(version)).
  { simpl in *. by rewrite Hver. }
  pose proof L1 as [_ HL].
  destruct (HL Primary) as (Hvp & Hpp & Hrp & _). destruct (HL Mirror) as (Hvm & Hpm & Hrm & _).
  pose proof (geo_blocks g G) as Hg.
  destruct (write_located Primary m1 d (pos Primary) M1 Hvp Hpp) as (d1 & He1 & St1 & Sm1); [lia|].
  destruct (write_located Mirror m1 d1 (pos Mirror) M1 Hvm Hpm) as (d2 & He2 & St2 & Sm2); [lia|].
  exists m1, d2. rewrite He1. cbn [rbind negb]. change (negb (FT_SUCCESS =? FT_SUCCESS)) with false.
  cbn iota. rewrite He2. cbn [rbind]. split; [done|].
  split; [unfold m1; by rewrite !bbt_bump|]. split.
  { unfold m1, bump_version. by rewrite !pattern_set_desc. }
  split; [done|]. split; [done|]. split; [|split; [done|]].
  - intros w k Hk Hk1 Hk2. rewrite (has_sig_ext w d1 d2) by (apply Sm2; (done || lia)).
    rewrite (has_sig_ext w d d1) by (apply Sm1; (done || lia)). by apply S.
  - intros []; [|done]. apply (stored_ext Primary m1 m1 d1 d2); try done.
    apply Sm2; [lia|]. apply L1.
Qed.

(** C35: Marking a block bad when the table in flash is up to date: the call
    succeeds, and the table in flash is up to date again. *)
Theorem FNandMarkBlockBad_synced m d pos k :
  synced m d pos -> 0 <= k < g.(num_blocks) ->
  exists m' d', FNandMarkBlockBad stack_buf stack_spare g m d k = Ok (FT_SUCCESS, m', d') /\
    synced m' d' pos /\
    forall j, 0 <= j < g.(num_blocks) ->
      block_type m'.(bbt) j = if j =? k then FNAND_BLOCK_BAD else block_type m.(bbt) j.
Proof.
  intros Hs Hk. pose proof Hs as (M & L & S & Hv & _). pose proof M as [Hb _].
  pose proof (geo_blocks g G) as Hg. unfold FNAND_MAX_BLOCKS in Hg.
  destruct (FNandMarkBlockBad_marks stack_buf stack_spare Hbuf Hspare g G m d k M Hk)
    as (ret & m' & d' & He & M' & Ht & _).
  pose proof He as He'. unfold FNandMarkBlockBad in He'.
  rewrite (proj2 (Z.ltb_lt _ _)) in He' by lia. rewrite block_offset_ok, block_shift_ok in He' by lia.
  destruct (bbt_get m.(bbt) k Hb) as (x & Hget & Hx & _ & Hl); [unfold FNAND_MAX_BLOCKS; lia|].
  rewrite Hget in He'. cbn [rbind] in He'. fold (mark_byte x (k mod 4)) in He'.
  rewrite aset_in_range in He' by (destruct Hb; lia). cbn [rbind] in He'.
  destruct (Z.eqb_spec x (mark_byte x (k mod 4))) as [Heq|Hne]; cbn [negb] in He'.
  - injection He' as <- <- <-. eexists _, _. split; [exact He|]. split; [|done].
    rewrite <-Heq, list_insert_id by done. by destruct m.
  - set (b := <[Z.to_nat (k / 4) := mark_byte x (k mod 4)]> (bbt m)) in *.
    assert (Hb' : bbt_ok b) by (apply bbt_ok_insert; [done|apply (mark_byte_ok x _ 0); (done || lia)]).
    destruct (update_synced (set_bbt b m) d pos) as (m2 & d2 & Hu & _ & _ & Hs2).
    + by apply manager_ok_set_bbt.
    + destruct L as [? HL]. split; [done|]. intros w. rewrite get_set_bbt. apply HL.
    + done.
    + by rewrite !get_set_bbt.
    + rewrite Hu in He'. injection He' as <- <- <-. eexists _, _. split; [exact He|]. by split.
Qed.

Lemma find_unique {A} (f : A -> bool) l x :
  In x l -> f x = true -> (forall y, In y l -> f y = true -> y = x) -> find f l = Some x.
Proof.
  intros Hin Hf Hu. destruct (find f l) as [y|] eqn:E.
  - apply find_some in E as [Hy Hfy]. by rewrite (Hu y).
  - by rewrite (find_none _ _ E x Hin) in Hf.
Qed.

Lemma table_block_synced m d pos w : synced m d pos -> table_block w d = Some (pos w).
Proof.
  intros (M & L & S & _ & St). pose proof L as [_ HL].
  destruct (HL w) as (_ & _ & Hr & Hread). destruct (St w) as (_ & Hsig & _).
  apply find_unique.
  - apply in_map_iff. exists (num_blocks g - 1 - pos w). split; [lia|].
    assert (H : 0 <= num_blocks g - 1 - pos w < 4) by lia.
    change [0; 1; 2; 3] with (seqZ 0 4). by apply list_elem_of_In, elem_of_seqZ.
  - unfold carries. by rewrite Hread, Hsig.
  - intros k (i & <- & Hi)%in_map_iff. unfold carries. intros [_ Hk]%andb_true_iff.
    change [0; 1; 2; 3] with (seqZ 0 4) in Hi. apply list_elem_of_In, elem_of_seqZ in Hi.
    destruct (Z.eq_dec (num_blocks g - 1 - i) (pos w)) as [|Hne]; [done|].
    destruct (Z.eq_dec (num_blocks g - 1 - i) (pos (other w))) as [Heq|Hne2].
    + destruct (St (other w)) as (_ & Hsig' & _). apply has_sig_other in Hsig'.
      rewrite other_other, <-Heq in Hsig'. congruence.
    + rewrite S in Hk; [done|lia|destruct w; done|destruct w; done].
Qed.

Lemma load_bbt_ok w m m0 d k :
  manager_ok m -> manager_ok m0 -> stored w m d k ->
  (get_desc w m0).(page_offset) = first_page g k -> readable (first_page g k) = true ->
  exists b, load_bbt stack_buf g w m0 d = Ok (FT_SUCCESS, set_bbt b m0, d) /\ bbt_ok b /\
    forall i, Z.of_nat i < bbtlen g -> b !! i = m.(bbt) !! i.
Proof.
  intros [[Hl Hby] _] [[Hl0 Hby0] _] (Hpg & _) Hp Hr. pose proof (bbtlen_ok g G) as [_ Hbl].
  unfold load_bbt, FNandReadPage, with_page, with_oob. simpl.
  rewrite Hp, (proj2 (Z.ltb_lt 0 (bbtlen g))) by lia. simpl.
  destruct (law_read d (first_page g k) stack_buf (bbtlen g) Hr) as (buf & sp & -> & Hlb & Hb); [lia|].
  simpl. unfold FNandConvertBbt. rewrite convert_loop_map.
  destruct (map_loop_ok convert_byte (Z.to_nat (bbtlen g)) 0 buf m0.(bbt)) as (b & -> & Hlen & Hi);
    [lia..|]. cbn [rbind].
  assert (Heq : forall i, Z.of_nat i < bbtlen g -> b !! i = m.(bbt) !! i).
  { intros i Hlt. rewrite Hi.
    rewrite (proj2 (Z.leb_le _ _)), (proj2 (Z.ltb_lt _ _)) by lia. cbn [andb].
    destruct (lookup_lt_is_Some_2 m.(bbt) i) as [x Hx]; [lia|].
    rewrite Hb, Hx by done. simpl. rewrite (Hpg i x Hlt Hx), convert_flash_byte; [done|].
    rewrite Forall_lookup in Hby. by apply (Hby i). }
  exists b. split; [done|]. split; [|exact Heq]. split; [lia|].
  apply Forall_lookup. intros i x Hx. destruct (Z.ltb_spec (Z.of_nat i) (bbtlen g)).
  - rewrite Heq in Hx by done. rewrite Forall_lookup in Hby. by apply (Hby i).
  - rewrite Hi, (proj2 (Z.ltb_ge _ _)), andb_false_r in Hx by lia.
    rewrite Forall_lookup in Hby0. by apply (Hby0 i).
Qed.

(** The manager once both tables have been found. *)
Definition found_manager (m0 : FNandBadBlockManager) (d : dev) (pos : which -> Z) :=
  let mk w := found_desc d (pos w) (get_desc w m0) in
  set_desc Mirror (mk Mirror) (set_desc Primary (mk Primary) m0).

Lemma found_manager_ok m m0 d pos :
  synced m d pos -> manager_ok m0 ->
  manager_ok (found_manager m0 d pos) /\ located (found_manager m0 d pos) pos /\
  (forall w, (get_desc w (found_manager m0 d pos)).(version) = (get_desc w m).(version)) /\
  exists m1, FNandSearchBbt stack_spare g Primary m0 d = Ok (FT_SUCCESS, m1, d) /\
    FNandSearchBbt stack_spare g Mirror m1 d = Ok (FT_SUCCESS, found_manager m0 d pos, d).
Proof.
  intros Hs M0. pose proof Hs as (M & [Hne HL] & _ & _ & St).
  set (mk w := found_desc d (pos w) (get_desc w m0)).
  assert (D : forall w, desc_ok w (mk w)).
  { intros w. destruct (proj2 M0 w). constructor; try done. simpl.
    destruct (St w) as (_ & _ & ->). by destruct (proj2 M w). }
  assert (Mp : manager_ok (set_desc Primary (mk Primary) m0)) by by apply manager_ok_set_desc.
  split; [by apply (manager_ok_set_desc Mirror (mk Mirror) _ Mp)|]. split; [|split].
  - split; [done|]. intros w. destruct (HL w) as (_ & _ & H). by destruct w.
  - intros w. destruct (St w) as (_ & _ & <-). by destruct w.
  - exists (set_desc Primary (mk Primary) m0).
    rewrite !FNandSearchBbt_finds by done. by rewrite !(table_block_synced m d pos).
Qed.

(** C34: The table survives a restart: [FNandScanBbt] on an instance that knows
    nothing about the flash (any well-formed [m0]) recovers every block type
    from a flash whose tables are up to date, and writes nothing. *)
Theorem FNandScanBbt_recovers m m0 d pos :
  synced m d pos -> manager_ok m0 ->
  exists m1, FNandScanBbt stack_buf stack_spare g m0 d = Ok (FT_SUCCESS, m1, d) /\
    synced m1 d pos /\
    forall j, 0 <= j < g.(num_blocks) -> block_type m1.(bbt) j = block_type m.(bbt) j.
Proof.
  intros Hs M0. pose proof Hs as (M & L & S & Hver & St).
  pose proof (bbtlen_ok g G) as [Hbl _]. pose proof (geo_four g G) as Hg4.
  destruct (found_manager_ok m m0 d pos Hs M0) as (M1 & Hloc & Hv & mp & H1 & H2).
  set (m1 := found_manager m0 d pos) in *.
  destruct (load_bbt_ok Primary m m1 d (pos Primary)) as (b & Hload & Hb & Heq);
    try (done || apply Hloc).
  exists (set_bbt b m1). split; [|split].
  - unfold FNandScanBbt, FNandReadBbt. rewrite H1. cbn [rbind]. rewrite H2. cbn [rbind].
    change (truth (valid (bbt_desc m1)) && truth (valid (bbt_mirror_desc m1))) with true.
    assert (version (bbt_desc m1) = version (bbt_mirror_desc m1)) as ->
      by exact (eq_trans (Hv Primary) (eq_trans Hver (eq_sym (Hv Mirror)))).
    rewrite Z.ltb_irrefl. cbn iota. rewrite Hload. done.
  - split; [by apply manager_ok_set_bbt|]. split.
    { destruct Hloc as [? H]. split; [done|]. intros w. rewrite get_set_bbt. apply H. }
    split; [done|]. rewrite !get_set_bbt, !Hv. split; [done|]. intros w.
    destruct (St w) as (Hp & Hsig & Hspv). split; [|split; [done|]].
    + intros i x Hi Hx. apply Hp; [done|]. simpl in Hx. by rewrite <-Heq.
    + by rewrite get_set_bbt, Hv.
  - intros j Hj. apply block_type_ext. simpl. apply Heq. lia.
Qed.
End FlashFacts.

(** ** A simulated flash

    16 blocks of two pages; a page that has not been written since its block was
    erased reads as 0xff. *)
Module SimFlash.

Definition geo : FNandNandGeometry := mkGeometry 2048 64 2 16.

Definition flash : Type := Z -> list Z * list Z.
Definition cell (l : list Z) (i : Z) : Z := nth (Z.to_nat i) l 255.
Definition cells (l : list Z) (n : Z) : list Z := map (fun i => cell l i) (seqZ 0 n).
Definition put (d : flash) (a : Z) (v : list Z * list Z) : flash := fun p => if p =? a then v else d p.
Definition buf_of (o : option (list Z)) : list Z := default [] o.

Definition sim_write (d : flash) (o : FNandOpData) : Z * flash :=
  (FT_SUCCESS, put d o.(op_page_addr) (take (Z.to_nat o.(op_page_length)) (buf_of o.(op_page_buf)),
                                       buf_of o.(op_oob_buf))).
Definition sim_read (d : flash) (o : FNandOpData) : Z * list Z * list Z * flash :=
  (FT_SUCCESS,
   cells (d o.(op_page_addr)).1 o.(op_page_length) ++
     drop (Z.to_nat o.(op_page_length)) (buf_of o.(op_page_buf)),
   cells (d o.(op_page_addr)).2 o.(op_oob_length), d).
Definition sim_erase (d : flash) (a : Z) : Z * flash :=
  (FT_SUCCESS, fun p => if (a <=? p) && (p <? a + geo.(pages_per_block)) then ([], []) else d p).

#[export] Instance sim_dev : NandDev :=
  {| dev := flash; erase_p := sim_erase; write_p := sim_write; write_hw_ecc_p := sim_write;
     write_oob_p := sim_write; read_p := sim_read; read_hw_ecc_p := sim_read;
     read_oob_p := sim_read |}.

Lemma cells_lookup l n i : (Z.of_nat i < n) -> cells l n !! i = Some (cell l (Z.of_nat i)).
Proof.
  intros Hi. unfold cells. apply list_lookup_fmap_Some. exists (Z.of_nat i).
  split; [done|]. apply lookup_seqZ. lia.
Qed.

Lemma cells_length l n : length (cells l n) = Z.to_nat n.
Proof. unfold cells. by rewrite length_map, length_seqZ. Qed.

#[export] Instance sim_laws : @FlashLaws sim_dev geo.
Proof.
  refine (@Build_FlashLaws sim_dev geo (fun d p i => cell (d p).1 i) (fun d p i => cell (d p).2 i)
            (fun _ => true) (fun _ _ => True) 1024 _ _ _ _).
  - intros d a. eexists. split; [done|]. split; [done|]. intros p Hp i. simpl.
    rewrite (proj2 (andb_false_iff _ _)); [done|].
    change (pages_per_block geo) with 2 in Hp.
    destruct (Z.leb_spec a p), (Z.ltb_spec p (a + 2)); auto; lia.
  - intros d a buf n sp _ Hn Hsp. eexists. split; [done|].
    unfold put; simpl. rewrite Z.eqb_refl. split; [|split].
    + intros i x Hi Hx. unfold cell. simpl. rewrite Nat2Z.id. apply nth_lookup_Some.
      rewrite lookup_take_lt by lia. done.
    + intros i x Hi Hx. unfold cell. simpl. rewrite Nat2Z.id. by apply nth_lookup_Some.
    + intros p Hp i. by rewrite (proj2 (Z.eqb_neq _ _)).
  - intros d a buf n _ Hn. eexists _, _. split; [done|]. simpl. split.
    + rewrite length_app, cells_length, length_drop. lia.
    + intros i Hi. rewrite lookup_app_l by (rewrite cells_length; lia). by apply cells_lookup.
  - intros d a sp Hsp. eexists _, _, _. split; [done|]. split; [done|].
    intros _ i Hi. simpl. by apply cells_lookup.
Defined.

Definition stack : list Z := replicate (Z.to_nat 8192) 0.
Definition stack_oob : list Z := replicate (Z.to_nat 1024) 0.
Definition no_desc : FNandBbtDesc := mkDesc 0 0 0 0 0 [] 0 0.
(** A freshly initialised instance. *)
Definition fresh : FNandBadBlockManager :=
  FNandInitBbtDesc geo (mkManager stack no_desc no_desc (mkPattern 0 0 0 [])).
Definition blank : flash := fun _ => ([], []).
(** A flash whose blocks in [l] carry a factory mark. *)
Definition marked (l : list Z) : flash :=
  fun p => if existsb (fun k => p / 2 =? k) l then ([], replicate 64 0) else ([], []).

(** The state after a call that does not fault. *)
Definition after (x : res (Z * FNandBadBlockManager * flash)) : FNandBadBlockManager * flash :=
  match x with Ok (_, m, d) => (m, d) | Fault _ => (fresh, blank) end.
Definition scan (m : FNandBadBlockManager) (d : flash) := FNandScanBbt stack stack_oob geo m d.
Definition booted := after (scan fresh blank).
Definition positions (w : which) : Z := match w with Primary => 15 | Mirror => 14 end.

Lemma geo_ok : geometry_ok geo.
Proof. constructor; zdec. Qed.
Lemma stack_length : Z.of_nat (length stack) = 8192.
Proof. vm_compute. reflexivity. Qed.
Lemma stack_oob_length : Z.of_nat (length stack_oob) = FNAND_MAX_SPARE_SIZE.
Proof. vm_compute. reflexivity. Qed.

Lemma bbt_ok_check b :
  (Z.of_nat (length b) =? 8192) && forallb (fun x => (0 <=? x) && (x <? 256)) b = true -> bbt_ok b.
Proof.
  intros [Hl Hb]%andb_true_iff. split; [lia|]. apply Forall_forall. intros x Hx.
  rewrite forallb_forall in Hb. specialize (Hb x Hx).
  unfold byte. lia.
Qed.

Lemma fresh_ok : manager_ok fresh.
Proof.
  split; [apply bbt_ok_check; vm_compute; reflexivity|].
  intros []; constructor; unfold byte; zdec.
Qed.

(** The instance and the flash after the first boot on a blank flash. *)
Lemma booted_synced : synced geo booted.1 booted.2 positions.
Proof.
  split; [|split; [|split; [|split]]].
  - split; [apply bbt_ok_check; vm_compute; reflexivity|].
    intros []; constructor; unfold byte; zdec.
  - split; [discriminate|]. intros []; zdec.
  - intros w k Hk H1 H2. assert (k = 12 \/ k = 13) as [-> | ->].
    { change (num_blocks geo) with 16 in Hk. simpl in H1, H2. lia. }
    all: destruct w; vm_compute; reflexivity.
  - vm_compute. reflexivity.
  - intros w. split; [|split; [destruct w; vm_compute; reflexivity..]].
    intros i x Hi Hx. change (bbtlen geo) with 4 in Hi.
    assert (Hb : x = nth i (bbt booted.1) 0) by by rewrite nth_lookup, Hx.
    rewrite Hb. destruct w; do 4 (destruct i as [|i]; [vm_compute; reflexivity|]); lia.
Qed.
End SimFlash.

Section Witnesses.
Import SimFlash.

Lemma bbt_flash_roundtrip_witness :
  exists buf0 buf m1, memset stack 255 (bbtlen geo) = Ok buf0 /\
    encode_loop (Z.to_nat (bbtlen geo)) 0 booted.1.(bbt) buf0 = Ok buf /\
    FNandConvertBbt geo buf fresh = Ok m1 /\
    forall k, 0 <= k < 16 -> block_type m1.(bbt) k = block_type booted.1.(bbt) k.
Proof.
  exact (bbt_flash_roundtrip stack stack_length geo geo_ok booted.1 fresh
           (proj1 (proj1 booted_synced)) (proj1 fresh_ok)).
Defined.

Lemma FNandMarkBlockBad_marks_witness :
  exists ret m' d', FNandMarkBlockBad (N := sim_dev) stack stack_oob geo fresh blank 5 = Ok (ret, m', d') /\
    manager_ok m' /\
    (forall j, 0 <= j < 16 ->
       block_type m'.(bbt) j = if j =? 5 then FNAND_BLOCK_BAD else block_type fresh.(bbt) j) /\
    (forall j, 0 <= j < 16 ->
       FNandIsBlockBad geo m' j = if j =? 5 then Ok FT_SUCCESS else FNandIsBlockBad geo fresh j).
Proof.
  apply (FNandMarkBlockBad_marks (N := sim_dev) stack stack_oob stack_length stack_oob_length geo geo_ok
           fresh blank 5 fresh_ok). zdec.
Defined.

Lemma FNandMarkBbt_reserves_witness :
  exists ret m' d', FNandMarkBbt (N := sim_dev) stack stack_oob geo Primary fresh blank = Ok (ret, m', d') /\
    manager_ok m' /\
    forall j, 0 <= j < 16 ->
      block_type m'.(bbt) j =
      if 16 - 4 <=? j then Z.lor (block_type fresh.(bbt) j) FNAND_BLOCK_RESERVED
      else block_type fresh.(bbt) j.
Proof.
  exact (FNandMarkBbt_reserves (N := sim_dev) stack stack_oob stack_length stack_oob_length geo geo_ok
           Primary fresh blank fresh_ok).
Defined.

Lemma FNandSearchBbt_finds_witness :
  FNandSearchBbt (N := sim_dev) stack_oob geo Primary fresh booted.2 =
  Ok (match table_block geo Primary booted.2 with
      | Some k => (FT_SUCCESS, set_desc Primary (found_desc geo booted.2 k fresh.(bbt_desc)) fresh,
                   booted.2)
      | None => (FNAND_VALUE_ERROR, fresh, booted.2)
      end) /\ table_block geo Primary booted.2 = Some 15.
Proof.
  split; [|vm_compute; reflexivity].
  exact (FNandSearchBbt_finds (N := sim_dev) stack stack_oob stack_oob_length geo geo_ok Primary fresh booted.2 fresh_ok).
Defined.

Lemma FNandCreateBbt_types_witness :
  exists b, FNandCreateBbt (N := sim_dev) stack_oob geo fresh (marked [3]) = Ok (set_bbt b fresh, marked [3]) /\
    bbt_ok b /\
    forall j, 0 <= j < 16 -> block_type b j =
      if factory_bad geo fresh.(bb_pattern) (marked [3]) j
      then FNAND_BLOCK_FACTORY_BAD else FNAND_BLOCK_GOOD.
Proof.
  apply (FNandCreateBbt_types (N := sim_dev) stack stack_oob stack_oob_length geo geo_ok fresh (marked [3]) fresh_ok).
  constructor; [reflexivity|left; split; reflexivity|reflexivity].
Defined.

Lemma FNandMarkBlockBad_synced_witness :
  exists m' d', FNandMarkBlockBad (N := sim_dev) stack stack_oob geo booted.1 booted.2 5 = Ok (FT_SUCCESS, m', d') /\
    synced geo m' d' positions /\
    forall j, 0 <= j < 16 ->
      block_type m'.(bbt) j = if j =? 5 then FNAND_BLOCK_BAD else block_type booted.1.(bbt) j.
Proof.
  apply (FNandMarkBlockBad_synced (N := sim_dev) stack stack_oob stack_length stack_oob_length geo geo_ok);
    [vm_compute; discriminate|exact booted_synced|zdec].
Defined.

Lemma FNandScanBbt_recovers_witness :
  exists m1, FNandScanBbt (N := sim_dev) stack stack_oob geo fresh booted.2 = Ok (FT_SUCCESS, m1, booted.2) /\
    synced geo m1 booted.2 positions /\
    forall j, 0 <= j < 16 -> block_type m1.(bbt) j = block_type booted.1.(bbt) j.
Proof.
  apply (FNandScanBbt_recovers (N := sim_dev) stack stack_oob stack_length stack_oob_length geo geo_ok booted.1);
    [exact booted_synced|exact fresh_ok].
Defined.

(** The search for a block to write a table to steps back by 0, 1, 2 and 3
    blocks in turn: with the factory marks on blocks 12 and 14 of 16, the mirror
    table goes to block 9, where no search looks for it; with marks on 12, 14
    and 15 no mirror can be written, although block 13 is good. *)
Theorem FNandWriteBbt_out_of_reach :
  (exists m d, scan fresh (marked [12; 14]) = Ok (FT_SUCCESS, m, d) /\
     m.(bbt_mirror_desc).(page_offset) = first_page geo 9 /\
     exists m' d', FNandSearchBbt (N := sim_dev) stack_oob geo Mirror fresh d = Ok (FNAND_VALUE_ERROR, m', d')) /\
  (exists m d, scan fresh (marked [12; 14; 15]) = Ok (FNAND_VALUE_FAILURE, m, d) /\
     block_type m.(bbt) 13 = FNAND_BLOCK_GOOD).
Proof.
  split; eexists _, _; (split; [vm_compute; reflexivity|]).
  - split; [vm_compute; reflexivity|]. eexists _, _. vm_compute. reflexivity.
  - vm_compute. reflexivity.
Qed.
End Witnesses.

(** ** A flash that fails to program *)
Section WriteErrors.
Import SimFlash.

#[local] Instance failing_dev : NandDev :=
  {| dev := flash; erase_p := sim_erase; write_p := fun d _ => (FNAND_VALUE_FAILURE, d);
     write_hw_ecc_p := fun d _ => (FNAND_VALUE_FAILURE, d);
     write_oob_p := fun d _ => (FNAND_VALUE_FAILURE, d); read_p := sim_read;
     read_hw_ecc_p := sim_read; read_oob_p := sim_read |}.

(** [FNandWriteBbt] drops the status of [FNandWritePage]: when programming
    fails, [FNandMarkBlockBad] reports success although both tables in flash
    have been erased, and after a restart the block is good again. *)
Theorem FNandWriteBbt_drops_write_error :
  exists m d m' d', FNandMarkBlockBad (N := failing_dev) stack stack_oob geo booted.1 booted.2 5 =
      Ok (FT_SUCCESS, m, d) /\
    FNandScanBbt (N := failing_dev) stack stack_oob geo fresh d = Ok (FT_SUCCESS, m', d') /\
    FNandIsBlockBad geo m 5 = Ok FT_SUCCESS /\ FNandIsBlockBad geo m' 5 = Ok FNAND_VALUE_FAILURE.
Proof.
  eexists _, _, _, _. do 2 (split; [vm_compute; reflexivity|]).
  split; vm_compute; reflexivity.
Qed.
End WriteErrors.
