(* ===== verification/NandEcc.v ===== *)
(** The error correction of the NAND driver:
    src/standalone/drivers/nand/fnand/fnand_ecc.c.

    The controller reports the wrong bits of a page in 16-bit positions, eight
    for each correction step; the driver flips the bits reported.  The registers
    are a function from offset to value. *)
From S2P Require Import Prelude.

#[local] Ltac Zify.zify_post_hook ::= Z.to_euclidean_division_equations.

(** ** Operations *)
Definition FNandGetEccTotalLength (bytes_per_page ecc_strength : Z) : Z :=
  if bytes_per_page =? 0x200 then
    if ecc_strength =? 8 then 0x0D
    else if ecc_strength =? 4 then 7
    else if ecc_strength =? 2 then 4
    else 0
  else if bytes_per_page =? 0x800 then
    if ecc_strength =? 8 then 0x34
    else if ecc_strength =? 4 then 0x1a
    else if ecc_strength =? 2 then 0xd
    else 0
  else if bytes_per_page =? 0x1000 then
    if ecc_strength =? 8 then 0x68
    else if ecc_strength =? 4 then 0x34
    else if ecc_strength =? 2 then 0x1a
    else 0
  else if bytes_per_page =? 0x2000 then
    if ecc_strength =? 8 then 0xD0
    else if ecc_strength =? 4 then 0x68
    else if ecc_strength =? 2 then 0x34
    else 0
  else if bytes_per_page =? 0x4000 then
    let ecc_total := if ecc_strength =? 8 then 0x1A0 else 0 in
    let ecc_total :=
      if ecc_strength =? 4 then 0xD0
      else if ecc_strength =? 2 then 0x68
      else 0 in
    ecc_total
  else 0.

(** [stat++] of an [int]. *)
Definition int_incr (stat : Z) : res Z :=
  if stat =? 2 ^ 31 - 1 then Fault Undefined else Ok (stat + 1).

(** The treatment of one 16-bit position in [FNandCorrectEcc]. *)
Definition correct_position (ecc_step_size i tmp : Z) (s : list Z * Z) :
    res (list Z * Z) :=
  let '(buf, stat) := s in
  if truth tmp && (tmp <=? 4096) then
    let tmp := tmp - 1 in
    let k := u32 (u32 (ecc_step_size * i) + tmp / 8) in
    let! b := aget buf k in
    let! buf := aset buf k (u8 (Z.lxor b (Z.shiftl 1 (tmp mod 8)))) in
    let! stat := int_incr stat in
    Ok (buf, stat)
  else Ok (buf, stat).

(** The inner loop of [FNandCorrectEcc], from [j] on for [n] more registers. *)
Fixpoint correct_registers (readreg : Z -> Z) (ecc_step_size i j : Z) (n : nat)
    (s : list Z * Z) : res (list Z * Z) :=
  match n with
  | O => Ok s
  | S n =>
      let value := readreg (u32 (u32 (0xB8 + u32 (0x10 * i)) + 4 * j)) in
      let! s := correct_position ecc_step_size i (Z.land value 0xFFFF) s in
      let! s := correct_position ecc_step_size i
                  (Z.land (Z.shiftr value 16) 0xFFFF) s in
      correct_registers readreg ecc_step_size i (j + 1) n s
  end.

(** The outer loop, from step [i] on for [n] more steps. *)
Fixpoint correct_steps (readreg : Z -> Z) (ecc_step_size i : Z) (n : nat)
    (s : list Z * Z) : res (list Z * Z) :=
  match n with
  | O => Ok s
  | S n =>
      let! s := correct_registers readreg ecc_step_size i 0 4 s in
      correct_steps readreg ecc_step_size (i + 1) n s
  end.

Definition FNandCorrectEcc (readreg : Z -> Z) (ecc_step_size hw_ecc_steps : Z)
    (buf : option (list Z)) : res (option (list Z) * Z) :=
  match buf with
  | None => Ok (None, -1)
  | Some buf =>
      let! s := correct_steps readreg ecc_step_size 0 (Z.to_nat hw_ecc_steps)
                  (buf, 0) in
      Ok (Some (fst s), snd s)
  end.

(** ** Specification *)

(** Bit [p] of a buffer, counted from bit 0 of its first byte. *)
Definition buf_bit (buf : list Z) (p : Z) : bool :=
  Z.testbit (nth (Z.to_nat (p / 8)) buf 0) (p mod 8).

(** What a 16-bit position of step [i] reports: bit [tmp - 1] of the step. *)
Definition position_report (ecc_step_size i tmp : Z) : list Z :=
  if truth tmp && (tmp <=? 4096) then [8 * (ecc_step_size * i) + (tmp - 1)] else [].

Definition register_report (readreg : Z -> Z) (ecc_step_size i : Z) (j : nat) : list Z :=
  let value := readreg (0xB8 + 0x10 * i + 4 * Z.of_nat j) in
  position_report ecc_step_size i (value mod 2 ^ 16) ++
  position_report ecc_step_size i ((value / 2 ^ 16) mod 2 ^ 16).

Definition step_report (readreg : Z -> Z) (ecc_step_size : Z) (i : nat) : list Z :=
  flat_map (register_report readreg ecc_step_size (Z.of_nat i)) [0; 1; 2; 3]%nat.

(** All wrong bits the controller reports for a page. *)
Definition reports (readreg : Z -> Z) (ecc_step_size hw_ecc_steps : Z) : list Z :=
  flat_map (step_report readreg ecc_step_size) (seq 0 (Z.to_nat hw_ecc_steps)).

Definition flip (buf : list Z) (p : Z) : list Z :=
  alter (fun b => Z.lxor b (Z.shiftl 1 (p mod 8))) (Z.to_nat (p / 8)) buf.

Definition bytes (buf : list Z) : Prop := Forall (fun b => 0 <= b < 256) buf.

(** ** Lemmas *)
#[local] Arguments correct_position : simpl never.

Section Flips.
Implicit Types (buf : list Z) (p q : Z).

Lemma flip_length buf p : length (flip buf p) = length buf.
Proof. apply length_alter. Qed.

Lemma flips_length ps buf : length (foldl flip buf ps) = length buf.
Proof. revert buf. induction ps; intros; simpl; [done|]. by rewrite IHps, flip_length. Qed.

Lemma buf_bit_flip buf p q :
  0 <= p < 8 * Z.of_nat (length buf) -> 0 <= q ->
  buf_bit (flip buf p) q = xorb (buf_bit buf q) (p =? q).
Proof.
  intros Hp Hq. unfold buf_bit, flip.
  rewrite !nth_lookup. destruct (decide (p / 8 = q / 8)) as [E|E].
  - rewrite <-E, list_lookup_alter_eq.
    destruct (lookup_lt_is_Some_2 buf (Z.to_nat (p / 8))) as [b Hb]; [lia|].
    rewrite Hb; simpl. rewrite Z.lxor_spec, Z.shiftl_1_l, Z.pow2_bits_eqb by lia.
    f_equal. split_cmp; (done || lia).
  - rewrite list_lookup_alter_ne by lia.
    destruct (Z.eqb_spec p q); [congruence|]. by rewrite xorb_false_r.
Qed.

(** The parity of the number of times [q] occurs in [ps]. *)
Fixpoint odd_count (q : Z) (ps : list Z) : bool :=
  match ps with
  | [] => false
  | p :: ps => xorb (p =? q) (odd_count q ps)
  end.

Lemma odd_count_NoDup q ps : NoDup ps -> odd_count q ps = bool_decide (q ∈ ps).
Proof.
  induction 1 as [|p ps Hp _ IH]; [done|]. simpl. rewrite IH.
  destruct (Z.eqb_spec p q) as [->|Hn].
  - rewrite bool_decide_false by done. by rewrite bool_decide_true by left.
  - rewrite xorb_false_l. apply bool_decide_ext. rewrite elem_of_cons.
    split; [by right|by intros [->|]].
Qed.

Lemma buf_bit_flips ps buf q :
  Forall (fun p => 0 <= p < 8 * Z.of_nat (length buf)) ps -> 0 <= q ->
  buf_bit (foldl flip buf ps) q = xorb (buf_bit buf q) (odd_count q ps).
Proof.
  intros Hps Hq. revert buf Hps. induction ps as [|p ps IH]; intros buf Hps; simpl.
  - by rewrite xorb_false_r.
  - apply Forall_cons_1 in Hps as [Hp Hps].
    rewrite IH by (by rewrite flip_length). rewrite buf_bit_flip by done.
    by rewrite xorb_assoc.
Qed.

Lemma flip_bytes buf p : bytes buf -> bytes (flip buf p).
Proof.
  intros Hb. apply Forall_alter; [done|]. intros b _ Hr.
  assert (0 <= Z.shiftl 1 (p mod 8) < 2 ^ 8).
  { rewrite Z.shiftl_1_l. split; [lia|]. apply Z.pow_lt_mono_r; lia. }
  change 256 with (2 ^ 8) in *. split; [by apply Z.lxor_nonneg; lia|].
  apply bits_range; [done|apply Z.lxor_nonneg; lia|].
  intros i Hi. by rewrite Z.lxor_spec, !(testbit_high 8).
Qed.

Lemma flips_bytes ps buf : bytes buf -> bytes (foldl flip buf ps).
Proof. revert buf. induction ps; intros; simpl; [done|]. by apply IHps, flip_bytes. Qed.

(** Two buffers of bytes with the same bits are the same. *)
Lemma bytes_ext buf1 buf2 :
  bytes buf1 -> bytes buf2 -> length buf1 = length buf2 ->
  (forall q, 0 <= q < 8 * Z.of_nat (length buf1) -> buf_bit buf1 q = buf_bit buf2 q) ->
  buf1 = buf2.
Proof.
  intros H1 H2 Hl Hq. apply list_eq_same_length with (length buf1); [done..|].
  intros k x y Hk Hx Hy.
  assert (0 <= x < 2 ^ 8) by (by apply (Forall_lookup_1 _ _ _ _ H1 Hx)).
  assert (0 <= y < 2 ^ 8) by (by apply (Forall_lookup_1 _ _ _ _ H2 Hy)).
  apply Z.bits_inj'. intros i Hi. destruct (Z.ltb_spec i 8).
  - specialize (Hq (8 * Z.of_nat k + i)). unfold buf_bit in Hq.
    replace ((8 * Z.of_nat k + i) / 8) with (Z.of_nat k) in Hq by lia.
    replace ((8 * Z.of_nat k + i) mod 8) with i in Hq by lia.
    rewrite Nat2Z.id, !nth_lookup, Hx, Hy in Hq. apply Hq. lia.
  - by rewrite !(testbit_high 8).
Qed.
End Flips.

(** The state of the loops after the bits [ps] have been flipped. *)
Definition applied (ps : list Z) (s : list Z * Z) : list Z * Z :=
  (foldl flip (fst s) ps, snd s + Z.of_nat (length ps)).

Lemma applied_app ps1 ps2 s : applied ps2 (applied ps1 s) = applied (ps1 ++ ps2) s.
Proof. unfold applied; simpl. rewrite foldl_app, length_app. f_equal. lia. Qed.

(** ** The driver's loops apply the reports *)
Section Correct.
Context (readreg : Z -> Z) (ecc_step_size hw_ecc_steps len : Z).
Hypothesis step_fits : 512 <= ecc_step_size.
Hypothesis page_fits : ecc_step_size * hw_ecc_steps <= len < 2 ^ 28.

Definition in_page (p : Z) : Prop := 0 <= p < 8 * len.

Lemma position_in_page i tmp :
  0 <= i < hw_ecc_steps -> 0 <= tmp ->
  Forall in_page (position_report ecc_step_size i tmp).
Proof.
  intros Hi Ht. unfold position_report, truth, in_page.
  destruct (Z.eqb_spec tmp 0), (Z.leb_spec tmp 4096); simpl;
    repeat apply List.Forall_cons; try apply List.Forall_nil; nia.
Qed.

Lemma correct_position_ok i tmp buf stat :
  0 <= i < hw_ecc_steps -> 0 <= tmp < 2 ^ 16 -> bytes buf ->
  Z.of_nat (length buf) = len -> 0 <= stat < 2 ^ 31 - 1 ->
  correct_position ecc_step_size i tmp (buf, stat) =
  Ok (applied (position_report ecc_step_size i tmp) (buf, stat)).
Proof.
  intros Hi Ht Hb Hl Hs. unfold applied, correct_position, position_report, truth.
  destruct (Z.eqb_spec tmp 0), (Z.leb_spec tmp 4096); simpl; rewrite ?Z.add_0_r; try done.
  assert (ecc_step_size * i + (tmp - 1) / 8 < len) by nia.
  assert (0 <= ecc_step_size * i) by nia.
  rewrite (wrap_small 32 (ecc_step_size * i)) by lia. rewrite wrap_small by lia.
  destruct (aget_in_range buf (ecc_step_size * i + (tmp - 1) / 8)) as [b Eb]; [lia|].
  rewrite Eb. simpl. rewrite aset_in_range by lia. simpl.
  apply aget_Ok in Eb as [_ Eb]. unfold int_incr.
  destruct (Z.eqb_spec stat (2 ^ 31 - 1)); [lia|]. simpl. do 2 f_equal.
  pose proof (flip_bytes buf (8 * (ecc_step_size * i) + (tmp - 1)) Hb) as Hf.
  unfold flip in *.
  replace ((8 * (ecc_step_size * i) + (tmp - 1)) / 8)
    with (ecc_step_size * i + (tmp - 1) / 8) in * by lia.
  replace ((8 * (ecc_step_size * i) + (tmp - 1)) mod 8) with ((tmp - 1) mod 8) in * by lia.
  apply list_eq. intros k. destruct (decide (k = Z.to_nat (ecc_step_size * i + (tmp - 1) / 8))) as [->|Hk].
  - rewrite list_lookup_insert_eq by lia. rewrite list_lookup_alter_eq, Eb. simpl. f_equal.
    apply wrap_small. eapply (Forall_lookup_1 _ _ _ _ Hf).
    by rewrite list_lookup_alter_eq, Eb.
  - by rewrite list_lookup_insert_ne, list_lookup_alter_ne.
Qed.

(** A state of the loops in which [k] more bits can be counted. *)
Definition room (k : Z) (s : list Z * Z) : Prop :=
  bytes (fst s) /\ Z.of_nat (length (fst s)) = len /\
  0 <= snd s < 2 ^ 31 - k.

Lemma room_applied k ps s :
  room k s -> room (k - Z.of_nat (length ps)) (applied ps s).
Proof.
  intros (Hb & Hl & Hs). unfold room, applied; simpl.
  rewrite flips_length. split_and!; [by apply flips_bytes|done|lia..].
Qed.

Lemma room_le k k' s : room k s -> k' <= k -> room k' s.
Proof. unfold room. intuition lia. Qed.

Lemma position_report_length i tmp :
  (length (position_report ecc_step_size i tmp) <= 1)%nat.
Proof. unfold position_report. by destruct (_ && _); simpl; lia. Qed.

Lemma register_report_length i j :
  (length (register_report readreg ecc_step_size i j) <= 2)%nat.
Proof.
  unfold register_report. cbv zeta. rewrite length_app.
  pose proof (position_report_length i).
  set (a := position_report _ _ _). set (b := position_report _ _ _).
  assert (length a <= 1 /\ length b <= 1)%nat by (split; apply position_report_length). lia.
Qed.

Lemma correct_position_room i tmp s :
  0 <= i < hw_ecc_steps -> 0 <= tmp < 2 ^ 16 -> room 1 s ->
  correct_position ecc_step_size i tmp s =
  Ok (applied (position_report ecc_step_size i tmp) s).
Proof.
  intros Hi Ht (Hb & Hl & Hs). destruct s as [buf stat]. by apply correct_position_ok.
Qed.

Lemma correct_registers_ok i n j s :
  0 <= i < hw_ecc_steps -> (j + n <= 4)%nat -> room (2 * Z.of_nat n + 1) s ->
  correct_registers readreg ecc_step_size i (Z.of_nat j) n s =
  Ok (applied (flat_map (register_report readreg ecc_step_size i) (seq j n)) s).
Proof.
  intros Hi. revert j s. induction n as [|n IH]; intros j s Hj Hs; simpl.
  - by destruct s; unfold applied; simpl; rewrite Z.add_0_r.
  - assert (i < 2 ^ 19) by nia.
    rewrite (wrap_small 32 (0x10 * i)), (wrap_small 32 (0xB8 + _)), wrap_small by lia.
    set (value := readreg _).
    change 0xFFFF with (Z.ones 16). rewrite Z.shiftr_div_pow2, !Z.land_ones by lia.
    pose proof (position_report_length i) as Hp.
    rewrite correct_position_room; [|done|apply Z.mod_pos_bound; lia|eapply room_le; [done|lia]].
    simpl. rewrite correct_position_room;
      [|done|apply Z.mod_pos_bound; lia|
       eapply room_le; [apply room_applied; eassumption|specialize (Hp (value mod 2 ^ 16)); lia]].
    simpl. rewrite applied_app.
    change (position_report _ i (value mod _) ++ _) with
      (register_report readreg ecc_step_size i j).
    replace (Z.of_nat j + 1) with (Z.of_nat (S j)) by lia.
    rewrite IH; [by rewrite applied_app|lia|].
    eapply room_le; [apply room_applied; eassumption|].
    pose proof (register_report_length i j). lia.
Qed.

Lemma step_report_length i :
  (length (step_report readreg ecc_step_size i) <= 8)%nat.
Proof.
  unfold step_report. simpl. rewrite !length_app. simpl.
  pose proof (register_report_length (Z.of_nat i)) as Hr.
  pose proof (Hr 0%nat). pose proof (Hr 1%nat). pose proof (Hr 2%nat).
  pose proof (Hr 3%nat). lia.
Qed.

Lemma correct_steps_ok n i s :
  Z.of_nat (i + n) <= hw_ecc_steps -> room (8 * Z.of_nat n + 1) s ->
  correct_steps readreg ecc_step_size (Z.of_nat i) n s =
  Ok (applied (flat_map (step_report readreg ecc_step_size) (seq i n)) s).
Proof.
  revert i s. induction n as [|n IH]; intros i s Hi Hs; cbn [correct_steps seq flat_map].
  - by destruct s; unfold applied; simpl; rewrite Z.add_0_r.
  - pose proof (correct_registers_ok (Z.of_nat i) 4 0 s) as E.
    change (Z.of_nat 0) with 0 in E. rewrite E; [|lia|lia|eapply room_le; [done|lia]].
    change (flat_map (register_report _ _ _) _) with (step_report readreg ecc_step_size i).
    cbn [rbind].
    replace (Z.of_nat i + 1) with (Z.of_nat (S i)) by lia.
    rewrite IH; [by rewrite applied_app|lia|].
    eapply room_le; [apply room_applied; eassumption|].
    pose proof (step_report_length i). lia.
Qed.

Lemma reports_in_page : Forall in_page (reports readreg ecc_step_size hw_ecc_steps).
Proof.
  apply List.Forall_forall. intros p Hp. unfold reports in Hp.
  apply in_flat_map in Hp as (i & Hi & Hp). apply in_seq in Hi.
  apply in_flat_map in Hp as (j & _ & Hp). unfold register_report in Hp.
  apply in_app_or in Hp as [Hp|Hp]; revert p Hp; apply List.Forall_forall;
    apply position_in_page; try lia; apply Z.mod_pos_bound; lia.
Qed.

Lemma FNandCorrectEcc_applied buf :
  bytes buf -> Z.of_nat (length buf) = len -> 0 <= hw_ecc_steps ->
  FNandCorrectEcc readreg ecc_step_size hw_ecc_steps (Some buf) =
  Ok (Some (foldl flip buf (reports readreg ecc_step_size hw_ecc_steps)),
      Z.of_nat (length (reports readreg ecc_step_size hw_ecc_steps))).
Proof.
  intros Hb Hl Hn. unfold FNandCorrectEcc, reports.
  assert (hw_ecc_steps < 2 ^ 19) by nia.
  by rewrite (correct_steps_ok _ 0); [|lia|unfold room; simpl; split_and!; [done|done|lia..]].
Qed.
End Correct.

(** ** Properties *)

(** C36: A page whose wrong bits are exactly those the controller reports, each once,
    is restored, and the number of bits corrected is returned. *)
Theorem FNandCorrectEcc_restores readreg ecc_step_size hw_ecc_steps page buf :
  512 <= ecc_step_size -> 0 <= hw_ecc_steps ->
  ecc_step_size * hw_ecc_steps <= Z.of_nat (length page) < 2 ^ 28 ->
  bytes page -> bytes buf -> length buf = length page ->
  NoDup (reports readreg ecc_step_size hw_ecc_steps) ->
  (forall q, 0 <= q < 8 * Z.of_nat (length page) ->
     buf_bit buf q <> buf_bit page q <-> q ∈ reports readreg ecc_step_size hw_ecc_steps) ->
  FNandCorrectEcc readreg ecc_step_size hw_ecc_steps (Some buf) =
  Ok (Some page, Z.of_nat (length (reports readreg ecc_step_size hw_ecc_steps))).
Proof.
  intros Hstep Hn Hfit Hp Hb Hl Hd Hq.
  rewrite (FNandCorrectEcc_applied _ _ _ (Z.of_nat (length page))) by (lia || done).
  do 3 f_equal. apply bytes_ext.
  - by apply flips_bytes.
  - done.
  - by rewrite flips_length.
  - intros q Hr. rewrite flips_length, Hl in Hr.
    rewrite buf_bit_flips, odd_count_NoDup; [|done| |lia].
    + specialize (Hq q Hr). case_bool_decide as E.
      * apply Hq in E. by destruct (buf_bit buf q), (buf_bit page q).
      * destruct (buf_bit buf q), (buf_bit page q); simpl; try done; exfalso; by apply E, Hq.
    + rewrite Hl. by apply reports_in_page.
Qed.

(** Two steps, with the bits 5 and 4095 of the first and 0 of the second wrong. *)
Lemma FNandCorrectEcc_restores_witness :
  let readreg off :=
    if off =? 0xB8 then 0x10000006 else if off =? 0xD4 then 0x00010000 else 0 in
  let page := replicate 1024 0x5A in
  FNandCorrectEcc readreg 512 2 (Some (flip (flip (flip page 5) 4095) 4096)) = Ok (Some page, 3).
Proof.
  intros readreg page.
  assert (reports readreg 512 2 = [5; 4095; 4096]) as E by (vm_compute; reflexivity).
  assert (bytes page) as Hp by (apply Forall_replicate; lia).
  rewrite (FNandCorrectEcc_restores readreg 512 2 page).
  - by rewrite E.
  - lia.
  - lia.
  - vm_compute; split; [intros ?; discriminate|reflexivity].
  - done.
  - by do 3 apply flip_bytes.
  - by rewrite !flip_length.
  - rewrite E. by apply (bool_decide_unpack _), I.
  - intros q Hq. change (Z.of_nat (length page)) with 1024 in Hq.
    rewrite E, !elem_of_cons, elem_of_nil, !buf_bit_flip
      by (rewrite ?flip_length; change (Z.of_nat (length page)) with 1024; lia).
    destruct (buf_bit page q); split_cmp; simpl; intuition (lia || congruence).
Defined.

(** The length of the check bytes is 13 bits for each bit that can be corrected in
    512 bytes, rounded up; but for 16K pages with strength 8 the missing [else]
    leaves 0. *)
Theorem FNandGetEccTotalLength_correct bytes_per_page ecc_strength :
  bytes_per_page ∈ [0x200; 0x800; 0x1000; 0x2000; 0x4000] -> ecc_strength ∈ [2; 4; 8] ->
  FNandGetEccTotalLength bytes_per_page ecc_strength =
  if (bytes_per_page =? 0x4000) && (ecc_strength =? 8) then 0
  else (bytes_per_page / 512 * (13 * ecc_strength) + 7) / 8.
Proof.
  rewrite !elem_of_cons, !elem_of_nil.
  intros [->|[->|[->|[->|[->|[]]]]]] [->|[->|[->|[]]]]; vm_compute; reflexivity.
Qed.

Lemma FNandGetEccTotalLength_correct_witness :
  FNandGetEccTotalLength 0x4000 8 = 0 /\ FNandGetEccTotalLength 0x800 8 = 52.
Proof.
  split; [rewrite FNandGetEccTotalLength_correct|rewrite FNandGetEccTotalLength_correct];
    rewrite ?elem_of_cons; (reflexivity || tauto).
Defined.
