(* ===== verification/Sema.v ===== *)
(** The hardware semaphore driver:
    src/standalone/drivers/ipc/fsemaphore/fsemaphore.c and fsemaphore_hw.h.

    The memory holds the driver instances ([FSema]) and the locks handed out
    ([FSemaLocker]) by address, 0 being [NULL]; several instances (one per core,
    say) may drive the same controller.  The registers of the controller are the
    class [SemaHw]; its laws are the comments on the register map. *)
From stdpp Require Import gmap.
From S2P Require Import Prelude.

Module Sema.

(** ** Constants *)
Definition ErrSema : Z := 27.
Definition FSEMA_NUM_OF_LOCKER : nat := 32.
Definition FSEMA_OWNER_NONE : Z := 0.
Definition FSEMA_SUCCESS : Z := FT_SUCCESS.
Definition FSEMA_ERR_NOT_INIT : Z := FT_MAKE_ERRCODE ErrModBsp ErrSema 0.
Definition FSEMA_ERR_NO_AVAILABLE_LOCKER : Z := FT_MAKE_ERRCODE ErrModBsp ErrSema 1.
Definition FSEMA_ERR_LOCK_TIMEOUT : Z := FT_MAKE_ERRCODE ErrModBsp ErrSema 2.
Definition FSEMA_ERR_NO_PERMISSION : Z := FT_MAKE_ERRCODE ErrModBsp ErrSema 3.
Definition FSEMA_RST_REG_OFFSET : Z := 0.
Definition FSEMA_STATE_REG_OFFSET : Z := 8.
Definition FSEMA_RLOCK_X_REG_OFFSET (x : Z) : Z := u32 (16 + u32 (x * 4)).
Definition FSEMA_RST_ALL : Z := BIT 0.
Definition FSEMA_LOCKER_STATE (locker_idx : Z) : Z := BIT locker_idx.
Definition FSEMA_RLOCK_X_UNLOCK : Z := 0.
Definition FSEMA_RLOCK_X_IS_LOCKED : Z := 1.

(** ** Data *)
Record FSemaConfig := mkConfig { id : Z; base_addr : Z }.

Record FSemaLocker := mkLocker {
  index : Z;
  name : list Z;
  owner : Z;
  sema : Z (* address of the instance *)
}.

Record FSema := mkSema {
  config : FSemaConfig;
  is_ready : Z;
  locker : list Z (* addresses of the locks, 0 for a free entry *)
}.

(** The registers: a read may change them. *)
Class SemaHw := {
  hw : Type;
  reg_read : hw -> Z -> Z -> Z * hw; (* base address, register offset *)
  reg_write : hw -> Z -> Z -> Z -> hw
}.

Section Driver.
Context `{H : SemaHw}.

Record mem := mkMem {
  regs : hw;
  semas : gmap Z FSema;
  lockers : gmap Z FSemaLocker
}.

Definition set_regs (h : hw) (s : mem) : mem := mkMem h s.(semas) s.(lockers).
Definition set_sema (p : Z) (v : FSema) (s : mem) : mem :=
  mkMem s.(regs) (<[p := v]> s.(semas)) s.(lockers).
Definition set_locker (p : Z) (v : FSemaLocker) (s : mem) : mem :=
  mkMem s.(regs) s.(semas) (<[p := v]> s.(lockers)).

(** Reading an object through a pointer. *)
Definition sema_at (s : mem) (p : Z) : res FSema := of_option Undefined (s.(semas) !! p).
Definition locker_at (s : mem) (p : Z) : res FSemaLocker := of_option Undefined (s.(lockers) !! p).

Definition set_owner (o : Z) (l : FSemaLocker) : FSemaLocker :=
  mkLocker l.(index) l.(name) o l.(sema).

(** ** fsemaphore_hw.h *)
Definition FSemaReadReg (base reg_off : Z) (s : mem) : Z * mem :=
  let '(v, h) := reg_read s.(regs) base reg_off in (v, set_regs h s).
Definition FSemaWriteReg (base reg_off reg_val : Z) (s : mem) : mem :=
  set_regs (reg_write s.(regs) base reg_off reg_val) s.
Definition FSemaHwResetAll (base : Z) (s : mem) : mem :=
  FSemaWriteReg base FSEMA_RST_REG_OFFSET FSEMA_RST_ALL s.
Definition FSemaHwGetStatus (base locker_idx : Z) (s : mem) : bool * mem :=
  let '(reg_val, s) := FSemaReadReg base FSEMA_STATE_REG_OFFSET s in
  (truth (Z.land reg_val (FSEMA_LOCKER_STATE locker_idx)), s).
Definition FSemaTryLockOnce (base locker_idx : Z) (s : mem) : bool * mem :=
  let '(reg_val, s) := FSemaReadReg base (FSEMA_RLOCK_X_REG_OFFSET locker_idx) s in
  (negb (truth (Z.land FSEMA_RLOCK_X_IS_LOCKED reg_val)), s).

(** ** fsemaphore.c *)
Definition zero_locker : FSemaLocker := mkLocker 0 (replicate 32 0) 0 0.

Definition FSemaCfgInitialize (instance : Z) (input_config : FSemaConfig) (s : mem)
    : res (Z * mem) :=
  check! truth instance in
  check! negb (0 =? input_config.(base_addr)) in
  let! i := sema_at s instance in
  let s := set_sema instance (mkSema input_config i.(is_ready) i.(locker)) s in
  let s := FSemaHwResetAll input_config.(base_addr) s in
  let s := set_sema instance (mkSema input_config FT_COMPONENT_IS_READY i.(locker)) s in
  Ok (FSEMA_SUCCESS, s).

(** The loop over the entries of [instance->locker] that are not null. *)
Fixpoint for_lockers (f : FSemaLocker -> FSemaLocker) (l : list Z) (s : mem) : res mem :=
  match l with
  | [] => Ok s
  | p :: l =>
      if truth p then
        let! lk := locker_at s p in for_lockers f l (set_locker p (f lk) s)
      else for_lockers f l s
  end.

Definition FSemaDeInitialize (instance : Z) (s : mem) : res mem :=
  check! truth instance in
  let! i := sema_at s instance in
  let base := i.(config).(base_addr) in
  let! s := for_lockers (fun _ => zero_locker) i.(locker) s in
  let s := if negb (0 =? base) then FSemaHwResetAll base s else s in
  Ok (set_sema instance (mkSema (mkConfig 0 0) 0 (replicate FSEMA_NUM_OF_LOCKER 0)) s).

(** The first free entry, or the length of the array. *)
Fixpoint free_index (l : list Z) : nat :=
  match l with
  | [] => O
  | p :: l => if p =? 0 then O else S (free_index l)
  end.

Definition FSemaCreateLocker (instance lk : Z) (s : mem) : res (Z * mem) :=
  check! truth instance && truth lk in
  let! i := sema_at s instance in
  if negb (FT_COMPONENT_IS_READY =? i.(is_ready)) then Ok (FSEMA_ERR_NOT_INIT, s)
  else
    let locker_idx := free_index i.(locker) in
    if (FSEMA_NUM_OF_LOCKER <=? locker_idx)%nat then Ok (FSEMA_ERR_NO_AVAILABLE_LOCKER, s)
    else
      let! l := locker_at s lk in
      let s := set_sema instance
        (mkSema i.(config) i.(is_ready) (<[locker_idx := lk]> i.(locker))) s in
      let s := set_locker lk
        (mkLocker (Z.of_nat locker_idx) (<[0%nat := 0]> l.(name)) FSEMA_OWNER_NONE instance) s in
      Ok (FSEMA_SUCCESS, s).

(** The loop of [FSemaTryLock]; [relax] is the handler of the caller. *)
Fixpoint try_loop (try_times : nat) (base lk : Z) (relax : option (mem -> mem)) (s : mem)
    : res (bool * mem) :=
  match try_times with
  | O => Ok (false, s)
  | S n =>
      let! l := locker_at s lk in
      let '(lock_success, s) := FSemaTryLockOnce base l.(index) s in
      if lock_success then Ok (true, s)
      else
        let s := match relax with Some f => f s | None => s end in
        try_loop n base lk relax s
  end.

Definition FSemaTryLock (lk who : Z) (try_times : nat) (relax : option (mem -> mem)) (s : mem)
    : res (Z * mem) :=
  check! truth lk in
  let! l := locker_at s lk in
  check! truth l.(sema) in
  let! i := sema_at s l.(sema) in
  if negb (FT_COMPONENT_IS_READY =? i.(is_ready)) then Ok (FSEMA_ERR_NOT_INIT, s)
  else
    let! (lock_success, s) := try_loop try_times i.(config).(base_addr) lk relax s in
    if negb lock_success then Ok (FSEMA_ERR_LOCK_TIMEOUT, s)
    else
      let! l := locker_at s lk in
      Ok (FSEMA_SUCCESS, set_locker lk (set_owner who l) s).

Definition FSemaUnlock (lk who : Z) (s : mem) : res (Z * mem) :=
  check! truth lk in
  let! l := locker_at s lk in
  check! truth l.(sema) in
  let! i := sema_at s l.(sema) in
  let base := i.(config).(base_addr) in
  if negb (FT_COMPONENT_IS_READY =? i.(is_ready)) then Ok (FSEMA_ERR_NOT_INIT, s)
  else if negb (l.(owner) =? who) then Ok (FSEMA_ERR_NO_PERMISSION, s)
  else
    let '(locked, s) := FSemaHwGetStatus base l.(index) s in
    if negb locked then Ok (FSEMA_SUCCESS, s)
    else
      let s := FSemaWriteReg base (FSEMA_RLOCK_X_REG_OFFSET l.(index)) FSEMA_RLOCK_X_UNLOCK s in
      Ok (FSEMA_SUCCESS, set_locker lk (set_owner FSEMA_OWNER_NONE l) s).

Definition FSemaUnlockAll (instance : Z) (s : mem) : res (Z * mem) :=
  check! truth instance in
  let! i := sema_at s instance in
  if negb (FT_COMPONENT_IS_READY =? i.(is_ready)) then Ok (FSEMA_ERR_NOT_INIT, s)
  else
    let s := FSemaHwResetAll i.(config).(base_addr) s in
    let! s := for_lockers (set_owner FSEMA_OWNER_NONE) i.(locker) s in
    Ok (FSEMA_SUCCESS, s).

Definition FSemaDeleteLocker (lk : Z) (s : mem) : res (Z * mem) :=
  check! truth lk in
  let! l := locker_at s lk in
  check! truth l.(sema) in
  let! i := sema_at s l.(sema) in
  let base := i.(config).(base_addr) in
  let locker_idx := l.(index) in
  if negb (FT_COMPONENT_IS_READY =? i.(is_ready)) then Ok (FSEMA_ERR_NOT_INIT, s)
  else
    let '(_, s) := FSemaHwGetStatus base locker_idx s in
    let! p := aget i.(locker) locker_idx in
    check! p =? lk in
    let s := FSemaWriteReg base (FSEMA_RLOCK_X_REG_OFFSET locker_idx) FSEMA_RLOCK_X_UNLOCK s in
    let! entries := aset i.(locker) locker_idx 0 in
    let s := set_sema l.(sema) (mkSema i.(config) i.(is_ready) entries) s in
    Ok (FSEMA_SUCCESS, set_locker lk zero_locker s).

(** The result is a [boolean], an [unsigned long]. *)
Definition FSemaIsLocked (lk : Z) (s : mem) : res (Z * mem) :=
  check! truth lk in
  let! l := locker_at s lk in
  check! truth l.(sema) in
  let! i := sema_at s l.(sema) in
  if negb (FT_COMPONENT_IS_READY =? i.(is_ready)) then Ok (FSEMA_ERR_NOT_INIT, s)
  else
    let '(locked, s) := FSemaHwGetStatus i.(config).(base_addr) l.(index) s in
    Ok (if locked then 1 else 0, s).
End Driver.
End Sema.
