(* ===== verification/SemaProps.v ===== *)
(** Properties of the semaphore driver of [Sema]: mutual exclusion between the
    locks of all driver instances on a controller, and the behaviour of each
    operation, for a controller that works as its register map says. *)
From stdpp Require Import gmap.
From S2P Require Import Prelude Sema.
Import Sema.Sema.

(** The comments of fsemaphore_hw.h: reading the lock register of a free
    semaphore returns 0 and locks it, of a locked one returns 1; writing 0
    unlocks it; the state register has one bit per semaphore; writing 1 to the
    reset register unlocks all of them. *)
Class SemaLaws `{H : SemaHw} := {
  is_locked : hw -> Z -> Z -> bool;
  law_try h b i : 0 <= i < 32 ->
    exists h', reg_read h b (FSEMA_RLOCK_X_REG_OFFSET i) = (if is_locked h b i then 1 else 0, h') /\
      forall b' j, is_locked h' b' j = ((b' =? b) && (j =? i)) || is_locked h b' j;
  law_unlock h b i : 0 <= i < 32 ->
    forall b' j, is_locked (reg_write h b (FSEMA_RLOCK_X_REG_OFFSET i) FSEMA_RLOCK_X_UNLOCK) b' j =
      negb ((b' =? b) && (j =? i)) && is_locked h b' j;
  law_state h b : exists v, reg_read h b FSEMA_STATE_REG_OFFSET = (v, h) /\
    forall i, 0 <= i < 32 -> Z.testbit v i = is_locked h b i;
  law_reset h b : forall b' j,
    is_locked (reg_write h b FSEMA_RST_REG_OFFSET FSEMA_RST_ALL) b' j =
      negb (b' =? b) && is_locked h b' j
}.

Section Facts.
Context `{H : SemaHw} `{L : !SemaLaws}.

Lemma truth_bit v i : 0 <= i -> truth (Z.land v (BIT i)) = Z.testbit v i.
Proof.
  intros Hi. unfold truth. destruct (Z.testbit v i) eqn:E.
  - apply negb_true_iff, Z.eqb_neq. intros H0.
    assert (Z.testbit (Z.land v (BIT i)) i = true) as Ht.
    { rewrite Z.land_spec, E, BIT_testbit by done. apply Z.eqb_refl. }
    by rewrite H0, Z.testbit_0_l in Ht.
  - apply negb_false_iff, Z.eqb_eq. bitwise j Hj.
    destruct (Z.eqb_spec j i) as [->|]; [by rewrite E|by rewrite andb_false_r].
Qed.

Lemma set_regs_id s : set_regs s.(regs) s = s.
Proof. by destruct s. Qed.

(** Reading the state of a semaphore. *)
Lemma status_ok s b i :
  0 <= i < 32 -> FSemaHwGetStatus b i s = (is_locked s.(regs) b i, s).
Proof.
  intros Hi. unfold FSemaHwGetStatus, FSemaReadReg.
  destruct (law_state s.(regs) b) as (v & -> & Hv). unfold FSEMA_LOCKER_STATE.
  by rewrite truth_bit, Hv, set_regs_id by lia.
Qed.

(** Trying to take a semaphore once. *)
Lemma try_once_ok s b i :
  0 <= i < 32 ->
  exists h', FSemaTryLockOnce b i s = (negb (is_locked s.(regs) b i), set_regs h' s) /\
    forall b' j, is_locked h' b' j = ((b' =? b) && (j =? i)) || is_locked s.(regs) b' j.
Proof.
  intros Hi. unfold FSemaTryLockOnce, FSemaReadReg.
  destruct (law_try s.(regs) b i Hi) as (h' & -> & Hl). exists h'. split; [|done].
  by destruct (is_locked (regs s) b i).
Qed.

(** ** Locks in use *)

(** [lk] is a lock of a ready instance: the semaphore [i] at base [b]. *)
Record lock_at (s : mem) (lk b i : Z) (l : FSemaLocker) : Prop := {
  lock_ptr : lk <> 0;
  lock_get : s.(lockers) !! lk = Some l;
  lock_sema : l.(sema) <> 0;
  lock_index : l.(index) = i;
  lock_range : 0 <= i < 32;
  lock_ready : exists v, s.(semas) !! l.(sema) = Some v /\ v.(is_ready) = FT_COMPONENT_IS_READY /\
    v.(config).(base_addr) = b
}.

(** The locks and instances are the same and the same semaphores are locked. *)
Definition same_locks (s s' : mem) : Prop :=
  s'.(semas) = s.(semas) /\ s'.(lockers) = s.(lockers) /\
  forall b i, is_locked s'.(regs) b i = is_locked s.(regs) b i.

Lemma try_loop_ok n s lk b i l :
  s.(lockers) !! lk = Some l -> l.(index) = i -> 0 <= i < 32 ->
  exists h', try_loop n b lk None s =
      Ok ((0 <? Z.of_nat n) && negb (is_locked s.(regs) b i), set_regs h' s) /\
    forall b' j, is_locked h' b' j =
      ((0 <? Z.of_nat n) && (b' =? b) && (j =? i)) || is_locked s.(regs) b' j.
Proof.
  intros Hl Hi Hr. revert s Hl. induction n as [|n IH]; intros s Hl; cbn [try_loop].
  { exists s.(regs). by rewrite set_regs_id. }
  unfold locker_at. rewrite Hl. cbn [of_option rbind]. rewrite Hi.
  destruct (try_once_ok s b i Hr) as (h1 & -> & H1).
  rewrite (proj2 (Z.ltb_lt 0 (Z.of_nat (S n)))) by lia. cbn [andb].
  destruct (is_locked (regs s) b i) eqn:E; cbn [negb]; [|by exists h1].
  destruct (IH (set_regs h1 s) Hl) as (h2 & -> & H2).
  exists h2. simpl. rewrite H1, E, orb_true_r, andb_false_r. split; [done|].
  intros b' j. rewrite H2. simpl. rewrite H1.
  destruct (Z.eqb_spec b' b), (Z.eqb_spec j i); subst; simpl; rewrite ?E, ?andb_false_r, ?orb_true_r; try done.
  all: by destruct (0 <? Z.of_nat n).
Qed.

(** [FSemaTryLock] on a lock in use: it succeeds exactly when it may try and
    the semaphore is free; then the semaphore is locked and the owner recorded;
    otherwise it reports a timeout and nothing changes. *)
Theorem FSemaTryLock_correct s lk b i l who n :
  lock_at s lk b i l ->
  exists h', FSemaTryLock lk who n None s =
      Ok (if (0 <? Z.of_nat n) && negb (is_locked s.(regs) b i)
          then (FSEMA_SUCCESS, set_locker lk (set_owner who l) (set_regs h' s))
          else (FSEMA_ERR_LOCK_TIMEOUT, set_regs h' s)) /\
    forall b' j, is_locked h' b' j =
      ((0 <? Z.of_nat n) && (b' =? b) && (j =? i)) || is_locked s.(regs) b' j.
Proof.
  intros [Hp Hl Hs Hi Hr (v & Hv & Hready & Hb)]. unfold FSemaTryLock, locker_at, sema_at.
  unfold truth at 1. rewrite (proj2 (Z.eqb_neq lk 0)), Hl by done. simpl.
  unfold truth. rewrite (proj2 (Z.eqb_neq (sema l) 0)), Hv by done. simpl.
  rewrite Hready, Hb. change (negb (FT_COMPONENT_IS_READY =? FT_COMPONENT_IS_READY)) with false.
  cbn iota. destruct (try_loop_ok n s lk b i l Hl Hi Hr) as (h' & -> & Hh).
  exists h'. split; [|done]. simpl. destruct (_ && _); simpl; [|done]. by rewrite Hl.
Qed.

(** [FSemaUnlock] on a lock in use: only the recorded owner may unlock it; the
    semaphore, if locked, is unlocked and the owner forgotten. *)
Theorem FSemaUnlock_correct s lk b i l who :
  lock_at s lk b i l ->
  exists h', FSemaUnlock lk who s =
      Ok (if negb (l.(owner) =? who) then (FSEMA_ERR_NO_PERMISSION, s)
          else if negb (is_locked s.(regs) b i) then (FSEMA_SUCCESS, s)
          else (FSEMA_SUCCESS, set_locker lk (set_owner FSEMA_OWNER_NONE l) (set_regs h' s))) /\
    forall b' j, is_locked h' b' j = negb ((b' =? b) && (j =? i)) && is_locked s.(regs) b' j.
Proof.
  intros [Hp Hl Hs Hi Hr (v & Hv & Hready & Hb)].
  exists (reg_write s.(regs) b (FSEMA_RLOCK_X_REG_OFFSET i) FSEMA_RLOCK_X_UNLOCK).
  split; [|by apply law_unlock]. unfold FSemaUnlock, locker_at, sema_at.
  unfold truth at 1. rewrite (proj2 (Z.eqb_neq lk 0)), Hl by done. simpl.
  unfold truth. rewrite (proj2 (Z.eqb_neq (sema l) 0)), Hv by done. simpl.
  rewrite Hready, Hb, Hi. change (negb (FT_COMPONENT_IS_READY =? FT_COMPONENT_IS_READY)) with false.
  cbn iota. destruct (owner l =? who); [|done]. cbn [negb]. rewrite status_ok by done.
  by destruct (is_locked (regs s) b i).
Qed.

(** ** Mutual exclusion *)

(** The lock [lk] holds the semaphore [i] at base [b]. *)
Definition holder (s : mem) (b i lk : Z) : Prop :=
  exists l, lock_at s lk b i l /\ l.(owner) <> FSEMA_OWNER_NONE.

(** One operation of some core; an owner is never [FSEMA_OWNER_NONE], and a lock
    is created in an object that is not in use. *)
Inductive step (s : mem) : mem -> Prop :=
| step_try lk who n st s' :
    who <> FSEMA_OWNER_NONE -> FSemaTryLock lk who n None s = Ok (st, s') -> step s s'
| step_unlock lk who st s' :
    who <> FSEMA_OWNER_NONE -> FSemaUnlock lk who s = Ok (st, s') -> step s s'
| step_create instance lk l st s' :
    s.(lockers) !! lk = Some l -> l.(sema) = 0 ->
    FSemaCreateLocker instance lk s = Ok (st, s') -> step s s'.

(** No lock is in use and no semaphore is locked. *)
Record initial (s : mem) : Prop := {
  init_lockers lk l : s.(lockers) !! lk = Some l -> l.(sema) = 0 /\ l.(owner) = FSEMA_OWNER_NONE;
  init_unlocked b i : is_locked s.(regs) b i = false
}.

Inductive reachable : mem -> Prop :=
| reach_init s : initial s -> reachable s
| reach_step s s' : reachable s -> step s s' -> reachable s'.

Record inv (s : mem) : Prop := {
  inv_used lk l : s.(lockers) !! lk = Some l -> lk <> 0 -> l.(sema) <> 0 ->
    exists b i, lock_at s lk b i l;
  inv_idle lk l : s.(lockers) !! lk = Some l -> l.(sema) = 0 -> l.(owner) = FSEMA_OWNER_NONE;
  inv_held b i lk : holder s b i lk -> is_locked s.(regs) b i = true;
  inv_unique b i lk lk' : holder s b i lk -> holder s b i lk' -> lk = lk';
  inv_locked b i : 0 <= i < 32 -> is_locked s.(regs) b i = true -> exists lk, holder s b i lk
}.

(** Changing the owner of a lock in use. *)
Lemma lock_at_owner s h p lp o q b i l :
  s.(lockers) !! p = Some lp ->
  lock_at (set_locker p (set_owner o lp) (set_regs h s)) q b i l <->
  exists l0, lock_at s q b i l0 /\ l = if decide (q = p) then set_owner o l0 else l0.
Proof.
  intros Hp. split.
  - intros [Hq Hl Hs Hi Hr Hv]. simpl in *. destruct (decide (q = p)) as [->|Hne].
    + rewrite lookup_insert_eq in Hl. injection Hl as <-. exists lp. split; [by constructor|done].
    + rewrite lookup_insert_ne in Hl by done. exists l. split; [by constructor|done].
  - intros (l0 & [Hq Hl Hs Hi Hr Hv] & ->). destruct (decide (q = p)) as [->|Hne].
    + rewrite Hp in Hl. injection Hl as <-. constructor; simpl; try done.
      by rewrite lookup_insert_eq.
    + constructor; simpl; try done. by rewrite lookup_insert_ne.
Qed.

Lemma lock_at_key s lk b i l b' i' l' :
  lock_at s lk b i l -> lock_at s lk b' i' l' -> b = b' /\ i = i' /\ l = l'.
Proof.
  intros [_ H1 _ H2 _ (v & H3 & _ & H4)] [_ H1' _ H2' _ (v' & H3' & _ & H4')].
  by simplify_eq.
Qed.

(** Holders after the owner of a lock in use has changed. *)
Lemma holder_owner s h p o q b i lp bp ip :
  lock_at s p bp ip lp ->
  holder (set_locker p (set_owner o lp) (set_regs h s)) b i q <->
  if decide (q = p) then o <> FSEMA_OWNER_NONE /\ b = bp /\ i = ip else holder s b i q.
Proof.
  intros Hp. pose proof (lock_get _ _ _ _ _ Hp) as Hg. split.
  - intros (l & Hl & Ho). apply lock_at_owner in Hl as (l0 & Hl & ->); [|done].
    destruct (decide (q = p)) as [->|]; [|by exists l0].
    destruct (lock_at_key _ _ _ _ _ _ _ _ Hl Hp) as (-> & -> & _). done.
  - destruct (decide (q = p)) as [->|Hne].
    + intros (Ho & -> & ->). exists (set_owner o lp). split; [|done].
      apply lock_at_owner; [done|]. exists lp. by rewrite decide_True.
    + intros (l & Hl & Ho). exists l. split; [|done].
      apply lock_at_owner; [done|]. exists l. by rewrite decide_False.
Qed.

(** The invariant, when the owner of [p] becomes [o] and the semaphore of [p]
    becomes locked or not accordingly. *)
Lemma inv_owner s h p o lp bp ip :
  inv s -> lock_at s p bp ip lp ->
  (forall b i, is_locked h b i =
     if (b =? bp) && (i =? ip) then negb (o =? FSEMA_OWNER_NONE) else is_locked s.(regs) b i) ->
  (forall q, holder s bp ip q -> q = p) ->
  inv (set_locker p (set_owner o lp) (set_regs h s)).
Proof.
  intros I Hp Hreg Honly. pose proof (lock_get _ _ _ _ _ Hp) as Hg. constructor.
  - intros lk l Hl Hn Hs. simpl in Hl. destruct (decide (lk = p)) as [->|Hne].
    + rewrite lookup_insert_eq in Hl. injection Hl as <-. exists bp, ip.
      apply lock_at_owner; [done|]. exists lp. by rewrite decide_True.
    + rewrite lookup_insert_ne in Hl by done.
      destruct (inv_used s I lk l Hl Hn Hs) as (b & i & Hk). exists b, i.
      apply lock_at_owner; [done|]. exists l. by rewrite decide_False.
  - intros lk l Hl Hs. simpl in Hl. destruct (decide (lk = p)) as [->|Hne].
    + rewrite lookup_insert_eq in Hl. injection Hl as <-. by destruct (lock_sema _ _ _ _ _ Hp).
    + rewrite lookup_insert_ne in Hl by done. by apply (inv_idle s I lk).
  - intros b i q Hh. apply (holder_owner s h p o q b i lp bp ip Hp) in Hh. simpl. rewrite Hreg.
    destruct (decide (q = p)) as [->|Hne].
    + destruct Hh as (Ho & -> & ->). rewrite !Z.eqb_refl. by apply negb_true_iff, Z.eqb_neq.
    + destruct (Z.eqb_spec b bp) as [->|], (Z.eqb_spec i ip) as [->|]; simpl;
        try by apply (inv_held s I _ _ q). by destruct (Honly q Hh).
  - intros b i q q' Hh Hh'.
    apply (holder_owner s h p o q b i lp bp ip Hp) in Hh.
    apply (holder_owner s h p o q' b i lp bp ip Hp) in Hh'.
    destruct (decide (q = p)) as [->|], (decide (q' = p)) as [->|]; try done.
    + destruct Hh as (_ & -> & ->). by rewrite (Honly q' Hh').
    + destruct Hh' as (_ & -> & ->). by rewrite (Honly q Hh).
    + by apply (inv_unique s I b i).
  - intros b i Hr Hl. simpl in Hl. rewrite Hreg in Hl.
    assert (Hother : ~ (b = bp /\ i = ip) -> is_locked s.(regs) b i = true ->
      exists q, holder (set_locker p (set_owner o lp) (set_regs h s)) b i q).
    { intros Hne Hk. destruct (inv_locked s I b i Hr Hk) as (q & Hq). exists q.
      apply (holder_owner s h p o q b i lp bp ip Hp). destruct (decide (q = p)) as [->|]; [|done].
      destruct Hq as (l & Hq & _). destruct (lock_at_key _ _ _ _ _ _ _ _ Hq Hp) as (-> & -> & _).
      by destruct Hne. }
    destruct (Z.eqb_spec b bp) as [->|Hb], (Z.eqb_spec i ip) as [->|Hi]; simpl in Hl;
      try (apply Hother; [by intros [? ?]|done]).
    exists p. apply (holder_owner s h p o p bp ip lp bp ip Hp). rewrite decide_True by done.
    split; [|done]. by apply negb_true_iff, Z.eqb_neq in Hl.
Qed.

(** A state that looks the same has the same locks and holders. *)
Lemma inv_regs s h :
  inv s -> (forall b i, is_locked h b i = is_locked s.(regs) b i) -> inv (set_regs h s).
Proof.
  intros I Hh.
  assert (Hlk : forall q b i l, lock_at (set_regs h s) q b i l <-> lock_at s q b i l).
  { intros. split; intros []; by constructor. }
  assert (Hho : forall b i q, holder (set_regs h s) b i q <-> holder s b i q).
  { intros. unfold holder. by setoid_rewrite Hlk. }
  constructor.
  - intros lk l Hl Hn Hs. destruct (inv_used s I lk l Hl Hn Hs) as (b & i & Hk).
    exists b, i. by apply Hlk.
  - intros lk l. apply (inv_idle s I).
  - intros b i q Hq%Hho. simpl. rewrite Hh. by apply (inv_held s I b i q).
  - intros b i q q' Hq%Hho Hq'%Hho. by apply (inv_unique s I b i).
  - intros b i Hr Hl. simpl in Hl. rewrite Hh in Hl.
    destruct (inv_locked s I b i Hr Hl) as (q & Hq). exists q. by apply Hho.
Qed.

(** What a lock operation that does not fault has looked up. *)
Lemma used_lock {A} s lk (f : FSemaLocker -> FSema -> res A) a :
  (check! truth lk in
   let! l := locker_at s lk in
   check! truth l.(sema) in
   let! i := sema_at s l.(sema) in f l i) = Ok a ->
  inv s -> exists b i l, lock_at s lk b i l.
Proof.
  unfold truth, locker_at. destruct (Z.eqb_spec lk 0) as [|Hlk]; [done|]. simpl.
  destruct (lockers s !! lk) as [l|] eqn:Hl; [|done]. simpl.
  destruct (Z.eqb_spec (sema l) 0) as [|Hs]; [done|]. intros _ I.
  destruct (inv_used s I lk l Hl Hlk Hs) as (b & i & Hk). by exists b, i, l.
Qed.

Lemma inv_try s lk who n st s' :
  inv s -> who <> FSEMA_OWNER_NONE -> FSemaTryLock lk who n None s = Ok (st, s') -> inv s'.
Proof.
  intros I Hwho He. destruct (used_lock _ _ _ _ He I) as (b & i & l & Hk).
  destruct (FSemaTryLock_correct s lk b i l who n Hk) as (h & He' & Hh).
  rewrite He' in He. destruct (0 <? Z.of_nat n); simpl in *; [|injection He as <- <-; by apply inv_regs].
  destruct (is_locked (regs s) b i) eqn:El; simpl in *.
  - injection He as <- <-. apply inv_regs; [done|]. intros b' j. rewrite Hh.
    destruct (Z.eqb_spec b' b) as [->|], (Z.eqb_spec j i) as [->|]; by rewrite ?El.
  - injection He as <- <-. apply (inv_owner s h lk who l b i I Hk).
    + intros b' j. rewrite Hh. rewrite (proj2 (Z.eqb_neq who _)) by done.
      by destruct ((b' =? b) && (j =? i)).
    + intros q Hq. apply (inv_held s I) in Hq. congruence.
Qed.

Lemma inv_unlock s lk who st s' :
  inv s -> who <> FSEMA_OWNER_NONE -> FSemaUnlock lk who s = Ok (st, s') -> inv s'.
Proof.
  intros I Hwho He. destruct (used_lock _ _ _ _ He I) as (b & i & l & Hk).
  destruct (FSemaUnlock_correct s lk b i l who Hk) as (h & He' & Hh). rewrite He' in He.
  destruct (Z.eqb_spec (owner l) who) as [Ho|]; simpl in He; [|by injection He as <- <-].
  destruct (is_locked (regs s) b i) eqn:El; simpl in He; [|by injection He as <- <-].
  injection He as <- <-. apply (inv_owner s h lk FSEMA_OWNER_NONE l b i I Hk).
  - intros b' j. rewrite Hh. by destruct ((b' =? b) && (j =? i)).
  - intros q Hq. apply (inv_unique s I b i q lk Hq). exists l. split; [done|congruence].
Qed.

Lemma free_index_le l : (free_index l <= length l)%nat.
Proof. induction l as [|p l IH]; simpl; [lia|]. destruct (p =? 0); lia. Qed.

(** The state after a lock has been created in an object not in use. *)
Definition created (s : mem) (instance lk idx : Z) (v : FSema) (entries name0 : list Z) : mem :=
  set_locker lk (mkLocker idx name0 FSEMA_OWNER_NONE instance)
    (set_sema instance (mkSema v.(config) v.(is_ready) entries) s).

Lemma lock_at_created s instance lk idx v entries name0 l q b i lq :
  s.(semas) !! instance = Some v -> s.(lockers) !! lk = Some l -> l.(sema) = 0 -> q <> lk ->
  lock_at (created s instance lk idx v entries name0) q b i lq <-> lock_at s q b i lq.
Proof.
  intros Hv Hl Hs Hne. split; intros [Hq Hlq Hsq Hi Hr (w & Hw & Hready & Hb)]; constructor; try done.
  - simpl in Hlq. by rewrite lookup_insert_ne in Hlq.
  - simpl in Hw. destruct (decide (sema lq = instance)) as [He|].
    + rewrite He in *. rewrite lookup_insert_eq in Hw. injection Hw as <-. by exists v.
    + rewrite lookup_insert_ne in Hw by done. by exists w.
  - simpl. by rewrite lookup_insert_ne.
  - simpl. destruct (decide (sema lq = instance)) as [He|].
    + rewrite He in *. rewrite lookup_insert_eq. eexists. split; [done|].
      simpl. rewrite Hv in Hw. by injection Hw as ->.
    + rewrite lookup_insert_ne by done. by exists w.
Qed.

Lemma inv_created s instance lk idx v entries name0 l :
  inv s -> s.(semas) !! instance = Some v -> v.(is_ready) = FT_COMPONENT_IS_READY ->
  s.(lockers) !! lk = Some l -> l.(sema) = 0 -> lk <> 0 -> instance <> 0 -> 0 <= idx < 32 ->
  inv (created s instance lk idx v entries name0).
Proof.
  intros I Hv Hready Hl Hs Hlk Hin Hidx.
  set (s' := created s instance lk idx v entries name0).
  pose proof (fun q b i lq => lock_at_created s instance lk idx v entries name0 l q b i lq Hv Hl Hs)
    as Hat.
  assert (Hself : forall b i l', lock_at s' lk b i l' -> l'.(owner) = FSEMA_OWNER_NONE).
  { intros b i l' [_ Hg _ _ _ _]. simpl in Hg. rewrite lookup_insert_eq in Hg. by injection Hg as <-. }
  assert (Hno : forall b i, ~ holder s b i lk).
  { intros b i (l' & [_ Hg Hs' _ _ _] & _). rewrite Hl in Hg. by simplify_eq. }
  assert (Hho : forall b i q, holder s' b i q <-> holder s b i q).
  { intros b i q. destruct (decide (q = lk)) as [->|Hne].
    - split; [|by intros ?%Hno]. intros (l' & Hg & Ho). by rewrite (Hself _ _ _ Hg) in Ho.
    - split; intros (lq & Hk & Ho); exists lq; (split; [by apply (Hat q b i lq Hne)|done]). }
  constructor.
  - intros q lq Hlq Hq Hsq. simpl in Hlq. destruct (decide (q = lk)) as [->|Hne].
    + rewrite lookup_insert_eq in Hlq. injection Hlq as <-. exists v.(config).(base_addr), idx.
      constructor; simpl; try done; [by rewrite lookup_insert_eq|].
      rewrite lookup_insert_eq. by eexists.
    + rewrite lookup_insert_ne in Hlq by done.
      destruct (inv_used s I q lq Hlq Hq Hsq) as (b & i & Hk). exists b, i. by apply Hat.
  - intros q lq Hlq Hsq. simpl in Hlq. destruct (decide (q = lk)) as [->|Hne].
    + rewrite lookup_insert_eq in Hlq. by injection Hlq as <-.
    + rewrite lookup_insert_ne in Hlq by done. by apply (inv_idle s I q).
  - intros b i q Hq%Hho. by apply (inv_held s I b i q).
  - intros b i q q' Hq%Hho Hq'%Hho. by apply (inv_unique s I b i).
  - intros b i Hr Hk. destruct (inv_locked s I b i Hr Hk) as (q & Hq). exists q. by apply Hho.
Qed.

Lemma inv_create s instance lk l st s' :
  inv s -> s.(lockers) !! lk = Some l -> l.(sema) = 0 ->
  FSemaCreateLocker instance lk s = Ok (st, s') -> inv s'.
Proof.
  intros I Hl Hs. unfold FSemaCreateLocker, sema_at, locker_at, truth.
  destruct (Z.eqb_spec instance 0) as [|Hin]; [done|].
  destruct (Z.eqb_spec lk 0) as [|Hlk]; [done|]. cbn [negb andb].
  destruct (semas s !! instance) as [v|] eqn:Hv; cbn [of_option rbind]; [|done].
  destruct (Z.eqb_spec FT_COMPONENT_IS_READY (is_ready v)) as [Hready|]; cbn [negb];
    [|by intros [= <- <-]].
  destruct (free_index (locker v)) as [|n] eqn:Hf.
  - cbn [Nat.leb FSEMA_NUM_OF_LOCKER]. rewrite Hl. cbn [of_option rbind]. intros [= <- <-].
    apply (inv_created s instance lk 0 v _ _ l); (done || lia).
  - destruct (Nat.leb_spec FSEMA_NUM_OF_LOCKER (S n)) as [|Hlt]; [by intros [= <- <-]|].
    rewrite Hl. cbn [of_option rbind]. intros [= <- <-]. unfold FSEMA_NUM_OF_LOCKER in Hlt.
    apply (inv_created s instance lk _ v _ _ l); (done || lia).
Qed.

Lemma reachable_inv s : reachable s -> inv s.
Proof.
  induction 1 as [s [Hl Hu]|s s' _ IH Hstep]; [|destruct Hstep as
    [lk who n st s' Hw He|lk who st s' Hw He|ins lk l st s' Hl Hs He]].
  - constructor.
    + intros lk l Hg _ Hs. by destruct (Hl lk l Hg).
    + intros lk l Hg _. by destruct (Hl lk l Hg).
    + intros b i lk (l & [_ Hg _ _ _ _] & Ho). by destruct (Hl lk l Hg).
    + intros b i lk lk' (l & [_ Hg _ _ _ _] & Ho). by destruct (Hl lk l Hg).
    + intros b i _ Hk. by rewrite Hu in Hk.
  - by apply (inv_try s lk who n st).
  - by apply (inv_unlock s lk who st).
  - by apply (inv_create s ins lk l st).
Qed.

(** C40: Mutual exclusion: whatever locks the cores create, try and unlock on the
    controllers, in any order, at most one lock at a time holds a semaphore, and
    a semaphore is locked exactly when some lock holds it. *)
Theorem sema_mutual_exclusion s :
  reachable s ->
  (forall b i lk lk', holder s b i lk -> holder s b i lk' -> lk = lk') /\
  (forall b i, 0 <= i < 32 -> is_locked s.(regs) b i = true <-> exists lk, holder s b i lk).
Proof.
  intros I%reachable_inv. split; [apply (inv_unique s I)|]. intros b i Hi. split.
  - by apply (inv_locked s I).
  - intros (lk & Hlk). by apply (inv_held s I b i lk).
Qed.

Lemma free_index_spec l :
  (forall j, (j < free_index l)%nat -> exists p, l !! j = Some p /\ p <> 0) /\
  ((free_index l < length l)%nat -> l !! free_index l = Some 0).
Proof.
  induction l as [|p l [IH1 IH2]]; simpl; [split; [lia|lia]|].
  destruct (Z.eqb_spec p 0) as [->|Hp]; [split; [lia|done]|]. split.
  - intros [|j] Hj; [by exists p|]. apply IH1. lia.
  - intros Hj. apply IH2. lia.
Qed.

(** Deleting a lock that has just been created. *)
Lemma delete_created s instance lk idx v name0 :
  instance <> 0 -> lk <> 0 -> s.(semas) !! instance = Some v ->
  v.(is_ready) = FT_COMPONENT_IS_READY -> length v.(locker) = 32%nat ->
  0 <= idx < 32 -> v.(locker) !! Z.to_nat idx = Some 0 ->
  exists s'', FSemaDeleteLocker lk
      (created s instance lk idx v (<[Z.to_nat idx := lk]> v.(locker)) name0) = Ok (FSEMA_SUCCESS, s'') /\
    s''.(semas) = s.(semas) /\ s''.(lockers) = <[lk := zero_locker]> s.(lockers) /\
    is_locked s''.(regs) v.(config).(base_addr) idx = false.
Proof.
  intros Hin Hlk Hv Hready Hlen Hidx Hfree. unfold FSemaDeleteLocker, sema_at, locker_at, truth.
  rewrite (proj2 (Z.eqb_neq lk 0)) by done. cbn [negb]. simpl lockers.
  rewrite lookup_insert_eq. cbn [of_option rbind sema].
  rewrite (proj2 (Z.eqb_neq instance 0)) by done. cbn [negb]. simpl semas.
  rewrite lookup_insert_eq. cbn [of_option rbind is_ready config locker index].
  rewrite Hready. change (negb (FT_COMPONENT_IS_READY =? FT_COMPONENT_IS_READY)) with false.
  cbn iota. rewrite status_ok by done.
  rewrite (aget_Some _ idx lk) by (try apply list_lookup_insert_eq; lia). cbn [rbind].
  rewrite Z.eqb_refl, aset_in_range by (rewrite length_insert; lia). cbn [rbind].
  eexists. split; [done|]. split; [|split].
  - simpl. rewrite insert_insert_eq, list_insert_insert_eq, list_insert_id by done.
    apply insert_id. rewrite Hv. destruct v; simpl in *. by subst.
  - simpl. by rewrite insert_insert_eq.
  - simpl. rewrite law_unlock by done. by rewrite !Z.eqb_refl.
Qed.

(** [FSemaCreateLocker] on a ready instance: it hands out the lowest semaphore
    not yet handed out, without an owner; with none left, it reports that and
    changes nothing.  Deleting the lock gives exactly that entry back. *)
Theorem FSemaCreateLocker_correct s instance lk v l :
  instance <> 0 -> lk <> 0 -> s.(semas) !! instance = Some v ->
  v.(is_ready) = FT_COMPONENT_IS_READY -> length v.(locker) = 32%nat ->
  s.(lockers) !! lk = Some l ->
  (Forall (fun p => p <> 0) v.(locker) /\
   FSemaCreateLocker instance lk s = Ok (FSEMA_ERR_NO_AVAILABLE_LOCKER, s)) \/
  (exists idx s', FSemaCreateLocker instance lk s = Ok (FSEMA_SUCCESS, s') /\
     0 <= idx < 32 /\ v.(locker) !! Z.to_nat idx = Some 0 /\
     (forall j, 0 <= j < idx -> exists p, v.(locker) !! Z.to_nat j = Some p /\ p <> 0) /\
     (exists l', lock_at s' lk v.(config).(base_addr) idx l' /\ l'.(owner) = FSEMA_OWNER_NONE) /\
     exists s'', FSemaDeleteLocker lk s' = Ok (FSEMA_SUCCESS, s'') /\
       s''.(semas) = s.(semas) /\ s''.(lockers) = <[lk := zero_locker]> s.(lockers) /\
       is_locked s''.(regs) v.(config).(base_addr) idx = false).
Proof.
  intros Hin Hlk Hv Hready Hlen Hl. destruct (free_index_spec v.(locker)) as [Hbelow Hfree].
  pose proof (free_index_le v.(locker)) as Hle.
  assert (Hc : FSemaCreateLocker instance lk s =
    if (FSEMA_NUM_OF_LOCKER <=? free_index v.(locker))%nat
    then Ok (FSEMA_ERR_NO_AVAILABLE_LOCKER, s)
    else Ok (FSEMA_SUCCESS, created s instance lk (Z.of_nat (free_index v.(locker))) v
      (<[free_index v.(locker) := lk]> v.(locker)) (<[0%nat := 0]> l.(name)))).
  { unfold FSemaCreateLocker, sema_at, locker_at, truth.
    rewrite (proj2 (Z.eqb_neq instance 0)), (proj2 (Z.eqb_neq lk 0)), Hv by done.
    unfold created. cbn [negb andb of_option rbind]. rewrite Hready, Hl. cbn [of_option rbind].
    by change (negb (FT_COMPONENT_IS_READY =? FT_COMPONENT_IS_READY)) with false. }
  rewrite Hc. unfold FSEMA_NUM_OF_LOCKER.
  destruct (Nat.leb_spec 32 (free_index v.(locker))) as [Hfull|Hroom].
  { left. split; [|done]. apply Forall_lookup. intros j p Hj.
    destruct (Hbelow j) as (p' & Hp' & Hne); [apply lookup_lt_Some in Hj; lia|]. by simplify_eq. }
  right. exists (Z.of_nat (free_index v.(locker))). eexists. split; [done|].
  rewrite Nat2Z.id. split; [lia|]. split; [apply Hfree; lia|]. split.
  { intros j Hj. apply Hbelow. lia. }
  set (idx := free_index v.(locker)) in *. set (s' := created _ _ _ _ _ _ _).
  assert (Hat : lock_at s' lk v.(config).(base_addr) (Z.of_nat idx)
    (mkLocker (Z.of_nat idx) (<[0%nat := 0]> l.(name)) FSEMA_OWNER_NONE instance)).
  { constructor; simpl; try (done || lia); [by rewrite lookup_insert_eq|].
    rewrite lookup_insert_eq. by eexists. }
  split; [by eexists|].
  destruct (delete_created s instance lk (Z.of_nat idx) v (<[0%nat := 0]> l.(name)) Hin Hlk Hv Hready
    Hlen) as (s'' & Hd & Hs''); [lia|rewrite Nat2Z.id; apply Hfree; lia|].
  rewrite Nat2Z.id in Hd. by exists s''.
Qed.
End Facts.

(** ** A simulated controller *)
Module SimSema.

Definition bank : Type := Z -> Z -> bool.
Definition state_word (f : Z -> bool) : Z :=
  fold_right (fun i a => Z.lor (if f i then BIT i else 0) a) 0 (seqZ 0 32).
Definition lock_index (off : Z) : Z := (off - 16) / 4.
Definition bank_set (h : bank) (b i : Z) (v : bool) : bank :=
  fun b' j => if (b' =? b) && (j =? i) then v else h b' j.

Definition sim_read (h : bank) (b off : Z) : Z * bank :=
  if off =? FSEMA_STATE_REG_OFFSET then (state_word (h b), h)
  else if off <? 16 then (0, h)
  else (if h b (lock_index off) then 1 else 0, bank_set h b (lock_index off) true).
Definition sim_write (h : bank) (b off v : Z) : bank :=
  if off =? FSEMA_RST_REG_OFFSET then
    if v =? 1 then fun b' j => if b' =? b then false else h b' j else h
  else if off <? 16 then h
  else if v =? 0 then bank_set h b (lock_index off) false else h.

#[export] Instance sim_hw : SemaHw := {| hw := bank; reg_read := sim_read; reg_write := sim_write |}.

Lemma state_word_bit f i : 0 <= i < 32 -> Z.testbit (state_word f) i = f i.
Proof.
  intros Hi.
  assert (Hg : forall l, (forall j, In j l -> 0 <= j) ->
    Z.testbit (fold_right (fun i a => Z.lor (if f i then BIT i else 0) a) 0 l) i =
    existsb (fun j => (i =? j) && f j) l).
  { induction l as [|j l IH]; intros Hl; cbn [fold_right existsb]; [apply Z.testbit_0_l|].
    rewrite Z.lor_spec, IH by (intros; apply Hl; by right). f_equal.
    rewrite testbit_if, BIT_testbit, Z.testbit_0_l by (apply Hl; by left).
    destruct (f j), (i =? j); done. }
  unfold state_word. rewrite Hg.
  - apply Bool.eq_true_iff_eq. rewrite existsb_exists. split.
    + intros (j & _ & [Hj Hf]%andb_true_iff). apply Z.eqb_eq in Hj. by subst.
    + intros Hf. exists i. rewrite Z.eqb_refl, Hf. split; [|done].
      by apply list_elem_of_In, elem_of_seqZ.
  - intros j Hj. apply list_elem_of_In, elem_of_seqZ in Hj. lia.
Qed.

Lemma rlock_ok i :
  0 <= i < 32 -> FSEMA_RLOCK_X_REG_OFFSET i = 16 + 4 * i /\ lock_index (16 + 4 * i) = i.
Proof.
  intros Hi. unfold FSEMA_RLOCK_X_REG_OFFSET, lock_index.
  rewrite (wrap_small 32 (i * 4)), wrap_small by lia. split; [lia|]. replace (16 + 4 * i - 16) with (i * 4) by lia. by apply Z.div_mul.
Qed.

#[export] Instance sim_laws : @SemaLaws sim_hw.
Proof.
  refine (@Build_SemaLaws sim_hw (fun h b i => h b i) _ _ _ _); simpl.
  - intros h b i Hi. destruct (rlock_ok i Hi) as [-> Hx]. unfold sim_read, FSEMA_STATE_REG_OFFSET.
    rewrite (proj2 (Z.eqb_neq _ _)), (proj2 (Z.ltb_ge _ _)), Hx by lia.
    eexists. split; [done|]. intros b' j. unfold bank_set.
    by destruct ((b' =? b) && (j =? i)).
  - intros h b i Hi b' j. destruct (rlock_ok i Hi) as [-> Hx]. unfold sim_write, FSEMA_RST_REG_OFFSET.
    rewrite (proj2 (Z.eqb_neq _ _)), (proj2 (Z.ltb_ge _ _)), Hx by lia. unfold bank_set. simpl.
    by destruct ((b' =? b) && (j =? i)).
  - intros h b. eexists. split; [done|]. intros i Hi. by apply state_word_bit.
  - intros h b b' j. unfold sim_write. simpl. by destruct (b' =? b).
Defined.

(** Two cores, with an instance each (at 100 and 200) on the controller at
    0x1000, and three lock objects. *)
Definition free_lock : FSemaLocker := mkLocker 0 (replicate 32 0) 0 0.
Definition ready_sema : FSema :=
  mkSema (mkConfig 0 4096) FT_COMPONENT_IS_READY (replicate 32 0).
Definition start : mem (H := sim_hw) :=
  mkMem (H := sim_hw) (fun _ _ => false) {[100 := ready_sema; 200 := ready_sema]}
    {[1 := free_lock; 2 := free_lock; 3 := free_lock]}.

(** The state after an operation that does not fault. *)
Definition after (x : res (Z * mem (H := sim_hw))) : mem (H := sim_hw) :=
  match x with Ok (_, s) => s | Fault _ => start end.
Lemma after_ok x st :
  match x with Ok (st', _) => st' =? st | Fault _ => false end = true -> x = Ok (st, after x).
Proof. destruct x as [[st' s]|e]; [|done]. intros ->%Z.eqb_eq. done. Qed.
Definition created1 := after (FSemaCreateLocker 100 1 start).
Definition created2 := after (FSemaCreateLocker 200 2 created1).
Definition taken := after (FSemaTryLock 1 7 3 None created2).

Lemma start_initial : initial (H := sim_hw) start.
Proof.
  assert (Hall : map_Forall (fun _ l => l.(sema) = 0 /\ l.(owner) = FSEMA_OWNER_NONE) (lockers start)).
  { apply (bool_decide_unpack _). vm_compute. exact I. }
  constructor; [exact Hall|done].
Qed.

Lemma taken_reachable : reachable taken.
Proof.
  apply (reach_step created2).
  - apply (reach_step created1).
    + apply (reach_step start); [apply reach_init, start_initial|].
      apply (step_create start 100 1 free_lock FSEMA_SUCCESS);
        [reflexivity|reflexivity|apply after_ok; vm_compute; reflexivity].
    + apply (step_create created1 200 2 free_lock FSEMA_SUCCESS);
        [vm_compute; reflexivity|reflexivity|apply after_ok; vm_compute; reflexivity].
  - apply (step_try created2 1 7 3 FSEMA_SUCCESS);
      [discriminate|apply after_ok; vm_compute; reflexivity].
Qed.

Ltac in_use := constructor;
  [discriminate|vm_compute; reflexivity|discriminate|reflexivity|lia|
   eexists; split; [vm_compute; reflexivity|split; vm_compute; reflexivity]].

Definition lock_of (idx inst who : Z) : FSemaLocker := mkLocker idx (replicate 32 0) who inst.
Lemma lock1_in_use : lock_at taken 1 4096 0 (lock_of 0 100 7).
Proof. in_use. Qed.
Lemma lock2_in_use : lock_at taken 2 4096 0 (lock_of 0 200 0).
Proof. in_use. Qed.
End SimSema.

Section Witnesses.
Import SimSema.

Lemma sema_mutual_exclusion_witness :
  (forall b i lk lk', holder taken b i lk -> holder taken b i lk' -> lk = lk') /\
  (forall b i, 0 <= i < 32 -> is_locked taken.(regs) b i = true <-> exists lk, holder taken b i lk).
Proof. exact (sema_mutual_exclusion taken taken_reachable). Defined.

Lemma FSemaTryLock_correct_witness :
  exists h', FSemaTryLock 2 9 5 None taken =
      Ok (if (0 <? Z.of_nat 5) && negb (is_locked taken.(regs) 4096 0)
          then (FSEMA_SUCCESS, set_locker 2 (set_owner 9 (lock_of 0 200 0)) (set_regs h' taken))
          else (FSEMA_ERR_LOCK_TIMEOUT, set_regs h' taken)) /\
    forall b' j, is_locked h' b' j =
      ((0 <? Z.of_nat 5) && (b' =? 4096) && (j =? 0)) || is_locked taken.(regs) b' j.
Proof. exact (FSemaTryLock_correct taken 2 4096 0 (lock_of 0 200 0) 9 5 lock2_in_use). Defined.

Lemma FSemaUnlock_correct_witness :
  exists h', FSemaUnlock 1 7 taken =
      Ok (if negb (7 =? 7) then (FSEMA_ERR_NO_PERMISSION, taken)
          else if negb (is_locked taken.(regs) 4096 0) then (FSEMA_SUCCESS, taken)
          else (FSEMA_SUCCESS,
                set_locker 1 (set_owner FSEMA_OWNER_NONE (lock_of 0 100 7)) (set_regs h' taken))) /\
    forall b' j, is_locked h' b' j =
      negb ((b' =? 4096) && (j =? 0)) && is_locked taken.(regs) b' j.
Proof. exact (FSemaUnlock_correct taken 1 4096 0 (lock_of 0 100 7) 7 lock1_in_use). Defined.

Lemma FSemaCreateLocker_correct_witness :
  (Forall (fun p => p <> 0) ready_sema.(locker) /\
   FSemaCreateLocker 100 3 start = Ok (FSEMA_ERR_NO_AVAILABLE_LOCKER, start)) \/
  (exists idx s', FSemaCreateLocker 100 3 start = Ok (FSEMA_SUCCESS, s') /\
     0 <= idx < 32 /\ ready_sema.(locker) !! Z.to_nat idx = Some 0 /\
     (forall j, 0 <= j < idx -> exists p, ready_sema.(locker) !! Z.to_nat j = Some p /\ p <> 0) /\
     (exists l', lock_at s' 3 4096 idx l' /\ l'.(owner) = FSEMA_OWNER_NONE) /\
     exists s'', FSemaDeleteLocker 3 s' = Ok (FSEMA_SUCCESS, s'') /\
       s''.(semas) = start.(semas) /\ s''.(lockers) = <[3 := zero_locker]> start.(lockers) /\
       is_locked s''.(regs) 4096 idx = false).
Proof.
  apply (FSemaCreateLocker_correct start 100 3 ready_sema free_lock);
    (discriminate || (vm_compute; reflexivity)).
Defined.

(** [FSemaUnlock] takes [FSEMA_OWNER_NONE] for the owner of a lock nobody holds
    through this object: called so on the second core's lock, it unlocks the
    semaphore the first core holds, which the second core can then take: two
    locks hold one semaphore. *)
Theorem FSemaUnlock_owner_none :
  exists s1 s2, FSemaUnlock 2 FSEMA_OWNER_NONE taken = Ok (FSEMA_SUCCESS, s1) /\
    FSemaTryLock 2 9 1 None s1 = Ok (FSEMA_SUCCESS, s2) /\
    holder s2 4096 0 1 /\ holder s2 4096 0 2.
Proof.
  exists (after (FSemaUnlock 2 FSEMA_OWNER_NONE taken)),
    (after (FSemaTryLock 2 9 1 None (after (FSemaUnlock 2 FSEMA_OWNER_NONE taken)))).
  do 2 (split; [apply after_ok; vm_compute; reflexivity|]).
  split; [exists (lock_of 0 100 7)|exists (lock_of 0 200 9)]; (split; [in_use|discriminate]).
Qed.
End Witnesses.
