(* ===== verification/GdbPacket.v ===== *)
(** The packet layer of the GDB stub:
    src/standalone/arch/armv8/common/gdb/fgdb_packet.c, with the inline functions
    of fgdb_def.h (the variant for CONFIG_USE_NEWLIB).

    Characters are integers; plain [char] is unsigned on Arm.  The debug port is
    a list of the characters it will deliver (-1 when it has none yet) and the
    characters put so far; a function that waits for a character that never
    comes is still running ([OutOfFuel]). *)
From S2P Require Import Prelude.

Definition GDB_BUFSZ : Z := 4096.
Definition ENOSPC : Z := 28.
Definition EOF : Z := -1.

(** '$', '#', '+', '-', '*', '}' and '0', 'A', 'a', 'x', 'E', 'K', 'O'. *)
Definition ch_dollar : Z := 36.
Definition ch_hash : Z := 35.
Definition ch_plus : Z := 43.
Definition ch_minus : Z := 45.
Definition ch_star : Z := 42.
Definition ch_brace : Z := 125.

Definition C2N (c : Z) : Z :=
  if c <? 65 then c - 48 else 10 + (if c <? 97 then c - 65 else c - 97).
Definition N2C (n : Z) : Z := if n <? 10 then n + 48 else n + 97 - 10.

(** The fields of [FGdb] this layer uses.  [gdb_rxp] and [gdb_txp] are offsets
    into [gdb_rxbuf] and [mb_buf]; [txu_fullbuf] holds [mb_buf] from index 1 on.
    [gdb_sendpacket] tells whether the port has that function; the packets it
    was given are [sent]. *)
Record FGdb := mkGdb {
  gdb_ackmode : bool;
  gdb_rxbuf : list Z;
  gdb_rxp : option Z;
  gdb_rxsz : Z;
  txu_fullbuf : list Z;
  gdb_txp : Z;
  gdb_sendpacket : bool;
  input : list Z;
  output : list Z;
  sent : list (list Z)
}.

Definition set_rx (buf : list Z) (p : option Z) (sz : Z) (g : FGdb) : FGdb :=
  mkGdb g.(gdb_ackmode) buf p sz g.(txu_fullbuf) g.(gdb_txp) g.(gdb_sendpacket)
    g.(input) g.(output) g.(sent).
Definition set_tx (buf : list Z) (p : Z) (g : FGdb) : FGdb :=
  mkGdb g.(gdb_ackmode) g.(gdb_rxbuf) g.(gdb_rxp) g.(gdb_rxsz) buf p g.(gdb_sendpacket)
    g.(input) g.(output) g.(sent).
Definition set_input (l : list Z) (g : FGdb) : FGdb :=
  mkGdb g.(gdb_ackmode) g.(gdb_rxbuf) g.(gdb_rxp) g.(gdb_rxsz) g.(txu_fullbuf) g.(gdb_txp)
    g.(gdb_sendpacket) l g.(output) g.(sent).
(** [gdb_port_putc]. *)
Definition port_putc (c : Z) (g : FGdb) : FGdb :=
  mkGdb g.(gdb_ackmode) g.(gdb_rxbuf) g.(gdb_rxp) g.(gdb_rxsz) g.(txu_fullbuf) g.(gdb_txp)
    g.(gdb_sendpacket) g.(input) (g.(output) ++ [c]) g.(sent).
Definition send_packet (p : list Z) (g : FGdb) : FGdb :=
  mkGdb g.(gdb_ackmode) g.(gdb_rxbuf) g.(gdb_rxp) g.(gdb_rxsz) g.(txu_fullbuf) g.(gdb_txp)
    g.(gdb_sendpacket) g.(input) g.(output) (g.(sent) ++ [p]).

(** ** Receiving *)

Fixpoint next_char (l : list Z) : res (Z * list Z) :=
  match l with
  | [] => Fault OutOfFuel
  | c :: l => if c =? -1 then next_char l else Ok (c, l)
  end.
Definition gdb_getc (g : FGdb) : res (Z * FGdb) :=
  let! (c, l) := next_char g.(input) in Ok (c, set_input l g).

Definition gdb_nack (g : FGdb) : FGdb := if g.(gdb_ackmode) then port_putc ch_minus g else g.
Definition gdb_ack (g : FGdb) : FGdb := if g.(gdb_ackmode) then port_putc ch_plus g else g.

(** [while ((c = gdb_getc(gdb)) != '$')]: the input after the start character. *)
Fixpoint wait_start (l : list Z) : res (list Z) :=
  match l with
  | [] => Fault OutOfFuel
  | c :: l => if c =? ch_dollar then Ok l else wait_start l
  end.

(** The loop that reads the body; [n] more characters fit.  The result is the
    last character read, the checksum and the state. *)
Fixpoint read_body (n : nat) (c cksum : Z) (g : FGdb) : res (Z * Z * FGdb) :=
  match n with
  | O => Ok (c, cksum, g)
  | S n =>
      let! (c, g) := gdb_getc g in
      if c =? ch_hash then Ok (c, cksum, g)
      else
        let! buf := aset g.(gdb_rxbuf) g.(gdb_rxsz) (u8 c) in
        read_body n c (cksum + c) (set_rx buf g.(gdb_rxp) (g.(gdb_rxsz) + 1) g)
  end.

Fixpoint gdb_rx_begin (fuel : nat) (g : FGdb) : res (Z * FGdb) :=
  match fuel with
  | O => Fault OutOfFuel
  | S fuel =>
      let! l := wait_start g.(input) in
      let g := set_rx g.(gdb_rxbuf) None 0 (set_input l g) in
      let! (c, cksum, g) := read_body (Z.to_nat (GDB_BUFSZ - 1)) 0 0 g in
      let! buf := aset g.(gdb_rxbuf) g.(gdb_rxsz) 0 in
      let g := set_rx buf g.(gdb_rxp) g.(gdb_rxsz) g in
      let cksum := Z.land cksum 255 in
      if negb (c =? ch_hash) then Ok (ENOSPC, gdb_nack g)
      else if negb g.(gdb_ackmode) then
        Ok (0, set_rx g.(gdb_rxbuf) (Some 0) g.(gdb_rxsz) g)
      else
        let! (c, g) := gdb_getc g in
        let cksum := cksum - Z.land (Z.shiftl (C2N c) 4) 240 in
        let! (c, g) := gdb_getc g in
        let cksum := cksum - Z.land (C2N c) 15 in
        if cksum =? 0 then
          let g := gdb_ack g in
          Ok (0, set_rx g.(gdb_rxbuf) (Some 0) g.(gdb_rxsz) g)
        else gdb_rx_begin fuel (gdb_nack g)
  end.

(** The character at [gdb_rxp + i]. *)
Definition rx_at (g : FGdb) (i : Z) : res Z :=
  let! p := of_option Undefined g.(gdb_rxp) in aget g.(gdb_rxbuf) (p + i).
(** [gdb_rxp += n; gdb_rxsz -= n]. *)
Definition rx_skip (n : Z) (g : FGdb) : FGdb :=
  set_rx g.(gdb_rxbuf) (p ← g.(gdb_rxp); Some (p + n)) (g.(gdb_rxsz) - n) g.

Definition gdb_rx_char (g : FGdb) : res (Z * FGdb) :=
  if 0 <? g.(gdb_rxsz) then let! c := rx_at g 0 in Ok (c, rx_skip 1 g)
  else Ok (EOF, g).

(** [strncmp(str, rxp, length str) == 0]; a NUL ends the comparison. *)
Fixpoint str_matches (g : FGdb) (i : Z) (str : list Z) : res bool :=
  match str with
  | [] => Ok true
  | c :: str =>
      let! x := rx_at g i in
      if negb (c =? x) then Ok false else str_matches g (i + 1) str
  end.

Definition gdb_rx_equal (g : FGdb) (str : list Z) : res (Z * FGdb) :=
  let len := Z.of_nat (length str) in
  if g.(gdb_rxsz) <? len then Ok (0, g)
  else
    let! m := str_matches g 0 str in
    if negb m then Ok (0, g) else Ok (1, rx_skip len g).

(** The loop of [gdb_rx_mem]; the bytes stored from [addr] on are the result. *)
Fixpoint rx_mem_loop (cnt : nat) (g : FGdb) (acc : list Z) : res (list Z * FGdb) :=
  match cnt with
  | O => Ok (acc, g)
  | S cnt =>
      let! c0 := rx_at g 0 in
      let! c1 := rx_at g 1 in
      let c := u8 (Z.land (Z.shiftl (C2N c0) 4) 240) in
      let c := u8 (Z.lor c (Z.land (C2N c1) 15)) in
      rx_mem_loop cnt (rx_skip 2 g) (acc ++ [c])
  end.

Definition gdb_rx_mem (g : FGdb) (size : Z) : res (Z * list Z * FGdb) :=
  if negb (u64 (size * 2) =? g.(gdb_rxsz)) then Ok (-1, [], g)
  else
    let! (stored, g) := rx_mem_loop (Z.to_nat size) g [] in Ok (1, stored, g).

Definition isdigit (c : Z) : bool := (48 <=? c) && (c <=? 57).
Definition isxdigit (c : Z) : bool :=
  isdigit c || ((65 <=? c) && (c <=? 70)) || ((97 <=? c) && (c <=? 102)).

(** The digit loop of [gdb_rx_varhex]: the value, the character that ended it
    and the state.  It reads at most [gdb_rxsz] characters. *)
Fixpoint varhex_loop (n : nat) (v c : Z) (g : FGdb) : res (Z * Z * FGdb) :=
  match n with
  | O => Fault OutOfFuel
  | S n =>
      let v := u64 (u64 (Z.shiftl v 4) + C2N c) in
      let! (c, g) := gdb_rx_char g in
      if isxdigit c then varhex_loop n v c g else Ok (v, c, g)
  end.

Definition gdb_rx_varhex (g : FGdb) : res (Z * option Z * FGdb) :=
  let! (c, g) := gdb_rx_char g in
  let neg := c =? ch_minus in
  let! (c, g) := if neg then gdb_rx_char g else Ok (c, g) in
  if negb (isxdigit c) then
    Ok (-1, None, rx_skip (- ((if c =? -1 then 0 else 1) + (if neg then 1 else 0))) g)
  else
    let! (v, c, g) := varhex_loop (S (Z.to_nat g.(gdb_rxsz))) 0 c g in
    let g := if negb (c =? EOF) then rx_skip (-1) g else g in
    Ok (0, Some (if neg then u64 (- v) else v), g).

(** The loop of [gdb_rx_bindata]: the status and the bytes stored. *)
Fixpoint bindata_loop (n : nat) (g : FGdb) (acc : list Z) : res (Z * list Z * FGdb) :=
  match n with
  | O => Ok (0, acc, g)
  | S n =>
      let! (c, g) := gdb_rx_char g in
      if c =? EOF then Ok (0, acc, g)
      else if c =? ch_brace then
        let! (c, g) := gdb_rx_char g in
        if c =? EOF then Ok (1, acc, g)
        else bindata_loop n g (acc ++ [Z.land (Z.lxor c 32) 255])
      else bindata_loop n g (acc ++ [Z.land c 255])
  end.

Definition gdb_rx_bindata (g : FGdb) (datalen : Z) : res (Z * list Z * FGdb) :=
  bindata_loop (Z.to_nat datalen) g [].

(** ** Sending *)

(** [*gdb->gdb_txp++ = c], inside [mb_buf]. *)
Definition gdb_tx_char (c : Z) (g : FGdb) : res FGdb :=
  if g.(gdb_txp) <? GDB_BUFSZ then
    let! buf := aset g.(txu_fullbuf) (1 + g.(gdb_txp)) (u8 c) in
    Ok (set_tx buf (g.(gdb_txp) + 1) g)
  else Fault Undefined.

Fixpoint gdb_tx_str (s : list Z) (g : FGdb) : res FGdb :=
  match s with
  | [] => Ok g
  | c :: s => let! g := gdb_tx_char c g in gdb_tx_str s g
  end.

Definition gdb_tx_begin (tp : Z) (g : FGdb) : res FGdb :=
  let g := set_tx g.(txu_fullbuf) 0 g in
  if negb (tp =? 0) then gdb_tx_char tp g else Ok g.

Definition gdb_tx_mem (bytes : list Z) (g : FGdb) : res FGdb :=
  gdb_tx_str (flat_map (fun b => [N2C (Z.shiftr b 4); N2C (Z.land b 15)]) bytes) g.

(** [uintmax_to_hex]: [sz] digits, most significant first. *)
Fixpoint uintmax_to_hex (sz : nat) (n : Z) (acc : list Z) : list Z :=
  match sz with
  | O => acc
  | S sz => uintmax_to_hex sz (Z.shiftr n 4) (N2C (Z.land n 15) :: acc)
  end.

(** [sprintf(gdb_txp, "%s", s)]: the terminating NUL is written as well. *)
Definition tx_sprintf (s : list Z) (g : FGdb) : res FGdb :=
  let! g := gdb_tx_str s g in
  let! buf := aset g.(txu_fullbuf) (1 + g.(gdb_txp)) 0 in
  Ok (set_tx buf g.(gdb_txp) g).

Definition gdb_tx_hex (n : Z) (sz : nat) (g : FGdb) : res FGdb :=
  tx_sprintf (uintmax_to_hex sz n []) g.

(** Leading zeros are dropped, but for the last digit. *)
Fixpoint skip_zeros (l : list Z) : list Z :=
  match l with
  | c :: ((_ :: _) as l') => if c =? 48 then skip_zeros l' else l
  | _ => l
  end.
Definition gdb_tx_varhex (n : Z) (g : FGdb) : res FGdb :=
  tx_sprintf (skip_zeros (uintmax_to_hex 16 n [])) g.

(** [gdb_tx_reg]: [gdb_cpu_getreg] gives the bytes of a register, or the size of
    one that is not available. *)
Definition gdb_tx_reg (getreg : Z -> list Z + nat) (regnum : Z) (g : FGdb) : res FGdb :=
  match getreg regnum with
  | inl bytes => gdb_tx_mem bytes g
  | inr regsz => gdb_tx_str (replicate (2 * regsz) 120) g
  end.

Definition gdb_txbuf_has_capacity (g : FGdb) (req : Z) : bool := req <=? GDB_BUFSZ - g.(gdb_txp).

(** The message in [mb_buf]. *)
Definition tx_msg (g : FGdb) : list Z := take (Z.to_nat g.(gdb_txp)) (drop 1 g.(txu_fullbuf)).

(** [csum], an [unsigned char]. *)
Definition checksum (l : list Z) : Z := fold_left (fun s c => u8 (s + c)) l 0.

Definition gdb_tx_sendpacket (g : FGdb) : res FGdb :=
  let msglen := g.(gdb_txp) in
  let! buf := aset g.(txu_fullbuf) 0 ch_dollar in
  let g := set_tx buf msglen g in
  let csum := checksum (tx_msg g) in
  (* snprintf: "#%02x" and the NUL *)
  let! buf := aset buf (1 + msglen) ch_hash in
  let! buf := aset buf (2 + msglen) (N2C (Z.shiftr csum 4)) in
  let! buf := aset buf (3 + msglen) (N2C (Z.land csum 15)) in
  let! buf := aset buf (4 + msglen) 0 in
  Ok (send_packet (take (Z.to_nat (msglen + 4)) buf) (set_tx buf msglen g)).

(** ** Run-length encoding, the loop of [gdb_tx_end]

    The loop state is what has been put on the port and the checksum. *)
Definition put (c : Z) (st : list Z * Z) : list Z * Z := (st.1 ++ [u8 c], u8 (st.2 + c)).

(** The number of further characters equal to [c]. *)
Fixpoint run_length (c : Z) (l : list Z) : nat :=
  match l with
  | x :: l => if x =? c then S (run_length c l) else O
  | [] => O
  end.

Fixpoint long_runs (fuel : nat) (c runlen : Z) (st : list Z * Z) : Z * (list Z * Z) :=
  match fuel with
  | O => (runlen, st)
  | S fuel =>
      if 97 <=? runlen then
        let st := put (97 + 29) (put ch_star st) in
        let runlen := runlen - 97 in
        if 0 <? runlen then long_runs fuel c (runlen - 1) (put c st)
        else long_runs fuel c runlen st
      else (runlen, st)
  end.

Definition awkward (runlen : Z) : bool :=
  (runlen =? 1) || (runlen =? 2) || (runlen + 29 =? ch_dollar) || (runlen + 29 =? ch_hash) ||
  (runlen + 29 =? ch_plus) || (runlen + 29 =? ch_minus).

Fixpoint short_runs (fuel : nat) (c runlen : Z) (st : list Z * Z) : Z * (list Z * Z) :=
  match fuel with
  | O => (runlen, st)
  | S fuel =>
      if awkward runlen then short_runs fuel c (runlen - 1) (put c st) else (runlen, st)
  end.

Fixpoint encode_loop (fuel : nat) (l : list Z) (st : list Z * Z) : list Z * Z :=
  match fuel, l with
  | S fuel, c :: l =>
      let st := put c st in
      let n := run_length c l in
      let l := drop n l in
      let '(runlen, st) := long_runs (S n) c (Z.of_nat n) st in
      let '(runlen, st) := short_runs (S n) c runlen st in
      if runlen =? 0 then encode_loop fuel l st
      else encode_loop fuel l (put (runlen + 29) (put ch_star st))
  | _, _ => st
  end.

(** What one pass of [gdb_tx_end] puts on the port. *)
Definition frame (msg : list Z) : list Z :=
  let '(body, cksum) := encode_loop (length msg) msg ([], 0) in
  [ch_dollar] ++ body ++ [ch_hash; N2C (Z.shiftr cksum 4); N2C (Z.land cksum 15)].

(** The transmit loop: each pass sends the message, and in ack mode waits for a
    character; '+' ends the loop. *)
Fixpoint gdb_tx_end (fuel : nat) (g : FGdb) : res (Z * FGdb) :=
  match fuel with
  | O => Fault OutOfFuel
  | S fuel =>
      let! g :=
        if g.(gdb_sendpacket) then gdb_tx_sendpacket g
        else Ok (fold_left (fun g c => port_putc c g) (frame (tx_msg g)) g) in
      if negb g.(gdb_ackmode) then Ok (0, g)
      else
        let! (c, g) := gdb_getc g in
        if u8 c =? ch_plus then Ok (0, g) else gdb_tx_end fuel g
  end.

Definition gdb_tx_empty (fuel : nat) (g : FGdb) : res (Z * FGdb) :=
  let! g := gdb_tx_begin 0 g in gdb_tx_end fuel g.
Definition gdb_tx_err (fuel : nat) (err : Z) (g : FGdb) : res (Z * FGdb) :=
  let! g := gdb_tx_begin 69 g in
  let! g := gdb_tx_hex (u64 err) 2 g in gdb_tx_end fuel g.
Definition gdb_tx_ok (fuel : nat) (g : FGdb) : res (Z * FGdb) :=
  let! g := gdb_tx_begin 79 g in
  let! g := gdb_tx_char 75 g in gdb_tx_end fuel g.

(** ** Searching memory *)

(** [memcmp(l, s, length s) == 0]. *)
Fixpoint mem_eq (s l : list Z) : bool :=
  match s, l with
  | [], _ => true
  | x :: s, y :: l => (x =? y) && mem_eq s l
  | _ :: _, [] => false
  end.

(** [memchr(l, c, len)] as an offset. *)
Fixpoint memchr (l : list Z) (c i : Z) : option Z :=
  match l with
  | [] => None
  | x :: l => if x =? c then Some i else memchr l c (i + 1)
  end.

(** The loop over [cur <= last]; [n] positions are left. *)
Fixpoint memmem_loop (n : nat) (l s : list Z) (i : Z) : option Z :=
  match n, l with
  | S n, x :: l' =>
      if (match s with y :: _ => x =? y | [] => false end) && mem_eq s l then Some i
      else memmem_loop n l' s (i + 1)
  | _, _ => None
  end.

(** The result is an offset into [l]. *)
Definition memmem (l s : list Z) : option Z :=
  let l_len := length l in
  let s_len := length s in
  if (l_len =? 0)%nat || (s_len =? 0)%nat then None
  else if (l_len <? s_len)%nat then None
  else if (s_len =? 1)%nat then
    match s with c :: _ => memchr l c 0 | [] => None end
  else memmem_loop (l_len - s_len + 1) l s 0.

Definition gdb_search_mem (mem pat : list Z) : Z * option Z := (1, memmem mem pat).
