(* ===== verification/GdbPacketProps.v ===== *)
(** Properties of the GDB packet layer (GdbPacket.v): what one side encodes the
    other decodes, over the run-length encoding, the framing with its checksum
    and acknowledgements, and the hexadecimal and escaped encodings of data; and
    the search for a byte pattern. *)
From S2P Require Import Prelude GdbPacket.

#[local] Ltac Zify.zify_post_hook ::= Z.to_euclidean_division_equations.

(** ** The reference decoder of the run-length encoding

    '*' and a character [n] stand for [n - 29] more copies of the character
    before. *)
Fixpoint rle_decode (l : list Z) (prev : Z) : list Z :=
  match l with
  | [] => []
  | c :: l =>
      if c =? ch_star then
        match l with
        | n :: l => replicate (Z.to_nat (n - 29)) prev ++ rle_decode l prev
        | [] => []
        end
      else c :: rle_decode l c
  end.

Definition char (c : Z) : Prop := 0 <= c < 256.

(** ** What the encoding puts *)
Definition puts (out : list Z) (st : list Z * Z) : list Z * Z :=
  fold_left (fun st c => put c st) out st.

Lemma puts_app a b st : puts (a ++ b) st = puts b (puts a st).
Proof. apply fold_left_app. Qed.

Lemma puts_nil st : puts [] st = st.
Proof. done. Qed.

Lemma put_puts c st : put c st = puts [c] st.
Proof. done. Qed.

Lemma u8_char c : char c -> u8 c = c.
Proof. apply (wrap_small 8 c). Qed.

Lemma puts_spec out st :
  Forall char out ->
  puts out st = (st.1 ++ out, fold_left (fun s c => u8 (s + c)) out st.2).
Proof.
  intros H. revert st. induction H as [|c out Hc _ IH]; intros [b s]; cbn.
  - by rewrite app_nil_r.
  - unfold puts in IH. rewrite IH. unfold put. cbn [fst snd].
    by rewrite u8_char, <-app_assoc.
Qed.

(** A piece of output that stands for [runlen] more copies of [c]. *)
Definition run_of (c : Z) (out : list Z) (runlen : Z) : Prop :=
  forall tail, rle_decode (out ++ tail) c = replicate (Z.to_nat runlen) c ++ rle_decode tail c.

Definition no_framing (c : Z) : Prop := c <> ch_dollar /\ c <> ch_hash.

Section Runs.
Context (c : Z) (Hc : char c) (Hstar : c <> ch_star).

Lemma run_nil : run_of c [] 0.
Proof. done. Qed.

Lemma run_app a b m n :
  0 <= m -> 0 <= n -> run_of c a m -> run_of c b n -> run_of c (a ++ b) (m + n).
Proof.
  intros Hm Hn Ha Hb tail.
  by rewrite <-app_assoc, Ha, Hb, app_assoc, <-replicate_add, <-Z2Nat.inj_add.
Qed.

Lemma run_one : run_of c [c] 1.
Proof. intros tail. cbn. by destruct (Z.eqb_spec c ch_star). Qed.

Lemma run_star n : run_of c [ch_star; n + 29] n.
Proof. intros tail. cbn. by replace (n + 29 - 29) with n by lia. Qed.

(** The loops put a piece [out] that stands for the copies they take off the
    run, made of [c] and of characters that do not disturb the framing, and no
    longer than that run. *)
Definition emits (runlen : Z) (r : Z * (list Z * Z)) (st : list Z * Z) : Prop :=
  exists out,
    r.2 = puts out st /\ run_of c out (runlen - r.1) /\ 0 <= r.1 <= runlen /\
    Forall (fun x => char x /\ (x = c \/ no_framing x)) out /\
    Z.of_nat (length out) <= runlen - r.1.

Lemma emits_here runlen st : 0 <= runlen -> emits runlen (runlen, st) st.
Proof.
  intros. exists []. replace (runlen - (runlen, st).1) with 0 by (cbn; lia).
  cbn. split; [done|]. split; [apply run_nil|]. repeat split; (done || lia || constructor).
Qed.

Lemma emits_step runlen out n r st :
  Forall (fun x => char x /\ (x = c \/ no_framing x)) out ->
  Z.of_nat (length out) <= n -> 0 <= n <= runlen -> run_of c out n ->
  emits (runlen - n) r (puts out st) -> emits runlen r st.
Proof.
  intros Hout Hlen Hn Hrun (o & Hst & Ho & Hr & HF & Hl).
  exists (out ++ o). split; [by rewrite puts_app|].
  split; [|split; [lia|split; [by apply Forall_app|rewrite length_app; lia]]].
  replace (runlen - r.1) with (n + (runlen - n - r.1)) by lia.
  apply run_app; (done || lia).
Qed.

Lemma long_runs_emits fuel runlen st :
  0 <= runlen < Z.of_nat fuel ->
  emits runlen (long_runs fuel c runlen st) st /\ (long_runs fuel c runlen st).1 < 97.
Proof.
  revert runlen st. induction fuel as [|fuel IH]; intros runlen st Hr; [lia|].
  cbn [long_runs].
  destruct (Z.leb_spec 97 runlen); [|split; [apply emits_here; lia|cbn; lia]].
  destruct (Z.ltb_spec 0 (runlen - 97)).
  - change (put c _) with (puts [ch_star; 97 + 29; c] st).
    destruct (IH (runlen - 97 - 1) (puts [ch_star; 97 + 29; c] st)) as [He Hb]; [lia|].
    split; [|exact Hb].
    apply (emits_step _ ([ch_star; 97 + 29] ++ [c]) 98).
    + repeat constructor; try (unfold char, ch_star in *; lia); try done; by left.
    + done.
    + lia.
    + apply (run_app _ _ 97 1); [lia|lia|apply run_star|apply run_one].
    + by replace (runlen - 98) with (runlen - 97 - 1) by lia.
  - change (put _ (put _ st)) with (puts [ch_star; 97 + 29] st).
    destruct (IH (runlen - 97) (puts [ch_star; 97 + 29] st)) as [He Hb]; [lia|].
    split; [|exact Hb].
    apply (emits_step _ [ch_star; 97 + 29] 97); [|done|lia|apply run_star|done].
    repeat constructor; (done || unfold char, ch_star; lia).
Qed.

Lemma short_runs_emits fuel runlen st :
  0 <= runlen < Z.of_nat fuel ->
  emits runlen (short_runs fuel c runlen st) st /\
  awkward (short_runs fuel c runlen st).1 = false.
Proof.
  revert runlen st. induction fuel as [|fuel IH]; intros runlen st Hr; [lia|].
  cbn [short_runs].
  destruct (awkward runlen) eqn:Ha; [|by split; [apply emits_here; lia|]].
  assert (1 <= runlen).
  { unfold awkward, ch_dollar, ch_hash, ch_plus, ch_minus in Ha.
    destruct (Z.leb_spec 1 runlen); [done|].
    assert (runlen = 0) as -> by lia. done. }
  rewrite put_puts. destruct (IH (runlen - 1) (puts [c] st)) as [He Hb]; [lia|].
  split; [|exact Hb].
  apply (emits_step _ [c] 1); [|done|lia|apply run_one|done].
  constructor; [split; [done|by left]|constructor].
Qed.

Lemma awkward_false n :
  0 < n -> awkward n = false ->
  3 <= n /\ n + 29 <> ch_dollar /\ n + 29 <> ch_hash /\ n + 29 <> ch_plus /\ n + 29 <> ch_minus.
Proof.
  intros Hn Ha. unfold awkward in Ha.
  rewrite !orb_false_iff, !Z.eqb_neq in Ha. lia.
Qed.
End Runs.

Lemma run_length_spec c l :
  l = replicate (run_length c l) c ++ drop (run_length c l) l.
Proof.
  induction l as [|x l IH]; [done|]. cbn [run_length].
  destruct (Z.eqb_spec x c) as [->|]; [|done]. cbn. by f_equal.
Qed.

Lemma run_length_le c l : (run_length c l <= length l)%nat.
Proof.
  induction l as [|x l IH]; cbn [run_length]; [done|].
  destruct (x =? c); cbn; lia.
Qed.

(** One run: the character itself is put before, [n] more copies follow. *)
Lemma run_emits c n st :
  char c -> c <> ch_star ->
  let '(runlen, st1) := long_runs (S n) c (Z.of_nat n) st in
  let '(runlen, st2) := short_runs (S n) c runlen st1 in
  emits c (Z.of_nat n)
    (0, if runlen =? 0 then st2 else put (runlen + 29) (put ch_star st2)) st.
Proof.
  intros Hc Hs.
  destruct (long_runs_emits c Hc Hs (S n) (Z.of_nat n) st) as [(o1 & E1 & R1 & B1 & F1 & L1) Hlt];
    [lia|].
  destruct (long_runs _ _ _ _) as [r1 st1]. cbn [fst snd] in *. subst st1.
  destruct (short_runs_emits c Hc Hs (S n) r1 (puts o1 st)) as [(o2 & E2 & R2 & B2 & F2 & L2) Ha];
    [lia|].
  destruct (short_runs _ _ _ _) as [r2 st2]. cbn [fst snd] in *. subst st2.
  apply (emits_step c _ o1 (Z.of_nat n - r1)); [done|lia|lia|done|].
  apply (emits_step c _ o2 (r1 - r2)); [done|lia|lia|done|].
  replace (Z.of_nat n - (Z.of_nat n - r1) - (r1 - r2)) with r2 by lia.
  destruct (Z.eqb_spec r2 0) as [->|Hr2]; [by apply emits_here|].
  change (put _ (put _ _)) with (puts [ch_star; r2 + 29] (puts o2 (puts o1 st))).
  destruct (awkward_false r2) as (H3 & Hd & Hh & _ & _); [lia|done|].
  apply (emits_step c _ [ch_star; r2 + 29] r2); [|cbn; lia|lia|apply run_star|].
  - unfold char, no_framing, ch_star, ch_dollar, ch_hash in *.
    constructor; [lia|]. constructor; [lia|constructor].
  - rewrite Z.sub_diag. by apply emits_here.
Qed.

Definition plain (c : Z) : Prop := char c /\ c <> ch_star.

Lemma encode_loop_spec fuel l st :
  (length l <= fuel)%nat -> Forall plain l ->
  exists out,
    encode_loop fuel l st = puts out st /\
    (forall prev, rle_decode out prev = l) /\
    Forall (fun x => char x /\ (x ∈ l \/ no_framing x)) out /\
    (length out <= length l)%nat.
Proof.
  revert l st. induction fuel as [|fuel IH]; intros [|c l] st Hf Hl; cbn in Hf; try lia.
  1, 2: by exists [].
  apply Forall_cons_1 in Hl as [[Hc Hs] Hl]. cbn [encode_loop].
  pose proof (run_emits c (run_length c l) (put c st) Hc Hs) as He.
  pose proof (run_length_le c l) as Hle.
  destruct (long_runs _ _ _ _) as [r1 st1], (short_runs _ _ _ _) as [r2 st2].
  destruct He as (o & E & R & _ & F & L). cbn [fst snd] in *.
  destruct (IH (drop (run_length c l) l) (puts o (put c st))) as (o' & E' & D' & F' & L').
  { rewrite length_drop. lia. }
  { by apply Forall_drop. }
  rewrite length_drop in L'.
  exists (c :: o ++ o'). split; [|split; [|split]].
  - transitivity (encode_loop fuel (drop (run_length c l) l) (puts o (put c st))).
    + rewrite <-E. by destruct (r2 =? 0).
    + by rewrite E', put_puts, <-!puts_app.
  - intros prev. cbn [rle_decode]. destruct (Z.eqb_spec c ch_star) as [|_]; [done|].
    rewrite R, Z.sub_0_r, Nat2Z.id, D'. f_equal. symmetry. apply run_length_spec.
  - constructor; [split; [done|left; apply list_elem_of_here]|].
    apply Forall_app. split; eapply Forall_impl; [|exact F| |exact F'].
    + intros x [? [->|?]]; split; [done|left; apply list_elem_of_here|done|by right].
    + intros x [? [Hx|?]]; split; [done|left|done|by right].
      apply list_elem_of_further. eapply subseteq_drop, Hx.
  - cbn. rewrite length_app. lia.
Qed.

(** What [gdb_tx_end] puts between '$' and the checksum. *)
Definition rle_encode (msg : list Z) : list Z := (encode_loop (length msg) msg ([], 0)).1.

Lemma rle_encode_spec msg :
  Forall plain msg ->
  frame msg = [ch_dollar] ++ rle_encode msg ++
    [ch_hash; N2C (Z.shiftr (checksum (rle_encode msg)) 4);
     N2C (Z.land (checksum (rle_encode msg)) 15)] /\
  (forall prev, rle_decode (rle_encode msg) prev = msg) /\
  Forall (fun x => char x /\ (x ∈ msg \/ no_framing x)) (rle_encode msg) /\
  (length (rle_encode msg) <= length msg)%nat.
Proof.
  intros H. destruct (encode_loop_spec (length msg) msg ([], 0)) as (o & E & D & F & L); [done..|].
  unfold frame, rle_encode. rewrite E, puts_spec.
  - cbn [fst snd app]. by fold (checksum o).
  - eapply Forall_impl; [|exact F]. by intros ? [].
Qed.

(** ** Checksums and hexadecimal digits *)
Definition sum (l : list Z) : Z := fold_left Z.add l 0.

Lemma fold_add l a : fold_left Z.add l a = a + sum l.
Proof.
  unfold sum. revert a. induction l as [|c l IH]; intros a; cbn [fold_left]; [lia|].
  rewrite (IH (a + c)), (IH (0 + c)). lia.
Qed.

Lemma sum_cons c l : sum (c :: l) = c + sum l.
Proof. apply (fold_add l c). Qed.

Lemma checksum_sum l : checksum l = Z.land (sum l) 255.
Proof.
  change 255 with (Z.ones 8). rewrite Z.land_ones by lia. change (_ mod _) with (u8 (sum l)).
  assert (forall a, fold_left (fun s c => u8 (s + c)) l (u8 a) = u8 (a + sum l)) as H.
  - induction l as [|c l IH]; intros a; cbn [fold_left]; [by rewrite Z.add_0_r|].
    rewrite wrap_add_l, IH, sum_cons by lia. f_equal. lia.
  - apply (H 0).
Qed.

Lemma checksum_char l : char (checksum l).
Proof.
  rewrite checksum_sum. change 255 with (Z.ones 8). rewrite Z.land_ones by lia.
  unfold char. lia.
Qed.

Definition nibble (n : Z) : Prop := 0 <= n < 16.

Lemma C2N_N2C n : nibble n -> C2N (N2C n) = n.
Proof.
  unfold nibble, C2N, N2C. intros H. destruct (Z.ltb_spec n 10); split_cmp; lia.
Qed.

Lemma N2C_char n : nibble n -> char (N2C n) /\ isxdigit (N2C n) = true.
Proof.
  unfold nibble, char, isxdigit, isdigit, N2C. intros H.
  destruct (Z.ltb_spec n 10); split; try lia; split_cmp; (done || lia).
Qed.

Lemma char_hi c : char c -> nibble (Z.shiftr c 4).
Proof. unfold char, nibble. rewrite Z.shiftr_div_pow2 by lia. lia. Qed.

Lemma land_15 c : Z.land c 15 = c mod 16.
Proof. change 15 with (Z.ones 4). by rewrite Z.land_ones. Qed.

Lemma char_lo c : nibble (Z.land c 15).
Proof. rewrite land_15. unfold nibble. lia. Qed.

(** The byte two characters of a packet are read as. *)
Definition hex_byte (hi lo : Z) : Z :=
  Z.land (Z.shiftl (C2N hi) 4) 240 + Z.land (C2N lo) 15.

Lemma land_240 n : nibble n -> Z.land (Z.shiftl n 4) 240 = 16 * n.
Proof.
  intros H. change 240 with (Z.shiftl 15 4). rewrite <-Z.shiftl_land, land_15.
  unfold nibble in H. rewrite Z.mod_small, Z.shiftl_mul_pow2 by lia. lia.
Qed.

Lemma hex_byte_N2C c :
  char c -> hex_byte (N2C (Z.shiftr c 4)) (N2C (Z.land c 15)) = c.
Proof.
  intros Hc. unfold hex_byte.
  rewrite !C2N_N2C by (apply char_lo || by apply char_hi).
  rewrite land_240 by (by apply char_hi). rewrite !land_15, Z.shiftr_div_pow2 by lia.
  unfold char in Hc. lia.
Qed.

(** ** Receiving a packet *)

(** The characters of the packet that are still to be read. *)
Definition received (g : FGdb) : list Z :=
  match g.(gdb_rxp) with
  | Some p => take (Z.to_nat g.(gdb_rxsz)) (drop (Z.to_nat p) g.(gdb_rxbuf))
  | None => []
  end.

Definition rx_wf (g : FGdb) : Prop := Z.of_nat (length g.(gdb_rxbuf)) = GDB_BUFSZ.

Definition body_char (c : Z) : Prop := char c /\ c <> ch_hash.

Lemma next_char_char c l : char c -> next_char (c :: l) = Ok (c, l).
Proof. unfold char. intros. cbn. by destruct (Z.eqb_spec c (-1)); [lia|]. Qed.

Lemma wait_start_spec junk l :
  Forall (.≠ ch_dollar) junk -> wait_start (junk ++ ch_dollar :: l) = Ok l.
Proof.
  induction 1 as [|c junk Hc _ IH]; cbn; [done|].
  by destruct (Z.eqb_spec c ch_dollar).
Qed.

(** What the body loop leaves in the buffer after reading [p] at offset [sz]. *)
Lemma read_body_step n c0 ck c l g :
  body_char c -> 0 <= g.(gdb_rxsz) < Z.of_nat (length g.(gdb_rxbuf)) ->
  g.(input) = c :: l ->
  read_body (S n) c0 ck g =
    read_body n c (ck + c)
      (set_rx (<[Z.to_nat g.(gdb_rxsz) := c]> g.(gdb_rxbuf)) g.(gdb_rxp) (g.(gdb_rxsz) + 1)
         (set_input l g)).
Proof.
  intros [Hc Hh] Hsz Hin. cbn [read_body]. unfold gdb_getc.
  rewrite Hin, next_char_char by done. cbn [rbind].
  destruct (Z.eqb_spec c ch_hash); [done|]. cbn [set_input gdb_rxbuf gdb_rxsz gdb_rxp].
  by rewrite aset_in_range, u8_char.
Qed.

Definition rx_in (buf : list Z) (sz : Z) (l : list Z) (g : FGdb) : FGdb :=
  set_rx buf g.(gdb_rxp) sz (set_input l g).

Lemma read_chars p n c ck l g :
  Forall body_char p -> 0 <= g.(gdb_rxsz) ->
  g.(gdb_rxsz) + Z.of_nat (length p) <= Z.of_nat (length g.(gdb_rxbuf)) ->
  g.(input) = p ++ l ->
  exists buf c',
    (c <> ch_hash -> c' <> ch_hash) /\
    read_body (length p + n) c ck g =
      read_body n c' (ck + sum p)
        (rx_in buf (g.(gdb_rxsz) + Z.of_nat (length p)) l g) /\
    length buf = length g.(gdb_rxbuf) /\
    take (Z.to_nat g.(gdb_rxsz) + length p) buf = take (Z.to_nat g.(gdb_rxsz)) g.(gdb_rxbuf) ++ p.
Proof.
  intros Hp. revert c ck g. induction Hp as [|x p Hx Hp IH]; intros c ck g H0 Hsz Hin.
  - exists g.(gdb_rxbuf), c. cbn in *. split; [done|]. split; [|by rewrite Nat.add_0_r, app_nil_r].
    unfold rx_in, set_rx, set_input. cbn. rewrite !Z.add_0_r, <-Hin. by destruct g.
  - cbn [length] in Hsz. cbn [app] in Hin.
    cbn [length Nat.add]. rewrite (read_body_step _ _ _ x (p ++ l)); [|done|lia|done].
    edestruct (IH x (ck + x) (rx_in (<[Z.to_nat g.(gdb_rxsz) := x]> g.(gdb_rxbuf))
      (g.(gdb_rxsz) + 1) (p ++ l) g)) as (buf & c' & Hc' & E & L & T);
      [cbn; lia|cbn; rewrite length_insert; lia|done|].
    exists buf, c'. cbn in E, L, T. rewrite length_insert in L.
    split; [intros _; apply Hc', Hx|]. split; [|split; [done|]].
    + unfold rx_in in *. rewrite E, sum_cons. cbn. f_equal; [lia|].
      unfold set_rx, set_input. cbn. f_equal. lia.
    + rewrite Z2Nat.inj_add in T by lia.
      replace (Z.to_nat (gdb_rxsz g) + S (length p))%nat
        with (Z.to_nat (gdb_rxsz g) + Z.to_nat 1 + length p)%nat by lia.
      rewrite T. change (Z.to_nat 1) with 1%nat. rewrite Nat.add_1_r.
      rewrite (take_S_r _ _ x); [|apply list_lookup_insert_eq; lia].
      rewrite take_insert_ge by lia. by rewrite <-app_assoc.
Qed.

(** What arrives for one packet: characters before the start, the body and two
    characters of checksum. *)
Record attempt := Attempt { junk : list Z; body : list Z; hi : Z; lo : Z }.

Definition segment (a : attempt) : list Z :=
  a.(junk) ++ ch_dollar :: a.(body) ++ [ch_hash; a.(hi); a.(lo)].

Definition attempt_wf (a : attempt) : Prop :=
  Forall (.≠ ch_dollar) a.(junk) /\ Forall body_char a.(body) /\
  Z.of_nat (length a.(body)) <= GDB_BUFSZ - 2 /\ char a.(hi) /\ char a.(lo).

Definition intact (a : attempt) : bool := hex_byte a.(hi) a.(lo) =? checksum a.(body).

Lemma read_hash n c ck l g :
  g.(input) = ch_hash :: l -> read_body (S n) c ck g = Ok (ch_hash, ck, set_input l g).
Proof. intros Hin. cbn [read_body]. unfold gdb_getc. by rewrite Hin. Qed.

(** The start of a pass of [gdb_rx_begin]. *)
Lemma rx_start fuel g jk l :
  Forall (.≠ ch_dollar) jk -> g.(input) = jk ++ ch_dollar :: l ->
  gdb_rx_begin (S fuel) g =
    (let g := rx_in g.(gdb_rxbuf) 0 l g in
     let g := set_rx g.(gdb_rxbuf) None 0 g in
      let! (c, cksum, g) := read_body (Z.to_nat (GDB_BUFSZ - 1)) 0 0 g in
      let! buf := aset g.(gdb_rxbuf) g.(gdb_rxsz) 0 in
      let g := set_rx buf g.(gdb_rxp) g.(gdb_rxsz) g in
      let cksum := Z.land cksum 255 in
      if negb (c =? ch_hash) then Ok (ENOSPC, gdb_nack g)
      else if negb g.(gdb_ackmode) then
        Ok (0, set_rx g.(gdb_rxbuf) (Some 0) g.(gdb_rxsz) g)
      else
        let! (c, g) := gdb_getc g in
        let cksum := cksum - Z.land (Z.shiftl (C2N c) 4) 240 in
        let! (c, g) := gdb_getc g in
        let cksum := cksum - Z.land (C2N c) 15 in
        if cksum =? 0 then
          let g := gdb_ack g in
          Ok (0, set_rx g.(gdb_rxbuf) (Some 0) g.(gdb_rxsz) g)
        else gdb_rx_begin fuel (gdb_nack g)).
Proof. intros Hj Hin. cbn [gdb_rx_begin]. by rewrite Hin, wait_start_spec. Qed.

Lemma set_input_same g : set_input g.(input) g = g.
Proof. by destruct g. Qed.

Lemma rx_begin_attempt fuel g a rest :
  rx_wf g -> g.(gdb_ackmode) = true -> attempt_wf a -> g.(input) = segment a ++ rest ->
  exists buf,
    length buf = length g.(gdb_rxbuf) /\ take (length a.(body)) buf = a.(body) /\
    buf !! length a.(body) = Some 0 /\
    gdb_rx_begin (S fuel) g =
      (let len := Z.of_nat (length a.(body)) in
       let g := set_input rest g in
       if intact a then Ok (0, port_putc ch_plus (set_rx buf (Some 0) len g))
       else gdb_rx_begin fuel (port_putc ch_minus (set_rx buf None len g))).
Proof.
  intros Hwf Hack (Hj & Hb & Hlen & Hhi & Hlo) Hin. unfold segment in Hin.
  rewrite <-app_assoc in Hin. cbn [app] in Hin. rewrite <-app_assoc in Hin. cbn [app] in Hin.
  rewrite (rx_start _ _ _ _ Hj Hin). cbv zeta. set (g0 := set_rx _ None 0 _).
  unfold rx_wf in Hwf. unfold GDB_BUFSZ in Hwf, Hlen.
  replace (Z.to_nat (GDB_BUFSZ - 1)) with (length a.(body) + S (4094 - length a.(body)))%nat
    by (unfold GDB_BUFSZ; lia).
  destruct (read_chars a.(body) (S (4094 - length a.(body))) 0 0
    (ch_hash :: a.(hi) :: a.(lo) :: rest) g0) as (buf & c' & _ & E & L & T); [done|done|cbn; lia|done|].
  rewrite E, (read_hash _ _ _ (a.(hi) :: a.(lo) :: rest)) by done. cbn [rbind].
  cbn in L, T. rewrite take_0 in T. cbn [app] in T.
  rewrite aset_in_range by (cbn; rewrite L; lia). cbn [rbind negb].
  unfold gdb_getc, gdb_ack, gdb_nack. cbn [gdb_ackmode set_rx set_input rx_in g0 input rbind negb].
  rewrite Hack, Z.eqb_refl. cbn [negb]. rewrite (next_char_char a.(hi)) by done.
  cbn [rbind input set_input]. rewrite (next_char_char a.(lo)) by done. cbn [rbind].
  exists (<[length a.(body) := 0]> buf).
  split; [by rewrite length_insert|]. split; [by rewrite take_insert_ge|].
  split; [apply list_lookup_insert_eq; lia|].
  cbv zeta. unfold intact. rewrite Z.add_0_l, <-checksum_sum.
  cbn [gdb_rxsz set_rx set_input rx_in g0 gdb_ackmode]. rewrite Hack.
  replace (checksum _ - _ - _ =? 0) with (hex_byte a.(hi) a.(lo) =? checksum a.(body))
    by (unfold hex_byte; split_cmp; lia).
  replace (Z.to_nat (0 + Z.of_nat (length a.(body)))) with (length a.(body)) by lia.
  by rewrite Z.add_0_l.
Qed.

(** Property: after any number of packets with a wrong checksum, each answered
    with '-', [gdb_rx_begin] takes the first intact one, answers it with '+' and
    leaves exactly its body for the functions that extract from a packet and the
    characters after it on the port. *)
Theorem gdb_rx_begin_resync : forall bads good g rest more,
  rx_wf g -> g.(gdb_ackmode) = true ->
  Forall (fun a => attempt_wf a /\ intact a = false) bads ->
  attempt_wf good -> intact good = true ->
  g.(input) = concat (map segment bads) ++ segment good ++ rest ->
  exists g',
    gdb_rx_begin (S (length bads) + more) g = Ok (0, g') /\
    received g' = good.(body) /\ g'.(input) = rest /\
    g'.(output) = g.(output) ++ replicate (length bads) ch_minus ++ [ch_plus].
Proof.
  intros bads good g rest more Hwf Hack Hbads Hgood Hok. revert g Hwf Hack.
  induction Hbads as [|a bads [Ha Hbad] _ IH]; intros g Hwf Hack Hin; cbn in Hin.
  - cbn [length Nat.add].
    destruct (rx_begin_attempt more g good rest) as (buf & L & T & _ & E); [done..|].
    rewrite E, Hok. eexists. split; [done|]. split; [|done].
    unfold received. cbn. by rewrite drop_0, Nat2Z.id.
  - rewrite <-app_assoc in Hin. cbn [length Nat.add].
    destruct (rx_begin_attempt (S (length bads + more)) g a
      (concat (map segment bads) ++ segment good ++ rest)) as (buf & L & T & _ & E); [done..|].
    rewrite Hbad in E. cbv zeta in E.
    destruct (IH (port_putc ch_minus (set_rx buf None (Z.of_nat (length a.(body)))
      (set_input (concat (map segment bads) ++ segment good ++ rest) g))))
      as (g' & E' & R & I & O); [unfold rx_wf; cbn; by rewrite L|done|done|].
    exists g'. split; [by rewrite E|]. split; [done|]. split; [done|].
    rewrite O. cbn. by rewrite <-app_assoc.
Qed.

(** Property: a packet of 4095 characters fits the buffer with its final NUL, but
    [gdb_rx_begin] gives up on it: after the 4095th character the loop ends
    before it sees the '#', and the packet is refused, however it goes on. *)
Theorem gdb_rx_begin_overflow : forall fuel jk p l g,
  rx_wf g -> Forall (.≠ ch_dollar) jk -> Forall body_char p ->
  Z.of_nat (length p) = GDB_BUFSZ - 1 ->
  g.(input) = jk ++ ch_dollar :: p ++ l ->
  exists g',
    gdb_rx_begin (S fuel) g = Ok (ENOSPC, g') /\ g'.(input) = l /\ received g' = [] /\
    g'.(output) = g.(output) ++ (if g.(gdb_ackmode) then [ch_minus] else []).
Proof.
  intros fuel jk p l g Hwf Hj Hp Hlen Hin. unfold rx_wf in Hwf. unfold GDB_BUFSZ in Hwf, Hlen.
  rewrite (rx_start _ _ _ _ Hj Hin). cbv zeta. set (g0 := set_rx _ None 0 _).
  replace (Z.to_nat (GDB_BUFSZ - 1)) with (length p + 0)%nat by (unfold GDB_BUFSZ; lia).
  destruct (read_chars p 0 0 0 l g0) as (buf & c' & Hc' & E & L & T); [done|done|cbn; lia|done|].
  cbn in L. rewrite E. cbn [read_body rbind].
  rewrite aset_in_range by (cbn; rewrite L; lia). cbn [rbind].
  destruct (Z.eqb_spec c' ch_hash); [exfalso; by apply Hc'|].
  cbn [negb]. eexists. split; [reflexivity|].
  unfold gdb_nack. cbn [gdb_ackmode rx_in set_rx set_input g0].
  destruct g.(gdb_ackmode); cbn; rewrite ?app_nil_r; done.
Qed.

(** ** Sending a packet *)

(** What a port with [gdb_sendpacket] is given: no run-length encoding. *)
Definition raw_frame (msg : list Z) : list Z :=
  [ch_dollar] ++ msg ++
  [ch_hash; N2C (Z.shiftr (checksum msg) 4); N2C (Z.land (checksum msg) 15)].

Definition tx_wf (g : FGdb) : Prop :=
  Z.of_nat (length g.(txu_fullbuf)) = GDB_BUFSZ + 5 /\ 0 <= g.(gdb_txp) <= GDB_BUFSZ.

Lemma port_puts l g :
  fold_left (fun g c => port_putc c g) l g =
    mkGdb g.(gdb_ackmode) g.(gdb_rxbuf) g.(gdb_rxp) g.(gdb_rxsz) g.(txu_fullbuf) g.(gdb_txp)
      g.(gdb_sendpacket) g.(input) (g.(output) ++ l) g.(sent).
Proof.
  revert g. induction l as [|c l IH]; intros g; cbn.
  - rewrite app_nil_r. by destruct g.
  - rewrite IH. cbn. by rewrite <-app_assoc.
Qed.

(** The fields that sending does not touch. *)
Definition same_rx (g g' : FGdb) : Prop :=
  g'.(gdb_ackmode) = g.(gdb_ackmode) /\ g'.(gdb_rxbuf) = g.(gdb_rxbuf) /\
  g'.(gdb_rxp) = g.(gdb_rxp) /\ g'.(gdb_rxsz) = g.(gdb_rxsz) /\
  g'.(gdb_sendpacket) = g.(gdb_sendpacket).

(** One pass of the transmit loop before it waits. *)
Definition transmit (g : FGdb) : res FGdb :=
  if g.(gdb_sendpacket) then gdb_tx_sendpacket g
  else Ok (fold_left (fun g c => port_putc c g) (frame (tx_msg g)) g).

Lemma aset_app {A} (l r : list A) i k x :
  i = Z.of_nat (length l) + k -> 0 <= k < Z.of_nat (length r) ->
  aset (l ++ r) i x = Ok (l ++ <[Z.to_nat k := x]> r).
Proof.
  intros -> Hk. rewrite aset_in_range by (rewrite length_app; lia).
  rewrite insert_app_r_alt by lia. do 3 f_equal. lia.
Qed.

Lemma split_buf g :
  tx_wf g -> exists a b c d e t,
    g.(txu_fullbuf) = a :: tx_msg g ++ b :: c :: d :: e :: t /\
    Z.of_nat (length (tx_msg g)) = g.(gdb_txp).
Proof.
  intros [L T]. unfold tx_msg, GDB_BUFSZ in *. destruct (txu_fullbuf g) as [|a l]; cbn [length] in L; [lia|].
  change (drop 1 (a :: l)) with l. set (n := Z.to_nat (gdb_txp g)).
  assert (length (take n l) = n) as Hn by (rewrite length_take; lia).
  assert (length (drop n l) = (length l - n)%nat) as Hd by apply length_drop.
  destruct (drop n l) as [|b [|c [|d [|e t]]]] eqn:Hdr; cbn [length] in Hd; try lia.
  exists a, b, c, d, e, t. split; [by rewrite <-Hdr, take_drop|fold n; rewrite Hn; lia].
Qed.

Lemma transmit_spec g :
  tx_wf g ->
  exists g',
    transmit g = Ok g' /\ tx_wf g' /\ tx_msg g' = tx_msg g /\ same_rx g g' /\
    g'.(input) = g.(input) /\
    (g'.(output), g'.(sent)) =
      (if g.(gdb_sendpacket) then (g.(output), g.(sent) ++ [raw_frame (tx_msg g)])
       else (g.(output) ++ frame (tx_msg g), g.(sent))).
Proof.
  intros Hwf. unfold transmit. destruct g.(gdb_sendpacket) eqn:Hs.
  - destruct (split_buf g Hwf) as (a & b & c & d & e & t & Hb & Hl).
    destruct Hwf as [L T]. unfold gdb_tx_sendpacket.
    set (m := tx_msg g) in *. rewrite Hb. rewrite Hb in L.
    assert (forall r : list Z, take (Z.to_nat g.(gdb_txp)) (m ++ r) = m) as Ht
      by (intros; apply take_app_length'; lia).
    change (aset (a :: ?l) 0 ch_dollar) with (aset ([] ++ a :: l) 0 ch_dollar).
    rewrite (aset_app [] _ 0 0) by (cbn; lia). cbn [rbind app].
    replace (tx_msg _) with m by (symmetry; apply Ht).
    rewrite (aset_app (ch_dollar :: m) (b :: c :: d :: e :: t) _ 0) by (cbn; lia). cbn [rbind].
    rewrite (aset_app (ch_dollar :: m) _ _ 1) by (rewrite ?length_insert; cbn; lia). cbn [rbind].
    rewrite (aset_app (ch_dollar :: m) _ _ 2) by (rewrite ?length_insert; cbn; lia). cbn [rbind].
    rewrite (aset_app (ch_dollar :: m) _ _ 3) by (rewrite ?length_insert; cbn; lia). cbn [rbind].
    set (h := N2C (Z.shiftr (checksum m) 4)). set (k := N2C (Z.land (checksum m) 15)).
    change (<[Z.to_nat 3:=0]> _) with (ch_hash :: h :: k :: 0 :: t).
    eexists. split; [reflexivity|].
    split; [|split; [apply Ht|split; [done|split; [done|]]]].
    + split; [|done]. rewrite <-L. cbn. rewrite !length_app. cbn. lia.
    + cbn [output sent send_packet set_tx]. unfold raw_frame. fold h k. do 3 f_equal.
      replace (Z.to_nat _) with (length (ch_dollar :: m) + 3)%nat by (cbn; lia).
      by rewrite take_app_add.
  - eexists. split; [reflexivity|]. rewrite port_puts. split; [done|]. split; [done|].
    unfold same_rx. cbn. rewrite Hs. done.
Qed.

(** One pass: the answer [c] ends the loop or starts the next pass. *)
Lemma tx_end_pass fuel g c l :
  tx_wf g -> g.(gdb_ackmode) = true -> char c -> g.(input) = c :: l ->
  exists g1,
    gdb_tx_end (S fuel) g = (if c =? ch_plus then Ok (0, g1) else gdb_tx_end fuel g1) /\
    tx_wf g1 /\ g1.(gdb_ackmode) = true /\ tx_msg g1 = tx_msg g /\
    g1.(gdb_sendpacket) = g.(gdb_sendpacket) /\ g1.(input) = l /\
    (g1.(output), g1.(sent)) =
      (if g.(gdb_sendpacket) then (g.(output), g.(sent) ++ [raw_frame (tx_msg g)])
       else (g.(output) ++ frame (tx_msg g), g.(sent))).
Proof.
  intros Hwf Hack Hc Hin.
  destruct (transmit_spec g Hwf) as (g1 & E1 & W1 & M1 & (A1 & _ & _ & _ & S1) & I1 & O1).
  exists (set_input l g1). split; [|by rewrite <-Hack].
  unfold transmit in E1. cbn [gdb_tx_end]. rewrite E1. cbn [rbind]. rewrite A1, Hack.
  unfold gdb_getc. rewrite I1, Hin, next_char_char by done. cbn [rbind negb].
  by rewrite u8_char.
Qed.

(** Property: in ack mode [gdb_tx_end] sends the same message again for every
    answer other than '+', run-length encoded on a character port and plain on a
    packet port, and returns at the first '+', leaving what follows it on the
    port. *)
Theorem gdb_tx_end_retransmits : forall replies rest more g,
  tx_wf g -> g.(gdb_ackmode) = true ->
  Forall (fun c => char c /\ c <> ch_plus) replies ->
  g.(input) = replies ++ ch_plus :: rest ->
  exists g',
    gdb_tx_end (S (length replies) + more) g = Ok (0, g') /\
    g'.(input) = rest /\ tx_msg g' = tx_msg g /\
    (g'.(output), g'.(sent)) =
      (if g.(gdb_sendpacket)
       then (g.(output), g.(sent) ++ replicate (S (length replies)) (raw_frame (tx_msg g)))
       else (g.(output) ++ concat (replicate (S (length replies)) (frame (tx_msg g))), g.(sent))).
Proof.
  intros replies rest more g Hwf Hack Hr. revert g Hwf Hack.
  induction Hr as [|c replies [Hc Hp] _ IH]; intros g Hwf Hack Hin; cbn [length Nat.add].
  - destruct (tx_end_pass more g ch_plus rest) as (g1 & E & _ & _ & M & _ & I & O); [done..|].
    exists g1. split; [done|]. split; [done|]. split; [done|]. rewrite O.
    destruct (gdb_sendpacket g); cbn; [done|by rewrite app_nil_r].
  - destruct (tx_end_pass (S (length replies + more)) g c (replies ++ ch_plus :: rest))
      as (g1 & E & W & A & M & S1 & I & O); [done..|].
    rewrite (proj2 (Z.eqb_neq c ch_plus)) in E by done.
    destruct (IH g1 W A I) as (g' & E' & I' & M' & O').
    exists g'. split; [by rewrite E|]. split; [done|]. rewrite M in *. split; [done|].
    rewrite O', S1. destruct (gdb_sendpacket g); injection O as -> ->; cbn; by rewrite <-app_assoc.
Qed.

(** C39: Property: what one stub sends the other receives.  A message without the
    framing characters and '*', put on a character port, is taken as one intact
    packet; its body decodes to the message and is no longer than it, and the
    answer the receiver puts is the one that ends the sender's loop. *)
Theorem gdb_link_roundtrip : forall tx rx rest,
  tx_wf tx -> rx_wf rx ->
  tx.(gdb_ackmode) = true -> rx.(gdb_ackmode) = true -> tx.(gdb_sendpacket) = false ->
  Forall (fun c => plain c /\ no_framing c) (tx_msg tx) ->
  Z.of_nat (length (tx_msg tx)) <= GDB_BUFSZ - 2 ->
  exists wire ack tx' rx',
    gdb_tx_end 1 (set_input ack tx) = Ok (0, tx') /\
    tx'.(output) = tx.(output) ++ wire /\
    gdb_rx_begin 1 (set_input (wire ++ rest) rx) = Ok (0, rx') /\
    rx'.(output) = rx.(output) ++ ack /\ rx'.(input) = rest /\
    rle_decode (received rx') 0 = tx_msg tx /\
    (length (received rx') <= length (tx_msg tx))%nat.
Proof.
  intros tx rx rest Htx Hrx Hat Har Hsp Hmsg Hlen.
  destruct (rle_encode_spec (tx_msg tx)) as (Hf & Hd & Hc & Hl).
  { eapply Forall_impl; [|exact Hmsg]. by intros ? []. }
  destruct (tx_end_pass 0 (set_input [ch_plus] tx) ch_plus [])
    as (tx' & Et & _ & _ & _ & _ & _ & Ot); [done..|].
  pose (b := rle_encode (tx_msg tx)).
  pose (good := Attempt [] b (N2C (Z.shiftr (checksum b) 4)) (N2C (Z.land (checksum b) 15))).
  assert (attempt_wf good) as Hgood.
  { split; [constructor|]. split; [|split; [cbn; subst b; lia|split]].
    - eapply Forall_impl; [|exact Hc]. intros x [Hx Hn]. split; [done|].
      destruct Hn as [Hin|[_ Hn]]; [|done].
      apply list_elem_of_In in Hin. rewrite Forall_forall in Hmsg. by apply Hmsg in Hin as [_ [_ ?]].
    - apply N2C_char, char_hi, checksum_char.
    - apply N2C_char, char_lo. }
  assert (intact good = true) as Hok by (apply Z.eqb_eq, hex_byte_N2C, checksum_char).
  destruct (rx_begin_attempt 0 (set_input (frame (tx_msg tx) ++ rest) rx) good rest)
    as (buf & _ & Rb & _ & Er); [done|done|done|by rewrite Hf|].
  rewrite Hok in Er. cbv zeta in Er.
  eexists (frame (tx_msg tx)), [ch_plus], tx', _. cbn in Ot. rewrite Hsp in Ot.
  injection Ot as Ot _. split; [exact Et|]. split; [done|]. split; [exact Er|].
  split; [done|]. split; [done|].
  unfold received. cbn [gdb_rxp gdb_rxsz gdb_rxbuf port_putc set_rx].
  change (Z.to_nat 0) with 0%nat. rewrite drop_0, Nat2Z.id, Rb.
  split; [apply Hd|exact Hl].
Qed.

(** ** Extracting from a packet

    [rx_view g s]: the characters [s] of the packet are still to be read. *)
Definition rx_view (g : FGdb) (s : list Z) : Prop :=
  received g = s /\ g.(gdb_rxsz) = Z.of_nat (length s) /\
  exists p, g.(gdb_rxp) = Some p /\ 0 <= p.

Lemma view_at g s i c :
  rx_view g s -> s !! Z.to_nat i = Some c -> 0 <= i -> rx_at g i = Ok c.
Proof.
  intros (Hr & Hsz & p & Hp & H0) Hi ?. unfold rx_at, received in *. rewrite Hp in *. cbn.
  apply aget_Some; [lia|]. rewrite Z2Nat.inj_add by lia.
  rewrite <-Hr in Hi. rewrite lookup_take_Some, lookup_drop in Hi. apply Hi.
Qed.

Lemma view_skip g a s :
  rx_view g (a ++ s) -> rx_view (rx_skip (Z.of_nat (length a)) g) s.
Proof.
  intros (Hr & Hsz & p & Hp & H0). unfold rx_view, rx_skip, received in *. rewrite Hp in *.
  rewrite length_app in Hsz. cbn. split; [|split; [lia|eexists; split; [done|lia]]].
  rewrite Z2Nat.inj_add, Nat2Z.id by lia. rewrite <-drop_drop.
  replace (Z.to_nat _) with (Z.to_nat (gdb_rxsz g) - length a)%nat by lia.
  rewrite <-skipn_firstn_comm. by rewrite Hr, drop_app_length.
Qed.

Lemma view_char g c s : rx_view g (c :: s) -> gdb_rx_char g = Ok (c, rx_skip 1 g).
Proof.
  intros Hv. unfold gdb_rx_char. destruct (Hv) as (_ & Hsz & _). cbn in Hsz.
  destruct (Z.ltb_spec 0 (gdb_rxsz g)); [|lia]. by rewrite (view_at g _ 0 c Hv).
Qed.

Lemma view_end g : rx_view g [] -> gdb_rx_char g = Ok (EOF, g).
Proof. intros (_ & Hsz & _). unfold gdb_rx_char. by rewrite Hsz. Qed.

Lemma rx_unread g s : rx_view g s -> rx_skip (-1) (rx_skip 1 g) = g.
Proof.
  intros (_ & _ & p & Hp & _). destruct g. cbn in *. subst. unfold rx_skip, set_rx. cbn.
  f_equal; [f_equal|]; lia.
Qed.

(** ** Memory as pairs of digits *)
Definition hex_of (bytes : list Z) : list Z :=
  flat_map (fun b => [N2C (Z.shiftr b 4); N2C (Z.land b 15)]) bytes.

Lemma hex_of_char bytes : Forall char bytes -> Forall char (hex_of bytes).
Proof.
  induction 1 as [|b bytes Hb _ IH]; cbn; [constructor|].
  constructor; [apply N2C_char, char_hi, Hb|]. constructor; [apply N2C_char, char_lo|done].
Qed.

Lemma hex_of_length bytes : length (hex_of bytes) = (2 * length bytes)%nat.
Proof.
  induction bytes as [|b l IH]; [done|].
  change (length (hex_of (b :: l))) with (S (S (length (hex_of l)))). cbn [length]. lia.
Qed.

Lemma rx_mem_loop_spec bytes g acc s :
  Forall char bytes -> rx_view g (hex_of bytes ++ s) ->
  rx_mem_loop (length bytes) g acc =
    Ok (acc ++ bytes, rx_skip (2 * Z.of_nat (length bytes)) g).
Proof.
  intros Hb. revert g acc. induction Hb as [|b bytes Hb Hbs IH]; intros g acc Hv; cbn [length].
  - cbn. rewrite app_nil_r. destruct Hv as (_ & _ & p & Hp & _).
    destruct g. cbn in *. subst. unfold rx_skip, set_rx. cbn. do 3 f_equal; [f_equal|]; lia.
  - cbn [rx_mem_loop]. cbn in Hv.
    rewrite (view_at g _ 0 _ Hv), (view_at g _ 1 _ Hv) by done. cbn [rbind].
    rewrite !C2N_N2C by (apply char_lo || by apply char_hi).
    rewrite land_240 by (by apply char_hi).
    replace (u8 _) with b.
    + rewrite IH by apply (view_skip g [_; _] _ Hv). rewrite <-app_assoc.
      unfold rx_skip, set_rx. cbn. destruct Hv as (_ & _ & p & Hp & _). rewrite Hp. cbn.
      do 3 f_equal; [f_equal|]; lia.
    + pose proof (char_hi b Hb) as Hh. unfold nibble in Hh. unfold char in Hb.
      rewrite (u8_char (16 * _)) by (unfold char; lia).
      rewrite (Z.mul_comm 16), <-(Z.shiftl_mul_pow2 _ 4) by lia.
      rewrite !land_15, Zmod_mod, lor_shiftl, Z.shiftl_mul_pow2 by lia.
      rewrite Z.shiftr_div_pow2 in * by lia. rewrite u8_char; unfold char; lia.
Qed.

(** ** Appending to the message *)
Lemma tx_char_spec c g :
  tx_wf g -> char c -> g.(gdb_txp) < GDB_BUFSZ ->
  exists g', gdb_tx_char c g = Ok g' /\ tx_wf g' /\ tx_msg g' = tx_msg g ++ [c] /\
    g'.(gdb_txp) = g.(gdb_txp) + 1.
Proof.
  intros [L T] Hc Hr. unfold gdb_tx_char.
  destruct (Z.ltb_spec (gdb_txp g) GDB_BUFSZ); [|lia].
  rewrite aset_in_range by (unfold GDB_BUFSZ in *; lia). cbn [rbind].
  eexists. split; [reflexivity|]. cbn [gdb_txp set_tx]. split; [|split; [|done]].
  - split; cbn [txu_fullbuf gdb_txp set_tx]; [by rewrite length_insert|lia].
  - unfold tx_msg. cbn [txu_fullbuf gdb_txp set_tx]. rewrite u8_char by done.
    replace (Z.to_nat (1 + gdb_txp g)) with (1 + Z.to_nat (gdb_txp g))%nat by lia.
    destruct (txu_fullbuf g) as [|a l]; [cbn in L; unfold GDB_BUFSZ in L; lia|].
    change (drop 1 (<[(1 + ?n)%nat:=c]> (a :: l))) with (<[n:=c]> l).
    change (drop 1 (a :: l)) with l. cbn [length] in L.
    replace (Z.to_nat (gdb_txp g + 1)) with (S (Z.to_nat (gdb_txp g))) by lia.
    rewrite (take_S_r _ _ c).
    + by rewrite take_insert_ge.
    + apply list_lookup_insert_eq. unfold GDB_BUFSZ in *. lia.
Qed.

Lemma tx_str_spec s g :
  tx_wf g -> Forall char s -> g.(gdb_txp) + Z.of_nat (length s) <= GDB_BUFSZ ->
  exists g', gdb_tx_str s g = Ok g' /\ tx_wf g' /\ tx_msg g' = tx_msg g ++ s /\
    g'.(gdb_txp) = g.(gdb_txp) + Z.of_nat (length s).
Proof.
  intros Hwf Hs. revert g Hwf. induction Hs as [|c s Hc _ IH]; intros g Hwf Hr; cbn [length] in Hr.
  - exists g. cbn. rewrite app_nil_r, Z.add_0_r. done.
  - destruct (tx_char_spec c g Hwf Hc) as (g1 & E1 & W1 & M1 & T1); [lia|].
    destruct (IH g1 W1) as (g' & E & W & M & T); [lia|].
    exists g'. cbn [gdb_tx_str length]. rewrite E1. cbn [rbind].
    split; [done|]. split; [done|]. rewrite M, M1, <-app_assoc. split; [done|lia].
Qed.

(** Without room the message runs over the end of [mb_buf]. *)
Lemma tx_str_overrun s g :
  tx_wf g -> Forall char s -> GDB_BUFSZ < g.(gdb_txp) + Z.of_nat (length s) ->
  gdb_tx_str s g = Fault Undefined.
Proof.
  intros Hwf Hs. revert g Hwf. induction Hs as [|c s Hc _ IH]; intros g Hwf Hr; cbn [length] in Hr.
  - destruct Hwf as [_ [_ ?]]. lia.
  - cbn [gdb_tx_str]. destruct (Z.ltb_spec (gdb_txp g) GDB_BUFSZ).
    + destruct (tx_char_spec c g Hwf Hc) as (g1 & E1 & W1 & _ & T1); [lia|].
      rewrite E1. cbn [rbind]. apply IH; [done|lia].
    + unfold gdb_tx_char. by destruct (Z.ltb_spec (gdb_txp g) GDB_BUFSZ); [lia|].
Qed.

(** Property: memory sent as digits by [gdb_tx_mem] is what [gdb_rx_mem] stores
    from them; a packet whose rest does not have the length asked for is refused
    and stores nothing; and memory that does not fit the message buffer runs over
    its end, since the room is not checked. *)
Theorem gdb_mem_roundtrip : forall bytes tx,
  Forall char bytes -> tx_wf tx ->
  (GDB_BUFSZ < tx.(gdb_txp) + 2 * Z.of_nat (length bytes) ->
   gdb_tx_mem bytes tx = Fault Undefined) /\
  (tx.(gdb_txp) + 2 * Z.of_nat (length bytes) <= GDB_BUFSZ ->
   exists tx' s,
     gdb_tx_mem bytes tx = Ok tx' /\ tx_wf tx' /\ tx_msg tx' = tx_msg tx ++ s /\
     forall rx size, rx_view rx s ->
       if size =? Z.of_nat (length bytes)
       then exists rx', gdb_rx_mem rx size = Ok (1, bytes, rx') /\ rx_view rx' []
       else 0 <= size < 2 ^ 63 -> gdb_rx_mem rx size = Ok (-1, [], rx)).
Proof.
  intros bytes tx Hb Hwf. pose proof (hex_of_char bytes Hb) as Hc.
  unfold gdb_tx_mem. fold (hex_of bytes). split; intros Hr.
  - apply tx_str_overrun; [done..|]. rewrite hex_of_length. lia.
  - destruct (tx_str_spec (hex_of bytes) tx) as (tx' & E & W & M & _);
      [done..|rewrite hex_of_length; lia|].
    exists tx', (hex_of bytes). split; [done|]. split; [done|]. split; [done|].
    intros rx size Hv. destruct (Hv) as (_ & Hsz & _). rewrite hex_of_length in Hsz.
    destruct Hwf as [_ HT]. unfold GDB_BUFSZ in *. unfold gdb_rx_mem. rewrite Hsz.
    destruct (Z.eqb_spec size (Z.of_nat (length bytes))) as [->|Hne].
    + rewrite wrap_small by lia. destruct (Z.eqb_spec (Z.of_nat (length bytes) * 2)
        (Z.of_nat (2 * length bytes))); [|lia]. cbn [negb].
      rewrite Nat2Z.id, (rx_mem_loop_spec bytes rx [] []) by (done || by rewrite app_nil_r).
      eexists. split; [done|]. rewrite <-(app_nil_r (hex_of bytes)) in Hv.
      apply view_skip in Hv. rewrite hex_of_length in Hv.
      by replace (2 * Z.of_nat (length bytes)) with (Z.of_nat (2 * length bytes)) by lia.
    + intros Hs. rewrite wrap_small by lia.
      destruct (Z.eqb_spec (size * 2) (Z.of_nat (2 * length bytes))); [lia|done].
Qed.

(** The loop stops with an access outside the buffer when it is asked for more
    than the buffer holds. *)
Lemma rx_mem_loop_overrun n g acc p :
  rx_wf g -> g.(gdb_rxp) = Some p -> 0 <= p ->
  GDB_BUFSZ <= p + 2 * Z.of_nat n - 2 -> (0 < n)%nat ->
  rx_mem_loop n g acc = Fault Undefined.
Proof.
  intros Hwf. unfold rx_wf in Hwf.
  revert g acc p Hwf. induction n as [|n IH]; intros g acc p Hwf Hp H0 Hn Hpos; [lia|].
  cbn [rx_mem_loop]. unfold rx_at. rewrite Hp. cbn [of_option rbind].
  destruct (aget (gdb_rxbuf g) (p + 0)) as [c0|] eqn:E0; cbn [rbind].
  2: { unfold aget, of_option in E0. repeat case_match; simplify_eq; done. }
  destruct (aget (gdb_rxbuf g) (p + 1)) as [c1|] eqn:E1; cbn [rbind].
  2: { unfold aget, of_option in E1. repeat case_match; simplify_eq; done. }
  apply aget_Ok in E1 as [? _]. apply (IH _ _ (p + 2)); cbn; rewrite ?Hp; [done|done|lia..].
Qed.

(** The length check of [gdb_rx_mem] doubles the size in 64 bits: a size of
    [2^63] passes it with an empty packet, and the copy runs out of the receive
    buffer. *)
Lemma gdb_rx_mem_wraps g :
  rx_wf g -> rx_view g [] -> gdb_rx_mem g (2 ^ 63) = Fault Undefined.
Proof.
  intros Hwf (_ & Hsz & p & Hp & H0). unfold gdb_rx_mem. rewrite Hsz.
  change (negb (u64 (2 ^ 63 * 2) =? _)) with false. cbv iota.
  rewrite (rx_mem_loop_overrun _ _ _ p); [done|done|done|done| |]; unfold GDB_BUFSZ; lia.
Qed.

(** ** Numbers of variable length *)
Definition digits_val (ds : list Z) (v : Z) : Z :=
  fold_left (fun v c => u64 (u64 (Z.shiftl v 4) + C2N c)) ds v.

Lemma digit_step v c n :
  0 <= v -> 0 <= n < 16 -> v * 16 + n < 2 ^ 64 -> C2N c = n ->
  u64 (u64 (Z.shiftl v 4) + C2N c) = v * 16 + n.
Proof.
  intros Hv Hn Hb ->. rewrite Z.shiftl_mul_pow2 by lia. change (2 ^ 4) with 16.
  rewrite (wrap_small 64 (v * 16)) by lia. rewrite wrap_small; lia.
Qed.

Lemma digits_val_hex sz n acc v :
  0 <= v -> 0 <= n < 16 ^ Z.of_nat sz -> v * 16 ^ Z.of_nat sz + n < 2 ^ 64 ->
  digits_val (uintmax_to_hex sz n acc) v = digits_val acc (v * 16 ^ Z.of_nat sz + n).
Proof.
  revert n acc. induction sz as [|sz IH]; intros n acc Hv Hn Hb; cbn [uintmax_to_hex].
  - f_equal. cbn in *. lia.
  - rewrite Nat2Z.inj_succ, Z.pow_succ_r in * by lia.
    set (P := 16 ^ Z.of_nat sz) in *. assert (0 < P) by (apply Z.pow_pos_nonneg; lia).
    rewrite Z.shiftr_div_pow2 by lia. change (2 ^ 4) with 16.
    assert (v * (16 * P) = 16 * (v * P)) as HvP by ring.
    assert (0 <= v * P) by nia.
    rewrite IH; [|done|lia|lia].
    change (digits_val (N2C ?a :: ?l) ?w) with (digits_val l (u64 (u64 (Z.shiftl w 4) + C2N (N2C a)))).
    rewrite (digit_step _ _ (Z.land n 15)).
    + f_equal. rewrite land_15. lia.
    + lia.
    + apply char_lo.
    + rewrite land_15. lia.
    + apply C2N_N2C, char_lo.
Qed.

Lemma uintmax_to_hex_digits sz n acc :
  Forall (fun c => isxdigit c = true /\ char c) acc ->
  Forall (fun c => isxdigit c = true /\ char c) (uintmax_to_hex sz n acc) /\
  length (uintmax_to_hex sz n acc) = (sz + length acc)%nat.
Proof.
  revert n acc. induction sz as [|sz IH]; intros n acc H; cbn [uintmax_to_hex]; [done|].
  destruct (IH (Z.shiftr n 4) (N2C (Z.land n 15) :: acc)) as [F L].
  - constructor; [|done]. destruct (N2C_char (Z.land n 15)); [apply char_lo|done].
  - split; [done|]. rewrite L. cbn. lia.
Qed.

Lemma skip_zeros_spec l (P : Z -> Prop) :
  Forall P l -> l <> [] ->
  Forall P (skip_zeros l) /\ skip_zeros l <> [] /\ (length (skip_zeros l) <= length l)%nat /\
  digits_val (skip_zeros l) 0 = digits_val l 0.
Proof.
  induction l as [|c l IH]; [done|]. intros HP _. cbn [skip_zeros].
  destruct l as [|c' l]; [by repeat split|].
  destruct (Z.eqb_spec c 48) as [->|]; [|by repeat split].
  inversion_clear HP as [|? ? _ HP']. destruct (IH HP') as (F & N & L & D); [done|].
  split; [done|]. split; [done|]. split; [cbn in *; lia|]. by rewrite D.
Qed.

(** The digits [gdb_tx_varhex] sends. *)
Definition varhex (n : Z) : list Z := skip_zeros (uintmax_to_hex 16 n []).

Lemma varhex_spec n :
  0 <= n < 2 ^ 64 ->
  Forall (fun c => isxdigit c = true /\ char c) (varhex n) /\ varhex n <> [] /\
  (length (varhex n) <= 16)%nat /\ digits_val (varhex n) 0 = n.
Proof.
  intros Hn. destruct (uintmax_to_hex_digits 16 n []) as [F L]; [constructor|].
  destruct (skip_zeros_spec (uintmax_to_hex 16 n []) _ F) as (F' & N & L' & D).
  - intros E. by rewrite E in L.
  - unfold varhex. split; [done|]. split; [done|]. split; [rewrite L in L'; done|].
    rewrite D, digits_val_hex; cbn in *; lia.
Qed.

(** The character after a number does not continue it. *)
Definition stops (rest : list Z) : Prop :=
  match rest with
  | [] => True
  | c :: _ => char c /\ isxdigit c = false
  end.

Lemma varhex_loop_spec ds rest n v c g :
  rx_view g (ds ++ rest) -> Forall (fun c => isxdigit c = true /\ char c) ds ->
  stops rest -> (length ds < n)%nat ->
  exists e g',
    varhex_loop n v c g = Ok (digits_val (c :: ds) v, e, g') /\
    rx_view (if negb (e =? EOF) then rx_skip (-1) g' else g') rest.
Proof.
  intros Hv Hds Hst Hn. revert n v c g Hv Hn.
  induction Hds as [|d ds [Hd _] _ IH]; intros [|n] v c g Hv Hn; cbn in Hn; try lia;
    cbn [varhex_loop app] in *.
  - destruct rest as [|e rest].
    + rewrite (view_end g Hv). cbn [rbind]. exists EOF, g. done.
    + destruct Hst as [He Hx]. rewrite (view_char g e rest Hv). cbn [rbind]. rewrite Hx.
      exists e, (rx_skip 1 g). split; [done|]. unfold char, EOF in *.
      destruct (Z.eqb_spec e (-1)); [lia|]. cbn [negb]. by erewrite rx_unread.
  - rewrite (view_char g d _ Hv). cbn [rbind]. rewrite Hd.
    apply (IH n _ d (rx_skip 1 g)); [by apply (view_skip g [d])|lia].
Qed.

Lemma tx_sprintf_spec s g :
  tx_wf g -> Forall char s -> g.(gdb_txp) + Z.of_nat (length s) <= GDB_BUFSZ ->
  exists g', tx_sprintf s g = Ok g' /\ tx_wf g' /\ tx_msg g' = tx_msg g ++ s.
Proof.
  intros Hwf Hs Hr. destruct (tx_str_spec s g Hwf Hs Hr) as (g1 & E & [L T] & M & _).
  unfold tx_sprintf. rewrite E. cbn [rbind].
  rewrite aset_in_range by (unfold GDB_BUFSZ in *; lia). cbn [rbind].
  eexists. split; [reflexivity|]. rewrite <-M. split.
  - split; cbn [txu_fullbuf gdb_txp set_tx]; [by rewrite length_insert|done].
  - unfold tx_msg. cbn [txu_fullbuf gdb_txp set_tx].
    rewrite drop_insert_ge by lia. by rewrite take_insert_ge by lia.
Qed.

Lemma digit_not_special c :
  isxdigit c = true -> (c =? ch_minus) = false /\ (c =? -1) = false.
Proof.
  intros H. split; apply Z.eqb_neq; intros ->; discriminate.
Qed.

(** Reading a number whose first character has been looked at. *)
Lemma rx_varhex_digits g n rest :
  0 <= n < 2 ^ 64 -> stops rest -> rx_view g (varhex n ++ rest) ->
  exists c g1 e g',
    gdb_rx_char g = Ok (c, g1) /\ isxdigit c = true /\
    varhex_loop (S (Z.to_nat g1.(gdb_rxsz))) 0 c g1 = Ok (n, e, g') /\
    rx_view (if negb (e =? EOF) then rx_skip (-1) g' else g') rest.
Proof.
  intros Hn Hst Hv. destruct (varhex_spec n Hn) as (F & N & _ & D).
  destruct (varhex n) as [|c ds]; [done|]. inversion_clear F as [|? ? [Hc _] F'].
  assert (rx_view (rx_skip 1 g) (ds ++ rest)) as Hv1 by apply (view_skip g [c] _ Hv).
  destruct (varhex_loop_spec ds rest (S (Z.to_nat (rx_skip 1 g).(gdb_rxsz))) 0 c (rx_skip 1 g))
    as (e & g' & E & V); [done..| |].
  - destruct Hv1 as (_ & Hsz & _). rewrite Hsz, length_app. lia.
  - exists c, (rx_skip 1 g), e, g'. rewrite <-D. split; [apply (view_char g c _ Hv)|done].
Qed.

(** Property: every 64-bit number sent by [gdb_tx_varhex] is read back by
    [gdb_rx_varhex], which leaves the character after it; a leading '-' gives its
    negation modulo [2^64]; and where no number starts nothing is consumed. *)
Theorem gdb_varhex_roundtrip : forall n tx,
  0 <= n < 2 ^ 64 -> tx_wf tx -> tx.(gdb_txp) + 16 <= GDB_BUFSZ ->
  exists tx' s,
    gdb_tx_varhex n tx = Ok tx' /\ tx_wf tx' /\ tx_msg tx' = tx_msg tx ++ s /\
    forall rx rest, stops rest ->
      (rx_view rx (s ++ rest) ->
       exists rx', gdb_rx_varhex rx = Ok (0, Some n, rx') /\ rx_view rx' rest) /\
      (rx_view rx (ch_minus :: s ++ rest) ->
       exists rx', gdb_rx_varhex rx = Ok (0, Some (u64 (- n)), rx') /\ rx_view rx' rest) /\
      (rx_view rx rest -> hd 0 rest <> ch_minus -> gdb_rx_varhex rx = Ok (-1, None, rx)).
Proof.
  intros n tx Hn Hwf Hroom. destruct (varhex_spec n Hn) as (F & _ & L & _).
  destruct (tx_sprintf_spec (varhex n) tx) as (tx' & E & W & M); [done| |lia|].
  { eapply Forall_impl; [|exact F]. by intros ? []. }
  exists tx', (varhex n). split; [done|]. split; [done|]. split; [done|].
  intros rx rest Hst. unfold gdb_rx_varhex. split; [|split].
  - intros Hv. destruct (rx_varhex_digits rx n rest Hn Hst Hv) as (c & g1 & e & g' & E1 & X & E2 & V).
    rewrite E1. cbn [rbind]. destruct (digit_not_special c X) as [-> _]. cbn [rbind negb].
    rewrite X. cbn [negb]. rewrite E2. cbn [rbind]. eexists. done.
  - intros Hv. rewrite (view_char _ _ _ Hv). cbn [rbind]. rewrite Z.eqb_refl.
    destruct (rx_varhex_digits (rx_skip 1 rx) n rest Hn Hst) as (c & g1 & e & g' & E1 & X & E2 & V).
    { apply (view_skip rx [ch_minus] _ Hv). }
    rewrite E1. cbn [rbind]. rewrite X. cbn [negb]. rewrite E2. cbn [rbind]. eexists. done.
  - intros Hv Hm. destruct rest as [|c rest].
    + rewrite (view_end _ Hv). cbn. destruct Hv as (_ & _ & p & Hp & _). destruct rx.
      cbn in *. subst. unfold rx_skip, set_rx. cbn. do 3 f_equal; [f_equal|]; lia.
    + destruct Hst as [Hc X]. rewrite (view_char _ _ _ Hv). cbn [rbind]. cbn in Hm.
      destruct (Z.eqb_spec c ch_minus); [done|]. cbn [rbind]. rewrite X. cbn [negb].
      unfold char in Hc. destruct (Z.eqb_spec c (-1)); [lia|].
      by rewrite (rx_unread rx _ Hv : rx_skip (- (1 + 0)) _ = _).
Qed.

(** ** Searching *)

(** [s] occurs in [l] at offset [i]. *)
Definition occurs (l s : list Z) (i : nat) : Prop := take (length s) (drop i l) = s.

Lemma mem_eq_spec s l : mem_eq s l = true <-> take (length s) l = s.
Proof.
  revert l. induction s as [|x s IH]; intros [|y l]; cbn; try done.
  rewrite andb_true_iff, Z.eqb_eq, IH.
  split; [intros [-> H]; by rewrite H|intros H; injection H; auto].
Qed.

(** What a search from offset [i] on promises. *)
Definition first_from (l s : list Z) (i : nat) (o : option Z) : Prop :=
  match o with
  | Some k => exists j, k = Z.of_nat (i + j) /\ occurs l s j /\ forall m, (m < j)%nat -> ~ occurs l s m
  | None => forall m, ~ occurs l s m
  end.

Lemma first_from_later l s i x o :
  ~ occurs (x :: l) s 0 -> first_from l s (S i) o -> first_from (x :: l) s i o.
Proof.
  intros H0 Hf. destruct o as [k|]; cbn in *.
  - destruct Hf as (j & -> & Ho & Hm). exists (S j). split; [lia|]. split; [done|].
    intros [|m] Hlt; [done|]. apply Hm. lia.
  - intros [|m]; [done|]. apply Hf.
Qed.

Lemma occurs_length l s i : s <> [] -> occurs l s i -> (i + length s <= length l)%nat.
Proof.
  intros Hs Ho. assert (length s <> 0%nat) by (by destruct s).
  assert (length (take (length s) (drop i l)) = length s) as Hlen by (by rewrite Ho).
  rewrite length_take, length_drop in Hlen. lia.
Qed.

Lemma memchr_spec l c i : first_from l [c] i (memchr l c (Z.of_nat i)).
Proof.
  revert i. induction l as [|x l IH]; intros i; cbn [memchr].
  - intros m H. unfold occurs in H. by rewrite drop_nil in H.
  - destruct (Z.eqb_spec x c) as [->|Hne].
    + exists 0%nat. split; [lia|]. split; [done|lia].
    + apply first_from_later; [by intros [= ?]|].
      replace (Z.of_nat i + 1) with (Z.of_nat (S i)) by lia. apply IH.
Qed.

Lemma memmem_loop_spec n l s i :
  s <> [] -> (length l < n + length s)%nat -> first_from l s i (memmem_loop n l s (Z.of_nat i)).
Proof.
  intros Hs. revert l i. induction n as [|n IH]; intros l i Hn.
  - cbn. intros m Ho. apply occurs_length in Ho; [lia|done].
  - destruct l as [|x l]; cbn [memmem_loop].
    + intros m Ho. apply occurs_length in Ho; [|done]. destruct s; cbn in *; [done|lia].
    + destruct s as [|y s]; [done|].
      destruct (x =? y) eqn:Hx, (mem_eq (y :: s) (x :: l)) eqn:Hm; cbn [andb].
      1: { exists 0%nat. split; [lia|]. split; [by apply mem_eq_spec in Hm|lia]. }
      all: apply first_from_later.
      2, 4, 6: replace (Z.of_nat i + 1) with (Z.of_nat (S i)) by lia; apply IH; cbn in *; lia.
      all: unfold occurs; change (drop 0 (x :: l)) with (x :: l); rewrite <-mem_eq_spec.
      * by rewrite Hm.
      * cbn. by rewrite Z.eqb_sym, Hx.
      * by rewrite Hm.
Qed.

(** Property: [memmem] returns the offset of the first occurrence of the pattern,
    and nothing exactly when it does not occur; an empty pattern is never found. *)
Theorem memmem_first : forall l s,
  match memmem l s with
  | Some k => s <> [] /\ 0 <= k /\ occurs l s (Z.to_nat k) /\
      forall m, (m < Z.to_nat k)%nat -> ~ occurs l s m
  | None => s = [] \/ forall m, ~ occurs l s m
  end.
Proof.
  intros l s. destruct (decide (s = [])) as [->|Hs].
  { unfold memmem. rewrite orb_true_r. by left. }
  assert (first_from l s 0 (memmem l s)) as H.
  - unfold memmem. destruct (Nat.eqb_spec (length s) 0); [by destruct s|].
    assert ((length l < length s)%nat -> first_from l s 0 None) as Hshort.
    { intros Hlt m Ho. apply occurs_length in Ho; [lia|done]. }
    destruct (Nat.eqb_spec (length l) 0); cbn [orb]; [apply Hshort; lia|].
    destruct (Nat.ltb_spec (length l) (length s)); [by apply Hshort|].
    destruct (Nat.eqb_spec (length s) 1) as [H1|].
    + destruct s as [|c [|]]; [done| |done]. apply (memchr_spec l c 0).
    + apply (memmem_loop_spec _ l s 0 Hs). lia.
  - destruct (memmem l s) as [k|]; [|by right].
    destruct H as (j & -> & Ho & Hm). cbn. rewrite Nat2Z.id. repeat split; (done || lia).
Qed.

(** ** Concrete instances *)
Definition stub (port : list Z) (msg : list Z) : FGdb :=
  mkGdb true (replicate 4096 0) None 0 (ch_dollar :: msg ++ replicate (4100 - length msg) 0)
    (Z.of_nat (length msg)) false port [] [].

(** Decides membership in a character class, for every character of a list. *)
Ltac chars :=
  repeat match goal with
  | |- Forall _ _ => constructor
  | |- _ /\ _ => split
  | |- char _ => unfold char
  | |- plain _ => unfold plain
  | |- no_framing _ => unfold no_framing
  | |- body_char _ => unfold body_char
  | |- _ <= _ < _ => split
  | |- _ <= _ => apply Z.leb_le; vm_compute; reflexivity
  | |- _ < _ => apply Z.ltb_lt; vm_compute; reflexivity
  | |- _ <> _ => vm_compute; discriminate
  end.

(** "+$OK#00" and then "$OK#9a". *)
Lemma gdb_rx_begin_resync_witness :
  exists g',
    gdb_rx_begin 2 (stub [43; 36; 79; 75; 35; 48; 48; 36; 79; 75; 35; 57; 97; 5] []) = Ok (0, g') /\
    received g' = [79; 75] /\ g'.(input) = [5] /\ g'.(output) = [45; 43].
Proof.
  apply (gdb_rx_begin_resync [Attempt [43] [79; 75] 48 48] (Attempt [] [79; 75] 57 97)
    (stub [43; 36; 79; 75; 35; 48; 48; 36; 79; 75; 35; 57; 97; 5] []) [5] 0).
  - vm_compute. reflexivity.
  - reflexivity.
  - constructor; [|constructor]. split; [|vm_compute; reflexivity].
    unfold attempt_wf. chars.
  - unfold attempt_wf. chars.
  - vm_compute. reflexivity.
  - reflexivity.
Defined.

Lemma all_x n : Forall body_char (replicate n 120).
Proof. induction n; cbn; [constructor|constructor; [chars|done]]. Qed.

Lemma gdb_rx_begin_overflow_witness :
  exists g',
    gdb_rx_begin 1 (stub (36 :: replicate 4095 120 ++ [35; 56; 56]) []) = Ok (ENOSPC, g') /\
    g'.(input) = [35; 56; 56] /\ received g' = [] /\ g'.(output) = [45].
Proof.
  apply (gdb_rx_begin_overflow 0 [] (replicate 4095 120) [35; 56; 56]
    (stub (36 :: replicate 4095 120 ++ [35; 56; 56]) [])).
  - vm_compute. reflexivity.
  - constructor.
  - apply all_x.
  - vm_compute. reflexivity.
  - reflexivity.
Defined.

Lemma gdb_tx_end_retransmits_witness :
  exists g',
    gdb_tx_end 3 (stub [45; 0; 43; 7] [79; 75]) = Ok (0, g') /\ g'.(input) = [7] /\
    g'.(output) = concat (replicate 3 [36; 79; 75; 35; 57; 97]).
Proof.
  destruct (gdb_tx_end_retransmits [45; 0] [7] 0 (stub [45; 0; 43; 7] [79; 75]))
    as (g' & E & I & _ & O).
  - split; [vm_compute; reflexivity|split; vm_compute; discriminate].
  - reflexivity.
  - chars.
  - reflexivity.
  - exists g'. split; [exact E|]. split; [exact I|]. cbn [stub gdb_sendpacket] in O.
    apply (f_equal fst) in O. cbn [fst] in O. rewrite O. vm_compute. reflexivity.
Defined.

(** "x0000000" *)
Lemma gdb_link_roundtrip_witness :
  exists wire ack tx' rx',
    gdb_tx_end 1 (set_input ack (stub [] [120; 48; 48; 48; 48; 48; 48; 48])) = Ok (0, tx') /\
    tx'.(output) = [] ++ wire /\
    gdb_rx_begin 1 (set_input (wire ++ [9]) (stub [] [])) = Ok (0, rx') /\
    rx'.(output) = [] ++ ack /\ rx'.(input) = [9] /\
    rle_decode (received rx') 0 = [120; 48; 48; 48; 48; 48; 48; 48] /\
    (length (received rx') <= 8)%nat.
Proof.
  apply (gdb_link_roundtrip (stub [] [120; 48; 48; 48; 48; 48; 48; 48]) (stub [] []) [9]).
  - split; [vm_compute; reflexivity|split; vm_compute; discriminate].
  - vm_compute. reflexivity.
  - reflexivity.
  - reflexivity.
  - reflexivity.
  - change (tx_msg _) with [120; 48; 48; 48; 48; 48; 48; 48]. chars.
  - vm_compute. discriminate.
Defined.

Lemma gdb_mem_roundtrip_witness :
  exists tx', gdb_tx_mem [0; 255; 18] (stub [] [109]) = Ok tx' /\ tx_wf tx' /\
    exists s, tx_msg tx' = [109] ++ s.
Proof.
  destruct (gdb_mem_roundtrip [0; 255; 18] (stub [] [109])) as [_ H].
  - chars.
  - split; [vm_compute; reflexivity|split; vm_compute; discriminate].
  - destruct H as (tx' & s & E & W & M & _); [vm_compute; discriminate|].
    exists tx'. split; [exact E|]. split; [exact W|]. exists s. exact M.
Defined.

Lemma gdb_varhex_roundtrip_witness :
  exists tx' s,
    gdb_tx_varhex 48879 (stub [] []) = Ok tx' /\ tx_wf tx' /\ tx_msg tx' = [] ++ s /\
    forall rx, rx_view rx (s ++ [ch_hash]) ->
      exists rx', gdb_rx_varhex rx = Ok (0, Some 48879, rx') /\ rx_view rx' [ch_hash].
Proof.
  destruct (gdb_varhex_roundtrip 48879 (stub [] [])) as (tx' & s & E & W & M & H).
  - split; [vm_compute; discriminate|reflexivity].
  - split; [vm_compute; reflexivity|split; vm_compute; discriminate].
  - vm_compute. discriminate.
  - exists tx', s. split; [exact E|]. split; [exact W|]. split; [exact M|].
    intros rx. apply (H rx [ch_hash]). cbn. split; [chars|reflexivity].
Defined.
