(* ===== verification/GdbLink.v ===== *)
(** The packet layer (GdbPacket.v) as its callers see it: extracting from a packet
    is parsing a list of characters, and composing a message appends to a list.
    The session (GdbSession.v) is verified against these two interfaces. *)
From S2P Require Import Prelude GdbPacket GdbPacketProps.

#[local] Ltac Zify.zify_post_hook ::= Z.to_euclidean_division_equations.

(** ** Reading: only the position in the packet changes *)
Definition moved (g g' : FGdb) : Prop := exists k, g' = rx_skip k g.

Lemma rx_skip_0 g : rx_skip 0 g = g.
Proof.
  destruct g as [a b [p|] n t x sp i o st]; unfold rx_skip, set_rx; simpl;
    rewrite ?Z.add_0_r, ?Z.sub_0_r; done.
Qed.

Lemma rx_skip_skip j k g : rx_skip j (rx_skip k g) = rx_skip (k + j) g.
Proof.
  destruct g as [a b [p|] n t x sp i o st]; unfold rx_skip, set_rx; simpl;
    [f_equal; [f_equal|]; lia|f_equal; lia].
Qed.

Lemma moved_refl g : moved g g.
Proof. exists 0. by rewrite rx_skip_0. Qed.

Lemma moved_trans g1 g2 g3 : moved g1 g2 -> moved g2 g3 -> moved g1 g3.
Proof. intros (j & ->) (k & ->). exists (j + k). by rewrite rx_skip_skip. Qed.

Lemma moved_skip k g : moved g (rx_skip k g).
Proof. by exists k. Qed.

#[export] Instance moved_preorder : PreOrder moved.
Proof. split; [exact moved_refl|exact moved_trans]. Qed.

(** [g'] is [g] after reading; [l] is left of the packet. *)
Definition reads (g : FGdb) (l : list Z) (g' : FGdb) : Prop := moved g g' /\ rx_view g' l.

Lemma reads_trans g l1 g1 l2 g2 : reads g l1 g1 -> reads g1 l2 g2 -> reads g l2 g2.
Proof. intros [M1 _] [M2 V]. split; [by transitivity g1|done]. Qed.

Lemma reads_here g l : rx_view g l -> reads g l g.
Proof. by split. Qed.

(** *** Parsers on lists *)
Definition p_char (l : list Z) : Z * list Z :=
  match l with c :: l => (c, l) | [] => (EOF, []) end.

Definition p_expect (c : Z) (l : list Z) : bool * list Z :=
  let '(x, l) := p_char l in (x =? c, l).

Fixpoint digits (l : list Z) : list Z :=
  match l with
  | c :: l => if isxdigit c then c :: digits l else []
  | [] => []
  end.

(** A number: an optional sign and at least one digit; otherwise nothing is read. *)
Definition p_number (l : list Z) : option Z * list Z :=
  let '(neg, l1) :=
    match l with
    | c :: l1 => if c =? ch_minus then (true, l1) else (false, l)
    | [] => (false, l)
    end in
  match digits l1 with
  | [] => (None, l)
  | ds =>
      let v := digits_val ds 0 in
      (Some (if neg then u64 (- v) else v), drop (length ds) l1)
  end.

Definition p_addr_size (sep : Z) (l : list Z) : option (Z * Z) * list Z :=
  let '(addr, l) := p_number l in
  match addr with
  | None => (None, l)
  | Some addr =>
      let '(ok, l) := p_expect sep l in
      if negb ok then (None, l)
      else
        let '(size, l) := p_number l in
        (match size with Some size => Some (addr, size) | None => None end, l)
  end.

Fixpoint p_prefix (s l : list Z) : option (list Z) :=
  match s, l with
  | [], _ => Some l
  | c :: s, x :: l => if c =? x then p_prefix s l else None
  | _ :: _, [] => None
  end.

(** *** They describe the functions of the packet layer *)
Lemma rx_char_reads g l :
  rx_view g l -> exists g', gdb_rx_char g = Ok ((p_char l).1, g') /\ reads g (p_char l).2 g'.
Proof.
  intros Hv. destruct l as [|c l]; simpl.
  - exists g. split; [by apply view_end|by apply reads_here].
  - exists (rx_skip 1 g). split; [by eapply view_char|]. split; [apply moved_skip|].
    apply (view_skip g [c] l Hv).
Qed.

Lemma digits_spec l :
  Forall char l ->
  l = digits l ++ drop (length (digits l)) l /\
  Forall (fun c => isxdigit c = true /\ char c) (digits l) /\
  stops (drop (length (digits l)) l).
Proof.
  induction 1 as [|c l Hc Hl (E & F & T)]; simpl; [done|].
  destruct (isxdigit c) eqn:Ex; simpl; [|done].
  split; [by f_equal|]. split; [by constructor|done].
Qed.

Lemma rx_char_moved g c g' : gdb_rx_char g = Ok (c, g') -> moved g g'.
Proof.
  unfold gdb_rx_char. destruct (0 <? gdb_rxsz g); [|intros; by simplify_eq].
  destruct (rx_at g 0); simpl; intros; simplify_eq. apply moved_skip.
Qed.

Lemma varhex_loop_moved n v c g r e g' : varhex_loop n v c g = Ok (r, e, g') -> moved g g'.
Proof.
  revert v c g. induction n as [|n IH]; intros v c g E; [done|]. cbn [varhex_loop] in E.
  destruct (gdb_rx_char g) as [[c1 g1]|] eqn:E1; [|done]. apply rx_char_moved in E1.
  cbn [rbind] in E. destruct (isxdigit c1); [|by simplify_eq].
  transitivity g1; [done|by eapply IH].
Qed.

(** What follows the sign in [gdb_rx_varhex]. *)
Definition after_sign (c : Z) (neg : bool) (g : FGdb) : res (Z * option Z * FGdb) :=
  if negb (isxdigit c) then
    Ok (-1, None, rx_skip (- ((if c =? -1 then 0 else 1) + (if neg then 1 else 0))) g)
  else
    let! (v, c, g) := varhex_loop (S (Z.to_nat g.(gdb_rxsz))) 0 c g in
    let g := if negb (c =? EOF) then rx_skip (-1) g else g in
    Ok (0, Some (if neg then u64 (- v) else v), g).

Lemma after_sign_digits c l neg g :
  Forall char (c :: l) -> isxdigit c = true -> rx_view g l ->
  exists g',
    after_sign c neg g =
      Ok (0, Some (if neg then u64 (- digits_val (c :: digits l) 0)
                   else digits_val (c :: digits l) 0), g') /\
    reads g (drop (length (digits l)) l) g'.
Proof.
  intros Hc Hx Hv. apply Forall_cons_1 in Hc as [_ Hl].
  destruct (digits_spec l Hl) as (E & F & T).
  pose proof Hv as Hv1. rewrite E in Hv1.
  destruct (varhex_loop_spec (digits l) _ (S (Z.to_nat g.(gdb_rxsz))) 0 c _ Hv1 F T)
    as (e & g' & E' & V').
  { destruct Hv1 as (_ & -> & _). rewrite length_app. lia. }
  unfold after_sign. rewrite Hx, E'. cbn [negb rbind]. eexists. split; [reflexivity|].
  split; [|done]. apply varhex_loop_moved in E'.
  destruct (negb _); [|done]. transitivity g'; [done|apply moved_skip].
Qed.

Lemma char_not_eof c : char c -> (c =? -1) = false.
Proof. unfold char. intros. apply Z.eqb_neq. lia. Qed.

(** No digit: what has been read is put back. *)
Lemma number_none g l :
  Forall char l -> rx_view g l -> (p_number l).1 = None ->
  gdb_rx_varhex g = Ok (-1, None, g) /\ (p_number l).2 = l.
Proof.
  intros Hl Hv Hn. unfold p_number in *. destruct l as [|c l].
  - simpl. split; [|done]. unfold gdb_rx_varhex. rewrite (view_end _ Hv).
    change (Ok (-1, @None Z, rx_skip 0 g) = Ok (-1, None, g)). by rewrite rx_skip_0.
  - apply Forall_cons_1 in Hl as [Hc Hl].
    unfold gdb_rx_varhex. rewrite (view_char _ _ _ Hv). cbn [rbind].
    destruct (Z.eqb_spec c ch_minus) as [->|Hm].
    + pose proof (view_skip g [ch_minus] l Hv) as Hv1. change (Z.of_nat _) with 1 in Hv1.
      destruct l as [|c l]; simpl in *.
      * split; [|done]. rewrite (view_end _ Hv1).
        change (Ok (-1, @None Z, rx_skip (-1) (rx_skip 1 g)) = Ok (-1, None, g)).
        by rewrite rx_skip_skip, rx_skip_0.
      * destruct (isxdigit c) eqn:Hx; [done|]. split; [|done].
        rewrite (view_char _ _ _ Hv1). cbn [rbind]. rewrite Hx. cbn [negb].
        apply Forall_cons_1 in Hl as [Hc' _]. rewrite char_not_eof by done.
        change (Ok (-1, @None Z, rx_skip (-2) (rx_skip 1 (rx_skip 1 g))) = Ok (-1, None, g)).
        by rewrite !rx_skip_skip, rx_skip_0.
    + simpl in *. destruct (isxdigit c) eqn:Hx; [done|]. split; [|done].
      cbn [rbind negb]. rewrite char_not_eof by done.
      change (Ok (-1, @None Z, rx_skip (-1) (rx_skip 1 g)) = Ok (-1, None, g)).
      by rewrite rx_skip_skip, rx_skip_0.
Qed.

Lemma rx_number_reads g l :
  Forall char l -> rx_view g l ->
  exists e v g', gdb_rx_varhex g = Ok (e, v, g') /\
    (if e =? 0 then v else None) = (p_number l).1 /\ reads g (p_number l).2 g'.
Proof.
  intros Hl Hv. destruct ((p_number l).1) as [n|] eqn:En.
  - unfold p_number in *. unfold gdb_rx_varhex.
    destruct l as [|c l]; [done|]. rewrite (view_char _ _ _ Hv). cbn [rbind].
    destruct (Z.eqb_spec c ch_minus) as [->|Hm].
    + destruct l as [|c l]; [done|]. cbn [digits] in En |- *.
      destruct (isxdigit c) eqn:Hx; [|done].
      pose proof (view_skip g [ch_minus] (c :: l) Hv) as Hv1. change (Z.of_nat _) with 1 in Hv1.
      rewrite (view_char _ _ _ Hv1). cbn [rbind].
      pose proof (view_skip _ [c] l Hv1) as Hv2. change (Z.of_nat _) with 1 in Hv2.
      apply Forall_cons_1 in Hl as [_ Hl].
      destruct (after_sign_digits c l true _ Hl Hx Hv2) as (g' & E & R).
      unfold after_sign in E.
      do 3 eexists. split; [exact E|]. split; [done|].
      destruct R as [M R]. split; [|done]. etransitivity; [apply moved_skip|].
      etransitivity; [apply moved_skip|exact M].
    + cbn [digits] in En |- *. destruct (isxdigit c) eqn:Hx; [|done].
      pose proof (view_skip g [c] l Hv) as Hv1. change (Z.of_nat _) with 1 in Hv1.
      destruct (after_sign_digits c l false _ Hl Hx Hv1) as (g' & E & R).
      unfold after_sign in E.
      do 3 eexists. split; [exact E|]. split; [done|].
      destruct R as [M R]. split; [|done]. etransitivity; [apply moved_skip|exact M].
  - destruct (number_none g l Hl Hv En) as [E ->]. exists (-1), None, g.
    split; [done|]. split; [done|by apply reads_here].
Qed.

(** Parsing consumes a suffix, so what is left are characters again. *)
Lemma p_number_chars l : Forall char l -> Forall char (p_number l).2.
Proof.
  intros Hl. unfold p_number. destruct l as [|c l]; [done|].
  assert (forall k m, Forall char m -> Forall char (drop k m)) as Hd
    by (intros; by apply Forall_drop).
  destruct (c =? ch_minus).
  - destruct (Forall_cons_1 _ _ _ Hl) as [_ Hl']. destruct (digits l); [done|]. by apply Hd.
  - destruct (digits (c :: l)); [done|by apply Hd].
Qed.
Lemma p_char_chars l : Forall char l -> Forall char (p_char l).2.
Proof. destruct l; simpl; [done|]. by intros [_ ?]%Forall_cons_1. Qed.

(** *** Data *)
Definition data_byte (c0 c1 : Z) : Z :=
  u8 (Z.lor (u8 (Z.land (Z.shiftl (C2N c0) 4) 240)) (Z.land (C2N c1) 15)).
Fixpoint p_bytes (l : list Z) : list Z :=
  match l with
  | c0 :: c1 :: l => data_byte c0 c1 :: p_bytes l
  | _ => []
  end.

Lemma rx_mem_loop_reads n g l acc :
  rx_view g l -> length l = (2 * n)%nat ->
  exists g', rx_mem_loop n g acc = Ok (acc ++ p_bytes l, g') /\ reads g [] g'.
Proof.
  revert g l acc. induction n as [|n IH]; intros g l acc Hv Hl.
  - destruct l; [|done]. exists g. rewrite app_nil_r. split; [done|by apply reads_here].
  - destruct l as [|c0 [|c1 l]]; simpl in Hl; try lia. cbn [rx_mem_loop p_bytes].
    rewrite (view_at g _ 0 c0 Hv), (view_at g _ 1 c1 Hv) by done. cbn [rbind].
    pose proof (view_skip g [c0; c1] l Hv) as Hv1. change (Z.of_nat _) with 2 in Hv1.
    destruct (IH _ _ (acc ++ [data_byte c0 c1]) Hv1) as (g' & E & [M V]); [lia|].
    exists g'. split; [by rewrite <-app_assoc in E|]. split; [|done].
    etransitivity; [apply moved_skip|done].
Qed.

Lemma rx_mem_reads g l size :
  rx_view g l -> 0 <= size < 2 ^ 63 ->
  if 2 * size =? Z.of_nat (length l) then
    exists g', gdb_rx_mem g size = Ok (1, p_bytes l, g') /\ reads g [] g'
  else gdb_rx_mem g size = Ok (-1, [], g).
Proof.
  intros Hv Hs. unfold gdb_rx_mem. destruct (Hv) as (_ & Hsz & _). rewrite Hsz.
  rewrite (Z.mul_comm size), wrap_small by lia.
  destruct (Z.eqb_spec (2 * size) (Z.of_nat (length l))) as [E|]; [|done].
  destruct (rx_mem_loop_reads (Z.to_nat size) g l [] Hv) as (g' & -> & R); [lia|].
  by exists g'.
Qed.

Lemma p_bytes_length n l : length l = (2 * n)%nat -> length (p_bytes l) = n.
Proof.
  revert l. induction n as [|n IH]; intros l Hl; [by destruct l|].
  destruct l as [|c0 [|c1 l]]; simpl in Hl; try lia. simpl. rewrite IH; lia.
Qed.

Lemma p_bytes_hex bytes : Forall char bytes -> p_bytes (hex_of bytes) = bytes.
Proof.
  induction 1 as [|b l Hb _ IH]; [done|].
  change (data_byte (N2C (Z.shiftr b 4)) (N2C (Z.land b 15)) :: p_bytes (hex_of l) = b :: l).
  f_equal; [|done]. unfold data_byte. rewrite !C2N_N2C by (apply char_lo || by apply char_hi).
  rewrite land_240 by (by apply char_hi). rewrite !land_15, Z.shiftr_div_pow2 by lia.
  unfold char in Hb. change (2 ^ 4) with 16.
  rewrite (wrap_small 8 (16 * (b / 16))) by lia.
  rewrite Z.mul_comm. change 16 with (2 ^ 4). rewrite <-Z.shiftl_mul_pow2, lor_shiftl by lia.
  rewrite Z.shiftl_mul_pow2, wrap_small by lia. lia.
Qed.

(** *** Fixed words *)
Lemma str_matches_reads g s l i :
  rx_view g l -> (i + length s <= length l)%nat ->
  exists b, str_matches g (Z.of_nat i) s = Ok b /\
    (b = true <-> p_prefix s (drop i l) = Some (drop (i + length s) l)) /\
    (b = false <-> p_prefix s (drop i l) = None).
Proof.
  intros Hv. revert i. induction s as [|c s IH]; intros i Hl; simpl in Hl |- *.
  - exists true. rewrite Nat.add_0_r. done.
  - destruct (lookup_lt_is_Some_2 l i) as [x Hx]; [lia|].
    rewrite (view_at g l _ x Hv) by (lia || by rewrite Nat2Z.id). cbn [rbind].
    rewrite (drop_S l x i Hx). destruct (Z.eqb_spec c x) as [->|Hne]; simpl.
    + replace (Z.of_nat i + 1) with (Z.of_nat (S i)) by lia.
      destruct (IH (S i)) as (b & E & Hb); [lia|]. exists b. split; [done|].
      by replace (i + S (length s))%nat with (S i + length s)%nat by lia.
    + exists false. done.
Qed.

Lemma p_prefix_short s l : (length l < length s)%nat -> p_prefix s l = None.
Proof.
  revert l. induction s as [|c s IH]; intros [|x l] H; simpl in *; try lia; try done.
  destruct (c =? x); [apply IH; lia|done].
Qed.

Lemma rx_equal_reads g s l :
  rx_view g l ->
  exists r g', gdb_rx_equal g s = Ok (r, g') /\
    match p_prefix s l with
    | Some l' => r = 1 /\ reads g l' g'
    | None => r = 0 /\ g' = g
    end.
Proof.
  intros Hv. unfold gdb_rx_equal. destruct (Hv) as (_ & Hsz & _). rewrite Hsz.
  destruct (Z.ltb_spec (Z.of_nat (length l)) (Z.of_nat (length s))).
  - exists 0, g. by rewrite p_prefix_short by lia.
  - destruct (str_matches_reads g s l 0 Hv) as (b & E & Ht & Hf); [lia|].
    change (Z.of_nat 0) with 0 in E. rewrite E. cbn [rbind].
    destruct b; cbn [negb].
    + rewrite drop_0 in Ht. rewrite (proj1 Ht) by done.
      eexists _, _. split; [reflexivity|]. split; [done|]. split; [apply moved_skip|].
      pose proof (view_skip g (take (length s) l) (drop (length s) l)) as Hs.
      rewrite take_drop, length_take, Nat.min_l in Hs by lia. by apply Hs.
    + rewrite drop_0 in Hf. rewrite (proj1 Hf) by done. by eexists _, _.
Qed.

(** *** Escaped data

    At most [n] bytes are stored; the status is 1 when the packet ends in an escape. *)
Fixpoint p_bindata (n : nat) (l : list Z) : Z * list Z * list Z :=
  match n, l with
  | S n, c :: l =>
      if c =? ch_brace then
        match l with
        | c :: l => let '(e, d, r) := p_bindata n l in (e, Z.land (Z.lxor c 32) 255 :: d, r)
        | [] => (1, [], [])
        end
      else let '(e, d, r) := p_bindata n l in (e, Z.land c 255 :: d, r)
  | _, _ => (0, [], l)
  end.

Lemma bindata_reads n g l acc :
  Forall char l -> rx_view g l ->
  exists g', bindata_loop n g acc = Ok ((p_bindata n l).1.1, acc ++ (p_bindata n l).1.2, g') /\
    reads g (p_bindata n l).2 g'.
Proof.
  revert g l acc. induction n as [|n IH]; intros g l acc Hl Hv.
  - exists g. cbn. rewrite app_nil_r. split; [done|by apply reads_here].
  - cbn [bindata_loop p_bindata]. destruct l as [|c l].
    + rewrite (view_end _ Hv). exists g. cbn. rewrite app_nil_r. split; [done|by apply reads_here].
    + rewrite (view_char _ _ _ Hv). cbn [rbind]. apply Forall_cons_1 in Hl as [Hc Hl].
      change EOF with (-1). rewrite char_not_eof by done.
      pose proof (view_skip g [c] l Hv) as Hv1. change (Z.of_nat _) with 1 in Hv1.
      assert (forall m g', reads (rx_skip 1 g) m g' -> reads g m g') as Hr.
      { intros m g' [M V]. split; [|done]. etransitivity; [apply moved_skip|done]. }
      destruct (c =? ch_brace).
      * destruct l as [|c' l].
        -- rewrite (view_end _ Hv1). cbn. rewrite app_nil_r.
           eexists. split; [reflexivity|]. by apply Hr, reads_here.
        -- rewrite (view_char _ _ _ Hv1). cbn [rbind]. apply Forall_cons_1 in Hl as [Hc' Hl].
           rewrite char_not_eof by done.
           pose proof (view_skip _ [c'] l Hv1) as Hv2. change (Z.of_nat _) with 1 in Hv2.
           destruct (IH _ l (acc ++ [Z.land (Z.lxor c' 32) 255]) Hl Hv2) as (g' & E & [M V]).
           exists g'. destruct (p_bindata n l) as [[e d] r]. cbn in *.
           rewrite <-app_assoc in E. split; [done|]. apply Hr. split; [|done].
           etransitivity; [apply moved_skip|done].
      * destruct (IH _ l (acc ++ [Z.land c 255]) Hl Hv1) as (g' & E & R).
        exists g'. destruct (p_bindata n l) as [[e d] r]. cbn in *.
        rewrite <-app_assoc in E. split; [done|by apply Hr].
Qed.

(** ** Writing: a message is built up in the transmit buffer *)
Definition writes (msg : list Z) (f : FGdb -> res FGdb) : Prop :=
  forall g, tx_wf g -> g.(gdb_txp) + Z.of_nat (length msg) <= GDB_BUFSZ ->
  exists buf,
    let g' := set_tx buf (g.(gdb_txp) + Z.of_nat (length msg)) g in
    f g = Ok g' /\ tx_wf g' /\ tx_msg g' = tx_msg g ++ msg.

Lemma writes_bind m1 m2 f1 f2 :
  writes m1 f1 -> writes m2 f2 -> writes (m1 ++ m2) (fun g => let! g := f1 g in f2 g).
Proof.
  intros H1 H2 g Hwf Hl. rewrite length_app in *.
  destruct (H1 g Hwf) as (b1 & E1 & W1 & M1); [lia|].
  destruct (H2 _ W1) as (b2 & E2 & W2 & M2); [simpl; lia|].
  exists b2. cbv zeta in *. rewrite E1. cbn [rbind]. rewrite E2.
  rewrite Nat2Z.inj_add, Z.add_assoc. split; [done|]. split; [exact W2|].
  rewrite app_assoc, <-M1. exact M2.
Qed.

Lemma writes_nil : writes [] Ok.
Proof.
  intros g Hwf _. exists g.(txu_fullbuf). simpl. rewrite Z.add_0_r.
  replace (set_tx _ _ g) with g by (by destruct g). split_and!; [done..|by rewrite app_nil_r].
Qed.

Lemma writes_char c : char c -> writes [c] (gdb_tx_char c).
Proof.
  intros Hc g [L T] Hl. unfold gdb_tx_char. simpl in Hl.
  destruct (Z.ltb_spec (gdb_txp g) GDB_BUFSZ); [|lia].
  rewrite aset_in_range by lia. cbn [rbind]. rewrite u8_char by done.
  eexists. split; [reflexivity|]. split.
  - split; simpl; [by rewrite length_insert|lia].
  - unfold tx_msg. cbn [set_tx gdb_txp txu_fullbuf length Z.of_nat].
    destruct (txu_fullbuf g) as [|a l]; [simpl in L; unfold GDB_BUFSZ in L; lia|].
    replace (Z.to_nat (1 + gdb_txp g)) with (S (Z.to_nat (gdb_txp g))) by lia.
    change (drop 1 (<[S _ := c]> (a :: l))) with (<[Z.to_nat (gdb_txp g) := c]> l).
    change (drop 1 (a :: l)) with l. simpl in L.
    replace (Z.to_nat (gdb_txp g + _)) with (S (Z.to_nat (gdb_txp g))) by lia.
    rewrite (take_S_r _ _ c) by (apply list_lookup_insert_eq; lia).
    by rewrite take_insert_ge by lia.
Qed.

Lemma writes_str s : Forall char s -> writes s (gdb_tx_str s).
Proof.
  induction 1 as [|c s Hc _ IH]; [apply writes_nil|].
  change (writes ([c] ++ s) (fun g => let! g := gdb_tx_char c g in gdb_tx_str s g)).
  by apply writes_bind; [apply writes_char|].
Qed.

Lemma hex_chars n v acc : Forall char acc -> Forall char (uintmax_to_hex n v acc).
Proof.
  revert v acc. induction n as [|n IH]; intros v acc Ha; simpl; [done|].
  apply IH. constructor; [apply N2C_char, char_lo|done].
Qed.

Lemma skip_zeros_chars l : Forall char l -> Forall char (skip_zeros l).
Proof.
  induction 1 as [|c l Hc Hl IH]; simpl; [constructor|].
  destruct l; [by apply List.Forall_cons|]. destruct (c =? 48); [done|by constructor].
Qed.

(** [sprintf] also writes a NUL behind the message. *)
Lemma writes_sprintf s : Forall char s -> writes s (tx_sprintf s).
Proof.
  intros Hs g Hwf Hl. destruct (writes_str s Hs g Hwf Hl) as (b & E & [L T] & M).
  unfold tx_sprintf. rewrite E. cbn [rbind].
  set (g1 := set_tx b _ g) in *. change (txu_fullbuf g1) with b in L.
  change (gdb_txp g1) with (gdb_txp g + Z.of_nat (length s)) in *.
  change (txu_fullbuf g1) with b. rewrite aset_in_range by (unfold GDB_BUFSZ in *; lia).
  eexists. split; [reflexivity|]. split.
  - split; simpl; [by rewrite length_insert|lia].
  - rewrite <-M. unfold tx_msg. cbn [set_tx gdb_txp txu_fullbuf g1].
    destruct b as [|x b]; [simpl in L; unfold GDB_BUFSZ in L; lia|].
    replace (Z.to_nat (1 + (gdb_txp g + Z.of_nat (length s))))
      with (S (Z.to_nat (gdb_txp g + Z.of_nat (length s)))) by lia.
    change (drop 1 (<[S _ := _]> (x :: b)))
      with (<[Z.to_nat (gdb_txp g + Z.of_nat (length s)) := 0]> b).
    change (drop 1 (x :: b)) with b. by rewrite take_insert_ge by lia.
Qed.

Lemma writes_hex n sz : writes (uintmax_to_hex sz n []) (gdb_tx_hex n sz).
Proof. apply writes_sprintf, hex_chars. constructor. Qed.

Lemma writes_varhex n : writes (varhex n) (gdb_tx_varhex n).
Proof. apply writes_sprintf, skip_zeros_chars, hex_chars. constructor. Qed.

Lemma writes_mem bytes : Forall char bytes -> writes (hex_of bytes) (gdb_tx_mem bytes).
Proof. intros Hb. apply writes_str, hex_of_char, Hb. Qed.

(** *** Messages *)

(** A port that works: buffers of the right size, acknowledgements, characters. *)
Record link_wf (g : FGdb) : Prop := {
  link_rx : rx_wf g;
  link_tx : Z.of_nat (length g.(txu_fullbuf)) = GDB_BUFSZ + 5;
  link_ack : g.(gdb_ackmode) = true;
  link_port : g.(gdb_sendpacket) = false
}.

(** [g'] holds message [m]; otherwise it is [g]. *)
Definition holds (g : FGdb) (m : list Z) (g' : FGdb) : Prop :=
  tx_wf g' /\ tx_msg g' = m /\ exists b p, g' = set_tx b p g.

Lemma begin_holds g c :
  link_wf g -> char c ->
  exists g', gdb_tx_begin c g = Ok g' /\ holds g (if c =? 0 then [] else [c]) g'.
Proof.
  intros [_ L _ _] Hc. unfold gdb_tx_begin. set (g0 := set_tx _ 0 g).
  assert (tx_wf g0) as W by (split; simpl; [done|unfold GDB_BUFSZ; lia]).
  destruct (Z.eqb_spec c 0) as [->|Hn]; cbn [negb].
  - exists g0. split; [done|]. split; [done|]. split; [done|by eexists _, _].
  - destruct (writes_char c Hc g0 W) as (b & E & W1 & M); [simpl; unfold GDB_BUFSZ; lia|].
    eexists. split; [exact E|]. split; [done|]. split; [by rewrite M|by eexists _, _].
Qed.

Lemma holds_length g m g' : holds g m g' -> Z.of_nat (length m) = g'.(gdb_txp).
Proof.
  intros ([L T] & <- & _). unfold tx_msg. rewrite length_take, length_drop.
  unfold GDB_BUFSZ in *. lia.
Qed.

Lemma write_holds g m g1 m' f :
  holds g m g1 -> writes m' f -> Z.of_nat (length m + length m') <= GDB_BUFSZ ->
  exists g2, f g1 = Ok g2 /\ holds g (m ++ m') g2.
Proof.
  intros Hh Hf Hl. pose proof (holds_length _ _ _ Hh). destruct Hh as (W & M & b & p & E).
  destruct (Hf g1 W) as (b2 & E2 & W2 & M2); [lia|].
  eexists. split; [exact E2|]. split; [done|]. split; [by rewrite M2, M|].
  rewrite E. by eexists _, _.
Qed.

(** What the other side sees when message [m] is sent and acknowledged at once. *)
Definition delivered (g : FGdb) (m : list Z) (rest : list Z) (g' : FGdb) : Prop :=
  link_wf g' /\ g'.(input) = rest /\ g'.(output) = g.(output) ++ frame m.

Lemma end_delivers g m g1 fuel rest :
  holds g m g1 -> link_wf g -> g.(input) = ch_plus :: rest ->
  exists g', gdb_tx_end (S fuel) g1 = Ok (0, g') /\ delivered g m rest g'.
Proof.
  intros (W & M & b & p & E) [R L A S] Hin. subst g1. cbn [gdb_tx_end].
  change (gdb_sendpacket (set_tx b p g)) with (gdb_sendpacket g). rewrite S, M. cbn [rbind].
  rewrite port_puts. cbn [gdb_ackmode set_tx input]. rewrite A. cbn [negb].
  unfold gdb_getc. cbn [input]. rewrite Hin. cbn [next_char]. change (ch_plus =? -1) with false.
  cbn [rbind]. change (u8 ch_plus =? ch_plus) with true. cbv iota.
  eexists. split; [reflexivity|]. split; [|done]. split; try done. apply W.
Qed.

(** *** Requests *)

(** The NUL [gdb_rx_begin] puts behind the packet. *)
Definition rx_end (g : FGdb) : Prop :=
  exists p, g.(gdb_rxp) = Some p /\ g.(gdb_rxbuf) !! Z.to_nat (p + g.(gdb_rxsz)) = Some 0.

Lemma rx_end_moved g g' : moved g g' -> rx_end g -> rx_end g'.
Proof.
  intros [k ->] (p & Hp & Hb). exists (p + k). unfold rx_skip. rewrite Hp. simpl.
  by replace (p + k + (gdb_rxsz g - k)) with (p + gdb_rxsz g) by lia.
Qed.

Lemma link_wf_moved g g' : moved g g' -> link_wf g -> link_wf g'.
Proof. by intros [k ->] [R L A S]. Qed.

Lemma moved_io g g' : moved g g' -> g'.(input) = g.(input) /\ g'.(output) = g.(output).
Proof. by intros [k ->]. Qed.

(** A request of the other side, as it arrives. *)
Definition request (p : list Z) : Prop :=
  Forall body_char p /\ Z.of_nat (length p) <= GDB_BUFSZ - 2.

Record request_ready (g : FGdb) (p : list Z) (rest out : list Z) : Prop := {
  ready_wf : link_wf g;
  ready_view : rx_view g p;
  ready_start : g.(gdb_rxp) = Some 0;
  ready_end : rx_end g;
  ready_input : g.(input) = rest;
  ready_output : g.(output) = out
}.

Lemma begin_reads fuel g p rest :
  link_wf g -> request p -> g.(input) = raw_frame p ++ rest ->
  exists g', gdb_rx_begin (S fuel) g = Ok (0, g') /\
    request_ready g' p rest (g.(output) ++ [ch_plus]).
Proof.
  intros [R L A S] [Hp Hl] Hin.
  set (a := Attempt [] p (N2C (Z.shiftr (checksum p) 4)) (N2C (Z.land (checksum p) 15))).
  assert (attempt_wf a) as Ha.
  { split; [constructor|]. split; [done|]. split; [done|].
    split; [apply N2C_char, char_hi, checksum_char|apply N2C_char, char_lo]. }
  assert (intact a = true) as Hi by (apply Z.eqb_eq, hex_byte_N2C, checksum_char).
  destruct (rx_begin_attempt fuel g a rest R A Ha) as (buf & Lb & T & N & E).
  { rewrite Hin. unfold raw_frame, segment, a. simpl. by rewrite <-!app_assoc. }
  rewrite Hi in E. cbv zeta in E. eexists. split; [exact E|]. simpl in Lb, T, N.
  split; try done.
  - split; try done. unfold rx_wf. simpl. by rewrite Lb.
  - split; [|split; [done|by exists 0]]. unfold received.
    cbn [gdb_rxp gdb_rxsz gdb_rxbuf port_putc set_rx].
    change (Z.to_nat 0) with 0%nat. by rewrite drop_0, Nat2Z.id.
  - exists 0. split; [done|]. cbn [gdb_rxp gdb_rxsz gdb_rxbuf port_putc set_rx].
    by rewrite Z.add_0_l, Nat2Z.id.
Qed.
