(* ===== verification/GdbArch.v ===== *)
(** The debug registers of the GDB stub:
    src/standalone/arch/armv8/aarch64/gdb/fgdb_arch.c with fgdb_arch.h, and
    [FGdbInitialize] of common/gdb/fgdb.c.

    The monitor state keeps the breakpoints and watchpoints the user asked for;
    [dbg_register_sync] copies it to the debug registers of the processor.  The
    system registers the code reads and writes are the record [SysRegs], the
    frame of the interrupted program is [FGdbTrapframe]. *)
From S2P Require Import Prelude.

(** ** Constants of fgdb_arch.h, fgdb_def.h and fgdb.h *)
Definition EBUSY : Z := 16.
Definition EINVAL : Z := 22.
Definition BREAK_INSTR_SIZE : Z := 4.
Definition ESR_ELx_BRK64_ISS_COMMENT_MASK : Z := 0xFFFF.
Definition GDB_COMPILED_DBG_BRK_IMM : Z := 0x401.
Definition ID_AA64DFR0_BRPs_VAL (x : Z) : Z := Z.land (Z.shiftr x 12) 0xf + 1.
Definition ID_AA64DFR0_WRPs_VAL (x : Z) : Z := Z.land (Z.shiftr x 20) 0xf + 1.
Definition PSR_F : Z := 0x40.
Definition PSR_I : Z := 0x80.
Definition PSR_A : Z := 0x100.
Definition PSR_D : Z := 0x200.
Definition PSR_DAIF : Z := Z.lor (Z.lor (Z.lor PSR_D PSR_A) PSR_I) PSR_F.
Definition PSR_SS : Z := 0x200000.
Definition EXCP_BRKPT_EL1 : Z := 0x31.
Definition EXCP_SOFTSTP_EL1 : Z := 0x33.
Definition EXCP_WATCHPT_EL1 : Z := 0x35.
Definition EXCP_BRK : Z := 0x3c.
Definition SIGTRAP : Z := 5.
Definition SIGEMT : Z := 7.
Definition GDB_NREGS : Z := 68.
Definition GDB_REG_X0 : Z := 0.
Definition GDB_REG_X29 : Z := 29.
Definition GDB_REG_LR : Z := 30.
Definition GDB_REG_SP : Z := 31.
Definition GDB_REG_PC : Z := 32.
Definition GDB_REG_CSPR : Z := 33.
Definition GDB_REG_V0 : Z := 34.
Definition GDB_REG_V31 : Z := 65.
Definition GDB_REG_FPSR : Z := 66.
Definition GDB_REG_FPCR : Z := 67.
Definition DBG_WATCH_CTRL_LEN_1 : Z := Z.shiftl 0x1 5.
Definition DBG_WATCH_CTRL_LEN_2 : Z := Z.shiftl 0x3 5.
Definition DBG_WATCH_CTRL_LEN_4 : Z := Z.shiftl 0xf 5.
Definition DBG_WATCH_CTRL_LEN_8 : Z := Z.shiftl 0xff 5.
Definition DBG_WATCH_CTRL_EXEC : Z := Z.shiftl 0x0 3.
Definition DBG_WATCH_CTRL_LOAD : Z := Z.shiftl 0x1 3.
Definition DBG_WATCH_CTRL_STORE : Z := Z.shiftl 0x2 3.
Definition DBG_WB_CTRL_EL1 : Z := Z.shiftl 0x1 1.
Definition DBG_WB_CTRL_E : Z := Z.shiftl 0x1 0.
Definition DBG_REG_BASE_BVR : Z := 0.
Definition DBG_REG_BASE_BCR : Z := DBG_REG_BASE_BVR + 16.
Definition DBG_REG_BASE_WVR : Z := DBG_REG_BASE_BCR + 16.
Definition DBG_REG_BASE_WCR : Z := DBG_REG_BASE_WVR + 16.
Definition MDSCR_SS : Z := Z.shiftl 1 0.
Definition MDSCR_KDE : Z := Z.shiftl 1 13.
Definition MDSCR_MDE : Z := Z.shiftl 1 15.
Definition DBGMON_ENABLED : Z := Z.shiftl 1 0.
Definition DBGMON_KERNEL : Z := Z.shiftl 1 1.
Definition DBG_BRP_MAX : nat := 16.
Definition DBG_WRP_MAX : nat := 16.

Inductive FGdbBreakType : Set := DBG_TYPE_BREAKPOINT | DBG_TYPE_WATCHPOINT.
Inductive FGdbDebugAccessType : Set :=
| HW_BREAKPOINT_X
| HW_BREAKPOINT_R
| HW_BREAKPOINT_W
| HW_BREAKPOINT_RW.

(** ** State *)
Record FGdbDebugMonitorState := mkMonitor {
  dbg_enable_count : Z;
  dbg_flags : Z;
  dbg_bcr : list Z;
  dbg_bvr : list Z;
  dbg_wcr : list Z;
  dbg_wvr : list Z
}.

(** The 64 breakpoint and watchpoint registers in the order of the
    [DBG_REG_BASE] constants, and the system registers. *)
Record SysRegs := mkSys {
  dbg_wb : list Z;
  mdscr_el1 : Z;
  daif : Z;
  far_el1 : Z;
  oslar_el1 : Z
}.

Record FGdbTrapframe := mkFrame {
  tf_sp : Z;
  tf_lr : Z;
  tf_elr : Z;
  tf_spsr : Z;
  tf_x : list Z
}.

(** The fields of [FGdb] this file uses, and the processor. *)
Record Debugger := mkDebugger {
  monitor : FGdbDebugMonitorState;
  dbg_watchpoint_num : Z;
  dbg_breakpoint_num : Z;
  gdb_frame : option FGdbTrapframe;
  compiled_brk_process : bool;
  sys : SysRegs
}.

Definition set_monitor (m : FGdbDebugMonitorState) (d : Debugger) : Debugger :=
  mkDebugger m d.(dbg_watchpoint_num) d.(dbg_breakpoint_num) d.(gdb_frame)
    d.(compiled_brk_process) d.(sys).
Definition set_frame (f : FGdbTrapframe) (d : Debugger) : Debugger :=
  mkDebugger d.(monitor) d.(dbg_watchpoint_num) d.(dbg_breakpoint_num) (Some f)
    d.(compiled_brk_process) d.(sys).
Definition set_compiled_brk (b : bool) (d : Debugger) : Debugger :=
  mkDebugger d.(monitor) d.(dbg_watchpoint_num) d.(dbg_breakpoint_num) d.(gdb_frame) b
    d.(sys).
Definition set_sys (s : SysRegs) (d : Debugger) : Debugger :=
  mkDebugger d.(monitor) d.(dbg_watchpoint_num) d.(dbg_breakpoint_num) d.(gdb_frame)
    d.(compiled_brk_process) s.
Definition set_nums (w b : Z) (d : Debugger) : Debugger :=
  mkDebugger d.(monitor) w b d.(gdb_frame) d.(compiled_brk_process) d.(sys).

Definition write_mdscr (v : Z) (d : Debugger) : Debugger :=
  let s := d.(sys) in
  set_sys (mkSys s.(dbg_wb) (u64 v) s.(daif) s.(far_el1) s.(oslar_el1)) d.
Definition write_oslar (v : Z) (d : Debugger) : Debugger :=
  let s := d.(sys) in
  set_sys (mkSys s.(dbg_wb) s.(mdscr_el1) s.(daif) s.(far_el1) v) d.
Definition write_daif (v : Z) (d : Debugger) : Debugger :=
  let s := d.(sys) in
  set_sys (mkSys s.(dbg_wb) s.(mdscr_el1) v s.(far_el1) s.(oslar_el1)) d.
(** [msr daifclr] with [DAIF_D]. *)
Definition dbg_enable (d : Debugger) : Debugger :=
  write_daif (Z.ldiff d.(sys).(daif) PSR_D) d.

Definition set_flags (v : Z) (m : FGdbDebugMonitorState) : FGdbDebugMonitorState :=
  mkMonitor m.(dbg_enable_count) (u32 v) m.(dbg_bcr) m.(dbg_bvr) m.(dbg_wcr) m.(dbg_wvr).
Definition set_enable_count (v : Z) (m : FGdbDebugMonitorState) : FGdbDebugMonitorState :=
  mkMonitor (u32 v) m.(dbg_flags) m.(dbg_bcr) m.(dbg_bvr) m.(dbg_wcr) m.(dbg_wvr).

Definition frame_spsr (v : Z) (f : FGdbTrapframe) : FGdbTrapframe :=
  mkFrame f.(tf_sp) f.(tf_lr) f.(tf_elr) (u64 v) f.(tf_x).
Definition frame_elr (v : Z) (f : FGdbTrapframe) : FGdbTrapframe :=
  mkFrame f.(tf_sp) f.(tf_lr) (u64 v) f.(tf_spsr) f.(tf_x).
Definition frame_sp (v : Z) (f : FGdbTrapframe) : FGdbTrapframe :=
  mkFrame (u64 v) f.(tf_lr) f.(tf_elr) f.(tf_spsr) f.(tf_x).
Definition frame_x (x : list Z) (f : FGdbTrapframe) : FGdbTrapframe :=
  mkFrame f.(tf_sp) f.(tf_lr) f.(tf_elr) f.(tf_spsr) x.

(** ** The registers of the frame *)
Definition gdb_cpu_regsz (regnum : Z) : nat :=
  if (regnum =? GDB_REG_CSPR) || (regnum =? GDB_REG_FPSR) || (regnum =? GDB_REG_FPCR) then 4
  else if (GDB_REG_V0 <=? regnum) && (regnum <=? GDB_REG_V31) then 16
  else 8.

Definition frame_of (d : Debugger) : res FGdbTrapframe :=
  of_option Undefined d.(gdb_frame).

(** The 64-bit field of the frame [gdb_cpu_getreg] points to; [None] is [NULL]. *)
Definition gdb_cpu_getreg (d : Debugger) (regnum : Z) : res (option Z) :=
  let! f := frame_of d in
  if regnum =? GDB_REG_LR then Ok (Some f.(tf_lr))
  else if regnum =? GDB_REG_SP then Ok (Some f.(tf_sp))
  else if regnum =? GDB_REG_PC then Ok (Some f.(tf_elr))
  else if regnum =? GDB_REG_CSPR then Ok (Some f.(tf_spsr))
  else if (GDB_REG_X0 <=? regnum) && (regnum <=? GDB_REG_X29) then
    let! v := aget f.(tf_x) (regnum - GDB_REG_X0) in Ok (Some v)
  else Ok None.

Definition gdb_cpu_setreg (d : Debugger) (regnum regval : Z) : res Debugger :=
  if regnum =? GDB_REG_PC then
    let! f := frame_of d in Ok (set_frame (frame_elr regval f) d)
  else if regnum =? GDB_REG_SP then
    let! f := frame_of d in Ok (set_frame (frame_sp regval f) d)
  else if (GDB_REG_X0 <=? regnum) && (regnum <=? GDB_REG_X29) then
    let! f := frame_of d in
    let! x := aset f.(tf_x) regnum (u64 regval) in
    Ok (set_frame (frame_x x f) d)
  else Ok d.

Definition gdb_cpu_signal (type : Z) : Z :=
  if (type =? EXCP_WATCHPT_EL1) || (type =? EXCP_SOFTSTP_EL1) ||
     (type =? EXCP_BRKPT_EL1) || (type =? EXCP_BRK) then SIGTRAP else SIGEMT.

(** ** The debug registers *)
Definition dbg_wb_write_reg (reg n val : Z) (d : Debugger) : Debugger :=
  if (0 <=? reg + n) && (reg + n <? 64) then
    let s := d.(sys) in
    set_sys (mkSys (<[Z.to_nat (reg + n) := val]> s.(dbg_wb)) s.(mdscr_el1) s.(daif)
               s.(far_el1) s.(oslar_el1)) d
  else d.

(** The switches of [dbg_find_free_slot] and [dbg_find_slot]. *)
Definition slot_max (ty : FGdbBreakType) (d : Debugger) : Z :=
  match ty with
  | DBG_TYPE_BREAKPOINT => d.(dbg_breakpoint_num)
  | DBG_TYPE_WATCHPOINT => d.(dbg_watchpoint_num)
  end.
Definition reg_ctrl (ty : FGdbBreakType) (m : FGdbDebugMonitorState) : list Z :=
  match ty with
  | DBG_TYPE_BREAKPOINT => m.(dbg_bcr)
  | DBG_TYPE_WATCHPOINT => m.(dbg_wcr)
  end.
Definition reg_addr (ty : FGdbBreakType) (m : FGdbDebugMonitorState) : list Z :=
  match ty with
  | DBG_TYPE_BREAKPOINT => m.(dbg_bvr)
  | DBG_TYPE_WATCHPOINT => m.(dbg_wvr)
  end.

(** The search loops, from slot [i] on with [n] slots left. *)
Fixpoint free_slot_loop (reg : list Z) (i : Z) (n : nat) : res Z :=
  match n with
  | O => Ok (-1)
  | S n =>
      let! c := aget reg i in
      if Z.land c DBG_WB_CTRL_E =? 0 then Ok i else free_slot_loop reg (i + 1) n
  end.

Definition dbg_find_free_slot (d : Debugger) (ty : FGdbBreakType) : res Z :=
  free_slot_loop (reg_ctrl ty d.(monitor)) 0 (Z.to_nat (slot_max ty d)).

Fixpoint slot_loop (addrs ctrls : list Z) (addr i : Z) (n : nat) : res Z :=
  match n with
  | O => Ok (-1)
  | S n =>
      let! a := aget addrs i in
      let! c := aget ctrls i in
      if (a =? addr) && negb (Z.land c DBG_WB_CTRL_E =? 0) then Ok i
      else slot_loop addrs ctrls addr (i + 1) n
  end.

Definition dbg_find_slot (d : Debugger) (ty : FGdbBreakType) (addr : Z) : res Z :=
  slot_loop (reg_addr ty d.(monitor)) (reg_ctrl ty d.(monitor)) addr 0
    (Z.to_nat (slot_max ty d)).

(** One of the loops of [dbg_register_sync]. *)
Fixpoint sync_loop (ty : FGdbBreakType) (i : Z) (n : nat) (d : Debugger) : res Debugger :=
  match n with
  | O => Ok d
  | S n =>
      let! c := aget (reg_ctrl ty d.(monitor)) i in
      let! a := aget (reg_addr ty d.(monitor)) i in
      let '(cbase, vbase) :=
        match ty with
        | DBG_TYPE_BREAKPOINT => (DBG_REG_BASE_BCR, DBG_REG_BASE_BVR)
        | DBG_TYPE_WATCHPOINT => (DBG_REG_BASE_WCR, DBG_REG_BASE_WVR)
        end in
      let d := dbg_wb_write_reg cbase i c d in
      let d := dbg_wb_write_reg vbase i a d in
      sync_loop ty (i + 1) n d
  end.

Definition dbg_register_sync (d : Debugger) : res Debugger :=
  let! d := sync_loop DBG_TYPE_BREAKPOINT 0 (Z.to_nat d.(dbg_breakpoint_num)) d in
  let! d := sync_loop DBG_TYPE_WATCHPOINT 0 (Z.to_nat d.(dbg_watchpoint_num)) d in
  let mdscr := d.(sys).(mdscr_el1) in
  let flags := d.(monitor).(dbg_flags) in
  let mdscr :=
    if Z.land flags DBGMON_ENABLED =? 0 then Z.ldiff mdscr (Z.lor MDSCR_MDE MDSCR_KDE)
    else
      let mdscr := Z.lor mdscr MDSCR_MDE in
      if Z.land flags DBGMON_KERNEL =? DBGMON_KERNEL then Z.lor mdscr MDSCR_KDE else mdscr in
  Ok (write_mdscr mdscr d).

(** ** Breakpoints and watchpoints *)

(** The two stores into slot [i] of the monitor state. *)
Definition store_slot (ty : FGdbBreakType) (i addr ctrl : Z) (m : FGdbDebugMonitorState) :
    res FGdbDebugMonitorState :=
  let! a := aset (reg_addr ty m) i addr in
  let! c := aset (reg_ctrl ty m) i ctrl in
  Ok (match ty with
      | DBG_TYPE_BREAKPOINT =>
          mkMonitor m.(dbg_enable_count) m.(dbg_flags) c a m.(dbg_wcr) m.(dbg_wvr)
      | DBG_TYPE_WATCHPOINT =>
          mkMonitor m.(dbg_enable_count) m.(dbg_flags) m.(dbg_bcr) m.(dbg_bvr) c a
      end).

(** [dbg_enable_count++], the flag and the copy to the registers. *)
Definition slot_added (m : FGdbDebugMonitorState) (d : Debugger) : res (Z * Debugger) :=
  let m := set_enable_count (m.(dbg_enable_count) + 1) m in
  let m := set_flags (Z.lor m.(dbg_flags) DBGMON_ENABLED) m in
  let! d := dbg_register_sync (set_monitor m d) in
  Ok (0, d).

(** [dbg_enable_count--], the flag and the copy to the registers. *)
Definition slot_removed (m : FGdbDebugMonitorState) (d : Debugger) : res (Z * Debugger) :=
  let m := set_enable_count (m.(dbg_enable_count) - 1) m in
  let m :=
    if m.(dbg_enable_count) =? 0 then set_flags (Z.ldiff m.(dbg_flags) DBGMON_ENABLED) m
    else m in
  let! d := dbg_register_sync (set_monitor m d) in
  Ok (0, d).

(** The byte-select field for an access of [size] bytes. *)
Definition ctrl_len (size : Z) : option Z :=
  if size =? 1 then Some DBG_WATCH_CTRL_LEN_1
  else if size =? 2 then Some DBG_WATCH_CTRL_LEN_2
  else if size =? 4 then Some DBG_WATCH_CTRL_LEN_4
  else if size =? 8 then Some DBG_WATCH_CTRL_LEN_8
  else None.

Definition access_bits (access : FGdbDebugAccessType) : Z :=
  match access with
  | HW_BREAKPOINT_X => DBG_WATCH_CTRL_EXEC
  | HW_BREAKPOINT_R => DBG_WATCH_CTRL_LOAD
  | HW_BREAKPOINT_W => DBG_WATCH_CTRL_STORE
  | HW_BREAKPOINT_RW => Z.lor DBG_WATCH_CTRL_LOAD DBG_WATCH_CTRL_STORE
  end.

Definition dbg_setup_watchpoint (d : Debugger) (addr size : Z) (access : FGdbDebugAccessType) :
    res (Z * Debugger) :=
  let! i := dbg_find_free_slot d DBG_TYPE_WATCHPOINT in
  if i =? -1 then Ok (EBUSY, d)
  else
    match ctrl_len size with
    | None => Ok (EINVAL, d)
    | Some wcr_size =>
        let wcr_priv := DBG_WB_CTRL_EL1 in
        let wcr_access := access_bits access in
        let! m := store_slot DBG_TYPE_WATCHPOINT i addr
                    (Z.lor (Z.lor (Z.lor wcr_size wcr_access) wcr_priv) DBG_WB_CTRL_E)
                    d.(monitor) in
        slot_added m d
    end.

Definition dbg_remove_watchpoint (d : Debugger) (addr size : Z) : res (Z * Debugger) :=
  let! i := dbg_find_slot d DBG_TYPE_WATCHPOINT addr in
  if i =? -1 then Ok (EINVAL, d)
  else
    let! m := store_slot DBG_TYPE_WATCHPOINT i 0 0 d.(monitor) in
    slot_removed m d.

Definition KDB_DBG_ACCESS_R : Z := 1.
Definition KDB_DBG_ACCESS_W : Z := 2.
Definition KDB_DBG_ACCESS_RW : Z := 3.

Definition kdb_cpu_set_watchpoint (d : Debugger) (addr size access : Z) : res (Z * Debugger) :=
  if access =? KDB_DBG_ACCESS_R then dbg_setup_watchpoint d addr size HW_BREAKPOINT_R
  else if access =? KDB_DBG_ACCESS_W then dbg_setup_watchpoint d addr size HW_BREAKPOINT_W
  else if access =? KDB_DBG_ACCESS_RW then dbg_setup_watchpoint d addr size HW_BREAKPOINT_RW
  else Ok (EINVAL, d).

Definition kdb_cpu_clr_watchpoint (d : Debugger) (addr size : Z) : res (Z * Debugger) :=
  dbg_remove_watchpoint d addr size.

Definition kdb_cpu_set_hwbreakpoint (d : Debugger) (addr size : Z) : res (Z * Debugger) :=
  let! i := dbg_find_free_slot d DBG_TYPE_BREAKPOINT in
  if i =? -1 then Ok (EBUSY, d)
  else
    match ctrl_len size with
    | None => Ok (EINVAL, d)
    | Some bcr_size =>
        let bcr_priv := DBG_WB_CTRL_EL1 in
        let! m := store_slot DBG_TYPE_BREAKPOINT i addr
                    (Z.lor (Z.lor bcr_size bcr_priv) DBG_WB_CTRL_E) d.(monitor) in
        slot_added m d
    end.

Definition kdb_cpu_clr_hwbreakpoint (d : Debugger) (addr size : Z) : res (Z * Debugger) :=
  let! i := dbg_find_slot d DBG_TYPE_BREAKPOINT addr in
  if i =? -1 then Ok (EINVAL, d)
  else
    let! m := store_slot DBG_TYPE_BREAKPOINT i 0 0 d.(monitor) in
    slot_removed m d.

(** ** Stepping *)
Definition debug_masked (d : Debugger) : bool := Z.land d.(sys).(daif) PSR_D =? PSR_D.

(** A break instruction compiled into the program is passed. *)
Definition skip_compiled_brk (d : Debugger) (f : FGdbTrapframe) : Debugger * FGdbTrapframe :=
  if d.(compiled_brk_process) then
    (set_compiled_brk false d, frame_elr (f.(tf_elr) + BREAK_INSTR_SIZE) f)
  else (d, f).

Definition kdb_cpu_set_singlestep (d : Debugger) : res Debugger :=
  check! debug_masked d in
  let! f := of_option AssertFailed d.(gdb_frame) in
  let '(d, f) := skip_compiled_brk d f in
  let f := frame_spsr (Z.lor f.(tf_spsr) PSR_SS) f in
  let m := d.(monitor) in
  let m := set_flags (Z.ldiff m.(dbg_flags) PSR_DAIF) m in
  let m := set_flags (Z.lor m.(dbg_flags) (Z.land f.(tf_spsr) PSR_DAIF)) m in
  let f := frame_spsr (Z.lor f.(tf_spsr) (Z.lor (Z.lor PSR_A PSR_I) PSR_F)) f in
  let d := set_frame f (set_monitor m d) in
  let d := write_mdscr (Z.lor (Z.lor d.(sys).(mdscr_el1) MDSCR_SS) MDSCR_KDE) d in
  if negb (Z.land m.(dbg_flags) DBGMON_ENABLED =? 0) then
    Ok (write_mdscr (Z.ldiff d.(sys).(mdscr_el1) MDSCR_MDE) d)
  else Ok d.

Definition kdb_cpu_clear_singlestep (d : Debugger) : res Debugger :=
  check! debug_masked d in
  let! f := of_option AssertFailed d.(gdb_frame) in
  let '(d, f) := skip_compiled_brk d f in
  let flags := d.(monitor).(dbg_flags) in
  let f := frame_spsr (Z.ldiff f.(tf_spsr) PSR_DAIF) f in
  let f := frame_spsr (Z.lor f.(tf_spsr) (Z.land flags PSR_DAIF)) f in
  let d := set_frame f d in
  let d := write_mdscr (Z.ldiff d.(sys).(mdscr_el1) (Z.lor MDSCR_SS MDSCR_KDE)) d in
  if negb (Z.land flags DBGMON_ENABLED =? 0) then
    let d := write_mdscr (Z.lor d.(sys).(mdscr_el1) MDSCR_MDE) d in
    if negb (Z.land flags DBGMON_KERNEL =? 0) then
      Ok (write_mdscr (Z.lor d.(sys).(mdscr_el1) MDSCR_KDE) d)
    else Ok d
  else Ok d.

(** ** Initialisation, and the entry from the exception vector *)
Fixpoint reset_loop (cbase vbase i : Z) (n : nat) (d : Debugger) : Debugger :=
  match n with
  | O => d
  | S n =>
      let d := dbg_wb_write_reg cbase i 0 d in
      let d := dbg_wb_write_reg vbase i 0 d in
      reset_loop cbase vbase (i + 1) n d
  end.

(** The part of [FGdbInitialize] before the debug port is opened; [aa64dfr0] is the
    value of id_aa64dfr0_el1. *)
Definition gdb_init_registers (aa64dfr0 : Z) (d : Debugger) : Debugger :=
  let d := write_oslar 0 d in
  let d := set_nums (ID_AA64DFR0_WRPs_VAL aa64dfr0) (ID_AA64DFR0_BRPs_VAL aa64dfr0) d in
  let d := reset_loop DBG_REG_BASE_WCR DBG_REG_BASE_WVR 0
             (Z.to_nat d.(dbg_watchpoint_num)) d in
  let d := reset_loop DBG_REG_BASE_BCR DBG_REG_BASE_BVR 0
             (Z.to_nat d.(dbg_breakpoint_num)) d in
  dbg_enable d.

(** The debug registers after a successful [FGdbInitialize]. *)
Definition gdb_init_debug (aa64dfr0 : Z) (d : Debugger) : Debugger :=
  let d := gdb_init_registers aa64dfr0 d in
  set_monitor (set_flags DBGMON_KERNEL d.(monitor)) d.

(** [FGdbDebugInterrupt] up to the call of [FGdbTrap]: the exception class it
    passes on, from the syndrome register. *)
Definition debug_interrupt_entry (esr : Z) (trap_frame : FGdbTrapframe) (d : Debugger) :
    res (Z * Debugger) :=
  let! d := dbg_register_sync d in
  let ec := Z.land (Z.shiftr esr 26) 0x3f in
  let iss := Z.land esr ESR_ELx_BRK64_ISS_COMMENT_MASK in
  let d := if iss =? GDB_COMPILED_DBG_BRK_IMM then set_compiled_brk true d else d in
  Ok (ec, set_frame trap_frame d).
