(* ===== verification/GdbArchProps.v ===== *)
(** Properties of the debug registers of the GDB stub (GdbArch.v): the break- and
    watchpoint operations refine two tables of slots, in every reachable state the
    registers agree with the tables, and what stepping does to the interrupt masks
    of the program. *)
From stdpp Require Import relations.
From S2P Require Import Prelude GdbArch.

Definition enabled (c : Z) : bool := negb (Z.land c DBG_WB_CTRL_E =? 0).

(** ** The tables

    What a bank of slots holds: the address and the control word of each slot in
    use. *)
Definition slot : Type := option (Z * Z).
Definition slot_of (a c : Z) : slot := if enabled c then Some (a, c) else None.
Definition slots (ty : FGdbBreakType) (d : Debugger) : list slot :=
  zip_with slot_of (take (Z.to_nat (slot_max ty d)) (reg_addr ty d.(monitor)))
    (take (Z.to_nat (slot_max ty d)) (reg_ctrl ty d.(monitor))).
Definition in_use (l : list slot) : nat := length (filter is_Some l).

Definition free (s : slot) : bool := match s with None => true | Some _ => false end.
Definition at_addr (addr : Z) (s : slot) : bool :=
  match s with Some (a, _) => a =? addr | None => false end.

(** Adding takes the first free slot, removing frees the first one with the
    address. *)
Definition add_slot (a c : Z) (l : list slot) : option (list slot) :=
  k ← list_find free l; Some (<[k.1 := Some (a, c)]> l).
Definition del_slot (a : Z) (l : list slot) : option (list slot) :=
  k ← list_find (at_addr a) l; Some (<[k.1 := None]> l).

(** ** Well-formed states *)
Record bank_wf (ty : FGdbBreakType) (d : Debugger) : Prop := {
  bank_max : 1 <= slot_max ty d <= 16;
  bank_ctrl : length (reg_ctrl ty d.(monitor)) = 16%nat;
  bank_addr : length (reg_addr ty d.(monitor)) = 16%nat
}.

Definition reg_base (ty : FGdbBreakType) : Z * Z :=
  match ty with
  | DBG_TYPE_BREAKPOINT => (DBG_REG_BASE_BCR, DBG_REG_BASE_BVR)
  | DBG_TYPE_WATCHPOINT => (DBG_REG_BASE_WCR, DBG_REG_BASE_WVR)
  end.

(** The registers hold what the bank holds. *)
Definition mirrored (ty : FGdbBreakType) (wb : list Z) (d : Debugger) : Prop :=
  forall i, 0 <= i < slot_max ty d ->
    wb !! Z.to_nat ((reg_base ty).1 + i) = reg_ctrl ty d.(monitor) !! Z.to_nat i /\
    wb !! Z.to_nat ((reg_base ty).2 + i) = reg_addr ty d.(monitor) !! Z.to_nat i.

Record dbg_wf (d : Debugger) : Prop := {
  wf_bank : forall ty, bank_wf ty d;
  wf_wb : length d.(sys).(dbg_wb) = 64%nat;
  wf_mirrored : forall ty, mirrored ty d.(sys).(dbg_wb) d;
  wf_count : d.(monitor).(dbg_enable_count) =
    Z.of_nat (in_use (slots DBG_TYPE_BREAKPOINT d) + in_use (slots DBG_TYPE_WATCHPOINT d));
  wf_flag : Z.testbit d.(monitor).(dbg_flags) 0 = (0 <? d.(monitor).(dbg_enable_count));
  wf_kernel : Z.testbit d.(monitor).(dbg_flags) 1 = true;
  wf_flags : 0 <= d.(monitor).(dbg_flags) < 2 ^ 32
}.

(** ** Searching *)
Lemma enabled_E c : (Z.land c DBG_WB_CTRL_E =? 0) = negb (enabled c).
Proof. unfold enabled. by rewrite negb_involutive. Qed.

Lemma take_S_drop {A} (l : list A) i n x :
  l !! i = Some x -> take (S n) (drop i l) = x :: take n (drop (S i) l).
Proof. intros H. by rewrite (drop_S l x i). Qed.

Lemma list_find_cons_bool {A} (f : A -> bool) x l :
  list_find (fun y => f y) (x :: l) =
  if f x then Some (0%nat, x) else prod_map S id <$> list_find (fun y => f y) l.
Proof. simpl. case_decide; by destruct (f x). Qed.

(** The answer of a search loop that starts at slot [i]. *)
Definition found_from {A} (i : nat) (o : option (nat * A)) : Z :=
  match o with Some (k, _) => Z.of_nat (i + k) | None => -1 end.

Lemma found_from_S {A} i (o : option (nat * A)) :
  found_from (S i) o = found_from i (prod_map S id <$> o).
Proof. destruct o as [[k x]|]; [|done]. simpl. lia. Qed.

Lemma free_slot_loop_find addrs ctrls n i :
  length addrs = length ctrls -> (i + n <= length ctrls)%nat ->
  free_slot_loop ctrls (Z.of_nat i) n =
  Ok (found_from i
        (list_find free (zip_with slot_of (take n (drop i addrs)) (take n (drop i ctrls))))).
Proof.
  intros Hl. revert i. induction n as [|n IH]; intros i Hi; [done|].
  destruct (lookup_lt_is_Some_2 ctrls i) as [c Hc]; [lia|].
  destruct (lookup_lt_is_Some_2 addrs i) as [a Ha]; [lia|].
  rewrite (take_S_drop _ _ _ _ Hc), (take_S_drop _ _ _ _ Ha). cbn [free_slot_loop zip_with].
  rewrite (aget_Some _ _ c) by (lia || by rewrite Nat2Z.id). cbn [rbind].
  rewrite enabled_E, list_find_cons_bool.
  replace (Z.of_nat i + 1) with (Z.of_nat (S i)) by lia. rewrite IH by lia.
  unfold slot_of at 2 3. destruct (enabled c); simpl.
  - by rewrite found_from_S.
  - do 2 f_equal. lia.
Qed.

Lemma slot_loop_find addrs ctrls addr n i :
  length addrs = length ctrls -> (i + n <= length ctrls)%nat ->
  slot_loop addrs ctrls addr (Z.of_nat i) n =
  Ok (found_from i
        (list_find (at_addr addr)
           (zip_with slot_of (take n (drop i addrs)) (take n (drop i ctrls))))).
Proof.
  intros Hl. revert i. induction n as [|n IH]; intros i Hi; [done|].
  destruct (lookup_lt_is_Some_2 ctrls i) as [c Hc]; [lia|].
  destruct (lookup_lt_is_Some_2 addrs i) as [a Ha]; [lia|].
  rewrite (take_S_drop _ _ _ _ Hc), (take_S_drop _ _ _ _ Ha). cbn [slot_loop zip_with].
  rewrite (aget_Some _ _ a), (aget_Some _ _ c) by (lia || by rewrite Nat2Z.id). cbn [rbind].
  rewrite enabled_E, negb_involutive, list_find_cons_bool.
  replace (Z.of_nat i + 1) with (Z.of_nat (S i)) by lia. rewrite IH by lia.
  unfold slot_of at 2 3. destruct (enabled c); simpl; rewrite ?andb_true_r, ?andb_false_r.
  - destruct (a =? addr); simpl; [do 2 f_equal; lia|by rewrite found_from_S].
  - by rewrite found_from_S.
Qed.

Section Searches.
Context (ty : FGdbBreakType) (d : Debugger) (Hb : bank_wf ty d).

Lemma dbg_find_free_slot_spec :
  dbg_find_free_slot d ty = Ok (found_from 0 (list_find free (slots ty d))).
Proof.
  destruct Hb. unfold dbg_find_free_slot, slots.
  by rewrite (free_slot_loop_find (reg_addr ty (monitor d)) _ _ 0) by lia.
Qed.

Lemma dbg_find_slot_spec addr :
  dbg_find_slot d ty addr = Ok (found_from 0 (list_find (at_addr addr) (slots ty d))).
Proof.
  destruct Hb. unfold dbg_find_slot, slots. by rewrite (slot_loop_find _ _ _ _ 0) by lia.
Qed.

Lemma slots_length : length (slots ty d) = Z.to_nat (slot_max ty d).
Proof. destruct Hb. unfold slots. rewrite length_zip_with, !length_take. lia. Qed.
End Searches.

(** ** Storing a slot *)
Lemma store_slot_spec ty d i a c :
  bank_wf ty d -> 0 <= i < slot_max ty d ->
  exists m,
    store_slot ty i a c d.(monitor) = Ok m /\
    m.(dbg_enable_count) = d.(monitor).(dbg_enable_count) /\
    m.(dbg_flags) = d.(monitor).(dbg_flags) /\
    (forall ty', bank_wf ty' d -> bank_wf ty' (set_monitor m d)) /\
    slots ty (set_monitor m d) = <[Z.to_nat i := slot_of a c]> (slots ty d) /\
    (forall ty', ty' <> ty -> slots ty' (set_monitor m d) = slots ty' d).
Proof.
  intros [Hm Hc Ha] Hi. unfold store_slot.
  rewrite !aset_in_range by lia. eexists; split; [reflexivity|].
  split_and!; try by destruct ty.
  - intros ty' [Hm' Hc' Ha']. destruct ty, ty'; split; simpl in *;
      rewrite ?length_insert; done.
  - unfold slots. rewrite insert_zip_with, <-!take_insert_lt by lia. by destruct ty.
  - intros [] ?; by destruct ty.
Qed.

(** ** Copying to the registers *)
Definition set_wb (wb : list Z) (d : Debugger) : Debugger :=
  let s := d.(sys) in
  set_sys (mkSys wb s.(mdscr_el1) s.(daif) s.(far_el1) s.(oslar_el1)) d.

Lemma sync_loop_spec ty n i d :
  bank_wf ty d -> length d.(sys).(dbg_wb) = 64%nat -> (i + n <= 16)%nat ->
  exists wb,
    sync_loop ty (Z.of_nat i) n d = Ok (set_wb wb d) /\ length wb = 64%nat /\
    (forall j, (i <= j < i + n)%nat ->
       wb !! Z.to_nat ((reg_base ty).1 + Z.of_nat j) = reg_ctrl ty d.(monitor) !! j /\
       wb !! Z.to_nat ((reg_base ty).2 + Z.of_nat j) = reg_addr ty d.(monitor) !! j) /\
    (forall k, (forall j, (i <= j < i + n)%nat -> k <> Z.to_nat ((reg_base ty).1 + Z.of_nat j) /\
                                          k <> Z.to_nat ((reg_base ty).2 + Z.of_nat j)) ->
       wb !! k = d.(sys).(dbg_wb) !! k).
Proof.
  revert i d. induction n as [|n IH]; intros i d Hb Hw Hi.
  - exists d.(sys).(dbg_wb). split_and!; [|done|intros ? ?; lia|done]. by destruct d as [???? ? []].
  - destruct Hb as [Hm Hc Ha].
    destruct (lookup_lt_is_Some_2 (reg_ctrl ty d.(monitor)) i) as [c Ec]; [lia|].
    destruct (lookup_lt_is_Some_2 (reg_addr ty d.(monitor)) i) as [a Ea]; [lia|].
    set (bc := (reg_base ty).1). set (bv := (reg_base ty).2).
    set (wb1 := <[Z.to_nat (bv + Z.of_nat i) := a]>
                  (<[Z.to_nat (bc + Z.of_nat i) := c]> d.(sys).(dbg_wb))).
    assert (0 <= bc <= 48 /\ 0 <= bv <= 48 /\ (bc <= bv - 16 \/ bv <= bc - 16)) as Hbase
      by (destruct ty; vm_compute; intuition discriminate).
    destruct (IH (S i) (set_wb wb1 d)) as (wb & E & L & Hin & Hout).
    { by split. }
    { unfold wb1; simpl. by rewrite !length_insert. }
    { lia. }
    exists wb. split; [|split; [done|split]].
    + cbn [sync_loop].
      rewrite (aget_Some _ _ c), (aget_Some _ _ a) by (lia || by rewrite Nat2Z.id).
      cbn [rbind]. unfold dbg_wb_write_reg.
      replace (Z.of_nat i + 1) with (Z.of_nat (S i)) by lia.
      destruct ty; simpl; rewrite !(proj2 (andb_true_iff _ _)) by
        (split; [apply Z.leb_le|apply Z.ltb_lt]; simpl in *; lia); exact E.
    + intros j Hj. destruct (decide (j = i)) as [->|Hne]; [|apply Hin; lia].
      rewrite !Hout by (intros j' ?; lia). unfold wb1; simpl.
      rewrite list_lookup_insert_ne by lia.
      rewrite !list_lookup_insert_eq by (rewrite ?length_insert; lia). done.
    + intros k Hk. rewrite Hout by (intros j ?; apply Hk; lia). unfold wb1; simpl.
      destruct (Hk i) as [??]; [lia|].
      by rewrite !list_lookup_insert_ne by congruence.
Qed.

(** What the debug control register is set to. *)
Definition synced_mdscr (flags mdscr : Z) : Z :=
  if Z.testbit flags 0 then
    Z.lor (Z.lor mdscr MDSCR_MDE) (if Z.testbit flags 1 then MDSCR_KDE else 0)
  else Z.ldiff mdscr (Z.lor MDSCR_MDE MDSCR_KDE).

Lemma land_flag flags n :
  0 <= n -> (Z.land flags (Z.shiftl 1 n) =? 0) = negb (Z.testbit flags n).
Proof.
  intros Hn. apply eq_true_iff_eq. rewrite Z.eqb_eq, negb_true_iff. split.
  - intros E. rewrite <-(andb_true_r (Z.testbit flags n)), <-(Z.eqb_refl n),
      <-(BIT_testbit n n) by done. unfold BIT. by rewrite <-Z.land_spec, E, Z.testbit_0_l.
  - intros E. apply Z.bits_inj'. intros i Hi. fold (BIT n).
    rewrite Z.land_spec, BIT_testbit, ?Z.testbit_0_l by done.
    destruct (Z.eqb_spec i n) as [->|]; by rewrite ?E, ?andb_false_r.
Qed.

Lemma land_flag_eq flags n :
  0 <= n -> (Z.land flags (Z.shiftl 1 n) =? Z.shiftl 1 n) = Z.testbit flags n.
Proof.
  intros Hn. apply eq_true_iff_eq. rewrite Z.eqb_eq. split.
  - intros E. rewrite <-(andb_true_r (Z.testbit flags n)), <-(Z.eqb_refl n),
      <-(BIT_testbit n n) by done. unfold BIT. rewrite <-Z.land_spec, E.
    fold (BIT n). by rewrite BIT_testbit, Z.eqb_refl.
  - intros E. apply Z.bits_inj'. intros i Hi. fold (BIT n).
    rewrite Z.land_spec, BIT_testbit, ?Z.testbit_0_l by done.
    destruct (Z.eqb_spec i n) as [->|]; by rewrite ?E, ?andb_false_r.
Qed.

Lemma dbg_register_sync_spec d :
  (forall ty, bank_wf ty d) -> length d.(sys).(dbg_wb) = 64%nat ->
  exists wb,
    dbg_register_sync d =
      Ok (write_mdscr (synced_mdscr d.(monitor).(dbg_flags) d.(sys).(mdscr_el1)) (set_wb wb d)) /\
    length wb = 64%nat /\ forall ty, mirrored ty wb d.
Proof.
  intros Hb Hw. pose proof (bank_max _ _ (Hb DBG_TYPE_BREAKPOINT)) as Hmb.
  pose proof (bank_max _ _ (Hb DBG_TYPE_WATCHPOINT)) as Hmw. simpl in Hmb, Hmw.
  destruct (sync_loop_spec DBG_TYPE_BREAKPOINT (Z.to_nat d.(dbg_breakpoint_num)) 0 d)
    as (wb1 & E1 & L1 & I1 & O1); [done..|lia|].
  destruct (sync_loop_spec DBG_TYPE_WATCHPOINT (Z.to_nat d.(dbg_watchpoint_num)) 0 (set_wb wb1 d))
    as (wb2 & E2 & L2 & I2 & O2); [|done|lia|]; [by destruct (Hb DBG_TYPE_WATCHPOINT)|].
  exists wb2. split; [|split; [done|]].
  - unfold dbg_register_sync. change 0 with (Z.of_nat 0) at 1 2.
    rewrite E1. cbn [rbind]. change (dbg_watchpoint_num (set_wb wb1 d)) with (dbg_watchpoint_num d).
    rewrite E2. cbn [rbind]. cbv zeta. simpl.
    unfold DBGMON_ENABLED, DBGMON_KERNEL. rewrite land_flag, land_flag_eq by lia.
    unfold synced_mdscr.
    destruct (Z.testbit (dbg_flags (monitor d)) 0), (Z.testbit (dbg_flags (monitor d)) 1);
      cbn [negb]; rewrite ?Z.lor_0_r; reflexivity.
  - intros [] i Hi; simpl in Hi.
    + destruct (I1 (Z.to_nat i)) as [Ec Ea]; [lia|]. rewrite Z2Nat.id in Ec, Ea by lia.
      rewrite !O2 by (intros j ?; cbn [reg_base fst snd]; unfold DBG_REG_BASE_WCR,
        DBG_REG_BASE_WVR, DBG_REG_BASE_BCR, DBG_REG_BASE_BVR; lia).
      by split.
    + destruct (I2 (Z.to_nat i)) as [Ec Ea]; [lia|]. rewrite Z2Nat.id in Ec, Ea by lia.
      by split.
Qed.

(** ** Counting the slots in use *)
Lemma in_use_cons s l : in_use (s :: l) = ((if free s then 0 else 1) + in_use l)%nat.
Proof.
  unfold in_use. destruct s as [e|]; [rewrite filter_cons_True by done|
    rewrite filter_cons_False by (by intros [? ?])]; done.
Qed.

Lemma in_use_insert l k s s' :
  l !! k = Some s ->
  (in_use (<[k := s']> l) + (if free s then 0 else 1) =
   in_use l + (if free s' then 0 else 1))%nat.
Proof.
  revert k. induction l as [|x l IH]; intros [|k] Hk; simpl in *; simplify_eq.
  - rewrite !in_use_cons. lia.
  - rewrite !in_use_cons. specialize (IH k Hk). lia.
Qed.

Lemma in_use_le l : (in_use l <= length l)%nat.
Proof. induction l as [|[] l IH]; rewrite ?in_use_cons; simpl; [done|lia..]. Qed.

Definition total (d : Debugger) : Z :=
  Z.of_nat (in_use (slots DBG_TYPE_BREAKPOINT d) + in_use (slots DBG_TYPE_WATCHPOINT d)).

Lemma total_bound d : (forall ty, bank_wf ty d) -> 0 <= total d <= 32.
Proof.
  intros Hb. unfold total.
  pose proof (in_use_le (slots DBG_TYPE_BREAKPOINT d)) as H1.
  pose proof (in_use_le (slots DBG_TYPE_WATCHPOINT d)) as H2.
  rewrite slots_length in H1, H2 by apply Hb.
  pose proof (bank_max _ _ (Hb DBG_TYPE_BREAKPOINT)).
  pose proof (bank_max _ _ (Hb DBG_TYPE_WATCHPOINT)). lia.
Qed.

Lemma total_store ty d m k s s' :
  slots ty d !! k = Some s ->
  slots ty (set_monitor m d) = <[k := s']> (slots ty d) ->
  (forall ty', ty' <> ty -> slots ty' (set_monitor m d) = slots ty' d) ->
  total (set_monitor m d) + (if free s then 0 else 1) = total d + (if free s' then 0 else 1).
Proof.
  intros Hk Hs Ho. pose proof (in_use_insert _ _ _ s' Hk) as Hc.
  unfold total. destruct ty.
  - rewrite Hs, (Ho DBG_TYPE_WATCHPOINT) by done. destruct (free s), (free s'); lia.
  - rewrite Hs, (Ho DBG_TYPE_BREAKPOINT) by done. destruct (free s), (free s'); lia.
Qed.

(** ** Bringing the registers up to date after a change of the monitor state *)

(** What the operations on slots leave alone: the program, and the interrupt masks
    saved for it in the upper bits of the flags. *)
Definition program_state (d : Debugger) : option FGdbTrapframe * bool * Z * Z :=
  (d.(gdb_frame), d.(compiled_brk_process), d.(sys).(daif), Z.shiftr d.(monitor).(dbg_flags) 2).

Definition watching (d : Debugger) : bool := Z.testbit d.(sys).(mdscr_el1) 15.

Lemma synced_watching flags mdscr : Z.testbit (u64 (synced_mdscr flags mdscr)) 15 = Z.testbit flags 0.
Proof.
  rewrite wrap_testbit by lia. change (15 <? 64) with true. rewrite andb_true_l.
  unfold synced_mdscr. destruct (Z.testbit flags 0);
    rewrite ?Z.lor_spec, ?Z.ldiff_spec, ?Z.lor_spec;
    change (Z.testbit MDSCR_MDE 15) with true.
  - by rewrite orb_true_r.
  - by rewrite andb_false_r.
Qed.

Lemma resync d m :
  (forall ty, bank_wf ty (set_monitor m d)) -> length d.(sys).(dbg_wb) = 64%nat ->
  m.(dbg_enable_count) = total (set_monitor m d) ->
  Z.testbit m.(dbg_flags) 0 = (0 <? m.(dbg_enable_count)) ->
  Z.testbit m.(dbg_flags) 1 = true -> 0 <= m.(dbg_flags) < 2 ^ 32 ->
  exists d',
    dbg_register_sync (set_monitor m d) = Ok d' /\ dbg_wf d' /\
    (forall ty, slots ty d' = slots ty (set_monitor m d)) /\
    program_state d' = program_state (set_monitor m d) /\ watching d' = (0 <? total d').
Proof.
  intros Hb Hw Hc H0 H1 Hf.
  destruct (dbg_register_sync_spec (set_monitor m d) Hb Hw) as (wb & E & L & Hm).
  eexists; split; [exact E|]. split_and!.
  - split; try done. intros ty. by destruct (Hb ty).
  - by intros [].
  - done.
  - unfold watching. cbn [write_mdscr set_sys sys mdscr_el1]. rewrite synced_watching.
    cbn [set_monitor monitor]. by rewrite H0, Hc.
Qed.

(** ** The operations *)
Inductive op : Set :=
| SetBreakpoint (addr size : Z)
| ClrBreakpoint (addr size : Z)
| SetWatchpoint (addr size access : Z)
| ClrWatchpoint (addr size : Z).

Definition run_op (d : Debugger) (o : op) : res (Z * Debugger) :=
  match o with
  | SetBreakpoint addr size => kdb_cpu_set_hwbreakpoint d addr size
  | ClrBreakpoint addr size => kdb_cpu_clr_hwbreakpoint d addr size
  | SetWatchpoint addr size access => kdb_cpu_set_watchpoint d addr size access
  | ClrWatchpoint addr size => kdb_cpu_clr_watchpoint d addr size
  end.

(** The control word of the architecture: the bytes selected, the accesses that
    trap (1 loads, 2 stores), EL1, enabled. *)
Definition ctrl_word (size access : Z) : Z := 32 * (2 ^ size - 1) + 8 * access + 3.
Definition valid_size (size : Z) : bool :=
  (size =? 1) || (size =? 2) || (size =? 4) || (size =? 8).
Definition valid_access (access : Z) : bool := (1 <=? access) && (access <=? 3).

Definition spec_set (addr size access : Z) (l : list slot) : Z * list slot :=
  match add_slot addr (ctrl_word size access) l with
  | None => (EBUSY, l)
  | Some l' => if valid_size size then (0, l') else (EINVAL, l)
  end.
Definition spec_clr (addr : Z) (l : list slot) : Z * list slot :=
  match del_slot addr l with Some l' => (0, l') | None => (EINVAL, l) end.

(** The tables of breakpoints and of watchpoints. *)
Definition spec_op (bp wp : list slot) (o : op) : Z * (list slot * list slot) :=
  match o with
  | SetBreakpoint addr size => let '(e, bp) := spec_set addr size 0 bp in (e, (bp, wp))
  | ClrBreakpoint addr _ => let '(e, bp) := spec_clr addr bp in (e, (bp, wp))
  | SetWatchpoint addr size access =>
      if valid_access access then
        let '(e, wp) := spec_set addr size access wp in (e, (bp, wp))
      else (EINVAL, (bp, wp))
  | ClrWatchpoint addr _ => let '(e, wp) := spec_clr addr wp in (e, (bp, wp))
  end.

Lemma ctrl_len_spec size access :
  valid_size size = true -> 0 <= access <= 3 ->
  exists w,
    ctrl_len size = Some w /\
    Z.lor (Z.lor (Z.lor w (8 * access)) DBG_WB_CTRL_EL1) DBG_WB_CTRL_E = ctrl_word size access.
Proof.
  unfold valid_size. rewrite !orb_true_iff, !Z.eqb_eq. intros Hs Ha.
  assert (access = 0 \/ access = 1 \/ access = 2 \/ access = 3) as Ha' by lia.
  destruct Hs as [[[->| ->]| ->]| ->], Ha' as [->|[->|[->| ->]]];
    eexists; (split; [reflexivity|vm_compute; reflexivity]).
Qed.

Lemma ctrl_len_None size : valid_size size = false -> ctrl_len size = None.
Proof.
  unfold valid_size, ctrl_len. rewrite !orb_false_iff. by intros [[[-> ->] ->] ->].
Qed.

Lemma ctrl_word_enabled size access :
  valid_size size = true -> enabled (ctrl_word size access) = true.
Proof.
  unfold enabled, ctrl_word, DBG_WB_CTRL_E. intros Hs. rewrite land_flag, negb_involutive by lia.
  rewrite Z.bit0_odd, Z.odd_add, Z.odd_add, !Z.odd_mul. reflexivity.
Qed.

(** The flags after a slot has been added or removed. *)
Lemma flags_high flags :
  0 <= flags < 2 ^ 32 ->
  Z.shiftr (u32 (Z.lor flags DBGMON_ENABLED)) 2 = Z.shiftr flags 2 /\
  Z.shiftr (u32 (Z.ldiff flags DBGMON_ENABLED)) 2 = Z.shiftr flags 2.
Proof.
  intros Hf. split; apply Z.bits_inj'; intros i Hi; change DBGMON_ENABLED with (BIT 0);
    rewrite !Z.shiftr_spec, wrap_testbit, ?Z.lor_spec, ?Z.ldiff_spec, BIT_testbit by lia;
    replace (i + 2 =? 0) with false by (symmetry; apply Z.eqb_neq; lia);
    rewrite ?orb_false_r, ?andb_true_r;
    destruct (Z.ltb_spec (i + 2) 32); try done; symmetry; by apply (testbit_high 32).
Qed.

Lemma flags_added flags :
  0 <= flags < 2 ^ 32 -> Z.testbit flags 1 = true ->
  Z.testbit (u32 (Z.lor flags DBGMON_ENABLED)) 0 = true /\
  Z.testbit (u32 (Z.lor flags DBGMON_ENABLED)) 1 = true /\
  0 <= u32 (Z.lor flags DBGMON_ENABLED) < 2 ^ 32 /\
  Z.shiftr (u32 (Z.lor flags DBGMON_ENABLED)) 2 = Z.shiftr flags 2.
Proof.
  intros Hf H1. split; [|split; [|split; [by apply wrap_range|by apply flags_high]]]; rewrite ?wrap_testbit, ?Z.lor_spec, ?H1 by lia;
    change (Z.testbit DBGMON_ENABLED 0) with true; by rewrite ?orb_true_r.
Qed.

Lemma flags_removed flags :
  0 <= flags < 2 ^ 32 -> Z.testbit flags 1 = true ->
  Z.testbit (u32 (Z.ldiff flags DBGMON_ENABLED)) 0 = false /\
  Z.testbit (u32 (Z.ldiff flags DBGMON_ENABLED)) 1 = true /\
  0 <= u32 (Z.ldiff flags DBGMON_ENABLED) < 2 ^ 32 /\
  Z.shiftr (u32 (Z.ldiff flags DBGMON_ENABLED)) 2 = Z.shiftr flags 2.
Proof.
  intros Hf H1. split; [|split; [|split; [by apply wrap_range|by apply flags_high]]]; rewrite ?wrap_testbit, ?Z.ldiff_spec, ?H1 by lia;
    change (Z.testbit DBGMON_ENABLED 0) with true;
    change (Z.testbit DBGMON_ENABLED 1) with false; by rewrite ?andb_false_r.
Qed.

(** What an operation on bank [ty] does: the bank becomes [l], all else stays. *)
Record changed (ty : FGdbBreakType) (l : list slot) (d d' : Debugger) : Prop := {
  ch_wf : dbg_wf d';
  ch_bank : slots ty d' = l;
  ch_other : forall ty', ty' <> ty -> slots ty' d' = slots ty' d;
  ch_program : program_state d' = program_state d;
  ch_watching : watching d' = (0 <? total d')
}.

Lemma total_same d1 d2 : (forall ty, slots ty d1 = slots ty d2) -> total d1 = total d2.
Proof. intros H. unfold total. by rewrite !H. Qed.

Lemma slot_added_ok ty d k x a c :
  dbg_wf d -> list_find free (slots ty d) = Some (k, x) -> enabled c = true ->
  exists m d',
    store_slot ty (Z.of_nat k) a c d.(monitor) = Ok m /\ slot_added m d = Ok (0, d') /\
    changed ty (<[k := Some (a, c)]> (slots ty d)) d d'.
Proof.
  intros [Hb Hw Hm Hc H0 H1 Hf] Hk Ec.
  apply list_find_Some in Hk as (Hk & Hx & _).
  assert (k < length (slots ty d))%nat as Hkl by (by eapply lookup_lt_Some).
  rewrite slots_length in Hkl by apply Hb.
  destruct (store_slot_spec ty d (Z.of_nat k) a c (Hb ty)) as (m & E & Ecnt & Efl & Hb' & Hs & Ho); [lia|].
  rewrite Nat2Z.id in Hs. unfold slot_of in Hs. rewrite Ec in Hs. cbv iota in Hs.
  exists m. unfold slot_added.
  pose proof (total_store ty d m k x (Some (a, c)) Hk Hs Ho) as Ht.
  destruct x; [done|]. simpl in Ht. pose proof (total_bound d Hb) as Hbd.
  destruct (flags_added (dbg_flags m)) as (F0 & F1 & F2 & F3); [by rewrite Efl..|].
  change (dbg_enable_count (monitor d) = total d) in Hc.
  set (m' := set_flags _ _).
  assert (u32 (dbg_enable_count m + 1) = total d + 1) as Ecnt'.
  { rewrite Ecnt, Hc. apply wrap_small; lia. }
  destruct (resync d m') as (d' & Ed & Hwf & Hsl & Hp & Hwt);
    [intros ty'; by destruct (Hb' ty')|done| | |done|done|].
  - change (dbg_enable_count m') with (u32 (dbg_enable_count m + 1)). rewrite Ecnt'.
    rewrite (total_same (set_monitor m' d) (set_monitor m d)) by (by intros []). lia.
  - change (dbg_enable_count m') with (u32 (dbg_enable_count m + 1)).
    rewrite Ecnt'. change (dbg_flags m') with (u32 (Z.lor (dbg_flags m) DBGMON_ENABLED)).
    rewrite F0. symmetry. apply Z.ltb_lt. lia.
  - exists d'. rewrite Ed. split; [done|]. split; [done|]. split; try done.
    + rewrite Hsl. etransitivity; [|exact Hs]. by destruct ty.
    + intros ty' Hne. rewrite Hsl, <-(Ho ty' Hne). by destruct ty'.
    + rewrite Hp. unfold program_state. cbn [monitor set_monitor].
      change (dbg_flags m') with (u32 (Z.lor (dbg_flags m) DBGMON_ENABLED)). by rewrite F3, Efl.
Qed.

Lemma slot_removed_ok ty d k x addr :
  dbg_wf d -> list_find (at_addr addr) (slots ty d) = Some (k, x) ->
  exists m d',
    store_slot ty (Z.of_nat k) 0 0 d.(monitor) = Ok m /\ slot_removed m d = Ok (0, d') /\
    changed ty (<[k := None]> (slots ty d)) d d'.
Proof.
  intros [Hb Hw Hm Hc H0 H1 Hf] Hk.
  apply list_find_Some in Hk as (Hk & Hx & _).
  assert (k < length (slots ty d))%nat as Hkl by (by eapply lookup_lt_Some).
  rewrite slots_length in Hkl by apply Hb.
  destruct (store_slot_spec ty d (Z.of_nat k) 0 0 (Hb ty)) as (m & E & Ecnt & Efl & Hb' & Hs & Ho); [lia|].
  rewrite Nat2Z.id in Hs. change (slot_of 0 0) with (@None (Z * Z)) in Hs.
  exists m. unfold slot_removed.
  pose proof (total_store ty d m k x None Hk Hs Ho) as Ht.
  destruct x as [e|]; [|done]. simpl in Ht. pose proof (total_bound d Hb) as Hbd.
  destruct (flags_removed (dbg_flags m)) as (F0 & F1 & F2 & F3); [by rewrite Efl..|].
  change (dbg_enable_count (monitor d) = total d) in Hc.
  set (m1 := set_enable_count (dbg_enable_count m - 1) m).
  set (m' := if dbg_enable_count m1 =? 0 then set_flags (Z.ldiff (dbg_flags m1) DBGMON_ENABLED) m1
             else m1).
  pose proof (total_bound (set_monitor m d) (fun t => Hb' t (Hb t))) as Hbd'.
  assert (dbg_enable_count m' = total d - 1) as Ecnt'.
  { transitivity (u32 (dbg_enable_count m - 1)); [by unfold m'; destruct (_ =? 0)|].
    rewrite Ecnt, Hc. apply wrap_small; lia. }
  assert (dbg_enable_count m1 = total d - 1) as Ecnt1
    by (rewrite <-Ecnt'; unfold m'; by destruct (_ =? 0)).
  assert (Z.testbit (dbg_flags m') 0 = (0 <? dbg_enable_count m') /\
          Z.testbit (dbg_flags m') 1 = true /\ 0 <= dbg_flags m' < 2 ^ 32) as (G0 & G1 & G2).
  { rewrite Ecnt'. unfold m'. rewrite Ecnt1. destruct (Z.eqb_spec (total d - 1) 0) as [Ez|Ez].
    - rewrite Ez. done.
    - change (dbg_flags m1) with (dbg_flags m). rewrite Efl, H0, H1, Hc. split; [|done].
      destruct (Z.ltb_spec 0 (total d)), (Z.ltb_spec 0 (total d - 1)); (done || lia). }
  assert (forall ty', slots ty' (set_monitor m' d) = slots ty' (set_monitor m d)) as Hsm
    by (intros []; unfold m'; by destruct (_ =? 0)).
  destruct (resync d m') as (d' & Ed & Hwf & Hsl & Hp & Hwt); [|done| |done|done|done|].
  - intros ty'. destruct (Hb' ty' (Hb ty')). unfold m'. destruct (_ =? 0), ty'; by split.
  - rewrite Ecnt', (total_same (set_monitor m' d) (set_monitor m d)) by done. lia.
  - exists d'. rewrite Ed. split; [done|]. split; [done|]. split; try done.
    + rewrite Hsl. etransitivity; [apply Hsm|exact Hs].
    + intros ty' Hne. by rewrite Hsl, Hsm, (Ho ty' Hne).
    + rewrite Hp. unfold program_state. cbn [monitor set_monitor].
      rewrite <-Efl, <-F3 at 1. unfold m'. destruct (_ =? 0); [done|].
      change (dbg_flags m1) with (dbg_flags m). by rewrite F3.
Qed.

(** ** Refinement of the tables *)
Definition tables (d : Debugger) : list slot * list slot :=
  (slots DBG_TYPE_BREAKPOINT d, slots DBG_TYPE_WATCHPOINT d).

(** The bank after the specification has run on it; [d'] is the state of the code. *)
Definition implements (ty : FGdbBreakType) (r : Z * list slot) (d : Debugger) (x : res (Z * Debugger)) : Prop :=
  exists d',
    x = Ok (r.1, d') /\ (r.1 <> 0 -> d' = d) /\ (r.1 = 0 -> changed ty r.2 d d') /\
    (r.1 <> 0 -> r.2 = slots ty d).

Lemma set_implements ty d addr size access :
  dbg_wf d -> 0 <= access <= 3 ->
  implements ty (spec_set addr size access (slots ty d)) d
    (let! i := dbg_find_free_slot d ty in
     if i =? -1 then Ok (EBUSY, d)
     else
       match ctrl_len size with
       | None => Ok (EINVAL, d)
       | Some w =>
           let! m := store_slot ty i addr
                       (Z.lor (Z.lor (Z.lor w (8 * access)) DBG_WB_CTRL_EL1) DBG_WB_CTRL_E)
                       d.(monitor) in
           slot_added m d
       end).
Proof.
  intros Hwf Ha. rewrite dbg_find_free_slot_spec by apply Hwf. cbn [rbind].
  unfold spec_set, add_slot. destruct (list_find free (slots ty d)) as [[k x]|] eqn:Ek; simpl.
  - destruct (Z.eqb_spec (Z.of_nat k) (-1)); [lia|].
    destruct (valid_size size) eqn:Ev.
    + destruct (ctrl_len_spec size access Ev Ha) as (w' & -> & ->).
      destruct (slot_added_ok ty d k x addr (ctrl_word size access) Hwf Ek)
        as (m & d' & -> & Ed & Hch); [by apply ctrl_word_enabled|].
      exists d'. cbn [rbind]. by rewrite Ed.
    + rewrite ctrl_len_None by done. exists d. by split_and!.
  - exists d. by split_and!.
Qed.

Lemma clr_implements ty d addr :
  dbg_wf d ->
  implements ty (spec_clr addr (slots ty d)) d
    (let! i := dbg_find_slot d ty addr in
     if i =? -1 then Ok (EINVAL, d)
     else
       let! m := store_slot ty i 0 0 d.(monitor) in slot_removed m d).
Proof.
  intros Hwf. rewrite dbg_find_slot_spec by apply Hwf. cbn [rbind].
  unfold spec_clr, del_slot.
  destruct (list_find (at_addr addr) (slots ty d)) as [[k x]|] eqn:Ek; simpl.
  - destruct (Z.eqb_spec (Z.of_nat k) (-1)); [lia|].
    destruct (slot_removed_ok ty d k x addr Hwf Ek) as (m & d' & -> & Ed & Hch).
    exists d'. cbn [rbind]. by rewrite Ed.
  - exists d. by split_and!.
Qed.

(** Registers and program state after an operation. *)
Definition op_post (d d' : Debugger) (e : Z) : Prop :=
  dbg_wf d' /\ program_state d' = program_state d /\
  (e <> 0 -> d' = d) /\ (e = 0 -> watching d' = (0 <? total d')).

Lemma implements_post ty r d x :
  dbg_wf d -> implements ty r d x ->
  exists d', x = Ok (r.1, d') /\ op_post d d' r.1 /\ slots ty d' = r.2 /\
    forall ty', ty' <> ty -> slots ty' d' = slots ty' d.
Proof.
  intros Hwf (d' & E & Hn & H0 & Hs). exists d'. split; [done|].
  destruct (decide (r.1 = 0)) as [Er|Er].
  - destruct (H0 Er). by split_and!.
  - rewrite (Hn Er), (Hs Er). by split_and!.
Qed.

Lemma run_op_refines d o :
  dbg_wf d ->
  exists d',
    run_op d o = Ok ((spec_op (slots DBG_TYPE_BREAKPOINT d) (slots DBG_TYPE_WATCHPOINT d) o).1, d') /\
    tables d' = (spec_op (slots DBG_TYPE_BREAKPOINT d) (slots DBG_TYPE_WATCHPOINT d) o).2 /\
    op_post d d' (spec_op (slots DBG_TYPE_BREAKPOINT d) (slots DBG_TYPE_WATCHPOINT d) o).1.
Proof.
  intros Hwf. unfold tables. destruct o as [addr size|addr size|addr size access|addr size]; simpl.
  - destruct (implements_post DBG_TYPE_BREAKPOINT _ _ _ Hwf
      (set_implements DBG_TYPE_BREAKPOINT d addr size 0 Hwf ltac:(lia))) as (d' & E & Hp & Hs & Ho).
    exists d'. destruct (spec_set _ _ _ _) as [e l]. simpl in *.
    rewrite Hs, Ho by done. split; [|done]. rewrite <-E. unfold kdb_cpu_set_hwbreakpoint.
    destruct (dbg_find_free_slot _ _); simpl; [|done]. destruct (ctrl_len size); [|done].
    by rewrite Z.lor_0_r.
  - destruct (implements_post DBG_TYPE_BREAKPOINT _ _ _ Hwf
      (clr_implements DBG_TYPE_BREAKPOINT d addr Hwf)) as (d' & E & Hp & Hs & Ho).
    exists d'. destruct (spec_clr _ _) as [e l]. simpl in *. by rewrite Hs, Ho.
  - unfold kdb_cpu_set_watchpoint, valid_access.
    destruct (decide (1 <= access <= 3)) as [Ha|Ha].
    + destruct (implements_post DBG_TYPE_WATCHPOINT _ _ _ Hwf
        (set_implements DBG_TYPE_WATCHPOINT d addr size access Hwf ltac:(lia)))
        as (d' & E & Hp & Hs & Ho).
      rewrite (proj2 (andb_true_iff _ _)) by (split; apply Z.leb_le; lia).
      exists d'. destruct (spec_set _ _ _ _) as [e l]. simpl in *.
      rewrite Hs, Ho by done. split; [|done]. rewrite <-E.
      assert (access = 1 \/ access = 2 \/ access = 3) as [->|[->| ->]] by lia; reflexivity.
    + exists d. replace ((1 <=? access) && (access <=? 3)) with false
        by (symmetry; apply andb_false_iff; rewrite !Z.leb_gt; lia).
      unfold KDB_DBG_ACCESS_R, KDB_DBG_ACCESS_W, KDB_DBG_ACCESS_RW.
      destruct (Z.eqb_spec access 1), (Z.eqb_spec access 2), (Z.eqb_spec access 3); try lia.
      by split_and!.
  - destruct (implements_post DBG_TYPE_WATCHPOINT _ _ _ Hwf
      (clr_implements DBG_TYPE_WATCHPOINT d addr Hwf)) as (d' & E & Hp & Hs & Ho).
    exists d'. destruct (spec_clr _ _) as [e l]. simpl in *. by rewrite Hs, Ho.
Qed.

(** ** Initialisation *)

(** A stub in static storage, before [FGdbInitialize]. *)
Definition blank (d : Debugger) : Prop :=
  d.(monitor) = mkMonitor 0 0 (replicate 16 0) (replicate 16 0) (replicate 16 0) (replicate 16 0) /\
  length d.(sys).(dbg_wb) = 64%nat.

(** With an empty monitor state, clearing the registers is copying it. *)
Lemma reset_loop_sync ty n i d :
  (forall j, (i <= j < i + n)%nat -> reg_ctrl ty d.(monitor) !! j = Some 0 /\
                                      reg_addr ty d.(monitor) !! j = Some 0) ->
  sync_loop ty (Z.of_nat i) n d =
  Ok (reset_loop (reg_base ty).1 (reg_base ty).2 (Z.of_nat i) n d).
Proof.
  revert i d. induction n as [|n IH]; intros i d Hz; [done|]. cbn [sync_loop reset_loop].
  destruct (Hz i) as [Ec Ea]; [lia|].
  rewrite (aget_Some _ _ 0), (aget_Some _ _ 0) by (lia || by rewrite Nat2Z.id).
  cbn [rbind]. replace (Z.of_nat i + 1) with (Z.of_nat (S i)) by lia.
  destruct ty; simpl; apply (IH (S i)); intros j Hj; unfold dbg_wb_write_reg;
    repeat destruct (_ && _); apply Hz; lia.
Qed.

Lemma zero_lookup n j : (j < n)%nat -> replicate n 0 !! j = Some 0.
Proof. apply lookup_replicate_2. Qed.

Lemma field_num dfr k : 1 <= Z.land (Z.shiftr dfr k) 0xf + 1 <= 16.
Proof.
  change 0xf with (Z.ones 4). rewrite Z.land_ones by lia.
  pose proof (Z.mod_pos_bound (Z.shiftr dfr k) (2 ^ 4)). lia.
Qed.

Lemma blank_slots ty d :
  d.(monitor).(dbg_bcr) = replicate 16 0 -> d.(monitor).(dbg_wcr) = replicate 16 0 ->
  1 <= slot_max ty d <= 16 -> bank_wf ty d -> in_use (slots ty d) = 0%nat.
Proof.
  intros Hb Hw Hm [_ Hc Ha]. unfold slots.
  assert (reg_ctrl ty (monitor d) = replicate 16 0) as -> by (by destruct ty).
  generalize (reg_addr ty (monitor d)) Ha. intros l Hl. rewrite take_replicate.
  generalize (Z.to_nat (slot_max ty d) `min` 16)%nat (take (Z.to_nat (slot_max ty d)) l).
  clear. intros n l. revert l.
  induction n as [|n IH]; intros [|a l]; simpl; try done. by rewrite in_use_cons, IH.
Qed.

(** The state once the numbers of registers are known. *)
Definition numbered (dfr : Z) (d : Debugger) : Debugger :=
  set_nums (ID_AA64DFR0_WRPs_VAL dfr) (ID_AA64DFR0_BRPs_VAL dfr) (write_oslar 0 d).

Section Init.
Context (dfr : Z) (d : Debugger) (Hd : blank d).

Lemma numbered_max ty : 1 <= slot_max ty (numbered dfr d) <= 16.
Proof. destruct ty; apply field_num. Qed.

Lemma numbered_bank ty : bank_wf ty (numbered dfr d).
Proof.
  destruct Hd as [Em _]. split; [apply numbered_max| |]; destruct ty;
    change (monitor (numbered dfr d)) with (monitor d); by rewrite Em.
Qed.

Lemma numbered_zero ty wb j :
  (j < 16)%nat ->
  reg_ctrl ty (set_wb wb (numbered dfr d)).(monitor) !! j = Some 0 /\
  reg_addr ty (set_wb wb (numbered dfr d)).(monitor) !! j = Some 0.
Proof.
  intros Hj. destruct Hd as [Em _].
  change (monitor (set_wb wb (numbered dfr d))) with (monitor d). rewrite Em.
  destruct ty; split; by apply zero_lookup.
Qed.

Lemma gdb_init_debug_resets :
  exists wb,
    gdb_init_debug dfr d =
      set_monitor (set_flags DBGMON_KERNEL d.(monitor)) (dbg_enable (set_wb wb (numbered dfr d))) /\
    length wb = 64%nat /\ forall ty, mirrored ty wb (numbered dfr d).
Proof.
  pose proof (numbered_max DBG_TYPE_BREAKPOINT) as Hmb.
  pose proof (numbered_max DBG_TYPE_WATCHPOINT) as Hmw.
  cbn [slot_max] in Hmb, Hmw.
  destruct (sync_loop_spec DBG_TYPE_WATCHPOINT
    (Z.to_nat (dbg_watchpoint_num (numbered dfr d))) 0 (numbered dfr d))
    as (wb1 & E1 & L1 & I1 & _); [apply numbered_bank|apply Hd|lia|].
  destruct (sync_loop_spec DBG_TYPE_BREAKPOINT
    (Z.to_nat (dbg_breakpoint_num (numbered dfr d))) 0 (set_wb wb1 (numbered dfr d)))
    as (wb2 & E2 & L2 & I2 & O2);
    [by destruct (numbered_bank DBG_TYPE_BREAKPOINT)|done|lia|].
  rewrite reset_loop_sync in E1 by (intros j Hj; apply (numbered_zero _ (dbg_wb (sys d))); lia).
  rewrite reset_loop_sync in E2 by (intros j Hj; apply numbered_zero; lia).
  injection E1 as E1. injection E2 as E2.
  exists wb2. split; [|split; [done|]].
  - unfold gdb_init_debug, gdb_init_registers. fold (numbered dfr d). cbv zeta.
    change (Z.of_nat 0) with 0 in E1, E2. cbn [reg_base fst snd] in E1, E2.
    change (dbg_watchpoint_num (numbered dfr d)) with (ID_AA64DFR0_WRPs_VAL dfr).
    rewrite E1. change (dbg_breakpoint_num (set_wb wb1 (numbered dfr d)))
      with (ID_AA64DFR0_BRPs_VAL dfr). rewrite E2. reflexivity.
  - intros [] i Hi; cbn [slot_max] in Hi.
    + destruct (I2 (Z.to_nat i)) as [Ec Ea]; [lia|]. rewrite Z2Nat.id in Ec, Ea by lia. by split.
    + destruct (I1 (Z.to_nat i)) as [Ec Ea]; [lia|]. rewrite Z2Nat.id in Ec, Ea by lia.
      rewrite !O2 by (intros j ?; cbn [reg_base fst snd]; unfold DBG_REG_BASE_WCR,
        DBG_REG_BASE_WVR, DBG_REG_BASE_BCR, DBG_REG_BASE_BVR; lia). by split.
Qed.

Lemma numbered_empty ty : in_use (slots ty (numbered dfr d)) = 0%nat.
Proof.
  destruct Hd as [Em _].
  apply blank_slots; change (monitor (numbered dfr d)) with (monitor d); rewrite ?Em;
    (done || apply numbered_max || apply numbered_bank).
Qed.

Lemma gdb_init_debug_wf : dbg_wf (gdb_init_debug dfr d) /\ total (gdb_init_debug dfr d) = 0.
Proof.
  destruct gdb_init_debug_resets as (wb & -> & L & Hm).
  set (d' := set_monitor _ _).
  assert (total d' = 0) as Ht.
  { rewrite (total_same d' (numbered dfr d)) by (by intros []). unfold total.
    by rewrite !numbered_empty. }
  split; [|done]. destruct Hd as [Em _]. split.
  - intros ty. destruct (numbered_bank ty). by destruct ty.
  - done.
  - intros []; [apply (Hm DBG_TYPE_BREAKPOINT)|apply (Hm DBG_TYPE_WATCHPOINT)].
  - change (dbg_enable_count (monitor d') = total d'). rewrite Ht. cbn. by rewrite Em.
  - cbn. by rewrite Em.
  - done.
  - done.
Qed.
End Init.

(** ** Stepping *)

(** The interrupt masks saved in the flags. *)
Definition saved_daif (d : Debugger) : Z := Z.land d.(monitor).(dbg_flags) PSR_DAIF.

Lemma daif_bits i : 0 <= i -> Z.testbit PSR_DAIF i = (6 <=? i) && (i <=? 9).
Proof.
  intros Hi. change PSR_DAIF with (Z.shiftl (Z.ones 4) 6).
  rewrite Z.shiftl_spec by done. destruct (Z.leb_spec 6 i).
  - rewrite ones_testbit by lia. split_cmp; simpl; try done; lia.
  - by rewrite Z.testbit_neg_r by lia.
Qed.

(** What stepping does to the flags: the masks of [spsr] replace the saved ones. *)
Definition step_flags (flags spsr : Z) : Z :=
  u32 (Z.lor (u32 (Z.ldiff flags PSR_DAIF)) (Z.land spsr PSR_DAIF)).

Lemma step_flags_testbit flags spsr i :
  0 <= i < 32 ->
  Z.testbit (step_flags flags spsr) i =
  if (6 <=? i) && (i <=? 9) then Z.testbit spsr i else Z.testbit flags i.
Proof.
  intros Hi. unfold step_flags.
  rewrite wrap_testbit, Z.lor_spec, wrap_testbit, Z.ldiff_spec, Z.land_spec, daif_bits by lia.
  rewrite (proj2 (Z.ltb_lt i 32)) by lia.
  destruct ((6 <=? i) && (i <=? 9)); simpl; by rewrite ?andb_false_r, ?andb_true_r, ?orb_false_r.
Qed.

Lemma step_flags_saved flags spsr : Z.land (step_flags flags spsr) PSR_DAIF = Z.land spsr PSR_DAIF.
Proof.
  apply Z.bits_inj'. intros i Hi. rewrite !Z.land_spec, !daif_bits by done.
  destruct (Z.leb_spec 6 i), (Z.leb_spec i 9); simpl; rewrite ?andb_false_r; try done.
  rewrite step_flags_testbit by lia.
  by rewrite (proj2 (Z.leb_le 6 i)), (proj2 (Z.leb_le i 9)).
Qed.

(** Two states with the same tables, numbers and breakpoint registers, and flags
    that agree on the two lowest bits, are both well formed. *)
Lemma wf_flags_change d d' :
  dbg_wf d -> d'.(dbg_watchpoint_num) = d.(dbg_watchpoint_num) ->
  d'.(dbg_breakpoint_num) = d.(dbg_breakpoint_num) ->
  d'.(sys).(dbg_wb) = d.(sys).(dbg_wb) ->
  (forall ty, reg_ctrl ty d'.(monitor) = reg_ctrl ty d.(monitor) /\
              reg_addr ty d'.(monitor) = reg_addr ty d.(monitor)) ->
  d'.(monitor).(dbg_enable_count) = d.(monitor).(dbg_enable_count) ->
  (forall i, 0 <= i < 2 ->
     Z.testbit d'.(monitor).(dbg_flags) i = Z.testbit d.(monitor).(dbg_flags) i) ->
  0 <= d'.(monitor).(dbg_flags) < 2 ^ 32 ->
  dbg_wf d' /\ forall ty, slots ty d' = slots ty d.
Proof.
  intros [Hb Hw Hm Hc H0 H1 Hf] En Eb Ew Er Ec Ef Hf'.
  assert (forall ty, slot_max ty d' = slot_max ty d) as Emax by (by intros []).
  assert (forall ty, slots ty d' = slots ty d) as Es.
  { intros ty. unfold slots. destruct (Er ty) as [-> ->]. by rewrite Emax. }
  split; [|done]. split.
  - intros ty. destruct (Hb ty), (Er ty) as [E1 E2]. split; by rewrite ?Emax, ?E1, ?E2.
  - by rewrite Ew.
  - intros ty i. rewrite Emax, Ew. destruct (Er ty) as [-> ->]. apply Hm.
  - by rewrite Ec, !Es.
  - rewrite Ef, Ec by lia. done.
  - by rewrite Ef by lia.
  - done.
Qed.

Lemma kdb_cpu_set_singlestep_spec d f :
  dbg_wf d -> debug_masked d = true -> d.(gdb_frame) = Some f ->
  exists d',
    kdb_cpu_set_singlestep d = Ok d' /\ dbg_wf d' /\ (forall ty, slots ty d' = slots ty d) /\
    d'.(gdb_frame) = Some (mkFrame f.(tf_sp) f.(tf_lr)
      (if d.(compiled_brk_process) then u64 (f.(tf_elr) + 4) else f.(tf_elr))
      (u64 (Z.lor (u64 (Z.lor f.(tf_spsr) PSR_SS)) (Z.lor (Z.lor PSR_A PSR_I) PSR_F))) f.(tf_x)) /\
    saved_daif d' = Z.land f.(tf_spsr) PSR_DAIF /\ debug_masked d' = true /\
    d'.(compiled_brk_process) = false.
Proof.
  intros Hwf Hm Hf. unfold kdb_cpu_set_singlestep. rewrite Hm, Hf. cbn [of_option rbind].
  set (p := skip_compiled_brk d f).
  assert (p = (set_compiled_brk false d, mkFrame f.(tf_sp) f.(tf_lr)
      (if d.(compiled_brk_process) then u64 (f.(tf_elr) + 4) else f.(tf_elr)) f.(tf_spsr) f.(tf_x))) as ->.
  { unfold p, skip_compiled_brk. destruct d as [???? [] ?]; by destruct f. }
  cbv zeta beta iota.
  set (f2 := frame_spsr _ (mkFrame _ _ _ _ _)).
  set (m := set_flags (Z.lor _ _) _).
  set (d3 := write_mdscr _ (set_frame _ _)).
  match goal with |- exists _, (if ?b then Ok ?x else Ok ?y) = _ /\ _ =>
    exists (if b then x else y); split; [by destruct b|] end.
  assert (dbg_flags m = step_flags (dbg_flags (monitor d)) (u64 (Z.lor (tf_spsr f) PSR_SS))) as Efl
    by done.
  assert (Z.land (u64 (Z.lor (tf_spsr f) PSR_SS)) PSR_DAIF = Z.land (tf_spsr f) PSR_DAIF) as Ess.
  { apply Z.bits_inj'. intros i Hi. rewrite !Z.land_spec, wrap_testbit, Z.lor_spec, daif_bits by lia.
    change PSR_SS with (BIT 21). rewrite BIT_testbit by lia.
    destruct (Z.leb_spec 6 i), (Z.leb_spec i 9); simpl; rewrite ?andb_false_r; try done.
    rewrite (proj2 (Z.ltb_lt i 64)), (proj2 (Z.eqb_neq i 21)) by lia.
    by rewrite orb_false_r. }
  match goal with |- dbg_wf ?x /\ _ => set (d' := x) end.
  destruct (wf_flags_change d d') as [Hwf' Hs]; try done.
  1-3: unfold d'; by destruct (negb _).
  { intros ty. unfold d'. by destruct (negb _), ty. }
  { unfold d'; by destruct (negb _). }
  { intros i Hi. replace (dbg_flags (monitor d')) with (dbg_flags m) by (unfold d'; by destruct (negb _)).
    rewrite Efl, step_flags_testbit by lia.
    by rewrite (proj2 (Z.leb_gt 6 i)) by lia. }
  { replace (dbg_flags (monitor d')) with (dbg_flags m) by (unfold d'; by destruct (negb _)).
    rewrite Efl. by apply wrap_range. }
  split_and!; try done; unfold d', saved_daif; destruct (negb _); try done.
  all: change (Z.land (dbg_flags m) PSR_DAIF = Z.land (tf_spsr f) PSR_DAIF);
    by rewrite Efl, step_flags_saved.
Qed.

Lemma kdb_cpu_clear_singlestep_spec d f :
  dbg_wf d -> debug_masked d = true -> d.(gdb_frame) = Some f ->
  exists d' elr,
    kdb_cpu_clear_singlestep d = Ok d' /\ dbg_wf d' /\ (forall ty, slots ty d' = slots ty d) /\
    d'.(gdb_frame) = Some (mkFrame f.(tf_sp) f.(tf_lr) elr
      (u64 (Z.lor (u64 (Z.ldiff f.(tf_spsr) PSR_DAIF)) (saved_daif d))) f.(tf_x)) /\
    elr = (if d.(compiled_brk_process) then u64 (f.(tf_elr) + 4) else f.(tf_elr)) /\
    (0 < total d -> watching d' = true) /\ Z.testbit d'.(sys).(mdscr_el1) 0 = false /\
    saved_daif d' = saved_daif d /\ debug_masked d' = true.
Proof.
  intros Hwf Hm Hf. unfold kdb_cpu_clear_singlestep. rewrite Hm, Hf. cbn [of_option rbind].
  set (p := skip_compiled_brk d f).
  assert (p = (set_compiled_brk false d, mkFrame f.(tf_sp) f.(tf_lr)
      (if d.(compiled_brk_process) then u64 (f.(tf_elr) + 4) else f.(tf_elr)) f.(tf_spsr) f.(tf_x))) as ->.
  { unfold p, skip_compiled_brk. destruct d as [???? [] ?]; by destruct f. }
  cbv zeta beta iota.
  change (monitor (set_compiled_brk false d)) with (monitor d).
  unfold DBGMON_ENABLED, DBGMON_KERNEL. rewrite !land_flag, !negb_involutive by lia.
  rewrite (wf_kernel d Hwf), (wf_flag d Hwf), (wf_count d Hwf : _ = total d).
  match goal with |- context [if _ then Ok ?x else Ok ?y] =>
    set (dw := x); set (dn := y) end.
  exists (if 0 <? total d then dw else dn). eexists. split; [by destruct (0 <? total d)|].
  assert (forall x, x = dw \/ x = dn -> dbg_wf x /\ forall ty, slots ty x = slots ty d) as Hx.
  { intros x Hx. apply wf_flags_change; try (by destruct Hx as [->| ->]); try done.
    destruct Hx as [->| ->]; apply Hwf. }
  destruct (Hx (if 0 <? total d then dw else dn)) as [Hwf' Hs];
    [destruct (0 <? total d); tauto|].
  split; [done|]. split; [done|].
  split; [by destruct (0 <? total d)|]. split; [done|].
  split; [intros Ht; rewrite (proj2 (Z.ltb_lt _ _) Ht)|split; [|by destruct (0 <? total d)]].
  - unfold watching, dw. cbn [write_mdscr set_sys sys mdscr_el1 set_frame set_compiled_brk].
    rewrite wrap_testbit, Z.lor_spec, wrap_testbit, Z.lor_spec by lia.
    change (Z.testbit MDSCR_MDE 15) with true. by rewrite orb_true_r.
  - assert (forall x, Z.testbit (u64 (Z.ldiff x (Z.lor MDSCR_SS MDSCR_KDE))) 0 = false) as Hss.
    { intros x. rewrite wrap_testbit, Z.ldiff_spec by lia.
      change (Z.testbit (Z.lor MDSCR_SS MDSCR_KDE) 0) with true. by rewrite !andb_false_r. }
    destruct (0 <? total d); unfold dw, dn;
      cbn [write_mdscr set_sys sys mdscr_el1 set_frame set_compiled_brk]; [|by apply Hss].
    rewrite wrap_testbit, Z.lor_spec, wrap_testbit, Z.lor_spec, Hss by lia. done.
Qed.

(** ** Everything the stub does *)

(** The stub handles requests, is entered by a debug exception (the processor masks
    debug exceptions then), steps and continues the program. *)
Inductive dbg_step : Debugger -> Debugger -> Prop :=
| step_request d o e d' : run_op d o = Ok (e, d') -> dbg_step d d'
| step_setreg d reg v d' : gdb_cpu_setreg d reg v = Ok d' -> dbg_step d d'
| step_exception d esr f ec d' :
    debug_interrupt_entry esr f (write_daif (Z.lor d.(sys).(daif) PSR_D) d) = Ok (ec, d') ->
    dbg_step d d'
| step_single d d' : kdb_cpu_set_singlestep d = Ok d' -> dbg_step d d'
| step_continue d d' : kdb_cpu_clear_singlestep d = Ok d' -> dbg_step d d'.

Definition reachable (d : Debugger) : Prop :=
  exists dfr d0, blank d0 /\ rtc dbg_step (gdb_init_debug dfr d0) d.

Lemma saved_daif_high d d' :
  Z.shiftr d.(monitor).(dbg_flags) 2 = Z.shiftr d'.(monitor).(dbg_flags) 2 ->
  saved_daif d = saved_daif d'.
Proof.
  intros Eh. unfold saved_daif. change PSR_DAIF with (Z.shiftl 0xF0 2).
  apply Z.bits_inj'. intros i Hi. rewrite !Z.land_spec, Z.shiftl_spec by done.
  destruct (Z.ltb_spec i 2); [by rewrite (Z.testbit_neg_r _ (i - 2)), !andb_false_r by lia|].
  f_equal. replace i with (i - 2 + 2) by lia. rewrite <-!Z.shiftr_spec by lia. by rewrite Eh.
Qed.

Lemma entry_spec d esr f :
  dbg_wf d ->
  exists d',
    debug_interrupt_entry esr f (write_daif (Z.lor d.(sys).(daif) PSR_D) d) =
      Ok (Z.land (Z.shiftr esr 26) 0x3f, d') /\
    dbg_wf d' /\ (forall ty, slots ty d' = slots ty d) /\ d'.(gdb_frame) = Some f /\
    saved_daif d' = saved_daif d /\ debug_masked d' = true /\ watching d' = (0 <? total d) /\
    d'.(compiled_brk_process) =
      d.(compiled_brk_process) || (Z.land esr 0xFFFF =? GDB_COMPILED_DBG_BRK_IMM).
Proof.
  intros Hwf. set (d0 := write_daif _ d).
  destruct (resync d0 d.(monitor)) as (d1 & E & Hwf1 & Hs & Hp & Hw).
  - intros ty. destruct (wf_bank d Hwf ty). by destruct ty.
  - apply Hwf.
  - rewrite (wf_count d Hwf : _ = total d). apply total_same. by intros [].
  - apply Hwf.
  - apply Hwf.
  - apply Hwf.
  - unfold debug_interrupt_entry.
    change (set_monitor (monitor d) d0) with d0 in *. rewrite E. cbn [rbind].
    injection Hp as Ef Eb Ed Eh.
    eexists. split; [reflexivity|].
    set (b := Z.land esr _ =? _). assert (forall ty, slots ty d0 = slots ty d) as Hs0 by (by intros []).
    assert (saved_daif d1 = saved_daif d) as Hsv by (by apply saved_daif_high).
    assert (debug_masked d1 = true) as Hmask.
    { unfold debug_masked. rewrite Ed. unfold d0. cbn.
      change PSR_D with (Z.shiftl 1 9). rewrite land_flag_eq, Z.lor_spec by lia.
      change (Z.testbit (Z.shiftl 1 9) 9) with true. by rewrite orb_true_r. }
    rewrite (total_same d1 d) in Hw by (intros ty; by rewrite Hs, Hs0).
    split_and!.
    + destruct Hwf1. destruct b; split; try done; intros ty; by destruct (wf_bank0 ty).
    + intros ty. rewrite <-Hs0, <-Hs. destruct b, ty; done.
    + by destruct b.
    + by destruct b.
    + by destruct b.
    + by destruct b.
    + rewrite <-Eb.
      destruct b; simpl; [by rewrite orb_true_r|by rewrite orb_false_r].
Qed.

Lemma gdb_cpu_setreg_wf d reg v d' :
  dbg_wf d -> gdb_cpu_setreg d reg v = Ok d' ->
  dbg_wf d' /\ (forall ty, slots ty d' = slots ty d) /\ saved_daif d' = saved_daif d.
Proof.
  intros Hwf. unfold gdb_cpu_setreg, frame_of.
  assert (forall f, dbg_wf (set_frame f d) /\ (forall ty, slots ty (set_frame f d) = slots ty d) /\
    saved_daif (set_frame f d) = saved_daif d) as Hf.
  { intros f. split; [|by split; [intros []|]].
    destruct Hwf as [Hb ? ? ? ? ? ?]. split; try done. intros ty. by destruct (Hb ty). }
  destruct (gdb_frame d) as [f|]; simpl.
  - repeat case_match; intros ?; simplify_eq; try apply Hf; try (by split_and!).
    destruct (aset _ _ _); simpl in *; simplify_eq. apply Hf.
  - repeat case_match; intros ?; simplify_eq; by split_and!.
Qed.

Lemma dbg_step_wf d d' : dbg_wf d -> dbg_step d d' -> dbg_wf d'.
Proof.
  intros Hwf Hs. destruct Hs as [d o e d' E|d reg v d' E|d esr f ec d' E|d d' E|d d' E].
  - destruct (run_op_refines d o Hwf) as (d2 & E2 & _ & [H _]). congruence.
  - by eapply gdb_cpu_setreg_wf.
  - destruct (entry_spec d esr f Hwf) as (d2 & E2 & H & _). congruence.
  - destruct (debug_masked d) eqn:Em;
      [|unfold kdb_cpu_set_singlestep in E; by rewrite Em in E].
    destruct (gdb_frame d) as [f|] eqn:Ef;
      [|unfold kdb_cpu_set_singlestep in E; by rewrite Em, Ef in E].
    destruct (kdb_cpu_set_singlestep_spec d f Hwf Em Ef) as (d2 & E2 & H & _). congruence.
  - destruct (debug_masked d) eqn:Em;
      [|unfold kdb_cpu_clear_singlestep in E; by rewrite Em in E].
    destruct (gdb_frame d) as [f|] eqn:Ef;
      [|unfold kdb_cpu_clear_singlestep in E; by rewrite Em, Ef in E].
    destruct (kdb_cpu_clear_singlestep_spec d f Hwf Em Ef) as (d2 & ? & E2 & H & _). congruence.
Qed.

Lemma reachable_wf d : reachable d -> dbg_wf d.
Proof.
  intros (dfr & d0 & Hd & Hr). pose proof (proj1 (gdb_init_debug_wf dfr d0 Hd)) as Hwf.
  induction Hr; eauto using dbg_step_wf.
Qed.

(** ** Properties *)

(** C37: In every reachable state the number of slots in use is counted, the enable flag
    says whether there is one, each bank has as many slots as the processor has
    registers, and every register of the bank, of a slot in use or not, holds what its
    shadow holds.  So the hardware is armed, its enable bit set, exactly at the slots in
    use, with their addresses and control words: a removed breakpoint does not stay
    armed. *)
Theorem reachable_debug_state : forall d,
  reachable d ->
  d.(monitor).(dbg_enable_count) = total d /\
  Z.testbit d.(monitor).(dbg_flags) 0 = (0 <? total d) /\
  forall ty, 1 <= slot_max ty d <= 16 /\ length (slots ty d) = Z.to_nat (slot_max ty d) /\
    forall i, (i < Z.to_nat (slot_max ty d))%nat ->
      exists c a,
        d.(sys).(dbg_wb) !! Z.to_nat ((reg_base ty).1 + Z.of_nat i) = Some c /\
        d.(sys).(dbg_wb) !! Z.to_nat ((reg_base ty).2 + Z.of_nat i) = Some a /\
        reg_ctrl ty d.(monitor) !! i = Some c /\ reg_addr ty d.(monitor) !! i = Some a /\
        slots ty d !! i = Some (if enabled c then Some (a, c) else None).
Proof.
  intros d Hd. pose proof (reachable_wf d Hd) as [Hb Hw Hm Hc H0 H1 Hf].
  split; [done|]. split; [by rewrite H0, Hc|].
  intros ty. split; [apply Hb|]. split; [by apply slots_length|].
  intros i Hi. destruct (Hb ty) as [Hmax Lc La]. destruct (Hm ty (Z.of_nat i)) as [Ec Ea]; [lia|].
  rewrite Nat2Z.id in Ec, Ea.
  destruct (lookup_lt_is_Some_2 (reg_ctrl ty d.(monitor)) i) as [c Hci]; [lia|].
  destruct (lookup_lt_is_Some_2 (reg_addr ty d.(monitor)) i) as [a Hai]; [lia|].
  exists c, a. rewrite Ec, Ea. split; [done|]. split; [done|]. split; [done|]. split; [done|].
  unfold slots. apply lookup_zip_with_Some. exists a, c.
  split; [done|]. by rewrite !lookup_take_lt by lia.
Qed.

(** C38: In every reachable state, setting and clearing break- and watchpoints answers
    and changes the tables as specified, leaves the program alone, and afterwards
    the processor watches exactly when a slot is in use. *)
Theorem debug_op_refines : forall d o,
  reachable d ->
  exists d',
    run_op d o = Ok ((spec_op (tables d).1 (tables d).2 o).1, d') /\
    tables d' = (spec_op (tables d).1 (tables d).2 o).2 /\
    program_state d' = program_state d /\
    ((spec_op (tables d).1 (tables d).2 o).1 <> 0 -> d' = d) /\
    ((spec_op (tables d).1 (tables d).2 o).1 = 0 -> watching d' = (0 <? total d')).
Proof.
  intros d o Hd. destruct (run_op_refines d o (reachable_wf d Hd)) as (d' & E & T & P).
  exists d'. destruct P as (_ & Hp & Hn & H0). by split_and!.
Qed.

(** Stepping masks the interrupts of the program; after the step, continuing gives
    it back the masks it had and goes on watching. *)
Theorem step_continue_restores : forall d f esr f1,
  reachable d -> debug_masked d = true -> d.(gdb_frame) = Some f ->
  exists d1 d2 d3 ec elr,
    kdb_cpu_set_singlestep d = Ok d1 /\
    (exists f', d1.(gdb_frame) = Some f' /\
       Z.land f'.(tf_spsr) (Z.lor (Z.lor PSR_A PSR_I) PSR_F) = Z.lor (Z.lor PSR_A PSR_I) PSR_F) /\
    debug_interrupt_entry esr f1 (write_daif (Z.lor d1.(sys).(daif) PSR_D) d1) = Ok (ec, d2) /\
    kdb_cpu_clear_singlestep d2 = Ok d3 /\
    d3.(gdb_frame) = Some (mkFrame f1.(tf_sp) f1.(tf_lr) elr
      (u64 (Z.lor (u64 (Z.ldiff f1.(tf_spsr) PSR_DAIF)) (Z.land f.(tf_spsr) PSR_DAIF))) f1.(tf_x)) /\
    elr = (if Z.land esr 0xFFFF =? GDB_COMPILED_DBG_BRK_IMM then u64 (f1.(tf_elr) + 4)
           else f1.(tf_elr)) /\
    tables d3 = tables d /\ (0 < total d -> watching d3 = true) /\
    Z.testbit d3.(sys).(mdscr_el1) 0 = false.
Proof.
  intros d f esr f1 Hd Hm Hf. pose proof (reachable_wf d Hd) as Hwf.
  destruct (kdb_cpu_set_singlestep_spec d f Hwf Hm Hf) as (d1 & E1 & W1 & S1 & F1 & V1 & M1 & B1).
  destruct (entry_spec d1 esr f1 W1) as (d2 & E2 & W2 & S2 & F2 & V2 & M2 & _ & B2).
  destruct (kdb_cpu_clear_singlestep_spec d2 f1 W2 M2 F2)
    as (d3 & elr & E3 & W3 & S3 & F3 & El & Wt & Ss & _).
  exists d1, d2, d3, (Z.land (Z.shiftr esr 26) 0x3f), elr.
  rewrite B2, B1, orb_false_l in El. rewrite V2, V1 in F3.
  split_and!; try done.
  - eexists. split; [exact F1|]. cbn [tf_spsr].
    apply Z.bits_inj'. intros i Hi. rewrite Z.land_spec, wrap_testbit, Z.lor_spec by lia.
    set (b := Z.testbit (Z.lor (Z.lor PSR_A PSR_I) PSR_F) i) in *.
    destruct b eqn:Eb; [|by rewrite andb_false_r].
    rewrite orb_true_r. destruct (Z.ltb_spec i 64); [done|].
    unfold b in Eb. rewrite (testbit_high 64) in Eb; [done|vm_compute; intuition congruence|done].
  - unfold tables. by rewrite !S3, !S2, !S1.
  - intros Ht. apply Wt. by rewrite (total_same d2 d) by (intros ty; by rewrite S2, S1).
Qed.

(** Continuing a program that was not stepped before clears its interrupt masks:
    a program stopped with interrupts disabled goes on with interrupts enabled. *)
Theorem continue_unmasks : forall dfr d0 esr f d1 d2 ec,
  blank d0 ->
  rtc (fun d d' => exists o e, run_op d o = Ok (e, d')) (gdb_init_debug dfr d0) d1 ->
  debug_interrupt_entry esr f (write_daif (Z.lor d1.(sys).(daif) PSR_D) d1) = Ok (ec, d2) ->
  exists d3 elr,
    kdb_cpu_clear_singlestep d2 = Ok d3 /\
    d3.(gdb_frame) = Some (mkFrame f.(tf_sp) f.(tf_lr) elr
      (u64 (Z.ldiff f.(tf_spsr) PSR_DAIF)) f.(tf_x)).
Proof.
  intros dfr d0 esr f d1 d2 ec Hd Hr E2.
  assert (dbg_wf d1 /\ saved_daif d1 = 0) as [W1 V1].
  { pose proof (proj1 (gdb_init_debug_wf dfr d0 Hd)) as Hwf.
    assert (saved_daif (gdb_init_debug dfr d0) = 0) as Hz by done.
    clear E2. revert Hwf Hz. induction Hr as [|x y z (o & e & E) _ IH]; [done|].
    intros Hwf Hz. destruct (run_op_refines x o Hwf) as (y' & Ey & _ & Wy & Hp & _).
    rewrite E in Ey. injection Ey as -> ->. apply IH; [done|].
    rewrite (saved_daif_high y' x); [done|]. by injection Hp. }
  destruct (entry_spec d1 esr f W1) as (d2' & E2' & W2 & _ & F2 & V2 & M2 & _).
  rewrite E2 in E2'. injection E2' as -> ->.
  destruct (kdb_cpu_clear_singlestep_spec d2' f W2 M2 F2)
    as (d3 & elr & E3 & _ & _ & F3 & _).
  exists d3, elr. split; [done|]. rewrite F3, V2, V1, Z.lor_0_r, wrap_wrap by lia. done.
Qed.

(** ** Witnesses *)
Definition blank_stub : Debugger :=
  mkDebugger (mkMonitor 0 0 (replicate 16 0) (replicate 16 0) (replicate 16 0) (replicate 16 0))
    0 0 None false (mkSys (replicate 64 7) 0 0 0 0).

(** Six breakpoints and four watchpoints. *)
Definition cortex : Z := 0x00305000.

Lemma blank_stub_blank : blank blank_stub.
Proof. done. Qed.

(** A state reached by setting one watchpoint and being stopped at a compiled break
    instruction. *)
Definition stopped_frame : FGdbTrapframe := mkFrame 0x8000 0 0x1000 0x3c5 (replicate 30 0).
Definition get {A} (dflt : A) (r : res (Z * A)) : A :=
  match r with Ok (_, x) => x | Fault _ => dflt end.
Definition watch_state : Debugger :=
  get blank_stub (run_op (gdb_init_debug cortex blank_stub) (SetWatchpoint 0x9000 4 2)).
Definition stopped_state : Debugger :=
  get blank_stub (debug_interrupt_entry 0xF2000401 stopped_frame
    (write_daif (Z.lor watch_state.(sys).(daif) PSR_D) watch_state)).

Lemma stopped_reachable : reachable stopped_state.
Proof.
  exists cortex, blank_stub. split; [done|].
  apply rtc_l with watch_state; [|apply rtc_once].
  - apply (step_request _ (SetWatchpoint 0x9000 4 2) 0). vm_compute; reflexivity.
  - apply (step_exception _ 0xF2000401 stopped_frame 0x3c). vm_compute; reflexivity.
Qed.

(** The watchpoint cleared again. *)
Definition cleared_state : Debugger :=
  get blank_stub (run_op stopped_state (ClrWatchpoint 0x9000 4)).

Lemma cleared_reachable : reachable cleared_state.
Proof.
  destruct stopped_reachable as (dfr & d0 & Hb & Hr). exists dfr, d0. split; [done|].
  eapply rtc_r; [exact Hr|]. apply (step_request _ (ClrWatchpoint 0x9000 4) 0).
  vm_compute; reflexivity.
Qed.

Lemma reachable_debug_state_witness :
  stopped_state.(monitor).(dbg_enable_count) = 1 /\
  stopped_state.(sys).(dbg_wb) !! 48%nat = Some (32 * 15 + 16 + 3) /\
  cleared_state.(monitor).(dbg_enable_count) = 0 /\
  cleared_state.(sys).(dbg_wb) !! 48%nat = Some 0.
Proof.
  destruct (reachable_debug_state stopped_state stopped_reachable) as (E & _ & H).
  destruct (reachable_debug_state cleared_state cleared_reachable) as (E' & _ & H').
  rewrite E, E'. split; [vm_compute; reflexivity|]. split; [|split; [vm_compute; reflexivity|]].
  - destruct (H DBG_TYPE_WATCHPOINT) as (_ & _ & Hs).
    destruct (Hs 0%nat) as (c & a & E1 & _ & E2 & _); [vm_compute; lia|].
    vm_compute in E2. injection E2 as <-. exact E1.
  - destruct (H' DBG_TYPE_WATCHPOINT) as (_ & _ & Hs).
    destruct (Hs 0%nat) as (c & a & E1 & _ & E2 & _); [vm_compute; lia|].
    vm_compute in E2. injection E2 as <-. exact E1.
Defined.

Lemma debug_op_refines_witness :
  exists d', run_op stopped_state (ClrWatchpoint 0x9000 4) = Ok (0, d') /\
    tables d' = (replicate 6 None, replicate 4 None) /\ watching d' = false.
Proof.
  destruct (debug_op_refines stopped_state (ClrWatchpoint 0x9000 4) stopped_reachable)
    as (d' & E & T & _ & _ & W).
  exists d'. split; [exact E|]. split; [rewrite T; vm_compute; reflexivity|].
  rewrite W by (vm_compute; reflexivity). unfold total.
  change (slots DBG_TYPE_BREAKPOINT d') with (tables d').1.
  change (slots DBG_TYPE_WATCHPOINT d') with (tables d').2. rewrite T. vm_compute. reflexivity.
Defined.

Lemma step_continue_restores_witness :
  exists d1 d2 d3,
    kdb_cpu_set_singlestep stopped_state = Ok d1 /\
    debug_interrupt_entry 0xCE000022 (mkFrame 0x8000 0 0x1008 0x5 (replicate 30 0))
      (write_daif (Z.lor d1.(sys).(daif) PSR_D) d1) = Ok (0x33, d2) /\
    kdb_cpu_clear_singlestep d2 = Ok d3 /\
    d3.(gdb_frame) = Some (mkFrame 0x8000 0 0x1008 0x3c5 (replicate 30 0)).
Proof.
  destruct (step_continue_restores stopped_state stopped_frame 0xCE000022
    (mkFrame 0x8000 0 0x1008 0x5 (replicate 30 0)) stopped_reachable)
    as (d1 & d2 & d3 & ec & elr & E1 & _ & E2 & E3 & F & El & _);
    [vm_compute; reflexivity|vm_compute; reflexivity|].
  exists d1, d2, d3. split; [exact E1|]. split.
  - rewrite E2. unfold debug_interrupt_entry in E2.
    destruct (dbg_register_sync _); simpl in E2; [|discriminate]. injection E2 as E2 _.
    rewrite <-E2. vm_compute. reflexivity.
  - split; [exact E3|]. rewrite F, El. vm_compute. reflexivity.
Defined.

Lemma continue_unmasks_witness :
  exists d3 elr, kdb_cpu_clear_singlestep stopped_state = Ok d3 /\
    d3.(gdb_frame) = Some (mkFrame 0x8000 0 elr 0x5 (replicate 30 0)).
Proof.
  apply (continue_unmasks cortex blank_stub 0xF2000401 stopped_frame watch_state stopped_state 0x3c).
  - done.
  - apply rtc_once. exists (SetWatchpoint 0x9000 4 2), 0. vm_compute. reflexivity.
  - vm_compute. reflexivity.
Defined.
