(* ===== verification/GdbSession.v ===== *)
(** The session of the GDB stub: [FGdbTrap] of
    src/standalone/arch/armv8/common/gdb/fgdb.c, the requests of fgdb_main.c and the
    default queries of fgdb_thread.c, on top of the packet layer (GdbPacket.v) and the
    debug registers (GdbArch.v).

    [mem] is the memory of the target, which the stub reads and writes at any
    address; an access that would abort, and one to the stub's own data, are outside
    the model.  Every function that sends a packet takes the number of transmissions
    ([fuel]) within which the other side acknowledges it. *)
From Stdlib Require Import Ascii String.
From S2P Require Import Prelude GdbPacket GdbArch.

Definition EIO : Z := 5.
Definition GDB_DBGP_FEAT_WANTTERM : Z := 1.
Definition GDB_DBGP_FEAT_RELIABLE : Z := 2.

Definition str (s : string) : list Z :=
  map (fun c => Z.of_N (N_of_ascii c)) (list_ascii_of_string s).
Definition chr (s : string) : Z := match str s with c :: _ => c | [] => 0 end.

(** The rest of [FGdb], and the memory. *)
Record Stub := mkStub {
  dbg : Debugger;
  link : FGdb;
  mem : Z -> Z;
  gdb_dbfeatures : Z;
  gdb_bindata : list Z;
  gdb_listening : Z;
  dbbe_active : Z;
  port_intr : bool;
  port_terminated : bool
}.

Definition set_dbg (d : Debugger) (s : Stub) : Stub :=
  mkStub d s.(link) s.(mem) s.(gdb_dbfeatures) s.(gdb_bindata) s.(gdb_listening)
    s.(dbbe_active) s.(port_intr) s.(port_terminated).
Definition set_link (g : FGdb) (s : Stub) : Stub :=
  mkStub s.(dbg) g s.(mem) s.(gdb_dbfeatures) s.(gdb_bindata) s.(gdb_listening)
    s.(dbbe_active) s.(port_intr) s.(port_terminated).
Definition set_mem (m : Z -> Z) (s : Stub) : Stub :=
  mkStub s.(dbg) s.(link) m s.(gdb_dbfeatures) s.(gdb_bindata) s.(gdb_listening)
    s.(dbbe_active) s.(port_intr) s.(port_terminated).
Definition set_bindata (l : list Z) (s : Stub) : Stub :=
  mkStub s.(dbg) s.(link) s.(mem) s.(gdb_dbfeatures) l s.(gdb_listening)
    s.(dbbe_active) s.(port_intr) s.(port_terminated).
Definition set_listening (b : Z) (s : Stub) : Stub :=
  mkStub s.(dbg) s.(link) s.(mem) s.(gdb_dbfeatures) s.(gdb_bindata) b
    s.(dbbe_active) s.(port_intr) s.(port_terminated).
Definition gdb_port_intr_ctrl (b : bool) (s : Stub) : Stub :=
  mkStub s.(dbg) s.(link) s.(mem) s.(gdb_dbfeatures) s.(gdb_bindata) s.(gdb_listening)
    s.(dbbe_active) b s.(port_terminated).
Definition gdb_port_term (s : Stub) : Stub :=
  mkStub s.(dbg) s.(link) s.(mem) s.(gdb_dbfeatures) s.(gdb_bindata) s.(gdb_listening)
    s.(dbbe_active) s.(port_intr) true.

Definition set_ackmode (b : bool) (g : FGdb) : FGdb :=
  mkGdb b g.(gdb_rxbuf) g.(gdb_rxp) g.(gdb_rxsz) g.(txu_fullbuf) g.(gdb_txp)
    g.(gdb_sendpacket) g.(input) g.(output) g.(sent).

(** The result of sending is not looked at. *)
Definition send (f : FGdb -> res (Z * FGdb)) (s : Stub) : res Stub :=
  let! (_, g) := f s.(link) in Ok (set_link g s).

(** ** Memory *)
Definition mem_read (m : Z -> Z) (addr : Z) (size : nat) : list Z :=
  map (fun i => m (u64 (addr + Z.of_nat i))) (seq 0 size).

Fixpoint mem_write (m : Z -> Z) (addr : Z) (bytes : list Z) : Z -> Z :=
  match bytes with
  | [] => m
  | b :: bytes =>
      mem_write (fun a => if a =? u64 addr then b else m a) (u64 (addr + 1)) bytes
  end.

Fixpoint le_bytes (n : nat) (v : Z) : list Z :=
  match n with
  | O => []
  | S n => Z.land v 255 :: le_bytes n (Z.shiftr v 8)
  end.
Fixpoint le_value (l : list Z) : Z :=
  match l with
  | [] => 0
  | b :: l => b + 256 * le_value l
  end.

(** ** Registers in packets *)

(** What [gdb_tx_reg] finds: the bytes of the register, or the size of one that is
    not available. *)
Definition reg_bytes (d : Debugger) (regnum : Z) : res (list Z + nat) :=
  let! v := gdb_cpu_getreg d regnum in
  Ok (match v with
      | Some v => inl (le_bytes (gdb_cpu_regsz regnum) v)
      | None => inr (gdb_cpu_regsz regnum)
      end).

Definition tx_reg (d : Debugger) (regnum : Z) (g : FGdb) : res FGdb :=
  let! r := reg_bytes d regnum in gdb_tx_reg (fun _ => r) regnum g.

(** [gdb_rx_mem] into the receive buffer itself, at [val].  The bytes are stored
    behind the characters that are still to be read, so storing them at the end
    makes no difference. *)
Fixpoint store_bytes (buf : list Z) (i : Z) (bytes : list Z) : res (list Z) :=
  match bytes with
  | [] => Ok buf
  | b :: bytes => let! buf := aset buf i b in store_bytes buf (i + 1) bytes
  end.
Definition rx_mem_at (val : Z) (size : Z) (g : FGdb) : res (Z * FGdb) :=
  let! (r, stored, g) := gdb_rx_mem g size in
  let! buf := store_bytes g.(gdb_rxbuf) val stored in
  Ok (r, set_rx buf g.(gdb_rxp) g.(gdb_rxsz) g).

(** [*(u64 * )val], for a [val] in the receive buffer. *)
Definition rx_u64 (val : Z) (g : FGdb) : res Z :=
  if (0 <=? val) && (val + 8 <=? GDB_BUFSZ) then
    Ok (le_value (take 8 (drop (Z.to_nat val) g.(gdb_rxbuf))))
  else Fault Undefined.

Fixpoint tx_regs (d : Debugger) (r : Z) (n : nat) (g : FGdb) : res FGdb :=
  match n with
  | O => Ok g
  | S n => let! g := tx_reg d r g in tx_regs d (r + 1) n g
  end.

(** The loop of the G packet: whether every register was written. *)
Fixpoint set_regs (fuel : nat) (r : Z) (n : nat) (s : Stub) : res (bool * Stub) :=
  match n with
  | O => Ok (true, s)
  | S n =>
      let! val := of_option Undefined s.(link).(gdb_rxp) in
      let! (ok, g) := rx_mem_at val (Z.of_nat (gdb_cpu_regsz r)) s.(link) in
      let s := set_link g s in
      if ok =? 0 then let! s := send (gdb_tx_err fuel EINVAL) s in Ok (false, s)
      else
        let! v := rx_u64 val g in
        let! d := gdb_cpu_setreg s.(dbg) r v in
        set_regs fuel (r + 1) n (set_dbg d s)
  end.

(** ** Parsing the arguments of requests

    The conditions of the requests are chains of [||]: the first test that fails
    ends the chain.  [None] is a failure. *)
Definition rx_number (g : FGdb) : res (option Z * FGdb) :=
  let! (e, v, g) := gdb_rx_varhex g in Ok (if e =? 0 then v else None, g).
Definition rx_expect (c : Z) (g : FGdb) : res (bool * FGdb) :=
  let! (x, g) := gdb_rx_char g in Ok (x =? c, g).

(** [addr SEP size]. *)
Definition rx_addr_size (sep : Z) (g : FGdb) : res (option (Z * Z) * FGdb) :=
  let! (addr, g) := rx_number g in
  match addr with
  | None => Ok (None, g)
  | Some addr =>
      let! (ok, g) := rx_expect sep g in
      if negb ok then Ok (None, g)
      else
        let! (size, g) := rx_number g in
        Ok (match size with Some size => Some (addr, size) | None => None end, g)
  end.

(** ** Queries *)
Definition gdb_do_mem_search (fuel : nat) (s : Stub) : res Stub :=
  let fail s := send (gdb_tx_err fuel EINVAL) s in
  let! (a, g) := rx_addr_size (chr ";") s.(link) in
  match a with
  | None => fail (set_link g s)
  | Some (addr, size) =>
      let! (ok, g) := rx_expect (chr ";") g in
      if negb ok then fail (set_link g s)
      else
        let! (e, pat, g) := gdb_rx_bindata g 64 in
        let s := set_bindata (pat ++ drop (length pat) s.(gdb_bindata)) (set_link g s) in
        if negb (e =? 0) then fail s
        else
          let '(r, found) := gdb_search_mem (mem_read s.(mem) addr (Z.to_nat size)) pat in
          if r =? 0 then send (gdb_tx_err fuel EIO) s
          else
            let found := match found with Some k => u64 (addr + k) | None => 0 end in
            let! g :=
              if found =? 0 then gdb_tx_begin (chr "0") s.(link)
              else
                let! g := gdb_tx_begin (chr "1") s.(link) in
                let! g := gdb_tx_char (chr ",") g in
                gdb_tx_hex found 8 g in
            send (gdb_tx_end fuel) (set_link g s)
  end.

Definition gdb_feature_names : list (list Z) :=
  [str "multiprocess"; str "swbreak"; str "hwbreak"; str "qRelocInsn"; str "fork-events";
   str "vfork-events"; str "exec-events"; str "vContSupported"; str "QThreadEvents";
   str "no-resumed"].

(** [strchrnul(p, ch)] as an offset from [p]; [buf] starts at [p]. *)
Fixpoint strchrnul (buf : list Z) (ch : Z) : res Z :=
  match buf with
  | [] => Fault Undefined
  | c :: buf => if (c =? 0) || (c =? ch) then Ok 0 else let! n := strchrnul buf ch in Ok (1 + n)
  end.

(** The index of a feature, or the number of features. *)
Fixpoint feature_index (names : list (list Z)) (tok : list Z) : Z :=
  match names with
  | [] => 0
  | n :: names => if bool_decide (n = tok) then 0 else 1 + feature_index names tok
  end.

(** The token is taken off the packet, with the delimiter, which becomes a NUL. *)
Definition end_token (tok toklen : Z) (g : FGdb) : res FGdb :=
  let g := rx_skip toklen g in
  let! c := aget g.(gdb_rxbuf) (tok + toklen) in
  if negb (c =? 0) then
    let! buf := aset g.(gdb_rxbuf) (tok + toklen) 0 in
    Ok (rx_skip 1 (set_rx buf g.(gdb_rxp) g.(gdb_rxsz) g))
  else Ok g.

(** The loop over the features of the host; the result is [None] at [goto error].
    Each turn takes at least two characters of the packet. *)
Fixpoint qsupported_loop (n : nat) (feat : Z) (g : FGdb) : res (option Z * FGdb) :=
  match n with
  | O => Fault OutOfFuel
  | S n =>
      if 0 <? g.(gdb_rxsz) then
        let! tok := of_option Undefined g.(gdb_rxp) in
        let! toklen := strchrnul (drop (Z.to_nat tok) g.(gdb_rxbuf)) (chr ";") in
        let token := take (Z.to_nat toklen) (drop (Z.to_nat tok) g.(gdb_rxbuf)) in
        let! g := end_token tok toklen g in
        if toklen <? 2 then Ok (None, g)
        else
          let! ok := aget g.(gdb_rxbuf) (tok + toklen - 1) in
          if negb (ok =? ch_minus) && negb (ok =? ch_plus) then
            if bool_decide (chr "=" ∈ token) then qsupported_loop n feat g else Ok (None, g)
          else if negb (ok =? ch_plus) then qsupported_loop n feat g
          else
            let! buf := aset g.(gdb_rxbuf) (tok + toklen - 1) 0 in
            let g := set_rx buf g.(gdb_rxp) g.(gdb_rxsz) g in
            let i := feature_index gdb_feature_names (take (Z.to_nat (toklen - 1)) token) in
            if i =? Z.of_nat (length gdb_feature_names) then qsupported_loop n feat g
            else qsupported_loop n (Z.lor feat (BIT i)) g
      else Ok (Some feat, g)
  end.

(** The answer, and the features the host supports. *)
Definition gdb_do_qsupported (fuel : nat) (s : Stub) : res (Z * Stub) :=
  let! (c, g) := gdb_rx_char s.(link) in
  let! (feat, g) :=
    if c =? chr ":" then qsupported_loop (S (Z.to_nat g.(gdb_rxsz))) 0 g
    else if c =? EOF then Ok (Some 0, g)
    else Ok (None, g) in
  let s := set_link g s in
  match feat with
  | None => let! s := send (gdb_tx_err fuel EINVAL) s in Ok (0, s)
  | Some feat =>
      let! g := gdb_tx_begin 0 s.(link) in
      let! g := gdb_tx_str (str "PacketSize") g in
      let! g := gdb_tx_char (chr "=") g in
      let! g := gdb_tx_varhex (GDB_BUFSZ + 4 - 1) g in
      let! g := gdb_tx_str (str ";qXfer:threads:read+") g in
      let! g :=
        if negb (Z.land s.(gdb_dbfeatures) GDB_DBGP_FEAT_RELIABLE =? 0) then
          gdb_tx_str (str ";QStartNoAckMode+") g
        else Ok g in
      let! s := send (gdb_tx_end fuel) (set_link g s) in Ok (feat, s)
  end.

Definition FGdbCurrentThreadId : Z := 1.
Definition FGdbSetThread (fuel : nat) (s : Stub) : res Stub := send (gdb_tx_ok fuel) s.

(** [gdb_rx_equal] in a chain of conditions. *)
Definition rx_equal (name : string) (g : FGdb) : res (bool * FGdb) :=
  let! (r, g) := gdb_rx_equal g (str name) in Ok (negb (r =? 0), g).

Definition FGdbSystemQuery (fuel : nat) (s : Stub) : res Stub :=
  let! (b, g) := rx_equal "C" s.(link) in
  let s := set_link g s in
  if b then
    let! g := gdb_tx_begin (chr "Q") s.(link) in
    let! g := gdb_tx_char (chr "C") g in
    let! g := gdb_tx_varhex FGdbCurrentThreadId g in
    send (gdb_tx_end fuel) (set_link g s)
  else
  let! (b, g) := rx_equal "Supported" s.(link) in
  let s := set_link g s in
  if b then let! (_, s) := gdb_do_qsupported fuel s in Ok s
  else
  let! (b, g) := rx_equal "fThreadInfo" s.(link) in
  let s := set_link g s in
  if b then send (gdb_tx_empty fuel) s
  else
  let! (b, g) := rx_equal "sThreadInfo" s.(link) in
  let s := set_link g s in
  if b then send (gdb_tx_empty fuel) s
  else
  let! (b, g) := rx_equal "Xfer:" s.(link) in
  let s := set_link g s in
  if b then send (gdb_tx_err fuel 0) s
  else
  let! (b, g) := rx_equal "Search:memory:" s.(link) in
  let s := set_link g s in
  if b then gdb_do_mem_search fuel s
  else send (gdb_tx_empty fuel) s.

(** ** Breakpoint requests *)
Definition answer (fuel : nat) (error : Z) (s : Stub) : res Stub :=
  if negb (error =? 0) then send (gdb_tx_err fuel error) s else send (gdb_tx_ok fuel) s.

(** [ztype,addr,length] of a Z or z packet. *)
Definition rx_z (g : FGdb) : res (Z * option (Z * Z) * FGdb) :=
  let! (ztype, g) := gdb_rx_char g in
  let! (ok, g) := rx_expect (chr ",") g in
  if negb ok then Ok (u8 ztype, None, g)
  else let! (a, g) := rx_addr_size (chr ",") g in Ok (u8 ztype, a, g).

Definition gdb_z_insert (fuel : nat) (s : Stub) : res Stub :=
  let! (ztype, a, g) := rx_z s.(link) in
  let s := set_link g s in
  match a with
  | None => answer fuel EINVAL s
  | Some (addr, length) =>
      let! (error, d) :=
        if ztype =? chr "2" then kdb_cpu_set_watchpoint s.(dbg) addr length KDB_DBG_ACCESS_W
        else if ztype =? chr "3" then kdb_cpu_set_watchpoint s.(dbg) addr length KDB_DBG_ACCESS_R
        else if ztype =? chr "4" then kdb_cpu_set_watchpoint s.(dbg) addr length KDB_DBG_ACCESS_RW
        else if (ztype =? chr "0") || (ztype =? chr "1") then
          kdb_cpu_set_hwbreakpoint s.(dbg) addr length
        else Ok (EINVAL, s.(dbg)) in
      answer fuel error (set_dbg d s)
  end.

Definition gdb_z_remove (fuel : nat) (s : Stub) : res Stub :=
  let! (ztype, a, g) := rx_z s.(link) in
  let s := set_link g s in
  match a with
  | None => answer fuel EINVAL s
  | Some (addr, length) =>
      let! (error, d) :=
        if (ztype =? chr "2") || (ztype =? chr "3") || (ztype =? chr "4") then
          kdb_cpu_clr_watchpoint s.(dbg) addr length
        else if (ztype =? chr "0") || (ztype =? chr "1") then
          kdb_cpu_clr_hwbreakpoint s.(dbg) addr length
        else Ok (EINVAL, s.(dbg)) in
      answer fuel error (set_dbg d s)
  end.

Definition gdb_handle_detach (s : Stub) : res Stub :=
  let! d := kdb_cpu_clear_singlestep s.(dbg) in
  let s := set_listening 0 (set_dbg d s) in
  if negb (Z.land s.(gdb_dbfeatures) GDB_DBGP_FEAT_WANTTERM =? 0) then Ok (gdb_port_term s)
  else Ok s.

(** ** Requests *)

(** What a request leads to: the next one, or the end of the session. *)
Inductive outcome : Type :=
| Listen (s : Stub)
| Resume (s : Stub).

Definition listen (r : res Stub) : res outcome := let! s := r in Ok (Listen s).

Definition gdb_cpu_stop_reason (s : Stub) (type : Z) : res Stub :=
  if type =? EXCP_WATCHPT_EL1 then
    let! g := gdb_tx_str (str "watch:") s.(link) in
    let! g := gdb_tx_varhex s.(dbg).(sys).(far_el1) g in
    let! g := gdb_tx_char (chr ";") g in
    Ok (set_link g s)
  else Ok s.

(** 'c' and 's': an address replaces the program counter. *)
Definition resume_at (s : Stub) : res Stub :=
  let! (addr, g) := rx_number s.(link) in
  let s := set_link g s in
  match addr with
  | Some pc => let! d := gdb_cpu_setreg s.(dbg) GDB_REG_PC pc in Ok (set_dbg d s)
  | None => Ok s
  end.

Definition do_continue (s : Stub) : res outcome :=
  let! s := resume_at s in
  let! d := kdb_cpu_clear_singlestep s.(dbg) in
  Ok (Resume (set_listening 1 (set_dbg d s))).

Definition do_step (s : Stub) : res outcome :=
  let! s := resume_at s in
  let! d := kdb_cpu_set_singlestep s.(dbg) in
  Ok (Resume (set_listening 1 (set_dbg d s))).

(** 'm'. *)
Definition do_read_mem (fuel : nat) (s : Stub) : res Stub :=
  let! (a, g) := rx_addr_size (chr ",") s.(link) in
  let s := set_link g s in
  match a with
  | None => send (gdb_tx_err fuel EINVAL) s
  | Some (addr, size) =>
      let! g := gdb_tx_begin 0 s.(link) in
      let! g := gdb_tx_mem (mem_read s.(mem) addr (Z.to_nat size)) g in
      send (gdb_tx_end fuel) (set_link g s)
  end.

(** 'M'. *)
Definition do_write_mem (fuel : nat) (s : Stub) : res Stub :=
  let! (a, g) := rx_addr_size (chr ",") s.(link) in
  match a with
  | None => send (gdb_tx_err fuel EINVAL) (set_link g s)
  | Some (addr, size) =>
      let! (ok, g) := rx_expect (chr ":") g in
      if negb ok then send (gdb_tx_err fuel EINVAL) (set_link g s)
      else
        let! (r, stored, g) := gdb_rx_mem g size in
        let s := set_mem (mem_write s.(mem) addr stored) (set_link g s) in
        if r =? 0 then send (gdb_tx_err fuel EIO) s else send (gdb_tx_ok fuel) s
  end.

(** 'p'. *)
Definition do_read_reg (fuel : nat) (s : Stub) : res Stub :=
  let! (reg, g) := rx_number s.(link) in
  let s := set_link g s in
  match reg with
  | None => send (gdb_tx_err fuel EINVAL) s
  | Some reg =>
      let! g := gdb_tx_begin 0 s.(link) in
      let! g := tx_reg s.(dbg) (s32 reg) g in
      send (gdb_tx_end fuel) (set_link g s)
  end.

(** 'P'. *)
Definition do_write_reg (fuel : nat) (s : Stub) : res Stub :=
  let! val := of_option Undefined s.(link).(gdb_rxp) in
  let! (reg, g) := rx_number s.(link) in
  match reg with
  | None => send (gdb_tx_err fuel EINVAL) (set_link g s)
  | Some reg =>
      let! (ok, g) := rx_expect (chr "=") g in
      if negb ok then send (gdb_tx_err fuel EINVAL) (set_link g s)
      else
        let! (r, g) := rx_mem_at val (Z.of_nat (gdb_cpu_regsz (s32 reg))) g in
        let s := set_link g s in
        if r =? 0 then send (gdb_tx_err fuel EINVAL) s
        else
          let! v := rx_u64 val g in
          let! d := gdb_cpu_setreg s.(dbg) (s32 reg) v in
          send (gdb_tx_ok fuel) (set_dbg d s)
  end.

(** The switch of [FGdbTrap]; the packet has been received. *)
Definition handle_request (fuel : nat) (type : Z) (s : Stub) : res outcome :=
  let! (req, g) := gdb_rx_char s.(link) in
  let s := set_link g s in
  if req =? chr "?" then
    let! g := gdb_tx_begin (chr "T") s.(link) in
    let! g := gdb_tx_hex (gdb_cpu_signal type) 2 g in
    listen (send (gdb_tx_end fuel) (set_link g s))
  else if req =? chr "c" then do_continue s
  else if req =? chr "D" then
    let! s := send (gdb_tx_ok fuel) s in
    let! s := gdb_handle_detach s in Ok (Resume s)
  else if req =? chr "g" then
    let! g := gdb_tx_begin 0 s.(link) in
    let! g := tx_regs s.(dbg) 0 (Z.to_nat GDB_NREGS) g in
    listen (send (gdb_tx_end fuel) (set_link g s))
  else if req =? chr "G" then
    let! (success, s) := set_regs fuel 0 (Z.to_nat GDB_NREGS) s in
    if success then listen (send (gdb_tx_ok fuel) s) else Ok (Listen s)
  else if req =? chr "H" then listen (FGdbSetThread fuel s)
  else if req =? chr "k" then let! s := gdb_handle_detach s in Ok (Resume s)
  else if req =? chr "m" then listen (do_read_mem fuel s)
  else if req =? chr "M" then listen (do_write_mem fuel s)
  else if req =? chr "p" then listen (do_read_reg fuel s)
  else if req =? chr "P" then listen (do_write_reg fuel s)
  else if req =? chr "q" then listen (FGdbSystemQuery fuel s)
  else if req =? chr "s" then do_step s
  else if req =? chr "z" then listen (gdb_z_remove fuel s)
  else if req =? chr "Z" then listen (gdb_z_insert fuel s)
  else listen (send (gdb_tx_empty fuel) s).

(** The loop of [FGdbTrap]: [n] bounds the requests of the session, [fuel] the
    transmissions of each packet, in both directions. *)
Fixpoint request_loop (n fuel : nat) (type : Z) (s : Stub) : res (Z * Stub) :=
  match n with
  | O => Fault OutOfFuel
  | S n =>
      let! (e, g) := gdb_rx_begin fuel s.(link) in
      let s := set_link g s in
      if negb (e =? 0) then Ok (0, s)
      else
        let! o := handle_request fuel type s in
        match o with
        | Listen s => request_loop n fuel type s
        | Resume s => Ok (1, s)
        end
  end.

(** The stop reply. *)
Definition send_stop (fuel : nat) (type : Z) (s : Stub) : res Stub :=
  let! g := gdb_tx_begin (chr "T") s.(link) in
  let! g := gdb_tx_hex (gdb_cpu_signal type) 2 g in
  let! g := gdb_tx_varhex GDB_REG_PC g in
  let! g := gdb_tx_char (chr ":") g in
  let! g := tx_reg s.(dbg) GDB_REG_PC g in
  let! g := gdb_tx_char (chr ";") g in
  let! s := gdb_cpu_stop_reason (set_link g s) type in
  let! g := gdb_tx_str (str "thread:") s.(link) in
  let! g := gdb_tx_varhex FGdbCurrentThreadId g in
  let! g := gdb_tx_char (chr ";") g in
  send (gdb_tx_end fuel) (set_link g s).

Definition FGdbTrap (n fuel : nat) (type : Z) (s : Stub) : res (Z * Stub) :=
  check! s.(dbbe_active) =? 1 in
  let s := gdb_port_intr_ctrl false s in
  let s := set_link (set_ackmode true s.(link)) (set_listening 0 s) in
  let! s := send_stop fuel type s in
  let! (ret, s) := request_loop n fuel type s in
  Ok (ret, gdb_port_intr_ctrl true s).

(** [FGdbDebugInterrupt]; [gdb_instance] is the stub. *)
Definition FGdbDebugInterrupt (n fuel : nat) (esr : Z) (trap_frame : FGdbTrapframe) (s : Stub) :
    res Stub :=
  let! (ec, d) := debug_interrupt_entry esr trap_frame s.(dbg) in
  let! (_, s) := FGdbTrap n fuel ec (set_dbg d s) in Ok s.

(** ** Initialisation *)
Definition DBG_PORT_UART : Z := 0.
Definition FGDB_SUCCESS : Z := FT_SUCCESS.
Definition FGDB_FAILED : Z := FT_MAKE_ERRCODE 0 0 1.

Definition set_active (b : Z) (s : Stub) : Stub :=
  mkStub s.(dbg) s.(link) s.(mem) s.(gdb_dbfeatures) s.(gdb_bindata) s.(gdb_listening)
    b s.(port_intr) s.(port_terminated).

(** [port_init] is the result of the initialisation of the port (fgdb_uart.c). *)
Definition FGdbInitialize (aa64dfr0 port port_init : Z) (s : Stub) : Z * Stub :=
  let s := set_dbg (gdb_init_registers aa64dfr0 s.(dbg)) s in
  if port =? DBG_PORT_UART then
    let ret := if negb (port_init =? 0) then FGDB_FAILED else FGDB_SUCCESS in
    let s := set_active 1 s in
    let d := s.(dbg) in
    (ret, set_dbg (set_monitor (set_flags DBGMON_KERNEL d.(monitor)) d) s)
  else (FGDB_FAILED, s).
