(* ===== verification/GdbSpec.v ===== *)
(** The requests of the GDB stub as functions of their text: the reply and the state
    after it, without the buffers and the port.  This is a layer between the code
    (GdbSession.v; GdbServe.v and GdbSessionProps.v prove that it behaves so) and the
    protocol (GdbProtocol.v), not a specification of its own: it follows the code also
    where the protocol says nothing or something else.

    It leaves out what the code leaves to chance: the 'G' request, a 'P' request whose
    data has not the size of the register, requests for more memory than fits a
    packet, and requests with NUL characters. *)
From Stdlib Require Import String.
From S2P Require Import Prelude GdbPacket GdbPacketProps GdbLink GdbArch GdbArchProps GdbSession.

(** The outcome of a request; the port of the stub in it is not meaningful. *)
Inductive reaction : Type :=
| Reply (msg : list Z) (s : Stub)
| ReplyResume (msg : list Z) (s : Stub)
| SilentResume (s : Stub).

Definition err_msg (e : Z) : list Z := chr "E" :: uintmax_to_hex 2 (u64 e) [].
Definition ok_msg : list Z := str "OK".
Definition status_msg (e : Z) : list Z := if e =? 0 then ok_msg else err_msg e.

Definition ok_of {A} (r : res A) : option A := match r with Ok a => Some a | Fault _ => None end.

(** ** Registers *)
Definition reg_text (d : Debugger) (regnum : Z) : option (list Z) :=
  r ← ok_of (reg_bytes d regnum);
  Some (match r with inl bytes => hex_of bytes | inr n => replicate (2 * n) (chr "x") end).

Fixpoint regs_text (d : Debugger) (r : Z) (n : nat) : option (list Z) :=
  match n with
  | O => Some []
  | S n => t ← reg_text d r; ts ← regs_text d (r + 1) n; Some (t ++ ts)
  end.

(** Only the 8-byte registers x0 to x29, sp and pc can be written. *)
Definition write_reg (d : Debugger) (reg : Z) (bytes : list Z) : option Debugger :=
  if decide (gdb_cpu_regsz reg = 8%nat) then ok_of (gdb_cpu_setreg d reg (le_value bytes))
  else Some d.

(** ** Single requests; the argument is the text after the letter *)
Definition spec_resume_at (s : Stub) (l : list Z) : option Stub :=
  match (p_number l).1 with
  | Some pc => d ← ok_of (gdb_cpu_setreg s.(dbg) GDB_REG_PC pc); Some (set_dbg d s)
  | None => Some s
  end.

Definition spec_read_mem (s : Stub) (l : list Z) : option reaction :=
  match (p_addr_size (chr ",") l).1 with
  | None => Some (Reply (err_msg EINVAL) s)
  | Some (addr, size) =>
      if 2 * size <=? GDB_BUFSZ then
        Some (Reply (hex_of (mem_read s.(mem) addr (Z.to_nat size))) s)
      else None
  end.

(** Data of the wrong length is not stored, but answered with OK. *)
Definition spec_write_mem (s : Stub) (l : list Z) : option reaction :=
  let '(a, l) := p_addr_size (chr ",") l in
  match a with
  | None => Some (Reply (err_msg EINVAL) s)
  | Some (addr, size) =>
      let '(ok, l) := p_expect (chr ":") l in
      if negb ok then Some (Reply (err_msg EINVAL) s)
      else if size <? 2 ^ 63 then
        Some (Reply ok_msg
          (if 2 * size =? Z.of_nat (List.length l) then
             set_mem (mem_write s.(mem) addr (p_bytes l)) s
           else s))
      else None
  end.

Definition spec_read_reg (s : Stub) (l : list Z) : option reaction :=
  match (p_number l).1 with
  | None => Some (Reply (err_msg EINVAL) s)
  | Some reg => t ← reg_text s.(dbg) (s32 reg); Some (Reply t s)
  end.

Definition spec_write_reg (s : Stub) (l : list Z) : option reaction :=
  let '(reg, l) := p_number l in
  match reg with
  | None => Some (Reply (err_msg EINVAL) s)
  | Some reg =>
      let '(ok, l) := p_expect (chr "=") l in
      if negb ok then Some (Reply (err_msg EINVAL) s)
      else if (2 * gdb_cpu_regsz (s32 reg) =? List.length l)%nat then
        d ← write_reg s.(dbg) (s32 reg) (p_bytes l); Some (Reply ok_msg (set_dbg d s))
      else None
  end.

(** *** Breakpoints *)
Definition insert_op (ztype addr len : Z) : option op :=
  if ztype =? chr "2" then Some (SetWatchpoint addr len 2)
  else if ztype =? chr "3" then Some (SetWatchpoint addr len 1)
  else if ztype =? chr "4" then Some (SetWatchpoint addr len 3)
  else if (ztype =? chr "0") || (ztype =? chr "1") then Some (SetBreakpoint addr len)
  else None.

Definition remove_op (ztype addr len : Z) : option op :=
  if (ztype =? chr "2") || (ztype =? chr "3") || (ztype =? chr "4") then
    Some (ClrWatchpoint addr len)
  else if (ztype =? chr "0") || (ztype =? chr "1") then Some (ClrBreakpoint addr len)
  else None.

Definition spec_z (which : Z -> Z -> Z -> option op) (s : Stub) (l : list Z) : option reaction :=
  let '(ztype, l) := p_char l in
  let '(ok, l) := p_expect (chr ",") l in
  match (if ok then (p_addr_size (chr ",") l).1 else None) with
  | None => Some (Reply (err_msg EINVAL) s)
  | Some (addr, len) =>
      match which (u8 ztype) addr len with
      | None => Some (Reply (err_msg EINVAL) s)
      | Some o =>
          r ← ok_of (run_op s.(dbg) o);
          Some (Reply (status_msg r.1) (set_dbg r.2 s))
      end
  end.

(** *** Queries *)
Definition spec_search (s : Stub) (l : list Z) : option reaction :=
  let '(a, l) := p_addr_size (chr ";") l in
  match a with
  | None => Some (Reply (err_msg EINVAL) s)
  | Some (addr, size) =>
      let '(ok, l) := p_expect (chr ";") l in
      if negb ok then Some (Reply (err_msg EINVAL) s)
      else
        let '(e, pat, _) := p_bindata 64 l in
        let s := set_bindata (pat ++ drop (List.length pat) s.(gdb_bindata)) s in
        if negb (e =? 0) then Some (Reply (err_msg EINVAL) s)
        else
          let found :=
            match memmem (mem_read s.(mem) addr (Z.to_nat size)) pat with
            | Some k => u64 (addr + k)
            | None => 0
            end in
          Some (Reply (if found =? 0 then str "0" else str "1," ++ uintmax_to_hex 8 found []) s)
  end.

(** The features of the host are a list of words separated by ';': flags ending in
    '+' or '-', and settings with '='. *)
Fixpoint word (l : list Z) : list Z :=
  match l with
  | c :: l => if c =? chr ";" then [] else c :: word l
  | [] => []
  end.

Definition feature_ok (w : list Z) : bool :=
  (2 <=? List.length w)%nat &&
  match w !! (List.length w - 1)%nat with
  | Some c => (c =? ch_minus) || (c =? ch_plus) || bool_decide (chr "=" ∈ w)
  | None => false
  end.

Fixpoint features_ok (n : nat) (l : list Z) : bool :=
  match n, l with
  | O, _ | _, [] => true
  | S n, _ => feature_ok (word l) && features_ok n (drop (S (List.length (word l))) l)
  end.

Definition supported_msg (s : Stub) : list Z :=
  str "PacketSize=" ++ varhex (GDB_BUFSZ + 4 - 1) ++ str ";qXfer:threads:read+" ++
  if negb (Z.land s.(gdb_dbfeatures) GDB_DBGP_FEAT_RELIABLE =? 0) then str ";QStartNoAckMode+"
  else [].

Definition spec_supported (s : Stub) (l : list Z) : reaction :=
  match l with
  | [] => Reply (supported_msg s) s
  | c :: l =>
      if (c =? chr ":") && features_ok (List.length l) l then Reply (supported_msg s) s
      else Reply (err_msg EINVAL) s
  end.

Definition spec_query (s : Stub) (l : list Z) : option reaction :=
  match p_prefix (str "C") l with
  | Some _ => Some (Reply (str "QC" ++ varhex FGdbCurrentThreadId) s)
  | None =>
  match p_prefix (str "Supported") l with
  | Some l => Some (spec_supported s l)
  | None =>
  match p_prefix (str "fThreadInfo") l with
  | Some _ => Some (Reply [] s)
  | None =>
  match p_prefix (str "sThreadInfo") l with
  | Some _ => Some (Reply [] s)
  | None =>
  match p_prefix (str "Xfer:") l with
  | Some _ => Some (Reply (err_msg 0) s)
  | None =>
  match p_prefix (str "Search:memory:") l with
  | Some l => spec_search s l
  | None => Some (Reply [] s)
  end end end end end end.

(** *** Ending the session *)
Definition detached (s : Stub) (d : Debugger) : Stub :=
  let s := set_listening 0 (set_dbg d s) in
  if negb (Z.land s.(gdb_dbfeatures) GDB_DBGP_FEAT_WANTTERM =? 0) then gdb_port_term s else s.

(** ** A request *)
Definition spec_request (type : Z) (s : Stub) (p : list Z) : option reaction :=
  let '(req, l) := p_char p in
  if req =? chr "?" then
    Some (Reply (chr "T" :: uintmax_to_hex 2 (gdb_cpu_signal type) []) s)
  else if req =? chr "c" then
    s ← spec_resume_at s l;
    d ← ok_of (kdb_cpu_clear_singlestep s.(dbg));
    Some (SilentResume (set_listening 1 (set_dbg d s)))
  else if req =? chr "D" then
    d ← ok_of (kdb_cpu_clear_singlestep s.(dbg)); Some (ReplyResume ok_msg (detached s d))
  else if req =? chr "g" then
    t ← regs_text s.(dbg) 0 (Z.to_nat GDB_NREGS); Some (Reply t s)
  else if req =? chr "G" then None
  else if req =? chr "H" then Some (Reply ok_msg s)
  else if req =? chr "k" then
    d ← ok_of (kdb_cpu_clear_singlestep s.(dbg)); Some (SilentResume (detached s d))
  else if req =? chr "m" then spec_read_mem s l
  else if req =? chr "M" then spec_write_mem s l
  else if req =? chr "p" then spec_read_reg s l
  else if req =? chr "P" then spec_write_reg s l
  else if req =? chr "q" then spec_query s l
  else if req =? chr "s" then
    s ← spec_resume_at s l;
    d ← ok_of (kdb_cpu_set_singlestep s.(dbg));
    Some (SilentResume (set_listening 1 (set_dbg d s)))
  else if req =? chr "z" then spec_z remove_op s l
  else if req =? chr "Z" then spec_z insert_op s l
  else Some (Reply [] s).

(** The stop reply: signal, program counter, the watched address, thread. *)
Definition spec_stop (type : Z) (s : Stub) : option (list Z) :=
  pc ← reg_text s.(dbg) GDB_REG_PC;
  Some (chr "T" :: uintmax_to_hex 2 (gdb_cpu_signal type) [] ++ varhex GDB_REG_PC ++ str ":" ++
        pc ++ str ";" ++
        (if type =? EXCP_WATCHPT_EL1 then
           str "watch:" ++ varhex s.(dbg).(sys).(far_el1) ++ str ";"
         else []) ++
        str "thread:" ++ varhex FGdbCurrentThreadId ++ str ";").

(** ** A session: the transcript of the port, and the final state

    [spec_session type s reqs] is what arrives on the port for the requests, each
    followed by the acknowledgement of its reply, and what the stub puts there. *)
Fixpoint spec_session (type : Z) (s : Stub) (reqs : list (list Z)) :
    option (list Z * list Z * Stub) :=
  match reqs with
  | [] => None
  | p :: reqs =>
      r ← spec_request type s p;
      match r with
      | Reply m s =>
          '(i, o, s) ← spec_session type s reqs;
          Some (raw_frame p ++ ch_plus :: i, ch_plus :: frame m ++ o, s)
      | ReplyResume m s =>
          Some (raw_frame p ++ [ch_plus], ch_plus :: frame m, s)
      | SilentResume s => Some (raw_frame p, [ch_plus], s)
      end
  end.
