(* ===== verification/GdbServe.v ===== *)
(** The requests of the GDB session (GdbSession.v) do what the specification
    (GdbSpec.v) says: one lemma per request. *)
From Stdlib Require Import String.
From S2P Require Import Prelude GdbPacket GdbPacketProps GdbLink GdbArch GdbArchProps.
From S2P Require Import GdbSession GdbSpec.

(** ** The port while a request is served *)

(** The acknowledgement of the reply is the next character on the port. *)
Record port (g : FGdb) (rest out : list Z) : Prop := {
  port_wf : link_wf g;
  port_input : g.(input) = ch_plus :: rest;
  port_output : g.(output) = out
}.

Lemma port_moved g g' rest out : moved g g' -> port g rest out -> port g' rest out.
Proof.
  intros Hm [W I O]. destruct (moved_io _ _ Hm) as [Ei Eo].
  split; [by eapply link_wf_moved|congruence|congruence].
Qed.

(** [r] is the state [s] with a port on which message [m] has been delivered. *)
Definition answered (s : Stub) (m rest out : list Z) (r : res Stub) : Prop :=
  exists g, r = Ok (set_link g s) /\ link_wf g /\ g.(input) = rest /\ g.(output) = out ++ frame m.

Section Answers.
Context (fuel : nat) (s : Stub) (g : FGdb) (rest out : list Z) (Hp : port g rest out).

Lemma end_answers m g1 :
  holds g m g1 -> answered s m rest out (send (gdb_tx_end (S fuel)) (set_link g1 s)).
Proof.
  intros Hh. destruct Hp as [W I O].
  destruct (end_delivers g m g1 fuel rest Hh W I) as (g2 & E & W2 & I2 & O2).
  exists g2. unfold send. cbn [link set_link]. rewrite E. cbn [rbind].
  split; [done|]. by rewrite O2, O.
Qed.

Lemma empty_answers : answered s [] rest out (send (gdb_tx_empty (S fuel)) (set_link g s)).
Proof.
  destruct (begin_holds g 0) as (g1 & E & Hh); [apply Hp|unfold char; lia|].
  pose proof (end_answers _ g1 Hh) as (g2 & E2 & H2). exists g2. split; [|done].
  unfold send, gdb_tx_empty in *. cbn [link set_link] in *. rewrite E. exact E2.
Qed.

Lemma err_answers e : answered s (err_msg e) rest out (send (gdb_tx_err (S fuel) e) (set_link g s)).
Proof.
  destruct (begin_holds g 69) as (g1 & E & Hh); [apply Hp|unfold char; lia|].
  destruct (write_holds g _ g1 _ _ Hh (writes_hex (u64 e) 2)) as (g2 & E2 & Hh2);
    [vm_compute; discriminate|].
  pose proof (end_answers _ g2 Hh2) as (g3 & E3 & H3). exists g3. split; [|done].
  unfold send, gdb_tx_err in *. cbn [link set_link] in *. rewrite E. cbn [rbind].
  rewrite E2. exact E3.
Qed.

Lemma ok_answers : answered s ok_msg rest out (send (gdb_tx_ok (S fuel)) (set_link g s)).
Proof.
  destruct (begin_holds g 79) as (g1 & E & Hh); [apply Hp|unfold char; lia|].
  destruct (write_holds g _ g1 _ _ Hh (writes_char 75 ltac:(unfold char; lia))) as (g2 & E2 & Hh2);
    [vm_compute; discriminate|].
  pose proof (end_answers _ g2 Hh2) as (g3 & E3 & H3). exists g3. split; [|done].
  unfold send, gdb_tx_ok in *. cbn [link set_link] in *. rewrite E. cbn [rbind].
  rewrite E2. exact E3.
Qed.

Lemma status_answers e : answered s (status_msg e) rest out (answer (S fuel) e (set_link g s)).
Proof. unfold answer, status_msg. destruct (e =? 0); cbn [negb]; [apply ok_answers|apply err_answers]. Qed.

(** A message of at most a full buffer, composed after [gdb_tx_begin(c)]. *)
Lemma message_answers c m f :
  char c -> writes m f -> Z.of_nat (length ((if c =? 0 then [] else [c]) ++ m)) <= GDB_BUFSZ ->
  answered s ((if c =? 0 then [] else [c]) ++ m) rest out
    (let! g1 := gdb_tx_begin c g in
     let! g1 := f g1 in send (gdb_tx_end (S fuel)) (set_link g1 s)).
Proof.
  intros Hc Hf Hl. destruct (begin_holds g c) as (g1 & E & Hh); [apply Hp|done|].
  rewrite length_app in Hl.
  destruct (write_holds g _ g1 _ _ Hh Hf Hl) as (g2 & E2 & Hh2).
  rewrite E. cbn [rbind]. rewrite E2. by apply end_answers.
Qed.

Lemma text_answers m f :
  writes m f -> Z.of_nat (length m) <= GDB_BUFSZ ->
  answered s m rest out
    (let! g1 := gdb_tx_begin 0 g in
     let! g1 := f g1 in send (gdb_tx_end (S fuel)) (set_link g1 s)).
Proof. intros Hf Hl. apply (message_answers 0 m f); [unfold char; lia|done|done]. Qed.
End Answers.

Lemma answered_resend s s' m rest out r : answered s m rest out r -> s = s' -> answered s' m rest out r.
Proof. by intros H <-. Qed.

(** ** Parsing in the session *)
Lemma number_reads g l :
  Forall char l -> rx_view g l ->
  exists g', rx_number g = Ok ((p_number l).1, g') /\ reads g (p_number l).2 g'.
Proof.
  intros Hl Hv. destruct (rx_number_reads g l Hl Hv) as (e & v & g' & E & Ev & R).
  exists g'. split; [|done]. unfold rx_number. rewrite E. cbn [rbind]. by rewrite Ev.
Qed.

Lemma expect_reads c g l :
  Forall char l -> rx_view g l ->
  exists g', rx_expect c g = Ok ((p_expect c l).1, g') /\ reads g (p_expect c l).2 g'.
Proof.
  intros Hl Hv. destruct (rx_char_reads g l Hv) as (g' & E & R).
  exists g'. unfold rx_expect, p_expect. rewrite E. destruct (p_char l). done.
Qed.

Lemma p_expect_chars c l : Forall char l -> Forall char (p_expect c l).2.
Proof. intros Hl. pose proof (p_char_chars l Hl). unfold p_expect. by destruct (p_char l). Qed.

Lemma addr_size_reads sep g l :
  Forall char l -> rx_view g l ->
  exists g', rx_addr_size sep g = Ok ((p_addr_size sep l).1, g') /\
    reads g (p_addr_size sep l).2 g'.
Proof.
  intros Hl Hv. unfold rx_addr_size, p_addr_size.
  destruct (number_reads g l Hl Hv) as (g1 & E1 & R1). rewrite E1. cbn [rbind].
  pose proof (p_number_chars l Hl) as Hl1. destruct (p_number l) as [a l1]. simpl in *.
  destruct a as [addr|]; [|by exists g1].
  destruct (expect_reads sep g1 l1 Hl1 (proj2 R1)) as (g2 & E2 & R2). rewrite E2. cbn [rbind].
  pose proof (p_expect_chars sep l1 Hl1) as Hl2. destruct (p_expect sep l1) as [ok l2]. simpl in *.
  destruct ok; simpl; [|exists g2; split; [done|by eapply reads_trans]].
  destruct (number_reads g2 l2 Hl2 (proj2 R2)) as (g3 & E3 & R3). rewrite E3. cbn [rbind].
  destruct (p_number l2) as [size l3]. simpl in *. exists g3. split; [done|].
  by eapply reads_trans; [eapply reads_trans|].
Qed.

Lemma p_addr_size_chars sep l : Forall char l -> Forall char (p_addr_size sep l).2.
Proof.
  intros Hl. unfold p_addr_size. pose proof (p_number_chars l Hl) as H1.
  destruct (p_number l) as [[a|] l1]; simpl in *; [|done].
  pose proof (p_expect_chars sep l1 H1) as H2. destruct (p_expect sep l1) as [[] l2]; simpl in *; [|done].
  pose proof (p_number_chars l2 H2). by destruct (p_number l2).
Qed.

(** Numbers have 64 bits. *)
Lemma digits_val_range ds v : ds <> [] -> 0 <= digits_val ds v < 2 ^ 64.
Proof.
  revert v. induction ds as [|d ds IH]; [done|]. intros v _. unfold digits_val. simpl.
  destruct ds; [by apply wrap_range|by apply IH].
Qed.

Lemma p_number_range l v : (p_number l).1 = Some v -> 0 <= v < 2 ^ 64.
Proof.
  unfold p_number. destruct l as [|c l]; [done|].
  destruct (c =? ch_minus).
  - destruct (digits l) as [|d ds]; [done|]. intros [= <-]. by apply wrap_range.
  - destruct (digits (c :: l)) as [|d ds]; [done|]. intros [= <-].
    by apply (digits_val_range (d :: ds)).
Qed.

Lemma p_addr_size_range sep l addr size :
  (p_addr_size sep l).1 = Some (addr, size) -> 0 <= addr < 2 ^ 64 /\ 0 <= size < 2 ^ 64.
Proof.
  unfold p_addr_size. pose proof (p_number_range l) as H1.
  destruct (p_number l) as [[a|] l1]; simpl; [|done].
  destruct (p_expect sep l1) as [[] l2]; simpl; [|done].
  pose proof (p_number_range l2) as H2. destruct (p_number l2) as [[b|] l3]; simpl; [|done].
  intros; simplify_eq. split; [by apply H1|by apply H2].
Qed.

(** Closes a goal on a fixed reply, given that the port is ready for it. *)
Ltac reply H :=
  match goal with
  | |- answered ?s _ ?r ?o _ =>
      match type of H with
      | port ?g _ _ =>
          first [exact (err_answers _ s g r o H _) | exact (ok_answers _ s g r o H) |
                 exact (empty_answers _ s g r o H) | exact (status_answers _ s g r o H _)]
      end
  end.

(** *** Registers *)
Lemma le_bytes_char n v : Forall char (le_bytes n v).
Proof.
  revert v. induction n as [|n IH]; intros v; simpl; constructor; [|apply IH].
  change 255 with (Z.ones 8). rewrite Z.land_ones by lia. unfold char.
  pose proof (Z.mod_pos_bound v (2 ^ 8)). lia.
Qed.

Lemma le_bytes_length n v : length (le_bytes n v) = n.
Proof. revert v. induction n; intros; simpl; auto. Qed.

Lemma regsz_bound r : (gdb_cpu_regsz r <= 16)%nat.
Proof. unfold gdb_cpu_regsz. repeat case_match; lia. Qed.

Lemma tx_reg_writes d r t :
  reg_text d r = Some t -> writes t (tx_reg d r) /\ (length t <= 32)%nat.
Proof.
  unfold reg_text, tx_reg. pose proof (regsz_bound r) as Hb.
  destruct (reg_bytes d r) as [x|] eqn:E; simpl; [|done]. intros; simplify_eq.
  unfold reg_bytes in E. destruct (gdb_cpu_getreg d r) as [[v|]|]; simpl in E; simplify_eq; simpl.
  - split; [by apply writes_mem, le_bytes_char|].
    rewrite hex_of_length, le_bytes_length. lia.
  - split; [|rewrite length_replicate; lia].
    apply writes_str. apply Forall_replicate. unfold char. split; vm_compute; congruence.
Qed.

Lemma store_bytes_spec buf i bytes :
  0 <= i -> i + Z.of_nat (length bytes) <= Z.of_nat (length buf) ->
  exists buf', store_bytes buf i bytes = Ok buf' /\ length buf' = length buf /\
    take (length bytes) (drop (Z.to_nat i) buf') = bytes /\
    forall k, (k < Z.to_nat i)%nat -> buf' !! k = buf !! k.
Proof.
  revert buf i. induction bytes as [|b bytes IH]; intros buf i Hi Hl; simpl in Hl |- *.
  - exists buf. by rewrite take_0.
  - rewrite aset_in_range by lia. cbn [rbind].
    destruct (IH (<[Z.to_nat i := b]> buf) (i + 1)) as (buf' & E & L & T & P);
      [lia|rewrite length_insert; lia|].
    exists buf'. rewrite length_insert in L. split; [done|]. split; [done|]. split.
    + rewrite (drop_S buf' b (Z.to_nat i)).
      * simpl. f_equal. by replace (S (Z.to_nat i)) with (Z.to_nat (i + 1)) by lia.
      * rewrite P by lia. apply list_lookup_insert_eq. lia.
    + intros k Hk. rewrite P by lia. apply list_lookup_insert_ne. lia.
Qed.

(** Registers that are not 8 bytes wide cannot be written. *)
Lemma setreg_other d r v : gdb_cpu_regsz r <> 8%nat -> gdb_cpu_setreg d r v = Ok d.
Proof.
  unfold gdb_cpu_regsz, gdb_cpu_setreg, GDB_REG_CSPR, GDB_REG_FPSR, GDB_REG_FPCR, GDB_REG_V0,
    GDB_REG_V31, GDB_REG_PC, GDB_REG_SP, GDB_REG_X0, GDB_REG_X29.
  intros H. destruct (Z.eqb_spec r 32), (Z.eqb_spec r 31), (Z.leb_spec 0 r), (Z.leb_spec r 29);
    simpl; try done; exfalso; apply H;
    (rewrite !(proj2 (Z.eqb_neq r _)) by lia; rewrite (proj2 (Z.leb_gt 34 r)) by lia; done).
Qed.

(** ** Requests with an argument *)
Section Requests.
Context (fuel : nat) (s : Stub) (g : FGdb) (rest out l : list Z).
Hypothesis port_ready : port g rest out.
Hypothesis text : rx_view g l.
Hypothesis chars : Forall char l.

Lemma read_mem_serves m s1 :
  (forall a, char (s.(mem) a)) ->
  spec_read_mem s l = Some (Reply m s1) ->
  answered s1 m rest out (do_read_mem (S fuel) (set_link g s)).
Proof.
  intros Hm. unfold spec_read_mem, do_read_mem. cbn [link set_link].
  destruct (addr_size_reads (chr ",") g l chars text) as (g1 & E & [M V]). rewrite E. cbn [rbind].
  pose proof (port_moved _ _ _ _ M port_ready) as Hp.
  destruct ((p_addr_size (chr ",") l).1) as [[addr size]|]; intros Hs.
  - destruct (Z.leb_spec (2 * size) GDB_BUFSZ); [|done]. simplify_eq.
    apply (text_answers fuel s1 g1 rest out Hp _ (gdb_tx_mem _)).
    + apply writes_mem. unfold mem_read. apply Forall_fmap. apply Forall_true. intros i. apply Hm.
    + rewrite hex_of_length. unfold mem_read. rewrite length_map, length_seq.
      unfold GDB_BUFSZ in *. lia.
  - simplify_eq. reply Hp.
Qed.

Lemma write_mem_serves m s1 :
  spec_write_mem s l = Some (Reply m s1) ->
  answered s1 m rest out (do_write_mem (S fuel) (set_link g s)).
Proof.
  unfold spec_write_mem, do_write_mem. cbn [link set_link].
  destruct (addr_size_reads (chr ",") g l chars text) as (g1 & E & [M V]). rewrite E. cbn [rbind].
  pose proof (port_moved _ _ _ _ M port_ready) as Hp.
  pose proof (p_addr_size_chars (chr ",") l chars) as Hc.
  pose proof (p_addr_size_range (chr ",") l) as Hr.
  destruct (p_addr_size (chr ",") l) as [[[addr size]|] l1]; simpl in V, Hc, Hr |- *;
    [|intros; simplify_eq; reply Hp].
  destruct (expect_reads (chr ":") g1 l1 Hc V) as (g2 & E2 & [M2 V2]).
  simpl in E2. rewrite E2. cbn [rbind].
  pose proof (port_moved _ _ _ _ M2 Hp) as Hp2.
  destruct (p_expect (chr ":") l1) as [ok l2]; simpl in V2 |- *.
  destruct ok; simpl; [|intros; simplify_eq; reply Hp2].
  destruct (Hr addr size eq_refl) as [_ H0].
  destruct (Z.ltb_spec size (2 ^ 63)); [|done]. intros Hs.
  pose proof (rx_mem_reads g2 l2 size V2 ltac:(lia)) as Hm.
  destruct (2 * size =? Z.of_nat (length l2)).
  - destruct Hm as (g3 & -> & [M3 V3]). cbn [rbind]. simplify_eq.
    pose proof (port_moved _ _ _ _ M3 Hp2) as Hp3. reply Hp3.
  - rewrite Hm. cbn [rbind]. simplify_eq. reply Hp2.
Qed.

Lemma read_reg_serves m s1 :
  spec_read_reg s l = Some (Reply m s1) ->
  answered s1 m rest out (do_read_reg (S fuel) (set_link g s)).
Proof.
  unfold spec_read_reg, do_read_reg. cbn [link set_link].
  destruct (number_reads g l chars text) as (g1 & E & [M V]). rewrite E. cbn [rbind].
  pose proof (port_moved _ _ _ _ M port_ready) as Hp.
  destruct ((p_number l).1) as [reg|]; [|intros; simplify_eq; reply Hp].
  destruct (reg_text (dbg s) (s32 reg)) as [t|] eqn:Et; simpl; [|done]. intros; simplify_eq.
  destruct (tx_reg_writes (dbg s1) (s32 reg) m Et) as [Hw Hl].
  apply (text_answers fuel s1 g1 rest out Hp m (tx_reg (dbg s1) (s32 reg)) Hw).
  unfold GDB_BUFSZ. lia.
Qed.

Lemma write_reg_serves m s1 val :
  g.(gdb_rxp) = Some val -> 0 <= val <= 4000 ->
  spec_write_reg s l = Some (Reply m s1) ->
  answered s1 m rest out (do_write_reg (S fuel) (set_link g s)).
Proof.
  intros Hval Hr. unfold spec_write_reg, do_write_reg. cbn [link set_link].
  rewrite Hval. cbn [of_option rbind].
  destruct (number_reads g l chars text) as (g1 & E & [M V]). rewrite E. cbn [rbind].
  pose proof (port_moved _ _ _ _ M port_ready) as Hp.
  pose proof (p_number_chars l chars) as Hc.
  destruct (p_number l) as [[reg|] l1]; simpl in V, Hc |- *; [|intros; simplify_eq; reply Hp].
  destruct (expect_reads (chr "=") g1 l1 Hc V) as (g2 & E2 & [M2 V2]). rewrite E2. cbn [rbind].
  pose proof (port_moved _ _ _ _ M2 Hp) as Hp2.
  destruct (p_expect (chr "=") l1) as [ok l2]; simpl in V2 |- *.
  destruct ok; simpl; [|intros; simplify_eq; reply Hp2].
  set (r := s32 reg). pose proof (regsz_bound r) as Hb.
  destruct (Nat.eqb_spec (gdb_cpu_regsz r + (gdb_cpu_regsz r + 0)) (List.length l2)) as [El|]; [|done].
  destruct (write_reg (dbg s) r (p_bytes l2)) as [d|] eqn:Ed; simpl; [|done].
  intros; simplify_eq.
  pose proof (rx_mem_reads g2 l2 (Z.of_nat (gdb_cpu_regsz r)) V2 ltac:(lia)) as Hm.
  rewrite (proj2 (Z.eqb_eq _ _)) in Hm by lia. destruct Hm as (g3 & Em & [M3 V3]).
  pose proof (port_moved _ _ _ _ M3 Hp2) as Hp3.
  pose proof (p_bytes_length (gdb_cpu_regsz r) l2 ltac:(lia)) as Hbl.
  pose proof (link_rx _ (port_wf _ _ _ Hp3)) as Hw. unfold rx_wf, GDB_BUFSZ in Hw.
  destruct (store_bytes_spec (gdb_rxbuf g3) val (p_bytes l2)) as (buf & Es & Lb & Tb & _); [lia..|].
  unfold rx_mem_at. rewrite Em. cbn [rbind]. rewrite Es. cbn [rbind].
  unfold rx_u64. rewrite (proj2 (andb_true_iff _ _)) by
    (split; apply Z.leb_le; unfold GDB_BUFSZ; lia). cbn [rbind gdb_rxbuf set_rx].
  set (g4 := set_rx buf _ _ g3).
  assert (port g4 rest out) as Hp4.
  { destruct Hp3 as [[R L A S] I O]. split; try done. split; try done.
    unfold rx_wf. simpl. rewrite Lb. exact R. }
  assert (gdb_cpu_setreg (dbg s) r (le_value (take 8 (drop (Z.to_nat val) buf))) = Ok d) as Ev.
  { unfold write_reg in Ed. case_decide as H8.
    - rewrite H8 in Hbl. rewrite Hbl in Tb. rewrite Tb.
      by destruct (gdb_cpu_setreg _ _ _); simpl in Ed; simplify_eq.
    - simplify_eq. by apply setreg_other. }
  change (dbg (set_link g4 (set_link g s))) with (dbg s). rewrite Ev. cbn [rbind].
  reply Hp4.
Qed.

(** *** Breakpoints *)
Lemma rx_z_reads :
  exists z a g', rx_z g = Ok (z, a, g') /\ moved g g' /\ z = u8 (p_char l).1 /\
    a = (if (p_expect (chr ",") (p_char l).2).1
         then (p_addr_size (chr ",") (p_expect (chr ",") (p_char l).2).2).1 else None).
Proof.
  unfold rx_z. destruct (rx_char_reads g l text) as (g1 & E1 & [M1 V1]). rewrite E1. cbn [rbind].
  pose proof (p_char_chars l chars) as Hc1.
  destruct (expect_reads (chr ",") g1 _ Hc1 V1) as (g2 & E2 & [M2 V2]). rewrite E2. cbn [rbind].
  pose proof (p_expect_chars (chr ",") _ Hc1) as Hc2.
  destruct (p_expect (chr ",") (p_char l).2) as [[] l2]; simpl in V2, Hc2 |- *.
  - destruct (addr_size_reads (chr ",") g2 l2 Hc2 V2) as (g3 & E3 & [M3 _]). rewrite E3.
    cbn [rbind]. do 3 eexists. split; [done|]. split; [|done].
    etransitivity; [exact M1|]. by etransitivity.
  - do 3 eexists. split; [done|]. split; [|done]. by etransitivity.
Qed.

Lemma z_insert_serves m s1 :
  spec_z insert_op s l = Some (Reply m s1) ->
  answered s1 m rest out (gdb_z_insert (S fuel) (set_link g s)).
Proof.
  unfold spec_z, gdb_z_insert. cbn [link set_link].
  destruct rx_z_reads as (z & a & g1 & E & M & -> & ->). rewrite E. cbn [rbind].
  pose proof (port_moved _ _ _ _ M port_ready) as Hp.
  destruct (p_char l) as [c l1]. simpl. destruct (p_expect (chr ",") l1) as [ok l2]. simpl.
  destruct (if ok then _ else _) as [[addr len]|]; [|intros; simplify_eq; reply Hp].
  change (dbg (set_link g1 (set_link g s))) with (dbg s).
  unfold insert_op, KDB_DBG_ACCESS_W, KDB_DBG_ACCESS_R, KDB_DBG_ACCESS_RW.
  repeat match goal with |- context [if ?b then _ else _] => destruct b end;
    try (intros; simplify_eq; reply Hp);
    match goal with |- context [run_op ?d ?o] => change (run_op d o) with
      (ltac:(let t := eval cbn [run_op] in (run_op d o) in exact t)) end;
    match goal with |- context [ok_of ?r] => destruct r as [[e d]|] end;
    simpl; intros; simplify_eq; reply Hp.
Qed.

Lemma z_remove_serves m s1 :
  spec_z remove_op s l = Some (Reply m s1) ->
  answered s1 m rest out (gdb_z_remove (S fuel) (set_link g s)).
Proof.
  unfold spec_z, gdb_z_remove. cbn [link set_link].
  destruct rx_z_reads as (z & a & g1 & E & M & -> & ->). rewrite E. cbn [rbind].
  pose proof (port_moved _ _ _ _ M port_ready) as Hp.
  destruct (p_char l) as [c l1]. simpl. destruct (p_expect (chr ",") l1) as [ok l2]. simpl.
  destruct (if ok then _ else _) as [[addr len]|]; [|intros; simplify_eq; reply Hp].
  change (dbg (set_link g1 (set_link g s))) with (dbg s). unfold remove_op.
  repeat match goal with |- context [if ?b then _ else _] => destruct b end;
    try (intros; simplify_eq; reply Hp);
    match goal with |- context [run_op ?d ?o] => change (run_op d o) with
      (ltac:(let t := eval cbn [run_op] in (run_op d o) in exact t)) end;
    match goal with |- context [ok_of ?r] => destruct r as [[e d]|] end;
    simpl; intros; simplify_eq; reply Hp.
Qed.
End Requests.

(** ** Messages made of several parts *)

(** Reassociates the binds of a composition so that [text_answers] applies. *)
Lemma rbind_assoc {A B C} (x : res A) (f : A -> res B) (h : B -> res C) :
  rbind (rbind x f) h = rbind x (fun a => rbind (f a) h).
Proof. by destruct x. Qed.

Lemma chars_str s0 : Forall char (str s0).
Proof.
  unfold str. induction (String.list_ascii_of_string s0) as [|a l IH]; simpl; constructor; [|done].
  unfold char. pose proof (Ascii.N_ascii_bounded a). lia.
Qed.

Lemma writes_word s0 : writes (str s0) (gdb_tx_str (str s0)).
Proof. apply writes_str, chars_str. Qed.

Lemma writes_if (b : bool) m f :
  writes m f -> writes (if b then m else []) (fun g => if b then f g else Ok g).
Proof. intros H. destruct b; [done|apply writes_nil]. Qed.

Lemma varhex_length n : (length (varhex n) <= 16)%nat.
Proof.
  destruct (uintmax_to_hex_digits 16 n []) as [_ L]; [constructor|]. unfold varhex.
  revert L. generalize (uintmax_to_hex 16 n []). intros l L.
  destruct (skip_zeros_spec l (fun _ => True)) as (_ & _ & H & _).
  - apply Forall_true. done.
  - by intros ->.
  - rewrite L in H. simpl in H. lia.
Qed.

Section Queries.
Context (fuel : nat) (s : Stub) (g : FGdb) (rest out l : list Z).
Hypothesis port_ready : port g rest out.
Hypothesis text : rx_view g l.
Hypothesis chars : Forall char l.

Lemma search_serves m s1 :
  spec_search s l = Some (Reply m s1) ->
  answered s1 m rest out (gdb_do_mem_search (S fuel) (set_link g s)).
Proof.
  unfold spec_search, gdb_do_mem_search. cbn [link set_link].
  destruct (addr_size_reads (chr ";") g l chars text) as (g1 & E & [M V]). rewrite E. cbn [rbind].
  pose proof (port_moved _ _ _ _ M port_ready) as Hp.
  pose proof (p_addr_size_chars (chr ";") l chars) as Hc.
  destruct (p_addr_size (chr ";") l) as [[[addr size]|] l1]; cbn [fst snd] in V, Hc |- *;
    [|intros; simplify_eq; reply Hp].
  destruct (expect_reads (chr ";") g1 l1 Hc V) as (g2 & E2 & [M2 V2]).
  rewrite E2. cbn [rbind].
  pose proof (port_moved _ _ _ _ M2 Hp) as Hp2.
  pose proof (p_expect_chars (chr ";") l1 Hc) as Hc2.
  destruct (p_expect (chr ";") l1) as [ok l2]; cbn [fst snd] in V2, Hc2 |- *.
  destruct ok; cbn [negb]; [|intros; simplify_eq; reply Hp2].
  destruct (bindata_reads 64 g2 l2 [] Hc2 V2) as (g3 & E3 & [M3 V3]).
  unfold gdb_rx_bindata. change (Z.to_nat 64) with 64%nat. rewrite E3. cbn [rbind].
  pose proof (port_moved _ _ _ _ M3 Hp2) as Hp3.
  destruct (p_bindata 64 l2) as [[e pat] l3]. cbn [fst snd app].
  destruct (negb (e =? 0)); [intros; simplify_eq; reply Hp3|].
  cbn [gdb_search_mem]. change (1 =? 0) with false. cbv iota.
  change (mem _) with (mem s) at 1.
  set (found := match memmem _ _ with Some k => _ | None => _ end).
  intros Hs. injection Hs as <- <-.
  set (s2 := set_bindata _ (set_link g3 _)).
  destruct (found =? 0).
  -
    destruct (begin_holds g3 (chr "0")) as (g4 & E4 & H4); [apply Hp3|split; vm_compute; congruence|].
    change (link s2) with g3. rewrite E4. cbn [rbind].
    exact (end_answers fuel (set_bindata (pat ++ drop (List.length pat) (gdb_bindata s)) s)
      g3 rest out Hp3 _ _ H4).
  - change (link s2) with g3. rewrite !rbind_assoc.
    pose proof (message_answers fuel (set_bindata (pat ++ drop (List.length pat) (gdb_bindata s)) s)
      g3 rest out Hp3 (chr "1") ([chr ","] ++ uintmax_to_hex 8 found [])
      (fun g => let! g := gdb_tx_char (chr ",") g in gdb_tx_hex found 8 g)) as Ha.

    destruct Ha as (g5 & E5 & H5).
    + split; vm_compute; congruence.
    + apply writes_bind; [apply writes_char; split; vm_compute; congruence|apply writes_hex].
    + change (chr "1" =? 0) with false. rewrite !length_app.
      destruct (uintmax_to_hex_digits 8 found []) as [_ ->]; [constructor|].
      vm_compute. discriminate.
    + exists g5. split; [|exact H5]. rewrite <-E5.
      destruct (gdb_tx_begin (chr "1") g3); [|done]. cbn [rbind]. by rewrite !rbind_assoc.
Qed.
End Queries.

(** ** The features of the host *)

(** The text [l], from offset [p] of the receive buffer on, ends in a NUL. *)
Definition text_at (g : FGdb) (p : Z) (l : list Z) : Prop :=
  g.(gdb_rxp) = Some p /\ 0 <= p /\ g.(gdb_rxsz) = Z.of_nat (length l) /\
  exists junk, drop (Z.to_nat p) g.(gdb_rxbuf) = l ++ 0 :: junk.

Lemma view_text g l : rx_view g l -> rx_end g -> exists p, text_at g p l.
Proof.
  intros (Hr & Hs & p & Hp & H0) (p' & Hp' & Hb). rewrite Hp in Hp'. injection Hp' as <-.
  exists p. split; [done|]. split; [done|]. split; [done|].
  unfold received in Hr. rewrite Hp, Hs, Nat2Z.id in Hr. rewrite Hs in Hb.
  set (b := drop (Z.to_nat p) (gdb_rxbuf g)) in *.
  exists (drop (S (length l)) b). rewrite <-(take_drop (length l) b) at 1. rewrite Hr. f_equal.
  apply drop_S. unfold b. rewrite lookup_drop.
  by replace (Z.to_nat p + length l)%nat with (Z.to_nat (p + Z.of_nat (length l))) by lia.
Qed.

Lemma text_at_bound g p l : text_at g p l -> (Z.to_nat p + length l < length (gdb_rxbuf g))%nat.
Proof.
  intros (_ & H0 & _ & junk & E). apply (f_equal (@List.length Z)) in E.
  rewrite length_drop, length_app in E. simpl in E. lia.
Qed.

Lemma text_at_lookup g p l k x :
  text_at g p l -> l !! k = Some x -> gdb_rxbuf g !! (Z.to_nat p + k)%nat = Some x.
Proof.
  intros (_ & _ & _ & junk & E) Hk. rewrite <-lookup_drop, E. by apply lookup_app_l_Some.
Qed.

(** The buffer is edited in front of the text. *)
Definition edited (g g' : FGdb) : Prop :=
  exists buf p n, g' = set_rx buf p n g /\ length buf = length (gdb_rxbuf g).

Lemma edited_refl g : edited g g.
Proof. exists g.(gdb_rxbuf), g.(gdb_rxp), g.(gdb_rxsz). by destruct g. Qed.

Lemma edited_trans g1 g2 g3 : edited g1 g2 -> edited g2 g3 -> edited g1 g3.
Proof. intros (b & p & n & -> & L) (b' & p' & n' & -> & L'). exists b', p', n'. by rewrite <-L. Qed.

Lemma port_edited g g' rest out : edited g g' -> port g rest out -> port g' rest out.
Proof.
  intros (b & p & n & -> & L) [[R T A S] I O]. split; try done. split; try done.
  unfold rx_wf. simpl. by rewrite L.
Qed.

Definition named (l : list Z) : Prop := Forall (fun c => char c /\ c <> 0) l.

Lemma word_spec l :
  named l -> exists r, l = word l ++ r /\ (r = [] \/ exists l', r = chr ";" :: l' /\ named l').
Proof.
  induction 1 as [|c l Hc Hl IH]; simpl; [by exists []; auto|].
  destruct (Z.eqb_spec c (chr ";")) as [->|Hn].
  - exists (chr ";" :: l). split; [done|]. right. by exists l.
  - destruct IH as (r & E & Hr). exists r. simpl. split; [by f_equal|done].
Qed.

Lemma strchrnul_word l junk :
  named l -> strchrnul (l ++ 0 :: junk) (chr ";") = Ok (Z.of_nat (length (word l))).
Proof.
  induction 1 as [|c l [Hc Hn] Hl IH]; [done|]. simpl. rewrite (proj2 (Z.eqb_neq c 0)) by done.
  simpl. destruct (c =? chr ";"); [done|]. rewrite IH. simpl. f_equal. lia.
Qed.

(** One word is taken off the text. *)
Lemma take_word g p l :
  named l -> l <> [] -> text_at g p l ->
  exists g' l',
    end_token p (Z.of_nat (length (word l))) g = Ok g' /\
    edited g g' /\ named l' /\ (length l' < length l)%nat /\
    l' = drop (S (length (word l))) l /\
    (exists p', text_at g' p' l' /\ p + Z.of_nat (length (word l)) <= p') /\
    forall k x, word l !! k = Some x -> aget g'.(gdb_rxbuf) (p + Z.of_nat k) = Ok x.
Proof.
  intros Hn Hne Ht. pose proof (text_at_bound _ _ _ Ht) as Hb.
  destruct (word_spec l Hn) as (r & E & Hr). set (n := length (word l)) in *.
  assert (length l = n + length r)%nat as El by (rewrite E at 1; by rewrite length_app).
  destruct (Ht) as (Hp & H0 & Hs & junk & Hd).
  unfold end_token. change (gdb_rxbuf (rx_skip (Z.of_nat n) g)) with (gdb_rxbuf g).
  assert (forall (b : list Z) k x, b !! (Z.to_nat p + k)%nat = Some x ->
    aget b (p + Z.of_nat k) = Ok x) as Hget.
  { intros b k x Hx. apply aget_Some; [lia|].
    by replace (Z.to_nat (p + Z.of_nat k)) with (Z.to_nat p + k)%nat by lia. }
  assert (forall k x, word l !! k = Some x -> gdb_rxbuf g !! (Z.to_nat p + k)%nat = Some x) as Hw.
  { intros k x Hk. apply (text_at_lookup _ _ _ _ _ Ht). rewrite E. by apply lookup_app_l_Some. }
  destruct Hr as [->|(l' & -> & Hl')].
  - rewrite (Hget _ n 0).
    2:{ rewrite <-lookup_drop, Hd, E, app_nil_r, lookup_app_r by lia. by rewrite Nat.sub_diag. }
    cbn [rbind negb]. change (0 =? 0) with true. cbn [negb].
    exists (rx_skip (Z.of_nat n) g), []. split; [done|].
    split. { unfold rx_skip. rewrite Hp. by eexists _, _, _. }
    split; [constructor|]. simpl in El. split; [destruct l; simpl in *; [done|lia]|].
    split; [by rewrite drop_ge by lia|]. split; [|intros k x Hk; by apply Hget, Hw].
    exists (p + Z.of_nat n). split; [|lia]. split; [unfold rx_skip; by rewrite Hp|].
    split; [lia|]. split; [simpl; rewrite Hs; simpl; lia|].
    exists junk. simpl. replace (Z.to_nat (p + Z.of_nat n)) with (n + Z.to_nat p)%nat by lia.
    rewrite Nat.add_comm, <-drop_drop, Hd, drop_app_length' by lia. done.
  - simpl in El. rewrite (Hget _ n (chr ";")).
    2:{ rewrite <-lookup_drop, Hd, E, <-app_assoc, lookup_app_r by lia. by rewrite Nat.sub_diag. }
    cbn [rbind]. change (chr ";" =? 0) with false. cbn [negb].
    rewrite aset_in_range by lia. cbn [rbind].
    set (buf := <[_ := 0]> (gdb_rxbuf g)). unfold rx_skip. cbn [gdb_rxp set_rx gdb_rxbuf gdb_rxsz].
    rewrite Hp. cbn [mbind option_bind].
    eexists _, l'. split; [reflexivity|].
    split. { eexists _, _, _. split; [reflexivity|]. by apply length_insert. }
    split; [done|]. split; [lia|].
    split. { rewrite E at 1. rewrite drop_app_ge by lia. by replace (S n - length (word l))%nat with 1%nat by lia. }
    split.
    + exists (p + Z.of_nat n + 1). split; [|lia]. split; [done|]. split; [lia|].
      split; [simpl; rewrite Hs; lia|].
      exists junk. simpl. unfold buf. rewrite drop_insert_lt by lia.
      replace (Z.to_nat (p + Z.of_nat n + 1)) with (Z.to_nat p + S n)%nat by lia.
      rewrite <-drop_drop, Hd, E, <-app_assoc, drop_app_ge by lia.
      by replace (S n - length (word l))%nat with 1%nat by lia.
    + intros k x Hk. apply Hget. simpl. unfold buf.
      apply lookup_lt_Some in Hk as Hk'. rewrite list_lookup_insert_ne by lia. by apply Hw.
Qed.

Lemma features_ok_le n m l :
  (length l <= n)%nat -> (length l <= m)%nat -> features_ok n l = features_ok m l.
Proof.
  revert m l. induction n as [|n IH]; intros m l Hn Hm.
  - destruct l; [by destruct m|simpl in Hn; lia].
  - destruct l as [|c l]; [by destruct m|]. destruct m as [|m]; [simpl in Hm; lia|].
    cbn [features_ok]. f_equal. apply IH; rewrite length_drop; simpl in *; lia.
Qed.

Lemma qsupported_reads n feat g p l :
  named l -> text_at g p l -> (length l < n)%nat ->
  exists r g', qsupported_loop n feat g = Ok (r, g') /\ edited g g' /\
    match r with Some _ => features_ok (length l) l = true | None => features_ok (length l) l = false end.
Proof.
  revert feat g p l. induction n as [|n IH]; intros feat g p l Hn Ht Hl; [lia|].
  cbn [qsupported_loop]. destruct (Ht) as (Hp & H0 & Hs & junk & Hd). rewrite Hs.
  destruct l as [|c l]; [exists (Some feat), g; split; [done|]; split; [apply edited_refl|done]|].
  set (t := c :: l) in *. assert (t <> []) as Hne by done.
  rewrite (proj2 (Z.ltb_lt 0 _)) by (unfold t; simpl; lia).
  rewrite Hp. cbn [of_option rbind]. rewrite Hd, strchrnul_word by done. cbn [rbind]. cbv zeta.
  rewrite Nat2Z.id.
  destruct (word_spec t Hn) as (rr & Er & _).
  assert (take (length (word t)) (t ++ 0 :: junk) = word t) as ->.
  { rewrite Er at 2. rewrite <-app_assoc. by rewrite take_app_length. }
  destruct (take_word g p t Hn Hne Ht) as (g1 & l1 & E1 & M1 & Hn1 & Hl1 & El1 & (p1 & Ht1 & Hp1) & Hw).
  rewrite E1. cbn [rbind].
  assert (features_ok (length t) t = feature_ok (word t) && features_ok (length l1) l1) as Ef.
  { transitivity (feature_ok (word t) && features_ok (length l) (drop (S (length (word t))) t));
      [done|]. f_equal. rewrite <-El1.
    apply features_ok_le; [unfold t in Hl1; simpl in Hl1; lia|done]. }
  clearbody t.
  destruct (IH feat g1 p1 l1 Hn1 Ht1) as (r & g2 & E2 & M2 & R2); [lia|].
  assert (edited g g2) as Mg2 by (by eapply edited_trans).
  unfold feature_ok in Ef.
  destruct (Z.ltb_spec (Z.of_nat (length (word t))) 2).
  { rewrite (proj2 (Nat.leb_gt _ _)) in Ef by lia. by exists None, g1. }
  rewrite (proj2 (Nat.leb_le _ _)) in Ef by lia.
  destruct (lookup_lt_is_Some_2 (word t) (length (word t) - 1)) as [c1 Hc1]; [lia|].
  rewrite Hc1 in Ef. simpl in Ef.
  replace (p + Z.of_nat (length (word t)) - 1) with (p + Z.of_nat (length (word t) - 1)) by lia.
  rewrite (Hw _ _ Hc1). cbn [rbind].
  destruct (c1 =? ch_minus) eqn:Em; simpl in Ef |- *.
  { apply Z.eqb_eq in Em as ->. change (ch_minus =? ch_plus) with false. simpl.
    exists r, g2. rewrite Ef. done. }
  destruct (c1 =? ch_plus) eqn:Ep; simpl in Ef |- *.
  - pose proof (text_at_bound _ _ _ Ht) as Hb. pose proof (text_at_bound _ _ _ Ht1) as Hb1.
    assert (length (gdb_rxbuf g1) = length (gdb_rxbuf g)) as Lb
      by (destruct M1 as (?&?&?&->&L); exact L).
    assert (length (word t) <= length t)%nat as Lw
      by (apply (f_equal (@List.length Z)) in Er; rewrite length_app in Er; lia).
    rewrite aset_in_range by lia. cbn [rbind].
    set (g3 := set_rx _ _ _ g1).
    assert (text_at g3 p1 l1) as Ht3.
    { destruct Ht1 as (Hp' & H0' & Hs' & junk' & Hd'). split; [done|]. split; [done|].
      split; [done|]. exists junk'. simpl. by rewrite drop_insert_lt by lia. }
    assert (edited g g3) as M3.
    { eapply edited_trans; [exact M1|]. eexists _, _, _. split; [reflexivity|].
      by apply length_insert. }
    match goal with |- context [if ?x =? ?y then _ else _] => destruct (x =? y) end.
    + destruct (IH feat g3 p1 l1 Hn1 Ht3) as (r' & g4 & E4 & M4 & R4); [lia|].
      exists r', g4. rewrite E4, Ef. split; [done|]. split; [by eapply edited_trans|done].
    + match goal with |- context [qsupported_loop n ?f g3] =>
        destruct (IH f g3 p1 l1 Hn1 Ht3) as (r' & g4 & E4 & M4 & R4); [lia|] end.
      exists r', g4. rewrite E4, Ef. split; [done|]. split; [by eapply edited_trans|done].
  - destruct (bool_decide _); simpl in Ef |- *; [exists r, g2; by rewrite Ef|by exists None, g1].
Qed.

(** ** Queries *)
Section Query.
Context (fuel : nat) (s : Stub) (g : FGdb) (rest out l : list Z).
Hypothesis port_ready : port g rest out.
Hypothesis text : rx_view g l.
Hypothesis text_end : rx_end g.
Hypothesis text_named : named l.

Lemma supported_writes :
  writes (supported_msg s)
    (fun g => let! g := gdb_tx_str (str "PacketSize") g in
       let! g := gdb_tx_char (chr "=") g in
       let! g := gdb_tx_varhex (GDB_BUFSZ + 4 - 1) g in
       let! g := gdb_tx_str (str ";qXfer:threads:read+") g in
       if negb (Z.land s.(gdb_dbfeatures) GDB_DBGP_FEAT_RELIABLE =? 0) then
         gdb_tx_str (str ";QStartNoAckMode+") g
       else Ok g).
Proof.
  unfold supported_msg. change (str "PacketSize=") with (str "PacketSize" ++ [chr "="]).
  rewrite <-app_assoc. apply writes_bind; [apply writes_word|].
  apply writes_bind; [apply writes_char; split; vm_compute; congruence|].
  apply writes_bind; [apply writes_varhex|]. apply writes_bind; [apply writes_word|].
  apply writes_if, writes_word.
Qed.

Lemma supported_length : Z.of_nat (length (supported_msg s)) <= GDB_BUFSZ.
Proof.
  unfold supported_msg. rewrite !length_app. pose proof (varhex_length (GDB_BUFSZ + 4 - 1)).
  assert (Z.of_nat (length (if negb (Z.land (gdb_dbfeatures s) GDB_DBGP_FEAT_RELIABLE =? 0)
    then str ";QStartNoAckMode+" else [])) <= 17) by (destruct (negb _); vm_compute; congruence).
  change (length (str "PacketSize=")) with 11%nat.
  change (length (str ";qXfer:threads:read+")) with 20%nat.
  unfold GDB_BUFSZ in *. lia.
Qed.

Lemma supported_serves m s1 :
  spec_supported s l = Reply m s1 ->
  exists feat g', gdb_do_qsupported (S fuel) (set_link g s) = Ok (feat, set_link g' s1) /\
    link_wf g' /\ g'.(input) = rest /\ g'.(output) = out ++ frame m.
Proof.
  unfold spec_supported, gdb_do_qsupported. cbn [link set_link].
  destruct (rx_char_reads g l text) as (g1 & E1 & [M1 V1]). rewrite E1. cbn [rbind].
  pose proof (port_moved _ _ _ _ M1 port_ready) as Hp.
  assert (forall feat g2, port g2 rest out ->
    exists g', (let! g := gdb_tx_begin 0 g2 in
       let! g := gdb_tx_str (str "PacketSize") g in
       let! g := gdb_tx_char (chr "=") g in
       let! g := gdb_tx_varhex (GDB_BUFSZ + 4 - 1) g in
       let! g := gdb_tx_str (str ";qXfer:threads:read+") g in
       let! g := if negb (Z.land s.(gdb_dbfeatures) GDB_DBGP_FEAT_RELIABLE =? 0) then
           gdb_tx_str (str ";QStartNoAckMode+") g else Ok g in
       let! s := send (gdb_tx_end (S fuel)) (set_link g s) in Ok (feat, s)) = Ok (feat : Z, set_link g' s) /\
    link_wf g' /\ g'.(input) = rest /\ g'.(output) = out ++ frame (supported_msg s)) as Hyes.
  { intros feat g2 Hp2.
    destruct (text_answers fuel s g2 rest out Hp2 _ _ supported_writes supported_length)
      as (g3 & E3 & H3). exists g3. split; [|done].
    transitivity (let! s := (let! g1 := gdb_tx_begin 0 g2 in
      let! g1 := (let! g := gdb_tx_str (str "PacketSize") g1 in
       let! g := gdb_tx_char (chr "=") g in
       let! g := gdb_tx_varhex (GDB_BUFSZ + 4 - 1) g in
       let! g := gdb_tx_str (str ";qXfer:threads:read+") g in
       if negb (Z.land s.(gdb_dbfeatures) GDB_DBGP_FEAT_RELIABLE =? 0) then
         gdb_tx_str (str ";QStartNoAckMode+") g
       else Ok g) in send (gdb_tx_end (S fuel)) (set_link g1 s)) in Ok (feat, s)).
    - destruct (gdb_tx_begin 0 g2) as [a|]; [|done]. cbn [rbind].
      destruct (gdb_tx_str _ a) as [b|]; [|done]. cbn [rbind].
      destruct (gdb_tx_char _ b) as [c|]; [|done]. cbn [rbind].
      destruct (gdb_tx_varhex _ c) as [d|]; [|done]. cbn [rbind].
      destruct (gdb_tx_str _ d) as [e|]; [|done]. cbn [rbind].
      by destruct (negb _); [destruct (gdb_tx_str _ e)|].
    - by rewrite E3. }
  assert (forall g2, port g2 rest out ->
    exists g', (let! s := send (gdb_tx_err (S fuel) EINVAL) (set_link g2 s) in Ok (0, s)) =
      Ok (0, set_link g' s) /\
    link_wf g' /\ g'.(input) = rest /\ g'.(output) = out ++ frame (err_msg EINVAL)) as Hno.
  { intros g2 Hp2. destruct (err_answers fuel s g2 rest out Hp2 EINVAL) as (g3 & E3 & H3).
    exists g3. by rewrite E3. }
  destruct l as [|c l1]; cbn [p_char fst snd] in *.
  - intros [= <- <-]. change (EOF =? chr ":") with false. change (EOF =? EOF) with true.
    cbn [rbind]. exists 0. by apply Hyes.
  - apply Forall_cons_1 in text_named as [[Hc _] Hn1].
    destruct (c =? chr ":") eqn:Ec; cbn [andb].
    + destruct (view_text g1 l1 V1 (rx_end_moved _ _ M1 text_end)) as (p & Ht).
      destruct (V1) as (_ & Hs & _).
      destruct (qsupported_reads (S (Z.to_nat (gdb_rxsz g1))) 0 g1 p l1 Hn1 Ht)
        as (r & g2 & E2 & M2 & R2); [rewrite Hs; lia|].
      pose proof (port_edited _ _ _ _ M2 Hp) as Hp2. rewrite E2. cbn [rbind].
      destruct r as [feat|]; rewrite R2; intros [= <- <-];
        [exists feat; by apply Hyes|exists 0; by apply Hno].
    + intros [= <- <-]. change EOF with (-1). rewrite char_not_eof by done. cbn [rbind].
      exists 0. by apply Hno.
Qed.

Lemma equal_reads name :
  exists b g', rx_equal name g = Ok (b, g') /\
    match p_prefix (str name) l with
    | Some l' => b = true /\ reads g l' g'
    | None => b = false /\ g' = g
    end.
Proof.
  destruct (rx_equal_reads g (str name) l text) as (r & g' & E & H).
  exists (negb (r =? 0)), g'. unfold rx_equal. rewrite E. split; [done|].
  destruct (p_prefix (str name) l); destruct H as [-> H]; by split.
Qed.
End Query.

Section SystemQuery.
Context (fuel : nat) (s : Stub) (g : FGdb) (rest out l : list Z).
Hypothesis port_ready : port g rest out.
Hypothesis text : rx_view g l.
Hypothesis text_end : rx_end g.
Hypothesis text_named : named l.

(** The next word of the chain: either it is not there and nothing has changed, or
    the query is answered. *)
Ltac next_word name :=
  let b := fresh "b" in let g1 := fresh "g" in let E := fresh "E" in let H := fresh "Hw" in
  destruct (equal_reads g l text name) as (b & g1 & E & H);
  repeat change (link (set_link g _)) with g; rewrite E; cbn [rbind]; clear E;
  destruct (p_prefix (str name) l) as [?l'|] eqn:?Epre;
  destruct H as [-> H]; [destruct H as [?M ?V]|subst g1].

Lemma prefix_named w l' : p_prefix w l = Some l' -> named l'.
Proof.
  revert text_named. clear. revert l. induction w as [|c w IH]; intros l Hl E; simpl in E; [by simplify_eq|].
  destruct l as [|x l]; [done|]. apply Forall_cons_1 in Hl as [_ Hl].
  destruct (c =? x); [by eapply IH|done].
Qed.

Lemma thread_answers g1 :
  port g1 rest out ->
  answered s (str "QC" ++ varhex FGdbCurrentThreadId) rest out
    (let! g := gdb_tx_begin (chr "Q") g1 in
     let! g := gdb_tx_char (chr "C") g in
     let! g := gdb_tx_varhex FGdbCurrentThreadId g in
     send (gdb_tx_end (S fuel)) (set_link g s)).
Proof.
  intros Hp.
  destruct (message_answers fuel s g1 rest out Hp (chr "Q") ([chr "C"] ++ varhex FGdbCurrentThreadId)
    (fun g => let! g := gdb_tx_char (chr "C") g in gdb_tx_varhex FGdbCurrentThreadId g))
    as (g2 & E2 & H2).
  - split; vm_compute; congruence.
  - apply writes_bind; [apply writes_char; split; vm_compute; congruence|apply writes_varhex].
  - vm_compute. congruence.
  - exists g2. split; [|exact H2]. rewrite <-E2.
    destruct (gdb_tx_begin (chr "Q") g1) as [a|]; [|done]. cbn [rbind].
    by destruct (gdb_tx_char (chr "C") a).
Qed.

Lemma query_serves m s1 :
  spec_query s l = Some (Reply m s1) ->
  answered s1 m rest out (FGdbSystemQuery (S fuel) (set_link g s)).
Proof.
  unfold spec_query, FGdbSystemQuery.
  next_word "C"%string.
  { intros [= <- <-]. apply thread_answers. by eapply port_moved. }
  next_word "Supported"%string.
  { intros [= Es].
    pose proof (port_moved _ _ _ _ M port_ready) as Hp.
    destruct (supported_serves fuel s g0 rest out l' Hp V (rx_end_moved _ _ M text_end)
      (prefix_named _ _ Epre0) m s1 Es) as (feat & g2 & E2 & H2).
    exists g2. split; [|exact H2].
    change (set_link g0 (set_link g (set_link g s))) with (set_link g0 s). by rewrite E2. }
  next_word "fThreadInfo"%string.
  { intros [= <- <-]. pose proof (port_moved _ _ _ _ M port_ready) as Hp. reply Hp. }
  next_word "sThreadInfo"%string.
  { intros [= <- <-]. pose proof (port_moved _ _ _ _ M port_ready) as Hp. reply Hp. }
  next_word "Xfer:"%string.
  { intros [= <- <-]. pose proof (port_moved _ _ _ _ M port_ready) as Hp. reply Hp. }
  next_word "Search:memory:"%string.
  { intros Es. pose proof (port_moved _ _ _ _ M port_ready) as Hp.
    eapply (search_serves fuel s); [exact Hp|exact V| |exact Es].
    pose proof (prefix_named _ _ Epre4) as Hn. eapply Forall_impl; [|exact Hn]. by intros ? [? _]. }
  intros [= <- <-]. reply port_ready.
Qed.
End SystemQuery.
