(* ===== verification/GdbSessionProps.v ===== *)
(** Properties of the session of the GDB stub (GdbSession.v): every request has the
    reaction GdbSpec.v describes, a whole session the transcript ([trap_serves]), and
    what requests outside the description do. *)
From Stdlib Require Import String.
From stdpp Require Import relations.
From S2P Require Import Prelude GdbPacket GdbPacketProps GdbLink GdbArch GdbArchProps.
From S2P Require Import GdbSession GdbSpec GdbServe.

(** ** Messages with registers *)
Lemma tx_regs_writes d n r t :
  regs_text d r n = Some t -> writes t (tx_regs d r n) /\ (length t <= 32 * n)%nat.
Proof.
  revert r t. induction n as [|n IH]; intros r t E; cbn [regs_text tx_regs] in *.
  - injection E as <-. split; [apply writes_nil|simpl; lia].
  - destruct (reg_text d r) as [t1|] eqn:E1; [|done]. cbn [mbind option_bind] in E.
    destruct (regs_text d (r + 1) n) as [t2|] eqn:E2; [|done]. injection E as <-.
    destruct (tx_reg_writes d r t1 E1) as [W1 L1]. destruct (IH _ _ E2) as [W2 L2].
    split; [by apply writes_bind|]. rewrite length_app. lia.
Qed.

(** ** A request *)

(** The memory holds bytes. *)
Definition mem_ok (s : Stub) : Prop := forall a, char (s.(mem) a).

Lemma mem_write_char bytes m a :
  Forall char bytes -> (forall x, char (m x)) -> forall x, char (mem_write m a bytes x).
Proof.
  intros Hb. revert m a. induction Hb as [|b bytes Hb _ IH]; intros m a Hm x; simpl; [apply Hm|].
  apply IH. intros y. by destruct (y =? u64 a).
Qed.

Lemma data_byte_char c0 c1 : char (data_byte c0 c1).
Proof. apply (wrap_range 8). lia. Qed.

Lemma p_bytes_char n l : (length l <= n)%nat -> Forall char (p_bytes l).
Proof.
  revert l. induction n as [|n IH]; intros [|c0 [|c1 l]] Hl; simpl in *; try constructor; try lia.
  - apply data_byte_char.
  - apply IH. lia.
Qed.

(** What the port has seen after a reaction. *)
Definition port_after (r : reaction) (rest_in rest out : list Z) (g : FGdb) : Prop :=
  link_wf g /\
  match r with
  | Reply m _ | ReplyResume m _ =>
      rest_in = ch_plus :: rest /\ g.(input) = rest /\ g.(output) = out ++ frame m
  | SilentResume _ => rest_in = rest /\ g.(input) = rest /\ g.(output) = out
  end.

Definition outcome_of (r : reaction) (g : FGdb) : outcome :=
  match r with
  | Reply _ s => Listen (set_link g s)
  | ReplyResume _ s | SilentResume s => Resume (set_link g s)
  end.

(** What must be on the port behind the request. *)
Definition acked (r : reaction) (rest_in rest : list Z) : Prop :=
  match r with
  | Reply _ _ | ReplyResume _ _ => rest_in = ch_plus :: rest
  | SilentResume _ => rest_in = rest
  end.

Lemma listen_bind {A B} (x : res A) (f : A -> res B) h :
  (let! a := x in let! b := f a in listen (h b)) = listen (let! a := x in let! b := f a in h b).
Proof. destruct x as [a|]; [|done]. cbn [rbind]. by destruct (f a). Qed.

(** A request that is always answered. *)
Definition replies (o : option reaction) : Prop :=
  match o with Some (Reply _ _) | None => True | _ => False end.

Ltac replies :=
  repeat (done || match goal with
  | |- context [match ?x with _ => _ end] => destruct x
  | |- context [mbind _ ?x] => destruct x; cbn [mbind option_bind]
  end).

Lemma replies_read_mem s l : replies (spec_read_mem s l).
Proof. unfold spec_read_mem. replies. Qed.

Lemma replies_write_mem s l : replies (spec_write_mem s l).
Proof. unfold spec_write_mem. replies. Qed.

Lemma replies_read_reg s l : replies (spec_read_reg s l).
Proof. unfold spec_read_reg. replies. Qed.

Lemma replies_write_reg s l : replies (spec_write_reg s l).
Proof. unfold spec_write_reg. replies. Qed.

Lemma replies_z which s l : replies (spec_z which s l).
Proof. unfold spec_z. replies. Qed.

Lemma replies_query s l : replies (spec_query s l).
Proof. unfold spec_query, spec_search, spec_supported. replies. Qed.

Section Handle.
Context (fuel : nat) (type : Z) (s : Stub) (g : FGdb) (p rest_in rest out : list Z).
Hypothesis ready : request_ready g p rest_in out.
Hypothesis p_named : named p.
Hypothesis memory : mem_ok s.

Lemma answered_listen m s1 r :
  rest_in = ch_plus :: rest -> answered s1 m rest out r ->
  exists g', listen r = Ok (Listen (set_link g' s1)) /\ port_after (Reply m s1) rest_in rest out g'.
Proof. intros Hi (g' & -> & W & I & O). exists g'. by split_and!. Qed.

(** The letter has been read. *)
Lemma letter_reads :
  exists g1, gdb_rx_char g = Ok ((p_char p).1, g1) /\ reads g (p_char p).2 g1 /\ rx_end g1 /\
    link_wf g1 /\ g1.(input) = rest_in /\ g1.(output) = out /\
    (p <> [] -> g1.(gdb_rxp) = Some 1).
Proof.
  destruct ready as [W V St E I O]. destruct (rx_char_reads g p V) as (g1 & E1 & [M V1]).
  exists g1. destruct (moved_io _ _ M) as [Ei Eo].
  split_and!; try done; try congruence; [by eapply rx_end_moved|by eapply link_wf_moved|].
  intros Hp. destruct p as [|c l]; [done|]. rewrite (view_char _ _ _ V) in E1.
  injection E1 as <-. unfold rx_skip. by rewrite St.
Qed.

Lemma resume_reads g1 l s2 :
  Forall char l -> rx_view g1 l -> link_wf g1 -> spec_resume_at s l = Some s2 ->
  exists g2, resume_at (set_link g1 s) = Ok (set_link g2 s2) /\ moved g1 g2.
Proof.
  intros Hl Hv Hw. unfold spec_resume_at, resume_at. cbn [link set_link].
  destruct (number_reads g1 l Hl Hv) as (g2 & E & [M _]). rewrite E. cbn [rbind].
  destruct ((p_number l).1) as [pc|].
  - change (dbg (set_link g2 (set_link g1 s))) with (dbg s).
    destruct (gdb_cpu_setreg (dbg s) GDB_REG_PC pc); [|done]. intros [= <-]. by exists g2.
  - intros [= <-]. by exists g2.
Qed.

Lemma continue_serves g1 l s1 step kdb :
  step = do_continue /\ kdb = kdb_cpu_clear_singlestep \/
  step = do_step /\ kdb = kdb_cpu_set_singlestep ->
  Forall char l -> rx_view g1 l -> link_wf g1 ->
  (s2 ← spec_resume_at s l; d ← ok_of (kdb s2.(dbg));
   Some (SilentResume (set_listening 1 (set_dbg d s2)))) = Some (SilentResume s1) ->
  exists g2, step (set_link g1 s) = Ok (Resume (set_link g2 s1)) /\ moved g1 g2.
Proof.
  intros Hk Hl Hv Hw Hs. destruct (spec_resume_at s l) as [s2|] eqn:E2; [|done].
  destruct (resume_reads g1 l s2 Hl Hv Hw E2) as (g2 & E & M). cbn [mbind option_bind] in Hs.
  exists g2. split; [|done].
  destruct Hk as [[-> ->]|[-> ->]]; unfold do_continue, do_step; rewrite E; cbn [rbind];
    change (dbg (set_link g2 s2)) with (dbg s2);
    match goal with |- context [rbind ?x _] => destruct x as [d|] end; simpl in Hs; by simplify_eq.
Qed.

Lemma continue_after g1 l r step kdb :
  step = do_continue /\ kdb = kdb_cpu_clear_singlestep \/
  step = do_step /\ kdb = kdb_cpu_set_singlestep ->
  Forall char l -> rx_view g1 l -> link_wf g1 -> g1.(input) = rest_in -> g1.(output) = out ->
  (s2 ← spec_resume_at s l; d ← ok_of (kdb s2.(dbg));
   Some (SilentResume (set_listening 1 (set_dbg d s2)))) = Some r -> acked r rest_in rest ->
  exists g', step (set_link g1 s) = Ok (outcome_of r g') /\ port_after r rest_in rest out g'.
Proof.
  intros Hk Hl Hv Hw I1 O1 Er Ha.
  assert (exists s1, r = SilentResume s1) as [s1 ->].
  { destruct (spec_resume_at s l) as [s2|]; [|done]. cbn [mbind option_bind] in Er.
    destruct (ok_of _); [|done]. injection Er as <-. by eexists. }
  destruct (continue_serves g1 l s1 step kdb Hk Hl Hv Hw Er) as (g2 & E2 & M2).
  exists g2. split; [done|]. destruct (moved_io _ _ M2) as [Ei Eo].
  split; [by eapply link_wf_moved|]. simpl in Ha. by split_and!; congruence.
Qed.

Lemma serves_listen o r f :
  replies o -> (rest_in = ch_plus :: rest -> forall m s1, o = Some (Reply m s1) -> answered s1 m rest out f) ->
  o = Some r -> acked r rest_in rest ->
  exists g', listen f = Ok (outcome_of r g') /\ port_after r rest_in rest out g'.
Proof.
  intros Hr Hf -> Ha. destruct r as [m s1|m s1|s1]; [|done..].
  by apply answered_listen; [|apply Hf].
Qed.

Lemma detach_serves g1 d :
  kdb_cpu_clear_singlestep s.(dbg) = Ok d ->
  gdb_handle_detach (set_link g1 s) = Ok (set_link g1 (detached s d)).
Proof.
  intros E. unfold gdb_handle_detach. change (dbg (set_link g1 s)) with (dbg s). rewrite E.
  cbn [rbind]. unfold detached. simpl. by destruct (negb _).
Qed.

Lemma handle_request_serves r :
  spec_request type s p = Some r -> acked r rest_in rest ->
  exists g', handle_request (S fuel) type (set_link g s) = Ok (outcome_of r g') /\
    port_after r rest_in rest out g'.
Proof.
  destruct letter_reads as (g1 & E1 & [M1 V1] & N1 & W1 & I1 & O1 & P1).
  assert (named (p_char p).2) as Hn.
  { destruct p; [done|]. by apply Forall_cons_1 in p_named as [_ ?]. }
  assert (Forall char (p_char p).2) as Hc by (eapply Forall_impl; [|exact Hn]; by intros ? []).
  assert (rest_in = ch_plus :: rest -> port g1 rest out) as Hp by (by intros ->).
  assert (forall m s1 r', rest_in = ch_plus :: rest -> answered s1 m rest out r' ->
    exists g', listen r' = Ok (outcome_of (Reply m s1) g') /\
      port_after (Reply m s1) rest_in rest out g') as Hlisten.
  { intros m s1 r' Hi Ha. by apply answered_listen. }
  unfold spec_request, handle_request. change (link (set_link g s)) with g. rewrite E1. cbn [rbind].
  pose proof P1 as P1'. destruct (p_char p) as [req l] eqn:Epc. cbn [fst snd] in *.
  change (set_link g1 (set_link g s)) with (set_link g1 s).
  change (link (set_link g1 s)) with g1. change (dbg (set_link g1 s)) with (dbg s).
  destruct (req =? chr "?").
  { intros [= <-] Ha. rewrite listen_bind. apply Hlisten; [done|].
    apply (message_answers fuel s g1 rest out (Hp Ha) (chr "T")
      (uintmax_to_hex 2 (gdb_cpu_signal type) []) (gdb_tx_hex (gdb_cpu_signal type) 2)).
    - split; vm_compute; congruence.
    - apply writes_hex.
    - vm_compute. congruence. }
  destruct (req =? chr "c").
  { intros Er Ha.
    apply (continue_after g1 l r do_continue kdb_cpu_clear_singlestep); try done. by left. }
  destruct (req =? chr "D").
  { destruct (kdb_cpu_clear_singlestep (dbg s)) as [d|] eqn:Ed; [|done].
    cbn [mbind option_bind ok_of]. intros [= <-] Ha. simpl in Ha.
    destruct (ok_answers fuel s g1 rest out (Hp Ha)) as (g2 & E2 & W2 & I2 & O2).
    exists g2. rewrite E2. cbn [rbind]. rewrite (detach_serves g2 d Ed). cbn [rbind].
    by split_and!. }
  destruct (req =? chr "g").
  { destruct (regs_text (dbg s) 0 (Z.to_nat GDB_NREGS)) as [t|] eqn:Et; [|done].
    intros [= <-] Ha. rewrite listen_bind. apply Hlisten; [done|].
    destruct (tx_regs_writes _ _ _ _ Et) as [Hw Hl].
    apply (text_answers fuel s g1 rest out (Hp Ha) t (tx_regs (dbg s) 0 (Z.to_nat GDB_NREGS)) Hw).
    change (Z.to_nat GDB_NREGS) with 68%nat in Hl. unfold GDB_BUFSZ. lia. }
  destruct (req =? chr "G"); [done|].
  destruct (req =? chr "H").
  { intros [= <-] Ha. apply Hlisten; [done|]. apply (ok_answers fuel s g1 rest out (Hp Ha)). }
  destruct (req =? chr "k").
  { destruct (kdb_cpu_clear_singlestep (dbg s)) as [d|] eqn:Ed; [|done].
    cbn [mbind option_bind ok_of]. intros [= <-] Ha. simpl in Ha. exists g1.
    rewrite (detach_serves g1 d Ed). cbn [rbind]. split; [done|].
    split; [done|]. split_and!; congruence. }
  destruct (req =? chr "m").
  { apply serves_listen; [apply replies_read_mem|]. intros Hi m s1.
    by apply (read_mem_serves fuel s g1 rest out l (Hp Hi) V1 Hc). }
  destruct (req =? chr "M").
  { apply serves_listen; [apply replies_write_mem|]. intros Hi m s1.
    by apply (write_mem_serves fuel s g1 rest out l (Hp Hi) V1 Hc). }
  destruct (req =? chr "p").
  { apply serves_listen; [apply replies_read_reg|]. intros Hi m s1.
    by apply (read_reg_serves fuel s g1 rest out l (Hp Hi) V1 Hc). }
  destruct (Z.eqb_spec req (chr "P")) as [->|_].
  { apply serves_listen; [apply replies_write_reg|]. intros Hi m s1.
    apply (write_reg_serves fuel s g1 rest out l (Hp Hi) V1 Hc m s1 1); [|lia].
    apply P1. intros ->. discriminate Epc. }
  destruct (req =? chr "q").
  { apply serves_listen; [apply replies_query|]. intros Hi m s1.
    by apply (query_serves fuel s g1 rest out l (Hp Hi) V1 N1 Hn). }
  destruct (req =? chr "s").
  { intros Er Ha.
    apply (continue_after g1 l r do_step kdb_cpu_set_singlestep); try done. by right. }
  destruct (req =? chr "z").
  { apply serves_listen; [apply replies_z|]. intros Hi m s1.
    by apply (z_remove_serves fuel s g1 rest out l (Hp Hi) V1 Hc). }
  destruct (req =? chr "Z").
  { apply serves_listen; [apply replies_z|]. intros Hi m s1.
    by apply (z_insert_serves fuel s g1 rest out l (Hp Hi) V1 Hc). }
  apply serves_listen; [done|]. intros Hi m s1 [= <- <-]. apply (empty_answers fuel s g1 rest out (Hp Hi)).
Qed.
End Handle.

(** ** The loop of the session *)
Definition state_after (r : reaction) : Stub :=
  match r with Reply _ s | ReplyResume _ s | SilentResume s => s end.

Definition mem_after (o : option reaction) : Prop :=
  match o with Some r => mem_ok (state_after r) | None => True end.

Ltac simple x :=
  lazymatch x with
  | context [match _ with _ => _ end] => fail
  | context [mbind _ _] => fail
  | _ => idtac
  end.

Ltac unchanged Hm :=
  repeat (exact Hm || exact I || match goal with
  | |- context [match ?x with _ => _ end] => simple x; destruct x
  | |- context [mbind _ ?x] => simple x; destruct x; cbn [mbind option_bind]
  end).

Lemma write_mem_after s l : mem_ok s -> mem_after (spec_write_mem s l).
Proof.
  intros Hm. unfold spec_write_mem. destruct (p_addr_size (chr ",") l) as [[[addr size]|] l1];
    [|exact Hm]. destruct (p_expect (chr ":") l1) as [[] l2]; [|exact Hm]. cbn [negb].
  destruct (size <? 2 ^ 63); [|exact I]. destruct (_ =? _); [|exact Hm].
  unfold mem_after, state_after, mem_ok. intros a. apply mem_write_char; [|exact Hm].
  by apply (p_bytes_char (length l2)).
Qed.

Lemma resume_at_mem s l : mem_ok s -> match spec_resume_at s l with Some s2 => mem_ok s2 | None => True end.
Proof. intros Hm. unfold spec_resume_at. unchanged Hm. Qed.

Lemma request_mem type s p : mem_ok s -> mem_after (spec_request type s p).
Proof.
  intros Hm. unfold spec_request. destruct (p_char p) as [req l].
  pose proof (resume_at_mem s l Hm) as Hr. pose proof (write_mem_after s l Hm) as Hw.
  assert (mem_after (spec_read_mem s l)) by (unfold spec_read_mem; unchanged Hm).
  assert (mem_after (spec_read_reg s l)) by (unfold spec_read_reg; unchanged Hm).
  assert (mem_after (spec_write_reg s l)) by (unfold spec_write_reg; unchanged Hm).
  assert (mem_after (spec_query s l))
    by (unfold spec_query, spec_search, spec_supported; unchanged Hm).
  assert (forall which, mem_after (spec_z which s l)) by (intros; unfold spec_z; unchanged Hm).
  assert (forall d, mem_ok (detached s d)) as Hd
    by (intros; unfold detached; unchanged Hm).
  destruct (spec_resume_at s l); cbn [mbind option_bind];
    unchanged Hm; done || exact Hr || apply Hd.
Qed.

(** A request the specification speaks about. *)
Definition well_sent (p : list Z) : Prop := request p /\ named p.

Lemma request_loop_step fuel n type s g p r rest_in rest :
  well_sent p -> mem_ok s -> link_wf g -> g.(input) = raw_frame p ++ rest_in ->
  spec_request type s p = Some r -> acked r rest_in rest ->
  exists g', request_loop (S n) (S fuel) type (set_link g s) =
      match outcome_of r g' with
      | Listen s => request_loop n (S fuel) type s
      | Resume s => Ok (1, s)
      end /\
    port_after r rest_in rest (g.(output) ++ [ch_plus]) g'.
Proof.
  intros [Hq Hn] Hm Hw Hi Hr Ha. cbn [request_loop]. change (link (set_link g s)) with g.
  destruct (begin_reads fuel g p rest_in Hw Hq Hi) as (g1 & E1 & Hready). rewrite E1.
  cbn [rbind]. change (negb (0 =? 0)) with false. cbv iota.
  change (set_link g1 (set_link g s)) with (set_link g1 s).
  destruct (handle_request_serves fuel type s g1 p rest_in rest _ Hready Hn Hm r Hr Ha)
    as (g2 & E2 & Hp).
  exists g2. rewrite E2. by split.
Qed.

#[local] Opaque raw_frame frame.

Lemma request_loop_serves reqs fuel n type s g i o s' rest :
  Forall well_sent reqs -> spec_session type s reqs = Some (i, o, s') -> mem_ok s ->
  link_wf g -> g.(input) = i ++ rest -> (length reqs <= n)%nat ->
  exists g', request_loop n (S fuel) type (set_link g s) = Ok (1, set_link g' s') /\
    link_wf g' /\ g'.(input) = rest /\ g'.(output) = g.(output) ++ o.
Proof.
  intros Hq. revert n s g i o. induction Hq as [|p reqs Hp _ IH]; [done|].
  intros [|n] s g i o Hs Hm Hw Hi Hl; cbn [length] in Hl; [lia|]. cbn [spec_session] in Hs.
  destruct (spec_request type s p) as [r|] eqn:Er; [|done]. cbn [mbind option_bind] in Hs.
  pose proof (request_mem type s p Hm) as Hm1. rewrite Er in Hm1.
  pose proof (request_loop_step fuel n type s g p r) as Hstep.
  destruct r as [m s1|m s1|s1].
  - destruct (spec_session type s1 reqs) as [[[i1 o1] s2]|] eqn:Es; [|done].
    injection Hs as <- <- <-. rewrite <-(app_assoc (raw_frame p)) in Hi.
    destruct (Hstep _ (i1 ++ rest) Hp Hm Hw Hi Er eq_refl) as (g1 & E1 & W1 & _ & I1 & O1).
    rewrite E1. destruct (IH n s1 g1 i1 o1 Es Hm1 W1 I1) as (g2 & E2 & W2 & I2 & O2); [lia|].
    exists g2. split_and!; try done. rewrite O2, O1, <-!app_assoc. done.
  - injection Hs as <- <- <-. rewrite <-(app_assoc (raw_frame p)) in Hi.
    destruct (Hstep _ rest Hp Hm Hw Hi Er eq_refl) as (g1 & E1 & W1 & _ & I1 & O1).
    exists g1. split_and!; try done. rewrite O1, <-app_assoc. done.
  - injection Hs as <- <- <-.
    destruct (Hstep _ rest Hp Hm Hw Hi Er eq_refl) as (g1 & E1 & W1 & _ & I1 & O1).
    by exists g1.
Qed.

(** ** The stop reply *)
Lemma chr_char c : char (chr c).
Proof.
  unfold chr. pose proof (chars_str c) as H. destruct (str c); [unfold char; lia|].
  by apply Forall_cons_1 in H as [? _].
Qed.

(** What follows the signal in the stop reply. *)
Definition stop_text (type : Z) (s : Stub) (pc : list Z) : list Z :=
  uintmax_to_hex 2 (gdb_cpu_signal type) [] ++ varhex GDB_REG_PC ++ [chr ":"] ++ pc ++ [chr ";"] ++
  (if type =? EXCP_WATCHPT_EL1
   then str "watch:" ++ varhex s.(dbg).(sys).(far_el1) ++ [chr ";"] else []) ++
  str "thread:" ++ varhex FGdbCurrentThreadId ++ [chr ";"].

Lemma stop_text_length type s pc :
  (length pc <= 32)%nat -> Z.of_nat (length (stop_text type s pc)) <= GDB_BUFSZ - 1.
Proof.
  intros Hl. unfold stop_text.
  pose proof (varhex_length GDB_REG_PC) as H1.
  pose proof (varhex_length s.(dbg).(sys).(far_el1)) as H2.
  pose proof (varhex_length FGdbCurrentThreadId) as H3. revert H1 H2 H3.
  destruct (uintmax_to_hex_digits 2 (gdb_cpu_signal type) []) as [_ L]; [constructor|]. revert L.
  generalize (uintmax_to_hex 2 (gdb_cpu_signal type) []) (varhex GDB_REG_PC)
    (varhex s.(dbg).(sys).(far_el1)) (varhex FGdbCurrentThreadId).
  intros l1 l2 l3 l4 L1 L2 L3 L4.
  destruct (type =? EXCP_WATCHPT_EL1); rewrite !length_app;
    change (length (str "watch:")) with 6%nat; change (length (str "thread:")) with 7%nat;
    cbn [length] in *; unfold GDB_BUFSZ; lia.
Qed.

(** The two sides of an equation take the same step. *)
Ltac step_binds :=
  repeat match goal with
  | |- rbind ?x _ = rbind (rbind ?x _) _ => destruct x; [cbn [rbind]|done]
  | |- rbind ?x _ = rbind ?x _ => destruct x; [cbn [rbind]|done]
  | |- rbind (rbind ?x _) _ = rbind (rbind ?x _) _ => destruct x; [cbn [rbind]|done]
  | |- rbind (rbind ?x _) _ = rbind (rbind (rbind ?x _) _) _ => destruct x; [cbn [rbind]|done]
  end.

Lemma send_stop_serves fuel type s g rest out m :
  port g rest out -> spec_stop type s = Some m ->
  answered s m rest out (send_stop (S fuel) type (set_link g s)).
Proof.
  intros Hp. unfold spec_stop.
  destruct (reg_text (dbg s) GDB_REG_PC) as [pc|] eqn:Ep; [|done]. cbn [mbind option_bind].
  intros Hm. apply (inj Some) in Hm. subst m. destruct (tx_reg_writes _ _ _ Ep) as [Wp Lp].
  set (watch := if type =? EXCP_WATCHPT_EL1
     then str "watch:" ++ varhex s.(dbg).(sys).(far_el1) ++ [chr ";"] else []).
  set (watched g := if type =? EXCP_WATCHPT_EL1 then
      let! g := gdb_tx_str (str "watch:") g in
      let! g := gdb_tx_varhex s.(dbg).(sys).(far_el1) g in gdb_tx_char (chr ";") g
    else Ok g).
  assert (writes watch watched) as Ww.
  { apply writes_if. repeat (apply writes_bind; [apply writes_word || apply writes_varhex|]).
    apply writes_char, chr_char. }
  destruct (message_answers fuel s g rest out Hp (chr "T") (stop_text type s pc)
    (fun g => let! g := gdb_tx_hex (gdb_cpu_signal type) 2 g in
      let! g := gdb_tx_varhex GDB_REG_PC g in
      let! g := gdb_tx_char (chr ":") g in
      let! g := tx_reg s.(dbg) GDB_REG_PC g in
      let! g := gdb_tx_char (chr ";") g in
      let! g := watched g in
      let! g := gdb_tx_str (str "thread:") g in
      let! g := gdb_tx_varhex FGdbCurrentThreadId g in
      gdb_tx_char (chr ";") g)) as (g1 & E & H1); [apply chr_char| | |].
  - repeat (apply writes_bind; [apply writes_hex || apply writes_varhex || exact Wp || exact Ww ||
      apply writes_word || (apply writes_char, chr_char)|]). apply writes_char, chr_char.
  - pose proof (stop_text_length type s pc Lp). change (chr "T" =? 0) with false.
    cbn [app length]. lia.
  - exists g1. split; [|exact H1]. rewrite <-E. unfold send_stop. cbn [link set_link].
    change (dbg (set_link g s)) with (dbg s).
    assert (forall g2, gdb_cpu_stop_reason (set_link g2 (set_link g s)) type =
      let! g := watched g2 in Ok (set_link g s)) as Er.
    { intros g2. unfold gdb_cpu_stop_reason, watched. destruct (_ =? _); [|done].
      cbn [link set_link]. change (dbg (set_link g2 (set_link g s))) with (dbg s).
      step_binds. done. }
    step_binds. rewrite Er. step_binds. cbn [link set_link]. step_binds. done.
Qed.

(** ** The trap *)

(** Outside a session; the port works. *)
Record stub_ready (s : Stub) : Prop := {
  ready_active : s.(dbbe_active) = 1;
  ready_rx : rx_wf s.(link);
  ready_tx : Z.of_nat (length s.(link).(txu_fullbuf)) = GDB_BUFSZ + 5;
  ready_port : s.(link).(gdb_sendpacket) = false;
  ready_mem : mem_ok s
}.

(** The state when the session starts. *)
Definition trapped (s : Stub) : Stub :=
  set_link (set_ackmode true s.(link)) (set_listening 0 (gdb_port_intr_ctrl false s)).

Lemma trap_serves n fuel type s reqs m i o s' rest :
  stub_ready s -> Forall well_sent reqs -> (length reqs <= n)%nat ->
  spec_stop type s = Some m -> spec_session type (trapped s) reqs = Some (i, o, s') ->
  s.(link).(input) = ch_plus :: i ++ rest ->
  exists g, FGdbTrap n (S fuel) type s = Ok (1, gdb_port_intr_ctrl true (set_link g s')) /\
    g.(input) = rest /\ g.(output) = s.(link).(output) ++ frame m ++ o.
Proof.
  intros [Ea Hr Ht Hs Hm] Hq Hn Hstop Hses Hin. unfold FGdbTrap. rewrite Ea.
  change (1 =? 1) with true. cbv iota. change (link (gdb_port_intr_ctrl false s)) with (link s).
  set (g0 := set_ackmode true (link s)) in *.
  change (set_link g0 (set_listening 0 (gdb_port_intr_ctrl false s))) with (trapped s).
  assert (port g0 (i ++ rest) (output (link s))) as Hp by (by repeat split).
  destruct (send_stop_serves fuel type (trapped s) g0 _ _ m Hp Hstop) as (g1 & E1 & W1 & I1 & O1).
  change (set_link g0 (trapped s)) with (trapped s) in E1. rewrite E1. cbn [rbind].
  destruct (request_loop_serves reqs fuel n type (trapped s) g1 i o s' rest)
    as (g2 & E2 & W2 & I2 & O2); try done.
  rewrite E2. exists g2. split_and!; [done|done|]. by rewrite O2, O1, <-app_assoc.
Qed.

(** ** Writing registers *)

(** The registers 'G' and 'P' can change. *)
Definition writable (r : Z) : bool :=
  (r =? GDB_REG_PC) || (r =? GDB_REG_SP) || ((GDB_REG_X0 <=? r) && (r <=? GDB_REG_X29)).

(** A frame of the exception entry. *)
Definition framed (d : Debugger) : Prop :=
  exists f, d.(gdb_frame) = Some f /\ length f.(tf_x) = 30%nat.

Ltac reg_consts := unfold GDB_REG_PC, GDB_REG_SP, GDB_REG_X0, GDB_REG_X29, GDB_REG_LR, GDB_REG_CSPR in *.

(** A register that has been written reads back as the value written, and no other
    register changes; but only x0 to x29, sp and pc are ever written: for every other
    register, LR and CPSR among them, the write is ignored and still succeeds. *)
Lemma setreg_getreg d r v :
  framed d ->
  exists d', gdb_cpu_setreg d r v = Ok d' /\ framed d' /\
    forall q, gdb_cpu_getreg d' q =
      if (q =? r) && writable r then Ok (Some (u64 v)) else gdb_cpu_getreg d q.
Proof.
  intros (f & Hf & Hl). unfold gdb_cpu_setreg, gdb_cpu_getreg, frame_of, writable. rewrite Hf.
  cbn [of_option rbind]. destruct (Z.eqb_spec r GDB_REG_PC) as [->|Hpc].
  { eexists. split; [done|]. split; [by eexists|]. intros q. cbn [set_frame gdb_frame frame_elr].
    reg_consts. by destruct (Z.eqb_spec q 32) as [->|]. }
  destruct (Z.eqb_spec r GDB_REG_SP) as [->|Hsp].
  { eexists. split; [done|]. split; [by eexists|]. intros q. cbn [set_frame gdb_frame frame_sp].
    reg_consts. by destruct (Z.eqb_spec q 31) as [->|]. }
  destruct ((GDB_REG_X0 <=? r) && (r <=? GDB_REG_X29)) eqn:Hx; cbn [orb]; reg_consts.
  - apply andb_true_iff in Hx as [H0 H1]. rewrite aset_in_range by (rewrite Hl; lia).
    eexists. split; [done|]. split.
    { eexists. split; [done|]. cbn [tf_x frame_x]. by rewrite length_insert. }
    intros q. cbn [set_frame gdb_frame frame_x tf_x rbind of_option tf_lr tf_sp tf_elr tf_spsr].
    destruct (Z.eqb_spec q r) as [->|Hq]; cbn [andb].
    + rewrite !(proj2 (Z.eqb_neq r _)) by lia. rewrite H0, H1, Z.sub_0_r. cbn [andb].
      rewrite (aget_Some _ _ (u64 v)); [done|lia|]. apply list_lookup_insert_eq. lia.
    + destruct ((0 <=? q) && (q <=? 29)) eqn:Hq2; [|done].
      apply andb_true_iff in Hq2 as [H2 H3]. rewrite Z.sub_0_r. unfold aget.
      destruct (q <? 0); [done|]. by rewrite list_lookup_insert_ne by lia.
  - exists d. split; [done|]. split; [by exists f|]. intros q. rewrite andb_false_r. by rewrite Hf.
Qed.


Lemma setregs_agree d d1 d2 r0 n v :
  (forall q, gdb_cpu_getreg d1 q =
     if (q =? r0) && writable r0 then Ok (Some (u64 v)) else gdb_cpu_getreg d q) ->
  (forall q, gdb_cpu_getreg d2 q =
     if (r0 + 1 <=? q) && (q <? r0 + 1 + Z.of_nat n) && writable q then Ok (Some (u64 v))
     else gdb_cpu_getreg d1 q) ->
  forall q, gdb_cpu_getreg d2 q =
    if (r0 <=? q) && (q <? r0 + Z.of_nat (S n)) && writable q then Ok (Some (u64 v))
    else gdb_cpu_getreg d q.
Proof.
  intros H1 H2 q. rewrite H2, H1. destruct (Z.eqb_spec q r0) as [->|].
  - rewrite (proj2 (Z.leb_gt (r0 + 1) r0)), (proj2 (Z.leb_le r0 r0)),
      (proj2 (Z.ltb_lt r0 (r0 + Z.of_nat (S n)))) by lia. done.
  - destruct (Z.leb_spec (r0 + 1) q), (Z.ltb_spec q (r0 + 1 + Z.of_nat n)), (Z.leb_spec r0 q),
      (Z.ltb_spec q (r0 + Z.of_nat (S n))); lia || done.
Qed.

Lemma set_regs_ignored fuel s g l n r0 :
  rx_view g l -> g.(gdb_rxp) = Some 1 -> (32 < length l)%nat -> Z.of_nat (length l) < 2 ^ 32 ->
  framed s.(dbg) ->
  exists d', set_regs fuel r0 n (set_link g s) = Ok (true, set_link g (set_dbg d' s)) /\
    framed d' /\
    forall q, gdb_cpu_getreg d' q =
      if (r0 <=? q) && (q <? r0 + Z.of_nat n) && writable q
      then Ok (Some (u64 (le_value (take 8 l)))) else gdb_cpu_getreg s.(dbg) q.
Proof.
  intros Hv Hp Hl Hl2. revert s r0. induction n as [|n IH]; intros s r0 Hf.
  - exists s.(dbg). split; [by destruct s|]. split; [done|]. intros q.
    destruct (Z.leb_spec r0 q), (Z.ltb_spec q (r0 + Z.of_nat 0)); lia || done.
  - cbn [set_regs]. cbn [link set_link]. rewrite Hp. cbn [of_option rbind].
    pose proof (rx_mem_reads g l (Z.of_nat (gdb_cpu_regsz r0)) Hv) as Hm.
    pose proof (regsz_bound r0). rewrite (proj2 (Z.eqb_neq _ _)) in Hm by lia.
    unfold rx_mem_at. rewrite Hm by lia. cbn [rbind store_bytes].
    change (-1 =? 0) with false. cbv iota.
    replace (set_rx (gdb_rxbuf g) (Some 1) (gdb_rxsz g) g) with g by (rewrite <-Hp; by destruct g).
    rewrite Hp. replace (set_rx (gdb_rxbuf g) (Some 1) (gdb_rxsz g) g) with g by (rewrite <-Hp; by destruct g).
    assert (rx_u64 1 g = Ok (le_value (take 8 l))) as ->.
    { unfold rx_u64. change ((0 <=? 1) && (1 + 8 <=? GDB_BUFSZ)) with true. cbv iota.
      destruct Hv as (Hr & Hsz & _). unfold received in Hr. rewrite Hp, Hsz, Nat2Z.id in Hr.
      rewrite <-Hr, take_take, Nat.min_l by lia. done. }
    cbn [rbind]. change (dbg (set_link g (set_link g s))) with (dbg s).
    destruct (setreg_getreg (dbg s) r0 (le_value (take 8 l)) Hf) as (d1 & E1 & F1 & G1).
    rewrite E1. cbn [rbind].
    destruct (IH (set_dbg d1 s) (r0 + 1) F1) as (d2 & E2 & F2 & G2).
    exists d2. split; [exact E2|]. split; [done|]. by apply (setregs_agree _ d1).
Qed.

(** ** Properties *)

(** A stub at the start of a session, with a breakpoint exception. *)
Definition sample_frame : FGdbTrapframe := mkFrame 1 2 0x1000 0 (replicate 30 7).

Definition sample_stub (inp : list Z) : Stub :=
  mkStub
    (mkDebugger (mkMonitor 0 0 (replicate 16 0) (replicate 16 0) (replicate 16 0) (replicate 16 0))
       4 6 (Some sample_frame) false (mkSys (replicate 64 0) 0 PSR_DAIF 0 0))
    (mkGdb true (replicate 4096 0) None 0 (replicate 4101 0) 0 false inp [] [])
    (fun _ => 0) 0 [] 0 1 true false.

Lemma sample_ready inp : stub_ready (sample_stub inp).
Proof. by split. Qed.

(** A register that has been written reads back as the value written, and no other
    register changes; but only x0 to x29, sp and pc are ever written: for every other
    register, LR and CPSR among them, the write is ignored and still succeeds. *)
Theorem gdb_cpu_setreg_getreg d r v :
  framed d ->
  exists d', gdb_cpu_setreg d r v = Ok d' /\ framed d' /\
    forall q, gdb_cpu_getreg d' q =
      if (q =? r) && writable r then Ok (Some (u64 v)) else gdb_cpu_getreg d q.
Proof. apply setreg_getreg. Qed.

Lemma gdb_cpu_setreg_getreg_witness :
  exists d', gdb_cpu_setreg (mkDebugger (mkMonitor 0 0 [] [] [] []) 0 0
      (Some (mkFrame 1 2 3 4 (replicate 30 0))) false (mkSys [] 0 0 0 0)) GDB_REG_LR 99 = Ok d' /\
    gdb_cpu_getreg d' GDB_REG_LR = Ok (Some 2).
Proof.
  destruct (gdb_cpu_setreg_getreg (mkDebugger (mkMonitor 0 0 [] [] [] []) 0 0
      (Some (mkFrame 1 2 3 4 (replicate 30 0))) false (mkSys [] 0 0 0 0)) GDB_REG_LR 99)
    as (d' & E & _ & H); [by eexists|].
  exists d'. split; [exact E|]. rewrite H. reflexivity.
Defined.

(** The 'G' request does not write the registers of the packet: a packet with the
    data of all registers is answered with OK, and every writable register then
    holds the characters of the first eight hexadecimal digits. *)
Theorem G_writes_digits fuel type s g l rest out :
  request_ready g (chr "G" :: l) (ch_plus :: rest) out ->
  (32 < length l)%nat -> framed s.(dbg) ->
  exists g' d', handle_request (S fuel) type (set_link g s) = Ok (Listen (set_link g' (set_dbg d' s))) /\
    g'.(input) = rest /\ g'.(output) = out ++ frame ok_msg /\
    forall q, writable q = true -> gdb_cpu_getreg d' q = Ok (Some (u64 (le_value (take 8 l)))).
Proof.
  intros [W V St En I O] Hl Hf. unfold handle_request. change (link (set_link g s)) with g.
  rewrite (view_char _ _ _ V). cbn [rbind].
  change (set_link (rx_skip 1 g) (set_link g s)) with (set_link (rx_skip 1 g) s).
  pose proof (view_skip g [chr "G"] l V) as V1. change (Z.of_nat (length [chr "G"])) with 1 in V1.
  assert (gdb_rxp (rx_skip 1 g) = Some 1) as P1 by (unfold rx_skip; by rewrite St).
  assert (Z.of_nat (length l) < 2 ^ 32) as Hb.
  { destruct V1 as (Hr & _ & _). pose proof (f_equal length Hr) as E. revert E. unfold received.
    destruct (gdb_rxp (rx_skip 1 g)); [|simpl; lia]. rewrite length_take, length_drop.
    destruct W as [R _ _ _]. unfold rx_wf, GDB_BUFSZ in R. unfold rx_skip. simpl. lia. }
  destruct (set_regs_ignored (S fuel) s (rx_skip 1 g) l (Z.to_nat GDB_NREGS) 0 V1 P1 Hl Hb Hf)
    as (d' & E & F & G).
  repeat match goal with |- context [chr "G" =? ?c] => change (chr "G" =? c) with false; cbv iota
    | |- context [chr "G" =? ?c] => change (chr "G" =? c) with true; cbv iota end.
  rewrite E. cbn [rbind].
  assert (port (rx_skip 1 g) rest out) as Hp.
  { apply (port_moved g); [apply moved_skip|]. by split. }
  destruct (ok_answers fuel (set_dbg d' s) _ rest out Hp) as (g' & E' & W' & I' & O').
  exists g', d'. rewrite E'. split_and!; try done. intros q Hq. rewrite G, Hq.
  change (Z.of_nat (Z.to_nat GDB_NREGS)) with 68. unfold writable in Hq. reg_consts.
  destruct (Z.leb_spec 0 q), (Z.ltb_spec q (0 + 68)); cbn [andb]; try done; lia.
Qed.

Lemma G_writes_digits_witness :
  exists g g' d', gdb_rx_begin 1 (sample_stub
      (raw_frame (chr "G" :: replicate 100 (chr "0")) ++ [ch_plus])).(link) = Ok (0, g) /\
    handle_request 1 EXCP_BRK (set_link g (sample_stub [])) =
      Ok (Listen (set_link g' (set_dbg d' (sample_stub [])))) /\
    gdb_cpu_getreg d' GDB_REG_PC = Ok (Some 0x3030303030303030).
Proof.
  destruct (begin_reads 0 (sample_stub
    (raw_frame (chr "G" :: replicate 100 (chr "0")) ++ [ch_plus])).(link)
    (chr "G" :: replicate 100 (chr "0")) [ch_plus]) as (g & E & R).
  - by split.
  - split; [|vm_compute; congruence]. repeat constructor; vm_compute; congruence.
  - reflexivity.
  - assert (framed (sample_stub []).(dbg)) as F by (exists sample_frame; by split).
    assert (32 < length (replicate 100 (chr "0")))%nat as L by (rewrite length_replicate; lia).
    pose proof (G_writes_digits 0 EXCP_BRK (sample_stub []) g _ _ _ R L F) as (g' & d' & E' & _ & _ & H).
    exists g, g', d'. split; [exact E|]. split; [exact E'|]. rewrite H; reflexivity.
Defined.
