(* ===== verification/GdbRoundtrip.v ===== *)
(** Memory through the GDB session: what the debugger writes it reads back. *)
From Stdlib Require Import String.
From S2P Require Import Prelude GdbPacket GdbPacketProps GdbLink GdbArch GdbArchProps.
From S2P Require Import GdbSession GdbSpec GdbServe GdbSessionProps.

(** ** Memory *)
Lemma u64_add_l a b : u64 (u64 a + b) = u64 (a + b).
Proof. unfold wrap. by rewrite Zplus_mod_idemp_l. Qed.

Lemma mem_write_below bytes m a b :
  (forall i, (i < length bytes)%nat -> u64 (a + Z.of_nat i) <> b) -> mem_write m a bytes b = m b.
Proof.
  revert m a. induction bytes as [|x bytes IH]; intros m a H; [done|]. cbn [mem_write].
  rewrite IH.
  - destruct (Z.eqb_spec b (u64 a)) as [->|]; [|done]. destruct (H 0%nat); [simpl; lia|].
    by rewrite Z.add_0_r.
  - intros i Hi. rewrite u64_add_l. replace (a + 1 + Z.of_nat i) with (a + Z.of_nat (S i)) by lia.
    apply H. simpl. lia.
Qed.

Lemma u64_distinct a i j : 0 <= i < 2 ^ 64 -> 0 <= j < 2 ^ 64 -> u64 (a + i) = u64 (a + j) -> i = j.
Proof.
  unfold wrap. intros Hi Hj E. pose proof (Z.div_mod (a + i) (2 ^ 64) ltac:(lia)).
  pose proof (Z.div_mod (a + j) (2 ^ 64) ltac:(lia)). rewrite E in *.
  assert ((a + i) / 2 ^ 64 = (a + j) / 2 ^ 64); lia.
Qed.

Lemma mem_write_at bytes m a i x :
  Z.of_nat (length bytes) <= 2 ^ 64 -> bytes !! i = Some x ->
  mem_write m a bytes (u64 (a + Z.of_nat i)) = x.
Proof.
  revert m a i. induction bytes as [|b bytes IH]; intros m a i Hl Hi; [done|].
  cbn [length] in Hl. destruct i as [|i]; cbn [mem_write].
  - injection Hi as <-. rewrite Z.add_0_r, mem_write_below; [by rewrite Z.eqb_refl|].
    intros j Hj. rewrite u64_add_l. rewrite <-(Z.add_0_r a) at 2.
    replace (a + 1 + Z.of_nat j) with (a + (1 + Z.of_nat j)) by lia.
    intros E. apply u64_distinct in E; lia.
  - replace (u64 (a + Z.of_nat (S i))) with (u64 (u64 (a + 1) + Z.of_nat i))
      by (rewrite u64_add_l; f_equal; lia).
    apply IH; [lia|done].
Qed.

Lemma mem_read_write bytes m a :
  Z.of_nat (length bytes) <= 2 ^ 64 -> mem_read (mem_write m a bytes) a (length bytes) = bytes.
Proof.
  intros Hl. apply list_eq. intros i. unfold mem_read. rewrite list_lookup_fmap.
  destruct (decide (i < length bytes)%nat) as [Hi|Hi].
  - rewrite lookup_seq_lt by done. cbn [fmap option_fmap option_map]. simpl.
    destruct (lookup_lt_is_Some_2 _ _ Hi) as [x Hx]. rewrite Hx. f_equal. by apply mem_write_at.
  - rewrite (lookup_ge_None_2 (seq _ _)), (lookup_ge_None_2 bytes) by (rewrite ?length_seq; lia).
    done.
Qed.

(** ** Numbers in requests *)
Definition hexdigit (c : Z) : Prop := isxdigit c = true /\ char c.

Lemma digits_app ds l : Forall hexdigit ds -> stops l -> digits (ds ++ l) = ds.
Proof.
  induction 1 as [|c ds [Hc _] _ IH]; intros Hl; simpl.
  - destruct l as [|c l]; [done|]. destruct Hl as [_ Hx]. simpl. by rewrite Hx.
  - rewrite Hc. by rewrite IH.
Qed.

Lemma p_number_varhex n l :
  0 <= n < 2 ^ 64 -> stops l -> p_number (varhex n ++ l) = (Some n, l).
Proof.
  intros Hn Hl. destruct (varhex_spec n Hn) as (F & N & _ & D). unfold p_number.
  destruct (varhex n) as [|c ds] eqn:E; [done|]. cbn [app].
  assert ((c =? ch_minus) = false) as ->.
  { apply Forall_cons_1 in F as [[Hx _] _]. apply Z.eqb_neq. intros ->. discriminate Hx. }
  change (c :: ds ++ l) with ((c :: ds) ++ l). rewrite digits_app by done.
  rewrite D, drop_app_length. done.
Qed.

Lemma p_addr_size_varhex a n sep l :
  0 <= a < 2 ^ 64 -> 0 <= n < 2 ^ 64 -> char sep -> isxdigit sep = false -> stops l ->
  p_addr_size sep (varhex a ++ sep :: varhex n ++ l) = (Some (a, n), l).
Proof.
  intros Ha Hn Hs Hx Hl. unfold p_addr_size. rewrite p_number_varhex by done.
  unfold p_expect, p_char. rewrite Z.eqb_refl. cbn [negb]. by rewrite p_number_varhex.
Qed.

(** ** Requests for memory *)
Definition write_mem_request (addr : Z) (data : list Z) : list Z :=
  chr "M" :: varhex addr ++ chr "," :: varhex (Z.of_nat (length data)) ++ chr ":" :: hex_of data.

Definition read_mem_request (addr size : Z) : list Z :=
  chr "m" :: varhex addr ++ chr "," :: varhex size.

Lemma spec_write_mem_request type s addr data :
  0 <= addr < 2 ^ 64 -> Forall char data -> Z.of_nat (length data) < 2 ^ 63 ->
  spec_request type s (write_mem_request addr data) =
    Some (Reply ok_msg (set_mem (mem_write s.(mem) addr data) s)).
Proof.
  intros Ha Hd Hl.
  change (spec_request type s (write_mem_request addr data)) with
    (spec_write_mem s (varhex addr ++ chr "," ::
       varhex (Z.of_nat (length data)) ++ chr ":" :: hex_of data)).
  unfold spec_write_mem. rewrite p_addr_size_varhex; [|done|lia|by apply chr_char|done|].
  2: { split; [apply chr_char|done]. }
  unfold p_expect, p_char. rewrite Z.eqb_refl. cbn [negb].
  rewrite (proj2 (Z.ltb_lt _ _)) by done. rewrite hex_of_length.
  rewrite (proj2 (Z.eqb_eq _ _)) by lia. by rewrite p_bytes_hex.
Qed.

Lemma spec_read_mem_request type s addr size :
  0 <= addr < 2 ^ 64 -> 0 <= size -> 2 * size <= GDB_BUFSZ ->
  spec_request type s (read_mem_request addr size) =
    Some (Reply (hex_of (mem_read s.(mem) addr (Z.to_nat size))) s).
Proof.
  intros Ha H0 Hs.
  change (spec_request type s (read_mem_request addr size)) with
    (spec_read_mem s (varhex addr ++ chr "," :: varhex size)).
  unfold spec_read_mem. rewrite <-(app_nil_r (varhex size)).
  rewrite p_addr_size_varhex; [|done|unfold GDB_BUFSZ in Hs; lia|apply chr_char|done|done].
  cbn [fst]. by rewrite (proj2 (Z.leb_le _ _)).
Qed.

(** The characters of a request. *)
Definition sendable (c : Z) : Prop := char c /\ c <> 0 /\ c <> ch_hash.

Lemma hexdigit_sendable c : hexdigit c -> sendable c.
Proof.
  intros [Hx Hc]. split; [done|]. split; intros ->; discriminate Hx.
Qed.

Lemma varhex_sendable n : 0 <= n < 2 ^ 64 -> Forall sendable (varhex n).
Proof.
  intros Hn. destruct (varhex_spec n Hn) as (F & _).
  eapply Forall_impl; [|exact F]. apply hexdigit_sendable.
Qed.

Lemma hex_sendable data : Forall char data -> Forall sendable (hex_of data).
Proof.
  induction 1 as [|b l Hb _ IH]; [constructor|].
  change (hex_of (b :: l)) with (N2C (Z.shiftr b 4) :: N2C (Z.land b 15) :: hex_of l).
  repeat apply List.Forall_cons; [| |done]; apply hexdigit_sendable; split;
    apply N2C_char; (apply char_lo || by apply char_hi).
Qed.

Lemma well_sent_intro p :
  Forall sendable p -> Z.of_nat (length p) <= GDB_BUFSZ - 2 -> well_sent p.
Proof.
  intros Hp Hl. split; [split; [|done]|]; (eapply Forall_impl; [|exact Hp]);
    by intros c (H1 & H2 & H3).
Qed.

Ltac sendable :=
  repeat (apply List.Forall_cons || apply Forall_app_2);
  first [by apply varhex_sendable; lia | by apply hex_sendable | by apply List.Forall_nil
        | by (split; [apply chr_char|split; intros ?; discriminate])].

Lemma write_mem_request_sent addr data :
  0 <= addr < 2 ^ 64 -> Forall char data -> Z.of_nat (length data) <= 2000 ->
  well_sent (write_mem_request addr data).
Proof.
  intros Ha Hd Hl. apply well_sent_intro.
  - unfold write_mem_request. sendable.
  - unfold write_mem_request. pose proof (varhex_length addr).
    pose proof (varhex_length (Z.of_nat (length data))).
    cbn [length]. rewrite length_app. cbn [length]. rewrite length_app. cbn [length].
    rewrite hex_of_length. unfold GDB_BUFSZ. lia.
Qed.

Lemma read_mem_request_sent addr size :
  0 <= addr < 2 ^ 64 -> 0 <= size < 2 ^ 64 -> well_sent (read_mem_request addr size).
Proof.
  intros Ha Hs. apply well_sent_intro.
  - unfold read_mem_request. sendable.
  - unfold read_mem_request. pose proof (varhex_length addr). pose proof (varhex_length size).
    cbn [length]. rewrite length_app. cbn [length]. unfold GDB_BUFSZ. lia.
Qed.

(** ** Property *)

(** C9: Memory that the debugger writes in a session it reads back: at every address,
    also where the block wraps around the end of the address space, the reply to the
    read is the data of the write. *)
Theorem memory_roundtrip n fuel type s addr data m d rest :
  stub_ready s -> 0 <= addr < 2 ^ 64 -> Forall char data -> Z.of_nat (length data) <= 2000 ->
  spec_stop type s = Some m -> kdb_cpu_clear_singlestep s.(dbg) = Ok d ->
  s.(link).(input) =
    ch_plus :: raw_frame (write_mem_request addr data) ++
    ch_plus :: raw_frame (read_mem_request addr (Z.of_nat (length data))) ++
    ch_plus :: raw_frame [chr "c"] ++ rest ->
  exists s', FGdbTrap (3 + n) (S fuel) type s = Ok (1, s') /\ s'.(link).(input) = rest /\
    s'.(link).(output) = s.(link).(output) ++ frame m ++
      (ch_plus :: frame ok_msg) ++ (ch_plus :: frame (hex_of data)) ++ [ch_plus] /\
    s'.(mem) = mem_write s.(mem) addr data /\ s'.(dbg) = d.
Proof.
  intros Hs Ha Hd Hl Hm Hc Hi.
  set (s1 := set_mem (mem_write s.(mem) addr data) (trapped s)).
  destruct (trap_serves (3 + n) fuel type s
    [write_mem_request addr data; read_mem_request addr (Z.of_nat (length data)); [chr "c"]]
    m (raw_frame (write_mem_request addr data) ++
       ch_plus :: raw_frame (read_mem_request addr (Z.of_nat (length data))) ++
       ch_plus :: raw_frame [chr "c"])
    ((ch_plus :: frame ok_msg) ++ (ch_plus :: frame (hex_of data)) ++ [ch_plus])
    (set_listening 1 (set_dbg d s1)) rest) as (g & E & I & O); try done.
  - apply List.Forall_cons; [by apply write_mem_request_sent|].
    apply List.Forall_cons; [by apply read_mem_request_sent; lia|].
    apply List.Forall_cons; [|constructor]. apply well_sent_intro; [sendable|done].
  - simpl. lia.
  - cbn [spec_session]. rewrite spec_write_mem_request by (done || lia).
    cbn [mbind option_bind].
    rewrite spec_read_mem_request by (unfold GDB_BUFSZ; lia). cbn [mbind option_bind].
    rewrite Nat2Z.id. change (set_mem _ (trapped s)) with s1.
    change (mem s1) with (mem_write s.(mem) addr data).
     rewrite mem_read_write by lia.
    change (spec_request type s1 [chr "c"]) with
      (d ← ok_of (kdb_cpu_clear_singlestep s.(dbg));
       Some (SilentResume (set_listening 1 (set_dbg d s1)))).
    rewrite Hc. done.
  - rewrite Hi. f_equal. rewrite <-!app_assoc. f_equal. cbn [app]. f_equal.
    rewrite <-!app_assoc. done.
  - exists (gdb_port_intr_ctrl true (set_link g (set_listening 1 (set_dbg d s1)))).
    split; [exact E|]. split_and!; [exact I|exact O|done|done].
Qed.

Lemma memory_roundtrip_witness :
  exists s', FGdbTrap 3 1 EXCP_BRK (sample_stub (ch_plus ::
    raw_frame (str "Mfffffffffffffffe,3:0a0b0c") ++ ch_plus ::
    raw_frame (str "mfffffffffffffffe,3") ++ ch_plus :: raw_frame (str "c"))) = Ok (1, s') /\
    s'.(mem) 0 = 12.
Proof.
  destruct (memory_roundtrip 0 0 EXCP_BRK (sample_stub (ch_plus ::
    raw_frame (str "Mfffffffffffffffe,3:0a0b0c") ++ ch_plus ::
    raw_frame (str "mfffffffffffffffe,3") ++ ch_plus :: raw_frame (str "c")))
    (2 ^ 64 - 2) [10; 11; 12]
    (str "T0520:0010000000000000;thread:1;")
    (sample_stub []).(dbg) []) as (s' & E & _ & _ & M & _).
  - apply sample_ready.
  - lia.
  - repeat constructor; vm_compute; congruence.
  - vm_compute. discriminate.
  - vm_compute. reflexivity.
  - vm_compute. reflexivity.
  - vm_compute. reflexivity.
  - exists s'. split; [exact E|]. rewrite M. reflexivity.
Defined.
