(* ===== verification/GdbProtocol.v ===== *)
(** The GDB remote serial protocol on an abstract machine: the packets and requests a
    debugger sends as data, their text, and what each request is answered with and
    does, in terms of numbers, bytes and the machine only.  Nothing here is taken from
    the stub, whose parser, printer and state are those of GdbPacket.v, GdbArch.v and
    GdbSession.v; GdbProtocolProps.v proves that [FGdbTrap] serves a debugger that
    speaks this protocol.

    What is particular to the stub are the features it announces (the packet size
    among them is more than it takes, see the findings), that it has one thread, 1,
    that errors are given as errno values, and the comparators for break- and
    watchpoints: a list, each free or with an address and a control word, as
    specified in GdbArchProps.v ([spec_op]); a point is removed by its address. *)
From Stdlib Require Import String.
From S2P Require Import Prelude GdbPacketProps GdbArchProps GdbSession.

(** ** Text *)
Definition digit (n : Z) : Z := default 0 (str "0123456789abcdef" !! Z.to_nat n).

(** A byte, two digits; data, two digits each. *)
Definition byte_text (b : Z) : list Z := [digit (b / 16); digit (b mod 16)].
Definition data_text (l : list Z) : list Z := flat_map byte_text l.

(** A number without leading zeros, at most [S n] digits. *)
Fixpoint number_text (n : nat) (v : Z) : list Z :=
  match n with
  | O => [digit v]
  | S n => if v <? 16 then [digit v] else number_text n (v / 16) ++ [digit (v mod 16)]
  end.
Definition number (v : Z) : list Z := number_text 15 v.

(** The bytes of a value, least significant first. *)
Fixpoint little (n : nat) (v : Z) : list Z :=
  match n with
  | O => []
  | S n => v mod 256 :: little n (v / 256)
  end.

(** A packet: '$', the text, '#' and the sum of the text modulo 256. *)
Definition packet (m : list Z) : list Z :=
  chr "$" :: m ++ chr "#" :: byte_text (foldr Z.add 0 m mod 256).

(** A packet whose text, run-length encoded or not, is [m]; [rle_decode] is the
    reference decoder of GdbPacketProps.v. *)
Definition carries (w m : list Z) : Prop :=
  exists text, w = packet text /\ Forall (fun c => c <> chr "$" /\ c <> chr "#") text /\
    rle_decode text 0 = m.

(** ** The machine *)
Record machine := mkMachine {
  m_x : list Z;
  m_lr : Z;
  m_sp : Z;
  m_pc : Z;
  m_cpsr : Z;
  m_mem : Z -> Z;
  (** the comparators of breakpoints, and of watchpoints *)
  m_points : list slot * list slot;
  (** the address an access was stopped at *)
  m_fault : Z;
  (** it has stopped at a break instruction of the program *)
  m_in_break : bool;
  (** whether it offers to do without acknowledgements *)
  m_reliable : bool
}.

Definition with_points p t :=
  mkMachine t.(m_x) t.(m_lr) t.(m_sp) t.(m_pc) t.(m_cpsr) t.(m_mem) p t.(m_fault) t.(m_in_break)
    t.(m_reliable).
Definition with_mem m t :=
  mkMachine t.(m_x) t.(m_lr) t.(m_sp) t.(m_pc) t.(m_cpsr) m t.(m_points) t.(m_fault) t.(m_in_break)
    t.(m_reliable).
Definition with_pc pc t :=
  mkMachine t.(m_x) t.(m_lr) t.(m_sp) pc t.(m_cpsr) t.(m_mem) t.(m_points) t.(m_fault) t.(m_in_break)
    t.(m_reliable).
Definition with_sp sp t :=
  mkMachine t.(m_x) t.(m_lr) sp t.(m_pc) t.(m_cpsr) t.(m_mem) t.(m_points) t.(m_fault) t.(m_in_break)
    t.(m_reliable).
Definition with_x x t :=
  mkMachine x t.(m_lr) t.(m_sp) t.(m_pc) t.(m_cpsr) t.(m_mem) t.(m_points) t.(m_fault) t.(m_in_break)
    t.(m_reliable).

(** The registers in the order of the debugger: x0 to x30, sp, pc, cpsr, v0 to v31,
    fpsr, fpcr; those of the last three groups are not available. *)
Definition register (t : machine) (r : Z) : option Z :=
  if r <? 30 then t.(m_x) !! Z.to_nat r
  else if r =? 30 then Some t.(m_lr)
  else if r =? 31 then Some t.(m_sp)
  else if r =? 32 then Some t.(m_pc)
  else if r =? 33 then Some t.(m_cpsr)
  else None.
Definition register_size (r : Z) : nat :=
  if r <? 33 then 8 else if r =? 33 then 4 else if r <? 66 then 16 else 4.
Definition registers : nat := 68.

Definition write_register (r v : Z) (t : machine) : machine :=
  if r =? 32 then with_pc v t
  else if r =? 31 then with_sp v t
  else with_x (<[Z.to_nat r := v]> t.(m_x)) t.

(** Addresses wrap around at 2^64. *)
Definition bytes_at (m : Z -> Z) (a : Z) (n : nat) : list Z :=
  map (fun i => m ((a + Z.of_nat i) mod 2 ^ 64)) (seq 0 n).
Definition store (m : Z -> Z) (a : Z) (data : list Z) (x : Z) : Z :=
  match data !! Z.to_nat ((x - a) mod 2 ^ 64) with Some b => b | None => m x end.

(** ** Requests *)
Inductive point := Software | Hardware | OnWrite | OnRead | OnAccess.
(** What the debugger says about its own features. *)
Inductive feature := Has (name : list Z) | Lacks (name : list Z) | Is (name value : list Z).

(** A request that is answered while the machine stays stopped. *)
Inductive query :=
| WhyStopped
| ReadRegisters
| ReadRegister (r : Z)
| WriteRegister (r v : Z)
| ReadMemory (a n : Z)
| WriteMemory (a : Z) (data : list Z)
| Insert (p : point) (a len : Z)
| Remove (p : point) (a len : Z)
| SelectThread (operation id : Z)
| CurrentThread
| Features (l : list feature)
| Unsupported (letter : Z) (args : list Z)
| UnsupportedQuery (name : list Z).

(** The end of the session. *)
Inductive command := Continue (pc : option Z) | Step (pc : option Z) | Detach | Kill.

Definition point_letter (p : point) : Z :=
  match p with
  | Software => chr "0" | Hardware => chr "1" | OnWrite => chr "2" | OnRead => chr "3" | OnAccess => chr "4"
  end.
Definition point_text (p : point) (a len : Z) : list Z :=
  point_letter p :: chr "," :: number a ++ chr "," :: number len.
Definition feature_text (f : feature) : list Z :=
  match f with
  | Has name => name ++ [chr "+"]
  | Lacks name => name ++ [chr "-"]
  | Is name value => name ++ chr "=" :: value
  end.
Fixpoint features_text (l : list feature) : list Z :=
  match l with
  | [] => []
  | [f] => feature_text f
  | f :: l => feature_text f ++ chr ";" :: features_text l
  end.

Definition query_text (q : query) : list Z :=
  match q with
  | WhyStopped => str "?"
  | ReadRegisters => str "g"
  | ReadRegister r => chr "p" :: number r
  | WriteRegister r v => chr "P" :: number r ++ chr "=" :: data_text (little 8 v)
  | ReadMemory a n => chr "m" :: number a ++ chr "," :: number n
  | WriteMemory a data =>
      chr "M" :: number a ++ chr "," :: number (Z.of_nat (length data)) ++ chr ":" :: data_text data
  | Insert p a len => chr "Z" :: point_text p a len
  | Remove p a len => chr "z" :: point_text p a len
  | SelectThread operation id => chr "H" :: operation :: (if id <? 0 then str "-1" else number id)
  | CurrentThread => str "qC"
  | Features [] => str "qSupported"
  | Features l => str "qSupported:" ++ features_text l
  | Unsupported letter args => letter :: args
  | UnsupportedQuery name => chr "q" :: name
  end.

Definition at_text (pc : option Z) : list Z := match pc with Some a => number a | None => [] end.
Definition command_text (c : command) : list Z :=
  match c with
  | Continue pc => chr "c" :: at_text pc
  | Step pc => chr "s" :: at_text pc
  | Detach => str "D"
  | Kill => str "k"
  end.

(** ** Answers *)

(** SIGTRAP for the debug exceptions (breakpoint, step, watchpoint, break
    instruction; their class in the syndrome register), SIGEMT for any other. *)
Definition signal (type : Z) : Z :=
  if bool_decide (type ∈ [0x31; 0x33; 0x35; 0x3c]) then 5 else 7.

Definition register_text (t : machine) (r : Z) : list Z :=
  match register t r with
  | Some v => data_text (little (register_size r) v)
  | None => replicate (2 * register_size r) (chr "x")
  end.

Definition error (e : Z) : list Z := chr "E" :: byte_text e.
Definition status (e : Z) : list Z := if e =? 0 then str "OK" else error e.

(** A software breakpoint takes a comparator like the others; loads are access 1,
    stores 2, both 3. *)
Definition insert_point (p : point) (a len : Z) : op :=
  match p with
  | Software | Hardware => SetBreakpoint a len
  | OnWrite => SetWatchpoint a len 2
  | OnRead => SetWatchpoint a len 1
  | OnAccess => SetWatchpoint a len 3
  end.
Definition remove_point (p : point) (a len : Z) : op :=
  match p with
  | Software | Hardware => ClrBreakpoint a len
  | _ => ClrWatchpoint a len
  end.
Definition point_answer (o : op) (t : machine) : list Z * machine :=
  let '(e, points) := spec_op t.(m_points).1 t.(m_points).2 o in (status e, with_points points t).

(** The answer to a request, and the machine after it. *)
Definition answer_to (type : Z) (t : machine) (q : query) : list Z * machine :=
  match q with
  | WhyStopped => (chr "T" :: byte_text (signal type), t)
  | ReadRegisters => (flat_map (fun r => register_text t (Z.of_nat r)) (seq 0 registers), t)
  | ReadRegister r => (register_text t r, t)
  | WriteRegister r v => (str "OK", write_register r v t)
  | ReadMemory a n => (data_text (bytes_at t.(m_mem) a (Z.to_nat n)), t)
  | WriteMemory a data => (str "OK", with_mem (store t.(m_mem) a data) t)
  | Insert p a len => point_answer (insert_point p a len) t
  | Remove p a len => point_answer (remove_point p a len) t
  | SelectThread _ _ => (str "OK", t)
  | CurrentThread => (str "QC1", t)
  | Features _ =>
      (str "PacketSize=1003;qXfer:threads:read+" ++ (if t.(m_reliable) then str ";QStartNoAckMode+" else []), t)
  | Unsupported _ _ | UnsupportedQuery _ => ([], t)
  end.

Fixpoint answers (type : Z) (t : machine) (qs : list query) : list (list Z) * machine :=
  match qs with
  | [] => ([], t)
  | q :: qs =>
      let '(m, t) := answer_to type t q in
      let '(ms, t) := answers type t qs in (m :: ms, t)
  end.

(** The stop reply: the signal, the program counter, the address of a watchpoint that
    was hit, the thread. *)
Definition stop_reply (type : Z) (t : machine) : list Z :=
  chr "T" :: byte_text (signal type) ++ str "20:" ++ data_text (little 8 t.(m_pc)) ++ str ";" ++
  (if type =? 0x35 then str "watch:" ++ number t.(m_fault) ++ str ";" else []) ++ str "thread:1;".

Definition command_reply (c : command) : list (list Z) :=
  match c with Detach => [str "OK"] | _ => [] end.

(** Where the machine goes on: at the address given, or where it stopped, behind the
    break instruction it stopped at. *)
Definition resumed_at (c : command) (t : machine) : machine :=
  match c with
  | Continue (Some a) | Step (Some a) => with_pc a t
  | _ => if t.(m_in_break) then with_pc ((t.(m_pc) + 4) mod 2 ^ 64) t else t
  end.

(** ** What the stub is asked here

    Requests left out, all of them in the findings or in GdbSessionProps.v: 'G';
    writes of lr, cpsr and the registers that are not available; reads of more than
    2048 bytes; writes whose packet is too long; qSearch:memory; qXfer; queries whose
    name begins with 'C' other than qC; and an address to resume at when the machine
    has stopped at a break instruction of the program. *)
Definition text_char (c : Z) : Prop := 0 <= c < 256 /\ c <> 0 /\ c <> chr "#".
Definition word_char (c : Z) : Prop := text_char c /\ c <> chr ";".
Definition word64 (v : Z) : Prop := 0 <= v < 2 ^ 64.

Definition feature_valid (f : feature) : Prop :=
  match f with
  | Has name | Lacks name => name <> [] /\ Forall word_char name
  | Is name value => name <> [] /\ Forall word_char name /\ Forall word_char value
  end.

(** A packet the stub can take, of up to 4094 characters. *)
Definition fits_packet (q : query) : Prop := Z.of_nat (length (query_text q)) <= 4094.

Definition query_valid (q : query) : Prop :=
  match q with
  | ReadRegister r => 0 <= r < Z.of_nat registers
  | WriteRegister r v => (0 <= r < 30 \/ r = 31 \/ r = 32) /\ word64 v
  | ReadMemory a n => word64 a /\ 0 <= n <= 2048
  | WriteMemory a data => word64 a /\ Forall (fun b => 0 <= b < 256) data /\ fits_packet q
  | Insert _ a len | Remove _ a len => word64 a /\ word64 len
  | SelectThread operation id => (operation = chr "c" \/ operation = chr "g") /\ -1 <= id <= 1
  | Features l => Forall feature_valid l /\ fits_packet q
  | Unsupported letter args =>
      ~ (letter ∈ str "?cDgGHkmMpPqszZ") /\ Forall text_char (letter :: args) /\ fits_packet q
  | UnsupportedQuery name =>
      Forall (fun w => ~ (str w `prefix_of` name)) ["C"; "Supported"; "Xfer:"; "Search:memory:"]%string /\
      Forall text_char name /\ fits_packet q
  | _ => True
  end.

Definition command_valid (t : machine) (c : command) : Prop :=
  match c with
  | Continue (Some a) | Step (Some a) => word64 a /\ t.(m_in_break) = false
  | _ => True
  end.

#[export] Instance word64_dec v : Decision (word64 v).
Proof. unfold word64. solve_decision. Defined.
#[export] Instance text_char_dec c : Decision (text_char c).
Proof. unfold text_char. solve_decision. Defined.
#[export] Instance word_char_dec c : Decision (word_char c).
Proof. unfold word_char. solve_decision. Defined.
#[export] Instance feature_valid_dec f : Decision (feature_valid f).
Proof. destruct f; unfold feature_valid; solve_decision. Defined.
#[export] Instance query_valid_dec q : Decision (query_valid q).
Proof. destruct q; unfold query_valid, fits_packet; solve_decision. Defined.
#[export] Instance command_valid_dec t c : Decision (command_valid t c).
Proof. destruct c as [[]|[]| |]; unfold command_valid; solve_decision. Defined.
