(* ===== verification/GdbProtocolProps.v ===== *)
(** The GDB stub serves a debugger that speaks the remote protocol: [FGdbTrap]
    (GdbSession.v) on a port with the packets of GdbProtocol.v sends the answers of the
    protocol and does to the target what they say. *)
From Stdlib Require Import String.
From S2P Require Import Prelude GdbPacket GdbPacketProps GdbLink GdbArch GdbArchProps.
From S2P Require Import GdbSession GdbSpec GdbServe GdbSessionProps GdbRoundtrip GdbProtocol.

(** ** Text *)
Lemma N2C_digit n : 0 <= n < 16 -> N2C n = digit n.
Proof.
  intros Hn. rewrite <-(Z2Nat.id n) by lia. assert (Z.to_nat n < 16)%nat as Hlt by lia.
  generalize dependent (Z.to_nat n). intros k Hk. do 16 (destruct k as [|k]; [reflexivity|]). lia.
Qed.

Lemma byte_text_N2C b : char b -> byte_text b = [N2C (Z.shiftr b 4); N2C (Z.land b 15)].
Proof.
  intros Hb. unfold byte_text. rewrite !N2C_digit; [|apply char_lo|by apply char_hi].
  rewrite land_15, Z.shiftr_div_pow2 by lia. done.
Qed.

Lemma data_text_hex l : Forall char l -> data_text l = hex_of l.
Proof.
  induction 1 as [|b l Hb _ IH]; [done|].
  change (data_text (b :: l)) with (byte_text b ++ data_text l).
  rewrite byte_text_N2C, IH by done. done.
Qed.

Lemma hex_2 b : char b -> uintmax_to_hex 2 b [] = byte_text b.
Proof.
  intros Hb. rewrite byte_text_N2C by done. cbn [uintmax_to_hex]. do 2 f_equal.
  unfold char in Hb. rewrite !land_15, !Z.shiftr_div_pow2 by lia. change (2 ^ 4) with 16.
  f_equal. rewrite Z.mod_small; [done|]. split; [apply Z.div_pos; lia|apply Z.div_lt_upper_bound; lia].
Qed.

(** Numbers. *)
Lemma hex_snoc sz n acc :
  0 <= n -> uintmax_to_hex (S sz) n acc = uintmax_to_hex sz (n / 16) [] ++ digit (n mod 16) :: acc.
Proof.
  revert n acc. induction sz as [|sz IH]; intros n acc Hn.
  - cbn [uintmax_to_hex app]. rewrite land_15, N2C_digit by (pose proof (Z.mod_pos_bound n 16); lia). done.
  - change (uintmax_to_hex (S (S sz)) n acc) with
      (uintmax_to_hex (S sz) (Z.shiftr n 4) (N2C (Z.land n 15) :: acc)).
    assert (Z.shiftr n 4 = n / 16) as -> by (by rewrite Z.shiftr_div_pow2 by lia).
    rewrite IH by (apply Z.div_pos; lia). rewrite (IH (n / 16) []) by (apply Z.div_pos; lia).
    rewrite <-app_assoc. rewrite land_15, N2C_digit by (pose proof (Z.mod_pos_bound n 16); lia). done.
Qed.

Lemma skip_zeros_snoc l c :
  l <> [] -> skip_zeros (l ++ [c]) = if decide (skip_zeros l = [48]) then [c] else skip_zeros l ++ [c].
Proof.
  induction l as [|x l IH]; [done|]. intros _. destruct l as [|y l].
  - cbn [app skip_zeros]. destruct (Z.eqb_spec x 48) as [->|Hx]; [done|].
    rewrite decide_False; [done|]. by intros [= ->].
  - change ((x :: y :: l) ++ [c]) with (x :: (y :: l) ++ [c]).
    assert (forall m, m <> [] -> skip_zeros (x :: m) = if x =? 48 then skip_zeros m else x :: m) as Hs.
    { intros [|z m] Hm; done. }
    rewrite !Hs by done. destruct (Z.eqb_spec x 48); [by apply IH|]. by rewrite decide_False.
Qed.

Lemma number_text_nonzero n v : 0 < v < 16 ^ Z.of_nat (S n) -> number_text n v <> [48].
Proof.
  revert v. induction n as [|n IH]; intros v Hv; cbn [number_text].
  - change (16 ^ Z.of_nat 1) with 16 in Hv. rewrite <-N2C_digit by lia. unfold N2C.
    destruct (Z.ltb_spec v 10); intros [= E]; lia.
  - destruct (Z.ltb_spec v 16).
    + rewrite <-N2C_digit by lia. unfold N2C. destruct (Z.ltb_spec v 10); intros [= E]; lia.
    + intros E. apply (f_equal length) in E. rewrite length_app in E. cbn [length] in E.
      destruct (number_text n (v / 16)) eqn:En; [|cbn in E; lia].
      destruct n; cbn [number_text] in En; [done|]. destruct (v / 16 <? 16); [done|].
      by destruct (number_text n _).
Qed.

Lemma skip_zeros_hex n v :
  0 <= v < 16 ^ Z.of_nat (S n) -> skip_zeros (uintmax_to_hex (S n) v []) = number_text n v.
Proof.
  revert v. induction n as [|n IH]; intros v Hv.
  - change (16 ^ Z.of_nat 1) with 16 in Hv. cbn [uintmax_to_hex skip_zeros number_text].
    rewrite land_15, Z.mod_small, N2C_digit by lia. done.
  - rewrite hex_snoc by lia.
    assert (uintmax_to_hex (S n) (v / 16) [] <> []) as Hne.
    { destruct (uintmax_to_hex_digits (S n) (v / 16) []) as [_ L]; [constructor|]. by intros E; rewrite E in L. }
    rewrite skip_zeros_snoc by done. rewrite Nat2Z.inj_succ, Z.pow_succ_r in Hv by lia.
    assert (0 <= v / 16 < 16 ^ Z.of_nat (S n)) as Hq.
    { split; [apply Z.div_pos; lia|apply Z.div_lt_upper_bound; lia]. }
    rewrite IH by done. cbn [number_text]. destruct (Z.ltb_spec v 16).
    + rewrite (Z.div_small v), (Z.mod_small v) by lia.
      assert (number_text n 0 = [48]) as -> by (by destruct n). done.
    + rewrite decide_False; [done|]. apply number_text_nonzero.
      split; [apply Z.div_str_pos; lia|lia].
Qed.

Lemma number_varhex v : word64 v -> number v = varhex v.
Proof. intros Hv. symmetry. apply (skip_zeros_hex 15). exact Hv. Qed.

Lemma little_le n v : little n v = le_bytes n v.
Proof.
  revert v. induction n as [|n IH]; intros v; [done|]. cbn [little le_bytes]. rewrite IH.
  change 255 with (Z.ones 8). by rewrite Z.land_ones, Z.shiftr_div_pow2 by lia.
Qed.

Lemma data_little n v : data_text (little n v) = hex_of (le_bytes n v).
Proof. rewrite little_le. apply data_text_hex, le_bytes_char. Qed.

Lemma le_value_bytes n v : 0 <= v < 256 ^ Z.of_nat n -> le_value (le_bytes n v) = v.
Proof.
  revert v. induction n as [|n IH]; intros v Hv; cbn [le_bytes le_value]; [cbn in Hv; lia|].
  rewrite Nat2Z.inj_succ, Z.pow_succ_r in Hv by lia. rewrite Z.shiftr_div_pow2 by lia. change (2 ^ 8) with 256.
  rewrite IH by (split; [apply Z.div_pos; lia|apply Z.div_lt_upper_bound; lia]).
  change 255 with (Z.ones 8). rewrite Z.land_ones by lia. change (2 ^ 8) with 256.
  pose proof (Z.div_mod v 256). lia.
Qed.

(** Packets. *)
Lemma sum_foldr m : sum m = foldr Z.add 0 m.
Proof. induction m as [|c m IH]; [done|]. rewrite sum_cons, IH. done. Qed.

Lemma checksum_mod m : checksum m = foldr Z.add 0 m mod 256.
Proof. rewrite checksum_sum, sum_foldr. change 255 with (Z.ones 8). by rewrite Z.land_ones. Qed.

Lemma packet_raw m : packet m = raw_frame m.
Proof.
  unfold packet, raw_frame. rewrite <-checksum_mod, (byte_text_N2C (checksum m)); [done|apply checksum_char].
Qed.

(** The characters of answers. *)
Definition wire_char (c : Z) : Prop := plain c /\ no_framing c.

#[local] Instance wire_dec c : Decision (wire_char c).
Proof. unfold wire_char, plain, no_framing, char. solve_decision. Defined.

Lemma frame_carries m : Forall wire_char m -> carries (frame m) m.
Proof.
  intros Hm. destruct (rle_encode_spec m) as (E & D & C & _).
  { eapply Forall_impl; [|exact Hm]. by intros ? []. }
  exists (rle_encode m). split; [|split; [|apply D]].
  - rewrite E. by rewrite packet_raw.
  - eapply Forall_impl; [|exact C]. intros c [_ [Hin|Hn]]; [|exact Hn].
    apply list_elem_of_In in Hin. rewrite Forall_forall in Hm. destruct (Hm c Hin) as [_ Hw]. exact Hw.
Qed.

Lemma wire_digit n : wire_char (digit n).
Proof.
  unfold digit. destruct (str "0123456789abcdef" !! Z.to_nat n) as [c|] eqn:E; cbn [default from_option];
    [|apply (bool_decide_unpack (wire_char 0)); vm_compute; exact I].
  revert E. apply Forall_lookup_1. apply (bool_decide_unpack _). vm_compute. exact I.
Qed.

Lemma wire_data l : Forall wire_char (data_text l).
Proof.
  induction l as [|b l IH]; [constructor|]. change (data_text (b :: l)) with (byte_text b ++ data_text l).
  apply Forall_app_2; [|done]. repeat constructor; apply wire_digit.
Qed.

Lemma wire_number v : Forall wire_char (number v).
Proof.
  unfold number. generalize 15%nat. intros n. revert v. induction n as [|n IH]; intros v; cbn [number_text].
  - repeat constructor; apply wire_digit.
  - destruct (v <? 16); [|apply Forall_app_2; [apply IH|]]; repeat constructor; apply wire_digit.
Qed.

(** ** The machine the stub works on *)

(** The state of the stub and its processor during a session. *)
Record shows (s : Stub) (t : machine) : Prop := {
  shows_wf : dbg_wf s.(dbg);
  shows_masked : debug_masked s.(dbg) = true;
  shows_frame : s.(dbg).(gdb_frame) = Some (mkFrame t.(m_sp) t.(m_lr) t.(m_pc) t.(m_cpsr) t.(m_x));
  shows_x : length t.(m_x) = 30%nat;
  shows_break : s.(dbg).(compiled_brk_process) = t.(m_in_break);
  shows_points : tables s.(dbg) = t.(m_points);
  shows_mem a : word64 a -> s.(mem) a = t.(m_mem) a;
  shows_reliable : negb (Z.land s.(gdb_dbfeatures) GDB_DBGP_FEAT_RELIABLE =? 0) = t.(m_reliable)
}.

Lemma register_getreg d t r :
  d.(gdb_frame) = Some (mkFrame t.(m_sp) t.(m_lr) t.(m_pc) t.(m_cpsr) t.(m_x)) ->
  length t.(m_x) = 30%nat -> 0 <= r < Z.of_nat registers -> gdb_cpu_getreg d r = Ok (register t r).
Proof.
  intros Hf Hx Hr. unfold gdb_cpu_getreg, frame_of, register. rewrite Hf. cbn [of_option rbind tf_lr tf_sp tf_elr tf_spsr tf_x].
  unfold GDB_REG_LR, GDB_REG_SP, GDB_REG_PC, GDB_REG_CSPR, GDB_REG_X0, GDB_REG_X29.
  destruct (Z.eqb_spec r 30) as [->|]; [done|]. destruct (Z.eqb_spec r 31) as [->|]; [done|].
  destruct (Z.eqb_spec r 32) as [->|]; [done|]. destruct (Z.eqb_spec r 33) as [->|]; [done|].
  rewrite (proj2 (Z.leb_le 0 r)) by lia. cbn [andb].
  destruct (Z.ltb_spec r 30), (Z.leb_spec r 29); try lia; [|done]. rewrite Z.sub_0_r.
  destruct (lookup_lt_is_Some_2 t.(m_x) (Z.to_nat r)) as [v Hv]; [lia|].
  rewrite (aget_Some _ _ v) by (done || lia). by rewrite Hv.
Qed.

Lemma register_size_eq r : 0 <= r < Z.of_nat registers -> gdb_cpu_regsz r = register_size r.
Proof.
  intros Hr. change (Z.of_nat registers) with 68 in Hr.
  unfold gdb_cpu_regsz, register_size, GDB_REG_CSPR, GDB_REG_FPSR, GDB_REG_FPCR, GDB_REG_V0, GDB_REG_V31.
  destruct (Z.eqb_spec r 33), (Z.eqb_spec r 66), (Z.eqb_spec r 67), (Z.leb_spec 34 r), (Z.leb_spec r 65),
    (Z.ltb_spec r 33), (Z.ltb_spec r 66); cbn [orb andb]; (lia || done).
Qed.

Lemma register_text_eq s t r :
  shows s t -> 0 <= r < Z.of_nat registers -> reg_text s.(dbg) r = Some (register_text t r).
Proof.
  intros Hs Hr. unfold reg_text, reg_bytes, register_text.
  rewrite (register_getreg _ t) by (done || apply Hs). cbn [rbind ok_of mbind option_bind].
  rewrite register_size_eq by done. destruct (register t r); [|done]. by rewrite data_little.
Qed.

Lemma regs_text_eq s t n r :
  shows s t -> 0 <= r -> r + Z.of_nat n <= Z.of_nat registers ->
  regs_text s.(dbg) r n = Some (flat_map (fun i => register_text t (r + Z.of_nat i)) (seq 0 n)).
Proof.
  intros Hs. revert r. induction n as [|n IH]; intros r H0 Hr; [done|]. cbn [regs_text].
  rewrite (register_text_eq s t) by (done || lia). cbn [mbind option_bind].
  rewrite IH by lia. cbn [mbind option_bind seq flat_map]. rewrite Z.add_0_r. do 2 f_equal.
  rewrite <-seq_shift, flat_map_concat_map, (flat_map_concat_map _ (map _ _)), map_map.
  f_equal. apply map_ext. intros i. f_equal. lia.
Qed.

(** Writing a register. *)
Lemma register_write s t r v :
  shows s t -> (0 <= r < 30 \/ r = 31 \/ r = 32) -> word64 v ->
  exists d, gdb_cpu_setreg s.(dbg) r v = Ok d /\ shows (set_dbg d s) (write_register r v t).
Proof.
  intros [Hwf Hm Hf Hx Hb Hp Hmem Hrel] Hr Hv.
  assert (u64 v = v) as Ev by (by apply wrap_small).
  assert (forall f, exists d, Ok (set_frame f s.(dbg)) = Ok d /\ d = set_frame f s.(dbg)) as Hset by eauto.
  assert (exists d, gdb_cpu_setreg s.(dbg) r v = Ok d /\
    d = set_frame (let t' := write_register r v t in
          mkFrame t'.(m_sp) t'.(m_lr) t'.(m_pc) t'.(m_cpsr) t'.(m_x)) s.(dbg)) as (d & E & Ed).
  { unfold gdb_cpu_setreg, frame_of, write_register, GDB_REG_PC, GDB_REG_SP, GDB_REG_X0, GDB_REG_X29.
    rewrite Hf. cbn [of_option rbind].
    destruct (Z.eqb_spec r 32) as [->|]; [unfold frame_elr; rewrite Ev; by eexists|].
    destruct (Z.eqb_spec r 31) as [->|]; [unfold frame_sp; rewrite Ev; by eexists|].
    rewrite (proj2 (Z.leb_le 0 r)), (proj2 (Z.leb_le r 29)) by lia. cbn [andb tf_x].
    rewrite aset_in_range by lia. rewrite Ev. by eexists. }
  exists d. split; [done|]. destruct (gdb_cpu_setreg_wf _ _ _ _ Hwf E) as (Hwf' & Hsl & _).
  assert (forall t', t' = write_register r v t ->
    length t'.(m_x) = 30%nat /\ t'.(m_in_break) = t.(m_in_break) /\
    t'.(m_points) = t.(m_points) /\ t'.(m_mem) = t.(m_mem) /\ t'.(m_reliable) = t.(m_reliable)) as Ht.
  { intros t' ->. unfold write_register. destruct (r =? 32); [by split_and!|].
    destruct (r =? 31); [by split_and!|]. cbn. by rewrite length_insert. }
  destruct (Ht _ eq_refl) as (T1 & T2 & T3 & T4 & T5).
  constructor; cbn [dbg set_dbg mem gdb_dbfeatures]; rewrite ?T2, ?T3, ?T4, ?T5; try done.
  - by rewrite Ed.
  - by rewrite Ed.
  - by rewrite Ed.
  - unfold tables in *. by rewrite !Hsl.
Qed.

(** Memory. *)
Lemma bytes_at_eq s t a n : shows s t -> mem_read s.(mem) a n = bytes_at t.(m_mem) a n.
Proof.
  intros Hs. unfold mem_read, bytes_at. apply map_ext. intros i. apply (shows_mem _ _ Hs).
  apply Z.mod_pos_bound. lia.
Qed.

Lemma store_eq m a data x :
  word64 x -> Z.of_nat (length data) <= 2 ^ 64 -> mem_write m a data x = store m a data x.
Proof.
  intros Hx Hl. unfold store. set (k := Z.to_nat ((x - a) mod 2 ^ 64)).
  pose proof (Z.mod_pos_bound (x - a) (2 ^ 64) ltac:(lia)) as Hk.
  assert (u64 (a + Z.of_nat k) = x) as Ex.
  { unfold k. rewrite Z2Nat.id by lia. unfold wrap. rewrite Zplus_mod_idemp_r.
    replace (a + (x - a)) with x by lia. by apply Z.mod_small. }
  destruct (data !! k) as [b|] eqn:E; [by rewrite <-Ex at 1; apply mem_write_at|].
  apply mem_write_below. intros i Hi Ei. apply lookup_ge_None_1 in E.
  rewrite <-Ex in Ei. apply u64_distinct in Ei; lia.
Qed.

(** A point of the tables. *)
Lemma point_serves s t o :
  shows s t ->
  exists d', run_op s.(dbg) o = Ok ((spec_op t.(m_points).1 t.(m_points).2 o).1, d') /\
    shows (set_dbg d' s) (with_points (spec_op t.(m_points).1 t.(m_points).2 o).2 t).
Proof.
  intros [Hwf Hm Hf Hx Hb Hp Hmem Hrel]. destruct (run_op_refines s.(dbg) o Hwf) as (d' & E & T & P).
  rewrite <-Hp. unfold tables. cbn [fst snd]. exists d'. split; [exact E|].
  destruct P as (Hwf' & Hprog & _). unfold program_state in Hprog.
  injection Hprog as Pf Pb Pd Pa. constructor; cbn; try done.
  - unfold debug_masked in *. by rewrite Pd.
  - by rewrite Pf.
  - by rewrite Pb.
Qed.

Lemma shows_mem_write s t a data :
  shows s t -> Z.of_nat (length data) <= 2 ^ 64 ->
  shows (set_mem (mem_write s.(mem) a data) s) (with_mem (store t.(m_mem) a data) t).
Proof.
  intros [Hwf Hm Hf Hx Hb Hp Hmem Hrel] Hl. constructor; cbn; try done.
  intros x Hx'. rewrite store_eq by done. unfold store. by rewrite Hmem.
Qed.

(** ** The text of a request as the stub reads it *)
Lemma number_reads_back v l : word64 v -> stops l -> p_number (number v ++ l) = (Some v, l).
Proof. intros Hv Hl. rewrite number_varhex by done. by apply p_number_varhex. Qed.

Lemma number_alone v : word64 v -> p_number (number v) = (Some v, []).
Proof. intros Hv. rewrite <-(app_nil_r (number v)). by apply number_reads_back. Qed.

Lemma addr_size_reads_back a n sep l :
  word64 a -> word64 n -> isxdigit sep = false -> char sep -> stops l ->
  p_addr_size sep (number a ++ sep :: number n ++ l) = (Some (a, n), l).
Proof.
  intros. rewrite !number_varhex by done. by apply p_addr_size_varhex.
Qed.

Lemma addr_size_alone a n sep :
  word64 a -> word64 n -> isxdigit sep = false -> char sep ->
  p_addr_size sep (number a ++ sep :: number n) = (Some (a, n), []).
Proof. intros. rewrite <-(app_nil_r (number n)). by apply addr_size_reads_back. Qed.

Lemma s32_small r : 0 <= r < 68 -> s32 r = r.
Proof. intros Hr. apply to_signed_small; lia. Qed.

Lemma error_eq e : 0 <= e < 256 -> err_msg e = error e.
Proof.
  intros He. unfold err_msg, error. f_equal. rewrite wrap_small by lia. by apply hex_2.
Qed.

(** The errors of the tables: none, EBUSY, EINVAL. *)
Definition errno (e : Z) : Prop := e = 0 \/ e = 16 \/ e = 22.

Lemma spec_op_errno bp wp o : errno (spec_op bp wp o).1.
Proof.
  assert (forall a n c l, errno (spec_set a n c l).1) as Hs.
  { intros a n c l. unfold spec_set, errno. destruct (add_slot _ _ _); [destruct (valid_size _)|]; cbn; tauto. }
  assert (forall a l, errno (spec_clr a l).1) as Hc.
  { intros a l. unfold spec_clr, errno. destruct (del_slot _ _); cbn; tauto. }
  destruct o as [a n|a n|a n c|a n]; cbn [spec_op].
  - pose proof (Hs a n 0 bp). by destruct (spec_set _ _ _ _).
  - pose proof (Hc a bp). by destruct (spec_clr _ _).
  - destruct (valid_access c); [|unfold errno; cbn; tauto]. pose proof (Hs a n c wp). by destruct (spec_set _ _ _ _).
  - pose proof (Hc a wp). by destruct (spec_clr _ _).
Qed.

Lemma status_eq e : errno e -> status_msg e = status e.
Proof. by intros [->|[->| ->]]. Qed.

(** What the stub answers to the text [p], as the protocol has it. *)
Definition served (type : Z) (s : Stub) (p : list Z) (a : list Z * machine) : Prop :=
  exists s', spec_request type s p = Some (Reply a.1 s') /\ shows s' a.2.

Section Query.
Context (type : Z) (s : Stub) (t : machine).
Hypothesis Hshow : shows s t.

Lemma served_same p m : spec_request type s p = Some (Reply m s) -> served type s p (m, t).
Proof. intros E. by exists s. Qed.

Lemma signal_eq : gdb_cpu_signal type = signal type.
Proof.
  unfold gdb_cpu_signal, signal, EXCP_WATCHPT_EL1, EXCP_SOFTSTP_EL1, EXCP_BRKPT_EL1, EXCP_BRK.
  case_bool_decide as H.
  - apply list_elem_of_In in H. cbn in H. destruct H as [<-|[<-|[<-|[<-|[]]]]]; done.
  - destruct (_ || _) eqn:E; [|done]. exfalso. apply H. apply list_elem_of_In.
    rewrite !orb_true_iff, !Z.eqb_eq in E. destruct E as [[[E|E]|E]|E]; rewrite E; cbn; tauto.
Qed.

Lemma signal_char : char (signal type).
Proof. unfold signal, char. case_bool_decide; lia. Qed.

Lemma read_register_served r :
  0 <= r < Z.of_nat registers -> served type s (query_text (ReadRegister r)) (answer_to type t (ReadRegister r)).
Proof.
  intros Hr. apply served_same. change (spec_request type s _) with (spec_read_reg s (number r)).
  assert (word64 r) by (unfold word64; change (Z.of_nat registers) with 68 in Hr; lia).
  unfold spec_read_reg. rewrite number_alone by done. cbn [fst].
  rewrite s32_small by exact Hr. by rewrite (register_text_eq s t).
Qed.

Lemma write_register_served r v :
  query_valid (WriteRegister r v) ->
  served type s (query_text (WriteRegister r v)) (answer_to type t (WriteRegister r v)).
Proof.
  intros [Hr Hv]. destruct (register_write s t r v Hshow Hr Hv) as (d & E & H').
  exists (set_dbg d s). split; [|exact H'].
  change (spec_request type s _) with (spec_write_reg s (number r ++ chr "=" :: data_text (little 8 v))).
  unfold spec_write_reg. rewrite number_reads_back; [|unfold word64; lia|split; [apply chr_char|done]].
  unfold p_expect, p_char. rewrite Z.eqb_refl. cbn [negb].
  rewrite s32_small by lia. rewrite data_little, hex_of_length, le_bytes_length.
  assert (gdb_cpu_regsz r = 8%nat) as R8.
  { rewrite register_size_eq by (change (Z.of_nat registers) with 68; lia). unfold register_size.
    destruct (Z.ltb_spec r 33); [done|lia]. }
  rewrite R8. cbn [Nat.mul Nat.add Nat.eqb]. rewrite p_bytes_hex by apply le_bytes_char.
  unfold write_reg. rewrite R8. rewrite decide_True by done.
  rewrite le_value_bytes by exact Hv. by rewrite E.
Qed.

Lemma read_memory_served a n :
  query_valid (ReadMemory a n) -> mem_ok s ->
  served type s (query_text (ReadMemory a n)) (answer_to type t (ReadMemory a n)).
Proof.
  intros [Ha Hn] Hm. apply served_same.
  change (spec_request type s _) with (spec_read_mem s (number a ++ chr "," :: number n)).
  unfold spec_read_mem. rewrite addr_size_alone; [|done|unfold word64; lia|done|apply chr_char]. cbn [fst].
  rewrite (proj2 (Z.leb_le _ _)) by (unfold GDB_BUFSZ; lia).
  rewrite <-(bytes_at_eq s t) by done. rewrite data_text_hex; [done|].
  unfold mem_read. apply Forall_map, Forall_true. intros i. apply Hm.
Qed.

Lemma write_memory_served a data :
  query_valid (WriteMemory a data) ->
  served type s (query_text (WriteMemory a data)) (answer_to type t (WriteMemory a data)).
Proof.
  intros (Ha & Hd & Hfit).
  assert (Z.of_nat (length data) < 2 ^ 63) as Hl.
  { unfold fits_packet, query_text in Hfit. cbn [length] in Hfit. rewrite length_app in Hfit. cbn [length] in Hfit.
    rewrite length_app in Hfit. cbn [length] in Hfit. rewrite data_text_hex, hex_of_length in Hfit by exact Hd. lia. }
  eexists. split; [|apply (shows_mem_write s t a data Hshow); lia].
  change (spec_request type s _) with
    (spec_write_mem s (number a ++ chr "," :: number (Z.of_nat (length data)) ++ chr ":" :: data_text data)).
  unfold spec_write_mem.
  rewrite addr_size_reads_back; [|done|unfold word64; lia|done|apply chr_char|split; [apply chr_char|done]].
  unfold p_expect, p_char. rewrite Z.eqb_refl. cbn [negb].
  rewrite (proj2 (Z.ltb_lt _ _)) by done. rewrite data_text_hex, hex_of_length by exact Hd.
  rewrite (proj2 (Z.eqb_eq _ _)) by lia. by rewrite p_bytes_hex by exact Hd.
Qed.

Lemma point_letter_u8 p : u8 (point_letter p) = point_letter p.
Proof. by destruct p. Qed.

Lemma point_served which o p a len :
  word64 a -> word64 len -> which (point_letter p) a len = Some o ->
  exists s', spec_z which s (point_text p a len) = Some (Reply (point_answer o t).1 s') /\
    shows s' (point_answer o t).2.
Proof.
  intros Ha Hl Hw. unfold spec_z, point_text, p_char. cbn [p_expect p_char]. unfold p_expect, p_char.
  rewrite Z.eqb_refl. rewrite addr_size_alone by (done || apply chr_char). cbn [fst].
  rewrite point_letter_u8, Hw. destruct (point_serves s t o Hshow) as (d & E & H').
  rewrite E. cbn [ok_of mbind option_bind]. unfold point_answer.
  pose proof (spec_op_errno t.(m_points).1 t.(m_points).2 o) as He.
  destruct (spec_op _ _ o) as [e points]. cbn [fst snd] in *. rewrite (status_eq e) by exact He.
  by exists (set_dbg d s).
Qed.

Lemma insert_served p a len :
  word64 a -> word64 len ->
  served type s (query_text (Insert p a len)) (answer_to type t (Insert p a len)).
Proof.
  intros Ha Hl. unfold served. change (spec_request type s _) with (spec_z insert_op s (point_text p a len)).
  apply (point_served insert_op); [done|done|]. by destruct p.
Qed.

Lemma remove_served p a len :
  word64 a -> word64 len ->
  served type s (query_text (Remove p a len)) (answer_to type t (Remove p a len)).
Proof.
  intros Ha Hl. unfold served. change (spec_request type s _) with (spec_z remove_op s (point_text p a len)).
  apply (point_served remove_op); [done|done|]. by destruct p.
Qed.

Lemma read_registers_served : served type s (query_text ReadRegisters) (answer_to type t ReadRegisters).
Proof.
  apply served_same.
  change (spec_request type s _) with (x ← regs_text s.(dbg) 0 (Z.to_nat GDB_NREGS); Some (Reply x s)).
  change (Z.to_nat GDB_NREGS) with registers.
  by rewrite (regs_text_eq s t) by (done || lia).
Qed.

Lemma why_stopped_served : served type s (query_text WhyStopped) (answer_to type t WhyStopped).
Proof.
  apply served_same.
  change (spec_request type s _) with (Some (Reply (chr "T" :: uintmax_to_hex 2 (gdb_cpu_signal type) []) s)).
  rewrite signal_eq, hex_2 by apply signal_char. done.
Qed.

(** A letter the stub does not know. *)
Lemma unsupported_served letter args :
  ~ (letter ∈ str "?cDgGHkmMpPqszZ") ->
  served type s (query_text (Unsupported letter args)) (answer_to type t (Unsupported letter args)).
Proof.
  intros Hl. apply served_same. unfold spec_request, query_text. cbn [p_char].
  assert (forall c, c ∈ str "?cDgGHkmMpPqszZ" -> (letter =? c) = false) as Hne.
  { intros c Hc. apply Z.eqb_neq. intros ->. by apply Hl. }
  rewrite !Hne by (apply (bool_decide_unpack _); vm_compute; exact I). done.
Qed.

Lemma p_prefix_None w l : ~ (w `prefix_of` l) -> p_prefix w l = None.
Proof.
  revert l. induction w as [|c w IH]; intros l Hn; cbn [p_prefix].
  - destruct Hn. apply prefix_nil.
  - destruct l as [|x l]; [done|]. destruct (Z.eqb_spec c x) as [->|]; [|done].
    apply IH. intros Hp. by apply Hn, prefix_cons.
Qed.

Lemma unsupported_query_served name :
  query_valid (UnsupportedQuery name) ->
  served type s (query_text (UnsupportedQuery name)) (answer_to type t (UnsupportedQuery name)).
Proof.
  intros (Hn & _). apply served_same. change (spec_request type s _) with (spec_query s name).
  apply Forall_cons_1 in Hn as [H1 [H2 [H3 [H4 _]%Forall_cons_1]%Forall_cons_1]%Forall_cons_1]. unfold spec_query.
  rewrite (p_prefix_None (str "C")), (p_prefix_None (str "Supported")), (p_prefix_None (str "Xfer:")),
    (p_prefix_None (str "Search:memory:")) by done.
  by destruct (p_prefix (str "fThreadInfo") name), (p_prefix (str "sThreadInfo") name).
Qed.

(** The features of the debugger. *)
Lemma word_app w l :
  Forall (fun c => c <> chr ";") w -> word (w ++ l) = w ++ word l.
Proof.
  induction 1 as [|c w Hc _ IH]; [done|]. cbn [app word]. rewrite (proj2 (Z.eqb_neq _ _)) by done. by rewrite IH.
Qed.

Lemma feature_chars f : feature_valid f -> Forall word_char (feature_text f).
Proof.
  assert (forall c, c = chr "+" \/ c = chr "-" \/ c = chr "=" -> word_char c) as Hc.
  { intros c [->|[->| ->]]; (split; [split; [apply chr_char|]|]); (split || idtac); by intros ?. }
  destruct f as [n|n|n v]; cbn; intros H; repeat (apply Forall_app_2 || apply List.Forall_cons || constructor);
    try tauto; apply Hc; tauto.
Qed.

Lemma feature_word_ok f : feature_valid f -> feature_ok (feature_text f) = true.
Proof.
  assert (forall n c, n <> [] -> (c =? ch_minus) || (c =? ch_plus) = true -> feature_ok (n ++ [c]) = true) as Hf.
  { intros n c Hn Hc. unfold feature_ok. rewrite length_app. cbn [length].
    destruct n as [|x n]; [done|]. cbn [length Nat.add].
    rewrite (proj2 (Nat.leb_le _ _)) by lia. cbn [andb].
    replace (S (length n + 1) - 1)%nat with (length (x :: n)) by (cbn; lia).
    rewrite lookup_app_r by done. rewrite Nat.sub_diag. cbn [lookup list_lookup]. by rewrite Hc. }
  destruct f as [n|n|n v]; cbn [feature_valid feature_text].
  - intros [Hn _]. by apply Hf.
  - intros [Hn _]. by apply Hf.
  - intros (Hn & _). destruct n as [|x n]; [done|]. unfold feature_ok.
    assert (2 <= length ((x :: n) ++ chr "=" :: v))%nat as Hl by (rewrite length_app; cbn; lia).
    rewrite (proj2 (Nat.leb_le _ _)) by done. cbn [andb].
    destruct (lookup_lt_is_Some_2 ((x :: n) ++ chr "=" :: v) (length ((x :: n) ++ chr "=" :: v) - 1)) as [c ->]; [lia|].
    rewrite (bool_decide_eq_true_2 (chr "=" ∈ _)); [by rewrite orb_true_r|].
    apply elem_of_app. right. apply list_elem_of_here.
Qed.

Lemma features_words l k :
  Forall feature_valid l -> (length (features_text l) <= k)%nat -> features_ok k (features_text l) = true.
Proof.
  revert k. induction l as [|f l IH]; intros k Hl Hk; [by destruct k|].
  apply Forall_cons_1 in Hl as [Hf Hl].
  assert (Forall (fun c => c <> chr ";") (feature_text f)) as Hc.
  { eapply Forall_impl; [|by apply feature_chars]. by intros c []. }
  assert (forall j x, x <> [] ->
    features_ok (S j) x = feature_ok (word x) && features_ok j (drop (S (length (word x))) x)) as Hs by (by intros ? []).
  assert (feature_text f <> []) as Hn by (destruct f as [n|n|n v]; cbn; by destruct n).
  destruct l as [|f2 l].
  - cbn [features_text] in *. destruct k as [|k]; [by destruct (feature_text f)|].
    assert (word (feature_text f) = feature_text f) as Ew.
    { rewrite <-(app_nil_r (feature_text f)) at 1. rewrite word_app by done. apply app_nil_r. }
    rewrite Hs, Ew, feature_word_ok, drop_ge by (done || lia). by destruct k.
  - change (features_text (f :: f2 :: l)) with (feature_text f ++ chr ";" :: features_text (f2 :: l)) in *.
    destruct k as [|k]; [rewrite length_app in Hk; cbn in Hk; lia|].
    assert (word (feature_text f ++ chr ";" :: features_text (f2 :: l)) = feature_text f) as Ew.
    { rewrite word_app by done. cbn [word]. rewrite Z.eqb_refl. apply app_nil_r. }
    rewrite Hs by (intros E; apply (f_equal length) in E; rewrite length_app in E; cbn in E; lia).
    rewrite Ew, feature_word_ok by done. cbn [andb].
    rewrite cons_middle, app_assoc, drop_app_length' by (rewrite length_app; cbn; lia).
    apply IH; [done|]. rewrite length_app in Hk. cbn [length] in Hk. lia.
Qed.

Lemma features_served l :
  query_valid (Features l) -> served type s (query_text (Features l)) (answer_to type t (Features l)).
Proof.
  intros [Hl _]. apply served_same. cbn [answer_to fst].
  assert (supported_msg s = str "PacketSize=1003;qXfer:threads:read+" ++
    (if m_reliable t then str ";QStartNoAckMode+" else [])) as <-.
  { unfold supported_msg. rewrite (shows_reliable s t Hshow).
    destruct (m_reliable t); vm_compute; reflexivity. }
  destruct l as [|f l]; [reflexivity|].
  change (spec_request type s _) with
    (Some (if features_ok (length (features_text (f :: l))) (features_text (f :: l))
           then Reply (supported_msg s) s else Reply (err_msg EINVAL) s)).
  by rewrite features_words.
Qed.

(** Every request is answered as the protocol says. *)
Lemma query_served q : query_valid q -> mem_ok s -> served type s (query_text q) (answer_to type t q).
Proof.
  destruct q; intros Hq Hm.
  - apply why_stopped_served.
  - apply read_registers_served.
  - by apply read_register_served.
  - by apply write_register_served.
  - by apply read_memory_served.
  - by apply write_memory_served.
  - destruct Hq. by apply insert_served.
  - destruct Hq. by apply remove_served.
  - by apply served_same.
  - by apply served_same.
  - by apply features_served.
  - destruct Hq as (Hl & _). by apply unsupported_served.
  - by apply unsupported_query_served.
Qed.
End Query.

(** ** Texts and answers fit their packets *)
Lemma sendable_number v : word64 v -> Forall sendable (number v).
Proof. intros Hv. rewrite number_varhex by done. by apply varhex_sendable. Qed.

Lemma number_length v : word64 v -> (length (number v) <= 16)%nat.
Proof. intros Hv. rewrite number_varhex by done. apply varhex_length. Qed.

Lemma sendable_data l : Forall char l -> Forall sendable (data_text l).
Proof. intros Hl. rewrite data_text_hex by done. by apply hex_sendable. Qed.

Lemma sendable_chr c : chr c <> 0 -> chr c <> ch_hash -> sendable (chr c).
Proof. intros H1 H2. split; [apply chr_char|by split]. Qed.

#[local] Instance sendable_dec c : Decision (sendable c).
Proof. unfold sendable, char. solve_decision. Defined.

(** A property of given characters. *)
#[local] Ltac given := apply (bool_decide_unpack _); vm_compute; exact I.

#[local] Ltac text :=
  repeat lazymatch goal with
  | |- Forall _ [] => apply List.Forall_nil
  | |- Forall _ (_ :: _) => apply List.Forall_cons
  | |- Forall _ (_ ++ _) => apply Forall_app_2
  end;
  first [apply sendable_number; assumption || (unfold word64; lia)
        | apply sendable_data; (assumption || rewrite little_le; apply le_bytes_char)
        | apply sendable_chr; discriminate | given].

Lemma length_data l : length (data_text l) = (2 * length l)%nat.
Proof.
  induction l as [|b l IH]; [done|]. change (data_text (b :: l)) with (byte_text b ++ data_text l).
  rewrite length_app, IH. cbn. lia.
Qed.

Lemma features_sendable l : Forall feature_valid l -> Forall sendable (features_text l).
Proof.
  intros Hl. assert (forall f, feature_valid f -> Forall sendable (feature_text f)) as Hf.
  { intros f Hv. eapply Forall_impl; [|by apply feature_chars]. by intros c [[H1 [H2 H3]] _]. }
  induction Hl as [|f l Hv Hl IH]; [constructor|]. destruct l as [|f2 l]; [by apply Hf|].
  change (features_text (f :: f2 :: l)) with (feature_text f ++ chr ";" :: features_text (f2 :: l)).
  apply Forall_app_2; [by apply Hf|]. apply List.Forall_cons; [by apply sendable_chr|done].
Qed.

Lemma text_sendable l : Forall text_char l -> Forall sendable l.
Proof. apply Forall_impl. by intros c. Qed.

#[local] Ltac short :=
  unfold point_text; repeat (progress (cbn [length]) || rewrite length_app || rewrite length_data || rewrite little_le, le_bytes_length);
  unfold GDB_BUFSZ;
  repeat match goal with |- context [length (number ?v)] =>
    let H := fresh in assert (length (number v) <= 16)%nat as H by (apply number_length; assumption || (unfold word64; lia));
    revert H; generalize (length (number v)); intros
  end; lia.

Lemma query_sent q : query_valid q -> well_sent (query_text q).
Proof.
  destruct q as [| |r|r v|a n|a data|p a len|p a len|o id| |l|c args|name]; cbn [query_valid]; intros Hq;
    apply well_sent_intro; cbn [query_text]; unfold point_text.
  - text.
  - done.
  - text.
  - done.
  - change (Z.of_nat registers) with 68 in Hq. text.
  - change (Z.of_nat registers) with 68 in Hq. short.
  - destruct Hq as [Hr Hv]. text.
  - destruct Hq as [Hr Hv]. short.
  - destruct Hq as [Ha Hn]. text.
  - destruct Hq as [Ha Hn]. short.
  - destruct Hq as (Ha & Hd & Hf). unfold fits_packet in Hf. cbn [query_text length] in Hf.
    rewrite !length_app in Hf. cbn [length] in Hf. rewrite !length_app in Hf. cbn [length] in Hf.
    rewrite length_data in Hf. text.
  - destruct Hq as (_ & _ & Hf). exact Hf.
  - destruct Hq as [Ha Hl]. destruct p; text.
  - destruct Hq as [Ha Hl]. short.
  - destruct Hq as [Ha Hl]. destruct p; text.
  - destruct Hq as [Ha Hl]. short.
  - destruct Hq as [[->| ->] Hid].
    all: destruct (Z.ltb_spec id 0); text.
  - destruct Hq as [_ Hid]. destruct (Z.ltb_spec id 0); [done|short].
  - text.
  - done.
  - destruct Hq as [Hl _]. destruct l as [|f l]; [given|].
    apply Forall_app_2; [given|]. by apply features_sendable.
  - destruct Hq as (_ & Hf). exact Hf.
  - destruct Hq as (_ & Hc & _). by apply text_sendable.
  - destruct Hq as (_ & _ & Hf). exact Hf.
  - destruct Hq as (_ & Hc & _). apply List.Forall_cons; [by apply sendable_chr|]. by apply text_sendable.
  - destruct Hq as (_ & _ & Hf). exact Hf.
Qed.

Lemma command_sent t c : command_valid t c -> well_sent (command_text c).
Proof.
  assert (forall x, Forall sendable (str x) -> forall pc, match pc with Some a => word64 a | None => True end ->
    (length (str x) <= 1)%nat -> well_sent (str x ++ at_text pc)) as Hs.
  { intros x Hx pc Hpc Hl. apply well_sent_intro.
    - apply Forall_app_2; [done|]. destruct pc; [by apply sendable_number|constructor].
    - rewrite length_app. destruct pc as [a|]; cbn [at_text]; [|cbn; unfold GDB_BUFSZ; lia].
      pose proof (number_length a Hpc). unfold GDB_BUFSZ. lia. }
  destruct c as [pc|pc| |]; cbn [command_valid]; intros Hc.
  - apply (Hs "c"%string); [by repeat constructor|destruct pc; tauto|cbn; lia].
  - apply (Hs "s"%string); [by repeat constructor|destruct pc; tauto|cbn; lia].
  - apply well_sent_intro; [by repeat constructor|done].
  - apply well_sent_intro; [by repeat constructor|done].
Qed.

#[local] Ltac wire :=
  repeat lazymatch goal with
  | |- Forall _ (_ :: _) => apply List.Forall_cons
  | |- Forall _ (_ ++ _) => apply Forall_app_2
  end;
  first [apply wire_data | apply wire_number | apply wire_digit | given].

Lemma register_text_wire t r : Forall wire_char (register_text t r).
Proof.
  unfold register_text. destruct (register t r); [wire|]. apply Forall_replicate. given.
Qed.

Lemma byte_text_wire b : Forall wire_char (byte_text b).
Proof. unfold byte_text. wire. Qed.

Lemma status_wire e : Forall wire_char (status e).
Proof. unfold status, error. destruct (e =? 0); [given|]. apply List.Forall_cons; [given|apply byte_text_wire]. Qed.

Lemma answer_wire type t q : Forall wire_char (answer_to type t q).1.
Proof.
  destruct q; cbn [answer_to fst].
  - apply List.Forall_cons; [given|apply byte_text_wire].
  - apply List.Forall_forall. intros c (r & _ & Hc)%List.in_flat_map.
    pose proof (register_text_wire t (Z.of_nat r)) as Hw. rewrite List.Forall_forall in Hw. by apply Hw.
  - apply register_text_wire.
  - given.
  - wire.
  - given.
  - unfold point_answer. destruct (spec_op _ _ _) as [e ps]. apply status_wire.
  - unfold point_answer. destruct (spec_op _ _ _) as [e ps]. apply status_wire.
  - given.
  - given.
  - destruct (m_reliable t); given.
  - constructor.
  - constructor.
Qed.

Lemma answers_wire type t qs : Forall (Forall wire_char) (answers type t qs).1.
Proof.
  revert t. induction qs as [|q qs IH]; intros t; cbn [answers]; [constructor|].
  pose proof (answer_wire type t q) as Hq. destruct (answer_to type t q) as [m t1]. specialize (IH t1).
  destruct (answers type t1 qs) as [ms t2]. by constructor.
Qed.

Lemma answer_break type t q : (answer_to type t q).2.(m_in_break) = t.(m_in_break).
Proof.
  destruct q; cbn [answer_to snd]; try done.
  - unfold write_register. destruct (r =? 32); [done|]. by destruct (r =? 31).
  - unfold point_answer. by destruct (spec_op _ _ _).
  - unfold point_answer. by destruct (spec_op _ _ _).
Qed.

(** ** The stop reply *)
Lemma stop_eq type s t :
  shows s t -> s.(dbg).(sys).(far_el1) = t.(m_fault) -> word64 t.(m_fault) ->
  spec_stop type s = Some (stop_reply type t).
Proof.
  intros Hs Hf Hw. unfold spec_stop.
  rewrite (register_text_eq s t GDB_REG_PC Hs) by (split; [done|reflexivity]). cbn [mbind option_bind].
  rewrite signal_eq, hex_2 by apply signal_char. rewrite Hf, <-(number_varhex t.(m_fault)) by done.
  change EXCP_WATCHPT_EL1 with 0x35. done.
Qed.

Lemma stop_wire type t : Forall wire_char (stop_reply type t).
Proof.
  unfold stop_reply. apply List.Forall_cons; [given|]. apply Forall_app_2; [apply byte_text_wire|].
  destruct (type =? 0x35); wire.
Qed.

(** ** Commands *)
Definition steps (c : command) : bool := match c with Step _ => true | _ => false end.
Definition goes_on (c : command) : bool := match c with Continue _ | Step _ => true | _ => false end.

(** The state the program is resumed in: registers, memory and points are those of
    the machine; a step is armed exactly when one was asked for, and otherwise the
    points are; the condition flags and interrupt masks of the program are not
    described here (see [continue_unmasks] in GdbArchProps.v). *)
Record resumes (s : Stub) (t : machine) (c : command) : Prop := {
  resumes_frame : exists cpsr,
    s.(dbg).(gdb_frame) = Some (mkFrame t.(m_sp) t.(m_lr) t.(m_pc) cpsr t.(m_x)) /\
    (steps c = true -> Z.testbit cpsr 21 = true);
  resumes_step : Z.testbit s.(dbg).(sys).(mdscr_el1) 0 = steps c;
  resumes_points : tables s.(dbg) = t.(m_points);
  resumes_watch : steps c = false -> 0 < total s.(dbg) -> watching s.(dbg) = true;
  resumes_mem a : word64 a -> s.(mem) a = t.(m_mem) a;
  resumes_listening : s.(gdb_listening) = if goes_on c then 1 else 0
}.

Lemma set_singlestep_bit d d' :
  kdb_cpu_set_singlestep d = Ok d' -> Z.testbit d'.(sys).(mdscr_el1) 0 = true.
Proof.
  unfold kdb_cpu_set_singlestep. destruct (debug_masked d); [|done].
  destruct (gdb_frame d) as [f|]; [|done]. cbn [of_option rbind].
  destruct (skip_compiled_brk d f) as [d1 f1].
  assert (forall x, Z.testbit (u64 (Z.lor (Z.lor x MDSCR_SS) MDSCR_KDE)) 0 = true) as Hb.
  { intros x. rewrite wrap_testbit, !Z.lor_spec by lia. change (Z.testbit MDSCR_SS 0) with true.
    by rewrite orb_true_r. }
  destruct (negb _); intros [= <-]; cbn [write_mdscr set_sys sys mdscr_el1 set_frame set_monitor].
  - rewrite wrap_testbit, Z.ldiff_spec, Hb by lia. done.
  - apply Hb.
Qed.

(** The machine on which a command acts: the program counter may be replaced first. *)
Definition at_address (pc : option Z) (t : machine) : machine :=
  match pc with Some a => with_pc a t | None => t end.

Lemma resume_at_serves s t pc :
  shows s t -> match pc with Some a => word64 a | None => True end ->
  exists s', spec_resume_at s (at_text pc) = Some s' /\ shows s' (at_address pc t) /\
    s'.(mem) = s.(mem).
Proof.
  intros Hs Hpc. unfold spec_resume_at. destruct pc as [a|]; cbn [at_text].
  - rewrite number_alone by done. cbn [fst].
    destruct (register_write s t 32 a Hs) as (d & E & H'); [lia|done|].
    change GDB_REG_PC with 32. rewrite E. cbn [ok_of mbind option_bind]. by exists (set_dbg d s).
  - by exists s.
Qed.

Lemma at_address_break pc t : (at_address pc t).(m_in_break) = t.(m_in_break).
Proof. by destruct pc. Qed.

(** A break instruction of the program is passed. *)
Lemma resumed_passes c t :
  c = Step None \/ c = Kill ->
  resumed_at c t = with_pc (if t.(m_in_break) then (t.(m_pc) + 4) mod 2 ^ 64 else t.(m_pc)) t.
Proof. by intros [->| ->]; destruct t as [????????[] ?]. Qed.

Lemma step_resumes s t :
  shows s t ->
  exists d, kdb_cpu_set_singlestep s.(dbg) = Ok d /\
    forall s', s'.(dbg) = d -> s'.(mem) = s.(mem) -> s'.(gdb_listening) = 1 ->
      resumes s' (resumed_at (Step None) t) (Step None).
Proof.
  intros [Hwf Hm Hf Hx Hb Hp Hmem Hrel].
  destruct (kdb_cpu_set_singlestep_spec _ _ Hwf Hm Hf) as (d & E & Hwf' & Hs & Hf' & _).
  exists d. split; [done|]. intros s' <- Em El. cbn [tf_sp tf_lr tf_elr tf_spsr tf_x] in Hf'.
  rewrite resumed_passes by tauto. constructor; cbn [with_pc m_x m_lr m_sp m_pc m_cpsr m_mem m_points]; try done.
  - rewrite Hf', Hb. eexists. split; [reflexivity|]. intros _.
    rewrite wrap_testbit, Z.lor_spec, wrap_testbit, Z.lor_spec by lia.
    change (Z.testbit PSR_SS 21) with true. by rewrite orb_true_r.
  - by apply (set_singlestep_bit s.(dbg)).
  - rewrite <-Hp. unfold tables. by rewrite !Hs.
  - by rewrite Em.
Qed.

Lemma clear_resumes s t :
  shows s t ->
  exists d, kdb_cpu_clear_singlestep s.(dbg) = Ok d /\
    forall s' c, steps c = false -> s'.(dbg) = d -> s'.(mem) = s.(mem) ->
      s'.(gdb_listening) = (if goes_on c then 1 else 0) ->
      resumes s' (resumed_at Kill t) c.
Proof.
  intros [Hwf Hm Hf Hx Hb Hp Hmem Hrel].
  destruct (kdb_cpu_clear_singlestep_spec _ _ Hwf Hm Hf)
    as (d & elr & E & Hwf' & Hs & Hf' & -> & Hwat & Hbit & _).
  exists d. split; [done|]. intros s' c Hc <- Em El. cbn [tf_sp tf_lr tf_elr tf_spsr tf_x] in Hf'.
  rewrite resumed_passes by tauto. constructor; cbn [with_pc m_x m_lr m_sp m_pc m_cpsr m_mem m_points]; try done.
  - rewrite Hf', Hb. eexists. split; [reflexivity|]. congruence.
  - by rewrite Hc.
  - rewrite <-Hp. unfold tables. by rewrite !Hs.
  - intros _. by rewrite (total_same (dbg s') (dbg s)).
  - by rewrite Em.
Qed.

Lemma command_served type s t c :
  shows s t -> command_valid t c ->
  exists s',
    spec_request type s (command_text c) =
      Some (match c with Detach => ReplyResume (str "OK") s' | _ => SilentResume s' end) /\
    resumes s' (resumed_at c t) c.
Proof.
  intros Hs Hc.
  assert (forall pc, command_valid t (Continue pc) -> match pc with Some a => word64 a | None => True end) as Hpc.
  { intros [a|]; [|done]. by intros [? _]. }
  assert (forall d, (detached s d).(dbg) = d /\ (detached s d).(mem) = s.(mem) /\
    (detached s d).(gdb_listening) = 0) as Hdet.
  { intros d. unfold detached. by destruct (negb _). }
  destruct c as [pc|pc| |].
  - destruct (resume_at_serves s t pc Hs (Hpc pc Hc)) as (s1 & E1 & H1 & M1).
    destruct (clear_resumes s1 _ H1) as (d & E & R). exists (set_listening 1 (set_dbg d s1)). split.
    + change (spec_request type s _) with
        (s2 ← spec_resume_at s (at_text pc); d ← ok_of (kdb_cpu_clear_singlestep s2.(dbg));
         Some (SilentResume (set_listening 1 (set_dbg d s2)))).
      rewrite E1. cbn [mbind option_bind]. by rewrite E.
    + specialize (R (set_listening 1 (set_dbg d s1)) (Continue pc) eq_refl eq_refl eq_refl eq_refl).
      destruct pc as [a|]; [|exact R]. destruct Hc as [_ Hb]. cbn in R. by rewrite Hb in R.
  - destruct (resume_at_serves s t pc Hs (Hpc pc Hc)) as (s1 & E1 & H1 & M1).
    destruct (step_resumes s1 _ H1) as (d & E & R). exists (set_listening 1 (set_dbg d s1)). split.
    + change (spec_request type s _) with
        (s2 ← spec_resume_at s (at_text pc); d ← ok_of (kdb_cpu_set_singlestep s2.(dbg));
         Some (SilentResume (set_listening 1 (set_dbg d s2)))).
      rewrite E1. cbn [mbind option_bind]. by rewrite E.
    + specialize (R (set_listening 1 (set_dbg d s1)) eq_refl eq_refl eq_refl).
      destruct pc as [a|]; [|exact R]. destruct Hc as [_ Hb]. cbn in R. rewrite Hb in R.
      destruct R. by constructor.
  - destruct (clear_resumes s t Hs) as (d & E & R). exists (detached s d). split.
    + change (spec_request type s _) with
        (d ← ok_of (kdb_cpu_clear_singlestep s.(dbg)); Some (ReplyResume ok_msg (detached s d))).
      by rewrite E.
    + destruct (Hdet d) as (D1 & D2 & D3). by apply (R (detached s d) Detach).
  - destruct (clear_resumes s t Hs) as (d & E & R). exists (detached s d). split.
    + change (spec_request type s _) with
        (d ← ok_of (kdb_cpu_clear_singlestep s.(dbg)); Some (SilentResume (detached s d))).
      by rewrite E.
    + destruct (Hdet d) as (D1 & D2 & D3). by apply (R (detached s d) Kill).
Qed.

(** ** A session *)

(** What the debugger sends after the stop reply: the requests, each followed by the
    acknowledgement of its answer, and the command. *)
Definition debugger_sends (qs : list query) (c : command) : list Z :=
  flat_map (fun q => packet (query_text q) ++ str "+") qs ++
  packet (command_text c) ++ match command_reply c with [] => [] | _ => str "+" end.

Lemma session_serves type s t qs c :
  shows s t -> mem_ok s -> Forall query_valid qs -> command_valid t c ->
  exists s',
    spec_session type s (map query_text qs ++ [command_text c]) =
      Some (debugger_sends qs c,
            flat_map (fun m => ch_plus :: frame m) (answers type t qs).1 ++
              ch_plus :: flat_map frame (command_reply c), s') /\
    resumes s' (resumed_at c (answers type t qs).2) c.
Proof.
  intros Hs Hm Hq Hc. revert s t Hs Hm Hc. induction Hq as [|q qs Hq _ IH]; intros s t Hs Hm Hc.
  - destruct (command_served type s t c Hs Hc) as (s' & E & R). exists s'. split; [|exact R].
    cbn [map app spec_session]. rewrite E. cbn [mbind option_bind].
    unfold debugger_sends. cbn [flat_map app]. rewrite packet_raw.
    destruct c; cbn [command_reply flat_map app]; rewrite ?app_nil_r; done.
  - destruct (query_served type s t Hs q Hq Hm) as (s1 & E1 & H1).
    pose proof (request_mem type s (query_text q) Hm) as Hm1. rewrite E1 in Hm1.
    pose proof (answer_break type t q) as Hb. cbn [answers].
    destruct (answer_to type t q) as [m t1]. cbn [fst snd] in *.
    destruct (IH s1 t1 H1 Hm1) as (s' & E & R).
    { destruct c as [[a|]|[a|]| |]; cbn [command_valid] in *; rewrite ?Hb; done. }
    exists s'. destruct (answers type t1 qs) as [ms t2]. cbn [fst snd] in *. split; [|exact R].
    cbn [map app spec_session]. rewrite E1. cbn [mbind option_bind]. rewrite E. cbn [mbind option_bind].
    unfold debugger_sends. cbn [flat_map]. rewrite !packet_raw, <-!app_assoc. reflexivity.
Qed.

(** The debugger and the processor when the target has stopped. *)
Record stopped (s : Stub) (t : machine) : Prop := {
  stopped_ready : stub_ready s;
  stopped_shows : shows s t;
  stopped_fault : s.(dbg).(sys).(far_el1) = t.(m_fault) /\ word64 t.(m_fault)
}.

(** C8: [FGdbTrap] speaks the GDB remote protocol.  A target that has stopped and shows
    the machine [t] serves a debugger that acknowledges the stop reply, sends any valid
    requests and the acknowledgement of each answer, and last a command to continue, to
    step, to detach or to kill: it sends the stop reply of the protocol, then for every
    request an acknowledgement and a packet that carries the answer of the protocol,
    acknowledges the command (and answers a detach), and returns with the machine the
    requests have made of [t], resumed where and how the command says.  The text of
    requests and answers and the machine are those of GdbProtocol.v, which says what
    requests are left out. *)
Theorem FGdbTrap_protocol n fuel type s t qs c rest :
  stopped s t -> Forall query_valid qs -> command_valid t c -> (length qs < n)%nat ->
  s.(link).(input) = str "+" ++ debugger_sends qs c ++ rest ->
  exists s' first packets last,
    FGdbTrap n (S fuel) type s = Ok (1, s') /\
    carries first (stop_reply type t) /\
    Forall2 carries packets (answers type t qs).1 /\
    Forall2 carries last (command_reply c) /\
    s'.(link).(output) =
      s.(link).(output) ++ first ++ flat_map (fun w => str "+" ++ w) packets ++ str "+" ++ concat last /\
    s'.(link).(input) = rest /\ s'.(port_intr) = true /\
    resumes s' (resumed_at c (answers type t qs).2) c.
Proof.
  intros [Hready Hs [Hf Hw]] Hq Hc Hn Hin.
  assert (shows (trapped s) t) as Hs' by (by destruct Hs).
  destruct (session_serves type (trapped s) t qs c Hs' (ready_mem _ Hready) Hq Hc) as (s1 & E & R).
  destruct (trap_serves n fuel type s (map query_text qs ++ [command_text c]) (stop_reply type t)
    (debugger_sends qs c)
    (flat_map (fun m => ch_plus :: frame m) (answers type t qs).1 ++ ch_plus :: flat_map frame (command_reply c))
    s1 rest Hready) as (g & Eg & I & O).
  - apply Forall_app_2.
    + apply Forall_map. eapply Forall_impl; [|exact Hq]. apply query_sent.
    + apply List.Forall_cons; [by apply (command_sent t)|constructor].
  - rewrite length_app, length_map. cbn [length]. lia.
  - by apply stop_eq.
  - exact E.
  - exact Hin.
  - exists (gdb_port_intr_ctrl true (set_link g s1)), (frame (stop_reply type t)),
      (map frame (answers type t qs).1), (map frame (command_reply c)).
    split; [exact Eg|]. split; [apply frame_carries, stop_wire|].
    split; [|split; [|split; [|split; [exact I|split; [done|by destruct R]]]]].
    + apply Forall2_fmap_l, Forall_Forall2_diag. eapply Forall_impl; [|apply (answers_wire type t qs)].
      apply frame_carries.
    + destruct c; cbn [command_reply map]; repeat constructor. apply frame_carries. given.
    + cbn [gdb_port_intr_ctrl set_link link]. rewrite O. f_equal. f_equal.
      rewrite flat_map_concat_map, (flat_map_concat_map _ (map _ _)), map_map. f_equal.
      change (str "+" ++ ?l) with (ch_plus :: l). by rewrite flat_map_concat_map.
Qed.

(** A target stopped at a break instruction of the program, with one watchpoint; a
    session as a debugger holds it. *)
Definition stub_at (inp : list Z) : Stub := set_dbg stopped_state (sample_stub inp).
Definition machine_at : machine :=
  mkMachine (replicate 30 0) 0 0x8000 0x1000 0x3c5 (fun _ => 0) (tables stopped_state) 0 true false.
Definition session : list query :=
  [Features [Has (str "swbreak"); Is (str "xmlRegisters") (str "aarch64"); Lacks (str "fork-events")];
   WhyStopped; CurrentThread; UnsupportedQuery (str "Attached"); WriteRegister 1 0x2a; ReadRegister 1;
   WriteMemory (2 ^ 64 - 2) [10; 11; 12]; ReadMemory (2 ^ 64 - 2) 3; Insert Software 0x4000 4;
   Insert OnRead 0x4000 3; Remove OnWrite 0x9000 4; Remove OnWrite 0x9000 4; ReadRegister 40;
   SelectThread (chr "c") (-1)].

Lemma FGdbTrap_protocol_witness :
  exists s' first packets last,
    FGdbTrap 20 1 EXCP_BRK (stub_at (str "+" ++ debugger_sends session (Continue None))) = Ok (1, s') /\
    carries first (str "T0520:0010000000000000;thread:1;") /\
    Forall2 carries packets (map str
      ["PacketSize=1003;qXfer:threads:read+"; "T05"; "QC1"; ""; "OK"; "2a00000000000000"; "OK"; "0a0b0c"; "OK";
       "E16"; "OK"; "E16"; "xxxxxxxxxxxxxxxxxxxxxxxxxxxxxxxx"; "OK"])%string /\
    s'.(link).(output) = first ++ flat_map (fun w => str "+" ++ w) packets ++ str "+" ++ concat last /\
    s'.(mem) 0 = 12 /\
    exists cpsr, s'.(dbg).(gdb_frame) = Some (mkFrame 0x8000 0 0x1004 cpsr (<[1%nat := 0x2a]> (replicate 30 0))).
Proof.
  assert (stopped (stub_at (str "+" ++ debugger_sends session (Continue None))) machine_at) as Hst.
  { split; [by split| |split; vm_compute; intuition congruence].
    split; try reflexivity. apply reachable_wf, stopped_reachable. }
  destruct (FGdbTrap_protocol 20 0 EXCP_BRK _ machine_at session (Continue None) [] Hst)
    as (s' & first & packets & last & E & F & P & _ & O & _ & _ & R).
  - given.
  - exact I.
  - cbn. lia.
  - rewrite app_nil_r. reflexivity.
  - exists s', first, packets, last. split; [exact E|]. split; [exact F|]. split; [exact P|]. split; [exact O|].
    destruct R as [(cpsr & Ef & _) _ _ _ Rm _]. split; [|exists cpsr; exact Ef].
    rewrite Rm by (unfold word64; lia). vm_compute. reflexivity.
Defined.
