(* ===== verification/Uart.v ===== *)
(** The PL011 UART driver: src/standalone/drivers/serial/fpl011/ (fpl011.c,
    fpl011_intr.c, fpl011_options.c, fpl011_hw.c and their headers).

    The registers of the controller are the class [MmioHw] of Mmio.v; what the driver relies on
    of them is in UartProps.v.  Buffers are addresses in the memory [mem].  The
    callback of the application is a log of its calls; what it does itself is outside
    the model.  [fuel] bounds the polls of a loop that waits for the transmitter. *)
From S2P Require Import Prelude Mmio.

Module Uart.

(** ** Constants *)
Definition ErrBspUart : Z := 5.
Definition FPL011_ERROR_PARAM : Z := FT_MAKE_ERRCODE ErrModBsp ErrBspUart 1.
Definition FPL011_OPTION_UARTEN : Z := 0x1.
Definition FPL011_OPTION_RXEN : Z := 0x2.
Definition FPL011_OPTION_TXEN : Z := 0x4.
Definition FPL011_OPTION_FIFOEN : Z := 0x8.
Definition FPL011_OPTION_RTS : Z := 0x20.
Definition FPL011_OPTION_DTR : Z := 0x40.
Definition FPL011_OPTION_RTSEN : Z := 0x80.
Definition FPL011_OPTION_CTSEN : Z := 0x100.
Definition FPL011_OPTION_TXDMAEN : Z := 0x200.
Definition FPL011_OPTION_RXDMAEN : Z := 0x400.
Definition FPL011_OPER_MODE_NORMAL : Z := 0.
Definition FPL011_OPER_MODE_LOCAL_LOOP : Z := 1.
Definition FPL011_FORMAT_WORDLENGTH_8BIT : Z := 3.
Definition FPL011_FORMAT_EN_PARITY : Z := 1.
Definition FPL011_FORMAT_EVEN_PARITY : Z := 2.
Definition FPL011_FORMAT_EN_STICK_PARITY : Z := 4.
Definition FPL011_FORMAT_PARITY_MASK : Z := 7.
Definition FPL011_FORMAT_EVEN_PARITY_SHIFT : Z := 1.
Definition FPL011_FORMAT_EN_STICK_PARITY_SHIFT : Z := 5.
Definition FPL011_EVENT_RECV_DATA : Z := 1.
Definition FPL011_EVENT_RECV_TOUT : Z := 2.
Definition FPL011_EVENT_SENT_DATA : Z := 3.
Definition FPL011_EVENT_RECV_ERROR : Z := 4.
Definition FPL011_EVENT_PARE_FRAME_BRKE : Z := 6.
Definition FPL011_INIT_NEED_NOT_CLEAN_ISR_MASK : Z := 1.

Definition FPL011DR_OFFSET : Z := 0.
Definition FPL011FTR_OFFSET : Z := 0x18.
Definition FPL011IBRD_OFFSET : Z := 0x24.
Definition FPL011FBRD_OFFSET : Z := 0x28.
Definition FPL011IBRD_BAUD_DIVFRAC : Z := 0xffff.
Definition FPL011FBRD_BAUD_DIVFRAC : Z := 0x3f.
Definition FPL011LCR_H_OFFSET : Z := 0x2c.
Definition FPL011CR_OFFSET : Z := 0x30.
Definition FPL011IFLS_OFFSET : Z := 0x34.
Definition FPL011IMSC_OFFSET : Z := 0x38.
Definition FPL011RIS_OFFSET : Z := 0x3c.
Definition FPL011MIS_OFFSET : Z := 0x40.
Definition FPL011ICR_OFFSET : Z := 0x44.
Definition FPL011DMACR_OFFSET : Z := 0x48.

Definition FPL011DR_ALLE : Z := Z.lor (Z.lor (Z.lor 0x800 0x400) 0x200) 0x100.
Definition FPL011FTR_TXFF : Z := 0x20.
Definition FPL011FTR_RXFE : Z := 0x10.
Definition FPL011FTR_BUSY : Z := 0x08.
Definition FPL011LCR_H_WLEN : Z := 0x60.
Definition FPL011LCR_H_FEN : Z := 0x10.
Definition FPL011LCR_H_STP2 : Z := 0x08.
Definition FPL011LCR_H_PEN : Z := 0x02.
Definition FPL011LCR_H_WLEN_SHIFT : Z := 5.
Definition FPL011LCR_H_STP_MASK : Z := 8.
Definition FPL011LCR_H_STP_SHIFT : Z := 3.
Definition FPL011LCR_H_PARITY_MASK : Z := 2.
Definition FPL011LCR_H_PARITY_SHIFT : Z := 1.
Definition FPL011CR_CTSEN : Z := 0x8000.
Definition FPL011CR_RTSEN : Z := 0x4000.
Definition FPL011CR_RTS : Z := 0x0800.
Definition FPL011CR_DTR : Z := 0x0400.
Definition FPL011CR_RXE : Z := 0x0200.
Definition FPL011CR_TXE : Z := 0x0100.
Definition FPL011CR_LBE : Z := 0x0080.
Definition FPL011CR_UARTEN : Z := 0x1.
Definition FPL011CR_MODE_NORMAL : Z := 0.
Definition FPL011IFLS_RXIFLSEL_MASK : Z := 0x38.
Definition FPL011IFLS_TXIFLSEL_MASK : Z := 0x07.
Definition FPL011IMSC_ALLM : Z := 0x7ff.
Definition FPL011MIS_OEMIS : Z := 0x400.
Definition FPL011MIS_BEMIS : Z := 0x200.
Definition FPL011MIS_PEMIS : Z := 0x100.
Definition FPL011MIS_FEMIS : Z := 0x80.
Definition FPL011MIS_RTMIS : Z := 0x40.
Definition FPL011MIS_TXMIS : Z := 0x20.
Definition FPL011MIS_RXMIS : Z := 0x10.
Definition FPL011DMACR_TXDMAE : Z := 0x2.
Definition FPL011DMACR_RXDMAE : Z := 0x1.

(** ** Data *)
Record FPl011Format := mkFormat {
  f_baudrate : Z;
  data_bits : Z;
  parity : Z;
  stopbits : Z
}.

Record FPl011Config := mkConfig {
  instance_id : Z;
  base_address : Z;
  ref_clock_hz : Z;
  irq_num : Z;
  baudrate : Z;
  init_flg : Z
}.

Record FPl011Buffer := mkBuffer {
  byte_p : Z;
  requested_bytes : Z;
  remaining_bytes : Z
}.

Inductive FPl011EventHandler : Set := NoHandler | FPl011StubHandler | UserHandler.

Record FPl011 := mkUart {
  config : FPl011Config;
  is_ready : Z;
  send_buffer : FPl011Buffer;
  receive_buffer : FPl011Buffer;
  handler : FPl011EventHandler;
  rxbs_error : Z
}.

Record Mapping := mkMapping { option : Z; register_offset : Z; mask : Z }.

Definition option_table : list Mapping :=
  [mkMapping FPL011_OPTION_UARTEN FPL011CR_OFFSET FPL011CR_UARTEN;
   mkMapping FPL011_OPTION_RXEN FPL011CR_OFFSET FPL011CR_RXE;
   mkMapping FPL011_OPTION_TXEN FPL011CR_OFFSET FPL011CR_TXE;
   mkMapping FPL011_OPTION_FIFOEN FPL011LCR_H_OFFSET FPL011LCR_H_FEN;
   mkMapping FPL011_OPTION_RTS FPL011CR_OFFSET FPL011CR_RTS;
   mkMapping FPL011_OPTION_DTR FPL011CR_OFFSET FPL011CR_DTR;
   mkMapping FPL011_OPTION_RTSEN FPL011CR_OFFSET FPL011CR_RTSEN;
   mkMapping FPL011_OPTION_CTSEN FPL011CR_OFFSET FPL011CR_CTSEN;
   mkMapping FPL011_OPTION_TXDMAEN FPL011DMACR_OFFSET FPL011DMACR_TXDMAE;
   mkMapping FPL011_OPTION_RXDMAEN FPL011DMACR_OFFSET FPL011DMACR_RXDMAE].

Definition set_baudrate (b : Z) (c : FPl011Config) : FPl011Config :=
  mkConfig c.(instance_id) c.(base_address) c.(ref_clock_hz) c.(irq_num) b c.(init_flg).
Definition set_config (c : FPl011Config) (u : FPl011) : FPl011 :=
  mkUart c u.(is_ready) u.(send_buffer) u.(receive_buffer) u.(handler) u.(rxbs_error).
Definition set_ready (b : Z) (u : FPl011) : FPl011 :=
  mkUart u.(config) b u.(send_buffer) u.(receive_buffer) u.(handler) u.(rxbs_error).
Definition set_send (b : FPl011Buffer) (u : FPl011) : FPl011 :=
  mkUart u.(config) u.(is_ready) b u.(receive_buffer) u.(handler) u.(rxbs_error).
Definition set_receive (b : FPl011Buffer) (u : FPl011) : FPl011 :=
  mkUart u.(config) u.(is_ready) u.(send_buffer) b u.(handler) u.(rxbs_error).
Definition set_handler (h : FPl011EventHandler) (u : FPl011) : FPl011 :=
  mkUart u.(config) u.(is_ready) u.(send_buffer) u.(receive_buffer) h u.(rxbs_error).
Definition set_error (e : Z) (u : FPl011) : FPl011 :=
  mkUart u.(config) u.(is_ready) u.(send_buffer) u.(receive_buffer) u.(handler) e.

Section Driver.
Context `{H : MmioHw}.

Record state := mkState {
  regs : hw;
  uart : FPl011;
  mem : Z -> Z;
  calls : list (Z * Z) (* events and data the callback got *)
}.

Definition set_regs (h : hw) (s : state) : state := mkState h s.(uart) s.(mem) s.(calls).
Definition set_uart (u : FPl011) (s : state) : state := mkState s.(regs) u s.(mem) s.(calls).
Definition set_mem (m : Z -> Z) (s : state) : state := mkState s.(regs) s.(uart) m s.(calls).

(** ** fpl011_hw.h and fpl011_hw.c *)
Definition FUART_READREG32 (reg_offset : Z) (s : state) : Z * state :=
  let '(v, h) := FtIn32 s.(regs) s.(uart).(config).(base_address) reg_offset in
  (v, set_regs h s).
Definition FUART_WRITEREG32 (reg_offset reg_value : Z) (s : state) : state :=
  set_regs (FtOut32 s.(regs) s.(uart).(config).(base_address) reg_offset (u32 reg_value)) s.
Definition FUART_RECEIVEDATAEMPTY (s : state) : bool * state :=
  let '(v, s) := FUART_READREG32 FPL011FTR_OFFSET s in (truth (Z.land v FPL011FTR_RXFE), s).
Definition FUART_ISTRANSMITFULL (s : state) : bool * state :=
  let '(v, s) := FUART_READREG32 FPL011FTR_OFFSET s in
  (Z.land v FPL011FTR_TXFF =? FPL011FTR_TXFF, s).
Definition FUART_ISTRANSMITBUSY (s : state) : bool * state :=
  let '(v, s) := FUART_READREG32 FPL011FTR_OFFSET s in
  (Z.land v FPL011FTR_BUSY =? FPL011FTR_BUSY, s).

(** Polls until [busy] answers no. *)
Fixpoint wait_until (busy : state -> bool * state) (fuel : nat) (s : state) : res state :=
  match fuel with
  | O => Fault OutOfFuel
  | S fuel => let '(b, s) := busy s in if b then wait_until busy fuel s else Ok s
  end.

Definition FPl011SendByte (fuel : nat) (byte : Z) (s : state) : res state :=
  let! s := wait_until FUART_ISTRANSMITFULL fuel s in
  Ok (FUART_WRITEREG32 FPL011DR_OFFSET byte s).

Definition FPl011RecvByte (fuel : nat) (s : state) : res (Z * state) :=
  let! s := wait_until FUART_RECEIVEDATAEMPTY fuel s in
  let '(recieved_byte, s) := FUART_READREG32 FPL011DR_OFFSET s in Ok (u8 recieved_byte, s).

(** ** fpl011.c *)
Definition ready (s : state) : bool := s.(uart).(is_ready) =? FT_COMPONENT_IS_READY.

Definition call_handler (event data : Z) (s : state) : res state :=
  match s.(uart).(handler) with
  | NoHandler => Ok s
  | FPl011StubHandler => Fault AssertFailed
  | UserHandler => Ok (mkState s.(regs) s.(uart) s.(mem) (s.(calls) ++ [(event, data)]))
  end.

(** The loop of [FPl011SendBuffer]; [n] bounds its turns. *)
Fixpoint send_loop (n : nat) (s : state) : res state :=
  let '(full, s) := FUART_ISTRANSMITFULL s in
  if full then Ok s
  else
    let b := s.(uart).(send_buffer) in
    if negb (0 <? b.(remaining_bytes)) then Ok s
    else
      match n with
      | O => Fault OutOfFuel
      | S n =>
          let sent_count := u32 (b.(requested_bytes) - b.(remaining_bytes)) in
          let b' := mkBuffer b.(byte_p) b.(requested_bytes) (u32 (b.(remaining_bytes) - 1)) in
          let s := set_uart (set_send b' s.(uart)) s in
          send_loop n
            (FUART_WRITEREG32 FPL011DR_OFFSET (s.(mem) (u64 (b.(byte_p) + sent_count))) s)
      end.

Definition FPl011SendBuffer (fuel : nat) (s : state) : res (Z * state) :=
  let! s := wait_until FUART_ISTRANSMITBUSY fuel s in
  let! s := send_loop (Z.to_nat s.(uart).(send_buffer).(remaining_bytes)) s in
  let b := s.(uart).(send_buffer) in
  Ok (u32 (b.(requested_bytes) - b.(remaining_bytes)), s).

Definition FPl011Send (fuel : nat) (p length : Z) (s : state) : res (Z * state) :=
  check! truth p in
  check! ready s in
  FPl011SendBuffer fuel (set_uart (set_send (mkBuffer p length length) s.(uart)) s).

(** The loop of [FPl011ReceiveBuffer]; [n] bounds its turns. *)
Fixpoint recv_loop (n : nat) (received_count : Z) (s : state) : res (Z * state) :=
  if received_count <? s.(uart).(receive_buffer).(remaining_bytes) then
    let '(empty, s) := FUART_RECEIVEDATAEMPTY s in
    if empty then Ok (received_count, s)
    else
      match n with
      | O => Fault OutOfFuel
      | S n =>
          let '(byte_value, s) := FUART_READREG32 FPL011DR_OFFSET s in
          let! s :=
            if truth s.(uart).(rxbs_error) && truth (Z.land byte_value FPL011DR_ALLE) then
              call_handler FPL011_EVENT_PARE_FRAME_BRKE byte_value s
            else Ok s in
          let p := u64 (s.(uart).(receive_buffer).(byte_p) + received_count) in
          let m := s.(mem) in
          let s := set_mem (fun a => if a =? p then u8 (Z.land byte_value 0xff) else m a) s in
          recv_loop n (u32 (received_count + 1)) s
      end
  else Ok (received_count, s).

Definition FPl011ReceiveBuffer (s : state) : res (Z * state) :=
  let! (received_count, s) :=
    recv_loop (Z.to_nat s.(uart).(receive_buffer).(remaining_bytes)) 0 s in
  let b := s.(uart).(receive_buffer) in
  let p := if truth b.(byte_p) then u64 (b.(byte_p) + received_count) else b.(byte_p) in
  let b := mkBuffer p b.(requested_bytes) (u32 (b.(remaining_bytes) - received_count)) in
  Ok (received_count, set_uart (set_receive b (set_error 0 s.(uart))) s).

Definition FPl011Receive (p length : Z) (s : state) : res (Z * state) :=
  check! truth p in
  check! ready s in
  FPl011ReceiveBuffer (set_uart (set_receive (mkBuffer p length length) s.(uart)) s).

Fixpoint block_send_loop (fuel : nat) (p index : Z) (n : nat) (s : state) : res state :=
  match n with
  | O => Ok s
  | S n =>
      let! s := FPl011SendByte fuel (s.(mem) (u64 (p + index))) s in
      block_send_loop fuel p (index + 1) n s
  end.

Definition FPl011BlockSend (fuel : nat) (p length : Z) (s : state) : res state :=
  check! truth p in
  check! ready s in
  block_send_loop fuel p 0 (Z.to_nat length) s.

Definition FPl011BlockReceive (fuel : nat) (s : state) : res (Z * state) :=
  check! ready s in FPl011RecvByte fuel s.

(** ** fpl011_options.c *)

(** One entry of the table: set, cleared, or left alone. *)
Definition set_mapping (m : Mapping) (s : state) : state :=
  let '(v, s) := FUART_READREG32 m.(register_offset) s in
  FUART_WRITEREG32 m.(register_offset) (Z.lor v m.(mask)) s.
Definition clear_mapping (m : Mapping) (s : state) : state :=
  let '(v, s) := FUART_READREG32 m.(register_offset) s in
  FUART_WRITEREG32 m.(register_offset) (Z.land v (lnotw 32 m.(mask))) s.

Definition FPl011SetOptions (options : Z) (s : state) : res state :=
  check! ready s in
  Ok (fold_left (fun s m =>
        if truth (Z.land options m.(option)) then set_mapping m s else clear_mapping m s)
      option_table s).

Definition FPl011SetSpecificOptions (options : Z) (s : state) : state :=
  fold_left (fun s m => if truth (Z.land options m.(option)) then set_mapping m s else s)
    option_table s.

Definition FPl011ClearSpecificOptions (options : Z) (s : state) : state :=
  fold_left (fun s m => if truth (Z.land options m.(option)) then clear_mapping m s else s)
    option_table s.

(** A division by zero is undefined. *)
Definition div32 (a b : Z) : res Z := if b =? 0 then Fault Undefined else Ok (a / b).
Definition mod32 (a b : Z) : res Z := if b =? 0 then Fault Undefined else Ok (a mod b).

(** The integer and the fractional divisor. *)
Definition baud_divisors (clock rate : Z) : res (Z * Z) :=
  let temp := u32 (16 * rate) in
  let! divider := div32 clock temp in
  let! remainder := mod32 clock temp in
  let! temp := div32 (u32 (128 * remainder)) temp in
  let fraction := temp / 2 in
  Ok (divider, if truth (Z.land temp 1) then fraction + 1 else fraction).

Definition FPl011SetBaudRate (rate : Z) (s : state) : res (Z * state) :=
  if s.(uart).(config).(ref_clock_hz) <? u32 (rate * 2) then Ok (FPL011_ERROR_PARAM, s)
  else
    let! (divider, fraction) := baud_divisors s.(uart).(config).(ref_clock_hz) rate in
    let s := FPl011ClearSpecificOptions (Z.lor FPL011_OPTION_RXEN FPL011_OPTION_TXEN) s in
    let s := FUART_WRITEREG32 FPL011IBRD_OFFSET divider s in
    let s := FUART_WRITEREG32 FPL011FBRD_OFFSET fraction s in
    let s := FPl011SetSpecificOptions (Z.lor FPL011_OPTION_RXEN FPL011_OPTION_TXEN) s in
    Ok (FT_SUCCESS, set_uart (set_config (set_baudrate rate s.(uart).(config)) s.(uart)) s).

(** The line control register for a format, from its old value. *)
Definition format_word (f : FPl011Format) (line_ctrl_reg : Z) : Z :=
  let r := Z.land line_ctrl_reg (lnotw 32 FPL011LCR_H_WLEN) in
  let r := Z.lor r (u32 (Z.shiftl f.(data_bits) FPL011LCR_H_WLEN_SHIFT)) in
  let r := Z.land r (lnotw 32 FPL011LCR_H_STP_MASK) in
  let r := Z.lor r (u32 (Z.shiftl f.(stopbits) FPL011LCR_H_STP_SHIFT)) in
  let r := Z.land r (lnotw 32 FPL011LCR_H_PARITY_MASK) in
  let r := Z.lor r (u32 (Z.shiftl (Z.land f.(parity) FPL011_FORMAT_EN_PARITY)
                           FPL011LCR_H_PARITY_SHIFT)) in
  let r := Z.lor r (u32 (Z.shiftl (Z.land f.(parity) FPL011_FORMAT_EVEN_PARITY)
                           FPL011_FORMAT_EVEN_PARITY_SHIFT)) in
  Z.lor r (u32 (Z.shiftl (Z.land f.(parity) FPL011_FORMAT_EN_STICK_PARITY)
                  FPL011_FORMAT_EN_STICK_PARITY_SHIFT)).

Definition FPl011SetDataFormat (f : FPl011Format) (s : state) : res (Z * state) :=
  check! ready s in
  if (FPL011_FORMAT_WORDLENGTH_8BIT <? f.(data_bits)) ||
     (FPL011_FORMAT_PARITY_MASK <? f.(parity)) ||
     (FPL011_FORMAT_PARITY_MASK <? f.(stopbits)) then Ok (FPL011_ERROR_PARAM, s)
  else
    let! (ret, s) := FPl011SetBaudRate f.(f_baudrate) s in
    if negb (ret =? FT_SUCCESS) then Ok (ret, s)
    else
      let '(line_ctrl_reg, s) := FUART_READREG32 FPL011LCR_H_OFFSET s in
      Ok (FT_SUCCESS,
          FUART_WRITEREG32 FPL011LCR_H_OFFSET (format_word f line_ctrl_reg) s).

Definition FPl011GetDataFormat (s : state) : res (FPl011Format * state) :=
  check! ready s in
  let '(r, s) := FUART_READREG32 FPL011LCR_H_OFFSET s in
  Ok (mkFormat s.(uart).(config).(baudrate)
        (Z.shiftr (Z.land r FPL011LCR_H_WLEN) FPL011LCR_H_WLEN_SHIFT)
        (Z.shiftr (Z.land r FPL011LCR_H_PARITY_MASK) FPL011LCR_H_PARITY_SHIFT)
        (u8 (Z.shiftr (Z.land r FPL011LCR_H_STP_MASK) FPL011LCR_H_STP_SHIFT)), s).

Definition FPl011SetTxFifoThreadHold (trigger_level : Z) (s : state) : res state :=
  check! trigger_level <=? FPL011IFLS_TXIFLSEL_MASK in
  check! ready s in
  let trigger_level := Z.land trigger_level FPL011IFLS_TXIFLSEL_MASK in
  let '(r, s) := FUART_READREG32 FPL011IFLS_OFFSET s in
  let r := Z.land r (lnotw 32 FPL011IFLS_TXIFLSEL_MASK) in
  Ok (FUART_WRITEREG32 FPL011IFLS_OFFSET (Z.lor r trigger_level) s).

Definition FPl011SetRxFifoThreadhold (trigger_level : Z) (s : state) : res state :=
  check! trigger_level <=? FPL011IFLS_RXIFLSEL_MASK in
  check! ready s in
  let trigger_level := Z.land trigger_level FPL011IFLS_RXIFLSEL_MASK in
  let '(r, s) := FUART_READREG32 FPL011IFLS_OFFSET s in
  let r := Z.land r (lnotw 32 FPL011IFLS_RXIFLSEL_MASK) in
  Ok (FUART_WRITEREG32 FPL011IFLS_OFFSET (Z.lor r trigger_level) s).

Definition FPl011ProgramCtlReg (fuel : nat) (ctrl_reg : Z) (s : state) : res state :=
  let! s := wait_until FUART_ISTRANSMITBUSY fuel s in
  let '(temp_ctrl_reg, s) := FUART_READREG32 FPL011CR_OFFSET s in
  let s := FUART_WRITEREG32 FPL011CR_OFFSET (Z.land temp_ctrl_reg (lnotw 32 FPL011CR_UARTEN)) s in
  let '(line_ctrl_reg, s) := FUART_READREG32 FPL011LCR_H_OFFSET s in
  let line_ctrl_reg := Z.land line_ctrl_reg (lnotw 32 FPL011LCR_H_FEN) in
  let s := FUART_WRITEREG32 FPL011LCR_H_OFFSET line_ctrl_reg s in
  let s := FUART_WRITEREG32 FPL011CR_OFFSET ctrl_reg s in
  let line_ctrl_reg := Z.lor line_ctrl_reg FPL011LCR_H_FEN in
  let s := FUART_WRITEREG32 FPL011LCR_H_OFFSET line_ctrl_reg s in
  let '(temp_ctrl_reg, s) := FUART_READREG32 FPL011CR_OFFSET s in
  Ok (FUART_WRITEREG32 FPL011CR_OFFSET (Z.lor temp_ctrl_reg FPL011CR_UARTEN) s).

Definition FPl011SetOperMode (fuel : nat) (operation_mode : Z) (s : state) : res state :=
  check! operation_mode <=? FPL011_OPER_MODE_LOCAL_LOOP in
  check! ready s in
  let '(ctrl_reg, s) := FUART_READREG32 FPL011CR_OFFSET s in
  let ctrl_reg := Z.land ctrl_reg (lnotw 32 FPL011CR_LBE) in
  let ctrl_reg :=
    if operation_mode =? FPL011_OPER_MODE_NORMAL then Z.lor ctrl_reg FPL011CR_MODE_NORMAL
    else if operation_mode =? FPL011_OPER_MODE_LOCAL_LOOP then Z.lor ctrl_reg FPL011CR_LBE
    else ctrl_reg in
  FPl011ProgramCtlReg fuel ctrl_reg s.

(** ** Initialisation *)
Definition FPl011CfgInitialize (c : FPl011Config) (s : state) : res (Z * state) :=
  let u := s.(uart) in
  let c' := mkConfig c.(instance_id) c.(base_address) c.(ref_clock_hz) c.(irq_num)
              c.(baudrate) u.(config).(init_flg) in
  let u := mkUart c' FT_COMPONENT_IS_READY (mkBuffer 0 0 0) (mkBuffer 0 0 0)
             FPl011StubHandler 0 in
  let! (ret, s) := FPl011SetBaudRate c'.(baudrate) (set_uart u s) in
  if negb (ret =? FT_SUCCESS) then Ok (FT_SUCCESS, set_uart (set_ready 0 s.(uart)) s)
  else
    let reg_value := Z.land (Z.shiftl FPL011_FORMAT_WORDLENGTH_8BIT 5) FPL011LCR_H_WLEN in
    let reg_value := Z.lor reg_value (Z.land (Z.shiftl 0 3) FPL011LCR_H_STP2) in
    let reg_value := Z.lor reg_value (Z.land (Z.shiftl 0 1) FPL011LCR_H_PEN) in
    let reg_value := Z.lor reg_value (Z.land (Z.shiftl 1 4) FPL011LCR_H_FEN) in
    let s := FUART_WRITEREG32 FPL011LCR_H_OFFSET reg_value s in
    let s := FUART_WRITEREG32 FPL011IFLS_OFFSET (Z.lor (Z.shiftl 1 3) (Z.shiftl 1 0)) s in
    if negb (truth (Z.land c.(init_flg) FPL011_INIT_NEED_NOT_CLEAN_ISR_MASK)) then
      Ok (FT_SUCCESS, FUART_WRITEREG32 FPL011IMSC_OFFSET 0 s)
    else Ok (FT_SUCCESS, s).

(** ** fpl011_intr.c *)
Definition FPl011GetInterruptMask (s : state) : Z * state :=
  FUART_READREG32 FPL011IMSC_OFFSET s.

Definition FPl011SetInterruptMask (mask : Z) (s : state) : state :=
  FUART_WRITEREG32 FPL011IMSC_OFFSET (Z.land mask FPL011IMSC_ALLM) s.

Definition FPl011InterruptClearAll (s : state) : state :=
  let '(v, s) := FUART_READREG32 FPL011RIS_OFFSET s in
  if truth v then FUART_WRITEREG32 FPL011ICR_OFFSET 0xFFFFFFFF s else s.

Definition FPl011SetHandler (s : state) : res state :=
  check! ready s in Ok (set_uart (set_handler UserHandler s.(uart)) s).

Definition FPl011IrqClearReciveTimeOut (s : state) : state :=
  let '(reg_temp, s) := FPl011GetInterruptMask s in
  FPl011SetInterruptMask (Z.land reg_temp (lnotw 32 FPL011MIS_RTMIS)) s.

Definition FPl011IrqEnableReciveTimeOut (s : state) : state :=
  let '(reg_temp, s) := FPl011GetInterruptMask s in
  FPl011SetInterruptMask (Z.lor reg_temp FPL011MIS_RTMIS) s.

Definition MIS_ERRORS : Z :=
  Z.lor (Z.lor (Z.lor FPL011MIS_OEMIS FPL011MIS_BEMIS) FPL011MIS_PEMIS) FPL011MIS_FEMIS.

(** The bytes received so far, for the callback. *)
Definition received_so_far (s : state) : Z :=
  let b := s.(uart).(receive_buffer) in u32 (b.(requested_bytes) - b.(remaining_bytes)).

Definition FPl011ReceiveErrorHandler (InterruptStatus : Z) (s : state) : res state :=
  let s := set_uart (set_error 0 s.(uart)) s in
  let s := if truth (Z.land InterruptStatus MIS_ERRORS)
           then set_uart (set_error 1 s.(uart)) s else s in
  let! (_, s) := FPl011ReceiveBuffer s in
  if 0 =? s.(uart).(rxbs_error) then
    call_handler FPL011_EVENT_RECV_ERROR (received_so_far s) s
  else Ok s.

Definition FPl011ReceiveDataHandler (s : state) : res state :=
  let! s :=
    if truth s.(uart).(receive_buffer).(remaining_bytes) then
      let! (_, s) := FPl011ReceiveBuffer s in Ok s
    else Ok s in
  if 0 =? s.(uart).(receive_buffer).(remaining_bytes) then
    call_handler FPL011_EVENT_RECV_DATA (received_so_far s) s
  else Ok s.

Definition FPl011ReceiveTimeoutHandler (s : state) : res state :=
  let! s :=
    if truth s.(uart).(receive_buffer).(remaining_bytes) then
      let! (_, s) := FPl011ReceiveBuffer s in Ok s
    else Ok s in
  let event := if 0 =? s.(uart).(receive_buffer).(remaining_bytes)
               then FPL011_EVENT_RECV_TOUT else FPL011_EVENT_RECV_DATA in
  call_handler event (received_so_far s) s.

Definition FPl011SendDataHandler (fuel : nat) (s : state) : res state :=
  let! (_, s) := FPl011SendBuffer fuel s in
  if s.(uart).(send_buffer).(remaining_bytes) =? 0 then
    call_handler FPL011_EVENT_SENT_DATA s.(uart).(send_buffer).(requested_bytes) s
  else Ok s.

Definition FPl011InterruptHandler (fuel : nat) (s : state) : res state :=
  check! ready s in
  let '(mask, s) := FUART_READREG32 FPL011IMSC_OFFSET s in
  let '(mis, s) := FUART_READREG32 FPL011MIS_OFFSET s in
  let reg_value := Z.land mask mis in
  let! s := if truth (Z.land reg_value FPL011MIS_RXMIS) then FPl011ReceiveDataHandler s
            else Ok s in
  let! s := if truth (Z.land reg_value FPL011MIS_TXMIS) then FPl011SendDataHandler fuel s
            else Ok s in
  let! s := if truth (Z.land reg_value MIS_ERRORS) then FPl011ReceiveErrorHandler reg_value s
            else Ok s in
  let! s := if truth (Z.land reg_value FPL011MIS_RTMIS) then FPl011ReceiveTimeoutHandler s
            else Ok s in
  Ok (FUART_WRITEREG32 FPL011ICR_OFFSET reg_value s).
End Driver.
End Uart.
