(* ===== verification/UartProps.v ===== *)
(** Properties of the UART driver (Uart.v): what it sends and receives is in order and
    complete, the configuration functions change the bits they are to change. *)
From stdpp Require Import relations.
From S2P Require Import Prelude Mmio Uart.
Import Uart.

(** ** The controller

    What the driver relies on, for the controller at [base]: [sent] are the bytes put
    into the transmit FIFO, [pending] the words of the receive FIFO that have not been
    read, [cfg] the configuration registers.  Words can arrive at any access. *)
Definition config_register (off : Z) : bool :=
  (off =? FPL011LCR_H_OFFSET) || (off =? FPL011CR_OFFSET) || (off =? FPL011IFLS_OFFSET) ||
  (off =? FPL011IMSC_OFFSET) || (off =? FPL011DMACR_OFFSET).

(** The implemented bits of a configuration register. *)
Definition implemented (off : Z) : Z :=
  if off =? FPL011CR_OFFSET then 0xff87
  else if off =? FPL011LCR_H_OFFSET then 0xff
  else if off =? FPL011IFLS_OFFSET then 0x3f
  else if off =? FPL011IMSC_OFFSET then 0x7ff
  else 0x7.

(** Registers that tell about the controller and change nothing. *)
Definition status_register (off : Z) : bool :=
  (off =? FPL011FTR_OFFSET) || (off =? FPL011RIS_OFFSET) || (off =? FPL011MIS_OFFSET) ||
  config_register off.

Class UartLaws {H : MmioHw} (base : Z) := {
  sent : hw -> list Z;
  pending : hw -> list Z;
  cfg : hw -> Z -> Z;
  room : hw -> Prop; (* a byte fits the transmit FIFO *)
  idle : hw -> Prop; (* nothing is being transmitted *)
  evolves (h h' : hw) : Prop :=
    sent h' = sent h /\ (exists arrived, pending h' = pending h ++ arrived) /\
    forall off, cfg h' off = cfg h off;
  law_status h off v h' :
    FtIn32 h base off = (v, h') -> status_register off = true -> evolves h h';
  law_empty h v h' :
    FtIn32 h base FPL011FTR_OFFSET = (v, h') -> Z.land v FPL011FTR_RXFE = 0 -> pending h' <> [];
  law_room h v h' :
    FtIn32 h base FPL011FTR_OFFSET = (v, h') -> Z.land v FPL011FTR_TXFF = 0 -> room h';
  law_idle h v h' :
    FtIn32 h base FPL011FTR_OFFSET = (v, h') -> Z.land v FPL011FTR_BUSY <> FPL011FTR_BUSY ->
    idle h';
  law_idle_room h v h' :
    FtIn32 h base FPL011FTR_OFFSET = (v, h') -> idle h -> Z.land v FPL011FTR_TXFF = 0;
  law_config h off v h' :
    FtIn32 h base off = (v, h') -> config_register off = true -> v = cfg h off;
  law_config_bits h off : config_register off = true ->
    cfg h off = Z.land (cfg h off) (implemented off);
  law_take h w l :
    pending h = w :: l -> exists h' arrived, FtIn32 h base FPL011DR_OFFSET = (w, h') /\
      sent h' = sent h /\ pending h' = l ++ arrived /\ forall off, cfg h' off = cfg h off;
  law_put h v : room h -> exists arrived,
    let h' := FtOut32 h base FPL011DR_OFFSET v in
    sent h' = sent h ++ [u8 v] /\ pending h' = pending h ++ arrived /\
    forall off, cfg h' off = cfg h off;
  law_configure h off v : config_register off = true -> forall off',
    cfg (FtOut32 h base off v) off' =
      if off' =? off then Z.land v (implemented off) else cfg h off';
  law_clear h v : evolves h (FtOut32 h base FPL011ICR_OFFSET v);
  law_divisor h v off : off = FPL011IBRD_OFFSET \/ off = FPL011FBRD_OFFSET ->
    forall off', cfg (FtOut32 h base off v) off' = cfg h off'
}.

Section Props.
Context `{H : MmioHw} (base : Z) {L : UartLaws base}.

Lemma evolves_refl h : evolves h h.
Proof. split; [done|]. split; [exists []; by rewrite app_nil_r|done]. Qed.

Lemma evolves_trans h1 h2 h3 : evolves h1 h2 -> evolves h2 h3 -> evolves h1 h3.
Proof.
  intros (S1 & (a1 & P1) & C1) (S2 & (a2 & P2) & C2). split; [congruence|].
  split; [exists (a1 ++ a2); by rewrite P2, P1, app_assoc|]. intros off. by rewrite C2.
Qed.

#[local] Instance evolves_preorder : PreOrder evolves.
Proof. split; [exact evolves_refl|exact evolves_trans]. Qed.

(** A state of the driver of this controller. *)
Definition at_base (s : state) : Prop := s.(uart).(config).(base_address) = base.

(** Only the controller has moved on. *)
Definition polled (s s' : state) : Prop :=
  exists h, s' = set_regs h s /\ evolves s.(regs) h.

Lemma polled_refl s : polled s s.
Proof. exists s.(regs). split; [by destruct s|reflexivity]. Qed.

Lemma polled_trans s1 s2 s3 : polled s1 s2 -> polled s2 s3 -> polled s1 s3.
Proof.
  intros (h1 & -> & E1) (h2 & -> & E2). exists h2. split; [done|]. by etransitivity.
Qed.

Lemma polled_base s s' : polled s s' -> at_base s -> at_base s'.
Proof. by intros (h & -> & _). Qed.

Lemma status_read off s :
  at_base s -> status_register off = true ->
  exists v s', FUART_READREG32 off s = (v, s') /\ polled s s' /\
    FtIn32 s.(regs) base off = (v, s'.(regs)).
Proof.
  intros B Hs. unfold FUART_READREG32. rewrite B.
  destruct (FtIn32 (regs s) base off) as [v h] eqn:E. exists v, (set_regs h s).
  split; [done|]. split; [|done]. exists h. split; [done|by eapply law_status].
Qed.

Lemma land_BIT_neq v n : 0 <= n -> Z.land v (BIT n) <> BIT n -> Z.land v (BIT n) = 0.
Proof.
  intros Hn Hf. bitwise i Hi. destruct (Z.eqb_spec i n) as [->|]; [|by rewrite andb_false_r].
  destruct (Z.testbit v n) eqn:Ev; [|done]. exfalso. apply Hf. bitwise j Hj.
  destruct (Z.eqb_spec j n) as [->|]; [by rewrite Ev|by rewrite andb_false_r].
Qed.

Lemma full_read s :
  at_base s -> exists b s', FUART_ISTRANSMITFULL s = (b, s') /\ polled s s' /\
    (b = false -> room s'.(regs)) /\ (idle s.(regs) -> b = false).
Proof.
  intros B. unfold FUART_ISTRANSMITFULL.
  destruct (status_read FPL011FTR_OFFSET s B) as (v & s' & -> & P & E); [done|].
  exists (Z.land v FPL011FTR_TXFF =? FPL011FTR_TXFF), s'. split; [done|]. split; [done|]. split.
  - intros Hf. eapply law_room; [exact E|]. apply Z.eqb_neq in Hf.
    change FPL011FTR_TXFF with (BIT 5) in *. by apply land_BIT_neq.
  - intros Hi. by rewrite (law_idle_room _ _ _ E Hi).
Qed.

Lemma empty_read s :
  at_base s -> exists b s', FUART_RECEIVEDATAEMPTY s = (b, s') /\ polled s s' /\
    (b = false -> exists w l, pending s'.(regs) = w :: l).
Proof.
  intros B. unfold FUART_RECEIVEDATAEMPTY.
  destruct (status_read FPL011FTR_OFFSET s B) as (v & s' & -> & P & E); [done|].
  exists (truth (Z.land v FPL011FTR_RXFE)), s'. split; [done|]. split; [done|].
  intros Hf. unfold truth in Hf. apply negb_false_iff, Z.eqb_eq in Hf.
  pose proof (law_empty _ _ _ E Hf) as Hn. destruct (pending (regs s')); [done|by eexists _, _].
Qed.

Lemma wait_idle fuel s s' :
  at_base s -> wait_until FUART_ISTRANSMITBUSY fuel s = Ok s' -> polled s s' /\ idle s'.(regs).
Proof.
  revert s. induction fuel as [|fuel IH]; intros s B E; [done|]. cbn [wait_until] in E.
  unfold FUART_ISTRANSMITBUSY in E at 1.
  destruct (status_read FPL011FTR_OFFSET s B) as (v & s1 & E1 & P & R); [done|].
  rewrite E1 in E. destruct (Z.eqb_spec (Z.land v FPL011FTR_BUSY) FPL011FTR_BUSY) as [|Hb].
  - destruct (IH s1) as [P2 I2]; [by eapply polled_base|done|].
    split; [by eapply polled_trans|done].
  - injection E as <-. split; [done|by eapply law_idle].
Qed.

(** ** Sending *)

(** The bytes [data] are in the memory from [p] on. *)
Definition stored (m : Z -> Z) (p : Z) (data : list Z) : Prop :=
  forall i x, data !! i = Some x -> m (u64 (p + Z.of_nat i)) = x.

(** Of the buffer [data] at [q], the first [k] bytes have been handed to the
    controller, which got [before] before them. *)
Record sending (q : Z) (data before : list Z) (k : nat) (s : state) : Prop := {
  snd_base : at_base s;
  snd_count : (k <= length data)%nat;
  snd_buffer : s.(uart).(send_buffer) =
    mkBuffer q (Z.of_nat (length data)) (Z.of_nat (length data - k));
  snd_sent : sent s.(regs) = before ++ take k data;
  snd_stored : stored s.(mem) q data
}.

(** Only the send buffer and the controller have changed; nothing has been read. *)
Record tx_only (s s' : state) : Prop := {
  tx_mem : s'.(mem) = s.(mem);
  tx_calls : s'.(calls) = s.(calls);
  tx_uart : s'.(uart) = set_send s'.(uart).(send_buffer) s.(uart);
  tx_pending : exists arrived, pending s'.(regs) = pending s.(regs) ++ arrived
}.

Lemma tx_only_refl s : tx_only s s.
Proof. split; try done; [by destruct s as [? []]|exists []; by rewrite app_nil_r]. Qed.

Lemma tx_only_trans s1 s2 s3 : tx_only s1 s2 -> tx_only s2 s3 -> tx_only s1 s3.
Proof.
  intros [M1 C1 U1 (a1 & P1)] [M2 C2 U2 (a2 & P2)]. split; [congruence|congruence| |].
  - rewrite U2, U1. done.
  - exists (a1 ++ a2). by rewrite P2, P1, app_assoc.
Qed.

Lemma polled_tx_only s s' : polled s s' -> tx_only s s'.
Proof.
  intros (h & -> & (_ & P & _)). split; try done. by destruct s as [? []].
Qed.

Lemma polled_sending q data before k s s' :
  polled s s' -> sending q data before k s -> sending q data before k s'.
Proof.
  intros (h & -> & (S & _)) [B C F E M]. split; try done. by simpl; rewrite S.
Qed.

Section Sending.
Context (q : Z) (data before : list Z).
Hypothesis data_length : Z.of_nat (length data) < 2 ^ 32.
Hypothesis data_bytes : Forall (fun b => 0 <= b < 2 ^ 8) data.

Lemma send_loop_ok n k s :
  sending q data before k s -> (length data - k <= n)%nat ->
  exists k' s', send_loop n s = Ok s' /\ (k <= k')%nat /\ sending q data before k' s' /\
    tx_only s s' /\ (idle s.(regs) -> (k < length data)%nat -> (k < k')%nat).
Proof.
  revert k s. induction n as [|n IH]; intros k s Hs Hn.
  all: destruct (full_read s (snd_base _ _ _ _ _ Hs)) as (b & s1 & E1 & P1 & R1 & I1).
  all: pose proof (polled_sending _ _ _ _ _ _ P1 Hs) as [B C F E M].
  all: pose proof (polled_tx_only _ _ P1) as T1.
  all: cbn [send_loop]; rewrite E1; destruct b;
    [exists k, s1; split_and!; try done; intros Hi; by specialize (I1 Hi)|].
  all: rewrite F; cbn [remaining_bytes requested_bytes byte_p].
  all: destruct (Z.ltb_spec 0 (Z.of_nat (length data - k))); cbn [negb];
    [|exists k, s1; split_and!; try done; lia].
  { lia. }
  replace (Z.of_nat (length data) - Z.of_nat (length data - k)) with (Z.of_nat k) by lia.
  replace (Z.of_nat (length data - k) - 1) with (Z.of_nat (length data - S k)) by lia.
  rewrite (wrap_small 32 (Z.of_nat k)), (wrap_small 32 (Z.of_nat (length data - S k))) by lia.
  destruct (lookup_lt_is_Some_2 data k) as [x Hx]; [lia|].
  set (s2 := set_uart _ s1). change (mem s2) with (mem s1). rewrite (M k x Hx).
  destruct (law_put (regs s1) (u32 x) (R1 eq_refl)) as (arrived & S2 & P2 & C2).
  unfold FUART_WRITEREG32. change (base_address (config (uart s2))) with
    (base_address (config (uart s1))). rewrite B.
  change (regs s2) with (regs s1). set (h := FtOut32 (regs s1) base FPL011DR_OFFSET (u32 x)) in *.
  assert (sending q data before (S k) (set_regs h s2)) as Hs2.
  { split; try done; [lia|]. simpl. rewrite S2, E.
    rewrite Forall_lookup in data_bytes. pose proof (data_bytes k x Hx).
    rewrite (wrap_small 32 x), (wrap_small 8 x) by lia.
    by rewrite (take_S_r _ _ x), app_assoc. }
  destruct (IH (S k) (set_regs h s2) Hs2) as (k' & s' & E' & K & S' & T' & _); [lia|].
  exists k', s'. split; [exact E'|]. split; [lia|]. split; [done|]. split; [|lia].
  eapply tx_only_trans; [exact T1|]. eapply tx_only_trans; [|exact T'].
  split; try done. exists arrived. exact P2.
Qed.

Lemma FPl011SendBuffer_ok fuel k s s0 :
  sending q data before k s -> wait_until FUART_ISTRANSMITBUSY fuel s = Ok s0 ->
  exists k' s', FPl011SendBuffer fuel s = Ok (Z.of_nat k', s') /\ (k <= k')%nat /\
    sending q data before k' s' /\ tx_only s s' /\ ((k < length data)%nat -> (k < k')%nat).
Proof.
  intros Hs Hw. unfold FPl011SendBuffer. rewrite Hw. cbn [rbind].
  destruct (wait_idle _ _ _ (snd_base _ _ _ _ _ Hs) Hw) as [P I].
  pose proof (polled_sending _ _ _ _ _ _ P Hs) as Hs0.
  destruct (send_loop_ok (Z.to_nat (remaining_bytes (send_buffer (uart s0)))) k s0 Hs0)
    as (k' & s' & E & K & S & T & G).
  { destruct Hs0 as [_ _ F _ _]. rewrite F. simpl. lia. }
  exists k', s'. rewrite E. cbn [rbind]. destruct (S) as [_ C F _ _]. rewrite F.
  cbn [requested_bytes remaining_bytes]. rewrite wrap_small by lia.
  replace (Z.of_nat (length data) - Z.of_nat (length data - k')) with (Z.of_nat k') by lia.
  split; [done|]. split; [done|]. split; [done|]. split; [|by apply G].
  eapply tx_only_trans; [by apply polled_tx_only|done].
Qed.
End Sending.
(** ** Receiving *)

(** The byte of a received word. *)
Definition low (w : Z) : Z := u8 (Z.land w 0xff).

(** A received word carries an error. *)
Definition damaged (w : Z) : bool := truth (Z.land w FPL011DR_ALLE).

Definition within (p : Z) (n : nat) (a : Z) : Prop := p <= a < p + Z.of_nat n.

(** The memory [m] with the bytes [l] from [p] on. *)
Record filled (m : Z -> Z) (p : Z) (l : list Z) (m' : Z -> Z) : Prop := {
  filled_in : forall i x, l !! i = Some x -> m' (p + Z.of_nat i) = x;
  filled_out : forall a, ~ within p (length l) a -> m' a = m a
}.

Lemma filled_nil m p : filled m p [] m.
Proof. by split. Qed.

Lemma filled_snoc m p l m' x :
  filled m p l m' ->
  filled m p (l ++ [x]) (fun a => if a =? p + Z.of_nat (length l) then x else m' a).
Proof.
  intros [I O]. split.
  - intros i y Hy. destruct (Z.eqb_spec (p + Z.of_nat i) (p + Z.of_nat (length l))) as [E|E].
    + assert (i = length l) as -> by lia. rewrite lookup_app_r in Hy by done.
      rewrite Nat.sub_diag in Hy. by injection Hy.
    + apply I. destruct (decide (i < length l)%nat) as [Hi|Hi].
      * by rewrite lookup_app_l in Hy.
      * rewrite lookup_app_r in Hy by lia.
        destruct (i - length l)%nat eqn:Ei; [lia|done].
  - intros a Ha. unfold within in *. rewrite length_app in Ha. cbn [length] in Ha.
    destruct (Z.eqb_spec a (p + Z.of_nat (length l))); [lia|]. apply O. lia.
Qed.

(** The calls a received word with an error gives rise to. *)
Definition error_calls (words : list Z) : list (Z * Z) :=
  map (fun w => (FPL011_EVENT_PARE_FRAME_BRKE, w)) (List.filter damaged words).

(** Those the driver [u] makes. *)
Definition reported (u : FPl011) (words : list Z) : list (Z * Z) :=
  match u.(handler) with
  | UserHandler => if truth u.(rxbs_error) then error_calls words else []
  | _ => []
  end.

Lemma reported_nil u : reported u [] = [].
Proof. unfold reported. by destruct (handler u), (truth (rxbs_error u)). Qed.

Lemma reported_app u l1 l2 : reported u (l1 ++ l2) = reported u l1 ++ reported u l2.
Proof.
  unfold reported, error_calls. destruct (handler u); try done.
  destruct (truth (rxbs_error u)); [|done]. by rewrite List.filter_app, map_app.
Qed.

(** [taken] has been read out of the FIFO between [s] and [s']. *)
Definition took (s s' : state) (taken : list Z) : Prop :=
  sent s'.(regs) = sent s.(regs) /\
  exists arrived, pending s.(regs) ++ arrived = taken ++ pending s'.(regs).

Lemma took_nil s s' : polled s s' -> took s s' [].
Proof.
  intros (h & -> & S & (a & P) & _). split; [done|]. exists a. by symmetry.
Qed.

Lemma took_app s1 s2 s3 t1 t2 : took s1 s2 t1 -> took s2 s3 t2 -> took s1 s3 (t1 ++ t2).
Proof.
  intros (S1 & a1 & P1) (S2 & a2 & P2). split; [congruence|].
  exists (a1 ++ a2). by rewrite app_assoc, P1, <-app_assoc, P2, app_assoc.
Qed.

(** The buffer of [len] bytes at [p], in memory [m]; the words [taken] have been read
    out of the FIFO and their bytes stored. *)
Record receiving (m : Z -> Z) (p : Z) (len : nat) (taken : list Z) (s : state) : Prop := {
  rcv_base : at_base s;
  rcv_count : (length taken <= len)%nat;
  rcv_buffer : s.(uart).(receive_buffer) =
    mkBuffer (p + Z.of_nat (length taken)) (Z.of_nat len) (Z.of_nat (len - length taken));
  rcv_mem : filled m p (map low taken) s.(mem)
}.

Section Receiving.
Context (m : Z -> Z) (p : Z) (len : nat).
Hypothesis buffer_start : 0 < p.
Hypothesis buffer_end : p + Z.of_nat len < 2 ^ 64.
Hypothesis buffer_length : Z.of_nat len < 2 ^ 32.

(** In the loop the buffer still says [done], the words read before the call. *)
Record in_loop (done taken : nat) (words : list Z) (s : state) : Prop := {
  loop_base : at_base s;
  loop_count : (done <= length words <= len)%nat;
  loop_taken : length words = (done + taken)%nat;
  loop_buffer : s.(uart).(receive_buffer) =
    mkBuffer (p + Z.of_nat done) (Z.of_nat len) (Z.of_nat (len - done));
  loop_mem : filled m p (map low words) s.(mem);
  loop_handler : s.(uart).(handler) <> FPl011StubHandler
}.

Lemma polled_loop done taken words s s' :
  polled s s' -> in_loop done taken words s -> in_loop done taken words s'.
Proof. intros (h & -> & _) [B C T F M U]. by split. Qed.

(** What a turn of the loop does with the word at the head of the FIFO. *)
Lemma recv_turn done taken words w l s n :
  in_loop done taken words s -> (length words < len)%nat -> pending s.(regs) = w :: l ->
  exists s',
    (let '(byte_value, s) := FUART_READREG32 FPL011DR_OFFSET s in
     let! s := if truth s.(uart).(rxbs_error) && truth (Z.land byte_value FPL011DR_ALLE)
               then call_handler FPL011_EVENT_PARE_FRAME_BRKE byte_value s else Ok s in
     let p := u64 (s.(uart).(receive_buffer).(byte_p) + Z.of_nat taken) in
     let m := s.(mem) in
     let s := set_mem (fun a => if a =? p then u8 (Z.land byte_value 0xff) else m a) s in
     recv_loop n (u32 (Z.of_nat taken + 1)) s) = recv_loop n (Z.of_nat (S taken)) s' /\
    in_loop done (S taken) (words ++ [w]) s' /\ took s s' [w] /\ s'.(uart) = s.(uart) /\
    s'.(calls) = s.(calls) ++ reported s.(uart) [w].
Proof.
  intros [B C T F M U] Hl Hw. unfold FUART_READREG32. rewrite B.
  destruct (law_take (regs s) w l Hw) as (h & a & -> & S1 & P1 & C1). cbn [rbind].
  set (s1 := set_regs h s).
  assert ((if truth (rxbs_error (uart s1)) && truth (Z.land w FPL011DR_ALLE)
      then call_handler FPL011_EVENT_PARE_FRAME_BRKE w s1 else Ok s1) =
      Ok (mkState h (uart s) (mem s) (calls s ++ reported (uart s) [w]))) as ->.
  { unfold call_handler, reported, error_calls, damaged. change (uart s1) with (uart s). simpl.
    destruct (handler (uart s)), (truth (rxbs_error (uart s))), (truth (Z.land w FPL011DR_ALLE));
      simpl; try done; by rewrite app_nil_r. }
  cbn [rbind uart mem]. rewrite F. cbn [byte_p].
  rewrite (wrap_small 64) by lia. rewrite (wrap_small 32) by lia.
  replace (Z.of_nat taken + 1) with (Z.of_nat (S taken)) by lia.
  eexists _. split; [reflexivity|]. split; [|split; [|by split_and!]].
  - split; try done; simpl; try (rewrite length_app; simpl; lia).
    rewrite map_app. pose proof (filled_snoc _ _ _ _ (low w) M) as Hm. rewrite length_map in Hm.
    replace (p + Z.of_nat done + Z.of_nat taken) with (p + Z.of_nat (length words)) by lia.
    exact Hm.
  - split; [exact S1|]. exists a. rewrite Hw. simpl. by rewrite P1.
Qed.

Lemma recv_loop_ok n done taken words s :
  in_loop done taken words s -> (len - length words <= n)%nat ->
  exists more s', recv_loop n (Z.of_nat taken) s = Ok (Z.of_nat (taken + length more), s') /\
    in_loop done (taken + length more) (words ++ more) s' /\ took s s' more /\
    s'.(uart) = s.(uart) /\ s'.(calls) = s.(calls) ++ reported s.(uart) more.
Proof.
  assert (forall taken words s s1, polled s s1 -> in_loop done taken words s ->
    exists more s', Ok (Z.of_nat taken, s1) = Ok (Z.of_nat (taken + length more), s') /\
    in_loop done (taken + length more) (words ++ more) s' /\ took s s' more /\
    s'.(uart) = s.(uart) /\ s'.(calls) = s.(calls) ++ reported s.(uart) more) as stop.
  { intros taken1 words1 s1 s2 P Hs. exists [], s2. rewrite Nat.add_0_r, app_nil_r.
    split; [done|]. split; [by eapply polled_loop|]. split; [by apply took_nil|].
    destruct P as (h & -> & _). split; [done|]. by rewrite reported_nil, app_nil_r. }
  revert taken words s. induction n as [|n IH]; intros taken words s Hs Hn;
    pose proof Hs as [B C T F M U]; cbn [recv_loop]; rewrite F; cbn [remaining_bytes];
    destruct (Z.ltb_spec (Z.of_nat taken) (Z.of_nat (len - done)));
    try (apply stop; [apply polled_refl|exact Hs]); [lia|].
  destruct (empty_read s B) as (b & s1 & E1 & P1 & W1). rewrite E1. destruct b.
  { by apply stop. }
  destruct (W1 eq_refl) as (w & l & Hw).
  destruct (recv_turn done taken words w l s1 n (polled_loop _ _ _ _ _ P1 Hs))
    as (s2 & E2 & Hs2 & T2 & U2 & C2); [lia|done|].
  destruct (IH (S taken) (words ++ [w]) s2 Hs2) as (more & s' & E' & Hs' & T' & U' & C').
  { rewrite length_app. simpl. lia. }
  destruct P1 as (h & -> & Ev).
  exists (w :: more), s'. cbn [length]. rewrite Nat.add_succ_r. split; [etransitivity; [exact E2|exact E']|].
  rewrite <-(app_assoc words [w] more) in Hs'.
  split; [exact Hs'|]. split; [|split].
  - apply (took_app s (set_regs h s) s' [] (w :: more)); [by apply took_nil; exists h|].
    by apply (took_app _ s2 _ [w] more).
  - by rewrite U', U2.
  - rewrite C', C2, U2. change (uart (set_regs h s)) with (uart s).
    change (calls (set_regs h s)) with (calls s).
    by rewrite <-app_assoc, <-reported_app.
Qed.

Lemma FPl011ReceiveBuffer_ok words s :
  receiving m p len words s -> s.(uart).(handler) <> FPl011StubHandler ->
  exists more s', FPl011ReceiveBuffer s = Ok (Z.of_nat (length more), s') /\
    receiving m p len (words ++ more) s' /\ took s s' more /\
    s'.(uart) = set_receive s'.(uart).(receive_buffer) (set_error 0 s.(uart)) /\
    s'.(calls) = s.(calls) ++ reported s.(uart) more.
Proof.
  intros [B C F M] U. unfold FPl011ReceiveBuffer. rewrite F. cbn [remaining_bytes].
  rewrite Nat2Z.id.
  destruct (recv_loop_ok (len - length words) (length words) 0 words s)
    as (more & s1 & E & [B1 C1 T1 F1 M1 U1] & K & Eu & Ec); [|lia|].
  { split; try done; lia. }
  cbn [Nat.add] in *. change (Z.of_nat 0) with 0 in E. rewrite E. cbn [rbind]. rewrite F1. cbn [byte_p requested_bytes remaining_bytes].
  exists more. eexists. split; [reflexivity|].
  assert (truth (p + Z.of_nat (length words)) = true) as ->
    by (unfold truth; apply negb_true_iff, Z.eqb_neq; lia).
  rewrite (wrap_small 64), (wrap_small 32) by lia.
  split; [|split; [exact K|split; [by rewrite Eu|exact Ec]]].
  split; try done; [lia|]. simpl. f_equal; lia.
Qed.
End Receiving.

(** ** Interrupts *)
Section Interrupts.
Context (m : Z -> Z) (p : Z) (len : nat) (q : Z) (data before : list Z) (fuel : nat).
Hypothesis buffer_start : 0 < p.
Hypothesis buffer_end : p + Z.of_nat len < 2 ^ 64.
Hypothesis buffer_length : Z.of_nat len < 2 ^ 32.
Hypothesis data_start : 0 <= q.
Hypothesis data_end : q + Z.of_nat (length data) <= 2 ^ 64.
Hypothesis data_length : Z.of_nat (length data) < 2 ^ 32.
Hypothesis data_bytes : Forall (fun b => 0 <= b < 2 ^ 8) data.
Hypothesis disjoint : forall a, within p len a -> ~ within q (length data) a.
(** The transmitter becomes idle within [fuel] polls. *)
Hypothesis drains : forall s, at_base s -> exists s', wait_until FUART_ISTRANSMITBUSY fuel s = Ok s'.

Record streams (words : list Z) (k : nat) (s : state) : Prop := {
  str_receiving : receiving m p len words s;
  str_sending : sending q data before k s;
  str_handler : s.(uart).(handler) <> FPl011StubHandler;
  str_ready : ready s = true
}.

(** What a call of the callback says is so: [words] have been received and [k] bytes
    handed over. *)
Definition truthful (words : list Z) (k : nat) (call : Z * Z) : Prop :=
  let '(event, d) := call in
  (event = FPL011_EVENT_SENT_DATA /\ d = Z.of_nat (length data) /\ k = length data) \/
  (event = FPL011_EVENT_RECV_TOUT /\ d = Z.of_nat len /\ length words = len) \/
  ((event = FPL011_EVENT_RECV_DATA \/ event = FPL011_EVENT_RECV_ERROR) /\
   0 <= d <= Z.of_nat (length words)) \/
  (event = FPL011_EVENT_PARE_FRAME_BRKE /\ d ∈ words /\ damaged d = true).

Record advances (words : list Z) (k : nat) (s : state) (words' : list Z) (k' : nat) (s' : state) :
    Prop := {
  adv_streams : streams words' k' s';
  adv_words : exists more arrived, words' = words ++ more /\
    pending s.(regs) ++ arrived = more ++ pending s'.(regs);
  adv_sent : (k <= k')%nat;
  adv_calls : exists new, s'.(calls) = s.(calls) ++ new /\ Forall (truthful words' k') new
}.

Lemma truthful_later words k more k' c :
  (k <= k' <= length data)%nat -> (length (words ++ more) <= len)%nat ->
  truthful words k c -> truthful (words ++ more) k' c.
Proof.
  intros Hk Hl. rewrite length_app in Hl. destruct c as [e d].
  intros [(E & D & K)|[(E & D & K)|[[E D]|(E & D & K)]]].
  - left. split_and!; try done. lia.
  - right; left. split_and!; try done. rewrite length_app. lia.
  - do 2 right; left. split; [done|]. rewrite length_app. lia.
  - do 3 right. split_and!; try done. by apply elem_of_app; left.
Qed.

Lemma advances_refl words k s : streams words k s -> advances words k s words k s.
Proof.
  intros Hs. split; [done| | done|].
  - exists [], []. by rewrite !app_nil_r.
  - exists []. by rewrite app_nil_r.
Qed.

Lemma advances_trans w1 k1 s1 w2 k2 s2 w3 k3 s3 :
  advances w1 k1 s1 w2 k2 s2 -> advances w2 k2 s2 w3 k3 s3 -> advances w1 k1 s1 w3 k3 s3.
Proof.
  intros [S2 (m2 & a2 & -> & P2) K2 (c2 & C2 & F2)] [S3 (m3 & a3 & -> & P3) K3 (c3 & C3 & F3)].
  split; [done| |lia|].
  - exists (m2 ++ m3), (a2 ++ a3). split; [by rewrite app_assoc|].
    by rewrite app_assoc, P2, <-app_assoc, P3, app_assoc.
  - exists (c2 ++ c3). split; [by rewrite C3, C2, app_assoc|]. apply Forall_app. split; [|done].
    eapply Forall_impl; [|exact F2]. intros c. destruct S3 as [[_ Hl _ _] [_ Hk _ _ _] _ _].
    apply truthful_later; [done|]. exact Hl.
Qed.

(** Steps that leave the buffers alone. *)
Lemma advances_moved words k s s' :
  streams words k s -> s'.(uart) = s.(uart) -> s'.(mem) = s.(mem) ->
  sent s'.(regs) = sent s.(regs) ->
  (exists arrived, pending s'.(regs) = pending s.(regs) ++ arrived) ->
  (exists new, s'.(calls) = s.(calls) ++ new /\ Forall (truthful words k) new) ->
  advances words k s words k s'.
Proof.
  intros [[B C F M] [B2 C2 F2 E2 M2] U R] Eu Em Es (a & Ep) Hc. split; [|exists [], a; split; [by rewrite app_nil_r|by rewrite Ep]|done|done].
  split; [| |by rewrite Eu|by unfold ready; rewrite Eu].
  - split; unfold at_base; rewrite ?Eu, ?Em; done.
  - split; unfold at_base; rewrite ?Eu, ?Em, ?Es; done.
Qed.

Lemma polled_advances words k s s' : polled s s' -> streams words k s -> advances words k s words k s'.
Proof.
  intros (h & -> & (S & P & _)) Hs. apply advances_moved; try done.
  exists []. by rewrite app_nil_r.
Qed.

(** A call of the callback. *)
Lemma call_advances words k s event d :
  streams words k s -> truthful words k (event, d) ->
  exists s', call_handler event d s = Ok s' /\ advances words k s words k s'.
Proof.
  intros Hs Ht. unfold call_handler. pose proof (str_handler _ _ _ Hs) as Hh.
  destruct (handler (uart s)); [| done |]; eexists; (split; [reflexivity|]).
  - by apply advances_refl.
  - apply advances_moved; try done; [exists []; by rewrite app_nil_r|].
    eexists. split; [reflexivity|]. by constructor.
Qed.

Lemma stored_outside words words' s s' :
  receiving m p len words s -> receiving m p len words' s' ->
  stored s.(mem) q data -> stored s'.(mem) q data.
Proof.
  intros [_ C1 _ [_ O1]] [_ C2 _ [_ O2]] Hst i x Hx. rewrite <-(Hst i x Hx).
  apply lookup_lt_Some in Hx as Hi. rewrite !length_map in *.
  rewrite (wrap_small 64) by lia.
  assert (~ within p len (q + Z.of_nat i)) as Hn.
  { intros Hw. eapply disjoint; [exact Hw|]. unfold within. lia. }
  unfold within in Hn. rewrite O1, O2; [done|unfold within; rewrite ?length_map; lia..].
Qed.

Lemma receive_advances words k s :
  streams words k s ->
  exists c words' s', FPl011ReceiveBuffer s = Ok (c, s') /\ advances words k s words' k s' /\
    received_so_far s' = Z.of_nat (length words') /\ s'.(uart).(rxbs_error) = 0.
Proof.
  intros [Hr Hsn U R].
  destruct (FPl011ReceiveBuffer_ok m p len buffer_start buffer_end buffer_length words s Hr U)
    as (more & s' & E & Hr' & (T & a & P) & Eu & Ec).
  exists (Z.of_nat (length more)), (words ++ more), s'. split; [done|].
  pose proof (stored_outside _ _ _ _ Hr Hr' (snd_stored _ _ _ _ _ Hsn)) as Hst.
  split; [split|split].
  - split; [done| | |].
    + destruct Hsn as [B2 C2 F2 E2 M2]. destruct Hr' as [B' _ _ _].
      split; try done; [rewrite Eu; exact F2|by rewrite T].
    + rewrite Eu. exact U.
    + unfold ready. rewrite Eu. exact R.
  - by exists more, a.
  - done.
  - eexists. split; [exact Ec|]. unfold reported.
    destruct (handler (uart s)); [constructor..|]. destruct (truth _); [|constructor].
    unfold error_calls. apply Forall_fmap, Forall_forall. intros w Hw. do 3 right.
    apply filter_In in Hw as [Hw Hd]. split; [done|]. split; [|done].
    apply elem_of_app. right. by apply list_elem_of_In.
  - unfold received_so_far. destruct Hr' as [_ C F _]. rewrite F.
    cbn [requested_bytes remaining_bytes]. rewrite wrap_small; lia.
  - by rewrite Eu.
Qed.

Lemma send_advances words k s :
  streams words k s ->
  exists c k' s', FPl011SendBuffer fuel s = Ok (c, s') /\ advances words k s words k' s' /\
    ((k < length data)%nat -> (k < k')%nat) /\ s'.(uart).(handler) = s.(uart).(handler).
Proof.
  intros [Hr Hsn U R]. destruct (drains s (rcv_base _ _ _ _ _ Hr)) as [s0 Hw].
  destruct (FPl011SendBuffer_ok q data before data_length data_bytes fuel k s s0 Hsn Hw)
    as (k' & s' & E & K & Hsn' & [Tm Tc Tu Tp] & G).
  exists (Z.of_nat k'), k', s'. split; [done|]. split; [|by rewrite Tu]. split; [|destruct Tp as [a Ha]; exists [], a; split; [by rewrite app_nil_r|by rewrite Ha]|done|].
  - split; [|done|by rewrite Tu|by unfold ready; rewrite Tu].
    destruct Hr as [B C F M]. split; [by destruct Hsn'|done|by rewrite Tu|by rewrite Tm].
  - exists []. by rewrite Tc, app_nil_r.
Qed.
Lemma so_far words k s : streams words k s -> received_so_far s = Z.of_nat (length words).
Proof.
  intros [[_ C F _] _ _ _]. unfold received_so_far. rewrite F.
  cbn [requested_bytes remaining_bytes]. rewrite wrap_small; lia.
Qed.

Lemma all_received words k s :
  streams words k s -> (s.(uart).(receive_buffer).(remaining_bytes) =? 0) = true ->
  length words = len.
Proof.
  intros [[_ C F _] _ _ _]. rewrite F. cbn [remaining_bytes]. intros E%Z.eqb_eq. lia.
Qed.

Lemma all_sent words k s :
  streams words k s -> (s.(uart).(send_buffer).(remaining_bytes) =? 0) = true -> k = length data.
Proof.
  intros [_ [_ C F _ _] _ _]. rewrite F. cbn [remaining_bytes]. intros E%Z.eqb_eq. lia.
Qed.

Lemma set_error_advances words k s e :
  streams words k s -> advances words k s words k (set_uart (set_error e s.(uart)) s).
Proof.
  intros [Hr Hsn U R]. split; [|exists [], []; by rewrite !app_nil_r|done|exists []; by rewrite app_nil_r].
  split; [|by destruct Hsn|done|done]. destruct Hr. by split.
Qed.

(** A step of the handler: it returns, and goes on with the two streams. *)
Definition goes_on (f : state -> res state) : Prop :=
  forall words k s, streams words k s ->
  exists words' k' s', f s = Ok s' /\ advances words k s words' k' s'.

Lemma goes_on_if (b : bool) f : goes_on f -> goes_on (fun s => if b then f s else Ok s).
Proof.
  intros Hf words k s Hs. destruct b; [by apply Hf|]. exists words, k, s.
  split; [done|by apply advances_refl].
Qed.

Lemma goes_on_bind f g : goes_on f -> goes_on g -> goes_on (fun s => let! s := f s in g s).
Proof.
  intros Hf Hg words k s Hs. destruct (Hf words k s Hs) as (w1 & k1 & s1 & E1 & A1).
  destruct (Hg w1 k1 s1 (adv_streams _ _ _ _ _ _ A1)) as (w2 & k2 & s2 & E2 & A2).
  exists w2, k2, s2. rewrite E1. cbn [rbind]. split; [done|by eapply advances_trans].
Qed.

Lemma receive_more_goes_on :
  goes_on (fun s =>
    if truth s.(uart).(receive_buffer).(remaining_bytes)
    then let! (_, s) := FPl011ReceiveBuffer s in Ok s else Ok s).
Proof.
  intros words k s Hs. destruct (truth _).
  - destruct (receive_advances words k s Hs) as (c & words' & s' & E & A & _).
    exists words', k, s'. rewrite E. by split.
  - exists words, k, s. split; [done|by apply advances_refl].
Qed.

Lemma receive_data_goes_on : goes_on FPl011ReceiveDataHandler.
Proof.
  apply (goes_on_bind _ (fun s => if 0 =? s.(uart).(receive_buffer).(remaining_bytes)
    then call_handler FPL011_EVENT_RECV_DATA (received_so_far s) s else Ok s));
    [apply receive_more_goes_on|].
  intros words k s Hs. rewrite Z.eqb_sym. destruct (_ =? 0) eqn:E0.
  - destruct (call_advances words k s FPL011_EVENT_RECV_DATA (received_so_far s) Hs)
      as (s' & E & A); [|by exists words, k, s'].
    do 2 right; left. rewrite (so_far words k s Hs). split; [by left|lia].
  - exists words, k, s. split; [done|by apply advances_refl].
Qed.

Lemma receive_timeout_goes_on : goes_on FPl011ReceiveTimeoutHandler.
Proof.
  apply (goes_on_bind _ (fun s => call_handler
    (if 0 =? s.(uart).(receive_buffer).(remaining_bytes)
     then FPL011_EVENT_RECV_TOUT else FPL011_EVENT_RECV_DATA) (received_so_far s) s));
    [apply receive_more_goes_on|].
  intros words k s Hs. rewrite Z.eqb_sym.
  destruct (call_advances words k s (if remaining_bytes (receive_buffer (uart s)) =? 0
    then FPL011_EVENT_RECV_TOUT else FPL011_EVENT_RECV_DATA) (received_so_far s) Hs)
    as (s' & E & A); [|by exists words, k, s'].
  rewrite (so_far words k s Hs). destruct (_ =? 0) eqn:E0.
  - right; left. rewrite (all_received words k s Hs E0). by split_and!.
  - do 2 right; left. split; [by left|lia].
Qed.

Lemma receive_error_goes_on status : goes_on (FPl011ReceiveErrorHandler status).
Proof.
  intros words k s Hs. unfold FPl011ReceiveErrorHandler.
  set (s1 := set_uart _ s). assert (advances words k s words k s1) as A1 by by apply set_error_advances.
  set (s2 := if truth (Z.land status MIS_ERRORS) then _ else s1).
  assert (advances words k s1 words k s2) as A2.
  { unfold s2. destruct (truth _); [apply set_error_advances|apply advances_refl];
      by eapply adv_streams. }
  destruct (receive_advances words k s2 (adv_streams _ _ _ _ _ _ A2))
    as (c & words' & s3 & E3 & A3 & Hc & E0).
  rewrite E3. cbn [rbind]. rewrite E0. change (0 =? 0) with true. cbv iota.
  destruct (call_advances words' k s3 FPL011_EVENT_RECV_ERROR (received_so_far s3)
    (adv_streams _ _ _ _ _ _ A3)) as (s4 & E4 & A4).
  { do 2 right; left. rewrite Hc. split; [by right|lia]. }
  exists words', k, s4. split; [done|]. eapply advances_trans; [exact A1|].
  eapply advances_trans; [exact A2|]. by eapply advances_trans.
Qed.

Lemma send_data_progress words k s :
  streams words k s ->
  exists k' s', FPl011SendDataHandler fuel s = Ok s' /\ advances words k s words k' s' /\
    ((k < length data)%nat -> (k < k')%nat) /\ s'.(uart).(handler) = s.(uart).(handler) /\
    (k' = length data -> s.(uart).(handler) = UserHandler ->
     (FPL011_EVENT_SENT_DATA, Z.of_nat (length data)) ∈ s'.(calls)).
Proof.
  intros Hs. unfold FPl011SendDataHandler.
  destruct (send_advances words k s Hs) as (c & k' & s1 & E & A & G & Hh).
  pose proof (adv_streams _ _ _ _ _ _ A) as Hs1. rewrite E. cbn [rbind].
  pose proof (snd_buffer _ _ _ _ _ (str_sending _ _ _ Hs1)) as F. rewrite F.
  cbn [remaining_bytes requested_bytes].
  pose proof (snd_count _ _ _ _ _ (str_sending _ _ _ Hs1)) as C.
  destruct (Z.eqb_spec (Z.of_nat (length data - k')) 0) as [E0|E0].
  - destruct (call_advances words k' s1 FPL011_EVENT_SENT_DATA (Z.of_nat (length data)) Hs1)
      as (s2 & E2 & A2).
    { left. split_and!; [done..|lia]. }
    exists k', s2. split; [done|]. split; [by eapply advances_trans|]. split; [done|].
    unfold call_handler in E2. rewrite Hh in E2.
    destruct (handler (uart s)) eqn:Eh; [|done|]; injection E2 as <-; (split; [done|]); [done|].
    intros _ _. simpl. apply elem_of_app. right. by apply list_elem_of_singleton.
  - exists k', s1. split; [done|]. split; [done|]. split; [done|]. split; [done|]. intros ->. lia.
Qed.

Lemma send_data_goes_on : goes_on (FPl011SendDataHandler fuel).
Proof.
  intros words k s Hs. destruct (send_data_progress words k s Hs) as (k' & s' & E & A & _).
  by exists words, k', s'.
Qed.

Lemma interrupt_goes_on : goes_on (FPl011InterruptHandler fuel).
Proof.
  intros words k s Hs. unfold FPl011InterruptHandler. rewrite (str_ready _ _ _ Hs).
  destruct (status_read FPL011IMSC_OFFSET s (rcv_base _ _ _ _ _ (str_receiving _ _ _ Hs)))
    as (v1 & s1 & E1 & P1 & _); [done|]. rewrite E1.
  pose proof (polled_advances _ _ _ _ P1 Hs) as A1. pose proof (adv_streams _ _ _ _ _ _ A1) as Hs1.
  destruct (status_read FPL011MIS_OFFSET s1 (rcv_base _ _ _ _ _ (str_receiving _ _ _ Hs1)))
    as (v2 & s2 & E2 & P2 & _); [done|]. rewrite E2.
  pose proof (polled_advances _ _ _ _ P2 Hs1) as A2. pose proof (adv_streams _ _ _ _ _ _ A2) as Hs2.
  set (r := Z.land v1 v2).
  destruct (goes_on_bind _ _
    (goes_on_if (truth (Z.land r FPL011MIS_RXMIS)) _ receive_data_goes_on)
    (goes_on_bind _ _
      (goes_on_if (truth (Z.land r FPL011MIS_TXMIS)) _ send_data_goes_on)
      (goes_on_bind _ _
        (goes_on_if (truth (Z.land r MIS_ERRORS)) _ (receive_error_goes_on r))
        (goes_on_if (truth (Z.land r FPL011MIS_RTMIS)) _ receive_timeout_goes_on)))
    words k s2 Hs2) as (w3 & k3 & s3 & E3 & A3).
  pose proof (adv_streams _ _ _ _ _ _ A3) as Hs3.
  exists w3, k3, (FUART_WRITEREG32 FPL011ICR_OFFSET r s3). split.
  - revert E3. cbv beta.
    repeat match goal with
    | |- rbind ?x _ = Ok _ -> rbind ?x _ = _ => destruct x; cbn [rbind]; [|done]
    end.
    intros E3. rewrite E3. done.
  - eapply advances_trans; [exact A1|]. eapply advances_trans; [exact A2|].
    eapply advances_trans; [exact A3|]. apply polled_advances; [|done].
    unfold FUART_WRITEREG32. rewrite (rcv_base _ _ _ _ _ (str_receiving _ _ _ Hs3)).
    eexists. split; [reflexivity|]. apply law_clear.
Qed.

(** [n] interrupts. *)
Fixpoint interrupts (n : nat) (s : state) : res state :=
  match n with
  | O => Ok s
  | S n => let! s := FPl011InterruptHandler fuel s in interrupts n s
  end.

Lemma interrupts_go_on n : goes_on (interrupts n).
Proof.
  induction n as [|n IH]; [apply (goes_on_if false (fun s => Ok s)); intros words k s Hs|].
  - exists words, k, s. split; [done|by apply advances_refl].
  - apply (goes_on_bind _ _ interrupt_goes_on IH).
Qed.

(** [n] transmit interrupts. *)
Fixpoint transmits (n : nat) (s : state) : res state :=
  match n with
  | O => Ok s
  | S n => let! s := FPl011SendDataHandler fuel s in transmits n s
  end.

Lemma transmits_complete n words k s :
  streams words k s -> s.(uart).(handler) = UserHandler -> (length data - k <= S n)%nat ->
  exists s', transmits (S n) s = Ok s' /\ advances words k s words (length data) s' /\
    (FPL011_EVENT_SENT_DATA, Z.of_nat (length data)) ∈ s'.(calls).
Proof.
  revert k s. induction n as [|n IH]; intros k s Hs Hu Hn;
    destruct (send_data_progress words k s Hs) as (k1 & s1 & E1 & A1 & G & Hh & Hc);
    pose proof (snd_count _ _ _ _ _ (str_sending _ _ _ Hs));
    pose proof (adv_streams _ _ _ _ _ _ A1) as Hs1;
    pose proof (snd_count _ _ _ _ _ (str_sending _ _ _ Hs1));
    pose proof (adv_sent _ _ _ _ _ _ A1).
  - exists s1. cbn [transmits]. rewrite E1. cbn [rbind]. split; [done|].
    assert (k1 = length data) as -> by lia. split; [done|by apply Hc].
  - destruct (IH k1 s1 Hs1) as (s2 & E2 & A2 & C2); [congruence|lia|].
    exists s2. change (transmits (S (S n)) s) with
      (let! s := FPl011SendDataHandler fuel s in transmits (S n) s). rewrite E1. cbn [rbind].
    split; [done|]. split; [by eapply advances_trans|done].
Qed.
End Interrupts.

(** ** Starting transfers *)
Lemma Send_starts fuel q data s :
  at_base s -> ready s = true -> 0 < q -> Z.of_nat (length data) < 2 ^ 32 ->
  Forall (fun b => 0 <= b < 2 ^ 8) data -> stored s.(mem) q data ->
  (exists s', wait_until FUART_ISTRANSMITBUSY fuel
     (set_uart (set_send (mkBuffer q (Z.of_nat (length data)) (Z.of_nat (length data))) s.(uart)) s)
     = Ok s') ->
  exists k s', FPl011Send fuel q (Z.of_nat (length data)) s = Ok (Z.of_nat k, s') /\
    sending q data (sent s.(regs)) k s' /\ tx_only s s'.
Proof.
  intros B R Hq Hl Hb Hst [s0 Hw]. unfold FPl011Send. rewrite R.
  assert (truth q = true) as -> by (unfold truth; apply negb_true_iff, Z.eqb_neq; lia).
  set (s1 := set_uart _ s) in *.
  destruct (FPl011SendBuffer_ok q data (sent s.(regs)) Hl Hb fuel 0 s1 s0) as (k & s' & E & _ & Hs & T & _);
    [|done|].
  { split; try done; [lia|..]; simpl; by rewrite ?Nat.sub_0_r, ?app_nil_r. }
  exists k, s'. split; [done|]. split; [done|]. destruct T as [T1 T2 T3 T4].
  split; [done|done| |done]. by rewrite T3.
Qed.

(** A transfer in both directions can be started: memory areas that do not overlap,
    and a transmitter that becomes idle within [fuel] polls. *)
Record transfer_ok (fuel : nat) (p : Z) (len : nat) (q : Z) (data : list Z) (s : state) : Prop := {
  tr_base : at_base s;
  tr_ready : ready s = true;
  tr_handler : s.(uart).(handler) <> FPl011StubHandler;
  tr_buffer : 0 < p /\ p + Z.of_nat len < 2 ^ 64 /\ Z.of_nat len < 2 ^ 32;
  tr_data : 0 < q /\ q + Z.of_nat (length data) <= 2 ^ 64 /\ Z.of_nat (length data) < 2 ^ 32;
  tr_bytes : Forall (fun b => 0 <= b < 2 ^ 8) data;
  tr_stored : stored s.(mem) q data;
  tr_disjoint : forall a, within p len a -> ~ within q (length data) a;
  tr_drains : forall s, at_base s -> exists s', wait_until FUART_ISTRANSMITBUSY fuel s = Ok s'
}.

Lemma transfer_starts fuel p len q data s :
  transfer_ok fuel p len q data s ->
  exists r1 s1 r2 s2 words k,
    FPl011Send fuel q (Z.of_nat (length data)) s = Ok (r1, s1) /\
    FPl011Receive p (Z.of_nat len) s1 = Ok (r2, s2) /\
    streams s.(mem) p len q data (sent s.(regs)) words k s2 /\
    (exists arrived, pending s.(regs) ++ arrived = words ++ pending s2.(regs)) /\
    s2.(uart).(handler) = s.(uart).(handler) /\
    exists new, s2.(calls) = s.(calls) ++ new /\ Forall (truthful len data words k) new.
Proof.
  intros [B R U (P1 & P2 & P3) (Q1 & Q2 & Q3) Db Ds Dj Dr].
  destruct (Send_starts fuel q data s B R Q1 Q3 Db Ds) as (k & s1 & E1 & Hs1 & [T1 T2 T3 (a1 & T4)]).
  { apply Dr. exact B. }
  assert (ready s1 = true) as R1 by (unfold ready; by rewrite T3).
  set (s1' := set_uart (set_receive (mkBuffer p (Z.of_nat len) (Z.of_nat len)) s1.(uart)) s1).
  assert (streams s.(mem) p len q data (sent s.(regs)) [] k s1') as Hstr.
  { split; [| |by simpl; rewrite T3|exact R1].
    - split; [by destruct Hs1|simpl; lia| |simpl; rewrite T1; apply filled_nil].
      simpl. by rewrite Z.add_0_r, Nat.sub_0_r.
    - destruct Hs1. by split. }
  destruct (receive_advances s.(mem) p len q data (sent s.(regs)) P1 P2 P3 (Z.lt_le_incl _ _ Q1) Q2 Dj
    [] k s1' Hstr) as (c & words & s2 & E2 & A & _ & _).
  destruct (FPl011ReceiveBuffer_ok s.(mem) p len P1 P2 P3 [] s1' (str_receiving _ _ _ _ _ _ _ _ _ Hstr)
    (str_handler _ _ _ _ _ _ _ _ _ Hstr)) as (more & s2' & E2' & _ & _ & Eu & _).
  rewrite E2 in E2'. injection E2' as Ec <-.
  destruct A as [Hstr2 (more2 & a & Ew & Ep) _ (new & Ecl & Hnew)]. simpl in Ew. subst more2.
  exists (Z.of_nat k), s1, c, s2, words, k. split; [exact E1|]. split.
  { unfold FPl011Receive. rewrite R1.
    assert (truth p = true) as -> by (unfold truth; apply negb_true_iff, Z.eqb_neq; lia).
    exact E2. }
  split; [exact Hstr2|]. split; [|split].
  - exists (a1 ++ a). rewrite app_assoc, <-T4. exact Ep.
  - rewrite Eu. simpl. by rewrite T3.
  - exists new. change (calls s1') with (calls s1) in Ecl. rewrite T2 in Ecl. by split.
Qed.

(** C10: The UART transfers in both directions are safe under any number of interrupts:
    every call returns, the bytes put into the transmit FIFO are a prefix of the data
    in order, the words taken out of the receive FIFO are the arrived ones in order and
    their bytes are in the buffer, in order, with no byte of memory outside the buffer
    changed, and whatever the callback was told is so: all data has been handed over
    when it hears SENT_DATA, and the buffer has at least the bytes it is told. *)
Theorem uart_streams fuel p len q data s n :
  transfer_ok fuel p len q data s ->
  exists r1 s1 r2 s2 s3 words k,
    FPl011Send fuel q (Z.of_nat (length data)) s = Ok (r1, s1) /\
    FPl011Receive p (Z.of_nat len) s1 = Ok (r2, s2) /\
    interrupts fuel n s2 = Ok s3 /\
    (k <= length data)%nat /\ sent s3.(regs) = sent s.(regs) ++ take k data /\
    (length words <= len)%nat /\ filled s.(mem) p (map low words) s3.(mem) /\
    (exists arrived, pending s.(regs) ++ arrived = words ++ pending s3.(regs)) /\
    exists new, s3.(calls) = s.(calls) ++ new /\ Forall (truthful len data words k) new.
Proof.
  intros Ht. destruct (transfer_starts fuel p len q data s Ht)
    as (r1 & s1 & r2 & s2 & w2 & k2 & E1 & E2 & Hs2 & (a2 & P2) & _ & c2 & C2 & F2).
  destruct Ht as [B R U (B1 & B2 & B3) (Q1 & Q2 & Q3) Db Ds Dj Dr].
  destruct (interrupts_go_on s.(mem) p len q data (sent s.(regs)) fuel B1 B2 B3
    (Z.lt_le_incl _ _ Q1) Q2 Q3 Db Dj Dr n w2 k2 s2 Hs2) as (w3 & k3 & s3 & E3 & A).
  destruct A as [[[_ Cw _ M] [_ Ck _ S _] _ _] (m3 & a3 & -> & P3) K (c3 & C3 & F3)].
  exists r1, s1, r2, s2, s3, (w2 ++ m3), k3. split_and!; try done.
  - exists (a2 ++ a3). by rewrite app_assoc, P2, <-app_assoc, P3, app_assoc.
  - exists (c2 ++ c3). rewrite C3, C2, app_assoc. split; [done|]. apply Forall_app. split; [|done].
    eapply Forall_impl; [|exact F2]. intros c. by apply truthful_later.
Qed.

(** C11: The transmission of a buffer completes: every transmit interrupt hands over at
    least one byte, so after as many of them as there are bytes the controller has all
    of them, in order, and the callback has been told so. *)
Theorem uart_send_completes fuel p len q data s n :
  transfer_ok fuel p len q data s -> s.(uart).(handler) = UserHandler ->
  (length data <= S n)%nat ->
  exists r1 s1 r2 s2 s3,
    FPl011Send fuel q (Z.of_nat (length data)) s = Ok (r1, s1) /\
    FPl011Receive p (Z.of_nat len) s1 = Ok (r2, s2) /\
    transmits fuel (S n) s2 = Ok s3 /\ sent s3.(regs) = sent s.(regs) ++ data /\
    (FPL011_EVENT_SENT_DATA, Z.of_nat (length data)) ∈ s3.(calls).
Proof.
  intros Ht Hu Hn. destruct (transfer_starts fuel p len q data s Ht)
    as (r1 & s1 & r2 & s2 & w2 & k2 & E1 & E2 & Hs2 & _ & Eh & _).
  destruct Ht as [B R U (B1 & B2 & B3) (Q1 & Q2 & Q3) Db Ds Dj Dr].
  destruct (transmits_complete s.(mem) p len q data (sent s.(regs)) fuel Q3 Db Dr n w2 k2 s2 Hs2) as (s3 & E3 & A & C); [congruence|lia|].
  exists r1, s1, r2, s2, s3. split_and!; try done.
  destruct A as [[_ [_ _ _ S _] _ _] _ _ _]. by rewrite S, firstn_all.
Qed.
End Props.

(** ** A controller, for the witnesses

    It transmits at once; its other registers keep what is written. *)
Module SimUart.
Record sim := mkSim { s_sent : list Z; s_pending : list Z; s_regs : Z -> Z }.

Definition sim_in (h : sim) (_ off : Z) : Z * sim :=
  if off =? FPL011FTR_OFFSET then
    (match h.(s_pending) with [] => FPL011FTR_RXFE | _ => 0 end, h)
  else if off =? FPL011DR_OFFSET then
    match h.(s_pending) with
    | [] => (0, h)
    | w :: l => (w, mkSim h.(s_sent) l h.(s_regs))
    end
  else if config_register off then (Z.land (h.(s_regs) off) (implemented off), h)
  else (h.(s_regs) off, h).

Definition sim_out (h : sim) (_ off v : Z) : sim :=
  if off =? FPL011DR_OFFSET then mkSim (h.(s_sent) ++ [u8 v]) h.(s_pending) h.(s_regs)
  else if off =? FPL011ICR_OFFSET then h
  else mkSim h.(s_sent) h.(s_pending) (fun o => if o =? off then v else h.(s_regs) o).

#[export] Instance sim_hw : MmioHw := {| hw := sim; FtIn32 := sim_in; FtOut32 := sim_out |}.

Lemma sim_status h off v h' :
  sim_in h 0 off = (v, h') -> status_register off = true -> h' = h.
Proof.
  unfold sim_in. destruct (off =? FPL011FTR_OFFSET); [by intros [= _ <-]|].
  destruct (Z.eqb_spec off FPL011DR_OFFSET) as [->|]; [done|].
  destruct (config_register off); by intros [= _ <-].
Qed.

Definition sim_cfg (h : sim) (off : Z) : Z :=
  if config_register off then Z.land (h.(s_regs) off) (implemented off) else 0.

#[export] Instance sim_laws base : UartLaws base.
Proof.
  refine {|
    sent := s_sent;
    pending := s_pending;
    cfg := sim_cfg;
    room := fun _ => True;
    idle := fun _ => True
  |}.
  - intros h off v h' E Hs. rewrite (sim_status h off v h' E Hs).
    split; [done|]. split; [exists []; by rewrite app_nil_r|done].
  - intros h v h' E He. cbn in E. destruct (s_pending h) eqn:Ep; injection E as <- <-.
    + exfalso. revert He. vm_compute. discriminate.
    + by rewrite Ep.
  - done.
  - done.
  - intros h v h' E _. cbn in E. injection E as <- <-. by destruct (s_pending h).
  - intros h off v h' E Hc. cbn in E. unfold sim_in in E. unfold sim_cfg. rewrite Hc in *.
    destruct (Z.eqb_spec off FPL011FTR_OFFSET) as [->|]; [done|].
    destruct (Z.eqb_spec off FPL011DR_OFFSET) as [->|]; [done|]. by injection E.
  - intros h off Hc. unfold sim_cfg. by rewrite Hc, <-Z.land_assoc, Z.land_diag.
  - intros h w l E. cbn. rewrite E. eexists _, []. split; [reflexivity|].
    by rewrite app_nil_r.
  - intros h v _. exists []. by rewrite app_nil_r.
  - intros h off v Hc off'. cbn. unfold sim_out, sim_cfg.
    destruct (Z.eqb_spec off FPL011DR_OFFSET) as [->|]; [done|].
    destruct (Z.eqb_spec off FPL011ICR_OFFSET) as [->|]; [done|]. simpl.
    destruct (Z.eqb_spec off' off) as [->|]; [by rewrite Hc|done].
  - intros h v. split; [done|]. split; [exists []; by rewrite app_nil_r|done].
  - intros h v off Ho off'. cbn. unfold sim_out, sim_cfg.
    destruct (config_register off') eqn:Hc; [|done].
    destruct Ho as [-> | ->]; cbn;
      match goal with |- context [off' =? ?c] => destruct (Z.eqb_spec off' c) as [->|]; done end.
Defined.

(** A driver that is to send three bytes and receive up to four. *)
Definition memory (a : Z) : Z := if a =? 0x2000 then 65 else if a =? 0x2001 then 66 else
  if a =? 0x2002 then 67 else 0.

Definition driver : state :=
  mkState (mkSim [] [0x30; 0x131; 0x32]
    (fun off => if (off =? FPL011MIS_OFFSET) || (off =? FPL011IMSC_OFFSET) then 0x70 else 0))
    (mkUart (mkConfig 0 0x2800c000 100000000 115 115200 0) FT_COMPONENT_IS_READY
       (mkBuffer 0 0 0) (mkBuffer 0 0 0) UserHandler 0) memory [].

Lemma driver_transfer : transfer_ok 0x2800c000 1 0x1000 4 0x2000 [65; 66; 67] driver.
Proof.
  split; try done.
  - repeat constructor; vm_compute; congruence.
  - intros [|[|[|i]]] x Hx; simpl in Hx; simplify_eq; done.
  - intros a. unfold within. simpl. lia.
  - intros s _. exists s. cbn [wait_until]. unfold FUART_ISTRANSMITBUSY, FUART_READREG32.
    cbn. destruct s as [[? p ?] ? ? ?]. by destruct p.
Qed.
End SimUart.
Import (hints) SimUart.

Lemma uart_streams_witness :
  exists r1 s1 r2 s2 s3 words k,
    FPl011Send 1 0x2000 3 SimUart.driver = Ok (r1, s1) /\ FPl011Receive 0x1000 4 s1 = Ok (r2, s2) /\
    interrupts 1 2 s2 = Ok s3 /\ (k <= 3)%nat /\
    filled SimUart.memory 0x1000 (map low words) s3.(mem).
Proof.
  destruct (uart_streams 0x2800c000 1 0x1000 4 0x2000 [65; 66; 67] SimUart.driver 2
    SimUart.driver_transfer)
    as (r1 & s1 & r2 & s2 & s3 & words & k & E1 & E2 & E3 & K & _ & _ & M & _).
  by exists r1, s1, r2, s2, s3, words, k.
Defined.

Lemma uart_send_completes_witness :
  exists r1 s1 r2 s2 s3,
    FPl011Send 1 0x2000 3 SimUart.driver = Ok (r1, s1) /\ FPl011Receive 0x1000 4 s1 = Ok (r2, s2) /\
    transmits 1 3 s2 = Ok s3 /\ SimUart.s_sent s3.(regs) = [65; 66; 67].
Proof.
  destruct (uart_send_completes 0x2800c000 1 0x1000 4 0x2000 [65; 66; 67] SimUart.driver 2
    SimUart.driver_transfer) as (r1 & s1 & r2 & s2 & s3 & E1 & E2 & E3 & S & _); [done|simpl; lia|].
  exists r1, s1, r2, s2, s3. by split_and!.
Defined.
