(* ===== verification/UartConfig.v ===== *)
(** Configuration of the UART (Uart.v): the divisors of the baud rate, options, data
    format and operating mode, by their effect on the configuration registers. *)
From S2P Require Import Prelude Mmio Uart UartProps.
Import Uart.

#[export] Instance mapping_eq_dec : EqDecision Mapping.
Proof. solve_decision. Defined.

(** ** Divisors *)

(** Half the rounding of [fraction]. *)
Lemma round_half r t :
  0 <= r < t -> 2 ^ 25 >= t ->
  let x := u32 (128 * r) / t in
  let f := if truth (Z.land x 1) then x / 2 + 1 else x / 2 in
  0 <= f <= 64 /\ Z.abs (2 * f * t - 128 * r) <= t.
Proof.
  intros Hr Ht. rewrite wrap_small by lia. intros x.
  assert (0 <= x < 128) as Hx.
  { unfold x. split; [apply Z.div_pos; lia|apply Z.div_lt_upper_bound; lia]. }
  assert (x * t <= 128 * r < (x + 1) * t) as Hxt.
  { unfold x. pose proof (Z.div_mod (128 * r) t ltac:(lia)).
    pose proof (Z.mod_pos_bound (128 * r) t ltac:(lia)). nia. }
  assert (Z.land x 1 = x mod 2) as -> by (change 1 with (Z.ones 1); by rewrite Z.land_ones).
  clearbody x. pose proof (Z.div_mod x 2 ltac:(lia)) as Hd.
  pose proof (Z.mod_pos_bound x 2 ltac:(lia)) as Hm. revert Hd Hm.
  generalize (x / 2) (x mod 2). intros y e Hd Hm. unfold truth.
  destruct (Z.eqb_spec e 0) as [E|E]; cbn [negb]; cbv zeta.
  - assert (x = 2 * y) as Hy by lia. rewrite Hy in *. split; [lia|]. apply Z.abs_le. lia.
  - assert (x = 2 * y + 1) as Hy by lia. rewrite Hy in *. split; [lia|]. apply Z.abs_le. lia.
Qed.

(** What the controller divides its clock by, in 64ths of [16 * rate], when the two
    divisors have been written: its registers have 16 and 6 bits. *)
Definition held_divisor (divider fraction : Z) : Z :=
  64 * Z.land divider FPL011IBRD_BAUD_DIVFRAC + Z.land fraction FPL011FBRD_BAUD_DIVFRAC.

Lemma held_divisor_value divider fraction :
  0 <= divider -> 0 <= fraction <= 64 ->
  held_divisor divider fraction =
    64 * divider + fraction - 2 ^ 22 * (divider / 2 ^ 16) - (if fraction =? 64 then 64 else 0).
Proof.
  intros Hd Hf. unfold held_divisor, FPL011IBRD_BAUD_DIVFRAC, FPL011FBRD_BAUD_DIVFRAC.
  change 0xffff with (Z.ones 16). change 0x3f with (Z.ones 6). rewrite !Z.land_ones by done.
  rewrite (Z.mod_eq divider) by done. change (2 ^ 22) with (64 * 2 ^ 16). change (2 ^ 6) with 64.
  destruct (Z.eqb_spec fraction 64) as [->|]; [change (64 mod 64) with 0; lia|].
  rewrite (Z.mod_small fraction) by lia. lia.
Qed.

(** C12: For a baud rate of up to 2^21, [FPl011SetBaudRate] computes the nearest divisor
    there is, [64 * divider + fraction] 64ths: it differs from clock / (16 rate) by rounding
    to 64ths only.  The controller does not always hold it.  The fraction can be 64, which
    the 6 bits of its register cut to 0, so that the divisor is 1 too small (1041667 baud
    from 100 MHz: 5 in place of 6), and a divisor of 2^16 or more loses its multiples of
    2^16; in every other case what the controller holds is the nearest divisor.  For rates
    above a 16th of the clock, which are not refused, the integer part is 0.  Above 2^21
    the arithmetic overflows 32 bits: 4 M from a clock of 100 MHz gives 1 + 2/64 where
    1 + 36/64 is right; and rates that are a multiple of 2^28 divide by zero, although half
    of the clock is the only limit checked. *)
Theorem baud_divisors_nearest :
  (forall clock rate, 0 <= clock < 2 ^ 32 -> 0 < rate <= 2 ^ 21 ->
   exists divider fraction, baud_divisors clock rate = Ok (divider, fraction) /\
     let nearest := 64 * divider + fraction in
     Z.abs (nearest * (16 * rate) - 64 * clock) <= 8 * rate /\ 0 <= fraction <= 64 /\
     held_divisor divider fraction =
       nearest - 2 ^ 22 * (divider / 2 ^ 16) - (if fraction =? 64 then 64 else 0) /\
     (held_divisor divider fraction = nearest <-> divider < 2 ^ 16 /\ fraction < 64) /\
     (clock < 16 * rate -> divider = 0)) /\
  (baud_divisors 100000000 1041667 = Ok (5, 64) /\ held_divisor 5 64 = 64 * 5) /\
  baud_divisors 100000000 4000000 = Ok (1, 2) /\
  (forall clock k, baud_divisors clock (k * 2 ^ 28) = Fault Undefined).
Proof.
  split; [|split; [by split|split; [reflexivity|]]].
  - intros clock rate Hc Hr. unfold baud_divisors, div32, mod32.
    rewrite (wrap_small 32 (16 * rate)) by lia.
    destruct (Z.eqb_spec (16 * rate) 0); [lia|]. cbn [rbind].
    pose proof (Z.div_mod clock (16 * rate) ltac:(lia)) as Hd.
    pose proof (Z.mod_pos_bound clock (16 * rate) ltac:(lia)) as Hm.
    destruct (round_half _ _ Hm ltac:(lia)) as [Hf He]. cbv zeta in Hf, He.
    eexists _, _. split; [reflexivity|].
    set (f := if truth _ then _ else _) in *.
    assert (0 <= clock / (16 * rate)) as Hd0 by (apply Z.div_pos; lia).
    assert (clock < 16 * rate -> clock / (16 * rate) = 0) as Hz by (intros; apply Z.div_small; lia).
    rewrite held_divisor_value by done.
    set (d := clock / (16 * rate)) in *. set (r := clock mod (16 * rate)) in *. cbv zeta.
    split; [|split; [exact Hf|split; [done|split; [|exact Hz]]]].
    + apply Z.abs_le in He. apply Z.abs_le. nia.
    + pose proof (Z.div_mod d (2 ^ 16) ltac:(done)). pose proof (Z.mod_pos_bound d (2 ^ 16) ltac:(done)).
      assert (0 <= d / 2 ^ 16) by (apply Z.div_pos; lia).
      destruct (Z.eqb_spec f 64); split; lia.
  - intros clock k. unfold baud_divisors, div32.
    assert (u32 (16 * (k * 2 ^ 28)) = 0) as ->; [|done].
    replace (16 * (k * 2 ^ 28)) with (k * 2 ^ 32) by lia. apply Z_mod_mult.
Qed.

(** The usual 115200 baud from 100 MHz: 54 + 16/64. *)
Lemma baud_divisors_nearest_witness :
  exists divider fraction, baud_divisors 100000000 115200 = Ok (divider, fraction) /\
    held_divisor divider fraction = 3472 /\
    Z.abs (held_divisor divider fraction * (16 * 115200) - 64 * 100000000) <= 8 * 115200.
Proof.
  destruct baud_divisors_nearest as [Hn _].
  destruct (Hn 100000000 115200 ltac:(lia) ltac:(lia)) as (d & f & E & Ha & _).
  exists d, f. split; [exact E|]. vm_compute in E. injection E as <- <-.
  split; [reflexivity|]. exact Ha.
Defined.

(** ** Bits of the configuration registers *)
Lemma implemented_range off : 0 <= implemented off < 2 ^ 32.
Proof. unfold implemented. repeat case_match; lia. Qed.

Lemma land_u32 x y : 0 <= y < 2 ^ 32 -> Z.land (u32 x) y = Z.land x y.
Proof.
  intros Hy. bitwise i Hi. destruct (Z.ltb_spec i 32); [done|].
  by rewrite (testbit_high 32 y i), !andb_false_r by lia.
Qed.

Section Config.
Context `{H : MmioHw} (base : Z) {L : UartLaws base}.

Lemma cfg_write off v s off' :
  at_base base s -> config_register off = true ->
  cfg (FUART_WRITEREG32 off v s).(regs) off' =
    if off' =? off then Z.land v (implemented off) else cfg s.(regs) off'.
Proof.
  intros B Hc. unfold FUART_WRITEREG32. rewrite B. cbn [set_regs regs].
  rewrite law_configure by done. by rewrite land_u32 by apply implemented_range.
Qed.

Lemma write_base off v s : at_base base s -> at_base base (FUART_WRITEREG32 off v s).
Proof. done. Qed.

Lemma cfg_read off s :
  at_base base s -> config_register off = true ->
  exists s', FUART_READREG32 off s = (cfg s.(regs) off, s') /\ polled base s s'.
Proof.
  intros B Hc. destruct (status_read base off s B) as (v & s' & E & P & F).
  - unfold status_register. by rewrite Hc, orb_true_r.
  - exists s'. split; [|done]. by rewrite E, (law_config _ _ _ _ F Hc).
Qed.

Lemma polled_cfg s s' off : polled base s s' -> cfg s'.(regs) off = cfg s.(regs) off.
Proof. intros (h & -> & (_ & _ & C)). apply C. Qed.

(** Read, change, write. *)
Lemma update_cfg off (f : Z -> Z) s :
  at_base base s -> config_register off = true ->
  exists s', (let '(v, s) := FUART_READREG32 off s in FUART_WRITEREG32 off (f v) s) = s' /\
    at_base base s' /\ s'.(uart) = s.(uart) /\
    forall off', cfg s'.(regs) off' =
      if off' =? off then Z.land (f (cfg s.(regs) off)) (implemented off) else cfg s.(regs) off'.
Proof.
  intros B Hc. destruct (cfg_read off s B Hc) as (s1 & -> & P).
  eexists. split; [reflexivity|]. split; [by apply write_base, (polled_base _ _ _ P)|].
  split; [by destruct P as (h & -> & _)|]. intros off'.
  rewrite cfg_write by (done || by eapply polled_base). by rewrite (polled_cfg _ _ off' P).
Qed.

(** ** Options *)
Definition act (m : Mapping) (a : Datatypes.option bool) (s : state) : state :=
  match a with
  | Some true => set_mapping m s
  | Some false => clear_mapping m s
  | None => s
  end.

(** Bit [i] of register [off] belongs to the option. *)
Definition concerns (m : Mapping) (off i : Z) : bool :=
  (m.(register_offset) =? off) && Z.testbit m.(mask) i.

Definition entry_ok (m : Mapping) : Prop :=
  config_register m.(register_offset) = true /\
  Z.land m.(mask) (implemented m.(register_offset)) = m.(mask) /\ 0 <= m.(mask) < 2 ^ 32.

Lemma act_ok m a s :
  entry_ok m -> at_base base s ->
  at_base base (act m a s) /\ (act m a s).(uart) = s.(uart) /\
  forall off i, 0 <= i -> config_register off = true ->
    Z.testbit (cfg (act m a s).(regs) off) i =
      match a with
      | Some b => if concerns m off i then b else Z.testbit (cfg s.(regs) off) i
      | None => Z.testbit (cfg s.(regs) off) i
      end.
Proof.
  intros (Hc & Hm & Hr) B. destruct a as [[]|]; [| |done]; cbn [act].
  - destruct (update_cfg (register_offset m) (fun v => Z.lor v (mask m)) s B Hc)
      as (s' & E & B' & U & C). unfold set_mapping. rewrite E. split; [done|]. split; [done|].
    intros off i Hi Ho. rewrite C. unfold concerns. rewrite Z.eqb_sym.
    destruct (Z.eqb_spec (register_offset m) off) as [<-|]; cbn [andb]; [|done].
    rewrite (law_config_bits _ _ Ho), <-Hm. autorewrite with cbits.
    by destruct (Z.testbit (cfg (regs s) (register_offset m)) i), (Z.testbit (implemented (register_offset m)) i),
      (Z.testbit (mask m) i).
  - destruct (update_cfg (register_offset m) (fun v => Z.land v (lnotw 32 (mask m))) s B Hc)
      as (s' & E & B' & U & C). unfold clear_mapping. rewrite E. split; [done|]. split; [done|].
    intros off i Hi Ho. rewrite C. unfold concerns. rewrite Z.eqb_sym.
    destruct (Z.eqb_spec (register_offset m) off) as [<-|]; cbn [andb]; [|done].
    rewrite (law_config_bits _ _ Ho). autorewrite with cbits.
    destruct (Z.ltb_spec i 32).
    + by destruct (Z.testbit (cfg (regs s) (register_offset m)) i), (Z.testbit (implemented (register_offset m)) i),
        (Z.testbit (mask m) i).
    + rewrite (testbit_high 32 (implemented (register_offset m)) i) by (apply implemented_range || done).
      rewrite !andb_false_r. by destruct (Z.testbit (mask m) i).
Qed.

(** What the table does to a bit. *)
Definition bit_after (f : Mapping -> Datatypes.option bool) (l : list Mapping) (off i : Z)
    (old : bool) : bool :=
  fold_left (fun b m => match f m with
                        | Some v => if concerns m off i then v else b
                        | None => b
                        end) l old.

Lemma table_ok f l s :
  Forall entry_ok l -> at_base base s ->
  let s' := fold_left (fun s m => act m (f m) s) l s in
  at_base base s' /\ s'.(uart) = s.(uart) /\
  forall off i, 0 <= i -> config_register off = true ->
    Z.testbit (cfg s'.(regs) off) i = bit_after f l off i (Z.testbit (cfg s.(regs) off) i).
Proof.
  intros Hl. revert s. induction Hl as [|m l Hm _ IH]; intros s B; [done|].
  destruct (act_ok m (f m) s Hm B) as (B1 & U1 & C1).
  destruct (IH _ B1) as (B2 & U2 & C2). cbn [fold_left]. split; [done|]. split; [congruence|].
  intros off i Hi Ho. rewrite C2, C1 by done. done.
Qed.

Lemma option_table_ok : Forall entry_ok option_table.
Proof. repeat constructor; vm_compute; congruence. Qed.

Lemma bit_after_none f l off i b :
  Forall (fun m => concerns m off i = false \/ f m = None) l -> bit_after f l off i b = b.
Proof.
  unfold bit_after. revert b. induction 1 as [|m l Hm _ IH]; [done|]. cbn [fold_left].
  destruct Hm as [-> | ->]; [|done]. by destruct (f m).
Qed.

Lemma bit_after_some f l off i b v m :
  m ∈ l -> concerns m off i = true -> f m = Some v ->
  (forall m', m' ∈ l -> concerns m' off i = true -> f m' = Some v) ->
  bit_after f l off i b = v.
Proof.
  intros Hin Hm Hf Hu. revert b. induction l as [|m1 l IH] using rev_ind; intros b.
  { by apply not_elem_of_nil in Hin. }
  unfold bit_after in *. rewrite fold_left_app. cbn [fold_left].
  destruct (concerns m1 off i) eqn:E1.
  - rewrite (Hu m1); [done| |done]. apply elem_of_app. right. by apply list_elem_of_singleton.
  - apply elem_of_app in Hin as [Hin|Hin].
    + rewrite IH by (done || (intros m' Hm'; apply Hu; apply elem_of_app; by left)).
      by destruct (f m1).
    + apply list_elem_of_singleton in Hin as <-. congruence.
Qed.

(** No bit belongs to two options. *)
Definition apart (m m' : Mapping) : bool :=
  bool_decide (m = m') || negb (m.(register_offset) =? m'.(register_offset)) ||
  (Z.land m.(mask) m'.(mask) =? 0).

Lemma options_distinct m m' off i :
  m ∈ option_table -> m' ∈ option_table ->
  concerns m off i = true -> concerns m' off i = true -> m = m'.
Proof.
  assert (forallb (fun m => forallb (apart m) option_table) option_table = true) as Ht
    by (vm_compute; reflexivity).
  intros Hm Hm' [Ho Hb]%andb_true_iff [Ho' Hb']%andb_true_iff.
  rewrite forallb_forall in Ht. specialize (Ht m ltac:(by apply list_elem_of_In)).
  rewrite forallb_forall in Ht. specialize (Ht m' ltac:(by apply list_elem_of_In)).
  unfold apart in Ht. apply orb_true_iff in Ht as [Ht|Ht].
  - apply orb_true_iff in Ht as [Ht|Ht]; [by apply bool_decide_eq_true in Ht|].
    apply Z.eqb_eq in Ho, Ho'. apply negb_true_iff, Z.eqb_neq in Ht. congruence.
  - apply Z.eqb_eq in Ht. apply (f_equal (fun z => Z.testbit z i)) in Ht.
    by rewrite Z.land_spec, Hb, Hb', Z.testbit_0_l in Ht.
Qed.

(** ** The functions on options *)
Lemma fold_act f g l s :
  (forall m s, f s m = act m (g m) s) -> fold_left f l s = fold_left (fun s m => act m (g m) s) l s.
Proof.
  intros Hf. revert s. induction l as [|m l IH]; intros s; [done|]. cbn [fold_left].
  by rewrite Hf, IH.
Qed.

(** The bit of an option after the table has been gone through. *)
Lemma table_bit g s m off i v :
  at_base base s -> m ∈ option_table -> g m = Some v -> concerns m off i = true -> 0 <= i ->
  config_register off = true ->
  Z.testbit (cfg (fold_left (fun s m => act m (g m) s) option_table s).(regs) off) i = v.
Proof.
  intros B Hm Hg Hc Hi Ho. destruct (table_ok g option_table s option_table_ok B) as (_ & _ & C).
  rewrite C by done. apply (bit_after_some _ _ _ _ _ _ m Hm Hc Hg).
  intros m' Hm' Hc'. by rewrite (options_distinct m' m off i Hm' Hm Hc' Hc).
Qed.

(** All bits but those of the options the table is told to change. *)
Lemma table_frame g s off i :
  at_base base s -> 0 <= i -> config_register off = true ->
  (forall m, m ∈ option_table -> concerns m off i = false \/ g m = None) ->
  Z.testbit (cfg (fold_left (fun s m => act m (g m) s) option_table s).(regs) off) i =
    Z.testbit (cfg s.(regs) off) i.
Proof.
  intros B Hi Ho Hm. destruct (table_ok g option_table s option_table_ok B) as (_ & _ & C).
  rewrite C by done. apply bit_after_none, Forall_forall. intros m Hin.
  apply Hm. by apply list_elem_of_In.
Qed.

Definition chosen (options : Z) (m : Mapping) : bool := truth (Z.land options m.(option)).

Lemma set_specific_act options s :
  FPl011SetSpecificOptions options s =
    fold_left (fun s m => act m (if chosen options m then Some true else None) s) option_table s.
Proof. apply fold_act. intros m s1. unfold chosen. by destruct (truth _). Qed.

Lemma clear_specific_act options s :
  FPl011ClearSpecificOptions options s =
    fold_left (fun s m => act m (if chosen options m then Some false else None) s) option_table s.
Proof. apply fold_act. intros m s1. unfold chosen. by destruct (truth _). Qed.

Lemma specific_bit options s m off i b :
  at_base base s -> m ∈ option_table -> concerns m off i = true -> 0 <= i ->
  config_register off = true ->
  Z.testbit (cfg (fold_left (fun s m => act m (if chosen options m then Some b else None) s)
    option_table s).(regs) off) i =
  if chosen options m then b else Z.testbit (cfg s.(regs) off) i.
Proof.
  intros B Hm Hc Hi Ho. destruct (chosen options m) eqn:E.
  - apply (table_bit (fun m => if chosen options m then Some b else None) s m); try done.
    cbv beta. by rewrite E.
  - apply (table_frame (fun m => if chosen options m then Some b else None)); try done.
    intros m' Hm'. destruct (concerns m' off i) eqn:E'; [right|by left].
    by rewrite (options_distinct m' m off i Hm' Hm E' Hc), E.
Qed.

(** [FPl011SetOptions] turns every option of the table on or off as asked, and
    changes no other bit of the control registers; [FPl011SetSpecificOptions] and
    [FPl011ClearSpecificOptions] change the options they are given and no other. *)
Theorem FPl011SetOptions_correct options s off i :
  at_base base s -> ready s = true -> 0 <= i -> config_register off = true ->
  let bit s := Z.testbit (cfg s.(regs) off) i in
  (exists s', FPl011SetOptions options s = Ok s' /\
     (forall m, m ∈ option_table -> concerns m off i = true -> bit s' = chosen options m) /\
     ((forall m, m ∈ option_table -> concerns m off i = false) -> bit s' = bit s)) /\
  (forall m, m ∈ option_table -> concerns m off i = true ->
     bit (FPl011SetSpecificOptions options s) = (if chosen options m then true else bit s) /\
     bit (FPl011ClearSpecificOptions options s) = (if chosen options m then false else bit s)) /\
  ((forall m, m ∈ option_table -> concerns m off i = false) ->
     bit (FPl011SetSpecificOptions options s) = bit s /\
     bit (FPl011ClearSpecificOptions options s) = bit s).
Proof.
  intros B R Hi Ho. cbv zeta. unfold FPl011SetOptions. rewrite R.
  rewrite set_specific_act, clear_specific_act.
  rewrite (fold_act _ (fun m => Some (chosen options m)) option_table s)
    by (intros; unfold act, chosen; by destruct (truth _)).
  split; [eexists; split; [reflexivity|split]|split].
  - intros m Hm Hc. by apply (table_bit (fun m => Some (chosen options m)) s m off i _ B Hm eq_refl).
  - intros Hn. apply (table_frame (fun m => Some (chosen options m))); try done.
    intros m Hm. left. by apply Hn.
  - intros m Hm Hc. split; by apply specific_bit.
  - intros Hn. split; [apply (table_frame (fun m => if chosen options m then Some true else None))
      |apply (table_frame (fun m => if chosen options m then Some false else None))]; try done;
      intros m Hm; left; by apply Hn.
Qed.
(** ** The baud rate and the other registers *)
Lemma specific_cfg options off s :
  at_base base s -> config_register off = true ->
  (forall m, m ∈ option_table -> m.(register_offset) = off -> chosen options m = false) ->
  cfg (FPl011SetSpecificOptions options s).(regs) off = cfg s.(regs) off /\
  cfg (FPl011ClearSpecificOptions options s).(regs) off = cfg s.(regs) off.
Proof.
  intros B Ho Hn. rewrite set_specific_act, clear_specific_act.
  assert (forall b m, m ∈ option_table -> forall i, concerns m off i = false \/
    (if chosen options m then Some b else None : Datatypes.option bool) = None) as Hf.
  { intros b m Hm i. destruct (Z.eqb_spec (register_offset m) off) as [E|E].
    - right. by rewrite (Hn m Hm E).
    - left. unfold concerns. by rewrite (proj2 (Z.eqb_neq _ _) E). }
  split; apply Z.bits_inj'; intros i Hi.
  - apply (table_frame (fun m => if chosen options m then Some true else None)); try done.
    intros m Hm. by apply Hf.
  - apply (table_frame (fun m => if chosen options m then Some false else None)); try done.
    intros m Hm. by apply Hf.
Qed.

Lemma specific_uart options s :
  at_base base s ->
  (FPl011SetSpecificOptions options s).(uart) = s.(uart) /\
  (FPl011ClearSpecificOptions options s).(uart) = s.(uart).
Proof.
  intros B. rewrite set_specific_act, clear_specific_act.
  split; eapply table_ok; (apply option_table_ok || done).
Qed.

(** The registers the baud rate does not touch. *)
Definition not_control (off : Z) : Prop := config_register off = true /\ off <> FPL011CR_OFFSET.

Lemma rx_tx_options m :
  m ∈ option_table -> chosen (Z.lor FPL011_OPTION_RXEN FPL011_OPTION_TXEN) m = true ->
  m.(register_offset) = FPL011CR_OFFSET.
Proof.
  assert (forallb (fun m => negb (chosen (Z.lor FPL011_OPTION_RXEN FPL011_OPTION_TXEN) m) ||
    (m.(register_offset) =? FPL011CR_OFFSET)) option_table = true) as Ht
    by (vm_compute; reflexivity).
  intros Hm Hc. rewrite forallb_forall in Ht. specialize (Ht m ltac:(by apply list_elem_of_In)).
  rewrite Hc in Ht. by apply Z.eqb_eq.
Qed.

Lemma SetBaudRate_ok rate d f s :
  at_base base s -> u32 (rate * 2) <= s.(uart).(config).(ref_clock_hz) ->
  baud_divisors s.(uart).(config).(ref_clock_hz) rate = Ok (d, f) ->
  exists s', FPl011SetBaudRate rate s = Ok (FT_SUCCESS, s') /\ at_base base s' /\
    s'.(uart) = set_config (set_baudrate rate s.(uart).(config)) s.(uart) /\
    forall off, not_control off -> cfg s'.(regs) off = cfg s.(regs) off.
Proof.
  intros B Hg Hd. unfold FPl011SetBaudRate.
  destruct (Z.ltb_spec (ref_clock_hz (config (uart s))) (u32 (rate * 2))); [lia|].
  rewrite Hd. cbn [rbind]. set (o := Z.lor FPL011_OPTION_RXEN FPL011_OPTION_TXEN).
  destruct (specific_uart o s B) as [_ U1]. set (s1 := FPl011ClearSpecificOptions o s) in *.
  assert (at_base base s1) as B1 by (unfold at_base; by rewrite U1).
  set (s2 := FUART_WRITEREG32 FPL011FBRD_OFFSET f (FUART_WRITEREG32 FPL011IBRD_OFFSET d s1)).
  assert (at_base base s2) as B2 by done.
  destruct (specific_uart o s2 B2) as [U3 _]. change (uart s2) with (uart s1) in U3.
  eexists. split; [reflexivity|]. split; [unfold at_base; simpl; by rewrite U3, U1|].
  split; [simpl; by rewrite U3, U1|]. intros off [Hc Hn]. cbn [set_uart regs].
  assert (forall m, m ∈ option_table -> m.(register_offset) = off -> chosen o m = false) as Ho.
  { intros m Hm E. destruct (chosen o m) eqn:Ec; [|done]. by rewrite (rx_tx_options m Hm Ec) in E. }
  rewrite (proj1 (specific_cfg o off s2 B2 Hc Ho)).
  unfold s2, FUART_WRITEREG32. cbn [set_regs regs uart]. rewrite B1.
  rewrite law_divisor by (by right). rewrite law_divisor by (by left).
  apply (proj2 (specific_cfg o off s B Hc Ho)).
Qed.

(** ** The data format *)
Ltac closed_bits :=
  repeat match goal with
  | |- context [Z.testbit ?c ?k] =>
      let v := eval vm_compute in (Z.testbit c k) in
      match v with
      | true => change (Z.testbit c k) with true
      | false => change (Z.testbit c k) with false
      end
  end.

Definition format_ok (f : FPl011Format) : Prop :=
  0 <= f.(data_bits) < 2 ^ 2 /\ 0 <= f.(parity) < 2 ^ 3 /\ 0 <= f.(stopbits) < 2 ^ 1.

Lemma format_bits f r :
  format_ok f ->
  let b := Z.testbit (format_word f r) in
  b 0 = Z.testbit r 0 /\ b 1 = Z.testbit f.(parity) 0 /\
  b 2 = Z.testbit r 2 || Z.testbit f.(parity) 1 /\ b 3 = Z.testbit f.(stopbits) 0 /\
  b 4 = Z.testbit r 4 /\ b 5 = Z.testbit f.(data_bits) 0 /\ b 6 = Z.testbit f.(data_bits) 1 /\
  b 7 = Z.testbit r 7 || Z.testbit f.(parity) 2.
Proof.
  intros (D & P & S). cbv zeta. unfold format_word.
  assert (forall i, 2 <= i -> Z.testbit (data_bits f) i = false) as Hd by (intros; by eapply testbit_high).
  assert (forall i, 1 <= i -> Z.testbit (stopbits f) i = false) as Hs by (intros; by eapply testbit_high).
  unfold FPL011LCR_H_WLEN, FPL011LCR_H_WLEN_SHIFT, FPL011LCR_H_STP_MASK, FPL011LCR_H_STP_SHIFT,
    FPL011LCR_H_PARITY_MASK, FPL011LCR_H_PARITY_SHIFT, FPL011_FORMAT_EN_PARITY,
    FPL011_FORMAT_EVEN_PARITY, FPL011_FORMAT_EVEN_PARITY_SHIFT, FPL011_FORMAT_EN_STICK_PARITY,
    FPL011_FORMAT_EN_STICK_PARITY_SHIFT.
  split_and!; autorewrite with cbits; closed_bits;
    rewrite ?Z.testbit_neg_r by lia; rewrite ?Hd, ?Hs by lia; cbn;
    rewrite ?andb_true_r, ?andb_false_r, ?orb_false_r; try done.
Qed.
(** A number below [2^n] from its bits. *)
Lemma from_bits n x y :
  0 <= n -> 0 <= y < 2 ^ n -> (forall i, n <= i -> Z.testbit x i = false) ->
  (forall i, 0 <= i < n -> Z.testbit x i = Z.testbit y i) -> x = y.
Proof.
  intros Hn Hy Hx Hb. apply Z.bits_inj'. intros i Hi. destruct (Z.ltb_spec i n); [by apply Hb|].
  rewrite Hx by done. by rewrite (testbit_high n y i).
Qed.

(** The fields [FPl011GetDataFormat] takes out of the register [w] (which has only the
    implemented bits). *)
Lemma fields_read f r w :
  format_ok f -> (forall i, 0 <= i < 8 -> Z.testbit w i = Z.testbit (format_word f r) i) ->
  Z.shiftr (Z.land w FPL011LCR_H_WLEN) FPL011LCR_H_WLEN_SHIFT = f.(data_bits) /\
  Z.shiftr (Z.land w FPL011LCR_H_PARITY_MASK) FPL011LCR_H_PARITY_SHIFT = Z.land f.(parity) 1 /\
  u8 (Z.shiftr (Z.land w FPL011LCR_H_STP_MASK) FPL011LCR_H_STP_SHIFT) = f.(stopbits).
Proof.
  intros Hf Hw. destruct (format_bits f r Hf) as (_ & B1 & _ & B3 & _ & B5 & B6 & _).
  destruct Hf as (D & P & S).
  unfold FPL011LCR_H_WLEN, FPL011LCR_H_WLEN_SHIFT, FPL011LCR_H_STP_MASK, FPL011LCR_H_STP_SHIFT,
    FPL011LCR_H_PARITY_MASK, FPL011LCR_H_PARITY_SHIFT.
  assert (forall (c k n : Z), 0 <= k -> 0 <= n -> 0 <= c < 2 ^ (k + n) -> forall i, n <= i ->
    Z.testbit (Z.shiftr (Z.land w c) k) i = false) as Hh.
  { intros c k n Hk Hn Hc i Hi. autorewrite with cbits. rewrite (testbit_high (k + n) c) by lia.
    apply andb_false_r. }
  split; [|split].
  - apply (from_bits 2); [lia|done|by apply (Hh 96 5 2); zdec|].
    intros i Hi. assert (i = 0 \/ i = 1) as [-> | ->] by lia;
      rewrite Z.shiftr_spec, Z.land_spec by lia.
    + change (0 + 5) with 5. rewrite Hw, B5 by lia. closed_bits. by rewrite andb_true_r.
    + change (1 + 5) with 6. rewrite Hw, B6 by lia. closed_bits. by rewrite andb_true_r.
  - apply (from_bits 1); [lia|split; [apply Z.land_nonneg; by right|]|by apply (Hh 2 1 1); zdec|].
    { change (Z.land (parity f) 1) with (Z.land (parity f) (Z.ones 1)). rewrite Z.land_ones by lia. apply Z.mod_pos_bound. lia. }
    intros i Hi. assert (i = 0) as -> by lia. rewrite Z.shiftr_spec, !Z.land_spec by lia.
    change (0 + 1) with 1. rewrite Hw, B1 by lia. closed_bits. done.
  - rewrite wrap_small.
    + apply (from_bits 1); [lia|done|by apply (Hh 8 3 1); zdec|].
      intros i Hi. assert (i = 0) as -> by lia. rewrite Z.shiftr_spec, Z.land_spec by lia.
      change (0 + 3) with 3. rewrite Hw, B3 by lia. closed_bits. by rewrite andb_true_r.
    + split; [apply Z.shiftr_nonneg, Z.land_nonneg; lia|].
      apply (bits_range 8); [lia|apply Z.shiftr_nonneg, Z.land_nonneg; lia|].
      intros i Hi. apply (Hh 8 3 1); [zdec|zdec|zdec|lia].
Qed.

(** C13: A data format that has been set is read back, but for the kind of parity:
    [FPl011GetDataFormat] only tells whether there is any.  In the controller the
    even-parity and stick-parity bits are set when asked for and never cleared again,
    so that odd parity cannot follow even parity; the FIFO enable and the break bit
    stay as they are. *)
Theorem FPl011SetDataFormat_roundtrip f d fr s :
  at_base base s -> ready s = true -> format_ok f ->
  u32 (f.(f_baudrate) * 2) <= s.(uart).(config).(ref_clock_hz) ->
  baud_divisors s.(uart).(config).(ref_clock_hz) f.(f_baudrate) = Ok (d, fr) ->
  let lcr s i := Z.testbit (cfg s.(regs) FPL011LCR_H_OFFSET) i in
  exists s' s'', FPl011SetDataFormat f s = Ok (FT_SUCCESS, s') /\
    FPl011GetDataFormat s' =
      Ok (mkFormat f.(f_baudrate) f.(data_bits) (Z.land f.(parity) 1) f.(stopbits), s'') /\
    lcr s' 2 = lcr s 2 || Z.testbit f.(parity) 1 /\
    lcr s' 7 = lcr s 7 || Z.testbit f.(parity) 2 /\
    lcr s' 4 = lcr s 4 /\ lcr s' 0 = lcr s 0.
Proof.
  intros B R Hf Hg Hd lcr. unfold FPl011SetDataFormat. rewrite R.
  pose proof Hf as (D & P & S).
  destruct (Z.ltb_spec FPL011_FORMAT_WORDLENGTH_8BIT (data_bits f));
    [unfold FPL011_FORMAT_WORDLENGTH_8BIT in *; lia|].
  destruct (Z.ltb_spec FPL011_FORMAT_PARITY_MASK (parity f));
    [unfold FPL011_FORMAT_PARITY_MASK in *; lia|].
  destruct (Z.ltb_spec FPL011_FORMAT_PARITY_MASK (stopbits f));
    [unfold FPL011_FORMAT_PARITY_MASK in *; lia|]. cbn [orb].
  destruct (SetBaudRate_ok (f_baudrate f) d fr s B Hg Hd) as (s1 & -> & B1 & U1 & C1).
  cbn [rbind]. change (negb (FT_SUCCESS =? FT_SUCCESS)) with false. cbv iota.
  destruct (update_cfg FPL011LCR_H_OFFSET (format_word f) s1 B1 eq_refl) as (s2 & E2 & B2 & U2 & C2).
  assert (cfg (regs s2) FPL011LCR_H_OFFSET =
    Z.land (format_word f (cfg (regs s) FPL011LCR_H_OFFSET)) 0xff) as C.
  { rewrite C2. by rewrite C1. }
  assert (forall i, 0 <= i < 8 -> lcr s2 i =
    Z.testbit (format_word f (cfg (regs s) FPL011LCR_H_OFFSET)) i) as Hb.
  { intros i Hi. unfold lcr. rewrite C. change 255 with (Z.ones 8). autorewrite with cbits.
    destruct (Z.leb_spec 0 i), (Z.ltb_spec i 8); try lia. by rewrite andb_true_r. }
  destruct (cfg_read FPL011LCR_H_OFFSET s2 B2 eq_refl) as (s3 & E3 & P3).
  destruct (fields_read f _ _ Hf Hb) as (F1 & F2 & F3).
  destruct (format_bits f (cfg (regs s) FPL011LCR_H_OFFSET) Hf)
    as (G0 & _ & G2 & _ & G4 & _ & _ & G7).
  exists s2, s3. split.
  { destruct (FUART_READREG32 FPL011LCR_H_OFFSET s1) as [v s1']. by rewrite <-E2. }
  split.
  - unfold FPl011GetDataFormat. unfold ready in *. rewrite U2, U1. simpl is_ready. rewrite R, E3.
    rewrite F1, F2, F3. destruct P3 as (h & -> & _). simpl. by rewrite U2, U1.
  - rewrite !Hb by lia. by rewrite G0, G2, G4, G7.
Qed.

(** ** The operating mode *)
Lemma ProgramCtlReg_ok fuel v s s0 :
  at_base base s -> wait_until FUART_ISTRANSMITBUSY fuel s = Ok s0 ->
  exists s', FPl011ProgramCtlReg fuel v s = Ok s' /\ at_base base s' /\
    forall off, config_register off = true -> cfg s'.(regs) off =
      if off =? FPL011CR_OFFSET then
        Z.land (Z.lor (Z.land v (implemented off)) FPL011CR_UARTEN) (implemented off)
      else if off =? FPL011LCR_H_OFFSET then
        Z.land (Z.lor (Z.land (cfg s.(regs) off) (lnotw 32 FPL011LCR_H_FEN)) FPL011LCR_H_FEN)
          (implemented off)
      else cfg s.(regs) off.
Proof.
  intros B Hw. unfold FPl011ProgramCtlReg. rewrite Hw. cbn [rbind].
  destruct (wait_idle base fuel s s0 B Hw) as [P0 _]. pose proof (polled_base _ _ _ P0 B) as B0.
  destruct (update_cfg FPL011CR_OFFSET (fun v => Z.land v (lnotw 32 FPL011CR_UARTEN)) s0 B0 eq_refl)
    as (s1 & E1 & B1 & _ & C1).
  destruct (FUART_READREG32 FPL011CR_OFFSET s0) as [v0 s0']. 
  destruct (cfg_read FPL011LCR_H_OFFSET s1 B1 eq_refl) as (s2 & E2 & P2).
  rewrite E1, E2. pose proof (polled_base _ _ _ P2 B1) as B2.
  set (l := Z.land (cfg (regs s1) FPL011LCR_H_OFFSET) (lnotw 32 FPL011LCR_H_FEN)).
  set (s5 := FUART_WRITEREG32 FPL011LCR_H_OFFSET (Z.lor l FPL011LCR_H_FEN) _).
  assert (at_base base s5) as B5 by done.
  destruct (update_cfg FPL011CR_OFFSET (fun v => Z.lor v FPL011CR_UARTEN) s5 B5 eq_refl)
    as (s6 & E6 & B6 & _ & C6).
  destruct (FUART_READREG32 FPL011CR_OFFSET s5) as [v5 s5']. rewrite E6.
  exists s6. split; [done|]. split; [done|].
  intros off Ho. rewrite C6. unfold s5.
  rewrite !cfg_write by done. cbn [Z.eqb].
  change (FPL011CR_OFFSET =? FPL011LCR_H_OFFSET) with false.
  change (FPL011CR_OFFSET =? FPL011CR_OFFSET) with true. cbv iota.
  destruct (Z.eqb_spec off FPL011CR_OFFSET) as [->|N1]; [done|].
  destruct (Z.eqb_spec off FPL011LCR_H_OFFSET) as [->|N2].
  - unfold l. rewrite C1. change (FPL011LCR_H_OFFSET =? FPL011CR_OFFSET) with false. cbv iota.
    by rewrite (polled_cfg _ _ _ P0).
  - rewrite (polled_cfg _ _ off P2), C1. rewrite (proj2 (Z.eqb_neq _ _) N1).
    by rewrite (polled_cfg _ _ off P0).
Qed.
(** [FPl011SetOperMode] leaves the UART enabled, in loop-back mode exactly when
    asked to, with every other bit of the control register as it was; it also turns
    the FIFOs on, whatever the line control register said, and changes nothing else. *)
Theorem FPl011SetOperMode_correct fuel mode s :
  at_base base s -> ready s = true -> 0 <= mode <= 1 ->
  (forall s, at_base base s -> exists s', wait_until FUART_ISTRANSMITBUSY fuel s = Ok s') ->
  exists s', FPl011SetOperMode fuel mode s = Ok s' /\
    forall off i, config_register off = true -> 0 <= i ->
      let bit s := Z.testbit (cfg s.(regs) off) i in
      bit s' =
        if off =? FPL011CR_OFFSET then
          if i =? 0 then true else if i =? 7 then mode =? FPL011_OPER_MODE_LOCAL_LOOP else bit s
        else if off =? FPL011LCR_H_OFFSET then (i =? 4) || bit s
        else bit s.
Proof.
  intros B R Hm Hdr. unfold FPl011SetOperMode. rewrite R.
  destruct (Z.leb_spec mode FPL011_OPER_MODE_LOCAL_LOOP);
    [|unfold FPL011_OPER_MODE_LOCAL_LOOP in *; lia].
  destruct (cfg_read FPL011CR_OFFSET s B eq_refl) as (s1 & -> & P1).
  pose proof (polled_base _ _ _ P1 B) as B1. destruct (Hdr s1 B1) as [s0 Hw].
  set (v := if mode =? _ then _ else _).
  destruct (ProgramCtlReg_ok fuel v s1 s0 B1 Hw) as (s' & E & B' & C).
  exists s'. split; [exact E|]. intros off i Ho Hi. cbv zeta. rewrite C by done.
  rewrite (polled_cfg _ _ off P1).
  destruct (Z.eqb_spec off FPL011CR_OFFSET) as [->|N1].
  - assert (Z.testbit (cfg (regs s) FPL011CR_OFFSET) i =
      Z.testbit (cfg (regs s) FPL011CR_OFFSET) i && Z.testbit (implemented FPL011CR_OFFSET) i) as Hc
      by (rewrite <-Z.land_spec, <-law_config_bits; done).
    assert (Z.testbit v i = if i =? 7 then mode =? FPL011_OPER_MODE_LOCAL_LOOP
      else Z.testbit (cfg (regs s) FPL011CR_OFFSET) i) as Hv.
    { unfold v. change FPL011CR_LBE with (BIT 7). unfold FPL011_OPER_MODE_NORMAL,
        FPL011_OPER_MODE_LOCAL_LOOP, FPL011CR_MODE_NORMAL.
      assert (mode = 0 \/ mode = 1) as [-> | ->] by lia; cbn [Z.eqb Pos.eqb];
        autorewrite with cbits; destruct (Z.eqb_spec i 7) as [->|];
        rewrite ?andb_false_r, ?orb_false_r, ?orb_true_r; try done;
        cbn [negb]; rewrite ?andb_true_r; destruct (Z.ltb_spec i 32); rewrite ?andb_true_r; try done;
        rewrite Hc, (testbit_high 32 (implemented FPL011CR_OFFSET) i);
          (apply implemented_range || done || by rewrite !andb_false_r). }
    autorewrite with cbits. rewrite Hv. change FPL011CR_UARTEN with (BIT 0).
    rewrite BIT_testbit by lia. destruct (Z.eqb_spec i 0) as [->|]; [by rewrite !orb_true_r|].
    rewrite orb_false_r. destruct (Z.eqb_spec i 7) as [->|].
    + change (Z.testbit (implemented FPL011CR_OFFSET) 7) with true. by rewrite !andb_true_r.
    + rewrite Hc. by destruct (Z.testbit (cfg (regs s) _) i), (Z.testbit (implemented _) i).
  - destruct (Z.eqb_spec off FPL011LCR_H_OFFSET) as [->|N2]; [|done].
    assert (Z.testbit (cfg (regs s) FPL011LCR_H_OFFSET) i =
      Z.testbit (cfg (regs s) FPL011LCR_H_OFFSET) i && Z.testbit 0xff i) as Hc
      by (change 0xff with (implemented FPL011LCR_H_OFFSET);
          rewrite <-Z.land_spec, <-law_config_bits; done).
    change (implemented FPL011LCR_H_OFFSET) with 0xff. change FPL011LCR_H_FEN with (BIT 4).
    autorewrite with cbits. destruct (Z.eqb_spec i 4) as [->|]; [by rewrite !orb_true_r|].
    rewrite !orb_false_r. cbn [negb orb]. rewrite andb_true_r.
    change 255 with (Z.ones 8) in *. rewrite ones_testbit in * by lia. rewrite Hc.
    destruct (Z.leb_spec 0 i), (Z.ltb_spec i 8), (Z.ltb_spec i 32); try lia;
      by destruct (Z.testbit (cfg (regs s) _) i).
Qed.

(** Initialisation programs 8 data bits, one stop bit, no parity, the FIFOs and
    their levels, with the interrupts masked unless told otherwise; but a rate the
    clock cannot give is reported as success, with the instance not ready, so that the
    next call that needs it stops in an assertion. *)
Theorem FPl011CfgInitialize_correct c s :
  c.(base_address) = base ->
  (c.(ref_clock_hz) < u32 (c.(baudrate) * 2) ->
   exists s', FPl011CfgInitialize c s = Ok (FT_SUCCESS, s') /\ s'.(uart).(is_ready) = 0 /\
     forall fuel p len, FPl011Send fuel p len s' = Fault AssertFailed) /\
  (u32 (c.(baudrate) * 2) <= c.(ref_clock_hz) ->
   forall d f, baud_divisors c.(ref_clock_hz) c.(baudrate) = Ok (d, f) ->
   exists s', FPl011CfgInitialize c s = Ok (FT_SUCCESS, s') /\ ready s' = true /\
     s'.(uart).(send_buffer) = mkBuffer 0 0 0 /\ s'.(uart).(receive_buffer) = mkBuffer 0 0 0 /\
     cfg s'.(regs) FPL011LCR_H_OFFSET = 0x70 /\ cfg s'.(regs) FPL011IFLS_OFFSET = 9 /\
     cfg s'.(regs) FPL011IMSC_OFFSET =
       if Z.testbit c.(init_flg) 0 then cfg s.(regs) FPL011IMSC_OFFSET else 0).
Proof.
  intros Hb. unfold FPl011CfgInitialize. set (u := mkUart _ _ _ _ _ _). split.
  - intros Hr. unfold FPl011SetBaudRate. change (ref_clock_hz _) with (ref_clock_hz c).
    change (baudrate (mkConfig _ _ _ _ _ _)) with (baudrate c).
    destruct (Z.ltb_spec (ref_clock_hz c) (u32 (baudrate c * 2))); [|lia]. cbn [rbind].
    change (negb (FPL011_ERROR_PARAM =? FT_SUCCESS)) with true. cbv iota.
    eexists. split; [reflexivity|]. split; [done|]. intros fuel p len. unfold FPl011Send.
    by destruct (truth p).
  - intros Hr d f Hd. change (baudrate (mkConfig _ _ _ _ _ _)) with (baudrate c).
    destruct (SetBaudRate_ok (baudrate c) d f (set_uart u s)) as (s1 & -> & B1 & U1 & C1);
      [exact Hb|exact Hr|exact Hd|].
    cbn [rbind]. change (negb (FT_SUCCESS =? FT_SUCCESS)) with false. cbv iota.
    set (s2 := FUART_WRITEREG32 FPL011LCR_H_OFFSET _ s1).
    set (s3 := FUART_WRITEREG32 FPL011IFLS_OFFSET _ s2).
    assert (at_base base s2) as B2 by done. assert (at_base base s3) as B3 by done.
    assert (forall off, config_register off = true -> cfg (regs s3) off =
      if off =? FPL011IFLS_OFFSET then 9 else if off =? FPL011LCR_H_OFFSET then 0x70
      else cfg (regs s1) off) as C3.
    { intros off Ho. unfold s3. rewrite cfg_write by done. unfold s2. rewrite cfg_write by done.
      repeat case_match; done. }
    assert (ready s3 = true) as R3 by (unfold ready; simpl; by rewrite U1).
    assert (truth (Z.land (init_flg c) FPL011_INIT_NEED_NOT_CLEAN_ISR_MASK) =
      Z.testbit (init_flg c) 0) as ->.
    { unfold FPL011_INIT_NEED_NOT_CLEAN_ISR_MASK. change 1 with (Z.ones 1).
      rewrite Z.land_ones by lia. unfold truth. change (2 ^ 1) with 2.
      rewrite Zmod_odd, Z.bit0_odd. by destruct (Z.odd _). }
    destruct (Z.testbit (init_flg c) 0); cbn [negb]; eexists; (split; [reflexivity|]);
      (split; [exact R3|]); (split; [simpl; by rewrite U1|]); (split; [simpl; by rewrite U1|]).
    + rewrite !C3 by done. split; [done|]. split; [done|]. cbn. by rewrite C1.
    + rewrite !cfg_write by done. cbn [Z.eqb]. rewrite !C3 by done. done.
Qed.
End Config.

(** ** Witnesses *)
Import SimUart.

Lemma FPl011SetOptions_correct_witness :
  exists s', FPl011SetOptions FPL011_OPTION_FIFOEN driver = Ok s' /\
    Z.testbit (sim_cfg s'.(regs) FPL011LCR_H_OFFSET) 4 = true.
Proof.
  destruct (FPl011SetOptions_correct 0x2800c000 FPL011_OPTION_FIFOEN driver FPL011LCR_H_OFFSET 4)
    as ((s' & E & H & _) & _); try done.
  exists s'. split; [exact E|].
  apply (H (mkMapping FPL011_OPTION_FIFOEN FPL011LCR_H_OFFSET FPL011LCR_H_FEN)); [|done].
  apply list_elem_of_In. do 3 right. by left.
Defined.

Lemma FPl011SetDataFormat_roundtrip_witness :
  exists s' s'', FPl011SetDataFormat (mkFormat 115200 3 3 1) driver = Ok (FT_SUCCESS, s') /\
    FPl011GetDataFormat s' = Ok (mkFormat 115200 3 1 1, s'') /\
    Z.testbit (sim_cfg s'.(regs) FPL011LCR_H_OFFSET) 2 = true.
Proof.
  destruct (FPl011SetDataFormat_roundtrip 0x2800c000 (mkFormat 115200 3 3 1) 54 16 driver)
    as (s' & s'' & E & G & P & _); try done.
  exists s', s''. split; [exact E|]. split; [exact G|]. etransitivity; [exact P|reflexivity].
Defined.

Lemma FPl011SetOperMode_correct_witness :
  exists s', FPl011SetOperMode 1 1 driver = Ok s' /\
    Z.testbit (sim_cfg s'.(regs) FPL011CR_OFFSET) 7 = true.
Proof.
  destruct (FPl011SetOperMode_correct 0x2800c000 1 1 driver) as (s' & E & H); try done.
  - intros s B. by apply driver_transfer.
  - exists s'. split; [exact E|]. by apply (H FPL011CR_OFFSET 7).
Defined.

Lemma FPl011CfgInitialize_correct_witness :
  exists s', FPl011CfgInitialize (mkConfig 0 0x2800c000 1000000 115 600000 0) driver =
    Ok (FT_SUCCESS, s') /\ s'.(uart).(is_ready) = 0.
Proof.
  destruct (FPl011CfgInitialize_correct 0x2800c000 (mkConfig 0 0x2800c000 1000000 115 600000 0)
    driver eq_refl) as [H _].
  destruct H as (s' & E & R & _); [reflexivity|]. by exists s'.
Defined.
