(* ===== verification/Mmu.v ===== *)
(** The page tables of the AArch64 MMU driver:
    src/standalone/arch/armv8/aarch64/fmmu.c with the macros of fmmu.h, for each
    of the three page sizes.

    The array [xlat_tables] and its use counts are finite maps from index to
    value, 0 where nothing was stored (they are zero-initialised objects).  A
    pointer to an entry is its index in the array; the address the linker gave
    the array is a parameter, and a table address stored in a descriptor is
    turned back into an index when it is followed.  An access outside the array
    is undefined. *)
From S2P Require Import Prelude.
From stdpp Require Export gmap.
#[global] Open Scope Z_scope.

Class MmuConfig := {
  PAGE_SIZE_SHIFT : Z;
  CONFIG_MAX_XLAT_TABLES : Z;
  (** the address of [xlat_tables] *)
  xlat_base : Z;
  (** the width of physical addresses, fparameters.h of the SoC *)
  FCPU_CONFIG_ARM64_PA_BITS : Z
}.

(** [GENMASK_ULL] of common/fkernel.h. *)
Definition GENMASK_ULL (h l : Z) : Z :=
  Z.land (u64 (u64 (2 ^ 64 - 1 - Z.shiftl 1 l) + 1)) (Z.shiftr (2 ^ 64 - 1) (63 - h)).

Definition EBUSY : Z := 16.
Definition ENOMEM : Z := 12.

(** ** Region attributes *)
Definition MT_RW : Z := 8.
Definition MT_NS : Z := 16.
Definition MT_P_EXECUTE_NEVER : Z := 32.
Definition MT_U_EXECUTE_NEVER : Z := 64.
Definition MT_RW_AP_ELX : Z := 128.
Definition MT_NO_OVERWRITE : Z := 256.

Definition MT_DEVICE_NGNRNE : Z := 0.
Definition MT_DEVICE_NGNRE : Z := 1.
Definition MT_DEVICE_GRE : Z := 2.
Definition MT_NORMAL_NC : Z := 3.
Definition MT_NORMAL : Z := 4.
Definition MT_NORMAL_WT : Z := 5.

Definition MT_TYPE (attr : Z) : Z := Z.land attr 7.

(** ** Descriptors *)
Definition PTE_DESC_TYPE_MASK : Z := 3.
Definition PTE_BLOCK_DESC : Z := 1.
Definition PTE_TABLE_DESC : Z := 3.
Definition PTE_PAGE_DESC : Z := 3.
Definition PTE_INVALID_DESC : Z := 0.

Definition PTE_BLOCK_DESC_MEMTYPE (x : Z) : Z := u32 (Z.shiftl x 2).
Definition PTE_BLOCK_DESC_NS : Z := Z.shiftl 1 5.
Definition PTE_BLOCK_DESC_AP_ELx : Z := Z.shiftl 1 6.
Definition PTE_BLOCK_DESC_AP_EL_HIGHER : Z := 0.
Definition PTE_BLOCK_DESC_AP_RO : Z := Z.shiftl 1 7.
Definition PTE_BLOCK_DESC_AP_RW : Z := 0.
Definition PTE_BLOCK_DESC_OUTER_SHARE : Z := Z.shiftl 2 8.
Definition PTE_BLOCK_DESC_INNER_SHARE : Z := Z.shiftl 3 8.
Definition PTE_BLOCK_DESC_AF : Z := Z.shiftl 1 10.
Definition PTE_BLOCK_DESC_PXN : Z := Z.shiftl 1 53.
Definition PTE_BLOCK_DESC_UXN : Z := Z.shiftl 1 54.

Definition DESC_ATTRS_MASK : Z := Z.lor (GENMASK_ULL 63 51) (GENMASK_ULL 11 2).

(** ** Memory as the tables use it *)
Record ArmMmuPtables := mkPtables {
  xlat_tables : gmap Z Z;
  xlat_use_count : gmap Z Z;
  (** the index of the first entry of the base table *)
  base_xlat_table : Z
}.

Definition set_tables (m : gmap Z Z) (pt : ArmMmuPtables) : ArmMmuPtables :=
  mkPtables m pt.(xlat_use_count) pt.(base_xlat_table).
Definition set_counts (m : gmap Z Z) (pt : ArmMmuPtables) : ArmMmuPtables :=
  mkPtables pt.(xlat_tables) m pt.(base_xlat_table).
Definition set_base (b : Z) (pt : ArmMmuPtables) : ArmMmuPtables :=
  mkPtables pt.(xlat_tables) pt.(xlat_use_count) b.

Section Config.
Context `{MmuConfig}.

Definition CONFIG_MMU_PAGE_SIZE : Z := Z.shiftl 1 PAGE_SIZE_SHIFT.
Definition XLAT_LAST_LEVEL : Z := if CONFIG_MMU_PAGE_SIZE =? 65536 then 2 else 3.
Definition LN_XLAT_VA_SIZE_SHIFT : Z := PAGE_SIZE_SHIFT - 3.
Definition LEVEL_TO_VA_SIZE_SHIFT (level : Z) : Z :=
  PAGE_SIZE_SHIFT + LN_XLAT_VA_SIZE_SHIFT * (XLAT_LAST_LEVEL - level).
Definition LN_XLAT_NUM_ENTRIES : Z := Z.shiftl 1 PAGE_SIZE_SHIFT / 8.
Definition XLAT_TABLE_VA_IDX (va level : Z) : Z :=
  Z.land (Z.shiftr va (LEVEL_TO_VA_SIZE_SHIFT level)) (LN_XLAT_NUM_ENTRIES - 1).

Definition FCPU_CONFIG_ARM64_VA_BITS : Z := 48.
Definition GET_BASE_XLAT_LEVEL (va_bits : Z) : Z :=
  if CONFIG_MMU_PAGE_SIZE =? 4096 then
    if 39 <? va_bits then 0 else if 30 <? va_bits then 1 else if 21 <? va_bits then 2 else 3
  else if CONFIG_MMU_PAGE_SIZE =? 16384 then
    if 47 <? va_bits then 0 else if 36 <? va_bits then 1 else if 25 <? va_bits then 2 else 3
  else if 42 <? va_bits then 0 else if 29 <? va_bits then 1 else 2.
Definition BASE_XLAT_LEVEL : Z := GET_BASE_XLAT_LEVEL FCPU_CONFIG_ARM64_VA_BITS.

(** Reading and writing an entry. *)
Definition in_tables (i : Z) : bool :=
  (0 <=? i) && (i <? CONFIG_MAX_XLAT_TABLES * LN_XLAT_NUM_ENTRIES).
Definition entry (pt : ArmMmuPtables) (i : Z) : Z := default 0 (pt.(xlat_tables) !! i).
Definition get_pte (pt : ArmMmuPtables) (i : Z) : res Z :=
  if in_tables i then Ok (entry pt i) else Fault Undefined.
Definition set_pte (i v : Z) (pt : ArmMmuPtables) : res ArmMmuPtables :=
  if in_tables i then Ok (set_tables (<[i := v]> pt.(xlat_tables)) pt) else Fault Undefined.

(** The use count of a table. *)
Definition use_count (pt : ArmMmuPtables) (i : Z) : Z := default 0 (pt.(xlat_use_count) !! i).

(** The address of an entry, and the entry at an address. *)
Definition address_of (i : Z) : Z := xlat_base + 8 * i.
Definition index_of (a : Z) : Z :=
  if (a - xlat_base) mod 8 =? 0 then (a - xlat_base) / 8 else -1.

(** [for (i = 0U; i < CONFIG_MAX_XLAT_TABLES; i++)]; [n] tables are left.  The
    result is the index of the first entry of the table. *)
Fixpoint new_table_loop (n : nat) (i : Z) (pt : ArmMmuPtables) : option (Z * ArmMmuPtables) :=
  match n with
  | O => None
  | S n =>
      if use_count pt i =? 0 then
        Some (i * LN_XLAT_NUM_ENTRIES, set_counts (<[i := 1]> pt.(xlat_use_count)) pt)
      else new_table_loop n (i + 1) pt
  end.
Definition NewTable (pt : ArmMmuPtables) : option (Z * ArmMmuPtables) :=
  new_table_loop (Z.to_nat CONFIG_MAX_XLAT_TABLES) 0 pt.

Definition TableIndex (pte : Z) : res Z :=
  let i := u32 (pte / LN_XLAT_NUM_ENTRIES) in
  check! (i <? CONFIG_MAX_XLAT_TABLES) in Ok i.

Definition FreeTable (table : Z) (pt : ArmMmuPtables) : res ArmMmuPtables :=
  let! i := TableIndex table in
  check! (use_count pt i =? 2) in
  Ok (set_counts (<[i := 0]> pt.(xlat_use_count)) pt).

(** [level_size] is a [u32] here. *)
Definition FMmuBlcokAligned (desc level_size : Z) : bool :=
  let mask := GENMASK_ULL 47 PAGE_SIZE_SHIFT in
  Z.land (Z.land desc mask) (u32 (u32 level_size - 1)) =? 0.

Definition TableUsage (table adjustment : Z) (pt : ArmMmuPtables) : res (Z * ArmMmuPtables) :=
  let! i := TableIndex table in
  let c := u16 (use_count pt i + adjustment) in
  let pt := set_counts (<[i := c]> pt.(xlat_use_count)) pt in
  check! (0 <? c) in Ok (c, pt).

Definition IsTableUnused (table : Z) (pt : ArmMmuPtables) : res (bool * ArmMmuPtables) :=
  let! (c, pt) := TableUsage table 0 pt in Ok (c =? 2, pt).

Definition IsFreeDesc (desc : Z) : bool := Z.land desc PTE_DESC_TYPE_MASK =? PTE_INVALID_DESC.
Definition IsTableDesc (desc level : Z) : bool :=
  negb (level =? XLAT_LAST_LEVEL) && (Z.land desc PTE_DESC_TYPE_MASK =? PTE_TABLE_DESC).
Definition IsBlockDesc (desc : Z) : bool := Z.land desc PTE_DESC_TYPE_MASK =? PTE_BLOCK_DESC.
Definition PteDescTable (desc : Z) : Z := index_of (Z.land desc (GENMASK_ULL 47 PAGE_SIZE_SHIFT)).
Definition IsDescSuperset (desc1 desc2 level : Z) : bool :=
  let mask := Z.lor DESC_ATTRS_MASK (GENMASK_ULL 47 (LEVEL_TO_VA_SIZE_SHIFT level)) in
  Z.land desc1 mask =? Z.land desc2 mask.

Definition SetPteTableDesc (pte table : Z) (pt : ArmMmuPtables) : res ArmMmuPtables :=
  set_pte pte (Z.lor PTE_TABLE_DESC (address_of table)) pt.
Definition SetPteBlockDesc (pte desc level : Z) (pt : ArmMmuPtables) : res ArmMmuPtables :=
  let desc :=
    if truth desc then
      Z.lor desc (if level =? XLAT_LAST_LEVEL then PTE_PAGE_DESC else PTE_BLOCK_DESC)
    else desc in
  set_pte pte desc pt.

(** [for (i = 0U; i < LN_XLAT_NUM_ENTRIES; i++)]; [n] entries are left.  [i] is
    a [u32], and shifting it by 32 or more is undefined. *)
Fixpoint fill_table (n : nat) (i table desc stride_shift : Z) (pt : ArmMmuPtables)
    : res ArmMmuPtables :=
  match n with
  | O => Ok pt
  | S n =>
      if stride_shift <? 32 then
        let! pt := set_pte (table + i) (Z.lor desc (u32 (Z.shiftl i stride_shift))) pt in
        fill_table n (i + 1) table desc stride_shift pt
      else Fault Undefined
  end.

Definition ExpandToTable (pte level : Z) (pt : ArmMmuPtables)
    : res (option Z * ArmMmuPtables) :=
  check! (level <? XLAT_LAST_LEVEL) in
  match NewTable pt with
  | None => Ok (None, pt)
  | Some (table, pt) =>
      let! desc := get_pte pt pte in
      let! pt :=
        if negb (IsFreeDesc desc) then
          check! (IsBlockDesc desc) in
          let desc := if level + 1 =? XLAT_LAST_LEVEL then Z.lor desc PTE_PAGE_DESC else desc in
          let stride_shift := LEVEL_TO_VA_SIZE_SHIFT (level + 1) in
          let! pt := fill_table (Z.to_nat LN_XLAT_NUM_ENTRIES) 0 table desc stride_shift pt in
          let! (_, pt) := TableUsage table LN_XLAT_NUM_ENTRIES pt in Ok pt
        else
          let! (_, pt) := TableUsage pte 1 pt in Ok pt in
      let! pt := SetPteTableDesc pte table pt in
      let! (_, pt) := TableUsage table 1 pt in
      Ok (Some table, pt)
  end.

(** ** [SetMapping] *)

(** The variables of its loop; [ptes] is the array of entries visited. *)
Record cursor := mkCursor {
  virt : Z;
  size : Z;
  desc : Z;
  table : Z;
  level : Z;
  ptes : gmap Z Z
}.

(** "recursively free unused tables if any"; [n] levels are left. *)
Fixpoint free_unused (n : nat) (pte level : Z) (ptes : gmap Z Z) (pt : ArmMmuPtables)
    : res ArmMmuPtables :=
  match n with
  | O => Ok pt
  | S n =>
      let! (unused, pt) := IsTableUnused pte pt in
      if unused then
        let! pt := FreeTable pte pt in
        let level := level - 1 in
        let! pte := of_option Undefined (ptes !! level) in
        let! pt := SetPteBlockDesc pte 0 level pt in
        let! (_, pt) := TableUsage pte (-1) pt in
        free_unused n pte level ptes pt
      else Ok pt
  end.

(** [move_on]. *)
Definition move_on (level_size : Z) (c : cursor) (pt : ArmMmuPtables) : cursor :=
  mkCursor (u64 (c.(virt) + level_size)) (u64 (c.(size) - level_size))
    (if truth c.(desc) then u64 (c.(desc) + level_size) else c.(desc))
    pt.(base_xlat_table) BASE_XLAT_LEVEL c.(ptes).

(** One pass of the loop: either the loop goes on, or it is left with a status. *)
Definition map_step (may_overwrite : bool) (c : cursor) (pt : ArmMmuPtables)
    : res (cursor * ArmMmuPtables + Z * ArmMmuPtables) :=
  let '(mkCursor virt size desc table level ptes) := c in
  check! (level <=? XLAT_LAST_LEVEL) in
  let pte := table + XLAT_TABLE_VA_IDX virt level in
  let ptes := <[level := pte]> ptes in
  let! d := get_pte pt pte in
  if IsTableDesc d level then
    Ok (inl (mkCursor virt size desc (PteDescTable d) (level + 1) ptes, pt))
  else if negb may_overwrite && negb (IsFreeDesc d) then Ok (inr (- EBUSY, pt))
  else
    let level_size := u64 (Z.shiftl 1 (LEVEL_TO_VA_SIZE_SHIFT level)) in
    if IsDescSuperset d desc level then
      let rest := level_size - Z.land virt (level_size - 1) in
      let rest := if size <? rest then size else rest in
      Ok (inl (move_on rest (mkCursor virt size desc table level ptes) pt, pt))
    else if (size <? level_size) || truth (Z.land virt (level_size - 1)) ||
            negb (FMmuBlcokAligned desc level_size) then
      let! (t, pt) := ExpandToTable pte level pt in
      match t with
      | None => Ok (inr (- ENOMEM, pt))
      | Some t => Ok (inl (mkCursor virt size desc t (level + 1) ptes, pt))
      end
    else
      let! pt := if IsFreeDesc d then let! (_, pt) := TableUsage pte 1 pt in Ok pt else Ok pt in
      let! pt := if truth desc then Ok pt else let! (_, pt) := TableUsage pte (-1) pt in Ok pt in
      let! pt := SetPteBlockDesc pte desc level pt in
      let! pt := free_unused (Z.to_nat (level - BASE_XLAT_LEVEL)) pte level ptes pt in
      Ok (inl (move_on level_size (mkCursor virt size desc table level ptes) pt, pt)).

Fixpoint map_loop (fuel : nat) (may_overwrite : bool) (c : cursor) (pt : ArmMmuPtables)
    : res (Z * ArmMmuPtables) :=
  match fuel with
  | O => Fault OutOfFuel
  | S fuel =>
      if truth c.(size) then
        let! r := map_step may_overwrite c pt in
        match r with
        | inl (c, pt) => map_loop fuel may_overwrite c pt
        | inr r => Ok r
        end
      else Ok (0, pt)
  end.

Definition SetMapping (fuel : nat) (virt size desc : Z) (may_overwrite : bool)
    (pt : ArmMmuPtables) : res (Z * ArmMmuPtables) :=
  map_loop fuel may_overwrite
    (mkCursor virt size desc pt.(base_xlat_table) BASE_XLAT_LEVEL ∅) pt.

(** ** Regions *)
Definition GetRegionDesc (attrs : Z) : Z :=
  let mem_type := MT_TYPE attrs in
  let flag (b v w : Z) := if truth (Z.land attrs b) then v else w in
  let desc := flag MT_NS PTE_BLOCK_DESC_NS 0 in
  let desc := Z.lor desc (flag MT_RW PTE_BLOCK_DESC_AP_RW PTE_BLOCK_DESC_AP_RO) in
  let desc := Z.lor desc (flag MT_RW_AP_ELX PTE_BLOCK_DESC_AP_ELx PTE_BLOCK_DESC_AP_EL_HIGHER) in
  let desc := Z.lor desc PTE_BLOCK_DESC_AF in
  let desc := Z.lor desc (PTE_BLOCK_DESC_MEMTYPE mem_type) in
  if (mem_type =? MT_DEVICE_NGNRNE) || (mem_type =? MT_DEVICE_NGNRE) ||
     (mem_type =? MT_DEVICE_GRE) then
    let desc := Z.lor desc PTE_BLOCK_DESC_OUTER_SHARE in
    let desc := Z.lor desc PTE_BLOCK_DESC_PXN in
    Z.lor desc PTE_BLOCK_DESC_UXN
  else if (mem_type =? MT_NORMAL_NC) || (mem_type =? MT_NORMAL) then
    let desc :=
      if truth (Z.land attrs MT_RW) && truth (Z.land attrs MT_P_EXECUTE_NEVER) then
        Z.lor desc PTE_BLOCK_DESC_PXN
      else desc in
    let desc :=
      if (truth (Z.land attrs MT_RW) && truth (Z.land attrs MT_RW_AP_ELX)) ||
         truth (Z.land attrs MT_U_EXECUTE_NEVER) then
        Z.lor desc PTE_BLOCK_DESC_UXN
      else desc in
    if mem_type =? MT_NORMAL then Z.lor desc PTE_BLOCK_DESC_INNER_SHARE
    else Z.lor desc PTE_BLOCK_DESC_OUTER_SHARE
  else desc.

Definition page_aligned (a : Z) : bool := Z.land a (CONFIG_MMU_PAGE_SIZE - 1) =? 0.

Definition AddMap (fuel : nat) (phys virt size attrs : Z) (pt : ArmMmuPtables)
    : res (Z * ArmMmuPtables) :=
  let desc := GetRegionDesc attrs in
  let may_overwrite := Z.land attrs MT_NO_OVERWRITE =? 0 in
  check! page_aligned (Z.lor (Z.lor virt phys) size) in
  SetMapping fuel virt size (Z.lor desc phys) may_overwrite pt.

Definition RemoveMap (fuel : nat) (virt size : Z) (pt : ArmMmuPtables)
    : res (Z * ArmMmuPtables) :=
  check! page_aligned (Z.lor virt size) in
  SetMapping fuel virt size 0 true pt.

Record ArmMmuRegion := mkRegion { base_pa : Z; base_va : Z; region_size : Z; attrs : Z }.

(** The status of [AddMap] is not looked at. *)
Definition AddArmMmuRegion (fuel : nat) (r : ArmMmuRegion) (extra_flags : Z)
    (pt : ArmMmuPtables) : res ArmMmuPtables :=
  if truth r.(region_size) || truth r.(attrs) then
    let! (_, pt) := AddMap fuel r.(base_pa) r.(base_va) r.(region_size)
                      (Z.lor r.(attrs) extra_flags) pt in
    Ok pt
  else Ok pt.

Fixpoint add_regions (fuel : nat) (l : list ArmMmuRegion) (pt : ArmMmuPtables)
    : res ArmMmuPtables :=
  match l with
  | [] => Ok pt
  | r :: l => let! pt := AddArmMmuRegion fuel r 0 pt in add_regions fuel l pt
  end.

(** [mmu_config] and [code_mmu_config] are the region tables of the board and of
    the image.  Invalidating the TLB changes nothing in the model. *)
Definition SetupPageTables (fuel : nat) (mmu_config code_mmu_config : list ArmMmuRegion)
    (pt : ArmMmuPtables) : res ArmMmuPtables :=
  let max_va := fold_left (fun m r => Z.max m (u64 (r.(base_va) + r.(region_size)))) mmu_config 0 in
  let max_pa := fold_left (fun m r => Z.max m (u64 (r.(base_pa) + r.(region_size)))) mmu_config 0 in
  check! (max_va <=? Z.shiftl 1 FCPU_CONFIG_ARM64_VA_BITS) in
  check! (max_pa <=? Z.shiftl 1 FCPU_CONFIG_ARM64_PA_BITS) in
  let! pt := add_regions fuel mmu_config pt in
  add_regions fuel code_mmu_config pt.

(** ** Enabling the MMU *)
Definition TCR_PS_BITS : Z :=
  let b := FCPU_CONFIG_ARM64_PA_BITS in
  if b =? 48 then 5 else if b =? 44 then 4 else if b =? 42 then 3 else if b =? 40 then 2
  else if b =? 36 then 1 else 0.
Definition TCR_TGx_GRANULE : Z :=
  if CONFIG_MMU_PAGE_SIZE =? 4096 then Z.shiftl 0 14
  else if CONFIG_MMU_PAGE_SIZE =? 16384 then Z.shiftl 2 14 else Z.shiftl 1 14.
(** Inner shareable, outer and inner write-back write-allocate. *)
Definition TCR_GRANULE_CONFIG : Z :=
  Z.lor (Z.lor (Z.lor TCR_TGx_GRANULE (Z.shiftl 3 12)) (Z.shiftl 1 10)) (Z.shiftl 1 8).
Definition TCR_EPD1_DISABLE : Z := Z.shiftl 1 23.
Definition TCR_T0SZ (x : Z) : Z := u64 (64 - x).

Definition GetTcr (el : Z) : Z :=
  let tcr :=
    if el =? 1 then Z.lor (u64 (Z.shiftl TCR_PS_BITS 32)) TCR_EPD1_DISABLE
    else u64 (Z.shiftl TCR_PS_BITS 16) in
  Z.lor (Z.lor tcr (TCR_T0SZ FCPU_CONFIG_ARM64_VA_BITS)) TCR_GRANULE_CONFIG.

Definition MEMORY_ATTRIBUTES : Z :=
  Z.lor (Z.shiftl 4 (MT_DEVICE_NGNRE * 8))
    (Z.lor (Z.shiftl 12 (MT_DEVICE_GRE * 8))
      (Z.lor (Z.shiftl 68 (MT_NORMAL_NC * 8))
        (Z.lor (Z.shiftl 255 (MT_NORMAL * 8)) (Z.shiftl 187 (MT_NORMAL_WT * 8))))).

(** The system registers read and written. *)
Record SysRegs := mkSys {
  ID_AA64MMFR0_EL1 : Z;
  CurrentEL : Z;
  sctlr_el1 : Z;
  mair_el1 : Z;
  tcr_el1 : Z;
  ttbr0_el1 : Z
}.

Definition EnableMmuEl1 (pt : ArmMmuPtables) (s : SysRegs) : SysRegs :=
  mkSys s.(ID_AA64MMFR0_EL1) s.(CurrentEL) s.(sctlr_el1) MEMORY_ATTRIBUTES (GetTcr 1)
    (address_of pt.(base_xlat_table)).

(** The tests both [MmuInit] and [MmuInitSecondary] start with. *)
Definition granule_supported (val : Z) : bool :=
  if CONFIG_MMU_PAGE_SIZE =? 4096 then negb (truth (Z.land val (Z.shiftl 15 28)))
  else if CONFIG_MMU_PAGE_SIZE =? 16384 then truth (Z.land val (Z.shiftl 1 20))
  else negb (truth (Z.land val (Z.shiftl 15 24))).
Definition mmu_may_start (s : SysRegs) : bool :=
  granule_supported s.(ID_AA64MMFR0_EL1) &&
  (Z.land (Z.shiftr s.(CurrentEL) 2) 3 =? 1) &&
  (Z.land s.(sctlr_el1) 1 =? 0).

(** When no table is left the base table is NULL: its entries are out of reach. *)
Definition MmuInit (fuel : nat) (mmu_config code_mmu_config : list ArmMmuRegion) (s : SysRegs)
    (pt : ArmMmuPtables) : res (SysRegs * ArmMmuPtables) :=
  check! mmu_may_start s in
  let pt :=
    match NewTable pt with
    | Some (t, pt) => set_base t pt
    | None => set_base (index_of 0) pt
    end in
  let! pt := SetupPageTables fuel mmu_config code_mmu_config pt in
  Ok (EnableMmuEl1 pt s, pt).

Definition MmuInitSecondary (s : SysRegs) (pt : ArmMmuPtables) : res SysRegs :=
  check! mmu_may_start s in Ok (EnableMmuEl1 pt s).

(** ** The interface for mapping at run time *)
Definition ArchMemMap (fuel : nat) (virt phys size flags : Z) (pt : ArmMmuPtables)
    : res (Z * ArmMmuPtables) :=
  AddMap fuel phys virt size flags pt.

(** [rounddown] and [roundup] of common/fkernel.h on 64 bits; the sum in
    [roundup(size +, align)] is [size + + (align - 1)]. *)
Definition MemRegionAlign (addr size align : Z) : Z * Z * Z :=
  let aligned_addr := addr - addr mod align in
  let addr_offset := addr - aligned_addr in
  let aligned_size := u64 (u64 (size + (align - 1)) / align * align) in
  (addr_offset, aligned_addr, aligned_size).

Definition FSetTlbAttributes (fuel : nat) (addr size attrib : Z) (pt : ArmMmuPtables)
    : res ArmMmuPtables :=
  let '(_, aligned_phys, aligned_size) := MemRegionAlign addr size CONFIG_MMU_PAGE_SIZE in
  check! (negb (aligned_size =? 0)) in
  check! (aligned_phys <? u64 (aligned_phys + u64 (aligned_size - 1))) in
  let! (_, pt) := ArchMemMap fuel aligned_phys aligned_phys aligned_size attrib pt in Ok pt.

Definition FMmuMap (fuel : nat) (virt phys size flags : Z) (pt : ArmMmuPtables)
    : res (Z * ArmMmuPtables) :=
  check! page_aligned virt in
  check! page_aligned phys in
  check! page_aligned size in
  check! (0 <? size) in
  check! (virt <? Z.shiftl 1 FCPU_CONFIG_ARM64_VA_BITS) in
  check! (phys <? Z.shiftl 1 FCPU_CONFIG_ARM64_PA_BITS) in
  ArchMemMap fuel virt phys size flags pt.

Definition FMmuUnMap (fuel : nat) (virt size : Z) (pt : ArmMmuPtables)
    : res (Z * ArmMmuPtables) :=
  check! page_aligned virt in
  check! page_aligned size in
  check! (0 <? size) in
  check! (virt <? Z.shiftl 1 FCPU_CONFIG_ARM64_VA_BITS) in
  RemoveMap fuel virt size pt.
End Config.

(** 4K pages, [n] tables at address [base]; the granule the images are configured
    with. *)
Definition granule_4k (n base : Z) : MmuConfig :=
  {| PAGE_SIZE_SHIFT := 12; CONFIG_MAX_XLAT_TABLES := n; xlat_base := base;
     FCPU_CONFIG_ARM64_PA_BITS := 44 |}.
