(* ===== verification/MmuTables.v ===== *)
(** The page tables of Mmu.v as a translation: the walk the hardware makes, the
    well-formedness of the tables, and what writing one entry does to both. *)
From S2P Require Import Prelude Mmu.

#[local] Ltac Zify.zify_post_hook ::= Z.to_euclidean_division_equations.

(** What the configuration and the linker provide: one of the three granules,
    tables aligned to their size and within the 48 bits a descriptor holds. *)
Class MmuConfigOk `{MmuConfig} : Prop := {
  granule_ok : PAGE_SIZE_SHIFT = 12 \/ PAGE_SIZE_SHIFT = 14 \/ PAGE_SIZE_SHIFT = 16;
  tables_ok : 0 < CONFIG_MAX_XLAT_TABLES <= 65536;
  base_ok : 0 <= xlat_base /\ xlat_base mod 2 ^ PAGE_SIZE_SHIFT = 0;
  base_fits : xlat_base + 8 * (CONFIG_MAX_XLAT_TABLES * LN_XLAT_NUM_ENTRIES) <= 2 ^ 48
}.

(** ** Masks *)
Lemma GENMASK_ULL_testbit h l i :
  0 <= l <= h -> h < 64 -> 0 <= i ->
  Z.testbit (GENMASK_ULL h l) i = (l <=? i) && (i <=? h).
Proof.
  intros Hl Hh Hi. unfold GENMASK_ULL.
  assert (0 < 2 ^ l) by (apply Z.pow_pos_nonneg; lia).
  assert (2 ^ l <= 2 ^ 63) by (apply Z.pow_le_mono_r; lia).
  assert (u64 (u64 (2 ^ 64 - 1 - Z.shiftl 1 l) + 1) = Z.shiftl (Z.ones (64 - l)) l) as ->.
  { rewrite Z.shiftl_1_l, wrap_add_l by lia.
    rewrite Z.shiftl_mul_pow2, Z.ones_equiv, Z.mul_pred_l, <-Z.pow_add_r by lia.
    replace (64 - l + l) with 64 by lia. rewrite <-(wrap_small 64 (2 ^ 64 - 2 ^ l)) by lia.
    f_equal. lia. }
  change (2 ^ 64 - 1) with (Z.ones 64). rewrite Z.land_spec, Z.shiftl_spec, Z.shiftr_spec by done.
  destruct (Z.leb_spec l i).
  - rewrite !ones_testbit by lia. split_cmp; (done || lia).
  - by rewrite Z.testbit_neg_r by lia.
Qed.

(** Masking by [GENMASK_ULL h l] keeps the bits from [l] to [h]. *)
Lemma land_GENMASK z h l :
  0 <= z < 2 ^ (h + 1) -> 0 <= l <= h -> h < 64 ->
  Z.land z (GENMASK_ULL h l) = z - z mod 2 ^ l.
Proof.
  intros Hz Hl Hh.
  rewrite Z.mod_eq by (apply Z.pow_nonzero; lia).
  replace (z - (z - 2 ^ l * (z / 2 ^ l))) with (Z.shiftl (Z.shiftr z l) l)
    by (rewrite Z.shiftl_mul_pow2, Z.shiftr_div_pow2 by lia; lia).
  bitwise i Hi. rewrite GENMASK_ULL_testbit by lia.
  destruct (Z.leb_spec l i).
  - rewrite Z.shiftr_spec by lia. replace (i - l + l) with i by lia.
    destruct (Z.leb_spec i h); [by rewrite andb_true_r|].
    rewrite (testbit_high (h + 1) z) by lia. done.
  - rewrite andb_false_r, Z.testbit_neg_r by lia. done.
Qed.

Section Granule.
Context `{MmuConfigOk}.

Definition LN : Z := LN_XLAT_NUM_ENTRIES.
Definition LAST : Z := XLAT_LAST_LEVEL.

(** The bytes an entry of level [l] maps. *)
Definition span (l : Z) : Z := 2 ^ LEVEL_TO_VA_SIZE_SHIFT l.

Lemma LAST_cases : LAST = 2 \/ LAST = 3.
Proof.
  unfold LAST, XLAT_LAST_LEVEL. destruct (_ =? _); auto.
Qed.

Lemma LN_pow : LN = 2 ^ (PAGE_SIZE_SHIFT - 3).
Proof.
  unfold LN, LN_XLAT_NUM_ENTRIES.
  destruct granule_ok as [-> | [-> | ->]]; reflexivity.
Qed.

Lemma LN_range : 512 <= LN <= 8192.
Proof. rewrite LN_pow. destruct granule_ok as [-> | [-> | ->]]; cbn; lia. Qed.

Lemma shift_succ l :
  LEVEL_TO_VA_SIZE_SHIFT l = LEVEL_TO_VA_SIZE_SHIFT (l + 1) + (PAGE_SIZE_SHIFT - 3).
Proof. unfold LEVEL_TO_VA_SIZE_SHIFT, LN_XLAT_VA_SIZE_SHIFT. lia. Qed.

Lemma shift_ge l : l <= LAST -> PAGE_SIZE_SHIFT <= LEVEL_TO_VA_SIZE_SHIFT l.
Proof.
  unfold LAST, LEVEL_TO_VA_SIZE_SHIFT, LN_XLAT_VA_SIZE_SHIFT. destruct granule_ok as [-> | [-> | ->]]; lia.
Qed.

Lemma page_shift_pos : 12 <= PAGE_SIZE_SHIFT <= 16.
Proof. destruct granule_ok as [-> | [-> | ->]]; lia. Qed.

Lemma span_pos l : l <= LAST -> 0 < span l.
Proof. intros. apply Z.pow_pos_nonneg; pose proof (shift_ge l); pose proof page_shift_pos; lia. Qed.

Lemma span_succ l : l < LAST -> span l = LN * span (l + 1).
Proof.
  intros Hl. unfold span. rewrite LN_pow, <-Z.pow_add_r; pose proof page_shift_pos.
  - f_equal. rewrite (shift_succ l). lia.
  - lia.
  - pose proof (shift_ge (l + 1)). lia.
Qed.

Lemma span_LAST : span LAST = 2 ^ PAGE_SIZE_SHIFT.
Proof. unfold span, LAST, LEVEL_TO_VA_SIZE_SHIFT. f_equal. lia. Qed.

Lemma span_page l : l <= LAST -> span l mod 2 ^ PAGE_SIZE_SHIFT = 0.
Proof.
  intros Hl. pose proof (shift_ge l Hl). pose proof page_shift_pos. unfold span.
  replace (LEVEL_TO_VA_SIZE_SHIFT l) with (LEVEL_TO_VA_SIZE_SHIFT l - PAGE_SIZE_SHIFT + PAGE_SIZE_SHIFT) by lia.
  rewrite Z.pow_add_r by lia. apply Z_mod_mult.
Qed.

(** The whole 48-bit space is covered from the base level, 0, on. *)
Lemma base_level : BASE_XLAT_LEVEL = 0.
Proof.
  unfold BASE_XLAT_LEVEL, GET_BASE_XLAT_LEVEL, CONFIG_MMU_PAGE_SIZE.
  destruct granule_ok as [-> | [-> | ->]]; reflexivity.
Qed.

Lemma base_span : 2 ^ 48 <= LN * span 0.
Proof.
  rewrite LN_pow. unfold span, LEVEL_TO_VA_SIZE_SHIFT, LN_XLAT_VA_SIZE_SHIFT, XLAT_LAST_LEVEL, CONFIG_MMU_PAGE_SIZE.
  destruct granule_ok as [-> | [-> | ->]]; vm_compute; discriminate.
Qed.

(** An entry of level [l] may map memory itself where the architecture has blocks
    of that size: 1G and 2M, 32M, or 512M. *)
Definition block_allowed (l : Z) : bool := LEVEL_TO_VA_SIZE_SHIFT l <=? 30.

Lemma block_span l : 0 <= l <= LAST -> block_allowed l = true -> span l <= 2 ^ 30.
Proof.
  unfold block_allowed, span. intros Hl Hb%Z.leb_le. by apply Z.pow_le_mono_r.
Qed.

Lemma block_divides l : l <= LAST -> block_allowed l = true -> 2 ^ 30 mod span l = 0.
Proof.
  unfold block_allowed, span. intros Hl Hb%Z.leb_le. pose proof (shift_ge l Hl). pose proof page_shift_pos.
  replace 30 with (30 - LEVEL_TO_VA_SIZE_SHIFT l + LEVEL_TO_VA_SIZE_SHIFT l) by lia.
  rewrite Z.pow_add_r by lia. apply Z_mod_mult.
Qed.

Lemma LAST_allowed : block_allowed LAST = true.
Proof.
  unfold block_allowed. apply Z.leb_le. unfold LAST, LEVEL_TO_VA_SIZE_SHIFT.
  pose proof page_shift_pos. lia.
Qed.

(** ** Slots

    The address [va] goes through entry [slot l va mod LN] of a table of level
    [l]; [slot l va / LN] tells which table of that level it is. *)
Definition slot (l va : Z) : Z := va / span l.

Lemma va_index va l :
  l <= LAST -> XLAT_TABLE_VA_IDX va l = slot l va mod LN.
Proof.
  intros Hl. pose proof (shift_ge l Hl). pose proof page_shift_pos.
  unfold XLAT_TABLE_VA_IDX, slot, span. fold LN. rewrite LN_pow.
  replace (2 ^ (PAGE_SIZE_SHIFT - 3) - 1) with (Z.ones (PAGE_SIZE_SHIFT - 3)).
  - rewrite Z.land_ones, Z.shiftr_div_pow2; lia.
  - rewrite Z.ones_equiv. lia.
Qed.

Lemma slot_up l va : l < LAST -> slot l va = slot (l + 1) va / LN.
Proof.
  intros Hl. unfold slot. rewrite (span_succ l Hl), Z.mul_comm.
  rewrite Z.div_div; [done| |]; pose proof LN_range; pose proof (span_pos (l + 1)); lia.
Qed.

Lemma slot_base va : 0 <= va < 2 ^ 48 -> slot 0 va / LN = 0.
Proof.
  intros Hva. unfold slot. pose proof base_span. pose proof LN_range. pose proof (span_pos 0).
  pose proof LAST_cases. rewrite Z.div_div by lia. apply Z.div_small. lia.
Qed.

Lemma slot_range l va q : l <= LAST -> slot l va = q <-> q * span l <= va < (q + 1) * span l.
Proof.
  intros Hl. pose proof (span_pos l Hl). unfold slot. split; intros Hq.
  - subst q. pose proof (Z.div_mod va (span l)). pose proof (Z.mod_pos_bound va (span l)). nia.
  - symmetry. apply Z.div_unique with (va - q * span l); lia.
Qed.

(** ** Descriptors

    The attribute bits, with the access flag; the address of a page; and the
    descriptors made of them. *)
Definition attrs_ok (a : Z) : Prop :=
  0 <= a < 2 ^ 64 /\ Z.land a DESC_ATTRS_MASK = a /\ Z.testbit a 10 = true.
Definition page_addr (pa : Z) : Prop := 0 <= pa < 2 ^ 48 /\ pa mod 2 ^ PAGE_SIZE_SHIFT = 0.
Definition leaf (a pa ty : Z) : Z := Z.lor (Z.lor a pa) ty.
Definition link (t : Z) : Z := Z.lor PTE_TABLE_DESC (address_of (t * LN)).

Definition leaf_type (l : Z) : Z := if l =? LAST then PTE_PAGE_DESC else PTE_BLOCK_DESC.

Lemma attrs_mask_testbit i :
  0 <= i -> Z.testbit DESC_ATTRS_MASK i = ((51 <=? i) && (i <=? 63)) || ((2 <=? i) && (i <=? 11)).
Proof.
  intros Hi. unfold DESC_ATTRS_MASK. rewrite Z.lor_spec, !GENMASK_ULL_testbit; (done || lia).
Qed.

Lemma attrs_testbit a i :
  attrs_ok a -> 0 <= i ->
  Z.testbit a i = Z.testbit a i && (((51 <=? i) && (i <=? 63)) || ((2 <=? i) && (i <=? 11))).
Proof.
  intros (_ & Ha & _) Hi. rewrite <-(attrs_mask_testbit i Hi), <-Z.land_spec. by rewrite Ha.
Qed.

Lemma aligned_testbit w pa i :
  0 <= w -> pa mod 2 ^ w = 0 -> i < w -> Z.testbit pa i = false.
Proof.
  intros Hw Hpa Hi. destruct (Z.ltb_spec i 0); [by apply Z.testbit_neg_r|].
  rewrite <-(Z.mod_pow2_bits_low pa w i), Hpa by lia. apply Z.testbit_0_l.
Qed.

Lemma page_testbit pa i :
  page_addr pa -> 0 <= i -> Z.testbit pa i = Z.testbit pa i && ((12 <=? i) && (i <? 48)).
Proof.
  intros [Hr Ha] Hi. pose proof page_shift_pos.
  destruct (Z.leb_spec 12 i); cbn [andb].
  - destruct (Z.ltb_spec i 48); [by rewrite andb_true_r|].
    by rewrite (testbit_high 48 pa) by lia.
  - rewrite (aligned_testbit PAGE_SIZE_SHIFT pa i) by lia. done.
Qed.

Lemma type_testbit ty i : 0 <= ty < 4 -> 0 <= i -> Z.testbit ty i = Z.testbit ty i && (i <? 2).
Proof.
  intros Ht Hi. destruct (Z.ltb_spec i 2); [by rewrite andb_true_r|].
  by rewrite (testbit_high 2 ty) by lia.
Qed.

(** The bits of a leaf, field by field. *)
Lemma leaf_testbit a pa ty i :
  attrs_ok a -> page_addr pa -> 0 <= ty < 4 -> 0 <= i ->
  Z.testbit (leaf a pa ty) i =
    (Z.testbit a i && (((51 <=? i) && (i <=? 63)) || ((2 <=? i) && (i <=? 11)))) ||
    (Z.testbit pa i && ((12 <=? i) && (i <? 48))) || (Z.testbit ty i && (i <? 2)).
Proof.
  intros Ha Hpa Hty Hi. unfold leaf. rewrite !Z.lor_spec.
  rewrite <-(attrs_testbit a i), <-(page_testbit pa i), <-(type_testbit ty i); done.
Qed.

Section Fields.
Context (a pa ty : Z) (Ha : attrs_ok a) (Hpa : page_addr pa) (Hty : 0 <= ty < 4).

Lemma leaf_land_type : Z.land (leaf a pa ty) PTE_DESC_TYPE_MASK = ty.
Proof.
  change PTE_DESC_TYPE_MASK with (Z.ones 2). bitwise i Hi.
  rewrite leaf_testbit by done. rewrite (type_testbit ty i) by done.
  rewrite ?ones_testbit by lia.
  split_cmp; try lia; cbn; rewrite ?andb_false_r, ?andb_true_r, ?orb_false_r; done.
Qed.

Lemma leaf_land_attrs : Z.land (leaf a pa ty) DESC_ATTRS_MASK = a.
Proof.
  bitwise i Hi. rewrite leaf_testbit, attrs_mask_testbit by done. rewrite (attrs_testbit a i) by done.
  split_cmp; try lia; cbn; rewrite ?andb_false_r, ?andb_true_r, ?orb_false_r; done.
Qed.

Lemma leaf_land_addr k :
  12 <= k <= 47 -> Z.land (leaf a pa ty) (GENMASK_ULL 47 k) = pa - pa mod 2 ^ k.
Proof.
  intros Hk. rewrite <-(land_GENMASK pa 47 k) by (destruct Hpa; lia).
  bitwise i Hi. rewrite leaf_testbit, GENMASK_ULL_testbit by (done || lia).
  rewrite (page_testbit pa i) by done.
  split_cmp; try lia; cbn; rewrite ?andb_false_r, ?andb_true_r, ?orb_false_r; done.
Qed.

Lemma leaf_nonzero : leaf a pa ty <> 0.
Proof.
  intros E. assert (Z.testbit (leaf a pa ty) 10 = false) as Hb by (rewrite E; apply Z.testbit_0_l).
  rewrite leaf_testbit in Hb by (done || lia). destruct Ha as (_ & _ & H10).
  by rewrite H10 in Hb.
Qed.

(** Adding to the address keeps the other fields. *)
Lemma leaf_lor_addr x :
  page_addr x -> (forall i, 0 <= i -> Z.testbit pa i && Z.testbit x i = false) ->
  Z.lor (leaf a pa ty) x = leaf a (pa + x) ty.
Proof.
  intros Hx Hd. rewrite <-(lor_disjoint pa x) by done. unfold leaf.
  bitwise i Hi. btauto.
Qed.

Lemma leaf_lor_type t : Z.lor (leaf a pa ty) t = leaf a pa (Z.lor ty t).
Proof. unfold leaf. by rewrite <-!Z.lor_assoc. Qed.
End Fields.

Lemma attrs_plus_addr a pa : attrs_ok a -> page_addr pa -> Z.lor a pa = a + pa.
Proof.
  intros Ha Hpa. apply lor_disjoint. intros i Hi.
  rewrite (attrs_testbit a i), (page_testbit pa i) by done.
  split_cmp; try lia; cbn; rewrite ?andb_false_r, ?andb_false_l; done.
Qed.

Lemma leaf_0 a pa : leaf a pa 0 = Z.lor a pa.
Proof. apply Z.lor_0_r. Qed.

(** The comparison of [IsDescSuperset] by fields. *)
Lemma superset_leaf a pa ty a' pa' ty' l :
  attrs_ok a -> page_addr pa -> 0 <= ty < 4 -> attrs_ok a' -> page_addr pa' -> 0 <= ty' < 4 ->
  0 <= l <= LAST -> LEVEL_TO_VA_SIZE_SHIFT l <= 47 ->
  IsDescSuperset (leaf a pa ty) (leaf a' pa' ty') l = true ->
  a = a' /\ pa - pa mod span l = pa' - pa' mod span l.
Proof.
  intros Ha Hpa Hty Ha' Hpa' Hty' Hl Hs. unfold IsDescSuperset.
  intros E%Z.eqb_eq. pose proof (shift_ge l). pose proof page_shift_pos.
  set (k := LEVEL_TO_VA_SIZE_SHIFT l) in *. set (m := Z.lor DESC_ATTRS_MASK (GENMASK_ULL 47 k)) in *.
  assert (forall n x y, Z.land m n = n -> Z.land x m = Z.land y m -> Z.land x n = Z.land y n) as Hm.
  { intros n x y Hn Hxy. by rewrite <-Hn, !Z.land_assoc, Hxy. }
  assert (forall p q, Z.land (Z.lor p q) p = p) as Hlor.
  { intros p q. bitwise i Hi. btauto. }
  split.
  - rewrite <-(leaf_land_attrs a pa ty), <-(leaf_land_attrs a' pa' ty') by done.
    apply Hm; [apply Hlor|done].
  - change (span l) with (2 ^ k).
    rewrite <-(leaf_land_addr a pa ty Ha Hpa Hty k), <-(leaf_land_addr a' pa' ty' Ha' Hpa' Hty' k) by lia.
    apply Hm; [|done]. unfold m. rewrite Z.lor_comm. apply Hlor.
Qed.

(** ** Table links *)
Definition table_ok (t : Z) : Prop := 0 <= t < CONFIG_MAX_XLAT_TABLES.

Lemma address_of_table t :
  table_ok t -> page_addr (address_of (t * LN)).
Proof.
  intros Ht. unfold address_of. destruct base_ok as [Hb Ha]. pose proof base_fits as Hf. fold LN in Hf.
  pose proof LN_range. pose proof page_shift_pos. split; [unfold table_ok in Ht; nia|].
  replace (8 * (t * LN)) with (t * 2 ^ PAGE_SIZE_SHIFT).
  - rewrite Z.add_mod, Z_mod_mult, Ha by (apply Z.pow_nonzero; lia). apply Z.mod_0_l.
    apply Z.pow_nonzero; lia.
  - rewrite LN_pow. replace PAGE_SIZE_SHIFT with (PAGE_SIZE_SHIFT - 3 + 3) at 1 by lia.
    rewrite Z.pow_add_r by lia. lia.
Qed.

Lemma link_type t : table_ok t -> Z.land (link t) PTE_DESC_TYPE_MASK = PTE_TABLE_DESC.
Proof.
  intros Ht. pose proof (address_of_table t Ht) as Ha. unfold link.
  change PTE_DESC_TYPE_MASK with (Z.ones 2). change PTE_TABLE_DESC with (Z.ones 2).
  bitwise i Hi. rewrite (page_testbit _ i) by done.
  split_cmp; try lia; cbn; rewrite ?andb_false_r, ?andb_true_r, ?orb_false_r; done.
Qed.

Lemma link_target t : table_ok t -> PteDescTable (link t) = t * LN.
Proof.
  intros Ht. pose proof (address_of_table t Ht) as Ha. pose proof page_shift_pos. unfold PteDescTable, link.
  replace (Z.land _ _) with (address_of (t * LN)).
  - unfold index_of, address_of. replace (xlat_base + 8 * (t * LN) - xlat_base) with ((t * LN) * 8) by lia.
    rewrite Z_mod_mult, Z.eqb_refl. apply Z.div_mul. done.
  - transitivity (address_of (t * LN) - address_of (t * LN) mod 2 ^ PAGE_SIZE_SHIFT).
    + destruct Ha as [_ ->]. lia.
    + rewrite <-(land_GENMASK _ 47) by (destruct Ha; lia).
      change PTE_TABLE_DESC with (Z.ones 2). bitwise i Hi.
      rewrite GENMASK_ULL_testbit, ?ones_testbit by lia.
      split_cmp; try lia; cbn; rewrite ?andb_false_r, ?andb_true_r, ?orb_false_r; done.
Qed.

Lemma link_nonzero t : table_ok t -> link t <> 0.
Proof. intros Ht E. pose proof (link_type t Ht) as Hl. rewrite E in Hl. done. Qed.

(** ** The walk

    What the hardware makes of a virtual address: the physical address and the
    attributes, or nothing when it faults.  A block descriptor where the
    architecture has no blocks is a fault. *)
Definition decode (d l va : Z) : option (Z * Z) :=
  if (Z.land d PTE_DESC_TYPE_MASK =? leaf_type l) && block_allowed l then
    Some (Z.land d (GENMASK_ULL 47 (LEVEL_TO_VA_SIZE_SHIFT l)) + va mod span l,
          Z.land d DESC_ATTRS_MASK)
  else None.

Fixpoint walk (n : nat) (pt : ArmMmuPtables) (table l va : Z) : option (Z * Z) :=
  let d := entry pt (table + slot l va mod LN) in
  if IsTableDesc d l then
    match n with
    | O => None
    | S n => walk n pt (PteDescTable d) (l + 1) va
    end
  else decode d l va.

Definition levels_below (l : Z) : nat := Z.to_nat (LAST - l).

Definition translate (pt : ArmMmuPtables) (va : Z) : option (Z * Z) :=
  walk (levels_below 0) pt pt.(base_xlat_table) 0 va.

(** What entry [d] of level [l] makes of [va]. *)
Definition entry_value (pt : ArmMmuPtables) (d l va : Z) : option (Z * Z) :=
  if IsTableDesc d l then walk (levels_below (l + 1)) pt (PteDescTable d) (l + 1) va
  else decode d l va.

Lemma walk_entry pt table l va :
  0 <= l <= LAST ->
  walk (levels_below l) pt table l va = entry_value pt (entry pt (table + slot l va mod LN)) l va.
Proof.
  intros Hl. unfold entry_value, levels_below.
  destruct (Z.to_nat (LAST - l)) as [|n] eqn:En; cbn [walk].
  - unfold IsTableDesc. fold LAST. destruct (Z.eqb_spec l LAST); [done|lia].
  - by replace (Z.to_nat (LAST - (l + 1))) with n by lia.
Qed.

Lemma free_value pt l va : entry_value pt 0 l va = None.
Proof.
  unfold entry_value, IsTableDesc, decode, leaf_type.
  rewrite Z.land_0_l, andb_false_r. by destruct (l =? LAST).
Qed.

Lemma leaf_type_cases l : leaf_type l = 3 /\ l = LAST \/ leaf_type l = 1 /\ l <> LAST.
Proof. unfold leaf_type. destruct (Z.eqb_spec l LAST); auto. Qed.

Lemma leaf_type_range l : 0 <= leaf_type l < 4.
Proof. destruct (leaf_type_cases l) as [[-> _]|[-> _]]; lia. Qed.

Lemma leaf_not_table a pa l :
  attrs_ok a -> page_addr pa -> IsTableDesc (leaf a pa (leaf_type l)) l = false.
Proof.
  intros Ha Hpa. unfold IsTableDesc. fold LAST.
  rewrite leaf_land_type by (done || apply leaf_type_range).
  destruct (leaf_type_cases l) as [[-> ->]|[-> _]]; [by rewrite Z.eqb_refl|by rewrite andb_false_r].
Qed.

Lemma leaf_value pt a pa l va :
  attrs_ok a -> page_addr pa -> 0 <= l <= LAST -> pa mod span l = 0 -> block_allowed l = true ->
  entry_value pt (leaf a pa (leaf_type l)) l va = Some (pa + va mod span l, a).
Proof.
  intros Ha Hpa Hl Hal Hb. unfold entry_value. rewrite leaf_not_table by done.
  pose proof (leaf_type_range l). unfold decode.
  rewrite leaf_land_type, Z.eqb_refl, Hb by done. cbn [andb].
  pose proof (shift_ge l). pose proof page_shift_pos.
  unfold block_allowed in Hb. apply Z.leb_le in Hb.
  rewrite leaf_land_addr by (done || lia). rewrite leaf_land_attrs by done.
  fold (span l). by rewrite Hal, Z.sub_0_r.
Qed.

Lemma link_is_table u l : l < LAST -> table_ok u -> IsTableDesc (link u) l = true.
Proof.
  intros Hl Hu. unfold IsTableDesc. fold LAST. rewrite link_type by done.
  destruct (Z.eqb_spec l LAST); [lia|done].
Qed.

Lemma link_value pt u l va :
  l < LAST -> table_ok u ->
  entry_value pt (link u) l va = walk (levels_below (l + 1)) pt (u * LN) (l + 1) va.
Proof. intros Hl Hu. unfold entry_value. by rewrite link_is_table, link_target. Qed.

(** ** Well-formed tables

    [G] gives the tables in use their level and the part of the address space
    they serve: [G t = Some (l, p)] when table [t] has level [l] and serves the
    addresses with [slot l va / LN = p]. *)
Definition ghost : Type := Z -> option (Z * Z).

Inductive entry_ok (G : ghost) (l q : Z) : Z -> Prop :=
| entry_free : entry_ok G l q 0
| entry_leaf a pa :
    attrs_ok a -> page_addr pa -> pa mod span l = 0 -> block_allowed l = true ->
    entry_ok G l q (leaf a pa (leaf_type l))
| entry_link u :
    l < LAST -> table_ok u -> G u = Some (l + 1, q) -> entry_ok G l q (link u).

(** The number of entries in use among the first [n] of table [t]. *)
Fixpoint used (pt : ArmMmuPtables) (t : Z) (n : nat) : Z :=
  match n with
  | O => 0
  | S n => used pt t n + (if entry pt (t * LN + Z.of_nat n) =? 0 then 0 else 1)
  end.

Definition links (l : Z) : Z := if l =? 0 then 1 else 2.

Record wf (pt : ArmMmuPtables) (G : ghost) : Prop := {
  wf_root : exists r, pt.(base_xlat_table) = r * LN /\ G r = Some (0, 0);
  wf_level t l p : G t = Some (l, p) -> table_ok t /\ 0 <= l <= LAST;
  wf_inj t t' x : G t = Some x -> G t' = Some x -> t = t';
  wf_alloc t : table_ok t -> use_count pt t = 0 <-> G t = None;
  wf_entry t l p e : G t = Some (l, p) -> 0 <= e < LN -> entry_ok G l (p * LN + e) (entry pt (t * LN + e));
  wf_count t l p : G t = Some (l, p) -> use_count pt t = links l + used pt t (Z.to_nat LN);
  wf_zero t e : table_ok t -> G t = None -> 0 <= e < LN -> entry pt (t * LN + e) = 0;
  wf_parent u l p :
    G u = Some (l, p) ->
    (l = 0 -> pt.(base_xlat_table) = u * LN) /\
    (0 < l -> exists t, G t = Some (l - 1, p / LN) /\ entry pt (t * LN + p mod LN) = link u)
}.

(** The entries [ptes] lead from the base table to table [t]. *)
Inductive path (pt : ArmMmuPtables) (G : ghost) (ptes : gmap Z Z) : Z -> Z -> Z -> Prop :=
| path_root r :
    pt.(base_xlat_table) = r * LN -> G r = Some (0, 0) -> path pt G ptes 0 r 0
| path_step l t p e u :
    path pt G ptes l t p -> 0 <= l < LAST -> 0 <= e < LN -> ptes !! l = Some (t * LN + e) ->
    entry pt (t * LN + e) = link u -> table_ok u -> G u = Some (l + 1, p * LN + e) ->
    path pt G ptes (l + 1) u (p * LN + e).

Lemma path_ghost pt G ptes l t p : path pt G ptes l t p -> G t = Some (l, p).
Proof. by intros []. Qed.

Lemma path_level pt G ptes l t p : path pt G ptes l t p -> 0 <= l <= LAST.
Proof. intros []; pose proof LAST_cases; lia. Qed.

(** Positions in the array of tables. *)
Lemma index_inj t e t' e' :
  0 <= e < LN -> 0 <= e' < LN -> t * LN + e = t' * LN + e' -> t = t' /\ e = e'.
Proof. intros. pose proof LN_range. assert (t = t') by nia. subst. lia. Qed.

Lemma slot_split q p e : 0 <= e < LN -> q = p * LN + e <-> q / LN = p /\ q mod LN = e.
Proof.
  intros He. split.
  - intros ->. rewrite Z.add_comm, Z.mod_add, Z.div_add by lia.
    rewrite Z.div_small, Z.mod_small by lia. lia.
  - intros [<- <-]. pose proof (Z.div_mod q LN). lia.
Qed.

(** The walk from the base reaches the tables of a path. *)
Lemma walk_path pt G ptes l t p va :
  path pt G ptes l t p -> slot l va / LN = p ->
  translate pt va = walk (levels_below l) pt (t * LN) l va.
Proof.
  intros Hp. revert va. induction Hp as [r Hb _|l t p e u _ IH Hl He _ Hd Hu _]; intros va Hva.
  - unfold translate. by rewrite Hb.
  - rewrite <-slot_up in Hva by lia. apply slot_split in Hva as [Hva Hme]; [|done].
    rewrite (IH va Hva), walk_entry by lia. rewrite Hme, Hd. apply link_value; [lia|done].
Qed.

Lemma path_frame pt pt' G ptes l t p :
  path pt G ptes l t p -> pt'.(base_xlat_table) = pt.(base_xlat_table) ->
  (forall t' l' p' e', G t' = Some (l', p') -> l' < l -> 0 <= e' < LN ->
    entry pt' (t' * LN + e') = entry pt (t' * LN + e')) ->
  path pt' G ptes l t p.
Proof.
  intros Hp Hb. induction Hp as [|l t p e u Hp IH Hl He Hpt Hd Hu Hg]; intros Hf.
  - constructor; [by rewrite Hb|done].
  - econstructor; [|done|done|done| |done|done].
    + apply IH. intros. eapply Hf; [done|lia|done].
    + rewrite <-Hd. eapply Hf; [by eapply path_ghost|lia|done].
Qed.

(** A walk does not depend on entries it does not go through. *)
Lemma walk_frame pt pt' G t0 l0 p0 e0 va :
  wf pt G -> G t0 = Some (l0, p0) -> slot l0 va <> p0 * LN + e0 ->
  (forall t l p e, G t = Some (l, p) -> 0 <= e < LN -> t <> t0 \/ e <> e0 ->
    entry pt' (t * LN + e) = entry pt (t * LN + e)) ->
  forall n l t p,
    n = levels_below l -> G t = Some (l, p) -> slot l va / LN = p ->
    walk n pt' (t * LN) l va = walk n pt (t * LN) l va.
Proof.
  intros Hwf Ht0 Hva Hf n. induction n as [|n IH]; intros l t p Hn Ht Hp;
    destruct (wf_level _ _ Hwf _ _ _ Ht) as [_ Hl]; pose proof LN_range;
    pose proof (Z.mod_pos_bound (slot l va) LN ltac:(lia)) as Hm;
    assert (entry pt' (t * LN + slot l va mod LN) = entry pt (t * LN + slot l va mod LN)) as He.
  1, 3: apply (Hf t l p); [done..|];
    destruct (Z.eqb_spec t t0) as [->|]; [right|by left]; intros He;
    rewrite Ht0 in Ht; injection Ht as -> ->; apply Hva, slot_split; [lia|done].
  - cbn [walk]. rewrite He. unfold levels_below in Hn.
    unfold IsTableDesc. fold LAST. by destruct (Z.eqb_spec l LAST); [|lia].
  - cbn [walk]. rewrite He. destruct (wf_entry _ _ Hwf _ _ _ _ Ht Hm) as [|a pa|u Hlt Hu Hg].
    + unfold IsTableDesc. by rewrite Z.land_0_l, andb_false_r.
    + by rewrite leaf_not_table.
    + rewrite link_is_table, link_target by done. eapply IH; [|done|].
      * unfold levels_below in *. lia.
      * rewrite <-slot_up by done. apply slot_split; [done|auto].
Qed.

(** The effect of a change to one entry, and to tables not yet in use. *)
Lemma translate_change pt pt' G ptes l t p e va :
  wf pt G -> path pt G ptes l t p -> 0 <= e < LN -> 0 <= va < 2 ^ 48 ->
  pt'.(base_xlat_table) = pt.(base_xlat_table) ->
  (forall t' l' p' e', G t' = Some (l', p') -> 0 <= e' < LN -> t' <> t \/ e' <> e ->
    entry pt' (t' * LN + e') = entry pt (t' * LN + e')) ->
  translate pt' va =
    if slot l va =? p * LN + e then entry_value pt' (entry pt' (t * LN + e)) l va
    else translate pt va.
Proof.
  intros Hwf Hp He Hva Hb Hf. pose proof (path_ghost _ _ _ _ _ _ Hp) as Hg.
  destruct (Z.eqb_spec (slot l va) (p * LN + e)) as [Hs|Hs].
  - apply slot_split in Hs as [Hs Hm]; [|done].
    rewrite (walk_path pt' G ptes l t p va); [|eapply path_frame; [exact Hp|exact Hb|]|done].
    + rewrite walk_entry, Hm by (eapply path_level; done). done.
    + intros t' l' p' e' Hg' Hl' He'. eapply Hf; [done|done|]. left. intros ->.
      rewrite Hg in Hg'. injection Hg' as -> _. lia.
  - destruct (wf_root _ _ Hwf) as (r & Hr & Hgr). unfold translate. rewrite Hb, Hr.
    apply (walk_frame pt pt' G t l p e va Hwf Hg Hs Hf _ _ _ 0 eq_refl Hgr).
    by apply slot_base.
Qed.

Lemma translate_at pt G ptes l t p e va :
  wf pt G -> path pt G ptes l t p -> 0 <= e < LN -> slot l va = p * LN + e ->
  translate pt va = entry_value pt (entry pt (t * LN + e)) l va.
Proof.
  intros Hwf Hp He Hs. apply slot_split in Hs as [Hs Hm]; [|done].
  rewrite (walk_path pt G ptes l t p va), walk_entry, Hm by (done || (eapply path_level; done)). done.
Qed.
End Granule.
