(* ===== verification/MmuMap.v ===== *)
(** The operations on the tables: writing an entry, expanding one into a table and
    releasing tables that are no longer used keep the tables well formed and
    change the translation where they should; then the loop of [SetMapping]. *)
From S2P Require Import Prelude Mmu MmuTables.

Section Operations.
Context `{MmuConfigOk}.

(** ** Counting entries in use *)
Definition busy (d : Z) : Z := if d =? 0 then 0 else 1.

Lemma busy_range d : 0 <= busy d <= 1.
Proof. unfold busy. destruct (_ =? _); lia. Qed.

Lemma used_range pt t n : 0 <= used pt t n <= Z.of_nat n.
Proof. induction n; cbn [used]; [lia|]. destruct (_ =? _); lia. Qed.

Lemma used_same pt pt' t n :
  (forall e, 0 <= e < Z.of_nat n -> entry pt' (t * LN + e) = entry pt (t * LN + e)) ->
  used pt' t n = used pt t n.
Proof.
  induction n as [|n IH]; intros He; cbn [used]; [done|].
  rewrite IH by (intros; apply He; lia). by rewrite He by lia.
Qed.

Lemma used_change pt pt' t e0 n :
  0 <= e0 < Z.of_nat n ->
  (forall e, 0 <= e < Z.of_nat n -> e <> e0 -> entry pt' (t * LN + e) = entry pt (t * LN + e)) ->
  used pt' t n = used pt t n - busy (entry pt (t * LN + e0)) + busy (entry pt' (t * LN + e0)).
Proof.
  unfold busy. induction n as [|n IH]; intros He Hf; [lia|]. cbn [used].
  destruct (Z.eqb_spec e0 (Z.of_nat n)) as [->|].
  - rewrite (used_same pt pt') by (intros; apply Hf; lia). lia.
  - rewrite IH, (Hf (Z.of_nat n)) by (lia || (intros; apply Hf; lia)). lia.
Qed.

Lemma used_zero pt t n e :
  used pt t n = 0 -> 0 <= e < Z.of_nat n -> entry pt (t * LN + e) = 0.
Proof.
  induction n as [|n IH]; intros Hu He; [lia|]. cbn [used] in Hu. pose proof (used_range pt t n).
  destruct (Z.eqb_spec (entry pt (t * LN + Z.of_nat n)) 0); [|lia].
  destruct (Z.eqb_spec e (Z.of_nat n)) as [->|]; [done|]. apply IH; lia.
Qed.

Lemma used_const pt t n (b : bool) :
  (forall e, 0 <= e < Z.of_nat n -> (entry pt (t * LN + e) =? 0) = negb b) ->
  used pt t n = if b then Z.of_nat n else 0.
Proof.
  induction n as [|n IH]; intros He; cbn [used]; [by destruct b|].
  rewrite IH, He by (lia || (intros; apply He; lia)). destruct b; cbn [negb]; lia.
Qed.

Lemma used_LN pt t : 0 <= used pt t (Z.to_nat LN) <= LN.
Proof. pose proof (used_range pt t (Z.to_nat LN)). pose proof LN_range. lia. Qed.

(** ** Changes that keep the tables well formed *)
Definition upd (G : ghost) (u : Z) (x : option (Z * Z)) : ghost := fun t => if t =? u then x else G t.

Lemma upd_same G u x : upd G u x u = x.
Proof. unfold upd. by rewrite Z.eqb_refl. Qed.

Lemma upd_other G u x t : t <> u -> upd G u x t = G t.
Proof. unfold upd. by destruct (Z.eqb_spec t u). Qed.

Lemma upd_case G u x t y : upd G u x t = y -> t = u /\ x = y \/ t <> u /\ G t = y.
Proof. unfold upd. destruct (Z.eqb_spec t u); auto. Qed.

(** An entry that is not a link. *)
Definition not_link (l d : Z) : Prop :=
  d = 0 \/ exists a pa, attrs_ok a /\ page_addr pa /\ pa mod span l = 0 /\ block_allowed l = true /\
    d = leaf a pa (leaf_type l).

Lemma not_link_entry G l q d : not_link l d -> entry_ok G l q d.
Proof. intros [->|(a & pa & Ha & Hp & Hm & Hb & ->)]; by constructor. Qed.

Lemma not_link_spec l d u : not_link l d -> l < LAST -> table_ok u -> d <> link u.
Proof.
  intros [->|(a & pa & Ha & Hp & _ & _ & ->)] Hl Hu E.
  - by apply (link_nonzero u).
  - pose proof (leaf_not_table a pa l Ha Hp) as Hn. rewrite E, link_is_table in Hn; done.
Qed.

Lemma entry_ok_table G l q d :
  entry_ok G l q d -> IsTableDesc d l = false -> not_link l d.
Proof.
  intros [|a pa|u Hl Hu Hg] Hd; [by left|right; by exists a, pa|].
  by rewrite link_is_table in Hd.
Qed.

Lemma entry_ok_mono (G G' : ghost) l q d :
  (forall t x, G t = Some x -> G' t = Some x) -> entry_ok G l q d -> entry_ok G' l q d.
Proof. intros Hg [|a pa|u Hl Hu Hu']; constructor; auto. Qed.

(** Entry [e] of table [t] changes; every other entry stays. *)
Definition entry_changed (pt pt' : ArmMmuPtables) (t e : Z) : Prop :=
  forall t' e', table_ok t' -> 0 <= e' < LN -> t' <> t \/ e' <> e ->
    entry pt' (t' * LN + e') = entry pt (t' * LN + e').

Section Change.
Context (pt pt' : ArmMmuPtables) (G : ghost) (t l p e : Z).
Context (Hwf : wf pt G) (Ht : G t = Some (l, p)) (He : 0 <= e < LN).
Context (Hb : pt'.(base_xlat_table) = pt.(base_xlat_table)).

Lemma wf_write :
  not_link l (entry pt (t * LN + e)) -> not_link l (entry pt' (t * LN + e)) ->
  entry_changed pt pt' t e ->
  (forall t', table_ok t' -> use_count pt' t' =
    if t' =? t then use_count pt t - busy (entry pt (t * LN + e)) + busy (entry pt' (t * LN + e))
    else use_count pt t') ->
  wf pt' G.
Proof.
  intros Ho Hn Hc Hu. destruct (wf_level _ _ Hwf _ _ _ Ht) as [Htok Hl].
  assert (used pt' t (Z.to_nat LN) =
    used pt t (Z.to_nat LN) - busy (entry pt (t * LN + e)) + busy (entry pt' (t * LN + e))) as Hused.
  { pose proof LN_range. apply used_change; [lia|]. intros. apply Hc; [done|lia|by right]. }
  pose proof (wf_count _ _ Hwf _ _ _ Ht) as Hct. pose proof (used_LN pt' t) as Hur.
  constructor.
  - rewrite Hb. apply Hwf.
  - apply Hwf.
  - apply Hwf.
  - intros t' Ht'. rewrite Hu by done. destruct (Z.eqb_spec t' t) as [->|]; [|by apply Hwf].
    rewrite Ht. unfold links in Hct. split; [|done]. destruct (l =? 0); lia.
  - intros t' l' p' e' Hg He'. destruct (wf_level _ _ Hwf _ _ _ Hg) as [Htok' _].
    destruct (decide (t' = t /\ e' = e)) as [[-> ->]|Hne].
    + rewrite Ht in Hg. injection Hg as <- <-. by apply not_link_entry.
    + rewrite Hc by (done || lia). by apply (wf_entry _ _ Hwf).
  - intros t' l' p' Hg. destruct (wf_level _ _ Hwf _ _ _ Hg) as [Htok' _].
    rewrite Hu by done. destruct (Z.eqb_spec t' t) as [->|].
    + rewrite Ht in Hg. injection Hg as <- <-. lia.
    + rewrite (wf_count _ _ Hwf _ _ _ Hg). f_equal. symmetry.
      pose proof LN_range. apply used_same. intros. apply Hc; [done|lia|by left].
  - intros t' e' Htok' Hg He'. rewrite Hc; [by apply (wf_zero _ _ Hwf)|done|done|].
    left. intros ->. congruence.
  - intros u l' p' Hg. rewrite Hb. destruct (wf_parent _ _ Hwf _ _ _ Hg) as [Hl0 Hl1].
    split; [done|]. intros Hl'. destruct (Hl1 Hl') as (t' & Hg' & He').
    exists t'. split; [done|]. destruct (wf_level _ _ Hwf _ _ _ Hg') as [Htok' _].
    pose proof LN_range. pose proof (Z.mod_pos_bound p' LN).
    rewrite Hc; [done|done|lia|].
    destruct (decide (t' = t /\ p' mod LN = e)) as [[-> <-]|]; [|lia].
    exfalso. rewrite Ht in Hg'. injection Hg' as -> ->.
    destruct (wf_level _ _ Hwf _ _ _ Hg) as [Huok Hul].
    by apply (not_link_spec (l' - 1) _ u Ho); [lia|done|].
Qed.

(** Entry [e] becomes a link to a new table [u]. *)
Lemma wf_expand u :
  l < LAST -> table_ok u -> G u = None -> not_link l (entry pt (t * LN + e)) ->
  entry pt' (t * LN + e) = link u ->
  (forall t' e', table_ok t' -> 0 <= e' < LN -> t' <> u -> t' <> t \/ e' <> e ->
    entry pt' (t' * LN + e') = entry pt (t' * LN + e')) ->
  (forall i, 0 <= i < LN -> not_link (l + 1) (entry pt' (u * LN + i))) ->
  (forall t', table_ok t' -> use_count pt' t' =
    if t' =? u then 2 + used pt' u (Z.to_nat LN)
    else if t' =? t then use_count pt t + 1 - busy (entry pt (t * LN + e))
    else use_count pt t') ->
  wf pt' (upd G u (Some (l + 1, p * LN + e))).
Proof.
  intros Hl Hu Hgu Ho Hlink Hf Hnew Hc.
  destruct (wf_level _ _ Hwf _ _ _ Ht) as [Htok Hl0]. pose proof LN_range as HLN.
  assert (t <> u) as Htu by congruence.
  assert (used pt' t (Z.to_nat LN) =
    used pt t (Z.to_nat LN) - busy (entry pt (t * LN + e)) + 1) as Hused.
  { rewrite (used_change pt pt' t e), Hlink; [|lia|intros; apply Hf; (done || lia)].
    unfold busy at 2. destruct (Z.eqb_spec (link u) 0) as [E|]; [|lia]. by apply link_nonzero in E. }
  pose proof (wf_count _ _ Hwf _ _ _ Ht) as Hct. pose proof (used_LN pt' t) as Hur.
  pose proof (used_LN pt' u) as Huu.
  (* no table served these addresses before *)
  assert (forall u', G u' <> Some (l + 1, p * LN + e)) as Hnone.
  { intros u' Hg. destruct (wf_parent _ _ Hwf _ _ _ Hg) as [_ Hp].
    destruct (Hp ltac:(lia)) as (t' & Hg' & He'). destruct (proj1 (slot_split _ p e He) eq_refl) as [Hd Hm].
    rewrite Hd in Hg'. rewrite Hm in He'. replace (l + 1 - 1) with l in Hg' by lia.
    assert (t' = t) as -> by (eapply (wf_inj _ _ Hwf); [exact Hg'|exact Ht]).
    apply (not_link_spec l _ u' Ho); [lia| |done]. by destruct (wf_level _ _ Hwf _ _ _ Hg). }
  assert (forall t' x, G t' = Some x -> upd G u (Some (l + 1, p * LN + e)) t' = Some x) as Hmono.
  { intros t' x Hg. rewrite upd_other; [done|]. congruence. }
  constructor.
  - destruct (wf_root _ _ Hwf) as (r & Hr & Hgr). exists r. rewrite Hb. split; [done|by apply Hmono].
  - intros t' l' p' Hg. destruct (upd_case _ _ _ _ _ Hg) as [[-> [= <- <-]]|[_ Hg']]; [|by apply (wf_level _ _ Hwf) in Hg'].
    split; [done|lia].
  - intros t1 t2 x H1 H2.
    destruct (upd_case _ _ _ _ _ H1) as [[-> E1]|[_ H1']], (upd_case _ _ _ _ _ H2) as [[-> E2]|[_ H2']].
    + done.
    + rewrite <-E1 in H2'. by apply Hnone in H2'.
    + rewrite <-E2 in H1'. by apply Hnone in H1'.
    + by apply (wf_inj _ _ Hwf _ _ x).
  - intros t' Ht'. rewrite Hc by done. destruct (Z.eqb_spec t' u) as [->|].
    { rewrite upd_same. split; [lia|done]. }
    rewrite upd_other by done. destruct (Z.eqb_spec t' t) as [->|]; [|by apply Hwf].
    rewrite Ht. unfold links in Hct. split; [|done]. destruct (l =? 0); lia.
  - intros t' l' p' e' Hg He'.
    destruct (upd_case _ _ _ _ _ Hg) as [[-> [= <- <-]]|[Hne Hg']].
    { by apply not_link_entry, Hnew. }
    destruct (wf_level _ _ Hwf _ _ _ Hg') as [Htok' _].
    destruct (decide (t' = t /\ e' = e)) as [[-> ->]|Hd].
    + rewrite Ht in Hg'. injection Hg' as <- <-. rewrite Hlink.
      constructor; [done|done|by rewrite upd_same].
    + rewrite Hf by (done || lia). eapply entry_ok_mono; [exact Hmono|]. by apply (wf_entry _ _ Hwf).
  - intros t' l' p' Hg.
    destruct (upd_case _ _ _ _ _ Hg) as [[-> [= <- <-]]|[Hne Hg']].
    { rewrite Hc, Z.eqb_refl by done. unfold links. destruct (Z.eqb_spec (l + 1) 0); lia. }
    destruct (wf_level _ _ Hwf _ _ _ Hg') as [Htok' _].
    rewrite Hc by done. destruct (Z.eqb_spec t' u); [done|]. destruct (Z.eqb_spec t' t) as [->|].
    + rewrite Ht in Hg'. injection Hg' as <- <-. lia.
    + rewrite (wf_count _ _ Hwf _ _ _ Hg'). f_equal. symmetry. apply used_same.
      intros. apply Hf; (done || lia || by left).
  - intros t' e' Htok' Hg He'. destruct (upd_case _ _ _ _ _ Hg) as [[_ [=]]|[Hne Hg']].
    rewrite Hf; [by apply (wf_zero _ _ Hwf)|done..|]. left. congruence.
  - intros u' l' p' Hg. rewrite Hb.
    destruct (upd_case _ _ _ _ _ Hg) as [[-> [= <- <-]]|[Hne Hg']].
    { split; [lia|]. intros _. exists t. destruct (proj1 (slot_split _ p e He) eq_refl) as [-> ->].
      replace (l + 1 - 1) with l by lia. split; [by apply Hmono|done]. }
    destruct (wf_parent _ _ Hwf _ _ _ Hg') as [Hp0 Hp1]. split; [done|]. intros Hl'.
    destruct (Hp1 Hl') as (t' & Hgt' & He'). exists t'. split; [by apply Hmono|].
    destruct (wf_level _ _ Hwf _ _ _ Hgt') as [Htok' _]. pose proof (Z.mod_pos_bound p' LN).
    rewrite Hf; [done|done|lia|congruence|].
    destruct (decide (t' = t /\ p' mod LN = e)) as [[-> <-]|]; [|lia].
    exfalso. rewrite Ht in Hgt'. injection Hgt' as -> ->.
    destruct (wf_level _ _ Hwf _ _ _ Hg') as [Huok Hul].
    by apply (not_link_spec (l' - 1) _ u' Ho); [lia|done|].
Qed.

(** Entry [e], a link to the empty table [u], becomes free, and so does [u]. *)
Lemma wf_release u :
  G u = Some (l + 1, p * LN + e) -> entry pt (t * LN + e) = link u -> entry pt' (t * LN + e) = 0 ->
  (forall i, 0 <= i < LN -> entry pt (u * LN + i) = 0) ->
  entry_changed pt pt' t e ->
  (forall t', table_ok t' -> use_count pt' t' =
    if t' =? u then 0 else if t' =? t then use_count pt t - 1 else use_count pt t') ->
  wf pt' (upd G u None).
Proof.
  intros Hgu Hlink Hz Hempty Hf Hc.
  destruct (wf_level _ _ Hwf _ _ _ Ht) as [Htok Hl0]. pose proof LN_range as HLN.
  destruct (wf_level _ _ Hwf _ _ _ Hgu) as [Huok Hlu].
  assert (t <> u) as Htu by (intros ->; rewrite Ht in Hgu; injection Hgu; lia).
  assert (used pt' t (Z.to_nat LN) = used pt t (Z.to_nat LN) - 1) as Hused.
  { rewrite (used_change pt pt' t e), Hlink, Hz; [|lia|intros; apply Hf; (done || lia)].
    unfold busy. destruct (Z.eqb_spec (link u) 0) as [E|]; [|cbn; lia]. by apply link_nonzero in E. }
  pose proof (wf_count _ _ Hwf _ _ _ Ht) as Hct. pose proof (used_LN pt' t) as Hur.
  constructor.
  - destruct (wf_root _ _ Hwf) as (r & Hr & Hgr). exists r. rewrite Hb. split; [done|].
    rewrite upd_other; [done|]. intros ->. rewrite Hgr in Hgu. injection Hgu. lia.
  - intros t' l' p' Hg. destruct (upd_case _ _ _ _ _ Hg) as [[_ [=]]|[_ Hg']]. by apply (wf_level _ _ Hwf) in Hg'.
  - intros t1 t2 x H1 H2.
    destruct (upd_case _ _ _ _ _ H1) as [[_ [=]]|[_ H1']], (upd_case _ _ _ _ _ H2) as [[_ [=]]|[_ H2']].
    by apply (wf_inj _ _ Hwf _ _ x).
  - intros t' Ht'. rewrite Hc by done. destruct (Z.eqb_spec t' u) as [->|].
    { by rewrite upd_same. }
    rewrite upd_other by done. destruct (Z.eqb_spec t' t) as [->|]; [|by apply Hwf].
    rewrite Ht. unfold links in Hct. split; [|done]. destruct (l =? 0); lia.
  - intros t' l' p' e' Hg He'.
    destruct (upd_case _ _ _ _ _ Hg) as [[_ [=]]|[Hne Hg']].
    destruct (wf_level _ _ Hwf _ _ _ Hg') as [Htok' _].
    destruct (decide (t' = t /\ e' = e)) as [[-> ->]|Hd].
    + rewrite Hz. constructor.
    + rewrite Hf by (done || lia).
      destruct (wf_entry _ _ Hwf _ _ _ _ Hg' He') as [|a pa|u' Hlt Hu' Hgu']; [by constructor..|].
      constructor; [done|done|]. rewrite upd_other; [done|]. intros ->.
      rewrite Hgu in Hgu'. injection Hgu' as Hl' Hq. assert (l' = l) as -> by lia.
      apply index_inj in Hq as [-> ->]; [|done|done]. apply Hd.
      split; [|done]. by apply (wf_inj _ _ Hwf _ _ (l, p')).
  - intros t' l' p' Hg.
    destruct (upd_case _ _ _ _ _ Hg) as [[_ [=]]|[Hne Hg']].
    destruct (wf_level _ _ Hwf _ _ _ Hg') as [Htok' _].
    rewrite Hc by done. destruct (Z.eqb_spec t' u); [done|]. destruct (Z.eqb_spec t' t) as [->|].
    + rewrite Ht in Hg'. injection Hg' as <- <-. lia.
    + rewrite (wf_count _ _ Hwf _ _ _ Hg'). f_equal. symmetry. apply used_same.
      intros. apply Hf; (done || lia || by left).
  - intros t' e' Htok' Hg He'.
    assert (t' <> t) by (intros ->; rewrite upd_other in Hg by done; congruence).
    rewrite Hf by (done || by left). destruct (upd_case _ _ _ _ _ Hg) as [[-> _]|[Hne Hg']].
    + by apply Hempty.
    + by apply (wf_zero _ _ Hwf).
  - intros u' l' p' Hg. rewrite Hb.
    destruct (upd_case _ _ _ _ _ Hg) as [[_ [=]]|[Hne Hg']].
    destruct (wf_parent _ _ Hwf _ _ _ Hg') as [Hp0 Hp1]. split; [done|]. intros Hl'.
    destruct (Hp1 Hl') as (t' & Hgt' & He').
    destruct (wf_level _ _ Hwf _ _ _ Hgt') as [Htok' _]. pose proof (Z.mod_pos_bound p' LN).
    destruct (wf_level _ _ Hwf _ _ _ Hg') as [Huok' _].
    exists t'. split.
    + rewrite upd_other; [done|]. intros ->. rewrite Hempty in He' by lia.
      by apply (link_nonzero u').
    + rewrite Hf; [done|done|lia|].
      destruct (decide (t' = t /\ p' mod LN = e)) as [[-> He2]|]; [|lia].
      exfalso. rewrite He2, Hlink in He'. apply Hne.
      assert (u * LN = u' * LN) as E by (rewrite <-!link_target, He' by done; done). nia.
Qed.
End Change.

(** ** The primitives on well-formed positions *)
Lemma entry_insert pt i v j :
  entry (set_tables (<[i := v]> pt.(xlat_tables)) pt) j = if j =? i then v else entry pt j.
Proof.
  unfold entry. cbn. destruct (Z.eqb_spec j i) as [->|].
  - by rewrite lookup_insert_eq.
  - by rewrite lookup_insert_ne.
Qed.

Lemma count_insert pt t c t' :
  use_count (set_counts (<[t := c]> pt.(xlat_use_count)) pt) t' = if t' =? t then c else use_count pt t'.
Proof.
  unfold use_count. cbn. destruct (Z.eqb_spec t' t) as [->|].
  - by rewrite lookup_insert_eq.
  - by rewrite lookup_insert_ne.
Qed.

Definition put_entry (i v : Z) (pt : ArmMmuPtables) : ArmMmuPtables :=
  set_tables (<[i := v]> pt.(xlat_tables)) pt.
Definition put_count (t c : Z) (pt : ArmMmuPtables) : ArmMmuPtables :=
  set_counts (<[t := c]> pt.(xlat_use_count)) pt.

Lemma entry_put_entry i v pt j : entry (put_entry i v pt) j = if j =? i then v else entry pt j.
Proof. apply entry_insert. Qed.
Lemma entry_put_count t c pt j : entry (put_count t c pt) j = entry pt j.
Proof. done. Qed.
Lemma count_put_entry i v pt t : use_count (put_entry i v pt) t = use_count pt t.
Proof. done. Qed.
Lemma count_put_count t c pt t' :
  use_count (put_count t c pt) t' = if t' =? t then c else use_count pt t'.
Proof. apply count_insert. Qed.

Lemma in_tables_ok t e : table_ok t -> 0 <= e < LN -> in_tables (t * LN + e) = true.
Proof.
  intros Ht He. unfold in_tables. fold LN. unfold table_ok in Ht. pose proof LN_range.
  apply andb_true_iff. split; [apply Z.leb_le|apply Z.ltb_lt]; nia.
Qed.

Lemma get_pte_ok pt t e : table_ok t -> 0 <= e < LN -> get_pte pt (t * LN + e) = Ok (entry pt (t * LN + e)).
Proof. intros. unfold get_pte. by rewrite in_tables_ok. Qed.

Lemma set_pte_ok pt t e v :
  table_ok t -> 0 <= e < LN -> set_pte (t * LN + e) v pt = Ok (put_entry (t * LN + e) v pt).
Proof. intros. unfold set_pte. by rewrite in_tables_ok. Qed.

Lemma TableIndex_ok t e : table_ok t -> 0 <= e < LN -> TableIndex (t * LN + e) = Ok t.
Proof.
  intros Ht He. unfold TableIndex. fold LN. unfold table_ok in Ht. destruct tables_ok as [_ Hm].
  rewrite Z.add_comm, Z.div_add, Z.div_small by lia. rewrite Z.add_0_l, wrap_small by lia.
  destruct (Z.ltb_spec t CONFIG_MAX_XLAT_TABLES); [done|lia].
Qed.

Lemma TableUsage_ok t e a pt :
  table_ok t -> 0 <= e < LN -> 0 < use_count pt t + a < 65536 ->
  TableUsage (t * LN + e) a pt = Ok (use_count pt t + a, put_count t (use_count pt t + a) pt).
Proof.
  intros Ht He Hc. unfold TableUsage. rewrite TableIndex_ok by done. cbn [rbind].
  rewrite wrap_small by lia. by destruct (Z.ltb_spec 0 (use_count pt t + a)); [|lia].
Qed.

Lemma TableUsage_start t a pt :
  table_ok t -> 0 < use_count pt t + a < 65536 ->
  TableUsage (t * LN) a pt = Ok (use_count pt t + a, put_count t (use_count pt t + a) pt).
Proof.
  intros. pose proof LN_range. rewrite <-(Z.add_0_r (t * LN)). apply TableUsage_ok; (done || lia).
Qed.

Lemma wf_count_range pt G t l p :
  wf pt G -> G t = Some (l, p) ->
  links l <= use_count pt t <= 8194 /\ use_count pt t = links l + used pt t (Z.to_nat LN).
Proof.
  intros Hwf Ht. pose proof (wf_count _ _ Hwf _ _ _ Ht) as Hc. pose proof (used_LN pt t).
  pose proof LN_range. unfold links in *. destruct (l =? 0); lia.
Qed.

(** ** [NewTable] *)
Lemma new_table_loop_spec n i pt :
  0 <= i -> i + Z.of_nat n = CONFIG_MAX_XLAT_TABLES ->
  match new_table_loop n i pt with
  | Some (k, pt') => exists u, i <= u < CONFIG_MAX_XLAT_TABLES /\ k = u * LN /\ use_count pt u = 0 /\
      pt' = put_count u 1 pt
  | None => forall t, i <= t < CONFIG_MAX_XLAT_TABLES -> use_count pt t <> 0
  end.
Proof.
  revert i. induction n as [|n IH]; intros i Hi Hn; cbn [new_table_loop]; [lia|].
  destruct (Z.eqb_spec (use_count pt i) 0) as [Hz|Hz].
  - exists i. split; [lia|]. done.
  - specialize (IH (i + 1)). destruct (new_table_loop n (i + 1) pt) as [[k pt']|].
    + destruct IH as (u & Hu & ?); [lia..|]. exists u. split; [lia|done].
    + intros t Ht. destruct (Z.eqb_spec t i) as [->|]; [done|]. apply IH; lia.
Qed.

Lemma NewTable_spec pt :
  match NewTable pt with
  | Some (k, pt') => exists u, table_ok u /\ k = u * LN /\ use_count pt u = 0 /\ pt' = put_count u 1 pt
  | None => forall t, table_ok t -> use_count pt t <> 0
  end.
Proof.
  unfold NewTable, table_ok. destruct tables_ok. apply new_table_loop_spec; lia.
Qed.

(** ** [ExpandToTable] *)
Lemma fill_table_spec n i u desc k pt :
  table_ok u -> 0 <= i -> i + Z.of_nat n <= LN -> k < 32 ->
  exists pt',
    fill_table n i (u * LN) desc k pt = Ok pt' /\
    pt'.(base_xlat_table) = pt.(base_xlat_table) /\ pt'.(xlat_use_count) = pt.(xlat_use_count) /\
    (forall j, entry pt' j =
      if (u * LN + i <=? j) && (j <? u * LN + i + Z.of_nat n)
      then Z.lor desc (u32 (Z.shiftl (j - u * LN) k)) else entry pt j).
Proof.
  intros Hu. revert i pt. induction n as [|n IH]; intros i pt Hi Hn Hk; cbn [fill_table].
  - exists pt. split; [done|]. split; [done|]. split; [done|]. intros j.
    destruct (Z.leb_spec (u * LN + i) j), (Z.ltb_spec j (u * LN + i + Z.of_nat 0)); cbn; (done || lia).
  - destruct (Z.ltb_spec k 32); [|lia]. rewrite set_pte_ok by (done || lia). cbn [rbind].
    edestruct (IH (i + 1)) as (pt' & E & Hb & Hc & He); [lia..|]. exists pt'. split; [exact E|].
    split; [done|]. split; [done|]. intros j. rewrite He, entry_put_entry.
    destruct (Z.eqb_spec j (u * LN + i)) as [->|].
    + replace (u * LN + i - u * LN) with i by lia. split_cmp; cbn [andb]; (done || lia).
    + split_cmp; cbn [andb]; (done || lia).
Qed.

(** What the new table holds. *)
Definition expanded (l d i : Z) (d' : Z) : Prop :=
  (d = 0 /\ d' = 0) \/
  exists a pa, attrs_ok a /\ page_addr pa /\ pa mod span l = 0 /\ block_allowed l = true /\
    d = leaf a pa (leaf_type l) /\ d' = leaf a (pa + i * span (l + 1)) (leaf_type (l + 1)).

(** A part of a block. *)
Lemma part_ok l pa i :
  0 <= l < LAST -> page_addr pa -> pa mod span l = 0 -> block_allowed l = true -> 0 <= i < LN ->
  page_addr (pa + i * span (l + 1)) /\ (pa + i * span (l + 1)) mod span (l + 1) = 0 /\
  page_addr (i * span (l + 1)) /\ block_allowed (l + 1) = true /\ i * span (l + 1) < span l.
Proof.
  intros Hl [Hr Hp] Hm Hb Hi. assert (0 < span (l + 1)) as Hs by (apply span_pos; lia).
  assert (span l = LN * span (l + 1)) as Hsp by (apply span_succ; lia).
  assert (span l <= 2 ^ 30) as H30 by (apply block_span; [lia|done]).
  assert (block_allowed (l + 1) = true) as Hb'.
  { unfold block_allowed in *. pose proof (shift_succ l). pose proof page_shift_pos.
    apply Z.leb_le. apply Z.leb_le in Hb. lia. }
  assert (0 < 2 ^ PAGE_SIZE_SHIFT) as Hpg by (pose proof page_shift_pos; apply Z.pow_pos_nonneg; lia).
  assert (i * span (l + 1) < span l) as Hlt by nia.
  assert ((i * span (l + 1)) mod 2 ^ PAGE_SIZE_SHIFT = 0) as Hip.
  { rewrite Z.mul_mod, span_page, Z.mul_0_r by lia. apply Z.mod_0_l. lia. }
  assert (2 ^ 48 mod span l = 0) as H48.
  { change (2 ^ 48) with (2 ^ 18 * 2 ^ 30).
    rewrite Z.mul_mod, block_divides, Z.mul_0_r by (lia || done || (pose proof (span_pos l); lia)).
    apply Z.mod_0_l. pose proof (span_pos l). lia. }
  assert (pa + span l <= 2 ^ 48) as Hle.
  { apply Z.mod_divide in Hm as [x ->]; [|pose proof (span_pos l); lia].
    apply Z.mod_divide in H48 as [y Hy]; [|pose proof (span_pos l); lia]. rewrite Hy in *.
    assert (x < y) by (pose proof (span_pos l); nia). nia. }
  split; [|split; [|split; [|done]]].
  - split; [lia|]. rewrite Z.add_mod, Hp, Hip by lia. apply Z.mod_0_l. lia.
  - rewrite Z.mod_add by lia. apply Z.mod_divide in Hm as [x ->]; [|pose proof (span_pos l); lia].
    rewrite Hsp, Z.mul_assoc. apply Z_mod_mult.
  - split; [nia|done].
Qed.

Lemma expanded_not_link l d i d' :
  0 <= l < LAST -> 0 <= i < LN -> expanded l d i d' -> not_link (l + 1) d'.
Proof.
  intros Hl Hi [[_ ->]|(a & pa & Ha & Hp & Hm & Hb & _ & ->)]; [by left|right].
  destruct (part_ok l pa i Hl Hp Hm Hb Hi) as (Q1 & Q2 & _ & Q4 & _). by exists a, (pa + i * span (l + 1)).
Qed.

(** An address is translated by the part it lies in as by the block. *)
Lemma expanded_value pt pt' l d d' va :
  0 <= l < LAST -> expanded l d (slot (l + 1) va mod LN) d' ->
  entry_value pt' d' (l + 1) va = entry_value pt d l va.
Proof.
  intros Hl Hex. pose proof LN_range.
  destruct Hex as [[-> ->]|(a & pa & Ha & Hp & Hm & Hb & -> & ->)]; [by rewrite !free_value|].
  destruct (part_ok l pa (slot (l + 1) va mod LN) Hl Hp Hm Hb) as (Q1 & Q2 & _ & Q4 & _);
    [apply Z.mod_pos_bound; lia|].
  rewrite !leaf_value by (done || lia). do 2 f_equal.
  rewrite (span_succ l) by lia. rewrite (Z.mul_comm LN), Z.rem_mul_r; [unfold slot; lia| |lia].
  pose proof (span_pos (l + 1)). lia.
Qed.

(** A change that does what [ExpandToTable] is meant to do. *)
Definition expands (pt pt' : ArmMmuPtables) (t e l u : Z) : Prop :=
  pt'.(base_xlat_table) = pt.(base_xlat_table) /\
  entry pt' (t * LN + e) = link u /\
  (forall t' e', table_ok t' -> 0 <= e' < LN -> t' <> u -> t' <> t \/ e' <> e ->
    entry pt' (t' * LN + e') = entry pt (t' * LN + e')) /\
  (forall i, 0 <= i < LN -> expanded l (entry pt (t * LN + e)) i (entry pt' (u * LN + i))) /\
  (forall t', table_ok t' -> use_count pt' t' =
    if t' =? u then 2 + used pt' u (Z.to_nat LN)
    else if t' =? t then use_count pt t + 1 - busy (entry pt (t * LN + e))
    else use_count pt t').

Lemma expands_spec pt pt' G ptes l t p e u :
  wf pt G -> path pt G ptes l t p -> 0 <= e < LN -> l < LAST ->
  not_link l (entry pt (t * LN + e)) -> table_ok u -> G u = None -> expands pt pt' t e l u ->
  let G' := upd G u (Some (l + 1, p * LN + e)) in
  wf pt' G' /\ path pt' G' (<[l := t * LN + e]> ptes) (l + 1) u (p * LN + e) /\
  forall va, 0 <= va < 2 ^ 48 -> translate pt' va = translate pt va.
Proof.
  intros Hwf Hp He Hl Hn Hu Hgu (Hb & Hlink & Hf & Hnew & Hc). cbv zeta.
  pose proof (path_ghost _ _ _ _ _ _ Hp) as Ht. pose proof (path_level _ _ _ _ _ _ Hp) as Hl0.
  pose proof LN_range as HLN.
  assert (forall t' x, G t' = Some x -> t' <> u) as Hne by congruence.
  split; [|split].
  - eapply (wf_expand pt pt'); try done. intros i Hi. eapply expanded_not_link; [lia|done|by apply Hnew].
  - econstructor; [|lia|done|by rewrite lookup_insert_eq|done|done|by rewrite upd_same].
    clear Hn Hnew Hc Hlink. revert Hf. generalize (t * LN + e) as x. intros x Hf.
    assert (forall l' t' p', path pt G ptes l' t' p' -> l' <= l ->
      path pt' (upd G u (Some (l + 1, p * LN + e))) (<[l := x]> ptes) l' t' p') as Hpath.
    { intros l' t' p' Hp'. induction Hp' as [r Hr Hg|l' t' p' e' u' Hp' IH Hl' He' Hpt' Hd' Hu' Hg'];
        intros Hle.
      - constructor; [by rewrite Hb|]. rewrite upd_other; [done|by eapply Hne].
      - econstructor; [apply IH; lia|done|done|rewrite lookup_insert_ne by lia; done| |done|].
        + rewrite <-Hd'. pose proof (path_ghost _ _ _ _ _ _ Hp') as Hgt'.
          destruct (wf_level _ _ Hwf _ _ _ Hgt') as [Htok' _].
          apply Hf; [done|done|by eapply Hne|]. left. intros ->. rewrite Ht in Hgt'. injection Hgt'. lia.
        + rewrite upd_other; [done|by eapply Hne]. }
    apply Hpath; [done|lia].
  - intros va Hva. rewrite (translate_change pt pt' G ptes l t p e va); try done.
    + destruct (Z.eqb_spec (slot l va) (p * LN + e)) as [Hs|]; [|done].
      rewrite (translate_at pt G ptes l t p e va) by done.
      rewrite Hlink, link_value, walk_entry by (done || lia).
      apply expanded_value; [lia|]. apply Hnew. apply Z.mod_pos_bound. lia.
    + intros t' l' p' e' Hg' He' Hd'. destruct (wf_level _ _ Hwf _ _ _ Hg') as [Htok' _].
      apply Hf; [done|done|by eapply Hne|done].
Qed.

(** The descriptors [ExpandToTable] writes into the new table. *)
Lemma expand_leaf a pa l i :
  0 <= l < LAST -> attrs_ok a -> page_addr pa -> pa mod span l = 0 -> block_allowed l = true ->
  0 <= i < LN ->
  let desc := leaf a pa (leaf_type l) in
  let desc := if l + 1 =? LAST then Z.lor desc PTE_PAGE_DESC else desc in
  Z.lor desc (u32 (Z.shiftl i (LEVEL_TO_VA_SIZE_SHIFT (l + 1)))) =
    leaf a (pa + i * span (l + 1)) (leaf_type (l + 1)).
Proof.
  intros Hl Ha Hp Hm Hb Hi. cbv zeta.
  destruct (part_ok l pa i Hl Hp Hm Hb Hi) as (_ & _ & Q3 & _ & Q5).
  assert (span l <= 2 ^ 30) as H30 by (apply block_span; [lia|done]).
  assert (0 < span (l + 1)) as Hs by (apply span_pos; lia).
  pose proof (shift_ge (l + 1)) as Hsh. pose proof (shift_ge l) as Hsh0. pose proof page_shift_pos as Hpg.
  assert (u32 (Z.shiftl i (LEVEL_TO_VA_SIZE_SHIFT (l + 1))) = i * span (l + 1)) as ->.
  { rewrite Z.shiftl_mul_pow2 by lia. fold (span (l + 1)). rewrite wrap_small; nia. }
  assert ((if l + 1 =? LAST then Z.lor (leaf a pa (leaf_type l)) PTE_PAGE_DESC else leaf a pa (leaf_type l)) =
          leaf a pa (leaf_type (l + 1))) as ->.
  { destruct (leaf_type_cases l) as [[_ ->]|[-> _]]; [lia|].
    destruct (Z.eqb_spec (l + 1) LAST) as [E|E].
    - rewrite leaf_lor_type. unfold leaf_type. by rewrite E, Z.eqb_refl.
    - unfold leaf_type. by destruct (Z.eqb_spec (l + 1) LAST). }
  apply leaf_lor_addr; [done|]. intros j Hj.
  destruct (Z.ltb_spec j (LEVEL_TO_VA_SIZE_SHIFT l)).
  - by rewrite (aligned_testbit (LEVEL_TO_VA_SIZE_SHIFT l) pa j) by (done || lia).
  - rewrite (testbit_high (LEVEL_TO_VA_SIZE_SHIFT l) (i * span (l + 1))) by (fold (span l); nia).
    by rewrite andb_false_r.
Qed.

Lemma leaf_not_free a pa l :
  attrs_ok a -> page_addr pa -> IsFreeDesc (leaf a pa (leaf_type l)) = false.
Proof.
  intros Ha Hp. unfold IsFreeDesc. rewrite leaf_land_type by (done || apply leaf_type_range).
  by destruct (leaf_type_cases l) as [[-> _]|[-> _]].
Qed.

Lemma leaf_busy a pa ty : attrs_ok a -> page_addr pa -> 0 <= ty < 4 -> busy (leaf a pa ty) = 1.
Proof.
  intros Ha Hp Ht. unfold busy. destruct (Z.eqb_spec (leaf a pa ty) 0) as [E|]; [|done].
  by apply leaf_nonzero in E.
Qed.

Lemma not_link_free l d : not_link l d -> IsFreeDesc d = (d =? 0).
Proof.
  intros [->|(a & pa & Ha & Hp & _ & _ & ->)]; [done|]. rewrite leaf_not_free by done.
  pose proof (leaf_nonzero a pa (leaf_type l) Ha Hp (leaf_type_range l)).
  by destruct (Z.eqb_spec (leaf a pa (leaf_type l)) 0).
Qed.

Lemma SetPteTableDesc_ok pt t e u :
  table_ok t -> 0 <= e < LN ->
  SetPteTableDesc (t * LN + e) (u * LN) pt = Ok (put_entry (t * LN + e) (link u) pt).
Proof. intros. unfold SetPteTableDesc. by rewrite set_pte_ok. Qed.

(** Once the new table holds what it should, linking it completes the change. *)
Lemma link_table pt pt1 t e l u :
  table_ok t -> table_ok u -> t <> u -> 0 <= e < LN ->
  pt1.(base_xlat_table) = pt.(base_xlat_table) ->
  (forall t' e', table_ok t' -> 0 <= e' < LN -> t' <> u ->
    entry pt1 (t' * LN + e') = entry pt (t' * LN + e')) ->
  (forall i, 0 <= i < LN -> expanded l (entry pt (t * LN + e)) i (entry pt1 (u * LN + i))) ->
  (forall t', table_ok t' -> use_count pt1 t' =
    if t' =? u then 1 + used pt1 u (Z.to_nat LN)
    else if t' =? t then use_count pt t + 1 - busy (entry pt (t * LN + e))
    else use_count pt t') ->
  exists pt',
    (let! pt1 := SetPteTableDesc (t * LN + e) (u * LN) pt1 in
     let! (_, pt1) := TableUsage (u * LN) 1 pt1 in Ok (Some (u * LN), pt1)) = Ok (Some (u * LN), pt') /\
    expands pt pt' t e l u.
Proof.
  intros Ht Hu Htu He Hb Hf Hnew Hc. pose proof LN_range as HLN. pose proof (used_LN pt1 u) as Hused.
  assert (forall i, 0 <= i < LN -> u * LN + i <> t * LN + e) as Hui.
  { intros i Hi E. apply index_inj in E as [-> _]; done. }
  rewrite SetPteTableDesc_ok by done. cbn [rbind]. rewrite TableUsage_start; [|done|].
  2: { rewrite count_put_entry, Hc, Z.eqb_refl by done. lia. }
  cbn [rbind]. eexists. split; [reflexivity|].
  rewrite count_put_entry, Hc, Z.eqb_refl by done.
  split; [done|]. split; [|split; [|split]].
  - rewrite entry_put_count, entry_put_entry. by rewrite Z.eqb_refl.
  - intros t' e' Ht' He' Hne Hd. rewrite entry_put_count, entry_put_entry.
    destruct (Z.eqb_spec (t' * LN + e') (t * LN + e)) as [E|]; [|by apply Hf].
    apply index_inj in E as [-> ->]; [lia|done|done].
  - intros i Hi. rewrite entry_put_count, entry_put_entry.
    destruct (Z.eqb_spec (u * LN + i) (t * LN + e)) as [E|]; [by apply Hui in E|by apply Hnew].
  - intros t' Ht'. rewrite count_put_count, count_put_entry, Hc by done.
    destruct (Z.eqb_spec t' u) as [->|]; [|done].
    rewrite (used_same pt1 (put_count _ _ _)); [lia|]. intros i Hi. rewrite entry_put_count, entry_put_entry.
    destruct (Z.eqb_spec (u * LN + i) (t * LN + e)) as [E|]; [|done]. apply Hui in E; [done|lia].
Qed.

(** [ExpandToTable] links a new table that stands for the entry, or finds that
    every table is in use and changes nothing. *)
Lemma ExpandToTable_spec pt G ptes l t p e :
  wf pt G -> path pt G ptes l t p -> 0 <= e < LN -> l < LAST ->
  not_link l (entry pt (t * LN + e)) ->
  (exists u pt', ExpandToTable (t * LN + e) l pt = Ok (Some (u * LN), pt') /\
    table_ok u /\ G u = None /\ expands pt pt' t e l u) \/
  (ExpandToTable (t * LN + e) l pt = Ok (None, pt) /\ forall t', table_ok t' -> use_count pt t' <> 0).
Proof.
  intros Hwf Hp He Hl Hn. pose proof (path_ghost _ _ _ _ _ _ Hp) as Ht.
  pose proof (path_level _ _ _ _ _ _ Hp) as Hl0.
  destruct (wf_level _ _ Hwf _ _ _ Ht) as [Htok _]. pose proof LN_range as HLN.
  destruct (wf_count_range _ _ _ _ _ Hwf Ht) as [Hct _].
  unfold ExpandToTable. fold LAST LN. destruct (Z.ltb_spec l LAST); [|lia].
  pose proof (NewTable_spec pt) as Hnt. destruct (NewTable pt) as [[k pt1]|]; [left|right; by split].
  destruct Hnt as (u & Hu & -> & Hz & ->).
  assert (G u = None) as Hgu by (by apply (wf_alloc _ _ Hwf)).
  assert (t <> u) as Htu by congruence. exists u.
  assert (forall i, 0 <= i < LN -> entry pt (u * LN + i) = 0) as Hempty by (intros; by apply (wf_zero _ _ Hwf)).
  rewrite get_pte_ok by done. cbn [rbind]. rewrite entry_put_count, (not_link_free l) by done.
  destruct Hn as [Hd|(a & pa & Ha & Hpa & Hm & Hba & Hd)].
  - rewrite Hd. cbn [Z.eqb negb]. rewrite TableUsage_ok; [|done|done|].
    2: { rewrite count_put_count. destruct (Z.eqb_spec t u); [done|]. unfold links in Hct. destruct (l =? 0); lia. }
    cbn [rbind]. edestruct link_table as (pt' & E & X); [exact Htok|exact Hu|done|exact He| | | | |
      exists pt'; split; [exact E|done]]; [done..| |].
    + intros i Hi. left. rewrite !entry_put_count. auto.
    + intros t' Ht'. rewrite !count_put_count. rewrite (used_const _ u _ false).
      * rewrite Hd. cbn. destruct (Z.eqb_spec t' u) as [->|]; [by destruct (Z.eqb_spec u t)|].
        destruct (Z.eqb_spec t' t) as [->|]; [|done]. destruct (Z.eqb_spec t u); [done|lia].
      * intros i Hi. rewrite !entry_put_count, Hempty by lia. done.
  - pose proof (leaf_nonzero a pa (leaf_type l) Ha Hpa (leaf_type_range l)) as Hnz. rewrite Hd.
    destruct (Z.eqb_spec (leaf a pa (leaf_type l)) 0); [done|]. cbn [negb].
    unfold IsBlockDesc. rewrite leaf_land_type by (done || apply leaf_type_range).
    destruct (leaf_type_cases l) as [[_ ->]|[Hlt _]]; [lia|].
    replace (leaf_type l =? PTE_BLOCK_DESC) with true by (by rewrite Hlt).
    set (desc := if l + 1 =? LAST then _ else _). set (k := LEVEL_TO_VA_SIZE_SHIFT (l + 1)).
    assert (k < 32) as Hk.
    { unfold block_allowed in Hba. apply Z.leb_le in Hba. pose proof (shift_succ l).
      pose proof page_shift_pos. unfold k. lia. }
    destruct (fill_table_spec (Z.to_nat LN) 0 u desc k (put_count u 1 pt)) as (pt1 & E & Hb & Hcs & Hes);
      [done|lia..|]. rewrite E. cbn [rbind].
    assert (forall t', use_count pt1 t' = use_count (put_count u 1 pt) t') as Hcs' by (intros; unfold use_count; by rewrite Hcs).
    rewrite TableUsage_start; [|done|].
    2: { rewrite Hcs', count_put_count, Z.eqb_refl. lia. }
    cbn [rbind]. rewrite Hcs', count_put_count, Z.eqb_refl.
    assert (forall i, 0 <= i < LN -> entry pt1 (u * LN + i) =
      leaf a (pa + i * span (l + 1)) (leaf_type (l + 1))) as Hnew.
    { intros i Hi. rewrite Hes. replace (_ && _) with true by (split_cmp; cbn; (done || lia)).
      replace (u * LN + i - u * LN) with i by lia. apply expand_leaf; (done || lia). }
    edestruct link_table as (pt' & E' & X); [exact Htok|exact Hu|done|exact He| | | | |
      exists pt'; split; [exact E'|done]]; [done| | |].
    + intros t' e' Ht' He' Hne. rewrite entry_put_count, Hes, entry_put_count.
      replace (_ && _) with false; [done|]. symmetry. apply andb_false_iff.
      destruct (Z.lt_total t' u) as [Hlt'|[?|Hlt']]; [left|done|right];
        [apply Z.leb_gt|apply Z.ltb_ge]; nia.
    + intros i Hi. rewrite entry_put_count, Hnew by done. right. by exists a, pa.
    + intros t' Ht'. rewrite count_put_count, Hcs', count_put_count, (used_const _ u _ true).
      * rewrite Hd, leaf_busy by (done || apply leaf_type_range).
        destruct (Z.eqb_spec t' u) as [->|]; [lia|]. destruct (Z.eqb_spec t' t) as [->|]; lia.
      * intros i Hi. rewrite entry_put_count, Hnew by lia.
        destruct (part_ok l pa i) as (Q1 & _); [lia|done|done|done|lia|].
        destruct (Z.eqb_spec (leaf a (pa + i * span (l + 1)) (leaf_type (l + 1))) 0) as [E0|]; [|done].
        apply leaf_nonzero in E0; [done|done|done|apply leaf_type_range].
Qed.
End Operations.
