(* ===== verification/MmuMapping.v ===== *)
(** The loop of [SetMapping] (Mmu.v): every request leaves the tables well formed
    and changes the translation of exactly the addresses it has dealt with. *)
From S2P Require Import Prelude Mmu MmuTables MmuMap.

#[local] Ltac Zify.zify_post_hook ::= Z.to_euclidean_division_equations.

Section Mapping.
Context `{MmuConfigOk}.

(** ** Tables that are no longer used *)
Lemma wf_ext pt pt' G :
  wf pt G -> pt'.(base_xlat_table) = pt.(base_xlat_table) ->
  (forall i, entry pt' i = entry pt i) -> (forall t, use_count pt' t = use_count pt t) -> wf pt' G.
Proof.
  intros Hwf Hb He Hc. constructor.
  - rewrite Hb. apply Hwf.
  - apply Hwf.
  - apply Hwf.
  - intros t Ht. rewrite Hc. by apply Hwf.
  - intros t l p e Hg Hr. rewrite He. by apply (wf_entry _ _ Hwf).
  - intros t l p Hg. rewrite Hc, (wf_count _ _ Hwf _ _ _ Hg). f_equal. symmetry. by apply used_same.
  - intros t e Ht Hg Hr. rewrite He. by apply (wf_zero _ _ Hwf).
  - intros u l p Hg. rewrite Hb. destruct (wf_parent _ _ Hwf _ _ _ Hg) as [? Hp]. split; [done|].
    intros Hl. destruct (Hp Hl) as (t & ? & Hl2). exists t. by rewrite He.
Qed.

Lemma walk_ext pt pt' n table l va :
  (forall i, entry pt' i = entry pt i) -> walk n pt' table l va = walk n pt table l va.
Proof.
  intros He. revert table l. induction n as [|n IH]; intros table l; cbn [walk]; rewrite He; [done|].
  destruct (IsTableDesc _ _); [apply IH|done].
Qed.

Lemma path_change pt pt' G G' ptes ptes' l t p :
  path pt G ptes l t p -> pt'.(base_xlat_table) = pt.(base_xlat_table) ->
  (forall t' l' p', G t' = Some (l', p') -> l' <= l -> G' t' = G t') ->
  (forall k, k < l -> ptes' !! k = ptes !! k) ->
  (forall t' l' p' e', G t' = Some (l', p') -> l' < l -> 0 <= e' < LN ->
    entry pt' (t' * LN + e') = entry pt (t' * LN + e')) ->
  path pt' G' ptes' l t p.
Proof.
  intros Hp Hb. induction Hp as [r Hr Hg|l t p e u Hp IH Hl He Hpt Hd Hu Hg]; intros HG Hk Hf.
  - constructor; [by rewrite Hb|]. by rewrite (HG _ _ _ Hg).
  - econstructor; [|done|done|by rewrite Hk by lia| |done|by rewrite (HG _ _ _ Hg)].
    + apply IH; intros; [eapply HG|apply Hk|eapply Hf]; (done || lia).
    + rewrite <-Hd. eapply Hf; [by eapply path_ghost|lia|done].
Qed.

(** The last step of a path. *)
Lemma path_parent pt G ptes l t p :
  path pt G ptes l t p -> 0 < l ->
  exists t0 p0 e0, path pt G ptes (l - 1) t0 p0 /\ 0 <= e0 < LN /\ ptes !! (l - 1) = Some (t0 * LN + e0) /\
    entry pt (t0 * LN + e0) = link t /\ p = p0 * LN + e0 /\ G t = Some (l, p0 * LN + e0) /\ table_ok t.
Proof.
  intros [r Hr Hg|l0 t0 p0 e u Hp Hl He Hpt Hd Hu Hg] Hpos; [lia|].
  exists t0, p0, e. replace (l0 + 1 - 1) with l0 by lia. done.
Qed.

(** A table in use, other than the base table, that has no entry in use. *)
Definition empty_table (pt : ArmMmuPtables) (t : Z) : Prop :=
  table_ok t /\ t * LN <> pt.(base_xlat_table) /\ use_count pt t = 2.

(** A change leaves no empty table behind that was not there before. *)
Definition none_emptied (pt pt' : ArmMmuPtables) : Prop :=
  forall t, empty_table pt' t -> empty_table pt t.

Lemma none_emptied_refl pt : none_emptied pt pt.
Proof. by intros t. Qed.

Lemma none_emptied_trans pt pt1 pt2 :
  none_emptied pt pt1 -> none_emptied pt1 pt2 -> none_emptied pt pt2.
Proof. intros H1 H2 t Ht. by apply H1, H2. Qed.

Lemma free_unused_spec n pt G ptes l t p e :
  n = Z.to_nat l -> wf pt G -> path pt G ptes l t p -> 0 <= e < LN ->
  exists pt' G',
    free_unused n (t * LN + e) l ptes pt = Ok pt' /\ wf pt' G' /\
    pt'.(base_xlat_table) = pt.(base_xlat_table) /\
    (forall va, 0 <= va < 2 ^ 48 -> translate pt' va = translate pt va) /\
    forall t', empty_table pt' t' -> use_count pt t' = 2 /\ t' <> t.
Proof.
  revert pt G l t p e. induction n as [|n IH]; intros pt G l t p e Hn Hwf Hp He; cbn [free_unused].
  { exists pt, G. split; [done|]. split; [done|]. split; [done|]. split; [done|].
    intros t' (_ & Hb & Hc). split; [done|]. intros ->. apply Hb.
    destruct (path_level _ _ _ _ _ _ Hp). destruct Hp as [r Hr _|l0]; [by rewrite Hr|].
    pose proof (path_level _ _ _ _ _ _ Hp). lia. }
  pose proof (path_ghost _ _ _ _ _ _ Hp) as Ht. destruct (wf_level _ _ Hwf _ _ _ Ht) as [Htok Hl].
  destruct (wf_count_range _ _ _ _ _ Hwf Ht) as [Hcr Hc]. assert (0 < l) as Hpos by lia.
  unfold links in *. destruct (Z.eqb_spec l 0); [lia|].
  unfold IsTableUnused. rewrite TableUsage_ok by (done || lia). cbn [rbind]. rewrite Z.add_0_r.
  destruct (Z.eqb_spec (use_count pt t) 2) as [H2|H2].
  2: { assert (forall t', use_count (put_count t (use_count pt t) pt) t' = use_count pt t') as Hsame.
       { intros t'. rewrite count_put_count. by destruct (Z.eqb_spec t' t) as [->|]. }
       exists (put_count t (use_count pt t) pt), G. split; [done|]. split; [|split; [done|split]].
       - by apply (wf_ext pt).
       - intros va Hva. by apply walk_ext.
       - intros t' (_ & _ & Hc2). rewrite Hsame in Hc2. split; [done|congruence]. }
  destruct (path_parent _ _ _ _ _ _ Hp Hpos) as (t0 & p0 & e0 & Hp0 & He0 & Hpt0 & Hd0 & -> & _ & _).
  pose proof (path_ghost _ _ _ _ _ _ Hp0) as Ht0. destruct (wf_level _ _ Hwf _ _ _ Ht0) as [Htok0 Hl0].
  destruct (wf_count_range _ _ _ _ _ Hwf Ht0) as [Hcr0 Hc0].
  assert (t0 <> t) as Hne by (intros ->; rewrite Ht in Ht0; injection Ht0; lia).
  assert (forall i, 0 <= i < LN -> entry pt (t * LN + i) = 0) as Hempty.
  { intros i Hi. apply (used_zero pt t (Z.to_nat LN)); lia. }
  assert (links (l - 1) + 1 <= use_count pt t0) as Hbusy.
  { rewrite Hc0. destruct (Z.leb_spec 1 (used pt t0 (Z.to_nat LN))); [lia|].
    exfalso. apply (link_nonzero t Htok). rewrite <-Hd0. pose proof (used_LN pt t0).
    apply (used_zero pt t0 (Z.to_nat LN)); lia. }
  unfold FreeTable. rewrite TableIndex_ok by done. cbn [rbind].
  rewrite count_put_count, Z.eqb_refl, H2, Z.eqb_refl. rewrite Hpt0. cbn [of_option rbind].
  unfold SetPteBlockDesc. change (truth 0) with false. cbv iota.
  rewrite set_pte_ok by done. cbn [rbind]. fold (put_count t 0 (put_count t 2 pt)).
  assert (use_count (put_entry (t0 * LN + e0) 0 (put_count t 0 (put_count t 2 pt))) t0 = use_count pt t0) as Hct0.
  { rewrite count_put_entry, !count_put_count. by destruct (Z.eqb_spec t0 t). }
  rewrite TableUsage_ok; [|done|done|rewrite Hct0; unfold links in Hbusy; destruct (l - 1 =? 0); lia].
  cbn [rbind]. rewrite Hct0. set (pt2 := put_count t0 _ _).
  assert (forall i, entry pt2 i = if i =? t0 * LN + e0 then 0 else entry pt i) as Hent.
  { intros i. unfold pt2. by rewrite entry_put_count, entry_put_entry, !entry_put_count. }
  assert (entry_changed pt pt2 t0 e0) as Hch.
  { intros t' e' Ht' He' Hd. rewrite Hent. destruct (Z.eqb_spec (t' * LN + e') (t0 * LN + e0)) as [E|]; [|done].
    apply index_inj in E; [lia|done|done]. }
  assert (wf pt2 (upd G t None)) as Hwf2.
  { apply (wf_release pt pt2 G t0 (l - 1) p0 e0); try done.
    - by replace (l - 1 + 1) with l by lia.
    - by rewrite Hent, Z.eqb_refl.
    - intros t' Ht'. unfold pt2. rewrite count_put_count, count_put_entry, !count_put_count.
      destruct (Z.eqb_spec t' t0) as [->|]; [|by destruct (Z.eqb_spec t' t)].
      by destruct (Z.eqb_spec t0 t). }
  assert (path pt2 (upd G t None) ptes (l - 1) t0 p0) as Hp2.
  { apply (path_change pt pt2 G _ ptes ptes); try done.
    - intros t' l' p' Hg Hle. apply upd_other. intros ->. rewrite Ht in Hg. injection Hg. lia.
    - intros t' l' p' e' Hg Hlt He'. destruct (wf_level _ _ Hwf _ _ _ Hg) as [Htok' _].
      apply Hch; [done|done|]. left. intros ->. rewrite Ht0 in Hg. injection Hg. lia. }
  destruct (IH pt2 (upd G t None) (l - 1) t0 p0 e0) as (pt' & G' & E & Hwf' & Hb' & HT & HE); [lia|done..|].
  exists pt', G'. split; [done|]. split; [done|]. split; [by rewrite Hb'|]. split.
  2: { intros t' Ht'. destruct (HE t' Ht') as [Hc2 Hne2]. unfold pt2 in Hc2.
       rewrite count_put_count, count_put_entry, !count_put_count in Hc2.
       destruct (Z.eqb_spec t' t0); [done|]. destruct (Z.eqb_spec t' t); [lia|done]. }
  intros va Hva. rewrite HT by done.
  rewrite (translate_change pt pt2 G ptes (l - 1) t0 p0 e0 va); try done.
  - destruct (Z.eqb_spec (slot (l - 1) va) (p0 * LN + e0)) as [Hs|]; [|done].
    rewrite Hent, Z.eqb_refl, free_value.
    rewrite (translate_at pt G ptes (l - 1) t0 p0 e0 va), Hd0, link_value by (done || lia).
    rewrite walk_entry, Hempty, free_value; [done| |lia].
    apply Z.mod_pos_bound. pose proof LN_range. lia.
  - intros t' l' p' e' Hg He' Hd. destruct (wf_level _ _ Hwf _ _ _ Hg) as [Htok' _]. by apply Hch.
Qed.

(** ** Requests

    What a call of [SetMapping] asks for: to unmap the range, or to map it to
    [phys] with attributes [a]. *)
Inductive request := Unmap | Map (a phys : Z).

Definition req_desc (r : request) : Z := match r with Unmap => 0 | Map a phys => Z.lor a phys end.
(** What [va] is to become when the request starts at [virt]. *)
Definition req_value (r : request) (virt va : Z) : option (Z * Z) :=
  match r with Unmap => None | Map a phys => Some (phys + (va - virt), a) end.
Definition req_skip (k : Z) (r : request) : request :=
  match r with Unmap => Unmap | Map a phys => Map a (phys + k) end.

(** The architecture has no blocks of more than 1G.  A request to map so much that it
    takes a whole entry of a level without blocks is not covered (the code writes a
    block all the same, see [FMmuMap_16k_block]): 512G with 4K pages, 64G with 16K,
    4T with 64K. *)
Definition small_enough (size : Z) : Prop :=
  forall l, 0 <= l <= LAST -> block_allowed l = false -> size < span l.

Definition req_ok (r : request) (size : Z) : Prop :=
  match r with
  | Unmap => True
  | Map a phys => attrs_ok a /\ 0 <= phys /\ phys mod 2 ^ PAGE_SIZE_SHIFT = 0 /\
      phys + size <= 2 ^ 48 /\ small_enough size
  end.

(** The range consists of pages of the address space. *)
Record range_ok (virt size : Z) : Prop := {
  range_virt : 0 <= virt /\ virt + size <= 2 ^ 48 /\ 0 <= size;
  range_page : virt mod 2 ^ PAGE_SIZE_SHIFT = 0 /\ size mod 2 ^ PAGE_SIZE_SHIFT = 0
}.

(** Where existing mappings may be overwritten, an existing block with the attributes
    asked for can stand in for the mapping asked for: one that lies within a block of
    it, at the offset of the virtual address. *)
Definition kept (r : request) (virt va : Z) (old : option (Z * Z)) : Prop :=
  match r, old with
  | Map a phys, Some (pa, a') =>
      a' = a /\ exists l, 0 <= l <= LAST /\ block_allowed l = true /\
        pa mod span l = va mod span l /\ Z.abs (pa - (phys + (va - virt))) < span l
  | _, _ => False
  end.

(** What a request may make of an address. *)
Definition dealt_value (r : request) (ow : bool) (virt va : Z) (old new : option (Z * Z)) : Prop :=
  new = req_value r virt va \/ ow = true /\ new = old /\ kept r virt va old.

(** When both addresses have the same offset in 1G, nothing but what is asked for is kept. *)
Lemma kept_exact a phys virt va old :
  (phys - virt) mod 2 ^ 30 = 0 -> kept (Map a phys) virt va old -> old = req_value (Map a phys) virt va.
Proof.
  destruct old as [[pa a']|]; [|done]. cbn. intros Hc (-> & l & Hl & Hb & Hm & Habs).
  assert (0 < span l) as Hs by (apply span_pos; lia).
  pose proof (block_divides l ltac:(lia) Hb) as Hd.
  apply Z.mod_divide in Hc as [x Hx]; [|lia].
  destruct (proj1 (Z.mod_divide (2 ^ 30) (span l) ltac:(lia)) Hd) as [y Hy].
  assert ((pa - (phys + (va - virt))) mod span l = 0) as Hoff.
  { replace (pa - (phys + (va - virt))) with (pa - va - x * y * span l)
      by (rewrite <-Z.mul_assoc, <-Hy; lia).
    rewrite Zminus_mod, Z_mod_mult, Z.sub_0_r, Z.mod_mod, Zminus_mod, Hm, Z.sub_diag by lia.
    apply Z.mod_0_l. lia. }
  apply Z.mod_divide in Hoff as [z Hz]; [|lia]. apply Z.abs_lt in Habs.
  assert (z = 0) as -> by nia. do 2 f_equal. lia.
Qed.

Definition page : Z := 2 ^ PAGE_SIZE_SHIFT.

Lemma page_pos : 4096 <= page.
Proof. unfold page. destruct granule_ok as [-> | [-> | ->]]; cbn; lia. Qed.

Lemma req_value_skip r virt k va : req_value (req_skip k r) (virt + k) va = req_value r virt va.
Proof. destruct r; cbn; [done|]. do 2 f_equal. lia. Qed.

Lemma req_desc_skip r size k :
  req_ok r size -> 0 < k < size -> k mod page = 0 ->
  (if truth (req_desc r) then u64 (req_desc r + k) else req_desc r) = req_desc (req_skip k r).
Proof.
  destruct r as [|a phys]; cbn; [done|]. intros (Ha & Hp0 & Hp & Hle & _) Hk Hm.
  pose proof page_pos as Hpg.
  assert (page_addr phys) as Hpa by (split; [lia|done]).
  assert (page_addr (phys + k)) as Hpa'.
  { split; [lia|]. unfold page in *. rewrite Z.add_mod, Hp, Hm by lia. apply Z.mod_0_l. lia. }
  assert (Z.lor a phys <> 0) as Hnz.
  { rewrite <-leaf_0. by apply leaf_nonzero. }
  unfold truth. destruct (Z.eqb_spec (Z.lor a phys) 0); [done|]. cbn [negb].
  rewrite !attrs_plus_addr by done. rewrite wrap_small; [lia|].
  replace (a + phys + k) with (a + (phys + k)) by lia. rewrite <-attrs_plus_addr by done.
  apply lor_range; [lia|apply Ha|]. destruct Hpa'. lia.
Qed.

Lemma req_ok_skip r size k :
  req_ok r size -> 0 <= k <= size -> k mod page = 0 -> req_ok (req_skip k r) (size - k).
Proof.
  destruct r as [|a phys]; cbn; [done|]. intros (Ha & Hp0 & Hp & Hle & Hsm) Hk Hm. pose proof page_pos as Hpg.
  split; [done|]. split; [lia|]. split; [|split; [lia|intros l Hl Hb; pose proof (Hsm l Hl Hb); lia]].
  unfold page in *.
  rewrite Z.add_mod, Hp, Hm by lia. apply Z.mod_0_l. lia.
Qed.

Lemma dealt_value_skip r ow virt k va old new :
  dealt_value (req_skip k r) ow (virt + k) va old new <-> dealt_value r ow virt va old new.
Proof.
  unfold dealt_value. rewrite req_value_skip.
  assert (kept (req_skip k r) (virt + k) va old <-> kept r virt va old) as ->; [|done].
  destruct r as [|a phys]; cbn; [done|]. destruct old as [[pa a']|]; [|done].
  by replace (phys + k + (va - (virt + k))) with (phys + (va - virt)) by lia.
Qed.

Lemma range_skip virt size k :
  range_ok virt size -> 0 <= k <= size -> k mod page = 0 -> range_ok (virt + k) (size - k).
Proof.
  intros [Hv [Hp1 Hp2]] Hk Hm. pose proof page_pos as Hpg. unfold page in *. split.
  - lia.
  - split.
    + rewrite Z.add_mod, Hp1, Hm by lia. apply Z.mod_0_l. lia.
    + rewrite Zminus_mod, Hp2, Hm by lia. apply Z.mod_0_l. lia.
Qed.

(** ** The branches of [map_step] *)
Lemma mask_af l : Z.testbit (Z.lor DESC_ATTRS_MASK (GENMASK_ULL 47 (LEVEL_TO_VA_SIZE_SHIFT l))) 10 = true.
Proof. rewrite Z.lor_spec, attrs_mask_testbit by lia. done. Qed.

(** A descriptor with the access flag and one without are not alike. *)
Lemma superset_af d d' l :
  Z.testbit d 10 <> Z.testbit d' 10 -> IsDescSuperset d d' l = false.
Proof.
  intros Hd. unfold IsDescSuperset. apply Z.eqb_neq. intros E. apply Hd.
  apply (f_equal (fun x => Z.testbit x 10)) in E. rewrite !Z.land_spec, mask_af in E.
  by rewrite !andb_true_r in E.
Qed.

Lemma req_af r size : req_ok r size -> 0 < size ->
  Z.testbit (req_desc r) 10 = match r with Unmap => false | Map _ _ => true end.
Proof.
  destruct r as [|a phys]; cbn [req_ok req_desc]; [done|]. intros ((_ & _ & Ha) & _) _.
  by rewrite Z.lor_spec, Ha.
Qed.

Lemma leaf_af a pa ty : attrs_ok a -> Z.testbit (leaf a pa ty) 10 = true.
Proof. intros (_ & _ & Ha). unfold leaf. by rewrite !Z.lor_spec, Ha. Qed.

Lemma granule_cases :
  PAGE_SIZE_SHIFT = 12 /\ LAST = 3 \/ PAGE_SIZE_SHIFT = 14 /\ LAST = 3 \/ PAGE_SIZE_SHIFT = 16 /\ LAST = 2.
Proof.
  unfold LAST, XLAT_LAST_LEVEL, CONFIG_MMU_PAGE_SIZE.
  destruct granule_ok as [E|[E|E]]; rewrite E; auto.
Qed.

Lemma span_48 l : 0 <= l <= LAST -> PAGE_SIZE_SHIFT <= LEVEL_TO_VA_SIZE_SHIFT l <= 47.
Proof.
  intros Hl. split; [apply shift_ge; lia|]. unfold LEVEL_TO_VA_SIZE_SHIFT, LN_XLAT_VA_SIZE_SHIFT. fold LAST.
  destruct granule_cases as [[-> E]|[[-> E]|[-> E]]]; rewrite E in *; lia.
Qed.

Lemma level_size_ok l : 0 <= l <= LAST -> u64 (Z.shiftl 1 (LEVEL_TO_VA_SIZE_SHIFT l)) = span l.
Proof.
  intros Hl. pose proof (span_48 l Hl). pose proof page_shift_pos. rewrite Z.shiftl_1_l. fold (span l).
  apply wrap_small. pose proof (span_pos l). split; [lia|]. unfold span.
  apply Z.pow_lt_mono_r; lia.
Qed.

Lemma offset_mask l va : 0 <= l <= LAST -> Z.land va (span l - 1) = va mod span l.
Proof.
  intros Hl. pose proof (span_48 l Hl). pose proof page_shift_pos. unfold span.
  replace (2 ^ LEVEL_TO_VA_SIZE_SHIFT l - 1) with (Z.ones (LEVEL_TO_VA_SIZE_SHIFT l))
    by (rewrite Z.ones_equiv; lia).
  rewrite Z.land_ones; lia.
Qed.

Lemma aligned_ok r size l :
  req_ok r size -> 0 < size -> 0 <= l <= LAST -> block_allowed l = true ->
  FMmuBlcokAligned (req_desc r) (span l) =
    match r with Unmap => true | Map _ phys => phys mod span l =? 0 end.
Proof.
  intros Hr Hsz Hl Hb. unfold FMmuBlcokAligned. assert (span l <= 2 ^ 30) by (apply block_span; [lia|done]).
  assert (0 < span l) by (apply span_pos; lia).
  rewrite (wrap_small 32 (span l)), (wrap_small 32 (span l - 1)), offset_mask by lia.
  destruct r as [|a phys]; cbn.
  - by rewrite Z.mod_0_l by lia.
  - destruct Hr as (Ha & Hp0 & Hp & Hle & _). rewrite <-leaf_0, leaf_land_addr.
    + by rewrite Hp, Z.sub_0_r.
    + done.
    + split; [lia|done].
    + lia.
    + pose proof page_shift_pos. lia.
Qed.

(** Addresses of one entry. *)
Lemma same_slot l virt va :
  0 <= l <= LAST -> virt <= va < virt + (span l - virt mod span l) ->
  slot l va = slot l virt /\ va mod span l = virt mod span l + (va - virt).
Proof.
  intros Hl Hva. assert (0 < span l) as Hs by (apply span_pos; lia).
  pose proof (Z.div_mod virt (span l)). pose proof (Z.mod_pos_bound virt (span l)).
  assert (va / span l = virt / span l) as E.
  { symmetry. apply Z.div_unique with (virt mod span l + (va - virt)); lia. }
  split; [done|]. rewrite (Z.mod_eq va), E by lia. lia.
Qed.

(** The position the loop is at: entry [e] of table [t], reached by a path, which
    serves [virt]. *)
Section Position.
Context (pt : ArmMmuPtables) (G : ghost) (ptes : gmap Z Z) (l t p e virt size : Z) (r : request) (ow : bool).
Context (Hwf : wf pt G) (Hp : path pt G ptes l t p) (He : 0 <= e < LN).
Context (Hs : slot l virt = p * LN + e).
Context (Hrange : range_ok virt size) (Hsz : 0 < size) (Hreq : req_ok r size).

Lemma pos_level : 0 <= l <= LAST.
Proof. by eapply path_level. Qed.

Lemma pos_table : G t = Some (l, p) /\ table_ok t.
Proof. pose proof (path_ghost _ _ _ _ _ _ Hp) as Ht. split; [done|]. by eapply (wf_level _ _ Hwf). Qed.

(** What dealing with [k] bytes comes to. *)
Definition dealt (k : Z) (pt' : ArmMmuPtables) : Prop :=
  0 < k <= size /\ k mod page = 0 /\ pt'.(base_xlat_table) = pt.(base_xlat_table) /\
  (exists G', wf pt' G') /\
  (forall va, 0 <= va < 2 ^ 48 ->
    if (virt <=? va) && (va <? virt + k)
    then dealt_value r ow virt va (translate pt va) (translate pt' va)
    else translate pt' va = translate pt va) /\
  (r = Unmap -> none_emptied pt pt').

(** The entry already maps the addresses as asked, or as little as asked. *)
Lemma deal_superset :
  not_link l (entry pt (t * LN + e)) ->
  negb ow && negb (IsFreeDesc (entry pt (t * LN + e))) = false ->
  IsDescSuperset (entry pt (t * LN + e)) (req_desc r) l = true ->
  dealt (Z.min size (span l - virt mod span l)) pt.
Proof.
  intros Hn How Hsup. pose proof pos_level as Hl. pose proof page_pos as Hpg.
  assert (0 < span l) as Hspan by (apply span_pos; lia).
  pose proof (Z.mod_pos_bound virt (span l) Hspan) as Hm.
  destruct Hrange as [Hv [Hp1 Hp2]].
  split; [lia|]. split; [|split; [done|split; [by exists G|split; [|intros _; apply none_emptied_refl]]]].
  - assert (forall x, x mod span l mod page = x mod page) as Hmm.
    { intros x. destruct (proj1 (Z.mod_divide (span l) page ltac:(lia)) (span_page l ltac:(lia))) as [y Hy].
      assert (0 < y) by nia. rewrite Hy, Z.mul_comm, Z.rem_mul_r, Z.mul_comm, Z.mod_add by lia.
      apply Z.mod_mod. lia. }
    destruct (Z.min_spec size (span l - virt mod span l)) as [[_ ->]|[_ ->]]; [done|].
    unfold page in *. rewrite Zminus_mod, span_page, Hmm, Hp1 by lia. apply Z.mod_0_l. lia.
  - intros va Hva. destruct ((virt <=? va) && _) eqn:Hb; [|done].
    apply andb_true_iff in Hb as [Hb1%Z.leb_le Hb2%Z.ltb_lt].
    destruct (same_slot l virt va Hl) as [Hsl Hmod]; [lia|].
    rewrite (translate_at pt G ptes l t p e va) by (done || by rewrite Hsl).
    destruct Hn as [Hd|(a & pa & Ha & Hpa & Hal & Hba & Hd)]; rewrite Hd in *.
    + rewrite free_value. destruct r as [|a phys]; [by left|].
      rewrite superset_af in Hsup; [done|]. rewrite (req_af _ size) by done.
      by rewrite Z.testbit_0_l.
    + destruct r as [|a' phys].
      { rewrite superset_af in Hsup; [done|]. rewrite leaf_af by done. cbn. done. }
      rewrite leaf_value by done. destruct Hreq as (Ha' & Hp0 & Hpp & Hle & _).
      assert (page_addr phys) as Hphys by (split; [lia|done]).
      pose proof (span_48 l Hl) as H48. unfold req_desc in Hsup. rewrite <-leaf_0 in Hsup.
      apply superset_leaf in Hsup as [-> Hpeq]; try done; try lia; [|apply leaf_type_range].
      right. split; [|split; [done|]].
      { destruct ow; [done|]. rewrite leaf_not_free in How by done. done. }
      cbn. split; [done|]. exists l. split; [done|]. split; [done|].
      pose proof (Z.mod_pos_bound va (span l) Hspan). pose proof (Z.mod_pos_bound phys (span l) Hspan).
      split; [|apply Z.abs_lt; rewrite Hmod; lia].
      rewrite Z.add_mod, Hal, Z.add_0_l, !Z.mod_mod by lia. done.
Qed.

(** The descriptor the entry gets. *)
Definition new_desc : Z := match r with Unmap => 0 | Map a phys => leaf a phys (leaf_type l) end.

Lemma new_desc_set pt0 :
  SetPteBlockDesc (t * LN + e) (req_desc r) l pt0 = Ok (put_entry (t * LN + e) new_desc pt0).
Proof.
  destruct pos_table as [_ Htok]. unfold SetPteBlockDesc, new_desc, truth.
  destruct r as [|a phys]; [by rewrite set_pte_ok|]. destruct Hreq as (Ha & Hp0 & Hpp & Hle & _).
  assert (page_addr phys) by (split; [lia|done]). unfold req_desc. rewrite <-leaf_0.
  pose proof (leaf_nonzero a phys 0 ltac:(done) ltac:(done) ltac:(lia)).
  destruct (Z.eqb_spec (leaf a phys 0) 0); [done|]. cbn [negb].
  rewrite set_pte_ok, leaf_lor_type, Z.lor_0_l by done. done.
Qed.

(** The two adjustments of the use count. *)
Lemma deal_counts d :
  d = entry pt (t * LN + e) -> not_link l d -> IsDescSuperset d (req_desc r) l = false ->
  exists pt1,
    (let! pt := if IsFreeDesc d then let! (_, pt) := TableUsage (t * LN + e) 1 pt in Ok pt else Ok pt in
     let! pt := if truth (req_desc r) then Ok pt
                else let! (_, pt) := TableUsage (t * LN + e) (-1) pt in Ok pt in Ok pt) = Ok pt1 /\
    pt1.(base_xlat_table) = pt.(base_xlat_table) /\ (forall i, entry pt1 i = entry pt i) /\
    (forall t', table_ok t' -> use_count pt1 t' =
      if t' =? t then use_count pt t - busy d + busy new_desc else use_count pt t').
Proof.
  intros Hde Hn Hsup. destruct pos_table as [Ht Htok]. pose proof pos_level as Hl.
  destruct (wf_count_range _ _ _ _ _ Hwf Ht) as [Hcr Hc]. pose proof (used_LN pt t) as Hused.
  rewrite (not_link_free l) by done. unfold new_desc, truth.
  assert (1 <= links l) by (unfold links; destruct (l =? 0); lia).
  destruct Hn as [->|(a & pa & Ha & Hpa & _ & _ & ->)].
  - destruct r as [|a' phys]; [done|]. destruct Hreq as (Ha' & Hp0 & Hpp & Hle & _).
    assert (page_addr phys) by (split; [lia|done]). cbn [Z.eqb].
    rewrite TableUsage_ok by (done || lia). cbn [rbind]. unfold req_desc.
    rewrite <-leaf_0. pose proof (leaf_nonzero a' phys 0 ltac:(done) ltac:(done) ltac:(lia)).
    destruct (Z.eqb_spec (leaf a' phys 0) 0); [done|]. cbn [negb rbind].
    eexists. split; [reflexivity|]. split; [done|]. split; [done|]. intros t' Ht'.
    rewrite count_put_count, leaf_busy by (done || apply leaf_type_range).
    destruct (Z.eqb_spec t' t) as [->|]; [cbn; lia|done].
  - pose proof (leaf_nonzero a pa (leaf_type l) Ha Hpa (leaf_type_range l)).
    destruct (Z.eqb_spec (leaf a pa (leaf_type l)) 0); [done|]. cbn [rbind].
    rewrite leaf_busy by (done || apply leaf_type_range).
    assert (1 <= used pt t (Z.to_nat LN)) as Hu1.
    { destruct (Z.leb_spec 1 (used pt t (Z.to_nat LN))); [done|].
      pose proof (used_zero pt t (Z.to_nat LN) e ltac:(lia) ltac:(lia)). congruence. }
    destruct r as [|a' phys].
    + cbn [req_desc Z.eqb negb]. rewrite TableUsage_ok by (done || lia). cbn [rbind].
      eexists. split; [reflexivity|]. split; [done|]. split; [done|]. intros t' Ht'.
      rewrite count_put_count. destruct (Z.eqb_spec t' t) as [->|]; [cbn; lia|done].
    + destruct Hreq as (Ha' & Hp0 & Hpp & Hle & _). assert (page_addr phys) by (split; [lia|done]).
      unfold req_desc. rewrite <-leaf_0. pose proof (leaf_nonzero a' phys 0 ltac:(done) ltac:(done) ltac:(lia)).
      destruct (Z.eqb_spec (leaf a' phys 0) 0); [done|]. cbn [negb rbind].
      exists pt. split; [done|]. split; [done|]. split; [done|]. intros t' Ht'.
      rewrite leaf_busy by (done || apply leaf_type_range).
      destruct (Z.eqb_spec t' t) as [->|]; [lia|done].
Qed.

(** Writing the descriptor where it fits. *)
Lemma deal_write :
  not_link l (entry pt (t * LN + e)) ->
  IsDescSuperset (entry pt (t * LN + e)) (req_desc r) l = false ->
  span l <= size -> virt mod span l = 0 -> block_allowed l = true ->
  match r with Unmap => True | Map _ phys => phys mod span l = 0 end ->
  exists pt',
    (let d := entry pt (t * LN + e) in
     let! pt := if IsFreeDesc d then let! (_, pt) := TableUsage (t * LN + e) 1 pt in Ok pt else Ok pt in
     let! pt := if truth (req_desc r) then Ok pt
                else let! (_, pt) := TableUsage (t * LN + e) (-1) pt in Ok pt in
     let! pt := SetPteBlockDesc (t * LN + e) (req_desc r) l pt in
     free_unused (Z.to_nat (l - BASE_XLAT_LEVEL)) (t * LN + e) l ptes pt) = Ok pt' /\
    dealt (span l) pt'.
Proof.
  intros Hn Hsup Hfit Hal Hba Hphys. pose proof pos_level as Hl. destruct pos_table as [Ht Htok].
  assert (0 < span l) as Hspan by (apply span_pos; lia). pose proof page_pos as Hpg.
  destruct (deal_counts _ eq_refl Hn Hsup) as (pt1 & E1 & Hb1 & He1 & Hc1).
  set (d := entry pt (t * LN + e)) in *. set (pt2 := put_entry (t * LN + e) new_desc pt1).
  assert (forall i, entry pt2 i = if i =? t * LN + e then new_desc else entry pt i) as He2.
  { intros i. unfold pt2. by rewrite entry_put_entry, He1. }
  assert (not_link l new_desc) as Hnv.
  { unfold new_desc. destruct r as [|a phys]; [by left|right]. destruct Hreq as (Ha & Hp0 & Hpp & Hle & _).
    exists a, phys. split; [done|]. split; [split; [lia|done]|]. done. }
  assert (entry_changed pt pt2 t e) as Hch.
  { intros t' e' Ht' He' Hd. rewrite He2.
    destruct (Z.eqb_spec (t' * LN + e') (t * LN + e)) as [E|]; [|done].
    apply index_inj in E; [lia|done|done]. }
  assert (wf pt2 G) as Hwf2.
  { apply (wf_write pt pt2 G t l p e); try done; rewrite ?He2, ?Z.eqb_refl; [done|].
    intros t' Ht'. unfold pt2. by rewrite count_put_entry, Hc1. }
  assert (path pt2 G ptes l t p) as Hp2.
  { apply (path_change pt pt2 G G ptes ptes); try done. intros t' l' p' e' Hg Hlt He'.
    destruct (wf_level _ _ Hwf _ _ _ Hg) as [Htok' _]. apply Hch; [done|done|].
    left. intros ->. rewrite Ht in Hg. injection Hg. lia. }
  destruct (free_unused_spec (Z.to_nat l) pt2 G ptes l t p e) as (pt3 & G3 & E3 & Hwf3 & Hb3 & HT3 & HE3); [done..|].
  exists pt3. split.
  - cbv zeta. rewrite base_level, Z.sub_0_r. revert E1.
    destruct (if IsFreeDesc d then _ else _) as [pa|]; [cbn [rbind]|done].
    destruct (if truth (req_desc r) then _ else _) as [pb|]; [cbn [rbind]|done].
    intros [= ->]. rewrite new_desc_set. cbn [rbind]. exact E3.
  - split; [lia|]. split; [apply span_page; lia|]. split; [by rewrite Hb3|]. split; [by exists G3|].
    split.
    2: { intros _ t' Ht'. destruct (HE3 t' Ht') as [Hc3 Hne3]. destruct Ht' as (Ht' & Hbt & _).
         split; [done|]. rewrite Hb3 in Hbt. change (t' * LN <> pt1.(base_xlat_table)) in Hbt.
         rewrite Hb1 in Hbt. split; [done|]. unfold pt2 in Hc3.
         rewrite count_put_entry, Hc1 in Hc3 by done. by destruct (Z.eqb_spec t' t). }
    intros va Hva. rewrite HT3 by done.
    rewrite (translate_change pt pt2 G ptes l t p e va); try done.
    2: { intros t' l' p' e' Hg He' Hd. destruct (wf_level _ _ Hwf _ _ _ Hg) as [Htok' _]. by apply Hch. }
    rewrite <-Hs, He2, Z.eqb_refl.
    assert (virt = slot l virt * span l) as Hvs by (unfold slot; pose proof (Z.div_mod virt (span l)); lia).
    assert ((slot l va =? slot l virt) = (virt <=? va) && (va <? virt + span l)) as ->.
    { pose proof (slot_range l va (slot l virt) ltac:(lia)) as Hsr.
      destruct (Z.eqb_spec (slot l va) (slot l virt)) as [E|E]; symmetry.
      - apply Hsr in E. apply andb_true_iff. split; [apply Z.leb_le|apply Z.ltb_lt]; lia.
      - apply andb_false_iff. destruct (Z.leb_spec virt va); [right|by left]. apply Z.ltb_ge.
        destruct (Z.leb_spec (virt + span l) va); [done|]. exfalso. apply E, Hsr. lia. }
    destruct ((virt <=? va) && _) eqn:Hb; [left|done].
    apply andb_true_iff in Hb as [Hb1'%Z.leb_le Hb2'%Z.ltb_lt].
    destruct (same_slot l virt va Hl) as [_ Hmod]; [lia|].
    unfold new_desc. destruct r as [|a phys]; [apply free_value|]. destruct Hreq as (Ha & Hp0 & Hpp & Hle & _).
    rewrite leaf_value; [|done|split; [lia|done]|done..]. cbn. rewrite Hmod, Hal. do 2 f_equal.
Qed.
End Position.

(** ** One pass of the loop *)
Record cursor_ok (pt : ArmMmuPtables) (G : ghost) (r : request) (c : cursor) : Prop := {
  cur_desc : c.(desc) = req_desc r;
  cur_range : range_ok c.(virt) c.(size);
  cur_size : 0 < c.(size);
  cur_req : req_ok r c.(size);
  cur_path : exists t p, c.(table) = t * LN /\ path pt G c.(ptes) c.(level) t p /\
    slot c.(level) c.(virt) / LN = p
}.

Inductive step_ok (ow : bool) (r : request) (c : cursor) (pt : ArmMmuPtables)
    : res (cursor * ArmMmuPtables + Z * ArmMmuPtables) -> Prop :=
| step_descend c' pt' G' :
    c'.(virt) = c.(virt) -> c'.(size) = c.(size) -> c'.(level) = c.(level) + 1 ->
    cursor_ok pt' G' r c' -> wf pt' G' -> pt'.(base_xlat_table) = pt.(base_xlat_table) ->
    (forall va, 0 <= va < 2 ^ 48 -> translate pt' va = translate pt va) ->
    (r = Unmap -> none_emptied pt pt') ->
    step_ok ow r c pt (Ok (inl (c', pt')))
| step_advance c0 pt' k :
    c0.(virt) = c.(virt) -> c0.(size) = c.(size) -> c0.(desc) = c.(desc) ->
    dealt pt c.(virt) c.(size) r ow k pt' ->
    step_ok ow r c pt (Ok (inl (move_on k c0 pt', pt')))
| step_busy :
    ow = false -> translate pt c.(virt) <> None -> step_ok ow r c pt (Ok (inr (- EBUSY, pt)))
| step_full :
    (forall t, table_ok t -> use_count pt t <> 0) -> step_ok ow r c pt (Ok (inr (- ENOMEM, pt))).

Lemma expand_path pt G ptes ptes' l t p :
  path pt G ptes l t p -> (forall k, k < l -> ptes' !! k = ptes !! k) -> path pt G ptes' l t p.
Proof. intros Hp Hk. by apply (path_change pt pt G G ptes ptes'). Qed.

Lemma entry_is_link G l q d :
  entry_ok G l q d -> IsTableDesc d l = true ->
  exists u, l < LAST /\ table_ok u /\ G u = Some (l + 1, q) /\ d = link u.
Proof.
  intros [|a pa Ha Hpa|u Hl Hu Hg] Hd.
  - unfold IsTableDesc in Hd. by rewrite Z.land_0_l, andb_false_r in Hd.
  - by rewrite leaf_not_table in Hd.
  - by exists u.
Qed.

(** Where the descriptor does not fit there is a level below. *)
Lemma fits r virt size l :
  0 < size -> req_ok r size -> 0 <= l <= LAST -> (r = Unmap -> block_allowed l = true) ->
  (size <? span l) || truth (Z.land virt (span l - 1)) || negb (FMmuBlcokAligned (req_desc r) (span l)) = false ->
  span l <= size /\ virt mod span l = 0 /\ block_allowed l = true /\
  match r with Unmap => True | Map _ phys => phys mod span l = 0 end.
Proof.
  intros Hsz Hreq Hl Hun Hc. rewrite !orb_false_iff in Hc. destruct Hc as [[Hc1%Z.ltb_ge Hc2] Hc3].
  rewrite offset_mask in Hc2 by done. unfold truth in Hc2. apply negb_false_iff, Z.eqb_eq in Hc2.
  apply negb_false_iff in Hc3.
  assert (block_allowed l = true) as Hb.
  { destruct r as [|a phys]; [by apply Hun|]. destruct (block_allowed l) eqn:Hb; [done|].
    destruct Hreq as (_ & _ & _ & _ & Hsm). pose proof (Hsm l Hl Hb). lia. }
  rewrite (aligned_ok r size) in Hc3 by done. split; [done|]. split; [done|]. split; [done|].
  destruct r; [done|]. by apply Z.eqb_eq.
Qed.

Lemma page_fits r virt size :
  range_ok virt size -> 0 < size -> req_ok r size ->
  (size <? span LAST) || truth (Z.land virt (span LAST - 1)) ||
    negb (FMmuBlcokAligned (req_desc r) (span LAST)) = false.
Proof.
  intros Hr Hsz Hreq. destruct (range_page _ _ Hr) as [Hp1 Hp2]. pose proof page_pos as Hpg. unfold page in Hpg.
  pose proof LAST_cases. rewrite offset_mask by lia.
  rewrite (aligned_ok r size LAST) by (done || lia || apply LAST_allowed). rewrite span_LAST, Hp1.
  destruct (Z.ltb_spec size (2 ^ PAGE_SIZE_SHIFT)); [rewrite Z.mod_small in Hp2; lia|].
  destruct r as [|a phys]; [done|]. destruct Hreq as (_ & _ & -> & _). done.
Qed.

Lemma superset_refl d l : IsDescSuperset d d l = true.
Proof. apply Z.eqb_refl. Qed.

(** A block that is split for unmapping fills its new table. *)
Lemma expand_none_emptied pt pt' G l t e u :
  wf pt G -> G u = None -> G t <> None -> 0 <= e < LN -> table_ok t ->
  not_link l (entry pt (t * LN + e)) -> IsDescSuperset (entry pt (t * LN + e)) 0 l = false ->
  0 <= l < LAST -> expands pt pt' t e l u -> none_emptied pt pt'.
Proof.
  intros Hwf Hgu Hgt He Htok Hn Hsup Hl (Hb & _ & _ & Hnew & Hc) t' (Ht' & Hbt & Hct).
  assert (busy (entry pt (t * LN + e)) = 1) as Hbusy.
  { unfold busy. destruct (Z.eqb_spec (entry pt (t * LN + e)) 0) as [E0|]; [|done].
    rewrite E0, superset_refl in Hsup. done. }
  rewrite Hb in Hbt. split; [done|]. split; [done|]. rewrite Hc, Hbusy in Hct by done.
  destruct (Z.eqb_spec t' u) as [->|]; [|destruct (Z.eqb_spec t' t) as [->|]; lia].
  exfalso. pose proof LN_range as HLN.
  pose proof (used_zero pt' u (Z.to_nat LN) 0 ltac:(lia) ltac:(lia)) as Hfirst.
  destruct (Hnew 0 ltac:(lia)) as [[E0 _]|(a & pa & Ha & Hpa & Hm & Hba & _ & E)].
  - rewrite E0 in Hbusy. done.
  - destruct (part_ok l pa 0) as (Q1 & _); [done..|lia|]. rewrite E in Hfirst.
    apply leaf_nonzero in Hfirst; [done|done|done|apply leaf_type_range].
Qed.

Lemma map_step_ok ow r c pt G :
  wf pt G -> cursor_ok pt G r c -> step_ok ow r c pt (map_step ow c pt).
Proof.
  intros Hwf [Hd Hr Hsz Hreq (t & p & Ht & Hp & Hs)].
  destruct c as [virt size desc table l ptes]. cbn [Mmu.virt Mmu.size Mmu.desc Mmu.table Mmu.level Mmu.ptes] in *.
  subst table desc. pose proof (path_level _ _ _ _ _ _ Hp) as Hl.
  pose proof (path_ghost _ _ _ _ _ _ Hp) as Hg. destruct (wf_level _ _ Hwf _ _ _ Hg) as [Htok _].
  pose proof LN_range as HLN. assert (0 < span l) as Hspan by (apply span_pos; lia).
  set (e := slot l virt mod LN). assert (0 <= e < LN) as He by (apply Z.mod_pos_bound; lia).
  assert (slot l virt = p * LN + e) as Hq by (by apply slot_split).
  unfold map_step. fold LAST. destruct (Z.leb_spec l LAST); [|lia].
  rewrite va_index by lia. fold e. rewrite get_pte_ok by done. cbn [rbind].
  pose proof (expand_path pt G ptes (<[l := t * LN + e]> ptes) l t p Hp) as Hp'.
  specialize (Hp' ltac:(intros; apply lookup_insert_ne; lia)).
  destruct (IsTableDesc (entry pt (t * LN + e)) l) eqn:Htd.
  { destruct (entry_is_link _ _ _ _ (wf_entry _ _ Hwf _ _ _ e Hg He) Htd) as (u & Hlt & Hu & Hgu & Hent).
    apply (step_descend _ _ _ _ _ pt G); try done. 2: { intros _. apply none_emptied_refl. }
    rewrite Hent, link_target by done.
    constructor; try done. exists u, (p * LN + e). cbn. split; [done|]. split; [|by rewrite <-slot_up].
    apply (path_step pt G _ l t p e u); try done; [lia|by apply lookup_insert_eq]. }
  pose proof (entry_ok_table _ _ _ _ (wf_entry _ _ Hwf _ _ _ e Hg He) Htd) as Hn.
  destruct (negb ow && negb (IsFreeDesc (entry pt (t * LN + e)))) eqn:How.
  { apply andb_true_iff in How as [Ho%negb_true_iff Hf%negb_true_iff]. apply step_busy; [done|]. cbn.
    rewrite (translate_at pt G ptes l t p e virt) by done. rewrite (not_link_free l) in Hf by done.
    destruct Hn as [Hn|(a & pa & Ha & Hpa & Hm & Hb & Hn)]; rewrite Hn in *; [done|]. by rewrite leaf_value. }
  rewrite level_size_ok, (offset_mask l virt) by done.
  destruct (IsDescSuperset (entry pt (t * LN + e)) (req_desc r) l) eqn:Hsup.
  { replace (if size <? span l - virt mod span l then size else span l - virt mod span l)
      with (Z.min size (span l - virt mod span l))
      by (destruct (Z.ltb_spec size (span l - virt mod span l)); lia).
    apply step_advance; [done..|]. cbn. by apply (deal_superset pt G ptes l t p e virt size r ow). }
  rewrite <-(offset_mask l virt) by done.
  destruct (_ || negb (FMmuBlcokAligned (req_desc r) (span l))) eqn:Hfit.
  - assert (l < LAST) as Hlt.
    { destruct (Z.eqb_spec l LAST) as [->|]; [|lia]. by rewrite page_fits in Hfit. }
    destruct (ExpandToTable_spec pt G ptes l t p e Hwf Hp He Hlt Hn)
      as [(u & pt' & -> & Hu & Hgu & Hex)|[-> Hfull]]; cbn [rbind]; [|by apply step_full].
    destruct (expands_spec pt pt' G ptes l t p e u Hwf Hp He Hlt Hn Hu Hgu Hex) as (Hwf' & Hpath & HT).
    apply (step_descend _ _ _ _ _ pt' (upd G u (Some (l + 1, p * LN + e)))); try done.
    2: by destruct Hex.
    2: { intros ->. apply (expand_none_emptied pt pt' G l t e u); try done; [congruence|lia]. }
    constructor; try done. exists u, (p * LN + e). split; [done|]. split; [done|]. cbn. by rewrite <-slot_up.
  - apply (fits r virt size l) in Hfit as (Hfit & Hal & Hba & Hph); try done.
    2: { intros ->. destruct Hn as [Hn|(a & pa & _ & _ & _ & Hb & _)]; [|done].
         rewrite Hn in Hsup. by rewrite superset_refl in Hsup. }
    destruct (deal_write pt G (<[l := t * LN + e]> ptes) l t p e virt size r ow)
      as (pt' & E & Hdealt); [done..|].
    cbv zeta in E. revert E.
    destruct (if IsFreeDesc _ then _ else _) as [pa|]; [cbn [rbind]|done].
    destruct (if truth (req_desc r) then _ else _) as [pb|]; [cbn [rbind]|done].
    destruct (SetPteBlockDesc _ _ _ _) as [pc|]; [cbn [rbind]|done]. intros ->. cbn [rbind].
    by apply step_advance.
Qed.

(** ** The loop *)
Definition tables_wf (pt : ArmMmuPtables) : Prop := exists G, wf pt G.

(** What a call does: it deals with the first [k] bytes of the range, changes no
    other translation, leaves no empty table behind when it unmaps, and reports why it
    stopped. *)
Definition outcome (pt : ArmMmuPtables) (virt size : Z) (r : request) (ow : bool)
    (res : res (Z * ArmMmuPtables)) : Prop :=
  exists status pt' k,
    res = Ok (status, pt') /\ tables_wf pt' /\ pt'.(base_xlat_table) = pt.(base_xlat_table) /\
    0 <= k <= size /\ k mod page = 0 /\
    (forall va, 0 <= va < 2 ^ 48 ->
      if (virt <=? va) && (va <? virt + k)
      then dealt_value r ow virt va (translate pt va) (translate pt' va)
      else translate pt' va = translate pt va) /\
    (r = Unmap -> none_emptied pt pt') /\
    (status = 0 /\ k = size \/
     status = - EBUSY /\ ow = false /\ k < size /\ translate pt (virt + k) <> None \/
     status = - ENOMEM /\ k < size /\ forall t, table_ok t -> use_count pt' t <> 0).

(** Passes that are enough to deal with [size] bytes. *)
Definition passes (size : Z) : Z := (LAST + 1) * (size / page).

Lemma restart_ok pt G r virt size k c0 :
  wf pt G -> range_ok virt size -> req_ok r size -> 0 < k < size -> k mod page = 0 ->
  c0.(Mmu.virt) = virt -> c0.(Mmu.size) = size -> c0.(desc) = req_desc r ->
  cursor_ok pt G (req_skip k r) (move_on k c0 pt).
Proof.
  intros Hwf Hr Hreq Hk Hm Hv Hs Hd. destruct (range_virt _ _ Hr) as (Hv0 & Hv1 & _).
  destruct (wf_root _ _ Hwf) as (rt & Hrt & Hg).
  unfold move_on. rewrite Hv, Hs, Hd, !(wrap_small 64), (req_desc_skip r size k) by (done || lia).
  constructor; cbn [Mmu.virt Mmu.size desc table level ptes].
  - done.
  - by apply range_skip; [|lia|].
  - lia.
  - by apply req_ok_skip; [|lia|].
  - exists rt, 0. rewrite base_level. split; [done|]. split; [by constructor|]. apply slot_base. lia.
Qed.

Lemma pages_down size k : 0 < k <= size -> k mod page = 0 -> size mod page = 0 ->
  (size - k) / page <= size / page - 1.
Proof.
  intros Hk Hm Hs. pose proof page_pos as Hpg.
  apply Z.mod_divide in Hm as [x ->]; [|lia]. apply Z.mod_divide in Hs as [y ->]; [|lia].
  rewrite <-Z.mul_sub_distr_r, !Z.div_mul by lia. nia.
Qed.

Lemma passes_down size k :
  0 < k <= size -> k mod page = 0 -> size mod page = 0 -> passes (size - k) + (LAST + 1) <= passes size.
Proof.
  intros Hk Hm Hs. pose proof (pages_down size k Hk Hm Hs). pose proof LAST_cases. unfold passes. nia.
Qed.

Lemma passes_0 : passes 0 = 0.
Proof. unfold passes. rewrite Z.div_0_l; pose proof page_pos; lia. Qed.

Lemma cursor_level pt G r c : cursor_ok pt G r c -> 0 <= c.(level) <= LAST.
Proof. intros [_ _ _ _ (t & p & _ & Hp & _)]. by eapply path_level. Qed.

(** Nothing has been dealt with. *)
Lemma outcome_stop pt G virt size r ow status :
  wf pt G -> 0 < size ->
  (status = - EBUSY /\ ow = false /\ translate pt virt <> None \/
   status = - ENOMEM /\ forall t, table_ok t -> use_count pt t <> 0) ->
  outcome pt virt size r ow (Ok (status, pt)).
Proof.
  intros Hwf Hsz Hst. exists status, pt, 0. split; [done|]. split; [by exists G|]. split; [done|].
  split; [lia|]. split; [apply Z.mod_0_l; pose proof page_pos; lia|]. rewrite !Z.add_0_r. split; [|split].
  - intros va Hva. destruct ((virt <=? va) && _) eqn:Hb; [|done].
    apply andb_true_iff in Hb as [?%Z.leb_le ?%Z.ltb_lt]. lia.
  - intros _. apply none_emptied_refl.
  - right. destruct Hst as [(? & ? & ?)|[? ?]]; [by left|by right].
Qed.

(** A first part dealt with, and the outcome of the rest. *)
Lemma outcome_trans pt pt1 virt size r ow k res :
  0 <= virt -> virt + size <= 2 ^ 48 -> 0 < k <= size -> k mod page = 0 ->
  dealt pt virt size r ow k pt1 ->
  outcome pt1 (virt + k) (size - k) (req_skip k r) ow res -> outcome pt virt size r ow res.
Proof.
  intros Hv0 Hv1 Hk Hm (_ & _ & Hb & _ & HT & HE) (st & pt2 & k2 & E & W & B & K & M & T & E2 & S).
  pose proof page_pos as Hpg. exists st, pt2, (k + k2). split; [done|]. split; [done|].
  split; [by rewrite B|]. split; [lia|].
  split; [rewrite Z.add_mod, Hm, M by lia; apply Z.mod_0_l; lia|]. split.
  - intros va Hva. specialize (T va Hva). specialize (HT va Hva). revert T HT.
    destruct (Z.leb_spec virt va), (Z.leb_spec (virt + k) va), (Z.ltb_spec va (virt + k)),
      (Z.ltb_spec va (virt + k + k2)), (Z.ltb_spec va (virt + (k + k2))); cbn [andb]; try lia;
      intros T HT; rewrite ?HT in T; try done.
    all: first [by apply dealt_value_skip in T | rewrite T; exact HT | congruence].
  - split.
    { intros ->. apply (none_emptied_trans pt pt1 pt2); [by apply HE|by apply E2]. }
    destruct S as [[S1 S2]|[(S1 & S2 & S3 & S4)|(S1 & S2 & S3)]].
    + left. split; [done|lia].
    + right. left. split; [done|]. split; [done|]. split; [lia|].
      rewrite Z.add_assoc. specialize (HT (virt + k + k2) ltac:(lia)). revert HT.
      destruct (Z.ltb_spec (virt + k + k2) (virt + k)); [lia|]. rewrite andb_false_r. congruence.
    + right. right. split; [done|]. split; [lia|done].
Qed.

Lemma mapping_loop_ok fuel ow r c pt G :
  wf pt G -> cursor_ok pt G r c ->
  passes c.(size) - c.(level) < Z.of_nat fuel ->
  outcome pt c.(virt) c.(size) r ow (map_loop fuel ow c pt).
Proof.
  revert r c pt G. induction fuel as [|fuel IH]; intros r c pt G Hwf Hc Hf;
    pose proof (cursor_level _ _ _ _ Hc) as Hlev; pose proof (map_step_ok ow r c pt G Hwf Hc) as Hstep;
    destruct Hc as [Hd Hr Hsz Hreq _]; destruct (range_page _ _ Hr) as [_ Hpage]; fold page in Hpage;
    pose proof (passes_down c.(size) c.(size) ltac:(lia) Hpage Hpage) as Hpass;
    rewrite Z.sub_diag, passes_0 in Hpass; [lia|].
  cbn [map_loop]. unfold truth. destruct (Z.eqb_spec c.(size) 0) as [|_]; [lia|]. cbn [negb].
  destruct (range_virt _ _ Hr) as (Hv0 & Hv1 & _).
  destruct Hstep as [c' pt' G' Hv Hs Hl Hc' Hwf' Hb HT HE|c0 pt' k Hv Hs Hd0 Hdealt|How Hbusy|Hfull]; cbn [rbind].
  - destruct (IH r c' pt' G' Hwf' Hc') as (st & pt2 & k & E & W & B & K & M & T & E2 & S).
    { rewrite Hs, Hl. lia. }
    exists st, pt2, k. rewrite Hv, Hs in *. split; [done|]. split; [done|]. split; [by rewrite B|].
    split; [done|]. split; [done|]. split; [|split].
    + intros va Hva. specialize (T va Hva). by rewrite HT in T.
    + intros Hu. apply (none_emptied_trans pt pt' pt2); auto.
    + destruct S as [S|[(S1 & S2 & S3 & S4)|S]]; [by left|right; left|by right; right].
      split; [done|]. split; [done|]. split; [done|]. by rewrite <-HT by lia.
  - pose proof Hdealt as (Hk & Hm & Hb & (G' & Hwf') & HT & HE).
    apply (outcome_trans pt pt' c.(virt) c.(size) r ow k); try done.
    destruct (Z.eqb_spec k c.(size)) as [->|Hne].
    + destruct fuel as [|fuel]; [lia|]. cbn [map_loop]. unfold move_on. cbn [Mmu.size].
      rewrite Hs, Z.sub_diag. exists 0, pt', 0. split; [done|]. split; [by exists G'|]. split; [done|].
      split; [lia|]. split; [apply Z.mod_0_l; pose proof page_pos; lia|].
      split; [|split; [intros _; apply none_emptied_refl|by left]].
      intros va Hva. destruct ((_ <=? va) && _) eqn:Hb2; [|done].
      apply andb_true_iff in Hb2 as [?%Z.leb_le ?%Z.ltb_lt]. lia.
    + pose proof (restart_ok pt' G' r c.(virt) c.(size) k c0 Hwf' Hr Hreq ltac:(lia) Hm Hv Hs) as Hc'.
      rewrite Hd0 in Hc'. specialize (Hc' Hd).
      assert ((move_on k c0 pt').(Mmu.virt) = c.(virt) + k) as Hmv.
      { cbn. rewrite Hv. apply wrap_small; lia. }
      assert ((move_on k c0 pt').(Mmu.size) = c.(size) - k) as Hms.
      { cbn. rewrite Hs. apply wrap_small; lia. }
      rewrite <-Hmv, <-Hms. apply (IH _ _ _ G' Hwf' Hc'). rewrite Hms. change (level (move_on k c0 pt')) with BASE_XLAT_LEVEL. rewrite base_level.
      pose proof (passes_down c.(size) k Hk Hm Hpage). lia.
  - apply (outcome_stop pt G); auto.
  - apply (outcome_stop pt G); auto.
Qed.

(** Every call of [SetMapping], whatever its status, ends within the fuel and
    does what it was asked for on a first part of the range. *)
Lemma SetMapping_ok fuel virt size r ow pt :
  tables_wf pt -> range_ok virt size -> req_ok r size ->
  passes size < Z.of_nat fuel -> outcome pt virt size r ow (SetMapping fuel virt size (req_desc r) ow pt).
Proof.
  intros [G Hwf] Hr Hreq Hf. unfold SetMapping. destruct (range_virt _ _ Hr) as (Hv0 & Hv1 & Hsz).
  destruct (Z.eqb_spec size 0) as [->|Hne].
  - rewrite passes_0 in Hf. destruct fuel as [|fuel]; [lia|]. cbn [map_loop Mmu.size truth].
    exists 0, pt, 0. split; [done|]. split; [by exists G|]. split; [done|].
    split; [lia|]. split; [apply Z.mod_0_l; pose proof page_pos; lia|].
    split; [|split; [intros _; apply none_emptied_refl|by left]].
    intros va Hva. destruct ((_ <=? va) && _) eqn:Hb2; [|done].
    apply andb_true_iff in Hb2 as [?%Z.leb_le ?%Z.ltb_lt]. lia.
  - destruct (wf_root _ _ Hwf) as (rt & Hrt & Hg).
    apply (mapping_loop_ok fuel ow r (mkCursor virt size (req_desc r) pt.(base_xlat_table) BASE_XLAT_LEVEL ∅) pt G);
      [done| |cbn [Mmu.size level]; rewrite base_level; lia].
    constructor; cbn [Mmu.virt Mmu.size desc table level ptes]; [done|done|lia|done|].
    exists rt, 0. rewrite base_level. split; [done|]. split; [by constructor|]. apply slot_base. lia.
Qed.
End Mapping.
