(* ===== verification/MmuProps.v ===== *)
(** Properties of the MMU driver (Mmu.v): what mapping, unmapping and setting
    attributes do to the translation of every address, in every state the driver
    can reach; what the region attributes become; and where requests that report
    success do not have the effect they should. *)
From S2P Require Import Prelude Mmu MmuTables MmuMap MmuMapping.

(** ** Attributes *)
Lemma region_low_bits attrs : GetRegionDesc attrs = GetRegionDesc (Z.land attrs 511).
Proof.
  assert (forall m, Z.land 511 m = m -> Z.land (Z.land attrs 511) m = Z.land attrs m) as Hm.
  { intros m E. by rewrite <-Z.land_assoc, E. }
  unfold GetRegionDesc, MT_TYPE, MT_NS, MT_RW, MT_RW_AP_ELX, MT_P_EXECUTE_NEVER, MT_U_EXECUTE_NEVER.
  by rewrite !Hm.
Qed.

Lemma land_511 attrs : In (Z.land attrs 511) (map Z.of_nat (seq 0 512)).
Proof.
  change 511 with (Z.ones 9). rewrite Z.land_ones by lia. apply in_map_iff.
  exists (Z.to_nat (attrs mod 2 ^ 9)). pose proof (Z.mod_pos_bound attrs (2 ^ 9)).
  split; [lia|]. apply in_seq. lia.
Qed.

(** A statement about attribute words is decided on the 512 that differ. *)
Lemma attrs_forall (P : Z -> bool) :
  forallb P (map Z.of_nat (seq 0 512)) = true -> forall attrs, P (Z.land attrs 511) = true.
Proof. intros H attrs. rewrite forallb_forall in H. apply H, land_511. Qed.

Lemma GetRegionDesc_attrs_ok attrs : attrs_ok (GetRegionDesc attrs).
Proof.
  rewrite region_low_bits. unfold attrs_ok.
  pose (P x := (0 <=? GetRegionDesc x) && (GetRegionDesc x <? 2 ^ 64) &&
    (Z.land (GetRegionDesc x) DESC_ATTRS_MASK =? GetRegionDesc x) && Z.testbit (GetRegionDesc x) 10).
  assert (P (Z.land attrs 511) = true) as HP by (apply attrs_forall; vm_compute; reflexivity).
  unfold P in HP. rewrite !andb_true_iff, Z.leb_le, Z.ltb_lt, Z.eqb_eq in HP. tauto.
Qed.




(** ** Requests of the driver *)
Section Driver.
Context `{MmuConfigOk}.

Lemma page_aligned_spec a : 0 <= a -> page_aligned a = (a mod page =? 0).
Proof.
  intros Ha. unfold page_aligned, CONFIG_MMU_PAGE_SIZE, page. pose proof page_shift_pos.
  rewrite Z.shiftl_1_l. replace (2 ^ PAGE_SIZE_SHIFT - 1) with (Z.ones PAGE_SIZE_SHIFT) by (rewrite Z.ones_equiv; lia).
  by rewrite Z.land_ones by lia.
Qed.

Lemma aligned_lor a b :
  0 <= a -> 0 <= b -> a mod page = 0 -> b mod page = 0 -> page_aligned (Z.lor a b) = true /\ Z.lor a b mod page = 0.
Proof.
  intros Ha Hb Ea Eb. assert (0 <= Z.lor a b) by (apply Z.lor_nonneg; lia).
  rewrite page_aligned_spec by done. assert (Z.lor a b mod page = 0) as ->; [|done].
  pose proof page_shift_pos as Hpg. unfold page in *. rewrite <-!Z.land_ones in * by lia.
  by rewrite Z.land_lor_distr_l, Ea, Eb.
Qed.

(** A request to map pages of the address space to physical pages of the descriptors'
    48 bits, of a size for which the architecture has blocks where the code takes
    them ([small_enough]). *)
Record map_request (virt phys size : Z) : Prop := {
  mr_range : range_ok virt size;
  mr_phys : 0 <= phys /\ phys mod page = 0 /\ phys + size <= 2 ^ 48;
  mr_small : small_enough size
}.

Definition may_overwrite (flags : Z) : bool := Z.land flags MT_NO_OVERWRITE =? 0.
Definition mapping (flags phys : Z) : request := Map (GetRegionDesc flags) phys.

Lemma AddMap_ok fuel phys virt size flags pt :
  tables_wf pt -> map_request virt phys size -> passes size < Z.of_nat fuel ->
  outcome pt virt size (mapping flags phys) (may_overwrite flags) (AddMap fuel phys virt size flags pt).
Proof.
  intros Hwf [Hr (Hp0 & Hp & Hle) Hs] Hf. destruct (range_virt _ _ Hr) as (Hv0 & Hv1 & Hsz).
  destruct (range_page _ _ Hr) as [Hvp Hsp]. fold page in Hvp, Hsp.
  destruct (aligned_lor virt phys) as [_ E1]; try done.
  assert (0 <= Z.lor virt phys) by (apply Z.lor_nonneg; lia).
  destruct (aligned_lor (Z.lor virt phys) size) as [E2 _]; try done.
  unfold AddMap. rewrite E2. apply SetMapping_ok; try done.
  split; [apply GetRegionDesc_attrs_ok|done].
Qed.

(** A call with an outcome keeps the tables well formed. *)
Lemma outcome_wf pt virt size r ow status pt' :
  outcome pt virt size r ow (Ok (status, pt')) -> tables_wf pt'.
Proof. by intros (st & pt1 & k & [= -> ->] & W & _). Qed.

(** C4: Property: a mapping request of pages inside the address space ([map_request]),
    in any well formed state, ends with well-formed tables after at most
    [passes size] passes, having dealt with a first part of the range, the whole of
    it on success; no translation outside that part has changed.  It fails with
    -EBUSY exactly where overwriting is forbidden and an address is mapped already,
    with -ENOMEM when no table is left.  In the part dealt with every address is
    translated to its place in the physical range with the attributes asked for, or,
    only where overwriting is allowed, keeps the translation it had, by a block with
    these attributes and the same offset but another place ([kept]: the comparison
    in [IsDescSuperset], see [FMmuMap_superset]).  When overwriting is forbidden, or
    both addresses have the same offset in 1G, every address is mapped as asked for.
    Larger requests than [small_enough] (512G with 4K pages, 64G with 16K, 4T with
    64K) are not covered: [FMmuMap_16k_block]. *)
Theorem FMmuMap_correct : forall fuel virt phys size flags pt,
  tables_wf pt -> map_request virt phys size -> 0 < size -> phys < 2 ^ FCPU_CONFIG_ARM64_PA_BITS ->
  0 <= FCPU_CONFIG_ARM64_PA_BITS -> passes size < Z.of_nat fuel ->
  outcome pt virt size (mapping flags phys) (may_overwrite flags)
    (FMmuMap fuel virt phys size flags pt) /\
  (may_overwrite flags = false \/ (phys - virt) mod 2 ^ 30 = 0 ->
   forall pt', FMmuMap fuel virt phys size flags pt = Ok (0, pt') ->
   forall va, virt <= va < virt + size -> translate pt' va = Some (phys + (va - virt), GetRegionDesc flags)).
Proof.
  intros fuel virt phys size flags pt Hwf Hm Hsz Hpa Hbits Hf.
  pose proof (AddMap_ok fuel phys virt size flags pt Hwf Hm Hf) as Hok.
  destruct Hm as [Hr (Hp0 & Hp & Hle) _]. destruct (range_virt _ _ Hr) as (Hv0 & Hv1 & _).
  destruct (range_page _ _ Hr) as [Hvp Hsp]. fold page in Hvp, Hsp.
  assert (FMmuMap fuel virt phys size flags pt = AddMap fuel phys virt size flags pt) as ->.
  { unfold FMmuMap, ArchMemMap. rewrite !page_aligned_spec, Hvp, Hp, Hsp by lia. cbn [Z.eqb].
    destruct (Z.ltb_spec 0 size); [|lia].
    rewrite Z.shiftl_1_l. change (2 ^ FCPU_CONFIG_ARM64_VA_BITS) with (2 ^ 48).
    destruct (Z.ltb_spec virt (2 ^ 48)); [|lia].
    rewrite Z.shiftl_1_l. by destruct (Z.ltb_spec phys (2 ^ FCPU_CONFIG_ARM64_PA_BITS)); [|lia]. }
  split; [done|]. intros Hex pt' E va Hva.
  destruct Hok as (st & pt1 & k & E1 & _ & _ & _ & _ & T & _ & S). rewrite E in E1.
  injection E1 as <- <-. assert (k = size) as -> by (destruct S as [[_ S]|[[S _]|[S _]]]; [exact S|discriminate S..]).
  specialize (T va ltac:(lia)). destruct (Z.leb_spec virt va), (Z.ltb_spec va (virt + size)); try lia.
  cbn [andb] in T. destruct T as [T|(How & T & Hk)]; [done|]. rewrite T.
  destruct Hex as [Hex|Hex]; [congruence|]. by apply (kept_exact _ phys virt va) in Hk.
Qed.

(** A table, other than the base table, that is kept although no entry is in use. *)
Definition idle_table (pt : ArmMmuPtables) (t : Z) : Prop :=
  table_ok t /\ t * LN <> pt.(base_xlat_table) /\ use_count pt t <> 0 /\
  forall e, 0 <= e < LN -> entry pt (t * LN + e) = 0.

Lemma used_none pt t n : (forall e, 0 <= e < Z.of_nat n -> entry pt (t * LN + e) = 0) -> used pt t n = 0.
Proof.
  induction n as [|n IH]; intros He; cbn [used]; [done|]. rewrite IH by (intros; apply He; lia).
  by rewrite He by lia.
Qed.

(** In well-formed tables the use count tells which tables are idle. *)
Lemma idle_empty pt t : tables_wf pt -> idle_table pt t <-> empty_table pt t.
Proof.
  intros [G Hwf]. pose proof LN_range. split.
  - intros (Ht & Hb & Hc & He). split; [done|]. split; [done|].
    destruct (G t) as [[l p]|] eqn:Hg; [|by apply (wf_alloc _ _ Hwf) in Hg].
    rewrite (wf_count _ _ Hwf _ _ _ Hg), used_none by (intros; apply He; lia).
    unfold links. destruct (Z.eqb_spec l 0) as [->|]; [|done].
    destruct (wf_parent _ _ Hwf _ _ _ Hg) as [Hroot _]. by destruct Hb; rewrite Hroot.
  - intros (Ht & Hb & Hc). split; [done|]. split; [done|]. split; [lia|]. intros e He.
    destruct (G t) as [[l p]|] eqn:Hg; [|apply (wf_alloc _ _ Hwf t Ht) in Hg; lia].
    assert (l <> 0) as Hl.
    { intros ->. destruct (wf_parent _ _ Hwf _ _ _ Hg) as [Hroot _]. by destruct Hb; rewrite Hroot. }
    rewrite (wf_count _ _ Hwf _ _ _ Hg) in Hc. unfold links in Hc. apply Z.eqb_neq in Hl. rewrite Hl in Hc.
    apply (used_zero pt t (Z.to_nat LN)); lia.
Qed.

(** C5: Property: unmapping pages in any well formed state leaves well-formed tables in
    which no address of the range is translated and every other one as before; no
    table is left in use without entries, other than the base table and the tables
    that were so before the call, so that the tables the range was mapped by are
    free for other mappings.  It can fail only with -ENOMEM, when a block has to be
    split and no table is left, and has then unmapped the pages before. *)
Theorem FMmuUnMap_correct : forall fuel virt size pt,
  tables_wf pt -> range_ok virt size -> 0 < size -> passes size < Z.of_nat fuel ->
  exists status pt' k,
    FMmuUnMap fuel virt size pt = Ok (status, pt') /\ tables_wf pt' /\
    0 <= k <= size /\ k mod page = 0 /\
    (forall va, 0 <= va < 2 ^ 48 ->
      translate pt' va = if (virt <=? va) && (va <? virt + k) then None else translate pt va) /\
    (forall t, idle_table pt' t -> idle_table pt t) /\
    (status = 0 /\ k = size \/
     status = - ENOMEM /\ k < size /\ forall t, table_ok t -> use_count pt' t <> 0).
Proof.
  intros fuel virt size pt Hwf Hr Hsz Hf. destruct (range_virt _ _ Hr) as (Hv0 & Hv1 & _).
  destruct (range_page _ _ Hr) as [Hvp Hsp]. fold page in Hvp, Hsp.
  unfold FMmuUnMap, RemoveMap. destruct (aligned_lor virt size) as [E _]; [lia|lia|done|done|].
  rewrite !page_aligned_spec, Hvp, Hsp by lia. cbn [Z.eqb]. destruct (Z.ltb_spec 0 size); [|lia].
  rewrite Z.shiftl_1_l. change (2 ^ FCPU_CONFIG_ARM64_VA_BITS) with (2 ^ 48).
  destruct (Z.ltb_spec virt (2 ^ 48)); [|lia]. rewrite E.
  destruct (SetMapping_ok fuel virt size Unmap true pt Hwf Hr I Hf)
    as (st & pt' & k & E1 & W & _ & K & M & T & HE & S).
  exists st, pt', k. split; [exact E1|]. split; [done|]. split; [done|]. split; [done|]. split; [|split].
  - intros va Hva. specialize (T va Hva). destruct (_ && _); [|done]. by destruct T as [T|(_ & _ & [])].
  - intros t Ht. apply idle_empty; [done|]. apply (HE eq_refl). by apply idle_empty.
  - destruct S as [S|[(_ & S & _)|S]]; [by left|done|by right].
Qed.

(** ** The states of the driver *)
Definition zeroed (pt : ArmMmuPtables) : Prop :=
  (forall i, entry pt i = 0) /\ (forall t, use_count pt t = 0).

(** A region of the tables of the board and of the image. *)
Definition region_ok (fuel : nat) (r : ArmMmuRegion) : Prop :=
  map_request r.(base_va) r.(base_pa) r.(region_size) /\ passes r.(region_size) < Z.of_nat fuel.

(** The driver is started on zeroed memory with the region tables, and called in any
    order with requests to map ([FMmuMap], [ArchMemMap]), to unmap and to set
    attributes, whatever their status. *)
Inductive reachable : ArmMmuPtables -> Prop :=
| reach_init pt0 fuel mmu_config code_mmu_config s s' pt :
    zeroed pt0 -> Forall (region_ok fuel) (mmu_config ++ code_mmu_config) ->
    MmuInit fuel mmu_config code_mmu_config s pt0 = Ok (s', pt) -> reachable pt
| reach_map pt fuel virt phys size flags status pt' :
    reachable pt -> map_request virt phys size -> passes size < Z.of_nat fuel ->
    FMmuMap fuel virt phys size flags pt = Ok (status, pt') -> reachable pt'
| reach_arch_map pt fuel virt phys size flags status pt' :
    reachable pt -> map_request virt phys size -> passes size < Z.of_nat fuel ->
    ArchMemMap fuel virt phys size flags pt = Ok (status, pt') -> reachable pt'
| reach_unmap pt fuel virt size status pt' :
    reachable pt -> range_ok virt size -> passes size < Z.of_nat fuel ->
    FMmuUnMap fuel virt size pt = Ok (status, pt') -> reachable pt'
| reach_attributes pt fuel addr size attrib pt' :
    reachable pt ->
    (let '(_, aligned, pages) := MemRegionAlign addr size CONFIG_MMU_PAGE_SIZE in
     map_request aligned aligned pages /\ passes pages < Z.of_nat fuel) ->
    FSetTlbAttributes fuel addr size attrib pt = Ok pt' -> reachable pt'.

Lemma init_wf pt0 t pt :
  zeroed pt0 -> NewTable pt0 = Some (t, pt) ->
  tables_wf (set_base t pt) /\ forall va, translate (set_base t pt) va = None.
Proof.
  intros [He Hc] Hn. pose proof (NewTable_spec pt0) as Hs. rewrite Hn in Hs.
  destruct Hs as (u & Hu & -> & _ & ->). set (pt1 := set_base (u * LN) (put_count u 1 pt0)).
  assert (forall i, entry pt1 i = 0) as He1 by (intros; apply He).
  assert (forall t, use_count pt1 t = if t =? u then 1 else 0) as Hc1.
  { intros t. unfold pt1. change (use_count (set_base _ ?x) t) with (use_count x t).
    by rewrite count_put_count, Hc. }
  pose proof LAST_cases. split.
  - exists (upd (fun _ => None) u (Some (0, 0))). constructor.
    + exists u. by rewrite upd_same.
    + intros t l p Hg. destruct (upd_case _ _ _ _ _ Hg) as [[-> [= <- <-]]|[_ [=]]]. split; [done|lia].
    + intros t t' x Hg Hg'.
      by destruct (upd_case _ _ _ _ _ Hg) as [[-> _]|[_ [=]]], (upd_case _ _ _ _ _ Hg') as [[-> _]|[_ [=]]].
    + intros t Ht. rewrite Hc1. unfold upd. by destruct (Z.eqb_spec t u).
    + intros t l p e _ _. rewrite He1. constructor.
    + intros t l p Hg. destruct (upd_case _ _ _ _ _ Hg) as [[-> [= <- <-]]|[_ [=]]].
      rewrite Hc1, Z.eqb_refl, (used_const _ _ _ false); [done|]. intros. by rewrite He1.
    + intros. apply He1.
    + intros v l p Hg. destruct (upd_case _ _ _ _ _ Hg) as [[-> [= <- <-]]|[_ [=]]]. split; [done|lia].
  - intros va. unfold translate. rewrite walk_entry, He1 by lia. apply free_value.
Qed.

Lemma ArchMemMap_wf fuel virt phys size flags pt status pt' :
  tables_wf pt -> map_request virt phys size -> passes size < Z.of_nat fuel ->
  ArchMemMap fuel virt phys size flags pt = Ok (status, pt') -> tables_wf pt'.
Proof.
  intros Hwf Hm Hf E. pose proof (AddMap_ok fuel phys virt size flags pt Hwf Hm Hf) as Hok.
  unfold ArchMemMap in E. rewrite E in Hok. by apply outcome_wf in Hok.
Qed.

Lemma add_regions_wf fuel l pt pt' :
  tables_wf pt -> Forall (region_ok fuel) l -> add_regions fuel l pt = Ok pt' -> tables_wf pt'.
Proof.
  intros Hwf Hl. revert pt Hwf. induction Hl as [|r l [Hm Hf] _ IH]; intros pt Hwf; cbn [add_regions].
  { by intros [= <-]. }
  unfold AddArmMmuRegion. destruct (_ || _); [|by apply IH]. cbn [rbind].
  destruct (AddMap fuel _ _ _ _ pt) as [[st pt1]|] eqn:E; [|done]. cbn [rbind]. apply IH.
  by apply (ArchMemMap_wf fuel r.(base_va) r.(base_pa) r.(region_size) (Z.lor r.(attrs) 0) pt st).
Qed.

Lemma MmuInit_wf fuel mmu_config code_mmu_config s pt0 s' pt :
  zeroed pt0 -> Forall (region_ok fuel) (mmu_config ++ code_mmu_config) ->
  MmuInit fuel mmu_config code_mmu_config s pt0 = Ok (s', pt) -> tables_wf pt.
Proof.
  intros Hz Hl. apply Forall_app in Hl as [Hl1 Hl2]. unfold MmuInit, SetupPageTables.
  destruct (mmu_may_start s); [|done].
  destruct (NewTable pt0) as [[t pt1]|] eqn:Hn.
  2: { pose proof (NewTable_spec pt0) as Hs. rewrite Hn in Hs. destruct tables_ok.
       exfalso. apply (Hs 0); [unfold table_ok; lia|apply Hz]. }
  apply init_wf in Hn as [Hwf _]; [|done]. destruct (_ <=? _); [|done]. destruct (_ <=? _); [|done].
  destruct (add_regions fuel mmu_config _) as [pt2|] eqn:E1; [|done]. cbn [rbind].
  destruct (add_regions fuel code_mmu_config pt2) as [pt3|] eqn:E2; [|done]. cbn [rbind].
  intros [= _ <-]. apply (add_regions_wf fuel code_mmu_config pt2); [|done|done].
  by apply (add_regions_wf fuel mmu_config (set_base t pt1)).
Qed.

(** C6: Property: in every state the driver reaches, from zeroed memory, by [MmuInit]
    with its region tables and any sequence of requests to map, to unmap and to set
    attributes, whatever their status, the tables are well formed: every table in
    use serves a part of the address space of its own and is entered from one place,
    its use count is exact, every entry is free, a block or page the architecture
    has, or a link to a table of the next level, and the tables not in use are
    empty.  The requests are for pages of the address space, and mappings of sizes
    that are [small_enough] (below 512G with 4K pages, 64G with 16K, 4T with 64K):
    beyond, the code writes reserved descriptors ([FMmuMap_16k_block]). *)
Theorem reachable_tables : forall pt, reachable pt -> tables_wf pt.
Proof.
  induction 1 as [pt0 fuel c1 c2 s s' pt Hz Hl E|pt fuel virt phys size flags status pt' _ IH Hm Hf E
    |pt fuel virt phys size flags status pt' _ IH Hm Hf E|pt fuel virt size status pt' _ IH Hr Hf E
    |pt fuel addr size attrib pt' _ IH Hm E].
  - by apply (MmuInit_wf fuel c1 c2 s pt0 s').
  - unfold FMmuMap in E. repeat case_match; try done. by apply (ArchMemMap_wf fuel virt phys size flags pt status).
  - by apply (ArchMemMap_wf fuel virt phys size flags pt status).
  - unfold FMmuUnMap, RemoveMap in E. repeat case_match; try done.
    pose proof (SetMapping_ok fuel virt size Unmap true pt IH Hr I Hf) as Hok.
    cbn [req_desc] in Hok. rewrite E in Hok. by apply outcome_wf in Hok.
  - unfold FSetTlbAttributes in E. destruct (MemRegionAlign addr size CONFIG_MMU_PAGE_SIZE) as [[o a] n].
    destruct Hm as [Hm Hf]. repeat case_match; try done.
    destruct (ArchMemMap fuel a a n attrib pt) as [[st pt1]|] eqn:E1; [|done]. injection E as <-.
    by apply (ArchMemMap_wf fuel a a n attrib pt st).
Qed.

(** Property: [FSetTlbAttributes] works on the page of [addr] and as many bytes from
    there as [size] rounded up to pages; the offset of [addr] in its page is not
    added, so that for an address that is not page aligned and a size of whole
    pages the end of the region keeps its translation. *)
Theorem FSetTlbAttributes_tail : forall fuel addr size attrib pt,
  tables_wf pt -> 0 <= addr -> 0 < size -> size mod page = 0 ->
  range_ok (addr - addr mod page) size -> small_enough size -> passes size < Z.of_nat fuel ->
  exists pt', FSetTlbAttributes fuel addr size attrib pt = Ok pt' /\ tables_wf pt' /\
    forall va, addr - addr mod page + size <= va < addr + size -> va < 2 ^ 48 ->
      translate pt' va = translate pt va.
Proof.
  intros fuel addr size attrib pt Hwf Ha Hsz Hsp Hr Hsm Hf. pose proof page_pos as Hpg.
  destruct (range_virt _ _ Hr) as (Hv0 & Hv1 & _). destruct (range_page _ _ Hr) as [Hvp _]. fold page in Hvp.
  set (A := addr - addr mod page) in *.
  unfold FSetTlbAttributes, MemRegionAlign, ArchMemMap.
  assert (CONFIG_MMU_PAGE_SIZE = page) as -> by (unfold CONFIG_MMU_PAGE_SIZE; by rewrite Z.shiftl_1_l).
  fold A. assert (page <= 65536) as Hp64 by (unfold page; destruct granule_ok as [-> | [-> | ->]]; cbn; lia).
  assert (u64 (u64 (size + (page - 1)) / page * page) = size) as ->.
  { rewrite (wrap_small 64 (size + (page - 1))) by lia. apply Z.mod_divide in Hsp as [x ->]; [|lia].
    rewrite Z.add_comm, Z.div_add, (Z.div_small (page - 1)) by lia. rewrite Z.add_0_l. apply wrap_small. lia. }
  destruct (Z.eqb_spec size 0); [lia|]. cbn [negb].
  assert (page <= size) as Hps.
  { apply Z.mod_divide in Hsp as [x ->]; [|lia]. assert (1 <= x) by nia. nia. }
  rewrite !wrap_small by (rewrite ?wrap_small; lia).
  destruct (Z.ltb_spec A (A + (size - 1))); [|lia].
  destruct (AddMap_ok fuel A A size attrib pt Hwf) as (st & pt' & k & E & W & _ & K & _ & T & _).
  - split; [done|split; [lia|done]|done].
  - done.
  - rewrite E. cbn [rbind]. exists pt'. split; [done|]. split; [done|]. intros va Hva Hv48.
    specialize (T va ltac:(lia)). destruct (Z.ltb_spec va (A + k)); [lia|]. by rewrite andb_false_r in T.
Qed.
End Driver.

(** ** Concrete configurations *)
#[local] Instance cfg_4k : MmuConfig := granule_4k 8 0x80000000.

#[local] Instance cfg_4k_ok : MmuConfigOk.
Proof. constructor; [by left|split; vm_compute; congruence|split; [vm_compute; discriminate|reflexivity]|vm_compute; discriminate]. Qed.

Definition empty_memory : ArmMmuPtables := mkPtables ∅ ∅ 0.

(** The tables after [MmuInit] has taken the base table. *)
Definition start `{MmuConfig} : ArmMmuPtables :=
  match NewTable empty_memory with
  | Some (t, pt) => set_base t pt
  | None => empty_memory
  end.

Lemma start_wf : tables_wf start.
Proof. apply (init_wf empty_memory 0); [by split|]. reflexivity. Qed.

Lemma page_range virt size :
  0 <= virt -> 0 <= size -> virt + size <= 2 ^ 48 -> virt mod 4096 = 0 -> size mod 4096 = 0 ->
  range_ok virt size.
Proof. intros. split; [lia|done]. Qed.

Lemma small_4k size : size < 2 ^ 39 -> small_enough size.
Proof.
  intros Hs l Hl Hb. assert (l = 0) as ->; [|change (span 0) with (2 ^ 39); lia].
  change LAST with 3 in Hl. unfold block_allowed in Hb. apply Z.leb_gt in Hb.
  unfold LEVEL_TO_VA_SIZE_SHIFT, LN_XLAT_VA_SIZE_SHIFT in Hb. change XLAT_LAST_LEVEL with 3 in Hb.
  change PAGE_SIZE_SHIFT with 12 in Hb. lia.
Qed.

Lemma request_4k virt phys size :
  0 <= virt -> 0 <= size < 2 ^ 39 -> virt + size <= 2 ^ 48 -> virt mod 4096 = 0 -> size mod 4096 = 0 ->
  0 <= phys -> phys mod 4096 = 0 -> phys + size <= 2 ^ 48 -> map_request virt phys size.
Proof. intros. split; [apply page_range; lia|done|apply small_4k; lia]. Qed.

(** The requests below are checked by evaluating the conditions. *)
#[local] Ltac request := apply request_4k; vm_compute; intuition congruence.
#[local] Ltac range := apply page_range; vm_compute; intuition congruence.

(** Normal writable memory, and the same without overwriting. *)
Definition ram : Z := Z.lor MT_NORMAL MT_RW.
Definition ram_once : Z := Z.lor ram MT_NO_OVERWRITE.

(** Without overwriting, at another offset than that of the physical address. *)
Lemma FMmuMap_correct_witness :
  map_request 0x1000 0x203000 0x3000 /\
  outcome start 0x1000 0x3000 (mapping ram_once 0x203000) false
    (FMmuMap 16 0x1000 0x203000 0x3000 ram_once start) /\
  exists pt', FMmuMap 16 0x1000 0x203000 0x3000 ram_once start = Ok (0, pt') /\
    translate pt' 0x2004 = Some (0x204004, GetRegionDesc ram_once).
Proof.
  assert (map_request 0x1000 0x203000 0x3000) as Hm by request.
  destruct (FMmuMap_correct 16 0x1000 0x203000 0x3000 ram_once start) as [Ho Hex];
    [apply start_wf|exact Hm|reflexivity|reflexivity|vm_compute; discriminate|reflexivity|].
  split; [exact Hm|]. split; [exact Ho|].
  destruct (FMmuMap 16 0x1000 0x203000 0x3000 ram_once start) as [[st pt']|] eqn:E; [|vm_compute in E; discriminate].
  assert (st = 0) as -> by (vm_compute in E; congruence).
  exists pt'. split; [reflexivity|].
  apply (Hex (or_introl eq_refl) pt' eq_refl 0x2004). lia.
Defined.

(** A board with one region, started. *)
Definition board : list ArmMmuRegion := [mkRegion 0x28000000 0x28000000 0x2000 MT_DEVICE_NGNRE].
Definition at_el1 : SysRegs := mkSys 0 4 0 0 0 0.
Definition get {A} (d : A) (r : res A) : A := match r with Ok a => a | Fault _ => d end.
Definition booted : ArmMmuPtables := (get (at_el1, start) (MmuInit 16 board [] at_el1 empty_memory)).2.
(** Three pages mapped there, and unmapped again. *)
Definition mapped : ArmMmuPtables := (get (1, start) (FMmuMap 16 0x40000000 0x203000 0x3000 ram booted)).2.
Definition unmapped : ArmMmuPtables := (get (1, start) (FMmuUnMap 16 0x40000000 0x3000 mapped)).2.
Definition uncached : ArmMmuPtables := get start (FSetTlbAttributes 16 0x28001800 0x800 MT_DEVICE_GRE unmapped).

Lemma mapped_reachable : reachable mapped.
Proof.
  apply (reach_map booted 16 0x40000000 0x203000 0x3000 ram 0).
  - apply (reach_init empty_memory 16 board [] at_el1 (EnableMmuEl1 booted at_el1)); [by split| |vm_compute; reflexivity].
    constructor; [|constructor]. split; [request|reflexivity].
  - request.
  - reflexivity.
  - vm_compute. reflexivity.
Qed.

Lemma mapped_wf : tables_wf mapped.
Proof.
  assert (tables_wf booted) as Hb.
  { apply (MmuInit_wf 16 board [] at_el1 empty_memory (EnableMmuEl1 booted at_el1)); [by split| |vm_compute; reflexivity].
    constructor; [|constructor]. split; [request|reflexivity]. }
  apply (ArchMemMap_wf 16 0x40000000 0x203000 0x3000 ram booted 0); [exact Hb|request|reflexivity|vm_compute; reflexivity].
Qed.

(** The two tables only the range needed are free again afterwards; the region of the
    board keeps its own. *)
Lemma FMmuUnMap_correct_witness :
  exists pt', FMmuUnMap 16 0x40000000 0x3000 mapped = Ok (0, pt') /\
    translate mapped 0x40001004 = Some (0x204004, GetRegionDesc ram) /\ translate pt' 0x40001004 = None /\
    translate pt' 0x28001004 = Some (0x28001004, GetRegionDesc MT_DEVICE_NGNRE) /\
    map (use_count mapped) [0; 1; 2; 3; 4; 5] = [2; 4; 3; 4; 3; 5] /\
    map (use_count pt') [0; 1; 2; 3; 4; 5] = [2; 3; 3; 4; 0; 0] /\
    (forall t, idle_table pt' t -> idle_table mapped t).
Proof.
  destruct (FMmuUnMap_correct 16 0x40000000 0x3000 mapped) as (st & pt' & k & E & W & K & M & T & HI & S);
    [apply mapped_wf|range|reflexivity|reflexivity|].
  exists pt'. rewrite E. vm_compute in E. injection E as <- <-.
  repeat (split; [vm_compute; reflexivity|]). exact HI.
Defined.

Lemma reachable_tables_witness :
  reachable uncached /\ tables_wf uncached /\ translate uncached 0x28001004 = Some (0x28001004, GetRegionDesc MT_DEVICE_GRE).
Proof.
  assert (reachable uncached) as Hr.
  { apply (reach_attributes unmapped 16 0x28001800 0x800 MT_DEVICE_GRE).
    - apply (reach_unmap mapped 16 0x40000000 0x3000 0); [apply mapped_reachable|range|reflexivity|vm_compute; reflexivity].
    - cbn. split; [request|reflexivity].
    - vm_compute. reflexivity. }
  split; [exact Hr|]. split; [apply (reachable_tables uncached Hr)|vm_compute; reflexivity].
Defined.

Lemma FSetTlbAttributes_tail_witness :
  exists pt', FSetTlbAttributes 16 0x1800 0x1000 ram start = Ok pt' /\ tables_wf pt' /\
    forall va, 0x2000 <= va < 0x2800 -> va < 2 ^ 48 -> translate pt' va = translate start va.
Proof.
  destruct (FSetTlbAttributes_tail 16 0x1800 0x1000 ram start) as (pt' & E & W & T).
  - apply start_wf.
  - vm_compute. discriminate.
  - reflexivity.
  - reflexivity.
  - range.
  - apply small_4k. reflexivity.
  - reflexivity.
  - exists pt'. split; [exact E|]. split; [exact W|]. intros va Hva. apply T. exact Hva.
Defined.


(** Two requests one after the other, and what [va] becomes. *)
Definition map_twice `{MmuConfig} (v1 p1 s1 v2 p2 s2 va : Z) : res (Z * Z * option (Z * Z)) :=
  let! (st1, pt) := FMmuMap 512 v1 p1 s1 ram start in
  let! (st2, pt) := FMmuMap 512 v2 p2 s2 ram pt in
  Ok (st1, st2, translate pt va).

(** Property: mapping a page of a block to another page of the same physical block
    reports success and changes nothing: [IsDescSuperset] compares the addresses
    only above the size of the block, so the old block is taken to cover the new
    mapping. *)
Theorem FMmuMap_superset :
  map_twice 0x200000 0x200000 0x200000 0x201000 0x205000 0x1000 0x201000 =
    Ok (0, 0, Some (0x201000, GetRegionDesc ram)) /\
  (** in another physical block the same request is carried out *)
  map_twice 0x200000 0x200000 0x200000 0x201000 0x405000 0x1000 0x201000 =
    Ok (0, 0, Some (0x405000, GetRegionDesc ram)).
Proof. split; vm_compute; reflexivity. Qed.

Definition cfg_16k : MmuConfig :=
  {| PAGE_SIZE_SHIFT := 14; CONFIG_MAX_XLAT_TABLES := 8; xlat_base := 0x80000000;
     FCPU_CONFIG_ARM64_PA_BITS := 44 |}.

(** Property: with 16K pages a request of 64G, such as the PCIe region of the PE220x
    boards, is answered with success by a descriptor of a level where the
    architecture has no blocks: nothing is mapped; the same request with 4K pages
    is carried out. *)
Theorem FMmuMap_16k_block :
  @map_twice cfg_16k 0x1000000000 0x1000000000 0x1000000000 0x4000 0x4000 0x4000 0x1000000000 =
    Ok (0, 0, None) /\
  @map_twice cfg_4k 0x1000000000 0x1000000000 0x1000000000 0x4000 0x4000 0x4000 0x1000000000 =
    Ok (0, 0, Some (0x1000000000, GetRegionDesc ram)).
Proof. split; vm_compute; reflexivity. Qed.

(** The physical address size in TCR_EL1, in bits. *)
Definition tcr_pa_bits (tcr : Z) : option Z :=
  nth_error [32; 36; 40; 42; 44; 48] (Z.to_nat (Z.land (Z.shiftr tcr 32) 7)).

(** Property: the physical address size programmed into TCR_EL1 is the one of the
    SoC for every width the register can express; for any other width, such as
    the 47 bits of the PS2316, it is 32 bits, so addresses above 4G fault. *)
Theorem GetTcr_pa_size : forall cfg : MmuConfig,
  PAGE_SIZE_SHIFT = 12 \/ PAGE_SIZE_SHIFT = 14 \/ PAGE_SIZE_SHIFT = 16 ->
  tcr_pa_bits (GetTcr 1) =
    Some (if decide (FCPU_CONFIG_ARM64_PA_BITS ∈ [36; 40; 42; 44; 48]) then FCPU_CONFIG_ARM64_PA_BITS else 32).
Proof.
  intros cfg Hg. unfold GetTcr, TCR_PS_BITS, TCR_GRANULE_CONFIG, TCR_TGx_GRANULE, CONFIG_MMU_PAGE_SIZE.
  destruct cfg as [P n b pa]. cbn in Hg. cbn [PAGE_SIZE_SHIFT FCPU_CONFIG_ARM64_PA_BITS].
  destruct (decide (pa ∈ [36; 40; 42; 44; 48])) as [Hin|Hout].
  - rewrite list_elem_of_In in Hin. cbn in Hin.
    destruct Hin as [<-|[<-|[<-|[<-|[<-|[]]]]]]; destruct Hg as [->|[->| ->]]; vm_compute; reflexivity.
  - rewrite list_elem_of_In in Hout. cbn in Hout.
    repeat match goal with
    | |- context [pa =? ?x] => destruct (Z.eqb_spec pa x); [exfalso; apply Hout; subst; tauto|]
    end.
    destruct Hg as [->|[->| ->]]; vm_compute; reflexivity.
Qed.

Definition cfg_ps2316 : MmuConfig :=
  {| PAGE_SIZE_SHIFT := 12; CONFIG_MAX_XLAT_TABLES := 256; xlat_base := 0x80000000;
     FCPU_CONFIG_ARM64_PA_BITS := 47 |}.

Lemma GetTcr_pa_size_witness : tcr_pa_bits (@GetTcr cfg_ps2316 1) = Some 32.
Proof. apply (GetTcr_pa_size cfg_ps2316). left. reflexivity. Defined.
