(* ===== verification/Printk.v ===== *)
(** Formatted printing: fprintk.c and fprintf.c.  A C string is the list of its characters
    before the NUL, a character is a [Z] of 8 bits, and what is printed is a list too. *)
From Stdlib Require Import Ascii.
From stdpp Require Import strings.
From S2P Require Import Prelude.

Module Printk.

(** ** Characters *)
Definition ch (a : ascii) : Z := Z.of_N (N_of_ascii a).
Fixpoint text (s : string) : list Z :=
  match s with
  | EmptyString => []
  | String a s => ch a :: text s
  end.

(** ** Arguments

    What a caller passes for the dots: an [int] or an [unsigned int], a 64-bit integer,
    a pointer, a string.  To ask for an argument of another type, or for one more than
    there are, is undefined. *)
Inductive va : Set :=
| VInt (v : Z)
| VLong (v : Z)
| VPtr (v : Z)
| VStr (s : list Z).

Definition va_int (args : list va) : res (Z * list va) :=
  match args with VInt v :: args => Ok (to_signed 32 (u32 v), args) | _ => Fault Undefined end.
Definition va_uint (args : list va) : res (Z * list va) :=
  match args with VInt v :: args => Ok (u32 v, args) | _ => Fault Undefined end.
Definition va_long (args : list va) : res (Z * list va) :=
  match args with VLong v :: args => Ok (u64 v, args) | _ => Fault Undefined end.
Definition va_ptr (args : list va) : res (Z * list va) :=
  match args with VPtr v :: args => Ok (u64 v, args) | _ => Fault Undefined end.
Definition va_str (args : list va) : res (list Z * list va) :=
  match args with VStr s :: args => Ok (s, args) | _ => Fault Undefined end.

(** The result of [int] arithmetic, which must not overflow. *)
Definition int (z : Z) : res Z :=
  if (- 2 ^ 31 <=? z) && (z <? 2 ^ 31) then Ok z else Fault Undefined.

(** ** fprintk.c *)
Definition DIGITS_BUFLEN : Z := 21.
Definition ALPHA (fmt : Z) : Z := u32 (Z.land fmt 0x60 - ch "0" - 10 + 1).
Definition PAD_ZERO : Z := BIT 0.
Definition PAD_TAIL : Z := BIT 1.

(** The digit for a remainder. *)
Definition digit_char (alpha c : Z) : Z :=
  let c := if 10 <=? c then u32 (c + alpha) else c in
  u8 (c + ch "0").

(** The digits are stored downwards from the end of a buffer of [DIGITS_BUFLEN]
    characters; [i] of them are stored, [acc]. *)
Fixpoint convert_loop (fuel : nat) (num base alpha i : Z) (acc : list Z) : res (list Z) :=
  match fuel with
  | O => Fault OutOfFuel
  | S fuel =>
      if DIGITS_BUFLEN <? i + 1 then Fault Undefined
      else
        let acc := digit_char alpha (u32 (num mod base)) :: acc in
        let num := num / base in
        if num =? 0 then Ok acc else convert_loop fuel num base alpha (i + 1) acc
  end.
Definition convert_value (num base alpha : Z) : res (list Z) := convert_loop 64 num base alpha 0 [].

(** What the flags of a directive have said so far. *)
Record spec := mkSpec {
  min_width : Z;
  precision : Z;
  padding_mode : Z;
  length_mod : Z;
  special : Z
}.
Definition spec_start : spec := mkSpec (-1) (-1) 0 0 0.
Definition set_padding (s : spec) (x : Z) : spec :=
  mkSpec s.(min_width) s.(precision) x s.(length_mod) s.(special).
Definition set_width (s : spec) (x : Z) : spec :=
  mkSpec x s.(precision) s.(padding_mode) s.(length_mod) s.(special).
Definition set_precision (s : spec) (x : Z) : spec :=
  mkSpec s.(min_width) x s.(padding_mode) s.(length_mod) s.(special).
Definition set_length (s : spec) (x : Z) : spec :=
  mkSpec s.(min_width) s.(precision) s.(padding_mode) x s.(special).
Definition set_special (s : spec) (x : Z) : spec :=
  mkSpec s.(min_width) s.(precision) s.(padding_mode) s.(length_mod) x.

Definition is_digit (c : Z) : bool := (ch "0" <=? c) && (c <=? ch "9").

(** [10 * n + *fmt - '0']. *)
Definition push_digit (n c : Z) : res Z :=
  let! a := int (10 * n) in
  let! b := int (a + c) in
  int (b - ch "0").

(** A turn of the loop over a directive: it goes on, it ends with characters to print,
    or it has reached the conversion. *)
Inductive step : Set :=
| Next (s : spec) (args : list va)
| Literal (l : list Z)
| Convert.

Definition star (s : spec) (args : list va) : res step :=
  let! (v, args) := va_int args in
  if 0 <=? s.(precision) then Ok (Next (set_precision s v) args)
  else if v <? 0 then
    let! v := int (- v) in Ok (Next (set_padding (set_width s v) PAD_TAIL) args)
  else Ok (Next (set_width s v) args).

Definition length_turn (c : Z) (s : spec) (args : list va) : step :=
  if (c =? ch "h") && (s.(length_mod) =? ch "h") then Next (set_length s (ch "H")) args
  else if (c =? ch "l") && (s.(length_mod) =? ch "l") then Next (set_length s (ch "L")) args
  else if s.(length_mod) =? 0 then Next (set_length s c) args
  else Literal [ch "%"; c].

Definition is_conversion (c : Z) : bool :=
  bool_decide (c ∈ text "diupxXsc").

Definition directive_turn (c : Z) (s : spec) (args : list va) : res step :=
  if c =? ch "%" then Ok (Literal [ch "%"])
  else if c =? ch "-" then Ok (Next (set_padding s PAD_TAIL) args)
  else if c =? ch "." then
    Ok (Next (set_padding (set_precision s 0) (Z.land s.(padding_mode) (lnotw 8 PAD_ZERO))) args)
  else if (c =? ch "0") && (s.(min_width) <? 0) && (s.(precision) <? 0)
          && (s.(padding_mode) =? 0) then
    Ok (Next (set_padding s PAD_ZERO) args)
  else if is_digit c then
    if 0 <=? s.(precision) then
      let! p := push_digit s.(precision) c in Ok (Next (set_precision s p) args)
    else
      let! w := push_digit (if s.(min_width) <? 0 then 0 else s.(min_width)) c in
      Ok (Next (set_width s w) args)
  else if c =? ch "*" then star s args
  else if (c =? ch "+") || (c =? ch " ") || (c =? ch "#") then Ok (Next (set_special s c) args)
  else if (c =? ch "h") || (c =? ch "l") || (c =? ch "z") then Ok (length_turn c s args)
  else if is_conversion c then Ok Convert
  else Ok (Literal [ch "%"; c]).

(** A converted argument: [prefix], [data] with [data_len], and the fields the conversion
    changes. *)
Record converted := mkConverted {
  prefix : list Z;
  data : list Z;
  data_len : Z;
  width : Z (* [min_width] *);
  prec : Z (* [precision] *)
}.

Definition conv_decimal (c : Z) (s : spec) (args : list va) : res (converted * list va) :=
  let! (d, args) :=
    if (s.(length_mod) =? ch "z") || (s.(length_mod) =? ch "l") || (s.(length_mod) =? ch "L")
    then va_long args
    else if c =? ch "u" then va_uint args
    else let! (d, args) := va_int args in Ok (u64 d, args) in
  let '(d, prefix, width) :=
    if negb (c =? ch "u") && (to_signed 64 d <? 0)
    then (u64 (- d), [ch "-"], s.(min_width) - 1)
    else if s.(special) =? ch " " then (d, [ch " "], s.(min_width) - 1)
    else if s.(special) =? ch "+" then (d, [ch "+"], s.(min_width) - 1)
    else (d, [], s.(min_width)) in
  let! data := convert_value d 10 0 in
  Ok (mkConverted prefix data (Z.of_nat (length data)) width s.(precision), args).

Definition hex_value (x c : Z) (s : spec) : res converted :=
  let '(prefix, width) :=
    if s.(special) =? ch "#" then (text "0x", s.(min_width) - 2) else ([], s.(min_width)) in
  let! data := convert_value x 16 (ALPHA c) in
  Ok (mkConverted prefix data (Z.of_nat (length data)) width s.(precision)).

Definition conv_hex (c : Z) (s : spec) (args : list va) : res (converted * list va) :=
  if c =? ch "p" then
    let! (x, args) := va_ptr args in
    if x =? 0 then Ok (mkConverted [] (text "(nil)") 5 s.(min_width) 0, args)
    else let! r := hex_value x c (set_special s (ch "#")) in Ok (r, args)
  else
    let! (x, args) :=
      if (s.(length_mod) =? ch "l") || (s.(length_mod) =? ch "L") then va_long args
      else va_uint args in
    let! r := hex_value x c s in Ok (r, args).

Definition conv_string (s : spec) (args : list va) : res (converted * list va) :=
  let! (data, args) := va_str args in
  let data_len := to_signed 32 (u32 (Z.of_nat (length data))) in
  let data_len :=
    if (0 <=? s.(precision)) && (s.(precision) <? data_len) then s.(precision) else data_len in
  Ok (mkConverted [] data data_len s.(min_width) 0, args).

Definition conv_char (s : spec) (args : list va) : res (converted * list va) :=
  let! (c, args) := va_int args in
  Ok (mkConverted [] [u8 c] 1 s.(min_width) 0, args).

Definition conv (c : Z) (s : spec) (args : list va) : res (converted * list va) :=
  if (c =? ch "d") || (c =? ch "i") || (c =? ch "u") then conv_decimal c s args
  else if (c =? ch "p") || (c =? ch "x") || (c =? ch "X") then conv_hex c s args
  else if c =? ch "s" then conv_string s args
  else conv_char s args.

(** [while (--n >= 0) OUTC(c);]: the characters and [n] after it. *)
Definition pad (n c : Z) : res (list Z * Z) :=
  if 0 <=? n then Ok (replicate (Z.to_nat n) c, -1)
  else let! n := int (n - 1) in Ok ([], n).

(** The output of a converted argument. *)
Definition emit (padding_mode : Z) (r : converted) : res (list Z) :=
  let precision :=
    if (r.(prec) <? 0) && truth (Z.land padding_mode PAD_ZERO) then r.(width) else r.(prec) in
  let! min_width := int (r.(width) - r.(data_len)) in
  let! precision := int (precision - r.(data_len)) in
  let! min_width := if 0 <? precision then int (min_width - precision) else Ok min_width in
  let! (before, min_width) :=
    if negb (truth (Z.land padding_mode PAD_TAIL)) then pad min_width (ch " ")
    else Ok ([], min_width) in
  let! (zeros, _) := pad precision (ch "0") in
  let! (after, _) := pad min_width (ch " ") in
  Ok (before ++ r.(prefix) ++ zeros ++ take (Z.to_nat r.(data_len)) r.(data) ++ after).

(** [cbvprintf]: the characters it hands to [out], in order; it returns their number.
    [print_from] is the code from the label [start], [directive_from] the loop over a
    directive. *)
Fixpoint print_from (fmt : list Z) (args : list va) {struct fmt} : res (list Z) :=
  match fmt with
  | [] => Ok []
  | c :: fmt =>
      if c =? ch "%" then directive_from fmt spec_start args
      else let! o := print_from fmt args in Ok (c :: o)
  end
with directive_from (fmt : list Z) (s : spec) (args : list va) {struct fmt} : res (list Z) :=
  match fmt with
  | [] => Ok []
  | c :: fmt =>
      let! t := directive_turn c s args in
      match t with
      | Next s args => directive_from fmt s args
      | Literal l => let! o := print_from fmt args in Ok (l ++ o)
      | Convert =>
          let! (r, args) := conv c s args in
          let! l := emit s.(padding_mode) r in
          let! o := print_from fmt args in
          Ok (l ++ o)
      end
  end.
Definition cbvprintf (fmt : list Z) (args : list va) : res (Z * list Z) :=
  let! o := print_from fmt args in
  Ok (to_signed 32 (u32 (Z.of_nat (length o))), o).

(** [f_vprintf] and [f_printk]: [char_out] prints every character. *)
Definition f_printk (fmt : list Z) (args : list va) : res (list Z) :=
  let! (_, o) := cbvprintf fmt args in
  Ok (map (fun c => to_signed 8 (u8 c)) o).

(** ** fprintf.c *)
Definition PAD_RIGHT : Z := 1.
Definition PAD_ZERO_ : Z := 2 (* [PAD_ZERO] of this file *).
Definition PRINT_BUF_LEN : Z := 12.

(** [prints]: the characters it prints; it returns their number. *)
Definition prints (string : list Z) (width pad : Z) : list Z :=
  let '(width, padchar) :=
    if 0 <? width then
      let len := Z.of_nat (length string) in
      (if width <=? len then 0 else width - len,
       if truth (Z.land pad PAD_ZERO_) then ch "0" else ch " ")
    else (width, ch " ") in
  if negb (truth (Z.land pad PAD_RIGHT)) then replicate (Z.to_nat width) padchar ++ string
  else string ++ replicate (Z.to_nat width) padchar.

(** The digits, stored downwards from the character before the NUL at the end of
    [print_buf]; [n] characters of the buffer are used, the last ones are [acc]. *)
Fixpoint printi_loop (fuel : nat) (u b letbase n : Z) (acc : list Z) : res (Z * list Z) :=
  if u =? 0 then Ok (n, acc)
  else match fuel with
  | O => Fault OutOfFuel
  | S fuel =>
      if PRINT_BUF_LEN <? n + 1 then Fault Undefined
      else
        let t := u mod b in
        let t := if 10 <=? t then t + (letbase - ch "0" - 10) else t in
        printi_loop fuel (u / b) b letbase (n + 1) (u8 (t + ch "0") :: acc)
  end.

Definition printi (i b : Z) (sg : bool) (width pad letbase : Z) : res (list Z) :=
  if i =? 0 then Ok (prints (text "0") width pad)
  else
    let neg := sg && (b =? 10) && (i <? 0) in
    let! u := if neg then int (- i) else Ok (u32 i) in
    let! (n, s) := printi_loop 64 u b letbase 1 [] in
    if neg then
      if truth width && truth (Z.land pad PAD_ZERO_) then
        let! width := int (width - 1) in Ok (ch "-" :: prints s width pad)
      else if PRINT_BUF_LEN <? n + 1 then Fault Undefined
      else Ok (prints (ch "-" :: s) width pad)
    else Ok (prints s width pad).

Definition print_conv (c : Z) (width pad : Z) (args : list va) : res (list Z * list va) :=
  if c =? ch "s" then
    match args with
    | VStr s :: args => Ok (prints s width pad, args)
    | VPtr 0 :: args => Ok (prints (text "(null)") width pad, args)
    | _ => Fault Undefined
    end
  else if c =? ch "d" then
    let! (i, args) := va_int args in
    let! o := printi i 10 true width pad (ch "a") in Ok (o, args)
  else if c =? ch "x" then
    let! (i, args) := va_int args in
    let! o := printi i 16 false width pad (ch "a") in Ok (o, args)
  else if c =? ch "X" then
    let! (i, args) := va_int args in
    let! o := printi i 16 false width pad (ch "A") in Ok (o, args)
  else if c =? ch "u" then
    let! (i, args) := va_int args in
    let! o := printi i 10 false width pad (ch "a") in Ok (o, args)
  else if c =? ch "c" then
    let! (i, args) := va_int args in
    Ok (prints (if u8 i =? 0 then [] else [u8 i]) width pad, args)
  else Ok ([], args).

(** [print] with no buffer: the characters it prints.  [print_field] is a directive behind
    the [-]: [zeros] while the zeros in front of the width are read.  A directive that
    ends the format is read past the NUL. *)
Fixpoint print (format : list Z) (args : list va) {struct format} : res (list Z) :=
  match format with
  | [] => Ok []
  | c :: format =>
      if c =? ch "%" then
        match format with
        | [] => Ok []
        | c :: format' =>
            if c =? ch "%" then let! o := print format' args in Ok (c :: o)
            else if c =? ch "-" then print_field format' true 0 PAD_RIGHT args
            else print_field format true 0 0 args
        end
      else let! o := print format args in Ok (c :: o)
  end
with print_field (format : list Z) (zeros : bool) (width pad : Z) (args : list va)
    {struct format} : res (list Z) :=
  match format with
  | [] => Fault Undefined
  | c :: format =>
      if zeros && (c =? ch "0") then
        print_field format true width (Z.lor pad PAD_ZERO_) args
      else if is_digit c then
        let! w := int (width * 10) in
        let! w := int (w + (c - ch "0")) in
        print_field format false w pad args
      else
        let! (l, args) := print_conv c width pad args in
        let! o := print format args in
        Ok (l ++ o)
  end.
Definition f_printf (format : list Z) (args : list va) : res (list Z) := print format args.

End Printk.
