(* ===== verification/PrintkSpec.v ===== *)
(** What the C standard says [printf] prints for a directive, to compare fprintk.c and
    fprintf.c (Printk.v) with, and the digits of numbers. *)
From Stdlib Require Import Ascii.
From stdpp Require Import strings.
From S2P Require Import Prelude Printk.
Import Printk.

(** ** Digits *)

(** The digits of [n] in base [b], the most significant first. *)
Fixpoint digits_fuel (fuel : nat) (b n : Z) : list Z :=
  match fuel with
  | O => []
  | S fuel => (if n <? b then [] else digits_fuel fuel b (n / b)) ++ [n mod b]
  end.
Definition digits (b n : Z) : list Z := digits_fuel 64 b n.

Definition number_of (b : Z) (l : list Z) : Z := fold_left (fun a d => b * a + d) l 0.

Definition decimal (n : Z) : list Z := map (fun d => d + ch "0") (digits 10 n).
Definition hex_char (upper : bool) (d : Z) : Z :=
  if d <? 10 then d + ch "0" else d - 10 + (if upper then ch "A" else ch "a").
Definition hexadecimal (upper : bool) (n : Z) : list Z := map (hex_char upper) (digits 16 n).

(** ** Directives *)
Inductive len_mod : Set := LNone | LHh | LH | LL | LLl | LZ | LJ | LT.
#[export] Instance len_mod_eq_dec : EqDecision len_mod.
Proof. solve_decision. Defined.

Record directive := mkDirective {
  d_left : bool (* the flag [-] *);
  d_zero : bool (* the flag [0] *);
  d_flags : list Ascii.ascii (* [+], [#] and the space, in the order written *);
  d_width : option Z;
  d_prec : option Z;
  d_len : len_mod;
  d_conv : Ascii.ascii
}.

Definition opt_ch (o : option Ascii.ascii) : Z := from_option ch 0 o.
Definition len_text (l : len_mod) : list Z :=
  match l with
  | LNone => [] | LHh => text "hh" | LH => text "h" | LL => text "l" | LLl => text "ll"
  | LZ => text "z" | LJ => text "j" | LT => text "t"
  end.

(** A directive as it is written in a format. *)
Definition render (d : directive) : list Z :=
  text "%" ++ (if d.(d_left) then text "-" else []) ++ (if d.(d_zero) then text "0" else []) ++
  map ch d.(d_flags) ++ from_option decimal [] d.(d_width) ++
  from_option (fun p => text "." ++ decimal p) [] d.(d_prec) ++ len_text d.(d_len) ++ [ch d.(d_conv)].

(** ** The standard *)

(** The value of a numeric argument: signed conversions, unsigned ones. *)
Definition signed_arg (l : len_mod) (a : va) : option Z :=
  match l, a with
  | LNone, VInt v => Some (to_signed 32 (u32 v))
  | LH, VInt v => Some (to_signed 16 (u16 v))
  | LHh, VInt v => Some (to_signed 8 (u8 v))
  | (LL | LLl | LZ | LJ | LT), VLong v => Some (to_signed 64 (u64 v))
  | _, _ => None
  end.
Definition unsigned_arg (l : len_mod) (a : va) : option Z :=
  match l, a with
  | LNone, VInt v => Some (u32 v)
  | LH, VInt v => Some (u16 v)
  | LHh, VInt v => Some (u8 v)
  | (LL | LLl | LZ | LJ | LT), VLong v => Some (u64 v)
  | _, _ => None
  end.

Definition fill (n : Z) (c : Z) : list Z := replicate (Z.to_nat n) c.
Definition len (l : list Z) : Z := Z.of_nat (length l).

(** A field of the width of the directive. *)
Definition field (d : directive) (zeros : bool) (prefix body : list Z) : list Z :=
  let n := default 0 d.(d_width) - len (prefix ++ body) in
  if d.(d_left) then prefix ++ body ++ fill n (ch " ")
  else if zeros then prefix ++ fill n (ch "0") ++ body
  else fill n (ch " ") ++ prefix ++ body.

(** A number with a prefix: no digits for zero with the precision zero, else at least as
    many as the precision. *)
Definition number (d : directive) (prefix : list Z) (n : Z) (ds : list Z) : list Z :=
  let ds := if (n =? 0) && bool_decide (d.(d_prec) = Some 0) then [] else ds in
  let body := fill (default 0 d.(d_prec) - len ds) (ch "0") ++ ds in
  field d (d.(d_zero) && bool_decide (d.(d_prec) = None)) prefix body.

Definition is_flag (d : directive) (a : Ascii.ascii) : bool := bool_decide (a ∈ d.(d_flags)).

(** What a directive prints for an argument; nothing where the standard leaves it
    undefined. *)
Definition standard (d : directive) (a : va) : option (list Z) :=
  if bool_decide (d.(d_conv) = "d"%char \/ d.(d_conv) = "i"%char) then
    if is_flag d "#" then None else
    v ← signed_arg d.(d_len) a;
    let prefix :=
      if v <? 0 then text "-" else if is_flag d "+" then text "+"
      else if is_flag d " " then text " " else [] in
    Some (number d prefix v (decimal (Z.abs v)))
  else if bool_decide (d.(d_conv) = "u"%char) then
    if is_flag d "#" then None else
    v ← unsigned_arg d.(d_len) a; Some (number d [] v (decimal v))
  else if bool_decide (d.(d_conv) = "x"%char \/ d.(d_conv) = "X"%char) then
    v ← unsigned_arg d.(d_len) a;
    let upper := bool_decide (d.(d_conv) = "X"%char) in
    let prefix :=
      if is_flag d "#" && negb (v =? 0) then [ch "0"; ch d.(d_conv)] else [] in
    Some (number d prefix v (hexadecimal upper v))
  else if bool_decide (d.(d_conv) = "s"%char) then
    match d.(d_zero), d.(d_len), a with
    | false, LNone, VStr s =>
        if is_flag d "#" then None
        else Some (field d false [] (from_option (fun p => take (Z.to_nat p) s) s d.(d_prec)))
    | _, _, _ => None
    end
  else if bool_decide (d.(d_conv) = "c"%char) then
    match d.(d_zero), d.(d_len), d.(d_prec), a with
    | false, LNone, None, VInt v =>
        if is_flag d "#" then None else Some (field d false [] [u8 v])
    | _, _, _, _ => None
    end
  else None.

(** ** Lemmas on digits *)
Lemma number_of_snoc b l d : number_of b (l ++ [d]) = b * number_of b l + d.
Proof. unfold number_of. by rewrite fold_left_app. Qed.

Lemma digits_fuel_spec b : 2 <= b -> forall fuel n, 0 <= n < 2 ^ Z.of_nat fuel -> (0 < fuel)%nat ->
  number_of b (digits_fuel fuel b n) = n /\
  Forall (fun d => 0 <= d < b) (digits_fuel fuel b n) /\
  (n <> 0 -> exists d l, digits_fuel fuel b n = d :: l /\ d <> 0).
Proof.
  intros Hb. induction fuel as [|fuel IH]; intros n Hn Hpos; [lia|]. simpl.
  pose proof (Z.mod_pos_bound n b ltac:(lia)) as Hm. destruct (Z.ltb_spec n b).
  - rewrite Z.mod_small by lia. split; [|split].
    + unfold number_of. simpl. lia.
    + repeat constructor; lia.
    + intros Hz. by exists n, [].
  - assert (0 <= n / b < 2 ^ Z.of_nat fuel) as Hq.
    { rewrite Nat2Z.inj_succ, Z.pow_succ_r in Hn by lia. split; [apply Z.div_pos; lia|].
      apply Z.div_lt_upper_bound; nia. }
    assert (1 <= n / b) as Hq1 by (apply Z.div_le_lower_bound; lia).
    assert (0 < fuel)%nat as Hf by (destruct fuel; [simpl in Hq; lia|lia]).
    destruct (IH _ Hq Hf) as (H1 & H2 & H3). rewrite number_of_snoc, H1. split; [|split].
    + pose proof (Z.div_mod n b ltac:(lia)). lia.
    + apply Forall_app. split; [done|]. constructor; [done|constructor].
    + intros _. destruct (H3 ltac:(lia)) as (d & l & -> & Hd). by exists d, (l ++ [n mod b]).
Qed.

Lemma digits_fuel_length b : 2 <= b -> forall k fuel n, 0 <= n < b ^ Z.of_nat k -> (0 < k)%nat ->
  (length (digits_fuel fuel b n) <= k)%nat.
Proof.
  intros Hb. induction k as [|k IH]; intros fuel n Hn Hk; [lia|].
  destruct fuel as [|fuel]; simpl; [lia|]. rewrite length_app. simpl.
  destruct (Z.ltb_spec n b); simpl; [lia|].
  assert (0 < k)%nat as Hk' by (destruct k; [rewrite Z.pow_1_r in Hn; lia|lia]).
  specialize (IH fuel (n / b)). rewrite Nat2Z.inj_succ, Z.pow_succ_r in Hn by lia.
  assert (0 <= n / b < b ^ Z.of_nat k); [|by specialize (IH H0 Hk'); lia].
  split; [apply Z.div_pos; lia|apply Z.div_lt_upper_bound; lia].
Qed.

Lemma digits_correct b n : 2 <= b -> 0 <= n < 2 ^ 64 ->
  number_of b (digits b n) = n /\ Forall (fun d => 0 <= d < b) (digits b n) /\
  (n <> 0 -> exists d l, digits b n = d :: l /\ d <> 0).
Proof. intros Hb Hn. apply digits_fuel_spec; [done|exact Hn|lia]. Qed.

Lemma digits_fuel_nonempty fuel b n : (1 <= length (digits_fuel (S fuel) b n))%nat.
Proof. simpl. rewrite length_app. simpl. lia. Qed.

Lemma digits_length b n : 10 <= b -> 0 <= n < 2 ^ 64 -> (1 <= length (digits b n) <= 20)%nat.
Proof.
  intros Hb Hn. split.
  - apply (digits_fuel_nonempty 63).
  - apply digits_fuel_length; [lia| |lia]. split; [lia|].
    assert (10 ^ 20 <= b ^ 20) by (apply Z.pow_le_mono_l; lia).
    change (Z.of_nat 20) with 20. change (2 ^ 64) with 18446744073709551616 in Hn.
    change (10 ^ 20) with 100000000000000000000 in *. lia.
Qed.

(** ** Where the code follows the standard

    It does not for zero with the precision zero, for the sign flags of [u], for the
    prefix of zero and of [X], for the size of [zx], for values that do not fit a
    [short] or a [char], when a flag that counts is not the last one written (the code
    keeps the last), and for the modifiers [j] and [t], which it does not know. *)
Definition with_len (d : directive) (l : len_mod) : directive :=
  mkDirective d.(d_left) d.(d_zero) d.(d_flags) d.(d_width) d.(d_prec) l d.(d_conv).
Definition arg_value (d : directive) (a : va) : option Z :=
  if bool_decide (d.(d_conv) = "d"%char \/ d.(d_conv) = "i"%char) then signed_arg d.(d_len) a
  else unsigned_arg d.(d_len) a.
Definition is_hex (d : directive) : bool :=
  bool_decide (d.(d_conv) = "x"%char \/ d.(d_conv) = "X"%char).

(** The flag the code keeps. *)
Definition kept (d : directive) (a : Ascii.ascii) : bool :=
  bool_decide (list.last d.(d_flags) = Some a).
Definition is_signed (d : directive) : bool :=
  bool_decide (d.(d_conv) = "d"%char \/ d.(d_conv) = "i"%char).
Definition known_len (l : len_mod) : bool := match l with LJ | LT => false | _ => true end.

Definition agrees (d : directive) (a : va) : bool :=
  let zero := bool_decide (arg_value d a = Some 0) in
  negb (zero && bool_decide (d.(d_prec) = Some 0)) &&
  negb (bool_decide (d.(d_conv) = "u"%char) && (is_flag d "+" || is_flag d " ")) &&
  negb (is_hex d && is_flag d "#" && (zero || bool_decide (d.(d_conv) = "X"%char))) &&
  negb (is_hex d && bool_decide (d.(d_len) = LZ)) &&
  (negb (bool_decide (d.(d_len) = LH \/ d.(d_len) = LHh)) ||
   bool_decide (arg_value d a = arg_value (with_len d LNone) a)) &&
  (negb (is_signed d && is_flag d "+") || kept d "+") &&
  (negb (is_hex d && is_flag d "#") || kept d "#") &&
  known_len d.(d_len).

(** Directives and strings of less than 2^24 characters, with flags that exist. *)
Definition small (d : directive) : Prop :=
  Forall (fun a => a ∈ ["+"%char; " "%char; "#"%char]) d.(d_flags) /\
  from_option (fun w => 1 <= w < 2 ^ 24) True d.(d_width) /\
  from_option (fun p => 0 <= p < 2 ^ 24) True d.(d_prec).
Definition small_arg (a : va) : Prop := match a with VStr s => len s < 2 ^ 24 | _ => True end.

(** ** Formats *)
Inductive item : Set :=
| Plain (l : list Z)
| Percent
| Field (d : directive) (a : va).

Definition render_item (i : item) : list Z :=
  match i with Plain l => l | Percent => text "%%" | Field d _ => render d end.
Definition item_args (i : item) : list va := match i with Field _ a => [a] | _ => [] end.
Definition standard_item (i : item) : option (list Z) :=
  match i with Plain l => Some l | Percent => Some (text "%") | Field d a => standard d a end.

Definition format_of (l : list item) : list Z := concat (map render_item l).
Definition args_of (l : list item) : list va := concat (map item_args l).
Fixpoint standard_text (l : list item) : option (list Z) :=
  match l with
  | [] => Some []
  | i :: l => o ← standard_item i; os ← standard_text l; Some (o ++ os)
  end.
