(* ===== verification/PrintkProps.v ===== *)
(** The two formatters (Printk.v) print what the C standard says (PrintkSpec.v), and where
    they do not. *)
From Stdlib Require Import Ascii.
From stdpp Require Import strings.
From S2P Require Import Prelude Printk PrintkSpec.
Import Printk.

(** Characters as numbers. *)
Ltac chars :=
  repeat match goal with
  | |- context [ch ?a] => let v := eval vm_compute in (ch a) in change (ch a) with v
  end.

(** ** Digits *)
Lemma convert_loop_spec base alpha : 2 <= base <= 16 -> forall fuel num i acc,
  0 <= num < 2 ^ Z.of_nat fuel -> (0 < fuel)%nat ->
  i + len (digits_fuel fuel base num) <= DIGITS_BUFLEN ->
  convert_loop fuel num base alpha i acc =
    Ok (map (digit_char alpha) (digits_fuel fuel base num) ++ acc).
Proof.
  intros Hb. unfold DIGITS_BUFLEN, len. induction fuel as [|fuel IH]; intros num i acc Hn Hf Hi; [lia|].
  simpl in *. rewrite length_app in Hi. simpl in Hi. unfold DIGITS_BUFLEN.
  rewrite (proj2 (Z.ltb_ge 21 (i + 1))) by lia.
  pose proof (Z.mod_pos_bound num base ltac:(lia)) as Hm. rewrite (wrap_small 32) by lia.
  destruct (Z.ltb_spec num base).
  - rewrite Z.div_small, Z.mod_small by lia. done.
  - assert (1 <= num / base) by (apply Z.div_le_lower_bound; lia).
    destruct (Z.eqb_spec (num / base) 0); [lia|].
    rewrite Nat2Z.inj_succ, Z.pow_succ_r in Hn by lia.
    assert (num / base < 2 ^ Z.of_nat fuel) by (apply Z.div_lt_upper_bound; nia).
    rewrite IH; [|lia| |lia].
    + by rewrite map_app, <-app_assoc.
    + destruct fuel; [simpl in *; lia|lia].
Qed.

Lemma convert_value_spec base alpha num : 10 <= base <= 16 -> 0 <= num < 2 ^ 64 ->
  convert_value num base alpha = Ok (map (digit_char alpha) (digits base num)).
Proof.
  intros Hb Hn. unfold convert_value. rewrite convert_loop_spec; [by rewrite app_nil_r|lia|done|lia|].
  pose proof (digits_length base num ltac:(lia) Hn). unfold digits, DIGITS_BUFLEN, len in *. lia.
Qed.

Lemma digit_char_decimal d : 0 <= d < 10 -> digit_char 0 d = d + ch "0".
Proof.
  intros Hd. unfold digit_char. rewrite (proj2 (Z.leb_gt 10 d)) by lia. chars.
  apply wrap_small. lia.
Qed.

Lemma digit_char_hex d (upper : bool) : 0 <= d < 16 ->
  digit_char (ALPHA (if upper then ch "X" else ch "x")) d = hex_char upper d.
Proof.
  intros Hd.
  assert (Forall (fun d => digit_char (ALPHA (if upper then ch "X" else ch "x")) d = hex_char upper d)
            (seqZ 0 16)) as Hall by (destruct upper; repeat constructor).
  rewrite Forall_forall in Hall. apply Hall, list_elem_of_In, elem_of_seqZ. lia.
Qed.

Lemma convert_decimal n : 0 <= n < 2 ^ 64 -> convert_value n 10 0 = Ok (decimal n).
Proof.
  intros Hn. rewrite convert_value_spec by lia. f_equal. apply map_ext_in. intros d Hd.
  apply digit_char_decimal. destruct (digits_correct 10 n ltac:(lia) Hn) as (_ & Hf & _).
  rewrite Forall_forall in Hf. by apply Hf.
Qed.

Lemma convert_hex (upper : bool) n : 0 <= n < 2 ^ 64 ->
  convert_value n 16 (ALPHA (if upper then ch "X" else ch "x")) = Ok (hexadecimal upper n).
Proof.
  intros Hn. rewrite convert_value_spec by lia. f_equal. apply map_ext_in. intros d Hd.
  apply digit_char_hex. destruct (digits_correct 16 n ltac:(lia) Hn) as (_ & Hf & _).
  rewrite Forall_forall in Hf. by apply Hf.
Qed.

(** ** A converted argument *)
Lemma int_ok z : - 2 ^ 31 <= z < 2 ^ 31 -> int z = Ok z.
Proof. intros Hz. unfold int. by rewrite (proj2 (Z.leb_le _ _)), (proj2 (Z.ltb_lt _ _)) by lia. Qed.

Lemma pad_spec n c : - 2 ^ 31 < n < 2 ^ 31 ->
  pad n c = Ok (fill n c, if 0 <=? n then -1 else n - 1).
Proof.
  intros Hn. unfold pad. destruct (Z.leb_spec 0 n); [done|]. rewrite int_ok by lia. simpl.
  unfold fill. by rewrite Z2Nat.nonpos by lia.
Qed.

Lemma fill_neg n c : n <= 0 -> fill n c = [].
Proof. intros Hn. unfold fill. by rewrite Z2Nat.nonpos. Qed.

Lemma len_fill n c : len (fill n c) = Z.max 0 n.
Proof. unfold len, fill. rewrite length_replicate. lia. Qed.

Lemma len_cons x l : len (x :: l) = 1 + len l.
Proof. unfold len. simpl. lia. Qed.

Lemma len_nil : len [] = 0.
Proof. done. Qed.

Lemma len_app l1 l2 : len (l1 ++ l2) = len l1 + len l2.
Proof. unfold len. rewrite length_app. lia. Qed.

(** The output of a converted argument, when its numbers are not huge. *)
Lemma emit_spec pm r : 0 <= r.(data_len) < 2 ^ 30 -> - 3 <= r.(width) < 2 ^ 30 ->
  -1 <= r.(prec) < 2 ^ 30 ->
  let p := if (r.(prec) <? 0) && truth (Z.land pm PAD_ZERO) then r.(width) else r.(prec) in
  let n := r.(width) - r.(data_len) - Z.max 0 (p - r.(data_len)) in
  let tail := truth (Z.land pm PAD_TAIL) in
  emit pm r = Ok ((if tail then [] else fill n (ch " ")) ++ r.(prefix) ++ fill (p - r.(data_len)) (ch "0") ++
    take (Z.to_nat r.(data_len)) r.(data) ++ (if tail then fill n (ch " ") else [])).
Proof.
  intros Hl Hw Hp p n tail. unfold emit. fold p. fold tail.
  assert (-3 <= p < 2 ^ 30) as Hp' by (unfold p; destruct (_ && _); lia).
  rewrite int_ok by lia. simpl. rewrite int_ok by lia. simpl.
  assert ((if 0 <? p - data_len r then int (width r - data_len r - (p - data_len r))
           else Ok (width r - data_len r)) = Ok n) as ->.
  { unfold n. destruct (Z.ltb_spec 0 (p - data_len r)); [rewrite int_ok by lia|]; f_equal; lia. }
  simpl. rewrite (pad_spec (p - data_len r)) by lia. destruct tail; simpl.
  - rewrite pad_spec by (unfold n; lia). done.
  - rewrite (pad_spec n) by (unfold n; lia). simpl. rewrite pad_spec by (destruct (0 <=? n); unfold n; lia).
    simpl. rewrite (fill_neg (if 0 <=? n then _ else _)); [done|]. destruct (Z.leb_spec 0 n); lia.
Qed.

Lemma fill_ext n m c : Z.max 0 n = Z.max 0 m -> fill n c = fill m c.
Proof. intros E. unfold fill. f_equal. lia. Qed.

Ltac fill_eq := repeat first [reflexivity | apply fill_ext; lia | f_equal].

(** ** The fields of a directive *)
Definition mod_char (l : len_mod) : Z :=
  match l with
  | LNone => 0 | LHh => ch "H" | LH => ch "h" | LL => ch "l" | LLl => ch "L" | LZ => ch "z"
  | LJ => ch "j" | LT => ch "t"
  end.

(** What the code makes of a directive. *)
Definition spec_of (d : directive) : spec :=
  mkSpec (default (if d.(d_left) && d.(d_zero) then 0 else -1) d.(d_width))
    (default (-1) d.(d_prec))
    (if d.(d_left) then PAD_TAIL
     else if d.(d_zero) && bool_decide (d.(d_prec) = None) then PAD_ZERO else 0)
    (mod_char d.(d_len)) (opt_ch (list.last d.(d_flags))).

Lemma spec_of_small d : small d -> -1 <= (spec_of d).(min_width) < 2 ^ 24 /\
  -1 <= (spec_of d).(precision) < 2 ^ 24 /\
  Z.max 0 (spec_of d).(min_width) = default 0 d.(d_width) /\
  Z.max 0 (spec_of d).(precision) = default 0 d.(d_prec) /\
  ((spec_of d).(precision) <? 0) = bool_decide (d.(d_prec) = None).
Proof.
  intros (_ & Hw & Hp). unfold spec_of. destruct d as [lf ze fl [w|] [p|] ln cv]; simpl in *;
    repeat split; try (destruct (lf && ze)); try lia; rewrite ?bool_decide_eq_true_2 by done; try done.
  all: rewrite bool_decide_eq_false_2 by done; lia.
Qed.

(** A number that is converted, printed in its field. *)
Lemma emit_number d prefix n ds : small d -> 1 <= len ds < 2 ^ 24 -> 0 <= len prefix <= 2 ->
  (n = 0 -> d.(d_prec) <> Some 0) ->
  emit (spec_of d).(padding_mode)
    (mkConverted prefix ds (len ds) ((spec_of d).(min_width) - len prefix) (spec_of d).(precision)) =
  Ok (number d prefix n ds).
Proof.
  intros Hd Hds Hpre Hn. destruct (spec_of_small d Hd) as (Hw & Hp & Ew & Ep & Eb).
  revert Hw Hp Ew Ep Eb. generalize (spec_of d).(min_width) (spec_of d).(precision).
  intros W P Hw Hp Ew Ep Eb. rewrite emit_spec by (cbn [data_len width prec]; lia).
  cbn [data_len width prec data Printk.prefix]. rewrite Eb.
  assert (take (Z.to_nat (len ds)) ds = ds) as -> by (apply take_ge; unfold len; lia).
  unfold number. replace ((n =? 0) && bool_decide (d_prec d = Some 0)) with false.
  2: { destruct (Z.eqb_spec n 0) as [->|]; [|done]. simpl. symmetry. apply bool_decide_eq_false_2. by apply Hn. }
  unfold field. rewrite !len_app, !len_fill. f_equal.
  unfold spec_of. cbn [padding_mode]. destruct (d_left d).
  - change (truth (Z.land PAD_TAIL PAD_ZERO)) with false.
    change (truth (Z.land PAD_TAIL PAD_TAIL)) with true. rewrite andb_false_r.
    cbn [app]. rewrite <-!app_assoc. fill_eq.
  - change (truth (Z.land PAD_ZERO PAD_TAIL)) with false. change (truth (Z.land 0 PAD_TAIL)) with false.
    case_bool_decide as Hnone; [destruct (d_zero d)|rewrite andb_false_r]; simpl.
    + rewrite (fill_neg (W - _ - _ - _)), (fill_neg (default 0 (d_prec d) - _)) by (rewrite ?Hnone; simpl; lia).
      rewrite app_nil_r. simpl. fill_eq.
    + rewrite app_nil_r. fill_eq.
    + rewrite ?app_nil_r. fill_eq.
Qed.

(** ** Reading a directive *)
Lemma number_from b l a : fold_left (fun a d => b * a + d) l a = a * b ^ len l + number_of b l.
Proof.
  unfold number_of, len. revert a. induction l as [|d l IH]; intros a; simpl; [lia|].
  rewrite IH, (IH (b * 0 + d)), Nat2Z.inj_succ, Z.pow_succ_r by lia. lia.
Qed.

Lemma number_grows l a : Forall (fun d => 0 <= d < 10) l -> 0 <= a ->
  a <= fold_left (fun a d => 10 * a + d) l a.
Proof.
  revert a. induction l as [|d l IH]; intros a Hl Ha; simpl; [lia|]. inversion_clear Hl.
  etransitivity; [|apply IH; [done|lia]]. lia.
Qed.

Definition digit_text (l : list Z) : list Z := map (fun d => d + ch "0") l.

Lemma push_digit_spec n d : 0 <= n < 2 ^ 24 -> 0 <= d < 10 -> push_digit n (d + ch "0") = Ok (10 * n + d).
Proof.
  intros Hn Hd. unfold push_digit. chars. rewrite int_ok by lia. simpl. rewrite int_ok by lia. simpl.
  rewrite int_ok by lia. f_equal. lia.
Qed.

(** A digit of the width, of the precision. *)
Lemma turn_width d s args : 0 <= d < 10 -> s.(precision) < 0 -> s.(min_width) < 2 ^ 24 ->
  d <> 0 \/ 0 <= s.(min_width) ->
  directive_turn (d + ch "0") s args = Ok (Next (set_width s (10 * Z.max 0 s.(min_width) + d)) args).
Proof.
  intros Hd Hp Hw H. pose proof (push_digit_spec (Z.max 0 s.(min_width)) d ltac:(lia) Hd) as E.
  revert E. unfold directive_turn, is_digit. chars. intros E.
  rewrite (proj2 (Z.ltb_lt _ _) Hp), (proj2 (Z.leb_gt 0 _) Hp). decide_cmp. simpl.
  replace (if min_width s <? 0 then 0 else min_width s) with (Z.max 0 (min_width s))
    by (destruct (Z.ltb_spec (min_width s) 0); lia).
  replace ((d + 48 =? 48) && (min_width s <? 0)) with false.
  { simpl. by rewrite E. }
  destruct (Z.eqb_spec (d + 48) 48), (Z.ltb_spec (min_width s) 0); try done. lia.
Qed.

Lemma turn_precision d s args : 0 <= d < 10 -> 0 <= s.(precision) < 2 ^ 24 ->
  directive_turn (d + ch "0") s args = Ok (Next (set_precision s (10 * s.(precision) + d)) args).
Proof.
  intros Hd Hp. pose proof (push_digit_spec s.(precision) d Hp Hd) as E.
  revert E. unfold directive_turn, is_digit. chars. intros E.
  rewrite (proj2 (Z.ltb_ge s.(precision) 0)), (proj2 (Z.leb_le 0 s.(precision))) by lia.
  decide_cmp. rewrite andb_false_r. simpl. by rewrite E.
Qed.

Lemma read_width l : forall s args rest, Forall (fun d => 0 <= d < 10) l -> s.(precision) < 0 ->
  0 <= s.(min_width) ->
  fold_left (fun a d => 10 * a + d) l s.(min_width) < 2 ^ 24 ->
  directive_from (digit_text l ++ rest) s args =
    directive_from rest (set_width s (fold_left (fun a d => 10 * a + d) l s.(min_width))) args.
Proof.
  induction l as [|d l IH]; intros s args rest Hl Hp Hw Hb; simpl; [by destruct s|].
  inversion_clear Hl. simpl in Hb.
  pose proof (number_grows l (10 * min_width s + d) ltac:(done) ltac:(lia)).
  rewrite turn_width by (done || lia). simpl. rewrite Z.max_r by lia.
  rewrite IH; [done|done|done|simpl; lia|done].
Qed.

Lemma read_precision l : forall s args rest, Forall (fun d => 0 <= d < 10) l -> 0 <= s.(precision) ->
  fold_left (fun a d => 10 * a + d) l s.(precision) < 2 ^ 24 ->
  directive_from (digit_text l ++ rest) s args =
    directive_from rest (set_precision s (fold_left (fun a d => 10 * a + d) l s.(precision))) args.
Proof.
  induction l as [|d l IH]; intros s args rest Hl Hp Hb; simpl; [by destruct s|].
  inversion_clear Hl. simpl in Hb.
  pose proof (number_grows l (10 * precision s + d) ltac:(done) ltac:(lia)).
  rewrite turn_precision by (done || lia). simpl. rewrite IH; [done|done|simpl; lia|done].
Qed.

Lemma decimal_text n : decimal n = digit_text (digits 10 n).
Proof. done. Qed.

Lemma digits_small n : 0 <= n < 2 ^ 24 ->
  Forall (fun d => 0 <= d < 10) (digits 10 n) /\
  fold_left (fun a d => 10 * a + d) (digits 10 n) 0 < 2 ^ 24 /\
  fold_left (fun a d => 10 * a + d) (digits 10 n) 0 = n.
Proof.
  intros Hn. destruct (digits_correct 10 n ltac:(lia) ltac:(lia)) as (E & H & _).
  unfold number_of in E. rewrite E. split; [done|lia].
Qed.

(** The width, which may not begin with a zero when no other number has been read. *)
Lemma read_width_of s w args rest : 1 <= w < 2 ^ 24 -> s.(precision) < 0 -> -1 <= s.(min_width) <= 0 ->
  directive_from (decimal w ++ rest) s args = directive_from rest (set_width s w) args.
Proof.
  intros Hw Hp Hm. destruct (digits_small w ltac:(lia)) as (Hf & Hb & E).
  destruct (digits_correct 10 w ltac:(lia) ltac:(lia)) as (_ & _ & Hhead).
  destruct (Hhead ltac:(lia)) as (d & l & El & Hd). rewrite decimal_text, El in *. simpl.
  inversion_clear Hf. cbn [fold_left] in Hb, E. rewrite turn_width by (done || lia || auto). simpl.
  replace (10 * Z.max 0 (min_width s) + d) with (10 * 0 + d) by lia.
  rewrite read_width; [|done|done|simpl; lia|done]. simpl. by rewrite E.
Qed.

Lemma read_precision_of s p args rest : 0 <= p < 2 ^ 24 -> s.(precision) = 0 ->
  directive_from (decimal p ++ rest) s args = directive_from rest (set_precision s p) args.
Proof.
  intros Hp E0. destruct (digits_small p Hp) as (Hf & Hb & E).
  rewrite decimal_text, read_precision by (rewrite ?E0; done). by rewrite E0, E.
Qed.

Lemma read_len ln s args rest : known_len ln = true -> s.(length_mod) = 0 ->
  directive_from (len_text ln ++ rest) s args = directive_from rest (set_length s (mod_char ln)) args.
Proof. destruct s. simpl. intros Hk ->. by destruct ln. Qed.

(** The last one of the flags is kept. *)
Lemma read_flags fl : forall s args rest,
  Forall (fun a => a ∈ ["+"%char; " "%char; "#"%char]) fl ->
  directive_from (map ch fl ++ rest) s args =
    directive_from rest (set_special s (from_option ch s.(special) (list.last fl))) args.
Proof.
  induction fl as [|a fl IH]; intros s args rest Hf; [by destruct s|].
  apply Forall_cons_1 in Hf as [Ha Hf]. rewrite last_cons. cbn [map app].
  transitivity (directive_from (map ch fl ++ rest) (set_special s (ch a)) args).
  { rewrite !elem_of_cons in Ha. destruct Ha as [->|[->|[->|Ha]]]; [done..|]. by inversion Ha. }
  rewrite IH by done. f_equal. destruct s. by destruct (list.last fl).
Qed.

Lemma read_directive d args rest : small d -> known_len d.(d_len) = true ->
  print_from (render d ++ rest) args = directive_from (ch d.(d_conv) :: rest) (spec_of d) args.
Proof.
  intros (Hf & Hw & Hp) Hk. destruct d as [lf ze fl w p ln cv]. unfold render, spec_of.
  cbn [d_left d_zero d_flags d_width d_prec d_len d_conv] in *.
  rewrite <-!app_assoc.
  change (print_from (text "%" ++ ?x) args) with (directive_from x spec_start args).
  set (s1 := if lf then set_padding spec_start PAD_TAIL else spec_start).
  set (s2 := if ze then if lf then set_width s1 0 else set_padding s1 PAD_ZERO else s1).
  set (s3 := set_special s2 (opt_ch (list.last fl))). set (s4 := set_width s3 (default (min_width s3) w)).
  set (s5 := if p is Some p then set_precision (set_padding s4 (Z.land s4.(padding_mode) (lnotw 8 PAD_ZERO))) p else s4).
  transitivity (directive_from ((if ze then text "0" else []) ++ map ch fl ++
    from_option decimal [] w ++ from_option (fun p => text "." ++ decimal p) [] p ++ len_text ln ++ [ch cv] ++ rest) s1 args).
  { by destruct lf. }
  transitivity (directive_from (map ch fl ++
    from_option decimal [] w ++ from_option (fun p => text "." ++ decimal p) [] p ++ len_text ln ++ [ch cv] ++ rest) s2 args).
  { by destruct ze, lf. }
  transitivity (directive_from (
    from_option decimal [] w ++ from_option (fun p => text "." ++ decimal p) [] p ++ len_text ln ++ [ch cv] ++ rest) s3 args).
  { rewrite read_flags by done. by replace (special s2) with 0 by (by destruct ze, lf). }
  transitivity (directive_from (
    from_option (fun p => text "." ++ decimal p) [] p ++ len_text ln ++ [ch cv] ++ rest) s4 args).
  { destruct w as [w|]; cbn [from_option default] in *; [|by destruct ze, lf].
    apply read_width_of; [done|by destruct ze, lf|by destruct ze, lf]. }
  transitivity (directive_from (len_text ln ++ [ch cv] ++ rest) s5 args).
  { destruct p as [p|]; [|done]. cbn [from_option]. rewrite <-app_assoc.
    change (directive_from (text "." ++ ?x) s4 args) with
      (directive_from x (set_padding (set_precision s4 0) (Z.land s4.(padding_mode) (lnotw 8 PAD_ZERO))) args).
    by rewrite read_precision_of. }
  rewrite read_len by (done || by destruct p, w, ze, lf). f_equal. by destruct p, w, ze, lf.
Qed.

(** ** Conversions *)
Lemma to_signed_range w z : 1 <= w -> - 2 ^ (w - 1) <= to_signed w z < 2 ^ (w - 1).
Proof.
  intros Hw. pose proof (wrap_range w ltac:(lia) z) as Hr. unfold to_signed.
  replace (2 ^ w) with (2 * 2 ^ (w - 1)) in * by (rewrite <-Z.pow_succ_r by lia; f_equal; lia).
  destruct (Z.ltb_spec (wrap w z) (2 ^ (w - 1))); lia.
Qed.

Lemma wrap_to_signed w z : 0 <= w -> wrap w (to_signed w z) = wrap w z.
Proof.
  intros Hw. unfold to_signed. destruct (_ <? _); [by apply wrap_wrap|].
  unfold wrap at 1. replace (wrap w z - 2 ^ w) with (wrap w z + (-1) * 2 ^ w) by lia.
  rewrite Z.mod_add by (pose proof (pow2_pos w Hw); lia). by apply wrap_wrap.
Qed.

Lemma to_signed_wrap v : - 2 ^ 63 <= v < 2 ^ 63 -> to_signed 64 (u64 v) = v.
Proof.
  change (2 ^ 63) with 9223372036854775808. intros Hv. unfold to_signed. rewrite wrap_wrap by done.
  change (2 ^ (64 - 1)) with 9223372036854775808.
  destruct (Z.ltb_spec v 0).
  - rewrite wrap_below by (change (2 ^ 64) with 18446744073709551616; lia).
    change (2 ^ 64) with 18446744073709551616. rewrite (proj2 (Z.ltb_ge _ _)) by lia. lia.
  - rewrite wrap_small by (change (2 ^ 64) with 18446744073709551616; lia).
    by rewrite (proj2 (Z.ltb_lt _ _)) by lia.
Qed.

Lemma kept_char d a : small d -> (a = "+" \/ a = " " \/ a = "#")%char ->
  ((spec_of d).(special) =? ch a) = kept d a.
Proof.
  intros (Hf & _) Ha. unfold kept, spec_of. cbn [special].
  destruct (list.last (d_flags d)) as [f|] eqn:El; cbn [from_option opt_ch] in *.
  - apply last_Some in El as [l El]. rewrite El, Forall_app in Hf. destruct Hf as [_ Hf].
    apply Forall_cons_1 in Hf as [Hf _].
    rewrite !elem_of_cons in Hf. destruct Hf as [->|[->|[->|Hf]]]; [..|by inversion Hf];
      destruct Ha as [->|[->| ->]]; done.
  - by destruct Ha as [->|[->| ->]].
Qed.

Lemma kept_flag d a : kept d a = true -> is_flag d a = true.
Proof.
  unfold kept, is_flag. intros Hk%bool_decide_eq_true_1. apply bool_decide_eq_true_2.
  apply last_Some in Hk as [l ->]. apply elem_of_app. right. by left.
Qed.

(** Without [#] the last flag is a sign or a space. *)
Lemma kept_space d : small d -> is_flag d "#" = false -> is_flag d "+" = false ->
  kept d " " = is_flag d " ".
Proof.
  intros (Hf & _) H1%bool_decide_eq_false_1 H2%bool_decide_eq_false_1.
  unfold kept, is_flag. apply bool_decide_ext. split.
  - intros Hk. apply last_Some in Hk as [l ->]. apply elem_of_app. right. by left.
  - intros Hs. destruct (list.last (d_flags d)) as [f|] eqn:El.
    + apply last_Some in El as [l El]. rewrite El in *.
      apply Forall_app in Hf as [_ Hf]. apply Forall_cons_1 in Hf as [Hf _].
      rewrite !elem_of_cons in Hf. destruct Hf as [->|[->|[->|Hf]]]; [| done | |by inversion Hf].
      * destruct H2. apply elem_of_app. right. by left.
      * destruct H1. apply elem_of_app. right. by left.
    + apply last_None in El. rewrite El in Hs. by inversion Hs.
Qed.

Lemma turn_convert c s args : c ∈ text "diupxXsc" -> directive_turn c s args = Ok Convert.
Proof.
  intros Hc. simpl in Hc. rewrite !elem_of_cons in Hc.
  repeat (destruct Hc as [->|Hc]; [done|]). by inversion Hc.
Qed.

Lemma ch_conversion a : a ∈ ["d"; "i"; "u"; "x"; "X"; "s"; "c"]%char -> ch a ∈ text "diupxXsc".
Proof.
  intros Ha. assert (Forall (fun a => ch a ∈ text "diupxXsc") ["d"; "i"; "u"; "x"; "X"; "s"; "c"]%char) as Hall.
  { repeat constructor; by apply bool_decide_eq_true_1. }
  rewrite Forall_forall in Hall. by apply Hall, list_elem_of_In.
Qed.

(** The number of a directive, printed with its prefix. *)
Lemma decimal_len n : 0 <= n < 2 ^ 64 -> 1 <= len (decimal n) < 2 ^ 24.
Proof. intros Hn. unfold len, decimal. rewrite length_map. pose proof (digits_length 10 n ltac:(lia) Hn). lia. Qed.
Lemma hexadecimal_len u n : 0 <= n < 2 ^ 64 -> 1 <= len (hexadecimal u n) < 2 ^ 24.
Proof. intros Hn. unfold len, hexadecimal. rewrite length_map. pose proof (digits_length 16 n ltac:(lia) Hn). lia. Qed.

(** What the code fetches for a number. *)
Lemma signed_fetch d a v args : known_len d.(d_len) = true -> signed_arg d.(d_len) a = Some v ->
  (d.(d_len) = LH \/ d.(d_len) = LHh -> signed_arg d.(d_len) a = signed_arg LNone a) ->
  let lm := mod_char d.(d_len) in
  - 2 ^ 63 <= v < 2 ^ 63 /\
  (if (lm =? ch "z") || (lm =? ch "l") || (lm =? ch "L") then va_long (a :: args)
   else let! (d, args) := va_int (a :: args) in Ok (u64 d, args)) = Ok (u64 v, args).
Proof.
  intros Hk Hv Hh lm. unfold lm. clear lm.
  assert (forall x, a = VInt x -> signed_arg LNone a = Some v -> - 2 ^ 63 <= v < 2 ^ 63 /\
    (let! (d, args) := va_int (a :: args) in Ok (u64 d, args)) = Ok (u64 v, args)) as HI.
  { intros x ->. simpl. intros [= <-]. split; [|done].
    pose proof (to_signed_range 32 (u32 x) ltac:(lia)) as Hr. change (2 ^ (32 - 1)) with 2147483648 in Hr.
    change (2 ^ 63) with 9223372036854775808. lia. }
  assert (forall x, a = VLong x -> v = to_signed 64 (u64 x) -> - 2 ^ 63 <= v < 2 ^ 63 /\
    va_long (a :: args) = Ok (u64 v, args)) as HL.
  { intros x -> ->. split; [exact (to_signed_range 64 (u64 x) ltac:(lia))|].
    simpl. by rewrite wrap_to_signed, wrap_wrap by done. }
  destruct (d_len d), a; try done;
    first [exact (HL _ eq_refl (eq_sym (f_equal (default 0) Hv)))
          |exact (HI _ eq_refl Hv)
          |exact (HI _ eq_refl (eq_trans (eq_sym (Hh ltac:(auto))) Hv))].
Qed.

Lemma unsigned_fetch d a v args : known_len d.(d_len) = true ->
  unsigned_arg d.(d_len) a = Some v ->
  (d.(d_len) = LH \/ d.(d_len) = LHh -> unsigned_arg d.(d_len) a = unsigned_arg LNone a) ->
  let lm := mod_char d.(d_len) in
  0 <= v < 2 ^ 64 /\
  (if (lm =? ch "z") || (lm =? ch "l") || (lm =? ch "L") then va_long (a :: args)
   else va_uint (a :: args)) = Ok (v, args) /\
  (d.(d_len) <> LZ ->
   (if (lm =? ch "l") || (lm =? ch "L") then va_long (a :: args) else va_uint (a :: args)) = Ok (v, args)).
Proof.
  intros Hk Hv Hh lm. unfold lm. clear lm.
  assert (forall x, a = VInt x -> unsigned_arg LNone a = Some v -> 0 <= v < 2 ^ 64 /\
    va_uint (a :: args) = Ok (v, args)) as HI.
  { intros x ->. simpl. intros [= <-]. split; [|done]. pose proof (wrap_range 32 ltac:(lia) x) as Hr.
    change (2 ^ 32) with 4294967296 in Hr. change (2 ^ 64) with 18446744073709551616. lia. }
  assert (forall x, a = VLong x -> v = u64 x -> 0 <= v < 2 ^ 64 /\ va_long (a :: args) = Ok (v, args)) as HL.
  { intros x -> ->. split; [by apply wrap_range|done]. }
  destruct (d_len d), a; try done;
    first [destruct (HL _ eq_refl (eq_sym (f_equal (default 0) Hv))) as [? E]
          |destruct (HI _ eq_refl Hv) as [? E]
          |destruct (HI _ eq_refl (eq_trans (eq_sym (Hh ltac:(auto))) Hv)) as [? E]]; 
    (split; [done|]; split; [exact E|]; first [done|intros _; exact E]).
Qed.

(** What a directive does with its argument. *)
Definition prints_as (d : directive) (a : va) (args : list va) (l : list Z) : Prop :=
  exists r, conv (ch d.(d_conv)) (spec_of d) (a :: args) = Ok (r, args) /\
    emit (spec_of d).(padding_mode) r = Ok l.

Lemma emit_in_field d prefix n ds : small d -> 1 <= len ds < 2 ^ 24 -> 0 <= len prefix <= 2 ->
  (n = 0 -> d.(d_prec) <> Some 0) -> forall w, w = (spec_of d).(min_width) - len prefix ->
  emit (spec_of d).(padding_mode)
    (mkConverted prefix ds (Z.of_nat (length ds)) w (spec_of d).(precision)) = Ok (number d prefix n ds).
Proof. intros Hd Hds Hp Hn w ->. by apply emit_number. Qed.

Lemma kept_other d a b : kept d a = true -> a <> b -> kept d b = false.
Proof.
  unfold kept. intros Ha%bool_decide_eq_true_1 Hne. apply bool_decide_eq_false_2. congruence.
Qed.

Lemma prints_signed d a v args : small d -> known_len d.(d_len) = true ->
  d.(d_conv) = "d"%char \/ d.(d_conv) = "i"%char -> signed_arg d.(d_len) a = Some v ->
  is_flag d "#" = false -> (is_flag d "+" = true -> kept d "+" = true) ->
  (d.(d_len) = LH \/ d.(d_len) = LHh -> signed_arg d.(d_len) a = signed_arg LNone a) ->
  (v = 0 -> d.(d_prec) <> Some 0) ->
  prints_as d a args (number d (if v <? 0 then text "-" else if is_flag d "+" then text "+"
      else if is_flag d " " then text " " else []) v (decimal (Z.abs v))).
Proof.
  intros Hd Hk Hc Hv Hx Hplus Hh Hz. destruct (signed_fetch d a v args Hk Hv Hh) as [Hr E].
  unfold prints_as, conv. replace ((ch (d_conv d) =? ch "d") || (ch (d_conv d) =? ch "i") || (ch (d_conv d) =? ch "u"))
    with true by (by destruct Hc as [-> | ->]).
  unfold conv_decimal. change (length_mod (spec_of d)) with (mod_char (d_len d)).
  replace (ch (d_conv d) =? ch "u") with false by (by destruct Hc as [-> | ->]).
  rewrite E. simpl rbind. rewrite to_signed_wrap by done. simpl negb.
  rewrite !(kept_char d) by auto.
  assert (0 <= Z.abs v < 2 ^ 64) as Ha.
  { change (2 ^ 63) with 9223372036854775808 in Hr. change (2 ^ 64) with 18446744073709551616. lia. }
  assert ((if v <? 0 then u64 (- u64 v) else u64 v) = Z.abs v) as Habs.
  { change (2 ^ 63) with 9223372036854775808 in Hr. destruct (Z.ltb_spec v 0).
    - replace (- u64 v) with (0 - u64 v) by lia. rewrite wrap_sub_r by done. rewrite wrap_small; lia.
    - rewrite wrap_small; lia. }
  pose proof (decimal_len (Z.abs v) Ha) as Hl.
  destruct (v <? 0);
    [|destruct (is_flag d "+") eqn:Ep;
        [rewrite (Hplus eq_refl), (kept_other d "+" " " (Hplus eq_refl)) by done
        |rewrite (kept_space d Hd Hx Ep); replace (kept d "+") with false
           by (destruct (kept d "+") eqn:Ek; [apply kept_flag in Ek; congruence|done]);
         destruct (is_flag d " ")]];
    simpl; rewrite Habs, convert_decimal by done; simpl; eexists; (split; [done|]);
    apply emit_in_field; try done; rewrite ?len_cons, ?len_nil; unfold spec_of; cbn [min_width]; lia.
Qed.

Lemma prints_unsigned d a v args : small d -> known_len d.(d_len) = true -> d.(d_conv) = "u"%char ->
  unsigned_arg d.(d_len) a = Some v ->
  (d.(d_len) = LH \/ d.(d_len) = LHh -> unsigned_arg d.(d_len) a = unsigned_arg LNone a) ->
  (v = 0 -> d.(d_prec) <> Some 0) -> is_flag d "+" || is_flag d " " = false ->
  prints_as d a args (number d [] v (decimal v)).
Proof.
  intros Hd Hk Hc Hv Hh Hz Hf. destruct (unsigned_fetch d a v args Hk Hv Hh) as (Hr & E & _).
  apply orb_false_iff in Hf as [Hf1 Hf2].
  unfold prints_as, conv. rewrite Hc. simpl orb. cbn iota. unfold conv_decimal.
  change (length_mod (spec_of d)) with (mod_char (d_len d)).
  change (ch "u" =? ch "u") with true. cbn iota. rewrite E. simpl rbind. simpl negb. simpl andb. cbn iota.
  rewrite !(kept_char d) by auto.
  replace (kept d " ") with false
    by (destruct (kept d " ") eqn:Ek; [apply kept_flag in Ek; congruence|done]).
  replace (kept d "+") with false
    by (destruct (kept d "+") eqn:Ek; [apply kept_flag in Ek; congruence|done]).
  pose proof (decimal_len v Hr) as Hl. rewrite convert_decimal by done. simpl.
  eexists. split; [done|]. apply emit_in_field; try done; rewrite ?len_cons, ?len_nil; unfold spec_of; cbn [min_width]; lia.
Qed.

Lemma prints_hex d a v args : small d -> known_len d.(d_len) = true -> is_hex d = true ->
  unsigned_arg d.(d_len) a = Some v ->
  (d.(d_len) = LH \/ d.(d_len) = LHh -> unsigned_arg d.(d_len) a = unsigned_arg LNone a) ->
  (v = 0 -> d.(d_prec) <> Some 0) -> d.(d_len) <> LZ ->
  (is_flag d "#" = true -> kept d "#" = true /\ v <> 0 /\ d.(d_conv) <> "X"%char) ->
  prints_as d a args (number d (if is_flag d "#" && negb (v =? 0) then [ch "0"; ch d.(d_conv)] else [])
    v (hexadecimal (bool_decide (d.(d_conv) = "X"%char)) v)).
Proof.
  intros Hd Hk Hc Hv Hh Hz Hlen Hf. destruct (unsigned_fetch d a v args Hk Hv Hh) as (Hr & _ & E).
  specialize (E Hlen). apply bool_decide_eq_true_1 in Hc.
  assert (ch (d_conv d) = if bool_decide (d_conv d = "X"%char) then ch "X" else ch "x") as Ech
    by (by destruct Hc as [-> | ->]).
  assert (conv (ch (d_conv d)) (spec_of d) (a :: args) =
    let! r := hex_value v (ch (d_conv d)) (spec_of d) in Ok (r, args)) as Ec.
  { unfold conv. destruct Hc as [Ex|Ex]; rewrite Ex; simpl orb; cbn iota; unfold conv_hex;
      change (length_mod (spec_of d)) with (mod_char (d_len d)).
    - change (ch "x" =? ch "p") with false. cbn iota. rewrite E. done.
    - change (ch "X" =? ch "p") with false. cbn iota. rewrite E. done. }
  unfold prints_as. rewrite Ec. unfold hex_value. rewrite (kept_char d) by auto.
  pose proof (hexadecimal_len (bool_decide (d_conv d = "X"%char)) v Hr) as Hl.
  assert (convert_value v 16 (ALPHA (ch (d_conv d))) =
    Ok (hexadecimal (bool_decide (d_conv d = "X"%char)) v)) as -> by (by rewrite Ech, convert_hex).
  destruct (is_flag d "#") eqn:Ef.
  - destruct (Hf eq_refl) as (-> & Hn & HX). destruct Hc as [Ex|Ex]; [|done]. rewrite Ex in *.
    destruct (Z.eqb_spec v 0); [done|]. simpl. eexists. split; [done|].
    apply emit_in_field; try done; rewrite ?len_cons, ?len_nil; unfold spec_of; cbn [min_width]; lia.
  - replace (kept d "#") with false
      by (destruct (kept d "#") eqn:Ek; [apply kept_flag in Ek; congruence|done]).
    simpl. eexists. split; [done|].
    apply emit_in_field; try done; rewrite ?len_cons, ?len_nil; unfold spec_of; cbn [min_width]; lia.
Qed.

(** A string or a character: no zeros, the rest of the width. *)
Lemma emit_text d s n : small d -> d.(d_zero) = false -> 0 <= n < 2 ^ 24 -> n <= len s ->
  emit (spec_of d).(padding_mode) (mkConverted [] s n (spec_of d).(min_width) 0) =
  Ok (field d false [] (take (Z.to_nat n) s)).
Proof.
  intros Hd Hz Hn Hs. destruct (spec_of_small d Hd) as (Hw & _ & Ew & _).
  revert Hw Ew. generalize (spec_of d).(min_width). intros W Hw Ew.
  rewrite emit_spec by (cbn [data_len width prec]; lia).
  cbn [data_len width prec data Printk.prefix]. change (0 <? 0) with false. cbn iota beta zeta.
  rewrite andb_false_l. rewrite (fill_neg (0 - n)) by lia. unfold field.
  assert (len ([] ++ take (Z.to_nat n) s) = n) as ->
    by (unfold len in *; simpl; rewrite length_take; lia).
  unfold spec_of. cbn [padding_mode]. rewrite Hz. destruct (d_left d).
  - change (truth (Z.land PAD_TAIL PAD_TAIL)) with true. cbn [app]. fill_eq.
  - change (truth (Z.land (if false && _ then PAD_ZERO else 0) PAD_TAIL)) with false.
    rewrite app_nil_r. cbn [app]. fill_eq.
Qed.

Lemma prints_string d s args : small d -> d.(d_conv) = "s"%char -> d.(d_zero) = false ->
  len s < 2 ^ 24 ->
  prints_as d (VStr s) args
    (field d false [] (from_option (fun p => take (Z.to_nat p) s) s d.(d_prec))).
Proof.
  intros Hd Hc Hz Hs. destruct (spec_of_small d Hd) as (_ & Hp & _). 
  unfold prints_as. rewrite Hc.
  change (conv (ch "s") (spec_of d) (VStr s :: args)) with (conv_string (spec_of d) (VStr s :: args)).
  unfold conv_string. cbn [va_str rbind]. fold (len s).
  assert (0 <= len s) as Hs0 by (unfold len; lia).
  assert (to_signed 32 (u32 (len s)) = len s) as ->.
  { rewrite (wrap_small 32) by lia. unfold to_signed. rewrite (wrap_small 32) by lia.
    by rewrite (proj2 (Z.ltb_lt _ _)) by lia. }
  change (precision (spec_of d)) with (default (-1) d.(d_prec)) in *.
  set (n := if (_ && _ : bool) then _ else _).
  assert (0 <= n <= len s /\ from_option (fun p => take (Z.to_nat p) s) s (d_prec d) = take (Z.to_nat n) s)
    as [Hn ->]; [|eexists; split; [reflexivity|apply emit_text; done || lia]].
  unfold n. destruct Hd as (_ & _ & Hd). destruct (d_prec d) as [p|]; cbn [default from_option id] in *.
  - rewrite (proj2 (Z.leb_le 0 p)) by lia. rewrite andb_true_l.
    destruct (Z.ltb_spec p (len s)); (split; [lia|]); [done|].
    by rewrite !take_ge by (unfold len in *; lia).
  - split; [simpl; lia|]. simpl. by rewrite take_ge by (unfold len; lia).
Qed.

Lemma u8_to_signed v : u8 (to_signed 32 (u32 v)) = u8 v.
Proof.
  transitivity (u8 (u32 (to_signed 32 (u32 v)))).
  - unfold wrap. symmetry. apply Z.mod_mod_divide. by exists (2 ^ 24).
  - rewrite wrap_to_signed, wrap_wrap by lia. unfold wrap. apply Z.mod_mod_divide. by exists (2 ^ 24).
Qed.

Lemma prints_char d v args : small d -> d.(d_conv) = "c"%char -> d.(d_zero) = false ->
  prints_as d (VInt v) args (field d false [] [u8 v]).
Proof.
  intros Hd Hc Hz. unfold prints_as. rewrite Hc. eexists. split.
  - change (conv (ch "c") (spec_of d) (VInt v :: args)) with (conv_char (spec_of d) (VInt v :: args)).
    unfold conv_char. cbn [va_int rbind]. reflexivity.
  - rewrite (emit_text d _ 1) by (done || (unfold len; simpl; lia)). change (Z.to_nat 1) with 1%nat. cbn [take].
    do 3 f_equal. apply u8_to_signed.
Qed.

(** ** The conversions together *)

(** The outermost test of a goal [(if bool_decide P then _ else _) = _ -> _]. *)
Ltac decide_conv H :=
  match goal with |- (if bool_decide ?P then _ else _) = _ -> _ =>
    destruct (decide P) as [H|H];
    [rewrite (bool_decide_eq_true_2 P H)|rewrite (bool_decide_eq_false_2 P H)]
  end.

Lemma conv_standard d a l args : small d -> small_arg a -> agrees d a = true ->
  standard d a = Some l -> prints_as d a args l.
Proof.
  intros Hd Ha Hag. unfold agrees in Hag. rewrite !andb_true_iff, !negb_true_iff in Hag.
  destruct Hag as (((((((Hz & Hu) & Hx) & Hzx) & Hh) & Hplus) & Hsharp) & Hk).
  assert (arg_value d a = Some 0 -> d.(d_prec) <> Some 0) as Hz'.
  { intros E1 E2. by rewrite !bool_decide_eq_true_2 in Hz. }
  assert (d.(d_len) = LH \/ d.(d_len) = LHh -> arg_value d a = arg_value (with_len d LNone) a) as Hh'.
  { intros E. rewrite (bool_decide_eq_true_2 _ E) in Hh. by apply bool_decide_eq_true_1 in Hh. }
  clear Hz Hh. unfold arg_value, with_len in Hz', Hh'. cbn [d_conv d_len] in Hh'. unfold standard.
  decide_conv H1; [|decide_conv H2; [|decide_conv H3; [|decide_conv H4; [|decide_conv H5; [|done]]]]].
  - rewrite (bool_decide_eq_true_2 _ H1) in Hz', Hh'.
    destruct (is_flag d "#") eqn:Ex; [done|]. intros (v & Ev & [= <-])%bind_Some.
    apply prints_signed; [done..| |done|intros ->; by apply Hz'].
    intros Ep. unfold is_signed in Hplus. by rewrite (bool_decide_eq_true_2 _ H1), Ep in Hplus.
  - rewrite (bool_decide_eq_true_2 _ H2) in Hu. cbn [andb] in Hu. rewrite (bool_decide_eq_false_2 _ H1) in Hz', Hh'. destruct (is_flag d "#"); [done|].
    intros (v & Ev & [= <-])%bind_Some. apply prints_unsigned; [done..| |done]. intros ->. by apply Hz'.
  - intros (v & Ev & [= <-])%bind_Some. assert (is_hex d = true) as E by by apply bool_decide_eq_true_2.
    rewrite (bool_decide_eq_false_2 _ H1) in Hz', Hh'. rewrite E in Hzx, Hx. cbn [andb] in Hzx, Hx. apply bool_decide_eq_false_1 in Hzx.
    apply prints_hex; [done..| |done|].
    + intros ->. by apply Hz'.
    + intros Ef. rewrite E, Ef in Hsharp. split; [done|]. rewrite Ef in Hx. cbn [andb] in Hx. unfold arg_value in Hx.
      rewrite (bool_decide_eq_false_2 _ H1), Ev in Hx. apply orb_false_iff in Hx as [Hx1 Hx2].
      apply bool_decide_eq_false_1 in Hx1, Hx2. split; [congruence|done].
  - destruct (d_zero d) eqn:Ez, (d_len d), a; try done. destruct (is_flag d "#"); [done|]. intros [= <-].
    by apply prints_string.
  - destruct (d_zero d) eqn:Ez, (d_len d), (d_prec d), a; try done. destruct (is_flag d "#"); [done|].
    intros [= <-]. by apply prints_char.
Qed.

(** ** Formats *)

(** An item the theorems speak about. *)
Definition good_item (i : item) : Prop :=
  match i with
  | Plain l => ch "%" ∉ l
  | Percent => True
  | Field d a => small d /\ small_arg a /\ agrees d a = true
  end.

Lemma print_plain l rest args : ch "%" ∉ l ->
  print_from (l ++ rest) args = let! o := print_from rest args in Ok (l ++ o).
Proof.
  induction l as [|c l IH]; intros Hl; cbn [app].
  - by destruct (print_from rest args).
  - rewrite not_elem_of_cons in Hl. destruct Hl as [Hc Hl]. cbn [print_from].
    destruct (Z.eqb_spec c (ch "%")); [congruence|]. rewrite IH by done. by destruct (print_from rest args).
Qed.

Lemma standard_conv d a l : standard d a = Some l -> d.(d_conv) ∈ ["d"; "i"; "u"; "x"; "X"; "s"; "c"]%char.
Proof.
  unfold standard. decide_conv H1; [|decide_conv H2; [|decide_conv H3; [|decide_conv H4; [|decide_conv H5; [|done]]]]];
    intros _; rewrite !elem_of_cons; intuition.
Qed.

Lemma print_field_standard d a rest args l : small d -> small_arg a -> agrees d a = true ->
  standard d a = Some l ->
  print_from (render d ++ rest) (a :: args) = let! o := print_from rest args in Ok (l ++ o).
Proof.
  intros Hd Ha Hag E. destruct (conv_standard d a l args Hd Ha Hag E) as (r & E1 & E2).
  rewrite read_directive by (done || by apply andb_true_iff in Hag as [_ Hk]). cbn [directive_from].
  rewrite turn_convert; [|exact (ch_conversion _ (standard_conv _ _ _ E))]. cbn [rbind].
  rewrite E1. cbn [rbind]. rewrite E2. done.
Qed.

Lemma print_items items l rest args : Forall good_item items -> standard_text items = Some l ->
  print_from (format_of items ++ rest) (args_of items ++ args) =
    let! o := print_from rest args in Ok (l ++ o).
Proof.
  unfold format_of, args_of. revert l. induction items as [|i items IH]; intros l Hi.
  - intros [= <-]. cbn [map concat app]. by destruct (print_from rest args).
  - inversion_clear Hi as [|? ? Hgood Hrest]. cbn [standard_text map concat].
    intros (o & Eo & (os & Eos & [= <-])%bind_Some)%bind_Some. specialize (IH _ Hrest Eos).
    rewrite <-!app_assoc.
    destruct i as [p| |d a]; cbn [render_item item_args standard_item app good_item] in *.
    + injection Eo as <-. rewrite print_plain, IH by done. by destruct (print_from rest args) as [x|]; cbn; rewrite <-?app_assoc.
    + injection Eo as <-. change (print_from (text "%%" ++ ?f) ?x) with (let! o := print_from f x in Ok (ch "%" :: o)).
      rewrite IH. by destruct (print_from rest args).
    + destruct Hgood as (Hd & Ha & Hag). rewrite (print_field_standard _ _ _ _ o), IH by done.
      by destruct (print_from rest args); cbn; rewrite <-?app_assoc.
Qed.

Lemma count_ok l : len l < 2 ^ 31 -> to_signed 32 (u32 (len l)) = len l.
Proof.
  intros Hl. assert (0 <= len l) by (unfold len; lia). unfold to_signed. rewrite wrap_wrap by done.
  rewrite (wrap_small 32) by lia. by rewrite (proj2 (Z.ltb_lt _ _)) by (change (2 ^ (32 - 1)) with (2 ^ 31); lia).
Qed.

(** C27: The formatted output of [f_printk] is what the C standard says [printf] prints.  The
    formats are text, [%%] and directives with an argument of the right type each; a
    directive has the flag [-] or not, then [0] or not, then any of [+], [#] and the space
    in any order and number, a width and a precision below 2^24 or none (no [*]), a length
    modifier ([hh h l ll z j t] or none) and the conversion [d i u x X s c]; strings have
    less than 2^24 characters and the output less than 2^31.  Wherever the standard defines
    the output, [cbvprintf] hands over exactly its characters, in order, and returns their
    number, except in the cases [agrees] excludes.  These are deviations of the code, shown
    by the examples: [+] or [#] that count but are not the last flag; the modifiers [j] and
    [t], which are printed; [#] with [X] or with zero; zero with the precision zero; [+] and
    the space with [u]; [h] and [hh] with values that do not fit; [z] with [x] and [X]. *)
Theorem cbvprintf_standard :
  (forall items l, Forall good_item items -> standard_text items = Some l -> len l < 2 ^ 31 ->
     cbvprintf (format_of items) (args_of items) = Ok (len l, l)) /\
  cbvprintf (text "%+ d") [VInt 42] = Ok (3, text " 42") /\
  cbvprintf (text "%#+x") [VInt 255] = Ok (2, text "ff") /\
  cbvprintf (text "%jd") [VLong 42] = Ok (3, text "%jd") /\
  cbvprintf (text "%#X") [VInt 255] = Ok (4, text "0xFF") /\
  cbvprintf (text "%#x") [VInt 0] = Ok (3, text "0x0") /\
  cbvprintf (text "%.0d") [VInt 0] = Ok (1, text "0") /\
  cbvprintf (text "%+u") [VInt 7] = Ok (2, text "+7") /\
  cbvprintf (text "%hd") [VInt 65541] = Ok (5, text "65541") /\
  cbvprintf (text "%zx") [VLong 255] = Fault Undefined.
Proof.
  split; [|vm_compute; repeat split].
  intros items l Hi E Hl. unfold cbvprintf. pose proof (print_items items l [] [] Hi E) as Ep.
  rewrite !app_nil_r in Ep. rewrite Ep. cbn. rewrite app_nil_r. fold (len l). by rewrite count_ok.
Qed.

(** The witness: [lr=0x%08lx, %-5s|% +.3d|%c%%], with its arguments. *)
Definition example_items : list item :=
  [Plain (text "lr=0x");
   Field (mkDirective false true [] (Some 8) None LL "x") (VLong 0x29801c40);
   Plain (text ", ");
   Field (mkDirective true false [] (Some 5) None LNone "s") (VStr (text "cpu"));
   Plain (text "|");
   Field (mkDirective false false [" "%char; "+"%char] None (Some 3) LNone "d") (VInt 42);
   Plain (text "|");
   Field (mkDirective false false [] None None LNone "c") (VInt 65); Percent].

Lemma example_good : Forall good_item example_items.
Proof.
  repeat constructor; try (apply bool_decide_eq_true_1; reflexivity); cbn; try lia.
  all: match goal with |- ?x ∉ ?l => exact (bool_decide_eq_true_1 (x ∉ l) eq_refl) end.
Qed.

Lemma cbvprintf_standard_witness :
  cbvprintf (text "lr=0x%08lx, %-5s|% +.3d|%c%%") [VLong 0x29801c40; VStr (text "cpu"); VInt 42; VInt 65] =
  Ok (28, text "lr=0x29801c40, cpu  |+042|A%").
Proof.
  exact (proj1 cbvprintf_standard example_items (text "lr=0x29801c40, cpu  |+042|A%") example_good
    ltac:(vm_compute; reflexivity) ltac:(vm_compute; reflexivity)).
Defined.

(** ** Reading digits back *)
Definition digit_value (c : Z) : Z :=
  if (ch "a" <=? c) && (c <=? ch "f") then c - ch "a" + 10
  else if (ch "A" <=? c) && (c <=? ch "F") then c - ch "A" + 10
  else c - ch "0".

(** C29: The conversion of a number to digits is right for the whole 64-bit range: in base 10 and,
    with the letters of [x] or of [X], in base 16, [convert_value] stays inside its buffer, gives
    between 1 and 20 characters, no zero in front of a number that is not zero, and the
    characters read back as the number. *)
Theorem convert_value_reads_back base alpha num : 0 <= num < 2 ^ 64 ->
  (base, alpha) ∈ [(10, 0); (16, ALPHA (ch "x")); (16, ALPHA (ch "X")); (16, ALPHA (ch "p"))] ->
  exists l, convert_value num base alpha = Ok l /\ 1 <= len l < DIGITS_BUFLEN /\
    number_of base (map digit_value l) = num /\ (num <> 0 -> head l <> Some (ch "0")).
Proof.
  intros Hn Hb. set (good := fun d => digit_value (digit_char alpha d) = d /\
    (d <> 0 -> digit_char alpha d <> ch "0")).
  assert (10 <= base <= 16 /\ Forall good (seqZ 0 base)) as [Hbase Hall].
  { rewrite !elem_of_cons in Hb. unfold good.
    destruct Hb as [[= -> ->]|[[= -> ->]|[[= -> ->]|[[= -> ->]|Hb]]]]; [..|by inversion Hb];
      (split; [lia|repeat constructor; done]). }
  destruct (digits_correct base num ltac:(lia) Hn) as (En & Hd & Hhead).
  pose proof (digits_length base num ltac:(lia) Hn) as Hl. rewrite convert_value_spec by done.
  eexists. split; [reflexivity|]. unfold len, DIGITS_BUFLEN. rewrite length_map. split; [lia|].
  rewrite Forall_forall in Hall, Hd.
  assert (forall d, In d (digits base num) -> good d) as Hgood.
  { intros d Hin. apply Hall, list_elem_of_In, elem_of_seqZ. specialize (Hd d Hin). lia. }
  split.
  - transitivity (number_of base (digits base num)); [|done]. f_equal. rewrite map_map.
    transitivity (map id (digits base num)); [|apply map_id].
    apply map_ext_in. intros d Hin. by apply Hgood.
  - intros Hne. destruct (Hhead Hne) as (d & l & El & Hd0). rewrite El in *. cbn [map head]. intros Hc.
    destruct (Hgood d ltac:(by left)) as [_ Hg]. apply (Hg Hd0). congruence.
Qed.

Lemma convert_value_reads_back_witness :
  exists l, convert_value (2 ^ 64 - 1) 10 0 = Ok l /\ 1 <= len l < DIGITS_BUFLEN /\
    number_of 10 (map digit_value l) = 2 ^ 64 - 1 /\ (2 ^ 64 - 1 <> 0 -> head l <> Some (ch "0")).
Proof. apply (convert_value_reads_back 10 0 (2 ^ 64 - 1)); [lia|by left]. Defined.
