(* ===== verification/PrintfProps.v ===== *)
(** [f_printf] of fprintf.c (Printk.v) against the standard (PrintkSpec.v). *)
From Stdlib Require Import Ascii.
From stdpp Require Import strings.
From S2P Require Import Prelude Printk PrintkSpec PrintkProps.
Import Printk.

(** ** Digits *)
Lemma printi_loop_spec b letbase : 2 <= b -> forall fuel u n acc,
  0 < u < 2 ^ Z.of_nat fuel -> n + len (digits_fuel fuel b u) <= PRINT_BUF_LEN ->
  printi_loop fuel u b letbase n acc =
    Ok (n + len (digits_fuel fuel b u),
        map (fun t => u8 ((if 10 <=? t then t + (letbase - ch "0" - 10) else t) + ch "0"))
          (digits_fuel fuel b u) ++ acc).
Proof.
  intros Hb. induction fuel as [|fuel IH]; intros u n acc Hu Hn; [simpl in Hu; lia|].
  cbn [printi_loop digits_fuel] in *. rewrite len_app, len_cons, len_nil in Hn.
  destruct (Z.eqb_spec u 0); [lia|].
  assert (0 <= len (if u <? b then [] else digits_fuel fuel b (u / b))) by (unfold len; lia).
  rewrite (proj2 (Z.ltb_ge PRINT_BUF_LEN (n + 1))) by lia.
  rewrite len_app, len_cons, len_nil. destruct (Z.ltb_spec u b).
  - rewrite Z.div_small by lia. rewrite len_nil. by destruct fuel.
  - rewrite Nat2Z.inj_succ, Z.pow_succ_r in Hu by lia.
    rewrite IH, map_app, <-app_assoc; [do 2 f_equal; lia| |lia].
    split; [apply Z.div_str_pos; lia|apply Z.div_lt_upper_bound; nia].
Qed.

(** The conversions of the numbers, base 10 and 16. *)
Inductive num_base : Z -> Z -> (Z -> list Z) -> Prop :=
| base_decimal : num_base 10 (ch "a") decimal
| base_hex : num_base 16 (ch "a") (hexadecimal false)
| base_HEX : num_base 16 (ch "A") (hexadecimal true).

Lemma printi_digits b letbase f u : num_base b letbase f -> 0 < u < 2 ^ 32 ->
  1 <= len (f u) <= 10 /\ printi_loop 64 u b letbase 1 [] = Ok (1 + len (f u), f u).
Proof.
  intros Hf Hu. assert (10 <= b /\ len (f u) = len (digits b u) /\
    f u = map (fun t => u8 ((if 10 <=? t then t + (letbase - ch "0" - 10) else t) + ch "0")) (digits b u))
    as (Hb & El & Ef).
  { destruct (digits_correct b u ltac:(destruct Hf; lia) ltac:(lia)) as (_ & Hd & _).
    rewrite Forall_forall in Hd.
    destruct Hf; (split; [lia|]); (split; [unfold len, decimal, hexadecimal; by rewrite length_map|]);
      apply map_ext_in; intros d Hin; specialize (Hd d Hin); unfold hex_char;
      destruct (Z.leb_spec 10 d), (Z.ltb_spec d 10); try lia; chars; rewrite wrap_small by lia; lia. }
  assert (1 <= len (digits b u) <= 10) as Hl.
  { pose proof (digits_length b u ltac:(lia) ltac:(lia)).
    assert (length (digits b u) <= 10)%nat; [|unfold len; lia].
    apply digits_fuel_length; [lia| |lia]. split; [lia|].
    assert (10 ^ 10 <= b ^ 10) by (apply Z.pow_le_mono_l; lia).
    change (Z.of_nat 10) with 10. change (10 ^ 10) with 10000000000 in *. lia. }
  split; [lia|]. rewrite printi_loop_spec; [|lia|simpl; lia|unfold PRINT_BUF_LEN; fold (digits b u); lia].
  fold (digits b u). by rewrite <-Ef, El, app_nil_r.
Qed.

(** ** Fields *)
Definition pad_of (d : directive) : Z :=
  if d.(d_left) then PAD_RIGHT else if d.(d_zero) then PAD_ZERO_ else 0.

Lemma prints_spec s w pad : 0 <= w ->
  Printk.prints s w pad =
    let f := fill (w - len s) (if truth (Z.land pad PAD_ZERO_) then ch "0" else ch " ") in
    if truth (Z.land pad PAD_RIGHT) then s ++ f else f ++ s.
Proof.
  intros Hw. unfold Printk.prints. fold (len s). assert (0 <= len s) by (unfold len; lia).
  destruct (Z.ltb_spec 0 w).
  - assert (forall c, replicate (Z.to_nat (if w <=? len s then 0 else w - len s)) c = fill (w - len s) c) as E.
    { intros c. unfold fill. f_equal. destruct (Z.leb_spec w (len s)); lia. }
    rewrite E. by destruct (truth (Z.land pad PAD_RIGHT)).
  - assert (w = 0) as -> by lia. rewrite fill_neg by lia. simpl. rewrite app_nil_r.
    by destruct (truth (Z.land pad PAD_RIGHT)).
Qed.

(** A directive [f_printf] understands. *)
Definition plain_directive (d : directive) : Prop :=
  from_option (fun w => 1 <= w < 2 ^ 24) True d.(d_width) /\
  d.(d_flags) = [] /\ d.(d_prec) = None /\ d.(d_len) = LNone /\
  d.(d_left) && d.(d_zero) = false /\ d.(d_conv) <> "i"%char.

Lemma prints_field d s : plain_directive d ->
  Printk.prints s (default 0 d.(d_width)) (pad_of d) = field d d.(d_zero) [] s.
Proof.
  intros (Hw & _ & _ & _ & Hz & _). rewrite prints_spec by (destruct (d_width d); simpl in *; lia).
  unfold field, pad_of. cbn [app]. by destruct (d_left d), (d_zero d).
Qed.

Lemma number_plain d n ds : plain_directive d -> number d [] n ds = field d d.(d_zero) [] ds.
Proof.
  intros (_ & _ & Hp & _). unfold number. rewrite Hp. rewrite (bool_decide_eq_false_2 (None = Some 0)) by done.
  rewrite andb_false_r. assert (0 <= len ds) by (unfold len; lia). rewrite fill_neg by (simpl; lia).
  by rewrite andb_true_r.
Qed.

(** A number of 32 bits, not negative. *)
Lemma printi_field d b letbase f sg i : plain_directive d -> num_base b letbase f ->
  sg = false \/ 0 <= i -> - 2 ^ 31 <= i < 2 ^ 31 ->
  printi i b sg (default 0 d.(d_width)) (pad_of d) letbase =
    Ok (number d [] (u32 i) (f (u32 i))).
Proof.
  intros Hd Hf Hi Hr. rewrite number_plain, <-prints_field by done. unfold printi.
  destruct (Z.eqb_spec i 0) as [->|Hne]; [by destruct Hf|].
  replace (sg && (b =? 10) && (i <? 0)) with false.
  2: { symmetry. destruct Hi as [->|Hi]; [done|]. rewrite (proj2 (Z.ltb_ge i 0)) by done. by rewrite andb_false_r. }
  assert (0 < u32 i < 2 ^ 32) as Hu.
  { pose proof (wrap_range 32 ltac:(lia) i). destruct (Z.ltb_spec i 0);
      [rewrite wrap_below by lia|rewrite wrap_small by lia]; lia. }
  cbn [rbind]. destruct (printi_digits b letbase f (u32 i) Hf Hu) as [_ ->]. done.
Qed.

Lemma printi_negative d i : plain_directive d -> - 2 ^ 31 < i < 0 ->
  printi i 10 true (default 0 d.(d_width)) (pad_of d) (ch "a") =
    Ok (number d (text "-") i (decimal (- i))).
Proof.
  intros Hd Hi. destruct (printi_digits 10 (ch "a") decimal (- i) base_decimal ltac:(lia)) as [Hl El].
  unfold printi. rewrite (proj2 (Z.eqb_neq i 0)), (proj2 (Z.ltb_lt i 0)) by lia.
  change (true && (10 =? 10) && true) with true. cbn iota zeta. rewrite int_ok by lia.
  cbn beta iota delta [rbind]. rewrite El. cbn beta iota delta [rbind].
  rewrite (proj2 (Z.ltb_ge PRINT_BUF_LEN _)) by (unfold PRINT_BUF_LEN; lia).
  unfold number. destruct Hd as (Hw & _ & Hp & _ & Hz & _). rewrite Hp, (proj2 (Z.eqb_neq i 0)) by lia.
  cbn [andb default]. rewrite (fill_neg (0 - _)) by lia. rewrite (bool_decide_eq_true_2 (None = None)) by done.
  rewrite andb_true_r. unfold field, pad_of. change (text "-" ++ [] ++ decimal (- i)) with (ch "-" :: decimal (- i)).
  assert (0 <= default 0 (d_width d) < 2 ^ 24) as Hw' by (destruct (d_width d); simpl in *; lia).
  rewrite len_cons. destruct (d_left d), (d_zero d); try done.
  - change (truth (Z.land PAD_RIGHT PAD_ZERO_)) with false. rewrite andb_false_r.
    rewrite prints_spec by lia. by rewrite len_cons.
  - change (truth (Z.land PAD_ZERO_ PAD_ZERO_)) with true. rewrite andb_true_r.
    destruct (Z.eqb_spec (default 0 (d_width d)) 0) as [E|E].
    + rewrite E. change (truth 0) with false. cbn iota.
      rewrite prints_spec by lia. rewrite !fill_neg by (rewrite ?len_cons; lia). done.
    + replace (truth (default 0 (d_width d))) with true by (unfold truth; by destruct (Z.eqb_spec (default 0 (d_width d)) 0)).
      rewrite int_ok by lia. cbn [rbind]. rewrite prints_spec by lia.
      replace (default 0 (d_width d) - 1 - len (decimal (- i))) with (default 0 (d_width d) - (1 + len (decimal (- i)))) by lia.
      done.
  - change (truth (Z.land 0 PAD_ZERO_)) with false. rewrite andb_false_r.
    rewrite prints_spec by lia. by rewrite len_cons.
Qed.

(** ** Reading a directive *)
Lemma field_digits l : forall zeros w pad args rest, Forall (fun d => 0 <= d < 10) l -> 0 <= w ->
  from_option (fun d => zeros = true -> d <> 0) True (head l) ->
  fold_left (fun a d => 10 * a + d) l w < 2 ^ 24 ->
  print_field (digit_text l ++ rest) zeros w pad args =
    print_field rest (if l is [] then zeros else false) (fold_left (fun a d => 10 * a + d) l w) pad args.
Proof.
  induction l as [|d l IH]; intros zeros w pad args rest Hl Hw Hh Hb; [done|].
  inversion_clear Hl. cbn [fold_left] in Hb. cbn [head from_option] in Hh.
  pose proof (number_grows l (10 * w + d) ltac:(done) ltac:(lia)).
  cbn [digit_text map app print_field]. unfold is_digit. chars. decide_cmp.
  replace (zeros && (d + 48 =? 48)) with false.
  2: { destruct zeros, (Z.eqb_spec (d + 48) 48); try done. assert (d = 0) as -> by lia. by destruct Hh. }
  cbn [andb]. rewrite int_ok by lia. cbn [rbind]. rewrite int_ok by lia. cbn [rbind].
  fold (digit_text l). replace (w * 10 + (d + 48 - 48)) with (10 * w + d) by lia.
  rewrite IH; [by destruct l|done|lia|by destruct l|done].
Qed.

Lemma field_width w zeros pad args rest : from_option (fun w => 1 <= w < 2 ^ 24) True w ->
  print_field (from_option decimal [] w ++ rest) zeros 0 pad args =
    print_field rest (if w is Some _ then false else zeros) (default 0 w) pad args.
Proof.
  intros Hw. destruct w as [w|]; [|done]. cbn [from_option default] in *.
  destruct (digits_small w ltac:(lia)) as (Hf & Hb & E).
  destruct (digits_correct 10 w ltac:(lia) ltac:(lia)) as (_ & _ & Hhead).
  destruct (Hhead ltac:(lia)) as (d & l & El & Hd). rewrite decimal_text, field_digits; try done.
  - unfold id. rewrite E. by rewrite El.
  - rewrite El. by cbn.
Qed.

Lemma field_conv a zeros w pad args rest : a ∈ ["d"; "u"; "x"; "X"; "s"; "c"]%char ->
  print_field (ch a :: rest) zeros w pad args =
    let! (l, args) := print_conv (ch a) w pad args in
    let! o := print rest args in Ok (l ++ o).
Proof.
  intros Ha. cbn [print_field].
  assert (Forall (fun a => (ch a =? ch "0") = false /\ is_digit (ch a) = false)
    ["d"; "u"; "x"; "X"; "s"; "c"]%char) as Hall by (repeat constructor).
  rewrite Forall_forall in Hall. destruct (Hall a) as [-> ->]; [by apply list_elem_of_In|].
  by rewrite andb_false_r.
Qed.

Lemma print_start c args rest : c <> ch "%" -> c <> ch "-" ->
  print (ch "%" :: c :: rest) args = print_field (c :: rest) true 0 0 args.
Proof.
  intros H1 H2. change (print (ch "%" :: c :: rest) args) with
    (if c =? ch "%" then let! o := print rest args in Ok (c :: o)
     else if c =? ch "-" then print_field rest true 0 PAD_RIGHT args
     else print_field (c :: rest) true 0 0 args).
  by rewrite (proj2 (Z.eqb_neq _ _) H1), (proj2 (Z.eqb_neq _ _) H2).
Qed.

Lemma read_field d args rest : plain_directive d -> d.(d_conv) ∈ ["d"; "u"; "x"; "X"; "s"; "c"]%char ->
  print (render d ++ rest) args =
    let! (l, args) := print_conv (ch d.(d_conv)) (default 0 d.(d_width)) (pad_of d) args in
    let! o := print rest args in Ok (l ++ o).
Proof.
  intros (Hw & Hf & Hp & Hl & Hz & _) Hc. unfold render. rewrite Hf, Hp, Hl. cbn [option_list fmap option_fmap option_map from_option len_text app].
  rewrite <-!app_assoc. cbn [app].
  transitivity (print_field (from_option decimal [] (d_width d) ++ ch (d_conv d) :: rest) true 0 (pad_of d) args).
  2: { rewrite field_width by done. by apply field_conv. }
  unfold pad_of. destruct (d_left d), (d_zero d); try done.
  destruct (d_width d) as [w|]; cbn [from_option app text] in *.
  - destruct (digits_correct 10 w ltac:(lia) ltac:(lia)) as (_ & Hd & Hhead).
    destruct (Hhead ltac:(lia)) as (x & l & El & Hx). rewrite decimal_text, El in *. cbn [digit_text map app].
    inversion_clear Hd. apply print_start; chars; lia.
  - assert (Forall (fun a => ch a <> ch "%" /\ ch a <> ch "-") ["d"; "u"; "x"; "X"; "s"; "c"]%char) as Hall
      by (repeat constructor; done).
    rewrite Forall_forall in Hall. destruct (Hall (d_conv d)); [by apply list_elem_of_In|]. by apply print_start.
Qed.

(** ** Conversions *)
Definition printf_arg (d : directive) (a : va) : Prop :=
  match a with
  | VInt v => (d.(d_conv) = "d"%char -> to_signed 32 (u32 v) <> - 2 ^ 31) /\
              (d.(d_conv) = "c"%char -> u8 v <> 0)
  | _ => True
  end.

Lemma u32_to_signed v : u32 (to_signed 32 (u32 v)) = u32 v.
Proof. by rewrite wrap_to_signed, wrap_wrap. Qed.

Lemma print_conv_standard d a l args : plain_directive d -> printf_arg d a -> standard d a = Some l ->
  print_conv (ch d.(d_conv)) (default 0 d.(d_width)) (pad_of d) (a :: args) = Ok (l, args).
Proof.
  intros Hd Ha. pose proof Hd as (_ & Hf & Hp & Hl & _ & Hi). unfold standard.
  replace (is_flag d "#") with false by (unfold is_flag; by rewrite Hf).
  replace (is_flag d "+") with false by (unfold is_flag; by rewrite Hf).
  replace (is_flag d " ") with false by (unfold is_flag; by rewrite Hf). rewrite Hl, Hp.
  decide_conv H1; [|decide_conv H2; [|decide_conv H3; [|decide_conv H4; [|decide_conv H5; [|done]]]]];
    destruct a as [x| | |x]; try done;
    try (by destruct (d_zero d)).
  - destruct H1 as [H1|H1]; [|done]. rewrite H1. destruct Ha as [Ha _]. specialize (Ha H1).
    cbn [signed_arg]. intros (v & [= Ev] & [= <-])%bind_Some.
    pose proof (to_signed_range 32 (u32 x) ltac:(lia)) as Hr. change (2 ^ (32 - 1)) with (2 ^ 31) in Hr.
    change (print_conv (ch "d") ?w ?p (VInt x :: args)) with
      (let! o := printi (to_signed 32 (u32 x)) 10 true w p (ch "a") in Ok (o, args)).
    rewrite Ev in *. destruct (Z.ltb_spec v 0).
    + rewrite printi_negative by (done || lia). cbn [rbind]. by rewrite Z.abs_neq by lia.
    + rewrite (printi_field _ _ _ decimal); [|done|constructor|lia..]. cbn [rbind].
      rewrite (wrap_small 32) by lia. by rewrite Z.abs_eq.
  - rewrite H2. cbn [unsigned_arg]. intros (v & [= Ev] & [= <-])%bind_Some.
    change (print_conv (ch "u") ?w ?p (VInt x :: args)) with
      (let! o := printi (to_signed 32 (u32 x)) 10 false w p (ch "a") in Ok (o, args)).
    rewrite (printi_field _ _ _ decimal); [by rewrite u32_to_signed, <-Ev|done|constructor|auto|].
    exact (to_signed_range 32 (u32 x) ltac:(lia)).
  - cbn [unsigned_arg]. intros (v & [= Ev] & [= <-])%bind_Some. cbn [andb].
    destruct H3 as [H3|H3]; rewrite H3.
    + change (print_conv (ch "x") ?w ?p (VInt x :: args)) with
        (let! o := printi (to_signed 32 (u32 x)) 16 false w p (ch "a") in Ok (o, args)).
      rewrite (printi_field _ _ _ (hexadecimal false)); [by rewrite u32_to_signed, <-Ev|done|constructor|auto|].
      exact (to_signed_range 32 (u32 x) ltac:(lia)).
    + change (print_conv (ch "X") ?w ?p (VInt x :: args)) with
        (let! o := printi (to_signed 32 (u32 x)) 16 false w p (ch "A") in Ok (o, args)).
      rewrite (printi_field _ _ _ (hexadecimal true)); [by rewrite u32_to_signed, <-Ev|done|constructor|auto|].
      exact (to_signed_range 32 (u32 x) ltac:(lia)).
  - destruct (d_zero d) eqn:Ez; [done|]. intros [= <-]. rewrite H4.
    change (print_conv (ch "s") ?w ?p (VStr x :: args)) with (Ok (Printk.prints x w p, args)).
    rewrite prints_field by done. by rewrite Ez.
  - destruct (d_zero d) eqn:Ez; [done|]. intros [= <-]. rewrite H5. destruct Ha as [_ Ha].
    change (print_conv (ch "c") ?w ?p (VInt x :: args)) with
      (Ok (Printk.prints (if u8 (to_signed 32 (u32 x)) =? 0 then [] else [u8 (to_signed 32 (u32 x))]) w p, args)).
    rewrite u8_to_signed, (proj2 (Z.eqb_neq _ _) (Ha H5)), prints_field by done. by rewrite Ez.
Qed.

(** ** Formats *)
Definition printf_item (i : item) : Prop :=
  match i with
  | Plain l => ch "%" ∉ l
  | Percent => True
  | Field d a => plain_directive d /\ printf_arg d a
  end.

Lemma print_text l rest args : ch "%" ∉ l ->
  print (l ++ rest) args = let! o := print rest args in Ok (l ++ o).
Proof.
  induction l as [|c l IH]; intros Hl; cbn [app].
  - by destruct (print rest args).
  - rewrite not_elem_of_cons in Hl. destruct Hl as [Hc Hl]. cbn [print].
    destruct (Z.eqb_spec c (ch "%")); [congruence|]. rewrite IH by done. by destruct (print rest args).
Qed.

Lemma printf_items items l rest args : Forall printf_item items -> standard_text items = Some l ->
  print (format_of items ++ rest) (args_of items ++ args) =
    let! o := print rest args in Ok (l ++ o).
Proof.
  unfold format_of, args_of. revert l. induction items as [|i items IH]; intros l Hi.
  - intros [= <-]. cbn [map concat app]. by destruct (print rest args).
  - inversion_clear Hi as [|? ? Hgood Hrest]. cbn [standard_text map concat].
    intros (o & Eo & (os & Eos & [= <-])%bind_Some)%bind_Some. specialize (IH _ Hrest Eos).
    rewrite <-!app_assoc.
    destruct i as [p| |d a]; cbn [render_item item_args standard_item app printf_item] in *.
    + injection Eo as <-. rewrite print_text, IH by done. by destruct (print rest args); cbn; rewrite <-?app_assoc.
    + injection Eo as <-. change (print (text "%%" ++ ?f) ?x) with (let! o := print f x in Ok (ch "%" :: o)).
      rewrite IH. by destruct (print rest args).
    + destruct Hgood as [Hd Ha]. rewrite read_field; [|done|].
      * rewrite (print_conv_standard _ _ o) by done. cbn beta iota delta [rbind]. rewrite IH.
        by destruct (print rest args); cbn; rewrite <-?app_assoc.
      * pose proof (standard_conv _ _ _ Eo) as Hc. destruct Hd as (_ & _ & _ & _ & _ & Hi).
        rewrite !elem_of_cons in *. tauto.
Qed.

(** C28: [f_printf] prints what the C standard says for the formats it is meant for: text,
    [%%] and directives with the flag [-] or the flag [0], a width and one of the conversions
    [d u x X s c], every [int] but the smallest one and every character but NUL. *)
Theorem f_printf_standard items l : Forall printf_item items -> standard_text items = Some l ->
  f_printf (format_of items) (args_of items) = Ok l.
Proof.
  intros Hi E. unfold f_printf. pose proof (printf_items items l [] [] Hi E) as Ep.
  rewrite !app_nil_r in Ep. rewrite Ep. cbn. by rewrite app_nil_r.
Qed.

Lemma f_printf_standard_witness :
  f_printf (text "[%5d|%-4x|%08X|%s|%c%%]") [VInt (-42); VInt 0x2a; VInt 0xbeef; VStr (text "core"); VInt 65] =
  Ok (text "[  -42|2a  |0000BEEF|core|A%]").
Proof.
  apply (f_printf_standard
    [Plain (text "[");
     Field (mkDirective false false [] (Some 5) None LNone "d") (VInt (-42)); Plain (text "|");
     Field (mkDirective true false [] (Some 4) None LNone "x") (VInt 0x2a); Plain (text "|");
     Field (mkDirective false true [] (Some 8) None LNone "X") (VInt 0xbeef); Plain (text "|");
     Field (mkDirective false false [] None None LNone "s") (VStr (text "core")); Plain (text "|");
     Field (mkDirective false false [] None None LNone "c") (VInt 65); Percent; Plain (text "]")]).
  - repeat constructor; cbn; try (split; intros; discriminate); try lia; try done.
    all: match goal with |- ?x ∉ ?l => exact (bool_decide_eq_true_1 (x ∉ l) eq_refl) end.
  - vm_compute. reflexivity.
Defined.

(** ** A directive the format ends in *)
Definition cut (d : directive) : list Z :=
  text "%" ++ (if d.(d_left) then text "-" else []) ++ (if d.(d_zero) then text "0" else []) ++
  from_option decimal [] d.(d_width).

Lemma print_cut d args : plain_directive d -> cut d <> text "%" -> print (cut d) args = Fault Undefined.
Proof.
  intros (Hw & _ & _ & _ & Hz & _) Hne. unfold cut in *.
  transitivity (print_field (from_option decimal [] (d_width d) ++ []) true 0 (pad_of d) args).
  2: by rewrite field_width.
  rewrite app_nil_r. unfold pad_of. destruct (d_left d), (d_zero d); try done.
  destruct (d_width d) as [w|]; [|done]. cbn [from_option app text] in *.
  destruct (digits_correct 10 w ltac:(lia) ltac:(lia)) as (_ & Hd & Hhead).
  destruct (Hhead ltac:(lia)) as (x & l & El & Hx). rewrite decimal_text, El in *. cbn [digit_text map app].
  inversion_clear Hd. apply print_start; chars; lia.
Qed.

Lemma print_from_cut d args : plain_directive d -> print_from (cut d) args = Ok [].
Proof.
  intros (Hw & _ & _ & _ & Hz & _). unfold cut.
  transitivity (directive_from (from_option decimal [] (d_width d) ++ [])
    (if d.(d_left) then set_padding spec_start PAD_TAIL
     else if d.(d_zero) then set_padding spec_start PAD_ZERO else spec_start) args).
  - rewrite app_nil_r. by destruct (d_left d), (d_zero d).
  - destruct (d_width d) as [w|]; [|by destruct (d_left d), (d_zero d)]. cbn [from_option] in *.
    by rewrite read_width_of by (by destruct (d_left d), (d_zero d)).
Qed.

(** C30: A format that ends inside a directive, behind its flags or its width: [f_printk]
    prints what is in front of the directive and stops; [f_printf] takes the NUL that ends
    the format for the conversion and reads on behind it, whatever the format and its
    arguments were before. *)
Theorem cut_directive items l d : Forall printf_item items -> Forall good_item items ->
  standard_text items = Some l -> len l < 2 ^ 31 -> plain_directive d ->
  cbvprintf (format_of items ++ cut d) (args_of items) = Ok (len l, l) /\
  (cut d <> text "%" -> f_printf (format_of items ++ cut d) (args_of items) = Fault Undefined).
Proof.
  intros Hp Hg E Hl Hd. rewrite <-(app_nil_r (args_of items)). split.
  - unfold cbvprintf. rewrite (print_items items l) by done. rewrite print_from_cut by done.
    cbn. rewrite app_nil_r. fold (len l). by rewrite count_ok.
  - intros Hne. unfold f_printf. rewrite (printf_items items l) by done. by rewrite print_cut.
Qed.

Lemma cut_directive_witness :
  cbvprintf (text "cpu %d: %-16") [VInt 3] = Ok (7, text "cpu 3: ") /\
  f_printf (text "cpu %d: %-16") [VInt 3] = Fault Undefined.
Proof.
  destruct (cut_directive
    [Plain (text "cpu "); Field (mkDirective false false [] None None LNone "d") (VInt 3); Plain (text ": ")]
    (text "cpu 3: ") (mkDirective true false [] (Some 16) None LNone "d")) as [H1 H2].
  - repeat constructor; cbn; try (split; intros; discriminate); try lia; try done.
    all: match goal with |- ?x ∉ ?l => exact (bool_decide_eq_true_1 (x ∉ l) eq_refl) end.
  - repeat constructor; cbn; try lia; try done.
    all: match goal with |- ?x ∉ ?l => exact (bool_decide_eq_true_1 (x ∉ l) eq_refl) end.
  - vm_compute. reflexivity.
  - vm_compute. reflexivity.
  - repeat constructor; cbn; try lia; done.
  - split; [exact H1|]. apply H2. vm_compute. discriminate.
Defined.

(** ** Where [f_printf] differs from the standard *)
Example f_printf_deviations :
  f_printf (text "%-05d|") [VInt 42] = Ok (text "42000|") /\
  f_printf (text "%d") [VInt (- 2 ^ 31)] = Fault Undefined /\
  f_printf (text "%c|") [VInt 0] = Ok (text "|") /\
  f_printf (text "%i %d") [VInt 1; VInt 2] = Ok (text " 1").
Proof. vm_compute. repeat split. Qed.
