(* ===== verification/Trace.v ===== *)
(** The trace buffer of ftrace_printk.c: messages in a ring in memory that is shared with
    the other processor. *)
From Stdlib Require Import Ascii.
From stdpp Require Import strings.
From S2P Require Import Prelude Printk PrintkSpec Mmu.

Module Trace.
Import Printk.

(** What [trace_buffer_init] needs of the MMU: [FMmuMap] on its state. *)
Class MemoryMap (M : Type) := {
  FMmuMap : Z -> Z -> Z -> Z -> M -> res (Z * M)
}.

(** ** Data *)
Definition SHARED_MEM_BASE : Z := 0xC8000000.
Definition TRACE_BUFFER_SIZE : Z := 1024 * 1024.
Definition buffer_size : Z := u32 (TRACE_BUFFER_SIZE - 12).
Definition MT_P_RW_U_RW : Z :=
  Z.lor MT_RW (Z.lor MT_RW_AP_ELX (Z.lor MT_P_EXECUTE_NEVER MT_U_EXECUTE_NEVER)).

(** The ring: a character for every index; what the memory held before is arbitrary. *)
Record FTraceBuffer := mkTraceBuffer {
  write_index : Z;
  read_index : Z;
  overflow_count : Z;
  buffer : Z -> Z
}.

(** The state of the component, with the console it prints on. *)
Record state (M : Type) := mkState {
  trace_buffer : FTraceBuffer;
  trace_initialized : bool;
  mmu : M;
  console : list Z
}.
Arguments mkState {M}.
Arguments trace_buffer {M}.
Arguments trace_initialized {M}.
Arguments mmu {M}.
Arguments console {M}.

(** The levels of messages. *)
Definition TRACE_LEVEL_DEBUG : Z := 0.
Definition TRACE_LEVEL_INFO : Z := 1.
Definition TRACE_LEVEL_WARN : Z := 2.
Definition TRACE_LEVEL_ERROR : Z := 3.
Definition TRACE_LEVEL_CRITICAL : Z := 4.
Definition level_str (level : Z) : list Z :=
  if level =? TRACE_LEVEL_DEBUG then text "DEBUG"
  else if level =? TRACE_LEVEL_INFO then text "INFO"
  else if level =? TRACE_LEVEL_WARN then text "WARN"
  else if level =? TRACE_LEVEL_ERROR then text "ERROR"
  else if level =? TRACE_LEVEL_CRITICAL then text "CRITICAL"
  else text "UNKNOWN".

(** ** Accesses to the buffer *)
Definition peek (buf : Z -> Z) (i : Z) : res Z :=
  if (0 <=? i) && (i <? buffer_size) then Ok (buf i) else Fault Undefined.
Definition store (buf : Z -> Z) (i c : Z) : Z -> Z := fun j => if j =? i then c else buf j.
Definition poke (buf : Z -> Z) (i c : Z) : res (Z -> Z) :=
  if (0 <=? i) && (i <? buffer_size) then Ok (store buf i c) else Fault Undefined.
Definition next (i : Z) : Z := u32 (i + 1) mod buffer_size.

(** The characters before the NUL. *)
Fixpoint c_string (l : list Z) : list Z :=
  match l with
  | [] => []
  | c :: l => if c =? 0 then [] else c :: c_string l
  end.

(** Lines of text. *)
Definition ln (s : string) : list Z := text s ++ [10].
Definition crln (s : string) : list Z := text s ++ [13; 10].

Section Operations.
Context {M : Type} `{MemoryMap M}.

Definition set_buffer (s : state M) (b : FTraceBuffer) : state M :=
  mkState b s.(trace_initialized) s.(mmu) s.(console).

(** [f_printf] and [putchar]. *)
Definition say (fmt : list Z) (args : list va) (s : state M) : res (state M) :=
  let! o := f_printf fmt args in
  Ok (mkState s.(trace_buffer) s.(trace_initialized) s.(mmu) (s.(console) ++ o)).
Definition putchars (l : list Z) (s : state M) : state M :=
  mkState s.(trace_buffer) s.(trace_initialized) s.(mmu) (s.(console) ++ l).

(** The status of [FMmuMap] is not looked at. *)
Definition trace_buffer_init (s : state M) : res (state M) :=
  let! (_, m) := FMmuMap SHARED_MEM_BASE SHARED_MEM_BASE TRACE_BUFFER_SIZE
                   (Z.lor MT_NORMAL (Z.lor MT_P_RW_U_RW MT_NS)) s.(mmu) in
  Ok (mkState (mkTraceBuffer 0 0 0 s.(trace_buffer).(buffer)) true m s.(console)).

(** ** Writing *)

(** [snprintf(prefix, sizeof(prefix), "[%u] [%s] [%s]: ", ...)] without the bound. *)
Definition prefix_text (timestamp level : Z) (function_name : list Z) : list Z :=
  text "[" ++ decimal timestamp ++ text "] [" ++ level_str level ++ text "] [" ++
  function_name ++ text "]: ".

(** [prefix[i]] for every [i < prefix_len], of an array of 128 characters with the first
    127 characters of the text and a NUL. *)
Definition prefix_chars (p : list Z) : res (list Z) :=
  if len p <? 128 then Ok p
  else if len p =? 128 then Ok (take 127 p ++ [0])
  else Fault Undefined.

Fixpoint write_chars (l : list Z) (buf : Z -> Z) (write_idx : Z) : res ((Z -> Z) * Z) :=
  match l with
  | [] => Ok (buf, write_idx)
  | c :: l => let! buf := poke buf write_idx c in write_chars l buf (next write_idx)
  end.

Definition space_available (b : FTraceBuffer) : Z :=
  if b.(read_index) <=? b.(write_index)
  then u32 (buffer_size - u32 (b.(write_index) - b.(read_index)))
  else u32 (b.(read_index) - b.(write_index)).

(** [str] is a string, without a NUL; [timer] is what [GenericTimerRead] returns. *)
Definition trace_putstring (timer : Z) (str : list Z) (level : Z) (function_name : list Z)
    (s : state M) : res (state M) :=
  if negb s.(trace_initialized) then Ok s
  else
    let prefix := prefix_text (u32 timer) level function_name in
    let total_len := u32 (len prefix + len str + 1) in
    let b := s.(trace_buffer) in
    if space_available b <? total_len then
      Ok (set_buffer s (mkTraceBuffer b.(write_index) b.(read_index)
                          (u32 (b.(overflow_count) + 1)) b.(buffer)))
    else
      let! p := prefix_chars prefix in
      let! (buf, write_idx) := write_chars (p ++ str ++ [10]) b.(buffer) b.(write_index) in
      Ok (set_buffer s (mkTraceBuffer write_idx b.(read_index) b.(overflow_count) buf)).

(** [formatted] is what [vsnprintf] makes of the format and its arguments. *)
Definition trace_vprintf (timer : Z) (formatted : list Z) (level : Z) (function_name : list Z)
    (s : state M) : res (Z * state M) :=
  let! s := if s.(trace_initialized) then Ok s else trace_buffer_init s in
  let buffer := take 255 formatted in
  let n := len formatted in
  let n := if 256 <=? n then 255 else n in
  let! s := trace_putstring timer (c_string buffer) level function_name s in
  Ok (n, s).

Definition ftrace_printk (timer : Z) (formatted : list Z) (s : state M) : res (state M) :=
  let! (_, s) := trace_vprintf timer formatted TRACE_LEVEL_INFO (text "ftrace_printk") s in Ok s.

Definition ftrace_printf (timer level : Z) (function_name formatted : list Z) (s : state M)
    : res (state M) :=
  let! (_, s) := trace_vprintf timer formatted level function_name s in Ok s.

(** ** Reading

    The loops run from an index to the write index; [fuel] is enough when it is as much as
    the size of the buffer. *)
Definition fuel : nat := Z.to_nat buffer_size.

(** The search for the end of a line: the index behind it, its length, and if there is an
    end before [write_idx]. *)
Fixpoint find_end (n : nat) (buf : Z -> Z) (current_idx write_idx line_length : Z)
    : res (Z * Z * bool) :=
  if current_idx =? write_idx then Ok (current_idx, line_length, false)
  else match n with
  | O => Fault OutOfFuel
  | S n =>
      let! c := peek buf current_idx in
      let current_idx := next current_idx in
      let line_length := u32 (line_length + 1) in
      if c =? 10 then Ok (current_idx, line_length, true)
      else find_end n buf current_idx write_idx line_length
  end.

(** [buffer[(line_start + i) % buffer_size]] for every [i] from [i] to [line_length]. *)
Fixpoint line_chars (n : nat) (buf : Z -> Z) (line_start i : Z) : res (list Z) :=
  match n with
  | O => Ok []
  | S n =>
      let! c := peek buf (u32 (line_start + i) mod buffer_size) in
      let! l := line_chars n buf line_start (u32 (i + 1)) in
      Ok (c :: l)
  end.

(** The number of line ends up to [write_idx]. *)
Fixpoint count_lines (n : nat) (buf : Z -> Z) (temp_idx write_idx total : Z) : res Z :=
  if temp_idx =? write_idx then Ok total
  else match n with
  | O => Fault OutOfFuel
  | S n =>
      let! c := peek buf temp_idx in
      count_lines n buf (next temp_idx) write_idx (if c =? 10 then u32 (total + 1) else total)
  end.

(** The place behind [target] lines. *)
Fixpoint skip_lines (n : nat) (buf : Z -> Z) (temp_idx write_idx message_count target
    message_start : Z) : res Z :=
  if negb (temp_idx =? write_idx) && (message_count <? target) then
    match n with
    | O => Fault OutOfFuel
    | S n =>
        let! c := peek buf temp_idx in
        if c =? 10
        then skip_lines n buf (next temp_idx) write_idx (u32 (message_count + 1)) target (next temp_idx)
        else skip_lines n buf (next temp_idx) write_idx message_count target message_start
    end
  else Ok message_start.

(** The lines [ftrace_print_shared_memory] prints. *)
Fixpoint show_lines (n : nat) (current_idx write_idx message_count : Z) (s : state M)
    : res (state M) :=
  if current_idx =? write_idx then Ok s
  else match n with
  | O => Fault OutOfFuel
  | S n =>
      let buf := s.(trace_buffer).(buffer) in
      let! (idx, message_length, found_end) := find_end fuel buf current_idx write_idx 0 in
      let! l := line_chars (Z.to_nat message_length) buf current_idx 0 in
      if (found_end : bool) then
        let! message_count := int (message_count + 1) in
        let! s := say (text "[%d] ") [VInt message_count] s in
        let! s := say (ln "") [] (putchars l s) in
        show_lines n idx write_idx message_count s
      else
        let! s := say (text "[Partial] ") [] s in
        say (ln "") [] (putchars l s)
  end.

(** The lines [ftrace_print_recent_messages] prints; the read index behind them. *)
Fixpoint read_lines (n : nat) (current_idx write_idx printed count new_read_index : Z) (s : state M)
    : res (Z * state M) :=
  if negb (current_idx =? write_idx) && (printed <? count) then
    match n with
    | O => Fault OutOfFuel
    | S n =>
        let buf := s.(trace_buffer).(buffer) in
        let! (idx, line_length, found_end) := find_end fuel buf current_idx write_idx 0 in
        let! l := line_chars (Z.to_nat line_length) buf current_idx 0 in
        let printed := u32 (printed + 1) in
        let! s := say (text (if (found_end : bool) then "[%u/%u] " else "[Partial %u/%u] "))
                    [VInt printed; VInt count] s in
        let! s := say (ln "") [] (putchars l s) in
        read_lines n idx write_idx printed count idx s
    end
  else Ok (new_read_index, s).

Definition ftrace_print_shared_memory (s : state M) : res (state M) :=
  if negb s.(trace_initialized) then say (ln "Trace buffer not initialized") [] s
  else
    let b := s.(trace_buffer) in
    let! s := say (crln "=== Shared Memory Trace Buffer Contents ===") [] s in
    let! s := say (crln "Write Index: %u, Read Index: %u, Overflow Count: %u") [VInt b.(write_index); VInt b.(read_index); VInt b.(overflow_count)] s in
    if b.(read_index) =? b.(write_index) then say (ln "No messages in buffer.") [] s
    else
      let! s := say (crln "Messages:") [] s in
      let! s := show_lines fuel b.(read_index) b.(write_index) 0 s in
      say (ln "=== End of Shared Memory Contents ===") [] s.

Definition ftrace_print_recent_messages (count : Z) (s : state M) : res (state M) :=
  if negb s.(trace_initialized) then say (ln "Trace buffer not initialized") [] s
  else if count =? 0 then Ok s
  else
    let b := s.(trace_buffer) in
    let read_idx := b.(read_index) in
    let write_idx := b.(write_index) in
    let! s := say (ln "=== Reading %u Messages from Shared Memory ===") [VInt count] s in
    let! s := say (ln "Initial - Write Index: %u, Read Index: %u, Overflow Count: %u") [VInt write_idx; VInt read_idx; VInt b.(overflow_count)] s in
    if read_idx =? write_idx then say (ln "No messages in buffer.") [] s
    else
      let! total_messages := count_lines fuel b.(buffer) read_idx write_idx 0 in
      let! (count, s) :=
        if total_messages <? count then
          let! s := say (ln "Only %u messages available, adjusting count") [VInt total_messages] s in Ok (total_messages, s)
        else Ok (count, s) in
      let target_message := u32 (total_messages - count) in
      let! message_start := skip_lines fuel b.(buffer) read_idx write_idx 0 target_message read_idx in
      let! (new_read_index, s) := read_lines fuel message_start write_idx 0 count message_start s in
      let s := set_buffer s (mkTraceBuffer write_idx new_read_index b.(overflow_count) b.(buffer)) in
      let! s := say (ln "Final - Write Index: %u, Read Index: %u") [VInt write_idx; VInt new_read_index] s in
      say (ln "============================================") [] s.

(** The inner loop of [fget_unread_message_count], to the end of a line. *)
Fixpoint unread_line (n : nat) (buf : Z -> Z) (current_idx write_idx unread_count : Z) : res (Z * Z) :=
  if current_idx =? write_idx then Ok (current_idx, unread_count)
  else match n with
  | O => Fault OutOfFuel
  | S n =>
      let! c := peek buf current_idx in
      if c =? 10 then Ok (next current_idx, u32 (unread_count + 1))
      else unread_line n buf (next current_idx) write_idx unread_count
  end.

Fixpoint unread_loop (n : nat) (buf : Z -> Z) (current_idx write_idx unread_count : Z) : res Z :=
  if current_idx =? write_idx then Ok unread_count
  else match n with
  | O => Fault OutOfFuel
  | S n =>
      let! (current_idx, unread_count) := unread_line fuel buf current_idx write_idx unread_count in
      unread_loop n buf current_idx write_idx unread_count
  end.

Definition fget_unread_message_count (s : state M) : res (Z * state M) :=
  if negb s.(trace_initialized) then
    let! s := say (ln "Trace buffer not initialized") [] s in Ok (0, s)
  else
    let b := s.(trace_buffer) in
    if b.(read_index) =? b.(write_index) then Ok (0, s)
    else let! n := unread_loop fuel b.(buffer) b.(read_index) b.(write_index) 0 in Ok (n, s).

Definition fmark_all_messages_read (s : state M) : res (state M) :=
  if negb s.(trace_initialized) then say (ln "Trace buffer not initialized") [] s
  else
    let b := s.(trace_buffer) in
    say (ln "All messages marked as read") [] (set_buffer s (mkTraceBuffer b.(write_index) b.(write_index) b.(overflow_count) b.(buffer))).

End Operations.
End Trace.
