(* ===== verification/TraceSpec.v ===== *)
(** What the trace buffer (Trace.v) promises: a bounded queue of lines. *)
From Stdlib Require Import Ascii.
From stdpp Require Import strings.
From S2P Require Import Prelude Printk PrintkSpec Trace.
Import Printk Trace.

(** ** Lines *)

(** Lines with their ends, and the lines of a message behind which an end is put. *)
Definition flat (ls : list (list Z)) : list Z := concat (map (fun l => l ++ [10]) ls).
Definition len_lines (ls : list (list Z)) : Z := Z.of_nat (length ls).
Fixpoint lines_of (l : list Z) : list (list Z) :=
  match l with
  | [] => [[]]
  | c :: l =>
      if c =? 10 then [] :: lines_of l
      else match lines_of l with [] => [[c]] | x :: ls => (c :: x) :: ls end
  end.

(** ** The queue: the unread lines, the indices as they are shown, the messages lost. *)
Record queue := mkQueue {
  unread : list (list Z);
  w_index : Z;
  r_index : Z;
  lost : Z
}.

Inductive call : Set :=
| Print (timer : Z) (formatted : list Z)
| Log (timer level : Z) (function_name formatted : list Z)
| Shared
| Recent (count : Z)
| Unread
| MarkRead.

(** A message takes its characters and an end of line.  One that does not fit is lost and
    counted; one that fills the buffer to the last character empties it, which is not
    counted (see [trace_full_loses]). *)
Definition message (timer level : Z) (function_name formatted : list Z) : list Z :=
  prefix_text (u32 timer) level function_name ++ c_string (take 255 formatted).
Definition log_message (m : list Z) (q : queue) : queue :=
  let room := buffer_size - len (flat q.(unread)) in
  let need := len m + 1 in
  if room <? need then mkQueue q.(unread) q.(w_index) q.(r_index) (u32 (q.(lost) + 1))
  else mkQueue (if need =? room then [] else q.(unread) ++ lines_of m)
         ((q.(w_index) + need) mod buffer_size) q.(r_index) q.(lost).

(** What is printed. *)
Definition not_initialized : list Z := ln "Trace buffer not initialized".
Definition no_messages : list Z := ln "No messages in buffer.".
Definition indices (q : queue) : list Z :=
  text "Write Index: " ++ decimal q.(w_index) ++ text ", Read Index: " ++ decimal q.(r_index) ++
  text ", Overflow Count: " ++ decimal q.(lost).

(** A line with its number, from [k]. *)
Fixpoint numbered (number_text : Z -> list Z) (k : Z) (ls : list (list Z)) : list Z :=
  match ls with
  | [] => []
  | l :: ls => number_text k ++ l ++ [10; 10] ++ numbered number_text (k + 1) ls
  end.
Definition shared_text (q : queue) : list Z :=
  crln "=== Shared Memory Trace Buffer Contents ===" ++ indices q ++ [13; 10] ++
  match q.(unread) with
  | [] => no_messages
  | ls =>
      crln "Messages:" ++
      numbered (fun k => text "[" ++ decimal k ++ text "] ") 1 ls ++
      ln "=== End of Shared Memory Contents ==="
  end.

Definition recent_text (count : Z) (q : queue) : list Z :=
  text "=== Reading " ++ decimal count ++ ln " Messages from Shared Memory ===" ++
  text "Initial - " ++ indices q ++ [10] ++
  match q.(unread) with
  | [] => no_messages
  | ls =>
      let total := len_lines ls in
      let shown := Z.min count total in
      (if total <? count
       then text "Only " ++ decimal total ++ ln " messages available, adjusting count" else []) ++
      numbered (fun k => text "[" ++ decimal k ++ text "/" ++ decimal shown ++ text "] ") 1
        (drop (Z.to_nat (total - shown)) ls) ++
      text "Final - Write Index: " ++ decimal q.(w_index) ++ text ", Read Index: " ++
      decimal q.(w_index) ++ [10] ++ ln "============================================"
  end.

(** To read the recent messages is to read them all: the unread ones before those that are
    shown are discarded. *)
Definition read_all (q : queue) : queue := mkQueue [] q.(w_index) q.(w_index) q.(lost).

(** A call: what it returns, what it prints and the queue behind it.  There is no queue
    before the first message. *)
Definition spec_call (c : call) (q : option queue) : option Z * list Z * option queue :=
  match c, q with
  | Print timer formatted, _ =>
      (None, [], Some (log_message (message timer TRACE_LEVEL_INFO (text "ftrace_printk") formatted)
                         (default (mkQueue [] 0 0 0) q)))
  | Log timer level function_name formatted, _ =>
      (None, [], Some (log_message (message timer level function_name formatted)
                         (default (mkQueue [] 0 0 0) q)))
  | Unread, None => (Some 0, not_initialized, None)
  | _, None => (None, not_initialized, None)
  | Shared, Some q => (None, shared_text q, Some q)
  | Recent count, Some q =>
      if count =? 0 then (None, [], Some q) else (None, recent_text count q, Some (read_all q))
  | Unread, Some q => (Some (len_lines q.(unread)), [], Some q)
  | MarkRead, Some q => (None, ln "All messages marked as read", Some (read_all q))
  end.

Fixpoint spec_run (cs : list call) (q : option queue) : list (option Z) * list Z * option queue :=
  match cs with
  | [] => ([], [], q)
  | c :: cs =>
      let '(a, o, q) := spec_call c q in
      let '(l, os, q) := spec_run cs q in
      (a :: l, o ++ os, q)
  end.

(** ** The calls of the component *)
Section Calls.
Context {M : Type} `{MemoryMap M}.

Definition do_call (c : call) (s : state M) : res (option Z * state M) :=
  match c with
  | Print timer formatted => let! s := ftrace_printk timer formatted s in Ok (None, s)
  | Log timer level function_name formatted =>
      let! s := ftrace_printf timer level function_name formatted s in Ok (None, s)
  | Shared => let! s := ftrace_print_shared_memory s in Ok (None, s)
  | Recent count => let! s := ftrace_print_recent_messages count s in Ok (None, s)
  | Unread => let! (n, s) := fget_unread_message_count s in Ok (Some n, s)
  | MarkRead => let! s := fmark_all_messages_read s in Ok (None, s)
  end.

Fixpoint run (cs : list call) (s : state M) : res (list (option Z) * state M) :=
  match cs with
  | [] => Ok ([], s)
  | c :: cs =>
      let! (a, s) := do_call c s in
      let! (l, s) := run cs s in
      Ok (a :: l, s)
  end.
End Calls.

(** A call whose arguments fit: the prefix of a message fits the array [prefix] of 128
    characters of the code, which reads past it otherwise; counts are [u32]. *)
Definition good_call (c : call) : Prop :=
  match c with
  | Log timer level function_name _ => len (prefix_text (u32 timer) level function_name) < 128
  | Recent count => 0 <= count < 2 ^ 32
  | _ => True
  end.
