(* ===== verification/TraceProps.v ===== *)
(** The trace buffer (Trace.v) is the queue of TraceSpec.v. *)
From Stdlib Require Import Ascii.
From stdpp Require Import strings.
From S2P Require Import Prelude Printk PrintkSpec PrintkProps PrintfProps Mmu Trace TraceSpec.
Import Printk Trace.

(** ** Indices *)
Definition in_range (i : Z) : Prop := 0 <= i < buffer_size.
Definition adv (i n : Z) : Z := (i + n) mod buffer_size.
(** How far it is from [r] to [w]. *)
Definition dist (r w : Z) : Z := (w - r) mod buffer_size.

Lemma buffer_size_val : buffer_size = 1048564.
Proof. reflexivity. Qed.
Opaque buffer_size.
Ltac size := pose proof buffer_size_val.

Lemma adv_range i n : in_range (adv i n).
Proof. size. unfold in_range, adv. apply Z.mod_pos_bound. lia. Qed.

Lemma adv_0 i : in_range i -> adv i 0 = i.
Proof. intros Hi. unfold adv. rewrite Z.add_0_r. by apply Z.mod_small. Qed.

Lemma adv_adv i n m : adv (adv i n) m = adv i (n + m).
Proof. size. unfold adv. rewrite Z.add_mod_idemp_l by lia. f_equal. lia. Qed.

Lemma next_adv i : in_range i -> next i = adv i 1.
Proof. size. unfold in_range, next, adv. intros Hi. by rewrite wrap_small by lia. Qed.

Lemma adv_ne i n m : 0 <= n < m -> m < n + buffer_size -> adv i n <> adv i m.
Proof.
  size. unfold adv. intros Hn Hm E.
  assert ((m - n) mod buffer_size = 0) as E0.
  { replace (m - n) with ((i + m) - (i + n)) by lia. rewrite Zminus_mod, E, Z.sub_diag. by rewrite Z.mod_0_l by lia. }
  rewrite Z.mod_small in E0 by lia. lia.
Qed.

Lemma dist_range r w : 0 <= dist r w < buffer_size.
Proof. size. apply Z.mod_pos_bound. lia. Qed.

Lemma adv_dist r w : in_range w -> adv r (dist r w) = w.
Proof.
  size. intros Hw. unfold adv, dist. rewrite Z.add_mod_idemp_r by lia.
  replace (r + (w - r)) with w by lia. by apply Z.mod_small.
Qed.

Lemma dist_adv r n : 0 <= n < buffer_size -> dist r (adv r n) = n.
Proof.
  size. intros Hn. unfold adv, dist. rewrite Zminus_mod_idemp_l. replace (r + n - r) with n by lia.
  by apply Z.mod_small.
Qed.

Lemma dist_full r : in_range r -> adv r buffer_size = r.
Proof.
  size. intros Hr. unfold adv. rewrite <-(Z.mul_1_l buffer_size) at 1. rewrite Z.mod_add by lia.
  by apply Z.mod_small.
Qed.

Lemma dist_zero r w : in_range r -> in_range w -> (dist r w = 0 <-> r = w).
Proof.
  size. intros Hr Hw. split.
  - intros E. rewrite <-(adv_dist r w), E, adv_0 by done. done.
  - intros ->. unfold dist. rewrite Z.sub_diag. by apply Z.mod_0_l; lia.
Qed.

Lemma dist_next r w : in_range r -> in_range w -> r <> w -> dist (next r) w = dist r w - 1.
Proof.
  size. intros Hr Hw Hne. pose proof (dist_range r w). pose proof (dist_zero r w Hr Hw).
  assert (dist r w <> 0) by tauto. rewrite next_adv by done.
  rewrite <-(adv_dist r w) at 1 by done.
  replace (adv r (dist r w)) with (adv (adv r 1) (dist r w - 1)); [apply dist_adv; lia|].
  rewrite adv_adv. f_equal. lia.
Qed.

Lemma peek_ok buf i : in_range i -> peek buf i = Ok (buf i).
Proof. intros Hi. unfold peek. by rewrite (proj2 (Z.leb_le _ _)), (proj2 (Z.ltb_lt _ _)) by apply Hi. Qed.

(** ** What the buffer holds from an index on *)
Fixpoint walk (n : nat) (buf : Z -> Z) (i : Z) : list Z :=
  match n with
  | O => []
  | S n => buf i :: walk n buf (next i)
  end.

Lemma walk_length n buf i : length (walk n buf i) = n.
Proof. revert i. induction n as [|n IH]; intros i; [done|]. simpl. by rewrite IH. Qed.

Lemma walk_app n m buf i : in_range i -> walk (n + m) buf i = walk n buf i ++ walk m buf (adv i (Z.of_nat n)).
Proof.
  revert i. induction n as [|n IH]; intros i Hi; simpl.
  - by rewrite adv_0.
  - rewrite IH by (rewrite next_adv by done; apply adv_range). rewrite (next_adv i), adv_adv by done.
    do 4 f_equal. lia.
Qed.

Lemma walk_split n buf i l1 l2 : in_range i -> walk n buf i = l1 ++ l2 ->
  n = (length l1 + length l2)%nat /\ walk (length l1) buf i = l1 /\
  walk (length l2) buf (adv i (len l1)) = l2.
Proof.
  intros Hi E. assert (n = (length l1 + length l2)%nat) as -> by (rewrite <-(walk_length n buf i), E; apply length_app).
  split; [done|]. rewrite walk_app in E by done. apply app_inj_1 in E; [done|]. apply walk_length.
Qed.

Lemma walk_store n buf i j c : in_range i ->
  (forall k, 0 <= k < Z.of_nat n -> adv i k <> j) -> walk n (store buf j c) i = walk n buf i.
Proof.
  revert i. induction n as [|n IH]; intros i Hi Hj; [done|]. simpl.
  assert (i <> j) as Hne by (rewrite <-(adv_0 i) by done; apply Hj; lia).
  unfold store at 1. rewrite (proj2 (Z.eqb_neq _ _)) by done. f_equal. rewrite next_adv by done.
  apply IH; [apply adv_range|]. intros k Hk. rewrite adv_adv. apply Hj. lia.
Qed.

Lemma write_chars_ok l : forall n r buf, in_range r -> Z.of_nat n + len l <= buffer_size ->
  exists buf', write_chars l buf (adv r (Z.of_nat n)) = Ok (buf', adv r (Z.of_nat n + len l)) /\
    walk (n + length l) buf' r = walk n buf r ++ l.
Proof.
  size. induction l as [|c l IH]; intros n r buf Hr Hl.
  - exists buf. rewrite len_nil, Z.add_0_r, app_nil_r, Nat.add_0_r. done.
  - rewrite len_cons in Hl. assert (0 <= len l) by (unfold len; lia). cbn [write_chars]. unfold poke.
    pose proof (adv_range r (Z.of_nat n)) as Hi.
    rewrite (proj2 (Z.leb_le _ _)), (proj2 (Z.ltb_lt _ _)) by apply Hi. cbn [andb rbind].
    rewrite next_adv, adv_adv by done. replace (Z.of_nat n + 1) with (Z.of_nat (S n)) by lia.
    destruct (IH (S n) r (store buf (adv r (Z.of_nat n)) c) Hr ltac:(lia)) as (buf' & -> & E).
    exists buf'. split; [do 3 f_equal; rewrite len_cons; lia|].
    replace (n + length (c :: l))%nat with (S n + length l)%nat by (simpl; lia). rewrite E.
    replace (S n) with (n + 1)%nat by lia. rewrite walk_app by done. simpl.
    rewrite walk_store; [|done|intros k Hk; apply adv_ne; lia].
    unfold store at 1. rewrite Z.eqb_refl. by rewrite <-app_assoc.
Qed.

(** ** The loops over the unread characters

    [span buf cur w rest]: the characters from [cur] to [w] are [rest]. *)
Definition span (buf : Z -> Z) (cur w : Z) (rest : list Z) : Prop :=
  in_range cur /\ in_range w /\ dist cur w = len rest /\ walk (length rest) buf cur = rest.

Lemma span_nil buf cur w : span buf cur w [] -> cur = w.
Proof. intros (H1 & H2 & E & _). by apply (dist_zero cur w). Qed.

Lemma span_ne buf cur w c rest : span buf cur w (c :: rest) ->
  cur <> w /\ peek buf cur = Ok c /\ span buf (next cur) w rest.
Proof.
  intros (H1 & H2 & E & Ew). rewrite len_cons in E. assert (0 <= len rest) by (unfold len; lia).
  assert (cur <> w) as Hne by (intros E2; apply (dist_zero cur w H1 H2) in E2; lia).
  cbn [length walk] in Ew. injection Ew as Ec Er.
  split; [done|]. rewrite peek_ok by done. split; [by rewrite Ec|].
  split; [rewrite next_adv by done; apply adv_range|]. split; [done|]. split; [|done].
  rewrite dist_next by done. lia.
Qed.

Lemma span_short buf cur w rest : span buf cur w rest -> len rest < buffer_size.
Proof. intros (_ & _ & E & _). pose proof (dist_range cur w). lia. Qed.

Lemma span_app buf cur w l1 l2 : span buf cur w (l1 ++ l2) ->
  span buf (adv cur (len l1)) w l2 /\ walk (length l1) buf cur = l1.
Proof.
  revert cur. induction l1 as [|c l1 IH]; intros cur Hs.
  - rewrite len_nil, adv_0 by apply Hs. done.
  - pose proof (proj1 Hs) as Hc. destruct (span_ne _ _ _ _ _ Hs) as (_ & Ep & Hn). cbn [app] in Hn.
    destruct (IH _ Hn) as [H1 H2]. rewrite next_adv, adv_adv in H1 by done. rewrite len_cons. split; [done|].
    simpl. rewrite H2. f_equal. rewrite peek_ok in Ep by done. by injection Ep.
Qed.

Ltac step_span Hs Hne Ep Hn :=
  destruct (span_ne _ _ _ _ _ Hs) as (Hne & Ep & Hn); cbn [app] in Hn.

Lemma find_end_line l : forall m buf cur w k rest, span buf cur w (l ++ 10 :: rest) -> 10 ∉ l ->
  (length l < m)%nat -> 0 <= k -> k + len l + 1 < 2 ^ 32 ->
  find_end m buf cur w k = Ok (adv cur (len l + 1), k + len l + 1, true).
Proof.
  induction l as [|c l IH]; intros m buf cur w k rest Hs Hl Hm Hk Hk'; cbn [app] in Hs;
    (destruct m as [|m]; [cbn [length] in Hm; lia|]); step_span Hs Hne Ep Hn;
    pose proof (proj1 Hs) as Hc; cbn [find_end]; rewrite (proj2 (Z.eqb_neq _ _) Hne), Ep; cbn [rbind].
  - rewrite len_nil in *. change (10 =? 10) with true. cbn iota. rewrite next_adv, wrap_small by (done || lia). do 3 f_equal. lia.
  - rewrite not_elem_of_cons in Hl. rewrite len_cons in *. assert (0 <= len l) by (unfold len; lia).
    rewrite (proj2 (Z.eqb_neq c 10)) by (intros ->; by destruct Hl).
    cbn [length] in Hm. rewrite (wrap_small 32) by lia.
    rewrite (IH _ _ _ _ _ rest) by (done || lia || apply Hl). rewrite next_adv, adv_adv by done.
    do 4 f_equal; lia.
Qed.

Lemma line_chars_ok n : forall buf start i, in_range start -> 0 <= i -> i + Z.of_nat n <= buffer_size ->
  line_chars n buf start i = Ok (walk n buf (adv start i)).
Proof.
  size. unfold in_range. induction n as [|n IH]; intros buf start i Hs Hi Hn; [done|]. cbn [line_chars walk].
  rewrite (wrap_small 32) by lia. fold (adv start i). rewrite peek_ok by apply adv_range. cbn [rbind].
  rewrite (wrap_small 32) by lia. rewrite IH by lia. cbn [rbind].
  by rewrite next_adv, adv_adv by apply adv_range.
Qed.

Definition clean (ls : list (list Z)) : Prop := Forall (fun l => 10 ∉ l) ls.

Lemma flat_cons l ls : flat (l :: ls) = l ++ 10 :: flat ls.
Proof. unfold flat. simpl. by rewrite <-app_assoc. Qed.

Lemma flat_app ls1 ls2 : flat (ls1 ++ ls2) = flat ls1 ++ flat ls2.
Proof. unfold flat. by rewrite map_app, concat_app. Qed.

Lemma flat_length ls : (length ls <= length (flat ls))%nat.
Proof. induction ls as [|l ls IH]; [done|]. rewrite flat_cons, length_app. simpl. lia. Qed.

(** A line is counted once, skipped in the same way. *)
Lemma count_line l : forall m buf cur w t rest, span buf cur w (l ++ 10 :: rest) -> 10 ∉ l ->
  count_lines (length l + S m) buf cur w t = count_lines m buf (adv cur (len l + 1)) w (u32 (t + 1)).
Proof.
  induction l as [|c l IH]; intros m buf cur w t rest Hs Hl; cbn [app] in Hs;
    step_span Hs Hne Ep Hn; pose proof (proj1 Hs) as Hc; cbn [length Nat.add count_lines];
    rewrite (proj2 (Z.eqb_neq _ _) Hne), Ep; cbn [rbind].
  - rewrite len_nil. change (10 =? 10) with true. cbn iota. by rewrite next_adv.
  - rewrite not_elem_of_cons in Hl. rewrite (proj2 (Z.eqb_neq c 10)) by (intros ->; by destruct Hl).
    rewrite (IH _ _ _ _ _ rest) by (done || apply Hl). rewrite next_adv, adv_adv, len_cons by done.
    do 2 f_equal. lia.
Qed.

Lemma skip_line l : forall m buf cur w k target start rest, span buf cur w (l ++ 10 :: rest) -> 10 ∉ l ->
  k < target ->
  skip_lines (length l + S m) buf cur w k target start =
    skip_lines m buf (adv cur (len l + 1)) w (u32 (k + 1)) target (adv cur (len l + 1)).
Proof.
  induction l as [|c l IH]; intros m buf cur w k target start rest Hs Hl Hk; cbn [app] in Hs;
    step_span Hs Hne Ep Hn; pose proof (proj1 Hs) as Hc; cbn [length Nat.add skip_lines];
    rewrite (proj2 (Z.eqb_neq _ _) Hne), (proj2 (Z.ltb_lt _ _) Hk); cbn [negb andb]; rewrite Ep; cbn [rbind].
  - rewrite len_nil. change (10 =? 10) with true. cbn iota. by rewrite next_adv.
  - rewrite not_elem_of_cons in Hl. rewrite (proj2 (Z.eqb_neq c 10)) by (intros ->; by destruct Hl).
    rewrite (IH _ _ _ _ _ _ _ rest) by (done || apply Hl). rewrite next_adv, adv_adv, len_cons by done.
    replace (1 + (len l + 1)) with (1 + len l + 1) by lia. done.
Qed.

Lemma unread_line_ok l : forall m buf cur w t rest, span buf cur w (l ++ 10 :: rest) -> 10 ∉ l ->
  (length l < m)%nat -> unread_line m buf cur w t = Ok (adv cur (len l + 1), u32 (t + 1)).
Proof.
  induction l as [|c l IH]; intros m buf cur w t rest Hs Hl Hm; cbn [app] in Hs;
    (destruct m as [|m]; [cbn [length] in Hm; lia|]); step_span Hs Hne Ep Hn;
    pose proof (proj1 Hs) as Hc; cbn [unread_line]; rewrite (proj2 (Z.eqb_neq _ _) Hne), Ep; cbn [rbind].
  - rewrite len_nil. change (10 =? 10) with true. cbn iota. by rewrite next_adv.
  - rewrite not_elem_of_cons in Hl. rewrite (proj2 (Z.eqb_neq c 10)) by (intros ->; by destruct Hl).
    cbn [length] in Hm. rewrite (IH _ _ _ _ _ rest) by (done || lia || apply Hl).
    rewrite next_adv, adv_adv, len_cons by done. do 3 f_equal. lia.
Qed.

Lemma span_line buf cur w l ls : span buf cur w (flat (l :: ls)) ->
  span buf cur w (l ++ 10 :: flat ls) /\
  span buf (adv cur (len l + 1)) w (flat ls) /\ walk (length l + 1) buf cur = l ++ [10] /\
  (length l < fuel)%nat /\ len l + 1 <= buffer_size.
Proof.
  size. rewrite flat_cons. intros Hs. split; [done|]. pose proof (span_short _ _ _ _ Hs) as Hl.
  rewrite len_app, len_cons in Hl. assert (0 <= len (flat ls)) by (unfold len; lia).
  replace (l ++ 10 :: flat ls) with ((l ++ [10]) ++ flat ls) in Hs by by rewrite <-app_assoc.
  apply span_app in Hs as [H1 H2]. rewrite len_app, len_cons, len_nil, Z.add_0_r in H1.
  rewrite length_app in H2. unfold len in Hl. unfold fuel, len. repeat split; try done; try apply H1; lia.
Qed.

Lemma clean_cons l ls : clean (l :: ls) -> (10 ∉ l) /\ clean ls.
Proof. intros Hc. by inversion_clear Hc. Qed.

Lemma unread_loop_ok buf w ls : forall m cur t, clean ls -> span buf cur w (flat ls) ->
  (length ls <= m)%nat -> 0 <= t -> t + len_lines ls < 2 ^ 32 ->
  unread_loop m buf cur w t = Ok (t + len_lines ls).
Proof.
  unfold len_lines. induction ls as [|l ls IH]; intros m cur t Hc Hs Hm Ht Hb.
  - apply span_nil in Hs as ->. destruct m; cbn [unread_loop]; rewrite Z.eqb_refl; f_equal; simpl; lia.
  - apply clean_cons in Hc as [Hl Hc]. apply span_line in Hs as (H0 & H1 & _ & Hf & _). cbn [length] in *.
    destruct m as [|m]; [lia|]. cbn [unread_loop].
    assert (cur <> w) as Hne by (destruct l; cbn [app] in H0; by destruct (span_ne _ _ _ _ _ H0)).
    rewrite (proj2 (Z.eqb_neq _ _) Hne). rewrite (unread_line_ok l _ _ _ _ _ (flat ls)) by done.
    cbn [rbind]. rewrite (wrap_small 32) by lia. rewrite IH by (done || lia). f_equal. lia.
Qed.

Lemma count_lines_ok buf w ls : forall m cur t, clean ls -> span buf cur w (flat ls) ->
  (length (flat ls) <= m)%nat -> 0 <= t -> t + len_lines ls < 2 ^ 32 ->
  count_lines m buf cur w t = Ok (t + len_lines ls).
Proof.
  unfold len_lines. induction ls as [|l ls IH]; intros m cur t Hc Hs Hm Ht Hb.
  - apply span_nil in Hs as ->. destruct m; cbn [count_lines]; rewrite Z.eqb_refl; f_equal; simpl; lia.
  - apply clean_cons in Hc as [Hl Hc]. apply span_line in Hs as (H0 & H1 & _). cbn [length] in Hb.
    rewrite flat_cons, length_app in Hm. cbn [length] in Hm.
    replace m with (length l + S (m - length l - 1))%nat by lia.
    rewrite (count_line l _ _ _ _ _ (flat ls)) by done. rewrite (wrap_small 32) by lia.
    rewrite IH by (done || lia). f_equal. simpl. lia.
Qed.

Lemma skip_lines_ok buf w ls1 ls2 : forall m cur k, clean ls1 -> span buf cur w (flat (ls1 ++ ls2)) ->
  (length (flat ls1) <= m)%nat -> 0 <= k -> k + len_lines ls1 < 2 ^ 32 ->
  skip_lines m buf cur w k (k + len_lines ls1) cur = Ok (adv cur (len (flat ls1))) /\
  span buf (adv cur (len (flat ls1))) w (flat ls2).
Proof.
  unfold len_lines. induction ls1 as [|l ls IH]; intros m cur k Hc Hs Hm Hk Hb.
  - change (flat []) with (@nil Z). rewrite len_nil, adv_0 by apply Hs. split; [|done].
    destruct m; cbn [skip_lines length]; rewrite (proj2 (Z.ltb_ge k _)), andb_false_r by lia; done.
  - apply clean_cons in Hc as [Hl Hc]. cbn [app] in Hs. apply span_line in Hs as (H0 & H1 & _). cbn [length] in *.
    rewrite flat_cons, length_app in Hm. cbn [length] in Hm.
    replace m with (length l + S (m - length l - 1))%nat by lia.
    rewrite (skip_line l _ _ _ _ _ _ _ (flat (ls ++ ls2))) by (done || lia). rewrite (wrap_small 32) by lia.
    replace (k + Z.of_nat (S (length ls))) with (k + 1 + Z.of_nat (length ls)) by lia.
    destruct (IH (m - length l - 1)%nat _ (k + 1) Hc H1) as [E1 E2]; [lia..|].
    rewrite E1. rewrite adv_adv in *. rewrite flat_cons, len_app, len_cons.
    replace (len l + (1 + len (flat ls))) with (len l + 1 + len (flat ls)) by lia. done.
Qed.

Lemma flat_lines_of l : flat (lines_of l) = l ++ [10].
Proof.
  induction l as [|c l IH]; [done|]. simpl. destruct (Z.eqb_spec c 10) as [->|].
  - rewrite flat_cons, IH. done.
  - destruct (lines_of l) as [|x ls]; [by destruct l|].
    rewrite flat_cons in *. cbn [app]. by rewrite IH.
Qed.

Lemma clean_lines_of l : clean (lines_of l).
Proof.
  assert (10 ∉ @nil Z) as Hnil by apply not_elem_of_nil.
  unfold clean. induction l as [|c l IH]; simpl; [by auto using Forall_cons_2, Forall_nil_2|].
  destruct (Z.eqb_spec c 10) as [->|]; [by auto using Forall_cons_2|].
  destruct (lines_of l) as [|x ls].
  - apply Forall_cons_2; [by rewrite not_elem_of_cons|by apply Forall_nil_2].
  - inversion_clear IH. apply Forall_cons_2; [by rewrite not_elem_of_cons|done].
Qed.

(** What the code relies on of [FMmuMap]: in a well-formed state the map of the buffer
    returns, whether it has succeeded or not, and leaves a well-formed state. *)
Class MemoryMapOk (M : Type) `{MemoryMap M} := {
  map_wf : M -> Prop;
  map_ok : forall m, map_wf m -> exists status m',
    FMmuMap SHARED_MEM_BASE SHARED_MEM_BASE TRACE_BUFFER_SIZE
      (Z.lor MT_NORMAL (Z.lor MT_P_RW_U_RW MT_NS)) m = Ok (status, m') /\ map_wf m'
}.

(** ** Printing *)
Section Refinement.
Context {M : Type} {MM : MemoryMap M} {MO : MemoryMapOk M}.
Implicit Types s : state M.

Lemma putchars_putchars l1 l2 s : putchars l2 (putchars l1 s) = putchars (l1 ++ l2) s.
Proof. unfold putchars. cbn. by rewrite app_assoc. Qed.

Lemma putchars_nil s : putchars [] s = s.
Proof. unfold putchars. destruct s; cbn. by rewrite app_nil_r. Qed.

Lemma say_ok fmt args items o s : fmt = format_of items -> args = args_of items ->
  Forall printf_item items -> standard_text items = Some o -> say fmt args s = Ok (putchars o s).
Proof.
  intros -> -> Hi E. unfold say, f_printf. pose proof (printf_items items o [] [] Hi E) as Ep.
  rewrite !app_nil_r in Ep. rewrite Ep. cbn. by rewrite app_nil_r.
Qed.

Lemma say_text t s : ch "%" ∉ t -> say t [] s = Ok (putchars t s).
Proof.
  intros Ht. apply (say_ok t [] [Plain t]); [|done|by repeat constructor|].
  - unfold format_of. simpl. by rewrite app_nil_r.
  - simpl. by rewrite app_nil_r.
Qed.

(** A number without flags or width. *)
Definition plain (c : Ascii.ascii) : directive := mkDirective false false [] None None LNone c.

Lemma plain_number c n : number (plain c) [] n (decimal n) = decimal n.
Proof.
  assert (plain_directive (plain "d")) as Hd by by repeat constructor.
  change (number (plain c)) with (number (plain "d")). rewrite number_plain by done.
  unfold field. cbn. rewrite fill_neg; [done|]. unfold len. lia.
Qed.

Lemma standard_u n : 0 <= n < 2 ^ 32 -> standard (plain "u") (VInt n) = Some (decimal n).
Proof.
  intros Hn. change (standard (plain "u") (VInt n)) with (Some (number (plain "u") [] (u32 n) (decimal (u32 n)))).
  by rewrite plain_number, wrap_small.
Qed.

Lemma standard_d n : 0 <= n < 2 ^ 31 -> standard (plain "d") (VInt n) = Some (decimal n).
Proof.
  intros Hn. assert (to_signed 32 (u32 n) = n) as E.
  { unfold to_signed. rewrite wrap_wrap, (wrap_small 32) by lia.
    by rewrite (proj2 (Z.ltb_lt _ _)) by (change (2 ^ (32 - 1)) with (2 ^ 31); lia). }
  change (standard (plain "d") (VInt n)) with
    (Some (number (plain "d") (if to_signed 32 (u32 n) <? 0 then text "-" else [])
       (to_signed 32 (u32 n)) (decimal (Z.abs (to_signed 32 (u32 n)))))).
  rewrite E, (proj2 (Z.ltb_ge n 0)), Z.abs_eq by lia. by rewrite plain_number.
Qed.

Lemma printf_u n : printf_item (Field (plain "u") (VInt n)).
Proof. split; [by repeat constructor|]. split; intros [=]. Qed.

Lemma printf_d n : 0 <= n < 2 ^ 31 -> printf_item (Field (plain "d") (VInt n)).
Proof.
  intros Hn. split; [by repeat constructor|]. split; [|intros [=]]. intros _.
  unfold to_signed. rewrite wrap_wrap, (wrap_small 32) by lia.
  rewrite (proj2 (Z.ltb_lt _ _)) by (change (2 ^ (32 - 1)) with (2 ^ 31); lia). lia.
Qed.

Definition u_item (n : Z) : item := Field (plain "u") (VInt n).
Definition d_item (n : Z) : item := Field (plain "d") (VInt n).

(** What [f_printf] prints for text and numbers. *)
Ltac no_percent :=
  match goal with |- ?x ∉ ?l => exact (bool_decide_eq_true_1 (x ∉ l) eq_refl) end.
Ltac say_items l :=
  erewrite (say_ok _ _ l);
  [|reflexivity|reflexivity
   |repeat first [apply Forall_nil_2|apply Forall_cons_2];
    first [apply printf_u|apply printf_d; lia|cbn [printf_item]; no_percent]
   |cbn [standard_text standard_item u_item d_item mbind option_bind];
    rewrite ?standard_u, ?standard_d by lia; cbn [mbind option_bind]; reflexivity].

Lemma say_number_d n s : 0 <= n < 2 ^ 31 ->
  say (text "[%d] ") [VInt n] s = Ok (putchars (text "[" ++ decimal n ++ text "] ") s).
Proof.
  intros Hn. say_items [Plain (text "["); d_item n; Plain (text "] ")]. by rewrite app_nil_r.
Qed.

Lemma say_number_of n k s : 0 <= n < 2 ^ 32 -> 0 <= k < 2 ^ 32 ->
  say (text "[%u/%u] ") [VInt n; VInt k] s =
    Ok (putchars (text "[" ++ decimal n ++ text "/" ++ decimal k ++ text "] ") s).
Proof.
  intros Hn Hk. say_items [Plain (text "["); u_item n; Plain (text "/"); u_item k; Plain (text "] ")].
  by rewrite app_nil_r.
Qed.

Lemma say_end s : say (ln "") [] s = Ok (putchars [10] s).
Proof. apply say_text. no_percent. Qed.

(** A line of the buffer. *)
Lemma found_line m buf cur w l ls : clean (l :: ls) -> span buf cur w (flat (l :: ls)) ->
  (length l < m)%nat ->
  cur <> w /\ find_end m buf cur w 0 = Ok (adv cur (len l + 1), len l + 1, true) /\
  line_chars (Z.to_nat (len l + 1)) buf cur 0 = Ok (l ++ [10]) /\
  clean ls /\ span buf (adv cur (len l + 1)) w (flat ls).
Proof.
  size. intros [Hl Hc]%clean_cons Hs Hm. pose proof (proj1 Hs) as Hcur.
  apply span_line in Hs as (H0 & H1 & E & _ & Hb). assert (0 <= len l) by (unfold len; lia).
  split; [destruct l; cbn [app] in H0; by destruct (span_ne _ _ _ _ _ H0)|].
  rewrite (find_end_line l _ _ _ _ _ (flat ls)) by (done || lia).
  split; [done|]. split; [|done].
  rewrite line_chars_ok, adv_0 by (done || lia). replace (Z.to_nat (len l + 1)) with (length l + 1)%nat by (unfold len; lia).
  by rewrite E.
Qed.

Lemma show_lines_ok buf w ls : forall m cur k s, s.(trace_buffer).(buffer) = buf ->
  clean ls -> span buf cur w (flat ls) -> (length ls <= m)%nat -> 0 <= k -> k + len_lines ls < 2 ^ 31 ->
  show_lines m cur w k s =
    Ok (putchars (numbered (fun k => text "[" ++ decimal k ++ text "] ") (k + 1) ls) s).
Proof.
  unfold len_lines. induction ls as [|l ls IH]; intros m cur k s Hb Hc Hs Hm Hk Hk'.
  - apply span_nil in Hs as ->. destruct m; cbn [show_lines numbered]; rewrite Z.eqb_refl, putchars_nil; done.
  - cbn [length] in *. destruct m as [|m]; [lia|]. cbn [show_lines]. rewrite Hb.
    destruct (found_line fuel buf cur w l ls Hc Hs) as (Hne & -> & E & Hc' & Hs'); [by apply (span_line _ _ _ _ _ Hs)|].
    rewrite (proj2 (Z.eqb_neq _ _) Hne). cbn [rbind]. rewrite E. cbn [rbind].
    rewrite int_ok by lia. cbn [rbind]. rewrite say_number_d by lia. cbn [rbind].
    rewrite say_end. cbn [rbind]. rewrite IH by (done || lia). cbn [numbered].
    rewrite !putchars_putchars, <-!app_assoc. done.
Qed.

Lemma read_lines_ok buf w ls : forall m cur k count start s, s.(trace_buffer).(buffer) = buf ->
  clean ls -> span buf cur w (flat ls) -> (length ls <= m)%nat -> 0 <= k -> k + len_lines ls = count ->
  count < 2 ^ 32 -> (ls = [] -> start = w) ->
  read_lines m cur w k count start s =
    Ok (w, putchars (numbered (fun k => text "[" ++ decimal k ++ text "/" ++ decimal count ++ text "] ") (k + 1) ls) s).
Proof.
  unfold len_lines. induction ls as [|l ls IH]; intros m cur k count start s Hb Hc Hs Hm Hk Hk' Hcount He.
  - apply span_nil in Hs as ->. rewrite He by done.
    destruct m; cbn [read_lines numbered]; rewrite Z.eqb_refl, putchars_nil; done.
  - cbn [length] in *. destruct m as [|m]; [lia|]. cbn [read_lines]. rewrite Hb.
    destruct (found_line fuel buf cur w l ls Hc Hs) as (Hne & -> & E & Hc' & Hs'); [by apply (span_line _ _ _ _ _ Hs)|].
    rewrite (proj2 (Z.eqb_neq _ _) Hne), (proj2 (Z.ltb_lt k count)) by lia. cbn [negb andb rbind].
    rewrite E. cbn [rbind]. rewrite (wrap_small 32) by lia. rewrite say_number_of by lia. cbn [rbind].
    rewrite say_end. cbn [rbind]. rewrite IH; [|done|done|done|lia|lia|lia|lia|].
    + cbn [numbered]. rewrite !putchars_putchars, <-!app_assoc. done.
    + intros ->. by apply span_nil in Hs'.
Qed.
(** ** The queue *)
Record related (s : state M) (q : queue) : Prop := mkRelated {
  rel_init : s.(trace_initialized) = true;
  rel_w : s.(trace_buffer).(write_index) = q.(w_index);
  rel_r : s.(trace_buffer).(read_index) = q.(r_index);
  rel_o : s.(trace_buffer).(overflow_count) = q.(lost);
  rel_lost : 0 <= q.(lost) < 2 ^ 32;
  rel_clean : clean q.(unread);
  rel_span : span s.(trace_buffer).(buffer) q.(r_index) q.(w_index) (flat q.(unread))
}.

Lemma space_ok b : in_range b.(read_index) -> in_range b.(write_index) ->
  space_available b = buffer_size - dist b.(read_index) b.(write_index).
Proof.
  size. intros Hr Hw. unfold in_range, space_available, dist in *.
  destruct (Z.leb_spec (read_index b) (write_index b)).
  - rewrite (wrap_small 32), (wrap_small 32), Z.mod_small by (rewrite ?(wrap_small 32) by lia; lia). done.
  - rewrite (wrap_small 32) by lia.
    replace (write_index b - read_index b) with (write_index b - read_index b + buffer_size + (-1) * buffer_size) by lia.
    rewrite Z.mod_add, Z.mod_small by lia. lia.
Qed.

(** [s'] prints nothing and maps nothing. *)
Definition quiet (s s' : state M) : Prop := s'.(console) = s.(console) /\ s'.(mmu) = s.(mmu).

Lemma putstring_ok s q timer str level fname : related s q ->
  len (prefix_text (u32 timer) level fname) < 128 -> len str < 256 ->
  exists s', trace_putstring timer str level fname s = Ok s' /\
    related s' (log_message (prefix_text (u32 timer) level fname ++ str) q) /\ quiet s s'.
Proof.
  size. intros [Hi Hw Hr Ho Hlost Hc Hs] Hp Hstr. unfold trace_putstring. rewrite Hi. cbn [negb].
  set (p := prefix_text (u32 timer) level fname) in *.
  assert (0 <= len p) by (unfold len; lia). assert (0 <= len str) by (unfold len; lia).
  pose proof Hs as (Hir & Hiw & Hd & Hwalk).
  rewrite space_ok by (by rewrite ?Hw, ?Hr). rewrite Hw, Hr, Hd, (wrap_small 32) by lia.
  unfold log_message. rewrite len_app.
  destruct (Z.ltb_spec (buffer_size - len (flat (unread q))) (len p + len str + 1)) as [Hroom|Hroom].
  - eexists. split; [reflexivity|]. split; [|done]. constructor; cbn; try done; [by rewrite Ho|].
    pose proof (wrap_range 32 ltac:(lia) (lost q + 1)). done.
  - unfold prefix_chars. rewrite (proj2 (Z.ltb_lt _ _) Hp). cbn [rbind].
    rewrite <-(adv_dist (r_index q) (w_index q)), Hd by done.
    destruct (write_chars_ok (p ++ str ++ [10]) (length (flat (unread q))) (r_index q) (buffer (trace_buffer s)) Hir)
      as (buf' & Ew & E).
    { rewrite !len_app, len_cons, len_nil. unfold len in *. lia. }
    fold (len (flat (unread q))) in Ew. rewrite Ew. cbn [rbind]. eexists. split; [reflexivity|]. split; [|done].
    rewrite !len_app, len_cons, len_nil in *.
    replace (len p + (len str + (1 + 0))) with (len p + len str + 1) in * by lia.
    assert ((adv (r_index q) (len (flat (unread q))) + (len p + len str + 1)) mod buffer_size =
      adv (r_index q) (len (flat (unread q)) + (len p + len str + 1))) as Ei.
    { fold (adv (adv (r_index q) (len (flat (unread q)))) (len p + len str + 1)). apply adv_adv. }
    constructor; cbn [trace_initialized trace_buffer write_index read_index overflow_count buffer set_buffer
      w_index r_index lost unread]; rewrite ?Ei; try done.
    + destruct (Z.eqb_spec (len p + len str + 1) (buffer_size - len (flat (unread q)))); [by constructor|].
      apply Forall_app. split; [done|apply clean_lines_of].
    + split; [done|]. split; [apply adv_range|].
      destruct (Z.eqb_spec (len p + len str + 1) (buffer_size - len (flat (unread q)))) as [Ef|Ef].
      * rewrite Ef. replace (len (flat (unread q)) + (buffer_size - len (flat (unread q)))) with buffer_size by lia.
        rewrite dist_full by done. by rewrite (proj2 (dist_zero _ _ Hir Hir)).
      * rewrite flat_app, flat_lines_of. rewrite <-!app_assoc. rewrite !len_app, len_cons, len_nil.
        assert (0 <= len (flat (unread q))) by (unfold len; lia).
        split; [rewrite dist_adv by lia; lia|].
        rewrite Hwalk in E. rewrite length_app. exact E.
Qed.

Lemma related_putchars s q o : related s q -> related (putchars o s) q.
Proof. by intros []. Qed.

Lemma say_indices pre post s q : related s q -> ch "%" ∉ pre -> ch "%" ∉ post ->
  say (pre ++ text "Write Index: %u, Read Index: %u, Overflow Count: %u" ++ post)
    [VInt q.(w_index); VInt q.(r_index); VInt q.(lost)] s = Ok (putchars (pre ++ indices q ++ post) s).
Proof.
  size. intros [_ _ _ _ Hl _ ((Hr0 & Hr) & (Hw0 & Hw) & _)] Hpre Hpost.
  erewrite (say_ok _ _ [Plain pre; Plain (text "Write Index: "); u_item q.(w_index); Plain (text ", Read Index: ");
    u_item q.(r_index); Plain (text ", Overflow Count: "); u_item q.(lost); Plain post]).
  - reflexivity.
  - unfold format_of. cbn [map concat render_item u_item]. by rewrite app_nil_r.
  - done.
  - repeat first [apply Forall_nil_2|apply Forall_cons_2]; try apply printf_u; cbn [printf_item]; try done; no_percent.
  - cbn [standard_text standard_item u_item mbind option_bind]. rewrite !standard_u by lia.
    cbn [mbind option_bind]. unfold indices. by rewrite <-!app_assoc, app_nil_r.
Qed.

Lemma lines_short s q : related s q -> len_lines q.(unread) < buffer_size.
Proof.
  intros [_ _ _ _ _ _ Hs]. apply span_short in Hs. pose proof (flat_length (unread q)).
  unfold len_lines, len in *. lia.
Qed.

Lemma unread_ne s q l ls : related s q -> q.(unread) = l :: ls -> q.(r_index) <> q.(w_index).
Proof.
  intros [_ _ _ _ _ _ Hs] E. rewrite E, flat_cons in Hs.
  destruct l; cbn [app] in Hs; by destruct (span_ne _ _ _ _ _ Hs).
Qed.

Lemma unread_nil s q : related s q -> q.(unread) = [] -> q.(r_index) = q.(w_index).
Proof. intros [_ _ _ _ _ _ Hs] E. rewrite E in Hs. by apply span_nil in Hs. Qed.

Lemma shared_ok s q : related s q ->
  ftrace_print_shared_memory s = Ok (putchars (shared_text q) s).
Proof.
  size. intros Hrel. pose proof (lines_short _ _ Hrel) as Hlen. pose proof Hrel as [Hi Hw Hr Ho _ Hc Hs].
  unfold ftrace_print_shared_memory, shared_text. rewrite Hi. cbn [negb].
  rewrite (say_text (crln _)) by no_percent. cbn [rbind]. rewrite Hw, Hr, Ho.
  change (crln "Write Index: %u, Read Index: %u, Overflow Count: %u") with
    ([] ++ text "Write Index: %u, Read Index: %u, Overflow Count: %u" ++ [13; 10]).
  rewrite (say_indices [] [13; 10] _ q); [|by apply related_putchars|no_percent|no_percent].
  cbn [rbind app]. destruct (unread q) as [|l ls] eqn:E.
  - rewrite (unread_nil s q), Z.eqb_refl by done.
    rewrite (say_text (ln _)) by no_percent. by rewrite !putchars_putchars, <-?app_assoc.
  - rewrite (proj2 (Z.eqb_neq _ _) (unread_ne _ _ _ _ Hrel E)).
    rewrite (say_text (crln _)) by no_percent. cbn [rbind].
    unfold len_lines in Hlen. rewrite (show_lines_ok (buffer (trace_buffer s)) _ (l :: ls)); [|reflexivity|done|done|unfold fuel; lia|lia|unfold len_lines; lia].
    cbn [rbind]. rewrite (say_text (ln _)) by no_percent. by rewrite !putchars_putchars, <-?app_assoc.
Qed.

(** The lines that are still to be read after [k] of them. *)
Lemma clean_split k ls : clean ls -> clean (take k ls) /\ clean (drop k ls).
Proof. unfold clean. rewrite <-(take_drop k ls) at 1. apply Forall_app. Qed.

Lemma related_read_all s q : related s q ->
  related (set_buffer s (mkTraceBuffer (w_index q) (w_index q) (lost q) (buffer (trace_buffer s))))
    (read_all q).
Proof.
  intros [Hi _ _ _ Hl _ (_ & Hw & _)]. constructor; cbn; try done; [by apply Forall_nil_2|].
  split; [done|]. split; [done|]. split; [|done]. by apply dist_zero.
Qed.

Lemma read_all_empty q : q.(unread) = [] -> q.(r_index) = q.(w_index) -> read_all q = q.
Proof. destruct q; cbn. by intros -> ->. Qed.

Lemma recent_ok count s q : related s q -> 0 < count < 2 ^ 32 ->
  exists s', ftrace_print_recent_messages count s = Ok (putchars (recent_text count q) s') /\
    related s' (read_all q) /\ quiet s s'.
Proof.
  size. intros Hrel Hcount. pose proof (lines_short _ _ Hrel) as Hlen. pose proof Hrel as [Hi Hw Hr Ho Hl Hc Hs].
  pose proof (span_short _ _ _ _ Hs) as Hshort. pose proof Hs as ((Hr0 & Hr1) & (Hw0 & Hw1) & _).
  unfold ftrace_print_recent_messages, recent_text. rewrite Hi, (proj2 (Z.eqb_neq count 0)) by lia. cbn [negb].
  say_items [Plain (text "=== Reading "); u_item count; Plain (ln " Messages from Shared Memory ===")].
  cbn [rbind]. rewrite app_nil_r, Hw, Hr, Ho.
  change (ln "Initial - Write Index: %u, Read Index: %u, Overflow Count: %u") with
    (text "Initial - " ++ text "Write Index: %u, Read Index: %u, Overflow Count: %u" ++ [10]).
  rewrite (say_indices (text "Initial - ") [10] _ q); [|by apply related_putchars|no_percent|no_percent].
  cbn [rbind]. destruct (unread q) as [|l ls] eqn:E.
  - pose proof (unread_nil s q Hrel E) as En. rewrite En, Z.eqb_refl. rewrite (say_text (ln _)) by no_percent.
    exists s. rewrite !putchars_putchars, <-?app_assoc. split; [done|]. split; [|done].
    assert (read_all q = q) as -> by (by apply read_all_empty). done.
  - rewrite (proj2 (Z.eqb_neq _ _) (unread_ne _ _ _ _ Hrel E)).
    remember (l :: ls) as lines eqn:El. clear l ls El.
    rewrite (count_lines_ok _ _ lines) by (done || unfold fuel, len in *; lia). cbn [rbind].
    rewrite Z.add_0_l. set (total := len_lines lines) in *. assert (0 <= total) by (unfold total, len_lines; lia).
    set (shown := Z.min count total) in *.
    set (o1 := putchars (text "Initial - " ++ indices q ++ [10]) _).
    assert (exists o, (if total <? count then
        let! s := say (ln "Only %u messages available, adjusting count") [VInt total] o1 in Ok (total, s)
      else Ok (count, o1)) = Ok (shown, putchars o o1) /\
      o = if total <? count then text "Only " ++ decimal total ++ ln " messages available, adjusting count" else [])
      as (o & -> & Eo).
    { eexists. split; [|reflexivity]. unfold shown. destruct (Z.ltb_spec total count).
      - say_items [Plain (text "Only "); u_item total; Plain (ln " messages available, adjusting count")].
        cbn [rbind]. rewrite app_nil_r. by rewrite Z.min_r by lia.
      - rewrite putchars_nil. by rewrite Z.min_l by lia. }
    cbn [rbind]. rewrite <-Eo. rewrite (wrap_small 32) by lia.
    set (k := Z.to_nat (total - shown)).
    destruct (clean_split k lines Hc) as [Hc1 Hc2].
    assert (len_lines (take k lines) = total - shown) as Ek
      by (unfold len_lines; rewrite length_take; unfold k, total, shown, len_lines in *; lia).
    assert (len_lines (drop k lines) = shown) as Ed
      by (unfold len_lines; rewrite length_drop; unfold k, total, shown, len_lines in *; lia).
    rewrite <-(take_drop k lines) in Hs.
    assert (length (flat (take k lines)) <= fuel)%nat as Hf1
      by (apply span_short in Hs; rewrite flat_app, len_app in Hs; unfold fuel, len in *; lia).
    destruct (skip_lines_ok _ _ _ _ fuel (r_index q) 0 Hc1 Hs Hf1) as [Es Hs2]; [lia..|].
    rewrite Z.add_0_l, Ek in Es. rewrite Es. cbn [rbind].
    rewrite (read_lines_ok (buffer (trace_buffer s)) _ (drop k lines)); [|reflexivity|done|done| |lia|lia|lia|].
    2: { unfold fuel. unfold len_lines in Ed. lia. }
    2: { intros En. rewrite En in Hs2. by apply span_nil in Hs2. }
    cbn [rbind].
    exists (set_buffer s (mkTraceBuffer (w_index q) (w_index q) (lost q) (buffer (trace_buffer s)))).
    say_items [Plain (text "Final - Write Index: "); u_item q.(w_index); Plain (text ", Read Index: ");
      u_item q.(w_index); Plain [10]].
    cbn [rbind]. rewrite (say_text (ln _)) by no_percent. 
    split; [|by split; [apply related_read_all|]].
    unfold o1, putchars, set_buffer. cbn [trace_buffer trace_initialized mmu console]. rewrite <-!app_assoc.
    by rewrite app_nil_l.
Qed.

Lemma unread_ok s q : related s q -> fget_unread_message_count s = Ok (len_lines q.(unread), s).
Proof.
  size. intros Hrel. pose proof (lines_short _ _ Hrel) as Hlen. pose proof Hrel as [Hi Hw Hr _ _ Hc Hs].
  unfold fget_unread_message_count. rewrite Hi, Hw, Hr. cbn [negb]. destruct (unread q) as [|l ls] eqn:E.
  - by rewrite (unread_nil s q), Z.eqb_refl.
  - rewrite (proj2 (Z.eqb_neq _ _) (unread_ne _ _ _ _ Hrel E)).
    rewrite (unread_loop_ok _ _ (l :: ls)) by (done || unfold fuel, len_lines in *; lia). done.
Qed.

Lemma mark_ok s q : related s q -> exists s',
  fmark_all_messages_read s = Ok (putchars (ln "All messages marked as read") s') /\
  related s' (read_all q) /\ quiet s s'.
Proof.
  intros Hrel. pose proof (related_read_all _ _ Hrel) as Hread. pose proof Hrel as [Hi Hw Hr Ho _ _ _].
  unfold fmark_all_messages_read. rewrite Hi, Hw, Ho. cbn [negb]. rewrite say_text by no_percent. by eexists.
Qed.

(** Before the first message there is a state of the MMU, and nothing in the buffer. *)
Definition represents (s : state M) (q : option queue) : Prop :=
  match q with
  | None => s.(trace_initialized) = false /\ map_wf s.(mmu)
  | Some q => related s q
  end.

Lemma c_string_length l : len (c_string l) <= len l.
Proof.
  induction l as [|c l IH]; cbn [c_string]; [done|]. rewrite len_cons. destruct (c =? 0); [|rewrite len_cons; lia].
  rewrite len_nil. unfold len. lia.
Qed.

Lemma vprintf_ok s q timer formatted level fname : represents s q ->
  len (prefix_text (u32 timer) level fname) < 128 ->
  exists n s', trace_vprintf timer formatted level fname s = Ok (n, s') /\
    related s' (log_message (message timer level fname formatted) (default (mkQueue [] 0 0 0) q)) /\
    s'.(console) = s.(console).
Proof.
  size. intros Hq Hp. unfold trace_vprintf, message.
  assert (exists s1, (if trace_initialized s then Ok s else trace_buffer_init s) = Ok s1 /\
    related s1 (default (mkQueue [] 0 0 0) q) /\ console s1 = console s) as (s1 & -> & H1 & Ec).
  { destruct q as [q|]; cbn [represents default] in *.
    - rewrite (rel_init _ _ Hq). by exists s.
    - destruct Hq as [-> Hm]. unfold trace_buffer_init.
      destruct (map_ok _ Hm) as (status & m' & -> & _). cbn [rbind]. eexists. split; [reflexivity|]. split; [|done].
      assert (in_range 0) by (unfold in_range; lia).
      constructor; try done. by apply Forall_nil_2. }
  cbn [rbind]. destruct (putstring_ok s1 _ timer (c_string (take 255 formatted)) level fname H1 Hp) as (s2 & E & H2 & H3 & _).
  { pose proof (c_string_length (take 255 formatted)). unfold len in *. rewrite length_take in *. lia. }
  rewrite E. cbn [rbind]. eexists _, s2. split; [reflexivity|]. split; [done|]. by rewrite H3.
Qed.

(** A 32-bit number has at most 10 digits. *)
Lemma decimal_u32 n : len (decimal (u32 n)) <= 10.
Proof.
  pose proof (wrap_range 32 ltac:(lia) n). unfold len, decimal. rewrite length_map.
  assert (length (digits 10 (u32 n)) <= 10)%nat; [|lia].
  apply digits_fuel_length; [lia| |lia]. change (10 ^ Z.of_nat 10) with 10000000000. lia.
Qed.

(** A call does what the queue says. *)
Lemma call_ok c s q : represents s q -> good_call c ->
  exists s', do_call c s = Ok ((spec_call c q).1.1, s') /\ represents s' (spec_call c q).2 /\
    s'.(console) = s.(console) ++ (spec_call c q).1.2.
Proof.
  intros Hq Hc. destruct c as [timer formatted|timer level fname formatted| |count| |];
    cbn [good_call do_call spec_call] in *.
  - unfold ftrace_printk. destruct (vprintf_ok s q timer formatted TRACE_LEVEL_INFO (text "ftrace_printk") Hq)
      as (n & s' & -> & H & Ec).
    { unfold prefix_text. rewrite !len_app. pose proof (decimal_u32 timer).
      change (len (text "[")) with 1. change (len (text "] [")) with 3.
      change (len (level_str TRACE_LEVEL_INFO)) with 4. change (len (text "ftrace_printk")) with 13.
      change (len (text "]: ")) with 3. lia. }
    exists s'. cbn. by rewrite app_nil_r.
  - unfold ftrace_printf. destruct (vprintf_ok s q timer formatted level fname Hq Hc) as (n & s' & -> & H & Ec).
    exists s'. cbn. by rewrite app_nil_r.
  - destruct q as [q|]; cbn [represents] in Hq.
    + rewrite (shared_ok _ _ Hq). eexists. split; [reflexivity|]. by split; [apply related_putchars|].
    + unfold ftrace_print_shared_memory. destruct Hq as [Hi Hm]. rewrite Hi. cbn [negb].
      rewrite say_text by no_percent. eexists. by split; [reflexivity|].
  - destruct q as [q|]; cbn [represents] in Hq.
    + destruct (Z.eqb_spec count 0) as [->|Hne].
      * unfold ftrace_print_recent_messages. rewrite (rel_init _ _ Hq). cbn. exists s. by rewrite app_nil_r.
      * destruct (recent_ok count s q Hq) as (s' & -> & H & Ec & _); [lia|].
        eexists. split; [reflexivity|]. split; [by apply related_putchars|]. cbn. by rewrite Ec.
    + unfold ftrace_print_recent_messages. destruct Hq as [Hi Hm]. rewrite Hi. cbn [negb].
      rewrite say_text by no_percent. eexists. by split; [reflexivity|].
  - destruct q as [q|]; cbn [represents] in Hq.
    + rewrite (unread_ok _ _ Hq). exists s. cbn. by rewrite app_nil_r.
    + unfold fget_unread_message_count. destruct Hq as [Hi Hm]. rewrite Hi. cbn [negb].
      rewrite say_text by no_percent. eexists. by split; [reflexivity|].
  - destruct q as [q|]; cbn [represents] in Hq.
    + destruct (mark_ok s q Hq) as (s' & -> & H & Ec & _).
      eexists. split; [reflexivity|]. split; [by apply related_putchars|]. cbn. by rewrite Ec.
    + unfold fmark_all_messages_read. destruct Hq as [Hi Hm]. rewrite Hi. cbn [negb].
      rewrite say_text by no_percent. eexists. by split; [reflexivity|].
Qed.

Lemma run_ok cs : forall s q, represents s q -> Forall good_call cs ->
  exists s', run cs s = Ok ((spec_run cs q).1.1, s') /\ represents s' (spec_run cs q).2 /\
    s'.(console) = s.(console) ++ (spec_run cs q).1.2.
Proof.
  induction cs as [|c cs IH]; intros s q Hq Hcs; cbn [run spec_run].
  - exists s. by rewrite app_nil_r.
  - inversion_clear Hcs as [|? ? Hc Hcs']. destruct (call_ok c s q Hq Hc) as (s1 & -> & H1 & Ec1).
    cbn [rbind]. destruct (spec_call c q) as [[a o] q1]. cbn [fst snd] in *.
    destruct (IH s1 q1 H1 Hcs') as (s2 & -> & H2 & Ec2). cbn [rbind].
    destruct (spec_run cs q1) as [[l os] q2]. cbn [fst snd] in *. exists s2.
    split; [done|]. split; [done|]. by rewrite Ec2, Ec1, app_assoc.
Qed.

(** C31: The trace buffer is the queue of lines of TraceSpec.v.  From the start, whatever the
    shared memory holds and with a well-formed memory map, every sequence of calls whose
    message prefixes have fewer than 128 characters ([good_call]; a longer function name
    makes the code read past its array [prefix], and nothing is claimed for it) runs to its
    end without a fault (so it never reaches outside the buffer and its loops end), returns
    what the queue says, prints on the console exactly the text the queue says, and ends in
    a state that represents the resulting queue, messages that wrap around the end of the
    ring included.  The queue is bounded, and it has two oddities of the code: a message
    longer than the room left is dropped and counted as lost, but one that fills the room
    exactly empties the queue without being counted, and reading the last messages discards
    the unread ones before them. *)
Theorem trace_refines cs s : s.(trace_initialized) = false -> map_wf s.(mmu) -> Forall good_call cs ->
  exists s', run cs s = Ok ((spec_run cs None).1.1, s') /\ represents s' (spec_run cs None).2 /\
    s'.(console) = s.(console) ++ (spec_run cs None).1.2.
Proof. intros Hi Hm Hcs. by apply run_ok. Qed.

(** ** Messages in order *)

(** The calls that log messages: time, level, function and text of each. *)
Definition log_all (ms : list (Z * Z * list Z * list Z)) : list call :=
  map (fun '(timer, level, fname, str) => Log timer level fname str) ms.
Definition texts (ms : list (Z * Z * list Z * list Z)) : list (list Z) :=
  map (fun '(timer, level, fname, str) => message timer level fname str) ms.

Lemma lines_of_one l : 10 ∉ l -> lines_of l = [l].
Proof.
  induction l as [|c l IH]; intros Hl; [done|]. rewrite not_elem_of_cons in Hl. simpl.
  rewrite (proj2 (Z.eqb_neq c 10)) by (intros ->; by destruct Hl). by rewrite IH by apply Hl.
Qed.

Lemma spec_run_app cs1 cs2 q :
  spec_run (cs1 ++ cs2) q =
    let '(l1, o1, q1) := spec_run cs1 q in
    let '(l2, o2, q2) := spec_run cs2 q1 in (l1 ++ l2, o1 ++ o2, q2).
Proof.
  revert q. induction cs1 as [|c cs1 IH]; intros q; cbn [spec_run app].
  - by destruct (spec_run cs2 q) as [[? ?] ?].
  - destruct (spec_call c q) as [[a o] q1]. rewrite IH. destruct (spec_run cs1 q1) as [[l1 o1] q2].
    destruct (spec_run cs2 q2) as [[l2 o2] q3]. by rewrite app_assoc.
Qed.

Lemma log_all_spec ms : forall q, Forall (fun l => 10 ∉ l) (texts ms) ->
  q.(w_index) = len (flat q.(unread)) -> q.(r_index) = 0 ->
  len (flat q.(unread)) + len (flat (texts ms)) < buffer_size ->
  spec_run (log_all ms) (Some q) =
    (map (fun _ => None) ms, [], Some (mkQueue (q.(unread) ++ texts ms)
      (len (flat q.(unread)) + len (flat (texts ms))) 0 q.(lost))).
Proof.
  size. induction ms as [|[[[timer level] fname] str] ms IH]; intros q Hc Hw Hr Hb.
  - cbn. change (len (flat [])) with 0. rewrite Z.add_0_r, app_nil_r, <-Hw, <-Hr. by destruct q.
  - cbn [texts map] in Hc, Hb |- *. fold (texts ms) in *. inversion_clear Hc as [|? ? Hm Hms].
    set (m := message timer level fname str) in *. rewrite flat_cons, len_app, len_cons in Hb.
    assert (0 <= len m) by (unfold len; lia). assert (0 <= len (flat (texts ms))) by (unfold len; lia).
    assert (0 <= len (flat (unread q))) by (unfold len; lia).
    cbn [log_all map spec_run spec_call default id]. fold m. fold (log_all ms). unfold log_message.
    rewrite (proj2 (Z.ltb_ge _ _)) by lia. rewrite (proj2 (Z.eqb_neq _ _)), lines_of_one by (done || lia).
    rewrite IH; cbn [unread w_index r_index lost]; [|done| |done|].
    + rewrite flat_app, flat_cons, !len_app, len_cons, <-app_assoc. change (len (flat [])) with 0.
      rewrite (flat_cons m (texts ms)), len_app, len_cons. cbn [app]. do 3 f_equal. lia.
    + rewrite Hw, flat_app, flat_cons, !len_app, len_cons. change (len (flat [])) with 0.
      rewrite Z.mod_small by lia. lia.
    + rewrite flat_app, flat_cons, !len_app, len_cons. change (len (flat [])) with 0. lia.
Qed.

(** C32: Messages come out as they went in: whatever messages of one line are logged first, if
    they fit the buffer together then that many are unread, the buffer shows them all in order,
    and reading the last [count] of them shows exactly these, numbered, and leaves none unread,
    not even those before them. *)
Theorem trace_messages_roundtrip ms count s : s.(trace_initialized) = false -> map_wf s.(mmu) ->
  ms <> [] -> Forall good_call (log_all ms) -> Forall (fun l => 10 ∉ l) (texts ms) ->
  len (flat (texts ms)) < buffer_size -> 0 < count <= len_lines (texts ms) ->
  let q := mkQueue (texts ms) (len (flat (texts ms))) 0 0 in
  exists s', run (log_all ms ++ [Unread; Shared; Recent count; Unread]) s =
      Ok (map (fun _ => None) ms ++ [Some (Z.of_nat (length ms)); None; None; Some 0], s') /\
    s'.(console) = s.(console) ++
      (crln "=== Shared Memory Trace Buffer Contents ===" ++ indices q ++ crln "" ++ crln "Messages:" ++
       numbered (fun k => text "[" ++ decimal k ++ text "] ") 1 (texts ms) ++
       ln "=== End of Shared Memory Contents ===") ++
      (text "=== Reading " ++ decimal count ++ ln " Messages from Shared Memory ===" ++
       text "Initial - " ++ indices q ++ ln "" ++
       numbered (fun k => text "[" ++ decimal k ++ text "/" ++ decimal count ++ text "] ") 1
         (drop (length ms - Z.to_nat count) (texts ms)) ++
       text "Final - Write Index: " ++ decimal q.(w_index) ++ text ", Read Index: " ++
       decimal q.(w_index) ++ [10] ++ ln "============================================").
Proof.
  size. intros Hi Hm Hne Hgood Hc Hb Hcount q.
  assert (spec_run (log_all ms) None = (map (fun _ => None) ms, [], Some q)) as El.
  { unfold q. transitivity (spec_run (log_all ms) (Some (mkQueue [] 0 0 0))).
    - by destruct ms as [|[[[? ?] ?] ?] ms].
    - rewrite log_all_spec; try done; change (len (flat [])) with 0; lia. }
  destruct (run_ok (log_all ms ++ [Unread; Shared; Recent count; Unread]) s None) as (s' & Er & _ & Ec).
  { by split. }
  { assert (good_call (Recent count)) as Hr.
    { pose proof (flat_length (texts ms)). unfold good_call, len_lines, len in *. lia. }
    apply Forall_app. split; [done|]. by repeat apply Forall_cons_2; try apply Forall_nil_2. }
  assert (len_lines (texts ms) = Z.of_nat (length ms)) as Elen by (unfold len_lines, texts; by rewrite length_map).
  rewrite spec_run_app, El in Er, Ec. cbn [spec_run spec_call fst snd] in Er, Ec.
  rewrite (proj2 (Z.eqb_neq count 0)) in Er, Ec by lia. cbn [fst snd app] in Er, Ec.
  exists s'. change (len_lines (unread (read_all q))) with 0 in Er. change (unread q) with (texts ms) in Er.
  rewrite Er, <-Elen. split; [done|]. rewrite Ec. unfold shared_text, recent_text.
  change (unread q) with (texts ms).
  destruct (texts ms) as [|t ts] eqn:Et; [by destruct ms as [|[[[? ?] ?] ?] ?]|].
  rewrite (proj2 (Z.ltb_ge _ count)), Z.min_l by lia. rewrite Elen.
  replace (Z.to_nat (Z.of_nat (length ms) - count)) with (length ms - Z.to_nat count)%nat by lia.
  rewrite app_nil_r, <-!app_assoc. done.
Qed.

(** C33: The message that fills the buffer to its last character loses everything: it is stored,
    but the write index is then the read index, so the unread messages and this one are gone,
    although nothing is counted as an overflow. *)
Theorem trace_full_loses s q timer level fname str : related s q ->
  len (prefix_text (u32 timer) level fname) < 128 ->
  len (flat q.(unread)) + len (message timer level fname str) + 1 = buffer_size ->
  exists s' s'', ftrace_printf timer level fname str s = Ok s' /\
    fget_unread_message_count s' = Ok (0, s') /\
    s'.(trace_buffer).(overflow_count) = s.(trace_buffer).(overflow_count) /\
    ftrace_print_recent_messages 1 s' = Ok s'' /\
    s''.(console) = s.(console) ++ text "=== Reading 1" ++ ln " Messages from Shared Memory ===" ++
      text "Initial - " ++ indices (mkQueue [] q.(r_index) q.(r_index) q.(lost)) ++ ln "" ++ no_messages.
Proof.
  size. intros Hrel Hp Hfull. unfold ftrace_printf.
  destruct (vprintf_ok s (Some q) timer str level fname Hrel Hp) as (n & s' & -> & Hs' & Ec). cbn [rbind].
  cbn [default id] in Hs'. unfold log_message in Hs'.
  rewrite (proj2 (Z.ltb_ge _ _)), (proj2 (Z.eqb_eq _ _)) in Hs' by lia.
  assert ((w_index q + (len (message timer level fname str) + 1)) mod buffer_size = r_index q) as Ei.
  { destruct Hrel as [_ _ _ _ _ _ (Hr & Hw & Hd & _)].
    rewrite <-(adv_dist (r_index q) (w_index q)), Hd by done.
    fold (adv (adv (r_index q) (len (flat (unread q)))) (len (message timer level fname str) + 1)).
    rewrite adv_adv. replace (len (flat (unread q)) + (len (message timer level fname str) + 1)) with buffer_size by lia.
    by apply dist_full. }
  rewrite Ei in Hs'. destruct (recent_ok 1 s' _ Hs' ltac:(lia)) as (s1 & E1 & _ & Ec1 & _).
  exists s'. eexists. split; [done|]. split; [by rewrite (unread_ok _ _ Hs')|].
  split; [by rewrite (rel_o _ _ Hs'), (rel_o _ _ Hrel)|]. split; [exact E1|].
  unfold putchars. cbn [console]. rewrite Ec1, Ec. unfold recent_text. cbn [unread].
  change (text "=== Reading 1") with (text "=== Reading " ++ decimal 1). by rewrite <-!app_assoc.
Qed.
End Refinement.
