(* ===== verification/TraceMmu.v ===== *)
(** The trace buffer over the page tables (Mmu.v): the map of its memory, and concrete runs. *)
From Stdlib Require Import Ascii.
From stdpp Require Import strings gmap.
From S2P Require Import Prelude Printk PrintkSpec PrintkProps PrintfProps Mmu MmuTables MmuMap MmuMapping MmuProps Trace TraceSpec TraceProps.
Import Printk Trace.

#[local] Existing Instance cfg_4k.
#[local] Existing Instance cfg_4k_ok.

(** [FMmuMap] with pages of 4K; 2048 turns are enough for the 256 pages of the buffer. *)
#[export] Instance mmu_map : MemoryMap ArmMmuPtables := {
  FMmuMap := Mmu.FMmuMap 2048
}.

Lemma trace_request : map_request SHARED_MEM_BASE SHARED_MEM_BASE TRACE_BUFFER_SIZE.
Proof. apply request_4k; vm_compute; intuition congruence. Qed.

#[export] Instance mmu_map_ok : MemoryMapOk ArmMmuPtables.
Proof.
  refine {| map_wf := tables_wf |}. intros pt Hwf.
  destruct (AddMap_ok 2048 SHARED_MEM_BASE SHARED_MEM_BASE TRACE_BUFFER_SIZE
    (Z.lor MT_NORMAL (Z.lor MT_P_RW_U_RW MT_NS)) pt Hwf trace_request) as (status & pt' & k & E & Hwf' & _).
  { reflexivity. }
  exists status, pt'. split; [|done]. rewrite <-E. reflexivity.
Defined.

(** The state at the reset, with some memory. *)
Definition reset_state (garbage : Z -> Z) : state ArmMmuPtables :=
  mkState (mkTraceBuffer 5 7 9 garbage) false start [].

Lemma trace_refines_witness : exists s,
  run [Unread; Print 10 (text "up"); Log 20 3 (text "f") (text "bad"); Unread; Recent 1; Unread]
    (reset_state (fun i => i mod 251)) =
    Ok ([Some 0; None; None; Some 2; None; Some 0], s) /\
  s.(console) = ln "Trace buffer not initialized" ++ ln "=== Reading 1 Messages from Shared Memory ===" ++
    ln "Initial - Write Index: 54, Read Index: 0, Overflow Count: 0" ++
    text "[1/1] [20] [ERROR] [f]: bad" ++ [10; 10] ++
    ln "Final - Write Index: 54, Read Index: 54" ++ ln "============================================".
Proof.
  destruct (trace_refines
    [Unread; Print 10 (text "up"); Log 20 3 (text "f") (text "bad"); Unread; Recent 1; Unread]
    (reset_state (fun i => i mod 251))) as (s & E & _ & Ec).
  - reflexivity.
  - exact start_wf.
  - repeat constructor; vm_compute; intuition congruence.
  - exists s. split; [exact E|]. rewrite Ec. vm_compute. reflexivity.
Defined.

Definition three : list (Z * Z * list Z * list Z) :=
  [(7, 0, text "init", text "mmu on"); (8, 2, text "init", text "no cable"); (4294967299, 4, text "eth", text "stop")].

Lemma trace_messages_roundtrip_witness : exists s,
  run (log_all three ++ [Unread; Shared; Recent 2; Unread]) (reset_state (fun _ => 10)) =
    Ok ([None; None; None; Some 3; None; None; Some 0], s) /\
  s.(console) =
    crln "=== Shared Memory Trace Buffer Contents ===" ++
    crln "Write Index: 82, Read Index: 0, Overflow Count: 0" ++ crln "Messages:" ++
    ln "[1] [7] [DEBUG] [init]: mmu on" ++ ln "" ++ ln "[2] [8] [WARN] [init]: no cable" ++ ln "" ++
    ln "[3] [3] [CRITICAL] [eth]: stop" ++ ln "" ++ ln "=== End of Shared Memory Contents ===" ++
    ln "=== Reading 2 Messages from Shared Memory ===" ++
    ln "Initial - Write Index: 82, Read Index: 0, Overflow Count: 0" ++
    ln "[1/2] [8] [WARN] [init]: no cable" ++ ln "" ++ ln "[2/2] [3] [CRITICAL] [eth]: stop" ++ ln "" ++
    ln "Final - Write Index: 82, Read Index: 82" ++ ln "============================================".
Proof.
  destruct (trace_messages_roundtrip three 2 (reset_state (fun _ => 10))) as (s & E & Ec).
  - reflexivity.
  - exact start_wf.
  - discriminate.
  - repeat constructor; vm_compute; intuition congruence.
  - repeat constructor; match goal with |- ?x ∉ ?l => exact (bool_decide_eq_true_1 (x ∉ l) eq_refl) end.
  - reflexivity.
  - vm_compute. intuition congruence.
  - exists s. split; [exact E|]. rewrite Ec. vm_compute. reflexivity.
Defined.

(** A buffer with room for one more message, [0] INFO of a function [f], of one character. *)
Definition used : Z := buffer_size - 18.
Definition almost_full : state ArmMmuPtables :=
  mkState (mkTraceBuffer used 0 2 (fun i => if i =? used - 1 then 10 else 97)) true start [].
Definition one_line : queue := mkQueue [fill (used - 1) 97] used 0 2.

Lemma walk_const n buf c : forall i, 0 <= i -> i + Z.of_nat n < buffer_size ->
  (forall k, i <= k < i + Z.of_nat n -> buf k = c) -> walk n buf i = replicate n c.
Proof.
  induction n as [|n IH]; intros i Hi Hn Hb; [done|]. cbn [walk replicate].
  rewrite Hb by lia. f_equal. rewrite next_adv by (unfold in_range; lia).
  unfold adv. rewrite Z.mod_small by lia. apply IH; [lia|lia|]. intros k Hk. apply Hb. lia.
Qed.

Lemma fill_def n c : fill n c = replicate (Z.to_nat n) c.
Proof. done. Qed.

#[local] Opaque buffer_size fill.

Lemma almost_full_related : related almost_full one_line.
Proof.
  pose proof buffer_size_val as Hsize. assert (used = 1048546) as Hused by (unfold used; lia).
  assert (flat (unread one_line) = fill (used - 1) 97 ++ [10]) as Ef by (unfold one_line, flat; cbn [unread map concat]; by rewrite app_nil_r).
  assert (len (flat (unread one_line)) = used) as El.
  { rewrite Ef, len_app, len_fill, len_cons, len_nil. lia. }
  constructor; [reflexivity|reflexivity|reflexivity|reflexivity|cbn [lost one_line]; lia| |].
  - apply Forall_cons_2; [|apply Forall_nil_2]. rewrite fill_def. intros H. by apply elem_of_replicate in H as [??].
  - unfold one_line, almost_full in *. cbn [r_index w_index trace_buffer buffer].
    assert (in_range 0) by (unfold in_range; lia). assert (in_range used) by (unfold in_range; lia).
    split; [done|]. split; [done|]. rewrite El. split; [unfold dist; rewrite Z.mod_small; lia|].
    rewrite Ef. rewrite length_app, walk_app by done. apply (f_equal2 app).
    + rewrite fill_def, length_replicate. apply walk_const; [lia|lia|]. intros k Hk.
      by rewrite (proj2 (Z.eqb_neq _ _)) by lia.
    + assert (Z.of_nat (length (fill (used - 1) 97)) = used - 1) as -> by (rewrite fill_def, length_replicate; lia).
      cbn [length walk]. unfold adv. rewrite Z.mod_small by lia. by rewrite Z.add_0_l, Z.eqb_refl.
Qed.

Lemma trace_full_loses_witness : exists s' s'',
  ftrace_printf 0 1 (text "f") (text "x") almost_full = Ok s' /\
  fget_unread_message_count s' = Ok (0, s') /\ s'.(trace_buffer).(overflow_count) = 2 /\
  ftrace_print_recent_messages 1 s' = Ok s'' /\
  s''.(console) = ln "=== Reading 1 Messages from Shared Memory ===" ++
    ln "Initial - Write Index: 0, Read Index: 0, Overflow Count: 2" ++ ln "No messages in buffer.".
Proof.
  destruct (trace_full_loses almost_full one_line 0 1 (text "f") (text "x")) as (s1 & s2 & H1 & H2 & H3 & H4 & H5).
  - exact almost_full_related.
  - reflexivity.
  - assert (len (flat (unread one_line)) = used) as ->.
    { unfold one_line, flat. cbn [unread map concat]. rewrite app_nil_r, len_app, len_fill, len_cons, len_nil.
      pose proof buffer_size_val. unfold used. lia. }
    change (len (message 0 1 (text "f") (text "x"))) with 17. unfold used. lia.
  - exists s1, s2. split; [exact H1|]. split; [exact H2|]. split; [exact H3|]. split; [exact H4|].
    rewrite H5. vm_compute. reflexivity.
Defined.
